(* ===== verification/_CoqProject ===== *)
-Q . S2P
Prelude.v
LibMath.v
Div64.v
Kfifo.v
KfifoQueue.v
KfifoRec.v
KfifoSpsc.v
Skb.v
Str.v
Sort.v
Nlattr.v
Filter.v
Stp.v
StpSelect.v
StpBpdu.v
StpState.v
StpSafety.v
StpLive.v
StpTree.v
StpNet.v
Fdb.v
FdbTable.v
FdbRefine.v
FdbProps.v
Bridge.v
BrExample.v
BrWp.v
BrForward.v
BrForwardProps.v
Groups.v
GroupsProps.v
GroupsServe.v
GroupsExpiry.v
BrIgmp.v
BrMld.v
BrMcast.v
BrIgmpProps.v
BrDelivery.v
BrGroups.v
BrMldProps.v
BrMldExpiry.v
BrMembers.v
BrExpiry.v
BrInput.v
BrInputProps.v
BrRun.v
BrIf.v
BrIfProps.v
Mcpd.v
McpdProps.v
McpdSystem.v
BrPorts.v
BrRate.v
BrFaults.v
