(* ===== verification/Prelude.v ===== *)
(** Verification of parts of a Linux 3.4-rt router kernel

    The program is the kernel under src/kernel/linux-3.4rt of a home router,
    in the configuration of its [.config]: a 32-bit little-endian ARM machine,
    [HZ] = 1000, with the vendor's changes to the Ethernet bridge (flow
    records of a packet accelerator, IGMP and MLD snooping under control of a
    daemon in user space, an IGMP rate limit, wireless chaining).  The
    development models code that handles what comes from outside the kernel,
    or that such code rests on: programs and packets of the socket filter,
    netlink attributes, and the bridge from a received frame to the frames
    that leave.  All file names below are relative to src/kernel/linux-3.4rt.

    * How C is written here

    A value of a machine type is a [Z], and truncation and wrap-around are
    written out ([u8], [u16], [u32], [u64], [s32], [s64] of this file).  A
    function that can go wrong returns [res]: [Fault] stands for an access out
    of bounds, a null pointer, the use of a buffer that is gone, an
    uninitialised value, a failed [BUG_ON], a division by zero, or fuel that
    did not suffice.  A handler under a lock is one function from the state to
    the new state; calls that leave the modelled code are events of a trace.
    Code that is not there to be read (binary modules, hooks of other parts,
    the allocator) is an argument; what is assumed of it is a hypothesis with a
    name, and the witness of each theorem shows that it can hold.

    * Files

    - [Prelude]: integers, [res] and its monad, byte memories, the tactics and
      hint databases, lemmas on lists.
    - [LibMath]: lib/reciprocal_div.c, int_sqrt.c, gcd.c, lcm.c.  The square
      root and the greatest common divisor are correct and terminate;
      reciprocal division is the quotient or one more, and wrong for 1.
    - [Div64]: lib/div64.c and its headers.  [do_div] computes quotient and
      remainder; [div64_u64] does so below a bound, and a counterexample lies
      above it.
    - [Sort]: lib/sort.c and bsearch.c, for any comparison that is a total
      preorder: heap sort sorts and permutes, binary search finds.
    - [Str]: lib/string.c over one byte memory, so that regions may overlap.
    - [Skb]: buffers as socket filters see them (linear area, fragments,
      fragment list): [skb_copy_bits], [pskb_trim] and what they call.
    - [Nlattr]: lib/nlattr.c, include/net/netlink.h.  Parsing stays in the
      message for any bytes; what is put is found again.
    - [Filter]: net/core/filter.c.  The checker accepts exactly the programs
      whose instructions a relation on them ([renders]) relates to internal
      ones, that end in a return and load no scratch cell a path reaches
      unwritten, and leaves these internal ones; an accepted program runs to its return on
      every packet without a fault, except for the netlink extensions, where
      two theorems give packets that are read outside their bounds; attaching
      and detaching keep the accounting of the socket.
    - [Kfifo]: kernel/kfifo.c and include/linux/kfifo.h.  [KfifoQueue] and
      [KfifoRec]: queues of elements and of records behave as bounded lists,
      through the wrap-around of the counters, if callers do not skip on an
      empty queue and records fit their length field; the count of bytes of a
      short user copy can be too large.  [KfifoSpsc]: one reader and one writer
      without a lock, in any interleaving of their steps over sequentially
      consistent memory.
    - [Stp]: net/bridge/br_stp.c, br_stp_bpdu.c, br_stp_timer.c, br_stp_if.c,
      the whole spanning tree protocol.  [StpSelect]: the roles are those of
      the minimal priority vectors.  [StpBpdu]: round trip of messages, growth
      of the message age.  [StpState]: the states follow the roles.
      [StpSafety]: the protocol as a reactive system, its invariant over all
      sequences of inputs, and the one null pointer it can follow.  [StpLive]:
      a port that listens comes to forward after two forward delays, and not
      earlier, in whatever order timers expire other than those of the message
      age.  [StpTree]: in a network of bridges at rest the open ports form a
      spanning tree.  [StpNet]: no bridge of a network whose bridges keep their
      identifiers takes one for the root that does not exist; and a forged
      message that leads to the null pointer.
    - [Fdb]: net/bridge/br_fdb.c, the forwarding database, as hash chains.
      [FdbTable]: its shape and the finite map it stands for.  [FdbRefine]:
      every operation as one on the map.  [FdbProps]: refinement, invariants
      over histories, absence of faults, and what a station that was heard
      can rely on.
    - [Bridge]: buffers on a heap, devices, flow records and netfilter
      (net/netfilter/core.c), the monad of the data path.  [BrWp]: its weakest
      preconditions, which are total.  [BrExample]: a bridge with three ports.
    - [BrForward]: net/bridge/br_forward.c.  [BrForwardProps]: a buffer is given away
      once, and flooding reaches each port that may have the frame, once.
    - [Groups]: the tables of groups of br_igmp.c and br_mld.c, which have the
      same loops, over a type class of entries.  [GroupsProps], [GroupsServe],
      [GroupsExpiry]: the invariant, the set of memberships a table stands for,
      what requests and the timer do to it, and when memberships end, proved
      once from the laws of the class.
    - [BrIgmp]: net/bridge/br_igmp.c and the packet path of br_mld.c and of
      br_netlink_mcpd.c.  [BrMld]: the table of br_mld.c.  [BrMcast]: the
      reaction of br_mcast.c to changes of devices.  [BrIgmpProps]: what
      happens to a packet there.  [BrDelivery]: multicast data goes to the
      members of its group, exactly, up to an entry that excludes its UDP port
      and but for ports with a mark left over from such a packet.  [BrGroups], [BrMldProps]: the laws and
      invariants of the two tables through every history of requests.
      [BrMembers] (and [BrMldProps]): the tables as sets of memberships.
      [BrExpiry], [BrMldExpiry]: memberships that are not renewed end.
    - [BrInput]: net/bridge/br_input.c and [br_dev_xmit] of br_device.c.
      [BrInputProps]: neither faults, buffers are accounted for, frames leave
      by forwarding ports only.  [BrRate]: the token bucket of the IGMP rate
      limit.  [BrFaults]: inputs on which the data path goes wrong.
    - [BrRun]: the parts of the bridge as one reactive system, with its
      invariant.
    - [BrIf]: net/bridge/br_if.c, [br_device_event] of br_notify.c,
      [br_change_mtu] of br_device.c, and what they use of net/core/dev.c:
      ports are added and removed, devices change.  [BrIfProps]: port numbers,
      the features of the bridge device, and how each part of the invariant
      survives a port more or less.
    - [Mcpd]: net/bridge/br_netlink_mcpd.c, the messages of the daemon.
      [McpdProps]: a message is a sequence of requests to the tables.
      [McpdSystem]: messages between the events of [BrRun].
    - [BrPorts]: the whole bridge while ports come and go.  Every reachable
      state is well-formed and the next event does not fault, with the one
      exception of [StpSafety] and under the conditions below; adding a port
      happens completely or not at all; the bridge has the least MTU of its
      ports; deleting the bridge gives everything back.  Three theorems give
      faults: a port whose device has others stacked on it leaves dangling group
      entries when it is removed, the entry of an address given to the bridge
      outlives it, and a frame that comes in while a port is being removed finds
      no port.

    * How the components meet

    The ports and their states of [Stp] are part of the table of [Fdb], which
    learns and flushes by them, and the table is part of the [world] of
    [Bridge]: the data path decides by the port states the protocol has set,
    and learns into the database it looks destinations up in.  The theorems
    on the data path are proved from the specifications of the database and
    keep its invariant; the invariant of the data path demands in addition
    that no entry is without a port.  [BrRun] lets all parts act on one
    [world]: when the protocol disables a port, the database and the groups
    lose what they know of it.  [McpdSystem] adds the variables of the netlink
    interface, which the data path reads, and [BrPorts] the devices and what
    is held of them.  A port is a position in the list of ports: [BrIf]
    renumbers every reference when the list changes, and a reference to a port
    that has been freed is one past its end.  [Filter] runs on the buffers of
    [Skb] and walks attributes with [Nlattr].

    Of the allocations for a group table those that may sleep ([mc_alloc],
    [rep_alloc]) and the atomic ones ([mc_atomic], [rep_atomic], by the place of
    the entry) fail independently of each other.

    * Conditions and bounds

    The composed system ([BrRun], [McpdSystem], [BrPorts]) does not contain
    the operation that gives the bridge an address of its own: the entry it
    makes has no port, and theorems of [FdbProps], [BrFaults] and [BrPorts] show
    where the code then faults or leaks.  Frames have their headers within the
    buffer, hooks keep their contract, and devices that are removed have no
    others stacked on them.

    Ports of the composed system are numbered below 256, because the daemon's
    messages carry the number in one byte; [BrPorts] gets this from having
    fewer than 255 ports, as new ports take the least free number.  Messages
    of the daemon are of full length, name what exists and come for the one
    bridge there is; [McpdProps] has a message that faults otherwise.  The
    delivery of [BrDelivery] is without packet filter hooks and with memory.

    * Fuel

    Loops without a structural measure carry fuel, and the theorems show that
    it suffices: one step more than the memory has bytes for strings and
    attributes, the length of a program for the filter (jumps go forward), 64
    and more steps for 64-bit shifts, the length of the array for sorting, the
    number of devices for device paths (whose links go down), the number of
    hooks for netfilter.  A hook may ask to be called again ([NF_REPEAT])
    [REPEAT_BOUND] times; the C code has no bound, and the theorems assume
    hooks that do not ask.

    * Not modelled

    Of the bridge: the interfaces to user space (br_ioctl.c, br_netlink.c,
    br_sysfs_*.c), the creation and registration of the bridge device, more
    than one bridge, the flow paths of VLAN devices (br_flows.c), the flow rules
    of br_mcast.c, the content of what is sent to the daemon, and the dumps of
    the forwarding database.  Files that the configuration leaves out (br_multicast.c,
    br_netfilter.c, br_fp.c) have no model.  But for [KfifoSpsc] concurrency is that of
    whole handlers: RCU readers that overlap a writer are not modelled.  Of lib/ the
    trees, bitmaps, number parsing, printing, checksums and decompressors are
    left, of net/ everything but the above, and memory management, scheduling,
    file systems, drivers and architecture code as a whole: the modelled code
    meets them through allocation that may fail, timers that are due, and
    events. *)

From Stdlib Require Export ZArith Lia Bool List.
From stdpp Require Export base list numbers option.
Export ListNotations.
#[global] Open Scope Z_scope.
#[global] Set Default Goal Selector "!".

(** * Machine integers

    The kernel of [.config] is a 32-bit little-endian ARM one: [int],
    [unsigned int] and [unsigned long] have 32 bits.  A value of a machine
    type is a [Z] in the range of the type; the conversion to the type is
    written out wherever the C code truncates or wraps. *)

Definition u8 (x : Z) : Z := x mod 2 ^ 8.
Definition u16 (x : Z) : Z := x mod 2 ^ 16.
Definition u32 (x : Z) : Z := x mod 2 ^ 32.
Definition u64 (x : Z) : Z := x mod 2 ^ 64.
Definition s32 (x : Z) : Z := (x + 2 ^ 31) mod 2 ^ 32 - 2 ^ 31.
Definition s64 (x : Z) : Z := (x + 2 ^ 63) mod 2 ^ 64 - 2 ^ 63.

Definition is_u8 (x : Z) : Prop := 0 <= x < 2 ^ 8.
Definition is_u16 (x : Z) : Prop := 0 <= x < 2 ^ 16.
Definition is_u32 (x : Z) : Prop := 0 <= x < 2 ^ 32.
Definition is_u64 (x : Z) : Prop := 0 <= x < 2 ^ 64.
Definition is_s32 (x : Z) : Prop := - 2 ^ 31 <= x < 2 ^ 31.

(** C truth values. *)
Definition nonzero (x : Z) : bool := negb (x =? 0).

Ltac unfold_ints :=
  unfold u8, u16, u32, u64, s32, s64,
    is_u8, is_u16, is_u32, is_u64, is_s32 in *.

(** [ints] closes linear goals over machine integers after turning the
    reductions modulo a power of two into their defining equations. *)
Ltac ints :=
  unfold_ints;
  change (2 ^ 8) with 256 in *; change (2 ^ 16) with 65536 in *;
  change (2 ^ 31) with 2147483648 in *;
  change (2 ^ 32) with 4294967296 in *;
  change (2 ^ 63) with 9223372036854775808 in *;
  change (2 ^ 64) with 18446744073709551616 in *;
  Z.div_mod_to_equations; lia.

Lemma u8_range x : is_u8 (u8 x). Proof. ints. Qed.
Lemma u16_range x : is_u16 (u16 x). Proof. ints. Qed.
Lemma u32_range x : is_u32 (u32 x). Proof. ints. Qed.
Lemma u64_range x : is_u64 (u64 x). Proof. ints. Qed.
Lemma s32_range x : is_s32 (s32 x). Proof. ints. Qed.

Lemma u8_small x : is_u8 x -> u8 x = x.
Proof. intros; unfold u8; apply Z.mod_small; assumption. Qed.
Lemma u16_small x : is_u16 x -> u16 x = x.
Proof. intros; unfold u16; apply Z.mod_small; assumption. Qed.
Lemma u32_small x : is_u32 x -> u32 x = x.
Proof. intros; unfold u32; apply Z.mod_small; assumption. Qed.
Lemma u64_small x : is_u64 x -> u64 x = x.
Proof. intros; unfold u64; apply Z.mod_small; assumption. Qed.
Lemma s32_small x : is_s32 x -> s32 x = x.
Proof. ints. Qed.

Lemma u32_s32 x : u32 (s32 x) = u32 x.
Proof. ints. Qed.

Create HintDb ints.
Create Rewrite HintDb ints.
Create Rewrite HintDb zlen.
#[export] Hint Resolve u8_range u16_range u32_range u64_range s32_range : ints.
#[export] Hint Rewrite u32_s32 : ints.

(** Bit operations stay in the range of their operands. *)
Lemma land_range n x y :
  0 <= n -> 0 <= x < 2 ^ n -> 0 <= y -> 0 <= Z.land x y < 2 ^ n.
Proof.
  intros Hn Hx Hy. split; [apply Z.land_nonneg; lia|].
  destruct (Z.eq_dec (Z.land x y) 0) as [->|Hne]; [lia|].
  assert (0 <= Z.land x y) by (apply Z.land_nonneg; lia).
  apply Z.log2_lt_pow2; [lia|].
  assert (Hl := Z.log2_land x y ltac:(lia) ltac:(lia)).
  destruct (Z.eq_dec x 0) as [->|]; [rewrite Z.land_0_l in Hne; lia|].
  assert (Z.log2 x < n) by (apply Z.log2_lt_pow2; lia). lia.
Qed.

Lemma lor_range n x y :
  0 <= n -> 0 <= x < 2 ^ n -> 0 <= y < 2 ^ n -> 0 <= Z.lor x y < 2 ^ n.
Proof.
  intros Hn Hx Hy. split; [apply Z.lor_nonneg; lia|].
  destruct (Z.eq_dec (Z.lor x y) 0) as [->|Hne]; [lia|].
  assert (0 <= Z.lor x y) by (apply Z.lor_nonneg; lia).
  apply Z.log2_lt_pow2; [lia|]. rewrite Z.log2_lor by lia.
  apply Z.max_lub_lt.
  - destruct (Z.eq_dec x 0) as [->|]; [|apply Z.log2_lt_pow2; lia].
    destruct (Z.eq_dec n 0) as [->|]; [|simpl; lia].
    change (2 ^ 0) with 1 in *. assert (y = 0) as -> by lia. by destruct Hne.
  - destruct (Z.eq_dec y 0) as [->|]; [|apply Z.log2_lt_pow2; lia].
    destruct (Z.eq_dec n 0) as [->|]; [|simpl; lia].
    change (2 ^ 0) with 1 in *. assert (x = 0) as -> by lia. by destruct Hne.
Qed.

Lemma shiftr_range n x k :
  0 <= n -> 0 <= x < 2 ^ n -> 0 <= k -> 0 <= Z.shiftr x k < 2 ^ n.
Proof.
  intros Hn Hx Hk. rewrite Z.shiftr_div_pow2 by lia.
  assert (1 <= 2 ^ k) by (apply (Z.pow_le_mono_r 2 0); lia).
  split; [apply Z.div_pos; lia|].
  apply Z.div_lt_upper_bound; [lia|]. nia.
Qed.

(** Joining and splitting words. *)
Lemma lor_shiftl_add x n y :
  0 <= n -> 0 <= y < 2 ^ n -> Z.lor (Z.shiftl x n) y = x * 2 ^ n + y.
Proof.
  intros Hn Hy. rewrite <- Z.add_nocarry_lor; [by rewrite Z.shiftl_mul_pow2 by lia|].
  apply Z.bits_inj'. intros i Hi. rewrite Z.land_spec, Z.bits_0.
  destruct (Z.lt_ge_cases i n); [by rewrite Z.shiftl_spec_low|].
  rewrite <- (Z.mod_small y (2 ^ n)) by lia.
  rewrite Z.mod_pow2_bits_high by lia. apply andb_false_r.
Qed.

Lemma land_ff x : Z.land x 0xff = x mod 256.
Proof. change 0xff with (Z.ones 8). by rewrite Z.land_ones by lia. Qed.

(** * Faults and results

    Behaviour that the C code must never show (a read outside a buffer, a
    dereference of a null pointer, the use of a freed object, a failed
    [BUG_ON], a division by zero, a shift by a negative count, the use of an
    indeterminate value) is a value of the model, so that its absence is a
    theorem and not an assumption. *)
Inductive fault : Type :=
  | OutOfBounds
  | NullDeref
  | UseAfterFree
  | Uninitialised
  | BugOn
  | DivideByZero
  | BadShift
  | OutOfFuel.

#[global] Instance fault_eq_dec : EqDecision fault.
Proof. solve_decision. Defined.

Inductive res (A : Type) : Type :=
  | Ok (a : A)
  | Fault (f : fault).
Arguments Ok {A} a.
Arguments Fault {A} f.

#[global] Instance res_ret : MRet res := fun A a => Ok a.
#[global] Instance res_bind : MBind res :=
  fun A B f m => match m with Ok a => f a | Fault e => Fault e end.

Definition safe {A} (m : res A) : Prop := exists a, m = Ok a.

Lemma safe_Ok {A} (a : A) : safe (Ok a).
Proof. by exists a. Qed.

Lemma bind_Ok_inv {A B} (m : res A) (f : A -> res B) b :
  (m ≫= f) = Ok b -> exists a, m = Ok a /\ f a = Ok b.
Proof. destruct m; simpl; [eauto|discriminate]. Qed.

(** Decomposes [m ≫= k = Ok x] hypotheses. *)
Ltac binds E x H := apply bind_Ok_inv in E as (x & H & E).

Definition of_option {A} (e : fault) (o : option A) : res A :=
  match o with Some a => Ok a | None => Fault e end.

#[export] Hint Resolve safe_Ok : core.

(** Error numbers (include/asm-generic/errno-base.h, errno.h). *)
Definition EPERM : Z := 1.
Definition ENOENT : Z := 2.
Definition ENOMEM : Z := 12.
Definition EFAULT : Z := 14.
Definition EINVAL : Z := 22.
Definition ERANGE : Z := 34.
Definition EMSGSIZE : Z := 90.

(** * Lists indexed by integers

    [znth l i] is the element the C expression [l[i]] denotes: [None] when
    [i] is outside the array. *)
Definition zlen {A} (l : list A) : Z := Z.of_nat (length l).

Definition znth {A} (l : list A) (i : Z) : option A :=
  if i <? 0 then None else l !! Z.to_nat i.

Definition zupd {A} (l : list A) (i : Z) (x : A) : option (list A) :=
  if (i <? 0) || (zlen l <=? i) then None else Some (<[Z.to_nat i:=x]> l).

(** [slice l i n] is the [n] elements that start at index [i]. *)
Definition slice {A} (l : list A) (i n : Z) : list A :=
  take (Z.to_nat n) (drop (Z.to_nat i) l).

Section ListLemmas.
Context {A : Type}.
Implicit Types l k : list A.

Lemma zlen_app l k : zlen (l ++ k) = zlen l + zlen k.
Proof. unfold zlen. rewrite length_app. lia. Qed.

Lemma zlen_nonneg l : 0 <= zlen l.
Proof. unfold zlen. lia. Qed.

Lemma znth_Some l i x : znth l i = Some x -> 0 <= i < zlen l.
Proof.
  unfold znth, zlen. destruct (Z.ltb_spec i 0); [discriminate|].
  intros H1%lookup_lt_Some. lia.
Qed.

Lemma znth_is_Some l i : 0 <= i < zlen l -> exists x, znth l i = Some x.
Proof.
  unfold znth, zlen. intros H. destruct (Z.ltb_spec i 0); [lia|].
  apply lookup_lt_is_Some_2. lia.
Qed.

Lemma znth_lookup l i : 0 <= i -> znth l i = l !! Z.to_nat i.
Proof. intros. unfold znth. destruct (Z.ltb_spec i 0); [lia|done]. Qed.

Lemma znth_nat l (n : nat) : znth l (Z.of_nat n) = l !! n.
Proof. rewrite znth_lookup by lia. by rewrite Nat2Z.id. Qed.

Lemma znth_app_l l k i : i < zlen l -> znth (l ++ k) i = znth l i.
Proof.
  unfold znth, zlen. intros H. destruct (Z.ltb_spec i 0); [done|].
  apply lookup_app_l. lia.
Qed.

Lemma znth_app_r l k i :
  zlen l <= i -> znth (l ++ k) i = znth k (i - zlen l).
Proof.
  intros H. assert (Hn := zlen_nonneg l).
  rewrite !znth_lookup by lia. unfold zlen in *.
  rewrite lookup_app_r by lia. f_equal. lia.
Qed.

Lemma slice_length l i n :
  0 <= i -> 0 <= n -> i + n <= zlen l -> zlen (slice l i n) = n.
Proof.
  unfold slice, zlen. intros. rewrite length_take, length_drop. lia.
Qed.

Lemma slice_app_l l k i n :
  0 <= i -> 0 <= n -> i + n <= zlen l -> slice (l ++ k) i n = slice l i n.
Proof.
  unfold slice, zlen. intros.
  rewrite drop_app_le by lia. rewrite take_app_le; [done|].
  rewrite length_drop. lia.
Qed.

Lemma slice_app_r l k i n :
  zlen l <= i -> slice (l ++ k) i n = slice k (i - zlen l) n.
Proof.
  unfold slice, zlen. intros.
  rewrite drop_app_ge by lia. do 2 f_equal. lia.
Qed.

Lemma slice_split l i n m :
  0 <= i -> 0 <= n -> 0 <= m ->
  slice l i (n + m) = slice l i n ++ slice l (i + n) m.
Proof.
  unfold slice. intros.
  rewrite !Z2Nat.inj_add by lia. rewrite <- drop_drop.
  generalize (drop (Z.to_nat i) l). intros l'.
  rewrite <- (take_drop (Z.to_nat n) l') at 1.
  destruct (Nat.le_gt_cases (Z.to_nat n) (length l')) as [H'|H'].
  - rewrite take_app_add' by (rewrite length_take; lia). done.
  - rewrite (drop_ge l') by lia. rewrite take_nil, !app_nil_r.
    rewrite !take_ge; rewrite ?length_take; try lia; done.
Qed.

Lemma slice_0 l i : slice l i 0 = [].
Proof. done. Qed.

Lemma slice_full l : slice l 0 (zlen l) = l.
Proof. unfold slice, zlen. rewrite Nat2Z.id. simpl. by rewrite firstn_all. Qed.

Lemma znth_slice l i n j :
  0 <= i -> 0 <= j < n -> znth (slice l i n) j = znth l (i + j).
Proof.
  intros. unfold slice. rewrite !znth_lookup by lia.
  rewrite lookup_take_lt by lia. rewrite lookup_drop. f_equal. lia.
Qed.

Lemma slice_slice l i j n m :
  0 <= i -> 0 <= j -> 0 <= m -> j + m <= n -> slice (slice l i n) j m = slice l (i + j) m.
Proof.
  intros. unfold slice. rewrite skipn_firstn_comm, drop_drop, take_take. f_equal; [lia|]. f_equal. lia.
Qed.

Lemma list_eq_znth l k :
  zlen l = zlen k -> (forall j, 0 <= j < zlen l -> znth l j = znth k j) -> l = k.
Proof.
  unfold zlen. intros Hl H. apply list_eq_same_length with (length l); [lia|done|].
  intros i x y Hi Hx Hy. specialize (H (Z.of_nat i) ltac:(lia)). rewrite !znth_nat in H. congruence.
Qed.

Lemma zupd_Some l i x :
  0 <= i < zlen l -> zupd l i x = Some (<[Z.to_nat i:=x]> l).
Proof.
  intros. unfold zupd.
  destruct (Z.ltb_spec i 0), (Z.leb_spec (zlen l) i); try lia; done.
Qed.

Lemma znth_insert (l : list A) i j x :
0 <= i < zlen l ->
znth (<[Z.to_nat i := x]> l) j = if j =? i then Some x else znth l j.
Proof.
intros Hi. destruct (Z.eqb_spec j i) as [->|Hne].
- rewrite znth_lookup by lia. apply list_lookup_insert_eq. unfold zlen in Hi. lia.
- unfold znth. destruct (Z.ltb_spec j 0); [done|]. apply list_lookup_insert_ne. lia.
Qed.

Lemma zlen_insert l n x : zlen (<[n:=x]> l) = zlen l.
Proof. unfold zlen. by rewrite length_insert. Qed.

Lemma zlen_cons x l : zlen (x :: l) = 1 + zlen l.
Proof. unfold zlen. simpl. lia. Qed.

Lemma zlen_nil : zlen (@nil A) = 0.
Proof. done. Qed.

Lemma zlen_replicate n (x : A) : zlen (replicate n x) = Z.of_nat n.
Proof. unfold zlen. by rewrite length_replicate. Qed.
End ListLemmas.

#[export] Hint Rewrite @zlen_app @zlen_insert @zlen_cons @zlen_nil
  @zlen_replicate : zlen.
#[export] Hint Resolve zlen_nonneg : ints.

(** [bytes l]: every element is a value of type [u8]. *)
Definition bytes (l : list Z) : Prop := Forall is_u8 l.

Lemma Forall_znth {A} (P : A -> Prop) l i x : Forall P l -> znth l i = Some x -> P x.
Proof.
  intros Hl H. assert (Hi := znth_Some _ _ _ H).
  rewrite znth_lookup in H by lia. by eapply Forall_lookup_1.
Qed.

Lemma bytes_znth l i b : bytes l -> znth l i = Some b -> is_u8 b.
Proof. apply Forall_znth. Qed.

Lemma bytes_slice l i n : bytes l -> bytes (slice l i n).
Proof. intros. unfold slice. by apply Forall_take, Forall_drop. Qed.

(** Bounds-checked byte access. *)
Definition rd (buf : list Z) (i : Z) : res Z := of_option OutOfBounds (znth buf i).

Lemma rd_Ok buf i : 0 <= i < zlen buf -> exists b, rd buf i = Ok b /\ znth buf i = Some b.
Proof. intros [x Hx]%znth_is_Some. exists x. unfold rd. by rewrite Hx. Qed.

(** * Boolean case analysis

    [bcase] splits on the first comparison the goal branches on, replacing
    it by the relation it decides. *)
Ltac bcase :=
  match goal with
  | |- context [?a <? ?b] => destruct (Z.ltb_spec a b)
  | |- context [?a <=? ?b] => destruct (Z.leb_spec a b)
  | |- context [?a =? ?b] => destruct (Z.eqb_spec a b)
  end.

Ltac bsimp :=
  repeat match goal with
  | H : _ && _ = true |- _ => apply andb_true_iff in H as [? ?]
  | H : _ || _ = false |- _ => apply orb_false_iff in H as [? ?]
  | H : negb _ = true |- _ => apply negb_true_iff in H
  | H : negb _ = false |- _ => apply negb_false_iff in H
  | H : (_ <? _) = true |- _ => apply Z.ltb_lt in H
  | H : (_ <? _) = false |- _ => apply Z.ltb_ge in H
  | H : (_ <=? _) = true |- _ => apply Z.leb_le in H
  | H : (_ <=? _) = false |- _ => apply Z.leb_gt in H
  | H : (_ =? _) = true |- _ => apply Z.eqb_eq in H
  | H : (_ =? _) = false |- _ => apply Z.eqb_neq in H
  end.
