(* ===== verification/LibMath.v ===== *)
(** Integer arithmetic of lib/: reciprocal division (lib/reciprocal_div.c),
    the digit-wise square root (lib/int_sqrt.c), Euclid's algorithm
    (lib/gcd.c) and the least common multiple (lib/lcm.c). *)

From S2P Require Import Prelude.

(** ** Reciprocal division *)

Definition reciprocal_value (k : Z) : Z :=
  let val := 2 ^ 32 + u32 (k - 1) in
  u32 (val / k).

Definition reciprocal_divide (A R : Z) : Z :=
  u32 (Z.shiftr (u64 (A * R)) 32).

Lemma reciprocal_divide_eq A R :
  is_u32 A -> is_u32 R -> reciprocal_divide A R = A * R / 2 ^ 32.
Proof.
  intros HA HR. unfold reciprocal_divide. rewrite Z.shiftr_div_pow2 by lia.
  unfold is_u32 in *. rewrite u64_small by (unfold is_u64; nia).
  apply u32_small. unfold is_u32. split; [apply Z.div_pos; nia|].
  apply Z.div_lt_upper_bound; nia.
Qed.

Lemma reciprocal_divide_range A R : is_u32 (reciprocal_divide A R).
Proof. apply u32_range. Qed.

(** Reciprocal division against the quotient it stands for.  For a
    divisor of at least 2 the result is the exact quotient or one more, it is
    exact for every power of two, and it is exact as long as
    [A * (B - 1) < 2^32]; the claim of the header file that it is always
    [A / B] does not hold. *)
Theorem reciprocal_divide_error A B :
  is_u32 A -> 2 <= B < 2 ^ 32 ->
  let q := reciprocal_divide A (reciprocal_value B) in
  (A / B <= q <= A / B + 1) /\
  (A * (B - 1) < 2 ^ 32 -> q = A / B) /\
  (forall e, B = 2 ^ e -> 0 <= e -> q = A / B).
Proof.
  intros HA HB. cbv zeta. unfold is_u32 in HA.
  set (v := (2 ^ 32 + (B - 1)) / B).
  assert (Hv : v * B <= 2 ^ 32 + (B - 1) < v * B + B).
  { assert (H := Z.div_mod (2 ^ 32 + (B - 1)) B ltac:(lia)).
    assert (H2 := Z.mod_pos_bound (2 ^ 32 + (B - 1)) B ltac:(lia)). fold v in H. nia. }
  assert (Hv1 : 0 <= v < 2 ^ 32) by nia.
  assert (HR : reciprocal_value B = v).
  { unfold reciprocal_value. rewrite (u32_small (B - 1)) by (unfold is_u32; lia).
    fold v. apply u32_small. unfold is_u32. lia. }
  rewrite HR, reciprocal_divide_eq by (unfold is_u32; lia).
  set (e := v * B - 2 ^ 32). assert (He : 0 <= e <= B - 1) by (subst e; lia).
  assert (HAq := Z.div_mod A B ltac:(lia)).
  assert (HAr := Z.mod_pos_bound A B ltac:(lia)).
  set (q := A / B) in *. set (r := A mod B) in *.
  (* A * v * B = A * 2^32 + A * e *)
  assert (Hlow : q * 2 ^ 32 <= A * v) by (subst e; nia).
  split; [split|split].
  - apply Z.div_le_lower_bound; lia.
  - assert (A * v / 2 ^ 32 < q + 2); [|lia].
    apply Z.div_lt_upper_bound; [lia|].
    assert (A * v * B < 2 ^ 32 * (q + 2) * B); [|nia].
    replace (A * v * B) with (A * 2 ^ 32 + A * e) by (subst e; ring).
    nia.
  - intros Hs. symmetry. apply Z.div_unique with (r := A * v - 2 ^ 32 * q); [|ring].
    left. split; [lia|].
    assert (A * v * B < 2 ^ 32 * (q + 1) * B); [|nia].
    replace (A * v * B) with (A * 2 ^ 32 + A * e) by (subst e; ring).
    nia.
  - intros k HBk Hk.
    assert (Hk32 : k < 32).
    { destruct (Z.lt_ge_cases k 32); [done|].
      assert (2 ^ 32 <= 2 ^ k) by (apply Z.pow_le_mono_r; lia). lia. }
    assert (Hp : 2 ^ 32 = 2 ^ (32 - k) * B)
      by (rewrite HBk, <- Z.pow_add_r by lia; f_equal; lia).
    assert (Hve : v = 2 ^ (32 - k)).
    { subst v. rewrite Hp. symmetry. apply Z.div_unique with (r := B - 1); [left; lia|ring]. }
    symmetry. apply Z.div_unique with (r := A * v - 2 ^ 32 * q); [|ring]. left.
    split; [lia|]. rewrite Hve. rewrite Hp at 2. nia.
Qed.

Lemma reciprocal_divide_error_witness :
  100 / 7 <= reciprocal_divide 100 (reciprocal_value 7) <= 100 / 7 + 1.
Proof. apply (reciprocal_divide_error 100 7); unfold is_u32; lia. Defined.

(** Division by 1 through its reciprocal yields 0 for every dividend: the
    reciprocal [2^32] of 1 does not fit the [u32] it is returned in. *)
Theorem reciprocal_divide_by_one A : reciprocal_divide A (reciprocal_value 1) = 0.
Proof.
  change (reciprocal_value 1) with 0. unfold reciprocal_divide.
  by rewrite Z.mul_0_r.
Qed.

(** ** Square root *)

(** [while (one > op) one >>= 2]. *)
Fixpoint sqrt_start (fuel : nat) (one op : Z) : res Z :=
  match fuel with
  | O => Fault OutOfFuel
  | S fuel => if op <? one then sqrt_start fuel (Z.shiftr one 2) op else Ok one
  end.

(** [while (one != 0)]; the result is [res]. *)
Fixpoint sqrt_loop (fuel : nat) (op r one : Z) : res Z :=
  match fuel with
  | O => Fault OutOfFuel
  | S fuel =>
      if one =? 0 then Ok r
      else
        let '(op, r) :=
          if u32 (r + one) <=? op then (u32 (op - u32 (r + one)), u32 (r + u32 (2 * one)))
          else (op, r) in
        sqrt_loop fuel op (r / 2) (one / 4)
  end.

Definition int_sqrt (x : Z) : res Z :=
  one ← sqrt_start 17 (Z.shiftl 1 30) x; sqrt_loop 17 x 0 one.

(** [one] is a power of four, and [x] has no more digits to base 4; or [x] is
    0 and so is [one]. *)
Lemma sqrt_start_spec x : forall fuel k, 0 <= x < 4 ^ (k + 1) -> 0 <= k -> k + 1 < Z.of_nat fuel ->
  (exists m, 0 <= m <= k /\ sqrt_start fuel (4 ^ k) x = Ok (4 ^ m) /\ x < 4 ^ (m + 1)) \/
  x = 0 /\ sqrt_start fuel (4 ^ k) x = Ok 0.
Proof.
  induction fuel as [|fuel IH]; intros k Hx Hk Hf; [lia|]. cbn [sqrt_start].
  destruct (Z.ltb_spec x (4 ^ k)); [|left; exists k; split; [lia|]; split; [done|lia]].
  rewrite Z.shiftr_div_pow2 by lia. change (2 ^ 2) with 4.
  destruct (Z.eq_dec k 0) as [->|].
  - right. assert (x = 0) as -> by lia. split; [done|]. destruct fuel; [lia|]. done.
  - replace (4 ^ k) with (4 ^ (k - 1) * 4).
    + rewrite Z.div_mul by lia. destruct (IH (k - 1)) as [(m & Hm & E)|H0]; [|lia|lia| |by right].
      * replace (k - 1 + 1) with k by lia. lia.
      * left. exists m. split; [lia|done].
    + rewrite <- (Z.pow_1_r 4) at 2. rewrite <- Z.pow_add_r by lia. f_equal. lia.
Qed.

Lemma pow4 k : 4 ^ k = 2 ^ k * 2 ^ k.
Proof. by rewrite <- Z.pow_mul_l. Qed.

(** The intermediate values fit 32 bits: the root so far, with its next digit,
    fits 16. *)
Lemma sqrt_bounds k s : 0 <= k <= 15 -> 0 <= s < 2 ^ 16 -> (2 ^ (k + 1) | s) ->
  let w := 2 ^ k in
  0 < w /\ 2 ^ (k + 1) = 2 * w /\ s * (2 * w) + w * w = (s + w) * (s + w) - s * s /\
  (s + w) * (s + w) < 2 ^ 32 /\ 0 <= (s + w) * (2 * w) < 2 ^ 32 /\ 0 <= s * (2 * w).
Proof.
  intros Hk Hs [c Hc]. cbv zeta. set (w := 2 ^ k).
  assert (Hw : 0 < w) by (apply Z.pow_pos_nonneg; lia).
  assert (E1 : 2 ^ (k + 1) = 2 * w) by (unfold w; rewrite Z.pow_add_r by lia; lia).
  split; [done|]. split; [done|]. split; [ring|]. rewrite E1 in Hc.
  assert (He : 2 ^ 16 = 2 ^ (15 - k) * (2 * w)).
  { rewrite <- E1, <- Z.pow_add_r by lia. f_equal. lia. }
  assert (Hce : c < 2 ^ (15 - k)).
  { apply (Z.mul_lt_mono_pos_r (2 * w)); [lia|]. rewrite <- He, <- Hc. lia. }
  assert (Hsum : s + 2 * w <= 2 ^ 16).
  { rewrite He, Hc. replace (c * (2 * w) + 2 * w) with ((c + 1) * (2 * w)) by ring.
    apply Z.mul_le_mono_nonneg_r; lia. }
  change (2 ^ 32) with (2 ^ 16 * 2 ^ 16). split; [apply Z.square_lt_mono_nonneg; lia|].
  split; [|apply Z.mul_nonneg_nonneg; lia]. split; [apply Z.mul_nonneg_nonneg; lia|].
  apply (Z.lt_le_trans _ (2 ^ 16 * (2 * w))); [apply Z.mul_lt_mono_pos_r|apply Z.mul_le_mono_nonneg_l]; lia.
Qed.

Lemma sqrt_step_down k : 0 <= k -> 2 ^ k * 2 ^ k / 4 = if k =? 0 then 0 else 4 ^ (k - 1).
Proof.
  intros Hk. rewrite <- pow4. destruct (Z.eqb_spec k 0) as [->|]; [done|].
  replace (4 ^ k) with (4 ^ (k - 1) * 4); [by rewrite Z.div_mul by lia|].
  rewrite <- (Z.pow_1_r 4) at 2. rewrite <- Z.pow_add_r by lia. f_equal. lia.
Qed.

(** The invariant of the digit loop, before the digit of weight [2^k]: [s] is
    the root so far, [r] is [s * 2^(k+1)], [op] what is left of [x]. *)
Lemma sqrt_loop_spec x : 0 <= x < 2 ^ 32 -> forall fuel k s, 0 <= k <= 15 -> 0 <= s ->
  (2 ^ (k + 1) | s) -> s * s <= x < (s + 2 ^ (k + 1)) * (s + 2 ^ (k + 1)) -> k + 1 < Z.of_nat fuel ->
  sqrt_loop fuel (x - s * s) (s * 2 ^ (k + 1)) (4 ^ k) = Ok (Z.sqrt x).
Proof.
  intros Hx. induction fuel as [|fuel IH]; intros k s Hk Hs Hdiv Hinv Hf; [lia|]. cbn [sqrt_loop].
  assert (Hs16 : s < 2 ^ 16).
  { apply Z.square_lt_simpl_nonneg; [lia|]. change (2 ^ 16 * 2 ^ 16) with (2 ^ 32). lia. }
  destruct (sqrt_bounds k s Hk (conj Hs Hs16) Hdiv) as (Hw & E1 & Hsq & Hm1 & Hm2 & Hm3).
  pose proof (sqrt_step_down k (proj1 Hk)) as Hq. rewrite pow4, E1 in *. set (w := 2 ^ k) in *.
  rewrite (proj2 (Z.eqb_neq _ 0)) by nia.
  assert (0 <= w * w) by nia. assert (0 <= s * s) by nia.
  rewrite (u32_small (s * (2 * w) + w * w)) by (unfold is_u32; lia).
  (* the rest of the digits, once the next one is known *)
  assert (Hnext : forall s', 0 <= s' -> (w | s') -> s' * s' <= x < (s' + w) * (s' + w) ->
    sqrt_loop fuel (x - s' * s') (s' * w) (w * w / 4) = Ok (Z.sqrt x)).
  { intros s' Hs' Hd' Hi'. rewrite Hq. destruct (Z.eqb_spec k 0) as [Hk0|Hk0].
    - destruct fuel; [lia|]. cbn. assert (w = 1) as Ew by (unfold w; by rewrite Hk0).
      rewrite Ew, Z.mul_1_r in *. f_equal. symmetry. apply Z.sqrt_unique.
      replace (Z.succ s') with (s' + 1) by lia. lia.
    - assert (Ew : w = 2 ^ (k - 1 + 1)) by (unfold w; f_equal; lia). rewrite Ew in *.
      rewrite <- (pow4 (k - 1)). apply IH; try done; lia. }
  assert (Hhalf : forall y, y * (2 * w) / 2 = y * w).
  { intros y. replace (y * (2 * w)) with (y * w * 2) by ring. by rewrite Z.div_mul. }
  destruct Hdiv as [c Hc]. destruct (Z.leb_spec (s * (2 * w) + w * w) (x - s * s)).
  - rewrite (u32_small (2 * _)), !u32_small by (unfold is_u32; lia).
    replace (x - s * s - (s * (2 * w) + w * w)) with (x - (s + w) * (s + w)) by ring.
    replace (s * (2 * w) + 2 * (w * w)) with ((s + w) * (2 * w)) by ring. rewrite Hhalf.
    apply Hnext; [lia|exists (2 * c + 1); rewrite Hc; ring|]. split; [lia|].
    replace (s + w + w) with (s + 2 * w) by ring. lia.
  - rewrite Hhalf. apply Hnext; [done|exists (2 * c); rewrite Hc; ring|]. split; [lia|].
    replace ((s + w) * (s + w)) with (s * s + (s * (2 * w) + w * w)) by ring. lia.
Qed.

(** [int_sqrt] terminates and returns the integer square root, rounded
    down, of every 32-bit number: the "rough approximation" of its comment is
    exact. *)
Theorem int_sqrt_correct x : is_u32 x -> int_sqrt x = Ok (Z.sqrt x).
Proof.
  intros Hx. unfold is_u32 in Hx. unfold int_sqrt, mbind, res_bind. change (Z.shiftl 1 30) with (4 ^ 15).
  destruct (sqrt_start_spec x 17 15) as [(m & Hm & -> & Hlt)|[-> ->]]; [change (15 + 1) with 16|..]; try lia.
  - pose proof (sqrt_loop_spec x Hx 17 m 0 ltac:(lia) ltac:(lia)) as H.
    rewrite Z.mul_0_l, Z.sub_0_r in H. apply H; [apply Z.divide_0_r| |lia].
    rewrite !Z.add_0_l, <- pow4. lia.
  - done.
Qed.

Lemma int_sqrt_correct_witness : int_sqrt 4294967295 = Ok (Z.sqrt 4294967295).
Proof. apply (int_sqrt_correct 4294967295). unfold is_u32. lia. Defined.

(** ** Greatest common divisor and least common multiple *)

(** [while ((r = a % b) != 0)]. *)
Fixpoint gcd_loop (fuel : nat) (a b : Z) : res Z :=
  match fuel with
  | O => Fault OutOfFuel
  | S fuel =>
      if b =? 0 then Fault DivideByZero
      else
        let r := a mod b in
        if r =? 0 then Ok b else gcd_loop fuel b r
  end.

Definition gcd (a b : Z) : res Z :=
  let '(a, b) := if a <? b then (b, a) else (a, b) in gcd_loop 65 a b.

Definition lcm (a b : Z) : res Z :=
  if nonzero a && nonzero b then
    g ← gcd a b; Ok (u32 (a * b) / g)
  else if nonzero b then Ok b
  else Ok a.

(** Every round halves the product of the two numbers. *)
Lemma gcd_loop_spec : forall fuel a b, 0 < b <= a -> a * b < 2 ^ Z.of_nat fuel ->
  gcd_loop (S fuel) a b = Ok (Z.gcd a b).
Proof.
  induction fuel as [|fuel IH]; intros a b Hb Hlt.
  { cbn in Hlt. nia. }
  remember (S fuel) as m eqn:Em. cbn [gcd_loop]. rewrite (proj2 (Z.eqb_neq b 0)) by lia.
  pose proof (Z.mod_pos_bound a b ltac:(lia)). pose proof (Z.div_mod a b ltac:(lia)).
  assert (1 <= a / b) by (apply Z.div_le_lower_bound; lia).
  assert (Hg : Z.gcd a b = Z.gcd b (a mod b)).
  { rewrite (Z.gcd_comm b), Z.gcd_mod, Z.gcd_comm by lia. done. }
  destruct (Z.eqb_spec (a mod b) 0) as [E|].
  - rewrite Hg, E, Z.gcd_0_r, Z.abs_eq by lia. done.
  - rewrite Hg. apply IH; [lia|]. rewrite Em, Nat2Z.inj_succ, Z.pow_succ_r in Hlt by lia. nia.
Qed.

(** C37: Euclid's algorithm as [gcd] runs it terminates within 65 rounds for any
    two positive 32-bit numbers and returns their greatest common divisor. *)
Theorem gcd_terminates a b :
  0 < a < 2 ^ 32 -> 0 < b < 2 ^ 32 -> gcd a b = Ok (Z.gcd a b).
Proof.
  intros Ha Hb. unfold gcd. destruct (Z.ltb_spec a b).
  - rewrite Z.gcd_comm. apply gcd_loop_spec; [lia|]. change (Z.of_nat 64) with 64. nia.
  - apply gcd_loop_spec; [lia|]. change (Z.of_nat 64) with 64. nia.
Qed.

Lemma gcd_terminates_witness : gcd 2971215073 1836311903 = Ok (Z.gcd 2971215073 1836311903).
Proof. apply (gcd_terminates 2971215073 1836311903); lia. Defined.

(** [lcm] of numbers whose product fits 32 bits. *)
Lemma lcm_fits a b : 0 < a -> 0 < b -> a * b < 2 ^ 32 -> lcm a b = Ok (Z.lcm a b).
Proof.
  intros Ha Hb Hlt. unfold lcm, nonzero. rewrite !(proj2 (Z.eqb_neq _ 0)) by lia. cbn [negb andb].
  unfold gcd. assert (Hg : forall x y, 0 < x <= y -> x * y < 2 ^ 32 -> gcd_loop 65 y x = Ok (Z.gcd x y)).
  { intros x y Hx Hm. rewrite Z.gcd_comm. apply gcd_loop_spec; [lia|]. change (Z.of_nat 64) with 64. lia. }
  assert (Hl : Z.lcm a b = a * b / Z.gcd a b).
  { unfold Z.lcm. rewrite Z.divide_div_mul_exact, Z.abs_eq; [done| | |apply Z.gcd_divide_r].
    - apply Z.mul_nonneg_nonneg; [lia|]. apply Z.div_pos; [lia|]. pose proof (Z.gcd_nonneg a b).
      assert (Z.gcd a b <> 0) by (intros E; apply Z.gcd_eq_0_l in E; lia). lia.
    - intros E. apply Z.gcd_eq_0_l in E. lia. }
  rewrite Hl. rewrite u32_small by (unfold is_u32; nia).
  destruct (Z.ltb_spec a b); unfold mbind, res_bind;
    [rewrite (Hg a b) by lia|rewrite (Hg b a), Z.gcd_comm by lia]; done.
Qed.

(** [lcm] computes the product first, and loses it when it does not fit 32
    bits, also where the result would fit: the least common multiple of 65536
    and itself comes out as 0. *)
Theorem lcm_overflows :
  lcm 65536 65536 = Ok 0 /\ Z.lcm 65536 65536 = 65536 /\
  forall a b, 0 < a -> 0 < b -> a * b < 2 ^ 32 -> lcm a b = Ok (Z.lcm a b).
Proof. split; [vm_compute; reflexivity|]. split; [reflexivity|]. exact lcm_fits. Qed.
