(* ===== verification/Div64.v ===== *)
(** 64-bit division on a 32-bit machine: lib/div64.c, the [do_div] of
    include/asm-generic/div64.h, the inline functions of include/linux/math64.h
    and the [fls] of include/asm-generic/bitops/fls.h.

    [__div64_32] and with it [do_div] and [div_u64] compute the quotient and the
    remainder; [div64_u64], whose divisor has more than 32 bits, is exact for
    quotients below [2^30 - 1] and not beyond. *)

From S2P Require Import Prelude.

(** ** Definitions *)

(** [while ((int64_t)b > 0 && b < rem)]. *)
Fixpoint div_scale (fuel : nat) (b d rem : Z) : res (Z * Z) :=
  match fuel with
  | O => Fault OutOfFuel
  | S fuel =>
      if (0 <? s64 b) && (b <? rem) then div_scale fuel (u64 (b + b)) (u64 (d + d)) rem
      else Ok (b, d)
  end.

(** [do { ... } while (d)]. *)
Fixpoint div_subtract (fuel : nat) (b d rem r : Z) : res (Z * Z) :=
  match fuel with
  | O => Fault OutOfFuel
  | S fuel =>
      let '(rem, r) := if b <=? rem then (u64 (rem - b), u64 (r + d)) else (rem, r) in
      let b := Z.shiftr b 1 in
      let d := Z.shiftr d 1 in
      if d =? 0 then Ok (r, rem) else div_subtract fuel b d rem r
  end.

(** The reduction of the upper half: the quotient so far and what is left. *)
Definition div_reduce (n base : Z) : res (Z * Z) :=
  let high := u32 (Z.shiftr n 32) in
  if base <=? high then
    if base =? 0 then Fault DivideByZero
    else
      let high := high / base in
      Ok (u64 (Z.shiftl high 32), u64 (n - u64 (Z.shiftl (u32 (high * base)) 32)))
  else Ok (0, n).

(** [__div64_32]: the new value of [*n] and the remainder. *)
Definition __div64_32 (n base : Z) : res (Z * Z) :=
  '(r, rem) ← div_reduce n base;
  '(b, d) ← div_scale 65 base 1 rem;
  '(r, rem) ← div_subtract 65 b d rem r;
  Ok (r, u32 rem).

(** [do_div]: the new value of [n] and the remainder. *)
Definition do_div (n base : Z) : res (Z * Z) :=
  if Z.shiftr n 32 =? 0 then
    if base =? 0 then Fault DivideByZero else Ok (u32 n / base, u32 n mod base)
  else __div64_32 n base.

Definition div_u64_rem (dividend divisor : Z) : res (Z * Z) := do_div dividend divisor.

Definition div_u64 (dividend divisor : Z) : res Z :=
  '(q, _) ← div_u64_rem dividend divisor; Ok q.

(** [div_s64_rem]: the quotient and the remainder. *)
Definition div_s64_rem (dividend divisor : Z) : res (Z * Z) :=
  if dividend <? 0 then
    '(quotient, remainder) ← div_u64_rem (u64 (- dividend)) (u32 (Z.abs divisor));
    let remainder := s32 (- s32 remainder) in
    Ok (s64 (if 0 <? divisor then u64 (- quotient) else quotient), remainder)
  else
    '(quotient, remainder) ← div_u64_rem (u64 dividend) (u32 (Z.abs divisor));
    Ok (s64 (if divisor <? 0 then u64 (- quotient) else quotient), s32 remainder).

(** One test of [fls]: are the bits of [mask] clear? *)
Definition fls_step (mask k : Z) (p : Z * Z) : Z * Z :=
  let '(x, r) := p in if Z.land x mask =? 0 then (u32 (Z.shiftl x k), r - k) else (x, r).

Definition fls (x : Z) : Z :=
  if x =? 0 then 0
  else
    snd (fls_step 0x80000000 1 (fls_step 0xc0000000 2 (fls_step 0xf0000000 4
      (fls_step 0xff000000 8 (fls_step 0xffff0000 16 (x, 32)))))).

Definition div64_u64 (dividend divisor : Z) : res Z :=
  let high := u32 (Z.shiftr divisor 32) in
  if high =? 0 then div_u64 dividend (u32 divisor)
  else
    let n := 1 + fls high in
    quot ← div_u64 (Z.shiftr dividend n) (u32 (Z.shiftr divisor n));
    let quot := if nonzero quot then u64 (quot - 1) else quot in
    Ok (if divisor <=? u64 (dividend - u64 (quot * divisor)) then u64 (quot + 1) else quot).

Definition div64_s64 (dividend divisor : Z) : res Z :=
  quot ← div64_u64 (u64 (Z.abs dividend)) (u64 (Z.abs divisor));
  let t := Z.shiftr (Z.lxor dividend divisor) 63 in
  Ok (s64 (Z.lxor (s64 quot) t - t)).

(** [__iter_div_u64_rem]: the quotient and the remainder by subtraction. *)
Fixpoint __iter_div_u64_rem (fuel : nat) (dividend divisor ret : Z) : res (Z * Z) :=
  match fuel with
  | O => Fault OutOfFuel
  | S fuel =>
      if divisor <=? dividend then
        __iter_div_u64_rem fuel (u64 (dividend - divisor)) divisor (u32 (ret + 1))
      else Ok (ret, dividend)
  end.

(** ** [__div64_32] *)

Lemma s64_pos b : is_u64 b -> (0 <? s64 b) = true <-> 0 < b < 2 ^ 63.
Proof.
  intros Hb. rewrite Z.ltb_lt. unfold is_u64 in Hb. unfold s64. split; intros H.
  - destruct (Z.lt_ge_cases b (2 ^ 63)).
    + rewrite Z.mod_small in H by lia. lia.
    + replace (b + 2 ^ 63) with (b - 2 ^ 63 + 1 * 2 ^ 64) in H by lia.
      rewrite Z.mod_add, Z.mod_small in H by lia. lia.
  - rewrite Z.mod_small by lia. lia.
Qed.

Lemma pow2_lt_inv k b : 0 <= k -> 0 < b -> b * 2 ^ k < 2 ^ 64 -> k < 64.
Proof.
  intros Hk Hb H. destruct (Z.lt_ge_cases k 64) as [|Hge]; [done|].
  assert (2 ^ 64 <= 2 ^ k) by (apply Z.pow_le_mono_r; lia). nia.
Qed.

(** After the scaling [b] is a multiple of the base, fits, and is more than
    half of what is left to divide. *)
Lemma div_scale_spec base rem : 0 < base < 2 ^ 32 -> is_u64 rem ->
  forall fuel k, 0 <= k -> base * 2 ^ k < 2 ^ 64 -> 64 - k < Z.of_nat fuel ->
  exists m, 0 <= m /\ div_scale fuel (base * 2 ^ k) (2 ^ k) rem = Ok (base * 2 ^ m, 2 ^ m) /\
    base * 2 ^ m < 2 ^ 64 /\ rem < 2 * (base * 2 ^ m).
Proof.
  intros Hb Hr. induction fuel as [|fuel IH]; intros k Hk Hlt Hf.
  { pose proof (pow2_lt_inv k base Hk ltac:(lia) Hlt). lia. }
  pose proof (Z.pow_pos_nonneg 2 k ltac:(lia) Hk) as Hp. cbn [div_scale].
  assert (Hu : is_u64 (base * 2 ^ k)) by (unfold is_u64; nia).
  destruct (0 <? s64 (base * 2 ^ k)) eqn:E1; cbn [andb].
  - apply s64_pos in E1; [|done]. destruct (base * 2 ^ k <? rem) eqn:E2.
    + assert (E : 2 ^ (k + 1) = 2 * 2 ^ k) by (rewrite Z.pow_add_r; lia).
      assert (2 ^ k <= base * 2 ^ k) by nia.
      rewrite !u64_small by (unfold is_u64; lia).
      replace (base * 2 ^ k + base * 2 ^ k) with (base * 2 ^ (k + 1)) by lia.
      replace (2 ^ k + 2 ^ k) with (2 ^ (k + 1)) by lia. apply IH; lia.
    + exists k. apply Z.ltb_ge in E2. repeat (split; [done || lia|]). lia.
  - exists k. split; [done|]. split; [done|]. split; [done|]. unfold is_u64 in Hr, Hu.
    assert (~ (0 < base * 2 ^ k < 2 ^ 63)) by (rewrite <- s64_pos by done; by rewrite E1). nia.
Qed.

(** The subtraction loop divides by the base. *)
Lemma div_subtract_spec base : 0 < base ->
  forall fuel m rem r, 0 <= m -> base * 2 ^ m < 2 ^ 64 -> m < Z.of_nat fuel ->
  0 <= rem < 2 * (base * 2 ^ m) -> rem < 2 ^ 64 -> 0 <= r -> r + rem / base < 2 ^ 64 ->
  div_subtract fuel (base * 2 ^ m) (2 ^ m) rem r = Ok (r + rem / base, rem mod base).
Proof.
  intros Hb. induction fuel as [|fuel IH]; intros m rem r Hm Hlt Hf Hrem Hr64 Hr Hsum; [lia|].
  pose proof (Z.pow_pos_nonneg 2 m ltac:(lia) Hm) as Hp. cbn [div_subtract].
  set (p := if base * 2 ^ m <=? rem then _ else _).
  assert (exists rem' r', p = (rem', r') /\ 0 <= rem' < base * 2 ^ m /\ 0 <= r' /\
    r' + rem' / base = r + rem / base /\ rem' mod base = rem mod base) as
    (rem' & r' & -> & Hrem' & Hr' & Hq & Hmod).
  { subst p. destruct (Z.leb_spec (base * 2 ^ m) rem) as [Hle|Hgt].
    - assert (Hd : rem / base = 2 ^ m + (rem - base * 2 ^ m) / base).
      { replace rem with (rem - base * 2 ^ m + 2 ^ m * base) at 1 by ring.
        rewrite Z.div_add by lia. lia. }
      pose proof (Z.div_pos (rem - base * 2 ^ m) base ltac:(lia) Hb).
      exists (rem - base * 2 ^ m), (r + 2 ^ m). rewrite !u64_small by (unfold is_u64; nia).
      split; [done|]. split; [lia|]. split; [lia|]. split; [lia|].
      replace (rem - base * 2 ^ m) with (rem + - 2 ^ m * base) by ring. by rewrite Z.mod_add by lia.
    - exists rem, r. repeat (split; [done || lia|]). done. }
  rewrite <- Hq, <- Hmod, !Z.shiftr_div_pow2 by lia. change (2 ^ 1) with 2.
  destruct (Z.eq_dec m 0) as [->|Hnz].
  - rewrite Z.mul_1_r in Hrem'. change (2 ^ 0 / 2) with 0. cbn [Z.eqb].
    by rewrite Z.div_small, Z.add_0_r, Z.mod_small by lia.
  - assert (E : 2 ^ m = 2 ^ (m - 1) * 2).
    { replace m with (m - 1 + 1) at 1 by lia.
      rewrite Z.pow_add_r by lia. lia. }
    pose proof (Z.pow_pos_nonneg 2 (m - 1) ltac:(lia) ltac:(lia)) as Hp'.
    rewrite E, Z.mul_assoc, !Z.div_mul by lia.
    rewrite (proj2 (Z.eqb_neq _ _)) by lia. apply IH; nia.
Qed.

Lemma div_mod_split n base q : 0 < base ->
  (n - q * base) / base + q = n / base /\ (n - q * base) mod base = n mod base.
Proof.
  intros Hb. replace (n - q * base) with (n + - q * base) by ring.
  rewrite Z.div_add, Z.mod_add by lia. lia.
Qed.

Lemma div_reduce_spec n base : is_u64 n -> 0 < base < 2 ^ 32 ->
  exists q, 0 <= q /\ 0 <= n - q * base /\ div_reduce n base = Ok (q, n - q * base).
Proof.
  intros Hn Hb. unfold div_reduce, is_u64 in *. rewrite Z.shiftr_div_pow2 by lia.
  assert (Hh : 0 <= n / 2 ^ 32 < 2 ^ 32).
  { split; [apply Z.div_pos; lia|]. apply Z.div_lt_upper_bound; lia. }
  rewrite u32_small by (unfold is_u32; lia).
  pose proof (Z.mul_div_le n (2 ^ 32) ltac:(lia)) as Hle. set (high := n / 2 ^ 32) in *.
  destruct (Z.leb_spec base high); [|exists 0; repeat split; [lia|lia|]; by rewrite Z.sub_0_r].
  rewrite (proj2 (Z.eqb_neq _ _)) by lia. exists (high / base * 2 ^ 32).
  pose proof (Z.mul_div_le high base ltac:(lia)). pose proof (Z.div_pos high base ltac:(lia) ltac:(lia)).
  assert (high / base <= high) by (apply Z.div_le_upper_bound; nia).
  set (h := high / base) in *. split; [lia|]. split; [lia|]. rewrite !Z.shiftl_mul_pow2 by lia.
  rewrite (u32_small (h * base)) by (unfold is_u32; lia).
  rewrite (u64_small (h * 2 ^ 32)), (u64_small (h * base * 2 ^ 32)), u64_small by (unfold is_u64; lia).
  apply f_equal, f_equal2; ring.
Qed.

(** The two loops on what the reduction leaves. *)
Lemma div_loops_spec base q rem fuel :
  0 < base < 2 ^ 32 -> is_u64 rem -> 0 <= q -> q + rem / base < 2 ^ 64 -> Z.of_nat fuel = 65 ->
  exists b d, div_scale fuel base 1 rem = Ok (b, d) /\
    div_subtract fuel b d rem q = Ok (q + rem / base, rem mod base).
Proof.
  intros Hb Hru Hq Hs Hf.
  destruct (div_scale_spec base rem Hb Hru fuel 0) as (m & Hm0 & E & Hfit & Hbig); [lia..|].
  rewrite Z.pow_0_r, Z.mul_1_r in E. exists (base * 2 ^ m), (2 ^ m). split; [done|].
  pose proof (pow2_lt_inv m base Hm0 (proj1 Hb) Hfit). destruct Hru as [Hr0 Hr1].
  apply div_subtract_spec; try done; lia.
Qed.

Lemma div64_32_spec n base : is_u64 n -> 0 < base < 2 ^ 32 ->
  __div64_32 n base = Ok (n / base, n mod base).
Proof.
  intros Hn Hb. destruct (div_reduce_spec n base Hn Hb) as (q & Hq & Hrem & E1).
  destruct (div_mod_split n base q ltac:(lia)) as [Hd Hm]. rewrite Z.add_comm in Hd.
  assert (n / base <= n) by (unfold is_u64 in Hn; apply Z.div_le_upper_bound; nia).
  destruct (div_loops_spec base q (n - q * base) 65) as (b & d & E2 & E3); [done| |done| |done|].
  { unfold is_u64 in *. nia. }
  { rewrite Hd. unfold is_u64 in Hn. lia. }
  rewrite Hm, Hd in E3. pose proof (Z.mod_pos_bound n base (proj1 Hb)) as Hmb.
  unfold __div64_32, mbind, res_bind. rewrite E1, E2, E3, u32_small; [done|].
  clear -Hmb Hb. unfold is_u32. lia.
Qed.

Lemma do_div_spec n base : is_u64 n -> 0 < base < 2 ^ 32 -> do_div n base = Ok (n / base, n mod base).
Proof.
  intros Hn Hb. unfold do_div. rewrite Z.shiftr_div_pow2 by lia.
  destruct (Z.eqb_spec (n / 2 ^ 32) 0) as [E|]; [|by apply div64_32_spec].
  rewrite (proj2 (Z.eqb_neq base 0)) by lia.
  assert (n < 2 ^ 32) by (unfold is_u64 in Hn; Z.div_mod_to_equations; lia).
  by rewrite u32_small by (unfold is_u64, is_u32 in *; lia).
Qed.

(** C36: [do_div], with the shift-and-subtract division [__div64_32] behind it,
    terminates and returns the quotient and the remainder for every 64-bit
    dividend and every 32-bit divisor but 0. *)
Theorem do_div_correct n base :
  is_u64 n -> 0 < base < 2 ^ 32 -> do_div n base = Ok (n / base, n mod base).
Proof. apply do_div_spec. Qed.

Lemma do_div_correct_witness : do_div (2 ^ 64 - 1) 10 = Ok ((2 ^ 64 - 1) / 10, (2 ^ 64 - 1) mod 10).
Proof. apply (do_div_correct (2 ^ 64 - 1) 10); unfold is_u64; lia. Defined.

(** ** [fls] *)

(** The test of the upper [k] bits. *)
Lemma land_upper x k : is_u32 x -> 0 <= k <= 32 ->
  (Z.land x (2 ^ 32 - 2 ^ (32 - k)) =? 0) = (x <? 2 ^ (32 - k)).
Proof.
  intros Hx Hk. unfold is_u32 in Hx. set (m := 32 - k).
  pose proof (Z.pow_pos_nonneg 2 m ltac:(lia) ltac:(lia)) as Hm.
  assert (E : 2 ^ 32 - 2 ^ m = Z.shiftl (Z.ones k) m).
  { rewrite Z.ones_equiv, Z.shiftl_mul_pow2, <- Z.sub_1_r, Z.mul_sub_distr_r, <- Z.pow_add_r by lia.
    unfold m. replace (k + (32 - k)) with 32 by lia. lia. }
  assert (Hl : Z.land x (2 ^ 32 - 2 ^ m) = Z.shiftl (Z.shiftr x m) m).
  { rewrite E. apply Z.bits_inj'. intros i Hi. rewrite Z.land_spec, !Z.shiftl_spec by lia.
    destruct (Z.lt_ge_cases i m).
    - by rewrite !(Z.testbit_neg_r _ (i - m)), andb_false_r by lia.
    - rewrite Z.shiftr_spec by lia. replace (i - m + m) with i by lia.
      destruct (Z.lt_ge_cases (i - m) k).
      + rewrite Z.ones_spec_low by lia. apply andb_true_r.
      + rewrite Z.ones_spec_high, andb_false_r by lia. symmetry.
        rewrite <- (Z.mod_small x (2 ^ 32)) by lia. apply Z.mod_pow2_bits_high. lia. }
  rewrite Hl, Z.shiftr_div_pow2, Z.shiftl_mul_pow2 by lia.
  pose proof (Z.div_pos x (2 ^ m) ltac:(lia) Hm). pose proof (Z.mul_div_le x (2 ^ m) Hm).
  destruct (Z.ltb_spec x (2 ^ m)).
  - by rewrite Z.div_small by lia.
  - apply Z.eqb_neq. assert (1 <= x / 2 ^ m) by (apply Z.div_le_lower_bound; lia). nia.
Qed.

(** The invariant of the tests: the argument [x0] shifted left, with a bit set
    among the upper [2 * k]. *)
Definition fls_inv (x0 k : Z) (p : Z * Z) : Prop :=
  p.1 = x0 * 2 ^ (32 - p.2) /\ 2 ^ (32 - 2 * k) <= p.1 < 2 ^ 32 /\ 2 * k <= p.2 <= 32.

Lemma fls_step_spec x0 k mask p :
  1 <= k <= 16 -> mask = 2 ^ 32 - 2 ^ (32 - k) -> fls_inv x0 k p ->
  let q := fls_step mask k p in
  q.1 = x0 * 2 ^ (32 - q.2) /\ 2 ^ (32 - k) <= q.1 < 2 ^ 32 /\ k <= q.2 <= 32.
Proof.
  intros Hk -> . destruct p as [x r]. intros (Hx & Hlo & Hr). cbn [fst snd] in *. unfold fls_step.
  pose proof (Z.pow_pos_nonneg 2 (32 - 2 * k) ltac:(lia) ltac:(lia)).
  rewrite land_upper by (unfold is_u32; lia). destruct (Z.ltb_spec x (2 ^ (32 - k))); cbn [fst snd].
  - assert (Hm : x * 2 ^ k < 2 ^ 32).
    { replace (2 ^ 32) with (2 ^ (32 - k) * 2 ^ k); [|rewrite <- Z.pow_add_r by lia; f_equal; lia].
      apply Z.mul_lt_mono_pos_r; [apply Z.pow_pos_nonneg; lia|lia]. }
    assert (Hl : 2 ^ (32 - k) <= x * 2 ^ k).
    { replace (2 ^ (32 - k)) with (2 ^ (32 - 2 * k) * 2 ^ k); [|rewrite <- Z.pow_add_r by lia; f_equal; lia].
      apply Z.mul_le_mono_nonneg_r; [apply Z.pow_nonneg; lia|lia]. }
    rewrite Z.shiftl_mul_pow2, u32_small by (unfold is_u32; lia). split; [|lia].
    rewrite Hx, <- Z.mul_assoc, <- Z.pow_add_r by lia. f_equal. f_equal. lia.
  - split; [done|]. lia.
Qed.

Lemma fls_spec x : 0 < x < 2 ^ 32 -> 1 <= fls x <= 32 /\ 2 ^ (fls x - 1) <= x < 2 ^ fls x.
Proof.
  intros Hx. unfold fls. rewrite (proj2 (Z.eqb_neq x 0)) by lia.
  assert (H16 : fls_inv x 16 (x, 32)) by (unfold fls_inv; cbn [fst snd]; lia).
  pose proof (fls_step_spec x 16 0xffff0000 _ ltac:(lia) eq_refl H16) as H8.
  pose proof (fls_step_spec x 8 0xff000000 _ ltac:(lia) eq_refl H8) as H4.
  pose proof (fls_step_spec x 4 0xf0000000 _ ltac:(lia) eq_refl H4) as H2.
  pose proof (fls_step_spec x 2 0xc0000000 _ ltac:(lia) eq_refl H2) as H1.
  pose proof (fls_step_spec x 1 0x80000000 _ ltac:(lia) eq_refl H1) as H0. clear H16 H8 H4 H2 H1.
  revert H0. generalize (fls_step 2147483648 1 (fls_step 3221225472 2 (fls_step 4026531840 4
    (fls_step 4278190080 8 (fls_step 4294901760 16 (x, 32)))))). intros [y r] (Hy & Hlo & Hr).
  cbn [fst snd] in *. split; [lia|].
  assert (E : 2 ^ 32 = 2 ^ r * 2 ^ (32 - r)) by (rewrite <- Z.pow_add_r by lia; f_equal; lia).
  assert (E1 : 2 ^ (32 - 1) = 2 ^ (r - 1) * 2 ^ (32 - r)) by (rewrite <- Z.pow_add_r by lia; f_equal; lia).
  pose proof (Z.pow_pos_nonneg 2 (32 - r) ltac:(lia) ltac:(lia)). rewrite E, E1, Hy in Hlo.
  split; [apply (Z.mul_le_mono_pos_r _ _ (2 ^ (32 - r)))|apply (Z.mul_lt_mono_pos_r (2 ^ (32 - r)))]; lia.
Qed.

(** ** [div64_u64] *)

Lemma div_u64_spec n base : is_u64 n -> 0 < base < 2 ^ 32 -> div_u64 n base = Ok (n / base).
Proof. intros Hn Hb. unfold div_u64, div_u64_rem. by rewrite do_div_spec. Qed.

(** Dividing by the upper bits of the divisor gives the quotient or one more,
    if the quotient is smaller than those bits. *)
Lemma approximate_quotient a d e k :
  0 <= a -> 0 < k -> 0 < e -> e * k <= d < e * k + k -> a / d < e ->
  a / d <= a / k / e <= a / d + 1.
Proof.
  intros Ha Hk He Hd Hq. rewrite Z.div_div by lia. assert (0 < e * k) by nia. split.
  - replace (k * e) with (e * k) by ring. apply Z.div_le_compat_l; lia.
  - assert (a / (k * e) < a / d + 2); [|lia]. apply Z.div_lt_upper_bound; [nia|].
    pose proof (Z.div_mod a d ltac:(lia)). pose proof (Z.mod_pos_bound a d ltac:(lia)).
    set (q := a / d) in *. nia.
Qed.

(** The shift that [div64_u64] takes leaves 31 bits of the divisor. *)
Lemma shifted_divisor d : 2 ^ 32 <= d < 2 ^ 64 ->
  let n := 1 + fls (d / 2 ^ 32) in
  0 < 2 ^ n /\ 2 <= n <= 33 /\ 2 ^ 30 <= d / 2 ^ n < 2 ^ 31.
Proof.
  intros Hd. cbv zeta.
  assert (Hh : 1 <= d / 2 ^ 32 < 2 ^ 32).
  { split; [apply Z.div_le_lower_bound; lia|]. apply Z.div_lt_upper_bound; lia. }
  destruct (fls_spec (d / 2 ^ 32)) as [Hf Hp]; [lia|]. set (k := fls (d / 2 ^ 32)) in *.
  pose proof (Z.pow_pos_nonneg 2 (1 + k) ltac:(lia) ltac:(lia)). split; [done|]. split; [lia|].
  pose proof (Z.mul_div_le d (2 ^ 32) ltac:(lia)).
  pose proof (Z.mod_pos_bound d (2 ^ 32) ltac:(lia)). pose proof (Z.div_mod d (2 ^ 32) ltac:(lia)).
  assert (E1 : 2 ^ 30 * 2 ^ (1 + k) = 2 ^ 32 * 2 ^ (k - 1)).
  { rewrite <- !Z.pow_add_r by lia. f_equal. lia. }
  assert (E2 : 2 ^ 31 * 2 ^ (1 + k) = 2 ^ 32 * 2 ^ k).
  { rewrite <- !Z.pow_add_r by lia. f_equal. lia. }
  split; [apply Z.div_le_lower_bound; lia|apply Z.div_lt_upper_bound; lia].
Qed.

(** The correction after the division by the upper bits. *)
Lemma corrected_quotient a d q' :
  is_u64 a -> 0 < d -> a / d <= q' <= a / d + 1 ->
  let quot := if nonzero q' then u64 (q' - 1) else q' in
  (if d <=? u64 (a - u64 (quot * d)) then u64 (quot + 1) else quot) = a / d.
Proof.
  intros Ha Hd Hq. unfold is_u64 in Ha.
  pose proof (Z.div_mod a d ltac:(lia)) as Hdm. pose proof (Z.mod_pos_bound a d Hd) as Hm.
  assert (0 <= a / d <= a) by (split; [apply Z.div_pos|apply Z.div_le_upper_bound]; nia).
  set (q := a / d) in *. set (r := a mod d) in *. cbv zeta.
  assert (exists x, (if nonzero q' then u64 (q' - 1) else q') = x /\ 0 <= x /\ (x = q \/ x = q - 1))
    as (x & -> & Hx0 & Hx).
  { unfold nonzero. destruct (Z.eqb_spec q' 0); cbn [negb]; eexists; (split; [done|]); [lia|].
    rewrite u64_small by (unfold is_u64; lia). lia. }
  assert (Hxd : 0 <= x * d <= a) by nia.
  rewrite (u64_small (x * d)), u64_small by (unfold is_u64; lia).
  destruct (Z.leb_spec d (a - x * d)); destruct Hx as [-> | ->]; try nia.
  rewrite u64_small by (unfold is_u64; lia). lia.
Qed.

(** [div64_u64] returns the quotient for every divisor of at most 32 bits,
    and for a longer divisor if the quotient is below [2^30]. *)
Theorem div64_u64_exact a d :
  is_u64 a -> 0 < d < 2 ^ 64 -> d < 2 ^ 32 \/ a / d < 2 ^ 30 -> div64_u64 a d = Ok (a / d).
Proof.
  intros Ha Hd Hq. unfold div64_u64. rewrite Z.shiftr_div_pow2 by lia.
  assert (Hh : 0 <= d / 2 ^ 32 < 2 ^ 32).
  { split; [apply Z.div_pos; lia|]. apply Z.div_lt_upper_bound; lia. }
  rewrite (u32_small (d / 2 ^ 32)) by (unfold is_u32; lia).
  destruct (Z.eqb_spec (d / 2 ^ 32) 0) as [E|Hnz].
  { apply Z.div_small_iff in E; [|lia]. assert (d < 2 ^ 32) by lia.
    rewrite u32_small by (unfold is_u32; lia). apply div_u64_spec; [done|lia]. }
  destruct Hq as [Hlt|Hq]; [rewrite Z.div_small in Hnz by lia; done|].
  assert (2 ^ 32 <= d) by (destruct (Z.lt_ge_cases d (2 ^ 32)); [rewrite Z.div_small in Hnz|]; lia).
  destruct (shifted_divisor d) as (Hpos & Hn & He); [lia|]. set (n := 1 + fls (d / 2 ^ 32)) in *.
  rewrite !Z.shiftr_div_pow2 by lia. unfold is_u64 in Ha.
  rewrite u32_small by (unfold is_u32; lia). rewrite div_u64_spec; [| |lia].
  - cbn [mbind res_bind]. f_equal. apply corrected_quotient; [done|lia|].
    pose proof (Z.div_mod d (2 ^ n) ltac:(lia)). pose proof (Z.mod_pos_bound d (2 ^ n) Hpos).
    apply approximate_quotient; lia.
  - unfold is_u64. split; [apply Z.div_pos; lia|]. apply Z.div_lt_upper_bound; nia.
Qed.

Lemma div64_u64_exact_witness : div64_u64 (2 ^ 62 + 12345) (2 ^ 33 + 1) = Ok ((2 ^ 62 + 12345) / (2 ^ 33 + 1)).
Proof.
  apply (div64_u64_exact (2 ^ 62 + 12345) (2 ^ 33 + 1)); [unfold is_u64; lia|lia|].
  right. vm_compute. reflexivity.
Defined.

(** Beyond that bound the result can be wrong.  The shift by [1 + fls(high)]
    drops one bit more of the divisor than it must, and the correction by one
    does not make up for it: [2^64 - 1] divided by [2^32 + 3] comes out as
    [4294967295] and not as [4294967293]. *)
Theorem div64_u64_off :
  div64_u64 (2 ^ 64 - 1) (2 ^ 32 + 3) = Ok 4294967295 /\ (2 ^ 64 - 1) / (2 ^ 32 + 3) = 4294967293.
Proof. split; vm_compute; reflexivity. Qed.

(** ** Signed division *)

Lemma s64_small x : - 2 ^ 63 <= x < 2 ^ 63 -> s64 x = x.
Proof. intros H. unfold s64. rewrite Z.mod_small; lia. Qed.

Lemma s64_u64_opp x : 0 <= x <= 2 ^ 63 -> s64 (u64 (- x)) = - x.
Proof.
  intros H. unfold s64, u64. rewrite Zplus_mod_idemp_l. rewrite Z.mod_small; lia.
Qed.

(** [div_s64_rem] is the truncating signed division of C, with a remainder
    that has the sign of the dividend, for every divisor but 0; only the
    quotient [2^63] does not fit. *)
Theorem div_s64_rem_correct a d :
  - 2 ^ 63 <= a < 2 ^ 63 -> is_s32 d -> d <> 0 -> (a, d) <> (- 2 ^ 63, -1) ->
  div_s64_rem a d = Ok (Z.quot a d, Z.rem a d).
Proof.
  intros Ha Hd Hnz Hov. unfold is_s32 in Hd. unfold div_s64_rem, div_u64_rem.
  rewrite (u32_small (Z.abs d)) by (unfold is_u32; lia).
  assert (Hq : forall x, 0 <= x -> x / Z.abs d <= x).
  { intros x Hx. apply Z.div_le_upper_bound; nia. }
  destruct (Z.ltb_spec a 0).
  - rewrite (u64_small (- a)), do_div_spec by (unfold is_u64; lia). cbn [mbind res_bind].
    pose proof (Z.mod_pos_bound (- a) (Z.abs d) ltac:(lia)).
    pose proof (Z.div_pos (- a) (Z.abs d) ltac:(lia) ltac:(lia)). specialize (Hq (- a) ltac:(lia)).
    rewrite !s32_small by (unfold is_s32; rewrite ?s32_small by (unfold is_s32; lia); lia).
    assert (Er : - (- a mod Z.abs d) = Z.rem a d).
    { rewrite <- Z.rem_mod_nonneg by lia. rewrite Z.rem_opp_l by lia. rewrite Z.opp_involutive.
      apply Z.rem_abs_r. done. }
    rewrite Er. f_equal. f_equal. destruct (Z.ltb_spec 0 d).
    + rewrite s64_u64_opp by lia. rewrite Z.abs_eq, <- Z.quot_div_nonneg, Z.quot_opp_l by lia. lia.
    + rewrite Z.abs_neq in * by lia. rewrite <- Z.quot_div_nonneg, Z.quot_opp_opp in * by lia.
      apply s64_small. destruct (Z.eq_dec d (-1)) as [->|].
      * assert (a <> - 2 ^ 63) by (intros ->; done). lia.
      * assert (Z.quot a d <= 2 ^ 62); [|lia]. rewrite <- (Z.quot_opp_opp a d), Z.quot_div_nonneg by lia.
        apply Z.div_le_upper_bound; lia.
  - rewrite (u64_small a), do_div_spec by (unfold is_u64; lia). cbn [mbind res_bind].
    pose proof (Z.mod_pos_bound a (Z.abs d) ltac:(lia)).
    pose proof (Z.div_pos a (Z.abs d) ltac:(lia) ltac:(lia)). specialize (Hq a ltac:(lia)).
    rewrite s32_small by (unfold is_s32; lia).
    rewrite <- (Z.rem_mod_nonneg a (Z.abs d)), Z.rem_abs_r by lia. f_equal. f_equal.
    destruct (Z.ltb_spec d 0).
    + rewrite s64_u64_opp by lia. rewrite Z.abs_neq, <- Z.quot_div_nonneg, Z.quot_opp_r by lia. lia.
    + rewrite Z.abs_eq in * by lia. rewrite <- Z.quot_div_nonneg in * by lia. apply s64_small. lia.
Qed.

Lemma div_s64_rem_correct_witness : div_s64_rem (- 2 ^ 40 - 1) (- 7) = Ok (Z.quot (- 2 ^ 40 - 1) (- 7), Z.rem (- 2 ^ 40 - 1) (- 7)).
Proof. apply (div_s64_rem_correct (- 2 ^ 40 - 1) (- 7)); [lia|unfold is_s32; lia|lia|discriminate]. Defined.
