(* ===== verification/Kfifo.v ===== *)
(** kernel/kfifo.c and the macros of include/linux/kfifo.h: a queue of
    elements, or of records of bytes, in a ring buffer whose size is a power of
    two.

    The counters [in] and [out] run through all 32-bit values; the buffer is
    the list of its bytes, and a null pointer the empty list.  A copy from or
    to the buffer outside its bounds is [Fault OutOfBounds].  User memory is the
    list of the bytes that can be read, or the number of those that can be
    written.  The scatter lists of the DMA functions are not modelled. *)

From S2P Require Import Prelude Div64.

(** ** include/linux/log2.h *)

Definition is_power_of_2 (n : Z) : bool := negb (n =? 0) && (Z.land n (u32 (n - 1)) =? 0).

(** [1UL << (fls_long(n) - 1)]. *)
Definition rounddown_pow_of_two (n : Z) : res Z :=
  let s := fls n - 1 in if s <? 0 then Fault BadShift else Ok (u32 (Z.shiftl 1 s)).

(** ** Memory *)

Definition mem_get (m : list Z) (off n : Z) : res (list Z) :=
  if (0 <=? off) && (0 <=? n) && (off + n <=? zlen m) then Ok (slice m off n) else Fault OutOfBounds.

Definition mem_put (m : list Z) (off : Z) (b : list Z) : res (list Z) :=
  if (0 <=? off) && (off + zlen b <=? zlen m)
  then Ok (slice m 0 off ++ b ++ drop (Z.to_nat (off + zlen b)) m) else Fault OutOfBounds.

(** [copy_from_user] of [n] bytes from the offset [o] of [from], of which
    only what is in the list can be read: the bytes that arrive, with zeros for
    the others, and the number of those. *)
Definition copy_from_user (from : list Z) (o n : Z) : list Z * Z :=
  let got := Z.min n (Z.max 0 (zlen from - o)) in
  (slice from o got ++ replicate (Z.to_nat (n - got)) 0, n - got).

(** [copy_to_user] of [b] to a place with room for [room] bytes. *)
Definition copy_to_user (room : Z) (b : list Z) : list Z * Z :=
  let put := Z.min (zlen b) (Z.max 0 room) in (slice b 0 put, zlen b - put).

(** Unsigned division, and the division that rounds up. *)
Definition udiv (n d : Z) : res Z := if d =? 0 then Fault DivideByZero else Ok (n / d).

Definition DIV_ROUND_UP (n d : Z) : res Z := udiv (u32 (u32 (n + d) - 1)) d.

(** ** The queue *)

Record __kfifo : Type := mk_kfifo {
  in_ : Z;
  out : Z;
  mask : Z;
  esize : Z;
  data : list Z
}.

Definition set_in (v : Z) (f : __kfifo) : __kfifo := mk_kfifo v (out f) (mask f) (esize f) (data f).
Definition set_out (v : Z) (f : __kfifo) : __kfifo := mk_kfifo (in_ f) v (mask f) (esize f) (data f).
Definition set_data (v : list Z) (f : __kfifo) : __kfifo := mk_kfifo (in_ f) (out f) (mask f) (esize f) v.

Definition kfifo_unused (f : __kfifo) : Z := u32 (u32 (mask f + 1) - u32 (in_ f - out f)).

(** [kmalloc n] is the memory that is allocated, whatever it holds. *)
Definition __kfifo_alloc (kmalloc : Z -> option (list Z)) (size esize : Z) : res (Z * __kfifo) :=
  size ← (if negb (is_power_of_2 size) then rounddown_pow_of_two size else Ok size);
  if size <? 2 then Ok (- EINVAL, mk_kfifo 0 0 0 esize [])
  else
    match kmalloc (u32 (size * esize)) with
    | None => Ok (- ENOMEM, mk_kfifo 0 0 0 esize [])
    | Some data => Ok (0, mk_kfifo 0 0 (size - 1) esize data)
    end.

Definition __kfifo_free : __kfifo := mk_kfifo 0 0 0 0 [].

Definition __kfifo_init (buffer : list Z) (size esize : Z) : res (Z * __kfifo) :=
  size ← udiv size esize;
  size ← (if negb (is_power_of_2 size) then rounddown_pow_of_two size else Ok size);
  if size <? 2 then Ok (- EINVAL, mk_kfifo 0 0 0 esize buffer)
  else Ok (0, mk_kfifo 0 0 (size - 1) esize buffer).

(** The offset, the size of the buffer and the length in bytes, and how much
    lies before the end of the buffer: the start of all the copies. *)
Definition span (f : __kfifo) (len off : Z) : Z * Z * Z :=
  let size := u32 (mask f + 1) in
  let off := Z.land off (mask f) in
  let '(off, size, len) :=
    if negb (esize f =? 1) then (u32 (off * esize f), u32 (size * esize f), u32 (len * esize f))
    else (off, size, len) in
  (off, len, Z.min len (u32 (size - off))).

Definition kfifo_copy_in (f : __kfifo) (src : list Z) (len off : Z) : res __kfifo :=
  let '(off, len, l) := span f len off in
  a ← mem_get src 0 l; m ← mem_put (data f) off a;
  b ← mem_get src l (u32 (len - l)); m ← mem_put m 0 b;
  Ok (set_data m f).

Definition __kfifo_in (f : __kfifo) (buf : list Z) (len : Z) : res (Z * __kfifo) :=
  let l := kfifo_unused f in
  let len := if l <? len then l else len in
  f ← kfifo_copy_in f buf len (in_ f);
  Ok (len, set_in (u32 (in_ f + len)) f).

(** The bytes that are written to [dst]. *)
Definition kfifo_copy_out (f : __kfifo) (len off : Z) : res (list Z) :=
  let '(off, len, l) := span f len off in
  a ← mem_get (data f) off l; b ← mem_get (data f) 0 (u32 (len - l)); Ok (a ++ b).

Definition __kfifo_out_peek (f : __kfifo) (len : Z) : res (Z * list Z) :=
  let l := u32 (in_ f - out f) in
  let len := if l <? len then l else len in
  buf ← kfifo_copy_out f len (out f); Ok (len, buf).

Definition __kfifo_out (f : __kfifo) (len : Z) : res (Z * list Z * __kfifo) :=
  '(len, buf) ← __kfifo_out_peek f len; Ok (len, buf, set_out (u32 (out f + len)) f).

(** The number of elements not copied, and [*copied]. *)
Definition kfifo_copy_from_user (f : __kfifo) (from : list Z) (len off : Z) : res (Z * Z * __kfifo) :=
  let '(off, len, l) := span f len off in
  let '(a, ret) := copy_from_user from 0 l in
  m ← mem_put (data f) off a;
  '(ret, m) ←
    (if nonzero ret then ret ← DIV_ROUND_UP (u32 (u32 (ret + len) - l)) (esize f); Ok (ret, m)
     else
       let '(b, ret) := copy_from_user from l (u32 (len - l)) in
       m ← mem_put m 0 b;
       ret ← (if nonzero ret then DIV_ROUND_UP ret (esize f) else Ok ret); Ok (ret, m));
  Ok (ret, u32 (len - ret), set_data m f).

Definition __kfifo_from_user (f : __kfifo) (from : list Z) (len : Z) : res (Z * Z * __kfifo) :=
  len ← (if negb (esize f =? 1) then udiv len (esize f) else Ok len);
  let l := kfifo_unused f in
  let len := if l <? len then l else len in
  '(ret, copied, f) ← kfifo_copy_from_user f from len (in_ f);
  let '(len, err) := if nonzero ret then (u32 (len - ret), - EFAULT) else (len, 0) in
  Ok (err, copied, set_in (u32 (in_ f + len)) f).

(** Also the bytes that arrive at [to]. *)
Definition kfifo_copy_to_user (f : __kfifo) (room len off : Z) : res (Z * Z * list Z) :=
  let '(off, len, l) := span f len off in
  a ← mem_get (data f) off l;
  let '(a, ret) := copy_to_user room a in
  '(ret, to) ←
    (if nonzero ret then ret ← DIV_ROUND_UP (u32 (u32 (ret + len) - l)) (esize f); Ok (ret, a)
     else
       b ← mem_get (data f) 0 (u32 (len - l));
       let '(b, ret) := copy_to_user (room - l) b in
       ret ← (if nonzero ret then DIV_ROUND_UP ret (esize f) else Ok ret); Ok (ret, a ++ b));
  Ok (ret, u32 (len - ret), to).

Definition __kfifo_to_user (f : __kfifo) (room len : Z) : res (Z * Z * list Z * __kfifo) :=
  len ← (if negb (esize f =? 1) then udiv len (esize f) else Ok len);
  let l := u32 (in_ f - out f) in
  let len := if l <? len then l else len in
  '(ret, copied, to) ← kfifo_copy_to_user f room len (out f);
  let '(len, err) := if nonzero ret then (u32 (len - ret), - EFAULT) else (len, 0) in
  Ok (err, copied, to, set_out (u32 (out f + len)) f).

(** ** Records

    [recsize], the size of the length field, is 1 or 2. *)

Definition __kfifo_max_r (len recsize : Z) : Z :=
  let max := u32 (Z.shiftl 1 (Z.shiftl recsize 3) - 1) in if max <? len then max else len.

Definition __KFIFO_PEEK (f : __kfifo) (o : Z) : res Z := rd (data f) (Z.land (u32 o) (mask f)).

Definition __kfifo_peek_n (f : __kfifo) (recsize : Z) : res Z :=
  l ← __KFIFO_PEEK f (out f);
  if nonzero (recsize - 1) then h ← __KFIFO_PEEK f (out f + 1); Ok (Z.lor l (Z.shiftl h 8)) else Ok l.

Definition __KFIFO_POKE (f : __kfifo) (i v : Z) : res __kfifo :=
  m ← mem_put (data f) (Z.land (u32 i) (mask f)) [u8 v]; Ok (set_data m f).

Definition __kfifo_poke_n (f : __kfifo) (n recsize : Z) : res __kfifo :=
  f ← __KFIFO_POKE f (in_ f) n;
  if 1 <? recsize then __KFIFO_POKE f (in_ f + 1) (Z.shiftr n 8) else Ok f.

Definition __kfifo_len_r (f : __kfifo) (recsize : Z) : res Z := __kfifo_peek_n f recsize.

Definition __kfifo_in_r (f : __kfifo) (buf : list Z) (len recsize : Z) : res (Z * __kfifo) :=
  if kfifo_unused f <? u32 (len + recsize) then Ok (0, f)
  else
    f ← __kfifo_poke_n f len recsize;
    f ← kfifo_copy_in f buf len (u32 (in_ f + recsize));
    Ok (len, set_in (u32 (in_ f + (len + recsize))) f).

(** Also [*n], the length of the record. *)
Definition kfifo_out_copy_r (f : __kfifo) (len recsize : Z) : res (Z * list Z * Z) :=
  n ← __kfifo_peek_n f recsize;
  let len := if n <? len then n else len in
  buf ← kfifo_copy_out f len (u32 (out f + recsize)); Ok (len, buf, n).

Definition __kfifo_out_peek_r (f : __kfifo) (len recsize : Z) : res (Z * list Z) :=
  if in_ f =? out f then Ok (0, [])
  else '(len, buf, _) ← kfifo_out_copy_r f len recsize; Ok (len, buf).

Definition __kfifo_out_r (f : __kfifo) (len recsize : Z) : res (Z * list Z * __kfifo) :=
  if in_ f =? out f then Ok (0, [], f)
  else
    '(len, buf, n) ← kfifo_out_copy_r f len recsize;
    Ok (len, buf, set_out (u32 (out f + (n + recsize))) f).

Definition __kfifo_skip_r (f : __kfifo) (recsize : Z) : res __kfifo :=
  n ← __kfifo_peek_n f recsize; Ok (set_out (u32 (out f + (n + recsize))) f).

Definition __kfifo_from_user_r (f : __kfifo) (from : list Z) (len recsize : Z) : res (Z * Z * __kfifo) :=
  let len := __kfifo_max_r len recsize in
  if kfifo_unused f <? u32 (len + recsize) then Ok (0, 0, f)
  else
    f ← __kfifo_poke_n f len recsize;
    '(ret, copied, f) ← kfifo_copy_from_user f from len (u32 (in_ f + recsize));
    if nonzero ret then Ok (- EFAULT, 0, f)
    else Ok (0, copied, set_in (u32 (in_ f + (len + recsize))) f).

Definition __kfifo_to_user_r (f : __kfifo) (room len recsize : Z) : res (Z * Z * list Z * __kfifo) :=
  if in_ f =? out f then Ok (0, 0, [], f)
  else
    n ← __kfifo_peek_n f recsize;
    let len := if n <? len then n else len in
    '(ret, copied, to) ← kfifo_copy_to_user f room len (u32 (out f + recsize));
    if nonzero ret then Ok (- EFAULT, 0, to, f)
    else Ok (0, copied, to, set_out (u32 (out f + (n + recsize))) f).

Definition __kfifo_dma_in_finish_r (f : __kfifo) (len recsize : Z) : res __kfifo :=
  let len := __kfifo_max_r len recsize in
  f ← __kfifo_poke_n f len recsize; Ok (set_in (u32 (in_ f + (len + recsize))) f).

Definition __kfifo_dma_out_finish_r (f : __kfifo) (recsize : Z) : res __kfifo :=
  len ← __kfifo_peek_n f recsize; Ok (set_out (u32 (out f + (len + recsize))) f).

(** ** include/linux/kfifo.h, for a queue of elements *)

Definition kfifo_initialized (f : __kfifo) : bool := nonzero (mask f).
Definition kfifo_size (f : __kfifo) : Z := u32 (mask f + 1).
Definition kfifo_len (f : __kfifo) : Z := u32 (in_ f - out f).
Definition kfifo_is_empty (f : __kfifo) : bool := in_ f =? out f.
Definition kfifo_is_full (f : __kfifo) : bool := mask f <? kfifo_len f.
Definition kfifo_reset (f : __kfifo) : __kfifo := set_in 0 (set_out 0 f).
Definition kfifo_reset_out (f : __kfifo) : __kfifo := set_out (in_ f) f.

Definition kfifo_avail (f : __kfifo) (recsize : Z) : Z :=
  let avail := u32 (u32 (mask f + 1) - kfifo_len f) in
  if nonzero recsize then
    if avail <=? recsize then 0 else __kfifo_max_r (avail - recsize) recsize
  else avail.

Definition kfifo_skip (f : __kfifo) : __kfifo := set_out (u32 (out f + 1)) f.

(** [data[in & mask] = *val]. *)
Definition kfifo_put (f : __kfifo) (val : list Z) : res (Z * __kfifo) :=
  if kfifo_is_full f then Ok (0, f)
  else
    m ← mem_put (data f) (Z.land (in_ f) (mask f) * esize f) val;
    Ok (1, set_in (u32 (in_ f + 1)) (set_data m f)).

Definition kfifo_peek (f : __kfifo) : res (option (list Z)) :=
  if kfifo_is_empty f then Ok None
  else val ← mem_get (data f) (Z.land (out f) (mask f) * esize f) (esize f); Ok (Some val).

Definition kfifo_get (f : __kfifo) : res (option (list Z) * __kfifo) :=
  if kfifo_is_empty f then Ok (None, f)
  else
    val ← mem_get (data f) (Z.land (out f) (mask f) * esize f) (esize f);
    Ok (Some val, set_out (u32 (out f + 1)) f).

(** * The ring

    [ring D m p n]: the [n] bytes from the position [p] on, positions counted
    modulo [D]. *)
Definition at_pos (D : Z) (m : list Z) (p : Z) : Z := default 0 (znth m (p mod D)).
Definition ring (D : Z) (m : list Z) (p n : Z) : list Z := (fun j => at_pos D m (p + j)) <$> seqZ 0 n.

Lemma zlen_ring D m p n : 0 <= n -> zlen (ring D m p n) = n.
Proof. intros. unfold ring, zlen. rewrite length_fmap, length_seqZ. lia. Qed.

Lemma znth_ring D m p n j : 0 <= j < n -> znth (ring D m p n) j = Some (at_pos D m (p + j)).
Proof.
  intros. unfold ring. rewrite znth_lookup by lia. rewrite list_lookup_fmap, lookup_seqZ_lt by lia.
  simpl. do 3 f_equal. lia.
Qed.

Lemma ring_eq D m p n l :
  0 <= n -> zlen l = n -> (forall j, 0 <= j < n -> znth l j = Some (at_pos D m (p + j))) ->
  ring D m p n = l.
Proof.
  intros Hn Hl H. apply list_eq_znth; rewrite zlen_ring by done; [done|].
  intros j Hj. by rewrite znth_ring, H.
Qed.

Lemma ring_cong D m q p n : q mod D = p mod D -> ring D m p n = ring D m q n.
Proof.
  intros H. unfold ring. apply list_fmap_ext. intros _ j _. unfold at_pos.
  by rewrite <- Zplus_mod_idemp_l, <- H, Zplus_mod_idemp_l.
Qed.

Lemma ring_ext D m m' p n :
  (forall j, 0 <= j < n -> at_pos D m (p + j) = at_pos D m' (p + j)) -> ring D m p n = ring D m' p n.
Proof.
  intros H. unfold ring. apply list_fmap_ext. intros i j Hj%lookup_seqZ. apply H. lia.
Qed.

Lemma ring_app D m p a b :
  0 <= a -> 0 <= b -> ring D m p (a + b) = ring D m p a ++ ring D m (p + a) b.
Proof.
  intros Ha Hb. apply ring_eq; [lia|rewrite zlen_app, !zlen_ring; lia|].
  intros j Hj. destruct (Z.lt_ge_cases j a).
  - rewrite znth_app_l, znth_ring; rewrite ?zlen_ring; try lia. done.
  - rewrite znth_app_r, zlen_ring, znth_ring; rewrite ?zlen_ring; try lia. do 2 f_equal. lia.
Qed.

Lemma ring_take D m p n k : 0 <= k <= n -> slice (ring D m p n) 0 k = ring D m p k.
Proof.
  intros. replace n with (k + (n - k)) by lia. rewrite ring_app by lia.
  rewrite slice_app_l by (rewrite ?zlen_ring; lia).
  rewrite <- (zlen_ring D m p k) at 2 by lia. apply slice_full.
Qed.

Lemma ring_drop D m p n k : 0 <= k <= n -> slice (ring D m p n) k (n - k) = ring D m (p + k) (n - k).
Proof.
  intros. replace n with (k + (n - k)) at 1 by lia. rewrite ring_app by lia.
  rewrite slice_app_r by (rewrite zlen_ring; lia). rewrite zlen_ring, Z.sub_diag by lia.
  rewrite <- (zlen_ring D m (p + k) (n - k)) at 2 by lia. apply slice_full.
Qed.

Lemma ring_slice D m p n : 0 <= p -> 0 <= n -> p + n <= D -> D <= zlen m -> ring D m p n = slice m p n.
Proof.
  intros. apply ring_eq; [done|apply slice_length; lia|]. intros j Hj. rewrite znth_slice by lia.
  unfold at_pos. rewrite Z.mod_small by lia.
  destruct (znth_is_Some m (p + j)) as [x ->]; [lia|done].
Qed.

(** The two parts of a copy make the ring from [p]. *)
Lemma ring_parts D m p n :
  0 <= p < D -> 0 <= n <= D -> D <= zlen m ->
  let l := Z.min n (D - p) in slice m p l ++ slice m 0 (n - l) = ring D m p n.
Proof.
  intros Hp Hn Hm l. subst l. replace (ring D m p n) with (ring D m p (Z.min n (D - p) + (n - Z.min n (D - p))))
    by (f_equal; lia).
  rewrite ring_app by lia. rewrite ring_slice by lia. f_equal.
  destruct (Z.le_ge_cases n (D - p)).
  - rewrite Z.min_l, Z.sub_diag by lia. done.
  - rewrite Z.min_r by lia. rewrite <- (ring_slice D) by lia. apply ring_cong.
    replace (p + (D - p)) with (0 + 1 * D) by lia. by rewrite Z_mod_plus_full.
Qed.

(** [wrote D m m' p b]: [m'] is [m] with the bytes [b] from the position [p]
    on, and nothing else changed in the ring. *)
Record wrote (D : Z) (m m' : list Z) (p : Z) (b : list Z) : Prop := mk_wrote {
  wr_len : zlen m' = zlen m;
  wr_new : ring D m' p (zlen b) = b;
  wr_old : forall q n, q + n <= p -> p + zlen b <= q + D -> ring D m' q n = ring D m q n
}.

Lemma mem_get_Ok m off n :
  0 <= off -> 0 <= n -> off + n <= zlen m -> mem_get m off n = Ok (slice m off n).
Proof. intros. unfold mem_get. by repeat (bcase; try lia; simpl). Qed.

Lemma mem_put_Ok m off b :
  0 <= off -> off + zlen b <= zlen m ->
  exists m', mem_put m off b = Ok m' /\ zlen m' = zlen m /\
    forall i, 0 <= i -> znth m' i = if (off <=? i) && (i <? off + zlen b) then znth b (i - off) else znth m i.
Proof.
  intros H H0. assert (Hb := zlen_nonneg b). unfold mem_put.
  destruct (Z.leb_spec 0 off); [|lia]. destruct (Z.leb_spec (off + zlen b) (zlen m)); [|lia]. simpl.
  assert (Hs : zlen (slice m 0 off) = off) by (apply slice_length; lia).
  eexists. split; [done|]. split.
  { rewrite !zlen_app, Hs. unfold zlen in *. rewrite length_drop. lia. }
  intros i Hi. destruct (Z.leb_spec off i); simpl.
  - rewrite znth_app_r, Hs by lia. destruct (Z.ltb_spec i (off + zlen b)).
    + by rewrite znth_app_l by lia.
    + rewrite znth_app_r by lia. rewrite !znth_lookup by lia. rewrite lookup_drop. f_equal. lia.
  - rewrite znth_app_l by lia. by rewrite znth_slice by lia.
Qed.

Lemma mod_same_iff D p a j :
  0 < D -> 0 <= a < D -> p mod D = a -> 0 <= j < D ->
  (p + j) mod D = if a + j <? D then a + j else a + j - D.
Proof.
  intros HD Ha Hp Hj. rewrite <- Zplus_mod_idemp_l, Hp. bcase.
  - apply Z.mod_small. lia.
  - symmetry. apply Zmod_unique with 1; lia.
Qed.

Lemma put_wrote D m p a b :
  0 < D -> 0 <= a -> a + zlen b <= D -> D <= zlen m -> (b <> [] -> p mod D = a) ->
  exists m', mem_put m a b = Ok m' /\ wrote D m m' p b.
Proof.
  intros HD Ha Hb Hm Hp. destruct (mem_put_Ok m a b) as (m' & E & Hl & Hi); [lia|lia|].
  exists m'. split; [done|]. assert (Hn := zlen_nonneg b).
  destruct (decide (b = [])) as [->|Hne].
  { rewrite zlen_nil in *. split; [done..|]. intros q n _ _. apply ring_ext. intros j _.
    unfold at_pos. f_equal. rewrite Hi by (apply Z.mod_pos_bound; lia).
    rewrite zlen_nil. destruct (Z.leb_spec a ((q + j) mod D)), (Z.ltb_spec ((q + j) mod D) (a + 0)); try lia; done. }
  specialize (Hp Hne). assert (0 < zlen b) by (destruct b; [done|rewrite zlen_cons; specialize (zlen_nonneg b); lia]).
  split; [done| |].
  - apply ring_eq; [done|done|]. intros j Hj. unfold at_pos. rewrite (mod_same_iff D p a j) by lia.
    destruct (Z.ltb_spec (a + j) D); [|lia]. rewrite Hi by lia.
    destruct (Z.leb_spec a (a + j)); [|lia]. destruct (Z.ltb_spec (a + j) (a + zlen b)); [|lia]. simpl.
    replace (a + j - a) with j by lia. destruct (znth_is_Some b j) as [x ->]; [lia|done].
  - intros q n Hq Hd. apply ring_ext. intros j Hj. unfold at_pos. f_equal.
    rewrite Hi by (apply Z.mod_pos_bound; lia).
    destruct (Z.leb_spec a ((q + j) mod D)); [|done].
    destruct (Z.ltb_spec ((q + j) mod D) (a + zlen b)); [|done]. exfalso.
    assert (Hpq := mod_same_iff D p a (q + j + D - p) HD ltac:(lia) Hp ltac:(lia)).
    replace (p + (q + j + D - p)) with ((q + j) + 1 * D) in Hpq by lia. rewrite Z_mod_plus_full in Hpq.
    revert Hpq. bcase; lia.
Qed.

Lemma wrote_trans D m m1 m2 p b c :
  zlen b + zlen c <= D -> wrote D m m1 p b -> wrote D m1 m2 (p + zlen b) c -> wrote D m m2 p (b ++ c).
Proof.
  intros HD [L1 N1 O1] [L2 N2 O2]. assert (Hb := zlen_nonneg b). assert (Hc := zlen_nonneg c).
  split; [congruence| |].
  - rewrite zlen_app, ring_app by done. rewrite N2. f_equal. rewrite O2 by lia. done.
  - intros q n. rewrite zlen_app. intros. rewrite O2 by lia. apply O1; lia.
Qed.

(** * The invariant *)

Definition cap (f : __kfifo) : Z := mask f + 1.
Definition room (f : __kfifo) : Z := cap f * esize f.

Record fifo_ok (f : __kfifo) : Prop := mk_fifo_ok {
  fo_mask : exists k, 0 <= k <= 31 /\ mask f = 2 ^ k - 1;
  fo_esize : 1 <= esize f;
  fo_room : room f + esize f <= 2 ^ 32;
  fo_data : room f <= zlen (data f);
  fo_in : is_u32 (in_ f);
  fo_out : is_u32 (out f);
  fo_len : kfifo_len f <= cap f
}.

(** The bytes of the elements in the queue, the oldest first. *)
Definition contents (f : __kfifo) : list Z :=
  ring (room f) (data f) (out f * esize f) (kfifo_len f * esize f).

Section Ok.
Context (f : __kfifo) (Hf : fifo_ok f).

Lemma cap_divides : exists c, 0 < c /\ 2 ^ 32 = cap f * c.
Proof.
  destruct (fo_mask _ Hf) as (k & Hk & E). exists (2 ^ (32 - k)). unfold cap. rewrite E.
  replace (2 ^ k - 1 + 1) with (2 ^ k) by lia. rewrite <- Z.pow_add_r by lia.
  split; [apply Z.pow_pos_nonneg; lia|f_equal; lia].
Qed.

Lemma cap_range : 1 <= cap f <= 2 ^ 31.
Proof.
  destruct (fo_mask _ Hf) as (k & Hk & E). unfold cap. rewrite E.
  assert (0 < 2 ^ k) by (apply Z.pow_pos_nonneg; lia).
  assert (2 ^ k <= 2 ^ 31) by (apply Z.pow_le_mono_r; lia). lia.
Qed.

Lemma room_pos : cap f <= room f /\ 0 < room f.
Proof. assert (H := cap_range). assert (He := fo_esize _ Hf). unfold room. nia. Qed.

Lemma len_range : 0 <= kfifo_len f <= cap f.
Proof. split; [unfold kfifo_len; apply u32_range|apply fo_len, Hf]. Qed.

Lemma unused_eq : kfifo_unused f = cap f - kfifo_len f.
Proof.
  assert (H := cap_range). assert (Hl := len_range). unfold kfifo_unused, kfifo_len in *.
  fold (cap f). rewrite (u32_small (cap f)) by (unfold is_u32; lia). apply u32_small. unfold is_u32. lia.
Qed.

Lemma land_mask off : Z.land off (mask f) = off mod cap f.
Proof.
  destruct (fo_mask _ Hf) as (k & Hk & E). unfold cap. rewrite E.
  replace (2 ^ k - 1) with (Z.ones k) by (rewrite Z.ones_equiv; lia).
  rewrite Z.land_ones by lia. f_equal. rewrite Z.ones_equiv. lia.
Qed.

(** A counter may wrap around: its position in the ring stays. *)
Lemma pos_u32 c : (u32 c * esize f) mod room f = (c * esize f) mod room f.
Proof.
  destruct cap_divides as (d & Hd & E). assert (Hc := cap_range). assert (He := fo_esize _ Hf).
  unfold room. rewrite !Z.mul_mod_distr_r by lia. f_equal. unfold u32. rewrite E.
  rewrite Z.rem_mul_r, (Z.mul_comm (cap f)), Z_mod_plus_full by lia. apply Z.mod_mod. lia.
Qed.

Lemma in_pos : (in_ f * esize f) mod room f = (out f * esize f + kfifo_len f * esize f) mod room f.
Proof.
  rewrite <- Z.mul_add_distr_r, <- (pos_u32 (out f + kfifo_len f)). do 2 f_equal.
  assert (Hi := fo_in _ Hf). unfold kfifo_len. ints.
Qed.

Lemma span_eq len off :
  0 <= len <= cap f ->
  span f len off =
    (off * esize f mod room f, len * esize f, Z.min (len * esize f) (room f - off * esize f mod room f)).
Proof.
  intros Hl. assert (Hc := cap_range). assert (He := fo_esize _ Hf). assert (Hr := fo_room _ Hf).
  assert (Hp := room_pos). assert (Hm : 0 <= off mod cap f < cap f) by (apply Z.mod_pos_bound; lia).
  assert (Hx : off * esize f mod room f = off mod cap f * esize f)
    by (unfold room; by rewrite Z.mul_mod_distr_r by lia).
  assert (Hb := Z.mod_pos_bound (off * esize f) (room f) ltac:(lia)).
  assert (0 <= len * esize f <= room f) by (unfold room; nia).
  unfold span. rewrite land_mask. fold (cap f). rewrite (u32_small (cap f)) by (unfold is_u32; lia).
  fold (room f). rewrite <- Hx.
  destruct (Z.eqb_spec (esize f) 1) as [E|E]; cbn [negb].
  - rewrite Hx in Hb |- *. unfold room in *. rewrite E, !Z.mul_1_r in *.
    by rewrite (u32_small (cap f - _)) by (unfold is_u32; lia).
  - rewrite !u32_small; try (unfold is_u32; lia); [done|]. rewrite !u32_small; unfold is_u32; lia.
Qed.

(** The two copies of [n] bytes to the position [p]. *)
Lemma put_parts b a p n :
  zlen b = n -> n <= room f -> a = p mod room f ->
  let l := Z.min n (room f - a) in
  exists m1 m2, mem_put (data f) a (slice b 0 l) = Ok m1 /\ wrote (room f) (data f) m1 p (slice b 0 l) /\
    mem_put m1 0 (slice b l (n - l)) = Ok m2 /\ wrote (room f) (data f) m2 p b.
Proof.
  intros Hn Hr -> l. assert (Hp := room_pos). assert (Hd := fo_data _ Hf). assert (H0 := zlen_nonneg b).
  assert (Ha := Z.mod_pos_bound p (room f) ltac:(lia)).
  assert (H1 : zlen (slice b 0 l) = l) by (apply slice_length; lia).
  assert (H2 : zlen (slice b l (n - l)) = n - l) by (apply slice_length; lia).
  destruct (put_wrote (room f) (data f) p (p mod room f) (slice b 0 l)) as (m1 & E1 & W1); [lia..|done|].
  assert (L1 := wr_len _ _ _ _ _ W1).
  destruct (put_wrote (room f) m1 (p + l) 0 (slice b l (n - l))) as (m2 & E2 & W2); [lia..| |].
  { intros Hne. assert (l = room f - p mod room f).
    { destruct (Z.le_ge_cases n (room f - p mod room f)); [|lia]. destruct Hne. by replace (n - l) with 0 by lia. }
    rewrite <- Zplus_mod_idemp_l. replace (p mod room f + l) with (0 + 1 * room f) by lia.
    by rewrite Z_mod_plus_full. }
  exists m1, m2. do 3 (split; [done|]).
  assert (Hsplit := slice_split b 0 l (n - l)). replace (l + (n - l)) with (zlen b) in Hsplit by lia.
  rewrite slice_full, Z.add_0_l in Hsplit. rewrite Hsplit by lia.
  apply wrote_trans with m1; [lia|done|]. by rewrite H1.
Qed.

Lemma copy_in_spec src len off p :
  0 <= len <= cap f -> len * esize f <= zlen src -> (off * esize f) mod room f = p mod room f ->
  exists m, kfifo_copy_in f src len off = Ok (set_data m f) /\
    wrote (room f) (data f) m p (slice src 0 (len * esize f)).
Proof.
  intros Hl Hs Hp. assert (He := fo_esize _ Hf). assert (Hr := room_pos). assert (Hr32 := fo_room _ Hf).
  unfold kfifo_copy_in. rewrite span_eq by done. cbn iota beta. rewrite Hp.
  assert (Ha := Z.mod_pos_bound p (room f) ltac:(lia)).
  set (n := len * esize f) in *. assert (Hn : 0 <= n <= room f) by (unfold n, room; nia).
  destruct (put_parts (slice src 0 n) (p mod room f) p n) as (m1 & m2 & E1 & _ & E2 & W);
    [apply slice_length; lia|lia|done|].
  rewrite !slice_slice, Z.add_0_l in E1, E2 by lia.
  rewrite u32_small by (unfold is_u32; lia). rewrite !mem_get_Ok by lia. cbn [mbind res_bind].
  rewrite E1. cbn [mbind res_bind]. rewrite E2. eauto.
Qed.

Lemma copy_out_spec len off p :
  0 <= len <= cap f -> (off * esize f) mod room f = p mod room f ->
  kfifo_copy_out f len off = Ok (ring (room f) (data f) p (len * esize f)).
Proof.
  intros Hl Hp. assert (He := fo_esize _ Hf). assert (Hr := room_pos). assert (Hd := fo_data _ Hf).
  unfold kfifo_copy_out. rewrite span_eq by done. cbn iota beta.
  assert (Ha := Z.mod_pos_bound (off * esize f) (room f) ltac:(lia)).
  assert (Hn : 0 <= len * esize f <= room f) by (unfold room; nia). assert (Hr32 := fo_room _ Hf).
  rewrite u32_small by (unfold is_u32; lia). rewrite !mem_get_Ok by lia. cbn [mbind res_bind].
  rewrite ring_parts by lia. f_equal. apply ring_cong. by rewrite Z.mod_mod by lia.
Qed.

(** An element more or less: what the counters' moves do. *)
Lemma publish n b m :
  0 <= n -> n * esize f <= zlen b -> zlen b <= room f - kfifo_len f * esize f ->
  wrote (room f) (data f) m (out f * esize f + kfifo_len f * esize f) b ->
  let f' := set_in (u32 (in_ f + n)) (set_data m f) in
  fifo_ok f' /\ contents f' = contents f ++ slice b 0 (n * esize f) /\ kfifo_len f' = kfifo_len f + n.
Proof.
  intros Hn Hb Hfree W f'. destruct Hf as [Hk He Hr Hd Hi Ho Hl]. assert (Hc := cap_range). assert (Hlr := len_range).
  assert (Hfit : kfifo_len f + n <= cap f) by (unfold room in *; nia).
  assert (Hlen : kfifo_len f' = kfifo_len f + n).
  { unfold kfifo_len, f' in *. cbn in *. unfold cap in *. ints. }
  assert (Hlm := wr_len _ _ _ _ _ W). assert (Hnew := wr_new _ _ _ _ _ W).
  split; [|split; [|done]].
  - split; try done.
    + cbn [data f' set_in set_data]. change (room f') with (room f). lia.
    + apply u32_range.
    + rewrite Hlen. done.
  - unfold contents. rewrite Hlen, Z.mul_add_distr_r. cbn [mask esize data in_ out f' set_in set_data].
    change (room f') with (room f). rewrite ring_app by nia. f_equal.
    + apply (wr_old _ _ _ _ _ W); [lia|unfold room in *; nia].
    + rewrite <- Hnew. rewrite ring_take by nia. done.
Qed.

Lemma consume n :
  0 <= n <= kfifo_len f ->
  let f' := set_out (u32 (out f + n)) f in
  fifo_ok f' /\ contents f = ring (room f) (data f) (out f * esize f) (n * esize f) ++ contents f' /\
  kfifo_len f' = kfifo_len f - n.
Proof.
  intros Hn f'. destruct Hf as [Hk He Hr Hd Hi Ho Hl]. assert (Hc := cap_range). assert (Hlr := len_range).
  assert (Hlen : kfifo_len f' = kfifo_len f - n).
  { unfold kfifo_len, f' in *. cbn in *. unfold cap in *. ints. }
  split; [|split; [|done]].
  - split; try done; [apply u32_range|]. rewrite Hlen. change (cap f') with (cap f). lia.
  - unfold contents. rewrite Hlen. change (room f') with (room f). cbn [esize data out f' set_out].
    replace (kfifo_len f * esize f) with (n * esize f + (kfifo_len f - n) * esize f) by lia.
    rewrite ring_app by nia. f_equal. apply ring_cong. rewrite pos_u32. f_equal. lia.
Qed.

Lemma zlen_contents : zlen (contents f) = kfifo_len f * esize f.
Proof. apply zlen_ring. assert (H := len_range). assert (He := fo_esize _ Hf). nia. Qed.
End Ok.

(** ** Copies from and to user memory *)

Lemma ceil_div len e g : 0 < e -> 0 <= g <= len * e -> (len * e - g + e - 1) / e = len - g / e.
Proof.
  intros He Hg. symmetry. assert (Hm := Z.div_mod g e ltac:(lia)). assert (Hb := Z.mod_pos_bound g e He).
  apply Z.div_unique with (e - 1 - g mod e); lia.
Qed.

Lemma div_round_up_eq x e : 1 <= e -> 0 <= x -> x + e <= 2 ^ 32 -> DIV_ROUND_UP x e = Ok ((x + e - 1) / e).
Proof.
  intros He Hx Hs. unfold DIV_ROUND_UP, udiv. destruct (Z.eqb_spec e 0); [lia|]. do 2 f_equal. ints.
Qed.

(** What [copy_from_user] brings: the bytes of [from], and zeros after them. *)
Lemma copy_from_user_eq from o n K :
  0 <= o -> 0 <= n -> o + n <= K ->
  copy_from_user from o n =
    (slice (from ++ replicate (Z.to_nat K) 0) o n, n - Z.min n (Z.max 0 (zlen from - o))).
Proof.
  intros Ho Hn HK. unfold copy_from_user. set (got := Z.min n (Z.max 0 (zlen from - o))). f_equal.
  assert (Hg : 0 <= got <= n) by lia. replace n with (got + (n - got)) at 2 by lia.
  rewrite slice_split by lia. f_equal.
  - destruct (Z.lt_ge_cases (zlen from) o).
    + replace got with 0 by lia. by rewrite !slice_0.
    + by rewrite slice_app_l by lia.
  - destruct (decide (n = got)) as [E|Hne]; [by replace (n - got) with 0 by lia|].
    assert (H0 := zlen_nonneg from). rewrite slice_app_r by lia. unfold slice. rewrite drop_replicate, take_replicate. f_equal. lia.
Qed.

Section User.
Context (f : __kfifo) (Hf : fifo_ok f).

Lemma u32_u32_sub x y : u32 (u32 x - y) = u32 (x - y).
Proof. unfold u32. apply Zminus_mod_idemp_l. Qed.

(** The shortfall in elements. *)
Lemma shortfall len g :
  0 <= len <= cap f -> 0 <= g <= len * esize f ->
  (if nonzero (len * esize f - g) then DIV_ROUND_UP (len * esize f - g) (esize f)
   else Ok (len * esize f - g)) = Ok (len - g / esize f).
Proof.
  intros Hl Hg. assert (He := fo_esize _ Hf). assert (Hr := fo_room _ Hf).
  assert (len * esize f <= room f) by (unfold room; nia).
  unfold nonzero. destruct (Z.eqb_spec (len * esize f - g) 0) as [E|E]; cbn [negb].
  - f_equal. replace g with (len * esize f) by lia. rewrite Z.div_mul; lia.
  - rewrite div_round_up_eq by lia. by rewrite ceil_div by lia.
Qed.

Lemma whole_bound n e : 0 < e -> 0 <= n -> 0 <= n / e /\ n / e * e <= n.
Proof.
  intros He Hn. split; [apply Z.div_pos; lia|]. rewrite Z.mul_comm. apply Z.mul_div_le. lia.
Qed.

Lemma from_user_spec from len off p :
  0 <= len <= cap f -> (off * esize f) mod room f = p mod room f ->
  let whole := Z.min (len * esize f) (zlen from) / esize f in
  exists m b, kfifo_copy_from_user f from len off =
      Ok (len - whole, u32 (len * esize f - (len - whole)), set_data m f) /\
    wrote (room f) (data f) m p b /\ whole * esize f <= zlen b <= len * esize f /\
    slice b 0 (whole * esize f) = slice from 0 (whole * esize f).
Proof.
  intros Hl Hp whole. assert (He := fo_esize _ Hf). assert (Hr := room_pos f Hf). assert (Hr32 := fo_room _ Hf).
  unfold kfifo_copy_from_user. rewrite span_eq by done. cbn iota beta. rewrite Hp.
  assert (Ha := Z.mod_pos_bound p (room f) ltac:(lia)). assert (Hg := zlen_nonneg from).
  assert (Hsf := shortfall len (Z.min (len * esize f) (zlen from)) Hl).
  assert (Hwb := whole_bound (Z.min (len * esize f) (zlen from)) (esize f)). fold whole in Hsf, Hwb.
  set (n := len * esize f) in *. assert (Hn : 0 <= n <= room f) by (unfold n, room; nia).
  set (l := Z.min n (room f - p mod room f)). set (src := from ++ replicate (Z.to_nat n) 0).
  assert (Hsrc : n <= zlen src) by (unfold src; autorewrite with zlen; lia).
  destruct (put_parts f Hf (slice src 0 n) (p mod room f) p n) as (m1 & m2 & E1 & W1 & E2 & W2);
    [apply slice_length; lia|lia|done|].
  fold l in E1, W1, E2. rewrite !slice_slice, Z.add_0_l in E1, W1, E2 by lia.
  assert (Hu : forall k, whole * esize f <= k <= n ->
    slice (slice src 0 k) 0 (whole * esize f) = slice from 0 (whole * esize f)).
  { intros k Hk. rewrite slice_slice by lia. unfold src. rewrite slice_app_l by lia. done. }
  rewrite (u32_small (n - l)) by (unfold is_u32; lia).
  rewrite !(copy_from_user_eq _ _ _ n) by lia. fold src. rewrite E1. cbn [mbind res_bind].
  unfold nonzero at 1. destruct (Z.eqb_spec (l - Z.min l (Z.max 0 (zlen from - 0))) 0); cbn [negb].
  - rewrite E2. cbn [mbind res_bind].
    replace (n - l - Z.min (n - l) (Z.max 0 (zlen from - l))) with (n - Z.min n (zlen from)) by lia.
    rewrite Hsf by lia. cbn [mbind res_bind]. eexists m2, _. split; [done|]. split; [done|].
    rewrite slice_length by lia. split; [lia|]. apply Hu. lia.
  - rewrite u32_u32_sub, u32_small by (unfold is_u32; lia).
    replace (l - Z.min l (Z.max 0 (zlen from - 0)) + n - l) with (n - Z.min n (zlen from)) by lia.
    revert Hsf. unfold nonzero. destruct (Z.eqb_spec (n - Z.min n (zlen from)) 0); [lia|]. cbn [negb]. intros ->; [|lia].
    cbn [mbind res_bind]. eexists m1, _. split; [done|]. split; [done|].
    rewrite slice_length by lia. split; [lia|]. apply Hu. lia.
Qed.

Lemma to_user_spec r len off p :
  0 <= len <= cap f -> 0 <= r -> (off * esize f) mod room f = p mod room f ->
  let whole := Z.min (len * esize f) r / esize f in
  kfifo_copy_to_user f r len off =
    Ok (len - whole, u32 (len * esize f - (len - whole)),
        ring (room f) (data f) p (Z.min (len * esize f) r)).
Proof.
  intros Hl Hr0 Hp whole. assert (He := fo_esize _ Hf). assert (Hr := room_pos f Hf). assert (Hd := fo_data _ Hf).
  assert (Hr32 := fo_room _ Hf). unfold kfifo_copy_to_user. rewrite span_eq by done. cbn iota beta. rewrite Hp.
  assert (Ha := Z.mod_pos_bound p (room f) ltac:(lia)).
  assert (Hsf := shortfall len (Z.min (len * esize f) r) Hl). fold whole in Hsf.
  set (n := len * esize f) in *. assert (Hn : 0 <= n <= room f) by (unfold n, room; nia).
  assert (Hp1 := ring_parts (room f) (data f) (p mod room f) n ltac:(lia) ltac:(lia) Hd). cbv zeta in Hp1.
  set (l := Z.min n (room f - p mod room f)) in *. rewrite (u32_small (n - l)) by (unfold is_u32; lia).
  rewrite (ring_cong _ _ p) in Hp1 by (by rewrite Z.mod_mod by lia).
  rewrite !mem_get_Ok by lia. cbn [mbind res_bind]. unfold copy_to_user. rewrite !slice_length by lia.
  rewrite <- (ring_take _ _ _ n) by lia. rewrite <- Hp1.
  unfold nonzero at 1. destruct (Z.eqb_spec (l - Z.min l (Z.max 0 r)) 0); cbn [negb].
  - replace (n - l - Z.min (n - l) (Z.max 0 (r - l))) with (n - Z.min n r) by lia.
    rewrite Hsf by lia. cbn [mbind res_bind]. do 2 f_equal.
    replace (Z.min l (Z.max 0 r)) with l by lia. rewrite slice_slice by lia.
    replace (Z.min n r) with (l + Z.min (n - l) (Z.max 0 (r - l))) by lia. rewrite slice_split by lia.
    rewrite slice_app_l, slice_app_r by (rewrite ?slice_length; lia).
    rewrite slice_length, !slice_slice by lia. do 2 f_equal. lia.
  - rewrite u32_u32_sub, u32_small by (unfold is_u32; lia).
    replace (l - Z.min l (Z.max 0 r) + n - l) with (n - Z.min n r) by lia.
    revert Hsf. unfold nonzero. destruct (Z.eqb_spec (n - Z.min n r) 0); [lia|]. cbn [negb]. intros ->; [|lia].
    cbn [mbind res_bind]. do 2 f_equal. rewrite slice_app_l by (rewrite ?slice_length; lia). f_equal. lia.
Qed.
End User.
