(* ===== verification/KfifoQueue.v ===== *)
(** Queues of elements of kernel/kfifo.c: any sequence of the operations of
    Kfifo behaves as on a bounded list of bytes, through any wrap-around of the
    two counters, and where the copies from and to user memory fall short. *)

From S2P Require Import Prelude Div64 Kfifo.

(** * Histories

    Any sequence of operations on a queue of elements. *)
Inductive kfifo_op : Type :=
  | In (buf : list Z) (len : Z)
  | Out (len : Z)
  | OutPeek (len : Z)
  | FromUser (from : list Z) (len : Z)
  | ToUser (room len : Z)
  | Put (val : list Z)
  | Get
  | Peek
  | Skip
  | ResetAll
  | ResetOut
  | Ask.

Inductive reply : Type :=
  | Count (n : Z)
  | Bytes (n : Z) (b : list Z)
  | User (err copied : Z) (b : list Z)
  | Value (v : option (list Z))
  | Done
  | State (len avail : Z) (empty full : bool).

Definition kfifo_step (f : __kfifo) (o : kfifo_op) : res (reply * __kfifo) :=
  match o with
  | In buf len => '(n, f) ← __kfifo_in f buf len; Ok (Count n, f)
  | Out len => '(n, b, f) ← __kfifo_out f len; Ok (Bytes n b, f)
  | OutPeek len => '(n, b) ← __kfifo_out_peek f len; Ok (Bytes n b, f)
  | FromUser from len => '(e, c, f) ← __kfifo_from_user f from len; Ok (User e c [], f)
  | ToUser r len => '(e, c, b, f) ← __kfifo_to_user f r len; Ok (User e c b, f)
  | Put val => '(n, f) ← kfifo_put f val; Ok (Count n, f)
  | Get => '(v, f) ← kfifo_get f; Ok (Value v, f)
  | Peek => v ← kfifo_peek f; Ok (Value v, f)
  | Skip => Ok (Done, kfifo_skip f)
  | ResetAll => Ok (Done, kfifo_reset f)
  | ResetOut => Ok (Done, kfifo_reset_out f)
  | Ask => Ok (State (kfifo_len f) (kfifo_avail f 0) (kfifo_is_empty f) (kfifo_is_full f), f)
  end.

Fixpoint kfifo_run (f : __kfifo) (os : list kfifo_op) : res (list reply * __kfifo) :=
  match os with
  | [] => Ok ([], f)
  | o :: os => '(r, f) ← kfifo_step f o; '(rs, f) ← kfifo_run f os; Ok (r :: rs, f)
  end.

(** The same on the bytes of a queue of at most [c] elements of [e] bytes. *)
Section Spec.
Context (c e : Z).

Definition add (q : list Z) (b : list Z) (n : Z) : list Z := q ++ slice b 0 (n * e).
Definition rest (q : list Z) (n : Z) : list Z := drop (Z.to_nat (n * e)) q.
Definition count (q : list Z) : Z := zlen q / e.
Definition fault_code (w n : Z) : Z := if w <? n then - EFAULT else 0.

Definition queue_step (q : list Z) (o : kfifo_op) : reply * list Z :=
  match o with
  | In buf len => let n := Z.min len (c - count q) in (Count n, add q buf n)
  | Out len => let n := Z.min len (count q) in (Bytes n (slice q 0 (n * e)), rest q n)
  | OutPeek len => let n := Z.min len (count q) in (Bytes n (slice q 0 (n * e)), q)
  | FromUser from len =>
      let n := Z.min (len / e) (c - count q) in
      let w := Z.min (n * e) (zlen from) / e in
      (User (fault_code w n) (w * e) [], add q from w)
  | ToUser r len =>
      let n := Z.min (len / e) (count q) in
      let w := Z.min (n * e) r / e in
      (User (fault_code w n) (w * e) (slice q 0 (Z.min (n * e) r)), rest q w)
  | Put val => if count q <? c then (Count 1, q ++ val) else (Count 0, q)
  | Get => if count q =? 0 then (Value None, q) else (Value (Some (slice q 0 e)), rest q 1)
  | Peek => (Value (if count q =? 0 then None else Some (slice q 0 e)), q)
  | Skip => (Done, rest q 1)
  | ResetAll | ResetOut => (Done, [])
  | Ask => (State (count q) (c - count q) (count q =? 0) (count q =? c), q)
  end.

Fixpoint queue_run (q : list Z) (os : list kfifo_op) : list reply * list Z :=
  match os with
  | [] => ([], q)
  | o :: os => let '(r, q) := queue_step q o in let '(rs, q) := queue_run q os in (r :: rs, q)
  end.

(** A reply of the code as the one of the queue.  When a copy from or to user
    memory falls short and elements have more than one byte, the code counts
    too many bytes: the number of bytes asked for less the number of elements
    missing. *)
Definition agrees (r r' : reply) : Prop :=
  match r, r' with
  | User err n b, User err' n' b' => err' = err /\ b' = b /\ n <= n' /\ (err = 0 \/ e = 1 -> n' = n)
  | _, _ => r' = r
  end.

Lemma agrees_refl r : agrees r r.
Proof. destruct r; cbn; auto with lia. Qed.

(** What a caller owes: buffers as long as it says, values of the size of an
    element, and no [kfifo_skip] of an empty queue. *)
Definition op_valid (q : list Z) (o : kfifo_op) : Prop :=
  match o with
  | In buf len => 0 <= len /\ len * e <= zlen buf
  | Out len | OutPeek len => 0 <= len
  | FromUser _ len => 0 <= len
  | ToUser r len => 0 <= r /\ 0 <= len
  | Put val => zlen val = e
  | Skip => q <> []
  | _ => True
  end.

Fixpoint ops_valid (q : list Z) (os : list kfifo_op) : Prop :=
  match os with
  | [] => True
  | o :: os => op_valid q o /\ ops_valid (snd (queue_step q o)) os
  end.
End Spec.

Section Steps.
Context (f : __kfifo) (Hf : fifo_ok f).

Definition stepped (q : list Z) (f' : __kfifo) : Prop :=
  fifo_ok f' /\ contents f' = q /\ cap f' = cap f /\ esize f' = esize f.

Lemma count_contents : count (esize f) (contents f) = kfifo_len f.
Proof.
  assert (He := fo_esize _ Hf). unfold count. rewrite zlen_contents by done. apply Z.div_mul. lia.
Qed.

Lemma publish_step n src b m :
  0 <= n -> n * esize f <= zlen b -> zlen b <= room f - kfifo_len f * esize f ->
  wrote (room f) (data f) m (out f * esize f + kfifo_len f * esize f) b ->
  slice b 0 (n * esize f) = slice src 0 (n * esize f) ->
  stepped (add (esize f) (contents f) src n) (set_in (u32 (in_ f + n)) (set_data m f)).
Proof.
  intros Hn H1 H2 W Hs. destruct (publish f Hf n b m) as (Hf' & Hc & _); try done.
  repeat split; try done; try apply Hf'. rewrite Hc, Hs. done.
Qed.

Lemma consume_step n :
  0 <= n <= kfifo_len f -> stepped (rest (esize f) (contents f) n) (set_out (u32 (out f + n)) f).
Proof.
  intros Hn. assert (He := fo_esize _ Hf). destruct (consume f Hf n) as (Hf' & Hc & _); [done|].
  split; [done|]. split; [|done]. unfold rest. rewrite Hc, drop_app_ge; [|assert (H := zlen_ring (room f) (data f) (out f * esize f) (n * esize f)); unfold zlen in H; lia].
  assert (H := zlen_ring (room f) (data f) (out f * esize f) (n * esize f) ltac:(nia)). unfold zlen in H.
  by replace (Z.to_nat (n * esize f) - length (ring (room f) (data f) (out f * esize f) (n * esize f)))%nat with 0%nat by lia.
Qed.

Lemma prefix_ring k :
  0 <= k <= kfifo_len f * esize f ->
  ring (room f) (data f) (out f * esize f) k = slice (contents f) 0 k.
Proof. intros. unfold contents. by rewrite ring_take. Qed.

(** The operations one by one. *)
Abbreviation q := (contents f).
Abbreviation e := (esize f).
Abbreviation c := (cap f).
Definition steps_to (m : res (reply * __kfifo)) (o : kfifo_op) : Prop :=
  exists r f', m = Ok (r, f') /\ agrees e (fst (queue_step c e q o)) r /\ stepped (snd (queue_step c e q o)) f'.

Lemma steps_same m o f' :
  m = Ok (fst (queue_step c e q o), f') -> stepped (snd (queue_step c e q o)) f' -> steps_to m o.
Proof. intros -> H. eexists _, f'. split; [done|]. split; [apply agrees_refl|done]. Qed.

Lemma stepped_refl : stepped q f.
Proof. done. Qed.

Lemma min_if a b : (if a <? b then a else b) = Z.min b a.
Proof. bcase; lia. Qed.

Lemma udiv_e len : (if negb (e =? 1) then udiv len e else Ok len) = Ok (len / e).
Proof.
  assert (He := fo_esize _ Hf). destruct (Z.eqb_spec e 1) as [E|E]; simpl.
  - by rewrite E, Z.div_1_r.
  - unfold udiv. destruct (Z.eqb_spec e 0); [lia|done].
Qed.

Lemma in_step buf len : op_valid e q (In buf len) -> steps_to (kfifo_step f (In buf len)) (In buf len).
Proof.
  intros [H0 Hb]. assert (He := fo_esize _ Hf). assert (Hl := len_range f Hf).
  unfold steps_to. cbn [queue_step fst snd kfifo_step]. rewrite count_contents. unfold __kfifo_in.
  rewrite unused_eq, min_if by done. set (n := Z.min len (c - kfifo_len f)).
  assert (Hn : 0 <= n <= c) by lia. assert (Hs : n * e <= zlen buf) by nia.
  destruct (copy_in_spec f Hf buf n (in_ f) (out f * e + kfifo_len f * e)) as (m & -> & W);
    [done|done|by apply in_pos|].
  cbn [mbind res_bind]. eexists _, _. split; [done|]. split; [apply agrees_refl|]. cbn [in_ set_data].
  apply publish_step with (slice buf 0 (n * e)); rewrite ?slice_length by nia; try nia; [unfold room; nia|done|].
  rewrite slice_slice by nia. done.
Qed.

Lemma peek_eq len :
  0 <= len ->
  let n := Z.min len (kfifo_len f) in __kfifo_out_peek f len = Ok (n, slice q 0 (n * e)).
Proof.
  intros H0 n. assert (He := fo_esize _ Hf). assert (Hl := len_range f Hf). unfold __kfifo_out_peek.
  change (u32 (in_ f - out f)) with (kfifo_len f). rewrite min_if. fold n.
  rewrite (copy_out_spec f Hf n (out f) (out f * e)) by (done || lia). cbn [mbind res_bind].
  rewrite prefix_ring by nia. done.
Qed.

Lemma out_step len : 0 <= len -> steps_to (kfifo_step f (Out len)) (Out len).
Proof.
  intros H0. assert (Hl := len_range f Hf). unfold steps_to. cbn [queue_step fst snd kfifo_step]. rewrite count_contents. unfold __kfifo_out.
  rewrite peek_eq by done. cbn [mbind res_bind]. eexists _, _. split; [done|]. split; [apply agrees_refl|]. apply consume_step. lia.
Qed.

Lemma out_peek_step len : 0 <= len -> steps_to (kfifo_step f (OutPeek len)) (OutPeek len).
Proof.
  intros H0. unfold steps_to. cbn [queue_step fst snd kfifo_step]. rewrite count_contents.
  rewrite peek_eq by done. cbn [mbind res_bind]. eexists _, _. split; [done|]. split; [apply agrees_refl|]. apply stepped_refl.
Qed.

Lemma user_agrees n w b : 0 <= w <= n ->
  agrees e (User (fault_code w n) (w * e) b) (User (fault_code w n) (n * e - (n - w)) b).
Proof.
  intros Hw. assert (He := fo_esize _ Hf). cbn. split; [done|]. split; [done|]. split; [nia|]. unfold fault_code.
  destruct (Z.ltb_spec w n); intros [H'|H']; try (by inversion H'); nia.
Qed.

Lemma code_eq n w :
  0 <= n <= c -> 0 <= w <= n -> 
  (if nonzero (n - w) then (u32 (n - (n - w)), - EFAULT) else (n, 0)) = (w, fault_code w n).
Proof.
  intros Hn Hw. assert (Hc := cap_range f Hf). unfold nonzero, fault_code.
  destruct (Z.eqb_spec (n - w) 0), (Z.ltb_spec w n); try lia; simpl; f_equal; try lia. ints.
Qed.

Lemma from_user_step from len :
  0 <= len -> steps_to (kfifo_step f (FromUser from len)) (FromUser from len).
Proof.
  intros H0. assert (He := fo_esize _ Hf). assert (Hl := len_range f Hf). assert (Hg := zlen_nonneg from).
  assert (Hr := fo_room _ Hf).
  unfold steps_to. cbn [queue_step fst snd kfifo_step]. rewrite count_contents. unfold __kfifo_from_user.
  rewrite udiv_e. cbn [mbind res_bind]. rewrite unused_eq, min_if by done.
  assert (0 <= len / e) by (apply Z.div_pos; lia). set (n := Z.min (len / e) (c - kfifo_len f)).
  destruct (from_user_spec f Hf from n (in_ f) (out f * e + kfifo_len f * e)) as (m & b & -> & W & Hb & Hs);
    [lia|by apply in_pos|].
  cbn [mbind res_bind]. destruct (whole_bound (Z.min (n * e) (zlen from)) e) as [Hw0 Hw]; [lia|nia|].
  set (w := Z.min (n * e) (zlen from) / e) in *. assert (Hwn : 0 <= w <= n) by nia.
  rewrite code_eq by lia. assert (n * e <= room f) by (unfold room; nia).
  rewrite u32_small by (unfold is_u32; nia). eexists _, _. split; [done|]. split; [by apply user_agrees|].
  cbn [in_ set_data]. apply publish_step with b; try done; [lia|]. unfold room. nia.
Qed.

Lemma to_user_step r len : 0 <= r -> 0 <= len -> steps_to (kfifo_step f (ToUser r len)) (ToUser r len).
Proof.
  intros Hr0 H0. assert (He := fo_esize _ Hf). assert (Hl := len_range f Hf). assert (Hr := fo_room _ Hf).
  unfold steps_to. cbn [queue_step fst snd kfifo_step]. rewrite count_contents. unfold __kfifo_to_user.
  rewrite udiv_e. cbn [mbind res_bind]. change (u32 (in_ f - out f)) with (kfifo_len f). rewrite min_if.
  assert (0 <= len / e) by (apply Z.div_pos; lia). set (n := Z.min (len / e) (kfifo_len f)).
  rewrite (to_user_spec f Hf r n (out f) (out f * e)) by (done || lia).
  cbn [mbind res_bind]. destruct (whole_bound (Z.min (n * e) r) e) as [Hw0 Hw]; [lia|nia|].
  set (w := Z.min (n * e) r / e) in *. assert (Hwn : 0 <= w <= n) by nia.
  rewrite code_eq by lia. assert (n * e <= room f) by (unfold room; nia).
  rewrite u32_small by (unfold is_u32; nia). rewrite prefix_ring by nia. eexists _, _. split; [done|]. split; [by apply user_agrees|].
  apply consume_step. lia.
Qed.

Lemma slot_eq k :
  Z.land k (mask f) * e = (k * e) mod room f /\ 0 <= Z.land k (mask f) * e /\ Z.land k (mask f) * e + e <= room f.
Proof.
  assert (He := fo_esize _ Hf). assert (Hc := cap_range f Hf). rewrite land_mask by done.
  assert (Hm := Z.mod_pos_bound k c ltac:(lia)). split; [|unfold room; nia].
  unfold room. by rewrite Z.mul_mod_distr_r by lia.
Qed.

Lemma put_step val : zlen val = e -> steps_to (kfifo_step f (Put val)) (Put val).
Proof.
  intros Hv. assert (He := fo_esize _ Hf). assert (Hl := len_range f Hf). assert (Hp := room_pos f Hf).
  unfold steps_to. cbn [queue_step kfifo_step]. rewrite count_contents. unfold kfifo_put, kfifo_is_full.
  destruct (Z.ltb_spec (kfifo_len f) c), (Z.ltb_spec (mask f) (kfifo_len f)); try (unfold cap in *; lia);
    cbn [fst snd mbind res_bind]; [|eexists _, _; split; [done|split; [apply agrees_refl|apply stepped_refl]]].
  destruct (slot_eq (in_ f)) as (Ha & Ha0 & Ha1). assert (Hd := fo_data _ Hf).
  destruct (put_wrote (room f) (data f) (out f * e + kfifo_len f * e) (Z.land (in_ f) (mask f) * e) val)
    as (m & -> & W); [lia..|intros _; by rewrite Ha, in_pos|].
  cbn [mbind res_bind]. eexists _, _. split; [done|]. split; [apply agrees_refl|].
  replace (q ++ val) with (add e q val 1) by (unfold add; rewrite Z.mul_1_l, <- Hv; by rewrite slice_full).
  cbn [in_ set_data]. apply publish_step with val; try done; try lia. unfold room. nia.
Qed.

Lemma slot_get :
  0 < kfifo_len f -> mem_get (data f) (Z.land (out f) (mask f) * e) e = Ok (slice q 0 e).
Proof.
  intros H. assert (He := fo_esize _ Hf). assert (Hd := fo_data _ Hf). destruct (slot_eq (out f)) as (Ha & Ha0 & Ha1).
  rewrite mem_get_Ok by lia. rewrite <- (ring_slice (room f)) by lia. rewrite <- prefix_ring by nia.
  f_equal. apply ring_cong. rewrite Ha. symmetry. apply Z.mod_mod. assert (Hp := room_pos f Hf). lia.
Qed.

Lemma empty_eq : kfifo_is_empty f = (kfifo_len f =? 0).
Proof.
  unfold kfifo_is_empty, kfifo_len. assert (Hi := fo_in _ Hf). assert (Ho := fo_out _ Hf).
  apply eq_iff_eq_true. rewrite !Z.eqb_eq. ints.
Qed.

Lemma get_step : steps_to (kfifo_step f Get) Get.
Proof.
  assert (Hl := len_range f Hf). unfold steps_to. cbn [queue_step kfifo_step]. rewrite count_contents. unfold kfifo_get. rewrite empty_eq.
  destruct (Z.eqb_spec (kfifo_len f) 0); cbn [fst snd mbind res_bind]; [eexists _, _; split; [done|split; [apply agrees_refl|apply stepped_refl]]|].
  rewrite slot_get by lia. cbn [mbind res_bind]. eexists _, _. split; [done|]. split; [apply agrees_refl|]. apply consume_step. lia.
Qed.

Lemma peek_step : steps_to (kfifo_step f Peek) Peek.
Proof.
  assert (Hl := len_range f Hf). unfold steps_to. cbn [queue_step kfifo_step]. rewrite count_contents. unfold kfifo_peek. rewrite empty_eq.
  destruct (Z.eqb_spec (kfifo_len f) 0); cbn [fst snd mbind res_bind]; [eexists _, _; split; [done|split; [apply agrees_refl|apply stepped_refl]]|].
  rewrite slot_get by lia. eexists _, _. split; [done|]. split; [apply agrees_refl|]. apply stepped_refl.
Qed.

Lemma emptied o : is_u32 o -> stepped [] (set_in o (set_out o f)).
Proof.
  intros Ho. assert (Hl : kfifo_len (set_in o (set_out o f)) = 0) by (unfold kfifo_len; simpl; by rewrite Z.sub_diag).
  assert (Hc := cap_range f Hf). repeat split; try apply Hf; try apply Ho.
  - rewrite Hl. change (cap (set_in o (set_out o f))) with c. lia.
  - unfold contents. rewrite Hl. done.
Qed.

Lemma kfifo_step_spec o : op_valid e q o -> steps_to (kfifo_step f o) o.
Proof.
  assert (Hl := len_range f Hf). assert (Hc := cap_range f Hf).
  destruct o; cbn [op_valid]; intros Hv.
  - by apply in_step.
  - by apply out_step.
  - by apply out_peek_step.
  - by apply from_user_step.
  - by apply to_user_step; destruct Hv.
  - by apply put_step.
  - by apply get_step.
  - by apply peek_step.
  - eexists _, _. split; [done|]. split; [apply agrees_refl|]. apply consume_step. assert (Hn : kfifo_len f <> 0); [|lia].
    intros E. apply Hv. unfold contents. by rewrite E.
  - eexists _, _. split; [done|]. split; [apply agrees_refl|]. by apply emptied.
  - eexists _, _. split; [done|]. split; [apply agrees_refl|]. destruct (emptied (in_ f)) as (Hs & ? & ? & ?); [apply Hf|].
    change (set_in (in_ f) (set_out (in_ f) f)) with (kfifo_reset_out f) in *. done.
  - apply (steps_same _ Ask f); [|apply stepped_refl]. cbn [queue_step kfifo_step fst snd]. rewrite count_contents, empty_eq. do 3 f_equal.
    + unfold kfifo_avail. cbn [nonzero Z.eqb negb]. apply unused_eq, Hf.
    + unfold kfifo_is_full. apply eq_iff_eq_true. rewrite Z.ltb_lt, Z.eqb_eq. unfold cap in *. lia.
Qed.
End Steps.

(** ** The refinement *)

Lemma kfifo_run_spec os f :
  fifo_ok f -> ops_valid (cap f) (esize f) (contents f) os ->
  exists rs f', kfifo_run f os = Ok (rs, f') /\
    Forall2 (agrees (esize f)) (fst (queue_run (cap f) (esize f) (contents f) os)) rs /\
    stepped f (snd (queue_run (cap f) (esize f) (contents f) os)) f'.
Proof.
  revert f. induction os as [|o os IH]; intros f Hf; cbn [ops_valid kfifo_run queue_run].
  { intros _. eexists [], f. split; [done|]. split; [constructor|by apply stepped_refl]. }
  intros [Hv Hvs]. destruct (kfifo_step_spec f Hf o Hv) as (r1 & f1 & -> & Hr1 & Hf1 & Hc1 & Hcap & He).
  cbn [mbind res_bind]. destruct (queue_step (cap f) (esize f) (contents f) o) as [r q1]; cbn [fst snd] in *.
  rewrite <- Hc1, <- Hcap, <- He in Hvs. destruct (IH f1 Hf1 Hvs) as (rs2 & f2 & -> & Hrs & Hf2 & Hc2 & Hcap2 & He2).
  rewrite Hc1, Hcap, He in *. destruct (queue_run _ _ q1 os) as [rs q2]; cbn [fst snd mbind res_bind] in *.
  eexists _, f2. split; [done|]. split; [by constructor|]. split; [done|]. split; [done|]. split; congruence.
Qed.

(** C13: whatever the values of the two 32-bit counters, a sequence of any of
    the operations on a queue of elements accesses nothing outside its buffer
    and its callers' buffers, and gives the replies and leaves the contents
    that the same operations have on a list of bytes that takes at most
    [cap f] elements: what is read is what was written, in order, once.  The
    callers' buffers are as long as they say, and an empty queue is not
    skipped.  The number of bytes reported for a copy from or to user memory
    is that of the elements copied if the copy is complete or elements have one
    byte; of a short copy of longer elements the code reports as many or
    more. *)
Theorem kfifo_refines_queue os f :
  fifo_ok f -> ops_valid (cap f) (esize f) (contents f) os ->
  exists rs f', kfifo_run f os = Ok (rs, f') /\
    Forall2 (agrees (esize f)) (fst (queue_run (cap f) (esize f) (contents f) os)) rs /\
    fifo_ok f' /\ contents f' = snd (queue_run (cap f) (esize f) (contents f) os) /\
    zlen (contents f') <= zlen (data f').
Proof.
  intros Hf Hv. destruct (kfifo_run_spec os f Hf Hv) as (rs & f' & E & Hr & Hf' & Hc & _ & _).
  exists rs, f'. split; [done|]. split; [done|]. split; [done|]. split; [done|]. rewrite zlen_contents by done.
  assert (Hd := fo_data _ Hf'). assert (Hl := len_range f' Hf'). assert (He := fo_esize _ Hf'). unfold room in Hd. nia.
Qed.

(** A queue of four elements of two bytes, three before the counters wrap. *)
Definition wrapping : __kfifo := mk_kfifo (2 ^ 32 - 3) (2 ^ 32 - 3) 3 2 (replicate 8 0).

Definition wrapping_ops : list kfifo_op :=
  [In [1; 2; 3; 4; 5; 6] 3; Out 1; FromUser [7; 8; 9] 6; Ask; In [10; 11; 12; 13] 2; ToUser 5 8; Get; Skip; Get].

Lemma wrapping_ok : fifo_ok wrapping.
Proof. split; [by exists 2|..]; vm_compute; repeat split; congruence. Qed.

(** The two short copies report 3 and 6 bytes for 2 and 4. *)
Lemma kfifo_refines_queue_witness :
  fifo_ok wrapping /\ ops_valid 4 2 (contents wrapping) wrapping_ops /\
  exists rs f', kfifo_run wrapping wrapping_ops = Ok (rs, f') /\
    Forall2 (agrees 2) (fst (queue_run 4 2 [] wrapping_ops)) rs /\ in_ f' = 2 /\
    rs = [Count 3; Bytes 1 [1; 2]; User (-14) 3 []; State 3 1 false false; Count 1; User (-14) 6 [3; 4; 5; 6; 7];
       Value (Some [7; 8]); Done; Value None].
Proof.
  assert (Hv : ops_valid 4 2 (contents wrapping) wrapping_ops) by (vm_compute; intuition congruence).
  split; [apply wrapping_ok|]. split; [exact Hv|].
  destruct (kfifo_refines_queue wrapping_ops wrapping wrapping_ok Hv) as (rs & f' & E & Hr & _).
  exists rs, f'. split; [exact E|]. split; [exact Hr|].
  vm_compute in E. injection E as <- <-. split; reflexivity.
Defined.

(** What the code reports for a short copy of elements of two bytes is not the
    number of bytes copied. *)
Lemma short_copy_is_miscounted :
  match __kfifo_from_user wrapping [7; 8; 9] 6 with
  | Ok (err, copied, f) => err = - EFAULT /\ copied = 4 /\ contents f = [7; 8]
  | Fault _ => False
  end.
Proof. vm_compute. auto. Qed.

(** ** Initialisation *)

Definition rounded (size : Z) : res Z :=
  if negb (is_power_of_2 size) then rounddown_pow_of_two size else Ok size.

Lemma rounded_eq size : 0 < size < 2 ^ 32 -> rounded size = Ok (2 ^ (fls size - 1)).
Proof.
  intros Hs. destruct (fls_spec size Hs) as (Hk & Hlo & Hhi). unfold rounded.
  assert (H2 : 2 ^ fls size = 2 * 2 ^ (fls size - 1)) by (rewrite <- Z.pow_succ_r by lia; f_equal; lia).
  assert (2 ^ (fls size - 1) <= 2 ^ 31) by (apply Z.pow_le_mono_r; lia).
  destruct (is_power_of_2 size) eqn:E; simpl.
  - f_equal. unfold is_power_of_2 in E. bsimp. rewrite u32_small in H1 by (unfold is_u32; lia).
    destruct (Z.eq_dec size (2 ^ (fls size - 1))) as [|Hne]; [done|]. exfalso.
    assert (Hbit : forall x, 2 ^ (fls size - 1) <= x < 2 ^ fls size -> Z.testbit x (fls size - 1) = true).
    { intros x Hx. apply Z.testbit_true; [lia|]. replace (x / 2 ^ (fls size - 1)) with 1; [done|].
      apply Z.div_unique with (x - 2 ^ (fls size - 1)); lia. }
    assert (Hc : Z.testbit (Z.land size (size - 1)) (fls size - 1) = true)
      by (rewrite Z.land_spec, !Hbit by lia; done).
    by rewrite H1, Z.bits_0 in Hc.
  - unfold rounddown_pow_of_two. destruct (Z.ltb_spec (fls size - 1) 0); [lia|].
    rewrite Z.shiftl_1_l, u32_small by (unfold is_u32; lia). done.
Qed.

Lemma fresh_ok k m e :
  1 <= k <= 31 -> 1 <= e -> 2 ^ k * e + e <= 2 ^ 32 -> 2 ^ k * e <= zlen m ->
  let f := mk_kfifo 0 0 (2 ^ k - 1) e m in fifo_ok f /\ contents f = [] /\ cap f = 2 ^ k.
Proof.
  intros Hk He Hr Hd f. assert (Hc : cap f = 2 ^ k) by (unfold cap, f; simpl; lia).
  split; [|done]. split; try (unfold room; rewrite Hc); try (cbn; lia); try (unfold is_u32; cbn; lia); [|lia..|].
  - exists k. split; [lia|done].
  - assert (0 < 2 ^ k) by (apply Z.pow_pos_nonneg; lia). change (kfifo_len f) with 0. lia.
Qed.

(** A queue of [size] elements asked of [__kfifo_alloc] has, if the
    allocation of its buffer does not fail or wrap, room for the largest power
    of two of elements that [size] allows: the number is rounded down, where
    the documentation of [kfifo_alloc] says that it is rounded up. *)
Theorem kfifo_alloc_rounds_down (kmalloc : Z -> option (list Z)) size e m :
  2 <= size < 2 ^ 32 -> 1 <= e -> size * e + e <= 2 ^ 32 ->
  kmalloc (2 ^ (fls size - 1) * e) = Some m -> zlen m = 2 ^ (fls size - 1) * e ->
  exists f, __kfifo_alloc kmalloc size e = Ok (0, f) /\ fifo_ok f /\ contents f = [] /\
    cap f <= size < 2 * cap f.
Proof.
  intros Hs He Hw Hm Hlen. destruct (fls_spec size) as (Hk & Hlo & Hhi); [lia|].
  assert (H2 : 2 ^ fls size = 2 * 2 ^ (fls size - 1)) by (rewrite <- Z.pow_succ_r by lia; f_equal; lia).
  assert (Hk2 : 2 <= fls size).
  { destruct (Z.le_gt_cases 2 (fls size)); [done|]. replace (fls size) with 1 in Hhi by lia. lia. }
  assert (2 <= 2 ^ (fls size - 1)) by (apply (Z.pow_le_mono_r 2 1); lia).
  destruct (fresh_ok (fls size - 1) m e) as (Hf & Hc & Hcap); [lia|lia|nia|lia|].
  unfold __kfifo_alloc. fold (rounded size). rewrite rounded_eq by lia. cbn [mbind res_bind].
  destruct (Z.ltb_spec (2 ^ (fls size - 1)) 2); [lia|].
  rewrite u32_small by (unfold is_u32; nia). rewrite Hm. eexists. split; [done|]. split; [done|]. split; [done|].
  rewrite Hcap. lia.
Qed.

Lemma kfifo_alloc_rounds_down_witness :
  exists f, __kfifo_alloc (fun n => Some (replicate (Z.to_nat n) 0)) 6 2 = Ok (0, f) /\ cap f = 4.
Proof.
  destruct (kfifo_alloc_rounds_down (fun n => Some (replicate (Z.to_nat n) 0)) 6 2 (replicate 8 0))
    as (f & E & _); [lia|lia|lia|reflexivity|reflexivity|].
  exists f. split; [exact E|]. vm_compute in E. injection E as <-. reflexivity.
Defined.

(** [__kfifo_init] on a buffer of at least two elements. *)
Lemma kfifo_init_ok buffer e :
  1 <= e -> zlen buffer < 2 ^ 32 -> zlen buffer + e <= 2 ^ 32 -> 2 <= zlen buffer / e ->
  exists f, __kfifo_init buffer (zlen buffer) e = Ok (0, f) /\ fifo_ok f /\ contents f = [].
Proof.
  intros He Hl Hw H2. assert (Hd := Z.mul_div_le (zlen buffer) e ltac:(lia)).
  assert (Hlt : zlen buffer / e <= zlen buffer) by nia.
  destruct (fls_spec (zlen buffer / e)) as (Hk & Hlo & Hhi); [lia|]. set (k := fls (zlen buffer / e)) in *.
  assert (Hk2 : 2 <= k).
  { destruct (Z.le_gt_cases 2 k); [done|]. replace k with 1 in Hhi by lia. lia. }
  assert (2 <= 2 ^ (k - 1)) by (apply (Z.pow_le_mono_r 2 1); lia).
  destruct (fresh_ok (k - 1) buffer e) as (Hf & Hc & _); [lia|lia|nia|nia|].
  unfold __kfifo_init, udiv. destruct (Z.eqb_spec e 0); [lia|]. cbn [mbind res_bind].
  fold (rounded (zlen buffer / e)). rewrite rounded_eq by lia. fold k. cbn [mbind res_bind].
  destruct (Z.ltb_spec (2 ^ (k - 1)) 2); [lia|]. eexists. done.
Qed.
