(* ===== verification/KfifoRec.v ===== *)
(** Queues of records of kernel/kfifo.c: the length of each record, in one or
    two bytes, is in the ring before its bytes.  Any sequence of the operations
    behaves as on a bounded list of records. *)

From S2P Require Import Prelude Div64 Kfifo.

(** The length field, and a record with it. *)
Definition header (rs n : Z) : list Z := if rs =? 1 then [u8 n] else [u8 n; u8 (Z.shiftr n 8)].
Definition encode (rs : Z) (r : list Z) : list Z := header rs (zlen r) ++ r.
Definition stream (rs : Z) (l : list (list Z)) : list Z := concat (encode rs <$> l).

Inductive record_op : Type :=
  | InR (buf : list Z) (len : Z)
  | OutR (len : Z)
  | OutPeekR (len : Z)
  | LenR
  | SkipR
  | FromUserR (from : list Z) (len : Z)
  | ToUserR (room len : Z)
  | AvailR.

Inductive record_reply : Type :=
  | CountR (n : Z)
  | BytesR (n : Z) (b : list Z)
  | UserR (err copied : Z) (b : list Z)
  | DoneR.

Definition record_step (rs : Z) (f : __kfifo) (o : record_op) : res (record_reply * __kfifo) :=
  match o with
  | InR buf len => '(n, f) ← __kfifo_in_r f buf len rs; Ok (CountR n, f)
  | OutR len => '(n, b, f) ← __kfifo_out_r f len rs; Ok (BytesR n b, f)
  | OutPeekR len => '(n, b) ← __kfifo_out_peek_r f len rs; Ok (BytesR n b, f)
  | LenR => n ← __kfifo_len_r f rs; Ok (CountR n, f)
  | SkipR => f ← __kfifo_skip_r f rs; Ok (DoneR, f)
  | FromUserR from len => '(e, c, f) ← __kfifo_from_user_r f from len rs; Ok (UserR e c [], f)
  | ToUserR r len => '(e, c, b, f) ← __kfifo_to_user_r f r len rs; Ok (UserR e c b, f)
  | AvailR => Ok (CountR (kfifo_avail f rs), f)
  end.

Fixpoint record_run (rs : Z) (f : __kfifo) (os : list record_op) : res (list record_reply * __kfifo) :=
  match os with
  | [] => Ok ([], f)
  | o :: os => '(r, f) ← record_step rs f o; '(ls, f) ← record_run rs f os; Ok (r :: ls, f)
  end.

(** The same on a list of records, which with their lengths take at most [c]
    bytes. *)
Section Spec.
Context (c rs : Z).

Definition longest : Z := 2 ^ (8 * rs) - 1.
Definition free (l : list (list Z)) : Z := c - zlen (stream rs l).

Definition records_step (l : list (list Z)) (o : record_op) : record_reply * list (list Z) :=
  match o with
  | InR buf len =>
      if free l <? len + rs then (CountR 0, l) else (CountR len, l ++ [slice buf 0 len])
  | OutR len =>
      match l with
      | [] => (BytesR 0 [], l)
      | r :: l => let n := Z.min len (zlen r) in (BytesR n (slice r 0 n), l)
      end
  | OutPeekR len =>
      match l with
      | [] => (BytesR 0 [], l)
      | r :: _ => let n := Z.min len (zlen r) in (BytesR n (slice r 0 n), l)
      end
  | LenR => (CountR (match l with [] => 0 | r :: _ => zlen r end), l)
  | SkipR => (DoneR, tail l)
  | FromUserR from len =>
      let len := Z.min len longest in
      if free l <? len + rs then (UserR 0 0 [], l)
      else if zlen from <? len then (UserR (- EFAULT) 0 [], l)
      else (UserR 0 len [], l ++ [slice from 0 len])
  | ToUserR room len =>
      match l with
      | [] => (UserR 0 0 [], l)
      | r :: l' =>
          let n := Z.min len (zlen r) in
          if room <? n then (UserR (- EFAULT) 0 (slice r 0 room), l) else (UserR 0 n (slice r 0 n), l')
      end
  | AvailR => (CountR (Z.min longest (Z.max 0 (free l - rs))), l)
  end.

Fixpoint records_run (l : list (list Z)) (os : list record_op) : list record_reply * list (list Z) :=
  match os with
  | [] => ([], l)
  | o :: os => let '(r, l) := records_step l o in let '(ls, l) := records_run l os in (r :: ls, l)
  end.

(** What a caller owes: records that the length field can count, buffers as
    long as it says, and no [kfifo_peek_len] or [kfifo_skip] of an empty
    queue. *)
Definition record_op_valid (l : list (list Z)) (o : record_op) : Prop :=
  match o with
  | InR buf len => 0 <= len <= longest /\ len <= zlen buf
  | OutR len | OutPeekR len => 0 <= len
  | LenR | SkipR => l <> []
  | FromUserR _ len => 0 <= len
  | ToUserR room len => 0 <= room /\ 0 <= len
  | AvailR => True
  end.

Fixpoint record_ops_valid (l : list (list Z)) (os : list record_op) : Prop :=
  match os with
  | [] => True
  | o :: os => record_op_valid l o /\ record_ops_valid (snd (records_step l o)) os
  end.
End Spec.

(** [f] holds the records [l]. *)
Record holds (rs : Z) (f : __kfifo) (l : list (list Z)) : Prop := mk_holds {
  ho_ok : fifo_ok f;
  ho_esize : esize f = 1;
  ho_contents : contents f = stream rs l;
  ho_records : Forall (fun r => zlen r <= longest rs) l
}.

Definition is_recsize (rs : Z) : Prop := rs = 1 \/ rs = 2.

Lemma zlen_header rs n : is_recsize rs -> zlen (header rs n) = rs.
Proof. by intros [-> | ->]. Qed.

Lemma zlen_encode rs r : is_recsize rs -> zlen (encode rs r) = rs + zlen r.
Proof. intros. unfold encode. by rewrite zlen_app, zlen_header. Qed.

Lemma stream_cons rs r l : stream rs (r :: l) = encode rs r ++ stream rs l.
Proof. done. Qed.

Lemma stream_snoc rs l r : stream rs (l ++ [r]) = stream rs l ++ encode rs r.
Proof. unfold stream. rewrite fmap_app, concat_app. simpl. by rewrite app_nil_r. Qed.

Lemma max_r_eq len rs : is_recsize rs -> __kfifo_max_r len rs = Z.min len (longest rs).
Proof.
  intros [-> | ->]; unfold __kfifo_max_r, longest.
  - change (u32 (Z.shiftl 1 (Z.shiftl 1 3) - 1)) with 255. change (2 ^ (8 * 1) - 1) with 255. bcase; lia.
  - change (u32 (Z.shiftl 1 (Z.shiftl 2 3) - 1)) with 65535. change (2 ^ (8 * 2) - 1) with 65535. bcase; lia.
Qed.

Lemma longest_range rs : is_recsize rs -> 255 <= longest rs <= 65535.
Proof. by intros [-> | ->]. Qed.

Lemma set_data_ok f m : fifo_ok f -> zlen m = zlen (data f) -> fifo_ok (set_data m f).
Proof. intros [Hk He Hr Hd Hi Ho Hl] E. split; try done. simpl. rewrite E. exact Hd. Qed.

(** ** Reading and writing the length *)

Section Length.
Context (rs : Z) (Hrs : is_recsize rs) (f : __kfifo) (Hf : fifo_ok f) (E : esize f = 1).

Lemma room_cap : room f = cap f.
Proof. unfold room. rewrite E. lia. Qed.

Lemma pos_u32_1 o : u32 o mod room f = o mod room f.
Proof. assert (H := pos_u32 f Hf o). by rewrite E, !Z.mul_1_r in H. Qed.

Lemma slot_pos o : Z.land (u32 o) (mask f) = o mod room f.
Proof. rewrite land_mask by done. rewrite <- pos_u32_1, room_cap. done. Qed.

Lemma peek_pos o : __KFIFO_PEEK f o = Ok (at_pos (room f) (data f) o).
Proof.
  unfold __KFIFO_PEEK, rd, at_pos. rewrite slot_pos. assert (Hp := room_pos f Hf). assert (Hd := fo_data _ Hf).
  assert (Hm := Z.mod_pos_bound o (room f) ltac:(lia)).
  destruct (znth_is_Some (data f) (o mod room f)) as [x ->]; [lia|done].
Qed.

Lemma poke_pos i v p :
  i mod room f = p mod room f ->
  exists m, __KFIFO_POKE f i v = Ok (set_data m f) /\ wrote (room f) (data f) m p [u8 v].
Proof.
  intros Hip. unfold __KFIFO_POKE. rewrite slot_pos. assert (Hp := room_pos f Hf). assert (Hd := fo_data _ Hf).
  assert (Hm := Z.mod_pos_bound i (room f) ltac:(lia)).
  destruct (put_wrote (room f) (data f) p (i mod room f) [u8 v]) as (m & -> & W);
    [lia|lia|rewrite zlen_cons, zlen_nil; lia|lia|done|]. eauto.
Qed.

Lemma in_pos_1 : in_ f mod room f = (out f + kfifo_len f) mod room f.
Proof. assert (H := in_pos f Hf). by rewrite E, !Z.mul_1_r in H. Qed.

Lemma contents_1 : contents f = ring (room f) (data f) (out f) (kfifo_len f).
Proof. unfold contents. by rewrite E, !Z.mul_1_r. Qed.

Lemma zlen_contents_1 : zlen (contents f) = kfifo_len f.
Proof. rewrite zlen_contents by done. rewrite E. lia. Qed.

Lemma peek_byte j x : znth (contents f) j = Some x -> __KFIFO_PEEK f (out f + j) = Ok x.
Proof.
  intros H. assert (Hj := znth_Some _ _ _ H). rewrite zlen_contents_1 in Hj.
  rewrite contents_1, znth_ring in H by done. rewrite peek_pos. congruence.
Qed.

Lemma peek_n_spec n b : contents f = header rs n ++ b -> __kfifo_peek_n f rs = Ok (n mod 2 ^ (8 * rs)).
Proof.
  intros Hc. unfold __kfifo_peek_n. unfold header in Hc. assert (Hu := u8_range n).
  destruct Hrs as [-> | ->]; cbn [Z.eqb Pos.eqb app] in Hc.
  - assert (H0 : znth (contents f) 0 = Some (u8 n)) by (by rewrite Hc).
    apply peek_byte in H0. rewrite Z.add_0_r in H0. rewrite H0. done.
  - assert (H0 : znth (contents f) 0 = Some (u8 n)) by (by rewrite Hc).
    assert (H1 : znth (contents f) 1 = Some (u8 (Z.shiftr n 8))) by (by rewrite Hc).
    apply peek_byte in H0, H1. rewrite Z.add_0_r in H0. rewrite H0.
    change (nonzero (2 - 1)) with true. cbn [mbind res_bind]. rewrite H1. cbn [mbind res_bind]. f_equal.
    rewrite Z.lor_comm, lor_shiftl_add by (unfold is_u8 in Hu; lia). rewrite Z.shiftr_div_pow2 by lia. ints.
Qed.
End Length.

Lemma poke_n_spec rs f n p :
  is_recsize rs -> fifo_ok f -> esize f = 1 -> rs <= cap f -> in_ f mod room f = p mod room f ->
  exists m, __kfifo_poke_n f n rs = Ok (set_data m f) /\ wrote (room f) (data f) m p (header rs n).
Proof.
  intros Hrs Hf E Hc Hp. unfold __kfifo_poke_n, header.
  destruct (poke_pos f Hf E (in_ f) n p Hp) as (m1 & -> & W1). cbn [mbind res_bind].
  destruct Hrs as [-> | ->]; [by exists m1|].
  destruct (poke_pos (set_data m1 f)) with (i := in_ f + 1) (v := Z.shiftr n 8) (p := p + 1) as (m2 & E2 & W2).
  { apply set_data_ok; [done|]. apply W1. }
  { done. }
  { change (room (set_data m1 f)) with (room f). by rewrite <- Zplus_mod_idemp_l, Hp, Zplus_mod_idemp_l. }
  exists m2. split; [exact E2|]. change [u8 n; u8 (Z.shiftr n 8)] with ([u8 n] ++ [u8 (Z.shiftr n 8)]).
  cbn [Z.eqb Pos.eqb]. apply wrote_trans with m1; [|done|exact W2].
  rewrite (room_cap f E). done.
Qed.

(** ** The operations *)

Definition moved (f f' : __kfifo) : Prop := fifo_ok f' /\ esize f' = 1 /\ cap f' = cap f.

Section Write.
Context (rs : Z) (Hrs : is_recsize rs) (f : __kfifo) (Hf : fifo_ok f) (E : esize f = 1).

Lemma publish_1 n b m :
  zlen b = n -> kfifo_len f + n <= cap f -> wrote (room f) (data f) m (out f + kfifo_len f) b ->
  let f' := set_in (u32 (in_ f + n)) (set_data m f) in moved f f' /\ contents f' = contents f ++ b.
Proof.
  intros Hb Hfit W f'. assert (Hn := zlen_nonneg b). destruct (publish f Hf n b m) as (Hf' & Hc & _).
  - lia.
  - rewrite E. lia.
  - rewrite (room_cap f E), E. lia.
  - by rewrite E, !Z.mul_1_r.
  - split; [done|]. fold f' in Hc. rewrite Hc, E, Z.mul_1_r, <- Hb, slice_full. done.
Qed.

Lemma copy_in_1 src len off p :
  0 <= len <= cap f -> len <= zlen src -> off mod room f = p mod room f ->
  exists m, kfifo_copy_in f src len off = Ok (set_data m f) /\ wrote (room f) (data f) m p (slice src 0 len).
Proof.
  intros Hl Hs Hp. destruct (copy_in_spec f Hf src len off p) as (m & Em & W); [done|by rewrite E, Z.mul_1_r..|].
  rewrite E, Z.mul_1_r in W. eauto.
Qed.
End Write.

Section Operations.
Context (rs : Z) (Hrs : is_recsize rs) (f : __kfifo) (Hf : fifo_ok f) (E : esize f = 1).

Lemma after_header p : in_ f mod room f = p mod room f -> u32 (in_ f + rs) mod room f = (p + rs) mod room f.
Proof. intros H. by rewrite pos_u32_1, <- Zplus_mod_idemp_l, H, Zplus_mod_idemp_l. Qed.

Lemma in_r_spec src len :
  0 <= len -> kfifo_len f + (len + rs) <= cap f -> len <= zlen src ->
  exists f', __kfifo_in_r f src len rs = Ok (len, f') /\ moved f f' /\
    contents f' = contents f ++ header rs len ++ slice src 0 len.
Proof.
  intros H0 Hfit Hs. assert (Hl := len_range f Hf). assert (Hc := cap_range f Hf).
  assert (Hr1 : 1 <= rs <= 2) by (destruct Hrs; lia). unfold __kfifo_in_r. rewrite unused_eq by done.
  rewrite u32_small by (unfold is_u32; lia). destruct (Z.ltb_spec (cap f - kfifo_len f) (len + rs)); [lia|].
  destruct (poke_n_spec rs f len (out f + kfifo_len f)) as (m1 & -> & W1); [done..|lia|by apply in_pos_1|].
  cbn [mbind res_bind]. assert (Hf1 := set_data_ok f m1 Hf (wr_len _ _ _ _ _ W1)).
  destruct (copy_in_1 (set_data m1 f) Hf1 E src len (u32 (in_ f + rs)) (out f + kfifo_len f + rs))
    as (m2 & E2 & W2); [change (cap (set_data m1 f)) with (cap f); lia|lia|apply after_header, in_pos_1; done|].
  change (in_ (set_data m1 f)) with (in_ f). rewrite E2. cbn [mbind res_bind]. eexists. split; [done|].
  change (set_data m2 (set_data m1 f)) with (set_data m2 f). cbn [in_ set_data].
  assert (Hz : zlen (header rs len ++ slice src 0 len) = len + rs)
    by (rewrite zlen_app, zlen_header, slice_length by (done || lia); lia).
  apply publish_1; [done|done|done|lia|]. rewrite zlen_app, zlen_header in Hz by done.
  apply wrote_trans with m1; [rewrite zlen_header, (room_cap f E) by done; lia|done|].
  rewrite zlen_header by done. exact W2.
Qed.

Lemma from_user_r_spec from len :
  0 <= len -> let n := Z.min len (longest rs) in kfifo_len f + (n + rs) <= cap f ->
  exists f', moved f f' /\
    if zlen from <? n
    then __kfifo_from_user_r f from len rs = Ok (- EFAULT, 0, f') /\ contents f' = contents f
    else __kfifo_from_user_r f from len rs = Ok (0, n, f') /\
         contents f' = contents f ++ header rs n ++ slice from 0 n.
Proof.
  intros H0 n Hfit. assert (Hl := len_range f Hf). assert (Hc := cap_range f Hf).
  assert (Hr1 : 1 <= rs <= 2) by (destruct Hrs; lia). assert (Hlg := longest_range rs Hrs).
  unfold __kfifo_from_user_r. rewrite max_r_eq, unused_eq by done. fold n.
  rewrite u32_small by (unfold is_u32; lia). destruct (Z.ltb_spec (cap f - kfifo_len f) (n + rs)); [lia|].
  destruct (poke_n_spec rs f n (out f + kfifo_len f)) as (m1 & -> & W1); [done..|lia|by apply in_pos_1|].
  cbn [mbind res_bind]. assert (Hf1 := set_data_ok f m1 Hf (wr_len _ _ _ _ _ W1)).
  destruct (from_user_spec (set_data m1 f) Hf1 from n (u32 (in_ f + rs)) (out f + kfifo_len f + rs))
    as (m2 & b & E2 & W2 & Hb & Hs).
  { change (cap (set_data m1 f)) with (cap f). lia. }
  { change (esize (set_data m1 f)) with (esize f). rewrite E, Z.mul_1_r. apply after_header, in_pos_1; done. }
  change (esize (set_data m1 f)) with (esize f) in *. change (room (set_data m1 f)) with (room f) in *.
  change (in_ (set_data m1 f)) with (in_ f). change (set_data m2 (set_data m1 f)) with (set_data m2 f) in E2.
  rewrite E, Z.div_1_r, !Z.mul_1_r in *. rewrite E2. cbn [mbind res_bind].
  assert (Wb : wrote (room f) (data f) m2 (out f + kfifo_len f) (header rs n ++ b)).
  { apply wrote_trans with m1; [rewrite zlen_header, (room_cap f E) by done; lia|done|].
    rewrite zlen_header by done. exact W2. }
  assert (Hg := zlen_nonneg from). unfold nonzero.
  destruct (Z.ltb_spec (zlen from) n), (Z.eqb_spec (n - Z.min n (zlen from)) 0); try lia; cbn [negb].
  - eexists. split; [|split; [done|]].
    + split; [|done]. apply set_data_ok; [done|]. apply Wb.
    + unfold contents. change (kfifo_len (set_data m2 f)) with (kfifo_len f).
      change (room (set_data m2 f)) with (room f). cbn [out esize data set_data].
      rewrite E, !Z.mul_1_r. apply (wr_old _ _ _ _ _ Wb); [lia|].
      rewrite zlen_app, zlen_header, (room_cap f E) by done. lia.
  - assert (Hbn : zlen b = n) by lia.
    replace (Z.min n (zlen from)) with n in Hs by lia. rewrite <- Hbn in Hs at 1. rewrite slice_full in Hs. subst b.
    destruct (publish_1 f Hf E (n + rs) (header rs n ++ slice from 0 n) m2) as [Hm Hc'];
      [rewrite zlen_app, zlen_header by done; lia|lia|exact Wb|].
    eexists. split; [exact Hm|]. split; [|exact Hc']. rewrite u32_small by (unfold is_u32; lia).
    do 3 f_equal. lia.
Qed.
End Operations.

Section Read.
Context (rs : Z) (Hrs : is_recsize rs) (f : __kfifo) (Hf : fifo_ok f) (E : esize f = 1).
Context (r b : list Z) (Hc : contents f = encode rs r ++ b) (Hr : zlen r <= longest rs).

Lemma first_len : kfifo_len f = rs + zlen r + zlen b.
Proof. rewrite <- zlen_contents_1 by done. by rewrite Hc, zlen_app, zlen_encode. Qed.

Lemma first_length : __kfifo_peek_n f rs = Ok (zlen r).
Proof.
  unfold encode in Hc. rewrite <- app_assoc in Hc. rewrite (peek_n_spec rs Hrs f Hf E _ _ Hc). f_equal.
  assert (H := zlen_nonneg r). unfold longest in Hr. apply Z.mod_small. lia.
Qed.

Lemma first_bytes k :
  0 <= k <= zlen r -> ring (room f) (data f) (out f + rs) k = slice r 0 k.
Proof.
  intros Hk. assert (Hl := first_len). assert (Hb := zlen_nonneg b). assert (Hr1 : 1 <= rs <= 2) by (destruct Hrs; lia).
  assert (Hd := ring_drop (room f) (data f) (out f) (kfifo_len f) rs ltac:(lia)).
  rewrite <- (ring_take _ _ _ (kfifo_len f - rs)) by lia. rewrite <- Hd, <- contents_1, Hc by done.
  unfold encode. rewrite <- app_assoc, slice_app_r by (rewrite zlen_header by done; lia).
  rewrite zlen_header, Z.sub_diag by done. rewrite slice_slice by lia. apply slice_app_l; lia.
Qed.

Lemma out_pos_1 : (u32 (out f + rs) * esize f) mod room f = (out f + rs) mod room f.
Proof. rewrite E, Z.mul_1_r. by apply pos_u32_1. Qed.

Lemma first_copy len :
  0 <= len -> let n := Z.min len (zlen r) in
  kfifo_out_copy_r f len rs = Ok (n, slice r 0 n, zlen r).
Proof.
  intros H0 n. assert (Hl := len_range f Hf). assert (Hfl := first_len). assert (Hb := zlen_nonneg b).
  assert (Hr1 : 1 <= rs <= 2) by (destruct Hrs; lia). assert (Hn := zlen_nonneg r).
  unfold kfifo_out_copy_r. rewrite first_length. cbn [mbind res_bind].
  replace (if zlen r <? len then zlen r else len) with n by (bcase; lia).
  rewrite (copy_out_spec f Hf n _ (out f + rs)); [|lia|apply out_pos_1]. cbn [mbind res_bind].
  rewrite E, Z.mul_1_r, first_bytes by lia. done.
Qed.

Lemma first_gone :
  let f' := set_out (u32 (out f + (zlen r + rs))) f in moved f f' /\ contents f' = b.
Proof.
  intros f'. assert (Hfl := first_len). assert (Hb := zlen_nonneg b). assert (Hn := zlen_nonneg r).
  assert (Hr1 : 1 <= rs <= 2) by (destruct Hrs; lia).
  destruct (consume f Hf (zlen r + rs)) as (Hf' & Hc' & _); [lia|]. split; [done|]. fold f' in Hc'.
  rewrite Hc, E, !Z.mul_1_r in Hc'. apply app_inj_1 in Hc' as [_ ->]; [done|].
  assert (H1 := zlen_encode rs r Hrs). assert (H2 := zlen_ring (room f) (data f) (out f) (zlen r + rs) ltac:(lia)).
  unfold zlen in *. lia.
Qed.

Lemma not_empty : (in_ f =? out f) = false.
Proof.
  apply Z.eqb_neq. intros Ein. assert (Hfl := first_len). assert (Hb := zlen_nonneg b). assert (Hn := zlen_nonneg r).
  unfold kfifo_len in Hfl. rewrite Ein, Z.sub_diag in Hfl. change (u32 0) with 0 in Hfl. destruct Hrs; lia.
Qed.

Lemma to_user_r_spec room_ len :
  0 <= room_ -> 0 <= len -> let n := Z.min len (zlen r) in
  __kfifo_to_user_r f room_ len rs =
    Ok (if room_ <? n then (- EFAULT, 0, slice r 0 room_, f)
        else (0, n, slice r 0 n, set_out (u32 (out f + (zlen r + rs))) f)).
Proof.
  intros Hr0 H0 n. assert (Hl := len_range f Hf). assert (Hfl := first_len). assert (Hb := zlen_nonneg b).
  assert (Hr1 : 1 <= rs <= 2) by (destruct Hrs; lia). assert (Hn := zlen_nonneg r). assert (Hcr := cap_range f Hf).
  unfold __kfifo_to_user_r. rewrite not_empty, first_length. cbn [mbind res_bind].
  replace (if zlen r <? len then zlen r else len) with n by (bcase; lia).
  rewrite (to_user_spec f Hf room_ n _ (out f + rs)); [|lia|lia|apply out_pos_1]. cbn [mbind res_bind].
  rewrite E, Z.div_1_r, Z.mul_1_r, first_bytes, u32_small by (unfold is_u32; lia).
  unfold nonzero. destruct (Z.ltb_spec room_ n), (Z.eqb_spec (n - Z.min n room_) 0); try lia; cbn [negb].
  - by replace (Z.min n room_) with room_ by lia.
  - replace (Z.min n room_) with n by lia. by replace (n - (n - n)) with n by lia.
Qed.
End Read.

(** ** The refinement *)

Lemma empty_holds rs f : is_recsize rs -> holds rs f [] -> (in_ f =? out f) = true.
Proof.
  intros Hrs [Hf E Hc _]. assert (Hl := zlen_contents_1 f Hf E). rewrite Hc in Hl.
  assert (Hi := fo_in _ Hf). assert (Ho := fo_out _ Hf). apply Z.eqb_eq.
  change (zlen (stream rs [])) with 0 in Hl. unfold kfifo_len in Hl. ints.
Qed.

Section Steps.
Context (rs : Z) (Hrs : is_recsize rs).

Lemma holds_snoc f f' l r :
  holds rs f l -> moved f f' -> contents f' = contents f ++ encode rs r -> zlen r <= longest rs ->
  holds rs f' (l ++ [r]).
Proof.
  intros [Hf E Hc Hl] (Hf' & E' & _) Hc' Hr. split; [done|done|by rewrite stream_snoc, Hc', Hc|].
  apply Forall_app. auto.
Qed.

Lemma holds_tail f r l :
  holds rs f (r :: l) ->
  let f' := set_out (u32 (out f + (zlen r + rs))) f in moved f f' /\ holds rs f' l.
Proof.
  intros [Hf E Hc Hrl] f'. apply Forall_cons_1 in Hrl as [Hr Hl].
  destruct (first_gone rs Hrs f Hf E r _ Hc) as [Hm Hc']. split; [done|].
  destruct Hm as (Hf' & E' & _). split; done.
Qed.

Lemma free_eq f l : holds rs f l -> free (cap f) rs l = cap f - kfifo_len f.
Proof. intros [Hf E Hc _]. unfold free. by rewrite <- Hc, zlen_contents_1. Qed.

Lemma header_slice src n : 0 <= n <= zlen src -> header rs n ++ slice src 0 n = encode rs (slice src 0 n).
Proof. intros. unfold encode. by rewrite slice_length by lia. Qed.

Lemma record_step_spec f l o :
  holds rs f l -> record_op_valid rs l o ->
  exists f', record_step rs f o = Ok (fst (records_step (cap f) rs l o), f') /\
    cap f' = cap f /\ holds rs f' (snd (records_step (cap f) rs l o)).
Proof.
  intros Hh Hv. assert (Hfree := free_eq f l Hh). destruct (Hh) as [Hf E Hc Hl].
  assert (Hlen := len_range f Hf). assert (Hcap := cap_range f Hf). assert (Hr1 : 1 <= rs <= 2) by (destruct Hrs; lia).
  assert (Hlg := longest_range rs Hrs).
  destruct o; cbn [record_step records_step record_op_valid] in *; rewrite ?Hfree.
  - destruct Hv as [H0 Hb]. destruct (Z.ltb_spec (cap f - kfifo_len f) (len + rs)); cbn [fst snd].
    + exists f. unfold __kfifo_in_r. rewrite unused_eq, u32_small by (done || unfold is_u32; lia).
      destruct (Z.ltb_spec (cap f - kfifo_len f) (len + rs)); [done|lia].
    + destruct (in_r_spec rs Hrs f Hf E buf len) as (f' & -> & Hm & Hc'); [lia..|].
      exists f'. split; [done|]. split; [apply Hm|]. rewrite header_slice in Hc' by lia.
      eapply holds_snoc; [done|done|done|]. rewrite slice_length; lia.
  - unfold __kfifo_out_r. destruct l as [|r l].
    + rewrite empty_holds with rs f by done. by exists f.
    + apply Forall_cons_1 in Hl as [Hr _]. rewrite stream_cons in Hc. erewrite not_empty by done.
      rewrite (first_copy rs Hrs f Hf E r _ Hc Hr) by done. cbn [mbind res_bind fst snd].
      destruct (holds_tail f r l Hh) as [Hm Hh']. eexists. split; [done|]. split; [apply Hm|exact Hh'].
  - exists f. split; [|by destruct l]. unfold __kfifo_out_peek_r. destruct l as [|r l].
    + by rewrite empty_holds with rs f by done.
    + apply Forall_cons_1 in Hl as [Hr _]. rewrite stream_cons in Hc. erewrite not_empty by done.
      by rewrite (first_copy rs Hrs f Hf E r _ Hc Hr) by done.
  - exists f. split; [|done]. destruct l as [|r l]; [done|]. apply Forall_cons_1 in Hl as [Hr _]. rewrite stream_cons in Hc.
    unfold __kfifo_len_r. by rewrite (first_length rs Hrs f Hf E r _ Hc Hr).
  - destruct l as [|r l]; [done|]. apply Forall_cons_1 in Hl as [Hr _]. rewrite stream_cons in Hc.
    unfold __kfifo_skip_r. rewrite (first_length rs Hrs f Hf E r _ Hc Hr). cbn [mbind res_bind].
    destruct (holds_tail f r l Hh) as [Hm Hh']. eexists. split; [done|]. split; [apply Hm|exact Hh'].
  - destruct (Z.ltb_spec (cap f - kfifo_len f) (Z.min len (longest rs) + rs)); cbn [fst snd].
    + exists f. unfold __kfifo_from_user_r. rewrite max_r_eq, unused_eq, u32_small by (done || unfold is_u32; lia).
      destruct (Z.ltb_spec (cap f - kfifo_len f) (Z.min len (longest rs) + rs)); [done|lia].
    + destruct (from_user_r_spec rs Hrs f Hf E from len) as (f' & Hm & Hr); [lia..|].
      exists f'. destruct (Z.ltb_spec (zlen from) (Z.min len (longest rs))); destruct Hr as [-> Hc']; cbn [fst snd].
      * split; [done|]. split; [apply Hm|]. destruct Hm as (Hf' & E' & _). split; try done. congruence.
      * split; [done|]. split; [apply Hm|]. rewrite header_slice in Hc' by lia.
        eapply holds_snoc; [done|done|done|]. rewrite slice_length; lia.
  - destruct Hv as [Hr0 H0]. destruct l as [|r l].
    + exists f. unfold __kfifo_to_user_r. by rewrite empty_holds with rs f by done.
    + assert (Hl' := Hl). apply Forall_cons_1 in Hl' as [Hr _]. rewrite stream_cons in Hc.
      rewrite (to_user_r_spec rs Hrs f Hf E r _ Hc Hr) by done. destruct (holds_tail f r l Hh) as [Hm Hh'].
      destruct (Z.ltb_spec room (Z.min len (zlen r))); cbn [mbind res_bind fst snd]; [by exists f|].
      eexists. split; [done|]. split; [apply Hm|exact Hh'].
  - exists f. split; [|done]. cbn [fst]. unfold kfifo_avail. fold (cap f). rewrite (u32_small (cap f)) by (unfold is_u32; lia).
    rewrite u32_small by (unfold is_u32; lia). unfold nonzero. destruct (Z.eqb_spec rs 0); [lia|]. cbn [negb].
    do 3 f_equal. destruct (Z.leb_spec (cap f - kfifo_len f) rs); [lia|]. rewrite max_r_eq by done. lia.
Qed.
End Steps.

Lemma record_run_spec rs os f l :
  is_recsize rs -> holds rs f l -> record_ops_valid (cap f) rs l os ->
  exists f', record_run rs f os = Ok (fst (records_run (cap f) rs l os), f') /\
    holds rs f' (snd (records_run (cap f) rs l os)).
Proof.
  intros Hrs. revert f l. induction os as [|o os IH]; intros f l Hh; cbn [record_ops_valid record_run records_run].
  { intros _. by exists f. }
  intros [Hv Hvs]. destruct (record_step_spec rs Hrs f l o Hh Hv) as (f1 & -> & Hcap & Hh1).
  cbn [mbind res_bind]. destruct (records_step (cap f) rs l o) as [r l1]; cbn [fst snd] in *.
  rewrite <- Hcap in Hvs |- *. destruct (IH f1 l1 Hh1 Hvs) as (f2 & -> & Hh2).
  destruct (records_run _ _ l1 os) as [ls l2]. by exists f2.
Qed.

(** C18: a sequence of operations on a queue of records, with a length field of
    one or two bytes, gives the replies and leaves the contents that the same
    operations have on a list of records.  A record from kernel memory that the
    length field can count, which the callers owe, is taken whole if it fits;
    one from user memory is first cut to the longest that the field can count.
    A record that does not fit, or whose bytes cannot all be copied from or to
    user memory, changes nothing.  Records come out in order and once, whole or
    cut to the reader's buffer.  No operation accesses anything outside the
    buffers.  Callers owe also that they do not skip or ask the length of the
    first record of an empty queue. *)
Theorem records_refine_queue rs os f l :
  is_recsize rs -> holds rs f l -> record_ops_valid (cap f) rs l os ->
  exists f', record_run rs f os = Ok (fst (records_run (cap f) rs l os), f') /\
    holds rs f' (snd (records_run (cap f) rs l os)).
Proof. apply record_run_spec. Qed.

(** A queue of sixteen bytes, five before its counters wrap. *)
Definition record_queue : __kfifo := mk_kfifo (2 ^ 32 - 5) (2 ^ 32 - 5) 15 1 (replicate 16 0).

Definition record_ops : list record_op :=
  [InR [1; 2; 3] 3; InR [4; 5; 6; 7; 8] 5; InR [9; 9; 9] 3; AvailR; OutPeekR 2; ToUserR 2 8; OutR 8;
   FromUserR [1; 2] 3; FromUserR [10; 11; 12] 3; LenR; OutR 2; OutR 8; OutR 8].

Lemma record_queue_holds rs : holds rs record_queue [].
Proof. split; try done. split; [by exists 4|..]; vm_compute; repeat split; congruence. Qed.

Lemma records_refine_queue_witness :
  exists f', record_run 2 record_queue record_ops = Ok (fst (records_run 16 2 [] record_ops), f') /\
    in_ f' = 12 /\ fst (records_run 16 2 [] record_ops) =
      [CountR 3; CountR 5; CountR 0; CountR 2; BytesR 2 [1; 2]; UserR (-14) 0 [1; 2]; BytesR 3 [1; 2; 3];
       UserR (-14) 0 []; UserR 0 3 []; CountR 5; BytesR 2 [4; 5]; BytesR 3 [10; 11; 12]; BytesR 0 []].
Proof.
  destruct (records_refine_queue 2 record_ops record_queue []) as (f' & E & _).
  - by right.
  - apply record_queue_holds.
  - vm_compute. intuition congruence.
  - exists f'. split; [exact E|]. split; [|reflexivity]. vm_compute in E. injection E as <-. reflexivity.
Defined.

(** [__kfifo_in_r] does not limit the length of a record to what its length
    field can count, as [__kfifo_from_user_r] does: it reports that a longer
    record was put into the empty queue, and what can be read of it is its
    first [len mod 2 ^ (8 * rs)] bytes; the others are taken for further
    records. *)
Theorem long_record_is_cut rs f src len :
  is_recsize rs -> holds rs f [] -> longest rs < len -> len + rs <= cap f -> len <= zlen src ->
  let n := len mod 2 ^ (8 * rs) in
  exists f', __kfifo_in_r f src len rs = Ok (len, f') /\ __kfifo_len_r f' rs = Ok n /\
    exists f'', __kfifo_out_r f' len rs = Ok (n, slice src 0 n, f'') /\
      contents f'' = slice src n (len - n) /\ contents f'' <> [].
Proof.
  intros Hrs [Hf E Hc _] Hlong Hfit Hs n. assert (Hlg := longest_range rs Hrs).
  assert (Hz := zlen_contents_1 f Hf E). rewrite Hc in Hz. change (zlen (stream rs [])) with 0 in Hz.
  assert (Hn : 0 <= n < 2 ^ (8 * rs)) by (apply Z.mod_pos_bound; destruct Hrs; subst; lia).
  unfold longest in *. destruct (in_r_spec rs Hrs f Hf E src len) as (f' & -> & (Hf' & E' & _) & Hc'); [lia..|].
  assert (Hh : header rs len = header rs n).
  { unfold header, n. clear - Hrs. destruct Hrs as [-> | ->]; cbn [Z.eqb Pos.eqb].
    - change (2 ^ (8 * 1)) with 256. f_equal. ints.
    - change (2 ^ (8 * 2)) with 65536. rewrite !Z.shiftr_div_pow2 by lia. f_equal; [ints|]. f_equal. ints. }
  assert (Hc2 : contents f' = encode rs (slice src 0 n) ++ slice src n (len - n)).
  { unfold encode. rewrite slice_length by lia. rewrite Hc', Hc, Hh. change (stream rs []) with (@nil Z). cbn [app]. rewrite <- app_assoc. f_equal.
    replace len with (n + (len - n)) at 1 by lia. by rewrite slice_split by lia. }
  assert (Hl : zlen (slice src 0 n) <= longest rs) by (rewrite slice_length; unfold longest; lia).
  exists f'. split; [done|]. unfold __kfifo_len_r, __kfifo_out_r.
  rewrite (first_length rs Hrs f' Hf' E' _ _ Hc2 Hl), (not_empty rs Hrs f' Hf' E' _ _ Hc2).
  rewrite (first_copy rs Hrs f' Hf' E' _ _ Hc2 Hl) by lia. cbn [mbind res_bind].
  rewrite slice_length by lia. replace (Z.min len n) with n by lia. split; [done|].
  destruct (first_gone rs Hrs f' Hf' E' _ _ Hc2) as [_ Hc3]. rewrite slice_length in Hc3 by lia.
  eexists. split; [by rewrite slice_slice by lia|]. rewrite Hc3. split; [done|].
  intros Hnil. assert (H : zlen (slice src n (len - n)) = len - n) by (apply slice_length; lia).
  rewrite Hnil in H. change (zlen (@nil Z)) with 0 in H. lia.
Qed.

Definition page_queue : __kfifo := mk_kfifo 0 0 511 1 (replicate 512 0).

Lemma long_record_is_cut_witness :
  exists f', __kfifo_in_r page_queue (replicate 300 7) 300 1 = Ok (300, f') /\ __kfifo_len_r f' 1 = Ok 44.
Proof.
  destruct (long_record_is_cut 1 page_queue (replicate 300 7) 300) as (f' & E & El & _).
  - by left.
  - split; try done. split; [by exists 9|..]; vm_compute; repeat split; congruence.
  - reflexivity.
  - vm_compute. congruence.
  - vm_compute. congruence.
  - exists f'. split; [exact E|exact El].
Defined.
