(* ===== verification/KfifoSpsc.v ===== *)
(** One writer and one reader of a queue of kernel/kfifo.c without a lock, as
    include/linux/kfifo.h allows: [__kfifo_in] and [__kfifo_out] in steps that
    interleave in any order.

    A step of either side is the computation of the length from the two
    counters, the copy of any number of bytes of one of its two [memcpy]s, or
    the update of its own counter, which the barrier [smp_wmb] keeps after the
    copies.  Memory is sequentially consistent. *)

From S2P Require Import Prelude Kfifo.

(** How far one side is: what [__kfifo_in] or [__kfifo_out] has computed
    ([len] elements; the offset, the length and the length of the first part in
    bytes), and the bytes copied so far. *)
Inductive writer : Type :=
  | WIdle
  | WCopy (buf : list Z) (len off n l : Z) (done : Z).

Inductive reader : Type :=
  | RIdle
  | RCopy (len off n l : Z) (got : list Z).

Record spsc : Type := mk_spsc {
  fifo : __kfifo;
  wr : writer;
  rdr : reader;
  sent : list Z;      (* what the writer has published *)
  received : list Z   (* what the reader has taken *)
}.

Inductive action : Type :=
  | WStart (buf : list Z) (len : Z)
  | WMove (k : Z)
  | WPublish
  | RStart (len : Z)
  | RMove (k : Z)
  | RPublish.

(** The [k] bytes, or fewer, that come after [done] in one of the parts. *)
Definition chunk (n l done k : Z) : Z :=
  Z.min (Z.max 0 k) (if done <? l then l - done else n - done).

Definition address (off l done : Z) : Z := if done <? l then off + done else done - l.

(** An action that the side is not ready for does nothing. *)
Definition spsc_step (s : spsc) (a : action) : res spsc :=
  let f := fifo s in
  match a with
  | WStart buf len =>
      match wr s with
      | WIdle =>
          let unused := kfifo_unused f in
          let len := if unused <? len then unused else len in
          let '(off, n, l) := span f len (in_ f) in
          Ok (mk_spsc f (WCopy buf len off n l 0) (rdr s) (sent s) (received s))
      | _ => Ok s
      end
  | WMove k =>
      match wr s with
      | WCopy buf len off n l done =>
          let c := chunk n l done k in
          b ← mem_get buf done c;
          m ← mem_put (data f) (address off l done) b;
          Ok (mk_spsc (set_data m f) (WCopy buf len off n l (done + c)) (rdr s) (sent s) (received s))
      | WIdle => Ok s
      end
  | WPublish =>
      match wr s with
      | WCopy buf len off n l done =>
          if done =? n
          then Ok (mk_spsc (set_in (u32 (in_ f + len)) f) WIdle (rdr s) (sent s ++ slice buf 0 n) (received s))
          else Ok s
      | WIdle => Ok s
      end
  | RStart len =>
      match rdr s with
      | RIdle =>
          let used := u32 (in_ f - out f) in
          let len := if used <? len then used else len in
          let '(off, n, l) := span f len (out f) in
          Ok (mk_spsc f (wr s) (RCopy len off n l []) (sent s) (received s))
      | _ => Ok s
      end
  | RMove k =>
      match rdr s with
      | RCopy len off n l got =>
          b ← mem_get (data f) (address off l (zlen got)) (chunk n l (zlen got) k);
          Ok (mk_spsc f (wr s) (RCopy len off n l (got ++ b)) (sent s) (received s))
      | RIdle => Ok s
      end
  | RPublish =>
      match rdr s with
      | RCopy len off n l got =>
          if zlen got =? n
          then Ok (mk_spsc (set_out (u32 (out f + len)) f) (wr s) RIdle (sent s) (received s ++ got))
          else Ok s
      | RIdle => Ok s
      end
  end.

Fixpoint spsc_run (s : spsc) (acts : list action) : res spsc :=
  match acts with
  | [] => Ok s
  | a :: acts => s ← spsc_step s a; spsc_run s acts
  end.

Definition action_ok (e : Z) (a : action) : Prop :=
  match a with
  | WStart buf len => 0 <= len /\ len * e <= zlen buf
  | RStart len => 0 <= len
  | _ => True
  end.

(** * The invariant *)

Definition writer_ok (f : __kfifo) (w : writer) : Prop :=
  match w with
  | WIdle => True
  | WCopy buf len off n l done =>
      0 <= len <= cap f - kfifo_len f /\ span f len (in_ f) = (off, n, l) /\ n <= zlen buf /\
      0 <= done <= n /\ ring (room f) (data f) (in_ f * esize f) done = slice buf 0 done
  end.

Definition reader_ok (f : __kfifo) (r : reader) : Prop :=
  match r with
  | RIdle => True
  | RCopy len off n l got =>
      0 <= len <= kfifo_len f /\ span f len (out f) = (off, n, l) /\ zlen got <= n /\
      ring (room f) (data f) (out f * esize f) (zlen got) = got
  end.

Record spsc_ok (s : spsc) : Prop := mk_spsc_ok {
  so_fifo : fifo_ok (fifo s);
  so_writer : writer_ok (fifo s) (wr s);
  so_reader : reader_ok (fifo s) (rdr s);
  so_stream : received s ++ contents (fifo s) = sent s
}.

Section Step.
Context (f : __kfifo) (Hf : fifo_ok f).

(** The place of the next chunk of a copy from or to the position [p]. *)
Lemma address_spec len o off n l done k :
  0 <= len <= cap f -> span f len o = (off, n, l) -> 0 <= done <= n ->
  let c := chunk n l done k in
  n = len * esize f /\ 0 <= c <= n - done /\ 0 <= address off l done /\ address off l done + c <= room f /\
  (0 < c -> (o * esize f + done) mod room f = address off l done).
Proof.
  intros Hl Hs Hd c. assert (Hp := room_pos f Hf). assert (He := fo_esize _ Hf). rewrite span_eq in Hs by done. injection Hs as <- <- <-.
  assert (Hn : 0 <= len * esize f <= room f) by (unfold room; nia).
  assert (Ha := Z.mod_pos_bound (o * esize f) (room f) ltac:(lia)).
  split; [done|]. unfold c, chunk, address. set (a := o * esize f mod room f) in *.
  set (l := Z.min (len * esize f) (room f - a)).
  destruct (Z.ltb_spec done l) as [Hlt|Hge].
  - split; [lia|]. split; [lia|]. split; [lia|]. intros _.
    rewrite <- Zplus_mod_idemp_l. fold a. apply Z.mod_small. lia.
  - split; [lia|]. split; [lia|]. split; [lia|]. intros Hc.
    rewrite <- Zplus_mod_idemp_l. fold a. symmetry. apply Z.mod_unique with 1; lia.
Qed.

Lemma behind_in : (in_ f * esize f - kfifo_len f * esize f) mod room f = (out f * esize f) mod room f.
Proof. rewrite <- Zminus_mod_idemp_l, in_pos, Zminus_mod_idemp_l by done. f_equal. lia. Qed.

(** A write into the free part leaves what is in the queue. *)
Lemma write_keeps m b d k :
  wrote (room f) (data f) m (in_ f * esize f + d) b -> 0 <= d -> k <= kfifo_len f * esize f ->
  d + zlen b <= room f - kfifo_len f * esize f ->
  ring (room f) m (out f * esize f) k = ring (room f) (data f) (out f * esize f) k.
Proof.
  intros W Hd Hk Hfit. rewrite !(ring_cong _ _ _ (out f * esize f) _ behind_in).
  apply (wr_old _ _ _ _ _ W); lia.
Qed.

Lemma fifo_ok_data m : zlen m = zlen (data f) -> fifo_ok (set_data m f).
Proof. intros E. destruct Hf as [Hk He Hr Hd Hi Ho Hl]. split; try done. simpl. rewrite E. exact Hd. Qed.
End Step.

Definition goes (s : spsc) (m : res spsc) : Prop :=
  exists s', m = Ok s' /\ spsc_ok s' /\ esize (fifo s') = esize (fifo s).

Section Preserve.
Context (s : spsc) (Hs : spsc_ok s).

Lemma wstart_ok buf len : action_ok (esize (fifo s)) (WStart buf len) -> goes s (spsc_step s (WStart buf len)).
Proof.
  intros [H0 Hb]. destruct s as [f w r snt rcv] eqn:Es. destruct Hs as [Hf Hw Hr Hst]. cbn [fifo wr rdr sent received] in *.
  assert (Hl := len_range f Hf). assert (He := fo_esize _ Hf). unfold goes, spsc_step. cbn [fifo wr rdr sent received].
  destruct w; [|by eexists].
  rewrite unused_eq by done. set (n := if cap f - kfifo_len f <? len then cap f - kfifo_len f else len).
  assert (Hn : 0 <= n <= cap f - kfifo_len f /\ n <= len) by (unfold n; bcase; lia).
  destruct (span f n (in_ f)) as [[off by_] l] eqn:Esp. eexists. split; [done|]. split; [|done].
  split; try done. assert (Esp' := Esp). rewrite span_eq in Esp' by (done || lia). injection Esp' as Eo En El.
  cbn [writer_ok fifo wr]. split; [lia|]. split; [done|]. rewrite <- En. split; [nia|]. split; [nia|done].
Qed.

Lemma wmove_ok k : goes s (spsc_step s (WMove k)).
Proof.
  destruct s as [f w r snt rcv] eqn:Es. destruct Hs as [Hf Hw Hr Hst]. cbn [fifo wr rdr sent received] in *.
  assert (Hl := len_range f Hf). assert (He := fo_esize _ Hf). unfold goes, spsc_step. cbn [fifo wr rdr sent received].
  destruct w as [|buf len off n l done]; [by eexists|]. destruct Hw as (Hlen & Hsp & Hn & Hd & Hring).
  destruct (address_spec f Hf len (in_ f) off n l done k) as (Hnl & Hc & Ha & Har & Hmod); [lia|done|done|].
  set (c := chunk n l done k) in *. rewrite mem_get_Ok by lia. cbn [mbind res_bind].
  assert (Hz : zlen (slice buf done c) = c) by (apply slice_length; lia).
  assert (Hfree : n <= room f - kfifo_len f * esize f) by (subst n; unfold room; nia).
  destruct (put_wrote (room f) (data f) (in_ f * esize f + done) (address off l done) (slice buf done c))
    as (m & -> & W); [assert (Hp := room_pos f Hf); lia|lia|lia|apply Hf| |].
  { intros Hne. apply Hmod. destruct (Z.eq_dec c 0) as [E|]; [|lia]. by rewrite E in Hne. }
  cbn [mbind res_bind]. eexists. split; [done|]. split; [|done].
  assert (Hkeep : forall k, k <= kfifo_len f * esize f ->
    ring (room f) m (out f * esize f) k = ring (room f) (data f) (out f * esize f) k)
    by (intros; eapply write_keeps; [done|done|lia|done|lia]).
  split; cbn [fifo wr rdr sent received].
  - apply fifo_ok_data; [done|apply W].
  - split; [exact Hlen|]. split; [exact Hsp|]. split; [done|]. split; [lia|]. cbn [in_ esize data set_data]. change (room (set_data m f)) with (room f).
    rewrite ring_app by lia. rewrite slice_split, Z.add_0_l by lia. f_equal.
    + rewrite <- Hring. apply (wr_old _ _ _ _ _ W); [lia|]. nia.
    + rewrite <- Hz at 1. apply (wr_new _ _ _ _ _ W).
  - destruct r as [|len' off' n' l' got]; [done|]. destruct Hr as (Hlen' & Hsp' & Hgn & Hg).
    split; [exact Hlen'|]. split; [exact Hsp'|]. split; [done|]. cbn [out esize data set_data]. change (room (set_data m f)) with (room f).
    rewrite Hkeep; [done|]. rewrite span_eq in Hsp' by (done || lia). injection Hsp' as <- <- <-. nia.
  - rewrite <- Hst. f_equal. unfold contents. change (kfifo_len (set_data m f)) with (kfifo_len f).
    cbn [out esize data set_data]. change (room (set_data m f)) with (room f). apply Hkeep. lia.
Qed.

Lemma wpublish_ok : goes s (spsc_step s WPublish).
Proof.
  destruct s as [f w r snt rcv] eqn:Es. destruct Hs as [Hf Hw Hr Hst]. cbn [fifo wr rdr sent received] in *.
  assert (Hl := len_range f Hf). assert (He := fo_esize _ Hf). unfold goes, spsc_step. cbn [fifo wr rdr sent received].
  destruct w as [|buf len off n l done]; [by eexists|]. destruct Hw as (Hlen & Hsp & Hn & Hd & Hring).
  destruct (Z.eqb_spec done n) as [->|]; [|by eexists; split; [done|]; split; [split|]].
  assert (Hnl : n = len * esize f) by (rewrite span_eq in Hsp by (done || lia); by injection Hsp).
  assert (Hfree : n <= room f - kfifo_len f * esize f) by (subst n; unfold room; nia).
  assert (Hz : zlen (slice buf 0 n) = n) by (apply slice_length; lia).
  destruct (publish f Hf len (slice buf 0 n) (data f)) as (Hf' & Hc' & Hl'); [lia|lia|lia| |].
  { split; [done| |done]. rewrite Hz, <- Hring. apply ring_cong. by apply in_pos. }
  assert (Ef : set_data (data f) f = f) by (by destruct f). rewrite Ef in *. rewrite slice_slice in Hc' by lia. rewrite <- Hnl in Hc'.
  eexists. split; [done|]. split; [|done]. split; cbn [fifo wr rdr sent received]; [|done| |].
  - done.
  - destruct r as [|len' off' n' l' got]; [done|]. destruct Hr as (Hlen' & Hsp' & Hgn & Hg).
    split; [lia|]. done.
  - rewrite <- Hst, <- app_assoc. f_equal. exact Hc'.
Qed.

Lemma rstart_ok len : 0 <= len -> goes s (spsc_step s (RStart len)).
Proof.
  intros H0. destruct s as [f w r snt rcv] eqn:Es. destruct Hs as [Hf Hw Hr Hst]. cbn [fifo wr rdr sent received] in *.
  assert (Hl := len_range f Hf). assert (He := fo_esize _ Hf). unfold goes, spsc_step. cbn [fifo wr rdr sent received].
  destruct r; [|by eexists]. fold (kfifo_len f).
  set (n := if kfifo_len f <? len then kfifo_len f else len).
  assert (Hn : 0 <= n <= kfifo_len f) by (unfold n; bcase; lia).
  destruct (span f n (out f)) as [[off by_] l] eqn:Esp. eexists. split; [done|]. split; [|done].
  split; try done. assert (Esp' := Esp). rewrite span_eq in Esp' by (done || lia). injection Esp' as Eo En El.
  cbn [reader_ok fifo rdr]. split; [lia|]. split; [done|]. rewrite <- En. split; [|done].
  change (zlen (@nil Z)) with 0. nia.
Qed.

Lemma rmove_ok k : goes s (spsc_step s (RMove k)).
Proof.
  destruct s as [f w r snt rcv] eqn:Es. destruct Hs as [Hf Hw Hr Hst]. cbn [fifo wr rdr sent received] in *.
  assert (Hl := len_range f Hf). unfold goes, spsc_step. cbn [fifo wr rdr sent received].
  destruct r as [|len off n l got]; [by eexists|]. destruct Hr as (Hlen & Hsp & Hgn & Hg).
  assert (Hg0 := zlen_nonneg got).
  destruct (address_spec f Hf len (out f) off n l (zlen got) k) as (Hnl & Hc & Ha & Har & Hmod); [lia|done|done|].
  set (c := chunk n l (zlen got) k) in *. assert (Hd := fo_data _ Hf). rewrite mem_get_Ok by lia. cbn [mbind res_bind].
  assert (Hz : zlen (slice (data f) (address off l (zlen got)) c) = c) by (apply slice_length; lia).
  eexists. split; [done|]. split; [|done]. split; try done. cbn [fifo rdr].
  repeat split; try done; try lia; [rewrite zlen_app; lia|].
  rewrite zlen_app, Hz, ring_app, Hg by lia. f_equal.
  destruct (Z.eq_dec c 0) as [->|]; [done|]. rewrite <- (ring_slice (room f)) by lia. apply ring_cong.
  rewrite Hmod by lia. apply Z.mod_small. lia.
Qed.

Lemma rpublish_ok : goes s (spsc_step s RPublish).
Proof.
  destruct s as [f w r snt rcv] eqn:Es. destruct Hs as [Hf Hw Hr Hst]. cbn [fifo wr rdr sent received] in *.
  assert (Hl := len_range f Hf). unfold goes, spsc_step. cbn [fifo wr rdr sent received].
  destruct r as [|len off n l got]; [by eexists|]. destruct Hr as (Hlen & Hsp & Hgn & Hg).
  destruct (Z.eqb_spec (zlen got) n) as [En|]; [|by eexists; split; [done|]; split; [split|]].
  assert (Hnl : n = len * esize f) by (rewrite span_eq in Hsp by (done || lia); by injection Hsp).
  destruct (consume f Hf len) as (Hf' & Hc' & Hl'); [lia|].
  eexists. split; [done|]. split; [|done]. split; cbn [fifo wr rdr sent received]; [done| |done|].
  - destruct w as [|buf len' off' n' l' dn]; [done|]. destruct Hw as (Hlen' & Hsp' & Hn & Hd & Hring).
    split; [change (cap (set_out (u32 (out f + len)) f)) with (cap f); lia|]. done.
  - rewrite <- Hst, <- app_assoc. f_equal. rewrite Hc'. f_equal. by rewrite <- Hnl, <- En.
Qed.

Lemma spsc_step_ok a : action_ok (esize (fifo s)) a -> goes s (spsc_step s a).
Proof.
  destruct a; intros H.
  - by apply wstart_ok.
  - apply wmove_ok.
  - apply wpublish_ok.
  - by apply rstart_ok.
  - apply rmove_ok.
  - apply rpublish_ok.
Qed.
End Preserve.

Lemma spsc_run_ok acts s :
  spsc_ok s -> Forall (action_ok (esize (fifo s))) acts -> goes s (spsc_run s acts).
Proof.
  revert s. induction acts as [|a acts IH]; intros s Hs Ha; [by exists s|].
  apply Forall_cons_1 in Ha as [Ha Has]. destruct (spsc_step_ok s Hs a Ha) as (s1 & E1 & Hs1 & He1).
  cbn [spsc_run]. rewrite E1. cbn [mbind res_bind]. rewrite <- He1 in Has.
  destruct (IH s1 Hs1 Has) as (s2 & E2 & Hs2 & He2). exists s2. split; [done|]. split; [done|]. congruence.
Qed.

(** ** The steps of one side, with nothing between them, are the function *)

Definition write_all (buf : list Z) (len n : Z) : list action := [WStart buf len; WMove n; WMove n; WPublish].
Definition read_all (len n : Z) : list action := [RStart len; RMove n; RMove n; RPublish].

Lemma mem_put_nil m off : 0 <= off <= zlen m -> mem_put m off [] = Ok m.
Proof.
  intros H. unfold mem_put. change (zlen (@nil Z)) with 0. rewrite Z.add_0_r.
  destruct (Z.leb_spec 0 off), (Z.leb_spec off (zlen m)); try lia. simpl. f_equal. apply take_drop.
Qed.

(** Two moves of at least [n] bytes are the two copies. *)
Lemma first_move off n l k : 0 < l <= n -> n <= k -> chunk n l 0 k = l /\ address off l 0 = off.
Proof. intros. unfold chunk, address. destruct (Z.ltb_spec 0 l); lia. Qed.

Lemma second_move off n l k : 0 <= l <= n -> n <= k -> chunk n l l k = n - l /\ address off l l = 0.
Proof. intros. unfold chunk, address. destruct (Z.ltb_spec l l); lia. Qed.

Lemma span_range f len o off n l :
  fifo_ok f -> 0 <= len <= cap f -> span f len o = (off, n, l) ->
  n = len * esize f /\ 0 <= l <= n /\ n <= room f /\ 0 <= off < room f /\ (0 < n -> 0 < l) /\ u32 (n - l) = n - l.
Proof.
  intros Hf Hl Hs. rewrite span_eq in Hs by done. injection Hs as <- <- <-.
  assert (Hp := room_pos f Hf). assert (He := fo_esize _ Hf). assert (Hr := fo_room _ Hf).
  assert (Ha := Z.mod_pos_bound (o * esize f) (room f) ltac:(lia)).
  assert (Hn : 0 <= len * esize f <= room f) by (unfold room; nia). rewrite u32_small by (unfold is_u32; lia). lia.
Qed.

Lemma write_all_in s buf len :
  fifo_ok (fifo s) -> wr s = WIdle -> action_ok (esize (fifo s)) (WStart buf len) ->
  spsc_run s (write_all buf len (room (fifo s))) =
    ('(n, f) ← __kfifo_in (fifo s) buf len;
     Ok (mk_spsc f WIdle (rdr s) (sent s ++ slice buf 0 (n * esize (fifo s))) (received s))).
Proof.
  destruct s as [f w r snt rcv]. cbn [fifo wr rdr sent received]. intros Hf -> [H0 Hb].
  assert (Hl := len_range f Hf). assert (Hd := fo_data _ Hf). assert (He := fo_esize _ Hf).
  unfold write_all. cbn [spsc_run spsc_step fifo wr rdr sent received].
  unfold __kfifo_in, kfifo_copy_in. rewrite !unused_eq by done.
  set (k := if cap f - kfifo_len f <? len then cap f - kfifo_len f else len).
  assert (Hk : 0 <= k <= cap f /\ k <= len) by (unfold k; bcase; lia).
  destruct (span f k (in_ f)) as [[off n] l] eqn:Esp. cbn [mbind res_bind].
  destruct (span_range f k (in_ f) off n l Hf ltac:(lia) Esp) as (Hnk & Hln & Hnr & Hoff & Hpos & Hu).
  rewrite Hu. cbn [fifo wr rdr sent received]. rewrite (mem_get_Ok buf 0 l), (mem_get_Ok buf l (n - l)) by nia.
  cbn [mbind res_bind]. destruct (Z.eq_dec n 0) as [->|Hn0].
  - assert (l = 0) as -> by lia. destruct (second_move off 0 0 (room f)) as [E1 E2]; [lia..|].
    rewrite E1, E2. change (0 - 0) with 0. rewrite (mem_get_Ok buf) by nia. cbn [mbind res_bind].
    rewrite slice_0, !mem_put_nil by lia. cbn [mbind res_bind fifo wr rdr sent received data set_data].
    change (0 + 0) with 0. rewrite E1, E2. change (0 - 0) with 0. rewrite (mem_get_Ok buf) by nia. cbn [mbind res_bind].
    rewrite slice_0, !mem_put_nil by lia. cbn [mbind res_bind fifo wr rdr sent received data set_data in_].
    by rewrite <- Hnk.
  - destruct (first_move off n l (room f)) as [-> ->]; [lia..|]. rewrite (mem_get_Ok buf) by nia. cbn [mbind res_bind].
    destruct (mem_put (data f) off (slice buf 0 l)) as [m1|]; [|done]. cbn [mbind res_bind fifo wr rdr sent received data set_data].
    rewrite Z.add_0_l. destruct (second_move off n l (room f)) as [-> ->]; [lia..|]. rewrite (mem_get_Ok buf) by nia.
    cbn [mbind res_bind]. destruct (mem_put m1 0 (slice buf l (n - l))) as [m2|]; [|done].
    cbn [mbind res_bind fifo wr rdr sent received data set_data]. replace (l + (n - l)) with n by lia.
    rewrite Z.eqb_refl. cbn [mbind res_bind]. by rewrite <- Hnk.
Qed.

Lemma read_all_out s len :
  fifo_ok (fifo s) -> rdr s = RIdle -> 0 <= len ->
  spsc_run s (read_all len (room (fifo s))) =
    ('(_, b, f) ← __kfifo_out (fifo s) len; Ok (mk_spsc f (wr s) RIdle (sent s) (received s ++ b))).
Proof.
  destruct s as [f w r snt rcv]. cbn [fifo wr rdr sent received]. intros Hf -> H0.
  assert (Hl := len_range f Hf). assert (Hd := fo_data _ Hf). assert (He := fo_esize _ Hf).
  unfold read_all. cbn [spsc_run spsc_step fifo wr rdr sent received].
  unfold __kfifo_out, __kfifo_out_peek, kfifo_copy_out. change (u32 (in_ f - out f)) with (kfifo_len f).
  set (k := if kfifo_len f <? len then kfifo_len f else len).
  assert (Hk : 0 <= k <= cap f) by (unfold k; bcase; lia).
  destruct (span f k (out f)) as [[off n] l] eqn:Esp. cbn [mbind res_bind].
  destruct (span_range f k (out f) off n l Hf ltac:(lia) Esp) as (Hnk & Hln & Hnr & Hoff & Hpos & Hu).
  assert (Hfit : off + l <= room f).
  { rewrite span_eq in Esp by done. injection Esp as <- <- <-. lia. }
  rewrite Hu. rewrite (mem_get_Ok _ off l), (mem_get_Ok _ 0 (n - l)) by lia.
  cbn [mbind res_bind fifo wr rdr sent received]. change (zlen (@nil Z)) with 0. destruct (Z.eq_dec n 0) as [->|Hn0].
  - assert (l = 0) as -> by lia. destruct (second_move off 0 0 (room f)) as [E1 E2]; [lia..|].
    rewrite E1, E2. change (0 - 0) with 0. rewrite (mem_get_Ok _ 0 0) by lia.
    cbn [mbind res_bind fifo wr rdr sent received]. rewrite !slice_0. change (zlen ([] ++ @nil Z)) with 0.
    rewrite E1, E2. change (0 - 0) with 0. rewrite (mem_get_Ok _ 0 0) by lia. done.
  - destruct (first_move off n l (room f)) as [-> ->]; [lia..|]. rewrite (mem_get_Ok _ off l) by lia.
    cbn [mbind res_bind fifo wr rdr sent received app]. rewrite slice_length by lia.
    destruct (second_move off n l (room f)) as [-> ->]; [lia..|]. rewrite (mem_get_Ok _ 0 (n - l)) by lia.
    cbn [mbind res_bind fifo wr rdr sent received]. rewrite zlen_app, !slice_length by lia.
    replace (l + (n - l)) with n by lia. rewrite Z.eqb_refl. done.
Qed.

(** ** What is under way comes to an end *)

Definition finish_write (n : Z) : list action := [WMove n; WMove n; WPublish].
Definition finish_read (n : Z) : list action := [RMove n; RMove n; RPublish].

Definition same_queue (f f' : __kfifo) : Prop := mask f' = mask f /\ esize f' = esize f.

Lemma wmove_shape s k s' :
  spsc_step s (WMove k) = Ok s' ->
  same_queue (fifo s) (fifo s') /\ rdr s' = rdr s /\
  match wr s with
  | WIdle => wr s' = WIdle
  | WCopy buf len off n l d => wr s' = WCopy buf len off n l (d + chunk n l d k)
  end.
Proof.
  unfold spsc_step. destruct (wr s) as [|buf len off n l d] eqn:Ew; [intros [= <-]; by rewrite Ew|].
  intros E. binds E b Hb. binds E m Hm. injection E as <-. done.
Qed.

Lemma rmove_shape s k s' :
  spsc_step s (RMove k) = Ok s' ->
  fifo s' = fifo s /\ wr s' = wr s /\
  match rdr s with
  | RIdle => rdr s' = RIdle
  | RCopy len off n l got =>
      exists b, rdr s' = RCopy len off n l (got ++ b) /\
        mem_get (data (fifo s)) (address off l (zlen got)) (chunk n l (zlen got) k) = Ok b
  end.
Proof.
  unfold spsc_step. destruct (rdr s) as [|len off n l got] eqn:Er; [intros [= <-]; by rewrite Er|].
  intros E. binds E b Hb. injection E as <-. eauto.
Qed.

Lemma mem_get_len m a n b : mem_get m a n = Ok b -> zlen b = n.
Proof.
  unfold mem_get. destruct ((0 <=? a) && (0 <=? n) && (a + n <=? zlen m)) eqn:E; [|done].
  intros [= <-]. bsimp. apply slice_length; lia.
Qed.

Lemma two_chunks n l d k :
  0 <= l <= n -> 0 <= d <= n -> n <= k -> let d1 := d + chunk n l d k in d1 + chunk n l d1 k = n.
Proof. intros Hl Hd Hk. unfold chunk. destruct (Z.ltb_spec d l); cbv zeta; bcase; lia. Qed.

Lemma writer_finishes s :
  spsc_ok s -> exists s', spsc_run s (finish_write (room (fifo s))) = Ok s' /\ spsc_ok s' /\ wr s' = WIdle /\
    rdr s' = rdr s /\ same_queue (fifo s) (fifo s').
Proof.
  intros Hs. unfold finish_write. cbn [spsc_run]. set (R := room (fifo s)).
  destruct (wmove_ok s Hs R) as (s1 & E1 & Hs1 & _). rewrite E1. cbn [mbind res_bind].
  apply wmove_shape in E1 as ((Hm1 & He1) & Hr1 & Hw1).
  destruct (wmove_ok s1 Hs1 R) as (s2 & E2 & Hs2 & _). rewrite E2. cbn [mbind res_bind].
  apply wmove_shape in E2 as ((Hm2 & He2) & Hr2 & Hw2).
  destruct (wpublish_ok s2 Hs2) as (s3 & E3 & Hs3 & _). rewrite E3. exists s3. split; [done|]. split; [done|].
  assert (Hw := so_writer s Hs). assert (Hf := so_fifo s Hs). unfold spsc_step in E3.
  destruct (wr s) as [|buf len off n l d]; rewrite Hw1 in Hw2; rewrite Hw2 in E3.
  - injection E3 as <-. rewrite Hw2, Hr2, Hr1. unfold same_queue. by rewrite Hm2, Hm1, He2, He1.
  - destruct Hw as (Hlen & Hsp & _ & Hd & _). assert (Hlr := len_range _ Hf).
    edestruct span_range as (_ & Hln & Hnr & _); [exact Hf| |exact Hsp|]; [lia|].
    rewrite two_chunks, Z.eqb_refl in E3 by (unfold R; lia). injection E3 as <-. cbn [wr rdr fifo].
    rewrite Hr2, Hr1. unfold same_queue. cbn. by rewrite Hm2, Hm1, He2, He1.
Qed.

Lemma reader_finishes s :
  spsc_ok s -> exists s', spsc_run s (finish_read (room (fifo s))) = Ok s' /\ spsc_ok s' /\ rdr s' = RIdle /\
    wr s' = wr s /\ same_queue (fifo s) (fifo s').
Proof.
  intros Hs. unfold finish_read. cbn [spsc_run]. set (R := room (fifo s)).
  destruct (rmove_ok s Hs R) as (s1 & E1 & Hs1 & _). rewrite E1. cbn [mbind res_bind].
  apply rmove_shape in E1 as (Hf1 & Hw1 & Hr1).
  destruct (rmove_ok s1 Hs1 R) as (s2 & E2 & Hs2 & _). rewrite E2. cbn [mbind res_bind].
  apply rmove_shape in E2 as (Hf2 & Hw2 & Hr2).
  destruct (rpublish_ok s2 Hs2) as (s3 & E3 & Hs3 & _). rewrite E3. exists s3. split; [done|]. split; [done|].
  assert (Hr := so_reader s Hs). assert (Hf := so_fifo s Hs). unfold spsc_step in E3.
  destruct (rdr s) as [|len off n l got].
  - rewrite Hr1 in Hr2. rewrite Hr2 in E3. injection E3 as <-. by rewrite Hr2, Hw2, Hw1, Hf2, Hf1.
  - destruct Hr1 as (b1 & Hr1 & Hb1%mem_get_len). rewrite Hr1 in Hr2. destruct Hr2 as (b2 & Hr2 & Hb2%mem_get_len).
    destruct Hr as (Hlen & Hsp & Hg & _). assert (Hlr := len_range _ Hf). assert (Hg0 := zlen_nonneg got).
    edestruct span_range as (_ & Hln & Hnr & _); [exact Hf| |exact Hsp|]; [lia|].
    rewrite Hr2, zlen_app, Hb2, zlen_app, Hb1, two_chunks, Z.eqb_refl in E3 by (unfold R; lia).
    injection E3 as <-. cbn [wr rdr fifo]. by rewrite Hw2, Hw1, Hf2, Hf1.
Qed.

Lemma spsc_run_app s acts acts' : spsc_run s (acts ++ acts') = (s ← spsc_run s acts; spsc_run s acts').
Proof.
  revert s. induction acts as [|a acts IH]; intros s; [done|]. cbn [app spsc_run].
  destruct (spsc_step s a); [|done]. cbn [mbind res_bind]. apply IH.
Qed.

(** What is under way, and then a read of the whole queue. *)
Definition drain (f : __kfifo) : list action :=
  finish_write (room f) ++ finish_read (room f) ++ read_all (cap f) (room f).

Lemma drained s : spsc_ok s -> exists s', spsc_run s (drain (fifo s)) = Ok s' /\ received s' = sent s'.
Proof.
  intros Hs. unfold drain. rewrite !spsc_run_app. destruct (writer_finishes s Hs) as (s1 & -> & Hs1 & Hw1 & _ & Hm1 & He1).
  cbn [mbind res_bind]. assert (HR1 : room (fifo s) = room (fifo s1)) by (unfold room, cap; congruence).
  rewrite spsc_run_app, HR1. destruct (reader_finishes s1 Hs1) as (s2 & -> & Hs2 & Hr2 & Hw2 & Hm2 & He2).
  cbn [mbind res_bind]. assert (HR2 : room (fifo s1) = room (fifo s2)) by (unfold room, cap; congruence).
  assert (Hcap : cap (fifo s) = cap (fifo s2)) by (unfold cap; congruence). rewrite HR2, Hcap.
  assert (Hf := so_fifo s2 Hs2). assert (Hl := len_range _ Hf). assert (Hrd := read_all_out s2 (cap (fifo s2)) Hf Hr2 ltac:(lia)).
  destruct (spsc_run_ok (read_all (cap (fifo s2)) (room (fifo s2))) s2 Hs2) as (s3 & E3 & Hs3 & _).
  { repeat apply Forall_cons_2; try done. simpl. lia. }
  exists s3. split; [done|]. rewrite <- (so_stream s3 Hs3). rewrite Hrd in E3.
  unfold __kfifo_out, __kfifo_out_peek in E3. fold (kfifo_len (fifo s2)) in E3.
  replace (if kfifo_len (fifo s2) <? cap (fifo s2) then kfifo_len (fifo s2) else cap (fifo s2))
    with (kfifo_len (fifo s2)) in E3 by (bcase; lia).
  binds E3 x Hx. binds Hx y Hy. destruct y as [ln b]. binds Hy z Hz. injection Hy as <- <-. injection Hx as <-.
  cbn in E3. injection E3 as <-. cbn [received fifo].
  destruct (consume (fifo s2) Hf (kfifo_len (fifo s2))) as (_ & _ & Hl0); [lia|].
  unfold contents. rewrite Hl0, Z.sub_diag. cbn. by rewrite app_nil_r.
Qed.

(** C8: with one writer and one reader and no lock, whatever the order in which
    their loads of the counters, copies of single bytes and stores of the
    counters come, neither accesses anything outside the ring, and what the
    reader has received with what is in the queue is what the writer has sent:
    nothing is lost, repeated, reordered or read before it was written.  When
    both finish what they are at and the reader reads once more, all has
    arrived.  The steps of both sides take effect in one common order: memory
    is taken to be sequentially consistent, and what a weaker one does to the
    loads is not in this model. *)
Theorem unlocked_queue_delivers f acts :
  fifo_ok f -> contents f = [] -> Forall (action_ok (esize f)) acts ->
  exists s, spsc_run (mk_spsc f WIdle RIdle [] []) acts = Ok s /\
    sent s = received s ++ contents (fifo s) /\
    exists s', spsc_run s (drain (fifo s)) = Ok s' /\ received s' = sent s'.
Proof.
  intros Hf Hc Ha. assert (Hs : spsc_ok (mk_spsc f WIdle RIdle [] [])) by (split; try done).
  destruct (spsc_run_ok acts _ Hs Ha) as (s & E & Hs' & _). exists s. split; [done|].
  split; [symmetry; apply Hs'|]. by apply drained.
Qed.

(** A read that starts between the two parts of a write, with two elements of
    three bytes in the queue. *)
Definition shared : __kfifo := mk_kfifo (2 ^ 32 - 1) (2 ^ 32 - 1) 3 3 (replicate 12 0).
Definition interleaved : list action :=
  [WStart [1; 2; 3; 4; 5; 6] 2; WMove 2; RStart 4; WMove 9; RMove 1; WMove 2; RPublish; WMove 3; WPublish;
   WStart [7; 8; 9; 10; 11; 12; 13; 14; 15] 3; RStart 4; RMove 2; WMove 4; RMove 4; RMove 5; WMove 6; RPublish].

Lemma unlocked_queue_delivers_witness :
  exists s, spsc_run (mk_spsc shared WIdle RIdle [] []) interleaved = Ok s /\
    received s = [1; 2; 3; 4; 5; 6] /\ sent s = received s ++ contents (fifo s).
Proof.
  destruct (unlocked_queue_delivers shared interleaved) as (s & E & Hs & _).
  - split; [by exists 2|..]; vm_compute; repeat split; congruence.
  - reflexivity.
  - repeat apply Forall_cons_2; try apply Forall_nil_2; vm_compute; intuition congruence.
  - exists s. split; [exact E|]. split; [|exact Hs]. vm_compute in E. injection E as <-. reflexivity.
Defined.
