(* ===== verification/Skb.v ===== *)
(** Socket buffers: the part of [struct sk_buff] (include/linux/skbuff.h) and
    of its accessors (include/linux/skbuff.h, net/core/skbuff.c) that the
    socket filter and the netlink attribute code use.

    The linear area is the byte list [head], which runs from [skb->head] to
    [skb->end]; a pointer into it is its offset from [skb->head].  Page
    fragments and the fragment list follow it, as in [skb_shared_info]. *)

From S2P Require Import Prelude.
#[global] Set Warnings "-register-all".

(** ** Data *)

Record net_device : Type := mk_dev {
  ifindex : Z;
  dev_type : Z
}.

(** [skb_frag_t]: a window of a page. *)
Record skb_frag : Type := mk_frag {
  page : list Z;
  page_offset : Z;
  frag_size : Z
}.

Inductive sk_buff : Type := mk_skb {
  head : list Z;
  data : Z;
  tail : Z;
  len : Z;
  data_len : Z;
  mac_header : Z;
  network_header : Z;
  protocol : Z;
  pkt_type : Z;
  mark : Z;
  queue_mapping : Z;
  rxhash : Z;
  dev : option net_device;
  frags : list skb_frag;
  frag_list : list sk_buff
}.

Definition skb_is_nonlinear (skb : sk_buff) : bool := nonzero (data_len skb).

Definition skb_headlen (skb : sk_buff) : Z := u32 (len skb - data_len skb).

Definition skb_end (skb : sk_buff) : Z := zlen (head skb).

Definition skb_tailroom (skb : sk_buff) : Z :=
  if skb_is_nonlinear skb then 0 else skb_end skb - tail skb.

(** [memcpy] out of a buffer whose valid bytes are those below [limit]. *)
Definition rd_slice (buf : list Z) (limit off n : Z) : res (list Z) :=
  if (0 <=? off) && (off + n <=? limit) && (limit <=? zlen buf)
  then Ok (slice buf off n) else Fault OutOfBounds.

(** ** Copying out of a possibly non-linear buffer *)

(** One region [start, fin) of the buffer in the walk of [skb_copy_bits]:
    [read] copies out of the region, [rest] continues behind it. *)
Definition copy_region (start fin offset n : Z)
    (read : Z -> Z -> res (option (list Z)))
    (rest : Z -> Z -> res (option (list Z))) : res (option (list Z)) :=
  let copy := fin - offset in
  if 0 <? copy then
    let copy := if n <? copy then n else copy in
    match read (offset - start) copy with
    | Ok (Some piece) =>
        if n - copy =? 0 then Ok (Some piece)
        else
          match rest (offset + copy) (n - copy) with
          | Ok (Some more) => Ok (Some (piece ++ more))
          | r => r
          end
    | r => r
    end
  else rest offset n.

(** The loop over [skb_shinfo(skb)->frags]. *)
Fixpoint copy_frags (fs : list skb_frag) (start offset n : Z)
    (rest : Z -> Z -> Z -> res (option (list Z))) : res (option (list Z)) :=
  match fs with
  | [] => rest start offset n
  | f :: fs' =>
      let fin := start + frag_size f in
      copy_region start fin offset n
        (fun o c =>
           piece ← rd_slice (page f) (zlen (page f)) (page_offset f + o) c;
           Ok (Some piece))
        (fun o c => copy_frags fs' fin o c rest)
  end.

(** [Ok None] is the [-EFAULT] return, [Ok (Some bs)] a return of 0 with the
    bytes [bs] written to the destination. *)
Fixpoint skb_copy_bits (skb : sk_buff) (offset n : Z) {struct skb}
    : res (option (list Z)) :=
  if s32 (len skb) - n <? offset then Ok None
  else
    let walk_frags :=
      fix walk_frags (l : list sk_buff) (start offset n : Z) {struct l}
          : res (option (list Z)) :=
        match l with
        | [] => if n =? 0 then Ok (Some []) else Ok None
        | frag_iter :: l' =>
            let fin := start + len frag_iter in
            copy_region start fin offset n
              (fun o c => skb_copy_bits frag_iter o c)
              (fun o c => walk_frags l' fin o c)
        end in
    copy_region 0 (skb_headlen skb) offset n
      (fun o c =>
         piece ← rd_slice (head skb) (tail skb) (data skb + o) c;
         Ok (Some piece))
      (fun o c =>
         copy_frags (frags skb) (skb_headlen skb) o c (walk_frags (frag_list skb))).

(** [skb_header_pointer] returns a pointer to [n] bytes at [offset]; the model
    returns the bytes the caller then reads. *)
Definition skb_header_pointer (skb : sk_buff) (offset n : Z)
    : res (option (list Z)) :=
  let hlen := skb_headlen skb in
  if n <=? hlen - offset then
    bs ← rd_slice (head skb) (tail skb) (data skb + offset) n;
    Ok (Some bs)
  else skb_copy_bits skb offset n.

(** [skb_put]: [Fault BugOn] is [SKB_LINEAR_ASSERT] or [skb_over_panic]. *)
Definition set_tail_len (skb : sk_buff) (t l : Z) : sk_buff :=
  mk_skb (head skb) (data skb) t l (data_len skb) (mac_header skb)
    (network_header skb) (protocol skb) (pkt_type skb) (mark skb)
    (queue_mapping skb) (rxhash skb) (dev skb) (frags skb) (frag_list skb).

Definition set_head (skb : sk_buff) (h : list Z) : sk_buff :=
  mk_skb h (data skb) (tail skb) (len skb) (data_len skb) (mac_header skb)
    (network_header skb) (protocol skb) (pkt_type skb) (mark skb)
    (queue_mapping skb) (rxhash skb) (dev skb) (frags skb) (frag_list skb).

Definition skb_put (skb : sk_buff) (n : Z) : res (sk_buff * Z) :=
  let tmp := tail skb in
  if skb_is_nonlinear skb then Fault BugOn
  else
    let skb := set_tail_len skb (tail skb + n) (u32 (len skb + n)) in
    if skb_end skb <? tail skb then Fault BugOn else Ok (skb, tmp).

(** ** Trimming: [pskb_trim] *)

(** Outcome of the allocations of [___pskb_trim]: the error of
    [pskb_expand_head] on a cloned buffer (0 if the buffer is not cloned or the
    copy succeeds), and whether [skb_clone] of a shared fragment fails. *)
Record trim_env : Type := mk_trim_env {
  expand_err : sk_buff -> Z;
  clone_fails : sk_buff -> bool
}.

Definition set_frag_size (f : skb_frag) (n : Z) : skb_frag :=
  mk_frag (page f) (page_offset f) n.

Definition set_frags (skb : sk_buff) (t l dl : Z) (fs : list skb_frag) (fl : list sk_buff)
    : sk_buff :=
  mk_skb (head skb) (data skb) t l dl (mac_header skb)
    (network_header skb) (protocol skb) (pkt_type skb) (mark skb)
    (queue_mapping skb) (rxhash skb) (dev skb) fs fl.

(** The loop over the page fragments: [inr fs] are the fragments that stay
    when the new end falls into one of them, [inl offset] the position behind
    them all otherwise. *)
Fixpoint trim_frags (fs : list skb_frag) (offset n : Z) : Z + list skb_frag :=
  match fs with
  | [] => inl offset
  | f :: fs' =>
      let fin := offset + frag_size f in
      if fin <? n then
        match trim_frags fs' fin n with
        | inl o => inl o
        | inr r => inr (f :: r)
        end
      else inr [set_frag_size f (n - offset)]
  end.

Definition __skb_trim (skb : sk_buff) (n : Z) : sk_buff :=
  if skb_is_nonlinear skb then skb else set_tail_len skb (data skb + n) n.

(** The label [done]. *)
Definition trim_done (skb : sk_buff) (n : Z) (fs : list skb_frag) (fl : list sk_buff) : sk_buff :=
  if skb_headlen skb <? n
  then set_frags skb (tail skb) n (u32 (data_len skb - (len skb - n))) fs fl
  else set_frags skb (data skb + n) n 0 fs fl.

(** [pskb_trim] with [__pskb_trim] and [___pskb_trim]: the return value and
    the buffer. *)
Fixpoint pskb_trim (env : trim_env) (skb : sk_buff) (n : Z) {struct skb} : Z * sk_buff :=
  if n <? len skb then
    if nonzero (data_len skb) then
      let trim_list :=
        fix trim_list (l : list sk_buff) (offset : Z) {struct l} : Z * list sk_buff :=
          match l with
          | [] => (0, [])
          | frag :: l' =>
              let fin := offset + len frag in
              if clone_fails env frag then (- ENOMEM, frag :: l')
              else if fin <? n then
                let '(err, r) := trim_list l' fin in (err, frag :: r)
              else if n <? fin then
                let '(err, frag') := pskb_trim env frag (n - offset) in
                if nonzero err then (err, frag :: l') else (0, [frag'])
              else (0, [frag])
          end in
      if nonzero (expand_err env skb) then (expand_err env skb, skb)
      else if n <=? skb_headlen skb then (0, trim_done skb n [] [])
      else
        match trim_frags (frags skb) (skb_headlen skb) n with
        | inr fs => (0, trim_done skb n fs [])
        | inl offset =>
            let '(err, fl) := trim_list (frag_list skb) offset in
            if nonzero err then (err, skb) else (0, trim_done skb n (frags skb) fl)
        end
    else (0, __skb_trim skb n)
  else (0, skb).

(** ** Well-formed buffers *)

Definition frag_ok (f : skb_frag) : Prop :=
  bytes (page f) /\ 0 <= page_offset f /\ 0 <= frag_size f /\
  page_offset f + frag_size f <= zlen (page f).

Definition frag_bytes (f : skb_frag) : list Z :=
  slice (page f) (page_offset f) (frag_size f).

Definition sumz (l : list Z) : Z := foldr Z.add 0 l.

Inductive skb_ok (skb : sk_buff) : Prop := {
  ok_bytes : bytes (head skb);
  ok_data : 0 <= data skb;
  ok_tail : tail skb = data skb + (len skb - data_len skb);
  ok_end : tail skb <= zlen (head skb);
  ok_len : 0 <= data_len skb <= len skb /\ len skb < 2 ^ 31;
  ok_data_len : data_len skb =
    sumz (map frag_size (frags skb)) + sumz (map len (frag_list skb));
  ok_frags : Forall frag_ok (frags skb);
  ok_frag_list : Forall skb_ok (frag_list skb)
}.

(** The packet the buffer holds, as one byte string. *)
Fixpoint skb_data (skb : sk_buff) : list Z :=
  slice (head skb) (data skb) (len skb - data_len skb)
  ++ concat (map frag_bytes (frags skb))
  ++ concat (map skb_data (frag_list skb)).

(** Induction over the fragment list. *)
Lemma sk_buff_rect' (P : sk_buff -> Prop) :
  (forall skb, Forall P (frag_list skb) -> P skb) -> forall skb, P skb.
Proof.
  intros H. fix IH 1. intros skb. apply H. destruct skb as [].
  simpl. induction frag_list0 as [|x l IHl]; constructor; [apply IH|apply IHl].
Qed.

(** ** Lemmas *)

Lemma skb_headlen_ok skb : skb_ok skb -> skb_headlen skb = len skb - data_len skb.
Proof.
  intros H. destruct (ok_len _ H). unfold skb_headlen. apply u32_small. ints.
Qed.

Lemma rd_slice_Ok buf limit off n :
  0 <= off -> off + n <= limit -> limit <= zlen buf ->
  rd_slice buf limit off n = Ok (slice buf off n).
Proof. intros. unfold rd_slice. repeat bcase; try lia; done. Qed.

Lemma frag_bytes_len f : frag_ok f -> zlen (frag_bytes f) = frag_size f.
Proof. intros (?&?&?&?). unfold frag_bytes. by apply slice_length. Qed.

Lemma sumz_nonneg l : Forall (fun x => 0 <= x) l -> 0 <= sumz l.
Proof. induction 1; simpl; lia. Qed.

Lemma concat_frags_len fs :
  Forall frag_ok fs -> zlen (concat (map frag_bytes fs)) = sumz (map frag_size fs).
Proof.
  induction 1 as [|f fs Hf _ IH]; simpl; [done|].
  rewrite zlen_app, IH, frag_bytes_len by done. lia.
Qed.

Lemma skb_data_len skb : skb_ok skb -> zlen (skb_data skb) = len skb.
Proof.
  induction skb as [skb IH] using sk_buff_rect'. intros H.
  destruct (ok_len _ H) as [? ?]. assert (Ht := ok_tail _ H).
  assert (He := ok_end _ H). assert (Hd := ok_data _ H).
  assert (Hdl := ok_data_len _ H). assert (Hfl := ok_frag_list _ H).
  assert (Hc : zlen (concat (map skb_data (frag_list skb)))
               = sumz (map len (frag_list skb))).
  { revert IH Hfl. generalize (frag_list skb).
    induction 1 as [|x l Hx _ IHl]; intros Hok; [done|].
    inversion_clear Hok as [|? ? Hx' Hl']. simpl.
    rewrite zlen_app, Hx, IHl by done. done. }
  destruct skb; simpl in *.
  rewrite !zlen_app, Hc, concat_frags_len by apply (ok_frags _ H).
  rewrite slice_length by lia. simpl. lia.
Qed.

(** The walk over one region, against the bytes [B] of the region and the
    bytes [C] behind it. *)
Lemma copy_region_spec start fin offset n read rest B C :
  zlen B = fin - start ->
  start <= offset -> 0 <= n -> offset + n <= fin + zlen C ->
  (forall o c, 0 <= o -> 0 <= c -> o + c <= zlen B ->
     read o c = Ok (Some (slice B o c))) ->
  (forall o c, fin <= o -> 0 <= c -> o + c <= fin + zlen C ->
     rest o c = Ok (Some (slice C (o - fin) c))) ->
  copy_region start fin offset n read rest
    = Ok (Some (slice (B ++ C) (offset - start) n)).
Proof.
  intros HB Hs Hn Hf Hread Hrest. unfold copy_region.
  destruct (Z.ltb_spec 0 (fin - offset)).
  - destruct (Z.ltb_spec n (fin - offset)).
    + rewrite Hread by lia. rewrite Z.sub_diag. simpl.
      by rewrite slice_app_l by lia.
    + rewrite Hread by lia. destruct (Z.eqb_spec (n - (fin - offset)) 0).
      * replace n with (fin - offset) by lia. by rewrite slice_app_l by lia.
      * rewrite Hrest by lia. do 2 f_equal.
        replace n with ((fin - offset) + (n - (fin - offset))) at 2 by lia.
        rewrite slice_split by lia. f_equal.
        -- by rewrite slice_app_l by lia.
        -- rewrite slice_app_r by lia. f_equal. lia.
  - rewrite Hrest by lia. rewrite slice_app_r by lia. do 3 f_equal. lia.
Qed.

Lemma copy_frags_spec fs C rest :
  Forall frag_ok fs ->
  forall start offset n,
  let fin := start + zlen (concat (map frag_bytes fs)) in
  start <= offset -> 0 <= n -> offset + n <= fin + zlen C ->
  (forall o c, fin <= o -> 0 <= c -> o + c <= fin + zlen C ->
     rest fin o c = Ok (Some (slice C (o - fin) c))) ->
  copy_frags fs start offset n rest
    = Ok (Some (slice (concat (map frag_bytes fs) ++ C) (offset - start) n)).
Proof.
  induction 1 as [|f fs Hf _ IH]; intros start offset n fin Hs Hn Hle Hrest.
  - simpl. subst fin. simpl in *. rewrite zlen_nil, Z.add_0_r in *. by apply Hrest.
  - simpl. rewrite <- app_assoc. subst fin. simpl in *.
    assert (Hl := frag_bytes_len f Hf). destruct Hf as (?&?&?&?).
    rewrite zlen_app in Hle, Hrest.
    apply copy_region_spec.
    + rewrite Hl. lia.
    + done.
    + done.
    + rewrite zlen_app. lia.
    + intros o c ???. rewrite rd_slice_Ok by lia. simpl.
      unfold frag_bytes. rewrite slice_slice by lia. done.
    + intros o c ???. rewrite zlen_app in *.
      rewrite <- Hl in *. rewrite IH; [done|lia|lia|lia|].
      intros o' c'. rewrite <- !(Z.add_assoc start (zlen (frag_bytes f))). apply Hrest.
Qed.

(** The inner loops of [skb_copy_bits] and [skb_data], named. *)
Fixpoint walk_frags (l : list sk_buff) (start offset n : Z)
    : res (option (list Z)) :=
  match l with
  | [] => if n =? 0 then Ok (Some []) else Ok None
  | frag_iter :: l' =>
      let fin := start + len frag_iter in
      copy_region start fin offset n
        (fun o c => skb_copy_bits frag_iter o c)
        (fun o c => walk_frags l' fin o c)
  end.

Lemma skb_copy_bits_eq skb offset n :
  skb_copy_bits skb offset n =
  if s32 (len skb) - n <? offset then Ok None
  else
    copy_region 0 (skb_headlen skb) offset n
      (fun o c =>
         piece ← rd_slice (head skb) (tail skb) (data skb + o) c;
         Ok (Some piece))
      (fun o c =>
         copy_frags (frags skb) (skb_headlen skb) o c (walk_frags (frag_list skb))).
Proof. by destruct skb. Qed.

Lemma skb_data_eq skb :
  skb_data skb = slice (head skb) (data skb) (len skb - data_len skb)
    ++ concat (map frag_bytes (frags skb)) ++ concat (map skb_data (frag_list skb)).
Proof. by destruct skb. Qed.

Lemma walk_frags_spec l :
  Forall skb_ok l ->
  Forall (fun skb => forall offset n, skb_ok skb -> 0 <= offset -> 0 <= n ->
    offset + n <= len skb ->
    skb_copy_bits skb offset n = Ok (Some (slice (skb_data skb) offset n))) l ->
  forall start o c, start <= o -> 0 <= c ->
  o + c <= start + zlen (concat (map skb_data l)) ->
  walk_frags l start o c = Ok (Some (slice (concat (map skb_data l)) (o - start) c)).
Proof.
  induction 1 as [|x l Hx Hl IHl]; intros IH start o c Hs Hc Hle; simpl in *.
  - rewrite zlen_nil in *. destruct (Z.eqb_spec c 0); [|lia]. by subst.
  - inversion_clear IH as [|? ? Hx' Hl'].
    assert (Hxl := skb_data_len _ Hx). rewrite zlen_app in *.
    apply copy_region_spec; [lia..| |].
    + intros o' c' ???. apply Hx'; [done|lia|lia|lia].
    + intros o' c' ???. apply IHl; [done|lia|lia|lia].
Qed.

Lemma skb_copy_bits_in_range skb offset n :
  skb_ok skb -> 0 <= offset -> 0 <= n -> offset + n <= len skb ->
  skb_copy_bits skb offset n = Ok (Some (slice (skb_data skb) offset n)).
Proof.
  revert offset n. induction skb as [skb IH] using sk_buff_rect'.
  intros offset n H Ho Hn Hle.
  destruct (ok_len _ H) as [? ?]. assert (Ht := ok_tail _ H).
  assert (He := ok_end _ H). assert (Hd := ok_data _ H).
  assert (Hh := skb_headlen_ok _ H). assert (Hlen := skb_data_len _ H).
  rewrite skb_copy_bits_eq, s32_small by ints.
  destruct (Z.ltb_spec (len skb - n) offset); [lia|].
  rewrite <- (Z.sub_0_r offset) at 2. rewrite skb_data_eq in *.
  rewrite !zlen_app, slice_length in Hlen by lia.
  apply copy_region_spec.
  - rewrite slice_length; lia.
  - lia.
  - lia.
  - rewrite zlen_app, Hh. lia.
  - intros o c ???. rewrite slice_length in * by lia.
    rewrite rd_slice_Ok by lia. simpl. by rewrite slice_slice by lia.
  - intros o c ???. rewrite zlen_app in *.
    apply copy_frags_spec; [apply (ok_frags _ H)|lia|lia|lia|].
    intros o' c' ???. apply walk_frags_spec; [apply (ok_frag_list _ H)|done|lia|lia|lia].
Qed.

Lemma skb_copy_bits_out_of_range skb offset n :
  skb_ok skb -> 0 <= n -> len skb < offset + n ->
  skb_copy_bits skb offset n = Ok None.
Proof.
  intros H Hn Hle. destruct (ok_len _ H) as [? ?].
  rewrite skb_copy_bits_eq, s32_small by ints.
  destruct (Z.ltb_spec (len skb - n) offset); [done|lia].
Qed.

(** Any in-range access of [skb_header_pointer] sees the packet bytes, whether
    they are in the linear area, in pages or in a fragment list. *)
Lemma skb_header_pointer_spec skb offset n :
  skb_ok skb -> 0 <= offset -> 0 <= n ->
  skb_header_pointer skb offset n =
    Ok (if offset + n <=? len skb then Some (slice (skb_data skb) offset n)
        else None).
Proof.
  intros H Ho Hn. unfold skb_header_pointer.
  destruct (ok_len _ H) as [? ?]. assert (Ht := ok_tail _ H).
  assert (He := ok_end _ H). assert (Hd := ok_data _ H).
  rewrite skb_headlen_ok by done.
  destruct (Z.leb_spec n (len skb - data_len skb - offset)).
  - rewrite rd_slice_Ok by lia. simpl.
    destruct (Z.leb_spec (offset + n) (len skb)); [|lia].
    do 2 f_equal. destruct skb; simpl in *.
    rewrite slice_app_l by (rewrite ?slice_length; lia).
    by rewrite slice_slice by lia.
  - destruct (Z.leb_spec (offset + n) (len skb)).
    + by apply skb_copy_bits_in_range.
    + by apply skb_copy_bits_out_of_range.
Qed.

Lemma skb_data_bytes skb : skb_ok skb -> bytes (skb_data skb).
Proof.
  induction skb as [skb IH] using sk_buff_rect'. intros H.
  assert (Hf := ok_frags _ H). assert (Hfl := ok_frag_list _ H).
  assert (Hb := ok_bytes _ H).
  assert (Hc : bytes (concat (map skb_data (frag_list skb)))).
  { revert IH Hfl. generalize (frag_list skb).
    induction 1 as [|x l Hx _ IHl]; intros Hok; [constructor|].
    inversion_clear Hok as [|? ? Hx' Hl']. simpl.
    apply Forall_app; split; [by apply Hx|by apply IHl]. }
  destruct skb; simpl in *.
  apply Forall_app; split; [by apply bytes_slice|].
  apply Forall_app; split; [|done].
  clear -Hf. induction Hf as [|f fs (?&?&?&?) _ IH]; [constructor|].
  simpl. apply Forall_app; split; [by apply bytes_slice|done].
Qed.

(** ** Trimming keeps a prefix *)

Lemma frag_trim f n :
  frag_ok f -> 0 <= n <= frag_size f ->
  frag_ok (set_frag_size f n) /\ frag_bytes (set_frag_size f n) = slice (frag_bytes f) 0 n.
Proof.
  intros (Hb & Ho & Hs & Hl) Hn. split.
  - unfold frag_ok, set_frag_size. cbn [page page_offset frag_size]. repeat split; try done; lia.
  - unfold frag_bytes, set_frag_size. cbn [page page_offset frag_size].
    rewrite slice_slice by lia. by rewrite Z.add_0_r.
Qed.

Lemma slice_0_app {A} (l l' : list A) n :
  zlen l <= n -> slice (l ++ l') 0 n = l ++ slice l' 0 (n - zlen l).
Proof.
  intros Hn. unfold slice. rewrite !drop_0, take_app_ge by (unfold zlen in *; lia).
  f_equal. f_equal. unfold zlen. lia.
Qed.

Lemma trim_frags_spec fs n : Forall frag_ok fs -> forall offset,
  offset <= n ->
  let B := concat (map frag_bytes fs) in
  match trim_frags fs offset n with
  | inl o => o = offset + zlen B /\ (o < n \/ fs = [])
  | inr fs' => Forall frag_ok fs' /\ concat (map frag_bytes fs') = slice B 0 (n - offset) /\
               n - offset <= zlen B
  end.
Proof.
  induction 1 as [|f fs Hf Hfs IH]; intros offset Ho; cbn [trim_frags map concat].
  - unfold zlen. simpl. split; [lia|by right].
  - assert (Hl := frag_bytes_len f Hf). assert (0 <= frag_size f) by apply Hf.
    assert (Hz := zlen_nonneg (concat (map frag_bytes fs))).
    rewrite zlen_app. bcase.
    + specialize (IH (offset + frag_size f)). destruct (trim_frags _ _ _) as [o|fs'].
      * destruct IH as (-> & Ho'); [lia|]. split; [lia|]. left. destruct Ho' as [?| ->]; [done|].
        unfold zlen at 1. simpl. lia.
      * destruct IH as (Hok & Hc & Hle); [lia|]. split; [by constructor|]. cbn [map concat].
        rewrite Hc, slice_0_app by lia. split; [|lia]. do 2 f_equal. lia.
    + destruct (frag_trim f (n - offset) Hf) as [Hok Hb]; [lia|]. split; [by apply Forall_singleton|].
      cbn [map concat]. rewrite app_nil_r, Hb. rewrite slice_app_l by lia. split; [done|lia].
Qed.

(** The inner loop over the fragment list, named. *)
Section TrimList.
Context (env : trim_env) (n : Z).

Fixpoint trim_list (l : list sk_buff) (offset : Z) : Z * list sk_buff :=
  match l with
  | [] => (0, [])
  | frag :: l' =>
      let fin := offset + len frag in
      if clone_fails env frag then (- ENOMEM, frag :: l')
      else if fin <? n then
        let '(err, r) := trim_list l' fin in (err, frag :: r)
      else if n <? fin then
        let '(err, frag') := pskb_trim env frag (n - offset) in
        if nonzero err then (err, frag :: l') else (0, [frag'])
      else (0, [frag])
  end.
End TrimList.

Lemma pskb_trim_eq env skb n :
  pskb_trim env skb n =
  if n <? len skb then
    if nonzero (data_len skb) then
      if nonzero (expand_err env skb) then (expand_err env skb, skb)
      else if n <=? skb_headlen skb then (0, trim_done skb n [] [])
      else
        match trim_frags (frags skb) (skb_headlen skb) n with
        | inr fs => (0, trim_done skb n fs [])
        | inl offset =>
            let '(err, fl) := trim_list env n (frag_list skb) offset in
            if nonzero err then (err, skb) else (0, trim_done skb n (frags skb) fl)
        end
    else (0, __skb_trim skb n)
  else (0, skb).
Proof. by destruct skb. Qed.

(** What [pskb_trim] promises of one buffer: on success a well-formed buffer
    that holds the first [n] bytes, on failure the buffer as it was. *)
Definition trims (env : trim_env) (skb : sk_buff) : Prop :=
  forall n err skb', skb_ok skb -> 0 <= n -> pskb_trim env skb n = (err, skb') ->
    if err =? 0
    then skb_ok skb' /\ len skb' = Z.min n (len skb) /\ skb_data skb' = slice (skb_data skb) 0 n
    else skb' = skb.

Lemma trim_list_spec env n l :
  Forall skb_ok l -> Forall (trims env) l -> forall offset r,
  offset <= n ->
  let B := concat (map skb_data l) in
  n <= offset + zlen B ->
  trim_list env n l offset = (0, r) ->
  Forall skb_ok r /\ sumz (map len r) = n - offset /\
  concat (map skb_data r) = slice B 0 (n - offset).
Proof.
  induction 1 as [|x l Hx Hl IH]; intros Htr offset r Ho; cbn [trim_list map concat].
  - unfold zlen. simpl. intros Hn [= <-]. simpl. split; [done|]. split; [lia|]. unfold slice. by rewrite drop_nil, take_nil.
  - apply Forall_cons_iff in Htr as [Htx Htl].
    assert (Hxl := skb_data_len x Hx). rewrite zlen_app. intros Hn.
    destruct (clone_fails env x); [discriminate|]. bcase.
    + destruct (trim_list env n l (offset + len x)) as [err r'] eqn:E.
      intros [= -> <-]. destruct (IH Htl (offset + len x) r') as (Hok & Hs & Hc); [lia|lia|done|].
      cbn [map concat sumz foldr]. split; [by constructor|]. unfold sumz in Hs. split; [lia|].
      rewrite Hc, slice_0_app by lia. do 2 f_equal. lia.
    + bcase.
      * destruct (pskb_trim env x (n - offset)) as [err x'] eqn:E.
        assert (Ht := Htx (n - offset) err x' Hx ltac:(lia) E).
        unfold nonzero. destruct (Z.eqb_spec err 0) as [->|]; cbn [negb]; [|intros [= ? ?]; done].
        intros [= <-]. destruct Ht as (Hok & Hlen & Hd). cbn [map concat sumz foldr].
        rewrite app_nil_r, Hd. split; [by apply Forall_singleton|]. split; [lia|].
        by rewrite slice_app_l by lia.
      * intros [= <-]. cbn [map concat sumz foldr]. rewrite app_nil_r.
        split; [by apply Forall_singleton|]. split; [lia|].
        rewrite slice_app_l by lia. replace (n - offset) with (zlen (skb_data x)) by lia.
        by rewrite slice_full.
Qed.

Lemma trim_done_ok skb n fs fl :
  skb_ok skb -> 0 <= n < len skb -> Forall frag_ok fs -> Forall skb_ok fl ->
  sumz (map frag_size fs) + sumz (map len fl) = Z.max 0 (n - skb_headlen skb) ->
  concat (map frag_bytes fs) ++ concat (map skb_data fl)
    = slice (concat (map frag_bytes (frags skb)) ++ concat (map skb_data (frag_list skb))) 0
        (n - skb_headlen skb) ->
  skb_ok (trim_done skb n fs fl) /\ len (trim_done skb n fs fl) = Z.min n (len skb) /\
  skb_data (trim_done skb n fs fl) = slice (skb_data skb) 0 n.
Proof.
  intros H Hn Hfs Hfl Hsum Hcat. destruct (ok_len _ H) as [Hdl Hlt].
  assert (Hh := skb_headlen_ok _ H). assert (Ht := ok_tail _ H). assert (He := ok_end _ H).
  assert (Hd := ok_data _ H).
  assert (HA : zlen (slice (head skb) (data skb) (len skb - data_len skb)) = len skb - data_len skb)
    by (apply slice_length; lia).
  unfold trim_done. rewrite skb_data_eq, (skb_data_eq skb). bcase.
  - rewrite u32_small by (unfold is_u32; lia). cbn [set_frags head data len data_len frags frag_list].
    split; [|split; [lia|]].
    + constructor; cbn [set_frags head data tail len data_len frags frag_list]; try done; try lia.
      apply (ok_bytes _ H).
    + replace (n - (data_len skb - (len skb - n))) with (len skb - data_len skb) by lia.
      rewrite Hcat. symmetry. etransitivity; [apply slice_0_app; lia|]. by rewrite HA, Hh.
  - cbn [set_frags head data len data_len frags frag_list]. split; [|split; [lia|]].
    + constructor; cbn [set_frags head data tail len data_len frags frag_list]; try done; try lia.
      apply (ok_bytes _ H).
    + rewrite Hcat. symmetry. etransitivity; [apply slice_app_l; lia|]. rewrite slice_slice by lia.
      rewrite Z.add_0_r, Z.sub_0_r. unfold slice at 3.
      replace (Z.to_nat (n - skb_headlen skb)) with 0%nat by lia. by rewrite app_nil_r.
Qed.

Lemma pskb_trim_spec env skb : trims env skb.
Proof.
  induction skb as [skb IH] using sk_buff_rect'. intros n err skb' H Hn.
  rewrite pskb_trim_eq. destruct (ok_len _ H) as [Hdl Hlt].
  assert (Hh := skb_headlen_ok _ H). assert (Hlen := skb_data_len _ H).
  assert (Hs := ok_data_len _ H).
  bcase; [|intros [= <- <-]; split; [done|]; split; [lia|];
           unfold slice; rewrite drop_0, take_ge; [done|unfold zlen in Hlen; lia]].
  unfold nonzero at 1. destruct (Z.eqb_spec (data_len skb) 0) as [Hz|Hz]; cbn [negb].
  - intros [= <- <-]. cbn [Z.eqb].
    assert (E : __skb_trim skb n = trim_done skb n (frags skb) (frag_list skb)).
    { unfold __skb_trim, trim_done, skb_is_nonlinear, nonzero. rewrite Hz, Hh. cbn [Z.eqb negb].
      bcase; [lia|]. unfold set_tail_len, set_frags. by rewrite Hz. }
    rewrite E. apply trim_done_ok; [done|done|apply (ok_frags _ H)|apply (ok_frag_list _ H)|lia|].
    rewrite skb_data_eq, !zlen_app, slice_length in Hlen
      by (assert (Ht := ok_tail _ H); assert (He := ok_end _ H); assert (Hd := ok_data _ H); lia).
    unfold slice. rewrite drop_0.
    assert (E0 : concat (map frag_bytes (frags skb)) ++ concat (map skb_data (frag_list skb)) = []).
    { apply length_zero_iff_nil. rewrite length_app. unfold zlen in Hlen. lia. }
    by rewrite E0, take_nil.
  - unfold nonzero at 1. destruct (Z.eqb_spec (expand_err env skb) 0) as [He|He]; cbn [negb];
      [|intros [= <- <-]; by rewrite (proj2 (Z.eqb_neq _ _) He)].
    bcase.
    + intros [= <- <-]. cbn [Z.eqb]. apply trim_done_ok; try done; [simpl; lia|].
      simpl. unfold slice. by replace (Z.to_nat (n - skb_headlen skb)) with 0%nat by lia.
    + assert (Hf := ok_frags _ H). assert (Hl := concat_frags_len _ Hf).
      assert (Hfl := ok_frag_list _ H).
      assert (Htf := trim_frags_spec (frags skb) n Hf (skb_headlen skb) ltac:(lia)).
      cbn zeta in Htf. destruct (trim_frags _ _ _) as [o|fs].
      * destruct Htf as [-> Ho]. destruct (trim_list _ _ _ _) as [e fl] eqn:El.
        unfold nonzero. destruct (Z.eqb_spec e 0) as [->|Hne]; cbn [negb];
          [|intros [= <- <-]; by rewrite (proj2 (Z.eqb_neq _ _) Hne)].
        intros [= <- <-]. cbn [Z.eqb]. rewrite skb_data_eq, !zlen_app, slice_length in Hlen
          by (assert (Ht := ok_tail _ H); assert (He' := ok_end _ H); assert (Hd := ok_data _ H); lia).
        destruct (trim_list_spec env n (frag_list skb) Hfl IH
          (skb_headlen skb + zlen (concat (map frag_bytes (frags skb)))) fl) as (Hok & Hsum & Hcat); [|lia|done|].
        { destruct Ho as [|E]; [lia|]. rewrite E. unfold zlen. simpl. lia. }
        apply trim_done_ok; [done|lia|done|done|lia|].
        rewrite Hcat, slice_0_app.
        -- f_equal. f_equal. lia.
        -- destruct Ho as [|E]; [lia|]. rewrite E. unfold zlen. simpl. lia.
      * intros [= <- <-]. cbn [Z.eqb]. destruct Htf as (Hok & Hc & Hle).
        apply trim_done_ok; [done|lia|done|done| |].
        -- rewrite <- (concat_frags_len fs), Hc, slice_length by (done || lia). simpl. lia.
        -- cbn [map concat]. rewrite app_nil_r, Hc, slice_app_l by lia. done.
Qed.

(** Without a failed allocation trimming succeeds. *)
Lemma pskb_trim_succeeds env skb n :
  (forall s, expand_err env s = 0) -> (forall s, clone_fails env s = false) ->
  fst (pskb_trim env skb n) = 0.
Proof.
  intros He Hc. revert n. induction skb as [skb IH] using sk_buff_rect'. intros n.
  rewrite pskb_trim_eq, He. cbn [nonzero Z.eqb negb]. repeat (bcase; [|done]).
  destruct (nonzero (data_len skb)); [|done]. bcase; [done|].
  destruct (trim_frags _ _ _) as [o|]; [|done].
  assert (Hl : fst (trim_list env n (frag_list skb) o) = 0).
  { revert o. induction IH as [|x l Hx _ IHl]; intros o; [done|]. cbn [trim_list]. rewrite Hc.
    bcase.
    - specialize (IHl (o + len x)). by destruct (trim_list _ _ _ _).
    - bcase; [|done]. specialize (Hx (n - o)). destruct (pskb_trim env x (n - o)) as [e x'].
      simpl in Hx. by rewrite Hx. }
  destruct (trim_list _ _ _ _) as [e fl]. simpl in Hl. by rewrite Hl.
Qed.

(** [pskb_trim], on a buffer whose data is spread over the linear area,
    page fragments and nested buffers, either leaves a well-formed buffer that
    holds exactly the first [n] bytes of the packet, or leaves the buffer
    alone and reports a failed allocation; it always succeeds when no
    allocation fails. *)
Theorem pskb_trim_keeps_prefix env skb n err skb' :
  skb_ok skb -> 0 <= n -> pskb_trim env skb n = (err, skb') ->
  ((err = 0 /\ skb_ok skb' /\ len skb' = Z.min n (len skb) /\
    skb_data skb' = slice (skb_data skb) 0 n) \/
   (err <> 0 /\ skb' = skb)) /\
  ((forall s, expand_err env s = 0) -> (forall s, clone_fails env s = false) -> err = 0).
Proof.
  intros H Hn E. assert (Hs := pskb_trim_spec env skb n err skb' H Hn E). split.
  - destruct (Z.eqb_spec err 0); [left|right]; tauto.
  - intros He Hc. assert (Hz := pskb_trim_succeeds env skb n He Hc). by rewrite E in Hz.
Qed.

(** A packet with two linear bytes, a page fragment of three bytes and a
    nested buffer of four. *)
Definition example_skb : sk_buff :=
  let frag := mk_skb [7; 8; 9; 10] 0 4 4 0 0 0 0 0 0 0 0 None [] [] in
  mk_skb [0; 0; 1; 2; 0; 0] 2 4 9 7 0 2 8 0 0 0 0 None
    [mk_frag [0; 3; 4; 5] 1 3] [frag].

Lemma example_skb_ok : skb_ok example_skb.
Proof.
  assert (Hb : forall l, forallb (fun b => (0 <=? b) && (b <? 256)) l = true -> bytes l).
  { intros l Hl. apply List.Forall_forall. intros x Hx.
    apply (proj1 (forallb_forall _ _)) with (x := x) in Hl; [|done].
    apply andb_true_iff in Hl as [? ?]. unfold is_u8. change (2 ^ 8) with 256. lia. }
  unfold example_skb. constructor; cbn -[Z.pow]; try lia; try (by apply Hb); try (by vm_compute).
  - apply Forall_singleton. split; [by apply Hb|]. by vm_compute.
  - apply Forall_singleton. constructor; cbn -[Z.pow]; try lia; try done; try (by apply Hb);
      by vm_compute.
Qed.

Lemma pskb_trim_keeps_prefix_witness :
  let env := mk_trim_env (fun _ => 0) (fun _ => false) in
  let r := pskb_trim env example_skb 7 in
  ((fst r = 0 /\ skb_ok (snd r) /\ len (snd r) = 7 /\
    skb_data (snd r) = [1; 2; 3; 4; 5; 7; 8]) \/
   (fst r <> 0 /\ snd r = example_skb)) /\
  ((forall s, expand_err env s = 0) -> (forall s, clone_fails env s = false) -> fst r = 0).
Proof.
  intros env r.
  exact (pskb_trim_keeps_prefix env example_skb 7 (fst r) (snd r) example_skb_ok
           ltac:(lia) eq_refl).
Defined.
