(* ===== verification/Str.v ===== *)
(** lib/string.c: the kernel's string and memory routines.

    All routines work on one flat memory [m], a list of bytes, and a pointer
    is an index into it, so that source and destination of a copy may
    overlap.  A read or write outside [m] is [Fault OutOfBounds].  Loops that
    run to a terminator carry fuel; [Str.v] always gives them one step more
    than [m] has bytes, and the specifications below show that this is
    enough. *)

From S2P Require Import Prelude.

(** ** Character classes (include/linux/ctype.h, lib/ctype.c) *)

Definition _U : Z := 1.
Definition _L : Z := 2.
Definition _D : Z := 4.
Definition _C : Z := 8.
Definition _P : Z := 16.
Definition _S : Z := 32.
Definition _X : Z := 64.
Definition _SP : Z := 128.

Definition _ctype : list Z :=
  let CS := Z.lor _C _S in
  let SSP := Z.lor _S _SP in
  let UX := Z.lor _U _X in
  let LX := Z.lor _L _X in
  replicate 9 _C ++ replicate 5 CS ++ replicate 18 _C
  ++ [SSP] ++ replicate 15 _P ++ replicate 10 _D ++ replicate 7 _P
  ++ replicate 6 UX ++ replicate 20 _U ++ replicate 6 _P
  ++ replicate 6 LX ++ replicate 20 _L ++ replicate 4 _P ++ [_C]
  ++ replicate 32 0 ++ [SSP] ++ replicate 31 _P
  ++ replicate 23 _U ++ [_P] ++ replicate 7 _U ++ [_L]
  ++ replicate 23 _L ++ [_P] ++ replicate 8 _L.

Definition __ismask (c : Z) : Z := default 0 (znth _ctype (u8 c)).
Definition isspace (c : Z) : bool := nonzero (Z.land (__ismask c) _S).
Definition isupper (c : Z) : bool := nonzero (Z.land (__ismask c) _U).
Definition islower (c : Z) : bool := nonzero (Z.land (__ismask c) _L).
Definition isdigit (c : Z) : bool := nonzero (Z.land (__ismask c) _D).
Definition isxdigit (c : Z) : bool := nonzero (Z.land (__ismask c) (Z.lor _D _X)).
Definition isalpha (c : Z) : bool := nonzero (Z.land (__ismask c) (Z.lor _U _L)).
Definition isalnum (c : Z) : bool := nonzero (Z.land (__ismask c) (Z.lor (Z.lor _U _L) _D)).

Definition tolower (c : Z) : Z := if isupper c then u8 (c - (65 - 97)) else c.

(** ** Memory *)

Definition wr (m : list Z) (p b : Z) : res (list Z) :=
  of_option OutOfBounds (zupd m p b).

Definition fuel_of (m : list Z) : nat := S (length m).

(** [*dest++ = *src++] [count] times, upwards: [memcpy]. *)
Fixpoint copy_up (n : nat) (m : list Z) (dest src : Z) : res (list Z) :=
  match n with
  | O => Ok m
  | S n => c ← rd m src; m ← wr m dest c; copy_up n m (dest + 1) (src + 1)
  end.

(** [*--tmp = *--s] [count] times. *)
Fixpoint copy_down (n : nat) (m : list Z) (tmp s : Z) : res (list Z) :=
  match n with
  | O => Ok m
  | S n => c ← rd m (s - 1); m ← wr m (tmp - 1) c; copy_down n m (tmp - 1) (s - 1)
  end.

Definition memcpy (m : list Z) (dest src count : Z) : res (list Z) :=
  copy_up (Z.to_nat count) m dest src.

Definition memmove (m : list Z) (dest src count : Z) : res (list Z) :=
  if dest <=? src then copy_up (Z.to_nat count) m dest src
  else copy_down (Z.to_nat count) m (dest + count) (src + count).

Fixpoint memset_loop (n : nat) (m : list Z) (xs c : Z) : res (list Z) :=
  match n with
  | O => Ok m
  | S n => m ← wr m xs (u8 c); memset_loop n m (xs + 1) c
  end.

Definition memset (m : list Z) (s c count : Z) : res (list Z) :=
  memset_loop (Z.to_nat count) m s c.

Fixpoint memcmp_loop (n : nat) (m : list Z) (su1 su2 : Z) : res Z :=
  match n with
  | O => Ok 0
  | S n =>
      a ← rd m su1; b ← rd m su2;
      if nonzero (a - b) then Ok (a - b) else memcmp_loop n m (su1 + 1) (su2 + 1)
  end.

Definition memcmp (m : list Z) (cs ct count : Z) : res Z :=
  memcmp_loop (Z.to_nat count) m cs ct.

Fixpoint memchr_loop (n : nat) (m : list Z) (p c : Z) : res (option Z) :=
  match n with
  | O => Ok None
  | S n => b ← rd m p; if u8 c =? b then Ok (Some p) else memchr_loop n m (p + 1) c
  end.

Definition memchr (m : list Z) (s c n : Z) : res (option Z) :=
  memchr_loop (Z.to_nat n) m s c.

Fixpoint memscan_loop (n : nat) (m : list Z) (p c : Z) : res Z :=
  match n with
  | O => Ok p
  | S n => b ← rd m p; if b =? c then Ok p else memscan_loop n m (p + 1) c
  end.

Definition memscan (m : list Z) (addr c size : Z) : res Z :=
  memscan_loop (Z.to_nat size) m addr c.

Fixpoint check_bytes8_loop (n : nat) (m : list Z) (start value : Z) : res (option Z) :=
  match n with
  | O => Ok None
  | S n =>
      b ← rd m start;
      if negb (b =? value) then Ok (Some start) else check_bytes8_loop n m (start + 1) value
  end.

Definition check_bytes8 (m : list Z) (start value count : Z) : res (option Z) :=
  check_bytes8_loop (Z.to_nat count) m start value.

(** A little-endian [u64] load. *)
Fixpoint load_le (n : nat) (m : list Z) (p : Z) : res Z :=
  match n with
  | O => Ok 0
  | S n => b ← rd m p; r ← load_le n m (p + 1); Ok (b + 256 * r)
  end.

Fixpoint memchr_inv_words (words : nat) (m : list Z) (start value value64 rem : Z)
    : res (option Z) :=
  match words with
  | O => check_bytes8 m start value rem
  | S words =>
      w ← load_le 8 m start;
      if negb (w =? value64) then check_bytes8 m start value 8
      else memchr_inv_words words m (start + 8) value value64 rem
  end.

(** [base] is the address of [m] itself, which [start % 8] depends on. *)
Definition memchr_inv (base : Z) (m : list Z) (start c count : Z) : res (option Z) :=
  let value := u8 c in
  if count <=? 16 then check_bytes8 m start value count
  else
    let value64 := value in
    let value64 := Z.lor value64 (Z.shiftl value64 8) in
    let value64 := Z.lor value64 (Z.shiftl value64 16) in
    let value64 := Z.lor value64 (u64 (Z.shiftl value64 32)) in
    let words start count :=
      memchr_inv_words (Z.to_nat (count / 8)) m start value value64 (count mod 8) in
    let prefix := (base + start) mod 8 in
    if nonzero prefix then
      let prefix := 8 - prefix in
      r ← check_bytes8 m start value prefix;
      match r with
      | Some p => Ok (Some p)
      | None => words (start + prefix) (count - prefix)
      end
    else words start count.

(** ** NUL-terminated strings *)

Fixpoint strlen_loop (fuel : nat) (m : list Z) (sc : Z) : res Z :=
  match fuel with
  | O => Fault OutOfFuel
  | S fuel => c ← rd m sc; if c =? 0 then Ok sc else strlen_loop fuel m (sc + 1)
  end.

Definition strlen (m : list Z) (s : Z) : res Z :=
  sc ← strlen_loop (fuel_of m) m s; Ok (sc - s).

Fixpoint strnlen_loop (count : nat) (m : list Z) (sc : Z) : res Z :=
  match count with
  | O => Ok sc
  | S count => c ← rd m sc; if c =? 0 then Ok sc else strnlen_loop count m (sc + 1)
  end.

Definition strnlen (m : list Z) (s count : Z) : res Z :=
  sc ← strnlen_loop (Z.to_nat count) m s; Ok (sc - s).

Fixpoint strcpy_loop (fuel : nat) (m : list Z) (dest src : Z) : res (list Z) :=
  match fuel with
  | O => Fault OutOfFuel
  | S fuel =>
      c ← rd m src; m ← wr m dest c;
      if c =? 0 then Ok m else strcpy_loop fuel m (dest + 1) (src + 1)
  end.

Definition strcpy (m : list Z) (dest src : Z) : res (list Z) :=
  strcpy_loop (fuel_of m) m dest src.

Fixpoint strncpy_loop (count : nat) (m : list Z) (tmp src : Z) : res (list Z) :=
  match count with
  | O => Ok m
  | S count =>
      c ← rd m src; m ← wr m tmp c;
      strncpy_loop count m (tmp + 1) (if nonzero c then src + 1 else src)
  end.

Definition strncpy (m : list Z) (dest src count : Z) : res (list Z) :=
  strncpy_loop (Z.to_nat count) m dest src.

Definition strlcpy (m : list Z) (dest src size : Z) : res (Z * list Z) :=
  ret ← strlen m src;
  if nonzero size then
    let len := if size <=? ret then size - 1 else ret in
    m ← memcpy m dest src len;
    m ← wr m (dest + len) 0;
    Ok (ret, m)
  else Ok (ret, m).

Definition strcat (m : list Z) (dest src : Z) : res (list Z) :=
  dest ← strlen_loop (fuel_of m) m dest;
  strcpy_loop (fuel_of m) m dest src.

Fixpoint strncat_loop (count : nat) (m : list Z) (dest src : Z) : res (list Z) :=
  match count with
  | O => wr m dest 0
  | S count =>
      c ← rd m src; m ← wr m dest c;
      if c =? 0 then Ok m else strncat_loop count m (dest + 1) (src + 1)
  end.

Definition strncat (m : list Z) (dest src count : Z) : res (list Z) :=
  if nonzero count then
    dest ← strlen_loop (fuel_of m) m dest;
    strncat_loop (Z.to_nat count) m dest src
  else Ok m.

Definition strlcat (m : list Z) (dest src count : Z) : res (Z * list Z) :=
  dsize ← strlen m dest;
  len ← strlen m src;
  let result := dsize + len in
  if count <=? dsize then Fault BugOn
  else
    let dest := dest + dsize in
    let count := count - dsize in
    let len := if count <=? len then count - 1 else len in
    m ← memcpy m dest src len;
    m ← wr m (dest + len) 0;
    Ok (result, m).

Fixpoint strcmp_loop (fuel : nat) (m : list Z) (cs ct : Z) : res Z :=
  match fuel with
  | O => Fault OutOfFuel
  | S fuel =>
      c1 ← rd m cs; c2 ← rd m ct;
      if negb (c1 =? c2) then Ok (if c1 <? c2 then -1 else 1)
      else if c1 =? 0 then Ok 0
      else strcmp_loop fuel m (cs + 1) (ct + 1)
  end.

Definition strcmp (m : list Z) (cs ct : Z) : res Z :=
  strcmp_loop (fuel_of m) m cs ct.

Fixpoint strncmp_loop (count : nat) (m : list Z) (cs ct : Z) : res Z :=
  match count with
  | O => Ok 0
  | S count =>
      c1 ← rd m cs; c2 ← rd m ct;
      if negb (c1 =? c2) then Ok (if c1 <? c2 then -1 else 1)
      else if c1 =? 0 then Ok 0
      else strncmp_loop count m (cs + 1) (ct + 1)
  end.

Definition strncmp (m : list Z) (cs ct count : Z) : res Z :=
  strncmp_loop (Z.to_nat count) m cs ct.

Fixpoint strchr_loop (fuel : nat) (m : list Z) (s c : Z) : res (option Z) :=
  match fuel with
  | O => Fault OutOfFuel
  | S fuel =>
      b ← rd m s;
      if b =? u8 c then Ok (Some s)
      else if b =? 0 then Ok None
      else strchr_loop fuel m (s + 1) c
  end.

Definition strchr (m : list Z) (s c : Z) : res (option Z) :=
  strchr_loop (fuel_of m) m s c.

Fixpoint strrchr_loop (n : nat) (m : list Z) (p c : Z) : res (option Z) :=
  b ← rd m p;
  if b =? u8 c then Ok (Some p)
  else match n with O => Ok None | S n => strrchr_loop n m (p - 1) c end.

Definition strrchr (m : list Z) (s c : Z) : res (option Z) :=
  l ← strlen m s; strrchr_loop (Z.to_nat l) m (s + l) c.

Fixpoint strnchr_loop (count : nat) (m : list Z) (s c : Z) : res (option Z) :=
  match count with
  | O => Ok None
  | S count =>
      b ← rd m s;
      if b =? 0 then Ok None
      else if b =? u8 c then Ok (Some s)
      else strnchr_loop count m (s + 1) c
  end.

Definition strnchr (m : list Z) (s count c : Z) : res (option Z) :=
  strnchr_loop (Z.to_nat count) m s c.

(** The inner loops of [strspn], [strcspn] and [strpbrk]: does the byte [b]
    occur in the string at [a]? *)
Fixpoint in_set_loop (fuel : nat) (m : list Z) (b a : Z) : res bool :=
  match fuel with
  | O => Fault OutOfFuel
  | S fuel =>
      c ← rd m a;
      if c =? 0 then Ok false
      else if b =? c then Ok true
      else in_set_loop fuel m b (a + 1)
  end.

Definition in_set (m : list Z) (b set : Z) : res bool :=
  in_set_loop (fuel_of m) m b set.

Fixpoint strspn_loop (fuel : nat) (m : list Z) (p accept count : Z) : res Z :=
  match fuel with
  | O => Fault OutOfFuel
  | S fuel =>
      b ← rd m p;
      if b =? 0 then Ok count
      else
        hit ← in_set m b accept;
        if hit : bool then strspn_loop fuel m (p + 1) accept (count + 1) else Ok count
  end.

Definition strspn (m : list Z) (s accept : Z) : res Z :=
  strspn_loop (fuel_of m) m s accept 0.

Fixpoint strcspn_loop (fuel : nat) (m : list Z) (p reject count : Z) : res Z :=
  match fuel with
  | O => Fault OutOfFuel
  | S fuel =>
      b ← rd m p;
      if b =? 0 then Ok count
      else
        hit ← in_set m b reject;
        if hit : bool then Ok count else strcspn_loop fuel m (p + 1) reject (count + 1)
  end.

Definition strcspn (m : list Z) (s reject : Z) : res Z :=
  strcspn_loop (fuel_of m) m s reject 0.

Fixpoint strpbrk_loop (fuel : nat) (m : list Z) (sc1 ct : Z) : res (option Z) :=
  match fuel with
  | O => Fault OutOfFuel
  | S fuel =>
      b ← rd m sc1;
      if b =? 0 then Ok None
      else
        hit ← in_set m b ct;
        if hit : bool then Ok (Some sc1) else strpbrk_loop fuel m (sc1 + 1) ct
  end.

Definition strpbrk (m : list Z) (cs ct : Z) : res (option Z) :=
  strpbrk_loop (fuel_of m) m cs ct.

(** [strsep]: the token, the updated [*s] and the updated memory. *)
Definition strsep (m : list Z) (s : option Z) (ct : Z)
    : res (option Z * option Z * list Z) :=
  match s with
  | None => Ok (None, None, m)
  | Some sbegin =>
      e ← strpbrk m sbegin ct;
      match e with
      | Some e => m ← wr m e 0; Ok (Some sbegin, Some (e + 1), m)
      | None => Ok (Some sbegin, None, m)
      end
  end.

Fixpoint strstr_loop (fuel : nat) (m : list Z) (s1 s2 l1 l2 : Z) : res (option Z) :=
  match fuel with
  | O => Fault OutOfFuel
  | S fuel =>
      if l2 <=? l1 then
        d ← memcmp m s1 s2 l2;
        if d =? 0 then Ok (Some s1) else strstr_loop fuel m (s1 + 1) s2 (l1 - 1) l2
      else Ok None
  end.

Definition strstr (m : list Z) (s1 s2 : Z) : res (option Z) :=
  l2 ← strlen m s2;
  if l2 =? 0 then Ok (Some s1)
  else l1 ← strlen m s1; strstr_loop (fuel_of m) m s1 s2 l1 l2.

Definition strnstr (m : list Z) (s1 s2 n : Z) : res (option Z) :=
  l2 ← strlen m s2;
  if l2 =? 0 then Ok (Some s1)
  else strstr_loop (S (Z.to_nat n)) m s1 s2 n l2.

Fixpoint skip_spaces_loop (fuel : nat) (m : list Z) (s : Z) : res Z :=
  match fuel with
  | O => Fault OutOfFuel
  | S fuel => c ← rd m s; if isspace c then skip_spaces_loop fuel m (s + 1) else Ok s
  end.

Definition skip_spaces (m : list Z) (s : Z) : res Z :=
  skip_spaces_loop (fuel_of m) m s.

Fixpoint strim_loop (n : nat) (m : list Z) (fin : Z) : res Z :=
  match n with
  | O => Ok fin
  | S n => c ← rd m fin; if isspace c then strim_loop n m (fin - 1) else Ok fin
  end.

Definition strim (m : list Z) (s : Z) : res (Z * list Z) :=
  size ← strlen m s;
  if size =? 0 then Ok (s, m)
  else
    fin ← strim_loop (Z.to_nat size) m (s + size - 1);
    m ← wr m (fin + 1) 0;
    r ← skip_spaces m s;
    Ok (r, m).

Fixpoint sysfs_streq_loop (fuel : nat) (m : list Z) (s1 s2 : Z) : res bool :=
  match fuel with
  | O => Fault OutOfFuel
  | S fuel =>
      a ← rd m s1; b ← rd m s2;
      if nonzero a && (a =? b) then sysfs_streq_loop fuel m (s1 + 1) (s2 + 1)
      else if a =? b then Ok true
      else
        t1 ← (if (a =? 0) && (b =? 10) then c ← rd m (s2 + 1); Ok (c =? 0) else Ok false);
        if t1 : bool then Ok true
        else if a =? 10 then c ← rd m (s1 + 1); Ok ((c =? 0) && (b =? 0)) else Ok false
  end.

Definition sysfs_streq (m : list Z) (s1 s2 : Z) : res bool :=
  sysfs_streq_loop (fuel_of m) m s1 s2.

(** [strtobool]: the return value and, when it is 0, the value of [*res]. *)
Definition strtobool (m : list Z) (s : Z) : res (Z * option bool) :=
  c ← rd m s;
  if (c =? 121) || (c =? 89) || (c =? 49) then Ok (0, Some true)
  else if (c =? 110) || (c =? 78) || (c =? 48) then Ok (0, Some false)
  else Ok (- EINVAL, None).

(** ** Case-insensitive comparison *)

Fixpoint strnicmp_loop (n : nat) (m : list Z) (s1 s2 : Z) : res Z :=
  match n with
  | O => Fault OutOfFuel
  | S n =>
      c1 ← rd m s1; c2 ← rd m s2;
      if (c1 =? 0) || (c2 =? 0) then Ok (c1 - c2)
      else
        let l1 := if c1 =? c2 then c1 else tolower c1 in
        let l2 := if c1 =? c2 then c2 else tolower c2 in
        if negb (l1 =? l2) then Ok (l1 - l2)
        else match n with O => Ok (l1 - l2) | _ => strnicmp_loop n m (s1 + 1) (s2 + 1) end
  end.

Definition strnicmp (m : list Z) (s1 s2 n : Z) : res Z :=
  if n =? 0 then Ok 0 else strnicmp_loop (Z.to_nat n) m s1 s2.

Fixpoint strcasecmp_loop (fuel : nat) (m : list Z) (s1 s2 : Z) : res Z :=
  match fuel with
  | O => Fault OutOfFuel
  | S fuel =>
      b1 ← rd m s1; b2 ← rd m s2;
      let c1 := tolower b1 in
      let c2 := tolower b2 in
      if (c1 =? c2) && nonzero c1 then strcasecmp_loop fuel m (s1 + 1) (s2 + 1)
      else Ok (c1 - c2)
  end.

Definition strcasecmp (m : list Z) (s1 s2 : Z) : res Z :=
  strcasecmp_loop (fuel_of m) m s1 s2.

Fixpoint strncasecmp_loop (fuel : nat) (m : list Z) (s1 s2 n : Z) : res Z :=
  match fuel with
  | O => Fault OutOfFuel
  | S fuel =>
      b1 ← rd m s1; b2 ← rd m s2;
      let c1 := tolower b1 in
      let c2 := tolower b2 in
      let n := u32 (n - 1) in
      if (0 <? n) && (c1 =? c2) && nonzero c1
      then strncasecmp_loop fuel m (s1 + 1) (s2 + 1) n
      else Ok (c1 - c2)
  end.

Definition strncasecmp (m : list Z) (s1 s2 n : Z) : res Z :=
  strncasecmp_loop (fuel_of m) m s1 s2 n.

(** ** Representation of strings in memory *)

(** The bytes [l] are in memory at [p]. *)
Fixpoint at_mem (m : list Z) (p : Z) (l : list Z) : Prop :=
  match l with
  | [] => True
  | c :: l => rd m p = Ok c /\ at_mem m (p + 1) l
  end.

(** The NUL-terminated string [s] is in memory at [p]. *)
Fixpoint cstr (m : list Z) (p : Z) (s : list Z) : Prop :=
  match s with
  | [] => rd m p = Ok 0
  | c :: s => rd m p = Ok c /\ c <> 0 /\ cstr m (p + 1) s
  end.

Lemma rd_inv m p c : rd m p = Ok c -> znth m p = Some c /\ 0 <= p < zlen m.
Proof.
  unfold rd. destruct (znth m p) eqn:E; [|discriminate].
  intros [= ->]. split; [done|]. by eapply znth_Some.
Qed.

Lemma rd_of_znth m p c : znth m p = Some c -> rd m p = Ok c.
Proof. unfold rd. by intros ->. Qed.

Lemma cstr_bound m p s : cstr m p s -> 0 <= p /\ p + zlen s < zlen m.
Proof.
  revert p. induction s as [|c s IH]; simpl; intros p.
  - intros [_ ?]%rd_inv. unfold zlen at 1. simpl. lia.
  - intros ([_ ?]%rd_inv & _ & [? ?]%IH). rewrite zlen_cons. lia.
Qed.

Lemma cstr_fuel m p s : cstr m p s -> (length s < fuel_of m)%nat.
Proof. intros [??]%cstr_bound. unfold fuel_of, zlen in *. lia. Qed.

Lemma at_mem_app m p l k :
  at_mem m p (l ++ k) <-> at_mem m p l /\ at_mem m (p + zlen l) k.
Proof.
  revert p. induction l as [|c l IH]; simpl; intros p.
  - unfold zlen. simpl. rewrite Z.add_0_r. tauto.
  - rewrite IH, zlen_cons. replace (p + (1 + zlen l)) with (p + 1 + zlen l) by lia.
    tauto.
Qed.

Lemma cstr_at_mem m p s :
  cstr m p s <-> at_mem m p (s ++ [0]) /\ Forall (fun c => c <> 0) s.
Proof.
  revert p. induction s as [|c s IH]; simpl; intros p.
  - intuition.
  - rewrite IH, Forall_cons_iff. tauto.
Qed.

Lemma at_mem_znth m p l :
  at_mem m p l <-> forall i x, l !! i = Some x -> znth m (p + Z.of_nat i) = Some x.
Proof.
  revert p. induction l as [|c l IH]; simpl; intros p.
  - split; [intros _ i x H; by destruct i|done].
  - rewrite IH. split.
    + intros [[H _]%rd_inv Hl] [|i] x; simpl.
      * intros [= <-]. by rewrite Z.add_0_r.
      * intros Hx%Hl. rewrite <- Hx. f_equal. lia.
    + intros H. split.
      * apply rd_of_znth. specialize (H 0%nat c eq_refl). by rewrite Z.add_0_r in H.
      * intros i x Hx. specialize (H (S i) x Hx). rewrite <- H. f_equal. lia.
Qed.

Lemma at_mem_slice m p n :
  0 <= p -> 0 <= n -> p + n <= zlen m -> at_mem m p (slice m p n).
Proof.
  intros Hp Hn Hle. apply at_mem_znth. intros i x Hx.
  assert (Hi := lookup_lt_Some _ _ _ Hx).
  assert (Hl := slice_length m p n Hp Hn Hle). unfold zlen in Hl.
  rewrite <- (znth_slice m p n) by lia. by rewrite znth_nat.
Qed.

(** ** Block writes *)

(** [m'] is [m] with the bytes [l] stored at [d]. *)
Definition stored (m : list Z) (d : Z) (l : list Z) (m' : list Z) : Prop :=
  zlen m' = zlen m /\
  forall i, znth m' i =
    if (d <=? i) && (i <? d + zlen l) then znth l (i - d) else znth m i.

Lemma wr_Ok m p b :
  0 <= p < zlen m -> wr m p b = Ok (<[Z.to_nat p:=b]> m).
Proof. intros. unfold wr. by rewrite zupd_Some. Qed.

Lemma wr_inv m p b m' :
  wr m p b = Ok m' -> 0 <= p < zlen m /\ m' = <[Z.to_nat p:=b]> m.
Proof.
  unfold wr, zupd. destruct (Z.ltb_spec p 0), (Z.leb_spec (zlen m) p); simpl; try discriminate.
  intros [= <-]. split; [lia|done].
Qed.

Lemma stored_at_mem m d l m' :
  stored m d l m' -> 0 <= d -> at_mem m' d l.
Proof.
  intros [_ H] Hd. apply at_mem_znth. intros i x Hx.
  assert (Hi := lookup_lt_Some _ _ _ Hx). rewrite H. unfold zlen.
  destruct (Z.leb_spec d (d + Z.of_nat i)), (Z.ltb_spec (d + Z.of_nat i) (d + Z.of_nat (length l))); try lia.
  simpl. replace (d + Z.of_nat i - d) with (Z.of_nat i) by lia. by rewrite znth_nat.
Qed.

Lemma znth_ext (l k : list Z) : (forall i, znth l i = znth k i) -> l = k.
Proof. intros H. apply list_eq. intros i. rewrite <- !znth_nat. apply H. Qed.

(** Both copy loops are block writes of the bytes the source held when the
    loop started, provided they run in the direction that does not overwrite
    source bytes before they are read. *)
Lemma copy_up_spec n m d s :
  0 <= d -> 0 <= s -> d + Z.of_nat n <= zlen m -> s + Z.of_nat n <= zlen m ->
  d <= s \/ s + Z.of_nat n <= d ->
  exists m', copy_up n m d s = Ok m' /\ zlen m' = zlen m /\
    forall i, znth m' i =
      if (d <=? i) && (i <? d + Z.of_nat n) then znth m (s + (i - d)) else znth m i.
Proof.
  revert m d s. induction n as [|n IH]; intros m d s Hd Hs Hdn Hsn Hov.
  - exists m. split; [done|]. split; [done|]. intros i.
    destruct (Z.leb_spec d i), (Z.ltb_spec i (d + Z.of_nat 0)); try lia; done.
  - simpl. destruct (rd_Ok m s) as (c & Hc & Hcn); [lia|]. rewrite Hc. simpl.
    rewrite wr_Ok by lia. simpl.
    destruct (IH (<[Z.to_nat d:=c]> m) (d + 1) (s + 1)) as (m' & Hm' & Hl & Hi);
      try (rewrite zlen_insert); try lia.
    exists m'. split; [done|]. rewrite zlen_insert in Hl. split; [done|].
    intros i. rewrite Hi. rewrite !znth_insert by lia.
    destruct (Z.eqb_spec i d) as [->|].
    + destruct (Z.leb_spec (d + 1) d), (Z.leb_spec d d), (Z.ltb_spec d (d + Z.of_nat (S n)));
        try lia. simpl. by rewrite Z.sub_diag, Z.add_0_r.
    + destruct (Z.leb_spec (d + 1) i), (Z.leb_spec d i),
        (Z.ltb_spec i (d + 1 + Z.of_nat n)), (Z.ltb_spec i (d + Z.of_nat (S n)));
        try lia; try done. simpl.
      destruct (Z.eqb_spec (s + 1 + (i - (d + 1))) d); [lia|]. f_equal. lia.
Qed.

Lemma copy_down_spec n m d s :
  0 <= s < d -> d + Z.of_nat n <= zlen m ->
  exists m', copy_down n m (d + Z.of_nat n) (s + Z.of_nat n) = Ok m' /\ zlen m' = zlen m /\
    forall i, znth m' i =
      if (d <=? i) && (i <? d + Z.of_nat n) then znth m (s + (i - d)) else znth m i.
Proof.
  revert m. induction n as [|n IH]; intros m Hs Hdn.
  - exists m. split; [done|]. split; [done|]. intros i.
    destruct (Z.leb_spec d i), (Z.ltb_spec i (d + Z.of_nat 0)); try lia; done.
  - cbn [copy_down].
    replace (s + Z.of_nat (S n) - 1) with (s + Z.of_nat n) by lia.
    replace (d + Z.of_nat (S n) - 1) with (d + Z.of_nat n) by lia.
    destruct (rd_Ok m (s + Z.of_nat n)) as (c & Hc & Hcn); [lia|]. rewrite Hc. cbn.
    rewrite wr_Ok by lia. cbn.
    destruct (IH (<[Z.to_nat (d + Z.of_nat n):=c]> m)) as (m' & Hm' & Hl & Hi);
      try (rewrite zlen_insert); try lia.
    exists m'. split; [done|]. rewrite zlen_insert in Hl. split; [done|].
    intros i. rewrite Hi. rewrite !znth_insert by lia.
    destruct (Z.eqb_spec i (d + Z.of_nat n)) as [->|].
    + destruct (Z.leb_spec d (d + Z.of_nat n)), (Z.ltb_spec (d + Z.of_nat n) (d + Z.of_nat n)),
        (Z.ltb_spec (d + Z.of_nat n) (d + Z.of_nat (S n))); try lia. simpl.
      rewrite <- Hcn. f_equal. lia.
    + destruct (Z.leb_spec d i),
        (Z.ltb_spec i (d + Z.of_nat n)), (Z.ltb_spec i (d + Z.of_nat (S n)));
        try lia; try done. simpl.
      destruct (Z.eqb_spec (s + (i - d)) (d + Z.of_nat n)); [lia|]. done.
Qed.

(** A block copy stores the old contents of the source range. *)
Lemma stored_of_copy m d s n m' :
  0 <= d -> 0 <= s -> 0 <= n -> s + n <= zlen m -> zlen m' = zlen m ->
  (forall i, znth m' i =
     if (d <=? i) && (i <? d + n) then znth m (s + (i - d)) else znth m i) ->
  stored m d (slice m s n) m'.
Proof.
  intros Hd Hs Hn Hsn Hl Hi. split; [done|]. intros i. rewrite Hi.
  rewrite slice_length by lia.
  destruct (Z.leb_spec d i), (Z.ltb_spec i (d + n)); try done. simpl.
  by rewrite znth_slice by lia.
Qed.

Lemma memcpy_stored m d s n :
  0 <= d -> 0 <= s -> 0 <= n -> d + n <= zlen m -> s + n <= zlen m ->
  d <= s \/ s + n <= d ->
  exists m', memcpy m d s n = Ok m' /\ stored m d (slice m s n) m'.
Proof.
  intros. destruct (copy_up_spec (Z.to_nat n) m d s) as (m' & Hm & Hl & Hi);
    rewrite ?Z2Nat.id; try lia.
  rewrite Z2Nat.id in Hi by lia.
  exists m'. split; [done|]. by apply stored_of_copy.
Qed.

(** [memmove] copies correctly whatever the overlap of the two areas:
    afterwards the destination holds the bytes the source held before the
    call, and every other byte of memory is unchanged. *)
Theorem memmove_correct m dest src count :
  0 <= dest -> 0 <= src -> 0 <= count ->
  dest + count <= zlen m -> src + count <= zlen m ->
  exists m', memmove m dest src count = Ok m' /\
    stored m dest (slice m src count) m'.
Proof.
  intros Hd Hs Hc Hdc Hsc. unfold memmove.
  destruct (Z.leb_spec dest src).
  - apply memcpy_stored; lia.
  - destruct (copy_down_spec (Z.to_nat count) m dest src) as (m' & Hm & Hl & Hi);
      rewrite ?Z2Nat.id; try lia.
    rewrite Z2Nat.id in * by lia.
    exists m'. split; [done|]. by apply stored_of_copy.
Qed.

Lemma memmove_correct_witness :
  exists m', memmove [1; 2; 3; 4; 5; 6] 2 0 4 = Ok m' /\
    stored [1; 2; 3; 4; 5; 6] 2 (slice [1; 2; 3; 4; 5; 6] 0 4) m'.
Proof. apply memmove_correct; unfold zlen; simpl; lia. Defined.

(** ** Specifications of the string routines *)

Lemma strlen_loop_spec fuel m p s :
  cstr m p s -> (length s < fuel)%nat -> strlen_loop fuel m p = Ok (p + zlen s).
Proof.
  revert p fuel. induction s as [|c s IH]; intros p [|fuel] Hs Hf; simpl in *; try lia.
  - rewrite Hs. simpl. unfold zlen. simpl. by rewrite Z.add_0_r.
  - destruct Hs as (Hc & Hz & Hs). rewrite Hc. simpl.
    destruct (Z.eqb_spec c 0); [done|]. rewrite IH by (done || lia).
    rewrite zlen_cons. f_equal. lia.
Qed.

Lemma strlen_spec m p s : cstr m p s -> strlen m p = Ok (zlen s).
Proof.
  intros Hs. unfold strlen. erewrite strlen_loop_spec; [|done|by eapply cstr_fuel].
  simpl. f_equal. lia.
Qed.

(** Lexicographic order of byte strings, the order [strcmp] decides. *)
Fixpoint lex (s t : list Z) : comparison :=
  match s, t with
  | [], [] => Eq
  | [], _ :: _ => Lt
  | _ :: _, [] => Gt
  | a :: s, b :: t => match a ?= b with Eq => lex s t | r => r end
  end.

Definition sign_of (c : comparison) : Z :=
  match c with Eq => 0 | Lt => -1 | Gt => 1 end.

Lemma lex_eq s t : lex s t = Eq <-> s = t.
Proof.
  revert t. induction s as [|a s IH]; intros [|b t]; simpl; try (by split).
  destruct (Z.compare_spec a b) as [->| |].
  - rewrite IH. split; [by intros ->|by intros [= ->]].
  - split; [done|intros [= ->]; lia].
  - split; [done|intros [= ->]; lia].
Qed.

Lemma cstr_step m p s :
  bytes m -> cstr m p s ->
  exists c, rd m p = Ok c /\ 0 <= c /\
    match s with
    | [] => c = 0
    | c' :: s' => c = c' /\ 0 < c /\ cstr m (p + 1) s'
    end.
Proof.
  intros Hm. destruct s as [|c s]; simpl.
  - intros H. exists 0. split; [done|]. by split.
  - intros (H & Hz & Hs). exists c. split; [done|].
    destruct (rd_inv _ _ _ H) as [Hn _]. apply bytes_znth in Hn; [|done].
    unfold is_u8 in Hn. split; [lia|]. split; [done|]. split; [lia|done].
Qed.

Lemma strcmp_loop_spec fuel m p q s t :
  bytes m -> cstr m p s -> cstr m q t -> (length s < fuel)%nat ->
  strcmp_loop fuel m p q = Ok (sign_of (lex s t)).
Proof.
  intros Hm. revert p q t fuel.
  induction s as [|a s IH]; intros p q t [|fuel] Hs Ht Hf; simpl in Hf; try lia;
    destruct (cstr_step _ _ _ Hm Hs) as (c & Hc & Hc0 & Hcs);
    destruct (cstr_step _ _ _ Hm Ht) as (d & Hd & Hd0 & Hdt);
    simpl; rewrite Hc, Hd; simpl;
    destruct (Z.eqb_spec c d) as [->|]; simpl.
  - subst d. destruct t as [|b t]; [done|]. destruct Hdt as (? & ? & _). lia.
  - subst c. destruct t as [|b t]; [lia|]. destruct (Z.ltb_spec 0 d); [done|lia].
  - destruct Hcs as (<- & Hpos & Hcs). destruct t as [|b t]; [lia|].
    destruct Hdt as (<- & _ & Hdt).
    destruct (Z.eqb_spec d 0); [lia|]. rewrite Z.compare_refl.
    apply IH; (done || lia).
  - destruct Hcs as (<- & Hpos & Hcs). destruct t as [|b t].
    + subst d. destruct (Z.ltb_spec c 0); [lia|done].
    + destruct Hdt as (<- & _ & Hdt).
      destruct (Z.compare_spec c d), (Z.ltb_spec c d); try lia; done.
Qed.

(** [strcmp] on two NUL-terminated strings terminates without touching
    memory beyond their terminators and returns the sign of their
    lexicographic comparison as unsigned bytes; it is 0 exactly when the
    strings are equal. *)
Theorem strcmp_correct m cs ct s t :
  bytes m -> cstr m cs s -> cstr m ct t ->
  strcmp m cs ct = Ok (sign_of (lex s t)) /\
  (strcmp m cs ct = Ok 0 <-> s = t).
Proof.
  intros Hm Hs Ht.
  assert (E : strcmp m cs ct = Ok (sign_of (lex s t)))
    by (apply strcmp_loop_spec; [done..|by eapply cstr_fuel]).
  split; [done|]. rewrite E, <- lex_eq.
  destruct (lex s t); simpl; split; intros H; try discriminate; done.
Qed.

Lemma strcmp_correct_witness :
  strcmp [97; 98; 0; 97; 99; 0] 0 3 = Ok (-1).
Proof.
  apply (strcmp_correct [97; 98; 0; 97; 99; 0] 0 3 [97; 98] [97; 99]);
    [|simpl; repeat split; (done || lia)..].
  unfold bytes. repeat constructor; unfold is_u8; lia.
Defined.

(** A string survives a write that is disjoint from it. *)
Lemma cstr_stored_disjoint m d l m' p s :
  stored m d l m' -> cstr m p s ->
  p + zlen s < d \/ d + zlen l <= p -> cstr m' p s.
Proof.
  intros [Hl H] Hs Hdis. assert (Hb := cstr_bound _ _ _ Hs).
  rewrite cstr_at_mem in *. destruct Hs as [Hs Hnz]. split; [|done].
  rewrite at_mem_znth in *. intros i x Hx. rewrite H.
  assert (Hi := lookup_lt_Some _ _ _ Hx). rewrite length_app in Hi. simpl in Hi.
  unfold zlen in *.
  destruct (Z.leb_spec d (p + Z.of_nat i)),
    (Z.ltb_spec (p + Z.of_nat i) (d + Z.of_nat (length l))); try lia; simpl; auto.
Qed.

Lemma cstr_slice m p s n :
  cstr m p s -> 0 <= n <= zlen s -> slice m p n = take (Z.to_nat n) s.
Proof.
  intros Hs Hn. assert (Hb := cstr_bound _ _ _ Hs).
  rewrite cstr_at_mem in Hs. destruct Hs as [Hs _].
  apply znth_ext. intros i.
  destruct (Z.ltb_spec i 0).
  { unfold znth. destruct (Z.ltb_spec i 0); [done|lia]. }
  destruct (Z.ltb_spec i n).
  - rewrite znth_slice by lia.
    destruct (znth_is_Some s i) as [x Hx]; [lia|].
    rewrite (znth_lookup (take _ _)), lookup_take_lt by lia.
    rewrite <- znth_lookup, Hx by lia.
    rewrite at_mem_znth in Hs. rewrite <- (Hs (Z.to_nat i) x).
    + f_equal. lia.
    + rewrite znth_lookup in Hx by lia. by apply lookup_app_l_Some.
  - rewrite !znth_lookup by lia. rewrite !lookup_ge_None_2; [done| |].
    + rewrite length_take. unfold zlen in *. lia.
    + unfold slice. rewrite length_take, length_drop. unfold zlen in *. lia.
Qed.

(** Writing a NUL behind a block of non-zero bytes makes a string. *)
Lemma stored_wr_nul m d l m' :
  stored m d l m' -> 0 <= d -> d + zlen l < zlen m -> Forall (fun c => c <> 0) l ->
  exists m'', wr m' (d + zlen l) 0 = Ok m'' /\ cstr m'' d l /\ stored m d (l ++ [0]) m''.
Proof.
  intros Hst Hd Hle Hnz. assert (Hl := proj1 Hst). assert (H0 := zlen_nonneg l).
  rewrite wr_Ok by lia. eexists. split; [done|].
  assert (Hst' : stored m d (l ++ [0]) (<[Z.to_nat (d + zlen l):=0]> m')).
  { split; [by rewrite zlen_insert|]. intros i. rewrite znth_insert by lia.
    rewrite (proj2 Hst), zlen_app. change (zlen [0]) with 1.
    destruct (Z.eqb_spec i (d + zlen l)) as [->|].
    - destruct (Z.leb_spec d (d + zlen l)), (Z.ltb_spec (d + zlen l) (d + (zlen l + 1)));
        try lia. simpl. rewrite znth_app_r by lia.
      by replace (d + zlen l - d - zlen l) with 0 by lia.
    - destruct (Z.leb_spec d i), (Z.ltb_spec i (d + zlen l)),
        (Z.ltb_spec i (d + (zlen l + 1))); try lia; try done. simpl.
      by rewrite znth_app_l by lia. }
  split; [|done]. apply cstr_at_mem. split; [|done]. by apply (stored_at_mem m).
Qed.

(** [strlcpy] into a buffer of [size > 0] bytes always leaves a
    NUL-terminated string there: the longest prefix of the source that fits.
    It writes nothing outside the buffer, leaves the source intact, and
    returns the length of the source, so that a result of at least [size]
    tells the caller about the truncation. *)
Theorem strlcpy_correct m dest src size s :
  cstr m src s -> 0 <= dest -> 0 < size -> dest + size <= zlen m ->
  src + zlen s < dest \/ dest + size <= src ->
  exists m', strlcpy m dest src size = Ok (zlen s, m') /\
    cstr m' dest (take (Z.to_nat (size - 1)) s) /\
    cstr m' src s /\
    (forall i, i < dest \/ dest + size <= i -> znth m' i = znth m i).
Proof.
  intros Hs Hd Hsz Hle Hdis. assert (Hb := cstr_bound _ _ _ Hs).
  assert (Hz := zlen_nonneg s).
  unfold strlcpy. rewrite (strlen_spec _ _ _ Hs). simpl.
  unfold nonzero. destruct (Z.eqb_spec size 0) as [|_]; [lia|]. simpl.
  set (n := if size <=? zlen s then size - 1 else zlen s).
  assert (Hn : 0 <= n <= zlen s /\ n < size) by (subst n; bcase; lia).
  destruct (memcpy_stored m dest src n) as (m1 & Hm1 & Hst); try lia.
  rewrite Hm1. simpl.
  rewrite (cstr_slice _ _ _ _ Hs) in Hst by lia.
  assert (Ht : take (Z.to_nat n) s = take (Z.to_nat (size - 1)) s).
  { subst n. bcase; [done|]. rewrite !take_ge; [done| |]; unfold zlen in *; lia. }
  assert (Htl : zlen (take (Z.to_nat n) s) = n)
    by (unfold zlen; rewrite length_take; unfold zlen in *; lia).
  assert (Hnz : Forall (fun c => c <> 0) (take (Z.to_nat n) s))
    by (apply cstr_at_mem in Hs as [_ ?]; by apply Forall_take).
  destruct (stored_wr_nul _ _ _ _ Hst) as (m2 & Hm2 & Hc2 & Hst2); [lia|lia|done|].
  rewrite Htl in Hm2. rewrite Hm2. simpl. exists m2. split; [done|].
  rewrite Ht in Hc2. split; [done|]. split.
  - eapply cstr_stored_disjoint; [done|done|].
    rewrite zlen_app, Htl. change (zlen [0]) with 1. lia.
  - intros i Hi. rewrite (proj2 Hst2), zlen_app, Htl. change (zlen [0]) with 1.
    destruct (Z.leb_spec dest i), (Z.ltb_spec i (dest + (n + 1))); try lia; done.
Qed.

Lemma strlcpy_correct_witness :
  exists m', strlcpy [104; 105; 106; 0; 7; 7; 7; 7] 4 0 3 = Ok (3, m') /\
    cstr m' 4 [104; 105].
Proof.
  destruct (strlcpy_correct [104; 105; 106; 0; 7; 7; 7; 7] 4 0 3 [104; 105; 106])
    as (m' & H & Hc & _); [simpl; repeat split; (done || lia)|lia|lia|
      unfold zlen; simpl; lia|unfold zlen; simpl; lia|].
  by exists m'.
Defined.

(** ** Searching *)

Lemma memcmp_loop_zero m p q l k :
  at_mem m p l -> at_mem m q k -> length l = length k ->
  exists d, memcmp_loop (length l) m p q = Ok d /\ (d = 0 <-> l = k).
Proof.
  revert p q k. induction l as [|a l IH]; intros p q [|b k] Hl Hk Hlen; simpl in *; try lia.
  - exists 0. by split.
  - destruct Hl as [Ha Hl], Hk as [Hb Hk]. rewrite Ha, Hb. simpl. unfold nonzero.
    destruct (Z.eqb_spec (a - b) 0); simpl.
    + destruct (IH (p + 1) (q + 1) k) as (d & Hd & Hiff); [done|done|lia|].
      exists d. split; [done|]. rewrite Hiff. assert (a = b) as -> by lia.
      split; [by intros ->|by intros [= ->]].
    + exists (a - b). split; [done|]. split; [lia|intros [= -> _]; lia].
Qed.

Lemma at_mem_drop m p l i :
  (i <= length l)%nat -> at_mem m p l -> at_mem m (p + Z.of_nat i) (drop i l).
Proof.
  intros Hi H. rewrite <- (take_drop i l) in H. apply at_mem_app in H as [_ H].
  unfold zlen in H. rewrite length_take in H. by replace (i `min` length l)%nat with i in H by lia.
Qed.

Lemma at_mem_take m p l i : at_mem m p l -> at_mem m p (take i l).
Proof. intros H. rewrite <- (take_drop i l) in H. by apply at_mem_app in H as [H _]. Qed.

Lemma prefix_take {A} (t l : list A) : t `prefix_of` l <-> take (length t) l = t.
Proof.
  split.
  - intros [k ->]. by rewrite take_app_length.
  - intros H. exists (drop (length t) l). rewrite <- H at 1. by rewrite take_drop.
Qed.

Lemma strstr_loop_spec fuel m p q s t (i : nat) :
  cstr m p s -> cstr m q t -> t <> [] -> (i <= length s)%nat ->
  (length s - i < fuel)%nat ->
  let r := strstr_loop fuel m (p + Z.of_nat i) q (zlen s - Z.of_nat i) (zlen t) in
  (exists j, (i <= j)%nat /\ r = Ok (Some (p + Z.of_nat j)) /\ t `prefix_of` drop j s /\
     forall k, (i <= k < j)%nat -> ~ t `prefix_of` drop k s)
  \/ (r = Ok None /\ forall k, (i <= k)%nat -> ~ t `prefix_of` drop k s).
Proof.
  intros Hs Ht Hne. revert i.
  assert (Hst := proj1 (proj1 (cstr_at_mem _ _ _) Hs)).
  assert (Htt := proj1 (proj1 (cstr_at_mem _ _ _) Ht)).
  apply at_mem_app in Hst as [Hst _]. apply at_mem_app in Htt as [Htt _].
  induction fuel as [|fuel IH]; intros i Hi Hf; [lia|]. cbn [strstr_loop].
  destruct (Z.leb_spec (zlen t) (zlen s - Z.of_nat i)) as [Hle|Hgt].
  - assert (Hk : at_mem m (p + Z.of_nat i) (take (length t) (drop i s)))
      by (apply at_mem_take, at_mem_drop; done).
    assert (Hlt : length (take (length t) (drop i s)) = length t)
      by (rewrite length_take, length_drop; unfold zlen in *; lia).
    destruct (memcmp_loop_zero _ _ _ _ _ Hk Htt Hlt) as (d & Hd & Hiff).
    unfold memcmp, zlen. rewrite Nat2Z.id. rewrite Hlt in Hd. rewrite Hd. cbn.
    rewrite <- prefix_take in Hiff.
    destruct (Z.eqb_spec d 0) as [E|E].
    + left. exists i. split; [lia|]. split; [done|]. split; [by apply Hiff|]. lia.
    + assert (Hnp : ~ t `prefix_of` drop i s) by (by rewrite <- Hiff).
      assert (Hi' : (S i <= length s)%nat).
      { destruct t; [done|]. simpl in *. unfold zlen in *. simpl in *. lia. }
      destruct (IH (S i)) as [(j & Hj & Hr & Hp & Hmin)|[Hr Hno]]; [done|lia|left|right];
        replace (p + Z.of_nat (S i)) with (p + Z.of_nat i + 1) in Hr by lia;
        replace (zlen s - Z.of_nat (S i)) with (Z.of_nat (length s) - Z.of_nat i - 1) in Hr
          by (unfold zlen; lia); unfold zlen in Hr.
      * exists j. split; [lia|]. split; [done|]. split; [done|].
        intros k Hk'. destruct (decide (k = i)) as [->|]; [done|]. apply Hmin. lia.
      * split; [done|]. intros k Hk'. destruct (decide (k = i)) as [->|]; [done|].
        apply Hno. lia.
  - right. split; [done|]. intros k Hk [r Hr].
    apply (f_equal length) in Hr. rewrite length_app, length_drop in Hr.
    unfold zlen in *. lia.
Qed.

(** [strstr] returns a pointer to the first occurrence of the needle in
    the haystack, and NULL exactly when there is none. *)
Theorem strstr_correct m s1 s2 s t :
  cstr m s1 s -> cstr m s2 t ->
  (exists j : nat, strstr m s1 s2 = Ok (Some (s1 + Z.of_nat j)) /\
     t `prefix_of` drop j s /\ forall k : nat, (k < j)%nat -> ~ t `prefix_of` drop k s)
  \/ (strstr m s1 s2 = Ok None /\ forall k : nat, ~ t `prefix_of` drop k s).
Proof.
  intros Hs Ht. unfold strstr. rewrite (strlen_spec _ _ _ Ht). cbn [mbind res_bind].
  destruct (Z.eqb_spec (zlen t) 0) as [E|E].
  - left. exists 0%nat. rewrite Z.add_0_r. split; [done|].
    destruct t; [|unfold zlen in E; simpl in E; lia]. split; [apply prefix_nil|lia].
  - rewrite (strlen_spec _ _ _ Hs). cbn [mbind res_bind].
    destruct (strstr_loop_spec (fuel_of m) m s1 s2 s t 0)
      as [(j & Hj & Hr & Hp & Hmin)|[Hr Hno]]; try done.
    + by intros ->.
    + lia.
    + assert (H := cstr_fuel _ _ _ Hs). lia.
    + rewrite Z.add_0_r, Z.sub_0_r in Hr. left. exists j. split; [done|]. split; [done|].
      intros k Hk. apply Hmin. lia.
    + rewrite Z.add_0_r, Z.sub_0_r in Hr. right. split; [done|].
      intros k. apply Hno. lia.
Qed.

Lemma strstr_correct_witness :
  exists j : nat,
    strstr [97; 97; 98; 97; 0; 97; 98; 0] 0 5 = Ok (Some (0 + Z.of_nat j)) /\
    [97; 98] `prefix_of` drop j [97; 97; 98; 97].
Proof.
  destruct (strstr_correct [97; 97; 98; 97; 0; 97; 98; 0] 0 5 [97; 97; 98; 97] [97; 98])
    as [(j & Hj & Hp & _)|[Hj _]]; [simpl; repeat split; (done || lia)..| |].
  - by exists j.
  - vm_compute in Hj. discriminate.
Defined.

(** ** The word-at-a-time scan *)

Lemma check_bytes8_app (a b : nat) m p v :
  check_bytes8_loop (a + b) m p v =
  match check_bytes8_loop a m p v with
  | Ok None => check_bytes8_loop b m (p + Z.of_nat a) v
  | r => r
  end.
Proof.
  revert p. induction a as [|a IH]; intros p; simpl.
  - by rewrite Z.add_0_r.
  - destruct (rd m p) as [c|]; simpl; [|done]. destruct (Z.eqb_spec c v); simpl; [|done].
    rewrite IH. by replace (p + Z.of_nat (S a)) with (p + 1 + Z.of_nat a) by lia.
Qed.

(** The bytes [v, v, ...] as a little-endian word. *)
Fixpoint splat (n : nat) (v : Z) : Z :=
  match n with O => 0 | S n => v + 256 * splat n v end.

Lemma load_le_splat n m p v :
  bytes m -> is_u8 v -> 0 <= p -> p + Z.of_nat n <= zlen m ->
  exists w, load_le n m p = Ok w /\
    (w = splat n v <-> check_bytes8_loop n m p v = Ok None).
Proof.
  intros Hm Hv. revert p. induction n as [|n IH]; intros p Hp Hle; simpl.
  - exists 0. by split.
  - destruct (rd_Ok m p) as (b & Hb & Hbn); [lia|]. rewrite Hb. simpl.
    destruct (IH (p + 1)) as (w & Hw & Hiff); [lia|lia|]. rewrite Hw. simpl.
    exists (b + 256 * w). split; [done|].
    assert (Hbu := bytes_znth _ _ _ Hm Hbn).
    destruct (Z.eqb_spec b v) as [->|Hne]; simpl.
    + rewrite <- Hiff. lia.
    + split; [|discriminate]. intros E. unfold is_u8 in *. lia.
Qed.

Lemma value64_splat c :
  let v := u8 c in
  let w := Z.lor v (Z.shiftl v 8) in
  let w := Z.lor w (Z.shiftl w 16) in
  Z.lor w (u64 (Z.shiftl w 32)) = splat 8 v.
Proof.
  assert (H : forallb (fun n => let v := Z.of_nat n in
    let w := Z.lor v (Z.shiftl v 8) in
    let w := Z.lor w (Z.shiftl w 16) in
    Z.lor w (u64 (Z.shiftl w 32)) =? splat 8 v) (seq 0 256) = true) by (by vm_compute).
  rewrite forallb_forall in H. assert (Hr := u8_range c). unfold is_u8 in Hr.
  specialize (H (Z.to_nat (u8 c))).
  rewrite Z2Nat.id in H by lia. cbv zeta in *. apply Z.eqb_eq, H, in_seq. lia.
Qed.

Lemma memchr_inv_words_spec words m p v (r : nat) :
  bytes m -> is_u8 v -> 0 <= p -> p + Z.of_nat (8 * words + r) <= zlen m ->
  memchr_inv_words words m p v (splat 8 v) (Z.of_nat r)
    = check_bytes8_loop (8 * words + r) m p v.
Proof.
  intros Hm Hv. revert p. induction words as [|words IH]; intros p Hp Hle.
  - simpl. unfold check_bytes8. by rewrite Nat2Z.id.
  - cbn [memchr_inv_words].
    destruct (load_le_splat 8 m p v) as (w & Hw & Hiff); [done|done|lia|lia|].
    rewrite Hw. cbn [mbind res_bind].
    replace (8 * S words + r)%nat with (8 + (8 * words + r))%nat by lia.
    rewrite check_bytes8_app. unfold check_bytes8. change (Z.to_nat 8) with 8%nat.
    destruct (Z.eqb_spec w (splat 8 v)) as [E|E]; cbn [negb].
    + rewrite (proj1 Hiff E). apply IH; lia.
    + destruct (check_bytes8_loop 8 m p v) as [[x|]|f] eqn:E'; try done.
      by destruct E; apply Hiff.
Qed.

(** The optimised [memchr_inv], which checks an unaligned prefix bytewise
    and then compares whole 64-bit words, returns exactly what the plain
    bytewise scan of the area returns, whatever the alignment of the area. *)
Theorem memchr_inv_bytewise base m start c count :
  bytes m -> 0 <= start -> 0 <= count -> start + count <= zlen m ->
  memchr_inv base m start c count = check_bytes8 m start (u8 c) count.
Proof.
  intros Hm Hs Hc Hle. unfold memchr_inv.
  destruct (Z.leb_spec count 16); [done|].
  assert (V := value64_splat c). cbv zeta in *. rewrite V. clear V.
  assert (W : forall st n, 0 <= st -> 0 <= n -> st + n <= zlen m ->
    memchr_inv_words (Z.to_nat (n / 8)) m st (u8 c) (splat 8 (u8 c)) (n mod 8)
      = check_bytes8 m st (u8 c) n).
  { intros st n Hst Hn Hb. unfold check_bytes8.
    assert (Hmod := Z.mod_pos_bound n 8 ltac:(lia)).
    assert (Hdiv := Z.div_pos n 8 ltac:(lia) ltac:(lia)).
    assert (Hdm := Z.div_mod n 8 ltac:(lia)).
    rewrite <- (Z2Nat.id (n mod 8)) by lia.
    rewrite memchr_inv_words_spec; [f_equal; lia|done|apply u8_range|lia|lia]. }
  unfold nonzero. destruct (Z.eqb_spec ((base + start) mod 8) 0); cbn [negb].
  - by apply W.
  - assert (Hmod := Z.mod_pos_bound (base + start) 8 ltac:(lia)).
    set (pre := 8 - (base + start) mod 8).
    assert (Hpre : 0 < pre < 8) by (subst pre; lia).
    rewrite W by lia. unfold check_bytes8.
    replace (Z.to_nat count) with (Z.to_nat pre + Z.to_nat (count - pre))%nat by lia.
    rewrite check_bytes8_app, Z2Nat.id by lia.
    by destruct (check_bytes8_loop (Z.to_nat pre) m start (u8 c)) as [[x|]|f].
Qed.

Lemma memchr_inv_bytewise_witness :
  memchr_inv 3 (replicate 20 7 ++ [9; 7; 7]) 1 7 22
    = check_bytes8 (replicate 20 7 ++ [9; 7; 7]) 1 (u8 7) 22.
Proof.
  apply memchr_inv_bytewise; [|lia|lia|unfold zlen; simpl; lia].
  unfold bytes. simpl. repeat constructor; unfold is_u8; lia.
Defined.
