(* ===== verification/Sort.v ===== *)
(** Heap sort and binary search: lib/sort.c and lib/bsearch.c.

    The array is a list of elements of [size] bytes, and an offset into it is a
    number of bytes, as in the code, which scales its counters by the element
    size: [int] counters and a [size_t] size, so that the comparisons of the
    loops are unsigned.  The functions that exchange two elements byte by byte
    are modelled over a byte memory. *)

From S2P Require Import Prelude Str.
From Stdlib Require Import Sorted.

(** ** Comparison functions *)

(** What a caller promises of [cmp_func]: its sign is that of a total
    preorder. *)
Class Comparison {A} (cmp : A -> A -> Z) : Prop := {
  cmp_sign : forall x y, cmp x y < 0 <-> 0 < cmp y x;
  cmp_trans : forall x y z, cmp x y <= 0 -> cmp y z <= 0 -> cmp x z <= 0
}.

#[export] Instance Z_comparison : Comparison Z.sub.
Proof. constructor; lia. Qed.

Section Order.
Context {A : Type} (cmp : A -> A -> Z) `{!Comparison cmp}.

Lemma cmp_refl x : cmp x x = 0.
Proof. pose proof (cmp_sign x x). lia. Qed.

Lemma cmp_flip x y : cmp x y <= 0 <-> 0 <= cmp y x.
Proof. pose proof (cmp_sign x y). pose proof (cmp_sign y x). lia. Qed.

End Order.

(** ** Definitions *)

Section Defs.
Context {A : Type} (cmp : A -> A -> Z) (size : Z).

(** The element at an offset, and the exchange of two of them. *)
Definition elem (base : list A) (off : Z) : res A := of_option OutOfBounds (znth base (off / size)).

Definition swap (base : list A) (a b : Z) : res (list A) :=
  x ← elem base a;
  y ← elem base b;
  base ← of_option OutOfBounds (zupd base (a / size) y);
  of_option OutOfBounds (zupd base (b / size) x).

(** The inner loop of [sort], with the bound [n]. *)
Fixpoint sift (fuel : nat) (base : list A) (r n : Z) : res (list A) :=
  match fuel with
  | O => Fault OutOfFuel
  | S fuel =>
      if u32 (s32 (r * 2) + size) <? u32 n then
        let c := s32 (u32 (s32 (r * 2) + size)) in
        c ← (if u32 c <? u32 (n - size) then
               x ← elem base c;
               y ← elem base (c + size);
               Ok (if cmp x y <? 0 then s32 (u32 (c + size)) else c)
             else Ok c);
        x ← elem base r;
        y ← elem base c;
        if 0 <=? cmp x y then Ok base
        else base ← swap base r c; sift fuel base c n
      else Ok base
  end.

(** [for ( ; i >= 0; i -= size)]. *)
Fixpoint heapify (fuel : nat) (base : list A) (i n : Z) : res (list A) :=
  match fuel with
  | O => Fault OutOfFuel
  | S fuel =>
      if 0 <=? i then
        base ← sift (S (length base)) base i n;
        heapify fuel base (s32 (u32 (i - size))) n
      else Ok base
  end.

(** [for (i = n - size; i > 0; i -= size)]. *)
Fixpoint sort_loop (fuel : nat) (base : list A) (i : Z) : res (list A) :=
  match fuel with
  | O => Fault OutOfFuel
  | S fuel =>
      if 0 <? i then
        base ← swap base 0 i;
        base ← sift (S (length base)) base 0 i;
        sort_loop fuel base (s32 (u32 (i - size)))
      else Ok base
  end.

Definition sort (base : list A) (num : Z) : res (list A) :=
  let i := s32 (u32 (u32 (num / 2 - 1) * size)) in
  let n := s32 (u32 (num * size)) in
  base ← heapify (S (length base)) base i n;
  sort_loop (S (length base)) base (s32 (u32 (n - size))).

End Defs.

(** [bsearch]: the offset of an element that the key compares equal to. *)
Section Bsearch.
Context {K A : Type} (cmp : K -> A -> Z) (size : Z) (key : K).

Fixpoint bsearch_loop (fuel : nat) (base : list A) (start end_ : Z) : res (option Z) :=
  match fuel with
  | O => Fault OutOfFuel
  | S fuel =>
      if start <? end_ then
        let mid := u32 (start + u32 (end_ - start) / 2) in
        x ← elem size base (u32 (mid * size));
        let result := cmp key x in
        if result <? 0 then bsearch_loop fuel base start mid
        else if 0 <? result then bsearch_loop fuel base (u32 (mid + 1)) end_
        else Ok (Some (u32 (mid * size)))
      else Ok None
  end.

Definition bsearch (base : list A) (num : Z) : res (option Z) :=
  bsearch_loop 33 base 0 num.

End Bsearch.

(** [generic_swap] and [u32_swap]: the regions at [a] and [b]. *)
Fixpoint swap_bytes (fuel : nat) (m : list Z) (a b size : Z) : res (list Z) :=
  match fuel with
  | O => Fault OutOfFuel
  | S fuel =>
      t ← rd m a;
      x ← rd m b;
      m ← wr m a x;
      m ← wr m b t;
      if 0 <? size - 1 then swap_bytes fuel m (a + 1) (b + 1) (size - 1) else Ok m
  end.

Definition generic_swap (m : list Z) (a b size : Z) : res (list Z) :=
  swap_bytes (S (length m)) m a b size.

(** ** The loops on indices *)

Section Index.
Context {A : Type} (cmp : A -> A -> Z) (size : Z).
Implicit Types (b : list A) (i j k m : nat) (x y : A).

(** The greater child of [k] below the bound [m]. *)
Definition child (b : list A) (k m : nat) : nat :=
  let c := (2 * k + 1)%nat in
  match b !! c, b !! S c with
  | Some x, Some y => if bool_decide (S c < m)%nat && (cmp x y <? 0) then S c else c
  | _, _ => c
  end.

Definition exchange (b : list A) (i j : nat) : list A :=
  match b !! i, b !! j with
  | Some x, Some y => <[j := x]> (<[i := y]> b)
  | _, _ => b
  end.

Fixpoint sift_at (fuel : nat) (b : list A) (k m : nat) : list A :=
  match fuel with
  | O => b
  | S fuel =>
      if bool_decide (2 * k + 1 < m)%nat then
        let c := child b k m in
        match b !! k, b !! c with
        | Some x, Some y => if 0 <=? cmp x y then b else sift_at fuel (exchange b k c) c m
        | _, _ => b
        end
      else b
  end.

Lemma length_exchange b i j : length (exchange b i j) = length b.
Proof. unfold exchange. destruct (b !! i), (b !! j); try done. by rewrite !length_insert. Qed.

Context (N : nat).
Hypothesis size_pos : 0 < size.
Hypothesis size_fits : Z.of_nat N * size < 2 ^ 31.

(** The offset of an index. *)
Definition off (k : nat) : Z := Z.of_nat k * size.

Lemma off_le i j : (i <= j)%nat -> off i <= off j.
Proof. unfold off. nia. Qed.

Lemma off_lt i j : (i < j)%nat <-> off i < off j.
Proof. unfold off. split; intros; nia. Qed.

Lemma off_range k : (k <= N)%nat -> 0 <= off k < 2 ^ 31.
Proof. intros Hk%off_le. unfold off in *. nia. Qed.

Lemma off_div k : off k / size = Z.of_nat k.
Proof. unfold off. by rewrite Z.div_mul by lia. Qed.

Lemma elem_off b k x : b !! k = Some x -> elem size b (off k) = Ok x.
Proof. intros H. unfold elem. by rewrite off_div, znth_nat, H. Qed.

Lemma swap_off b i j x y : b !! i = Some x -> b !! j = Some y ->
  swap size b (off i) (off j) = Ok (exchange b i j).
Proof.
  intros Hi Hj. unfold swap, exchange. rewrite (elem_off _ _ _ Hi), (elem_off _ _ _ Hj), Hi, Hj.
  cbn [mbind res_bind]. rewrite !off_div. pose proof (lookup_lt_Some _ _ _ Hi). pose proof (lookup_lt_Some _ _ _ Hj).
  rewrite zupd_Some by (unfold zlen; lia). cbn [of_option mbind res_bind].
  rewrite zupd_Some by (unfold zlen; rewrite length_insert; lia). by rewrite !Nat2Z.id.
Qed.

(** The child test of the scaled loop. *)
Lemma next_off k m : (k < m)%nat -> (m <= N)%nat ->
  u32 (s32 (off k * 2) + size) = off (2 * k + 1) /\ u32 (off m) = off m /\
  u32 (off m - size) = off (m - 1).
Proof.
  intros Hk Hm. pose proof (off_range m Hm). pose proof (proj1 (off_lt k m) Hk).
  assert (E1 : off k * 2 + size = off (2 * k + 1)) by (unfold off; lia).
  assert (E2 : off m - size = off (m - 1)) by (unfold off; nia).
  assert (0 <= off (m - 1)) by (unfold off; nia). assert (0 <= off k) by (unfold off; nia).
  assert (off k + size <= off m) by (unfold off; nia).
  split; [|split]; [|apply u32_small; unfold is_u32; lia|rewrite E2; apply u32_small; unfold is_u32; lia].
  unfold u32 at 1. rewrite <- Zplus_mod_idemp_l. change (s32 (off k * 2) mod 2 ^ 32) with (u32 (s32 (off k * 2))).
  rewrite u32_s32. unfold u32. rewrite Zplus_mod_idemp_l, E1. apply Z.mod_small. unfold off in *. lia.
Qed.

Lemma sift_off : forall fuel b k m, length b = N -> (k < m)%nat -> (m <= N)%nat -> (m <= k + fuel)%nat ->
  sift cmp size fuel b (off k) (off m) = Ok (sift_at fuel b k m).
Proof.
  induction fuel as [|fuel IH]; intros b k m Hb Hk Hm Hf; [lia|]. cbn [sift sift_at].
  destruct (next_off k m Hk Hm) as (-> & -> & ->).
  assert (Hlt : forall i j, (off i <? off j) = bool_decide (i < j)%nat).
  { intros i j. destruct (Z.ltb_spec (off i) (off j)) as [H|H].
    - by rewrite bool_decide_eq_true_2 by (by apply off_lt).
    - rewrite bool_decide_eq_false_2; [done|]. rewrite off_lt. lia. }
  rewrite Hlt. case_bool_decide as Hc; [|done]. set (c := (2 * k + 1)%nat) in *.
  assert (Hin : forall i, (i < m)%nat -> exists x, b !! i = Some x).
  { intros i Hi. apply lookup_lt_is_Some_2. lia. }
  assert (Hs : s32 (off c) = off c).
  { apply s32_small. pose proof (off_range c ltac:(lia)). unfold is_s32. lia. }
  assert (Hu : u32 (off c) = off c).
  { apply u32_small. pose proof (off_range c ltac:(lia)). unfold is_u32. lia. }
  rewrite Hs, Hu, Hlt. destruct (Hin c Hc) as [x Hx]. destruct (Hin k Hk) as [z Hz].
  (* the child that is taken *)
  match goal with |- (?e ≫= _) = _ => assert (E : e = Ok (off (child b k m))) end.
  { unfold child. fold c. rewrite Hx. case_bool_decide as Hc1.
    - destruct (Hin (S c)) as [y Hy]; [lia|]. rewrite Hy, bool_decide_eq_true_2 by lia.
      assert (Es : off c + size = off (S c)) by (unfold off; lia).
      rewrite (elem_off _ _ _ Hx), Es, (elem_off _ _ _ Hy). cbn [mbind res_bind andb].
      destruct (cmp x y <? 0); [|done]. pose proof (off_range (S c) ltac:(lia)).
      rewrite u32_small, s32_small by (unfold is_u32, is_s32; lia). done.
    - destruct (b !! S c); [|done]. rewrite bool_decide_eq_false_2 by lia. done. }
  rewrite E. clear E. unfold mbind, res_bind.
  assert (Hch : (k < child b k m < m)%nat).
  { unfold child. fold c. rewrite Hx. destruct (b !! S c); [|lia].
    case_bool_decide; cbn [andb]; [|lia]. destruct (cmp _ _ <? 0); lia. }
  destruct (Hin (child b k m)) as [y Hy]; [lia|].
  rewrite Hz, Hy, (elem_off _ _ _ Hz), (elem_off _ _ _ Hy). destruct (0 <=? cmp z y); [done|].
  rewrite (swap_off _ _ _ _ _ Hz Hy). apply IH; rewrite ?length_exchange; lia.
Qed.

End Index.

(** ** Exchanges *)

Section Exchange.
Context {A : Type}.
Implicit Types (b : list A) (i j m : nat) (x y : A).

Lemma insert_perm b i x y : b !! i = Some x -> x :: <[i := y]> b ≡ₚ y :: b.
Proof.
  revert i. induction b as [|z b IH]; intros [|i] E; cbn in *; simplify_eq; [apply Permutation_swap|].
  rewrite Permutation_swap, (IH i E). apply Permutation_swap.
Qed.

Lemma exchange_perm b i j : exchange b i j ≡ₚ b.
Proof.
  unfold exchange. destruct (b !! i) as [x|] eqn:Ei; [|done]. destruct (b !! j) as [y|] eqn:Ej; [|done].
  apply (Permutation_cons_inv (a := y)). rewrite <- (insert_perm b i x y Ei). apply insert_perm.
  destruct (decide (i = j)) as [<-|]; [|by rewrite list_lookup_insert_ne].
  apply list_lookup_insert_eq. by eapply lookup_lt_Some.
Qed.

Lemma exchange_drop b i j m : (i < m)%nat -> (j < m)%nat -> drop m (exchange b i j) = drop m b.
Proof.
  intros Hi Hj. unfold exchange. destruct (b !! i), (b !! j); try done. by rewrite !drop_insert_lt.
Qed.

Lemma exchange_lookup b i j n x y : b !! i = Some x -> b !! j = Some y ->
  exchange b i j !! n = if decide (n = j) then Some x else if decide (n = i) then Some y else b !! n.
Proof.
  intros Hi Hj. unfold exchange. rewrite Hi, Hj.
  pose proof (lookup_lt_Some _ _ _ Hi). pose proof (lookup_lt_Some _ _ _ Hj).
  destruct (decide (n = j)) as [->|]; [apply list_lookup_insert_eq; by rewrite length_insert|].
  rewrite list_lookup_insert_ne by done.
  destruct (decide (n = i)) as [->|]; [by apply list_lookup_insert_eq|by apply list_lookup_insert_ne].
Qed.

End Exchange.

(** ** Heaps *)

Section Heap.
Context {A : Type} (cmp : A -> A -> Z) `{!Comparison cmp}.
Implicit Types (b : list A) (k m p c lo : nat).

Definition is_child (p c : nat) : Prop := c = (2 * p + 1)%nat \/ c = (2 * p + 2)%nat.

(** From [lo] on, children below [m] are not greater than their parent. *)
Definition heap (lo m : nat) b : Prop := forall p c x y,
  (lo <= p)%nat -> is_child p c -> (c < m)%nat -> b !! p = Some x -> b !! c = Some y -> cmp y x <= 0.

(** The same but for the element at [r], whose children are not greater than
    its parent. *)
Definition heap_but (lo m r : nat) b : Prop :=
  (forall p c x y, (lo <= p)%nat -> p <> r -> is_child p c -> (c < m)%nat ->
     b !! p = Some x -> b !! c = Some y -> cmp y x <= 0) /\
  (forall g c x y, (lo <= g)%nat -> is_child g r -> is_child r c -> (c < m)%nat ->
     b !! g = Some x -> b !! c = Some y -> cmp y x <= 0).

Lemma child_spec b k m : (2 * k + 1 < m)%nat -> (m <= length b)%nat ->
  exists y, b !! child cmp b k m = Some y /\ is_child k (child cmp b k m) /\ (child cmp b k m < m)%nat /\
    forall c z, is_child k c -> (c < m)%nat -> b !! c = Some z -> cmp z y <= 0.
Proof.
  intros Hk Hm. unfold child. set (c := (2 * k + 1)%nat) in *.
  destruct (lookup_lt_is_Some_2 b c) as [x Hx]; [lia|]. rewrite Hx.
  assert (Hleft : forall c', is_child k c' -> c' = c \/ c' = S c) by (unfold is_child; lia).
  assert (Hself : forall z, cmp z z <= 0) by (intros z; rewrite (cmp_refl cmp z); lia).
  destruct (b !! S c) as [y|] eqn:Hy.
  - destruct (decide (S c < m)%nat) as [Hs|Hs].
    + rewrite bool_decide_eq_true_2 by done. cbn [andb]. destruct (Z.ltb_spec (cmp x y) 0).
      * exists y. split; [done|]. split; [right; lia|]. split; [done|]. intros c' z Hc' _ Hz.
        destruct (Hleft c' Hc') as [->| ->]; simplify_eq; [lia|done].
      * exists x. split; [done|]. split; [by left|]. split; [done|]. intros c' z Hc' _ Hz.
        destruct (Hleft c' Hc') as [->| ->]; simplify_eq; [done|]. by apply (cmp_flip cmp).
    + rewrite bool_decide_eq_false_2 by done. cbn [andb]. exists x. split; [done|]. split; [by left|].
      split; [done|]. intros c' z Hc' Hlt Hz. destruct (Hleft c' Hc') as [->| ->]; simplify_eq; [done|lia].
  - exists x. split; [done|]. split; [by left|]. split; [done|]. intros c' z Hc' Hlt Hz.
    destruct (Hleft c' Hc') as [->| ->]; simplify_eq. done.
Qed.

(** One round of the loop moves the exception to the child. *)
Lemma heap_but_exchange b lo m k c x y :
  heap_but lo m k b -> (lo <= k)%nat -> is_child k c -> (c < m)%nat ->
  b !! k = Some x -> b !! c = Some y -> cmp x y < 0 ->
  (forall c' z, is_child k c' -> (c' < m)%nat -> b !! c' = Some z -> cmp z y <= 0) ->
  heap_but lo m c (exchange b k c).
Proof.
  intros [H1 H2] Hlo Hc Hm Hx Hy Hlt Hmax. unfold is_child in *. split.
  - intros p d u v Hp Hpc Hd Hdm. unfold is_child in Hd. rewrite !(exchange_lookup b k c _ x y Hx Hy).
    destruct (decide (p = c)); [done|]. destruct (decide (p = k)) as [->|].
    + intros [= <-]. destruct (decide (d = c)); [intros [= <-]; lia|].
      destruct (decide (d = k)); [lia|]. intros Hv. by apply (Hmax d).
    + intros Hu. destruct (decide (d = c)); [lia|]. destruct (decide (d = k)) as [->|].
      * intros [= <-]. by apply (H2 p c u y).
      * intros Hv. by apply (H1 p d u v).
  - intros g d u v Hg Hgc Hd Hdm. unfold is_child in Hgc, Hd. assert (g = k) as -> by lia.
    rewrite !(exchange_lookup b k c _ x y Hx Hy).
    destruct (decide (k = c)); [lia|]. destruct (decide (k = k)); [|done]. intros [= <-].
    destruct (decide (d = c)); [lia|]. destruct (decide (d = k)); [lia|]. intros Hv.
    apply (H1 c d y v); auto; lia.
Qed.

Lemma sift_at_spec : forall fuel b lo k m,
  heap_but lo m k b -> (lo <= k)%nat -> (m <= length b)%nat -> (m <= k + fuel)%nat ->
  let b' := sift_at cmp fuel b k m in
  heap lo m b' /\ b' ≡ₚ b /\ drop m b' = drop m b.
Proof.
  induction fuel as [|fuel IH]; intros b lo k m Hh Hlo Hm Hf; cbn [sift_at]; cbv zeta.
  { split; [|done]. intros p c x y Hp Hc Hcm. apply (proj1 Hh p c x y); auto. unfold is_child in Hc. lia. }
  case_bool_decide as Hk.
  2: { split; [|done]. intros p c x y Hp Hc Hcm. apply (proj1 Hh p c x y); auto. unfold is_child in Hc. lia. }
  destruct (child_spec b k m Hk Hm) as (y & Hy & Hc & Hcm & Hmax). set (c := child cmp b k m) in *.
  destruct (lookup_lt_is_Some_2 b k) as [x Hx]; [lia|]. rewrite Hx, Hy.
  destruct (Z.leb_spec 0 (cmp x y)) as [Hge|Hlt].
  - split; [|done]. intros p d u v Hp Hd Hdm Hu Hv. destruct (decide (p = k)) as [->|].
    + simplify_eq. eapply cmp_trans; [by apply (Hmax d)|]. by apply (cmp_flip cmp).
    + by apply (proj1 Hh p d u v).
  - destruct (IH (exchange b k c) lo c m) as (I1 & I2 & I3).
    + by apply (heap_but_exchange b lo m k c x y).
    + unfold is_child in Hc. lia.
    + by rewrite length_exchange.
    + unfold is_child in Hc. lia.
    + split; [done|]. split; [rewrite I2; apply exchange_perm|]. rewrite I3. apply exchange_drop; [|done].
      unfold is_child in Hc. lia.
Qed.

(** The root of a heap is its maximum. *)
Lemma heap_root b m x : heap 0 m b -> b !! 0%nat = Some x -> (m <= length b)%nat ->
  forall i y, (i < m)%nat -> b !! i = Some y -> cmp y x <= 0.
Proof.
  intros Hh Hx Hm i. induction i as [i IH] using lt_wf_ind. intros y Hi Hy.
  destruct (decide (i = 0%nat)) as [->|]; [simplify_eq; rewrite (cmp_refl cmp); lia|].
  set (p := ((i - 1) / 2)%nat).
  assert (Hp : is_child p i /\ (p < i)%nat).
  { pose proof (Nat.div_mod_eq (i - 1) 2). pose proof (Nat.mod_upper_bound (i - 1) 2 ltac:(lia)).
    unfold is_child, p. lia. }
  destruct (lookup_lt_is_Some_2 b p) as [z Hz]; [lia|].
  eapply cmp_trans; [eapply (Hh p i z y); [lia|apply Hp|done..]|]. apply (IH p); [apply Hp|lia|done].
Qed.

End Heap.

(** ** [sort] *)

Section Correct.
Context {A : Type} (cmp : A -> A -> Z) `{!Comparison cmp} (size : Z) (N : nat).
Hypothesis size_pos : 0 < size.
Hypothesis size_fits : Z.of_nat N * size < 2 ^ 31.
Implicit Types (b : list A) (k m : nat).

Definition le_by (x y : A) : Prop := cmp x y <= 0.

(** The counter of the loops: the offset before index [k]. *)
Definition before (k : nat) : Z := (Z.of_nat k - 1) * size.

Lemma s32_u32 z : s32 (u32 z) = s32 z.
Proof. unfold s32, u32. by rewrite Zplus_mod_idemp_l. Qed.

Lemma before_fits k z : (k <= N)%nat -> (1 <= N)%nat -> z = before k -> s32 (u32 z) = before k.
Proof.
  intros Hk HN ->. rewrite s32_u32. apply s32_small. unfold is_s32, before.
  pose proof (off_range size N size_pos size_fits 1 HN). unfold off in *. nia.
Qed.

Lemma before_off k : (1 <= k)%nat -> before k = off size (k - 1).
Proof. intros. unfold before, off. f_equal. lia. Qed.

Lemma heapify_spec : forall fuel b k,
  length b = N -> heap cmp k N b -> (k < fuel)%nat -> (k <= N)%nat -> (1 <= N)%nat ->
  exists b', heapify cmp size fuel b (before k) (off size N) = Ok b' /\ heap cmp 0 N b' /\ b' ≡ₚ b.
Proof.
  induction fuel as [|fuel IH]; intros b k Hb Hh Hf Hk HN; [lia|]. cbn [heapify].
  destruct k as [|k].
  { exists b. replace (0 <=? before 0) with false; [done|]. symmetry. apply Z.leb_gt. unfold before. lia. }
  rewrite before_off by lia. replace (S k - 1)%nat with k by lia.
  rewrite (proj2 (Z.leb_le 0 (off size k))) by (unfold off; nia).
  rewrite (sift_off cmp size N size_pos size_fits) by lia.
  destruct (sift_at_spec cmp (S (length b)) b k k N) as (H1 & H2 & _); [|lia..|].
  { split.
    - intros p c x y Hp Hne. apply Hh. lia.
    - intros g c x y Hg Hgk. unfold is_child in Hgk. lia. }
  set (b1 := sift_at _ _ _ _ _) in *. cbn [mbind res_bind].
  rewrite (before_fits k) by (lia || (unfold before, off; lia)).
  destruct (IH b1 k) as (b' & E & H3 & H4); [by rewrite H2|done|lia..|].
  exists b'. split; [done|]. split; [done|]. by rewrite H4.
Qed.

(** The state of the second loop: a heap of the first [m] elements, and the
    others sorted and not smaller. *)
Definition half_sorted (m : nat) b : Prop :=
  heap cmp 0 m b /\ StronglySorted le_by (drop m b) /\
  forall x, x ∈ take m b -> Forall (le_by x) (drop m b).

Lemma half_sorted_step m b x y :
  half_sorted (S m) b -> (1 <= m)%nat -> (S m <= length b)%nat ->
  b !! 0%nat = Some x -> b !! m = Some y ->
  half_sorted m (sift_at cmp (S (length b)) (exchange b 0 m) 0 m).
Proof.
  intros (Hh & Hs & Hle) Hm Hlen Hx Hy. set (b1 := exchange b 0 m).
  assert (Hlen1 : length b1 = length b) by apply length_exchange.
  assert (Hlook : forall i, (i < m)%nat -> b1 !! i = if decide (i = 0%nat) then Some y else b !! i).
  { intros i Hi. unfold b1. rewrite (exchange_lookup b 0 m i x y Hx Hy). by rewrite decide_False by lia. }
  assert (Hd : drop m b1 = x :: drop (S m) b).
  { rewrite (drop_S b1 x m); [by unfold b1; rewrite exchange_drop by lia|].
    unfold b1. rewrite (exchange_lookup b 0 m m x y Hx Hy). by rewrite decide_True. }
  assert (Htake : forall z, z ∈ take m b1 -> z ∈ take (S m) b).
  { intros z [i Hi]%list_elem_of_lookup. apply lookup_take_Some in Hi as [Hi Him].
    rewrite Hlook in Hi by done. apply list_elem_of_lookup. case_decide.
    - exists m. apply lookup_take_Some. split; [congruence|lia].
    - exists i. apply lookup_take_Some. split; [done|lia]. }
  destruct (sift_at_spec cmp (S (length b)) b1 0 0 m) as (I1 & I2 & I3); [|lia..|].
  { split; [|intros g c u v _ Hg; unfold is_child in Hg; lia].
    intros p c u v _ Hp Hc Hcm. unfold is_child in Hc. rewrite !Hlook by lia.
    rewrite !decide_False by lia. apply (Hh p c u v); [lia|done|lia]. }
  split; [done|]. rewrite I3, Hd.
  assert (Hx1 : x ∈ take (S m) b).
  { apply list_elem_of_lookup. exists 0%nat. apply lookup_take_Some. split; [done|lia]. }
  split; [constructor; [done|by apply Hle]|]. intros z Hz.
  assert (Hz1 : z ∈ take m b1).
  { rewrite <- (take_drop m b1) in I2 at 2. rewrite <- (take_drop m (sift_at _ _ _ _ _)), I3 in I2.
    apply Permutation_app_inv_r in I2. by rewrite <- I2. }
  apply Htake in Hz1. constructor; [|by apply Hle].
  apply list_elem_of_lookup in Hz1 as [i Hi]. apply lookup_take_Some in Hi as [Hi Him].
  by apply (heap_root cmp b (S m) x Hh Hx Hlen i).
Qed.

Lemma sort_loop_spec : forall fuel b m,
  length b = N -> half_sorted m b -> (m <= N)%nat -> (1 <= N)%nat -> (m < fuel)%nat -> (1 <= m)%nat ->
  exists b', sort_loop cmp size fuel b (before m) = Ok b' /\ half_sorted 1 b' /\ b' ≡ₚ b.
Proof.
  induction fuel as [|fuel IH]; intros b m Hb Hh Hm HN Hf H1; [lia|]. cbn [sort_loop].
  destruct (decide (m = 1%nat)) as [->|].
  { exists b. replace (0 <? before 1) with false; [done|]. symmetry. apply Z.ltb_ge. unfold before. lia. }
  destruct m as [|m]; [lia|]. rewrite before_off by lia. replace (S m - 1)%nat with m by lia.
  rewrite (proj2 (Z.ltb_lt 0 (off size m))) by (unfold off; nia).
  destruct (lookup_lt_is_Some_2 b 0) as [x Hx]; [lia|]. destruct (lookup_lt_is_Some_2 b m) as [y Hy]; [lia|].
  change 0 with (off size 0) at 1 2. rewrite (swap_off size N size_pos b 0 m x y Hx Hy).
  cbn [mbind res_bind]. rewrite length_exchange.
  rewrite (sift_off cmp size N size_pos size_fits) by (rewrite ?length_exchange; lia).
  cbn [mbind res_bind]. rewrite (before_fits m) by (lia || (unfold before, off; lia)).
  pose proof (half_sorted_step m b x y Hh ltac:(lia) ltac:(lia) Hx Hy) as Hs.
  assert (Hp : sift_at cmp (S (length b)) (exchange b 0 m) 0 m ≡ₚ b).
  { assert (Hany : forall fuel b k m, sift_at cmp fuel b k m ≡ₚ b).
    { clear. induction fuel as [|fuel IH]; intros b k m; cbn [sift_at]; [done|]. case_bool_decide; [|done].
      destruct (b !! k), (b !! child cmp b k m); try done. destruct (0 <=? cmp _ _); [done|].
      rewrite IH. apply exchange_perm. }
    rewrite Hany. apply exchange_perm. }
  destruct (IH _ m (eq_trans (Permutation_length Hp) Hb) Hs) as (b' & E & H3 & H4); [lia..|].
  exists b'. split; [done|]. split; [done|]. by rewrite H4.
Qed.

Lemma half_sorted_1 b : half_sorted 1 b -> StronglySorted le_by b.
Proof.
  intros (_ & Hs & Hle). destruct b as [|x b]; [constructor|]. cbn in Hs, Hle.
  constructor; [done|]. apply Hle. rewrite take_0. by left.
Qed.

Lemma sort_spec b : length b = N -> size < 2 ^ 31 ->
  exists b', sort cmp size b (Z.of_nat N) = Ok b' /\ b' ≡ₚ b /\ StronglySorted le_by b'.
Proof.
  intros Hb Hsz. unfold sort. destruct (decide (N = 0%nat)) as [H0|HN].
  { destruct b; [|cbn in Hb; lia]. exists []. rewrite H0. split; [|split; [done|constructor]].
    assert (E1 : s32 (u32 (u32 (Z.of_nat 0 / 2 - 1) * size)) = - size).
    { rewrite s32_u32. replace (u32 (Z.of_nat 0 / 2 - 1) * size) with (- size + size * 2 ^ 32).
      - unfold s32. replace (- size + size * 2 ^ 32 + 2 ^ 31) with (- size + 2 ^ 31 + size * 2 ^ 32) by ring.
        rewrite Z.mod_add, Z.mod_small by lia. lia.
      - change (u32 (Z.of_nat 0 / 2 - 1)) with (2 ^ 32 - 1). ring. }
    rewrite E1. cbn [heapify length]. rewrite (proj2 (Z.leb_gt 0 (- size))) by lia. cbn [mbind res_bind].
    rewrite !s32_u32, Z.mul_0_l. change (s32 0) with 0. cbn [sort_loop length].
    rewrite (s32_small (0 - size)) by (unfold is_s32; lia).
    by rewrite (proj2 (Z.ltb_ge 0 (0 - size))) by lia. }
  assert (E1 : s32 (u32 (u32 (Z.of_nat N / 2 - 1) * size)) = before (N / 2)).
  { assert (Z.of_nat N / 2 = Z.of_nat (N / 2)) as -> by (by rewrite Nat2Z.inj_div).
    pose proof (Nat.Div0.div_le_upper_bound N 2 N ltac:(lia)).
    destruct (decide ((N / 2)%nat = 0%nat)) as [->|].
    - change (u32 (Z.of_nat 0 - 1)) with (2 ^ 32 - 1). rewrite s32_u32. unfold s32, before.
      replace ((2 ^ 32 - 1) * size + 2 ^ 31) with (- size + 2 ^ 31 + size * 2 ^ 32) by ring.
      rewrite Z.mod_add, Z.mod_small by lia. lia.
    - apply before_fits; [lia|lia|]. rewrite u32_small; [done|]. unfold is_u32. nia. }
  assert (E2 : s32 (u32 (Z.of_nat N * size)) = off size N).
  { rewrite s32_u32. apply s32_small. unfold is_s32, off. nia. }
  rewrite E1, E2.
  destruct (heapify_spec (S (length b)) b (N / 2)) as (b1 & -> & Hh & Hp); [done| | | |lia|].
  { intros p c x y Hpc Hc HcN. pose proof (Nat.div_mod_eq N 2). pose proof (Nat.mod_upper_bound N 2 ltac:(lia)).
    unfold is_child in Hc. lia. }
  { pose proof (Nat.Div0.div_le_upper_bound N 2 N ltac:(lia)). lia. }
  { apply Nat.Div0.div_le_upper_bound; lia. }
  cbn [mbind res_bind]. assert (Hl1 : length b1 = N) by (by rewrite Hp).
  rewrite (before_fits N) by (lia || (unfold before, off; lia)).
  destruct (sort_loop_spec (S (length b1)) b1 N) as (b' & E & Hs & Hp'); try lia.
  { split; [done|]. rewrite drop_ge by lia. split; [constructor|]. intros. constructor. }
  exists b'. split; [done|]. split; [by rewrite Hp'|]. by apply half_sorted_1.
Qed.

End Correct.

(** C30: [sort] terminates, and leaves a permutation of the array that is sorted
    under the comparison, for any number of elements of any size as long as
    the array is smaller than 2 GiB; no comparison or exchange leaves the
    array. *)
Theorem sort_correct {A} (cmp : A -> A -> Z) `{!Comparison cmp} size (b : list A) :
  0 < size < 2 ^ 31 -> zlen b * size < 2 ^ 31 ->
  exists b', sort cmp size b (zlen b) = Ok b' /\ b' ≡ₚ b /\ StronglySorted (le_by cmp) b'.
Proof. intros [H0 Hs] Hb. by apply (sort_spec cmp size (length b) H0 Hb). Qed.

Lemma sort_correct_witness :
  exists b', sort Z.sub 4 [5; 3; 9; 1; 3; 7] 6 = Ok b' /\ b' ≡ₚ [5; 3; 9; 1; 3; 7] /\
    StronglySorted (le_by Z.sub) b'.
Proof. apply (sort_correct Z.sub 4 [5; 3; 9; 1; 3; 7]); vm_compute; [split; reflexivity|reflexivity]. Defined.

(** ** [bsearch] *)

Section Search.
Context {K A : Type} (cmp : K -> A -> Z) (size : Z) (key : K) (b : list A).
Hypothesis size_pos : 0 < size.
Hypothesis size_fits : zlen b * size < 2 ^ 32.

(** The array is in ascending order as far as the key can tell: what is
    smaller than the key comes first, what is greater last. *)
Definition ascending : Prop := forall (i j : nat) x y, (i < j)%nat -> b !! i = Some x -> b !! j = Some y ->
  (cmp key x < 0 -> cmp key y < 0) /\ (0 < cmp key y -> 0 < cmp key x).

Lemma ascending_below : ascending -> forall i j x y,
  i <= j -> znth b i = Some x -> znth b j = Some y -> 0 < cmp key y -> 0 < cmp key x.
Proof.
  intros Ha i j x y Hij Hx Hy. pose proof (znth_Some _ _ _ Hx). pose proof (znth_Some _ _ _ Hy).
  rewrite znth_lookup in Hx, Hy by lia. destruct (Z.eq_dec i j) as [->|]; [by simplify_eq|].
  apply (Ha (Z.to_nat i) (Z.to_nat j) x y); [lia|done..].
Qed.

Lemma ascending_above : ascending -> forall i j x y,
  i <= j -> znth b i = Some x -> znth b j = Some y -> cmp key x < 0 -> cmp key y < 0.
Proof.
  intros Ha i j x y Hij Hx Hy. pose proof (znth_Some _ _ _ Hx). pose proof (znth_Some _ _ _ Hy).
  rewrite znth_lookup in Hx, Hy by lia. destruct (Z.eq_dec i j) as [->|]; [by simplify_eq|].
  apply (Ha (Z.to_nat i) (Z.to_nat j) x y); [lia|done..].
Qed.

Lemma bsearch_loop_spec : ascending -> forall fuel start end_,
  0 <= start <= end_ -> end_ <= zlen b -> end_ - start < 2 ^ Z.of_nat fuel ->
  (forall i x, i < start -> znth b i = Some x -> 0 < cmp key x) ->
  (forall i x, end_ <= i -> znth b i = Some x -> cmp key x < 0) ->
  exists o, bsearch_loop cmp size key (S fuel) b start end_ = Ok o /\
    match o with
    | Some p => exists i x, p = i * size /\ znth b i = Some x /\ cmp key x = 0
    | None => forall i x, znth b i = Some x -> cmp key x <> 0
    end.
Proof.
  intros Ha. assert (Hlen : zlen b < 2 ^ 32) by (pose proof (zlen_nonneg b); nia).
  induction fuel as [|fuel IH]; intros start end_ Hs He Hf Hlo Hhi;
    [|remember (S fuel) as m eqn:Em]; cbn [bsearch_loop];
    (destruct (Z.ltb_spec start end_) as [Hlt|];
      [|exists None; split; [done|]; intros i x Hx;
        destruct (Z.lt_ge_cases i start) as [Hi|Hi];
        [pose proof (Hlo i x Hi Hx); lia|pose proof (Hhi i x ltac:(lia) Hx); lia]]);
    [cbn in Hf; lia|].
  rewrite (u32_small (end_ - start)) by (unfold is_u32; lia).
  set (mid := start + (end_ - start) / 2).
  assert (Hmid : start <= mid < end_) by (unfold mid; Z.div_mod_to_equations; lia).
  assert (Hhalf : end_ - start - 1 <= 2 * (mid - start) <= end_ - start) by (unfold mid; Z.div_mod_to_equations; lia).
  rewrite (u32_small mid) by (unfold is_u32; lia).
  assert (mid * size < 2 ^ 32) by nia. rewrite (u32_small (mid * size)) by (unfold is_u32; nia).
  destruct (znth_is_Some b mid) as [x Hx]; [lia|]. unfold elem. rewrite Z.div_mul, Hx by lia.
  cbn [of_option mbind res_bind]. subst m. rewrite Nat2Z.inj_succ, Z.pow_succ_r in Hf by lia.
  destruct (Z.ltb_spec (cmp key x) 0).
  - apply IH; [lia..|done|]. intros i y Hi Hy. by apply (ascending_above Ha mid i x y).
  - destruct (Z.ltb_spec 0 (cmp key x)).
    + rewrite (u32_small (mid + 1)) by (unfold is_u32; lia). apply IH; [lia..| |done].
      intros i y Hi Hy. apply (ascending_below Ha i mid y x); [lia|done..].
    + exists (Some (mid * size)). split; [done|]. exists mid, x. split; [done|]. split; [done|lia].
Qed.

End Search.

(** [bsearch] terminates within 33 rounds on any array of less than 4 GiB
    that is in ascending order for the key; it returns the offset of an
    element that the key compares equal to, and nothing only if there is
    none. *)
Theorem bsearch_correct {K A} (cmp : K -> A -> Z) size key (b : list A) :
  0 < size -> zlen b * size < 2 ^ 32 -> ascending cmp key b ->
  exists o, bsearch cmp size key b (zlen b) = Ok o /\
    match o with
    | Some p => exists i x, p = i * size /\ znth b i = Some x /\ cmp key x = 0
    | None => forall i x, znth b i = Some x -> cmp key x <> 0
    end.
Proof.
  intros Hs Hb Ha. pose proof (zlen_nonneg b).
  apply (bsearch_loop_spec cmp size key b Hs Hb Ha 32); [lia|lia| | |].
  - change (Z.of_nat 32) with 32. nia.
  - intros i x Hi Hx. apply znth_Some in Hx. lia.
  - intros i x Hi Hx. apply znth_Some in Hx. lia.
Qed.

Lemma bsearch_correct_witness :
  exists o, bsearch Z.sub 4 7 [1; 3; 5; 7; 9] 5 = Ok o /\
    match o with
    | Some p => exists i x, p = i * 4 /\ znth [1; 3; 5; 7; 9] i = Some x /\ 7 - x = 0
    | None => forall i x, znth [1; 3; 5; 7; 9] i = Some x -> 7 - x <> 0
    end.
Proof.
  apply (bsearch_correct Z.sub 4 7 [1; 3; 5; 7; 9]); [lia|vm_compute; reflexivity|].
  intros i j x y Hij Hx Hy.
  do 5 (destruct i as [|i]; [do 5 (destruct j as [|j]; [cbn in Hx, Hy; simplify_eq; lia|]);
    cbn in Hy; discriminate Hy|]).
  cbn in Hx. discriminate Hx.
Defined.

(** ** [generic_swap] *)

(** The memory [m] with the [n] bytes at [a] and at [b] exchanged. *)
Definition exchanged (m m' : list Z) (a b n : Z) : Prop :=
  zlen m' = zlen m /\ forall i, znth m' i =
    if (a <=? i) && (i <? a + n) then znth m (i - a + b)
    else if (b <=? i) && (i <? b + n) then znth m (i - b + a)
    else znth m i.

Lemma swap_bytes_spec fuel m a b n :
  0 <= a -> 0 <= b -> 0 < n -> a + n <= zlen m -> b + n <= zlen m ->
  a + n <= b \/ b + n <= a -> n <= Z.of_nat fuel ->
  exists m', swap_bytes fuel m a b n = Ok m' /\ exchanged m m' a b n.
Proof.
  revert m a b n. induction fuel as [|fuel IH]; intros m a b n Ha Hb Hn Hla Hlb Hd Hf; [lia|].
  cbn [swap_bytes]. destruct (rd_Ok m a) as (t & Et & Ht); [lia|]. destruct (rd_Ok m b) as (x & Ex & Hx); [lia|].
  unfold mbind, res_bind, wr. rewrite Et, Ex, zupd_Some by lia. cbn [of_option].
  rewrite zupd_Some by (rewrite zlen_insert; lia). cbn [of_option].
  set (m1 := <[Z.to_nat b:=t]> (<[Z.to_nat a:=x]> m)).
  assert (Hm1 : forall i, znth m1 i = if i =? b then Some t else if i =? a then Some x else znth m i).
  { intros i. unfold m1. rewrite znth_insert by (rewrite zlen_insert; lia). by rewrite znth_insert by lia. }
  assert (Hlen : zlen m1 = zlen m) by (unfold m1; by rewrite !zlen_insert).
  destruct (Z.ltb_spec 0 (n - 1)) as [Hn1|Hn1].
  - destruct (IH m1 (a + 1) (b + 1) (n - 1)) as (m' & E & Hl & Hm'); [lia..|].
    exists m'. split; [done|]. split; [lia|]. intros i. rewrite Hm', !Hm1. clear Hm' Hm1 IH.
    repeat (bcase; cbn [andb]; try lia); try (rewrite <- Hx || rewrite <- Ht); f_equal; lia.
  - exists m1. split; [done|]. split; [done|]. intros i. rewrite Hm1.
    repeat (bcase; cbn [andb]; try lia); try (rewrite <- Hx || rewrite <- Ht); f_equal; lia.
Qed.

(** [generic_swap] exchanges two disjoint objects of [size] bytes, leaves
    every other byte as it was and touches none outside the objects; its loop
    ends. *)
Theorem generic_swap_exchanges m a b size :
  0 <= a -> 0 <= b -> 0 < size -> a + size <= zlen m -> b + size <= zlen m ->
  a + size <= b \/ b + size <= a ->
  exists m', generic_swap m a b size = Ok m' /\ exchanged m m' a b size.
Proof. intros. apply swap_bytes_spec; unfold zlen in *; lia. Qed.

Lemma generic_swap_exchanges_witness :
  exists m', generic_swap [1; 2; 3; 4; 5; 6; 7] 0 4 3 = Ok m' /\ exchanged [1; 2; 3; 4; 5; 6; 7] m' 0 4 3.
Proof. apply (generic_swap_exchanges [1; 2; 3; 4; 5; 6; 7] 0 4 3); change (zlen _) with 7; lia. Defined.
