(* ===== verification/Nlattr.v ===== *)
(** Netlink attributes: lib/nlattr.c with the inline helpers of
    include/net/netlink.h.

    An attribute is a [struct nlattr] header (two little-endian [u16] fields,
    [nla_len] and [nla_type]) followed by its payload, in memory [m]; a
    [struct nlattr *] is the index of its header in [m]. *)

From S2P Require Import Prelude Skb Str.

(** ** Layout (include/linux/netlink.h) *)

Definition NLA_ALIGNTO : Z := 4.
Definition NLA_ALIGN (n : Z) : Z :=
  Z.land (n + NLA_ALIGNTO - 1) (Z.lnot (NLA_ALIGNTO - 1)).
Definition sizeof_nlattr : Z := 4.
Definition NLA_HDRLEN : Z := NLA_ALIGN sizeof_nlattr.
Definition NLA_F_NESTED : Z := Z.shiftl 1 15.
Definition NLA_F_NET_BYTEORDER : Z := Z.shiftl 1 14.
Definition NLA_TYPE_MASK : Z := Z.lnot (Z.lor NLA_F_NESTED NLA_F_NET_BYTEORDER).

(** Attribute types of a validation policy (include/net/netlink.h). *)
Definition NLA_UNSPEC : Z := 0.
Definition NLA_U8 : Z := 1.
Definition NLA_U16 : Z := 2.
Definition NLA_U32 : Z := 3.
Definition NLA_U64 : Z := 4.
Definition NLA_STRING : Z := 5.
Definition NLA_FLAG : Z := 6.
Definition NLA_MSECS : Z := 7.
Definition NLA_NESTED : Z := 8.
Definition NLA_NESTED_COMPAT : Z := 9.
Definition NLA_NUL_STRING : Z := 10.
Definition NLA_BINARY : Z := 11.
Definition NLA_TYPE_MAX : Z := 11.

Record nla_policy : Type := mk_policy { ptype : Z; plen : Z }.

(** ** Accessors *)

Definition rd_u16 (m : list Z) (p : Z) : res Z :=
  lo ← rd m p; hi ← rd m (p + 1); Ok (lo + 256 * hi).

Definition wr_u16 (m : list Z) (p v : Z) : res (list Z) :=
  m ← wr m p (u16 v mod 256); wr m (p + 1) (u16 v / 256).

Definition nla_attr_size (payload : Z) : Z := NLA_HDRLEN + payload.
Definition nla_total_size (payload : Z) : Z := NLA_ALIGN (nla_attr_size payload).
Definition nla_padlen (payload : Z) : Z := nla_total_size payload - nla_attr_size payload.

Definition nla_type (m : list Z) (nla : Z) : res Z :=
  t ← rd_u16 m (nla + 2); Ok (Z.land t NLA_TYPE_MASK).

Definition nla_data (nla : Z) : Z := nla + NLA_HDRLEN.

Definition nla_len (m : list Z) (nla : Z) : res Z :=
  l ← rd_u16 m nla; Ok (l - NLA_HDRLEN).

Definition nla_ok (m : list Z) (nla remaining : Z) : res bool :=
  if sizeof_nlattr <=? remaining then
    l ← rd_u16 m nla; Ok ((sizeof_nlattr <=? l) && (l <=? remaining))
  else Ok false.

Definition nla_next (m : list Z) (nla remaining : Z) : res (Z * Z) :=
  l ← rd_u16 m nla;
  let totlen := NLA_ALIGN l in
  Ok (nla + totlen, remaining - totlen).

(** ** Walking a stream: [nla_for_each_attr]

    [body] is the loop body: it runs on the current attribute and the state of
    the loop, and either continues with a new state or leaves the function.
    The loop ends in [inl (st, rem)] when [nla_ok] fails, with the bytes
    [rem] left. *)
Inductive loop (S R : Type) : Type :=
  | Continue (st : S)
  | Break (r : R).
Arguments Continue {S R} st.
Arguments Break {S R} r.

Fixpoint nla_for_each_attr {S R} (fuel : nat) (m : list Z) (pos rem : Z) (st : S)
    (body : Z -> S -> res (loop S R)) : res (S * Z + R) :=
  match fuel with
  | O => Fault OutOfFuel
  | Datatypes.S fuel =>
      ok ← nla_ok m pos rem;
      if ok : bool then
        c ← body pos st;
        match c with
        | Continue st => '(pos, rem) ← nla_next m pos rem; nla_for_each_attr fuel m pos rem st body
        | Break r => Ok (inr r)
        end
      else Ok (inl (st, rem))
  end.

(** Every attribute takes at least 4 of the [rem] bytes. *)
Definition walk_fuel (rem : Z) : nat := S (Z.to_nat rem).

(** ** Validation *)

Definition nla_attr_minlen : list Z :=
  [0; 1; 2; 4; 8; 0; 0; 8; NLA_HDRLEN; 0; 0; 0].

(** The code from the label [case NLA_STRING:] on. *)
Definition validate_string (m : list Z) (nla attrlen : Z) (pt : nla_policy) : res Z :=
  if attrlen <? 1 then Ok (- ERANGE)
  else if nonzero (plen pt) then
    last ← rd m (nla_data nla + (attrlen - 1));
    let attrlen := if last =? 0 then attrlen - 1 else attrlen in
    if plen pt <? attrlen then Ok (- ERANGE) else Ok 0
  else Ok 0.

(** The code from the label [default:] on. *)
Definition validate_minlen (attrlen : Z) (pt : nla_policy) : res Z :=
  minlen ←
    (if nonzero (plen pt) then Ok (plen pt)
     else if negb (ptype pt =? NLA_UNSPEC) then
       of_option OutOfBounds (znth nla_attr_minlen (ptype pt))
     else Ok 0);
  if attrlen <? minlen then Ok (- ERANGE) else Ok 0.

Definition validate_nla (m : list Z) (nla maxtype : Z) (policy : list nla_policy) : res Z :=
  attrlen ← nla_len m nla;
  type ← nla_type m nla;
  if (type <=? 0) || (maxtype <? type) then Ok 0
  else
    pt ← of_option OutOfBounds (znth policy type);
    if NLA_TYPE_MAX <? ptype pt then Fault BugOn
    else if ptype pt =? NLA_FLAG then
      if 0 <? attrlen then Ok (- ERANGE) else Ok 0
    else if ptype pt =? NLA_NUL_STRING then
      let minlen := if nonzero (plen pt) then Z.min attrlen (plen pt + 1) else attrlen in
      if minlen =? 0 then Ok (- EINVAL)
      else
        nul ← memchr m (nla_data nla) 0 (u32 minlen);
        match nul with
        | None => Ok (- EINVAL)
        | Some _ => validate_string m nla attrlen pt
        end
    else if ptype pt =? NLA_STRING then validate_string m nla attrlen pt
    else if ptype pt =? NLA_BINARY then
      if nonzero (plen pt) && (plen pt <? attrlen) then Ok (- ERANGE) else Ok 0
    else if ptype pt =? NLA_NESTED_COMPAT then
      if attrlen <? plen pt then Ok (- ERANGE)
      else if attrlen <? NLA_ALIGN (plen pt) then Ok 0
      else if attrlen <? NLA_ALIGN (plen pt) + NLA_HDRLEN then Ok (- ERANGE)
      else
        let nla := nla_data nla + NLA_ALIGN (plen pt) in
        l ← nla_len m nla;
        if attrlen <? NLA_ALIGN (plen pt) + NLA_HDRLEN + l then Ok (- ERANGE) else Ok 0
    else if ptype pt =? NLA_NESTED then
      if attrlen =? 0 then Ok 0 else validate_minlen attrlen pt
    else validate_minlen attrlen pt.

Definition nla_validate (m : list Z) (head n maxtype : Z) (policy : list nla_policy) : res Z :=
  r ← nla_for_each_attr (walk_fuel n) m head n tt (fun nla _ =>
        err ← validate_nla m nla maxtype policy;
        Ok (if err <? 0 then Break err else Continue tt));
  match r with
  | inr err => Ok err
  | inl _ => Ok 0
  end.

Fixpoint nla_policy_len (p : list nla_policy) (acc : Z) : res Z :=
  match p with
  | [] => Ok acc
  | pt :: p =>
      if nonzero (plen pt) then nla_policy_len p (acc + nla_total_size (plen pt))
      else
        minlen ← of_option OutOfBounds (znth nla_attr_minlen (ptype pt));
        if nonzero minlen then nla_policy_len p (acc + nla_total_size minlen)
        else nla_policy_len p acc
  end.

(** [nla_parse]: the return value and the table [tb] of [maxtype + 1]
    attribute pointers. *)
Definition nla_parse (m : list Z) (maxtype head n : Z) (policy : option (list nla_policy))
    : res (Z * list (option Z)) :=
  let tb := replicate (Z.to_nat (maxtype + 1)) None in
  r ← nla_for_each_attr (walk_fuel n) m head n tb (fun nla tb =>
        type ← nla_type m nla;
        if (0 <? type) && (type <=? maxtype) then
          err ← match policy with
                | Some policy => validate_nla m nla maxtype policy
                | None => Ok 0
                end;
          if err <? 0 then Ok (Break (err, tb))
          else tb ← of_option OutOfBounds (zupd tb type (Some nla)); Ok (Continue tb)
        else Ok (Continue tb));
  match r with
  | inr (err, tb) => Ok (err, tb)
  | inl (tb, _) => Ok (0, tb)
  end.

Definition nla_find (m : list Z) (head n attrtype : Z) : res (option Z) :=
  r ← nla_for_each_attr (walk_fuel n) m head n tt (fun nla _ =>
        type ← nla_type m nla;
        Ok (if type =? attrtype then Break nla else Continue tt));
  match r with
  | inr nla => Ok (Some nla)
  | inl _ => Ok None
  end.

Definition nla_find_nested (m : list Z) (nla attrtype : Z) : res (option Z) :=
  l ← nla_len m nla; nla_find m (nla_data nla) l attrtype.

(** ** Payload access *)

(** [nla_strlcpy]: the returned length and the new contents of [dst], a
    buffer of [dstsize] bytes ([None]: [dst] is left alone). *)
Definition nla_strlcpy (m : list Z) (nla dstsize : Z) : res (Z * option (list Z)) :=
  l ← nla_len m nla;
  let srclen := u32 l in
  let src := nla_data nla in
  srclen ← (if 0 <? srclen then
              last ← rd m (src + (srclen - 1));
              Ok (if last =? 0 then srclen - 1 else srclen)
            else Ok srclen);
  if 0 <? dstsize then
    let n := if dstsize <=? srclen then dstsize - 1 else srclen in
    bs ← rd_slice m (zlen m) src n;
    Ok (srclen, Some (bs ++ replicate (Z.to_nat (dstsize - n)) 0))
  else Ok (srclen, None).

(** [nla_memcpy]: the returned count and the bytes written to [dest]. *)
Definition nla_memcpy (m : list Z) (src count : Z) : res (Z * list Z) :=
  l ← nla_len m src;
  let minlen := Z.min count l in
  bs ← rd_slice m (zlen m) (nla_data src) minlen;
  Ok (minlen, bs).

Definition nla_memcmp (m : list Z) (nla data size : Z) : res Z :=
  l ← nla_len m nla;
  let d := s32 (l - size) in
  if d =? 0 then memcmp m (nla_data nla) data size else Ok d.

Definition nla_strcmp (m : list Z) (nla str : Z) : res Z :=
  sl ← strlen m str;
  let n := sl + 1 in
  l ← nla_len m nla;
  let d := l - n in
  if d =? 0 then memcmp m (nla_data nla) str n else Ok d.

(** ** Building attributes *)

Definition __nla_reserve (skb : sk_buff) (attrtype attrlen : Z) : res (sk_buff * Z) :=
  '(skb, nla) ← skb_put skb (nla_total_size attrlen);
  m ← wr_u16 (head skb) (nla + 2) attrtype;
  m ← wr_u16 m nla (nla_attr_size attrlen);
  l ← rd_u16 m nla;
  m ← memset m (nla + l) 0 (nla_padlen attrlen);
  Ok (set_head skb m, nla).

Definition __nla_reserve_nohdr (skb : sk_buff) (attrlen : Z) : res (sk_buff * Z) :=
  '(skb, start) ← skb_put skb (NLA_ALIGN attrlen);
  m ← memset (head skb) start 0 (NLA_ALIGN attrlen);
  Ok (set_head skb m, start).

Definition nla_reserve (skb : sk_buff) (attrtype attrlen : Z) : res (sk_buff * option Z) :=
  if skb_tailroom skb <? nla_total_size attrlen then Ok (skb, None)
  else '(skb, nla) ← __nla_reserve skb attrtype attrlen; Ok (skb, Some nla).

Definition nla_reserve_nohdr (skb : sk_buff) (attrlen : Z) : res (sk_buff * option Z) :=
  if skb_tailroom skb <? NLA_ALIGN attrlen then Ok (skb, None)
  else '(skb, p) ← __nla_reserve_nohdr skb attrlen; Ok (skb, Some p).

(** [memcpy] from a caller's buffer [data] into the socket buffer. *)
Fixpoint wr_list (m : list Z) (p : Z) (l : list Z) : res (list Z) :=
  match l with
  | [] => Ok m
  | b :: l => m ← wr m p b; wr_list m (p + 1) l
  end.

Definition __nla_put (skb : sk_buff) (attrtype : Z) (data : list Z) : res sk_buff :=
  '(skb, nla) ← __nla_reserve skb attrtype (zlen data);
  m ← wr_list (head skb) (nla_data nla) data;
  Ok (set_head skb m).

Definition __nla_put_nohdr (skb : sk_buff) (data : list Z) : res sk_buff :=
  '(skb, start) ← __nla_reserve_nohdr skb (zlen data);
  m ← wr_list (head skb) start data;
  Ok (set_head skb m).

Definition nla_put (skb : sk_buff) (attrtype : Z) (data : list Z) : res (Z * sk_buff) :=
  if skb_tailroom skb <? nla_total_size (zlen data) then Ok (- EMSGSIZE, skb)
  else skb ← __nla_put skb attrtype data; Ok (0, skb).

Definition nla_put_nohdr (skb : sk_buff) (data : list Z) : res (Z * sk_buff) :=
  if skb_tailroom skb <? NLA_ALIGN (zlen data) then Ok (- EMSGSIZE, skb)
  else skb ← __nla_put_nohdr skb data; Ok (0, skb).

Definition nla_append (skb : sk_buff) (data : list Z) : res (Z * sk_buff) :=
  if skb_tailroom skb <? NLA_ALIGN (zlen data) then Ok (- EMSGSIZE, skb)
  else
    '(skb, p) ← skb_put skb (zlen data);
    m ← wr_list (head skb) p data;
    Ok (0, set_head skb m).

(** ** Arithmetic of the layout *)

Lemma NLA_ALIGN_eq n : NLA_ALIGN n = 4 * ((n + 3) / 4).
Proof.
  unfold NLA_ALIGN, NLA_ALIGNTO. replace (n + 4 - 1) with (n + 3) by lia.
  change (4 - 1) with (Z.ones 2). rewrite <- Z.ldiff_land, Z.ldiff_ones_r by lia.
  rewrite Z.shiftr_div_pow2, Z.shiftl_mul_pow2 by lia. change (2 ^ 2) with 4. lia.
Qed.

Lemma NLA_ALIGN_bound n : n <= NLA_ALIGN n <= n + 3 /\ NLA_ALIGN n mod 4 = 0.
Proof. rewrite NLA_ALIGN_eq. Z.div_mod_to_equations. lia. Qed.

Lemma NLA_HDRLEN_eq : NLA_HDRLEN = 4.
Proof. reflexivity. Qed.

Lemma rd_u16_Ok m p :
  bytes m -> 0 <= p -> p + 2 <= zlen m -> exists v, rd_u16 m p = Ok v /\ is_u16 v.
Proof.
  intros Hm Hp Hle. unfold rd_u16.
  destruct (rd_Ok m p) as (a & Ha & Han); [lia|].
  destruct (rd_Ok m (p + 1)) as (b & Hb & Hbn); [lia|].
  rewrite Ha. simpl. rewrite Hb. simpl. eexists. split; [done|].
  apply bytes_znth in Han, Hbn; try done. unfold is_u8, is_u16 in *. lia.
Qed.

Lemma nla_type_mask t : is_u16 t -> Z.land t NLA_TYPE_MASK = t mod 2 ^ 14.
Proof.
  intros Ht. rewrite <- Z.land_ones by lia. apply Z.bits_inj'. intros i Hi.
  rewrite !Z.land_spec. rewrite Z.testbit_ones_nonneg by lia.
  destruct (Z.ltb_spec i 16).
  - assert (i < 14 \/ i = 14 \/ i = 15) as [?|[->| ->]] by lia; try by rewrite !andb_false_r.
    unfold NLA_TYPE_MASK. rewrite Z.lnot_spec by lia.
    destruct (Z.ltb_spec i 14); [|lia]. f_equal.
    unfold NLA_F_NESTED, NLA_F_NET_BYTEORDER.
    rewrite Z.lor_spec, !Z.shiftl_spec_low by lia. done.
  - rewrite (Z.bits_above_log2 t); [done|unfold is_u16 in Ht; lia|].
    unfold is_u16 in Ht. destruct (Z.eq_dec t 0) as [->|]; [simpl; lia|].
    assert (Z.log2 t < 16) by (apply Z.log2_lt_pow2; lia). lia.
Qed.

(** ** The walk *)

(** The attribute at [p] lies in the stream [lo, hi) of [m]. *)
Definition attr_at (m : list Z) (lo hi p l : Z) : Prop :=
  lo <= p /\ rd_u16 m p = Ok l /\ sizeof_nlattr <= l /\ p + l <= hi.

(** Loop invariant rule for [nla_for_each_attr]: [I] is kept by the body on
    every attribute of the stream, [Q] holds of every early exit. *)
Lemma nla_walk_rule {S R} (I : S -> Prop) (Q : R -> Prop) m lo hi body :
  bytes m -> 0 <= lo -> hi <= zlen m ->
  (forall p l st, attr_at m lo hi p l -> I st ->
     exists c, body p st = Ok c /\
       match c with Continue st' => I st' | Break r => Q r end) ->
  forall fuel pos rem st,
  lo <= pos -> pos + rem = hi -> (Z.to_nat rem < fuel)%nat -> I st ->
  exists r, nla_for_each_attr fuel m pos rem st body = Ok r /\
    match r with inl (st', _) => I st' | inr r => Q r end.
Proof.
  intros Hm Hlo Hhi Hbody. induction fuel as [|fuel IH]; intros pos rem st Hp Hr Hf HI; [lia|].
  cbn [nla_for_each_attr]. unfold nla_ok, sizeof_nlattr.
  destruct (Z.leb_spec 4 rem).
  - destruct (rd_u16_Ok m pos) as (l & Hl & Hlr); [done|lia|lia|].
    rewrite Hl. cbn [mbind res_bind].
    destruct (Z.leb_spec 4 l), (Z.leb_spec l rem); cbn [andb]; try (exists (inl (st, rem)); by split).
    destruct (Hbody pos l st) as (c & Hc & HQ); [|done|].
    { repeat split; try done; unfold sizeof_nlattr; lia. }
    rewrite Hc. cbn [mbind res_bind]. destruct c as [st'|r]; [|by exists (inr r)].
    unfold nla_next. rewrite Hl. cbn [mbind res_bind].
    assert (Ha := NLA_ALIGN_bound l). apply IH; [lia|lia|lia|done].
  - exists (inl (st, rem)). by split.
Qed.

Lemma nla_find_safe m hd n t :
  bytes m -> 0 <= hd -> hd + n <= zlen m -> safe (nla_find m hd n t).
Proof.
  intros Hm Hh Hle. unfold nla_find.
  destruct (nla_walk_rule (fun _ : unit => True) (fun _ : Z => True) m hd (hd + n)
    (fun nla _ => type ← nla_type m nla; Ok (if type =? t then Break nla else Continue tt))
    Hm Hh Hle) with (fuel := walk_fuel n) (pos := hd) (rem := n) (st := tt)
    as (r & Hr & _); [|lia|lia|unfold walk_fuel; lia|done|].
  - intros p l st (Hp & _ & Hl & Hpl) _. unfold sizeof_nlattr in Hl.
    destruct (rd_u16_Ok m (p + 2)) as (w & Hw & _); [done|lia|lia|].
    unfold nla_type. rewrite Hw. cbn [mbind res_bind]. eexists. split; [done|].
    by destruct (_ =? t).
  - rewrite Hr. destruct r; cbn [mbind res_bind]; eauto.
Qed.

(** ** Validation guarantees *)

Definition policy_ok (maxtype : Z) (policy : list nla_policy) : Prop :=
  zlen policy = maxtype + 1 /\
  Forall (fun pt => 0 <= ptype pt <= NLA_TYPE_MAX /\ is_u16 (plen pt)) policy.

(** What a policy entry asks of an attribute with [attrlen] payload bytes:
    the contract documented at [struct nla_policy]. *)
Definition string_fits (m : list Z) (nla attrlen : Z) (pt : nla_policy) : Prop :=
  1 <= attrlen /\
  (plen pt = 0 \/ attrlen <= plen pt \/
   (attrlen = plen pt + 1 /\ rd m (nla_data nla + (attrlen - 1)) = Ok 0)).

Definition satisfies (m : list Z) (nla attrlen : Z) (pt : nla_policy) : Prop :=
  if ptype pt =? NLA_FLAG then attrlen = 0
  else if ptype pt =? NLA_NUL_STRING then
    string_fits m nla attrlen pt /\
    exists i, 0 <= i < attrlen /\ (plen pt <> 0 -> i <= plen pt) /\
      rd m (nla_data nla + i) = Ok 0
  else if ptype pt =? NLA_STRING then string_fits m nla attrlen pt
  else if ptype pt =? NLA_BINARY then plen pt = 0 \/ attrlen <= plen pt
  else if ptype pt =? NLA_NESTED_COMPAT then plen pt <= attrlen
  else if ptype pt =? NLA_NESTED then
    attrlen = 0 \/ (if plen pt =? 0 then NLA_HDRLEN else plen pt) <= attrlen
  else if plen pt =? 0 then default 0 (znth nla_attr_minlen (ptype pt)) <= attrlen
  else plen pt <= attrlen.

Definition is_errno (e : Z) : Prop := e = 0 \/ e = - ERANGE \/ e = - EINVAL.

Lemma memchr_loop_spec n m p c :
  0 <= p -> p + Z.of_nat n <= zlen m ->
  exists r, memchr_loop n m p c = Ok r /\
    forall q, r = Some q -> p <= q < p + Z.of_nat n /\ rd m q = Ok (u8 c).
Proof.
  revert p. induction n as [|n IH]; intros p Hp Hle; simpl.
  - by exists None.
  - destruct (rd_Ok m p) as (b & Hb & _); [lia|]. rewrite Hb. simpl.
    destruct (Z.eqb_spec (u8 c) b) as [E|].
    + exists (Some p). split; [done|]. intros q [= <-]. rewrite E. split; [lia|done].
    + destruct (IH (p + 1)) as (r & Hr & Hq); [lia|lia|]. exists r. split; [done|].
      intros q Hq'. destruct (Hq q Hq'). split; [lia|done].
Qed.

Lemma validate_string_spec m nla attrlen pt :
  0 <= nla -> 0 <= attrlen -> nla_data nla + attrlen <= zlen m ->
  exists e, validate_string m nla attrlen pt = Ok e /\ is_errno e /\
    (0 <= e -> string_fits m nla attrlen pt).
Proof.
  intros Hn Ha Hle. unfold validate_string, string_fits, is_errno, nla_data in *.
  rewrite NLA_HDRLEN_eq in *.
  destruct (Z.ltb_spec attrlen 1).
  { exists (- ERANGE). split; [done|]. split; [tauto|]. unfold ERANGE. lia. }
  unfold nonzero. destruct (Z.eqb_spec (plen pt) 0); simpl.
  { exists 0. split; [done|]. split; [tauto|]. tauto. }
  destruct (rd_Ok m (nla + 4 + (attrlen - 1))) as (b & Hb & _); [lia|]. rewrite Hb. simpl.
  destruct (Z.eqb_spec b 0) as [->|]; bcase;
    first [exists (- ERANGE); split; [done|]; split; [tauto|]; unfold ERANGE; lia
          |exists 0; split; [done|]; split; [tauto|]; intros _; split; [lia|]].
  - destruct (Z.eq_dec attrlen (plen pt + 1)); [by right; right|lia].
  - lia.
Qed.

Lemma validate_minlen_spec attrlen pt :
  0 <= ptype pt <= NLA_TYPE_MAX ->
  exists e, validate_minlen attrlen pt = Ok e /\ is_errno e /\
    (0 <= e -> (if plen pt =? 0 then default 0 (znth nla_attr_minlen (ptype pt))
                else plen pt) <= attrlen).
Proof.
  intros Ht. unfold validate_minlen, nonzero, is_errno.
  destruct (Z.eqb_spec (plen pt) 0) as [E|E]; simpl.
  - destruct (znth_is_Some nla_attr_minlen (ptype pt)) as [v Hv];
      [unfold NLA_TYPE_MAX, zlen in *; simpl; lia|].
    rewrite Hv. simpl. destruct (Z.eqb_spec (ptype pt) NLA_UNSPEC) as [Eu|]; simpl.
    + rewrite Eu in Hv. vm_compute in Hv. injection Hv as <-.
      bcase; [exists (- ERANGE)|exists 0]; (split; [done|]; split; [tauto|]); unfold ERANGE; lia.
    + bcase; [exists (- ERANGE)|exists 0]; (split; [done|]; split; [tauto|]); unfold ERANGE; lia.
  - bcase; [exists (- ERANGE)|exists 0]; (split; [done|]; split; [tauto|]); unfold ERANGE; lia.
Qed.

Ltac errno_done :=
  match goal with
  | |- exists e, Ok ?x = Ok e /\ _ =>
      exists x; split; [done|]; split; [unfold is_errno; tauto|];
      unfold ERANGE, EINVAL; try lia
  end.

Lemma validate_nla_spec m lo hi nla l t maxtype policy pt :
  bytes m -> 0 <= lo -> hi <= zlen m -> attr_at m lo hi nla l ->
  nla_type m nla = Ok t -> 0 < t <= maxtype ->
  policy_ok maxtype policy -> znth policy t = Some pt ->
  exists e, validate_nla m nla maxtype policy = Ok e /\ is_errno e /\
    (0 <= e -> satisfies m nla (l - NLA_HDRLEN) pt).
Proof.
  intros Hm Hlo Hhi (Hp & Hl & Hl4 & Hlh) Ht Htm (Hpl & Hpo) Hpt.
  unfold sizeof_nlattr in Hl4.
  destruct (Forall_znth _ _ _ _ Hpo Hpt) as [Hty Hplen]. unfold is_u16 in Hplen.
  unfold validate_nla, nla_len. rewrite Hl. cbn [mbind res_bind]. rewrite Ht.
  cbn [mbind res_bind]. rewrite Hpt. cbn [of_option mbind res_bind].
  destruct (Z.leb_spec t 0), (Z.ltb_spec maxtype t); try lia. cbn [orb].
  destruct (Z.ltb_spec NLA_TYPE_MAX (ptype pt)); [lia|].
  unfold satisfies. rewrite NLA_HDRLEN_eq in *. set (al := l - 4).
  assert (Hal : 0 <= al) by (subst al; lia).
  assert (Hend : nla_data nla + al <= zlen m)
    by (unfold nla_data; rewrite NLA_HDRLEN_eq; subst al; lia).
  assert (Hd : nla_data nla = nla + 4) by done.
  destruct (ptype pt =? NLA_FLAG); [destruct (Z.ltb_spec 0 al); errno_done|].
  destruct (ptype pt =? NLA_NUL_STRING).
  { set (ml := if nonzero (plen pt) then al `min` (plen pt + 1) else al).
    assert (Hml : 0 <= ml <= al) by (subst ml; destruct (nonzero (plen pt)); lia).
    destruct (Z.eqb_spec ml 0); [errno_done|].
    assert (Hlr : is_u16 l) by (destruct (rd_u16_Ok m nla) as (v & Hv & ?); [done|lia|lia|congruence]).
    rewrite u32_small by (unfold is_u16, is_u32 in *; subst al; lia).
    destruct (memchr_loop_spec (Z.to_nat ml) m (nla_data nla) 0) as (r & Hr & Hq); [lia|lia|].
    unfold memchr. rewrite Hr. cbn [mbind res_bind].
    destruct r as [q|]; [|errno_done].
    destruct (validate_string_spec m nla al pt) as (e & He & Hee & Hf); [lia|lia|lia|].
    exists e. split; [done|]. split; [done|]. intros He0. split; [by apply Hf|].
    destruct (Hq q eq_refl) as [Hqr Hq0]. exists (q - nla_data nla).
    split; [lia|]. split.
    - intros Hnz. subst ml. unfold nonzero in Hqr.
      destruct (Z.eqb_spec (plen pt) 0); [done|]. simpl in Hqr. lia.
    - by replace (nla_data nla + (q - nla_data nla)) with q by lia. }
  destruct (ptype pt =? NLA_STRING); [apply validate_string_spec; lia|].
  destruct (ptype pt =? NLA_BINARY).
  { unfold nonzero. destruct (Z.eqb_spec (plen pt) 0), (Z.ltb_spec (plen pt) al); simpl; errno_done. }
  destruct (ptype pt =? NLA_NESTED_COMPAT).
  { assert (Ha := NLA_ALIGN_bound (plen pt)).
    destruct (Z.ltb_spec al (plen pt)); [errno_done|].
    destruct (Z.ltb_spec al (NLA_ALIGN (plen pt))); [errno_done|].
    destruct (Z.ltb_spec al (NLA_ALIGN (plen pt) + 4)); [errno_done|].
    destruct (rd_u16_Ok m (nla_data nla + NLA_ALIGN (plen pt))) as (v & Hv & _); [done|lia|lia|].
    rewrite Hv. cbn [mbind res_bind]. bcase; errno_done. }
  destruct (Z.eqb_spec (ptype pt) NLA_NESTED) as [En|].
  { destruct (Z.eqb_spec al 0); [errno_done|].
    destruct (validate_minlen_spec al pt Hty) as (e & He & Hee & Hf).
    exists e. split; [done|]. split; [done|]. intros He0. right.
    rewrite En in Hf. destruct (Z.eqb_spec (plen pt) 0); by apply Hf. }
  destruct (validate_minlen_spec al pt Hty) as (e & He & Hee & Hf).
  exists e. split; [done|]. split; [done|]. intros He0. specialize (Hf He0).
  by destruct (Z.eqb_spec (plen pt) 0).
Qed.

(** The table entry [p] for type [t] is an attribute of the stream with that
    type, which satisfies its policy entry when there is a policy. *)
Definition entry_ok (m : list Z) (lo hi : Z) (policy : option (list nla_policy))
    (t p : Z) : Prop :=
  exists l, attr_at m lo hi p l /\ nla_type m p = Ok t /\
    forall pol pt, policy = Some pol -> znth pol t = Some pt ->
      satisfies m p (l - NLA_HDRLEN) pt.

Definition table_ok (m : list Z) (lo hi maxtype : Z) (policy : option (list nla_policy))
    (tb : list (option Z)) : Prop :=
  zlen tb = maxtype + 1 /\
  forall t p, znth tb t = Some (Some p) -> entry_ok m lo hi policy t p.

Lemma policy_check_spec m lo hi p l t maxtype policy : bytes m -> 0 <= lo -> hi <= zlen m ->
  attr_at m lo hi p l -> nla_type m p = Ok t -> 0 < t <= maxtype ->
  (forall pol, policy = Some pol -> policy_ok maxtype pol) ->
  exists e, match policy with Some policy => validate_nla m p maxtype policy | None => Ok 0 end = Ok e /\
    is_errno e /\ (0 <= e -> entry_ok m lo hi policy t p).
Proof.
  intros Hm Hlo Hhi Hat Ht Hr Hpol. destruct policy as [pol|].
  2: { exists 0. split; [done|]. split; [by left|]. intros _. by exists l. }
  destruct (Hpol pol eq_refl) as [Hpl Hpo]. destruct (znth_is_Some pol t) as [pt Hpt]; [lia|].
  destruct (validate_nla_spec m lo hi p l t maxtype pol pt) as (e & He & Hee & Hs);
    [done|done|lia|done|done|lia|by apply Hpol|done|].
  exists e. split; [done|]. split; [done|]. intros H0. exists l. split; [done|]. split; [done|].
  intros pol' pt' [= <-] Hpt'. rewrite Hpt in Hpt'. injection Hpt' as <-. by apply Hs.
Qed.

Lemma table_ok_store m lo hi maxtype policy tb t p : table_ok m lo hi maxtype policy tb ->
  0 < t <= maxtype -> entry_ok m lo hi policy t p ->
  exists tb', zupd tb t (Some p) = Some tb' /\ table_ok m lo hi maxtype policy tb'.
Proof.
  intros [Hlen Hst] Ht Hent. rewrite zupd_Some by lia. eexists. split; [done|]. split; [by rewrite zlen_insert|].
  intros t' p'. unfold znth in *. unfold zlen in Hlen.
  destruct (Z.ltb_spec t' 0); [discriminate|]. rewrite list_lookup_insert.
  case_decide as Hd; [|intros Hx; apply Hst; destruct (Z.ltb_spec t' 0); [lia|done]].
  intros [= <-]. assert (t' = t) as -> by lia. done.
Qed.

Lemma table_ok_empty m lo hi maxtype policy : 0 <= maxtype ->
  table_ok m lo hi maxtype policy (replicate (Z.to_nat (maxtype + 1)) None).
Proof.
  intros Hmax. split; [unfold zlen; rewrite length_replicate; lia|].
  intros t p H. assert (Hi := znth_Some _ _ _ H). rewrite znth_lookup in H by lia.
  apply lookup_replicate in H as [? _]. discriminate.
Qed.

(** C29: on any byte stream, however malformed, [nla_parse] terminates, reads
    no byte outside the stream, returns 0, -ERANGE or -EINVAL, and leaves in
    [tb] only pointers to attributes that lie completely inside the stream,
    have the type of their slot and satisfy the policy entry of that type. *)
Theorem nla_parse_safe m maxtype hd n policy :
  bytes m -> 0 <= maxtype -> 0 <= hd -> 0 <= n -> hd + n <= zlen m ->
  (forall pol, policy = Some pol -> policy_ok maxtype pol) ->
  exists err tb, nla_parse m maxtype hd n policy = Ok (err, tb) /\
    is_errno err /\ table_ok m hd (hd + n) maxtype policy tb.
Proof.
  intros Hm Hmax Hhd Hn Hle Hpol. unfold nla_parse.
  destruct (nla_walk_rule
    (table_ok m hd (hd + n) maxtype policy)
    (fun r : Z * list (option Z) => is_errno (fst r) /\ table_ok m hd (hd + n) maxtype policy (snd r))
    m hd (hd + n)
    (fun nla tb =>
        type ← nla_type m nla;
        if (0 <? type) && (type <=? maxtype) then
          err ← match policy with
                | Some policy => validate_nla m nla maxtype policy
                | None => Ok 0
                end;
          if err <? 0 then Ok (Break (err, tb))
          else tb ← of_option OutOfBounds (zupd tb type (Some nla)); Ok (Continue tb)
        else Ok (Continue tb)))
    with (fuel := walk_fuel n) (pos := hd) (rem := n)
         (st := replicate (Z.to_nat (maxtype + 1)) (@None Z)) as (r & Hr & Hres); try done.
  - intros p l st Hat Hst. assert (Hat' := Hat). destruct Hat' as (Hp & Hl & Hl4 & Hlh).
    unfold sizeof_nlattr in Hl4.
    destruct (rd_u16_Ok m (p + 2)) as (w & Hw & _); [done|lia|lia|].
    assert (Ht : nla_type m p = Ok (Z.land w NLA_TYPE_MASK)) by (unfold nla_type; by rewrite Hw).
    rewrite Ht. cbn [mbind res_bind]. set (t := Z.land w NLA_TYPE_MASK) in *.
    destruct (Z.ltb_spec 0 t), (Z.leb_spec t maxtype); cbn [andb]; try (by exists (Continue st)).
    destruct (policy_check_spec m hd (hd + n) p l t maxtype policy) as (e & He & Hee & Hent); [done..|].
    rewrite He. cbn [mbind res_bind].
    destruct (Z.ltb_spec e 0); [by exists (Break (e, st))|].
    edestruct table_ok_store as (tb' & -> & Htb'); [done|done|by apply Hent|].
    by exists (Continue tb').
  - unfold walk_fuel. lia.
  - by apply table_ok_empty.
  - rewrite Hr. cbn [mbind res_bind]. destruct r as [[tb rem]|[e tb]].
    + exists 0, tb. split; [done|]. split; [by left|done].
    + exists e, tb. by split.
Qed.

Lemma nla_parse_safe_witness :
  exists err tb,
    nla_parse [8; 0; 1; 0; 1; 2; 3; 4; 3; 0; 9] 1 0 11 (Some [mk_policy 0 0; mk_policy 3 0])
      = Ok (err, tb) /\ is_errno err.
Proof.
  destruct (nla_parse_safe [8; 0; 1; 0; 1; 2; 3; 4; 3; 0; 9] 1 0 11
    (Some [mk_policy 0 0; mk_policy 3 0])) as (err & tb & H & He & _).
  - unfold bytes. repeat constructor; unfold is_u8; lia.
  - lia.
  - lia.
  - lia.
  - unfold zlen; simpl; lia.
  - intros pol [= <-]. split; [done|].
    repeat constructor; simpl; unfold NLA_TYPE_MAX, is_u16; lia.
  - by exists err, tb.
Defined.

(** ** Encoding *)

Definition le16 (v : Z) : list Z := [u16 v mod 256; u16 v / 256].

(** The wire form of one attribute. *)
Definition nla_encode (a : Z * list Z) : list Z :=
  le16 (NLA_HDRLEN + zlen (snd a)) ++ le16 (fst a) ++ snd a ++
  replicate (Z.to_nat (nla_padlen (zlen (snd a)))) 0.

Definition attr_ok (a : Z * list Z) : Prop :=
  0 <= fst a < 2 ^ 14 /\ bytes (snd a) /\ NLA_HDRLEN + zlen (snd a) < 2 ^ 16.

Lemma nla_padlen_bound n : 0 <= nla_padlen n <= 3.
Proof.
  unfold nla_padlen, nla_total_size. assert (H := NLA_ALIGN_bound (nla_attr_size n)). lia.
Qed.

Lemma nla_encode_len a : zlen (nla_encode a) = nla_total_size (zlen (snd a)).
Proof.
  unfold nla_encode. rewrite !zlen_app, zlen_replicate.
  assert (H := nla_padlen_bound (zlen (snd a))). rewrite Z2Nat.id by lia.
  unfold nla_padlen, nla_attr_size. rewrite NLA_HDRLEN_eq.
  change (zlen (le16 _)) with 2. lia.
Qed.

Lemma le16_bytes v : bytes (le16 v).
Proof. unfold bytes, le16. repeat constructor; ints. Qed.

Lemma nla_encode_bytes a : attr_ok a -> bytes (nla_encode a).
Proof.
  intros (_ & Hb & _). unfold nla_encode. repeat (apply Forall_app; split);
    try apply le16_bytes; try done. apply Forall_replicate. unfold is_u8. lia.
Qed.

Lemma rd_u16_le16 m p v : is_u16 v -> at_mem m p (le16 v) -> rd_u16 m p = Ok v.
Proof.
  intros Hv (Ha & Hb & _). unfold rd_u16. rewrite Ha. simpl. rewrite Hb. simpl.
  f_equal. ints.
Qed.

Lemma stored_trans_disjoint m d l m' p k :
  stored m d l m' -> at_mem m p k ->
  p + zlen k <= d \/ d + zlen l <= p -> at_mem m' p k.
Proof.
  intros [Hl H] Hk Hdis. rewrite at_mem_znth in *. intros i x Hx.
  assert (Hi := lookup_lt_Some _ _ _ Hx). rewrite H. unfold zlen in *.
  destruct (Z.leb_spec d (p + Z.of_nat i)),
    (Z.ltb_spec (p + Z.of_nat i) (d + Z.of_nat (length l))); try lia; simpl; auto.
Qed.

Lemma stored_cons m p b l m' :
  0 <= p < zlen m -> stored (<[Z.to_nat p:=b]> m) (p + 1) l m' -> stored m p (b :: l) m'.
Proof.
  intros Hp [Hl H]. rewrite zlen_insert in Hl. split; [done|]. intros i.
  rewrite H, znth_insert, zlen_cons by lia. assert (Hz := zlen_nonneg l).
  destruct (Z.eqb_spec i p) as [->|].
  - destruct (Z.leb_spec (p + 1) p), (Z.leb_spec p p), (Z.ltb_spec p (p + (1 + zlen l))); try lia.
    simpl. by rewrite Z.sub_diag.
  - destruct (Z.leb_spec (p + 1) i), (Z.leb_spec p i), (Z.ltb_spec i (p + 1 + zlen l)),
      (Z.ltb_spec i (p + (1 + zlen l))); try lia; try done. simpl.
    rewrite !znth_lookup by lia. replace (Z.to_nat (i - p)) with (S (Z.to_nat (i - (p + 1)))) by lia.
    done.
Qed.

Lemma stored_nil m p : stored m p [] m.
Proof.
  split; [done|]. intros i. unfold zlen. simpl.
  destruct (Z.leb_spec p i), (Z.ltb_spec i (p + Z.of_nat 0)); try lia; done.
Qed.

Lemma wr_list_stored m p l :
  0 <= p -> p + zlen l <= zlen m -> exists m', wr_list m p l = Ok m' /\ stored m p l m'.
Proof.
  revert m p. induction l as [|b l IH]; intros m p Hp Hle; simpl.
  - exists m. split; [done|]. apply stored_nil.
  - rewrite zlen_cons in Hle. assert (Hz := zlen_nonneg l). rewrite wr_Ok by lia. simpl.
    destruct (IH (<[Z.to_nat p:=b]> m) (p + 1)) as (m' & Hm & Hst); [lia|rewrite zlen_insert; lia|].
    exists m'. split; [done|]. apply stored_cons; [lia|done].
Qed.

Lemma memset_wr_list n m p c : memset_loop n m p c = wr_list m p (replicate n (u8 c)).
Proof.
  revert m p. induction n as [|n IH]; intros m p; simpl; [done|].
  destruct (wr m p (u8 c)); simpl; [apply IH|done].
Qed.

Lemma wr_u16_wr_list m p v : wr_u16 m p v = wr_list m p (le16 v).
Proof.
  unfold wr_u16, le16. simpl. destruct (wr m p _); simpl; [|done].
  by destruct (wr _ _ _).
Qed.

Lemma stored_unchanged m d l m' i :
  stored m d l m' -> i < d \/ d + zlen l <= i -> znth m' i = znth m i.
Proof.
  intros [_ H] Hi. rewrite H. destruct (Z.leb_spec d i), (Z.ltb_spec i (d + zlen l)); try lia; done.
Qed.

Lemma at_mem_slice_eq m p l : 0 <= p -> at_mem m p l -> slice m p (zlen l) = l.
Proof.
  intros Hp H. apply list_eq. intros i. rewrite at_mem_znth in H.
  destruct (l !! i) as [x|] eqn:E.
  - rewrite <- znth_nat. assert (Hi := lookup_lt_Some _ _ _ E).
    rewrite znth_slice by (unfold zlen; lia). by apply H.
  - apply lookup_ge_None in E. apply lookup_ge_None. unfold slice, zlen.
    rewrite length_take. lia.
Qed.

Lemma slice_ext (m m' : list Z) p n :
  0 <= p -> (forall i, p <= i < p + n -> znth m' i = znth m i) -> zlen m' = zlen m ->
  slice m' p n = slice m p n.
Proof.
  intros Hp H Hl. destruct (Z.leb_spec n 0).
  { unfold slice. by replace (Z.to_nat n) with 0%nat by lia. }
  apply znth_ext. intros i.
  destruct (Z.ltb_spec i 0); [unfold znth; destruct (Z.ltb_spec i 0); [done|lia]|].
  destruct (Z.ltb_spec i n).
  - rewrite !znth_slice by lia. apply H. lia.
  - rewrite !znth_lookup by lia. unfold slice.
    rewrite !lookup_take_ge by lia. done.
Qed.

Lemma bytes_stored m d l m' :
  bytes m -> bytes l -> 0 <= d -> stored m d l m' -> bytes m'.
Proof.
  intros Hm Hl Hd [_ H]. apply Forall_lookup. intros i x Hx. rewrite <- znth_nat, H in Hx.
  destruct ((d <=? Z.of_nat i) && (Z.of_nat i <? d + zlen l)); by eapply bytes_znth in Hx.
Qed.

(** ** Round trip *)

(** A linear buffer under construction, with at least [room] bytes behind
    its tail. *)
Definition building (skb : sk_buff) : Prop :=
  skb_ok skb /\ data_len skb = 0 /\ frags skb = [] /\ frag_list skb = [] /\
  zlen (head skb) < 2 ^ 31.

Lemma building_data skb :
  building skb -> skb_data skb = slice (head skb) (data skb) (len skb).
Proof.
  intros (_ & Hd & Hf & Hl & _). rewrite skb_data_eq, Hd, Hf, Hl. simpl.
  by rewrite !app_nil_r, Z.sub_0_r.
Qed.

(** Storing [l] behind the tail and moving the tail extends the packet by
    [l]. *)
Lemma building_extend skb l m' :
  building skb -> bytes l -> tail skb + zlen l <= skb_end skb ->
  zlen m' = zlen (head skb) -> bytes m' -> at_mem m' (tail skb) l ->
  (forall i, i < tail skb -> znth m' i = znth (head skb) i) ->
  let skb' := set_head (set_tail_len skb (tail skb + zlen l) (u32 (len skb + zlen l))) m' in
  building skb' /\ skb_data skb' = skb_data skb ++ l /\
  data skb' = data skb /\ len skb' = len skb + zlen l /\ skb_end skb' = skb_end skb.
Proof.
  intros Hb Hl Hroom Hlen Hbm Hat Hold skb'. assert (Hd := building_data _ Hb).
  destruct Hb as (Hok & Hdl & Hf & Hfl & Hsz). unfold skb_end in *.
  assert (Ht := ok_tail _ Hok). assert (Hdat := ok_data _ Hok).
  destruct (ok_len _ Hok) as [? ?]. assert (He := ok_end _ Hok).
  assert (Hz := zlen_nonneg l).
  assert (Hlen' : u32 (len skb + zlen l) = len skb + zlen l)
    by (apply u32_small; ints).
  assert (Hb' : building skb').
  { subst skb'. split; [|by repeat split; simpl; rewrite ?Hlen].
    constructor; simpl; rewrite ?Hf, ?Hfl, ?Hlen', ?Hlen; simpl; try done; lia. }
  split; [done|].
  assert (Hlen2 : len skb' = len skb + zlen l) by (subst skb'; simpl; done).
  split; [|subst skb'; simpl; by rewrite Hlen].
  rewrite (building_data skb' Hb'), Hlen2, Hd.
  change (head skb') with m'. change (data skb') with (data skb).
  rewrite slice_split by lia. f_equal.
  - apply slice_ext; [lia| |done]. intros i Hi. apply Hold. lia.
  - replace (data skb + len skb) with (tail skb) by lia.
    apply at_mem_slice_eq; [lia|done].
Qed.

(** The memory [__nla_put] leaves behind: the encoded attribute at the old
    tail, everything before it unchanged. *)
Lemma nla_put_memory m nla ty d :
  bytes m -> attr_ok (ty, d) -> 0 <= nla -> nla + nla_total_size (zlen d) <= zlen m ->
  exists m1 m2 m3 m4,
    wr_u16 m (nla + 2) ty = Ok m1 /\
    wr_u16 m1 nla (nla_attr_size (zlen d)) = Ok m2 /\
    rd_u16 m2 nla = Ok (nla_attr_size (zlen d)) /\
    memset m2 (nla + nla_attr_size (zlen d)) 0 (nla_padlen (zlen d)) = Ok m3 /\
    wr_list m3 (nla_data nla) d = Ok m4 /\
    zlen m4 = zlen m /\ bytes m4 /\ at_mem m4 nla (nla_encode (ty, d)) /\
    (forall i, i < nla -> znth m4 i = znth m i).
Proof.
  intros Hm (Hty & Hd & Hsz) Hn Hle. simpl in Hty, Hd, Hsz.
  assert (Hp := nla_padlen_bound (zlen d)). assert (Hz := zlen_nonneg d).
  assert (Htot : nla_total_size (zlen d) = 4 + zlen d + nla_padlen (zlen d))
    by (unfold nla_padlen, nla_attr_size; rewrite NLA_HDRLEN_eq; lia).
  unfold nla_attr_size, nla_data. rewrite NLA_HDRLEN_eq in *.
  assert (L2 : forall v, zlen (le16 v) = 2) by done.
  destruct (wr_list_stored m (nla + 2) (le16 ty)) as (m1 & E1 & S1); [lia|rewrite L2; lia|].
  destruct (wr_list_stored m1 nla (le16 (4 + zlen d))) as (m2 & E2 & S2);
    [lia|rewrite L2, (proj1 S1); lia|].
  set (pad := replicate (Z.to_nat (nla_padlen (zlen d))) 0).
  assert (Lp : zlen pad = nla_padlen (zlen d)) by (subst pad; rewrite zlen_replicate; lia).
  destruct (wr_list_stored m2 (nla + (4 + zlen d)) pad) as (m3 & E3 & S3);
    [lia|rewrite Lp, (proj1 S2), (proj1 S1); lia|].
  destruct (wr_list_stored m3 (nla + 4) d) as (m4 & E4 & S4);
    [lia|rewrite (proj1 S3), (proj1 S2), (proj1 S1); lia|].
  exists m1, m2, m3, m4. rewrite !wr_u16_wr_list. split; [done|]. split; [done|].
  assert (A2 : at_mem m2 nla (le16 (4 + zlen d))) by (by apply (stored_at_mem m1)).
  split; [apply rd_u16_le16; [unfold is_u16; lia|done]|].
  split; [unfold memset; by rewrite memset_wr_list|]. split; [done|].
  split; [rewrite (proj1 S4), (proj1 S3), (proj1 S2); apply (proj1 S1)|].
  split.
  { eapply bytes_stored, S4; [|done|lia]. eapply bytes_stored, S3; [| |lia].
    - eapply bytes_stored, S2; [|apply le16_bytes|lia].
      eapply bytes_stored, S1; [done|apply le16_bytes|lia].
    - subst pad. apply Forall_replicate. unfold is_u8. lia. }
  split.
  - unfold nla_encode. simpl fst. simpl snd. change NLA_HDRLEN with 4.
    rewrite !at_mem_app, !L2. simpl snd. fold pad.
    replace (nla + 2 + 2) with (nla + 4) by lia.
    assert (A1 : at_mem m1 (nla + 2) (le16 ty)) by (apply (stored_at_mem m); [done|lia]).
    assert (A3 : at_mem m3 (nla + (4 + zlen d)) pad) by (apply (stored_at_mem m2); [done|lia]).
    split; [|split; [|split]].
    + apply (stored_trans_disjoint m3 (nla + 4) d); [done| |rewrite L2; lia].
      apply (stored_trans_disjoint m2 (nla + (4 + zlen d)) pad); [done|done|rewrite L2; lia].
    + apply (stored_trans_disjoint m3 (nla + 4) d); [done| |rewrite L2; lia].
      apply (stored_trans_disjoint m2 (nla + (4 + zlen d)) pad); [done| |rewrite L2; lia].
      eapply stored_trans_disjoint; [done|done|rewrite !L2; lia].
    + apply (stored_at_mem m3); [done|lia].
    + replace (nla + 4 + zlen d) with (nla + (4 + zlen d)) by lia.
      apply (stored_trans_disjoint m3 (nla + 4) d); [done|done|lia].
  - intros i Hi. rewrite (stored_unchanged _ _ _ _ i S4), (stored_unchanged _ _ _ _ i S3),
      (stored_unchanged _ _ _ _ i S2), (stored_unchanged _ _ _ _ i S1) by lia. done.
Qed.

Lemma nla_put_spec skb ty d :
  building skb -> attr_ok (ty, d) ->
  tail skb + nla_total_size (zlen d) <= skb_end skb ->
  exists skb', nla_put skb ty d = Ok (0, skb') /\ building skb' /\
    skb_data skb' = skb_data skb ++ nla_encode (ty, d) /\
    data skb' = data skb /\ len skb' = len skb + nla_total_size (zlen d) /\
    tail skb' = tail skb + nla_total_size (zlen d) /\ skb_end skb' = skb_end skb.
Proof.
  intros Hb Ha Hroom. assert (Hb' := Hb). destruct Hb' as (Hok & Hdl & _ & _ & Hsz).
  assert (Ht := ok_tail _ Hok). assert (Hd := ok_data _ Hok). destruct (ok_len _ Hok) as [? ?].
  assert (Hlen := nla_encode_len (ty, d)). simpl in Hlen.
  destruct (nla_put_memory (head skb) (tail skb) ty d) as (m1 & m2 & m3 & m4 & E1 & E2 & E3 & E4 & E5
    & Hl4 & Hb4 & Hat & Hold); [apply (ok_bytes _ Hok)|done|lia|done|].
  destruct (building_extend skb (nla_encode (ty, d)) m4) as (Hb2 & Hdata & Hd2 & Hl2 & He2);
    [done|by apply nla_encode_bytes|by rewrite Hlen|done|done|done|done|].
  rewrite Hlen in *.
  unfold nla_put, skb_tailroom, skb_is_nonlinear, nonzero. rewrite Hdl. cbn [Z.eqb negb].
  destruct (Z.ltb_spec (skb_end skb - tail skb) (nla_total_size (zlen d))); [lia|].
  unfold __nla_put, __nla_reserve, skb_put, skb_is_nonlinear, nonzero. rewrite Hdl. cbn [Z.eqb negb].
  change (skb_end (set_tail_len skb _ _)) with (skb_end skb). cbn [tail set_tail_len].
  destruct (Z.ltb_spec (skb_end skb) (tail skb + nla_total_size (zlen d))); [lia|].
  cbn [mbind res_bind head set_tail_len]. rewrite E1. cbn [mbind res_bind]. rewrite E2.
  cbn [mbind res_bind]. rewrite E3. cbn [mbind res_bind]. rewrite E4.
  cbn [mbind res_bind head set_head]. rewrite E5. cbn [mbind res_bind].
  eexists. split; [done|].
  change (set_head (set_head ?s m3) m4) with (set_head s m4).
  split; [exact Hb2|]. split; [exact Hdata|]. split; [exact Hd2|]. split; [exact Hl2|].
  split; [done|exact He2].
Qed.

(** What a message-building function does: one [nla_put] after the other,
    stopping at the first failure. *)
Fixpoint nla_put_all (skb : sk_buff) (attrs : list (Z * list Z)) : res (Z * sk_buff) :=
  match attrs with
  | [] => Ok (0, skb)
  | (ty, d) :: attrs =>
      '(err, skb) ← nla_put skb ty d;
      if nonzero err then Ok (err, skb) else nla_put_all skb attrs
  end.

Definition nla_stream (attrs : list (Z * list Z)) : list Z := concat (map nla_encode attrs).

Lemma nla_put_all_spec attrs :
  Forall attr_ok attrs -> forall skb, building skb ->
  tail skb + zlen (nla_stream attrs) <= skb_end skb ->
  exists skb', nla_put_all skb attrs = Ok (0, skb') /\ building skb' /\
    skb_data skb' = skb_data skb ++ nla_stream attrs /\
    data skb' = data skb /\ len skb' = len skb + zlen (nla_stream attrs).
Proof.
  unfold nla_stream.
  induction 1 as [|[ty d] attrs Ha _ IH]; intros skb Hb Hroom; cbn [map concat nla_put_all] in *.
  - exists skb. split; [done|]. split; [done|]. split; [by rewrite app_nil_r|].
    split; [done|]. unfold zlen. simpl. lia.
  - rewrite zlen_app, nla_encode_len in Hroom |- *. cbn [snd] in *.
    assert (Hz := zlen_nonneg (concat (map nla_encode attrs))).
    destruct (nla_put_spec skb ty d) as (skb1 & E & Hb1 & Hd1 & Hdt1 & Hl1 & Ht1 & He1);
      [done|done|lia|].
    rewrite E. cbn [mbind res_bind]. cbn [nonzero Z.eqb negb].
    destruct (IH skb1) as (skb2 & E2 & Hb2 & Hd2 & Hdt2 & Hl2); [done|lia|].
    exists skb2. split; [done|]. split; [done|]. split; [by rewrite Hd2, Hd1, app_assoc|].
    split; [congruence|]. simpl. lia.
Qed.

(** Association-list lookup of the first attribute of a type. *)
Fixpoint first_attr (attrs : list (Z * list Z)) (t : Z) : option (list Z) :=
  match attrs with
  | [] => None
  | (ty, d) :: attrs => if ty =? t then Some d else first_attr attrs t
  end.

Lemma nla_find_stream attrs m t :
  Forall attr_ok attrs -> forall fuel p,
  at_mem m p (nla_stream attrs) -> (length attrs < fuel)%nat ->
  let r := nla_for_each_attr fuel m p (zlen (nla_stream attrs)) tt (fun nla _ =>
        type ← nla_type m nla;
        Ok (if type =? t then Break nla else Continue tt)) in
  match first_attr attrs t with
  | Some d => exists q, r = Ok (inr q) /\ p <= q /\ nla_len m q = Ok (zlen d) /\
                at_mem m (nla_data q) d
  | None => r = Ok (inl (tt, 0))
  end.
Proof.
  unfold nla_stream. induction 1 as [|[ty d] attrs Ha _ IH]; intros fuel p Hat Hf.
  - destruct fuel as [|fuel]; [simpl in Hf; lia|]. done.
  - destruct fuel as [|fuel]; [simpl in Hf; lia|].
    cbn [map concat first_attr] in *. apply at_mem_app in Hat as [Hat Hrest].
    rewrite zlen_app, nla_encode_len in *. simpl snd in *.
    assert (Hz := zlen_nonneg (concat (map nla_encode attrs))).
    assert (Hzd := zlen_nonneg d). assert (Hp := nla_padlen_bound (zlen d)).
    assert (Htot : nla_total_size (zlen d) = 4 + zlen d + nla_padlen (zlen d))
      by (unfold nla_padlen, nla_attr_size; rewrite NLA_HDRLEN_eq; lia).
    destruct Ha as (Hty & Hd & Hsz). simpl in Hty, Hd, Hsz. rewrite NLA_HDRLEN_eq in Hsz.
    unfold nla_encode in Hat. simpl fst in Hat. simpl snd in Hat.
    rewrite !at_mem_app, NLA_HDRLEN_eq in Hat. destruct Hat as (A1 & A2 & A3 & _).
    change (zlen (le16 _)) with 2 in *.
    apply rd_u16_le16 in A1, A2; [|unfold is_u16; lia..].
    assert (Ht : nla_type m p = Ok ty).
    { unfold nla_type. rewrite A2. cbn [mbind res_bind].
      rewrite nla_type_mask by (unfold is_u16; lia). by rewrite Z.mod_small. }
    cbn [nla_for_each_attr]. unfold nla_ok, sizeof_nlattr.
    destruct (Z.leb_spec 4 (nla_total_size (zlen d) + zlen (concat (map nla_encode attrs)))); [|lia].
    rewrite A1. cbn [mbind res_bind].
    destruct (Z.leb_spec 4 (4 + zlen d)), (Z.leb_spec (4 + zlen d)
      (nla_total_size (zlen d) + zlen (concat (map nla_encode attrs)))); try lia. cbn [andb].
    rewrite Ht. cbn [mbind res_bind].
    destruct (Z.eqb_spec ty t) as [->|].
    + exists p. split; [done|]. split; [lia|]. split.
      * unfold nla_len. rewrite A1. cbn [mbind res_bind]. rewrite NLA_HDRLEN_eq. f_equal. lia.
      * unfold nla_data. rewrite NLA_HDRLEN_eq. by replace (p + 4) with (p + 2 + 2) by lia.
    + unfold nla_next. rewrite A1. cbn [mbind res_bind].
      change (NLA_ALIGN (4 + zlen d)) with (nla_total_size (zlen d)).
      replace (nla_total_size (zlen d) + zlen (concat (map nla_encode attrs))
        - nla_total_size (zlen d)) with (zlen (concat (map nla_encode attrs))) by lia.
      specialize (IH fuel (p + nla_total_size (zlen d)) Hrest). simpl in Hf.
      specialize (IH ltac:(lia)). cbv zeta in IH.
      destruct (first_attr attrs t) as [d'|]; [|done].
      destruct IH as (q & Hq & Hle & Hl & Ha). exists q. split; [done|]. split; [lia|done].
Qed.

Lemma nla_stream_len attrs : Z.of_nat (length attrs) <= zlen (nla_stream attrs).
Proof.
  unfold nla_stream. induction attrs as [|a attrs IH]; cbn [map concat length]; [done|].
  rewrite zlen_app, nla_encode_len. assert (H := nla_padlen_bound (zlen (snd a))).
  unfold nla_padlen, nla_attr_size in H. rewrite NLA_HDRLEN_eq in H.
  assert (Hz := zlen_nonneg (snd a)). lia.
Qed.

(** C33: round trip of attribute messages.  Putting a list of attributes into
    an empty linear buffer with enough room with [nla_put] succeeds, and
    [nla_find] on the resulting message returns, for every type, the first
    attribute of that type with its length and payload bytes, and NULL for a
    type that was not put. *)
Theorem nla_put_find_roundtrip attrs skb t :
  Forall attr_ok attrs -> building skb -> len skb = 0 ->
  tail skb + zlen (nla_stream attrs) <= skb_end skb ->
  exists skb', nla_put_all skb attrs = Ok (0, skb') /\
    let r := nla_find (head skb') (data skb') (len skb') t in
    match first_attr attrs t with
    | Some d => exists q, r = Ok (Some q) /\ nla_len (head skb') q = Ok (zlen d) /\
                  at_mem (head skb') (nla_data q) d
    | None => r = Ok None
    end.
Proof.
  intros Ha Hb Hl Hroom.
  destruct (nla_put_all_spec attrs Ha skb Hb Hroom) as (skb' & E & Hb' & Hdata & Hd & Hlen).
  exists skb'. split; [done|]. cbv zeta.
  assert (Hemp : skb_data skb = []) by (rewrite (building_data _ Hb), Hl; done).
  rewrite Hemp in Hdata. simpl in Hdata. rewrite Hl, Z.add_0_l in Hlen.
  destruct Hb' as (Hok & Hdl & Hf & Hfl & Hsz).
  assert (Hsl := building_data skb' ltac:(done)). rewrite Hdata in Hsl.
  assert (Hat : at_mem (head skb') (data skb') (nla_stream attrs)).
  { rewrite Hsl. assert (Ht := ok_tail _ Hok). assert (He := ok_end _ Hok).
    assert (H0 := ok_data _ Hok). destruct (ok_len _ Hok) as [? ?].
    apply at_mem_slice; lia. }
  assert (Hn := nla_stream_len attrs).
  assert (S := nla_find_stream attrs (head skb') t Ha (walk_fuel (len skb')) (data skb') Hat).
  unfold walk_fuel in *. rewrite Hlen in *. specialize (S ltac:(lia)). cbv zeta in S.
  unfold nla_find, walk_fuel. destruct (first_attr attrs t) as [d|].
  - destruct S as (q & Hq & _ & Hql & Hqd). rewrite Hq. cbn [mbind res_bind]. by exists q.
  - rewrite S. done.
Qed.

Definition empty_skb (n : nat) : sk_buff :=
  mk_skb (replicate n 0) 0 0 0 0 0 0 0 0 0 0 0 None [] [].

Lemma empty_skb_building n : Z.of_nat n < 2 ^ 31 -> building (empty_skb n).
Proof.
  intros Hn. split; [|by repeat split; unfold empty_skb; simpl; rewrite ?zlen_replicate].
  constructor; simpl; rewrite ?zlen_replicate; try done; try lia.
  apply Forall_replicate. unfold is_u8. lia.
Qed.

Lemma nla_put_find_roundtrip_witness :
  exists skb', nla_put_all (empty_skb 64) [(1, [10; 11; 12]); (2, []); (1, [9])] = Ok (0, skb') /\
    exists q, nla_find (head skb') (data skb') (len skb') 1 = Ok (Some q) /\
      nla_len (head skb') q = Ok 3 /\ at_mem (head skb') (nla_data q) [10; 11; 12].
Proof.
  apply (nla_put_find_roundtrip [(1, [10; 11; 12]); (2, []); (1, [9])] (empty_skb 64) 1).
  - repeat constructor; simpl; rewrite ?NLA_HDRLEN_eq; unfold is_u8, zlen; simpl; lia.
  - apply empty_skb_building. lia.
  - reflexivity.
  - vm_compute. discriminate.
Defined.
