(* ===== verification/Filter.v ===== *)
(** The socket filter: net/core/filter.c and include/linux/filter.h.

    A filter is an array of [struct sock_filter] instructions that user space
    attaches to a socket.  [sk_chk_filter] verifies it once and rewrites it to
    an internal instruction set ([BPF_S_*]); [sk_run_filter] then interprets it
    on every packet without any further check.  The interpreter of this file
    makes the unchecked accesses visible: an instruction fetch outside the
    array, an access outside [mem], the use of a [mem] cell that was never
    written and a read outside the packet are faults. *)

From stdpp Require Import relations.
From S2P Require Import Prelude LibMath Skb Str Nlattr.

(** ** Instructions *)

Record sock_filter : Type := mk_insn {
  code : Z;
  jt : Z;
  jf : Z;
  k : Z
}.

Definition BPF_LD : Z := 0x00.
Definition BPF_LDX : Z := 0x01.
Definition BPF_ST : Z := 0x02.
Definition BPF_STX : Z := 0x03.
Definition BPF_ALU : Z := 0x04.
Definition BPF_JMP : Z := 0x05.
Definition BPF_RET : Z := 0x06.
Definition BPF_MISC : Z := 0x07.
Definition BPF_W : Z := 0x00.
Definition BPF_H : Z := 0x08.
Definition BPF_B : Z := 0x10.
Definition BPF_IMM : Z := 0x00.
Definition BPF_ABS : Z := 0x20.
Definition BPF_IND : Z := 0x40.
Definition BPF_MEM : Z := 0x60.
Definition BPF_LEN : Z := 0x80.
Definition BPF_MSH : Z := 0xa0.
Definition BPF_ADD : Z := 0x00.
Definition BPF_SUB : Z := 0x10.
Definition BPF_MUL : Z := 0x20.
Definition BPF_DIV : Z := 0x30.
Definition BPF_OR : Z := 0x40.
Definition BPF_AND : Z := 0x50.
Definition BPF_LSH : Z := 0x60.
Definition BPF_RSH : Z := 0x70.
Definition BPF_NEG : Z := 0x80.
Definition BPF_JA : Z := 0x00.
Definition BPF_JEQ : Z := 0x10.
Definition BPF_JGT : Z := 0x20.
Definition BPF_JGE : Z := 0x30.
Definition BPF_JSET : Z := 0x40.
Definition BPF_K : Z := 0x00.
Definition BPF_X : Z := 0x08.
Definition BPF_A : Z := 0x10.
Definition BPF_TAX : Z := 0x00.
Definition BPF_TXA : Z := 0x80.

Definition BPF_MAXINSNS : Z := 4096.
Definition BPF_MEMWORDS : Z := 16.

Definition SKF_AD_OFF : Z := -0x1000.
Definition SKF_AD_PROTOCOL : Z := 0.
Definition SKF_AD_PKTTYPE : Z := 4.
Definition SKF_AD_IFINDEX : Z := 8.
Definition SKF_AD_NLATTR : Z := 12.
Definition SKF_AD_NLATTR_NEST : Z := 16.
Definition SKF_AD_MARK : Z := 20.
Definition SKF_AD_QUEUE : Z := 24.
Definition SKF_AD_HATYPE : Z := 28.
Definition SKF_AD_RXHASH : Z := 32.
Definition SKF_AD_CPU : Z := 36.
Definition SKF_NET_OFF : Z := -0x100000.
Definition SKF_LL_OFF : Z := -0x200000.

(** The internal instruction set, in the order of the [enum]. *)
Inductive bpf_s : Type :=
  | BPF_S_RET_K
  | BPF_S_RET_A
  | BPF_S_ALU_ADD_K
  | BPF_S_ALU_ADD_X
  | BPF_S_ALU_SUB_K
  | BPF_S_ALU_SUB_X
  | BPF_S_ALU_MUL_K
  | BPF_S_ALU_MUL_X
  | BPF_S_ALU_DIV_X
  | BPF_S_ALU_AND_K
  | BPF_S_ALU_AND_X
  | BPF_S_ALU_OR_K
  | BPF_S_ALU_OR_X
  | BPF_S_ALU_LSH_K
  | BPF_S_ALU_LSH_X
  | BPF_S_ALU_RSH_K
  | BPF_S_ALU_RSH_X
  | BPF_S_ALU_NEG
  | BPF_S_LD_W_ABS
  | BPF_S_LD_H_ABS
  | BPF_S_LD_B_ABS
  | BPF_S_LD_W_LEN
  | BPF_S_LD_W_IND
  | BPF_S_LD_H_IND
  | BPF_S_LD_B_IND
  | BPF_S_LD_IMM
  | BPF_S_LDX_W_LEN
  | BPF_S_LDX_B_MSH
  | BPF_S_LDX_IMM
  | BPF_S_MISC_TAX
  | BPF_S_MISC_TXA
  | BPF_S_ALU_DIV_K
  | BPF_S_LD_MEM
  | BPF_S_LDX_MEM
  | BPF_S_ST
  | BPF_S_STX
  | BPF_S_JMP_JA
  | BPF_S_JMP_JEQ_K
  | BPF_S_JMP_JEQ_X
  | BPF_S_JMP_JGE_K
  | BPF_S_JMP_JGE_X
  | BPF_S_JMP_JGT_K
  | BPF_S_JMP_JGT_X
  | BPF_S_JMP_JSET_K
  | BPF_S_JMP_JSET_X
  | BPF_S_ANC_PROTOCOL
  | BPF_S_ANC_PKTTYPE
  | BPF_S_ANC_IFINDEX
  | BPF_S_ANC_NLATTR
  | BPF_S_ANC_NLATTR_NEST
  | BPF_S_ANC_MARK
  | BPF_S_ANC_QUEUE
  | BPF_S_ANC_HATYPE
  | BPF_S_ANC_RXHASH
  | BPF_S_ANC_CPU.

Definition bpf_s_enum : list bpf_s :=
  [BPF_S_RET_K; BPF_S_RET_A; BPF_S_ALU_ADD_K; BPF_S_ALU_ADD_X; BPF_S_ALU_SUB_K;
   BPF_S_ALU_SUB_X; BPF_S_ALU_MUL_K; BPF_S_ALU_MUL_X; BPF_S_ALU_DIV_X; BPF_S_ALU_AND_K;
   BPF_S_ALU_AND_X; BPF_S_ALU_OR_K; BPF_S_ALU_OR_X; BPF_S_ALU_LSH_K; BPF_S_ALU_LSH_X;
   BPF_S_ALU_RSH_K; BPF_S_ALU_RSH_X; BPF_S_ALU_NEG; BPF_S_LD_W_ABS; BPF_S_LD_H_ABS;
   BPF_S_LD_B_ABS; BPF_S_LD_W_LEN; BPF_S_LD_W_IND; BPF_S_LD_H_IND; BPF_S_LD_B_IND;
   BPF_S_LD_IMM; BPF_S_LDX_W_LEN; BPF_S_LDX_B_MSH; BPF_S_LDX_IMM; BPF_S_MISC_TAX;
   BPF_S_MISC_TXA; BPF_S_ALU_DIV_K; BPF_S_LD_MEM; BPF_S_LDX_MEM; BPF_S_ST; BPF_S_STX;
   BPF_S_JMP_JA; BPF_S_JMP_JEQ_K; BPF_S_JMP_JEQ_X; BPF_S_JMP_JGE_K; BPF_S_JMP_JGE_X;
   BPF_S_JMP_JGT_K; BPF_S_JMP_JGT_X; BPF_S_JMP_JSET_K; BPF_S_JMP_JSET_X;
   BPF_S_ANC_PROTOCOL; BPF_S_ANC_PKTTYPE; BPF_S_ANC_IFINDEX; BPF_S_ANC_NLATTR;
   BPF_S_ANC_NLATTR_NEST; BPF_S_ANC_MARK; BPF_S_ANC_QUEUE; BPF_S_ANC_HATYPE;
   BPF_S_ANC_RXHASH; BPF_S_ANC_CPU].

(** The value of an enumerator: the enumeration starts at 1. *)
Definition bpf_s_code (c : bpf_s) : Z :=
  match c with
  | BPF_S_RET_K => 1
  | BPF_S_RET_A => 2
  | BPF_S_ALU_ADD_K => 3
  | BPF_S_ALU_ADD_X => 4
  | BPF_S_ALU_SUB_K => 5
  | BPF_S_ALU_SUB_X => 6
  | BPF_S_ALU_MUL_K => 7
  | BPF_S_ALU_MUL_X => 8
  | BPF_S_ALU_DIV_X => 9
  | BPF_S_ALU_AND_K => 10
  | BPF_S_ALU_AND_X => 11
  | BPF_S_ALU_OR_K => 12
  | BPF_S_ALU_OR_X => 13
  | BPF_S_ALU_LSH_K => 14
  | BPF_S_ALU_LSH_X => 15
  | BPF_S_ALU_RSH_K => 16
  | BPF_S_ALU_RSH_X => 17
  | BPF_S_ALU_NEG => 18
  | BPF_S_LD_W_ABS => 19
  | BPF_S_LD_H_ABS => 20
  | BPF_S_LD_B_ABS => 21
  | BPF_S_LD_W_LEN => 22
  | BPF_S_LD_W_IND => 23
  | BPF_S_LD_H_IND => 24
  | BPF_S_LD_B_IND => 25
  | BPF_S_LD_IMM => 26
  | BPF_S_LDX_W_LEN => 27
  | BPF_S_LDX_B_MSH => 28
  | BPF_S_LDX_IMM => 29
  | BPF_S_MISC_TAX => 30
  | BPF_S_MISC_TXA => 31
  | BPF_S_ALU_DIV_K => 32
  | BPF_S_LD_MEM => 33
  | BPF_S_LDX_MEM => 34
  | BPF_S_ST => 35
  | BPF_S_STX => 36
  | BPF_S_JMP_JA => 37
  | BPF_S_JMP_JEQ_K => 38
  | BPF_S_JMP_JEQ_X => 39
  | BPF_S_JMP_JGE_K => 40
  | BPF_S_JMP_JGE_X => 41
  | BPF_S_JMP_JGT_K => 42
  | BPF_S_JMP_JGT_X => 43
  | BPF_S_JMP_JSET_K => 44
  | BPF_S_JMP_JSET_X => 45
  | BPF_S_ANC_PROTOCOL => 46
  | BPF_S_ANC_PKTTYPE => 47
  | BPF_S_ANC_IFINDEX => 48
  | BPF_S_ANC_NLATTR => 49
  | BPF_S_ANC_NLATTR_NEST => 50
  | BPF_S_ANC_MARK => 51
  | BPF_S_ANC_QUEUE => 52
  | BPF_S_ANC_HATYPE => 53
  | BPF_S_ANC_RXHASH => 54
  | BPF_S_ANC_CPU => 55
  end.

Definition bpf_s_of_code (z : Z) : option bpf_s := znth bpf_s_enum (z - 1).

Definition op (f : sock_filter) : option bpf_s := bpf_s_of_code (code f).

(** The table of [sk_chk_filter]: valid user-visible opcodes and the internal
    instruction each stands for. *)
Definition codes_init : list (Z * bpf_s) :=
  [(Z.lor (Z.lor BPF_ALU BPF_ADD) BPF_K, BPF_S_ALU_ADD_K);
   (Z.lor (Z.lor BPF_ALU BPF_ADD) BPF_X, BPF_S_ALU_ADD_X);
   (Z.lor (Z.lor BPF_ALU BPF_SUB) BPF_K, BPF_S_ALU_SUB_K);
   (Z.lor (Z.lor BPF_ALU BPF_SUB) BPF_X, BPF_S_ALU_SUB_X);
   (Z.lor (Z.lor BPF_ALU BPF_MUL) BPF_K, BPF_S_ALU_MUL_K);
   (Z.lor (Z.lor BPF_ALU BPF_MUL) BPF_X, BPF_S_ALU_MUL_X);
   (Z.lor (Z.lor BPF_ALU BPF_DIV) BPF_X, BPF_S_ALU_DIV_X);
   (Z.lor (Z.lor BPF_ALU BPF_AND) BPF_K, BPF_S_ALU_AND_K);
   (Z.lor (Z.lor BPF_ALU BPF_AND) BPF_X, BPF_S_ALU_AND_X);
   (Z.lor (Z.lor BPF_ALU BPF_OR) BPF_K, BPF_S_ALU_OR_K);
   (Z.lor (Z.lor BPF_ALU BPF_OR) BPF_X, BPF_S_ALU_OR_X);
   (Z.lor (Z.lor BPF_ALU BPF_LSH) BPF_K, BPF_S_ALU_LSH_K);
   (Z.lor (Z.lor BPF_ALU BPF_LSH) BPF_X, BPF_S_ALU_LSH_X);
   (Z.lor (Z.lor BPF_ALU BPF_RSH) BPF_K, BPF_S_ALU_RSH_K);
   (Z.lor (Z.lor BPF_ALU BPF_RSH) BPF_X, BPF_S_ALU_RSH_X);
   (Z.lor BPF_ALU BPF_NEG, BPF_S_ALU_NEG);
   (Z.lor (Z.lor BPF_LD BPF_W) BPF_ABS, BPF_S_LD_W_ABS);
   (Z.lor (Z.lor BPF_LD BPF_H) BPF_ABS, BPF_S_LD_H_ABS);
   (Z.lor (Z.lor BPF_LD BPF_B) BPF_ABS, BPF_S_LD_B_ABS);
   (Z.lor (Z.lor BPF_LD BPF_W) BPF_LEN, BPF_S_LD_W_LEN);
   (Z.lor (Z.lor BPF_LD BPF_W) BPF_IND, BPF_S_LD_W_IND);
   (Z.lor (Z.lor BPF_LD BPF_H) BPF_IND, BPF_S_LD_H_IND);
   (Z.lor (Z.lor BPF_LD BPF_B) BPF_IND, BPF_S_LD_B_IND);
   (Z.lor BPF_LD BPF_IMM, BPF_S_LD_IMM);
   (Z.lor (Z.lor BPF_LDX BPF_W) BPF_LEN, BPF_S_LDX_W_LEN);
   (Z.lor (Z.lor BPF_LDX BPF_B) BPF_MSH, BPF_S_LDX_B_MSH);
   (Z.lor BPF_LDX BPF_IMM, BPF_S_LDX_IMM);
   (Z.lor BPF_MISC BPF_TAX, BPF_S_MISC_TAX);
   (Z.lor BPF_MISC BPF_TXA, BPF_S_MISC_TXA);
   (Z.lor BPF_RET BPF_K, BPF_S_RET_K);
   (Z.lor BPF_RET BPF_A, BPF_S_RET_A);
   (Z.lor (Z.lor BPF_ALU BPF_DIV) BPF_K, BPF_S_ALU_DIV_K);
   (Z.lor BPF_LD BPF_MEM, BPF_S_LD_MEM);
   (Z.lor BPF_LDX BPF_MEM, BPF_S_LDX_MEM);
   (BPF_ST, BPF_S_ST);
   (BPF_STX, BPF_S_STX);
   (Z.lor BPF_JMP BPF_JA, BPF_S_JMP_JA);
   (Z.lor (Z.lor BPF_JMP BPF_JEQ) BPF_K, BPF_S_JMP_JEQ_K);
   (Z.lor (Z.lor BPF_JMP BPF_JEQ) BPF_X, BPF_S_JMP_JEQ_X);
   (Z.lor (Z.lor BPF_JMP BPF_JGE) BPF_K, BPF_S_JMP_JGE_K);
   (Z.lor (Z.lor BPF_JMP BPF_JGE) BPF_X, BPF_S_JMP_JGE_X);
   (Z.lor (Z.lor BPF_JMP BPF_JGT) BPF_K, BPF_S_JMP_JGT_K);
   (Z.lor (Z.lor BPF_JMP BPF_JGT) BPF_X, BPF_S_JMP_JGT_X);
   (Z.lor (Z.lor BPF_JMP BPF_JSET) BPF_K, BPF_S_JMP_JSET_K);
   (Z.lor (Z.lor BPF_JMP BPF_JSET) BPF_X, BPF_S_JMP_JSET_X)].

Definition codes_size : Z := 1 + foldr Z.max 0 (map fst codes_init).

Definition codes (i : Z) : option bpf_s :=
  snd <$> List.find (fun e => fst e =? i) codes_init.

(** ** Verification: [sk_chk_filter] *)

Definition is_cond_jump (c : bpf_s) : bool :=
  match c with
  | BPF_S_JMP_JEQ_K | BPF_S_JMP_JEQ_X | BPF_S_JMP_JGE_K | BPF_S_JMP_JGE_X
  | BPF_S_JMP_JGT_K | BPF_S_JMP_JGT_X | BPF_S_JMP_JSET_X | BPF_S_JMP_JSET_K => true
  | _ => false
  end.

(** The [switch (ftest->k)] on ancillary offsets: the labels are negative
    [int]s, compared with the [u32] field. *)
Definition ancillary (c : bpf_s) (K : Z) : bpf_s :=
  let ad off := K =? u32 (SKF_AD_OFF + off) in
  if ad SKF_AD_PROTOCOL then BPF_S_ANC_PROTOCOL
  else if ad SKF_AD_PKTTYPE then BPF_S_ANC_PKTTYPE
  else if ad SKF_AD_IFINDEX then BPF_S_ANC_IFINDEX
  else if ad SKF_AD_NLATTR then BPF_S_ANC_NLATTR
  else if ad SKF_AD_NLATTR_NEST then BPF_S_ANC_NLATTR_NEST
  else if ad SKF_AD_MARK then BPF_S_ANC_MARK
  else if ad SKF_AD_QUEUE then BPF_S_ANC_QUEUE
  else if ad SKF_AD_HATYPE then BPF_S_ANC_HATYPE
  else if ad SKF_AD_RXHASH then BPF_S_ANC_RXHASH
  else if ad SKF_AD_CPU then BPF_S_ANC_CPU
  else c.

(** The body of the checking loop: the rewritten instruction, or [None] for
    [return -EINVAL]. *)
Definition chk_insn (flen pc : Z) (ftest : sock_filter) : option sock_filter :=
  if codes_size <=? code ftest then None
  else
    match codes (code ftest) with
    | None => None
    | Some c =>
        let out c K := Some (mk_insn (bpf_s_code c) (jt ftest) (jf ftest) K) in
        match c with
        | BPF_S_ALU_DIV_K =>
            if k ftest =? 0 then None else out c (reciprocal_value (k ftest))
        | BPF_S_LD_MEM | BPF_S_LDX_MEM | BPF_S_ST | BPF_S_STX =>
            if BPF_MEMWORDS <=? k ftest then None else out c (k ftest)
        | BPF_S_JMP_JA =>
            if u32 (flen - pc - 1) <=? k ftest then None else out c (k ftest)
        | BPF_S_JMP_JEQ_K | BPF_S_JMP_JEQ_X | BPF_S_JMP_JGE_K | BPF_S_JMP_JGE_X
        | BPF_S_JMP_JGT_K | BPF_S_JMP_JGT_X | BPF_S_JMP_JSET_X | BPF_S_JMP_JSET_K =>
            if (flen <=? u32 (pc + jt ftest + 1)) || (flen <=? u32 (pc + jf ftest + 1))
            then None else out c (k ftest)
        | BPF_S_LD_W_ABS | BPF_S_LD_H_ABS | BPF_S_LD_B_ABS =>
            out (ancillary c (k ftest)) (k ftest)
        | _ => out c (k ftest)
        end
    end.

(** The checking loop over the instructions from [pc] on: whether all pass,
    and the instructions as it leaves them. *)
Fixpoint chk_loop (flen pc : Z) (filter : list sock_filter) : bool * list sock_filter :=
  match filter with
  | [] => (true, [])
  | ftest :: rest =>
      match chk_insn flen pc ftest with
      | None => (false, ftest :: rest)
      | Some f => let '(ok, rest) := chk_loop flen (pc + 1) rest in (ok, f :: rest)
      end
  end.

(** [masks[i] &= memvalid]. *)
Definition and_mask (masks : list Z) (i memvalid : Z) : res (list Z) :=
  m ← of_option OutOfBounds (znth masks i);
  of_option OutOfBounds (zupd masks i (Z.land m memvalid)).

(** The loop of [check_load_and_stores]; [1 << k] is an [int] shift. *)
Fixpoint cls_loop (filter : list sock_filter) (pc : Z) (masks : list Z) (memvalid : Z)
    : res Z :=
  match filter with
  | [] => Ok 0
  | f :: rest =>
      m ← of_option OutOfBounds (znth masks pc);
      let memvalid := Z.land memvalid m in
      match op f with
      | Some (BPF_S_ST | BPF_S_STX) =>
          cls_loop rest (pc + 1) masks (u16 (Z.lor memvalid (Z.shiftl 1 (k f))))
      | Some (BPF_S_LD_MEM | BPF_S_LDX_MEM) =>
          if Z.land memvalid (Z.shiftl 1 (k f)) =? 0 then Ok (- EINVAL)
          else cls_loop rest (pc + 1) masks memvalid
      | Some BPF_S_JMP_JA =>
          masks ← and_mask masks (pc + 1 + k f) memvalid;
          cls_loop rest (pc + 1) masks (u16 (Z.lnot 0))
      | Some (BPF_S_JMP_JEQ_K | BPF_S_JMP_JEQ_X | BPF_S_JMP_JGE_K | BPF_S_JMP_JGE_X
      | BPF_S_JMP_JGT_K | BPF_S_JMP_JGT_X | BPF_S_JMP_JSET_X | BPF_S_JMP_JSET_K) =>
          masks ← and_mask masks (pc + 1 + jt f) memvalid;
          masks ← and_mask masks (pc + 1 + jf f) memvalid;
          cls_loop rest (pc + 1) masks (u16 (Z.lnot 0))
      | _ => cls_loop rest (pc + 1) masks memvalid
      end
  end.

(** [alloc] tells whether [kmalloc] of the mask array succeeds. *)
Definition check_load_and_stores (alloc : bool) (filter : list sock_filter) : res Z :=
  if negb alloc then Ok (- ENOMEM)
  else cls_loop filter 0 (replicate (length filter) 0xffff) 0.

(** [sk_chk_filter]: the return value and the filter as it leaves it. *)
Definition sk_chk_filter (alloc : bool) (filter : list sock_filter)
    : res (Z * list sock_filter) :=
  let flen := zlen filter in
  if (flen =? 0) || (BPF_MAXINSNS <? flen) then Ok (- EINVAL, filter)
  else
    let '(ok, filter) := chk_loop flen 0 filter in
    if negb ok then Ok (- EINVAL, filter)
    else
      last ← of_option OutOfBounds (znth filter (flen - 1));
      match op last with
      | Some (BPF_S_RET_K | BPF_S_RET_A) =>
          ret ← check_load_and_stores alloc filter; Ok (ret, filter)
      | _ => Ok (- EINVAL, filter)
      end.

(** ** Execution: [sk_run_filter] *)

(** What the code takes from the machine: the result of a 32-bit shift by 32
    or more, which C leaves open, and the number of the running CPU. *)
Record bpf_env : Type := mk_env {
  oversized_shl : Z -> Z -> Z;
  oversized_shr : Z -> Z -> Z;
  smp_processor_id : Z
}.

Record bpf_regs : Type := mk_regs {
  A : Z;
  X : Z;
  mem : list (option Z)
}.

Definition set_A (st : bpf_regs) (v : Z) : bpf_regs := mk_regs v (X st) (mem st).
Definition set_X (st : bpf_regs) (v : Z) : bpf_regs := mk_regs (A st) v (mem st).

(** Effect of one instruction: [Next off st] continues [off] instructions
    behind the following one, [Return v] leaves the filter. *)
Inductive bpf_step : Type :=
  | Next (off : Z) (st : bpf_regs)
  | Return (v : Z).

Definition bpf_internal_load_pointer_neg_helper (skb : sk_buff) (k size : Z)
    : res (option (list Z)) :=
  let ptr :=
    if SKF_NET_OFF <=? k then Some (network_header skb + k - SKF_NET_OFF)
    else if SKF_LL_OFF <=? k then Some (mac_header skb + k - SKF_LL_OFF)
    else None in
  match ptr with
  | Some ptr =>
      if (0 <=? ptr) && (ptr + size <=? tail skb)
      then bs ← rd_slice (head skb) (tail skb) ptr size; Ok (Some bs)
      else Ok None
  | None => Ok None
  end.

Definition load_pointer (skb : sk_buff) (k size : Z) : res (option (list Z)) :=
  if 0 <=? k then skb_header_pointer skb k size
  else bpf_internal_load_pointer_neg_helper skb k size.

(** Big-endian value of a byte string: [get_unaligned_be32], [..._be16]. *)
Definition get_be (bs : list Z) : Z := foldl (fun acc b => acc * 256 + b) 0 bs.

Definition ntohs (v : Z) : Z := (v mod 256) * 256 + v / 256.

Section Run.
Context (env : bpf_env) (skb : sk_buff).

Definition lsh (a n : Z) : Z :=
  if n <? 32 then u32 (Z.shiftl a n) else oversized_shl env a n.
Definition rsh (a n : Z) : Z :=
  if n <? 32 then Z.shiftr a n else oversized_shr env a n.

(** [BPF_S_ALU_*]; [None]: not an instruction of this group. *)
Definition run_alu (c : bpf_s) (K : Z) (st : bpf_regs) : option bpf_step :=
  let a := A st in
  let x := X st in
  let set v := Some (Next 0 (set_A st v)) in
  match c with
  | BPF_S_ALU_ADD_X => set (u32 (a + x))
  | BPF_S_ALU_ADD_K => set (u32 (a + K))
  | BPF_S_ALU_SUB_X => set (u32 (a - x))
  | BPF_S_ALU_SUB_K => set (u32 (a - K))
  | BPF_S_ALU_MUL_X => set (u32 (a * x))
  | BPF_S_ALU_MUL_K => set (u32 (a * K))
  | BPF_S_ALU_DIV_X => if x =? 0 then Some (Return 0) else set (a / x)
  | BPF_S_ALU_DIV_K => set (reciprocal_divide a K)
  | BPF_S_ALU_AND_X => set (Z.land a x)
  | BPF_S_ALU_AND_K => set (Z.land a K)
  | BPF_S_ALU_OR_X => set (Z.lor a x)
  | BPF_S_ALU_OR_K => set (Z.lor a K)
  | BPF_S_ALU_LSH_X => set (lsh a x)
  | BPF_S_ALU_LSH_K => set (lsh a K)
  | BPF_S_ALU_RSH_X => set (rsh a x)
  | BPF_S_ALU_RSH_K => set (rsh a K)
  | BPF_S_ALU_NEG => set (u32 (- a))
  | _ => None
  end.

(** [BPF_S_JMP_*]. *)
Definition run_jmp (c : bpf_s) (f : sock_filter) (st : bpf_regs) : option bpf_step :=
  let a := A st in
  let x := X st in
  let K := k f in
  let br (b : bool) := Some (Next (if b then jt f else jf f) st) in
  match c with
  | BPF_S_JMP_JA => Some (Next K st)
  | BPF_S_JMP_JGT_K => br (K <? a)
  | BPF_S_JMP_JGE_K => br (K <=? a)
  | BPF_S_JMP_JEQ_K => br (a =? K)
  | BPF_S_JMP_JSET_K => br (nonzero (Z.land a K))
  | BPF_S_JMP_JGT_X => br (x <? a)
  | BPF_S_JMP_JGE_X => br (x <=? a)
  | BPF_S_JMP_JEQ_X => br (a =? x)
  | BPF_S_JMP_JSET_X => br (nonzero (Z.land a x))
  | _ => None
  end.

(** The labels [load_w], [load_h] and [load_b]. *)
Definition load (k size : Z) (st : bpf_regs) : res bpf_step :=
  ptr ← load_pointer skb k size;
  Ok (match ptr with
      | Some bs => Next 0 (set_A st (get_be bs))
      | None => Return 0
      end).

(** [BPF_S_LD_*] and [BPF_S_LDX_*] on the packet. *)
Definition run_load (c : bpf_s) (K : Z) (st : bpf_regs) : option (res bpf_step) :=
  match c with
  | BPF_S_LD_W_ABS => Some (load (s32 K) 4 st)
  | BPF_S_LD_H_ABS => Some (load (s32 K) 2 st)
  | BPF_S_LD_B_ABS => Some (load (s32 K) 1 st)
  | BPF_S_LD_W_LEN => Some (Ok (Next 0 (set_A st (len skb))))
  | BPF_S_LDX_W_LEN => Some (Ok (Next 0 (set_X st (len skb))))
  | BPF_S_LD_W_IND => Some (load (s32 (X st + K)) 4 st)
  | BPF_S_LD_H_IND => Some (load (s32 (X st + K)) 2 st)
  | BPF_S_LD_B_IND => Some (load (s32 (X st + K)) 1 st)
  | BPF_S_LDX_B_MSH =>
      Some (ptr ← load_pointer skb (s32 K) 1;
            Ok (match ptr with
                | Some bs => Next 0 (set_X st (Z.shiftl (Z.land (get_be bs) 0xf) 2))
                | None => Return 0
                end))
  | _ => None
  end.

(** Reading a cell of [mem]: a cell that was never written is
    indeterminate. *)
Definition mem_get (st : bpf_regs) (i : Z) : res Z :=
  c ← of_option OutOfBounds (znth (mem st) i); of_option Uninitialised c.

Definition mem_set (st : bpf_regs) (i v : Z) : res bpf_regs :=
  m ← of_option OutOfBounds (zupd (mem st) i (Some v)); Ok (mk_regs (A st) (X st) m).

(** Immediates, scratch memory, register moves and returns. *)
Definition run_misc (c : bpf_s) (K : Z) (st : bpf_regs) : option (res bpf_step) :=
  match c with
  | BPF_S_LD_IMM => Some (Ok (Next 0 (set_A st K)))
  | BPF_S_LDX_IMM => Some (Ok (Next 0 (set_X st K)))
  | BPF_S_LD_MEM => Some (v ← mem_get st K; Ok (Next 0 (set_A st v)))
  | BPF_S_LDX_MEM => Some (v ← mem_get st K; Ok (Next 0 (set_X st v)))
  | BPF_S_MISC_TAX => Some (Ok (Next 0 (set_X st (A st))))
  | BPF_S_MISC_TXA => Some (Ok (Next 0 (set_A st (X st))))
  | BPF_S_RET_K => Some (Ok (Return K))
  | BPF_S_RET_A => Some (Ok (Return (A st)))
  | BPF_S_ST => Some (st ← mem_set st K (A st); Ok (Next 0 st))
  | BPF_S_STX => Some (st ← mem_set st K (X st); Ok (Next 0 st))
  | _ => None
  end.

(** The bytes of the linear buffer that hold packet data. *)
Definition linear_mem : list Z := slice (head skb) 0 (tail skb).

Definition nlattr_result (st : bpf_regs) (nla : option Z) : bpf_step :=
  Next 0 (set_A st (match nla with Some p => u32 (p - data skb) | None => 0 end)).

(** [BPF_S_ANC_NLATTR] and [BPF_S_ANC_NLATTR_NEST]; the address
    [&skb->data[A]] wraps around at 32 bits. *)
Definition run_nlattr (nested : bool) (st : bpf_regs) : res bpf_step :=
  if skb_is_nonlinear skb then Ok (Return 0)
  else if u32 (len skb - sizeof_nlattr) <? A st then Ok (Return 0)
  else if nested then
    let nla := data skb + s32 (A st) in
    l ← rd_u16 linear_mem nla;
    if u32 (A st - len skb) <? l then Ok (Return 0)
    else r ← nla_find_nested linear_mem nla (s32 (X st)); Ok (nlattr_result st r)
  else
    r ← nla_find linear_mem (data skb + s32 (A st)) (s32 (len skb - A st)) (s32 (X st));
    Ok (nlattr_result st r).

(** [BPF_S_ANC_*]. *)
Definition run_anc (c : bpf_s) (st : bpf_regs) : option (res bpf_step) :=
  let set v := Some (Ok (Next 0 (set_A st v))) in
  match c with
  | BPF_S_ANC_PROTOCOL => set (ntohs (protocol skb))
  | BPF_S_ANC_PKTTYPE => set (pkt_type skb)
  | BPF_S_ANC_IFINDEX =>
      match dev skb with None => Some (Ok (Return 0)) | Some d => set (u32 (ifindex d)) end
  | BPF_S_ANC_MARK => set (mark skb)
  | BPF_S_ANC_QUEUE => set (queue_mapping skb)
  | BPF_S_ANC_HATYPE =>
      match dev skb with None => Some (Ok (Return 0)) | Some d => set (dev_type d) end
  | BPF_S_ANC_RXHASH => set (rxhash skb)
  | BPF_S_ANC_CPU => set (u32 (smp_processor_id env))
  | BPF_S_ANC_NLATTR => Some (run_nlattr false st)
  | BPF_S_ANC_NLATTR_NEST => Some (run_nlattr true st)
  | _ => None
  end.

(** The [switch (fentry->code)]; [default] is the unknown-code warning. *)
Definition run_insn (f : sock_filter) (st : bpf_regs) : res bpf_step :=
  match op f with
  | None => Ok (Return 0)
  | Some c =>
      match run_alu c (k f) st, run_jmp c f st, run_load c (k f) st,
            run_misc c (k f) st, run_anc c st with
      | Some r, _, _, _, _ => Ok r
      | _, Some r, _, _, _ => Ok r
      | _, _, Some r, _, _ => r
      | _, _, _, Some r, _ => r
      | _, _, _, _, Some r => r
      | _, _, _, _, _ => Ok (Return 0)
      end
  end.

(** The [for (;; fentry++)] loop. *)
Fixpoint run_loop (fuel : nat) (prog : list sock_filter) (pc : Z) (st : bpf_regs) : res Z :=
  match fuel with
  | O => Fault OutOfFuel
  | S fuel =>
      f ← of_option OutOfBounds (znth prog pc);
      r ← run_insn f st;
      match r with
      | Return v => Ok v
      | Next off st => run_loop fuel prog (pc + 1 + off) st
      end
  end.

(** Jumps go forward only, so a filter executes at most once through. *)
Definition sk_run_filter (prog : list sock_filter) : res Z :=
  run_loop (length prog) prog 0
    (mk_regs 0 0 (replicate (Z.to_nat BPF_MEMWORDS) None)).
End Run.

(** ** Filters of a socket *)

(** [struct sk_filter]; 20 bytes without the instructions. *)
Record sk_filter_t : Type := mk_sk_filter {
  refcnt : Z;
  flen : Z;
  insns : list sock_filter
}.
Definition sizeof_sock_filter : Z := 8.
Definition sizeof_sk_filter : Z := 20.

Definition sk_filter_len (fp : sk_filter_t) : Z :=
  u32 (flen fp * sizeof_sock_filter + sizeof_sk_filter).

(** The members of [struct sock] the filter code uses. *)
Record sock : Type := mk_sock {
  sk_filter_p : option sk_filter_t;
  sk_omem_alloc : Z
}.

Definition set_omem (sk : sock) (n : Z) : sock := mk_sock (sk_filter_p sk) n.
Definition set_filter (sk : sock) (fp : option sk_filter_t) : sock := mk_sock fp (sk_omem_alloc sk).

(** [struct sock_fprog]: [None] is a null pointer, [Some l] points at the
    readable user memory [l]. *)
Record sock_fprog : Type := mk_fprog {
  fprog_len : Z;
  fprog_filter : option (list sock_filter)
}.

(** The machine a system call runs on: the sysctl, and whether the
    allocations of the filter and of the mask array succeed. *)
Record attach_env : Type := mk_attach_env {
  sysctl_optmem_max : Z;
  kmalloc_filter : bool;
  kmalloc_masks : bool
}.

(** [sock_kmalloc]: whether memory is returned, and the socket. *)
Definition sock_kmalloc (env : attach_env) (sk : sock) (size : Z) : bool * sock :=
  if (u32 size <=? u32 (sysctl_optmem_max env)) &&
     (s32 (sk_omem_alloc sk + size) <? sysctl_optmem_max env)
  then
    let sk' := set_omem sk (s32 (sk_omem_alloc sk + size)) in
    if kmalloc_filter env then (true, sk')
    else (false, set_omem sk' (s32 (sk_omem_alloc sk' - size)))
  else (false, sk).

Definition sock_kfree_s (sk : sock) (size : Z) : sock :=
  set_omem sk (s32 (sk_omem_alloc sk - size)).

(** [sk_filter_release]: the filters handed to [call_rcu]. *)
Definition sk_filter_release (fp : sk_filter_t) : list sk_filter_t :=
  if s32 (refcnt fp - 1) =? 0 then [fp] else [].

Definition sk_filter_uncharge (sk : sock) (fp : sk_filter_t) : sock * list sk_filter_t :=
  (set_omem sk (s32 (sk_omem_alloc sk - sk_filter_len fp)), sk_filter_release fp).

(** [sk_attach_filter]: the error, the socket, and the filters released. *)
Definition sk_attach_filter (env : attach_env) (fprog : sock_fprog) (sk : sock)
    : res (Z * sock * list sk_filter_t) :=
  let fsize := u32 (sizeof_sock_filter * fprog_len fprog) in
  match fprog_filter fprog with
  | None => Ok (- EINVAL, sk, [])
  | Some user =>
      let '(got, sk) := sock_kmalloc env sk (fsize + sizeof_sk_filter) in
      if negb got then Ok (- ENOMEM, sk, [])
      else if zlen user <? fprog_len fprog
      then Ok (- EFAULT, sock_kfree_s sk (fsize + sizeof_sk_filter), [])
      else
        '(err, code) ← sk_chk_filter (kmalloc_masks env) (slice user 0 (fprog_len fprog));
        let fp := mk_sk_filter 1 (fprog_len fprog) code in
        if nonzero err then
          let '(sk, freed) := sk_filter_uncharge sk fp in Ok (err, sk, freed)
        else
          let old_fp := sk_filter_p sk in
          let sk := set_filter sk (Some fp) in
          match old_fp with
          | Some old => let '(sk, freed) := sk_filter_uncharge sk old in Ok (0, sk, freed)
          | None => Ok (0, sk, [])
          end
  end.

Definition sk_detach_filter (sk : sock) : Z * sock * list sk_filter_t :=
  match sk_filter_p sk with
  | Some filter =>
      let '(sk, freed) := sk_filter_uncharge (set_filter sk None) filter in (0, sk, freed)
  | None => (- ENOENT, sk, [])
  end.

(** [sk_filter]: the error and the buffer; [sec] is the result of
    [security_sock_rcv_skb]. *)
Definition sk_filter (env : bpf_env) (tenv : trim_env) (sec : Z) (sk : sock) (skb : sk_buff)
    : res (Z * sk_buff) :=
  if nonzero sec then Ok (sec, skb)
  else
    match sk_filter_p sk with
    | None => Ok (0, skb)
    | Some filter =>
        pkt_len ← sk_run_filter env skb (insns filter);
        Ok (if nonzero pkt_len then pskb_trim tenv skb pkt_len else (- EPERM, skb))
    end.

(** ** Static structure of a filter *)

(** What [check_load_and_stores] distinguishes. *)
Inductive kind : Type :=
  | KStore
  | KLoad
  | KJump (offs : list Z)
  | KPlain.

Definition kind_of (f : sock_filter) : kind :=
  match op f with
  | Some (BPF_S_ST | BPF_S_STX) => KStore
  | Some (BPF_S_LD_MEM | BPF_S_LDX_MEM) => KLoad
  | Some BPF_S_JMP_JA => KJump [k f]
  | Some (BPF_S_JMP_JEQ_K | BPF_S_JMP_JEQ_X | BPF_S_JMP_JGE_K | BPF_S_JMP_JGE_X
      | BPF_S_JMP_JGT_K | BPF_S_JMP_JGT_X | BPF_S_JMP_JSET_X | BPF_S_JMP_JSET_K) =>
      KJump [jt f; jf f]
  | _ => KPlain
  end.

Definition jump_offs (f : sock_filter) : list Z :=
  match kind_of f with KJump l => l | _ => [] end.
Definition falls (f : sock_filter) : bool :=
  match kind_of f with KJump _ => false | _ => true end.
Definition stores (f : sock_filter) (c : Z) : Prop := kind_of f = KStore /\ k f = c.
Definition loads (f : sock_filter) (c : Z) : Prop := kind_of f = KLoad /\ k f = c.

(** [clean prog c pc]: some control-flow path from the entry to [pc] does not
    store to cell [c].  Both outcomes of a conditional jump are possible. *)
Inductive clean (prog : list sock_filter) (c : Z) : Z -> Prop :=
  | clean_entry : clean prog c 0
  | clean_fall pc f :
      clean prog c pc -> znth prog pc = Some f -> falls f = true -> ~ stores f c ->
      clean prog c (pc + 1)
  | clean_jump pc f off :
      clean prog c pc -> znth prog pc = Some f -> In off (jump_offs f) ->
      clean prog c (pc + 1 + off).

(** The shape every instruction of an accepted filter has. *)
Definition insn_ok (flen pc : Z) (f : sock_filter) : Prop :=
  (exists c, op f = Some c) /\ is_u32 (k f) /\
  match kind_of f with
  | KStore | KLoad => k f < BPF_MEMWORDS
  | KJump l => Forall (fun off => 0 <= off /\ pc + 1 + off < flen) l
  | KPlain => True
  end.

Definition prog_ok (prog : list sock_filter) : Prop :=
  forall pc f, znth prog pc = Some f -> insn_ok (zlen prog) pc f.

(** Field ranges of [struct sock_filter]. *)
Definition insn_wf (f : sock_filter) : Prop :=
  is_u16 (code f) /\ is_u8 (jt f) /\ is_u8 (jf f) /\ is_u32 (k f).

Lemma bpf_s_of_code_code c : bpf_s_of_code (bpf_s_code c) = Some c.
Proof. by destruct c. Qed.

Lemma reciprocal_value_range K : is_u32 (reciprocal_value K).
Proof. apply u32_range. Qed.

Lemma ancillary_plain c K :
  c = BPF_S_LD_W_ABS \/ c = BPF_S_LD_H_ABS \/ c = BPF_S_LD_B_ABS ->
  forall j1 j2, kind_of (mk_insn (bpf_s_code (ancillary c K)) j1 j2 K) = KPlain.
Proof.
  intros Hc j1 j2. unfold kind_of, op. cbn [code]. rewrite bpf_s_of_code_code.
  unfold ancillary. repeat match goal with |- context [if ?b then _ else _] => destruct b end;
    by destruct Hc as [->|[->| ->]].
Qed.

Lemma chk_insn_ok flen pc f f' :
  insn_wf f -> 0 <= pc < flen -> flen <= BPF_MAXINSNS ->
  chk_insn flen pc f = Some f' -> insn_ok flen pc f'.
Proof.
  intros (_ & Ht & Hf & Hk) Hpc Hlen. unfold chk_insn.
  destruct (codes_size <=? code f); [discriminate|].
  destruct (codes (code f)) as [c|]; [|discriminate].
  assert (Hop : forall c K, op (mk_insn (bpf_s_code c) (jt f) (jf f) K) = Some c)
    by (intros; apply bpf_s_of_code_code).
  unfold BPF_MAXINSNS, BPF_MEMWORDS in *.
  assert (Hplain : forall c K, is_u32 K ->
    kind_of (mk_insn (bpf_s_code c) (jt f) (jf f) K) = KPlain ->
    insn_ok flen pc (mk_insn (bpf_s_code c) (jt f) (jf f) K)).
  { intros c' K HK Hkd. split; [eauto|]. split; [done|]. by rewrite Hkd. }
  destruct c;
    try (intros H%(inj Some); subst f'; apply Hplain; [done|by unfold kind_of; rewrite Hop]);
    try (intros H%(inj Some); subst f'; apply Hplain; [done|apply ancillary_plain; tauto]);
    try (bcase; [discriminate|]; intros H'%(inj Some); subst f'; apply Hplain;
         [apply reciprocal_value_range|by unfold kind_of; rewrite Hop]).
  all: repeat bcase; cbn [orb]; try discriminate;
    intros H'%(inj Some); subst f'; (split; [eauto|]); (split; [done|]);
    unfold kind_of; rewrite Hop; cbn [k jt jf].
  all: try (unfold BPF_MEMWORDS; lia).
  all: unfold is_u8, is_u32 in *; rewrite ?u32_small in * by (unfold is_u32; lia);
    repeat first [apply List.Forall_nil | apply List.Forall_cons; [lia|]].
Qed.

Lemma chk_loop_ok flen pc prog prog' :
  Forall insn_wf prog -> 0 <= pc -> pc + zlen prog <= flen -> flen <= BPF_MAXINSNS ->
  chk_loop flen pc prog = (true, prog') ->
  length prog' = length prog /\
  forall i f, znth prog' i = Some f -> insn_ok flen (pc + i) f.
Proof.
  revert pc prog'. induction prog as [|f prog IH]; intros pc prog' Hwf Hpc Hlen Hmax; cbn [chk_loop].
  - intros [= <-]. split; [done|]. intros i f Hf. apply znth_Some in Hf as Hi.
    unfold zlen in Hi. simpl in Hi. lia.
  - inversion_clear Hwf as [|? ? Hf Hwf']. rewrite zlen_cons in Hlen.
    assert (Hz := zlen_nonneg prog).
    destruct (chk_insn flen pc f) as [f'|] eqn:Ef; [|discriminate].
    destruct (chk_loop flen (pc + 1) prog) as [ok rest] eqn:El.
    intros [= -> <-]. destruct (IH (pc + 1) rest) as [Hl Hi]; [done|lia|lia|done|done|].
    split; [simpl; lia|]. intros i g Hg. assert (Hr := znth_Some _ _ _ Hg).
    destruct (Z.eq_dec i 0) as [->|].
    + injection Hg as <-. rewrite Z.add_0_r. apply (chk_insn_ok _ _ _ _ Hf); [lia|done|done].
    + replace (pc + i) with (pc + 1 + (i - 1)) by lia. apply Hi.
      rewrite znth_lookup in * by lia. by replace (Z.to_nat i) with (S (Z.to_nat (i - 1))) in Hg by lia.
Qed.

(** *** Which instructions are accepted, and what becomes of them *)

(** The instruction [f] of a filter at [pc] of [flen] is one of the table, its
    operand is in range, and it is stored as the last argument. *)
Inductive renders (flen pc : Z) (f : sock_filter) : sock_filter -> Prop :=
  | renders_div : (code f, BPF_S_ALU_DIV_K) ∈ codes_init -> k f <> 0 ->
      renders flen pc f (mk_insn (bpf_s_code BPF_S_ALU_DIV_K) (jt f) (jf f) (reciprocal_value (k f)))
  | renders_mem c : (code f, c) ∈ codes_init -> c ∈ [BPF_S_LD_MEM; BPF_S_LDX_MEM; BPF_S_ST; BPF_S_STX] ->
      k f < BPF_MEMWORDS -> renders flen pc f (mk_insn (bpf_s_code c) (jt f) (jf f) (k f))
  | renders_ja : (code f, BPF_S_JMP_JA) ∈ codes_init -> pc + 1 + k f < flen ->
      renders flen pc f (mk_insn (bpf_s_code BPF_S_JMP_JA) (jt f) (jf f) (k f))
  | renders_jump c : (code f, c) ∈ codes_init -> is_cond_jump c = true ->
      pc + 1 + jt f < flen -> pc + 1 + jf f < flen -> renders flen pc f (mk_insn (bpf_s_code c) (jt f) (jf f) (k f))
  | renders_load c : (code f, c) ∈ codes_init -> c ∈ [BPF_S_LD_W_ABS; BPF_S_LD_H_ABS; BPF_S_LD_B_ABS] ->
      renders flen pc f (mk_insn (bpf_s_code (ancillary c (k f))) (jt f) (jf f) (k f))
  | renders_other c : (code f, c) ∈ codes_init -> is_cond_jump c = false ->
      c ∉ [BPF_S_ALU_DIV_K; BPF_S_LD_MEM; BPF_S_LDX_MEM; BPF_S_ST; BPF_S_STX; BPF_S_JMP_JA;
        BPF_S_LD_W_ABS; BPF_S_LD_H_ABS; BPF_S_LD_B_ABS] ->
      renders flen pc f (mk_insn (bpf_s_code c) (jt f) (jf f) (k f)).

(** [prog'] is what the checker makes of [prog], each instruction in its place. *)
Definition rendered (prog prog' : list sock_filter) : Prop :=
  length prog' = length prog /\
  forall pc f f', znth prog pc = Some f -> znth prog' pc = Some f' -> renders (zlen prog) pc f f'.

Lemma codes_table i c : (i, c) ∈ codes_init <-> (i <? codes_size) = true /\ codes i = Some c.
Proof.
  split.
  - intros H. apply list_elem_of_In in H. unfold codes_init in H. cbn [In] in H.
    repeat (destruct H as [[= <- <-]|H]; [split; vm_compute; reflexivity|]). done.
  - intros [_ H]. unfold codes in H. destruct (List.find _ _) as [[j d]|] eqn:E; [|done]. injection H as <-.
    apply find_some in E as [Hin Hj]. apply Z.eqb_eq in Hj. cbn in Hj. subst j. by apply list_elem_of_In.
Qed.

#[local] Instance bpf_s_eq_dec : EqDecision bpf_s.
Proof. solve_decision. Defined.

(** Whether a given instruction is in a given list. *)
Ltac listed := apply (bool_decide_unpack _); vm_compute; exact I.

Lemma chk_insn_renders flen pc f f' : insn_wf f -> 0 <= pc < flen -> flen <= BPF_MAXINSNS ->
  chk_insn flen pc f = Some f' <-> renders flen pc f f'.
Proof.
  intros (_ & Ht & Hf & Hk) Hpc Hlen. unfold is_u8, is_u32, BPF_MAXINSNS in *.
  assert (Hja : (u32 (flen - pc - 1) <=? k f) = negb (pc + 1 + k f <? flen)) by (rewrite u32_small by (unfold is_u32; lia); lia).
  assert (Hj : (flen <=? u32 (pc + jt f + 1)) || (flen <=? u32 (pc + jf f + 1)) = negb ((pc + 1 + jt f <? flen) && (pc + 1 + jf f <? flen)))
    by (rewrite !u32_small by (unfold is_u32; lia); lia).
  unfold chk_insn. rewrite Hja, Hj. split.
  - destruct (Z.leb_spec codes_size (code f)) as [|Hc]; [discriminate|].
    destruct (codes (code f)) as [c|] eqn:Ec; [|discriminate].
    assert (Hin : (code f, c) ∈ codes_init) by (apply codes_table; split; [by apply Z.ltb_lt|done]).
    destruct c; repeat bcase; cbn [negb andb]; try discriminate; intros Heq%(inj Some); subst f';
      first [by apply renders_div|apply renders_mem; [done|listed|lia]|apply renders_ja; [done|lia]
        |apply renders_jump; [done|done|lia|lia]|apply renders_load; [done|listed]|apply renders_other; [done|done|listed]].
  - assert (Hin : forall c, (code f, c) ∈ codes_init -> (codes_size <=? code f) = false /\ codes (code f) = Some c).
    { intros c [H1 H2]%codes_table. split; [lia|done]. }
    intros [H1 H2|c H1 H2 H3|H1 H2|c H1 H2 H3 H4|c H1 H2|c H1 H2 H3]; destruct (Hin _ H1) as [-> ->].
    + by rewrite (proj2 (Z.eqb_neq _ _) H2).
    + rewrite (proj2 (Z.leb_gt _ _) H3). by repeat (apply elem_of_cons in H2 as [->|H2]; [done|]); apply elem_of_nil in H2.
    + by rewrite (proj2 (Z.ltb_lt _ _) H2).
    + rewrite (proj2 (Z.ltb_lt _ _) H3), (proj2 (Z.ltb_lt _ _) H4). by destruct c.
    + by repeat (apply elem_of_cons in H2 as [->|H2]; [done|]); apply elem_of_nil in H2.
    + destruct c; try done; exfalso; apply H3; listed.
Qed.

Lemma chk_loop_renders flen pc prog prog' : Forall insn_wf prog -> 0 <= pc -> pc + zlen prog <= flen -> flen <= BPF_MAXINSNS ->
  chk_loop flen pc prog = (true, prog') <->
  length prog' = length prog /\
  forall i f f', znth prog i = Some f -> znth prog' i = Some f' -> renders flen (pc + i) f f'.
Proof.
  revert pc prog'. induction prog as [|f prog IH]; intros pc prog' Hwf Hpc Hlen Hmax; cbn [chk_loop].
  { split; [intros [= <-]; split; [done|]; intros i f f' H; apply znth_Some in H; unfold zlen in H; cbn in H; lia|].
    intros [H%nil_length_inv _]. by rewrite H. }
  inversion_clear Hwf as [|? ? Hf Hwf']. rewrite zlen_cons in Hlen. assert (Hz := zlen_nonneg prog).
  assert (Hins := fun f' => chk_insn_renders flen pc f f' Hf ltac:(lia) Hmax).
  assert (IH' := fun rest => IH (pc + 1) rest Hwf' ltac:(lia) ltac:(lia) Hmax). clear IH. split.
  - destruct (chk_insn flen pc f) as [f'|] eqn:Ef; [|discriminate]. destruct (chk_loop flen (pc + 1) prog) as [ok rest].
    intros [= -> <-]. destruct (proj1 (IH' rest) eq_refl) as [Hl Hi]. split; [cbn; lia|]. intros i g g' Hg Hg'.
    assert (Hr := znth_Some _ _ _ Hg). destruct (Z.eq_dec i 0) as [->|].
    + injection Hg as <-. injection Hg' as <-. rewrite Z.add_0_r. by apply Hins.
    + replace (pc + i) with (pc + 1 + (i - 1)) by lia. apply Hi; rewrite znth_lookup in * by lia;
        by replace (Z.to_nat i) with (S (Z.to_nat (i - 1))) in * by lia.
  - intros [Hl Hi]. destruct prog' as [|f' rest]; [done|].
    assert (H0 : renders flen pc f f') by (rewrite <- (Z.add_0_r pc); by apply Hi).
    apply Hins in H0. rewrite H0. rewrite (proj2 (IH' rest)); [done|]. split; [cbn in Hl; lia|]. intros i g g' Hg Hg'.
    assert (Hr := znth_Some _ _ _ Hg). replace (pc + 1 + i) with (pc + (i + 1)) by lia.
    apply Hi; rewrite znth_lookup in * by lia; by replace (Z.to_nat (i + 1)) with (S (Z.to_nat i)) by lia.
Qed.

Lemma chk_loop_rendered prog prog' : Forall insn_wf prog -> zlen prog <= BPF_MAXINSNS ->
  chk_loop (zlen prog) 0 prog = (true, prog') <-> rendered prog prog'.
Proof. intros Hwf Hm. by apply chk_loop_renders; [done|lia|lia|done]. Qed.

(** ** The load-and-store analysis is exact *)

Fixpoint and_masks (masks : list Z) (pc : Z) (offs : list Z) (memvalid : Z) : res (list Z) :=
  match offs with
  | [] => Ok masks
  | off :: offs =>
      masks ← and_mask masks (pc + 1 + off) memvalid; and_masks masks pc offs memvalid
  end.

Lemma cls_loop_cons f rest pc masks mv :
  cls_loop (f :: rest) pc masks mv =
  (m ← of_option OutOfBounds (znth masks pc);
   let mv := Z.land mv m in
   match kind_of f with
   | KStore => cls_loop rest (pc + 1) masks (u16 (Z.lor mv (Z.shiftl 1 (k f))))
   | KLoad =>
       if Z.land mv (Z.shiftl 1 (k f)) =? 0 then Ok (- EINVAL)
       else cls_loop rest (pc + 1) masks mv
   | KJump l =>
       masks ← and_masks masks pc l mv; cls_loop rest (pc + 1) masks (u16 (Z.lnot 0))
   | KPlain => cls_loop rest (pc + 1) masks mv
   end).
Proof.
  cbn [cls_loop]. unfold kind_of. destruct (znth masks pc) as [m|]; [|done].
  cbn [of_option mbind res_bind]. destruct (op f) as [[]|]; try done;
    cbn [and_masks];
    repeat (match goal with
    | |- context [and_mask ?a ?b ?c] => destruct (and_mask a b c); [|done]
    end; cbn [mbind res_bind and_masks]); done.
Qed.

Lemma testbit_store mv i c :
  0 <= i < 16 -> 0 <= c < 16 ->
  Z.testbit (u16 (Z.lor mv (Z.shiftl 1 i))) c = Z.testbit mv c || (c =? i).
Proof.
  intros Hi Hc. unfold u16. rewrite Z.mod_pow2_bits_low by lia.
  rewrite Z.lor_spec. f_equal. rewrite Z.shiftl_1_l, Z.pow2_bits_eqb by lia.
  apply Z.eqb_sym.
Qed.

Lemma land_bit_zero mv i : 0 <= i -> (Z.land mv (Z.shiftl 1 i) =? 0) = negb (Z.testbit mv i).
Proof.
  intros Hi. rewrite Z.shiftl_1_l.
  destruct (Z.testbit mv i) eqn:E; simpl.
  - apply Z.eqb_neq. intros H. apply (f_equal (fun z => Z.testbit z i)) in H.
    rewrite Z.land_spec, E, Z.pow2_bits_true, Z.bits_0 in H by lia. discriminate.
  - apply Z.eqb_eq. apply Z.bits_inj'. intros n Hn. rewrite Z.land_spec, Z.bits_0.
    rewrite Z.pow2_bits_eqb by lia. destruct (Z.eqb_spec i n) as [->|]; [by rewrite E|].
    apply andb_false_r.
Qed.

Lemma testbit_all c : 0 <= c < 16 -> Z.testbit (u16 (Z.lnot 0)) c = true.
Proof.
  intros Hc. unfold u16. rewrite Z.mod_pow2_bits_low by lia.
  rewrite Z.lnot_spec by lia. by rewrite Z.bits_0.
Qed.

(** The masks after a jump: bit [c] of a target is cleared unless the cell is
    valid at the jump. *)
Lemma and_masks_spec offs masks pc mv :
  0 <= pc -> Forall (fun off => 0 <= off /\ pc + 1 + off < zlen masks) offs ->
  exists masks', and_masks masks pc offs mv = Ok masks' /\ zlen masks' = zlen masks /\
    forall i m', znth masks' i = Some m' ->
      exists m, znth masks i = Some m /\
        forall c, 0 <= c ->
          (Z.testbit m' c = false <->
           Z.testbit m c = false \/ (In (i - pc - 1) offs /\ Z.testbit mv c = false)).
Proof.
  intros Hpc. revert masks. induction offs as [|off offs IH]; intros masks Hok.
  - exists masks. split; [done|]. split; [done|]. intros i m Hm. exists m. split; [done|].
    intros c _. simpl. tauto.
  - inversion_clear Hok as [|? ? Hoff Hrest]. cbn [and_masks]. unfold and_mask.
    destruct (znth_is_Some masks (pc + 1 + off)) as [m0 Hm0]; [lia|]. rewrite Hm0.
    cbn [of_option mbind res_bind]. rewrite zupd_Some by lia. cbn [of_option mbind res_bind].
    set (masks1 := <[Z.to_nat (pc + 1 + off):=Z.land m0 mv]> masks).
    assert (Hl1 : zlen masks1 = zlen masks) by apply zlen_insert.
    destruct (IH masks1) as (masks' & E & Hl & Hbits); [by rewrite Hl1|].
    exists masks'. split; [done|]. split; [congruence|]. intros i m' Hm'.
    destruct (Hbits i m' Hm') as (m1 & Hm1 & Hb1). subst masks1.
    rewrite znth_insert in Hm1 by lia.
    destruct (Z.eqb_spec i (pc + 1 + off)) as [->|Hne].
    + injection Hm1 as <-. exists m0. split; [done|]. intros c Hc. rewrite Hb1 by done.
      rewrite Z.land_spec, andb_false_iff. replace (pc + 1 + off - pc - 1) with off by lia.
      simpl. tauto.
    + exists m1. split; [done|]. intros c Hc. rewrite Hb1 by done. simpl.
      assert (off <> i - pc - 1) by lia. tauto.
Qed.

Lemma clean_inv prog c pc :
  clean prog c pc ->
  pc = 0 \/
  (exists f, znth prog (pc - 1) = Some f /\ clean prog c (pc - 1) /\ falls f = true /\ ~ stores f c) \/
  (exists j f, znth prog j = Some f /\ clean prog c j /\ In (pc - j - 1) (jump_offs f)).
Proof.
  intros H. destruct H as [|pc f Hc Hf Hfall Hns|pc f off Hc Hf Hin]; [by left|right; left|right; right].
  - exists f. by replace (pc + 1 - 1) with pc by lia.
  - exists pc, f. split; [done|]. split; [done|]. by replace (pc + 1 + off - pc - 1) with off by lia.
Qed.

Section Exact.
Context (prog : list sock_filter) (Hok : prog_ok prog).

Lemma prog_jump_offs j f off :
  znth prog j = Some f -> In off (jump_offs f) -> 0 <= off /\ j + 1 + off < zlen prog.
Proof.
  intros Hf. destruct (Hok _ _ Hf) as (_ & _ & Hk). unfold jump_offs.
  destruct (kind_of f); try done. intros Hin. rewrite List.Forall_forall in Hk. by apply Hk.
Qed.

(** State of the analysis when it reaches [pc]. *)
Definition cls_inv (pc : Z) (masks : list Z) (mv : Z) : Prop :=
  zlen masks = zlen prog /\ 0 <= pc /\
  (forall c i m, 0 <= c < 16 -> pc <= i -> znth masks i = Some m ->
     (Z.testbit m c = false <->
      exists j f, j < pc /\ znth prog j = Some f /\ clean prog c j /\
        In (i - j - 1) (jump_offs f))) /\
  (forall c, 0 <= c < 16 ->
     (Z.testbit mv c = false <->
      pc = 0 \/ exists f, znth prog (pc - 1) = Some f /\ clean prog c (pc - 1) /\
        falls f = true /\ ~ stores f c)).

(** The mask the analysis computes on arrival at [pc] has exactly the bits
    of the cells that every path to [pc] has written. *)
Lemma cls_inv_clean pc masks mv m c :
  cls_inv pc masks mv -> znth masks pc = Some m -> 0 <= c < 16 ->
  (Z.testbit (Z.land mv m) c = false <-> clean prog c pc).
Proof.
  intros (Hl & Hpc & Hm & Hv) Hmp Hc.
  rewrite Z.land_spec, andb_false_iff, (Hm c pc m) by (done || lia). rewrite Hv by done.
  split.
  - intros [[->|(f & Hf & Hcl & Hfall & Hns)]|(j & f & Hj & Hf & Hcl & Hin)].
    + constructor.
    + replace pc with (pc - 1 + 1) by lia. by eapply clean_fall.
    + replace pc with (j + 1 + (pc - j - 1)) by lia. by eapply clean_jump.
  - intros [->|[?|(j & f & Hf & Hcl & Hin)]]%clean_inv; [by left; left|by left; right|right].
    destruct (prog_jump_offs _ _ _ Hf Hin) as [? _]. exists j, f. split; [lia|done].
Qed.

Lemma cls_exact_loop rest : forall pc masks mv,
  drop (Z.to_nat pc) prog = rest -> cls_inv pc masks mv ->
  (cls_loop rest pc masks mv = Ok 0 /\
   forall j f c, pc <= j -> znth prog j = Some f -> loads f c -> ~ clean prog c j) \/
  (cls_loop rest pc masks mv = Ok (- EINVAL) /\
   exists j f c, znth prog j = Some f /\ loads f c /\ clean prog c j).
Proof.
  induction rest as [|f rest IH]; intros pc masks mv Hd Hinv.
  - left. split; [done|]. intros j f c Hj Hf _ _. apply znth_Some in Hf.
    apply (f_equal length) in Hd. rewrite length_drop in Hd. simpl in Hd.
    unfold zlen in *. lia.
  - assert (Hinv' := Hinv). destruct Hinv' as (Hl & Hpc & Hm & Hv).
    assert (Hf : znth prog pc = Some f).
    { rewrite znth_lookup by lia. rewrite <- (Nat.add_0_r (Z.to_nat pc)), <- lookup_drop, Hd. done. }
    assert (Hd' : drop (Z.to_nat (pc + 1)) prog = rest).
    { replace (Z.to_nat (pc + 1)) with (Z.to_nat pc + 1)%nat by lia.
      by rewrite <- drop_drop, Hd. }
    assert (Hr := znth_Some _ _ _ Hf).
    destruct (znth_is_Some masks pc) as [m Hmp]; [lia|].
    assert (Hcl := fun c => cls_inv_clean pc masks mv m c Hinv Hmp).
    rewrite cls_loop_cons, Hmp. cbn [of_option mbind res_bind]. set (mv' := Z.land mv m) in *.
    destruct (Hok _ _ Hf) as (_ & Hku & Hkd). unfold is_u32 in Hku. unfold BPF_MEMWORDS in Hkd.
    (* the invariant after an instruction that falls through *)
    assert (Hnext : forall mv'', falls f = true ->
      (forall c, 0 <= c < 16 -> (Z.testbit mv'' c = false <-> Z.testbit mv' c = false /\ ~ stores f c)) ->
      cls_inv (pc + 1) masks mv'').
    { intros mv'' Hfall Hbits. split; [done|]. split; [lia|]. split.
      - intros c i mm Hc Hi Hmm. rewrite (Hm c i mm) by (done || lia). split.
        + intros (j & g & Hj & Hrest). exists j, g. split; [lia|done].
        + intros (j & g & Hj & Hg & Hcg & Hin).
          destruct (Z.eq_dec j pc) as [->|]; [|exists j, g; split; [lia|done]].
          rewrite Hf in Hg. injection Hg as <-. unfold falls, jump_offs in *.
          by destruct (kind_of f).
      - intros c Hc. rewrite Hbits, Hcl by done. replace (pc + 1 - 1) with pc by lia. split.
        + intros [? ?]. right. by exists f.
        + intros [?|(g & Hg & Hcg & _ & Hns)]; [lia|]. rewrite Hf in Hg.
          injection Hg as <-. done. }
    assert (Hskip : forall masks' mv'',
      cls_inv (pc + 1) masks' mv'' -> (forall c, loads f c -> ~ clean prog c pc) ->
      (cls_loop rest (pc + 1) masks' mv'' = Ok 0 /\
       forall j f c, pc <= j -> znth prog j = Some f -> loads f c -> ~ clean prog c j) \/
      (cls_loop rest (pc + 1) masks' mv'' = Ok (- EINVAL) /\
       exists j f c, znth prog j = Some f /\ loads f c /\ clean prog c j)).
    { intros masks' mv'' Hi Hld. destruct (IH _ _ _ Hd' Hi) as [[E Hno]|[E Hex]]; [left|by right].
      split; [done|]. intros j g c Hj Hg Hlg.
      destruct (Z.eq_dec j pc) as [->|]; [|apply (Hno j g); [lia|done|done]].
      rewrite Hf in Hg. injection Hg as <-. by apply Hld. }
    destruct (kind_of f) as [| |l|] eqn:Ek.
    + apply Hskip; [|by intros c [? _]; congruence]. apply Hnext; [by unfold falls; rewrite Ek|].
      intros c Hc. rewrite testbit_store by lia. rewrite orb_false_iff. unfold stores.
      destruct (Z.eqb_spec c (k f)) as [->|]; split; intros [? ?]; split; try done; try tauto.
      intros [_ ?]. congruence.
    + rewrite land_bit_zero by lia. destruct (Z.testbit mv' (k f)) eqn:Eb; cbn [negb].
      * apply Hskip.
        -- apply Hnext; [by unfold falls; rewrite Ek|]. intros c Hc. unfold stores.
           rewrite Ek. split; [|tauto]. intros ?. split; [done|]. intros [? _]. discriminate.
        -- intros c [_ <-] Hclean. apply Hcl in Hclean; [congruence|lia].
      * right. split; [done|]. exists pc, f, (k f). split; [done|]. split; [done|].
        apply Hcl; [lia|done].
    + destruct (and_masks_spec l masks pc mv') as (masks' & E & Hl' & Hbits);
        [lia|by rewrite Hl|]. rewrite E. cbn [mbind res_bind].
      apply Hskip; [|by intros c [? _]; congruence].
      split; [congruence|]. split; [lia|]. split.
      * intros c i m' Hc Hi Hm'. destruct (Hbits i m' Hm') as (m0 & Hm0 & Hb).
        rewrite Hb, (Hm c i m0), Hcl by (done || lia). split.
        -- intros [(j & g & Hj & Hrest)|[Hin Hcp]]; [exists j, g; split; [lia|done]|].
           exists pc, f. split; [lia|]. split; [done|]. split; [done|].
           unfold jump_offs. by rewrite Ek.
        -- intros (j & g & Hj & Hg & Hcg & Hin).
           destruct (Z.eq_dec j pc) as [->|]; [right|left; exists j, g; split; [lia|done]].
           rewrite Hf in Hg. injection Hg as <-. unfold jump_offs in Hin. by rewrite Ek in Hin.
      * intros c Hc. rewrite testbit_all by done. split; [discriminate|].
        intros [?|(g & Hg & _ & Hfall & _)]; [lia|].
        replace (pc + 1 - 1) with pc in Hg by lia. rewrite Hf in Hg. injection Hg as <-.
        unfold falls in Hfall. by rewrite Ek in Hfall.
    + apply Hskip; [|by intros c [? _]; congruence]. apply Hnext; [by unfold falls; rewrite Ek|].
      intros c Hc. unfold stores. rewrite Ek. split; [|tauto]. intros ?. split; [done|].
      intros [? _]. discriminate.
Qed.

Lemma check_load_and_stores_spec :
  (check_load_and_stores true prog = Ok 0 /\
   forall j f c, znth prog j = Some f -> loads f c -> ~ clean prog c j) \/
  (check_load_and_stores true prog = Ok (- EINVAL) /\
   exists j f c, znth prog j = Some f /\ loads f c /\ clean prog c j).
Proof.
  unfold check_load_and_stores. cbn [negb].
  destruct (cls_exact_loop prog 0 (replicate (length prog) 0xffff) 0) as [[E Hno]|H].
  - done.
  - split; [unfold zlen; by rewrite length_replicate|]. split; [lia|]. split.
    + intros c i m Hc Hi Hm. apply znth_Some in Hm as Hr. rewrite znth_lookup in Hm by lia.
      apply lookup_replicate in Hm as [-> _]. change 65535 with (u16 (Z.lnot 0)).
      rewrite testbit_all by done. split; [discriminate|]. intros (j & f & Hj & Hf & _).
      apply znth_Some in Hf. lia.
    + intros c Hc. rewrite Z.bits_0. split; [by left|done].
  - left. split; [done|]. intros j f c Hf. apply (Hno j f c); [|done].
    apply znth_Some in Hf. lia.
  - by right.
Qed.
End Exact.

(** ** Running an accepted filter *)

Definition env_ok (env : bpf_env) : Prop :=
  forall a n, is_u32 (oversized_shl env a n) /\ is_u32 (oversized_shr env a n).

(** Field ranges of the [struct sk_buff] members a filter reads. *)
Definition skb_meta_ok (skb : sk_buff) : Prop :=
  is_u16 (protocol skb) /\ is_u8 (pkt_type skb) /\ is_u32 (mark skb) /\
  is_u16 (queue_mapping skb) /\ is_u32 (rxhash skb) /\
  (forall d, dev skb = Some d -> is_u16 (dev_type d)).

Definition uses (c : bpf_s) (prog : list sock_filter) : Prop :=
  exists pc f, znth prog pc = Some f /\ op f = Some c.

Lemma get_be_range bs : bytes bs -> 0 <= get_be bs < 2 ^ (8 * zlen bs).
Proof.
  unfold get_be. enough (H : forall acc n, 0 <= n -> 0 <= acc < 2 ^ (8 * n) -> bytes bs ->
    0 <= foldl (fun acc b => acc * 256 + b) acc bs < 2 ^ (8 * (n + zlen bs))).
  { intros Hb. apply (H 0 0); [lia|simpl; lia|done]. }
  clear. induction bs as [|b bs IH]; intros acc n Hn Ha Hb.
  - unfold zlen. simpl. by rewrite Z.add_0_r.
  - apply Forall_cons_iff in Hb as [Hb Hbs]. cbn [foldl]. rewrite zlen_cons.
    replace (n + (1 + zlen bs)) with (n + 1 + zlen bs) by lia. apply IH; [lia| |done].
    replace (8 * (n + 1)) with (8 * n + 8) by lia. rewrite Z.pow_add_r by lia.
    unfold is_u8 in Hb. change (2 ^ 8) with 256 in *. nia.
Qed.

Lemma get_be_u32 bs : bytes bs -> zlen bs <= 4 -> is_u32 (get_be bs).
Proof.
  intros Hb Hl. destruct (get_be_range bs Hb). split; [done|].
  eapply Z.lt_le_trans; [done|]. apply Z.pow_le_mono_r; [lia|]. lia.
Qed.

Section Safety.
Context (env : bpf_env) (skb : sk_buff).
Hypothesis (Henv : env_ok env) (Hskb : skb_ok skb) (Hmeta : skb_meta_ok skb).

(** Effect of an instruction that touches the registers only. *)
Definition regs_step (st : bpf_regs) (r : bpf_step) : Prop :=
  match r with
  | Next off st' => off = 0 /\ mem st' = mem st /\ is_u32 (A st') /\ is_u32 (X st')
  | Return v => is_u32 v
  end.

Lemma load_pointer_safe K size :
  0 <= size ->
  exists r, load_pointer skb K size = Ok r /\
    forall bs, r = Some bs -> bytes bs /\ zlen bs = size.
Proof.
  intros Hs. assert (Ht := ok_end _ Hskb). unfold load_pointer. bcase.
  - rewrite skb_header_pointer_spec by done. eexists. split; [done|].
    intros bs. bcase; [|discriminate]. intros [= <-]. split.
    + apply bytes_slice. by apply skb_data_bytes.
    + apply slice_length; [done|done|]. by rewrite skb_data_len.
  - unfold bpf_internal_load_pointer_neg_helper.
    match goal with |- context [match ?o with Some _ => _ | None => _ end] => destruct o as [p|] end;
      [|by exists None].
    repeat bcase; cbn [andb]; try (by exists None).
    rewrite rd_slice_Ok by lia. eexists. split; [done|]. intros bs [= <-]. split.
    + apply bytes_slice, (ok_bytes _ Hskb).
    + apply slice_length; lia.
Qed.

Lemma load_ok K size st :
  is_u32 (A st) -> is_u32 (X st) -> 0 <= size <= 4 ->
  exists r, load skb K size st = Ok r /\ regs_step st r.
Proof.
  intros Ha Hx Hs. unfold load. destruct (load_pointer_safe K size) as (r & Hr & Hbs); [lia|].
  rewrite Hr. cbn [mbind res_bind]. eexists. split; [done|].
  destruct r as [bs|]; simpl; [|by split].
  destruct (Hbs bs eq_refl). repeat split; try apply Hx; apply get_be_u32; done || lia.
Qed.

Lemma run_alu_ok c K st r :
  is_u32 (A st) -> is_u32 (X st) -> is_u32 K ->
  run_alu env c K st = Some r -> regs_step st r.
Proof.
  intros Ha Hx HK. unfold run_alu.
  assert (Hset : forall v r, is_u32 v -> Some (Next 0 (set_A st v)) = Some r -> regs_step st r)
    by (intros v r' Hv [= <-]; done).
  assert (Hshift : forall n, is_u32 n -> is_u32 (lsh env (A st) n) /\ is_u32 (rsh env (A st) n)).
  { intros n Hn. unfold lsh, rsh. destruct (Henv (A st) n). bcase; [|done]. split; [apply u32_range|].
    apply shiftr_range; unfold is_u32 in *; lia. }
  destruct c; try discriminate; try (apply Hset; apply u32_range);
    try (apply Hset; apply land_range; unfold is_u32 in *; lia);
    try (apply Hset; apply lor_range; unfold is_u32 in *; lia);
    try (apply Hset; by apply Hshift).
  bcase; [by intros [= <-]|]. apply Hset. unfold is_u32 in *.
  split; [apply Z.div_pos; lia|]. apply Z.div_lt_upper_bound; nia.
Qed.

Lemma run_load_ok c K st r :
  is_u32 (A st) -> is_u32 (X st) ->
  run_load skb c K st = Some r -> exists s, r = Ok s /\ regs_step st s.
Proof.
  intros Ha Hx. assert (Hl : is_u32 (len skb)).
  { destruct (ok_len _ Hskb). unfold is_u32. lia. }
  destruct c; try discriminate; cbn [run_load]; intros [= <-];
    try (apply load_ok; [done|done|lia]);
    try (eexists; split; [done|]; by repeat split; try apply Ha; try apply Hx; try apply Hl).
  destruct (load_pointer_safe (s32 K) 1) as (r & Hr & Hbs); [lia|]. rewrite Hr.
  cbn [mbind res_bind]. eexists. split; [done|]. destruct r as [bs|]; [|done].
  split; [done|]. split; [done|]. split; [done|]. cbn [X set_X].
  destruct (Hbs bs eq_refl) as [Hb _]. destruct (get_be_range bs Hb) as [H0 _].
  assert (0 <= Z.land (get_be bs) 15 < 2 ^ 4).
  { rewrite Z.land_comm. apply land_range; lia. }
  rewrite Z.shiftl_mul_pow2 by lia. unfold is_u32. lia.
Qed.

Lemma run_nlattr_ok st :
  is_u32 (A st) -> is_u32 (X st) -> sizeof_nlattr <= len skb ->
  exists r, run_nlattr skb false st = Ok r /\ regs_step st r.
Proof.
  intros Ha Hx Hl. unfold run_nlattr, sizeof_nlattr in *.
  destruct (skb_is_nonlinear skb) eqn:Enl; [eexists; split; [done|]; by unfold regs_step|].
  destruct (ok_len _ Hskb) as [Hlen Hlt]. assert (Ht := ok_tail _ Hskb).
  assert (Hd := ok_data _ Hskb). assert (He := ok_end _ Hskb).
  rewrite u32_small by (unfold is_u32; lia).
  bcase; [eexists; split; [done|]; by unfold regs_step|].
  unfold skb_is_nonlinear, nonzero in Enl.
  apply negb_false_iff, Z.eqb_eq in Enl. unfold is_u32 in Ha.
  rewrite (s32_small (len skb - A st)), (s32_small (A st)) by (unfold is_s32; lia).
  destruct (nla_find_safe (linear_mem skb) (data skb + A st) (len skb - A st) (s32 (X st)))
    as [r Hr].
  - apply bytes_slice, (ok_bytes _ Hskb).
  - lia.
  - unfold linear_mem. rewrite slice_length by lia. lia.
  - rewrite Hr. cbn [mbind res_bind]. eexists. split; [done|]. unfold nlattr_result, regs_step.
    split; [done|]. split; [done|]. split; [|done]. cbn [A set_A].
    destruct r; [apply u32_range|done].
Qed.

Lemma run_anc_ok c st r :
  is_u32 (A st) -> is_u32 (X st) ->
  c <> BPF_S_ANC_NLATTR_NEST -> (c = BPF_S_ANC_NLATTR -> sizeof_nlattr <= len skb) ->
  run_anc env skb c st = Some r -> exists s, r = Ok s /\ regs_step st s.
Proof.
  intros Ha Hx Hnn Hn. destruct Hmeta as (Hp & Hpt & Hm & Hq & Hr & Hdev).
  assert (Hset : forall v r, is_u32 v -> Some (Ok (Next 0 (set_A st v))) = Some r ->
    exists s, r = Ok s /\ regs_step st s) by (intros v r' Hv [= <-]; eexists; by split).
  destruct c; try discriminate; cbn [run_anc]; try (by destruct Hnn).
  - apply Hset. unfold ntohs. ints.
  - apply Hset. ints.
  - destruct (dev skb); [apply Hset, u32_range|]. intros [= <-]. by eexists.
  - intros [= <-]. by apply run_nlattr_ok; [..|apply Hn].
  - by apply Hset.
  - apply Hset. ints.
  - destruct (dev skb) as [d|]; [|intros [= <-]; by eexists].
    apply Hset. specialize (Hdev d eq_refl). ints.
  - by apply Hset.
  - apply Hset, u32_range.
Qed.

(** The program under execution has passed both checks and ends in a
    return. *)
Context (prog : list sock_filter) (Hok : prog_ok prog).
Hypothesis (Hloads : forall j f c, znth prog j = Some f -> loads f c -> ~ clean prog c j).
Hypothesis (Hlast : exists f, znth prog (zlen prog - 1) = Some f /\
  (op f = Some BPF_S_RET_K \/ op f = Some BPF_S_RET_A)).
Hypothesis (Hnest : ~ uses BPF_S_ANC_NLATTR_NEST prog).
Hypothesis (Hnla : uses BPF_S_ANC_NLATTR prog -> sizeof_nlattr <= len skb).

(** Registers hold machine words; a cell that is not written at [pc] is one
    that some path to [pc] leaves unwritten. *)
Definition regs_ok (pc : Z) (st : bpf_regs) : Prop :=
  is_u32 (A st) /\ is_u32 (X st) /\ zlen (mem st) = BPF_MEMWORDS /\
  forall i v, znth (mem st) i = Some v ->
    match v with Some v => is_u32 v | None => clean prog i pc end.

Lemma regs_ok_fall pc f st st' :
  znth prog pc = Some f -> falls f = true -> kind_of f <> KStore -> regs_ok pc st ->
  mem st' = mem st -> is_u32 (A st') -> is_u32 (X st') -> regs_ok (pc + 1) st'.
Proof.
  intros Hf Hfall Hk (_ & _ & Hl & Hm) E Ha Hx. split; [done|]. split; [done|].
  rewrite E. split; [done|]. intros i [v|] Hi; specialize (Hm i _ Hi); [done|].
  eapply clean_fall; [done..|]. by intros [? _].
Qed.

Lemma regs_ok_store pc f st st' v :
  znth prog pc = Some f -> kind_of f = KStore -> regs_ok pc st -> is_u32 v ->
  mem_set st (k f) v = Ok st' -> regs_ok (pc + 1) st'.
Proof.
  intros Hf Hk (Ha & Hx & Hl & Hm) Hv. destruct (Hok _ _ Hf) as (_ & Hku & Hkd).
  rewrite Hk in Hkd. unfold is_u32 in Hku. unfold mem_set. rewrite zupd_Some by lia.
  cbn [of_option mbind res_bind]. intros E. injection E as <-. split; [done|]. split; [done|].
  cbn [mem]. rewrite zlen_insert. split; [done|]. intros i w.
  rewrite znth_insert by lia. destruct (Z.eqb_spec i (k f)) as [->|Hne]; [by intros [= <-]|].
  intros Hi. specialize (Hm i w Hi). destruct w; [done|].
  eapply clean_fall; [done..| |].
  - unfold falls. by rewrite Hk.
  - intros [_ ?]. congruence.
Qed.

Lemma mem_get_ok pc f st :
  znth prog pc = Some f -> kind_of f = KLoad -> regs_ok pc st ->
  exists v, mem_get st (k f) = Ok v /\ is_u32 v.
Proof.
  intros Hf Hk (_ & _ & Hl & Hm). destruct (Hok _ _ Hf) as (_ & Hku & Hkd).
  rewrite Hk in Hkd. unfold is_u32 in Hku.
  destruct (znth_is_Some (mem st) (k f)) as [w Hw]; [lia|]. specialize (Hm _ _ Hw).
  unfold mem_get. rewrite Hw. cbn [of_option mbind res_bind].
  destruct w as [v|]; [by exists v|]. by destruct (Hloads pc f (k f) Hf).
Qed.

(** One instruction: it does not fault, and either returns a word or
    continues, at a successor in the control-flow graph, in a good state. *)
Definition good_step (pc : Z) (f : sock_filter) (r : res bpf_step) : Prop :=
  exists s, r = Ok s /\
    match s with
    | Return v => is_u32 v
    | Next off st' =>
        regs_ok (pc + 1 + off) st' /\ op f <> Some BPF_S_RET_K /\ op f <> Some BPF_S_RET_A /\
        (In off (jump_offs f) \/ off = 0)
    end.

Lemma good_regs_step pc f st r :
  znth prog pc = Some f -> falls f = true -> kind_of f <> KStore -> regs_ok pc st ->
  op f <> Some BPF_S_RET_K -> op f <> Some BPF_S_RET_A ->
  (exists s, r = Ok s /\ regs_step st s) -> good_step pc f r.
Proof.
  intros Hf Hfall Hk Hst H1 H2 (s & -> & Hs). exists s. split; [done|].
  destruct s as [off st'|v]; [|done]. destruct Hs as (-> & Hm & Ha & Hx).
  rewrite Z.add_0_r. split; [|by auto]. by eapply regs_ok_fall.
Qed.

Lemma good_jump pc f st off :
  znth prog pc = Some f -> falls f = false -> In off (jump_offs f) -> regs_ok pc st ->
  good_step pc f (Ok (Next off st)).
Proof.
  intros Hf Hfall Hin (Ha & Hx & Hl & Hm). eexists. split; [done|]. split.
  - split; [done|]. split; [done|]. split; [done|]. intros i v Hi. specialize (Hm i v Hi).
    destruct v; [done|]. by eapply clean_jump.
  - unfold falls, kind_of in Hfall. split; [|split; [|by left]]; intros E; by rewrite E in Hfall.
Qed.

Lemma run_insn_good pc f st :
  znth prog pc = Some f -> regs_ok pc st -> good_step pc f (run_insn env skb f st).
Proof.
  intros Hf Hst. assert (Hst' := Hst). destruct Hst' as (Ha & Hx & Hl & Hm).
  destruct (Hok _ _ Hf) as ((c & Hop) & HK & _).
  assert (Hkind : kind_of f = kind_of f) by done. unfold kind_of in Hkind at 2. rewrite Hop in Hkind.
  assert (Huses : uses c prog) by (by exists pc, f).
  assert (Hreg : forall r, falls f = true -> kind_of f <> KStore ->
    c <> BPF_S_RET_K -> c <> BPF_S_RET_A ->
    (exists s, r = Ok s /\ regs_step st s) -> good_step pc f r).
  { intros r Hfall Hk H1 H2. apply good_regs_step; [done..|congruence|congruence]. }
  assert (Hld : kind_of f = KLoad -> exists v, mem_get st (k f) = Ok v /\ is_u32 v)
    by (intros; by eapply mem_get_ok).
  assert (Hsto : forall v, kind_of f = KStore -> is_u32 v -> c <> BPF_S_RET_K -> c <> BPF_S_RET_A ->
    good_step pc f (st' ← mem_set st (k f) v; Ok (Next 0 st'))).
  { intros v Hk Hv H1 H2. destruct (mem_set st (k f) v) as [st'|e] eqn:E.
    - exists (Next 0 st'). split; [done|]. rewrite Z.add_0_r, Hop. split; [by eapply regs_ok_store|].
      split; [congruence|]. split; [congruence|]. by right.
    - destruct (Hok _ _ Hf) as (_ & Hku & Hkd). rewrite Hk in Hkd. unfold is_u32 in Hku.
      unfold mem_set in E. rewrite zupd_Some in E by lia. discriminate. }
  assert (Hbr : forall b : bool, kind_of f = KJump [jt f; jf f] ->
    good_step pc f (Ok (Next (if b then jt f else jf f) st))).
  { intros b Hk. apply good_jump; [done|unfold falls; by rewrite Hk| |done].
    unfold jump_offs. rewrite Hk. destruct b; simpl; tauto. }
  assert (Hplain : forall r, kind_of f = KPlain -> c <> BPF_S_RET_K -> c <> BPF_S_RET_A ->
    (exists s, r = Ok s /\ regs_step st s) -> good_step pc f r).
  { intros r Hk. apply Hreg; [unfold falls; by rewrite Hk|by rewrite Hk]. }
  unfold run_insn. rewrite Hop.
  destruct (run_alu env c (k f) st) as [r|] eqn:E1.
  { apply Hplain; try (by destruct c). exists r. split; [done|]. by eapply run_alu_ok. }
  destruct (run_jmp c f st) as [r|] eqn:E2.
  { destruct c; try discriminate; injection E2 as <-; try (by apply Hbr).
    apply good_jump; [done|unfold falls; by rewrite Hkind| |done].
    unfold jump_offs. rewrite Hkind. by left. }
  destruct (run_load skb c (k f) st) as [r|] eqn:E3.
  { apply Hplain; try (by destruct c). by eapply run_load_ok. }
  destruct (run_misc c (k f) st) as [r|] eqn:E4.
  { destruct c; try discriminate; injection E4 as <-; try (by apply Hsto);
      try (destruct (Hld Hkind) as (v & -> & Hv); cbn [mbind res_bind]);
      try (apply Hreg; [unfold falls; by rewrite Hkind|by rewrite Hkind|done|done|];
           eexists; by split);
      eexists; by split. }
  destruct (run_anc env skb c st) as [r|] eqn:E5; [|by eexists].
  apply Hplain; try (by destruct c). apply (run_anc_ok c st r); [done..|by intros ->| |done].
  intros ->. by apply Hnla.
Qed.

Lemma run_loop_ok fuel : forall pc st,
  0 <= pc < zlen prog -> zlen prog - pc <= Z.of_nat fuel -> regs_ok pc st ->
  exists v, run_loop env skb fuel prog pc st = Ok v /\ is_u32 v.
Proof.
  induction fuel as [|fuel IH]; intros pc st Hpc Hfuel Hst; [lia|]. cbn [run_loop].
  destruct (znth_is_Some prog pc) as [f Hf]; [lia|]. rewrite Hf. cbn [of_option mbind res_bind].
  destruct (run_insn_good pc f st Hf Hst) as (s & -> & Hs). cbn [mbind res_bind].
  destruct s as [off st'|v]; [|by exists v]. destruct Hs as (Hst' & Hr1 & Hr2 & Hoff).
  assert (Hrange : 0 <= off /\ pc + 1 + off < zlen prog).
  { destruct Hoff as [Hin| ->]; [by apply (prog_jump_offs prog Hok pc f)|].
    split; [done|]. destruct Hlast as (g & Hg & Hret).
    destruct (Z.eq_dec pc (zlen prog - 1)) as [->|]; [|lia].
    rewrite Hf in Hg. injection Hg as <-. tauto. }
  apply IH; [lia|lia|done].
Qed.

Lemma sk_run_filter_ok : exists v, sk_run_filter env skb prog = Ok v /\ is_u32 v.
Proof.
  destruct Hlast as (g & Hg%znth_Some & _). unfold sk_run_filter. apply run_loop_ok.
  - unfold zlen in *. lia.
  - unfold zlen. lia.
  - split; [done|]. split; [done|]. cbn [mem]. split; [done|]. intros i v Hi.
    apply znth_Some in Hi as Hr. rewrite znth_lookup in Hi by lia.
    apply lookup_replicate in Hi as [-> _]. constructor.
Qed.
End Safety.

(** ** What [sk_chk_filter] accepts *)

Definition accepted (prog : list sock_filter) : Prop :=
  prog_ok prog /\
  (forall j f c, znth prog j = Some f -> loads f c -> ~ clean prog c j) /\
  (exists f, znth prog (zlen prog - 1) = Some f /\
     (op f = Some BPF_S_RET_K \/ op f = Some BPF_S_RET_A)).

Definition is_ret (f : sock_filter) : bool :=
  match op f with Some (BPF_S_RET_K | BPF_S_RET_A) => true | _ => false end.

Lemma is_ret_true f : is_ret f = true <-> op f = Some BPF_S_RET_K \/ op f = Some BPF_S_RET_A.
Proof.
  unfold is_ret. destruct (op f) as [c|]; [|split; [done|by intros []]].
  split; [destruct c; try done; auto|by intros [[= ->]|[= ->]]].
Qed.

(** The outcome of [sk_chk_filter], with the masks allocated or not. *)
Lemma sk_chk_filter_spec alloc prog :
  Forall insn_wf prog ->
  let '(ok, prog') := chk_loop (zlen prog) 0 prog in
  exists r prog'', sk_chk_filter alloc prog = Ok (r, prog'') /\
    (r = 0 \/ r = - EINVAL \/ r = - ENOMEM) /\
    (alloc = true -> r <> - ENOMEM) /\
    (r = 0 -> prog'' = prog' /\ accepted prog') /\
    (alloc = true -> 0 < zlen prog <= BPF_MAXINSNS -> ok = true -> accepted prog' -> r = 0).
Proof.
  intros Hwf. destruct (chk_loop (zlen prog) 0 prog) as [ok prog'] eqn:Ec.
  unfold sk_chk_filter. rewrite Ec. assert (Hz := zlen_nonneg prog).
  destruct (Z.eqb_spec (zlen prog) 0) as [Hl|Hl]; cbn [orb].
  { exists (- EINVAL), prog. unfold EINVAL, ENOMEM. repeat split; try done; try lia; auto. }
  destruct (Z.ltb_spec BPF_MAXINSNS (zlen prog)) as [Hm|Hm].
  { exists (- EINVAL), prog. unfold EINVAL, ENOMEM. repeat split; try done; try lia; auto. }
  destruct ok; cbn [negb].
  2:{ exists (- EINVAL), prog'. unfold EINVAL, ENOMEM. repeat split; try done; try lia; auto. }
  destruct (chk_loop_ok (zlen prog) 0 prog prog') as [Hlen Hok]; [done|lia|lia|done|done|].
  assert (Hl' : zlen prog' = zlen prog) by (unfold zlen; lia).
  assert (Hpok : prog_ok prog') by (intros pc f Hf; rewrite Hl'; by apply Hok).
  destruct (znth_is_Some prog' (zlen prog - 1)) as [f Hf]; [lia|]. rewrite Hf.
  cbn [of_option mbind res_bind].
  assert (Hret := is_ret_true f).
  match goal with |- exists r p, ?e = _ /\ _ => assert (He : e =
    if is_ret f then ret ← check_load_and_stores alloc prog'; Ok (ret, prog') else Ok (- EINVAL, prog')) end.
  { unfold is_ret. destruct (op f) as [[]|]; done. }
  rewrite He. destruct (is_ret f).
  2:{ exists (- EINVAL), prog'. split; [done|]. unfold EINVAL, ENOMEM.
      split; [auto|]. split; [lia|]. split; [lia|]. intros _ _ _ (_ & _ & g & Hg & Hgr).
      rewrite Hl', Hf in Hg. injection Hg as <-. by apply Hret in Hgr. }
  destruct alloc.
  - destruct (check_load_and_stores_spec prog' Hpok) as [[E Hno]|[E (j & g & c & Hg & Hld & Hcl)]]; rewrite E.
    + exists 0, prog'. split; [done|]. unfold ENOMEM. split; [auto|]. split; [lia|]. split; [|done].
      intros _. split; [done|]. split; [done|]. split; [done|]. exists f. rewrite Hl'. split; [done|by apply Hret].
    + exists (- EINVAL), prog'. split; [done|]. unfold EINVAL, ENOMEM. split; [auto|]. split; [lia|].
      split; [lia|]. intros _ _ _ (_ & Hno & _). by destruct (Hno j g c).
  - exists (- ENOMEM), prog'. split; [done|]. unfold ENOMEM. split; [auto|]. split; [done|]. split; [lia|done].
Qed.

Lemma sk_chk_filter_accepts alloc prog prog' :
  Forall insn_wf prog -> sk_chk_filter alloc prog = Ok (0, prog') -> accepted prog'.
Proof.
  intros Hwf Hchk. assert (Hs := sk_chk_filter_spec alloc prog Hwf).
  destruct (chk_loop _ _ _) as [ok prog1]. destruct Hs as (r & prog2 & E & _ & _ & Hacc & _).
  rewrite Hchk in E. injection E as <- <-. by destruct (Hacc eq_refl) as [-> Ha].
Qed.

Lemma accepted_run env skb prog :
  env_ok env -> skb_ok skb -> skb_meta_ok skb -> accepted prog ->
  ~ uses BPF_S_ANC_NLATTR_NEST prog ->
  (uses BPF_S_ANC_NLATTR prog -> sizeof_nlattr <= len skb) ->
  exists v, sk_run_filter env skb prog = Ok v /\ is_u32 v.
Proof. intros ??? (Hok & Hld & Hlast) ??. by apply sk_run_filter_ok. Qed.

(** ** Correctness of the socket filter *)

(** C2: memory safety and termination of accepted filters.  Whatever program
    a user passes in, once [sk_chk_filter] accepts it, [sk_run_filter] on any
    well-formed packet runs to a return within one pass over the program: no
    instruction outside the program is fetched, no scratch cell is read before
    it is written or outside the array, and no packet byte outside the buffer
    is read.  The netlink-attribute extensions are the exception: nested
    lookup is excluded, and the flat lookup needs a packet of at least an
    attribute header. *)
Theorem sk_run_filter_safe env skb alloc prog prog' :
  env_ok env -> skb_ok skb -> skb_meta_ok skb -> Forall insn_wf prog ->
  sk_chk_filter alloc prog = Ok (0, prog') ->
  ~ uses BPF_S_ANC_NLATTR_NEST prog' ->
  (uses BPF_S_ANC_NLATTR prog' -> sizeof_nlattr <= len skb) ->
  exists v, sk_run_filter env skb prog' = Ok v /\ is_u32 v.
Proof.
  intros Henv Hskb Hmeta Hwf Hchk. apply accepted_run; [done..|].
  by apply (sk_chk_filter_accepts alloc prog).
Qed.

Definition insn_wfb (f : sock_filter) : bool :=
  (0 <=? code f) && (code f <? 2 ^ 16) && (0 <=? jt f) && (jt f <? 2 ^ 8) &&
  (0 <=? jf f) && (jf f <? 2 ^ 8) && (0 <=? k f) && (k f <? 2 ^ 32).

Lemma insn_wfb_ok prog : forallb insn_wfb prog = true -> Forall insn_wf prog.
Proof.
  intros H. apply List.Forall_forall. intros f Hf.
  apply (proj1 (forallb_forall _ _) H) in Hf. unfold insn_wfb in Hf. rewrite !andb_true_iff in Hf.
  unfold insn_wf, is_u16, is_u8, is_u32. lia.
Qed.

Definition uses_b (c : bpf_s) (prog : list sock_filter) : bool :=
  existsb (fun f => match op f with Some c' => bpf_s_code c' =? bpf_s_code c | None => false end) prog.

Lemma uses_b_false c prog : uses_b c prog = false -> ~ uses c prog.
Proof.
  intros H (pc & f & Hf & Hop). apply not_true_iff_false in H. apply H. apply existsb_exists.
  exists f. split; [|rewrite Hop; apply Z.eqb_refl]. apply znth_Some in Hf as Hr.
  rewrite znth_lookup in Hf by lia. by apply list_elem_of_In, (list_elem_of_lookup_2 _ (Z.to_nat pc)).
Qed.

(** "Accept UDP": the protocol byte of an IPv4 header is kept in scratch cell
    3, which both branches write before it is read back. *)
Definition example_prog : list sock_filter :=
  [mk_insn (BPF_LD + BPF_B + BPF_ABS) 0 0 9;
   mk_insn (BPF_JMP + BPF_JEQ + BPF_K) 0 2 17;
   mk_insn BPF_ST 0 0 3;
   mk_insn (BPF_JMP + BPF_JA) 0 0 1;
   mk_insn BPF_STX 0 0 3;
   mk_insn (BPF_LD + BPF_MEM) 0 0 3;
   mk_insn (BPF_ALU + BPF_DIV + BPF_K) 0 0 17;
   mk_insn (BPF_RET + BPF_A) 0 0 0].

Definition example_env : bpf_env := mk_env (fun _ _ => 0) (fun _ _ => 0) 0.

Definition example_out : list sock_filter := snd (chk_loop (zlen example_prog) 0 example_prog).

Lemma example_env_ok : env_ok example_env.
Proof. intros a n. unfold is_u32. simpl. lia. Qed.

Lemma example_meta_ok : skb_meta_ok example_skb.
Proof. unfold skb_meta_ok, example_skb, is_u16, is_u8, is_u32. simpl. repeat split; try lia; done. Qed.

Lemma sk_run_filter_safe_witness :
  exists v, sk_run_filter example_env example_skb example_out = Ok v /\ is_u32 v.
Proof.
  apply (sk_run_filter_safe example_env example_skb true example_prog example_out
    example_env_ok example_skb_ok example_meta_ok).
  - apply insn_wfb_ok. reflexivity.
  - vm_compute. reflexivity.
  - apply uses_b_false. vm_compute. reflexivity.
  - intros H. exfalso. revert H. apply uses_b_false. vm_compute. reflexivity.
Defined.

(** C12: the verdict of [sk_chk_filter] is exact.  It never faults; when the
    mask array can be allocated it returns 0 or [-EINVAL].  For a program of 1
    to 4096 instructions it returns 0 if and only if every instruction is one of
    the table with its operand in range (no division by 0, a scratch cell below
    16, jumps within the program; [renders]), the last one is a return, and no
    scratch cell is loaded at a point that some path from the entry reaches
    without having stored to that cell.  Then the program it leaves is the one
    [rendered] says: instructions by their internal codes, the divisor by its
    reciprocal, loads at the ancillary offsets by the ancillary ones. *)
Theorem sk_chk_filter_exact prog :
  Forall insn_wf prog -> 0 < zlen prog <= BPF_MAXINSNS ->
  exists r prog'', sk_chk_filter true prog = Ok (r, prog'') /\
    (r = 0 \/ r = - EINVAL) /\
    (r = 0 <-> exists prog', rendered prog prog' /\
     (forall j f c, znth prog' j = Some f -> loads f c -> ~ clean prog' c j) /\
     (exists f, znth prog' (zlen prog' - 1) = Some f /\
        (op f = Some BPF_S_RET_K \/ op f = Some BPF_S_RET_A))) /\
    (r = 0 -> rendered prog prog'').
Proof.
  intros Hwf Hlen. assert (Hs := sk_chk_filter_spec true prog Hwf). assert (Hren := chk_loop_rendered prog).
  destruct (chk_loop (zlen prog) 0 prog) as [ok prog'] eqn:Ec.
  destruct Hs as (r & prog'' & E & Hr & Hm & Hacc & Hconv). exists r, prog''.
  split; [done|]. specialize (Hm eq_refl). split; [tauto|].
  assert (Hok : r = 0 -> ok = true).
  { intros Hr0. destruct ok; [done|]. unfold sk_chk_filter in E. rewrite Ec in E.
    destruct (Z.eqb_spec (zlen prog) 0); [lia|].
    destruct (Z.ltb_spec BPF_MAXINSNS (zlen prog)); [lia|]. cbn [orb negb] in E.
    injection E as <- _. discriminate. }
  assert (Hfor : r = 0 -> rendered prog prog').
  { intros Hr0. apply Hren; [done|lia|]. by rewrite (Hok Hr0). }
  split; [split|].
  - intros Hr0. exists prog'. destruct (Hacc Hr0) as (_ & _ & Hno & Hlast). split; [by apply Hfor|done].
  - intros (q & Hq & Hno & Hlast). apply Hren in Hq; [|done|lia]. injection Hq as -> ->. apply Hconv; [done|done|done|]. split; [|done].
    destruct (chk_loop_ok (zlen prog) 0 prog q) as [Hl Hokq]; [done|lia|lia|lia|done|].
    intros pc f Hf. replace (zlen q) with (zlen prog) by (unfold zlen; lia). by apply Hokq.
  - intros Hr0. destruct (Hacc Hr0) as (-> & _). by apply Hfor.
Qed.

Lemma sk_chk_filter_exact_witness :
  (exists r prog'', sk_chk_filter true example_prog = Ok (r, prog'') /\
    (r = 0 \/ r = - EINVAL) /\
    (r = 0 <-> exists prog', rendered example_prog prog' /\
     (forall j f c, znth prog' j = Some f -> loads f c -> ~ clean prog' c j) /\
     (exists f, znth prog' (zlen prog' - 1) = Some f /\
        (op f = Some BPF_S_RET_K \/ op f = Some BPF_S_RET_A))) /\
    (r = 0 -> rendered example_prog prog'')) /\
  sk_chk_filter true example_prog = Ok (0, example_out).
Proof.
  split; [|vm_compute; reflexivity].
  apply (sk_chk_filter_exact example_prog); [apply insn_wfb_ok; reflexivity|].
  vm_compute. split; [done|discriminate].
Defined.

(** ** Attaching and detaching *)

(** Memory the socket is charged for its filter. *)
Definition charge (sk : sock) : Z :=
  match sk_filter_p sk with Some fp => sk_filter_len fp | None => 0 end.

Definition sock_ok (sk : sock) : Prop :=
  charge sk <= sk_omem_alloc sk < 2 ^ 30 /\
  match sk_filter_p sk with
  | Some fp => 1 <= refcnt fp < 2 ^ 31 /\ is_u16 (flen fp) /\ accepted (insns fp)
  | None => True
  end.

Definition attach_env_ok (env : attach_env) : Prop := 0 <= sysctl_optmem_max env < 2 ^ 30.

Definition fprog_ok (fprog : sock_fprog) : Prop :=
  is_u16 (fprog_len fprog) /\
  match fprog_filter fprog with Some user => Forall insn_wf user | None => True end.

Lemma sk_filter_len_eq fp : is_u16 (flen fp) -> sk_filter_len fp = 8 * flen fp + 20.
Proof.
  intros H. unfold sk_filter_len, sizeof_sock_filter, sizeof_sk_filter.
  rewrite u32_small; unfold is_u16, is_u32 in *; lia.
Qed.

Lemma charge_range sk : sock_ok sk -> 0 <= charge sk <= 524300.
Proof.
  intros [_ H]. unfold charge. destruct (sk_filter_p sk) as [fp|]; [|lia].
  rewrite sk_filter_len_eq by tauto. destruct H as (_ & H & _). unfold is_u16 in H. lia.
Qed.

Lemma sock_kmalloc_spec env sk size :
  sock_ok sk -> attach_env_ok env -> 0 <= size <= 524300 ->
  sock_kmalloc env sk size = (false, sk) \/
  (sock_kmalloc env sk size = (true, set_omem sk (sk_omem_alloc sk + size)) /\
   sk_omem_alloc sk + size < 2 ^ 30).
Proof.
  intros Hsk Henv Hs. assert (Hc := charge_range sk Hsk). destruct Hsk as [Ho _].
  unfold sock_kmalloc, attach_env_ok in *. rewrite (s32_small (_ + _)) by (unfold is_s32; lia).
  destruct (_ && _) eqn:E; [|by left]. apply andb_true_iff in E as [_ E%Z.ltb_lt].
  destruct (kmalloc_filter env); [right; split; [done|lia]|left]. cbn [sk_omem_alloc set_omem].
  rewrite s32_small by (unfold is_s32; lia). destruct sk as [f o]. unfold set_omem; cbn.
  do 2 f_equal. lia.
Qed.

Lemma slice_Forall {T} (P : T -> Prop) l i n : Forall P l -> Forall P (slice l i n).
Proof. intros H. unfold slice. by apply Forall_take, Forall_drop. Qed.

(** What the socket is after a successful exchange of its filter for [new]. *)
Lemma install_ok sk o new :
  sock_ok sk -> charge sk <= o -> o < 2 ^ 30 -> 0 <= charge (mk_sock new 0) ->
  o = sk_omem_alloc sk + charge (mk_sock new 0) ->
  match new with
  | Some fp => 1 <= refcnt fp < 2 ^ 31 /\ is_u16 (flen fp) /\ accepted (insns fp)
  | None => True
  end ->
  let sk' := mk_sock new (s32 (o - charge sk)) in
  sock_ok sk' /\ sk_omem_alloc sk' - charge sk' = sk_omem_alloc sk - charge sk.
Proof.
  intros Hsk Hle Ho Hnn Eo Hnew. assert (Hc := charge_range sk Hsk). cbn zeta.
  assert (Hs : sk_omem_alloc (mk_sock new (s32 (o - charge sk))) = o - charge sk).
  { cbn. apply s32_small. unfold is_s32. lia. }
  change (charge (mk_sock new (s32 (o - charge sk)))) with (charge (mk_sock new 0)).
  rewrite Hs. split; [|lia]. split; [|done]. rewrite Hs.
  change (charge (mk_sock new (s32 (o - charge sk)))) with (charge (mk_sock new 0)).
  destruct Hsk as [? _]. lia.
Qed.

Lemma sk_attach_filter_spec env fprog sk :
  sock_ok sk -> attach_env_ok env -> fprog_ok fprog ->
  exists err sk' freed, sk_attach_filter env fprog sk = Ok (err, sk', freed) /\
    sock_ok sk' /\ sk_omem_alloc sk' - charge sk' = sk_omem_alloc sk - charge sk /\
    (err = 0 \/ err = - EINVAL \/ err = - ENOMEM \/ err = - EFAULT) /\
    (err <> 0 -> sk' = sk) /\
    (err = 0 ->
       (exists fp, sk_filter_p sk' = Some fp /\ refcnt fp = 1 /\ accepted (insns fp)) /\
       freed = match sk_filter_p sk with Some old => sk_filter_release old | None => [] end).
Proof.
  intros Hsk Henv (Hlen & Huser). unfold sk_attach_filter.
  destruct (fprog_filter fprog) as [user|].
  2:{ exists (- EINVAL), sk, []. repeat split; try done; try apply Hsk; auto. }
  assert (Hfs : u32 (sizeof_sock_filter * fprog_len fprog) + sizeof_sk_filter = 8 * fprog_len fprog + 20).
  { unfold sizeof_sock_filter, sizeof_sk_filter. rewrite u32_small; unfold is_u16, is_u32 in *; lia. }
  rewrite Hfs. assert (Hc := charge_range sk Hsk). assert (Hom := proj1 (proj1 Hsk)).
  unfold is_u16 in Hlen.
  destruct (sock_kmalloc_spec env sk (8 * fprog_len fprog + 20) Hsk Henv) as [->|[-> Ho]]; [lia| |];
    cbn [negb].
  { exists (- ENOMEM), sk, []. repeat split; try done; try apply Hsk; auto. }
  set (o := sk_omem_alloc sk + (8 * fprog_len fprog + 20)) in *.
  assert (Hback : set_omem (set_omem sk o) (s32 (o - (8 * fprog_len fprog + 20))) = sk).
  { destruct Hsk as [? _]. destruct sk as [f oo]. unfold set_omem; cbn in *. f_equal. rewrite s32_small; [lia|].
    unfold is_s32. lia. }
  bcase.
  { exists (- EFAULT), sk, []. unfold sock_kfree_s. cbn [sk_omem_alloc set_omem].
    change (mk_sock _ o) with (set_omem sk o). rewrite Hback.
    repeat split; try done; try apply Hsk; auto. }
  assert (Hwf := slice_Forall _ user 0 (fprog_len fprog) Huser).
  assert (Hs := sk_chk_filter_spec (kmalloc_masks env) _ Hwf).
  destruct (chk_loop _ _ _) as [ok prog1]. destruct Hs as (err & prog' & E & Herr & _ & Hacc & _).
  rewrite E. cbn [mbind res_bind]. unfold nonzero. set (fp := mk_sk_filter 1 (fprog_len fprog) prog').
  assert (Hfp : sk_filter_len fp = 8 * fprog_len fprog + 20) by (by apply sk_filter_len_eq).
  destruct (Z.eqb_spec err 0) as [->|Hne]; cbn [negb].
  - destruct (Hacc eq_refl) as [-> Ha].
    assert (Hnew : 1 <= refcnt fp < 2 ^ 31 /\ is_u16 (flen fp) /\ accepted (insns fp)).
    { split; [simpl; lia|]. by split. }
    destruct (install_ok sk o (Some fp)) as [Hok Hacct];
      [done|lia|done|unfold charge; cbn; lia|unfold charge; cbn [sk_filter_p]; lia|done|].
    cbn [sk_filter_p set_omem].
    destruct (sk_filter_p sk) as [old|] eqn:Eold.
    + assert (Hch : sk_filter_len old = charge sk) by (unfold charge; by rewrite Eold).
      unfold sk_filter_uncharge. rewrite Hch. cbn [sk_omem_alloc set_filter set_omem sk_filter_p].
      eexists 0, _, _. split; [done|]. split; [done|]. split; [done|]. split; [auto|].
      split; [done|]. intros _. split; [|done]. by exists fp.
    + assert (Hch : charge sk = 0) by (unfold charge; by rewrite Eold).
      rewrite Hch, Z.sub_0_r, (s32_small o) in Hok, Hacct by (unfold is_s32; lia). rewrite Hch.
      eexists 0, _, _. split; [done|]. split; [done|]. split; [done|]. split; [auto|].
      split; [done|]. intros _. split; [|done]. by exists fp.
  - unfold sk_filter_uncharge. rewrite Hfp. cbn [sk_omem_alloc set_omem].
    change (mk_sock _ o) with (set_omem sk o). rewrite Hback.
    eexists err, sk, _. split; [done|]. split; [done|]. split; [done|]. split; [tauto|]. by split.
Qed.

Lemma sk_detach_filter_spec sk err sk' freed :
  sock_ok sk -> sk_detach_filter sk = (err, sk', freed) ->
  sock_ok sk' /\ sk_omem_alloc sk' - charge sk' = sk_omem_alloc sk - charge sk.
Proof.
  intros Hsk. unfold sk_detach_filter. destruct (sk_filter_p sk) as [fp|] eqn:Efp.
  - intros [= _ <- _]. assert (Hch : charge sk = sk_filter_len fp) by (unfold charge; by rewrite Efp).
    rewrite <- Hch. assert (H0 := proj1 Hsk).
    apply (install_ok sk (sk_omem_alloc sk) None); try done; try lia. cbn. lia.
  - by intros [= _ <- _].
Qed.

(** One system call on the socket. *)
Inductive sk_step : sock -> sock -> Prop :=
  | step_attach env fprog sk err sk' freed :
      attach_env_ok env -> fprog_ok fprog ->
      sk_attach_filter env fprog sk = Ok (err, sk', freed) -> sk_step sk sk'
  | step_detach sk err sk' freed :
      sk_detach_filter sk = (err, sk', freed) -> sk_step sk sk'.

Lemma sk_step_ok sk sk' :
  sock_ok sk -> sk_step sk sk' ->
  sock_ok sk' /\ sk_omem_alloc sk' - charge sk' = sk_omem_alloc sk - charge sk.
Proof.
  intros Hsk Hst. destruct Hst as [env fprog sk err sk' freed Henv Hf E|sk err sk' freed E].
  - destruct (sk_attach_filter_spec env fprog sk Hsk Henv Hf) as (e & s' & fr & E' & Hok & Ha & _).
    rewrite E in E'. injection E' as <- <- <-. done.
  - by apply (sk_detach_filter_spec sk err sk' freed).
Qed.

(** C35: the socket over any history of [SO_ATTACH_FILTER] and
    [SO_DETACH_FILTER] calls, whatever programs the user passes and whichever
    allocations fail: the installed filter is always one that the checker
    accepts, and the option memory the socket is charged for other purposes
    never changes, so nothing is leaked or returned twice. *)
Theorem socket_history_invariant sk sk' :
  sock_ok sk -> rtc sk_step sk sk' ->
  sock_ok sk' /\ sk_omem_alloc sk' - charge sk' = sk_omem_alloc sk - charge sk.
Proof.
  intros Hsk Hr. induction Hr as [sk|sk sk1 sk2 Hst _ IH]; [done|].
  destruct (sk_step_ok sk sk1 Hsk Hst) as [Hok Ha]. destruct (IH Hok) as [Hok' Ha'].
  split; [done|lia].
Qed.

Definition example_sock : sock := mk_sock None 100.
Definition example_attach : attach_env := mk_attach_env 10240 true true.
Definition example_sock' : sock := mk_sock (Some (mk_sk_filter 1 8 example_out)) 184.

Lemma socket_history_invariant_witness :
  sock_ok example_sock' /\
  sk_omem_alloc example_sock' - charge example_sock' = sk_omem_alloc example_sock - charge example_sock.
Proof.
  apply (socket_history_invariant example_sock example_sock').
  - split; [vm_compute; by split|done].
  - apply rtc_once, (step_attach example_attach (mk_fprog 8 (Some example_prog)) _ 0 _ []).
    + vm_compute. by split.
    + split; [vm_compute; by split|]. apply insn_wfb_ok. reflexivity.
    + vm_compute. reflexivity.
Defined.

(** [sk_attach_filter] never faults; on an error the socket is exactly as
    before, on success it has the new filter, which the checker accepts, with
    one reference, and the old filter has lost one. *)
Theorem sk_attach_filter_correct env fprog sk :
  sock_ok sk -> attach_env_ok env -> fprog_ok fprog ->
  exists err sk' freed, sk_attach_filter env fprog sk = Ok (err, sk', freed) /\
    (err = 0 \/ err = - EINVAL \/ err = - ENOMEM \/ err = - EFAULT) /\
    (err <> 0 -> sk' = sk) /\
    (err = 0 ->
       (exists fp, sk_filter_p sk' = Some fp /\ refcnt fp = 1 /\ accepted (insns fp)) /\
       freed = match sk_filter_p sk with Some old => sk_filter_release old | None => [] end).
Proof.
  intros Hsk Henv Hf.
  destruct (sk_attach_filter_spec env fprog sk Hsk Henv Hf) as (e & s' & fr & E' & _ & _ & H).
  by exists e, s', fr.
Qed.

Lemma sk_attach_filter_correct_witness :
  exists err sk' freed,
    sk_attach_filter example_attach (mk_fprog 8 (Some example_prog)) example_sock = Ok (err, sk', freed) /\
    (err = 0 \/ err = - EINVAL \/ err = - ENOMEM \/ err = - EFAULT) /\
    (err <> 0 -> sk' = example_sock) /\
    (err = 0 ->
       (exists fp, sk_filter_p sk' = Some fp /\ refcnt fp = 1 /\ accepted (insns fp)) /\
       freed = []).
Proof.
  apply (sk_attach_filter_correct example_attach (mk_fprog 8 (Some example_prog)) example_sock).
  - split; [vm_compute; by split|done].
  - vm_compute. by split.
  - split; [vm_compute; by split|]. apply insn_wfb_ok. reflexivity.
Defined.

Lemma example_accepted : accepted example_out.
Proof.
  apply (sk_chk_filter_accepts true example_prog); [apply insn_wfb_ok; reflexivity|].
  vm_compute. reflexivity.
Qed.

(** [sk_filter] on a packet for a socket whose filter the checker
    accepted: the packet is tossed with [-EPERM], unchanged, when the filter
    returns 0, and otherwise cut to the first bytes, as many as the filter
    returns; the only other outcome is a failed allocation while cutting. *)
Theorem sk_filter_outcome env tenv sk skb fp :
  env_ok env -> skb_ok skb -> skb_meta_ok skb -> sock_ok sk -> sk_filter_p sk = Some fp ->
  ~ uses BPF_S_ANC_NLATTR_NEST (insns fp) -> ~ uses BPF_S_ANC_NLATTR (insns fp) ->
  exists v err skb',
    sk_run_filter env skb (insns fp) = Ok v /\ sk_filter env tenv 0 sk skb = Ok (err, skb') /\
    (v = 0 -> err = - EPERM /\ skb' = skb) /\
    (v <> 0 -> err = 0 ->
       skb_ok skb' /\ len skb' = Z.min v (len skb) /\ skb_data skb' = slice (skb_data skb) 0 v) /\
    (v <> 0 -> err <> 0 -> skb' = skb) /\
    (v <> 0 -> (forall s, expand_err tenv s = 0) -> (forall s, clone_fails tenv s = false) -> err = 0).
Proof.
  intros Henv Hskb Hmeta Hsk Hfp Hn1 Hn2. assert (Ha := proj2 Hsk). rewrite Hfp in Ha.
  destruct (accepted_run env skb (insns fp)) as (v & Hv & Hv32); try done; [tauto|].
  unfold sk_filter. rewrite Hfp, Hv. cbn [nonzero Z.eqb negb mbind res_bind].
  destruct (pskb_trim tenv skb v) as [err skb'] eqn:Et.
  assert (Hs := pskb_trim_spec tenv skb v err skb' Hskb (proj1 Hv32) Et).
  exists v. unfold nonzero. destruct (Z.eqb_spec v 0) as [->|Hne]; cbn [negb].
  - exists (- EPERM), skb. repeat split; done.
  - exists err, skb'. split; [done|]. split; [done|]. split; [done|].
    split; [|split]; intros Hv0.
    + intros ->. done.
    + intros He. by rewrite (proj2 (Z.eqb_neq _ _) He) in Hs.
    + intros Hex Hcl. assert (Hz := pskb_trim_succeeds tenv skb v Hex Hcl). by rewrite Et in Hz.
Qed.

Lemma sk_filter_outcome_witness :
  exists v err skb',
    let tenv := mk_trim_env (fun _ => 0) (fun _ => false) in
    sk_run_filter example_env example_skb example_out = Ok v /\
    sk_filter example_env tenv 0 example_sock' example_skb = Ok (err, skb') /\
    (v = 0 -> err = - EPERM /\ skb' = example_skb) /\
    (v <> 0 -> err = 0 ->
       skb_ok skb' /\ len skb' = Z.min v 9 /\ skb_data skb' = slice (skb_data example_skb) 0 v) /\
    (v <> 0 -> err <> 0 -> skb' = example_skb) /\
    (v <> 0 -> (forall s, expand_err tenv s = 0) -> (forall s, clone_fails tenv s = false) -> err = 0).
Proof.
  apply (sk_filter_outcome example_env (mk_trim_env (fun _ => 0) (fun _ => false)) example_sock'
           example_skb (mk_sk_filter 1 8 example_out)
           example_env_ok example_skb_ok example_meta_ok).
  - split; [vm_compute; by split|]. split; [simpl; lia|]. split; [vm_compute; by split|].
    exact example_accepted.
  - done.
  - apply uses_b_false. vm_compute. reflexivity.
  - apply uses_b_false. vm_compute. reflexivity.
Defined.

(** ** The netlink-attribute extensions *)

(** A buffer of linear data only. *)
Definition linear_skb (l : list Z) : sk_buff :=
  mk_skb l 0 (zlen l) (zlen l) 0 0 0 8 0 0 0 0 None [] [].

(** The bounds check of the nested attribute lookup is dead code:
    [nla->nla_len > A - skb->len] subtracts the wrong way round.  The checker
    accepts this program, and on a four-byte packet, which an attribute header
    with length 65535 fills, the interpreter reads behind the packet. *)
Theorem nlattr_nest_reads_out_of_bounds :
  let prog := [mk_insn (BPF_LDX + BPF_IMM) 0 0 1;
               mk_insn (BPF_LD + BPF_W + BPF_ABS) 0 0 (u32 (SKF_AD_OFF + SKF_AD_NLATTR_NEST));
               mk_insn (BPF_RET + BPF_A) 0 0 0] in
  let skb := linear_skb [255; 255; 0; 0] in
  skb_ok skb /\
  exists prog', sk_chk_filter true prog = Ok (0, prog') /\
    forall env, sk_run_filter env skb prog' = Fault OutOfBounds.
Proof.
  cbn zeta. split.
  - constructor; try (by vm_compute); try done.
    repeat (apply List.Forall_cons; [by vm_compute|]). done.
  - eexists. split; [vm_compute; reflexivity|]. intros env. vm_compute. reflexivity.
Qed.

(** For a packet shorter than an attribute header the bounds check of the
    flat lookup wraps around: [skb->len - sizeof(struct nlattr)] is close to
    2^32, and an index behind it takes the interpreter in front of the
    packet. *)
Theorem nlattr_short_packet_reads_out_of_bounds :
  let prog := [mk_insn (BPF_LD + BPF_IMM) 0 0 (2 ^ 32 - 100);
               mk_insn (BPF_LD + BPF_W + BPF_ABS) 0 0 (u32 (SKF_AD_OFF + SKF_AD_NLATTR));
               mk_insn (BPF_RET + BPF_A) 0 0 0] in
  let skb := linear_skb [1; 2] in
  skb_ok skb /\
  exists prog', sk_chk_filter true prog = Ok (0, prog') /\
    forall env, sk_run_filter env skb prog' = Fault OutOfBounds.
Proof.
  cbn zeta. split.
  - constructor; try (by vm_compute); try done.
    repeat (apply List.Forall_cons; [by vm_compute|]). done.
  - eexists. split; [vm_compute; reflexivity|]. intros env. vm_compute. reflexivity.
Qed.
