(* ===== verification/Stp.v ===== *)
(** The spanning tree protocol of the Ethernet bridge: data and operations of
    net/bridge/br_stp.c, br_stp_bpdu.c, br_stp_timer.c and br_stp_if.c, with
    the structures of br_private.h and br_private_stp.h.

    The state of one bridge is a record with its ports in the order of
    [br->port_list]; a [struct net_bridge_port *] is the index of the port in
    that list.  Every handler runs under the bridge lock, at one value of
    [jiffies]; it is a function from the state to the new state, and a
    dereference of the null pointer that [br_get_port] may return is a fault.
    Calls that leave the protocol (frames handed to the device, notifications,
    the flush of the forwarding database) are events of a trace. *)

From S2P Require Import Prelude Str.

(** ** Data *)

(** [struct bridge_id]: two bytes of priority, six of address. *)
Record bid : Type := mk_bid {
  prio : list Z;
  addr : list Z
}.

(** [BR_STATE_*]. *)
Inductive port_state : Type :=
  | DISABLED
  | LISTENING
  | LEARNING
  | FORWARDING
  | BLOCKING.

Inductive stp_mode : Type :=
  | BR_NO_STP
  | BR_KERNEL_STP
  | BR_USER_STP.

#[global] Instance port_state_eq_dec : EqDecision port_state.
Proof. solve_decision. Defined.
#[global] Instance stp_mode_eq_dec : EqDecision stp_mode.
Proof. solve_decision. Defined.
#[global] Instance bid_eq_dec : EqDecision bid.
Proof. solve_decision. Defined.

(** [struct timer_list]: the expiry time while the timer is pending. *)
Definition timer : Type := option Z.

Record net_bridge_port : Type := mk_port {
  port_no : Z;
  priority : Z;
  port_id : Z;
  state : port_state;
  path_cost : Z;
  topology_change_ack : bool;
  config_pending : bool;
  designated_root : bid;
  designated_cost : Z;
  designated_bridge : bid;
  designated_port : Z;
  designated_age : Z;
  forward_delay_timer : timer;
  hold_timer : timer;
  message_age_timer : timer;
  is_dedicated_stp_port : bool;
  is_bpdu_blocked : bool;
  p_dev_addr : list Z;
  p_dev_up : bool;
  p_carrier : bool
}.

Record net_bridge : Type := mk_br {
  bridge_id : bid;
  br_designated_root : bid;
  root_path_cost : Z;
  root_port : Z;
  max_age : Z;
  hello_time : Z;
  forward_delay : Z;
  bridge_max_age : Z;
  bridge_hello_time : Z;
  bridge_forward_delay : Z;
  stp_enabled : stp_mode;
  topology_change : bool;
  topology_change_detected : bool;
  hello_timer : timer;
  tcn_timer : timer;
  topology_change_timer : timer;
  gc_timer : timer;
  group_addr : list Z;
  BR_SET_MAC_ADDR : bool;
  dev_addr : list Z;
  dev_up : bool;
  carrier : bool;
  ports : list net_bridge_port
}.

(** [struct br_config_bpdu]. *)
Record br_config_bpdu : Type := mk_bpdu {
  b_topology_change : bool;
  b_topology_change_ack : bool;
  b_root : bid;
  b_root_path_cost : Z;
  b_bridge_id : bid;
  b_port_id : Z;
  b_message_age : Z;
  b_max_age : Z;
  b_hello_time : Z;
  b_forward_delay : Z
}.

(** Calls out of the protocol code. *)
Inductive event : Type :=
  | SendBpdu (port_no : Z) (data : list Z)
  | NotifyPort (port_no : Z) (st : port_state)
  | NotifyBridge
  | FdbDeleteByPort (port_no : Z)
  | McastNetdevChange (port_no : Z).

Record stp : Type := mk_stp {
  br : net_bridge;
  jiffies : Z;
  cpu : Z;
  events : list event
}.

Definition set_priority (v : Z) (p : net_bridge_port) : net_bridge_port :=
    mk_port (port_no p) v (port_id p) (state p) (path_cost p) (topology_change_ack p)
    (config_pending p) (designated_root p) (designated_cost p) (designated_bridge p)
    (designated_port p) (designated_age p) (forward_delay_timer p) (hold_timer p)
    (message_age_timer p) (is_dedicated_stp_port p) (is_bpdu_blocked p) (p_dev_addr p)
    (p_dev_up p) (p_carrier p).
Definition set_port_id (v : Z) (p : net_bridge_port) : net_bridge_port :=
    mk_port (port_no p) (priority p) v (state p) (path_cost p) (topology_change_ack p)
    (config_pending p) (designated_root p) (designated_cost p) (designated_bridge p)
    (designated_port p) (designated_age p) (forward_delay_timer p) (hold_timer p)
    (message_age_timer p) (is_dedicated_stp_port p) (is_bpdu_blocked p) (p_dev_addr p)
    (p_dev_up p) (p_carrier p).
Definition set_state (v : port_state) (p : net_bridge_port) : net_bridge_port :=
    mk_port (port_no p) (priority p) (port_id p) v (path_cost p) (topology_change_ack p)
    (config_pending p) (designated_root p) (designated_cost p) (designated_bridge p)
    (designated_port p) (designated_age p) (forward_delay_timer p) (hold_timer p)
    (message_age_timer p) (is_dedicated_stp_port p) (is_bpdu_blocked p) (p_dev_addr p)
    (p_dev_up p) (p_carrier p).
Definition set_path_cost (v : Z) (p : net_bridge_port) : net_bridge_port :=
    mk_port (port_no p) (priority p) (port_id p) (state p) v (topology_change_ack p)
    (config_pending p) (designated_root p) (designated_cost p) (designated_bridge p)
    (designated_port p) (designated_age p) (forward_delay_timer p) (hold_timer p)
    (message_age_timer p) (is_dedicated_stp_port p) (is_bpdu_blocked p) (p_dev_addr p)
    (p_dev_up p) (p_carrier p).
Definition set_topology_change_ack (v : bool) (p : net_bridge_port) : net_bridge_port :=
    mk_port (port_no p) (priority p) (port_id p) (state p) (path_cost p) v (config_pending
    p) (designated_root p) (designated_cost p) (designated_bridge p) (designated_port p)
    (designated_age p) (forward_delay_timer p) (hold_timer p) (message_age_timer p)
    (is_dedicated_stp_port p) (is_bpdu_blocked p) (p_dev_addr p) (p_dev_up p) (p_carrier
    p).
Definition set_config_pending (v : bool) (p : net_bridge_port) : net_bridge_port :=
    mk_port (port_no p) (priority p) (port_id p) (state p) (path_cost p)
    (topology_change_ack p) v (designated_root p) (designated_cost p) (designated_bridge
    p) (designated_port p) (designated_age p) (forward_delay_timer p) (hold_timer p)
    (message_age_timer p) (is_dedicated_stp_port p) (is_bpdu_blocked p) (p_dev_addr p)
    (p_dev_up p) (p_carrier p).
Definition set_designated_root (v : bid) (p : net_bridge_port) : net_bridge_port :=
    mk_port (port_no p) (priority p) (port_id p) (state p) (path_cost p)
    (topology_change_ack p) (config_pending p) v (designated_cost p) (designated_bridge p)
    (designated_port p) (designated_age p) (forward_delay_timer p) (hold_timer p)
    (message_age_timer p) (is_dedicated_stp_port p) (is_bpdu_blocked p) (p_dev_addr p)
    (p_dev_up p) (p_carrier p).
Definition set_designated_cost (v : Z) (p : net_bridge_port) : net_bridge_port :=
    mk_port (port_no p) (priority p) (port_id p) (state p) (path_cost p)
    (topology_change_ack p) (config_pending p) (designated_root p) v (designated_bridge p)
    (designated_port p) (designated_age p) (forward_delay_timer p) (hold_timer p)
    (message_age_timer p) (is_dedicated_stp_port p) (is_bpdu_blocked p) (p_dev_addr p)
    (p_dev_up p) (p_carrier p).
Definition set_designated_bridge (v : bid) (p : net_bridge_port) : net_bridge_port :=
    mk_port (port_no p) (priority p) (port_id p) (state p) (path_cost p)
    (topology_change_ack p) (config_pending p) (designated_root p) (designated_cost p) v
    (designated_port p) (designated_age p) (forward_delay_timer p) (hold_timer p)
    (message_age_timer p) (is_dedicated_stp_port p) (is_bpdu_blocked p) (p_dev_addr p)
    (p_dev_up p) (p_carrier p).
Definition set_designated_port (v : Z) (p : net_bridge_port) : net_bridge_port :=
    mk_port (port_no p) (priority p) (port_id p) (state p) (path_cost p)
    (topology_change_ack p) (config_pending p) (designated_root p) (designated_cost p)
    (designated_bridge p) v (designated_age p) (forward_delay_timer p) (hold_timer p)
    (message_age_timer p) (is_dedicated_stp_port p) (is_bpdu_blocked p) (p_dev_addr p)
    (p_dev_up p) (p_carrier p).
Definition set_designated_age (v : Z) (p : net_bridge_port) : net_bridge_port :=
    mk_port (port_no p) (priority p) (port_id p) (state p) (path_cost p)
    (topology_change_ack p) (config_pending p) (designated_root p) (designated_cost p)
    (designated_bridge p) (designated_port p) v (forward_delay_timer p) (hold_timer p)
    (message_age_timer p) (is_dedicated_stp_port p) (is_bpdu_blocked p) (p_dev_addr p)
    (p_dev_up p) (p_carrier p).
Definition set_forward_delay_timer (v : timer) (p : net_bridge_port) : net_bridge_port :=
    mk_port (port_no p) (priority p) (port_id p) (state p) (path_cost p)
    (topology_change_ack p) (config_pending p) (designated_root p) (designated_cost p)
    (designated_bridge p) (designated_port p) (designated_age p) v (hold_timer p)
    (message_age_timer p) (is_dedicated_stp_port p) (is_bpdu_blocked p) (p_dev_addr p)
    (p_dev_up p) (p_carrier p).
Definition set_hold_timer (v : timer) (p : net_bridge_port) : net_bridge_port :=
    mk_port (port_no p) (priority p) (port_id p) (state p) (path_cost p)
    (topology_change_ack p) (config_pending p) (designated_root p) (designated_cost p)
    (designated_bridge p) (designated_port p) (designated_age p) (forward_delay_timer p) v
    (message_age_timer p) (is_dedicated_stp_port p) (is_bpdu_blocked p) (p_dev_addr p)
    (p_dev_up p) (p_carrier p).
Definition set_message_age_timer (v : timer) (p : net_bridge_port) : net_bridge_port :=
    mk_port (port_no p) (priority p) (port_id p) (state p) (path_cost p)
    (topology_change_ack p) (config_pending p) (designated_root p) (designated_cost p)
    (designated_bridge p) (designated_port p) (designated_age p) (forward_delay_timer p)
    (hold_timer p) v (is_dedicated_stp_port p) (is_bpdu_blocked p) (p_dev_addr p)
    (p_dev_up p) (p_carrier p).

Definition set_bridge_id (v : bid) (b : net_bridge) : net_bridge :=
    mk_br v (br_designated_root b) (root_path_cost b) (root_port b) (max_age b)
    (hello_time b) (forward_delay b) (bridge_max_age b) (bridge_hello_time b)
    (bridge_forward_delay b) (stp_enabled b) (topology_change b) (topology_change_detected
    b) (hello_timer b) (tcn_timer b) (topology_change_timer b) (gc_timer b) (group_addr b)
    (BR_SET_MAC_ADDR b) (dev_addr b) (dev_up b) (carrier b) (ports b).
Definition set_br_designated_root (v : bid) (b : net_bridge) : net_bridge :=
    mk_br (bridge_id b) v (root_path_cost b) (root_port b) (max_age b) (hello_time b)
    (forward_delay b) (bridge_max_age b) (bridge_hello_time b) (bridge_forward_delay b)
    (stp_enabled b) (topology_change b) (topology_change_detected b) (hello_timer b)
    (tcn_timer b) (topology_change_timer b) (gc_timer b) (group_addr b) (BR_SET_MAC_ADDR b)
    (dev_addr b) (dev_up b) (carrier b) (ports b).
Definition set_root_path_cost (v : Z) (b : net_bridge) : net_bridge :=
    mk_br (bridge_id b) (br_designated_root b) v (root_port b) (max_age b) (hello_time b)
    (forward_delay b) (bridge_max_age b) (bridge_hello_time b) (bridge_forward_delay b)
    (stp_enabled b) (topology_change b) (topology_change_detected b) (hello_timer b)
    (tcn_timer b) (topology_change_timer b) (gc_timer b) (group_addr b) (BR_SET_MAC_ADDR b)
    (dev_addr b) (dev_up b) (carrier b) (ports b).
Definition set_root_port (v : Z) (b : net_bridge) : net_bridge :=
    mk_br (bridge_id b) (br_designated_root b) (root_path_cost b) v (max_age b)
    (hello_time b) (forward_delay b) (bridge_max_age b) (bridge_hello_time b)
    (bridge_forward_delay b) (stp_enabled b) (topology_change b) (topology_change_detected
    b) (hello_timer b) (tcn_timer b) (topology_change_timer b) (gc_timer b) (group_addr b)
    (BR_SET_MAC_ADDR b) (dev_addr b) (dev_up b) (carrier b) (ports b).
Definition set_max_age (v : Z) (b : net_bridge) : net_bridge :=
    mk_br (bridge_id b) (br_designated_root b) (root_path_cost b) (root_port b) v
    (hello_time b) (forward_delay b) (bridge_max_age b) (bridge_hello_time b)
    (bridge_forward_delay b) (stp_enabled b) (topology_change b) (topology_change_detected
    b) (hello_timer b) (tcn_timer b) (topology_change_timer b) (gc_timer b) (group_addr b)
    (BR_SET_MAC_ADDR b) (dev_addr b) (dev_up b) (carrier b) (ports b).
Definition set_hello_time (v : Z) (b : net_bridge) : net_bridge :=
    mk_br (bridge_id b) (br_designated_root b) (root_path_cost b) (root_port b) (max_age
    b) v (forward_delay b) (bridge_max_age b) (bridge_hello_time b) (bridge_forward_delay
    b) (stp_enabled b) (topology_change b) (topology_change_detected b) (hello_timer b)
    (tcn_timer b) (topology_change_timer b) (gc_timer b) (group_addr b) (BR_SET_MAC_ADDR b)
    (dev_addr b) (dev_up b) (carrier b) (ports b).
Definition set_forward_delay (v : Z) (b : net_bridge) : net_bridge :=
    mk_br (bridge_id b) (br_designated_root b) (root_path_cost b) (root_port b) (max_age
    b) (hello_time b) v (bridge_max_age b) (bridge_hello_time b) (bridge_forward_delay b)
    (stp_enabled b) (topology_change b) (topology_change_detected b) (hello_timer b)
    (tcn_timer b) (topology_change_timer b) (gc_timer b) (group_addr b) (BR_SET_MAC_ADDR b)
    (dev_addr b) (dev_up b) (carrier b) (ports b).
Definition set_bridge_max_age (v : Z) (b : net_bridge) : net_bridge :=
    mk_br (bridge_id b) (br_designated_root b) (root_path_cost b) (root_port b) (max_age
    b) (hello_time b) (forward_delay b) v (bridge_hello_time b) (bridge_forward_delay b)
    (stp_enabled b) (topology_change b) (topology_change_detected b) (hello_timer b)
    (tcn_timer b) (topology_change_timer b) (gc_timer b) (group_addr b) (BR_SET_MAC_ADDR b)
    (dev_addr b) (dev_up b) (carrier b) (ports b).
Definition set_bridge_hello_time (v : Z) (b : net_bridge) : net_bridge :=
    mk_br (bridge_id b) (br_designated_root b) (root_path_cost b) (root_port b) (max_age
    b) (hello_time b) (forward_delay b) (bridge_max_age b) v (bridge_forward_delay b)
    (stp_enabled b) (topology_change b) (topology_change_detected b) (hello_timer b)
    (tcn_timer b) (topology_change_timer b) (gc_timer b) (group_addr b) (BR_SET_MAC_ADDR b)
    (dev_addr b) (dev_up b) (carrier b) (ports b).
Definition set_bridge_forward_delay (v : Z) (b : net_bridge) : net_bridge :=
    mk_br (bridge_id b) (br_designated_root b) (root_path_cost b) (root_port b) (max_age
    b) (hello_time b) (forward_delay b) (bridge_max_age b) (bridge_hello_time b) v
    (stp_enabled b) (topology_change b) (topology_change_detected b) (hello_timer b)
    (tcn_timer b) (topology_change_timer b) (gc_timer b) (group_addr b) (BR_SET_MAC_ADDR b)
    (dev_addr b) (dev_up b) (carrier b) (ports b).
Definition set_stp_enabled (v : stp_mode) (b : net_bridge) : net_bridge :=
    mk_br (bridge_id b) (br_designated_root b) (root_path_cost b) (root_port b) (max_age
    b) (hello_time b) (forward_delay b) (bridge_max_age b) (bridge_hello_time b)
    (bridge_forward_delay b) v (topology_change b) (topology_change_detected b)
    (hello_timer b) (tcn_timer b) (topology_change_timer b) (gc_timer b) (group_addr b)
    (BR_SET_MAC_ADDR b) (dev_addr b) (dev_up b) (carrier b) (ports b).
Definition set_topology_change (v : bool) (b : net_bridge) : net_bridge :=
    mk_br (bridge_id b) (br_designated_root b) (root_path_cost b) (root_port b) (max_age
    b) (hello_time b) (forward_delay b) (bridge_max_age b) (bridge_hello_time b)
    (bridge_forward_delay b) (stp_enabled b) v (topology_change_detected b) (hello_timer
    b) (tcn_timer b) (topology_change_timer b) (gc_timer b) (group_addr b) (BR_SET_MAC_ADDR
    b) (dev_addr b) (dev_up b) (carrier b) (ports b).
Definition set_topology_change_detected (v : bool) (b : net_bridge) : net_bridge :=
    mk_br (bridge_id b) (br_designated_root b) (root_path_cost b) (root_port b) (max_age
    b) (hello_time b) (forward_delay b) (bridge_max_age b) (bridge_hello_time b)
    (bridge_forward_delay b) (stp_enabled b) (topology_change b) v (hello_timer b)
    (tcn_timer b) (topology_change_timer b) (gc_timer b) (group_addr b) (BR_SET_MAC_ADDR b)
    (dev_addr b) (dev_up b) (carrier b) (ports b).
Definition set_hello_timer (v : timer) (b : net_bridge) : net_bridge :=
    mk_br (bridge_id b) (br_designated_root b) (root_path_cost b) (root_port b) (max_age
    b) (hello_time b) (forward_delay b) (bridge_max_age b) (bridge_hello_time b)
    (bridge_forward_delay b) (stp_enabled b) (topology_change b) (topology_change_detected
    b) v (tcn_timer b) (topology_change_timer b) (gc_timer b) (group_addr b) (BR_SET_MAC_ADDR
    b) (dev_addr b) (dev_up b) (carrier b) (ports b).
Definition set_tcn_timer (v : timer) (b : net_bridge) : net_bridge :=
    mk_br (bridge_id b) (br_designated_root b) (root_path_cost b) (root_port b) (max_age
    b) (hello_time b) (forward_delay b) (bridge_max_age b) (bridge_hello_time b)
    (bridge_forward_delay b) (stp_enabled b) (topology_change b) (topology_change_detected
    b) (hello_timer b) v (topology_change_timer b) (gc_timer b) (group_addr b)
    (BR_SET_MAC_ADDR b) (dev_addr b) (dev_up b) (carrier b) (ports b).
Definition set_topology_change_timer (v : timer) (b : net_bridge) : net_bridge :=
    mk_br (bridge_id b) (br_designated_root b) (root_path_cost b) (root_port b) (max_age
    b) (hello_time b) (forward_delay b) (bridge_max_age b) (bridge_hello_time b)
    (bridge_forward_delay b) (stp_enabled b) (topology_change b) (topology_change_detected
    b) (hello_timer b) (tcn_timer b) v (gc_timer b) (group_addr b) (BR_SET_MAC_ADDR b)
    (dev_addr b) (dev_up b) (carrier b) (ports b).
Definition set_gc_timer (v : timer) (b : net_bridge) : net_bridge :=
    mk_br (bridge_id b) (br_designated_root b) (root_path_cost b) (root_port b) (max_age
    b) (hello_time b) (forward_delay b) (bridge_max_age b) (bridge_hello_time b)
    (bridge_forward_delay b) (stp_enabled b) (topology_change b) (topology_change_detected
    b) (hello_timer b) (tcn_timer b) (topology_change_timer b) v (group_addr b)
    (BR_SET_MAC_ADDR b) (dev_addr b) (dev_up b) (carrier b) (ports b).
Definition set_dev_addr (v : list Z) (b : net_bridge) : net_bridge :=
    mk_br (bridge_id b) (br_designated_root b) (root_path_cost b) (root_port b) (max_age
    b) (hello_time b) (forward_delay b) (bridge_max_age b) (bridge_hello_time b)
    (bridge_forward_delay b) (stp_enabled b) (topology_change b) (topology_change_detected
    b) (hello_timer b) (tcn_timer b) (topology_change_timer b) (gc_timer b) (group_addr b)
    (BR_SET_MAC_ADDR b) v (dev_up b) (carrier b) (ports b).
Definition set_carrier (v : bool) (b : net_bridge) : net_bridge :=
    mk_br (bridge_id b) (br_designated_root b) (root_path_cost b) (root_port b) (max_age
    b) (hello_time b) (forward_delay b) (bridge_max_age b) (bridge_hello_time b)
    (bridge_forward_delay b) (stp_enabled b) (topology_change b) (topology_change_detected
    b) (hello_timer b) (tcn_timer b) (topology_change_timer b) (gc_timer b) (group_addr b)
    (BR_SET_MAC_ADDR b) (dev_addr b) (dev_up b) v (ports b).
Definition set_ports (v : list net_bridge_port) (b : net_bridge) : net_bridge :=
    mk_br (bridge_id b) (br_designated_root b) (root_path_cost b) (root_port b) (max_age
    b) (hello_time b) (forward_delay b) (bridge_max_age b) (bridge_hello_time b)
    (bridge_forward_delay b) (stp_enabled b) (topology_change b) (topology_change_detected
    b) (hello_timer b) (tcn_timer b) (topology_change_timer b) (gc_timer b) (group_addr b)
    (BR_SET_MAC_ADDR b) (dev_addr b) (dev_up b) (carrier b) v.

Definition set_br (v : net_bridge) (s : stp) : stp :=
    mk_stp v (jiffies s) (cpu s) (events s).
Definition set_events (v : list event) (s : stp) : stp :=
    mk_stp (br s) (jiffies s) (cpu s) v.

(** ** Helpers *)

Definition HZ : Z := 1000.
Definition STP_HZ : Z := 256.
Definition MESSAGE_AGE_INCR : Z := HZ / 256 + 1.
Definition BR_HOLD_TIME : Z := 1 * HZ.
Definition BR_PORT_BITS : Z := 10.

(** [memcmp] on two objects of the same size: the difference of the first
    bytes that differ. *)
Fixpoint memcmp_bytes (a b : list Z) : Z :=
  match a, b with
  | x :: a, y :: b => if x - y =? 0 then memcmp_bytes a b else x - y
  | _, _ => 0
  end.

Definition bid_bytes (i : bid) : list Z := prio i ++ addr i.
Definition memcmp_bid (a b : bid) : Z := memcmp_bytes (bid_bytes a) (bid_bytes b).

(** [compare_ether_addr]: whether the addresses differ. *)
Definition compare_ether_addr (a b : list Z) : bool := negb (bool_decide (a = b)).

Definition upd (f : net_bridge -> net_bridge) (s : stp) : stp := set_br (f (br s)) s.
Definition upd_port (p : nat) (f : net_bridge_port -> net_bridge_port) (s : stp) : stp :=
  upd (fun b => set_ports (alter f p (ports b)) b) s.
Definition emit (e : event) (s : stp) : stp := set_events (events s ++ [e]) s.
Definition port_at (s : stp) (p : nat) : res net_bridge_port :=
  of_option NullDeref (ports (br s) !! p).

(** [list_for_each_entry(p, &br->port_list, list)]. *)
Fixpoint for_ports {S : Type} (l : list nat) (body : nat -> S -> res S) (s : S) : res S :=
  match l with
  | [] => Ok s
  | p :: l => s ← body p s; for_ports l body s
  end.
Definition port_list (s : stp) : list nat := seq 0 (length (ports (br s))).

(** [round_jiffies_common] with [force_up] false. *)
Definition round_jiffies (s : stp) (j : Z) : Z :=
  let original := j in
  let j := u32 (j + cpu s * 3) in
  let rem := j mod HZ in
  let j := if rem <? HZ / 4 then u32 (j - rem) else u32 (j - rem + HZ) in
  let j := u32 (j - cpu s * 3) in
  if j <=? jiffies s then original else j.

(** ** br_private.h, br_private_stp.h *)

Definition br_is_root_bridge (b : net_bridge) : bool :=
  memcmp_bid (bridge_id b) (br_designated_root b) =? 0.

Definition br_is_designated_port (b : net_bridge) (p : net_bridge_port) : bool :=
  (memcmp_bid (designated_bridge p) (bridge_id b) =? 0) && (designated_port p =? port_id p).

Definition is_disabled (p : net_bridge_port) : bool := bool_decide (state p = DISABLED).

(** ** br_stp.c: selection *)

Definition br_get_port (b : net_bridge) (no : Z) : option net_bridge_port :=
  List.find (fun p => port_no p =? no) (ports b).

Definition br_should_become_root_port (b : net_bridge) (p : net_bridge_port) (root_port : Z)
    : res bool :=
  if is_disabled p || br_is_designated_port b p then Ok false
  else if memcmp_bid (bridge_id b) (designated_root p) <=? 0 then Ok false
  else if root_port =? 0 then Ok true
  else
    rp ← of_option NullDeref (br_get_port b root_port);
    let t := memcmp_bid (designated_root p) (designated_root rp) in
    if t <? 0 then Ok true else if 0 <? t then Ok false
    else
      let cp := u32 (designated_cost p + path_cost p) in
      let cr := u32 (designated_cost rp + path_cost rp) in
      if cp <? cr then Ok true else if cr <? cp then Ok false
      else
        let t := memcmp_bid (designated_bridge p) (designated_bridge rp) in
        if t <? 0 then Ok true else if 0 <? t then Ok false
        else if designated_port p <? designated_port rp then Ok true
        else if designated_port rp <? designated_port p then Ok false
        else Ok (port_id p <? port_id rp).

(** The loop of [br_root_selection]: [root_port] after the ports [l]. *)
Fixpoint root_loop (b : net_bridge) (l : list net_bridge_port) (root_port : Z) : res Z :=
  match l with
  | [] => Ok root_port
  | p :: l =>
      better ← br_should_become_root_port b p root_port;
      root_loop b l (if better : bool then port_no p else root_port)
  end.

Definition br_root_selection (b : net_bridge) : res net_bridge :=
  rp ← root_loop b (ports b) 0;
  let b := set_root_port rp b in
  if rp =? 0 then Ok (set_root_path_cost 0 (set_br_designated_root (bridge_id b) b))
  else
    p ← of_option NullDeref (br_get_port b rp);
    Ok (set_root_path_cost (u32 (designated_cost p + path_cost p))
          (set_br_designated_root (designated_root p) b)).

Definition br_become_designated_port (b : net_bridge) (p : net_bridge_port) : net_bridge_port :=
  set_designated_port (port_id p)
    (set_designated_bridge (bridge_id b)
       (set_designated_cost (root_path_cost b)
          (set_designated_root (br_designated_root b) p))).

Definition br_should_become_designated_port (b : net_bridge) (p : net_bridge_port) : bool :=
  if br_is_designated_port b p then true
  else if nonzero (memcmp_bid (designated_root p) (br_designated_root b)) then true
  else if root_path_cost b <? designated_cost p then true
  else if designated_cost p <? root_path_cost b then false
  else
    let t := memcmp_bid (bridge_id b) (designated_bridge p) in
    if t <? 0 then true else if 0 <? t then false
    else port_id p <? designated_port p.

(** Each iteration reads the bridge, which the loop does not change, and
    writes its own port. *)
Definition br_designated_port_selection (b : net_bridge) : net_bridge :=
  set_ports
    (map (fun p =>
            if negb (is_disabled p) && br_should_become_designated_port b p
            then br_become_designated_port b p else p) (ports b)) b.

Definition br_configuration_update (b : net_bridge) : res net_bridge :=
  b ← br_root_selection b; Ok (br_designated_port_selection b).

Definition configuration_update (s : stp) : res stp :=
  b ← br_configuration_update (br s); Ok (set_br b s).

(** ** br_stp_bpdu.c: sending *)

Definition be16 (v : Z) : list Z := [Z.land (Z.shiftr v 8) 0xff; Z.land v 0xff].

Definition br_set_ticks (j : Z) : list Z := be16 (u32 (Z.quot (s32 (STP_HZ * j)) HZ)).

Definition br_get_ticks (src : list Z) : Z :=
  let ticks := match src with [h; l] => h * 256 + l | _ => 0 end in
  s32 (u32 (ticks * HZ + STP_HZ - 1) / STP_HZ).

Definition BPDU_TYPE_CONFIG : Z := 0.
Definition BPDU_TYPE_TCN : Z := 0x80.

(** The 35 bytes of [br_send_config_bpdu]. *)
Definition config_bpdu_bytes (bpdu : br_config_bpdu) : list Z :=
  [0; 0; 0; BPDU_TYPE_CONFIG;
   Z.lor (if b_topology_change bpdu then 0x01 else 0)
         (if b_topology_change_ack bpdu then 0x80 else 0)]
  ++ bid_bytes (b_root bpdu)
  ++ [Z.land (Z.shiftr (b_root_path_cost bpdu) 24) 0xff;
      Z.land (Z.shiftr (b_root_path_cost bpdu) 16) 0xff;
      Z.land (Z.shiftr (b_root_path_cost bpdu) 8) 0xff;
      Z.land (b_root_path_cost bpdu) 0xff]
  ++ bid_bytes (b_bridge_id bpdu)
  ++ [Z.land (Z.shiftr (b_port_id bpdu) 8) 0xff; Z.land (b_port_id bpdu) 0xff]
  ++ br_set_ticks (b_message_age bpdu)
  ++ br_set_ticks (b_max_age bpdu)
  ++ br_set_ticks (b_hello_time bpdu)
  ++ br_set_ticks (b_forward_delay bpdu).

Definition br_send_config_bpdu (s : stp) (p : net_bridge_port) (bpdu : br_config_bpdu) : stp :=
  if negb (bool_decide (stp_enabled (br s) = BR_KERNEL_STP)) then s
  else if is_bpdu_blocked p then s
  else emit (SendBpdu (port_no p) (config_bpdu_bytes bpdu)) s.

Definition br_send_tcn_bpdu (s : stp) (p : net_bridge_port) : stp :=
  if negb (bool_decide (stp_enabled (br s) = BR_KERNEL_STP)) then s
  else if is_bpdu_blocked p then s
  else emit (SendBpdu (port_no p) [0; 0; 0; BPDU_TYPE_TCN]) s.

(** ** br_stp.c: transmission *)

Definition br_transmit_config (p : nat) (s : stp) : res stp :=
  pt ← port_at s p;
  if bool_decide (is_Some (hold_timer pt)) then Ok (upd_port p (set_config_pending true) s)
  else
    let b := br s in
    age ← (if br_is_root_bridge b then Ok 0
           else
             root ← of_option NullDeref (br_get_port b (root_port b));
             Ok (s32 (u32 (jiffies s - designated_age root) + MESSAGE_AGE_INCR)));
    let bpdu := mk_bpdu (topology_change b) (topology_change_ack pt)
                  (br_designated_root b) (s32 (root_path_cost b)) (bridge_id b) (port_id pt)
                  age (s32 (max_age b)) (s32 (hello_time b)) (s32 (forward_delay b)) in
    if u32 age <? max_age b then
      let s := br_send_config_bpdu s pt bpdu in
      Ok (upd_port p (fun q =>
            set_hold_timer (Some (round_jiffies s (u32 (jiffies s + BR_HOLD_TIME))))
              (set_config_pending false (set_topology_change_ack false q))) s)
    else Ok s.

Definition br_transmit_tcn (s : stp) : res stp :=
  p ← of_option NullDeref (br_get_port (br s) (root_port (br s)));
  Ok (br_send_tcn_bpdu s p).

Definition br_config_bpdu_generation (s : stp) : res stp :=
  for_ports (port_list s)
    (fun p s =>
       pt ← port_at s p;
       if negb (is_disabled pt) && br_is_designated_port (br s) pt
       then br_transmit_config p s else Ok s) s.

Definition br_reply (p : nat) (s : stp) : res stp := br_transmit_config p s.

(** ** br_stp.c: topology changes *)

Definition br_topology_change_acknowledged (s : stp) : stp :=
  upd (fun b => set_tcn_timer None (set_topology_change_detected false b)) s.

Definition br_topology_change_detection (s : stp) : res stp :=
  let b := br s in
  let isroot := br_is_root_bridge b in
  if negb (bool_decide (stp_enabled b = BR_KERNEL_STP)) then Ok s
  else
    s ← (if isroot then
           Ok (upd (fun b =>
                 set_topology_change_timer
                   (Some (u32 (jiffies s + bridge_forward_delay b + bridge_max_age b)))
                   (set_topology_change true b)) s)
         else if negb (topology_change_detected b) then
           s ← br_transmit_tcn s;
           Ok (upd (fun b => set_tcn_timer (Some (u32 (jiffies s + bridge_hello_time b))) b) s)
         else Ok s);
    Ok (upd (set_topology_change_detected true) s).

Definition br_topology_change_acknowledge (p : nat) (s : stp) : res stp :=
  br_transmit_config p (upd_port p (set_topology_change_ack true) s).

Definition br_become_root_bridge (s : stp) : res stp :=
  let s := upd (fun b => set_forward_delay (bridge_forward_delay b)
                  (set_hello_time (bridge_hello_time b) (set_max_age (bridge_max_age b) b))) s in
  s ← br_topology_change_detection s;
  let s := upd (set_tcn_timer None) s in
  if dev_up (br s) then
    s ← br_config_bpdu_generation s;
    Ok (upd (fun b => set_hello_timer (Some (u32 (jiffies s + hello_time b))) b) s)
  else Ok s.

(** ** br_stp.c: port states *)

(** [br_log_state] and [br_ifinfo_notify]. *)
Definition notify_port (p : nat) (s : stp) : res stp :=
  pt ← port_at s p; Ok (emit (NotifyPort (port_no pt) (state pt)) s).

Definition br_make_blocking (p : nat) (s : stp) : res stp :=
  pt ← port_at s p;
  match state pt with
  | DISABLED | BLOCKING => Ok s
  | st =>
      s ← (match st with
           | FORWARDING | LEARNING => br_topology_change_detection s
           | _ => Ok s
           end);
      s ← notify_port p (upd_port p (set_state BLOCKING) s);
      Ok (upd_port p (set_forward_delay_timer None) s)
  end.

Definition br_loopback_detected (p : nat) (s : stp) : res stp :=
  pt ← port_at s p;
  if port_no pt =? root_port (br s) then br_make_blocking p s else Ok s.

Definition br_make_forwarding (p : nat) (s : stp) : res stp :=
  pt ← port_at s p;
  if negb (bool_decide (state pt = BLOCKING)) then Ok s
  else
    let b := br s in
    s ← (if bool_decide (stp_enabled b = BR_NO_STP) || (forward_delay b =? 0) then
           s ← br_topology_change_detection (upd_port p (set_state FORWARDING) s);
           Ok (upd_port p (set_forward_delay_timer None) s)
         else if bool_decide (stp_enabled b = BR_KERNEL_STP) then
           Ok (upd_port p (set_state LISTENING) s)
         else Ok (upd_port p (set_state LEARNING) s));
    s ← notify_port p s;
    if nonzero (forward_delay (br s)) then
      Ok (upd_port p (set_forward_delay_timer (Some (u32 (jiffies s + forward_delay (br s))))) s)
    else Ok s.

(** The body of the loop of [br_port_state_selection], without the count. *)
Definition select_port_state (p : nat) (s : stp) : res stp :=
  pt ← port_at s p;
  let b := br s in
  if bool_decide (stp_enabled b = BR_USER_STP) then Ok s
  else if port_no pt =? root_port b then
    br_make_forwarding p
      (upd_port p (fun q => set_topology_change_ack false (set_config_pending false q)) s)
  else if br_is_designated_port b pt then
    br_make_forwarding p (upd_port p (set_message_age_timer None) s)
  else
    br_make_blocking p
      (upd_port p (fun q => set_topology_change_ack false (set_config_pending false q)) s).

Definition br_port_state_selection (s : stp) : res stp :=
  '(s, liveports) ←
    for_ports (port_list s)
      (fun p '(s, liveports) =>
         pt ← port_at s p;
         if is_disabled pt then Ok (s, liveports)
         else
           s ← select_port_state p s;
           pt ← port_at s p;
           Ok (s, if bool_decide (state pt = FORWARDING) then liveports + 1 else liveports))
      (s, 0);
  Ok (upd (set_carrier (nonzero liveports)) s).

(** ** br_stp.c: receiving *)

Definition br_supersedes_port_info (b : net_bridge) (p : net_bridge_port) (bpdu : br_config_bpdu)
    : bool :=
  let t := memcmp_bid (b_root bpdu) (designated_root p) in
  if t <? 0 then true else if 0 <? t then false
  else if u32 (b_root_path_cost bpdu) <? designated_cost p then true
  else if designated_cost p <? u32 (b_root_path_cost bpdu) then false
  else
    let t := memcmp_bid (b_bridge_id bpdu) (designated_bridge p) in
    if t <? 0 then true else if 0 <? t then false
    else if nonzero (memcmp_bid (b_bridge_id bpdu) (bridge_id b)) then true
    else b_port_id bpdu <=? designated_port p.

Definition br_record_config_information (p : nat) (bpdu : br_config_bpdu) (s : stp) : stp :=
  upd_port p (fun q =>
    set_message_age_timer (Some (u32 (jiffies s + (max_age (br s) - b_message_age bpdu))))
      (set_designated_age (u32 (jiffies s - b_message_age bpdu))
         (set_designated_port (b_port_id bpdu)
            (set_designated_bridge (b_bridge_id bpdu)
               (set_designated_cost (u32 (b_root_path_cost bpdu))
                  (set_designated_root (b_root bpdu) q)))))) s.

Definition br_record_config_timeout_values (bpdu : br_config_bpdu) (s : stp) : stp :=
  upd (fun b =>
    set_topology_change (b_topology_change bpdu)
      (set_forward_delay (u32 (b_forward_delay bpdu))
         (set_hello_time (u32 (b_hello_time bpdu))
            (set_max_age (u32 (b_max_age bpdu)) b)))) s.

(** What follows the selection in [br_received_config_bpdu] when the bridge
    has just lost the root role. *)
Definition lost_root (s : stp) : res stp :=
  let s := upd (set_hello_timer None) s in
  if topology_change_detected (br s) then
    s ← br_transmit_tcn (upd (set_topology_change_timer None) s);
    Ok (upd (fun b => set_tcn_timer (Some (u32 (jiffies s + bridge_hello_time b))) b) s)
  else Ok s.

(** What a BPDU on the root port causes. *)
Definition root_port_update (bpdu : br_config_bpdu) (s : stp) : res stp :=
  s ← br_config_bpdu_generation (br_record_config_timeout_values bpdu s);
  Ok (if b_topology_change_ack bpdu then br_topology_change_acknowledged s else s).

Definition br_received_config_bpdu (p : nat) (bpdu : br_config_bpdu) (s : stp) : res stp :=
  pt ← port_at s p;
  let was_root := br_is_root_bridge (br s) in
  if br_supersedes_port_info (br s) pt bpdu then
    s ← configuration_update (br_record_config_information p bpdu s);
    s ← br_port_state_selection s;
    s ← (if negb (br_is_root_bridge (br s)) && was_root then lost_root s else Ok s);
    pt ← port_at s p;
    if port_no pt =? root_port (br s) then root_port_update bpdu s else Ok s
  else if br_is_designated_port (br s) pt then br_reply p s
  else Ok s.

Definition br_received_tcn_bpdu (p : nat) (s : stp) : res stp :=
  pt ← port_at s p;
  if br_is_designated_port (br s) pt then
    s ← br_topology_change_detection s;
    br_topology_change_acknowledge p s
  else Ok s.

(** The parsing part of [br_stp_rcv]: [buf] is the packet behind the protocol
    identifier and version. *)
Definition get_bid (buf : list Z) (i : Z) : res bid :=
  p0 ← rd buf i; p1 ← rd buf (i + 1);
  a0 ← rd buf (i + 2); a1 ← rd buf (i + 3); a2 ← rd buf (i + 4);
  a3 ← rd buf (i + 5); a4 ← rd buf (i + 6); a5 ← rd buf (i + 7);
  Ok (mk_bid [p0; p1] [a0; a1; a2; a3; a4; a5]).

Definition get_ticks_at (buf : list Z) (i : Z) : res Z :=
  t0 ← rd buf i; t1 ← rd buf (i + 1); Ok (br_get_ticks [t0; t1]).

Definition parse_config_bpdu (buf : list Z) : res br_config_bpdu :=
  flags ← rd buf 1;
  root ← get_bid buf 2;
  c0 ← rd buf 10; c1 ← rd buf 11; c2 ← rd buf 12; c3 ← rd buf 13;
  bridge ← get_bid buf 14;
  i0 ← rd buf 22; i1 ← rd buf 23;
  message_age ← get_ticks_at buf 24;
  max_age ← get_ticks_at buf 26;
  hello_time ← get_ticks_at buf 28;
  forward_delay ← get_ticks_at buf 30;
  Ok (mk_bpdu (nonzero (Z.land flags 0x01)) (nonzero (Z.land flags 0x80)) root
    (s32 (Z.lor (Z.lor (Z.lor (Z.shiftl c0 24) (Z.shiftl c1 16)) (Z.shiftl c2 8)) c3))
    bridge (Z.lor (Z.shiftl i0 8) i1) message_age max_age hello_time forward_delay).

(** [br_stp_rcv]: [pkt] is the packet behind the LLC header, [dest] its
    destination address, [port] the bridge port of the device, and [pull]
    whether [pskb_may_pull] gets the memory it may need. *)
Definition br_stp_rcv (pull : bool) (port : option nat) (dest pkt : list Z) (s : stp) : res stp :=
  let may_pull n l := pull && (n <=? zlen l) in
  if negb (may_pull 4 pkt) then Ok s
  else
  b0 ← rd pkt 0; b1 ← rd pkt 1; b2 ← rd pkt 2;
  if nonzero b0 || nonzero b1 || nonzero b2 then Ok s
  else
    match port with
    | None => Ok s
    | Some p =>
        let b := br s in
        pt ← port_at s p;
        if negb (bool_decide (stp_enabled b = BR_KERNEL_STP)) then Ok s
        else if negb (dev_up b) then Ok s
        else if is_disabled pt then Ok s
        else if compare_ether_addr dest (group_addr b) then Ok s
        else
          let buf := drop 3 pkt in
          type ← rd buf 0;
          if type =? BPDU_TYPE_CONFIG then
            if negb (may_pull 32 buf) then Ok s
            else
              bpdu ← parse_config_bpdu buf;
              if b_max_age bpdu <? b_message_age bpdu then Ok s
              else br_received_config_bpdu p bpdu s
          else if type =? BPDU_TYPE_TCN then br_received_tcn_bpdu p s
          else Ok s
    end.

(** The end that several operations share: select the root, the roles and the
    states anew, and take the root role if the bridge has just won it. *)
Definition reconfigure (wasroot : bool) (s : stp) : res stp :=
  s ← configuration_update s;
  s ← br_port_state_selection s;
  if br_is_root_bridge (br s) && negb wasroot then br_become_root_bridge s else Ok s.

(** ** br_stp_timer.c *)

Definition br_is_designated_for_some_port (b : net_bridge) : bool :=
  existsb (fun p => negb (is_disabled p) && (memcmp_bid (designated_bridge p) (bridge_id b) =? 0))
    (ports b).

Definition br_hello_timer_expired (s : stp) : res stp :=
  if dev_up (br s) then
    s ← br_config_bpdu_generation s;
    Ok (upd (fun b => set_hello_timer (Some (round_jiffies s (u32 (jiffies s + hello_time b)))) b) s)
  else Ok s.

Definition br_message_age_timer_expired (p : nat) (s : stp) : res stp :=
  pt ← port_at s p;
  if is_disabled pt then Ok s
  else if is_dedicated_stp_port pt then Ok s
  else
    let was_root := br_is_root_bridge (br s) in
    reconfigure was_root (upd_port p (br_become_designated_port (br s)) s).

Definition br_forward_delay_timer_expired (p : nat) (s : stp) : res stp :=
  pt ← port_at s p;
  s ← (match state pt with
       | LISTENING =>
           Ok (upd_port p (fun q =>
                 set_forward_delay_timer (Some (u32 (jiffies s + forward_delay (br s))))
                   (set_state LEARNING q)) s)
       | LEARNING =>
           let s := upd_port p (set_state FORWARDING) s in
           s ← (if br_is_designated_for_some_port (br s) then br_topology_change_detection s
                else Ok s);
           Ok (upd (set_carrier true) s)
       | _ => Ok s
       end);
  notify_port p s.

Definition br_tcn_timer_expired (s : stp) : res stp :=
  if dev_up (br s) then
    s ← br_transmit_tcn s;
    Ok (upd (fun b => set_tcn_timer (Some (u32 (jiffies s + bridge_hello_time b))) b) s)
  else Ok s.

Definition br_topology_change_timer_expired (s : stp) : res stp :=
  Ok (upd (fun b => set_topology_change false (set_topology_change_detected false b)) s).

Definition br_hold_timer_expired (p : nat) (s : stp) : res stp :=
  pt ← port_at s p;
  if config_pending pt then br_transmit_config p s else Ok s.

(** ** br_stp_if.c *)

Definition br_make_port_id (priority port_no : Z) : Z :=
  u16 (Z.lor (Z.shiftl (u16 priority) BR_PORT_BITS)
             (Z.land port_no (Z.shiftl 1 BR_PORT_BITS - 1))).

Definition br_init_port (b : net_bridge) (p : net_bridge_port) : net_bridge_port :=
  let p := set_port_id (br_make_port_id (priority p) (port_no p)) p in
  set_config_pending false
    (set_topology_change_ack false (set_state BLOCKING (br_become_designated_port b p))).

Definition br_stp_enable_port (p : nat) (s : stp) : res stp :=
  s ← br_port_state_selection (upd_port p (br_init_port (br s)) s);
  notify_port p s.

Definition br_stp_disable_port (p : nat) (s : stp) : res stp :=
  pt ← port_at s p;
  let wasroot := br_is_root_bridge (br s) in
  let s := upd_port p (fun q =>
             set_config_pending false (set_topology_change_ack false
               (set_state DISABLED (br_become_designated_port (br s) q)))) s in
  s ← notify_port p s;
  let s := upd_port p (fun q =>
             set_hold_timer None (set_forward_delay_timer None (set_message_age_timer None q))) s in
  reconfigure wasroot (emit (McastNetdevChange (port_no pt)) (emit (FdbDeleteByPort (port_no pt)) s)).

Definition br_stp_enable_bridge (s : stp) : res stp :=
  let s := upd (fun b => set_gc_timer (Some (u32 (jiffies s + HZ / 10)))
                  (set_hello_timer (Some (u32 (jiffies s + hello_time b))) b)) s in
  s ← br_config_bpdu_generation s;
  for_ports (port_list s)
    (fun p s =>
       pt ← port_at s p;
       if p_dev_up pt && p_carrier pt then br_stp_enable_port p s else Ok s) s.

Definition br_stp_disable_bridge (s : stp) : res stp :=
  s ← for_ports (port_list s)
        (fun p s =>
           pt ← port_at s p; if is_disabled pt then Ok s else br_stp_disable_port p s) s;
  Ok (upd (fun b =>
        set_gc_timer None (set_tcn_timer None (set_topology_change_timer None
          (set_hello_timer None
            (set_topology_change_detected false (set_topology_change false b)))))) s).

(** [helper] is the result of the user mode helper. *)
Definition br_stp_start (helper : Z) (s : stp) : res stp :=
  s ← (if helper =? 0 then Ok (upd (set_stp_enabled BR_USER_STP) s)
       else br_port_state_selection (upd (set_stp_enabled BR_KERNEL_STP) s));
  Ok (emit NotifyBridge s).

Definition br_stp_stop (s : stp) : res stp :=
  s ← (if bool_decide (stp_enabled (br s) = BR_USER_STP) then br_port_state_selection s else Ok s);
  Ok (emit NotifyBridge (upd (set_stp_enabled BR_NO_STP) s)).

Definition br_stp_set_enabled (helper val : Z) (s : stp) : res stp :=
  if nonzero val then
    if bool_decide (stp_enabled (br s) = BR_NO_STP) then br_stp_start helper s else Ok s
  else
    if bool_decide (stp_enabled (br s) = BR_NO_STP) then Ok s else br_stp_stop s.

Definition br_stp_change_bridge_id (a : list Z) (s : stp) : res stp :=
  let wasroot := br_is_root_bridge (br s) in
  let oldaddr := addr (bridge_id (br s)) in
  let rename i := if compare_ether_addr (addr i) oldaddr then i else mk_bid (prio i) a in
  reconfigure wasroot
    (upd (fun b =>
       set_ports (map (fun p => set_designated_root (rename (designated_root p))
                          (set_designated_bridge (rename (designated_bridge p)) p)) (ports b))
         (set_dev_addr a (set_bridge_id (mk_bid (prio (bridge_id b)) a) b))) s).

(** The least address of the member devices; [None] is [br_mac_zero]. *)
Definition least_addr (l : list net_bridge_port) : option (list Z) :=
  foldl (fun a p =>
           match a with
           | None => Some (p_dev_addr p)
           | Some a' => if memcmp_bytes (p_dev_addr p) a' <? 0 then Some (p_dev_addr p) else a
           end) None l.

Definition br_stp_recalculate_bridge_id (s : stp) : res (bool * stp) :=
  let b := br s in
  if BR_SET_MAC_ADDR b then Ok (false, s)
  else if existsb (fun p => memcmp_bytes (addr (bridge_id b)) (p_dev_addr p) =? 0) (ports b)
  then Ok (false, s)
  else
    let a := default (replicate 6 0) (least_addr (ports b)) in
    if negb (compare_ether_addr (addr (bridge_id b)) a) then Ok (false, s)
    else s ← br_stp_change_bridge_id a s; Ok (true, s).

Definition prio_bytes (newprio : Z) : list Z :=
  [Z.land (Z.shiftr newprio 8) 0xff; Z.land newprio 0xff].

Definition br_stp_set_bridge_priority (newprio : Z) (s : stp) : res stp :=
  let wasroot := br_is_root_bridge (br s) in
  let b := br s in
  let repri i := mk_bid (prio_bytes newprio) (addr i) in
  reconfigure wasroot
    (upd (fun b' =>
       set_bridge_id (repri (bridge_id b'))
         (set_ports (map (fun p =>
            if negb (is_disabled p) && br_is_designated_port b p
            then set_designated_bridge (repri (designated_bridge p)) p else p) (ports b')) b')) s).

Definition BR_MAX_PORT_PRIORITY : Z := Z.shiftr (u16 (Z.lnot 0)) BR_PORT_BITS.

Definition br_stp_set_port_priority (p : nat) (newprio : Z) (s : stp) : res (Z * stp) :=
  if BR_MAX_PORT_PRIORITY <? newprio then Ok (- ERANGE, s)
  else
    pt ← port_at s p;
    let new_port_id := br_make_port_id (u8 newprio) (port_no pt) in
    let desg := br_is_designated_port (br s) pt in
    let s := upd_port p (fun q =>
               set_priority (u8 newprio) (set_port_id new_port_id
                 (if desg then set_designated_port new_port_id q else q))) s in
    pt ← port_at s p;
    if (memcmp_bid (bridge_id (br s)) (designated_bridge pt) =? 0) &&
       (port_id pt <? designated_port pt)
    then
      s ← br_port_state_selection (upd_port p (br_become_designated_port (br s)) s);
      Ok (0, s)
    else Ok (0, s).

Definition BR_MIN_PATH_COST : Z := 1.
Definition BR_MAX_PATH_COST : Z := 65535.

Definition br_stp_set_path_cost (p : nat) (cost : Z) (s : stp) : res (Z * stp) :=
  if (cost <? BR_MIN_PATH_COST) || (BR_MAX_PATH_COST <? cost) then Ok (- ERANGE, s)
  else
    s ← configuration_update (upd_port p (set_path_cost cost) s);
    s ← br_port_state_selection s;
    Ok (0, s).

(** ** br_stp.c: parameters *)

(** [clock_t_to_jiffies] with [USER_HZ] 100. *)
Definition clock_t_to_jiffies (x : Z) : Z :=
  if u32 (Z.lnot 0) / (HZ / 100) <=? x then u32 (Z.lnot 0) else u32 (x * (HZ / 100)).

Definition br_set_hello_time (val : Z) (s : stp) : Z * stp :=
  let t := clock_t_to_jiffies val in
  if (t <? 1 * HZ) || (10 * HZ <? t) then (- ERANGE, s)
  else (0, upd (fun b =>
          let b := set_bridge_hello_time t b in
          if br_is_root_bridge b then set_hello_time t b else b) s).

Definition br_set_max_age (val : Z) (s : stp) : Z * stp :=
  let t := clock_t_to_jiffies val in
  if (t <? 6 * HZ) || (40 * HZ <? t) then (- ERANGE, s)
  else (0, upd (fun b =>
          let b := set_bridge_max_age t b in
          if br_is_root_bridge b then set_max_age t b else b) s).

Definition br_set_forward_delay (val : Z) (s : stp) : Z * stp :=
  let t := clock_t_to_jiffies val in
  if negb (bool_decide (stp_enabled (br s) = BR_NO_STP)) && ((t <? 2 * HZ) || (30 * HZ <? t))
  then (- ERANGE, s)
  else (0, upd (fun b =>
          let b := set_bridge_forward_delay t b in
          if br_is_root_bridge b then set_forward_delay t b else b) s).
