(* ===== verification/StpSelect.v ===== *)
(** Root and port-role selection of the spanning tree protocol: the order on
    bridge identifiers that [memcmp] gives, the priority vectors of the ports,
    and what [br_root_selection], [br_designated_port_selection] and
    [br_supersedes_port_info] compute in terms of them. *)

From S2P Require Import Prelude Str Stp.

(** ** Bridge identifiers as numbers *)

Fixpoint be_val (l : list Z) : Z :=
  match l with
  | [] => 0
  | x :: l => x * 256 ^ zlen l + be_val l
  end.

Definition bid_ok (i : bid) : Prop :=
  length (prio i) = 2%nat /\ length (addr i) = 6%nat /\ bytes (prio i) /\ bytes (addr i).

Definition bid_val (i : bid) : Z := be_val (bid_bytes i).

Lemma be_val_range l : bytes l -> 0 <= be_val l < 256 ^ zlen l.
Proof.
  induction l as [|x l IH]; intros Hb; [done|].
  apply Forall_cons_iff in Hb as [Hx Hl]. specialize (IH Hl). cbn [be_val].
  rewrite zlen_cons, Z.pow_add_r by (try apply zlen_nonneg; lia).
  unfold is_u8 in Hx. change (2 ^ 8) with 256 in Hx. change (256 ^ 1) with 256. nia.
Qed.

(** [memcmp] on objects of one size compares their big-endian values. *)
Lemma memcmp_bytes_sgn a : forall b,
  bytes a -> bytes b -> length a = length b ->
  Z.sgn (memcmp_bytes a b) = Z.sgn (be_val a - be_val b).
Proof.
  induction a as [|x a IH]; intros [|y b] Ha Hb Hl; try done.
  apply Forall_cons_iff in Ha as [Hx Ha], Hb as [Hy Hb]. injection Hl as Hl.
  cbn [memcmp_bytes be_val]. assert (Hz : zlen a = zlen b) by (unfold zlen; lia).
  rewrite <- Hz. assert (Ra := be_val_range a Ha). assert (Rb := be_val_range b Hb).
  rewrite <- Hz in Rb. set (m := 256 ^ zlen a) in *.
  destruct (Z.eqb_spec (x - y) 0) as [Hxy|Hxy].
  - rewrite IH by done. f_equal. replace x with y by lia. lia.
  - destruct (Z.lt_total x y) as [|[|]]; [|lia|].
    + rewrite !Z.sgn_neg by nia. done.
    + rewrite !Z.sgn_pos by nia. done.
Qed.

Lemma memcmp_bytes_eq a : forall b, length a = length b -> memcmp_bytes a b = 0 <-> a = b.
Proof.
  induction a as [|x a IH]; intros [|y b] Hl; try done. injection Hl as Hl. cbn [memcmp_bytes].
  destruct (Z.eqb_spec (x - y) 0) as [Hxy|Hxy].
  - rewrite IH by done. assert (x = y) as -> by lia. split; [by intros ->|by intros [= ->]].
  - split; [lia|]. intros [= -> ->]. lia.
Qed.

Lemma bid_bytes_ok i : bid_ok i -> bytes (bid_bytes i) /\ length (bid_bytes i) = 8%nat.
Proof.
  intros (Hp & Ha & Bp & Ba). unfold bid_bytes. split; [by apply Forall_app|].
  rewrite length_app. lia.
Qed.

Lemma bid_bytes_inj i j : bid_ok i -> bid_ok j -> bid_bytes i = bid_bytes j -> i = j.
Proof.
  intros (Hi & _) (Hj & _) E. destruct i as [p a], j as [q b]. unfold bid_bytes in E. cbn in *.
  apply app_inj_1 in E; [|lia]. by destruct E as [-> ->].
Qed.

Lemma memcmp_bid_sgn i j :
  bid_ok i -> bid_ok j -> Z.sgn (memcmp_bid i j) = Z.sgn (bid_val i - bid_val j).
Proof.
  intros Hi%bid_bytes_ok Hj%bid_bytes_ok. apply memcmp_bytes_sgn; [tauto|tauto|].
  destruct Hi as [_ ->], Hj as [_ ->]. done.
Qed.

Lemma memcmp_bid_eq i j : bid_ok i -> bid_ok j -> memcmp_bid i j = 0 <-> i = j.
Proof.
  intros Hi Hj. unfold memcmp_bid. rewrite memcmp_bytes_eq.
  - split; [by apply bid_bytes_inj|by intros ->].
  - apply bid_bytes_ok in Hi, Hj. destruct Hi as [_ ->], Hj as [_ ->]. done.
Qed.

Lemma bid_val_eq i j : bid_ok i -> bid_ok j -> bid_val i = bid_val j <-> i = j.
Proof.
  intros Hi Hj. rewrite <- memcmp_bid_eq by done.
  assert (Hs := memcmp_bid_sgn i j Hi Hj). split; intros E.
  - rewrite E, Z.sub_diag in Hs. by apply Z.sgn_null_iff.
  - rewrite E in Hs. symmetry in Hs. apply Z.sgn_null_iff in Hs. lia.
Qed.

(** Comparisons with [memcmp] as comparisons of values. *)
Lemma memcmp_bid_ltb i j : bid_ok i -> bid_ok j -> (memcmp_bid i j <? 0) = (bid_val i <? bid_val j).
Proof.
  intros Hi Hj. assert (Hs := memcmp_bid_sgn i j Hi Hj).
  destruct (Z.ltb_spec (memcmp_bid i j) 0), (Z.ltb_spec (bid_val i) (bid_val j)); try done.
  - rewrite Z.sgn_neg in Hs by done. symmetry in Hs. apply Z.sgn_neg_iff in Hs. lia.
  - rewrite (Z.sgn_neg (bid_val i - bid_val j)) in Hs by lia. apply Z.sgn_neg_iff in Hs. lia.
Qed.

Lemma memcmp_bid_opp i j : bid_ok i -> bid_ok j -> (0 <? memcmp_bid i j) = (bid_val j <? bid_val i).
Proof.
  intros Hi Hj. assert (Hs := memcmp_bid_sgn i j Hi Hj).
  destruct (Z.ltb_spec 0 (memcmp_bid i j)), (Z.ltb_spec (bid_val j) (bid_val i)); try done.
  - rewrite Z.sgn_pos in Hs by done. symmetry in Hs. apply Z.sgn_pos_iff in Hs. lia.
  - rewrite (Z.sgn_pos (bid_val i - bid_val j)) in Hs by lia. apply Z.sgn_pos_iff in Hs. lia.
Qed.

Lemma memcmp_bid_eqb i j : bid_ok i -> bid_ok j -> (memcmp_bid i j =? 0) = (bid_val i =? bid_val j).
Proof.
  intros Hi Hj. assert (Hs := memcmp_bid_eq i j Hi Hj). assert (Hv := bid_val_eq i j Hi Hj).
  destruct (Z.eqb_spec (memcmp_bid i j) 0), (Z.eqb_spec (bid_val i) (bid_val j)); tauto.
Qed.

(** ** Lexicographic order on priority vectors *)

Fixpoint vec_lt (u v : list Z) : bool :=
  match u, v with
  | x :: u, y :: v => if x <? y then true else if y <? x then false else vec_lt u v
  | _, _ => false
  end.

Lemma vec_lt_irrefl u : vec_lt u u = false.
Proof. induction u as [|x u IH]; [done|]. cbn [vec_lt]. by rewrite Z.ltb_irrefl. Qed.

Lemma vec_lt_trans u : forall v w, vec_lt u v = true -> vec_lt v w = true -> vec_lt u w = true.
Proof.
  induction u as [|x u IH]; intros [|y v] [|z w]; try done. cbn [vec_lt].
  destruct (Z.ltb_spec x y), (Z.ltb_spec y x), (Z.ltb_spec y z), (Z.ltb_spec z y),
    (Z.ltb_spec x z), (Z.ltb_spec z x); try done; try lia. apply IH.
Qed.

(** Negation of [vec_lt] is transitive on vectors of one length. *)
Lemma vec_le_trans u : forall v w, length u = length v -> length v = length w ->
  vec_lt v u = false -> vec_lt w v = false -> vec_lt w u = false.
Proof.
  induction u as [|x u IH]; intros [|y v] [|z w] Hl1 Hl2; try done. cbn [vec_lt].
  destruct (Z.ltb_spec x y), (Z.ltb_spec y x), (Z.ltb_spec y z), (Z.ltb_spec z y),
    (Z.ltb_spec x z), (Z.ltb_spec z x); try done; try lia. apply IH; simpl in *; lia.
Qed.

Lemma vec_lt_asym u v : vec_lt u v = true -> vec_lt v u = false.
Proof.
  intros H. destruct (vec_lt v u) eqn:E; [|done].
  assert (Ht := vec_lt_trans u v u H E). by rewrite vec_lt_irrefl in Ht.
Qed.

(** ** Well-formed bridges *)

Record port_ok (p : net_bridge_port) : Prop := {
  po_no : 1 <= port_no p < 1024;
  po_id : is_u16 (port_id p);
  po_root : bid_ok (designated_root p);
  po_bridge : bid_ok (designated_bridge p);
  po_dport : is_u16 (designated_port p);
  po_cost : is_u32 (designated_cost p);
  po_path : is_u32 (path_cost p);
  po_addr : length (p_dev_addr p) = 6%nat /\ bytes (p_dev_addr p)
}.

Record bridge_ok (b : net_bridge) : Prop := {
  bo_id : bid_ok (bridge_id b);
  bo_root : bid_ok (br_designated_root b);
  bo_cost : is_u32 (root_path_cost b);
  bo_ports : Forall port_ok (ports b);
  bo_nodup : NoDup (map port_no (ports b))
}.

Lemma bo_port b p : bridge_ok b -> In p (ports b) -> port_ok p.
Proof. intros H. apply List.Forall_forall, (bo_ports _ H). Qed.

Lemma br_get_port_Some b no q : br_get_port b no = Some q -> In q (ports b) /\ port_no q = no.
Proof. intros H%List.find_some. rewrite Z.eqb_eq in H. tauto. Qed.

Lemma br_get_port_spec b p :
  NoDup (map port_no (ports b)) -> In p (ports b) -> br_get_port b (port_no p) = Some p.
Proof.
  unfold br_get_port. induction (ports b) as [|q l IH]; [done|]. cbn [map List.find In].
  intros Hnd [->|Hin]; [by rewrite Z.eqb_refl|]. inversion_clear Hnd as [|? ? Hn Hd].
  destruct (Z.eqb_spec (port_no q) (port_no p)) as [E|]; [|by apply IH].
  destruct Hn. rewrite E. apply list_elem_of_In, in_map, Hin.
Qed.

(** ** Root selection *)

(** A port the bridge may use towards the root. *)
Definition candidate (b : net_bridge) (p : net_bridge_port) : bool :=
  negb (is_disabled p) && negb (br_is_designated_port b p) &&
  (bid_val (designated_root p) <? bid_val (bridge_id b)).

(** The root priority vector of a port (802.1D 8.6.8). *)
Definition pvec (p : net_bridge_port) : list Z :=
  [bid_val (designated_root p); u32 (designated_cost p + path_cost p);
   bid_val (designated_bridge p); designated_port p; port_id p].

Lemma should_become_root_port_eq b p rp :
  bridge_ok b -> port_ok p ->
  br_should_become_root_port b p rp =
  if candidate b p then
    if rp =? 0 then Ok true
    else q ← of_option NullDeref (br_get_port b rp); Ok (vec_lt (pvec p) (pvec q))
  else Ok false.
Proof.
  intros Hb Hp. unfold br_should_become_root_port, candidate.
  destruct (is_disabled p); [done|]. destruct (br_is_designated_port b p); [done|].
  cbn [orb negb andb].
  assert (E : (memcmp_bid (bridge_id b) (designated_root p) <=? 0) =
              negb (bid_val (designated_root p) <? bid_val (bridge_id b))).
  { rewrite <- memcmp_bid_opp by (apply Hb || apply Hp). apply Z.leb_antisym. }
  rewrite E. destruct (_ <? bid_val (bridge_id b)); [|done]. cbn [negb].
  destruct (rp =? 0); [done|]. destruct (br_get_port b rp) as [q|] eqn:Eq; [|done].
  cbn [of_option mbind res_bind]. apply br_get_port_Some in Eq as [Hin _].
  assert (Hq := bo_port b q Hb Hin).
  rewrite !memcmp_bid_ltb, !memcmp_bid_opp by (apply Hp || apply Hq).
  unfold pvec. cbn [vec_lt].
  repeat match goal with |- context [if ?c then _ else _] => destruct c; try done end.
Qed.

(** [root_loop] keeps the best candidate so far. *)
Definition best_of (b : net_bridge) (seen : list net_bridge_port) (rp : Z) : Prop :=
  (rp = 0 /\ forall p, In p seen -> candidate b p = false) \/
  (exists q, In q (ports b) /\ candidate b q = true /\ rp = port_no q /\
     forall p, In p seen -> candidate b p = true -> vec_lt (pvec p) (pvec q) = false).

Lemma root_loop_spec b : bridge_ok b -> forall rest seen rp,
  ports b = seen ++ rest -> best_of b seen rp ->
  exists rp', root_loop b rest rp = Ok rp' /\ best_of b (ports b) rp'.
Proof.
  intros Hb. induction rest as [|p rest IH]; intros seen rp Hl Hbest.
  { exists rp. split; [done|]. by rewrite Hl, app_nil_r. }
  assert (Hin : In p (ports b)) by (rewrite Hl; apply in_app_iff; right; by left).
  assert (Hp := bo_port b p Hb Hin).
  assert (Hnext : forall rp', best_of b (seen ++ [p]) rp' ->
    exists r, root_loop b rest rp' = Ok r /\ best_of b (ports b) r).
  { intros rp' H. apply (IH (seen ++ [p])); [|done]. by rewrite <- app_assoc. }
  cbn [root_loop]. rewrite should_become_root_port_eq by done.
  assert (Hskip : candidate b p = false -> best_of b (seen ++ [p]) rp).
  { intros Hc. destruct Hbest as [[-> Hno]|(q & Hq & Hcq & -> & Hmin)]; [left|right].
    - split; [done|]. intros r [Hr|[->|[]]]%in_app_iff; [by apply Hno|done].
    - exists q. repeat split; try done. intros r [Hr|[->|[]]]%in_app_iff Hcr; [by apply Hmin|congruence]. }
  destruct (candidate b p) eqn:Ec; cbn [mbind res_bind]; [|by apply Hnext, Hskip].
  destruct Hbest as [[-> Hno]|(q & Hq & Hcq & -> & Hmin)].
  - cbn [Z.eqb mbind res_bind]. apply Hnext. right. exists p. repeat split; try done.
    intros r [Hr|[->|[]]]%in_app_iff Hcr; [|apply vec_lt_irrefl]. apply Hno in Hr. congruence.
  - assert (Hq0 := bo_port b q Hb Hq). destruct (Z.eqb_spec (port_no q) 0) as [E|_].
    { assert (Hn := po_no q Hq0). lia. }
    rewrite br_get_port_spec by (done || apply Hb). cbn [of_option mbind res_bind].
    destruct (vec_lt (pvec p) (pvec q)) eqn:Ev; apply Hnext; right.
    + exists p. repeat split; try done. intros r [Hr|[->|[]]]%in_app_iff Hcr; [|apply vec_lt_irrefl].
      apply (vec_le_trans (pvec p) (pvec q)); [done|done|by apply vec_lt_asym|by apply Hmin].
    + exists q. repeat split; try done. intros r [Hr|[->|[]]]%in_app_iff Hcr; [by apply Hmin|done].
Qed.

(** The outcome of root selection. *)
Definition root_selected (b b' : net_bridge) : Prop :=
  (root_port b' = 0 /\ br_designated_root b' = bridge_id b /\ root_path_cost b' = 0 /\
   forall p, In p (ports b) -> candidate b p = false) \/
  (exists q, In q (ports b) /\ candidate b q = true /\ root_port b' = port_no q /\
     br_designated_root b' = designated_root q /\
     root_path_cost b' = u32 (designated_cost q + path_cost q) /\
     forall p, In p (ports b) -> candidate b p = true -> vec_lt (pvec p) (pvec q) = false).

(** [br_root_selection] changes the three root members only. *)
Definition same_but_root (b b' : net_bridge) : Prop :=
  b' = set_root_path_cost (root_path_cost b')
         (set_br_designated_root (br_designated_root b') (set_root_port (root_port b') b)).

Lemma br_root_selection_spec b :
  bridge_ok b ->
  exists b', br_root_selection b = Ok b' /\ same_but_root b b' /\ root_selected b b' /\ bridge_ok b'.
Proof.
  intros Hb. destruct (root_loop_spec b Hb (ports b) [] 0) as (rp & E & Hbest); [done|by left|].
  unfold br_root_selection. rewrite E. cbn [mbind res_bind].
  destruct Hbest as [[-> Hno]|(q & Hq & Hcq & -> & Hmin)].
  - eexists. split; [done|]. split; [done|]. split; [by left|].
    constructor; cbn; try apply Hb. done.
  - assert (Hp := bo_port b q Hb Hq). assert (Hn := po_no q Hp).
    destruct (Z.eqb_spec (port_no q) 0) as [|_]; [lia|].
    change (br_get_port (set_root_port (port_no q) b) (port_no q)) with (br_get_port b (port_no q)).
    rewrite br_get_port_spec by (done || apply Hb). cbn [of_option mbind res_bind].
    eexists. split; [done|]. split; [done|]. split; [right; by exists q|].
    constructor; cbn; try apply Hb; try apply Hp. apply u32_range.
Qed.

(** ** Designated ports *)

(** The priority vector a port has recorded for its segment, and the one the
    bridge itself would send there. *)
Definition rvec (p : net_bridge_port) : list Z :=
  [bid_val (designated_root p); designated_cost p; bid_val (designated_bridge p); designated_port p].
Definition dvec (b : net_bridge) (p : net_bridge_port) : list Z :=
  [bid_val (br_designated_root b); root_path_cost b; bid_val (bridge_id b); port_id p].

Lemma is_designated_eq b p :
  bridge_ok b -> port_ok p ->
  br_is_designated_port b p =
  (bid_val (designated_bridge p) =? bid_val (bridge_id b)) && (designated_port p =? port_id p).
Proof. intros Hb Hp. unfold br_is_designated_port. by rewrite memcmp_bid_eqb by (apply Hb || apply Hp). Qed.

Lemma become_designated b p :
  bridge_ok b -> port_ok p ->
  port_ok (br_become_designated_port b p) /\
  br_is_designated_port b (br_become_designated_port b p) = true /\
  rvec (br_become_designated_port b p) = dvec b (br_become_designated_port b p).
Proof.
  intros Hb Hp. split; [constructor; cbn; apply Hp || apply Hb|]. split; [|done].
  unfold br_is_designated_port. cbn. rewrite Z.eqb_refl, andb_true_r.
  rewrite memcmp_bid_eqb by apply Hb. apply Z.eqb_refl.
Qed.

Lemma should_become_designated_eq b p :
  bridge_ok b -> port_ok p ->
  bid_val (br_designated_root b) <= bid_val (designated_root p) \/ br_is_designated_port b p = true ->
  br_should_become_designated_port b p = br_is_designated_port b p || vec_lt (dvec b p) (rvec p).
Proof.
  intros Hb Hp Hle. unfold br_should_become_designated_port.
  destruct (br_is_designated_port b p); [done|]. destruct Hle as [Hle|]; [|done]. cbn [orb].
  unfold nonzero. rewrite memcmp_bid_eqb, memcmp_bid_ltb, memcmp_bid_opp by (apply Hb || apply Hp).
  unfold dvec, rvec. cbn [vec_lt].
  destruct (Z.eqb_spec (bid_val (designated_root p)) (bid_val (br_designated_root b))) as [->|];
    cbn [negb].
  - rewrite Z.ltb_irrefl.
    repeat match goal with |- context [if ?c then _ else _] => destruct c; try done end.
  - destruct (Z.ltb_spec (bid_val (br_designated_root b)) (bid_val (designated_root p))); [done|lia].
Qed.

(** The selected root is at least as good as what any port has recorded. *)
Lemma root_selected_le b b' p :
  bridge_ok b -> root_selected b b' -> bridge_id b' = bridge_id b -> In p (ports b) ->
  is_disabled p = false ->
  bid_val (br_designated_root b') <= bid_val (designated_root p) \/
  br_is_designated_port b' p = true.
Proof.
  intros Hb Hsel Hid Hin Hen.
  assert (Hd : br_is_designated_port b' p = br_is_designated_port b p)
    by (unfold br_is_designated_port; by rewrite Hid).
  rewrite Hd. destruct (br_is_designated_port b p) eqn:Ed; [by right|left].
  assert (Hc : candidate b p = (bid_val (designated_root p) <? bid_val (bridge_id b))).
  { unfold candidate. by rewrite Hen, Ed. }
  destruct Hsel as [(_ & Hr & _ & Hno)|(q & Hq & Hcq & _ & Hr & _ & Hmin)]; rewrite Hr.
  - specialize (Hno p Hin). rewrite Hc in Hno. apply Z.ltb_ge in Hno. done.
  - destruct (candidate b p) eqn:Ecp; symmetry in Hc.
    + specialize (Hmin p Hin Ecp). unfold pvec in Hmin. cbn [vec_lt] in Hmin.
      destruct (Z.ltb_spec (bid_val (designated_root p)) (bid_val (designated_root q))); [done|lia].
    + apply Z.ltb_ge in Hc. unfold candidate in Hcq.
      rewrite !andb_true_iff, Z.ltb_lt in Hcq. lia.
Qed.

(** The role of a port after the selection: a port that was designated or
    whose recorded vector the bridge beats is designated and has the bridge's
    own vector recorded; any other enabled port keeps its recorded vector,
    which beats what the bridge would send. *)
Definition role_ok (b' : net_bridge) (p p' : net_bridge_port) : Prop :=
  if is_disabled p then p' = p
  else
    (p' = br_become_designated_port b' p /\ br_is_designated_port b' p' = true /\
     rvec p' = dvec b' p' /\
     (br_is_designated_port b' p = true \/ vec_lt (dvec b' p) (rvec p) = true)) \/
    (p' = p /\ br_is_designated_port b' p = false /\ vec_lt (rvec p) (dvec b' p) = true).

Lemma vec_lt_total4 b p :
  br_is_designated_port b p = false -> bridge_ok b -> port_ok p ->
  vec_lt (dvec b p) (rvec p) = false -> vec_lt (rvec p) (dvec b p) = true.
Proof.
  intros Hd Hb Hp. rewrite is_designated_eq in Hd by done. unfold dvec, rvec. cbn [vec_lt].
  apply andb_false_iff in Hd. rewrite !Z.eqb_neq in Hd.
  repeat match goal with |- context [?x <? ?y] => destruct (Z.ltb_spec x y); try done; try lia end.
Qed.

Lemma same_but_root_ports b b' :
  same_but_root b b' -> ports b' = ports b /\ bridge_id b' = bridge_id b.
Proof. intros ->. done. Qed.

Lemma br_configuration_update_spec b :
  bridge_ok b ->
  exists b1 b', br_root_selection b = Ok b1 /\ br_configuration_update b = Ok b' /\
    same_but_root b b1 /\ b' = set_ports (ports b') b1 /\
    bridge_ok b' /\ root_selected b b' /\ Forall2 (role_ok b') (ports b) (ports b').
Proof.
  intros Hb. destruct (br_root_selection_spec b Hb) as (b1 & E & Hsame & Hsel & Hb1).
  unfold br_configuration_update. rewrite E. cbn [mbind res_bind].
  exists b1. eexists. split; [done|]. split; [done|]. split; [done|]. split; [done|].
  destruct (same_but_root_ports _ _ Hsame) as [Hports Hid].
  assert (Hroles : forall p, In p (ports b) ->
    let p' := if negb (is_disabled p) && br_should_become_designated_port b1 p
              then br_become_designated_port b1 p else p in
    port_ok p' /\ port_no p' = port_no p /\ role_ok (br_designated_port_selection b1) p p').
  { intros p Hin. assert (Hp := bo_port b p Hb Hin). cbn zeta. unfold role_ok.
    destruct (is_disabled p) eqn:Een; cbn [negb andb]; [done|].
    rewrite should_become_designated_eq
      by (done || by apply (root_selected_le b)).
    destruct (become_designated b1 p Hb1 Hp) as (H1 & H2 & H3).
    destruct (br_is_designated_port b1 p) eqn:Ed; cbn [orb].
    - split; [done|]. split; [done|]. left. split; [done|]. split; [done|]. split; [done|]. by left.
    - destruct (vec_lt (dvec b1 p) (rvec p)) eqn:Ev.
      + split; [done|]. split; [done|]. left. split; [done|]. split; [done|]. split; [done|]. by right.
      + split; [done|]. split; [done|]. right. split; [done|]. split; [done|].
        by apply (vec_lt_total4 b1). }
  unfold br_designated_port_selection. cbn [set_ports ports]. rewrite Hports. split; [|split; [done|]].
  - constructor; try apply Hb1; cbn [set_ports ports].
    + apply List.Forall_forall. intros q (p & <- & Hin)%in_map_iff. by apply Hroles.
    + rewrite map_map. rewrite (map_ext_in _ port_no); [apply Hb|]. intros p Hin. by apply Hroles.
  - apply Forall2_fmap_r, Forall_Forall2_diag, List.Forall_forall. intros p Hin.
    destruct (Hroles p Hin) as (_ & _ & Hr). unfold br_designated_port_selection in Hr.
    by rewrite Hports in Hr.
Qed.

(** The root port does not become a designated port as long as its path adds
    to the cost. *)
Lemma root_port_not_designated b b' q :
  bridge_ok b -> root_selected b b' -> bridge_id b' = bridge_id b -> bridge_ok b' ->
  NoDup (map port_no (ports b)) ->
  In q (ports b) -> port_no q = root_port b' ->
  1 <= path_cost q -> designated_cost q + path_cost q < 2 ^ 32 ->
  br_is_designated_port b' q = false /\ vec_lt (dvec b' q) (rvec q) = false.
Proof.
  intros Hb Hsel Hid Hb' Hnd Hin Hno Hpc Hov. assert (Hq := bo_port b q Hb Hin).
  assert (Hqn := po_no q Hq). destruct Hsel as [(Hr0 & _)|(q' & Hin' & Hc & Hr & Hrt & Hcost & _)]; [lia|].
  assert (q' = q) as ->.
  { assert (H1 := br_get_port_spec b q Hnd Hin). assert (H2 := br_get_port_spec b q' Hnd Hin').
    rewrite Hno, Hr in H1. congruence. }
  split.
  - unfold candidate in Hc. rewrite !andb_true_iff, !negb_true_iff in Hc.
    unfold br_is_designated_port in *. rewrite Hid. tauto.
  - unfold dvec, rvec. cbn [vec_lt]. rewrite Hrt, Hcost, Z.ltb_irrefl.
    assert (Hu := po_cost q Hq). unfold is_u32 in Hu.
    rewrite u32_small by (unfold is_u32; lia).
    destruct (Z.ltb_spec (designated_cost q + path_cost q) (designated_cost q)); [lia|].
    destruct (Z.ltb_spec (designated_cost q) (designated_cost q + path_cost q)); [done|lia].
Qed.

(** C21: [br_configuration_update] computes the spanning tree roles.  The root
    port is a candidate whose root priority vector is minimal among all
    candidates, or there is none and the bridge takes itself for the root.
    Afterwards each enabled port either is designated and has the bridge's own
    vector recorded, or has recorded a vector that beats the bridge's; and the
    root port, if its path cost does not overflow, keeps what it recorded. *)
Theorem br_configuration_update_correct b :
  bridge_ok b ->
  exists b', br_configuration_update b = Ok b' /\ bridge_ok b' /\ root_selected b b' /\
    Forall2 (role_ok b') (ports b) (ports b') /\
    (forall q, In q (ports b) -> port_no q = root_port b' ->
       1 <= path_cost q -> designated_cost q + path_cost q < 2 ^ 32 ->
       In q (ports b') /\ br_is_designated_port b' q = false).
Proof.
  intros Hb. destruct (br_configuration_update_spec b Hb)
    as (b1 & b' & _ & E & Hsame & Eb & Hb' & Hsel & Hroles).
  exists b'. split; [done|]. split; [done|]. split; [done|]. split; [done|].
  intros q Hin Hno Hpc Hov.
  assert (Hid : bridge_id b' = bridge_id b).
  { rewrite Eb. destruct (same_but_root_ports _ _ Hsame) as [_ <-]. done. }
  destruct (root_port_not_designated b b' q) as [Hnd Hv]; try done; [apply Hb|]. split; [|done].
  apply list_elem_of_In, list_elem_of_lookup in Hin as [i Hi].
  destruct (Forall2_lookup_l _ _ _ _ _ Hroles Hi) as (q' & Hi' & Hr).
  apply list_elem_of_In, (list_elem_of_lookup_2 _ i).
  unfold role_ok in Hr. destruct (is_disabled q); [by subst|].
  destruct Hr as [(_ & _ & _ & Hwhy)|(-> & _)]; [|done].
  destruct Hwhy as [Hd|Hd]; congruence.
Qed.

(** A bridge with two uplinks to the same root, over neighbours 2 and 3, and a
    port to hosts. *)
Definition ex_id (n : Z) : bid := mk_bid [128; 0] [0; 0; 0; 0; 0; n].

Definition ex_port (no : Z) (st : port_state) (root bridge : bid) (cost dport : Z) : net_bridge_port :=
  mk_port no 32 (32768 + no) st 100 false false root cost bridge dport 0 None None None false false
    [0; 0; 0; 0; 0; 16 + no] true true.

Definition ex_br : net_bridge :=
  mk_br (ex_id 5) (ex_id 5) 0 0 20000 2000 15000 20000 2000 15000 BR_KERNEL_STP false false
    None None None None [1; 128; 194; 0; 0; 0] true [0; 0; 0; 0; 0; 5] true true
    [ex_port 1 BLOCKING (ex_id 1) (ex_id 3) 100 32769; ex_port 2 BLOCKING (ex_id 1) (ex_id 2) 100 32769;
     ex_port 3 FORWARDING (ex_id 5) (ex_id 5) 0 32771].

Lemma ex_id_ok n : is_u8 n -> bid_ok (ex_id n).
Proof.
  intros Hn. unfold bid_ok, ex_id. cbn [prio addr]. split; [done|]. split; [done|].
  split; repeat first [apply List.Forall_nil | apply List.Forall_cons; [unfold is_u8 in *; lia|]].
Qed.

Lemma ex_port_ok no st r br cost dport :
  1 <= no < 200 -> bid_ok r -> bid_ok br -> is_u32 cost -> is_u16 dport ->
  port_ok (ex_port no st r br cost dport).
Proof.
  intros. constructor; cbn [ex_port port_no port_id designated_root designated_bridge designated_port
    designated_cost path_cost p_dev_addr]; try done; unfold is_u16, is_u32; try lia.
  split; [done|].
  repeat first [apply List.Forall_nil | apply List.Forall_cons; [unfold is_u8; lia|]].
Qed.

Lemma ex_br_ok : bridge_ok ex_br.
Proof.
  assert (Hi : forall n, 0 <= n < 256 -> bid_ok (ex_id n)) by (intros; by apply ex_id_ok).
  constructor; try (apply Hi; lia); try done.
  - unfold ex_br. cbn [ports].
    repeat first [apply List.Forall_nil | apply List.Forall_cons;
      [apply ex_port_ok; try (apply Hi; lia); unfold is_u16, is_u32; lia|]].
  - unfold ex_br. cbn [ports map port_no ex_port].
    apply (bool_decide_unpack (NoDup [1; 2; 3])). vm_compute. done.
Qed.

Lemma br_configuration_update_correct_witness :
  exists b', br_configuration_update ex_br = Ok b' /\ bridge_ok b' /\ root_selected ex_br b' /\
    Forall2 (role_ok b') (ports ex_br) (ports b') /\
    (forall q, In q (ports ex_br) -> port_no q = root_port b' ->
       1 <= path_cost q -> designated_cost q + path_cost q < 2 ^ 32 ->
       In q (ports b') /\ br_is_designated_port b' q = false).
Proof. apply (br_configuration_update_correct ex_br). exact ex_br_ok. Defined.

Example ex_br_roots_at_2 :
  match br_configuration_update ex_br with
  | Ok b' => root_port b' = 2 /\ root_path_cost b' = 200
  | Fault _ => False
  end.
Proof. vm_compute. done. Qed.
