(* ===== verification/StpBpdu.v ===== *)
(** Configuration BPDUs on the wire: the encoder of [br_send_config_bpdu]
    against the decoder of [br_stp_rcv], and the ageing of the information that
    bridges pass on to each other. *)

From S2P Require Import Prelude Str Stp StpSelect.

(** Field ranges of a BPDU that the protocol sends: the times fit the 16-bit
    tick fields. *)
Record bpdu_ok (b : br_config_bpdu) : Prop := {
  bp_root : bid_ok (b_root b);
  bp_cost : is_s32 (b_root_path_cost b);
  bp_bridge : bid_ok (b_bridge_id b);
  bp_port : is_u16 (b_port_id b);
  bp_age : 0 <= b_message_age b < 256000;
  bp_max : 0 <= b_max_age b < 256000;
  bp_hello : 0 <= b_hello_time b < 256000;
  bp_fwd : 0 <= b_forward_delay b < 256000
}.

(** Time on the wire is counted in ticks of 1/256 s and rounded down; the
    receiver rounds up. *)
Definition wire_time (j : Z) : Z := br_get_ticks (br_set_ticks j).

Lemma set_ticks_eq j :
  0 <= j < 256000 ->
  br_set_ticks j = [256 * j / 1000 / 256; (256 * j / 1000) mod 256] /\ 0 <= 256 * j / 1000 < 65536.
Proof.
  intros Hj. unfold br_set_ticks, be16, STP_HZ, HZ.
  rewrite s32_small by ints. rewrite Z.quot_div_nonneg by lia.
  assert (0 <= 256 * j / 1000 < 65536) by (Z.div_mod_to_equations; lia).
  rewrite u32_small by ints. rewrite !land_ff, Z.shiftr_div_pow2 by lia. split; [|done].
  change (2 ^ 8) with 256. f_equal. apply Z.mod_small. Z.div_mod_to_equations; lia.
Qed.

Lemma wire_time_eq j :
  0 <= j < 256000 -> wire_time j = (256 * j / 1000 * 1000 + 255) / 256.
Proof.
  intros Hj. unfold wire_time. destruct (set_ticks_eq j Hj) as [-> Hr].
  unfold br_get_ticks, STP_HZ, HZ. set (t := 256 * j / 1000) in *.
  replace (t / 256 * 256 + t mod 256) with t by (Z.div_mod_to_equations; lia).
  rewrite u32_small by ints. rewrite s32_small by ints. f_equal. lia.
Qed.

(** A time survives the wire up to one tick. *)
Lemma wire_time_bounds j : 0 <= j < 256000 -> j - 4 < wire_time j <= j.
Proof. intros Hj. rewrite wire_time_eq by done. Z.div_mod_to_equations; lia. Qed.

Lemma wire_time_incr j : 0 <= j -> j + MESSAGE_AGE_INCR < 256000 -> j < wire_time (j + MESSAGE_AGE_INCR).
Proof.
  change MESSAGE_AGE_INCR with 4. intros Hj Hm. rewrite wire_time_eq by lia.
  Z.div_mod_to_equations; lia.
Qed.

Lemma nonzero_flags t a :
  nonzero (Z.land (Z.lor (if t : bool then 1 else 0) (if a : bool then 128 else 0)) 1) = t /\
  nonzero (Z.land (Z.lor (if t then 1 else 0) (if a then 128 else 0)) 128) = a.
Proof. by destruct t, a. Qed.

Lemma cost_join c :
  is_s32 c ->
  s32 (Z.lor (Z.lor (Z.lor (Z.shiftl (Z.land (Z.shiftr c 24) 255) 24)
                           (Z.shiftl (Z.land (Z.shiftr c 16) 255) 16))
                    (Z.shiftl (Z.land (Z.shiftr c 8) 255) 8)) (Z.land c 255)) = c.
Proof.
  intros Hc. rewrite !land_ff, !Z.shiftr_div_pow2 by lia.
  assert (Hm : forall x, 0 <= x mod 256 < 256) by (intros; apply Z.mod_pos_bound; lia).
  rewrite <- !Z.lor_assoc.
  rewrite (lor_shiftl_add _ 8) by (lia || apply Hm).
  assert (H8 := Hm (c / 2 ^ 8)). assert (H0 := Hm c). assert (H16 := Hm (c / 2 ^ 16)).
  rewrite (lor_shiftl_add _ 16) by lia.
  rewrite (lor_shiftl_add _ 24) by lia.
  change (2 ^ 24) with 16777216. ints.
Qed.

Lemma port_join v : is_u16 v -> Z.lor (Z.shiftl (Z.land (Z.shiftr v 8) 255) 8) (Z.land v 255) = v.
Proof.
  intros Hv. rewrite !land_ff, Z.shiftr_div_pow2 by lia.
  assert (0 <= v mod 256 < 256) by (apply Z.mod_pos_bound; lia).
  rewrite lor_shiftl_add by lia. ints.
Qed.

Lemma set_ticks_two j : exists h l, br_set_ticks j = [h; l].
Proof. by do 2 eexists. Qed.

(** Destructing lists of known length. *)
Lemma bid_cases i : bid_ok i -> exists a b c d e f g h, i = mk_bid [a; b] [c; d; e; f; g; h].
Proof.
  destruct i as [p a]. intros (Hp & Ha & _). cbn in Hp, Ha.
  destruct p as [|? [|? [|]]]; try done. destruct a as [|? [|? [|? [|? [|? [|? [|]]]]]]]; try done.
  by do 8 eexists.
Qed.

(** ** Reading

    [br_stp_rcv] reads nothing behind the end of a packet: it is the function
    that takes missing bytes for zero. *)

Lemma rd_nth buf i : 0 <= i < zlen buf -> rd buf i = Ok (nth (Z.to_nat i) buf 0).
Proof.
  intros Hi. unfold rd, znth. destruct (Z.ltb_spec i 0); [lia|]. unfold zlen in Hi.
  destruct (lookup_lt_is_Some_2 buf (Z.to_nat i)) as [x Hx]; [lia|]. rewrite Hx. cbn. f_equal. symmetry.
  by apply nth_lookup_Some.
Qed.

Definition bpdu_of (buf : list Z) : br_config_bpdu :=
  let g i := nth i buf 0 in
  mk_bpdu (nonzero (Z.land (g 1%nat) 0x01)) (nonzero (Z.land (g 1%nat) 0x80))
    (mk_bid [g 2%nat; g 3%nat] [g 4%nat; g 5%nat; g 6%nat; g 7%nat; g 8%nat; g 9%nat])
    (s32 (Z.lor (Z.lor (Z.lor (Z.shiftl (g 10%nat) 24) (Z.shiftl (g 11%nat) 16))
                       (Z.shiftl (g 12%nat) 8)) (g 13%nat)))
    (mk_bid [g 14%nat; g 15%nat] [g 16%nat; g 17%nat; g 18%nat; g 19%nat; g 20%nat; g 21%nat])
    (Z.lor (Z.shiftl (g 22%nat) 8) (g 23%nat))
    (br_get_ticks [g 24%nat; g 25%nat]) (br_get_ticks [g 26%nat; g 27%nat])
    (br_get_ticks [g 28%nat; g 29%nat]) (br_get_ticks [g 30%nat; g 31%nat]).

Lemma parse_bpdu_of buf : 32 <= zlen buf -> parse_config_bpdu buf = Ok (bpdu_of buf).
Proof.
  intros H. unfold parse_config_bpdu, get_bid, get_ticks_at. rewrite !rd_nth by lia. reflexivity.
Qed.

Definition rcv_total (pull : bool) (port : option nat) (dest pkt : list Z) (s : stp) : res stp :=
  let may_pull n l := pull && (n <=? zlen l) in
  if negb (may_pull 4 pkt) then Ok s
  else if nonzero (nth 0 pkt 0) || nonzero (nth 1 pkt 0) || nonzero (nth 2 pkt 0) then Ok s
  else
    match port with
    | None => Ok s
    | Some p =>
        let b := br s in
        pt ← port_at s p;
        if negb (bool_decide (stp_enabled b = BR_KERNEL_STP)) then Ok s
        else if negb (dev_up b) then Ok s
        else if is_disabled pt then Ok s
        else if compare_ether_addr dest (group_addr b) then Ok s
        else
          let buf := drop 3 pkt in
          if nth 0 buf 0 =? BPDU_TYPE_CONFIG then
            if negb (may_pull 32 buf) then Ok s
            else if b_max_age (bpdu_of buf) <? b_message_age (bpdu_of buf) then Ok s
            else br_received_config_bpdu p (bpdu_of buf) s
          else if nth 0 buf 0 =? BPDU_TYPE_TCN then br_received_tcn_bpdu p s
          else Ok s
    end.

Lemma br_stp_rcv_total pull port dest pkt s : br_stp_rcv pull port dest pkt s = rcv_total pull port dest pkt s.
Proof.
  unfold br_stp_rcv, rcv_total. destruct (pull && (4 <=? zlen pkt)) eqn:E4; cbn [negb]; [|done].
  apply andb_true_iff in E4 as [-> E4%Z.leb_le]. rewrite !(rd_nth pkt) by lia. cbn [mbind res_bind].
  destruct (_ || _); [done|]. destruct port as [p|]; [|done]. destruct (port_at s p) as [pt|]; [|done]. cbn [mbind res_bind].
  assert (Hd : 1 <= zlen (drop 3 pkt)) by (unfold zlen in *; rewrite length_drop; lia).
  repeat (case_match; [done|]). rewrite rd_nth by lia. cbn [mbind res_bind].
  change (Z.to_nat 0) with 0%nat. case_match; [|done]. cbn [andb]. destruct (Z.leb_spec 32 (zlen (drop 3 pkt))); cbn [negb]; [|done].
  by rewrite parse_bpdu_of.
Qed.

Lemma config_bpdu_parse b :
  bpdu_ok b ->
  zlen (config_bpdu_bytes b) = 35 /\
  parse_config_bpdu (drop 3 (config_bpdu_bytes b)) =
    Ok (mk_bpdu (b_topology_change b) (b_topology_change_ack b) (b_root b) (b_root_path_cost b)
      (b_bridge_id b) (b_port_id b) (wire_time (b_message_age b)) (wire_time (b_max_age b))
      (wire_time (b_hello_time b)) (wire_time (b_forward_delay b))) /\
  (forall t, In t [b_message_age b; b_max_age b; b_hello_time b; b_forward_delay b] ->
     t - 4 < wire_time t <= t).
Proof.
  intros Hb. destruct b as [tc tca root cost bridge port age max hello fwd].
  destruct Hb as [Hroot Hcost Hbridge Hport Hage Hmax Hhello Hfwd].
  cbn [b_topology_change b_topology_change_ack b_root b_root_path_cost b_bridge_id b_port_id
    b_message_age b_max_age b_hello_time b_forward_delay] in *.
  destruct (bid_cases root Hroot) as (?&?&?&?&?&?&?&?& ->).
  destruct (bid_cases bridge Hbridge) as (?&?&?&?&?&?&?&?& ->).
  split; [|split].
  - unfold zlen, config_bpdu_bytes, bid_bytes, br_set_ticks, be16. cbn [prio addr app length]. reflexivity.
  - unfold config_bpdu_bytes, bid_bytes.
    unfold wire_time. cbn [b_message_age b_max_age b_hello_time b_forward_delay].
    destruct (set_ticks_two age) as (? & ? & ->), (set_ticks_two max) as (? & ? & ->),
      (set_ticks_two hello) as (? & ? & ->), (set_ticks_two fwd) as (? & ? & ->).
    cbn [prio addr app drop nth b_topology_change b_topology_change_ack b_root
      b_root_path_cost b_bridge_id b_port_id b_message_age b_max_age b_hello_time b_forward_delay].
    rewrite parse_bpdu_of by (unfold zlen; cbn [length]; lia). unfold bpdu_of. cbn [nth].
    destruct (nonzero_flags tc tca) as [-> ->]. rewrite cost_join, port_join by done. reflexivity.
  - intros t Ht. apply wire_time_bounds. by repeat (destruct Ht as [<-|Ht]; [done|]).
Qed.

(** C32: the encoding of a configuration BPDU has 35 bytes, and decoding it
    gives the BPDU back: flags, identifiers, cost and port exactly, and each of
    the four times shortened by less than one tick of 1/256 s. *)
Theorem config_bpdu_roundtrip b :
  bpdu_ok b ->
  zlen (config_bpdu_bytes b) = 35 /\
  parse_config_bpdu (drop 3 (config_bpdu_bytes b)) =
    Ok (mk_bpdu (b_topology_change b) (b_topology_change_ack b) (b_root b) (b_root_path_cost b)
      (b_bridge_id b) (b_port_id b) (wire_time (b_message_age b)) (wire_time (b_max_age b))
      (wire_time (b_hello_time b)) (wire_time (b_forward_delay b))) /\
  (forall t, In t [b_message_age b; b_max_age b; b_hello_time b; b_forward_delay b] ->
     t - 4 < wire_time t <= t).
Proof. apply config_bpdu_parse. Qed.

Definition ex_bpdu : br_config_bpdu :=
  mk_bpdu true false (ex_id 1) 100 (ex_id 2) 32769 4 20000 2000 15000.

Lemma ex_bpdu_ok : bpdu_ok ex_bpdu.
Proof. constructor; try (apply ex_id_ok; unfold is_u8; lia); cbn; unfold is_s32, is_u16; lia. Qed.

Lemma config_bpdu_roundtrip_witness :
  zlen (config_bpdu_bytes ex_bpdu) = 35 /\
  parse_config_bpdu (drop 3 (config_bpdu_bytes ex_bpdu)) =
    Ok (mk_bpdu true false (ex_id 1) 100 (ex_id 2) 32769 4 20000 2000 15000) /\
  (forall t, In t [4; 20000; 2000; 15000] -> t - 4 < wire_time t <= t).
Proof. apply (config_bpdu_roundtrip ex_bpdu). exact ex_bpdu_ok. Defined.

(** ** Ageing *)

(** Times of a bridge that fit the tick fields. *)
Definition times_ok (b : net_bridge) : Prop :=
  0 <= max_age b < 256000 /\ 0 <= hello_time b < 256000 /\ 0 <= forward_delay b < 256000.

(** Information ages with every hop.  A bridge that is not the root and
    sends a configuration BPDU passes on information of age [a], received on
    its root port; the neighbour decodes a message age that is strictly
    greater.  Information that would reach the maximum age is not passed on at
    all.  So no information about a lost root can circulate for ever. *)
Theorem relayed_age_grows p s pt q :
  bridge_ok (br s) -> times_ok (br s) ->
  ports (br s) !! p = Some pt -> hold_timer pt = None -> is_bpdu_blocked pt = false ->
  stp_enabled (br s) = BR_KERNEL_STP -> br_is_root_bridge (br s) = false ->
  br_get_port (br s) (root_port (br s)) = Some q ->
  let a := u32 (jiffies s - designated_age q) in
  a < 2 ^ 31 - MESSAGE_AGE_INCR ->
  if a + MESSAGE_AGE_INCR <? max_age (br s) then
    exists s' data bpdu, br_transmit_config p s = Ok s' /\
      events s' = events s ++ [SendBpdu (port_no pt) data] /\
      parse_config_bpdu (drop 3 data) = Ok bpdu /\ a < b_message_age bpdu
  else br_transmit_config p s = Ok s.
Proof.
  intros Hb (Hm & Hh & Hf) Hp Hhold Hblk Hk Hnr Hq a Ha. change MESSAGE_AGE_INCR with 4 in *.
  assert (Ha0 : 0 <= a) by apply u32_range.
  unfold br_transmit_config, port_at. rewrite Hp. cbn [of_option mbind res_bind].
  rewrite Hhold, bool_decide_eq_false_2 by (intros [? ?]; done).
  rewrite Hnr, Hq. cbn [of_option mbind res_bind]. fold a. change MESSAGE_AGE_INCR with 4.
  rewrite (s32_small (a + 4)), (s32_small (max_age (br s))), (s32_small (hello_time (br s))),
    (s32_small (forward_delay (br s))), (u32_small (a + 4)) by ints.
  destruct (Z.ltb_spec (a + 4) (max_age (br s))) as [Hlt|Hge]; [|done].
  unfold br_send_config_bpdu. rewrite Hk, (bool_decide_eq_true_2 (BR_KERNEL_STP = _)) by done.
  rewrite Hblk. cbn [negb]. eexists _, _, _. split; [done|]. split; [done|].
  destruct (config_bpdu_parse (mk_bpdu (topology_change (br s)) (topology_change_ack pt)
    (br_designated_root (br s)) (s32 (root_path_cost (br s))) (bridge_id (br s)) (port_id pt)
    (a + 4) (max_age (br s)) (hello_time (br s)) (forward_delay (br s)))) as (_ & E & _).
  { assert (Hpt : port_ok pt).
    { apply (bo_port (br s)); [done|]. by apply list_elem_of_In, (list_elem_of_lookup_2 _ p). }
    constructor; cbn [b_root b_root_path_cost b_bridge_id b_port_id b_message_age b_max_age
      b_hello_time b_forward_delay]; try apply Hb; try apply Hpt; try apply s32_range; lia. }
  split; [exact E|]. cbn [b_message_age]. apply wire_time_incr; [done|]. change MESSAGE_AGE_INCR with 4. lia.
Qed.

(** The example bridge once it has selected its root. *)
Definition ex_br' : net_bridge :=
  match br_configuration_update ex_br with Ok b => b | Fault _ => ex_br end.

Lemma ex_br'_ok : bridge_ok ex_br'.
Proof.
  destruct (br_configuration_update_spec ex_br ex_br_ok) as (b1 & b' & _ & E & _ & _ & Hb & _).
  unfold ex_br'. by rewrite E.
Qed.

Lemma relayed_age_grows_witness :
  exists s' data bpdu,
    br_transmit_config 2 (mk_stp ex_br' 1000 0 []) = Ok s' /\
    events s' = [] ++ [SendBpdu 3 data] /\ parse_config_bpdu (drop 3 data) = Ok bpdu /\ 1000 < b_message_age bpdu.
Proof.
  apply (relayed_age_grows 2 (mk_stp ex_br' 1000 0 [])
    (br_become_designated_port ex_br' (ex_port 3 FORWARDING (ex_id 5) (ex_id 5) 0 32771))
    (ex_port 2 BLOCKING (ex_id 1) (ex_id 2) 100 32769)); try (vm_compute; reflexivity).
  - exact ex_br'_ok.
  - vm_compute. repeat split; discriminate.
Defined.
