(* ===== verification/StpState.v ===== *)
(** Port states of the spanning tree protocol: [br_port_state_selection] is
    refined to a pure function on ports, and what follows from that for the
    states a port goes through. *)

From S2P Require Import Prelude Str Stp StpSelect.

(** ** Frames *)

(** What the code below may change of a bridge: the ports, the carrier and the
    members that record a topology change. *)
Definition core (b : net_bridge) : net_bridge :=
  set_ports [] (set_carrier false (set_topology_change false (set_topology_change_detected false
    (set_topology_change_timer None (set_tcn_timer None b))))).

Definition frame (s s' : stp) : Prop :=
  jiffies s' = jiffies s /\ cpu s' = cpu s /\ core (br s') = core (br s).

Lemma frame_refl s : frame s s.
Proof. done. Qed.

Lemma frame_trans s1 s2 s3 : frame s1 s2 -> frame s2 s3 -> frame s1 s3.
Proof.
  intros (Hj & Hc & Hb) (Hj' & Hc' & Hb'). split; [congruence|]. split; [congruence|].
  by rewrite Hb', Hb.
Qed.

Lemma frame_emit s e : frame s (emit e s).
Proof. done. Qed.

Lemma frame_upd_port s p f : frame s (upd_port p f s).
Proof. done. Qed.

(** The members that no frame step changes. *)
Lemma frame_fields s s' :
  frame s s' ->
  jiffies s' = jiffies s /\ bridge_id (br s') = bridge_id (br s) /\
  br_designated_root (br s') = br_designated_root (br s) /\
  root_path_cost (br s') = root_path_cost (br s) /\ root_port (br s') = root_port (br s) /\
  stp_enabled (br s') = stp_enabled (br s) /\ forward_delay (br s') = forward_delay (br s) /\
  max_age (br s') = max_age (br s) /\ dev_up (br s') = dev_up (br s).
Proof.
  intros (Hj & Hc & Hb). split; [done|].
  repeat split; [apply (f_equal bridge_id Hb)|apply (f_equal br_designated_root Hb)
    |apply (f_equal root_path_cost Hb)|apply (f_equal root_port Hb)|apply (f_equal stp_enabled Hb)
    |apply (f_equal forward_delay Hb)|apply (f_equal max_age Hb)|apply (f_equal dev_up Hb)].
Qed.

#[export] Hint Resolve frame_refl frame_emit frame_upd_port : ints.

(** ** The root port exists *)

(** Unless the bridge is the root, its root port is one of its ports. *)
Definition root_ok (b : net_bridge) : Prop :=
  br_is_root_bridge b = false -> In (root_port b) (map port_no (ports b)).

Lemma get_port_In b no : In no (map port_no (ports b)) -> exists q, br_get_port b no = Some q.
Proof.
  intros Hin. destruct (br_get_port b no) as [q|] eqn:E; [by exists q|]. exfalso.
  apply in_map_iff in Hin as (p & Hp & Hin). unfold br_get_port in E.
  assert (Hf := find_none _ _ E p Hin). cbn in Hf. lia.
Qed.

Lemma root_ok_frame s s' :
  frame s s' -> map port_no (ports (br s')) = map port_no (ports (br s)) ->
  root_ok (br s) -> root_ok (br s').
Proof.
  intros (_ & Hid & Hr & _ & Hrp & _)%frame_fields Hp Hok. unfold root_ok, br_is_root_bridge in *.
  by rewrite Hid, Hr, Hrp, Hp.
Qed.

Lemma alter_insert {A} (f : A -> A) (l : list A) (i : nat) x : l !! i = Some x -> alter f i l = <[i:=f x]> l.
Proof.
  revert i. induction l as [|y l IH]; intros [|i] H; try done.
  - by injection H as ->.
  - cbn. f_equal. by apply IH.
Qed.

Lemma ports_upd_port s p f q :
  ports (br s) !! p = Some q -> ports (br (upd_port p f s)) = <[p := f q]> (ports (br s)).
Proof. intros H. cbn. by apply alter_insert. Qed.

Lemma map_insert_same {A B} (f : A -> B) (l : list A) (i : nat) x y :
  l !! i = Some x -> f y = f x -> map f (<[i:=y]> l) = map f l.
Proof.
  intros Hi E. revert i Hi. induction l as [|z l IH]; intros [|i] Hi; try done.
  - injection Hi as ->. cbn. by rewrite E.
  - cbn. f_equal. by apply IH.
Qed.

(** ** Topology change detection leaves the ports alone *)

Lemma topology_change_detection_spec s :
  root_ok (br s) ->
  exists s', br_topology_change_detection s = Ok s' /\ frame s s' /\ ports (br s') = ports (br s).
Proof.
  intros Hroot. unfold br_topology_change_detection. destruct s as [b j c es]. cbn [br] in *.
  case_bool_decide as Hk; cbn [negb]; [|eexists; split; [done|]; split; [apply frame_refl|done]].
  destruct (br_is_root_bridge b) eqn:Er.
  - eexists. split; [done|]. by split.
  - destruct (topology_change_detected b); cbn [negb].
    + eexists. split; [done|]. by split.
    + destruct (get_port_In b (root_port b) (Hroot Er)) as [q Hq].
      unfold br_transmit_tcn. cbn [br]. rewrite Hq. cbn [of_option mbind res_bind].
      eexists. split; [done|]. unfold br_send_tcn_bpdu. cbn [br]. rewrite bool_decide_eq_true_2 by done.
      cbn [negb]. by destruct (is_bpdu_blocked q).
Qed.

(** ** One port *)

(** What [br_make_blocking] and [br_make_forwarding] do to the port itself. *)
Definition blocked_port (p : net_bridge_port) : net_bridge_port :=
  match state p with
  | DISABLED | BLOCKING => p
  | _ => set_forward_delay_timer None (set_state BLOCKING p)
  end.

Definition entered_state (b : net_bridge) : port_state :=
  if bool_decide (stp_enabled b = BR_NO_STP) || (forward_delay b =? 0) then FORWARDING
  else if bool_decide (stp_enabled b = BR_KERNEL_STP) then LISTENING else LEARNING.

Definition forwarded_port (b : net_bridge) (j : Z) (p : net_bridge_port) : net_bridge_port :=
  match state p with
  | BLOCKING =>
      let p := set_state (entered_state b) p in
      let p := if bool_decide (stp_enabled b = BR_NO_STP) || (forward_delay b =? 0)
               then set_forward_delay_timer None p else p in
      if nonzero (forward_delay b)
      then set_forward_delay_timer (Some (u32 (j + forward_delay b))) p else p
  | _ => p
  end.

Definition quiet_port (p : net_bridge_port) : net_bridge_port :=
  set_topology_change_ack false (set_config_pending false p).

(** The port after [br_port_state_selection]. *)
Definition selected_port (b : net_bridge) (j : Z) (p : net_bridge_port) : net_bridge_port :=
  if is_disabled p || bool_decide (stp_enabled b = BR_USER_STP) then p
  else if port_no p =? root_port b then forwarded_port b j (quiet_port p)
  else if br_is_designated_port b p then forwarded_port b j (set_message_age_timer None p)
  else blocked_port (quiet_port p).

(** A step that writes port [p] only. *)
Definition writes_port (p : nat) (q : net_bridge_port) (s : stp) (m : res stp) : Prop :=
  exists s', m = Ok s' /\ frame s s' /\ ports (br s') = <[p := q]> (ports (br s)).

Lemma list_insert_same {A} (l : list A) (i : nat) x : l !! i = Some x -> <[i:=x]> l = l.
Proof. intros H. by apply list_insert_id. Qed.

Lemma lookup_insert_port {l : list net_bridge_port} {p : nat} {x} q : l !! p = Some x -> <[p:=q]> l !! p = Some q.
Proof. intros H. apply list_lookup_insert_eq. by apply lookup_lt_Some in H. Qed.

Lemma notify_port_spec s p q :
  ports (br s) !! p = Some q -> writes_port p q s (notify_port p s).
Proof.
  intros H. unfold notify_port, port_at. rewrite H. cbn [of_option mbind res_bind].
  eexists. split; [done|]. split; [apply frame_emit|]. cbn. by rewrite list_insert_same.
Qed.

Lemma make_blocking_spec s p q :
  root_ok (br s) -> ports (br s) !! p = Some q ->
  writes_port p (blocked_port q) s (br_make_blocking p s).
Proof.
  intros Hroot Hp. unfold br_make_blocking, port_at. rewrite Hp. cbn [of_option mbind res_bind].
  unfold blocked_port.
  assert (Hsame : writes_port p q s (Ok s)).
  { exists s. split; [done|]. split; [apply frame_refl|]. by rewrite list_insert_same. }
  assert (Htail : forall s1, frame s s1 -> ports (br s1) = ports (br s) ->
    writes_port p (set_forward_delay_timer None (set_state BLOCKING q)) s
      (s2 ← notify_port p (upd_port p (set_state BLOCKING) s1);
       Ok (upd_port p (set_forward_delay_timer None) s2))).
  { intros s1 Hf1 Hp1. rewrite <- Hp1 in Hp.
    assert (H2 := ports_upd_port s1 p (set_state BLOCKING) q Hp).
    assert (Hl2 := lookup_insert_port (set_state BLOCKING q) Hp). rewrite <- H2 in Hl2.
    destruct (notify_port_spec _ p _ Hl2) as (s2 & E2 & Hf2 & Hp2).
    rewrite E2. cbn [mbind res_bind]. eexists. split; [done|].
    split; [eauto 6 using frame_trans with ints|].
    rewrite list_insert_same in Hp2 by done. rewrite <- Hp2 in Hl2.
    rewrite (ports_upd_port s2 p _ _ Hl2), Hp2, H2, list_insert_insert_eq, Hp1. done. }
  destruct (topology_change_detection_spec s Hroot) as (s1 & E1 & Hf1 & Hp1).
  destruct (state q); try done; rewrite ?E1; cbn [mbind res_bind]; apply Htail; try done;
    apply frame_refl.
Qed.

(** Composing writes to one port. *)
Lemma writes_port_upd s p x f q m :
  ports (br s) !! p = Some x ->
  writes_port p q (upd_port p f s) m -> writes_port p q s m.
Proof.
  intros Hp (s' & E & Hf & Hps). exists s'. split; [done|].
  split; [eauto using frame_trans with ints|].
  by rewrite Hps, (ports_upd_port s p f x Hp), list_insert_insert_eq.
Qed.

Lemma make_forwarding_spec s p q :
  root_ok (br s) -> ports (br s) !! p = Some q ->
  writes_port p (forwarded_port (br s) (jiffies s) q) s (br_make_forwarding p s).
Proof.
  intros Hroot Hp. unfold br_make_forwarding, port_at. rewrite Hp. cbn [of_option mbind res_bind].
  unfold forwarded_port, entered_state.
  destruct (state q) eqn:Est;
    try (exists s; split; [done|]; split; [apply frame_refl|]; by rewrite list_insert_same).
  rewrite (bool_decide_eq_true_2 (BLOCKING = BLOCKING)) by done. cbn [negb].
  (* the notification and the timer, after a write of [r] to the port *)
  assert (Htail : forall s1 r, frame s s1 -> ports (br s1) = <[p := r]> (ports (br s)) ->
    writes_port p (if nonzero (forward_delay (br s))
                   then set_forward_delay_timer (Some (u32 (jiffies s + forward_delay (br s)))) r
                   else r) s
      (s2 ← notify_port p s1;
       if nonzero (forward_delay (br s2)) then
         Ok (upd_port p (set_forward_delay_timer (Some (u32 (jiffies s2 + forward_delay (br s2))))) s2)
       else Ok s2)).
  { intros s1 r Hf1 Hp1. assert (Hl1 := lookup_insert_port r Hp). rewrite <- Hp1 in Hl1.
    destruct (notify_port_spec s1 p r Hl1) as (s2 & E2 & Hf2 & Hp2). rewrite E2. cbn [mbind res_bind].
    assert (Hf := frame_trans _ _ _ Hf1 Hf2).
    destruct (frame_fields _ _ Hf) as (Ej & _ & _ & _ & _ & _ & Efd & _). rewrite Ej, Efd.
    assert (Hp2' : ports (br s2) = <[p := r]> (ports (br s)))
      by (by rewrite Hp2, Hp1, list_insert_insert_eq).
    assert (Hl2 := lookup_insert_port r Hp). rewrite <- Hp2' in Hl2.
    destruct (nonzero (forward_delay (br s))); [|by exists s2].
    eexists. split; [done|]. split; [eauto using frame_trans with ints|].
    by rewrite (ports_upd_port s2 p _ r Hl2), Hp2', list_insert_insert_eq. }
  case_bool_decide as Hno; cbn [orb].
  - (* no STP: straight to forwarding *)
    destruct (topology_change_detection_spec (upd_port p (set_state FORWARDING) s)) as (s1 & E1 & Hf1 & Hp1).
    { eapply root_ok_frame; [apply frame_upd_port| |done].
      rewrite (ports_upd_port _ _ _ _ Hp). by eapply map_insert_same. }
    rewrite E1. cbn [mbind res_bind]. rewrite (ports_upd_port s p _ q Hp) in Hp1.
    assert (Hl1 := lookup_insert_port (set_state FORWARDING q) Hp). rewrite <- Hp1 in Hl1.
    apply Htail; [eauto 6 using frame_trans with ints|].
    by rewrite (ports_upd_port s1 p _ _ Hl1), Hp1, list_insert_insert_eq.
  - destruct (Z.eqb_spec (forward_delay (br s)) 0) as [Hz|Hz].
    + destruct (topology_change_detection_spec (upd_port p (set_state FORWARDING) s)) as (s1 & E1 & Hf1 & Hp1).
      { eapply root_ok_frame; [apply frame_upd_port| |done].
        rewrite (ports_upd_port _ _ _ _ Hp). by eapply map_insert_same. }
      rewrite E1. cbn [mbind res_bind]. rewrite (ports_upd_port s p _ q Hp) in Hp1.
      assert (Hl1 := lookup_insert_port (set_state FORWARDING q) Hp). rewrite <- Hp1 in Hl1.
      apply Htail; [eauto 6 using frame_trans with ints|].
      by rewrite (ports_upd_port s1 p _ _ Hl1), Hp1, list_insert_insert_eq.
    + case_bool_decide; cbn [mbind res_bind]; apply Htail; eauto with ints;
        by rewrite (ports_upd_port s p _ q Hp).
Qed.

Lemma select_port_state_spec s p q :
  root_ok (br s) -> ports (br s) !! p = Some q -> is_disabled q = false ->
  writes_port p (selected_port (br s) (jiffies s) q) s (select_port_state p s).
Proof.
  intros Hroot Hp Hen. unfold select_port_state, port_at, selected_port. rewrite Hp, Hen.
  cbn [of_option mbind res_bind orb].
  case_bool_decide as Hu.
  { exists s. split; [done|]. split; [apply frame_refl|]. by rewrite list_insert_same. }
  assert (Hl : forall f, ports (br (upd_port p f s)) !! p = Some (f q)).
  { intros f. rewrite (ports_upd_port s p f q Hp). by apply (lookup_insert_port (f q) Hp). }
  assert (Hr : forall f, port_no (f q) = port_no q -> root_ok (br (upd_port p f s))).
  { intros f Hno. eapply root_ok_frame; [apply frame_upd_port| |done].
    rewrite (ports_upd_port _ _ _ _ Hp). by eapply map_insert_same. }
  destruct (port_no q =? root_port (br s)); [|destruct (br_is_designated_port (br s) q)].
  - apply (writes_port_upd s p q quiet_port); [done|].
    exact (make_forwarding_spec (upd_port p quiet_port s) p (quiet_port q)
             (Hr quiet_port eq_refl) (Hl quiet_port)).
  - apply (writes_port_upd s p q (set_message_age_timer None)); [done|].
    exact (make_forwarding_spec (upd_port p (set_message_age_timer None) s) p
             (set_message_age_timer None q) (Hr (set_message_age_timer None) eq_refl)
             (Hl (set_message_age_timer None))).
  - apply (writes_port_upd s p q quiet_port); [done|].
    exact (make_blocking_spec (upd_port p quiet_port s) p (quiet_port q)
             (Hr quiet_port eq_refl) (Hl quiet_port)).
Qed.

(** ** All ports *)

Definition live (l : list net_bridge_port) : Z :=
  Z.of_nat (length (List.filter (fun p => bool_decide (state p = FORWARDING)) l)).

Lemma selected_port_no b j p : port_no (selected_port b j p) = port_no p.
Proof.
  unfold selected_port, forwarded_port, blocked_port.
  repeat match goal with
  | |- context [if ?c then _ else _] => destruct c
  | |- context [match state ?q with _ => _ end] => destruct (state q)
  end; done.
Qed.

Lemma selected_port_frame s s' j p :
  frame s s' -> selected_port (br s') j p = selected_port (br s) j p.
Proof.
  intros (_ & Hid & _ & _ & Hrp & Hst & Hfd & _)%frame_fields.
  unfold selected_port, forwarded_port, entered_state, br_is_designated_port.
  by rewrite Hid, Hrp, Hst, Hfd.
Qed.

(** The loop from port [k] on: the ports below [k] are done, the others
    untouched. *)
Lemma state_loop_spec s0 ps : root_ok (br s0) -> ports (br s0) = ps ->
  let g := selected_port (br s0) (jiffies s0) in
  forall m k s c,
  (k + m = length ps)%nat -> frame s0 s ->
  ports (br s) = map g (take k ps) ++ drop k ps ->
  c = live (List.filter (fun p => negb (is_disabled p)) (map g (take k ps))) ->
  exists s',
    for_ports (seq k m)
      (fun p '(s, liveports) =>
         pt ← port_at s p;
         if is_disabled pt then Ok (s, liveports)
         else
           s ← select_port_state p s;
           pt ← port_at s p;
           Ok (s, if bool_decide (state pt = FORWARDING) then liveports + 1 else liveports))
      (s, c) = Ok (s', live (List.filter (fun p => negb (is_disabled p)) (map g ps))) /\
    frame s0 s' /\ ports (br s') = map g ps.
Proof.
  intros Hroot Hps g. induction m as [|m IH]; intros k s c Hk Hf Hp Hc.
  { exists s. rewrite take_ge in Hp, Hc by lia. rewrite drop_ge, app_nil_r in Hp by lia. by subst c. }
  cbn [seq for_ports]. destruct (lookup_lt_is_Some_2 ps k) as [q Hq]; [lia|].
  assert (Hkl : length (map g (take k ps)) = k) by (rewrite length_map, length_take; lia).
  assert (Hd : drop k ps = q :: drop (S k) ps) by (by apply drop_S).
  assert (Hl : ports (br s) !! k = Some q).
  { rewrite Hp, lookup_app_r by lia. by rewrite Hkl, Nat.sub_diag, Hd. }
  assert (Ht : map g (take (S k) ps) = map g (take k ps) ++ [g q])
    by (by rewrite (take_S_r _ _ _ Hq), map_app).
  assert (Hins : <[k := g q]> (ports (br s)) = map g (take (S k) ps) ++ drop (S k) ps).
  { rewrite Hp, Hd, Ht, <- app_assoc. rewrite insert_app_r_alt by lia. by rewrite Hkl, Nat.sub_diag. }
  assert (Hdis : is_disabled (g q) = is_disabled q).
  { subst g. unfold selected_port. destruct (is_disabled q) eqn:E; [done|]. cbn [orb].
    unfold is_disabled in *. apply bool_decide_eq_false in E. apply bool_decide_eq_false.
    unfold forwarded_port, blocked_port, entered_state.
    repeat (case_match || case_bool_decide); cbn; congruence. }
  assert (Hat : port_at s k = Ok q) by (unfold port_at; by rewrite Hl).
  rewrite Hat. cbn [mbind res_bind].
  destruct (is_disabled q) eqn:Een.
  - cbn [mbind res_bind]. apply IH; [lia|done| |].
    + assert (Hgq : g q = q) by (subst g; unfold selected_port; by rewrite Een).
      rewrite <- Hins, Hgq. symmetry. by apply list_insert_id.
    + rewrite Ht, filter_app. cbn [List.filter]. rewrite Hdis. cbn [negb]. by rewrite app_nil_r.
  - assert (Hr : root_ok (br s)).
    { apply (root_ok_frame s0); [done| |done]. rewrite Hp, Hps, map_app, map_map.
      rewrite (map_ext _ port_no) by (intros; apply selected_port_no).
      by rewrite <- map_app, take_drop. }
    destruct (select_port_state_spec s k q Hr Hl Een) as (s1 & E1 & Hf1 & Hp1). rewrite E1.
    cbn [mbind res_bind]. destruct (frame_fields _ _ Hf) as (Ej & _).
    rewrite Ej, (selected_port_frame s0) in Hp1 by done. fold (g q) in Hp1. rewrite Hins in Hp1.
    assert (Hl1 : ports (br s1) !! k = Some (g q)).
    { rewrite Hp1, Ht, <- app_assoc, lookup_app_r by lia. by rewrite Hkl, Nat.sub_diag. }
    assert (Hat1 : port_at s1 k = Ok (g q)) by (unfold port_at; by rewrite Hl1).
    rewrite Hat1. cbn [mbind res_bind]. apply IH; [lia|by eapply frame_trans|done|].
    rewrite Ht, filter_app. cbn [List.filter]. rewrite Hdis. cbn [negb]. unfold live in *.
    rewrite filter_app, length_app. cbn [List.filter].
    destruct (bool_decide (state (g q) = FORWARDING)); cbn [length]; lia.
Qed.

Lemma live_existsb l :
  nonzero (live (List.filter (fun p => negb (is_disabled p)) l)) =
  existsb (fun p => bool_decide (state p = FORWARDING)) l.
Proof.
  unfold live. induction l as [|p l IH]; [done|]. cbn [List.filter existsb]. unfold is_disabled at 1.
  case_bool_decide as Hd; cbn [negb].
  - rewrite (bool_decide_eq_false_2 (state p = FORWARDING)) by congruence. apply IH.
  - cbn [List.filter]. case_bool_decide; [|apply IH]. cbn [length orb]. unfold nonzero.
    apply negb_true_iff, Z.eqb_neq. lia.
Qed.

Lemma br_port_state_selection_spec s :
  root_ok (br s) ->
  exists s', br_port_state_selection s = Ok s' /\ frame s s' /\
    ports (br s') = map (selected_port (br s) (jiffies s)) (ports (br s)) /\
    carrier (br s') = existsb (fun p => bool_decide (state p = FORWARDING)) (ports (br s')).
Proof.
  intros Hroot. unfold br_port_state_selection, port_list.
  destruct (state_loop_spec s (ports (br s)) Hroot eq_refl (length (ports (br s))) 0 s 0)
    as (s' & E & Hf & Hp); [done|apply frame_refl|by rewrite drop_0|done|].
  rewrite E. cbn [mbind res_bind]. eexists. split; [done|]. split; [by eapply frame_trans|].
  split; [done|]. cbn [carrier upd br set_br set_carrier ports]. rewrite Hp.
  apply live_existsb.
Qed.

(** [br_port_state_selection] is the map of a pure function over the
    ports.  It never dereferences a null pointer, the order of the ports does
    not matter, nothing of the bridge changes but the members that record a
    topology change, and the bridge device has carrier exactly when some port
    forwards. *)
Theorem br_port_state_selection_refines s :
  root_ok (br s) ->
  exists s', br_port_state_selection s = Ok s' /\ frame s s' /\
    ports (br s') = map (selected_port (br s) (jiffies s)) (ports (br s)) /\
    carrier (br s') = existsb (fun p => bool_decide (state p = FORWARDING)) (ports (br s')).
Proof. apply br_port_state_selection_spec. Qed.

Definition ex_stp : stp := mk_stp ex_br 1000 0 [].

Lemma br_port_state_selection_refines_witness :
  exists s', br_port_state_selection ex_stp = Ok s' /\ frame ex_stp s' /\
    ports (br s') = map (selected_port ex_br 1000) (ports ex_br) /\
    carrier (br s') = existsb (fun p => bool_decide (state p = FORWARDING)) (ports (br s')).
Proof. apply (br_port_state_selection_refines ex_stp). by vm_compute. Defined.

Lemma selected_states b j p :
  stp_enabled b = BR_KERNEL_STP -> state p <> DISABLED ->
  let p' := selected_port b j p in
  if (port_no p =? root_port b) || br_is_designated_port b p then
    state p' <> BLOCKING /\ state p' <> DISABLED /\
    (forward_delay b <> 0 -> state p = BLOCKING ->
       state p' = LISTENING /\ forward_delay_timer p' = Some (u32 (j + forward_delay b))) /\
    (state p <> BLOCKING -> state p' = state p)
  else state p' = BLOCKING.
Proof.
  intros Hk Hen p'. subst p'. unfold selected_port, is_disabled.
  rewrite bool_decide_eq_false_2 by done. rewrite Hk, (bool_decide_eq_false_2 (BR_KERNEL_STP = _)) by done.
  cbn [orb]. unfold forwarded_port, entered_state, blocked_port. rewrite Hk.
  rewrite (bool_decide_eq_false_2 (BR_KERNEL_STP = BR_NO_STP)) by done.
  rewrite (bool_decide_eq_true_2 (BR_KERNEL_STP = BR_KERNEL_STP)) by done. unfold nonzero.
  destruct (port_no p =? root_port b); [|destruct (br_is_designated_port b p)]; cbn [orb].
  - cbn [state quiet_port set_topology_change_ack set_config_pending].
    destruct (state p) eqn:E; try done; destruct (forward_delay b =? 0) eqn:Ef; cbn; rewrite ?E;
      repeat split; try done; lia.
  - cbn [state set_message_age_timer].
    destruct (state p) eqn:E; try done; destruct (forward_delay b =? 0) eqn:Ef; cbn; rewrite ?E;
      repeat split; try done; lia.
  - cbn [state quiet_port set_topology_change_ack set_config_pending].
    destruct (state p) eqn:E; cbn; done.
Qed.

(** C22: port states follow the port roles.  With the kernel's spanning tree
    running, after [br_port_state_selection] an enabled port that is neither
    the root port nor designated is blocking; one that is has left the blocking
    state, and unless the forward delay is 0 it entered no more than the
    listening state and its forward delay timer runs. *)
Theorem port_states_follow_roles s :
  root_ok (br s) -> stp_enabled (br s) = BR_KERNEL_STP ->
  exists s', br_port_state_selection s = Ok s' /\
  forall i p, ports (br s) !! i = Some p -> state p <> DISABLED ->
  exists p', ports (br s') !! i = Some p' /\
    if (port_no p =? root_port (br s)) || br_is_designated_port (br s) p then
      state p' <> BLOCKING /\ state p' <> DISABLED /\
      (forward_delay (br s) <> 0 -> state p = BLOCKING ->
         state p' = LISTENING /\
         forward_delay_timer p' = Some (u32 (jiffies s + forward_delay (br s)))) /\
      (state p <> BLOCKING -> state p' = state p)
    else state p' = BLOCKING.
Proof.
  intros Hroot Hk. destruct (br_port_state_selection_spec s Hroot) as (s' & E & _ & Hp & _).
  exists s'. split; [done|]. intros i p Hi Hen. eexists. split.
  - rewrite Hp. change (selected_port (br s) (jiffies s) <$> ports (br s)) with
      (map (selected_port (br s) (jiffies s)) (ports (br s))).
    rewrite list_lookup_fmap, Hi. done.
  - by apply selected_states.
Qed.

Lemma port_states_follow_roles_witness :
  exists s', br_port_state_selection ex_stp = Ok s' /\
  forall i p, ports ex_br !! i = Some p -> state p <> DISABLED ->
  exists p', ports (br s') !! i = Some p' /\
    if (port_no p =? root_port ex_br) || br_is_designated_port ex_br p then
      state p' <> BLOCKING /\ state p' <> DISABLED /\
      (forward_delay ex_br <> 0 -> state p = BLOCKING ->
         state p' = LISTENING /\ forward_delay_timer p' = Some (u32 (1000 + forward_delay ex_br))) /\
      (state p <> BLOCKING -> state p' = state p)
    else state p' = BLOCKING.
Proof. apply (port_states_follow_roles ex_stp); [by vm_compute|done]. Defined.
