(* ===== verification/StpSafety.v ===== *)
(** The spanning tree protocol as a reactive system: the inputs a bridge
    handles, the invariant that every handler keeps, and the absence of null
    pointer dereferences. *)

From S2P Require Import Prelude Str Stp StpSelect StpState StpBpdu.

(** ** Inputs *)

(** [time_after_eq(jiffies, e)]. *)
Definition expired (s : stp) (t : timer) : bool :=
  match t with Some e => 0 <=? s32 (jiffies s - e) | None => false end.

Inductive input : Type :=
  | Tick (n : Z)
  | Receive (pull : bool) (port : option nat) (dest pkt : list Z)
  | HelloTimer
  | TcnTimer
  | TopologyChangeTimer
  | MessageAgeTimer (p : nat)
  | ForwardDelayTimer (p : nat)
  | HoldTimer (p : nat)
  | EnablePort (p : nat)
  | DisablePort (p : nat)
  | Loopback (p : nat)
  | EnableBridge
  | DisableBridge
  | SetEnabled (helper val : Z)
  | ChangeBridgeId (a : list Z)
  | RecalculateBridgeId
  | SetBridgePriority (newprio : Z)
  | SetPortPriority (p : nat) (newprio : Z)
  | SetPathCost (p : nat) (cost : Z)
  | SetHelloTime (val : Z)
  | SetMaxAge (val : Z)
  | SetForwardDelay (val : Z).

(** A timer runs its handler once it has expired, and is no longer pending
    while the handler runs. *)
Definition handle (i : input) (s : stp) : res stp :=
  match i with
  | Tick n => Ok (mk_stp (br s) (u32 (jiffies s + n)) (cpu s) (events s))
  | Receive pull port dest pkt => br_stp_rcv pull port dest pkt s
  | HelloTimer =>
      if expired s (hello_timer (br s))
      then br_hello_timer_expired (upd (set_hello_timer None) s) else Ok s
  | TcnTimer =>
      if expired s (tcn_timer (br s))
      then br_tcn_timer_expired (upd (set_tcn_timer None) s) else Ok s
  | TopologyChangeTimer =>
      if expired s (topology_change_timer (br s))
      then br_topology_change_timer_expired (upd (set_topology_change_timer None) s) else Ok s
  | MessageAgeTimer p =>
      pt ← port_at s p;
      if expired s (message_age_timer pt)
      then br_message_age_timer_expired p (upd_port p (set_message_age_timer None) s) else Ok s
  | ForwardDelayTimer p =>
      pt ← port_at s p;
      if expired s (forward_delay_timer pt)
      then br_forward_delay_timer_expired p (upd_port p (set_forward_delay_timer None) s) else Ok s
  | HoldTimer p =>
      pt ← port_at s p;
      if expired s (hold_timer pt)
      then br_hold_timer_expired p (upd_port p (set_hold_timer None) s) else Ok s
  | EnablePort p => br_stp_enable_port p s
  | DisablePort p => br_stp_disable_port p s
  | Loopback p => br_loopback_detected p s
  | EnableBridge => br_stp_enable_bridge s
  | DisableBridge => br_stp_disable_bridge s
  | SetEnabled helper val => br_stp_set_enabled helper val s
  | ChangeBridgeId a => br_stp_change_bridge_id a s
  | RecalculateBridgeId => '(_, s) ← br_stp_recalculate_bridge_id s; Ok s
  | SetBridgePriority newprio => br_stp_set_bridge_priority newprio s
  | SetPortPriority p newprio => '(_, s) ← br_stp_set_port_priority p newprio s; Ok s
  | SetPathCost p cost => '(_, s) ← br_stp_set_path_cost p cost s; Ok s
  | SetHelloTime val => Ok (snd (br_set_hello_time val s))
  | SetMaxAge val => Ok (snd (br_set_max_age val s))
  | SetForwardDelay val => Ok (snd (br_set_forward_delay val s))
  end.

Fixpoint run (l : list input) (s : stp) : res stp :=
  match l with
  | [] => Ok s
  | i :: l => s ← handle i s; run l s
  end.

(** ** The invariant *)

(** [safe_in Q m]: the handler does not fault, and [Q] holds of the result. *)
Definition safe_in {T} (Q : T -> Prop) (m : res T) : Prop := exists s, m = Ok s /\ Q s.

Lemma safe_in_Ok {T} (Q : T -> Prop) s : Q s -> safe_in Q (Ok s).
Proof. intros H. by exists s. Qed.

Lemma safe_in_bind {T U} (Q : T -> Prop) (R : U -> Prop) m k :
  safe_in Q m -> (forall s, Q s -> safe_in R (k s)) -> safe_in R (m ≫= k).
Proof. intros (s & -> & H) Hk. by apply Hk. Qed.

(** Either the bridge is the root, or its root port is one of its ports and
    leads to a better root. *)
Definition root_inv (b : net_bridge) : Prop :=
  (root_port b = 0 /\ br_designated_root b = bridge_id b) \/
  (In (root_port b) (map port_no (ports b)) /\
   bid_val (br_designated_root b) < bid_val (bridge_id b)).

(** Members the invariant speaks about. *)
Definition crit (b : net_bridge) :=
  (bridge_id b, br_designated_root b, root_path_cost b, root_port b, ports b).

(** Closes goals that a composition of setters keeps a port well-formed. *)
Ltac keeps_port :=
  split; [intros q Hq; constructor; cbn; apply Hq | intros q; done].

Section Handlers.
Context (nos : list Z).

(** [nos] are the numbers of the ports, in order; [wf0] is the part of the
    invariant that holds also while the bridge identifier has changed and the
    root has not been selected anew. *)
Definition wf0 (s : stp) : Prop := bridge_ok (br s) /\ map port_no (ports (br s)) = nos.
Definition wf (s : stp) : Prop := wf0 s /\ root_inv (br s).

Lemma wf_root_ok s : wf s -> root_ok (br s).
Proof.
  intros [[Hb _] Hr] Hnr. destruct Hr as [[_ E]|[? _]]; [|done].
  unfold br_is_root_bridge in Hnr. rewrite E, memcmp_bid_eqb, Z.eqb_refl in Hnr by apply Hb. done.
Qed.

Lemma wf_crit s s' : crit (br s') = crit (br s) -> wf s -> wf s'.
Proof.
  unfold crit. intros [= Hid Hr Hc Hrp Hp] [[[B1 B2 B3 B4 B5] Hn] Hi]. unfold wf, wf0, root_inv.
  rewrite Hid, Hr, Hrp, Hp. split; [|done]. split; [|done].
  constructor; rewrite ?Hid, ?Hr, ?Hc, ?Hp; done.
Qed.

Lemma wf_upd f s : crit (f (br s)) = crit (br s) -> wf s -> wf (upd f s).
Proof. apply (wf_crit s (upd f s)). Qed.

Lemma wf_emit e s : wf s -> wf (emit e s).
Proof. by apply wf_crit. Qed.

Lemma alter_Forall {T} (P : T -> Prop) f (l : list T) (i : nat) :
  (forall x, P x -> P (f x)) -> Forall P l -> Forall P (alter f i l).
Proof.
  intros Hf H. revert i. induction H as [|x l Hx Hl IH]; intros i; [by destruct i|].
  destruct i as [|i]; cbn; apply List.Forall_cons; auto.
Qed.

Lemma alter_map {T U} (g : T -> U) f (l : list T) (i : nat) :
  (forall x, g (f x) = g x) -> map g (alter f i l) = map g l.
Proof.
  intros Hf. revert i. induction l as [|x l IH]; intros [|i]; try done; cbn; [by rewrite Hf|].
  f_equal. apply IH.
Qed.

(** Writing a port in a way that keeps it well-formed. *)
Definition port_keeps (f : net_bridge_port -> net_bridge_port) : Prop :=
  (forall q, port_ok q -> port_ok (f q)) /\ (forall q, port_no (f q) = port_no q).

Lemma wf0_upd_port p f s : port_keeps f -> wf0 s -> wf0 (upd_port p f s).
Proof.
  intros [Hf Hno] [[B1 B2 B3 B4 B5] Hn]. split.
  - constructor; try done; cbn.
    + by apply alter_Forall.
    + by rewrite alter_map.
  - cbn. by rewrite alter_map.
Qed.

Lemma wf_upd_port p f s : port_keeps f -> wf s -> wf (upd_port p f s).
Proof.
  intros Hf [H0 Hr]. split; [by apply wf0_upd_port|]. unfold root_inv in *. cbn.
  destruct Hf as [_ Hno]. by rewrite alter_map.
Qed.

Lemma port_at_ok p s : wf0 s -> (p < length nos)%nat -> exists pt, port_at s p = Ok pt /\ port_ok pt.
Proof.
  intros [Hb Hn] Hp. rewrite <- Hn, length_map in Hp.
  destruct (lookup_lt_is_Some_2 _ _ Hp) as [pt Hpt]. exists pt. unfold port_at. rewrite Hpt.
  split; [done|]. apply (bo_port (br s)); [done|].
  by apply list_elem_of_In, (list_elem_of_lookup_2 _ p).
Qed.

Lemma port_list_lt s p : wf0 s -> In p (port_list s) -> (p < length nos)%nat.
Proof. intros [_ <-] Hin%in_seq. rewrite length_map. lia. Qed.

Lemma for_ports_safe (Q : stp -> Prop) body l :
  (forall p s, In p l -> Q s -> safe_in Q (body p s)) ->
  forall s, Q s -> safe_in Q (for_ports l body s).
Proof.
  induction l as [|p l IH]; intros Hb s Hs; [by apply safe_in_Ok|]. cbn [for_ports].
  eapply safe_in_bind; [apply Hb; [by left|done]|]. intros s' Hs'. apply IH; [|done].
  intros q s'' Hq. apply Hb. by right.
Qed.

(** ** Transmission *)

Lemma transmit_config_safe p s :
  wf s -> (p < length nos)%nat -> safe_in wf (br_transmit_config p s).
Proof.
  intros Hs Hp. unfold br_transmit_config.
  destruct (port_at_ok p s (proj1 Hs) Hp) as (pt & -> & Hpt). cbn [mbind res_bind].
  case_bool_decide.
  { apply safe_in_Ok, wf_upd_port; [keeps_port|done]. }
  apply (safe_in_bind (fun _ : Z => True)).
  { destruct (br_is_root_bridge (br s)) eqn:E; [by apply safe_in_Ok|].
    destruct (get_port_In _ _ (wf_root_ok s Hs E)) as [q ->]. by apply safe_in_Ok. }
  intros age _. bcase; [|by apply safe_in_Ok]. apply safe_in_Ok.
  apply wf_upd_port; [keeps_port|]. unfold br_send_config_bpdu.
  repeat case_match; try done; by apply wf_emit.
Qed.

Lemma transmit_tcn_safe s :
  wf s -> root_port (br s) <> 0 -> safe_in wf (br_transmit_tcn s).
Proof.
  intros Hs Hr. unfold br_transmit_tcn. destruct Hs as [Hs [[? _]|[Hin Hv]]]; [done|].
  destruct (get_port_In _ _ Hin) as [q ->]. cbn [of_option mbind res_bind]. apply safe_in_Ok.
  assert (wf s) by (split; [done|]; by right).
  unfold br_send_tcn_bpdu. repeat case_match; try done; by apply wf_emit.
Qed.

Lemma not_root_port s : wf s -> br_is_root_bridge (br s) = false -> root_port (br s) <> 0.
Proof.
  intros [[Hb _] Hr] Hn. destruct Hr as [[_ E]|[Hin _]].
  - unfold br_is_root_bridge in Hn. rewrite E, memcmp_bid_eqb, Z.eqb_refl in Hn by apply Hb. done.
  - apply in_map_iff in Hin as (p & <- & Hp). assert (H := po_no p (bo_port _ p Hb Hp)). lia.
Qed.

Lemma config_bpdu_generation_safe s : wf s -> safe_in wf (br_config_bpdu_generation s).
Proof.
  intros Hs. unfold br_config_bpdu_generation. apply for_ports_safe; [|done].
  intros p s' Hp Hs'. assert (Hlt := port_list_lt s p (proj1 Hs) Hp).
  destruct (port_at_ok p s' (proj1 Hs') Hlt) as (pt & -> & Hpt). cbn [mbind res_bind].
  case_match; [by apply transmit_config_safe|by apply safe_in_Ok].
Qed.

Lemma topology_change_detection_safe s : wf s -> safe_in wf (br_topology_change_detection s).
Proof.
  intros Hs. destruct (topology_change_detection_spec s (wf_root_ok s Hs)) as (s' & -> & Hf & Hp).
  apply safe_in_Ok. apply (wf_crit s); [|done].
  destruct (frame_fields _ _ Hf) as (_ & Hid & Hr & Hc & Hrp & _). unfold crit. congruence.
Qed.

Lemma become_root_bridge_safe s : wf s -> safe_in wf (br_become_root_bridge s).
Proof.
  intros Hs. unfold br_become_root_bridge.
  eapply safe_in_bind; [apply topology_change_detection_safe; by apply wf_upd|]. intros s1 H1.
  case_match.
  - eapply safe_in_bind; [apply config_bpdu_generation_safe; by apply wf_upd|]. intros s2 H2.
    apply safe_in_Ok. by apply wf_upd.
  - apply safe_in_Ok. by apply wf_upd.
Qed.

(** ** Selection *)

Lemma selected_port_ok b j p : port_ok p -> port_ok (selected_port b j p).
Proof.
  intros Hp. unfold selected_port, forwarded_port, blocked_port.
  repeat match goal with
  | |- context [if ?c then _ else _] => destruct c
  | |- context [match state ?q with _ => _ end] => destruct (state q)
  end; try done; constructor; cbn; apply Hp.
Qed.

Lemma map_wf0 f s s' :
  port_keeps f -> bridge_ok (br s') \/
    (bridge_id (br s') = bridge_id (br s) /\ br_designated_root (br s') = br_designated_root (br s) /\
     root_path_cost (br s') = root_path_cost (br s)) ->
  ports (br s') = map f (ports (br s)) -> wf0 s -> wf0 s'.
Proof.
  intros [Hf Hno] Hb Hp [[B1 B2 B3 B4 B5] Hn].
  assert (Hm : map port_no (ports (br s')) = map port_no (ports (br s))).
  { rewrite Hp, map_map. by apply map_ext. }
  split; [|by rewrite Hm]. destruct Hb as [Hb|(Hid & Hr & Hc)]; [done|].
  constructor; rewrite ?Hid, ?Hr, ?Hc, ?Hm; try done. rewrite Hp.
  apply List.Forall_forall. intros q (p & <- & Hin)%in_map_iff. apply Hf.
  by apply (List.Forall_forall port_ok (ports (br s))).
Qed.

Lemma port_state_selection_safe s : wf s -> safe_in wf (br_port_state_selection s).
Proof.
  intros Hs. destruct (br_port_state_selection_spec s (wf_root_ok s Hs)) as (s' & -> & Hf & Hp & _).
  apply safe_in_Ok. destruct (frame_fields _ _ Hf) as (_ & Hid & Hr & Hc & Hrp & _).
  assert (Hk : port_keeps (selected_port (br s) (jiffies s))).
  { split; [apply selected_port_ok|apply selected_port_no]. }
  split.
  - apply (map_wf0 (selected_port (br s) (jiffies s)) s); try done; [by right|apply Hs].
  - destruct Hs as [_ Hi]. unfold root_inv in *. rewrite Hid, Hr, Hrp, Hp, map_map.
    by rewrite (map_ext _ port_no) by apply Hk.
Qed.

Lemma configuration_update_safe s : wf0 s -> safe_in wf (configuration_update s).
Proof.
  intros [Hb Hn]. unfold configuration_update.
  destruct (br_configuration_update_spec (br s) Hb)
    as (b1 & b' & _ & -> & Hsame & Eb & Hb' & Hsel & Hroles).
  cbn [mbind res_bind]. apply safe_in_Ok. destruct (same_but_root_ports _ _ Hsame) as [_ Hid].
  assert (Hid' : bridge_id b' = bridge_id (br s)) by (rewrite Eb; done).
  assert (Hno : map port_no (ports b') = nos).
  { rewrite <- Hn. clear -Hroles. induction Hroles as [|p p' l l' Hr _ IH]; [done|]. cbn [map].
    f_equal; [|done]. unfold role_ok in Hr. destruct (is_disabled p); [by subst|].
    by destruct Hr as [(-> & _)|(-> & _)]. }
  split; [by split|]. unfold root_inv. cbn [br set_br]. rewrite Hid', Hno.
  destruct Hsel as [(Hr & Hd & _)|(q & Hq & Hc & Hr & Hd & _)]; [by left|right].
  rewrite Hr, Hd, <- Hn. split; [by apply in_map|].
  unfold candidate in Hc. rewrite !andb_true_iff, Z.ltb_lt in Hc. lia.
Qed.

Lemma reconfigure_safe w s : wf0 s -> safe_in wf (reconfigure w s).
Proof.
  intros Hs. unfold reconfigure.
  eapply safe_in_bind; [by apply configuration_update_safe|]. intros s1 H1.
  eapply safe_in_bind; [by apply port_state_selection_safe|]. intros s2 H2.
  case_match; [by apply become_root_bridge_safe|by apply safe_in_Ok].
Qed.

Lemma become_designated_keeps b : bridge_ok b -> port_keeps (br_become_designated_port b).
Proof. intros Hb. split; [|done]. intros q Hq. by apply (become_designated b q). Qed.

(** ** Reception *)

(** What the parser guarantees of a BPDU. *)
Definition bpdu_wf (bpdu : br_config_bpdu) : Prop :=
  bid_ok (b_root bpdu) /\ bid_ok (b_bridge_id bpdu) /\ is_u16 (b_port_id bpdu).

Lemma nth_u8 (buf : list Z) i : bytes buf -> is_u8 (nth i buf 0).
Proof.
  intros Hb. destruct (nth_in_or_default i buf 0) as [Hin| ->]; [|done].
  by apply (List.Forall_forall is_u8 buf).
Qed.

Lemma bpdu_of_wf buf : bytes buf -> bpdu_wf (bpdu_of buf).
Proof.
  intros Hb. assert (Hg := fun i => nth_u8 buf i Hb).
  unfold bpdu_wf, bpdu_of, bid_ok. cbn [b_root b_bridge_id b_port_id prio addr].
  repeat match goal with |- _ /\ _ => split end; try done;
    try (repeat first [apply List.Forall_nil | apply List.Forall_cons; [apply Hg|]]).
  assert (H0 := Hg 22%nat). assert (H1 := Hg 23%nat). unfold is_u8 in *.
  rewrite lor_shiftl_add by lia. unfold is_u16. lia.
Qed.

Lemma record_config_keeps bpdu age t :
  bpdu_wf bpdu ->
  port_keeps (fun q =>
    set_message_age_timer t
      (set_designated_age age
         (set_designated_port (b_port_id bpdu)
            (set_designated_bridge (b_bridge_id bpdu)
               (set_designated_cost (u32 (b_root_path_cost bpdu))
                  (set_designated_root (b_root bpdu) q)))))).
Proof.
  intros (Hr & Hb & Hp). split; [|done]. intros q Hq. constructor; cbn; try apply Hq; try done.
  apply u32_range.
Qed.

Lemma received_config_bpdu_safe p bpdu s :
  wf s -> (p < length nos)%nat -> bpdu_wf bpdu -> safe_in wf (br_received_config_bpdu p bpdu s).
Proof.
  intros Hs Hp Hb. unfold br_received_config_bpdu.
  destruct (port_at_ok p s (proj1 Hs) Hp) as (pt & -> & Hpt). cbn [mbind res_bind].
  case_match.
  2:{ case_match; [by apply transmit_config_safe|by apply safe_in_Ok]. }
  eapply safe_in_bind.
  { apply configuration_update_safe. unfold br_record_config_information.
    apply wf0_upd_port; [by apply record_config_keeps|apply Hs]. }
  intros s1 H1. eapply safe_in_bind; [by apply port_state_selection_safe|]. intros s2 H2.
  apply (safe_in_bind wf).
  { destruct (br_is_root_bridge (br s2)) eqn:Er; cbn [negb andb]; [by apply safe_in_Ok|].
    case_match; [|by apply safe_in_Ok]. unfold lost_root. case_match.
    - apply (safe_in_bind wf).
      + apply transmit_tcn_safe; [by apply wf_upd, wf_upd|]. exact (not_root_port s2 H2 Er).
      + intros s3 Hs3. apply safe_in_Ok. by apply wf_upd.
    - apply safe_in_Ok. by apply wf_upd. }
  intros s3 H3. destruct (port_at_ok p s3 (proj1 H3) Hp) as (pt' & -> & _). cbn [mbind res_bind].
  case_match; [|by apply safe_in_Ok]. unfold root_port_update.
  eapply safe_in_bind; [apply config_bpdu_generation_safe; by apply wf_upd|]. intros s4 H4.
  apply safe_in_Ok. case_match; [|done]. by apply wf_upd.
Qed.

Lemma received_tcn_bpdu_safe p s :
  wf s -> (p < length nos)%nat -> safe_in wf (br_received_tcn_bpdu p s).
Proof.
  intros Hs Hp. unfold br_received_tcn_bpdu.
  destruct (port_at_ok p s (proj1 Hs) Hp) as (pt & -> & Hpt). cbn [mbind res_bind].
  case_match; [|by apply safe_in_Ok].
  eapply safe_in_bind; [by apply topology_change_detection_safe|]. intros s1 H1.
  apply transmit_config_safe; [|done]. apply wf_upd_port; [keeps_port|done].
Qed.

Lemma stp_rcv_safe pull port dest pkt s :
  wf s -> bytes pkt -> (forall p, port = Some p -> (p < length nos)%nat) ->
  safe_in wf (br_stp_rcv pull port dest pkt s).
Proof.
  intros Hs Hpkt Hport. rewrite br_stp_rcv_total. unfold rcv_total. repeat (case_match; [by apply safe_in_Ok|]).
  destruct port as [p|]; [|by apply safe_in_Ok]. specialize (Hport p eq_refl).
  destruct (port_at_ok p s (proj1 Hs) Hport) as (pt & -> & _). cbn [mbind res_bind].
  repeat (case_match; [by apply safe_in_Ok|]). case_match.
  - repeat (case_match; [by apply safe_in_Ok|]). apply received_config_bpdu_safe; [done|done|].
    by apply bpdu_of_wf, Forall_drop.
  - case_match; [by apply received_tcn_bpdu_safe|by apply safe_in_Ok].
Qed.

(** ** Timers *)

Lemma hello_timer_safe s : wf s -> safe_in wf (br_hello_timer_expired s).
Proof.
  intros Hs. unfold br_hello_timer_expired. case_match; [|by apply safe_in_Ok].
  eapply safe_in_bind; [by apply config_bpdu_generation_safe|]. intros s1 H1.
  apply safe_in_Ok. by apply wf_upd.
Qed.

Lemma message_age_timer_safe p s :
  wf s -> (p < length nos)%nat -> safe_in wf (br_message_age_timer_expired p s).
Proof.
  intros Hs Hp. unfold br_message_age_timer_expired.
  destruct (port_at_ok p s (proj1 Hs) Hp) as (pt & -> & _). cbn [mbind res_bind].
  repeat (case_match; [by apply safe_in_Ok|]). apply reconfigure_safe.
  apply wf0_upd_port; [apply become_designated_keeps, Hs|apply Hs].
Qed.

Lemma notify_port_safe p s : wf s -> (p < length nos)%nat -> safe_in wf (notify_port p s).
Proof.
  intros Hs Hp. unfold notify_port. destruct (port_at_ok p s (proj1 Hs) Hp) as (pt & -> & _).
  cbn [mbind res_bind]. by apply safe_in_Ok, wf_emit.
Qed.

Lemma forward_delay_timer_safe p s :
  wf s -> (p < length nos)%nat -> safe_in wf (br_forward_delay_timer_expired p s).
Proof.
  intros Hs Hp. unfold br_forward_delay_timer_expired.
  destruct (port_at_ok p s (proj1 Hs) Hp) as (pt & -> & _). cbn [mbind res_bind].
  apply (safe_in_bind wf); [|intros; by apply notify_port_safe].
  destruct (state pt); try (by apply safe_in_Ok).
  - apply safe_in_Ok, wf_upd_port; [keeps_port|done].
  - apply (safe_in_bind wf); [|intros s1 H1; apply safe_in_Ok; by apply wf_upd].
    assert (wf (upd_port p (set_state FORWARDING) s)) by (apply wf_upd_port; [keeps_port|done]).
    case_match; [by apply topology_change_detection_safe|by apply safe_in_Ok].
Qed.

Lemma hold_timer_safe p s :
  wf s -> (p < length nos)%nat -> safe_in wf (br_hold_timer_expired p s).
Proof.
  intros Hs Hp. unfold br_hold_timer_expired.
  destruct (port_at_ok p s (proj1 Hs) Hp) as (pt & -> & _). cbn [mbind res_bind].
  case_match; [by apply transmit_config_safe|by apply safe_in_Ok].
Qed.

(** The one handler with a precondition. *)
Lemma tcn_timer_safe s :
  wf s ->
  safe_in wf (br_tcn_timer_expired s) \/
  (root_port (br s) = 0 /\ dev_up (br s) = true /\ br_tcn_timer_expired s = Fault NullDeref).
Proof.
  intros Hs. unfold br_tcn_timer_expired. destruct (dev_up (br s)); [|left; by apply safe_in_Ok].
  destruct (Z.eq_dec (root_port (br s)) 0) as [Hz|Hz]; [right|left].
  - split; [done|]. split; [done|]. unfold br_transmit_tcn. rewrite Hz.
    destruct (br_get_port (br s) 0) as [q|] eqn:E; [|done].
    apply br_get_port_Some in E as [Hin E]. assert (H := po_no q (bo_port _ q (proj1 (proj1 Hs)) Hin)). lia.
  - eapply safe_in_bind; [by apply transmit_tcn_safe|]. intros s1 H1. apply safe_in_Ok. by apply wf_upd.
Qed.

(** ** Interface *)

Lemma make_port_id_u16 prio no : is_u16 (br_make_port_id prio no).
Proof. apply u16_range. Qed.

Lemma init_port_keeps b : bridge_ok b -> port_keeps (br_init_port b).
Proof.
  intros Hb. split; [|done]. intros q Hq. constructor; cbn; try apply Hq; try apply Hb;
    apply make_port_id_u16.
Qed.

Lemma enable_port_safe p s :
  wf s -> (p < length nos)%nat -> safe_in wf (br_stp_enable_port p s).
Proof.
  intros Hs Hp. unfold br_stp_enable_port. eapply safe_in_bind.
  - apply port_state_selection_safe, wf_upd_port; [apply init_port_keeps, Hs|done].
  - intros s1 H1. by apply notify_port_safe.
Qed.

Lemma disable_port_safe p s :
  wf s -> (p < length nos)%nat -> safe_in wf (br_stp_disable_port p s).
Proof.
  intros Hs Hp. unfold br_stp_disable_port.
  destruct (port_at_ok p s (proj1 Hs) Hp) as (pt & -> & _). cbn [mbind res_bind].
  eapply safe_in_bind.
  - apply notify_port_safe; [|done]. apply wf_upd_port; [|done].
    destruct (become_designated_keeps (br s)) as [Hk _]; [apply Hs|]. split; [|done].
    intros q Hq. specialize (Hk q Hq). constructor; cbn; apply Hk.
  - intros s1 H1. apply reconfigure_safe.
    apply (wf_emit _ (emit _ _)), wf_emit, wf_upd_port; [keeps_port|done].
Qed.

Lemma make_blocking_safe p s :
  wf s -> (p < length nos)%nat -> safe_in wf (br_make_blocking p s).
Proof.
  intros Hs Hp. unfold br_make_blocking.
  destruct (port_at_ok p s (proj1 Hs) Hp) as (pt & -> & _). cbn [mbind res_bind].
  assert (Htail : forall s1, wf s1 ->
    safe_in wf (s2 ← notify_port p (upd_port p (set_state BLOCKING) s1);
                Ok (upd_port p (set_forward_delay_timer None) s2))).
  { intros s1 H1. eapply safe_in_bind.
    - apply notify_port_safe; [|done]. apply wf_upd_port; [keeps_port|done].
    - intros s2 H2. apply safe_in_Ok, wf_upd_port; [keeps_port|done]. }
  destruct (state pt); try (by apply safe_in_Ok).
  - by apply Htail.
  - eapply safe_in_bind; [by apply topology_change_detection_safe|done].
  - eapply safe_in_bind; [by apply topology_change_detection_safe|done].
Qed.

Lemma loopback_safe p s : wf s -> (p < length nos)%nat -> safe_in wf (br_loopback_detected p s).
Proof.
  intros Hs Hp. unfold br_loopback_detected.
  destruct (port_at_ok p s (proj1 Hs) Hp) as (pt & -> & _). cbn [mbind res_bind].
  case_match; [by apply make_blocking_safe|by apply safe_in_Ok].
Qed.

Lemma enable_bridge_safe s : wf s -> safe_in wf (br_stp_enable_bridge s).
Proof.
  intros Hs. unfold br_stp_enable_bridge.
  eapply safe_in_bind; [apply config_bpdu_generation_safe; by apply wf_upd|]. intros s1 H1.
  apply for_ports_safe; [|done]. intros p s' Hp Hs'.
  assert (Hlt := port_list_lt s1 p (proj1 H1) Hp).
  destruct (port_at_ok p s' (proj1 Hs') Hlt) as (pt & -> & _). cbn [mbind res_bind].
  case_match; [by apply enable_port_safe|by apply safe_in_Ok].
Qed.

Lemma disable_bridge_safe s : wf s -> safe_in wf (br_stp_disable_bridge s).
Proof.
  intros Hs. unfold br_stp_disable_bridge. eapply safe_in_bind.
  - apply (for_ports_safe wf); [|done]. intros p s' Hp Hs'.
    assert (Hlt := port_list_lt s p (proj1 Hs) Hp).
    destruct (port_at_ok p s' (proj1 Hs') Hlt) as (pt & -> & _). cbn [mbind res_bind].
    case_match; [by apply safe_in_Ok|by apply disable_port_safe].
  - intros s1 H1. apply safe_in_Ok. by apply wf_upd.
Qed.

Lemma set_enabled_safe helper val s : wf s -> safe_in wf (br_stp_set_enabled helper val s).
Proof.
  intros Hs. unfold br_stp_set_enabled, br_stp_start, br_stp_stop.
  repeat case_match; try (by apply safe_in_Ok).
  all: apply (safe_in_bind wf); [|intros s1 Hs1; apply safe_in_Ok].
  all: try (apply port_state_selection_safe); try (apply safe_in_Ok);
    try (by apply wf_emit); try (apply wf_emit); try (by apply wf_upd); done.
Qed.

Lemma change_bridge_id_safe a s :
  wf s -> length a = 6%nat -> bytes a -> safe_in wf (br_stp_change_bridge_id a s).
Proof.
  intros [[Hb Hn] Hr] Hl Ha. unfold br_stp_change_bridge_id. apply reconfigure_safe.
  assert (Hren : forall i, bid_ok i ->
    bid_ok (if compare_ether_addr (addr i) (addr (bridge_id (br s))) then i else mk_bid (prio i) a)).
  { intros i (H1 & H2 & H3 & H4). by case_match. }
  set (f := fun p => set_designated_root _ (set_designated_bridge _ p)).
  assert (Hk : port_keeps f).
  { split; [|done]. intros q Hq. constructor; cbn; try apply Hq; apply Hren; apply Hq. }
  split; cbn [br upd set_br ports set_ports].
  - constructor; cbn; try apply Hb.
    + destruct (bo_id _ Hb) as (H1 & H2 & H3 & H4). by repeat split.
    + apply List.Forall_forall. intros q (p & <- & Hin)%in_map_iff. apply Hk. by apply (bo_port (br s)).
    + rewrite map_map. rewrite (map_ext _ port_no) by apply Hk. apply Hb.
  - rewrite map_map. by rewrite (map_ext _ port_no) by apply Hk.
Qed.

Lemma least_addr_in l a :
  foldl (fun a p =>
           match a with
           | None => Some (p_dev_addr p)
           | Some a' => if memcmp_bytes (p_dev_addr p) a' <? 0 then Some (p_dev_addr p) else a
           end) a l = a \/
  exists p, In p l /\
    foldl (fun a p =>
           match a with
           | None => Some (p_dev_addr p)
           | Some a' => if memcmp_bytes (p_dev_addr p) a' <? 0 then Some (p_dev_addr p) else a
           end) a l = Some (p_dev_addr p).
Proof.
  revert a. induction l as [|p l IH]; intros a; [by left|]. cbn [foldl].
  match goal with |- context [foldl _ ?x l] => destruct (IH x) as [E|(q & Hq & E)]; rewrite E end.
  - destruct a as [a'|]; [case_match; [|by left]|]; right; exists p; (split; [by left|done]).
  - right. exists q. split; [by right|done].
Qed.

Lemma recalculate_bridge_id_safe s :
  wf s -> safe_in (fun r : bool * stp => wf (snd r)) (br_stp_recalculate_bridge_id s).
Proof.
  intros Hs. unfold br_stp_recalculate_bridge_id. repeat (case_match; [by apply safe_in_Ok|]).
  eapply safe_in_bind; [|intros s1 Hs1; by apply safe_in_Ok].
  unfold least_addr. destruct (least_addr_in (ports (br s)) None) as [->|(p & Hin & ->)]; cbn [default].
  - apply change_bridge_id_safe; [done|done|].
    repeat first [apply List.Forall_nil | apply List.Forall_cons; [unfold is_u8; lia|]].
  - destruct (po_addr p (bo_port _ p (proj1 (proj1 Hs)) Hin)). by apply change_bridge_id_safe.
Qed.

Lemma set_bridge_priority_safe n s : wf s -> safe_in wf (br_stp_set_bridge_priority n s).
Proof.
  intros [[Hb Hn] Hr]. unfold br_stp_set_bridge_priority. apply reconfigure_safe.
  assert (Hrep : forall i, bid_ok i -> bid_ok (mk_bid (prio_bytes n) (addr i))).
  { intros i (H1 & H2 & H3 & H4). repeat split; try done. unfold prio_bytes. cbn [prio].
    rewrite !land_ff.
    repeat first [apply List.Forall_nil | apply List.Forall_cons; [apply Z.mod_pos_bound; lia|]]. }
  set (f := fun p : net_bridge_port =>
    if negb (is_disabled p) && br_is_designated_port (br s) p
    then set_designated_bridge (mk_bid (prio_bytes n) (addr (designated_bridge p))) p else p).
  assert (Hk : port_keeps f).
  { split; intros q; unfold f; case_match; try done. intros Hq. constructor; cbn; try apply Hq.
    apply Hrep, Hq. }
  split; cbn [br upd set_br ports set_ports set_bridge_id].
  - constructor; cbn; try apply Hb.
    + apply Hrep, Hb.
    + apply List.Forall_forall. intros q (p & <- & Hin)%in_map_iff. apply Hk. by apply (bo_port (br s)).
    + rewrite map_map. rewrite (map_ext _ port_no) by apply Hk. apply Hb.
  - rewrite map_map. by rewrite (map_ext _ port_no) by apply Hk.
Qed.

Lemma set_port_priority_safe p n s :
  wf s -> (p < length nos)%nat ->
  safe_in (fun r : Z * stp => wf (snd r)) (br_stp_set_port_priority p n s).
Proof.
  intros Hs Hp. unfold br_stp_set_port_priority. case_match; [by apply safe_in_Ok|].
  destruct (port_at_ok p s (proj1 Hs) Hp) as (pt & -> & _). cbn [mbind res_bind].
  match goal with |- context [upd_port p ?f s] => set (f' := f) end.
  assert (H1 : wf (upd_port p f' s)).
  { apply wf_upd_port; [|done]. split; [|intros q; by unfold f'; case_match].
    intros q Hq. unfold f'. case_match; constructor; cbn; try apply Hq; apply make_port_id_u16. }
  destruct (port_at_ok p _ (proj1 H1) Hp) as (pt' & -> & _). cbn [mbind res_bind].
  case_match; [|by apply safe_in_Ok].
  eapply safe_in_bind; [|intros s2 H2; by apply safe_in_Ok].
  apply port_state_selection_safe, wf_upd_port; [apply become_designated_keeps, H1|done].
Qed.

Lemma set_path_cost_safe p c s :
  wf s -> (p < length nos)%nat ->
  safe_in (fun r : Z * stp => wf (snd r)) (br_stp_set_path_cost p c s).
Proof.
  intros Hs Hp. unfold br_stp_set_path_cost, BR_MIN_PATH_COST, BR_MAX_PATH_COST.
  repeat bcase; cbn [orb]; try (by apply safe_in_Ok).
  eapply safe_in_bind.
  - apply configuration_update_safe, wf0_upd_port; [|apply Hs].
    split; [|done]. intros q Hq. constructor; cbn; try apply Hq. unfold is_u32. lia.
  - intros s1 H1. eapply safe_in_bind; [by apply port_state_selection_safe|].
    intros s2 H2. by apply safe_in_Ok.
Qed.

End Handlers.

(** ** The reactive system *)

(** Inputs that name ports of the bridge and carry bytes. *)
Definition valid (nos : list Z) (i : input) : Prop :=
  match i with
  | Receive _ port _ pkt => bytes pkt /\ forall p, port = Some p -> (p < length nos)%nat
  | MessageAgeTimer p | ForwardDelayTimer p | HoldTimer p | EnablePort p | DisablePort p
  | Loopback p | SetPortPriority p _ | SetPathCost p _ => (p < length nos)%nat
  | ChangeBridgeId a => length a = 6%nat /\ bytes a
  | _ => True
  end.

Lemma safe_in_snd nos {T} (m : res (T * stp)) :
  safe_in (fun r => wf nos (snd r)) m -> safe_in (wf nos) ('(_, s) ← m; Ok s).
Proof. intros ((t & s) & -> & H). by exists s. Qed.

Lemma handle_safe nos s i :
  wf nos s -> valid nos i ->
  safe_in (wf nos) (handle i s) \/
  (i = TcnTimer /\ root_port (br s) = 0 /\ expired s (tcn_timer (br s)) = true /\
   handle i s = Fault NullDeref).
Proof.
  intros Hs Hv.
  assert (Hport : forall p f g (h : stp -> res stp), port_keeps f ->
    (p < length nos)%nat -> (forall s, wf nos s -> safe_in (wf nos) (h s)) ->
    safe_in (wf nos) (pt ← port_at s p; if expired s (g pt) then h (upd_port p f s) else Ok s)).
  { intros p f g h Hf Hp Hh. destruct (port_at_ok nos p s (proj1 Hs) Hp) as (pt & -> & _).
    cbn [mbind res_bind]. case_match; [|by apply safe_in_Ok]. by apply Hh, wf_upd_port. }
  destruct i; cbn [handle valid] in *; try (left; by apply safe_in_Ok).
  - left. destruct Hv. by apply stp_rcv_safe.
  - left. case_match; [|by apply safe_in_Ok]. apply hello_timer_safe. by apply wf_upd.
  - destruct (expired s (tcn_timer (br s))) eqn:E; [|left; by apply safe_in_Ok].
    destruct (tcn_timer_safe nos (upd (set_tcn_timer None) s)) as [H|(H1 & H2 & H3)];
      [by apply wf_upd|by left|right]. done.
  - left. case_match; apply safe_in_Ok; [|done]. by apply wf_upd, wf_upd.
  - left. apply Hport; [keeps_port|done|]. intros. by apply message_age_timer_safe.
  - left. apply Hport; [keeps_port|done|]. intros. by apply forward_delay_timer_safe.
  - left. apply Hport; [keeps_port|done|]. intros. by apply hold_timer_safe.
  - left. by apply enable_port_safe.
  - left. by apply disable_port_safe.
  - left. by apply loopback_safe.
  - left. by apply enable_bridge_safe.
  - left. by apply disable_bridge_safe.
  - left. by apply set_enabled_safe.
  - left. destruct Hv. by apply change_bridge_id_safe.
  - left. by apply safe_in_snd, recalculate_bridge_id_safe.
  - left. by apply set_bridge_priority_safe.
  - left. by apply safe_in_snd, set_port_priority_safe.
  - left. by apply safe_in_snd, set_path_cost_safe.
  - left. apply safe_in_Ok. unfold br_set_hello_time. case_match; [done|]. apply wf_upd; [|done].
    by case_match.
  - left. apply safe_in_Ok. unfold br_set_max_age. case_match; [done|]. apply wf_upd; [|done].
    by case_match.
  - left. apply safe_in_Ok. unfold br_set_forward_delay. case_match; [done|]. apply wf_upd; [|done].
    by case_match.
Qed.

Lemma run_safe nos l : forall s,
  wf nos s -> Forall (valid nos) l ->
  (exists s', run l s = Ok s' /\ wf nos s') \/
  (exists l1 l2 s1, l = l1 ++ TcnTimer :: l2 /\ run l1 s = Ok s1 /\ wf nos s1 /\
     root_port (br s1) = 0 /\ expired s1 (tcn_timer (br s1)) = true /\
     run l s = Fault NullDeref).
Proof.
  induction l as [|i l IH]; intros s Hs Hv; [left; by exists s|].
  apply Forall_cons_iff in Hv as [Hi Hl]. cbn [run].
  destruct (handle_safe nos s i Hs Hi) as [(s1 & E1 & H1)|(-> & Hr & Ht & Hf)].
  - rewrite E1. cbn [mbind res_bind].
    destruct (IH s1 H1 Hl) as [(s' & E & Hs')|(l1 & l2 & s2 & -> & E & H2)]; [left; by exists s'|right].
    exists (i :: l1), l2, s2. split; [done|]. cbn [run]. by rewrite E1.
  - right. exists [], l, s. rewrite Hf. repeat split; try done; apply Hs.
Qed.

(** C9: the spanning tree handlers keep their invariant and do not
    dereference a null pointer.  Over any sequence of received packets, timer
    expiries, link events and configuration changes, the ports keep their
    numbers, every recorded identifier is well-formed, and a bridge that is not
    the root has a root port among its ports, behind which there is a better
    root.  The one way to a fault is a TCN timer that expires when the bridge
    has no root port. *)
Theorem stp_run_safe nos l : forall s,
  wf nos s -> Forall (valid nos) l ->
  (exists s', run l s = Ok s' /\ wf nos s') \/
  (exists l1 l2 s1, l = l1 ++ TcnTimer :: l2 /\ run l1 s = Ok s1 /\ wf nos s1 /\
     root_port (br s1) = 0 /\ expired s1 (tcn_timer (br s1)) = true /\
     run l s = Fault NullDeref).
Proof. apply run_safe. Qed.

(** A bridge with two ports, just set up: it takes itself for the root. *)
Definition fresh_port (no : Z) : net_bridge_port :=
  ex_port no DISABLED (ex_id 5) (ex_id 5) 0 (32768 + no).

Definition fresh : stp :=
  mk_stp
    (mk_br (ex_id 5) (ex_id 5) 0 0 20000 2000 15000 20000 2000 15000 BR_KERNEL_STP false false
       None None None None [1; 128; 194; 0; 0; 0] true [0; 0; 0; 0; 0; 5] true false
       [fresh_port 1; fresh_port 2]) 1000 0 [].

Lemma fresh_wf : wf [1; 2] fresh.
Proof.
  assert (Hi : bid_ok (ex_id 5)) by (apply ex_id_ok; unfold is_u8; lia).
  split; [|by left]. split; [|done]. constructor; try done.
  - repeat first [apply List.Forall_nil | apply List.Forall_cons;
      [apply ex_port_ok; try done; unfold is_u16, is_u32; lia|]].
  - apply (bool_decide_unpack (NoDup [1; 2])). vm_compute. done.
Qed.

Definition bpdu_packet (root bridge : bid) (cost port : Z) : list Z :=
  config_bpdu_bytes (mk_bpdu false false root cost bridge port 0 20000 2000 15000).

Definition group : list Z := [1; 128; 194; 0; 0; 0].

(** Both ports come up and a neighbour announces a better root behind port 1,
    which goes through listening and learning to forwarding; that is a topology
    change, so the bridge reports it to the root and starts its TCN timer. *)
Definition normal_start : list input :=
  [EnablePort 0; EnablePort 1;
   Receive true (Some 0%nat) group (bpdu_packet (ex_id 1) (ex_id 1) 0 32769);
   Tick 15000; ForwardDelayTimer 0; Tick 15000; ForwardDelayTimer 0].

(** Then a frame arrives on port 1 that names this bridge and this port as its
    sender, and a still better root. *)
Definition spoofed : list input :=
  [Receive true (Some 0%nat) group (bpdu_packet (ex_id 0) (ex_id 5) 0 32769);
   Tick 2000; TcnTimer].

Lemma bytes_dec l : forallb (fun b => (0 <=? b) && (b <? 256)) l = true -> bytes l.
Proof.
  intros H. apply List.Forall_forall. intros x Hx. apply (proj1 (forallb_forall _ _) H) in Hx.
  unfold is_u8. lia.
Qed.

Lemma valid_start : Forall (valid [1; 2]) (normal_start ++ spoofed).
Proof.
  unfold normal_start, spoofed. cbn [app].
  repeat (apply List.Forall_cons;
    [first [done | cbn; lia | split; [apply bytes_dec; vm_compute; done|intros p [= <-]; cbn; lia]]|]).
  apply List.Forall_nil.
Qed.

Lemma stp_run_safe_witness :
  (exists s', run normal_start fresh = Ok s' /\ wf [1; 2] s') \/
  (exists l1 l2 s1, normal_start = l1 ++ TcnTimer :: l2 /\ run l1 fresh = Ok s1 /\ wf [1; 2] s1 /\
     root_port (br s1) = 0 /\ expired s1 (tcn_timer (br s1)) = true /\
     run normal_start fresh = Fault NullDeref).
Proof.
  apply (stp_run_safe [1; 2] normal_start fresh fresh_wf).
  exact (proj1 (proj1 (Forall_app _ _ _) valid_start)).
Defined.

(** The fault is reached: the bridge takes the message for the port's own
    information and becomes the root, but its timer of notifications runs on. *)
Lemma spoofed_start_faults : run (normal_start ++ spoofed) fresh = Fault NullDeref.
Proof. vm_compute. reflexivity. Qed.
