(* ===== verification/StpLive.v ===== *)
(** Liveness of the spanning tree protocol: a port that has begun to listen
    comes to forward, after two forward delays. *)

From S2P Require Import Prelude Str Stp StpSelect StpState StpSafety.

(** What the argument follows: the state and the forward delay timer of a
    port. *)
Definition progress (q : net_bridge_port) : port_state * timer := (state q, forward_delay_timer q).

(** What stays as it is: the forward delay and the root port. *)
Definition settled (s : stp) : Z * Z := (forward_delay (br s), root_port (br s)).

Definition unmoved (s s' : stp) : Prop :=
  jiffies s' = jiffies s /\ settled s' = settled s /\
  map progress (ports (br s')) = map progress (ports (br s)).

Lemma unmoved_refl s : unmoved s s.
Proof. done. Qed.

Lemma unmoved_trans s1 s2 s3 : unmoved s1 s2 -> unmoved s2 s3 -> unmoved s1 s3.
Proof. intros (? & ? & ?) (? & ? & ?). split; [congruence|]. split; congruence. Qed.

Lemma map_alter (f : net_bridge_port -> net_bridge_port) p l : (forall q, progress (f q) = progress q) ->
  map progress (alter f p l) = map progress l.
Proof.
  intros Hf. revert p. induction l as [|q l IH]; intros [|p]; cbn; try done; [by rewrite Hf|].
  by f_equal.
Qed.

Lemma unmoved_port p f s : (forall q, progress (f q) = progress q) -> unmoved s (upd_port p f s).
Proof. intros Hf. split; [done|]. split; [done|]. cbn. by apply map_alter. Qed.

Lemma transmit_config_unmoved p s s' : br_transmit_config p s = Ok s' -> unmoved s s'.
Proof.
  unfold br_transmit_config. intros (pt & _ & H)%bind_Ok_inv. destruct (bool_decide _).
  { injection H as <-. by apply unmoved_port. }
  apply bind_Ok_inv in H as (age & _ & H). destruct (_ <? _); injection H as <-; [|done].
  eapply unmoved_trans; [|by apply unmoved_port]. unfold br_send_config_bpdu. by repeat case_match.
Qed.

Lemma for_ports_unmoved body l s s' : (forall p s s', body p s = Ok s' -> unmoved s s') ->
  for_ports l body s = Ok s' -> unmoved s s'.
Proof.
  intros Hb. revert s. induction l as [|p l IH]; intros s; cbn [for_ports]; [by intros [= <-]|].
  intros (s1 & E & H)%bind_Ok_inv. eapply unmoved_trans; [by eapply Hb|by apply IH].
Qed.

Lemma hello_unmoved s s' : br_hello_timer_expired s = Ok s' -> unmoved s s'.
Proof.
  unfold br_hello_timer_expired. destruct (dev_up _); [|by intros [= <-]].
  intros (s1 & E & [= <-])%bind_Ok_inv. apply unmoved_trans with s1; [|done].
  eapply for_ports_unmoved; [|exact E]. intros p s2 s3 (pt & _ & H)%bind_Ok_inv.
  destruct (_ && _); [by eapply transmit_config_unmoved|by injection H as <-].
Qed.

Lemma tcn_unmoved s s' : br_tcn_timer_expired s = Ok s' -> unmoved s s'.
Proof.
  unfold br_tcn_timer_expired, br_transmit_tcn. destruct (dev_up _); [|by intros [= <-]].
  intros (s1 & (q & _ & [= <-])%bind_Ok_inv & [= <-])%bind_Ok_inv. unfold br_send_tcn_bpdu. by repeat case_match.
Qed.

(** ** The forward delay timer *)

(** The port after its forward delay timer has expired at time [j]. *)
Definition advanced (F j : Z) (v : port_state * timer) : port_state * timer :=
  match fst v with
  | LISTENING => (LEARNING, Some (u32 (j + F)))
  | LEARNING => (FORWARDING, None)
  | st => (st, None)
  end.

Lemma progress_alter f p l v : l !! p = Some v ->
  map progress (alter f p l) = <[p := progress (f v)]> (map progress l).
Proof.
  intros Hv. apply list_eq. intros q. rewrite list_lookup_fmap. destruct (decide (p = q)) as [<-|Hn].
  - rewrite list_lookup_alter_eq, Hv. cbn. symmetry. apply list_lookup_insert_eq.
    rewrite length_map. by eapply lookup_lt_Some.
  - by rewrite list_lookup_alter_ne, list_lookup_insert_ne, list_lookup_fmap.
Qed.

Lemma progress_alter2 f g p l v : l !! p = Some v ->
  map progress (alter f p (alter g p l)) = <[p := progress (f (g v))]> (map progress l).
Proof.
  intros Hv. rewrite (progress_alter f p _ (g v)) by (by rewrite list_lookup_alter_eq, Hv).
  by rewrite (progress_alter g p l v Hv), list_insert_insert_eq.
Qed.

(** The port [p] has moved on, or not, and everything else is as it was. *)
Lemma forward_delay_moves nos p s s' v : wf nos s -> ports (br s) !! p = Some v ->
  br_forward_delay_timer_expired p (upd_port p (set_forward_delay_timer None) s) = Ok s' ->
  jiffies s' = jiffies s /\ settled s' = settled s /\
  map progress (ports (br s')) =
    <[p := advanced (forward_delay (br s)) (jiffies s) (progress v)]> (map progress (ports (br s))).
Proof.
  intros Hs Hv. set (s0 := upd_port p _ s).
  assert (Hs0 : wf nos s0) by (apply wf_upd_port; [keeps_port|done]).
  assert (Hl : ports (br s0) !! p = Some (set_forward_delay_timer None v)).
  { cbn. by rewrite list_lookup_alter_eq, Hv. }
  unfold br_forward_delay_timer_expired, port_at. rewrite Hl. cbn [of_option mbind res_bind].
  change (state (set_forward_delay_timer None v)) with (state v). unfold advanced. cbn [progress fst].
  intros (s1 & E1 & H)%bind_Ok_inv. unfold notify_port in H. apply bind_Ok_inv in H as (pt & _ & [= <-]).
  cbn [jiffies br emit set_events]. destruct (state v) eqn:Est; try (injection E1 as <-; cbn; rewrite (progress_alter _ _ _ _ Hv); unfold progress; cbn; by rewrite Est).
  - injection E1 as <-. split; [done|]. split; [done|]. cbn. by rewrite (progress_alter2 _ _ _ _ _ Hv).
  - apply bind_Ok_inv in E1 as (s2 & E2 & [= <-]).
    set (s3 := upd_port p (set_state FORWARDING) s0) in *.
    assert (H3 : jiffies s2 = jiffies s3 /\ settled s2 = settled s3 /\ ports (br s2) = ports (br s3)).
    { destruct (br_is_designated_for_some_port _); [|by injection E2 as <-].
      assert (Hr : root_ok (br s3)) by (apply (wf_root_ok nos), wf_upd_port; [keeps_port|done]).
      destruct (topology_change_detection_spec s3 Hr) as (s4 & E4 & Hf & Hp). rewrite E2 in E4. injection E4 as <-.
      destruct Hf as (Hj & _ & Hc). split; [done|]. split; [|done]. unfold settled.
      by rewrite (f_equal forward_delay Hc : forward_delay (br s2) = forward_delay (br s3)), (f_equal root_port Hc : root_port (br s2) = root_port (br s3)). }
    destruct H3 as (Hj & Hd & Hp). split; [exact Hj|]. split; [exact Hd|]. cbn. rewrite Hp. cbn. by rewrite (progress_alter2 _ _ _ _ _ Hv).
Qed.

(** ** Calm runs *)

(** Time passes, and timers of the bridge and of its ports expire that do not
    depend on what other bridges say: all but the message age timers; and that
    of notifications where the bridge, whose root port has the number [rp],
    has a root port. *)
Definition calm (nos : list Z) (rp : Z) (i : input) : Prop :=
  match i with
  | Tick n => 0 <= n
  | HelloTimer | TopologyChangeTimer => True
  | TcnTimer => rp <> 0
  | ForwardDelayTimer q | HoldTimer q => (q < length nos)%nat
  | _ => False
  end.

Definition ticks_of (i : input) : Z := match i with Tick n => n | _ => 0 end.
Definition ticks (l : list input) : Z := foldr (fun i n => ticks_of i + n) 0 l.

Definition serves (p : nat) (i : input) : bool :=
  match i with ForwardDelayTimer q => Nat.eqb p q | _ => false end.

Definition view (s : stp) (p : nat) : option (port_state * timer) := map progress (ports (br s)) !! p.

Lemma view_unmoved s s' p : unmoved s s' -> view s' p = view s p.
Proof. intros (_ & _ & H). unfold view. by rewrite H. Qed.

(** What one input does to the progress of a port. *)
Definition stepped (i : input) (s s' : stp) : Prop :=
  jiffies s' = u32 (jiffies s + ticks_of i) /\ settled s' = settled s /\
  forall p v, view s p = Some v -> view s' p = Some (
    if serves p i && expired s (snd v) then advanced (forward_delay (br s)) (jiffies s) v else v).

Lemma unmoved_stepped i s s' : is_u32 (jiffies s) -> ticks_of i = 0 -> (forall p, serves p i = false) ->
  unmoved s s' -> stepped i s s'.
Proof.
  intros Hj Ht Hs Hu. pose proof Hu as (H1 & H2 & _). split; [by rewrite H1, Ht, Z.add_0_r, u32_small|].
  split; [done|]. intros p v Hv. rewrite Hs. cbn [andb]. by rewrite (view_unmoved s s' p Hu).
Qed.

Lemma delay_timer_stepped nos q s s' : wf nos s -> is_u32 (jiffies s) ->
  handle (ForwardDelayTimer q) s = Ok s' -> stepped (ForwardDelayTimer q) s s'.
Proof.
  intros Hs Hj. cbn [handle]. intros (pt & Ept & H)%bind_Ok_inv.
  unfold port_at in Ept. destruct (ports (br s) !! q) as [x|] eqn:Eq; [|done]. injection Ept as ->.
  unfold stepped. cbn [ticks_of serves]. rewrite Z.add_0_r, u32_small by done.
  assert (Hview : view s q = Some (progress pt)) by (unfold view; by rewrite list_lookup_fmap, Eq).
  destruct (expired s (forward_delay_timer pt)) eqn:Ee.
  - destruct (forward_delay_moves nos q s s' pt Hs Eq H) as (H1 & H2 & H3). split; [done|]. split; [done|].
    intros p v Hv. unfold view in *. rewrite H3. destruct (Nat.eqb_spec p q) as [->|Hn]; cbn [andb].
    + rewrite Hview in Hv. injection Hv as <-. cbn [progress snd]. rewrite Ee. apply list_lookup_insert_eq.
      rewrite length_map. by eapply lookup_lt_Some.
    + by rewrite list_lookup_insert_ne.
  - injection H as <-. split; [done|]. split; [done|]. intros p v Hv.
    destruct (Nat.eqb_spec p q) as [->|Hn]; cbn [andb]; [|done].
    rewrite Hview in Hv. injection Hv as <-. cbn [progress snd]. by rewrite Ee.
Qed.

Lemma calm_step nos i s : wf nos s -> is_u32 (jiffies s) -> calm nos (root_port (br s)) i ->
  exists s', handle i s = Ok s' /\ wf nos s' /\ is_u32 (jiffies s') /\ stepped i s s'.
Proof.
  intros Hs Hj Hc. assert (Hv : valid nos i) by by destruct i.
  destruct (handle_safe nos s i Hs Hv) as [(s' & E & Hs')|(-> & Hr & _)]; [|by cbn in Hc]. exists s'. split; [done|]. split; [done|].
  assert (Hst : stepped i s s'); [|split; [|done]; destruct Hst as (-> & _); apply u32_range].
  destruct i; try done; cbn [handle] in E.
  - injection E as <-. split; [done|]. split; [done|]. by intros p v Hp.
  - apply unmoved_stepped; try done. destruct (expired _ _); [|by injection E as <-].
    apply unmoved_trans with (upd (set_hello_timer None) s); [done|]. by apply hello_unmoved.
  - apply unmoved_stepped; try done. destruct (expired _ _); [|by injection E as <-].
    apply unmoved_trans with (upd (set_tcn_timer None) s); [done|]. by apply tcn_unmoved.
  - apply unmoved_stepped; try done. by destruct (expired _ _); injection E as <-.
  - by apply (delay_timer_stepped nos).
  - apply unmoved_stepped; try done. apply bind_Ok_inv in E as (pt & _ & E). destruct (expired _ _); [|by injection E as <-].
    apply unmoved_trans with (upd_port p (set_hold_timer None) s); [by apply unmoved_port|].
    unfold br_hold_timer_expired in E. apply bind_Ok_inv in E as (pt' & _ & E).
    destruct (config_pending pt'); [by eapply transmit_config_unmoved|by injection E as <-].
Qed.

(** ** A port on its way *)

Lemma expired_at s T D : jiffies s = u32 T -> T - 2 ^ 31 < D <= T + 2 ^ 31 ->
  expired s (Some (u32 D)) = (D <=? T).
Proof.
  intros Hj HD. unfold expired. rewrite Hj. assert (s32 (u32 T - u32 D) = T - D) as -> by ints.
  destruct (Z.leb_spec 0 (T - D)), (Z.leb_spec D T); lia.
Qed.

Section Live.
Context (nos : list Z) (p : nat) (F R D1 Tmax : Z).
Context (HF : 0 <= F).

(** The bridge at time [T], counted without wrapping. *)
Definition at_time (T : Z) (s : stp) : Prop :=
  wf nos s /\ jiffies s = u32 T /\ settled s = (F, R).

(** The port learns, until [L] at the latest, or forwards, since [D1 + F] at
    the earliest; or else it still listens, until [D1]. *)
Definition past_listening (L T : Z) (s : stp) : Prop :=
  (exists D, D1 + F <= D <= L /\ view s p = Some (LEARNING, Some (u32 D))) \/
  (D1 + F <= T /\ exists t, view s p = Some (FORWARDING, t)).
Definition on_its_way (T : Z) (s : stp) : Prop :=
  view s p = Some (LISTENING, Some (u32 D1)) \/ past_listening (T + F) T s.

(** The times at hand are close enough to be compared. *)
Definition close (T : Z) : Prop := D1 - 2 ^ 31 <= T <= Tmax /\ Tmax + F < D1 + 2 ^ 31.

Lemma past_step L T i s s' : at_time T s -> close T -> D1 <= T -> L <= Tmax + F -> 0 <= ticks_of i ->
  past_listening L T s -> stepped i s s' ->
  past_listening L (T + ticks_of i) s' /\
  (serves p i = true -> L <= T -> exists t, view s' p = Some (FORWARDING, t)).
Proof.
  intros (_ & Hj & Hd) Hclose HT HL Hn Hp (Hj' & Hd' & Hview). destruct Hclose.
  destruct Hp as [(D & HD & Hv)|(HD & t & Hv)]; specialize (Hview p _ Hv); cbn [snd] in Hview.
  - rewrite (expired_at s T D Hj) in Hview by lia. destruct (serves p i); cbn [andb] in Hview.
    + destruct (Z.leb_spec D T).
      * split; [right; split; [lia|by exists None]|]. intros _ _. by exists None.
      * split; [left; by exists D|]. lia.
    + split; [left; by exists D|done].
  - assert (exists t', view s' p = Some (FORWARDING, t')) as Hf.
    { rewrite Hview. destruct (_ && _); [by exists None|by exists t]. }
    split; [right; split; [lia|done]|done].
Qed.

Lemma way_step T i s s' : at_time T s -> close T -> 0 <= ticks_of i ->
  on_its_way T s -> stepped i s s' ->
  on_its_way (T + ticks_of i) s' /\
  (serves p i = true -> D1 <= T -> past_listening (T + F) T s').
Proof.
  intros Hat Hclose Hn Hw Hstep. pose proof Hat as (_ & Hj & Hd). pose proof Hstep as (Hj' & Hd' & Hview).
  assert (Hclose' := Hclose). destruct Hclose'. destruct Hw as [Hv|Hp].
  - specialize (Hview p _ Hv). cbn [snd] in Hview. rewrite (expired_at s T D1 Hj) in Hview by lia.
    destruct (serves p i) eqn:Es; cbn [andb] in Hview; [|split; [by left|done]].
    destruct (Z.leb_spec D1 T); [|split; [by left|lia]].
    unfold advanced in Hview. cbn [fst] in Hview. injection Hd as HdF _. rewrite HdF, Hj in Hview.
    assert (E : u32 (u32 T + F) = u32 (T + F)) by (unfold u32; by rewrite Z.add_mod_idemp_l by lia). rewrite E in Hview.
    split; [right|intros _ _]; left; exists (T + F); (split; [lia|done]).
  - assert (HDT : D1 <= T) by (destruct Hp as [(D & HD & _)|(HD & _)]; lia).
    destruct (past_step (T + F) T i s s' Hat Hclose HDT ltac:(lia) Hn Hp Hstep) as [Hp' _].
    assert (Hmono : on_its_way (T + ticks_of i) s').
    { right. destruct Hp' as [(D & HD & Hv)|Hf]; [left; exists D; split; [lia|done]|by right]. }
    split; [done|]. intros Hs _. destruct i; try done. cbn [ticks_of] in Hp'. by rewrite Z.add_0_r in Hp'.
Qed.

Lemma at_step T i s : at_time T s -> calm nos R i ->
  exists s', handle i s = Ok s' /\ at_time (T + ticks_of i) s' /\ stepped i s s'.
Proof.
  intros (Hs & Hj & Hd) Hc. assert (Hu : is_u32 (jiffies s)) by (rewrite Hj; apply u32_range).
  assert (HR : root_port (br s) = R) by (by injection Hd). rewrite <- HR in Hc.
  destruct (calm_step nos i s Hs Hu Hc) as (s' & E & Hs' & _ & Hst). exists s'. split; [done|]. split; [|done].
  destruct Hst as (Hj' & Hd' & _). split; [done|]. split; [|congruence]. rewrite Hj', Hj.
  unfold u32. by rewrite Z.add_mod_idemp_l by lia.
Qed.

Lemma calm_ticks i : calm nos R i -> 0 <= ticks_of i.
Proof. by destruct i. Qed.

Lemma ticks_nonneg l : Forall (calm nos R) l -> 0 <= ticks l.
Proof. induction 1 as [|i l Hi _ IH]; [done|]. cbn. pose proof (calm_ticks i Hi). unfold ticks in IH. lia. Qed.

Lemma run_app l1 l2 s s1 : run l1 s = Ok s1 -> run (l1 ++ l2) s = run l2 s1.
Proof.
  revert s. induction l1 as [|i l1 IH]; intros s; cbn [run app]; [by intros [= <-]|].
  intros (s2 & -> & H)%bind_Ok_inv. cbn [mbind res_bind]. by apply IH.
Qed.

Lemma way_run l T s : Forall (calm nos R) l -> at_time T s -> D1 - 2 ^ 31 <= T -> T + ticks l <= Tmax ->
  Tmax + F < D1 + 2 ^ 31 -> on_its_way T s ->
  exists s', run l s = Ok s' /\ at_time (T + ticks l) s' /\ on_its_way (T + ticks l) s'.
Proof.
  intros Hl. revert T s. induction Hl as [|i l Hi Hl IH]; intros T s Hat HT Hmax Hcl Hw; cbn [run ticks foldr] in *.
  { exists s. by rewrite Z.add_0_r. }
  fold (ticks l) in *. pose proof (ticks_nonneg l Hl). pose proof (calm_ticks i Hi).
  destruct (at_step T i s Hat Hi) as (s1 & -> & Hat1 & Hst). cbn [mbind res_bind].
  destruct (way_step T i s s1) as [Hw1 _]; [done|split; lia|done..|].
  destruct (IH (T + ticks_of i) s1) as (s' & E & Hat' & Hw'); [done|lia|lia|done|done|].
  exists s'. rewrite Z.add_assoc. done.
Qed.

Lemma past_run L l T s : Forall (calm nos R) l -> at_time T s -> D1 <= T -> T + ticks l <= Tmax ->
  L <= Tmax + F -> Tmax + F < D1 + 2 ^ 31 -> past_listening L T s ->
  exists s', run l s = Ok s' /\ at_time (T + ticks l) s' /\ past_listening L (T + ticks l) s'.
Proof.
  intros Hl. revert T s. induction Hl as [|i l Hi Hl IH]; intros T s Hat HT Hmax HL Hcl Hw; cbn [run ticks foldr] in *.
  { exists s. by rewrite Z.add_0_r. }
  fold (ticks l) in *. pose proof (ticks_nonneg l Hl). pose proof (calm_ticks i Hi).
  destruct (at_step T i s Hat Hi) as (s1 & -> & Hat1 & Hst). cbn [mbind res_bind].
  destruct (past_step L T i s s1) as [Hw1 _]; [done|split; lia|done..|].
  destruct (IH (T + ticks_of i) s1) as (s' & E & Hat' & Hw'); [done|lia|lia|done|done|done|].
  exists s'. rewrite Z.add_assoc. done.
Qed.

End Live.

Lemma view_state s p v : view s p = Some v -> exists q, ports (br s) !! p = Some q /\ state q = fst v.
Proof.
  unfold view. rewrite list_lookup_fmap. destruct (ports (br s) !! p) as [q|]; [|done]. intros [= <-]. by exists q.
Qed.

(** C16: a listening port comes to forward after two forward delays, and not
    before.  Let [r] ticks be left on its forward delay timer and [F] be the
    forward delay, and let time pass and timers expire in any order: those of
    hello messages and of topology changes, the forward delay and hold timers
    of the ports, and, if the bridge has a root port, that of notifications.
    If the timer of the port gets to run once after [r] ticks and again after
    [F] more, the port forwards; and as long as fewer than [r + F] ticks have
    passed, it does not, however often these timers run.  Nothing faults, and
    the times may wrap.  The message age timers, which expire when other
    bridges fall silent and may give the port another role, do not run. *)
Theorem listening_port_comes_to_forward nos s p q r : wf nos s -> is_u32 (jiffies s) ->
  ports (br s) !! p = Some q -> state q = LISTENING ->
  forward_delay_timer q = Some (u32 (jiffies s + r)) -> 0 <= r -> 0 <= forward_delay (br s) ->
  let calm := calm nos (root_port (br s)) in
  (forall l1 l2, Forall calm l1 -> Forall calm l2 ->
    r <= ticks l1 -> forward_delay (br s) <= ticks l2 ->
    ticks l1 + ticks l2 + forward_delay (br s) < 2 ^ 31 ->
    exists s' q', run (l1 ++ ForwardDelayTimer p :: l2 ++ [ForwardDelayTimer p]) s = Ok s' /\ wf nos s' /\
      ports (br s') !! p = Some q' /\ state q' = FORWARDING) /\
  (forall l, Forall calm l -> ticks l < r + forward_delay (br s) ->
    r + 2 * forward_delay (br s) < 2 ^ 31 ->
    exists s' q', run l s = Ok s' /\ ports (br s') !! p = Some q' /\ state q' <> FORWARDING).
Proof.
  intros Hs Hu Hq Hst Ht Hr HF calm. subst calm. set (R := root_port (br s)). set (F := forward_delay (br s)) in *. set (T := jiffies s) in *.
  assert (Hp : (p < length nos)%nat).
  { destruct Hs as [[_ <-] _]. rewrite length_map. by eapply lookup_lt_Some. }
  assert (Hat : at_time nos F R T s) by (split; [done|]; split; [unfold T; by rewrite u32_small|done]).
  assert (Hway : on_its_way p F (T + r) T s).
  { left. unfold view. rewrite list_lookup_fmap, Hq. cbn. unfold progress. by rewrite Hst, Ht. }
  split.
  - intros l1 l2 H1 H2 Hr1 HF2 Hb. pose proof (ticks_nonneg nos R l1 H1). pose proof (ticks_nonneg nos R l2 H2).
    set (T1 := T + ticks l1). set (T2 := T1 + ticks l2).
    destruct (way_run nos p F R (T + r) T2 HF l1 T s) as (s1 & E1 & Hat1 & Hw1); [done..|lia|lia|lia|done|].
    destruct (at_step nos F R T1 (ForwardDelayTimer p) s1 Hat1 Hp) as (s2 & E2 & Hat2 & Hst2).
    destruct (way_step nos p F R (T + r) T2 HF T1 (ForwardDelayTimer p) s1 s2) as [_ Hpast]; [done|split; lia|done..|].
    cbn [serves ticks_of] in Hpast, Hat2. rewrite Nat.eqb_refl in Hpast. rewrite Z.add_0_r in Hat2.
    destruct (past_run nos p F R (T + r) T2 HF (T1 + F) l2 T1 s2) as (s3 & E3 & Hat3 & Hp3); [done|done|lia|lia|lia|lia|apply Hpast; [done|lia]|].
    destruct (at_step nos F R T2 (ForwardDelayTimer p) s3 Hat3 Hp) as (s4 & E4 & Hat4 & Hst4).
    destruct (past_step nos p F R (T + r) T2 HF (T1 + F) T2 (ForwardDelayTimer p) s3 s4) as [_ Hfw]; [done|split; lia|lia|lia|done..|].
    cbn [serves] in Hfw. rewrite Nat.eqb_refl in Hfw. destruct Hfw as (t & Hv); [done|lia|].
    destruct (view_state s4 p _ Hv) as (q' & Hq' & Hst'). exists s4, q'.
    rewrite (run_app l1 _ s s1 E1). cbn [run]. rewrite E2. cbn [mbind res_bind].
    rewrite (run_app l2 _ s2 s3 E3). cbn [run]. rewrite E4. cbn. split; [done|]. split; [apply Hat4|done].
  - intros l Hl Hlt Hb. pose proof (ticks_nonneg nos R l Hl).
    destruct (way_run nos p F R (T + r) (T + ticks l) HF l T s) as (s' & E & Hat' & Hw); [done..|lia|lia|lia|done|].
    destruct Hw as [Hv|[(D & HD & Hv)|(HD & _)]]; [..|lia];
      destruct (view_state s' p _ Hv) as (q' & Hq' & Hst'); exists s', q'; (split; [done|]); split; try done; by rewrite Hst'.
Qed.

(** A port that starts to listen at time 2^32 - 1000, with a forward delay of
    15 seconds; its timer would be the first to run after the clock has
    wrapped. *)
Definition wrapping : stp :=
  mk_stp
    (mk_br (ex_id 5) (ex_id 5) 0 0 20000 2000 15000 20000 2000 15000 BR_KERNEL_STP false false
       None None None None [1; 128; 194; 0; 0; 0] true [0; 0; 0; 0; 0; 5] true false
       [set_forward_delay_timer (Some 14000)
          (ex_port 1 LISTENING (ex_id 5) (ex_id 5) 0 32769)]) (2 ^ 32 - 1000) 0 [].

Lemma wrapping_wf : wf [1] wrapping.
Proof.
  assert (Hi : bid_ok (ex_id 5)) by (apply ex_id_ok; unfold is_u8; lia).
  assert (port_ok (ex_port 1 LISTENING (ex_id 5) (ex_id 5) 0 32769)) as [? ? ? ? ? ? ?]
    by (apply ex_port_ok; try done; unfold is_u16, is_u32; lia).
  split; [|by left]. split; [|done]. constructor; try done.
  - apply List.Forall_cons; [by constructor|apply List.Forall_nil].
  - apply (bool_decide_unpack (NoDup [1])). vm_compute. done.
Qed.

Lemma listening_port_comes_to_forward_witness :
  exists s' q', run ([Tick 8000; HelloTimer; ForwardDelayTimer 0; Tick 7000] ++ ForwardDelayTimer 0 ::
      [Tick 15000; HoldTimer 0] ++ [ForwardDelayTimer 0]) wrapping = Ok s' /\ wf [1] s' /\
    ports (br s') !! 0%nat = Some q' /\ state q' = FORWARDING.
Proof.
  apply (proj1 (listening_port_comes_to_forward [1] wrapping 0
    (set_forward_delay_timer (Some 14000) (ex_port 1 LISTENING (ex_id 5) (ex_id 5) 0 32769)) 15000
    wrapping_wf ltac:(vm_compute; intuition discriminate) eq_refl eq_refl eq_refl ltac:(lia) ltac:(vm_compute; discriminate))
    [Tick 8000; HelloTimer; ForwardDelayTimer 0; Tick 7000] [Tick 15000; HoldTimer 0]).
  - repeat constructor; cbn; lia.
  - repeat constructor; cbn; lia.
  - cbn. lia.
  - cbn. lia.
  - cbn. lia.
Defined.
