(* ===== verification/StpTree.v ===== *)
(** Several bridges: when the spanning tree protocol has come to rest, the
    ports that it leaves open connect the bridges in a tree.

    The bridges are joined by links between two ports each.  At rest, neither
    the selection of roles nor that of port states changes anything, and of the
    two ends of a link one is designated and the other has recorded what that
    one sends. *)

From S2P Require Import Prelude Str Stp StpSelect StpState.
From stdpp Require Import list relations.
Open Scope Z_scope.

(** An end of a link: a bridge and a port of it. *)
Definition endpoint : Type := nat * nat.
Definition link : Type := endpoint * endpoint.

(** The end [q] of a link has recorded what the bridge [b] sends on its port
    [p]: the fields of [br_transmit_config] as [br_record_config_information]
    stores them. *)
Definition heard (b : net_bridge) (p q : net_bridge_port) : Prop :=
  designated_root q = br_designated_root b /\ designated_cost q = root_path_cost b /\
  designated_bridge q = bridge_id b /\ designated_port q = port_id p.

(** Bridges joined by the links of [L]. *)
Definition adj (L : list link) (k l : nat) : Prop :=
  exists x y, ((x, y) ∈ L \/ (y, x) ∈ L) /\ fst x = k /\ fst y = l.

(** A port that is on its way to forwarding frames, or does so. *)
Definition is_open (p : net_bridge_port) : bool :=
  match state p with DISABLED | BLOCKING => false | _ => true end.

Section Network.
Context (S : list stp) (L : list link).

Definition port_end (e : endpoint) : option net_bridge_port :=
  s ← S !! fst e; ports (br s) !! snd e.

Record at_end (e : endpoint) (s : stp) (p : net_bridge_port) : Prop := mk_at_end {
  ae_bridge : S !! fst e = Some s;
  ae_port : ports (br s) !! snd e = Some p;
  ae_enabled : is_disabled p = false
}.

(** The end [x] is designated, and [y] has heard from it. *)
Definition hears (x y : endpoint) : Prop :=
  exists s p t q, at_end x s p /\ at_end y t q /\ br_is_designated_port (br s) p = true /\ heard (br s) p q.

Definition ends : list endpoint := concat (map (fun l => [fst l; snd l]) L).

Record at_rest : Prop := mk_at_rest {
  ar_bridge : forall k s, S !! k = Some s -> bridge_ok (br s) /\ stp_enabled (br s) = BR_KERNEL_STP;
  ar_cost : forall k s p, S !! k = Some s -> p ∈ ports (br s) ->
    1 <= path_cost p /\ designated_cost p + path_cost p < 2 ^ 32;
  ar_roles : forall k s, S !! k = Some s -> br_configuration_update (br s) = Ok (br s);
  ar_states : forall k s, S !! k = Some s -> exists s', br_port_state_selection s = Ok s' /\
    map state (ports (br s')) = map state (ports (br s));
  ar_ids : NoDup (map (fun s => bridge_id (br s)) S);
  ar_ends : NoDup ends;
  ar_links : forall x y, (x, y) ∈ L -> fst x <> fst y /\ (hears x y \/ hears y x);
  ar_free : forall k i s p, at_end (k, i) s p -> (k, i) ∉ ends -> br_is_designated_port (br s) p = true
}.

Definition connected : Prop := forall k l, (k < length S)%nat -> (l < length S)%nat -> rtc (adj L) k l.

(** The links frames can pass. *)
Definition passes (e : endpoint) : bool := match port_end e with Some p => is_open p | None => false end.
Definition active : list link := List.filter (fun l => passes (fst l) && passes (snd l)) L.

(** ** One bridge *)

Context (HR : at_rest).

Lemma settled k s : S !! k = Some s -> bridge_ok (br s) /\ root_selected (br s) (br s) /\
  forall i p, ports (br s) !! i = Some p -> role_ok (br s) p p.
Proof.
  intros E. destruct (ar_bridge HR k s E) as [Hb _]. split; [done|].
  destruct (br_configuration_update_spec (br s) Hb) as (b1 & b' & _ & E' & _ & _ & _ & Hsel & Hro).
  rewrite (ar_roles HR k s E) in E'. injection E' as <-. split; [done|]. intros i p Hi.
  destruct (Forall2_lookup_l _ _ _ _ _ Hro Hi) as (p' & Hi' & Hr). congruence.
Qed.

Lemma root_le_id k s : S !! k = Some s -> bid_val (br_designated_root (br s)) <= bid_val (bridge_id (br s)).
Proof.
  intros E. destruct (settled k s E) as (_ & [(_ & -> & _)|(q & _ & Hc & _ & -> & _)] & _); [done|].
  unfold candidate in Hc. rewrite !andb_true_iff, Z.ltb_lt in Hc. lia.
Qed.

Lemma in_ports (l : list net_bridge_port) (i : nat) p : l !! i = Some p -> In p l.
Proof. intros H. by apply list_elem_of_In, (list_elem_of_lookup_2 _ i). Qed.

(** A port is open exactly if it has a role. *)
Lemma open_role e s p : at_end e s p ->
  passes e = (port_no p =? root_port (br s)) || br_is_designated_port (br s) p.
Proof.
  intros [E Hp Hen]. unfold passes, port_end. rewrite E. cbn. rewrite Hp.
  destruct (ar_states HR _ _ E) as (s' & Es & Hst). destruct (ar_bridge HR _ _ E) as [Hb Hk].
  assert (Hro : root_ok (br s)).
  { intros Hn. destruct (settled _ _ E) as (_ & [(_ & Hr & _)|(q & Hq & _ & -> & _)] & _); [|by apply in_map].
    unfold br_is_root_bridge in Hn. by rewrite Hr, memcmp_bid_eqb, Z.eqb_refl in Hn by apply Hb. }
  destruct (br_port_state_selection_spec s Hro) as (s2 & Es2 & _ & Hports & _). rewrite Es in Es2. injection Es2 as <-.
  assert (Hsame : state (selected_port (br s) (jiffies s) p) = state p).
  { rewrite Hports, map_map in Hst.
    assert (H : map (fun x => state (selected_port (br s) (jiffies s) x)) (ports (br s)) !! snd e = map state (ports (br s)) !! snd e)
      by by rewrite Hst.
    rewrite !list_lookup_fmap, Hp in H. by injection H. }
  assert (Hd : state p <> DISABLED) by (by apply bool_decide_eq_false in Hen).
  pose proof (selected_states (br s) (jiffies s) p Hk Hd) as H. cbv zeta in H. rewrite Hsame in H. unfold is_open.
  destruct (_ || _); [destruct H as (H1 & H2 & _)|rewrite H; done]. by destruct (state p).
Qed.

(** ** One link *)

Lemma hears_facts x y : fst x <> fst y -> hears x y -> exists s p t q, at_end x s p /\ at_end y t q /\
  br_is_designated_port (br s) p = true /\ br_is_designated_port (br t) q = false /\
  br_designated_root (br t) = br_designated_root (br s) /\ designated_cost q = root_path_cost (br s).
Proof.
  intros Hne (s & p & t & q & Hx & Hy & Hd & Hroot & Hcost & Hbr & Hport).
  exists s, p, t, q. pose proof Hx as [Es Hp _]. pose proof Hy as [Et Hq Hen].
  destruct (settled _ _ Es) as (Hbs & _ & _), (settled _ _ Et) as (Hbt & Hsel & Hrole).
  assert (Hnd : br_is_designated_port (br t) q = false).
  { apply andb_false_iff. left. rewrite Hbr, memcmp_bid_eqb by (apply Hbs || apply Hbt). apply Z.eqb_neq. intros Heq.
    apply bid_val_eq in Heq; [|apply Hbs|apply Hbt]. apply Hne. apply (NoDup_lookup _ _ _ (bridge_id (br s)) (ar_ids HR)).
    - by rewrite list_lookup_fmap, Es.
    - rewrite list_lookup_fmap, Et, Heq. done. }
  split; [done|]. split; [done|]. split; [done|]. split; [done|]. split; [|done].
  pose proof (Hrole _ _ Hq) as Hr. unfold role_ok in Hr. rewrite Hen in Hr.
  destruct Hr as [(_ & Hbad & _)|(_ & _ & Hlt)]; [congruence|].
  destruct (root_selected_le (br t) (br t) q) as [Hle|Hbad]; try done; [by eapply in_ports| |congruence].
  apply bid_val_eq; [apply Hbt|apply Hbs|]. rewrite Hroot in Hle.
  unfold rvec, dvec in Hlt. cbn [vec_lt] in Hlt. rewrite Hroot in Hlt.
  destruct (Z.ltb_spec (bid_val (br_designated_root (br s))) (bid_val (br_designated_root (br t)))); [lia|].
  destruct (Z.ltb_spec (bid_val (br_designated_root (br t))) (bid_val (br_designated_root (br s)))); [done|lia].
Qed.

(** Neighbours take the same bridge for the root. *)
Lemma adj_root k l s t : adj L k l -> S !! k = Some s -> S !! l = Some t ->
  br_designated_root (br s) = br_designated_root (br t).
Proof.
  assert (Hdir : forall x y, fst x <> fst y -> hears x y -> forall s t, S !! fst x = Some s -> S !! fst y = Some t ->
    br_designated_root (br t) = br_designated_root (br s)).
  { intros x y Hne Hh s0 t0 E0 E1. destruct (hears_facts x y Hne Hh) as (s1 & p & t1 & q & [Ex _ _] & [Ey _ _] & _ & _ & Hr & _).
    congruence. }
  intros (x & y & Hl & <- & <-) Es Et. destruct Hl as [Hl|Hl]; destruct (ar_links HR _ _ Hl) as [Hne [H|H]].
  - symmetry. by apply (Hdir x y).
  - apply (Hdir y x); [congruence|done..].
  - apply (Hdir y x); [congruence|done..].
  - symmetry. apply (Hdir x y); [congruence|done..].
Qed.

Lemma adj_lt k l : adj L k l -> (l < length S)%nat.
Proof.
  intros (x & y & Hl & <- & <-). assert (Hh : hears x y \/ hears y x).
  { destruct Hl as [Hl|Hl]; destruct (ar_links HR _ _ Hl) as [_ [H|H]]; auto. }
  destruct Hh as [(s & p & t & q & _ & [E _ _] & _)|(s & p & t & q & [E _ _] & _)]; by eapply lookup_lt_Some.
Qed.

Lemma rtc_root k l s t : rtc (adj L) k l -> S !! k = Some s -> S !! l = Some t ->
  br_designated_root (br s) = br_designated_root (br t).
Proof.
  intros H. revert s. induction H as [k|k m l Hkm _ IH]; intros s Es Et; [congruence|].
  destruct (lookup_lt_is_Some_2 S m) as [u Eu]; [by eapply adj_lt|]. rewrite (adj_root k m s u Hkm Es Eu). by apply IH.
Qed.

(** ** The way to the root *)

(** A bridge with a root port has an open link to a bridge that is nearer to
    the root. *)
Lemma parent k s : S !! k = Some s -> root_port (br s) <> 0 -> exists x j q l t,
  at_end (k, j) s q /\ port_no q = root_port (br s) /\ l ∈ active /\ (l = (x, (k, j)) \/ l = ((k, j), x)) /\
  S !! fst x = Some t /\ fst x <> k /\ root_path_cost (br t) < root_path_cost (br s).
Proof.
  intros E Hrp. destruct (settled _ _ E) as (Hb & [(H0 & _)|(q & Hq & Hc & Hno & _ & Hcost & _)] & _); [done|].
  apply list_elem_of_In in Hq as [j Hj]%list_elem_of_lookup. unfold candidate in Hc. rewrite !andb_true_iff, !negb_true_iff in Hc.
  destruct Hc as [[Hen Hnd] _]. assert (Hy : at_end (k, j) s q) by by split.
  assert (Hend : (k, j) ∈ ends). { destruct (decide ((k, j) ∈ ends)); [done|]. rewrite (ar_free HR _ _ _ _ Hy) in Hnd; done. }
  apply list_elem_of_In, in_concat in Hend as (two & Htwo & Hin). apply in_map_iff in Htwo as (l & <- & Hl). apply list_elem_of_In in Hl.
  assert (Hx : exists x, (l = (x, (k, j)) \/ l = ((k, j), x)) /\ fst x <> k /\ (hears x (k, j) \/ hears (k, j) x)).
  { destruct l as [x y]. destruct (ar_links HR _ _ Hl) as [Hne Hh]. cbn in Hin. destruct Hin as [->|[->|[]]]; cbn in Hne.
    - exists y. split; [by right|]. split; [congruence|]. by destruct Hh; [right|left].
    - exists x. split; [by left|]. by split. }
  destruct Hx as (x & Hshape & Hne & Hh).
  destruct Hh as [Hh|Hh].
  2: { apply hears_facts in Hh as (s1 & p & t & q1 & [E1 Hp1 _] & _ & Hd & _); [|cbn; congruence]. cbn in *. congruence. }
  apply hears_facts in Hh as (t & p & s1 & q1 & Hx & [E1 Hq1 _] & Hd & _ & _ & Hq); [|done]. cbn in *.
  rewrite E in E1. injection E1 as <-. rewrite Hj in Hq1. injection Hq1 as <-.
  exists x, j, q, l, t. split; [done|]. split; [done|]. split.
  { apply list_elem_of_In, filter_In. split; [by apply list_elem_of_In|].
    assert (Hpx : passes x = true) by (rewrite (open_role x t p Hx), Hd; apply orb_true_r).
    assert (Hpy : passes (k, j) = true) by (rewrite (open_role _ s q Hy), Hno, Z.eqb_refl; done).
    by destruct Hshape as [->| ->]; cbn; rewrite Hpx, Hpy. }
  split; [done|]. split; [apply Hx|]. split; [done|].
  destruct (ar_cost HR k s q E) as [H1 H2]; [by eapply list_elem_of_lookup_2|].
  pose proof (po_cost q (bo_port _ q Hb (in_ports _ _ _ Hj))) as Hu. unfold is_u32 in Hu. rewrite Hcost, u32_small by (unfold is_u32; lia). lia.
Qed.

Lemma way_to_root : forall (n : nat) k s, S !! k = Some s -> root_path_cost (br s) <= Z.of_nat n -> exists r t,
  rtc (adj active) k r /\ S !! r = Some t /\ root_port (br t) = 0 /\ br_designated_root (br t) = bridge_id (br t).
Proof.
  induction n as [|n IH]; intros k s E Hc; (destruct (Z.eq_dec (root_port (br s)) 0) as [Hz|Hz];
    [destruct (settled _ _ E) as (Hb & [(_ & Hr & _)|(q & Hq & _ & Hno & _)] & _);
      [exists k, s; split; [apply rtc_refl|]; by rewrite Hr
      |pose proof (po_no q (bo_port _ q Hb Hq)); lia]|]).
  - destruct (parent k s E Hz) as (x & j & q & l & t & _ & _ & _ & _ & Et & _ & Hlt).
    pose proof (bo_cost _ (proj1 (settled _ _ Et))) as [Hu _]. lia.
  - destruct (parent k s E Hz) as (x & j & q & l & t & _ & _ & Hl & Hshape & Et & _ & Hlt).
    destruct (IH (fst x) t Et) as (r & u & Hr & H); [lia|]. exists r, u. split; [|done].
    eapply rtc_l; [|exact Hr]. exists (k, j), x. split; [|done]. by destruct Hshape as [->| ->]; [right|left].
Qed.

(** The bridge of a link that has it as its way to the root. *)
Definition is_root_end (e : endpoint) : bool :=
  match S !! fst e with
  | Some s => match ports (br s) !! snd e with Some q => port_no q =? root_port (br s) | None => false end
  | None => false
  end.
Definition child (l : link) : endpoint := if is_root_end (snd l) then snd l else fst l.

Lemma root_end_at e s q : at_end e s q -> is_root_end e = (port_no q =? root_port (br s)).
Proof. intros [E Hq _]. unfold is_root_end. by rewrite E, Hq. Qed.

(** A designated port is not the root port. *)
Lemma designated_not_root e s p : at_end e s p -> br_is_designated_port (br s) p = true -> is_root_end e = false.
Proof.
  intros A Hd. rewrite (root_end_at _ _ _ A). apply Z.eqb_neq. intros Hno. destruct A as [E Hp _].
  destruct (settled _ _ E) as (Hb & Hsel & _). pose proof (in_ports _ _ _ Hp) as Hin.
  destruct Hsel as [(H0 & _)|(q & Hq & Hc & Hr & _)]; [pose proof (po_no p (bo_port _ p Hb Hin)); lia|].
  pose proof (br_get_port_spec _ p (bo_nodup _ Hb) Hin) as H1. pose proof (br_get_port_spec _ q (bo_nodup _ Hb) Hq) as H2.
  rewrite <- Hr, <- Hno, H1 in H2. injection H2 as <-. unfold candidate in Hc. rewrite Hd, andb_false_r in Hc. done.
Qed.

(** Of an open link, one end is a root port. *)
Lemma child_port_spec l : l ∈ active -> is_root_end (child l) = true /\ (child l = fst l \/ child l = snd l) /\
  exists s q, at_end (child l) s q.
Proof.
  destruct l as [x y]. intros [Hl Hp]%list_elem_of_In%filter_In. apply list_elem_of_In in Hl. cbn [fst snd] in Hp.
  apply andb_true_iff in Hp as [Hpx Hpy]. destruct (ar_links HR _ _ Hl) as [Hne Hh]. unfold child. cbn [fst snd].
  destruct Hh as [Hh|Hh]; apply hears_facts in Hh as (s & p & t & q & Hx & Hy & Hd & Hnd & _); try congruence.
  - rewrite (open_role _ _ _ Hy), Hnd, orb_false_r in Hpy. rewrite (root_end_at _ _ _ Hy), Hpy.
    split; [by rewrite (root_end_at _ _ _ Hy)|]. split; [by right|]. by exists t, q.
  - rewrite (open_role _ _ _ Hy), Hnd, orb_false_r in Hpx. rewrite (designated_not_root _ _ _ Hx Hd).
    split; [by rewrite (root_end_at _ _ _ Hy)|]. split; [by left|]. by exists t, q.
Qed.

Lemma ends_inj (K : list link) l1 l2 e : NoDup (concat (map (fun l => [fst l; snd l]) K)) -> l1 ∈ K -> l2 ∈ K ->
  e = fst l1 \/ e = snd l1 -> e = fst l2 \/ e = snd l2 -> l1 = l2.
Proof.
  induction K as [|l K IH]; intros Hn H1 H2 He1 He2; [by apply elem_of_nil in H1|]. cbn in Hn.
  apply NoDup_cons in Hn as [Ha Hn]. apply NoDup_cons in Hn as [Hb Hn].
  assert (Hno : forall l', l' ∈ K -> e = fst l' \/ e = snd l' -> e = fst l \/ e = snd l -> False).
  { intros l' Hl' He' He. assert (Hin : e ∈ concat (map (fun l => [fst l; snd l]) K)).
    { apply list_elem_of_In, in_concat. exists [fst l'; snd l']. split; [apply in_map_iff; exists l'; split; [done|by apply list_elem_of_In]|].
      destruct He' as [->| ->]; [by left|right; by left]. }
    destruct He as [->| ->]; [|done]. apply Ha, elem_of_cons. by right. }
  apply elem_of_cons in H1 as [->|H1], H2 as [->|H2]; [done| | |by apply IH].
  - destruct (Hno l2 H2 He2 He1).
  - destruct (Hno l1 H1 He1 He2).
Qed.

Lemma NoDup_ends (K : list link) : NoDup (concat (map (fun l => [fst l; snd l]) K)) -> NoDup K.
Proof.
  induction K as [|l K IH]; intros Hn; [constructor|]. cbn in Hn. apply NoDup_cons in Hn as [Ha Hn].
  apply NoDup_cons in Hn as [_ Hn]. constructor; [|by apply IH]. intros Hl. apply Ha, elem_of_cons. right.
  apply list_elem_of_In, in_concat. exists [fst l; snd l]. split; [|by left].
  apply in_map_iff. exists l. split; [done|by apply list_elem_of_In].
Qed.

(** A bridge has one way to the root. *)
Lemma child_inj l1 l2 : l1 ∈ active -> l2 ∈ active -> fst (child l1) = fst (child l2) -> l1 = l2.
Proof.
  intros H1 H2 Hk. destruct (child_port_spec l1 H1) as (R1 & S1 & s1 & q1 & A1), (child_port_spec l2 H2) as (R2 & S2 & s2 & q2 & A2).
  rewrite (root_end_at _ _ _ A1), Z.eqb_eq in R1. rewrite (root_end_at _ _ _ A2), Z.eqb_eq in R2.
  destruct A1 as [E1 P1 _], A2 as [E2 P2 _]. rewrite Hk, E2 in E1. injection E1 as <-.
  assert (Hj : snd (child l1) = snd (child l2)).
  { destruct (settled _ _ E2) as (Hb & _). apply (NoDup_lookup _ _ _ (root_port (br s2)) (bo_nodup _ Hb)).
    - by rewrite list_lookup_fmap, P1, <- R1.
    - by rewrite list_lookup_fmap, P2, <- R2. }
  apply (ends_inj L l1 l2 (child l1)); [apply (ar_ends HR)| | |by destruct S1; [left|right]|].
  - apply list_elem_of_In in H1. apply filter_In in H1 as [H1 _]. by apply list_elem_of_In.
  - apply list_elem_of_In in H2. apply filter_In in H2 as [H2 _]. by apply list_elem_of_In.
  - assert (Hc : child l1 = child l2) by (destruct (child l1), (child l2); cbn in *; congruence). rewrite Hc.
    by destruct S2; [left|right].
Qed.

(** Every bridge but the root has one. *)
Lemma children r t : S !! r = Some t -> root_port (br t) = 0 ->
  (forall k s, S !! k = Some s -> root_port (br s) = 0 -> k = r) ->
  r :: map (fun l => fst (child l)) active ≡ₚ seq 0 (length S).
Proof.
  intros Et Hz Huniq. apply NoDup_Permutation.
  - constructor.
    + intros Hin. apply list_elem_of_In, in_map_iff in Hin as (l & Hl & Hin). apply list_elem_of_In in Hin.
      destruct (child_port_spec l Hin) as (R & _ & s & q & A). rewrite (root_end_at _ _ _ A), Z.eqb_eq in R.
      destruct A as [E P _]. rewrite Hl, Et in E. injection E as <-.
      pose proof (po_no q (bo_port _ q (proj1 (settled _ _ Et)) (in_ports _ _ _ P))). lia.
    + apply NoDup_fmap_2_strong; [intros l1 l2 H1 H2; by apply child_inj|].
      apply NoDup_ListNoDup, List.NoDup_filter, NoDup_ListNoDup, NoDup_ends, (ar_ends HR).
  - apply NoDup_ListNoDup, seq_NoDup.
  - intros k. rewrite elem_of_cons, list_elem_of_In, in_map_iff, list_elem_of_In, in_seq. split.
    + intros [->|(l & <- & Hl)]; [apply lookup_lt_Some in Et; lia|]. apply list_elem_of_In in Hl.
      destruct (child_port_spec l Hl) as (_ & _ & s & q & [E _ _]). apply lookup_lt_Some in E. lia.
    + intros [_ Hk]. destruct (lookup_lt_is_Some_2 S k) as [s E]; [lia|].
      destruct (Z.eq_dec (root_port (br s)) 0) as [H0|H0]; [left; by eapply Huniq|right].
      destruct (parent k s E H0) as (x & j & q & l & u & A & Hno & Hl & Hshape & _ & Hne & _). exists l. split; [|by apply list_elem_of_In].
      assert (Rk : is_root_end (k, j) = true) by (by rewrite (root_end_at _ _ _ A), Hno, Z.eqb_refl).
      unfold child. destruct Hshape as [->| ->]; cbn [fst snd] in *; [by rewrite Rk|].
      apply list_elem_of_In, filter_In in Hl as [Hl _]. apply list_elem_of_In in Hl.
      destruct (ar_links HR _ _ Hl) as [_ [(s1 & p1 & t1 & q1 & A1 & _ & Hd & _)|(s1 & p1 & t1 & q1 & A1 & _ & Hd & _)]];
        rewrite (designated_not_root _ _ _ A1 Hd) in *; done.
Qed.

(** C3: when the protocol has come to rest in a connected network of bridges
    with different identifiers, the bridge with the lowest identifier is the
    root that all bridges know, and the open links form a spanning tree: every
    bridge reaches the root over them, and there is one link less than there
    are bridges, so that no frame can go round in a loop. *)
Theorem network_at_rest_is_a_tree : connected -> S <> [] -> exists r t, S !! r = Some t /\
  (forall k s, S !! k = Some s -> br_designated_root (br s) = bridge_id (br t) /\
     bid_val (bridge_id (br t)) <= bid_val (bridge_id (br s))) /\
  (forall k, (k < length S)%nat -> rtc (adj active) k r) /\
  Datatypes.S (length active) = length S.
Proof.
  intros Hcon Hne.
  assert (Hway : forall k s, S !! k = Some s -> exists r t,
    rtc (adj active) k r /\ S !! r = Some t /\ root_port (br t) = 0 /\ br_designated_root (br t) = bridge_id (br t)).
  { intros k s E. apply (way_to_root (Z.to_nat (root_path_cost (br s))) k s E).
    pose proof (bo_cost _ (proj1 (settled _ _ E))) as [Hu _]. lia. }
  assert (Hsame : forall k l s t, S !! k = Some s -> S !! l = Some t -> br_designated_root (br s) = br_designated_root (br t)).
  { intros k l s t Es Et. apply (rtc_root k l); [|done..]. apply Hcon; by eapply lookup_lt_Some. }
  assert (Huniq : forall k l s t, S !! k = Some s -> S !! l = Some t -> br_designated_root (br s) = bridge_id (br s) ->
    br_designated_root (br t) = bridge_id (br t) -> k = l).
  { intros k l s t Es Et Hs Ht. apply (NoDup_lookup _ _ _ (bridge_id (br s)) (ar_ids HR)).
    - by rewrite list_lookup_fmap, Es.
    - rewrite list_lookup_fmap, Et, <- Hs, (Hsame k l s t Es Et), Ht. done. }
  destruct S as [|s0 S0] eqn:ES; [done|]. rewrite <- ES in *.
  destruct (Hway 0%nat s0) as (r & t & _ & Et & Hz & Hr); [by rewrite ES|]. exists r, t. split; [done|]. split; [|split].
  - intros k s E. rewrite <- Hr, (Hsame r k t s Et E). split; [done|]. by eapply root_le_id.
  - intros k [s E]%lookup_lt_is_Some_2. destruct (Hway k s E) as (r' & t' & Hw & Et' & _ & Hr'). by rewrite (Huniq r r' t t').
  - assert (Hperm : r :: map (fun l => fst (child l)) active ≡ₚ seq 0 (length S)).
    { apply (children r t); [done..|]. intros k s E H0. apply (Huniq k r s t); [done..| |done].
      destruct (settled _ _ E) as (Hb & [(_ & H & _)|(q & Hq & _ & Hno & _)] & _); [done|].
      pose proof (po_no q (bo_port _ q Hb Hq)). lia. }
    apply Permutation_length in Hperm. cbn in Hperm. rewrite length_map, length_seq in Hperm. done.
Qed.

End Network.

(** ** Example *)

(** Three bridges in a ring; the second port of the third one is blocked. *)
Definition ring_br (n : Z) (cost rp : Z) (l : list net_bridge_port) : stp :=
  mk_stp (mk_br (ex_id n) (ex_id 1) cost rp 20000 2000 15000 20000 2000 15000 BR_KERNEL_STP false false
    None None None None [1; 128; 194; 0; 0; 0] true [0; 0; 0; 0; 0; n] true true l) 1000 0 [].

Definition ring : list stp :=
  [ring_br 1 0 0 [ex_port 1 FORWARDING (ex_id 1) (ex_id 1) 0 32769; ex_port 2 FORWARDING (ex_id 1) (ex_id 1) 0 32770];
   ring_br 2 100 1 [ex_port 1 FORWARDING (ex_id 1) (ex_id 1) 0 32769; ex_port 2 FORWARDING (ex_id 1) (ex_id 2) 100 32770];
   ring_br 3 100 1 [ex_port 1 FORWARDING (ex_id 1) (ex_id 1) 0 32770; ex_port 2 BLOCKING (ex_id 1) (ex_id 2) 100 32770]].

Definition ring_links : list link :=
  [((0, 0), (1, 0)); ((0, 1), (2, 0)); ((2, 1), (1, 1))]%nat.

Lemma ring_ok : Forall (fun s => bridge_ok (br s)) ring.
Proof.
  assert (Hi : forall n, 0 <= n < 256 -> bid_ok (ex_id n)) by (intros; by apply ex_id_ok).
  repeat (constructor; [constructor; cbn [br ring_br bridge_id br_designated_root root_path_cost ports]; try (apply Hi; lia);
    [unfold is_u32; lia
    |repeat first [apply List.Forall_nil | apply List.Forall_cons; [apply ex_port_ok; try (apply Hi; lia); unfold is_u16, is_u32; lia|]]
    |apply (bool_decide_unpack (NoDup [1; 2])); by vm_compute]|]).
  constructor.
Qed.

Lemma ring_at_rest : at_rest ring ring_links.
Proof.
  assert (Hend : forall k i s p, ring !! k = Some s -> ports (br s) !! i = Some p -> is_disabled p = false ->
    at_end ring (k, i) s p) by (intros; by split).
  split.
  - intros k s E. split; [by apply (proj1 (Forall_lookup _ _) ring_ok k)|].
    do 3 (destruct k as [|k]; [by injection E as <-|]). done.
  - intros k s p E Hp. do 3 (destruct k as [|k]; [injection E as <-; cbn in Hp;
      apply elem_of_cons in Hp as [->|[->|Hp%elem_of_nil]%elem_of_cons]; cbn; [lia|lia|done]|]). done.
  - intros k s E. do 3 (destruct k as [|k]; [injection E as <-; by vm_compute|]). done.
  - intros k s E. do 3 (destruct k as [|k]; [injection E as <-; eexists; split; [vm_compute; reflexivity|by vm_compute]|]). done.
  - apply (bool_decide_unpack _). by vm_compute.
  - apply (bool_decide_unpack _). by vm_compute.
  - intros x y Hl. apply elem_of_cons in Hl as [[= -> ->]|[[= -> ->]|[[= -> ->]|Hl%elem_of_nil]%elem_of_cons]%elem_of_cons];
      [split; [done|left]|split; [done|left]|split; [done|right]|done].
    all: eexists _, _, _, _; split; [apply Hend; [reflexivity..|by vm_compute]|]; split; [apply Hend; [reflexivity..|by vm_compute]|];
      split; [by vm_compute|by repeat split].
  - intros k i s p [E Hp _] Hn. exfalso. apply Hn. cbn in E, Hp.
    do 3 (destruct k as [|k]; [injection E as <-; do 2 (destruct i as [|i]; [apply (bool_decide_unpack _); by vm_compute|]); done|]). done.
Qed.

Lemma network_at_rest_is_a_tree_witness : exists r t, ring !! r = Some t /\
  (forall k s, ring !! k = Some s -> br_designated_root (br s) = bridge_id (br t) /\
     bid_val (bridge_id (br t)) <= bid_val (bridge_id (br s))) /\
  (forall k, (k < length ring)%nat -> rtc (adj (active ring ring_links)) k r) /\
  Datatypes.S (length (active ring ring_links)) = length ring.
Proof.
  apply (network_at_rest_is_a_tree ring ring_links ring_at_rest); [|done].
  assert (Hup : forall k, (k < 3)%nat -> rtc (adj ring_links) k 0%nat /\ rtc (adj ring_links) 0%nat k).
  { intros k Hk. destruct k as [|[|[|k]]]; [done| | |lia]; split; apply rtc_once.
    - exists (1, 0)%nat, (0, 0)%nat. split; [right; apply elem_of_cons; by left|done].
    - exists (0, 0)%nat, (1, 0)%nat. split; [left; apply elem_of_cons; by left|done].
    - exists (2, 0)%nat, (0, 1)%nat. split; [right; do 2 (apply elem_of_cons; first [by left|right])|done].
    - exists (0, 1)%nat, (2, 0)%nat. split; [left; do 2 (apply elem_of_cons; first [by left|right])|done]. }
  intros k l Hk Hl. transitivity 0%nat; [by apply Hup|by apply Hup].
Defined.
