(* ===== verification/StpNet.v ===== *)
(** Several bridges that send each other configuration messages: whatever is
    lost, delayed, repeated or reordered on the way, no bridge ever takes a
    bridge for the root that does not exist, and the one with the lowest
    identifier is the root from the start. *)

From S2P Require Import Prelude Str Stp StpSelect StpBpdu StpState StpSafety.
From stdpp Require Import list.
Open Scope Z_scope.

(** ** What a bridge knows and says *)

Section Genuine.
Context (ids : bid -> Prop) (Hids : forall i, ids i -> bid_ok i) (own : bid) (Hown : ids own).
Implicit Types (s : stp) (b : net_bridge).

(** The root that a message names, if it names one. *)
Definition says (data : list Z) : Prop :=
  bytes data /\
  let buf := drop 3 data in nth 0 buf 0 = BPDU_TYPE_CONFIG -> ids (b_root (bpdu_of buf)).

Definition says_event (e : event) : Prop := match e with SendBpdu _ data => says data | _ => True end.

(** Every root the bridge [own] has heard of, believes in or announces is
    genuine. *)
Record genuine_br b : Prop := mk_genuine_br {
  ge_id : bridge_id b = own;
  ge_root : ids (br_designated_root b);
  ge_ports : Forall (fun p => ids (designated_root p)) (ports b)
}.
Definition genuine s : Prop := genuine_br (br s) /\ Forall says_event (events s).

(** [Q] holds of the result, if there is one. *)
Definition ends_in {A} (Q : A -> Prop) (m : res A) : Prop := forall a, m = Ok a -> Q a.

Lemma ends_Ok {A} (Q : A -> Prop) a : Q a -> ends_in Q (Ok a).
Proof. by intros H ? [= <-]. Qed.

Lemma ends_bind {A B} (P : A -> Prop) (Q : B -> Prop) m (k : A -> res B) :
  ends_in P m -> (forall a, P a -> ends_in Q (k a)) -> ends_in Q (m ≫= k).
Proof. intros Hm Hk b E. destruct m as [a|]; [|done]. by apply (Hk a); [apply Hm|]. Qed.

Lemma ends_any {A B} (Q : B -> Prop) m (k : A -> res B) : (forall a, m = Ok a -> ends_in Q (k a)) -> ends_in Q (m ≫= k).
Proof. intros Hk b E. destruct m as [a|] eqn:Em; [|done]. by apply (Hk a). Qed.

Lemma ends_for_ports {A} (Q : A -> Prop) l body : (forall p a, Q a -> ends_in Q (body p a)) ->
  forall a, Q a -> ends_in Q (for_ports l body a).
Proof.
  intros Hb. induction l as [|p l IH]; intros a Ha; cbn [for_ports]; [by apply ends_Ok|].
  apply (ends_bind Q); [by apply Hb|done].
Qed.

(** *** Steps that keep it *)

Lemma genuine_upd f s : bridge_id (f (br s)) = bridge_id (br s) -> br_designated_root (f (br s)) = br_designated_root (br s) ->
  ports (f (br s)) = ports (br s) -> genuine s -> genuine (upd f s).
Proof. intros H1 H2 H3 [[? ? ?] ?]. split; [|done]. split; cbn; by rewrite ?H1, ?H2, ?H3. Qed.

Lemma genuine_id s : genuine s -> ids (bridge_id (br s)).
Proof. intros [[-> _ _] _]. done. Qed.

Lemma genuine_upd_port p f s : (forall q, ids (designated_root q) -> ids (designated_root (f q))) -> genuine s -> genuine (upd_port p f s).
Proof. intros Hf [[? ? Hp] ?]. split; [|done]. split; cbn; try done. by apply alter_Forall. Qed.

Lemma genuine_emit e s : says_event e -> genuine s -> genuine (emit e s).
Proof. intros He [Hb Hs]. split; [done|]. cbn. by apply Forall_app_2, Forall_singleton. Qed.

Lemma genuine_designated p s : genuine s -> genuine (upd_port p (br_become_designated_port (br s)) s).
Proof. intros Hs. apply genuine_upd_port; [|done]. intros q _. apply Hs. Qed.

Create HintDb genuine.
#[local] Hint Resolve ends_Ok genuine_upd genuine_upd_port genuine_emit genuine_designated : genuine.
#[local] Hint Extern 1 (says_event _) => exact I : genuine.

Ltac genuine := eauto with genuine.

(** *** Messages *)

Lemma land_255 v : is_u8 (Z.land v 0xff).
Proof. change 0xff with (Z.ones 8). rewrite Z.land_ones by lia. unfold is_u8. apply Z.mod_pos_bound. lia. Qed.

Lemma be16_bytes v : bytes (be16 v).
Proof. unfold be16. repeat (constructor; [apply land_255|]). constructor. Qed.

Lemma says_config bpdu : ids (b_root bpdu) -> bid_ok (b_bridge_id bpdu) -> says (config_bpdu_bytes bpdu).
Proof.
  intros Hr Hb. pose proof (Hids _ Hr) as Hroot. split.
  - destruct Hroot as (_ & _ & Hr1 & Hr2), Hb as (_ & _ & Hb1 & Hb2). unfold config_bpdu_bytes.
    assert (Hflags : is_u8 (Z.lor (if b_topology_change bpdu then 0x01 else 0) (if b_topology_change_ack bpdu then 0x80 else 0)))
      by by destruct (b_topology_change bpdu), (b_topology_change_ack bpdu).
    repeat apply Forall_app_2; try assumption; try apply be16_bytes; repeat (constructor; [first [assumption|apply land_255|done]|]); constructor.
  - intros buf _. destruct bpdu as [tc tca root cost bridge port age max hello fwd]. cbn [b_root b_bridge_id] in *.
    destruct (bid_cases root Hroot) as (?&?&?&?&?&?&?&?& ->). exact Hr.
Qed.

Lemma says_tcn : says [0; 0; 0; BPDU_TYPE_TCN].
Proof. split; [repeat (constructor; [done|]); constructor|done]. Qed.

Lemma transmit_config_genuine p s : genuine s -> ends_in genuine (br_transmit_config p s).
Proof.
  intros Hs. unfold br_transmit_config. apply ends_any. intros pt _. case_bool_decide; [genuine|].
  apply ends_any. intros age _. case_match; [|genuine]. apply ends_Ok, genuine_upd_port; [done|].
  unfold br_send_config_bpdu. repeat case_match; try done. apply genuine_emit; [|done].
  apply says_config; [apply Hs|by apply Hids, genuine_id].
Qed.

Lemma transmit_tcn_genuine s : genuine s -> ends_in genuine (br_transmit_tcn s).
Proof.
  intros Hs. unfold br_transmit_tcn. apply ends_any. intros p _. apply ends_Ok. unfold br_send_tcn_bpdu.
  repeat case_match; try done. apply genuine_emit; [exact says_tcn|done].
Qed.

Lemma generation_genuine s : genuine s -> ends_in genuine (br_config_bpdu_generation s).
Proof.
  intros Hs. apply ends_for_ports; [|done]. intros p s' Hs'. apply ends_any. intros pt _.
  case_match; [by apply transmit_config_genuine|genuine].
Qed.

Lemma detection_genuine s : genuine s -> ends_in genuine (br_topology_change_detection s).
Proof.
  intros Hs. unfold br_topology_change_detection. case_match; [genuine|].
  apply (ends_bind genuine); [|genuine]. case_match; [genuine|]. case_match; [|genuine].
  apply (ends_bind genuine); [by apply transmit_tcn_genuine|genuine].
Qed.

Lemma become_root_genuine s : genuine s -> ends_in genuine (br_become_root_bridge s).
Proof.
  intros Hs. unfold br_become_root_bridge. apply (ends_bind genuine); [apply detection_genuine; genuine|].
  intros s1 H1. case_match; [|genuine]. apply (ends_bind genuine); [apply generation_genuine; genuine|genuine].
Qed.

(** *** Selection *)

Lemma update_genuine s : genuine s -> ends_in genuine (configuration_update s).
Proof.
  intros [[Hi Hr Hp] He]. unfold configuration_update, br_configuration_update.
  apply (ends_bind genuine_br); [|intros b Hb; by apply ends_Ok].
  apply (ends_bind genuine_br).
  - unfold br_root_selection. apply ends_any. intros rp _. case_match; [apply ends_Ok; split; cbn; by rewrite ?Hi|].
    apply ends_any. intros p Ep. apply ends_Ok. split; [done| |done]. cbn.
    destruct (br_get_port _ rp) as [p'|] eqn:E; [|done]. injection Ep as ->. apply br_get_port_Some in E as [Hin _].
    by apply (proj1 (List.Forall_forall _ _) Hp).
  - intros b [? ? Hb]. apply ends_Ok. split; try done. cbn. apply Forall_fmap. eapply List.Forall_impl; [|exact Hb].
    intros p Hpt. cbn. by case_match.
Qed.

Lemma notify_genuine p s : genuine s -> ends_in genuine (notify_port p s).
Proof. intros Hs. unfold notify_port. apply ends_any. genuine. Qed.

Lemma blocking_genuine p s : genuine s -> ends_in genuine (br_make_blocking p s).
Proof.
  intros Hs. unfold br_make_blocking. apply ends_any. intros pt _.
  assert (Htail : forall s1, genuine s1 -> ends_in genuine (s2 ← notify_port p (upd_port p (set_state BLOCKING) s1);
    Ok (upd_port p (set_forward_delay_timer None) s2))).
  { intros s1 H1. apply (ends_bind genuine); [apply notify_genuine; genuine|genuine]. }
  destruct (state pt); [genuine| | | |genuine].
  - apply (ends_bind genuine); [genuine|done].
  - apply (ends_bind genuine); [by apply detection_genuine|done].
  - apply (ends_bind genuine); [by apply detection_genuine|done].
Qed.

Lemma forwarding_genuine p s : genuine s -> ends_in genuine (br_make_forwarding p s).
Proof.
  intros Hs. unfold br_make_forwarding. apply ends_any. intros pt _. case_match; [genuine|].
  apply (ends_bind genuine).
  - case_match; [|case_match; genuine]. apply (ends_bind genuine); [apply detection_genuine; genuine|genuine].
  - intros s1 H1. apply (ends_bind genuine); [by apply notify_genuine|]. intros s2 H2. case_match; genuine.
Qed.

Lemma states_genuine s : genuine s -> ends_in genuine (br_port_state_selection s).
Proof.
  intros Hs. unfold br_port_state_selection. apply (ends_bind (fun x => genuine (fst x))).
  - apply ends_for_ports; [|done]. intros p [s1 n] H1. cbn in H1. apply ends_any. intros pt _. case_match; [genuine|].
    apply (ends_bind genuine); [|intros s2 H2; apply ends_any; intros; by apply ends_Ok].
    unfold select_port_state. apply ends_any. intros pt' _. repeat case_match; [genuine|..].
    + apply forwarding_genuine; genuine.
    + apply forwarding_genuine; genuine.
    + apply blocking_genuine; genuine.
  - intros [s1 n] H1. genuine.
Qed.

Lemma reconfigure_genuine w s : genuine s -> ends_in genuine (reconfigure w s).
Proof.
  intros Hs. unfold reconfigure. apply (ends_bind genuine); [by apply update_genuine|]. intros s1 H1.
  apply (ends_bind genuine); [by apply states_genuine|]. intros s2 H2. case_match; [by apply become_root_genuine|genuine].
Qed.

(** *** Handlers *)

Lemma received_genuine p bpdu s : ids (b_root bpdu) -> genuine s -> ends_in genuine (br_received_config_bpdu p bpdu s).
Proof.
  intros Hr Hs. unfold br_received_config_bpdu. apply ends_any. intros pt _. case_match.
  2: { case_match; [by apply transmit_config_genuine|genuine]. }
  apply (ends_bind genuine); [apply update_genuine, genuine_upd_port; [by intros|done]|]. intros s1 H1.
  apply (ends_bind genuine); [by apply states_genuine|]. intros s2 H2. apply (ends_bind genuine).
  - case_match; [|genuine]. unfold lost_root. case_match; [|genuine].
    apply (ends_bind genuine); [apply transmit_tcn_genuine; genuine|genuine].
  - intros s3 H3. apply ends_any. intros pt' _. case_match; [|genuine]. unfold root_port_update.
    apply (ends_bind genuine); [apply generation_genuine; genuine|]. intros s4 H4. apply ends_Ok.
    case_match; [unfold br_topology_change_acknowledged|]; genuine.
Qed.

Lemma rcv_genuine pull port dest pkt s : says pkt -> genuine s -> ends_in genuine (br_stp_rcv pull port dest pkt s).
Proof.
  intros [_ Hp] Hs. rewrite br_stp_rcv_total. unfold rcv_total. do 2 (case_match; [genuine|]). destruct port as [p|]; [|genuine].
  apply ends_any. intros pt _. do 4 (case_match; [genuine|]). case_match.
  - do 2 (case_match; [genuine|]). apply received_genuine; [|done]. apply Hp. by apply Z.eqb_eq.
  - case_match; [|genuine]. unfold br_received_tcn_bpdu. apply ends_any. intros pt' _. case_match; [|genuine].
    apply (ends_bind genuine); [by apply detection_genuine|]. intros s1 Hs1. apply transmit_config_genuine; genuine.
Qed.

Lemma enable_port_genuine p s : genuine s -> ends_in genuine (br_stp_enable_port p s).
Proof.
  intros Hs. unfold br_stp_enable_port. apply (ends_bind genuine); [|intros; by apply notify_genuine].
  apply states_genuine, genuine_upd_port; [|done]. intros q _. apply Hs.
Qed.

Lemma disable_port_genuine p s : genuine s -> ends_in genuine (br_stp_disable_port p s).
Proof.
  intros Hs. unfold br_stp_disable_port. apply ends_any. intros pt _. apply (ends_bind genuine).
  - apply notify_genuine, genuine_upd_port; [|done]. intros q _. apply Hs.
  - intros s1 H1. apply reconfigure_genuine. genuine.
Qed.

(** The inputs of a bridge that keeps its identifier and hears nothing but
    genuine messages. *)
Definition sound (i : input) : Prop :=
  match i with
  | Receive _ _ _ pkt => says pkt
  | ChangeBridgeId _ | RecalculateBridgeId | SetBridgePriority _ => False
  | _ => True
  end.

Lemma expired_genuine (c : bool) m s : genuine s -> ends_in genuine m -> ends_in genuine (if c then m else Ok s).
Proof. intros Hs Hm. destruct c; [done|genuine]. Qed.

Lemma port_timer_genuine p (c : net_bridge_port -> bool) m s : genuine s -> ends_in genuine m ->
  ends_in genuine (pt ← port_at s p; if c pt then m else Ok s).
Proof. intros Hs Hm. apply ends_any. intros pt _. by apply expired_genuine. Qed.

Lemma handle_genuine i s : sound i -> genuine s -> ends_in genuine (handle i s).
Proof.
  intros Hi Hs. destruct i; cbn [handle sound] in *; try contradiction.
  - by apply ends_Ok.
  - by apply rcv_genuine.
  - apply expired_genuine; [done|]. unfold br_hello_timer_expired. case_match; [|genuine].
    apply (ends_bind genuine); [apply generation_genuine; genuine|genuine].
  - apply expired_genuine; [done|]. unfold br_tcn_timer_expired. case_match; [|genuine].
    apply (ends_bind genuine); [apply transmit_tcn_genuine; genuine|genuine].
  - apply expired_genuine; [done|]. unfold br_topology_change_timer_expired. genuine.
  - apply (port_timer_genuine p); [done|]. unfold br_message_age_timer_expired. apply ends_any. intros pt _.
    do 2 (case_match; [genuine|]). apply reconfigure_genuine, genuine_designated. genuine.
  - apply (port_timer_genuine p); [done|]. unfold br_forward_delay_timer_expired. apply ends_any. intros pt _.
    apply (ends_bind genuine); [|intros; by apply notify_genuine]. destruct (state pt); try genuine.
    apply (ends_bind genuine); [|genuine]. case_match; [apply detection_genuine|]; genuine.
  - apply (port_timer_genuine p); [done|]. unfold br_hold_timer_expired. apply ends_any. intros pt _.
    case_match; [apply transmit_config_genuine|]; genuine.
  - by apply enable_port_genuine.
  - by apply disable_port_genuine.
  - unfold br_loopback_detected. apply ends_any. intros pt _. case_match; [by apply blocking_genuine|genuine].
  - unfold br_stp_enable_bridge. apply (ends_bind genuine); [apply generation_genuine; genuine|]. intros s1 H1.
    apply ends_for_ports; [|done]. intros p s2 H2. apply ends_any. intros pt _. case_match; [by apply enable_port_genuine|genuine].
  - unfold br_stp_disable_bridge. apply (ends_bind genuine); [|genuine].
    apply ends_for_ports; [|done]. intros p s2 H2. apply ends_any. intros pt _. case_match; [genuine|by apply disable_port_genuine].
  - unfold br_stp_set_enabled, br_stp_start, br_stp_stop. do 2 case_match; try genuine; apply (ends_bind genuine); try genuine;
      case_match; try genuine; apply states_genuine; genuine.
  - apply (ends_bind (fun x => genuine (snd x))); [|by intros [? s1]; apply ends_Ok]. unfold br_stp_set_port_priority.
    case_match; [genuine|]. apply ends_any. intros pt _. apply ends_any. intros pt' _.
    match goal with |- context [upd_port p (br_become_designated_port (br ?x)) ?x] => set (s1 := x) end.
    assert (Hs1 : genuine s1) by (apply genuine_upd_port; [intros q; cbn; by case_match|done]).
    case_match; [|genuine]. apply (ends_bind genuine); [by apply states_genuine, genuine_designated|genuine].
  - apply (ends_bind (fun x => genuine (snd x))); [|by intros [? s1]; apply ends_Ok]. unfold br_stp_set_path_cost.
    case_match; [genuine|]. apply (ends_bind genuine); [apply update_genuine; genuine|]. intros s1 Hs1.
    apply (ends_bind genuine); [by apply states_genuine|genuine].
  - apply ends_Ok. unfold br_set_hello_time. case_match; [done|]. apply genuine_upd; [by destruct (br_is_root_bridge _)..|done].
  - apply ends_Ok. unfold br_set_max_age. case_match; [done|]. apply genuine_upd; [by destruct (br_is_root_bridge _)..|done].
  - apply ends_Ok. unfold br_set_forward_delay. case_match; [done|]. apply genuine_upd; [by destruct (br_is_root_bridge _)..|done].
Qed.

End Genuine.

(** ** The network *)

(** The bridges, and every message that has been sent so far: any of them may
    arrive anywhere, at any time and any number of times. *)
Record network : Type := mk_network {
  bridges : list stp;
  wire : list (list Z)
}.

Inductive net_event : Type :=
  | At (k : nat) (i : input)
  | Deliver (k p m : nat) (pull : bool) (dest : list Z).

Definition sent_in (s s' : stp) : list (list Z) :=
  omap (fun e => match e with SendBpdu _ data => Some data | _ => None end) (drop (length (events s)) (events s')).

Definition net_handle (k : nat) (s : stp) (i : input) (n : network) : res network :=
  s' ← handle i s; Ok (mk_network (<[k := s']> (bridges n)) (wire n ++ sent_in s s')).

Definition net_step (e : net_event) (n : network) : res network :=
  match e with
  | At k i => match bridges n !! k with Some s => net_handle k s i n | None => Ok n end
  | Deliver k p m pull dest =>
      match bridges n !! k, wire n !! m with
      | Some s, Some data => net_handle k s (Receive pull (Some p) dest data) n
      | _, _ => Ok n
      end
  end.

Fixpoint net_run (l : list net_event) (n : network) : res network :=
  match l with
  | [] => Ok n
  | e :: l => n ← net_step e n; net_run l n
  end.

Section Election.
Context (I : list bid) (HI : Forall bid_ok I) (nos : nat -> list Z).
Abbreviation known := (fun i => i ∈ I).

(** The [k]-th bridge has the [k]-th identifier and the ports [nos k]. *)
Record net_ok (n : network) : Prop := mk_net_ok {
  no_length : length (bridges n) = length I;
  no_bridges : forall k s i, bridges n !! k = Some s -> I !! k = Some i -> wf (nos k) s /\ genuine known i s;
  no_wire : Forall (says known) (wire n)
}.

(** What happens at a bridge but messages, which come from the wire, and
    changes of its identifier. *)
Definition net_valid (e : net_event) : Prop :=
  match e with
  | At k i => valid (nos k) i /\
      match i with Receive _ _ _ _ | ChangeBridgeId _ | RecalculateBridgeId | SetBridgePriority _ => False | _ => True end
  | Deliver k p _ _ _ => (p < length (nos k))%nat
  end.

Lemma known_ok i : i ∈ I -> bid_ok i.
Proof. intros Hi. by apply (proj1 (Forall_forall _ _) HI). Qed.

(** The one fault: the notification timer of a bridge without a root port. *)
Definition net_tcn (e : net_event) (n : network) : Prop := exists k s, e = At k TcnTimer /\ bridges n !! k = Some s /\
  root_port (br s) = 0 /\ expired s (tcn_timer (br s)) = true.

Lemma net_handle_ok k s own i n : net_ok n -> bridges n !! k = Some s -> I !! k = Some own -> valid (nos k) i -> sound known i ->
  (exists n', net_handle k s i n = Ok n' /\ net_ok n') \/
  (i = TcnTimer /\ root_port (br s) = 0 /\ expired s (tcn_timer (br s)) = true /\ net_handle k s i n = Fault NullDeref).
Proof.
  intros Hn E Ei Hv Hs. destruct (no_bridges _ Hn k s own E Ei) as [Hw Hg].
  destruct (handle_safe (nos k) s i Hw Hv) as [(s' & Eh & Hw')|(-> & H1 & H2 & H3)].
  2: { right. unfold net_handle. by rewrite H3. }
  left. unfold net_handle. rewrite Eh. eexists. split; [done|].
  assert (Hg' : genuine known own s').
  { apply (handle_genuine known known_ok own (list_elem_of_lookup_2 _ _ _ Ei) i s Hs Hg s' Eh). }
  split; cbn.
  - rewrite length_insert. apply Hn.
  - intros j t i' Et Ei'. rewrite list_lookup_insert in Et. case_decide as Hd; [|by apply (no_bridges _ Hn)].
    destruct Hd as [<- _]. injection Et as <-. rewrite Ei in Ei'. by injection Ei' as <-.
  - apply Forall_app_2; [apply Hn|]. apply Forall_forall. intros d Hd. apply list_elem_of_omap in Hd as (e & He & Hd).
    destruct e; try done. injection Hd as <-. destruct Hg' as [_ Hev].
    pose proof (Forall_drop _ (length (events s)) _ Hev) as Hev'. by apply (proj1 (Forall_forall _ _) Hev' _ He).
Qed.

Lemma net_step_ok e n : net_ok n -> net_valid e ->
  (exists n', net_step e n = Ok n' /\ net_ok n') \/ (net_tcn e n /\ net_step e n = Fault NullDeref).
Proof.
  intros Hn Hv. assert (Hid : forall k s, bridges n !! k = Some s -> exists i, I !! k = Some i).
  { intros k s E. apply lookup_lt_is_Some_2. rewrite <- (no_length _ Hn). by eapply lookup_lt_Some. }
  destruct e as [k i|k p m pull dest]; cbn [net_step net_valid] in *.
  - destruct (bridges n !! k) as [s|] eqn:E; [|left; by exists n]. destruct (Hid k s E) as [own Ei].
    destruct Hv as [Hv Hk]. destruct (net_handle_ok k s own i n Hn E Ei Hv) as [H|(-> & H1 & H2 & H3)]; [by destruct i|by left|right].
    split; [|done]. by exists k, s.
  - destruct (bridges n !! k) as [s|] eqn:E; [|left; by exists n]. destruct (Hid k s E) as [own Ei].
    destruct (wire n !! m) as [data|] eqn:Em; [|left; by exists n].
    assert (Hsay : says known data) by (apply (proj1 (Forall_lookup _ _) (no_wire _ Hn) m data Em)).
    destruct (net_handle_ok k s own (Receive pull (Some p) dest data) n Hn E Ei) as [H|(? & _)]; [|done|by left|done].
    split; [apply Hsay|]. by intros p' [= <-].
Qed.

Lemma net_run_ok l n : net_ok n -> Forall net_valid l -> (exists n', net_run l n = Ok n' /\ net_ok n') \/
  (exists l1 e l2 n1, l = l1 ++ e :: l2 /\ net_run l1 n = Ok n1 /\ net_tcn e n1 /\ net_run l n = Fault NullDeref).
Proof.
  intros Hn Hl. revert n Hn. induction Hl as [|e l He _ IH]; intros n Hn; [left; by exists n|]. cbn [net_run].
  destruct (net_step_ok e n Hn He) as [(n1 & E & Hn1)|[Ht E]]; rewrite E; cbn [mbind res_bind].
  - destruct (IH n1 Hn1) as [H|(l1 & e' & l2 & n2 & -> & H1 & H2 & H3)]; [by left|right].
    exists (e :: l1), e', l2, n2. cbn [app net_run]. by rewrite E.
  - right. exists [], e, l, n. done.
Qed.

(** What a bridge with the identifier [own] may take for the root. *)
Record elects (own : bid) (s : stp) : Prop := mk_elects {
  el_exists : br_designated_root (br s) ∈ I;
  el_better : bid_val (br_designated_root (br s)) <= bid_val own;
  el_lowest : (forall i, i ∈ I -> bid_val own <= bid_val i) -> br_designated_root (br s) = own /\ root_port (br s) = 0
}.

Lemma net_elects n k s own : net_ok n -> bridges n !! k = Some s -> I !! k = Some own -> elects own s.
Proof.
  intros Hn E Ei. destruct (no_bridges _ Hn k s own E Ei) as [[[Hb _] Hr] [[Hid Hroot _] _]].
  assert (Hle : bid_val (br_designated_root (br s)) <= bid_val own).
  { rewrite <- Hid. destruct Hr as [[_ ->]|[_ Hlt]]; lia. }
  split; [done..|]. intros Hlow. pose proof (Hlow _ Hroot).
  destruct Hr as [[Hp Hr]|[_ Hlt]]; [by rewrite Hr, Hid|rewrite Hid in Hlt; lia].
Qed.

(** C15: through every history of a network of bridges that keep their
    identifiers, with the messages they have sent lost, delayed, repeated,
    reordered and delivered to any port, and with timers, link changes and the
    settings that do not concern identifiers in between, each bridge takes an
    existing bridge for the root, one with an identifier no greater than its
    own, and the one with the lowest identifier takes itself for the root.  The
    only fault on the way is that of the notification timer.  A change of a
    bridge's priority or address is not in these histories: after it, others
    may for a while take an identifier for the root that no bridge has any
    more. *)
Theorem network_elects_root l n : net_ok n -> Forall net_valid l ->
  (exists n', net_run l n = Ok n' /\ net_ok n' /\
     forall k s own, bridges n' !! k = Some s -> I !! k = Some own -> elects own s) \/
  (exists l1 e l2 n1, l = l1 ++ e :: l2 /\ net_run l1 n = Ok n1 /\ net_tcn e n1 /\ net_run l n = Fault NullDeref).
Proof.
  intros Hn Hl. destruct (net_run_ok l n Hn Hl) as [(n' & E & Hn')|H]; [left|by right].
  exists n'. split; [done|]. split; [done|]. intros k s own. by apply net_elects.
Qed.

End Election.

(** ** A better root is taken over *)

Section Adoption.
Context (nos : list Z).
Implicit Types s : stp.

(** The root stays what it is. *)
Definition rooted (r : bid) s : Prop := br_designated_root (br s) = r.

Lemma rooted_transmit r p s : rooted r s -> ends_in (rooted r) (br_transmit_config p s).
Proof.
  intros Hs. unfold br_transmit_config. apply ends_any. intros pt _. case_bool_decide; [by apply ends_Ok|].
  apply ends_any. intros age _. case_match; apply ends_Ok; [|done]. unfold br_send_config_bpdu. by repeat case_match.
Qed.

Lemma rooted_generation r s : rooted r s -> ends_in (rooted r) (br_config_bpdu_generation s).
Proof.
  intros Hs. apply ends_for_ports; [|done]. intros p s' Hs'. apply ends_any. intros pt _.
  case_match; [by apply rooted_transmit|by apply ends_Ok].
Qed.

Lemma rooted_lost r s : rooted r s -> ends_in (rooted r) (lost_root s).
Proof.
  intros Hs. unfold lost_root. case_match; [|by apply ends_Ok]. unfold br_transmit_tcn. apply ends_any. intros s1 E. apply ends_Ok.
  destruct (br_get_port _ _); [|done]. injection E as <-. unfold br_send_tcn_bpdu. by repeat case_match.
Qed.

Lemma rooted_states r s s' : wf nos s -> rooted r s -> br_port_state_selection s = Ok s' -> rooted r s'.
Proof.
  intros Hw Hs E. destruct (br_port_state_selection_spec s (wf_root_ok nos s Hw)) as (s1 & E1 & Hf & _).
  rewrite E in E1. injection E1 as <-. destruct (frame_fields _ _ Hf) as (_ & _ & Hr & _). unfold rooted in *. congruence.
Qed.

(** The selection after a port has recorded a root that beats the bridge. *)
Lemma recorded_root p pt bpdu s s' : wf nos s -> ports (br s) !! p = Some pt -> is_disabled pt = false -> bpdu_wf bpdu ->
  b_bridge_id bpdu <> bridge_id (br s) -> bid_val (b_root bpdu) < bid_val (bridge_id (br s)) ->
  configuration_update (br_record_config_information p bpdu s) = Ok s' ->
  bid_val (br_designated_root (br s')) <= bid_val (b_root bpdu).
Proof.
  intros Hw Hp Hen Hb Hne Hlt E. set (s1 := br_record_config_information p bpdu s) in *.
  assert (Hw1 : wf0 nos s1) by (apply wf0_upd_port; [by apply record_config_keeps|apply Hw]).
  unfold configuration_update in E. destruct (br_configuration_update_spec (br s1) (proj1 Hw1)) as (b1 & b' & _ & Eb & Hsame & Hb' & _ & Hsel & _).
  rewrite Eb in E. cbn in E. injection E as <-. cbn [br set_br].
  assert (Hq : exists q, ports (br s1) !! p = Some q /\ designated_root q = b_root bpdu /\ designated_bridge q = b_bridge_id bpdu /\ is_disabled q = false).
  { cbn. rewrite (alter_insert _ _ _ _ Hp), list_lookup_insert_eq by (by eapply lookup_lt_Some). eexists. split; [done|]. done. }
  destruct Hq as (q & Hq & Hroot & Hbr & Hd). rewrite <- Hroot.
  assert (Hid : bridge_id b' = bridge_id (br s)).
  { rewrite Hb'. destruct (same_but_root_ports _ _ Hsame) as [_ Hi]. rewrite <- (eq_refl : bridge_id (br s1) = bridge_id (br s)). exact Hi. }
  destruct (root_selected_le (br s1) b' q (proj1 Hw1) Hsel) as [H|H]; [exact Hid|by apply list_elem_of_In, (list_elem_of_lookup_2 _ p)|done|done|].
  exfalso. apply andb_true_iff in H as [H _]. apply Z.eqb_eq in H. rewrite Hbr, Hid in H.
  destruct Hb as (_ & Hb & _). apply memcmp_bid_eq in H; [done|done|]. apply Hw.
Qed.

Lemma received_root p pt bpdu s s' : wf nos s -> (p < length nos)%nat -> ports (br s) !! p = Some pt -> is_disabled pt = false -> bpdu_wf bpdu ->
  b_bridge_id bpdu <> bridge_id (br s) -> bid_val (b_root bpdu) < bid_val (bridge_id (br s)) ->
  br_supersedes_port_info (br s) pt bpdu = true -> br_received_config_bpdu p bpdu s = Ok s' ->
  bid_val (br_designated_root (br s')) <= bid_val (b_root bpdu).
Proof.
  intros Hw Hlt Hp Hen Hb Hne Hv Hsup E. unfold br_received_config_bpdu, port_at in E. rewrite Hp in E. cbn [of_option mbind res_bind] in E. rewrite Hsup in E.
  binds E s1 E1. pose proof (recorded_root p pt bpdu s s1 Hw Hp Hen Hb Hne Hv E1) as Hle.
  destruct (configuration_update_safe nos (br_record_config_information p bpdu s)) as (s1' & E1' & Hw1).
  { apply wf0_upd_port; [by apply record_config_keeps|apply Hw]. }
  rewrite E1 in E1'. injection E1' as <-. binds E s2 E2. pose proof (rooted_states _ s1 s2 Hw1 eq_refl E2) as H2.
  binds E s3 E3. assert (H3 : rooted (br_designated_root (br s1)) s3).
  { revert E3. case_match; [by apply rooted_lost|by intros [= <-]]. }
  binds E pt' E4. assert (H5 : rooted (br_designated_root (br s1)) s'); [|by rewrite H5].
  destruct (_ =? _); [|by injection E as <-]. unfold root_port_update in E. binds E s4 E5. injection E as <-.
  assert (H4 : rooted (br_designated_root (br s1)) s4) by (by eapply rooted_generation; [|exact E5]). by destruct (b_topology_change_ack bpdu).
Qed.

(** A packet the bridge [b] takes for a configuration message. *)
Definition accepted (b : net_bridge) (dest pkt : list Z) : Prop :=
  35 <= zlen pkt /\ take 4 pkt = [0; 0; 0; BPDU_TYPE_CONFIG] /\ dest = group_addr b /\
  stp_enabled b = BR_KERNEL_STP /\ dev_up b = true /\
  let bpdu := bpdu_of (drop 3 pkt) in b_message_age bpdu <= b_max_age bpdu.

Lemma rcv_accepted p pt dest pkt s : ports (br s) !! p = Some pt -> is_disabled pt = false -> accepted (br s) dest pkt ->
  br_stp_rcv true (Some p) dest pkt s = br_received_config_bpdu p (bpdu_of (drop 3 pkt)) s.
Proof.
  intros Hp Hen (Hl & Hh & -> & Hk & Hu & Hage). rewrite br_stp_rcv_total. unfold rcv_total.
  destruct pkt as [|a [|b [|c [|d pkt]]]]; try done. cbn in Hh. injection Hh as -> -> -> ->.
  assert (H4 : 4 <= zlen (0 :: 0 :: 0 :: BPDU_TYPE_CONFIG :: pkt)) by lia.
  assert (H32 : 32 <= zlen (drop 3 (0 :: 0 :: 0 :: BPDU_TYPE_CONFIG :: pkt))) by (cbn [drop]; unfold zlen in *; cbn [length] in *; lia).
  rewrite (proj2 (Z.leb_le _ _) H4). cbn [negb andb]. unfold port_at. rewrite Hp.
  cbn [nth]. cbn [of_option mbind res_bind nonzero].
  rewrite Hk, Hu, Hen. rewrite bool_decide_eq_true_2 by done. unfold compare_ether_addr. rewrite bool_decide_eq_true_2 by done.
  rewrite (proj2 (Z.leb_le _ _) H32). rewrite (proj2 (Z.ltb_ge _ _) Hage). done.
Qed.

(** A bridge that hears, on an enabled port, a configuration message from
    another bridge about the lowest root there is, and takes it for better
    than what the port had recorded, has that root from then on. *)
Theorem lowest_root_is_adopted I own p pt dest pkt s : Forall bid_ok I -> own ∈ I -> wf nos s -> genuine (fun i => i ∈ I) own s ->
  says (fun i => i ∈ I) pkt -> ports (br s) !! p = Some pt -> is_disabled pt = false -> accepted (br s) dest pkt ->
  let bpdu := bpdu_of (drop 3 pkt) in
  b_bridge_id bpdu <> own -> b_root bpdu <> own -> (forall i, i ∈ I -> bid_val (b_root bpdu) <= bid_val i) ->
  br_supersedes_port_info (br s) pt bpdu = true ->
  exists s', br_stp_rcv true (Some p) dest pkt s = Ok s' /\ wf nos s' /\ br_designated_root (br s') = b_root bpdu.
Proof.
  intros HI Hown Hw Hg Hsay Hp Hen Hacc bpdu Hne Hnr Hlow Hsup. pose proof Hg as [[Hid _ _] _].
  assert (Hlt : (p < length nos)%nat).
  { apply lookup_lt_Some in Hp. destruct Hw as [[_ <-] _]. by rewrite length_map. }
  destruct (stp_rcv_safe nos true (Some p) dest pkt s) as (s' & E & Hw'); [done|apply Hsay|by intros q [= <-]|].
  exists s'. split; [done|]. split; [done|].
  assert (Hok : forall i, i ∈ I -> bid_ok i) by (intros i Hi; by apply (proj1 (Forall_forall _ _) HI)).
  pose proof (rcv_genuine _ Hok own Hown true (Some p) dest pkt s Hsay Hg s' E) as [[_ Hroot _] _].
  rewrite (rcv_accepted p pt dest pkt s Hp Hen Hacc) in E. fold bpdu in E.
  assert (Hbw : bpdu_wf bpdu) by (apply bpdu_of_wf, Forall_drop, Hsay). destruct Hbw as (Hb1 & Hb2 & Hb3).
  assert (Hval : bid_val (b_root bpdu) < bid_val (bridge_id (br s))).
  { rewrite Hid. pose proof (Hlow own Hown). assert (bid_val (b_root bpdu) <> bid_val own); [|lia]. rewrite bid_val_eq by auto. done. }
  pose proof (received_root p pt bpdu s s' Hw Hlt Hp Hen (conj Hb1 (conj Hb2 Hb3)) ltac:(by rewrite Hid) Hval Hsup E) as Hle.
  apply bid_val_eq; [by apply Hok|done|]. pose proof (Hlow _ Hroot). lia.
Qed.

End Adoption.

(** ** A message that names its receiver

    [br_received_config_bpdu] takes a message with the bridge's own identifier
    and the number of the port it arrives on for the port's own information, so
    that the port is no way to the root any more. *)

Section Spoofed.
Context (nos : list Z).
Implicit Types s : stp.

(** The bridge is the root, and its timer of notifications stands at [t]. *)
Definition root_with (t : timer) s : Prop := br_is_root_bridge (br s) = true /\ tcn_timer (br s) = t.

Lemma root_with_port t p f s : root_with t s -> root_with t (upd_port p f s).
Proof. done. Qed.

Lemma root_with_notify t p s : root_with t s -> ends_in (root_with t) (notify_port p s).
Proof. intros Hs. unfold notify_port. apply ends_any. intros pt _. by apply ends_Ok. Qed.

Lemma root_with_detection t s : root_with t s -> ends_in (root_with t) (br_topology_change_detection s).
Proof.
  intros Hs. unfold br_topology_change_detection. case_match; [by apply ends_Ok|]. rewrite (proj1 Hs). cbn [mbind res_bind].
  by apply ends_Ok.
Qed.

Lemma root_with_blocking t p s : root_with t s -> ends_in (root_with t) (br_make_blocking p s).
Proof.
  intros Hs. unfold br_make_blocking. apply ends_any. intros pt _.
  assert (Htail : forall s1, root_with t s1 -> ends_in (root_with t) (s2 ← notify_port p (upd_port p (set_state BLOCKING) s1);
    Ok (upd_port p (set_forward_delay_timer None) s2))).
  { intros s1 H1. apply (ends_bind (root_with t)); [by apply root_with_notify|]. intros s2 H2. by apply ends_Ok. }
  destruct (state pt); try by apply ends_Ok.
  - apply (ends_bind (root_with t)); [by apply ends_Ok|done].
  - apply (ends_bind (root_with t)); [by apply root_with_detection|done].
  - apply (ends_bind (root_with t)); [by apply root_with_detection|done].
Qed.

Lemma root_with_forwarding t p s : root_with t s -> ends_in (root_with t) (br_make_forwarding p s).
Proof.
  intros Hs. unfold br_make_forwarding. apply ends_any. intros pt _. case_match; [by apply ends_Ok|].
  apply (ends_bind (root_with t)).
  - case_match; [|case_match; by apply ends_Ok].
    apply (ends_bind (root_with t)); [by apply root_with_detection|]. intros s1 H1. by apply ends_Ok.
  - intros s1 H1. apply (ends_bind (root_with t)); [by apply root_with_notify|]. intros s2 H2. case_match; by apply ends_Ok.
Qed.

Lemma root_with_states t s : root_with t s -> ends_in (root_with t) (br_port_state_selection s).
Proof.
  intros Hs. unfold br_port_state_selection. apply (ends_bind (fun x => root_with t (fst x))); [|intros [s1 n] H1; by apply ends_Ok].
  apply ends_for_ports; [|done]. intros p [s1 n] H1. cbn in H1. apply ends_any. intros pt _. case_match; [by apply ends_Ok|].
  apply (ends_bind (root_with t)); [|intros s2 H2; apply ends_any; intros; by apply ends_Ok].
  unfold select_port_state. apply ends_any. intros pt' _. repeat case_match; [by apply ends_Ok|..];
    first [by apply root_with_forwarding|by apply root_with_blocking].
Qed.

(** The selection after the message: the port that got it is designated. *)
Lemma spoofed_selection p pt bpdu s : wf nos s -> ports (br s) !! p = Some pt -> bpdu_wf bpdu ->
  b_bridge_id bpdu = bridge_id (br s) -> b_port_id bpdu = port_id pt ->
  (forall q qt, q <> p -> ports (br s) !! q = Some qt -> candidate (br s) qt = false) ->
  exists s1, configuration_update (br_record_config_information p bpdu s) = Ok s1 /\ wf nos s1 /\
    root_port (br s1) = 0 /\ root_with (tcn_timer (br s)) s1.
Proof.
  intros Hw Hp Hb Hid Hno Hoth. set (s0 := br_record_config_information p bpdu s).
  assert (Hw0 : wf0 nos s0) by (apply wf0_upd_port; [by apply record_config_keeps|apply Hw]).
  destruct (configuration_update_safe nos s0 Hw0) as (s1 & E1 & Hw1). exists s1. split; [done|]. split; [done|].
  unfold configuration_update in E1. destruct (br_configuration_update_spec (br s0) (proj1 Hw0)) as (b1 & b' & _ & Eb & Hsame & Hb' & _ & Hsel & _).
  rewrite Eb in E1. cbn in E1. injection E1 as <-. unfold root_with. cbn [br set_br].
  assert (Hbid : bid_ok (bridge_id (br s))) by apply Hw.
  assert (Hcand : forall q, In q (ports (br s0)) -> candidate (br s0) q = false).
  { intros q [k Hk]%list_elem_of_In%list_elem_of_lookup. cbn in Hk. destruct (decide (k = p)) as [->|Hne].
    - rewrite list_lookup_alter_eq, Hp in Hk. injection Hk as <-. unfold candidate, br_is_designated_port.
      cbn [designated_bridge designated_port port_id set_message_age_timer set_designated_age set_designated_port
        set_designated_bridge set_designated_cost set_designated_root].
      change (bridge_id (br s0)) with (bridge_id (br s)).
      rewrite Hid, Hno, (proj2 (memcmp_bid_eq _ _ Hbid Hbid) eq_refl), !Z.eqb_refl. cbn [andb negb]. by rewrite andb_false_r.
    - rewrite list_lookup_alter_ne in Hk by done. exact (Hoth k q Hne Hk). }
  destruct Hsel as [(Hrp & Hroot & _)|(q & Hq & Hcq & _)]; [|by rewrite Hcand in Hcq].
  assert (Hid' : bridge_id b' = bridge_id (br s)).
  { rewrite Hb'. destruct (same_but_root_ports _ _ Hsame) as [_ Hi]. exact Hi. }
  split; [done|]. split.
  - unfold br_is_root_bridge. rewrite Hroot, Hid'. apply Z.eqb_eq, memcmp_bid_eq; done.
  - rewrite Hb'. cbn. by rewrite Hsame.
Qed.

(** C38: a bridge whose timer of notifications runs crashes on a forged message.
    Let a configuration message arrive at an enabled port that carries the
    identifier of the receiving bridge and of that port as its sender and
    supersedes what the port had recorded, and let no other port lead to a
    better root.  The bridge becomes the root without [br_become_root_bridge],
    which would have stopped the timer; and when the timer expires,
    [br_transmit_tcn] follows a null pointer. *)
Theorem spoofed_bpdu_null_dereference p pt dest pkt s d n : wf nos s -> bytes pkt ->
  ports (br s) !! p = Some pt -> is_disabled pt = false -> accepted (br s) dest pkt ->
  let bpdu := bpdu_of (drop 3 pkt) in
  b_bridge_id bpdu = bridge_id (br s) -> b_port_id bpdu = port_id pt -> br_supersedes_port_info (br s) pt bpdu = true ->
  (forall q qt, q <> p -> ports (br s) !! q = Some qt -> candidate (br s) qt = false) ->
  tcn_timer (br s) = Some d -> 0 <= s32 (u32 (jiffies s + n) - d) ->
  run [Receive true (Some p) dest pkt; Tick n; TcnTimer] s = Fault NullDeref.
Proof.
  intros Hw Hpkt Hp Hen Hacc bpdu Hid Hno Hsup Hoth Ht Hexp.
  assert (Hb : bpdu_wf bpdu) by by apply bpdu_of_wf, Forall_drop.
  destruct (spoofed_selection p pt bpdu s Hw Hp Hb Hid Hno Hoth) as (s1 & E1 & Hw1 & Hrp1 & Hr1).
  destruct (br_port_state_selection_spec s1 (wf_root_ok nos s1 Hw1)) as (s2 & E2 & Hf & _).
  destruct (root_with_states _ s1 Hr1 s2 E2) as [Hr2 Ht2]. rewrite Ht in Ht2.
  destruct (port_state_selection_safe nos s1 Hw1) as (s2' & E2' & Hw2). rewrite E2 in E2'. injection E2' as <-.
  destruct (frame_fields _ _ Hf) as (Hj2 & _ & _ & _ & Hrp2 & _ & _ & _ & Hup2). rewrite Hrp1 in Hrp2.
  assert (Hfix : jiffies s1 = jiffies s /\ dev_up (br s1) = true).
  { unfold configuration_update in E1. destruct (br_configuration_update_spec (br (br_record_config_information p bpdu s)))
      as (b1 & b' & _ & Eb & Hsame & Hb' & _).
    { apply (wf0_upd_port nos); [by apply record_config_keeps|apply Hw]. }
    rewrite Eb in E1. cbn in E1. injection E1 as <-. split; [done|]. cbn [br set_br]. rewrite Hb'. cbn. rewrite Hsame.
    apply Hacc. }
  destruct Hfix as [Hj1 Hup1]. rewrite Hup1 in Hup2. rewrite Hj1 in Hj2.
  assert (Hlt : (p < length nos)%nat) by (apply lookup_lt_Some in Hp; destruct Hw as [[_ <-] _]; by rewrite length_map).
  destruct (port_at_ok nos p s2 (proj1 Hw2) Hlt) as (pt2 & Ept & Hpt2).
  assert (Hrcv : br_stp_rcv true (Some p) dest pkt s = Ok s2).
  { rewrite (rcv_accepted p pt dest pkt s Hp Hen Hacc). fold bpdu. unfold br_received_config_bpdu.
    assert (Epa : port_at s p = Ok pt) by (unfold port_at; by rewrite Hp). rewrite Epa. cbn [mbind res_bind]. rewrite Hsup, E1. cbn [mbind res_bind]. rewrite E2. cbn [mbind res_bind].
    rewrite Hr2. cbn [negb andb mbind res_bind]. rewrite Ept. cbn [mbind res_bind]. rewrite Hrp2.
    assert (Hne : 1 <= port_no pt2) by apply Hpt2. by rewrite (proj2 (Z.eqb_neq _ _)) by lia. }
  cbn [run handle]. rewrite Hrcv. cbn [mbind res_bind]. set (s3 := mk_stp (br s2) _ _ _).
  assert (He : expired s3 (tcn_timer (br s3)) = true).
  { cbn. rewrite Ht2. unfold expired. cbn. rewrite Hj2. by apply Z.leb_le. }
  rewrite He. assert (Hw3 : wf nos (upd (set_tcn_timer None) s3)) by (apply (wf_upd nos); done).
  destruct (tcn_timer_safe nos _ Hw3) as [(s4 & E4 & _)|(_ & _ & ->)]; [|done]. exfalso.
  unfold br_tcn_timer_expired in E4. cbn [br upd set_br s3] in E4. change (dev_up (set_tcn_timer None (br s2))) with (dev_up (br s2)) in E4.
  rewrite Hup2 in E4. unfold br_transmit_tcn in E4. cbn [br upd set_br s3] in E4.
  change (root_port (set_tcn_timer None (br s2))) with (root_port (br s2)) in E4. rewrite Hrp2 in E4.
  destruct (br_get_port _ 0) as [q|] eqn:Eq; [|done]. apply br_get_port_Some in Eq as [Hin Eq].
  assert (H := po_no q (bo_port _ q (proj1 (proj1 Hw2)) Hin)). lia.
Qed.

End Spoofed.

(** ** Example *)

(** Three new bridges with two ports each, as [fresh]. *)
Definition new_bridge (n : Z) : stp :=
  let port no := ex_port no DISABLED (ex_id n) (ex_id n) 0 (32768 + no) in
  mk_stp
    (mk_br (ex_id n) (ex_id n) 0 0 20000 2000 15000 20000 2000 15000 BR_KERNEL_STP false false
       None None None None group true [0; 0; 0; 0; 0; n] true false [port 1; port 2]) 1000 0 [].

Definition new_net : network := mk_network [new_bridge 3; new_bridge 7; new_bridge 5] [].
Definition new_ids : list bid := [ex_id 3; ex_id 7; ex_id 5].

Lemma new_ids_ok : Forall bid_ok new_ids.
Proof. repeat (constructor; [apply ex_id_ok; unfold is_u8; lia|]). constructor. Qed.

Lemma new_bridge_ok n : is_u8 n -> ex_id n ∈ new_ids -> wf [1; 2] (new_bridge n) /\ genuine (fun i => i ∈ new_ids) (ex_id n) (new_bridge n).
Proof.
  intros Hn Hin. pose proof (ex_id_ok n Hn) as Hi. split.
  - split; [|by left]. split; [|done]. constructor; try done.
    + repeat first [apply List.Forall_nil | apply List.Forall_cons; [apply ex_port_ok; try done; unfold is_u16, is_u32; lia|]].
    + apply (bool_decide_unpack (NoDup [1; 2])). by vm_compute.
  - split; [|constructor]. split; [done|done|]. by repeat (apply Forall_cons_2; [done|]).
Qed.

Lemma new_net_ok : net_ok new_ids (fun _ => [1; 2]) new_net.
Proof.
  split; [done| |constructor]. intros k s i E Ei. cbn in E, Ei.
  do 3 (destruct k as [|k]; [injection E as <-; injection Ei as <-; apply new_bridge_ok; [unfold is_u8; lia|apply (bool_decide_unpack _); by vm_compute]|]). done.
Qed.

(** The ports come up; the bridges 7 and 3 send; bridge 5 hears from 7 first,
    then from 3, and in the end again what 7 said. *)
Definition talk : list net_event :=
  [At 0 (EnablePort 0); At 1 (EnablePort 0); At 2 (EnablePort 0); At 2 (EnablePort 1);
   At 1 EnableBridge; At 0 EnableBridge;
   Deliver 2 1 0 true group; Deliver 2 0 1 true group; Deliver 1 0 1 true group; Deliver 2 1 0 true group].

Definition roots (n : network) : list Z := map (fun s => bid_val (br_designated_root (br s)) mod 256) (bridges n).

Lemma talk_valid : Forall (net_valid (fun _ => [1; 2])) talk.
Proof. repeat (constructor; [first [done|split; [cbn; lia|done]|cbn; lia]|]). constructor. Qed.

Lemma network_elects_root_witness :
  ((exists n', net_run talk new_net = Ok n' /\ net_ok new_ids (fun _ => [1; 2]) n' /\
     forall k s own, bridges n' !! k = Some s -> new_ids !! k = Some own -> elects new_ids own s) \/
   (exists l1 e l2 n1, talk = l1 ++ e :: l2 /\ net_run l1 new_net = Ok n1 /\ net_tcn e n1 /\ net_run talk new_net = Fault NullDeref)) /\
  match net_run talk new_net with Ok n' => roots n' = [3; 3; 3] | Fault _ => False end.
Proof.
  split; [|by vm_compute].
  apply (network_elects_root new_ids new_ids_ok (fun _ => [1; 2]) talk new_net); [exact new_net_ok|exact talk_valid].
Defined.

(** Bridge 5 when 7 and 3 have sent and nothing has arrived. *)
Definition met : network := Eval vm_compute in
  match net_run (take 6 talk) new_net with Ok n => n | Fault _ => new_net end.

Lemma met_ok : net_ok new_ids (fun _ => [1; 2]) met.
Proof.
  assert (Hv : Forall (net_valid (fun _ => [1; 2])) (take 6 talk)) by (apply Forall_take, talk_valid).
  assert (E : net_run (take 6 talk) new_net = Ok met) by (vm_compute; reflexivity).
  destruct (net_run_ok new_ids new_ids_ok (fun _ => [1; 2]) (take 6 talk) new_net new_net_ok Hv) as [(n' & E' & H)|(? & ? & ? & ? & _ & _ & _ & E')];
    rewrite E in E'; [by injection E' as <-|done].
Qed.

Definition bridge5 : stp := nth 2 (bridges met) (new_bridge 5).
Definition hello3 : list Z := nth 1 (wire met) [].

Lemma lowest_root_is_adopted_witness :
  exists s', br_stp_rcv true (Some 0%nat) group hello3 bridge5 = Ok s' /\ wf [1; 2] s' /\ br_designated_root (br s') = ex_id 3.
Proof.
  destruct (no_bridges _ _ _ met_ok 2 bridge5 (ex_id 5)) as [Hw Hg]; [reflexivity..|].
  apply (lowest_root_is_adopted [1; 2] new_ids (ex_id 5) 0 (nth 0 (ports (br bridge5)) (fresh_port 1)) group hello3 bridge5);
    try done.
  - exact new_ids_ok.
  - apply (bool_decide_unpack _). by vm_compute.
  - by apply (proj1 (Forall_lookup _ _) (no_wire _ _ _ met_ok) 1%nat).
  - intros i Hi. apply elem_of_cons in Hi as [->|[->|[->|Hi%elem_of_nil]%elem_of_cons]%elem_of_cons]; [..|done]; by vm_compute.
Defined.

(** The bridge of [normal_start] gets the forged message of [spoofed], and two
    seconds later its timer expires. *)
Definition started : stp := Eval vm_compute in
  match run normal_start StpSafety.fresh with Ok s => s | Fault _ => StpSafety.fresh end.
Definition forged : list Z := bpdu_packet (ex_id 0) (ex_id 5) 0 32769.

Lemma started_wf : wf [1; 2] started.
Proof.
  assert (E : run normal_start StpSafety.fresh = Ok started) by (vm_compute; reflexivity).
  destruct (run_safe [1; 2] normal_start StpSafety.fresh fresh_wf (proj1 (proj1 (Forall_app _ _ _) valid_start)))
    as [(s' & E' & H)|(? & ? & ? & _ & _ & _ & _ & _ & E')]; rewrite E in E'; [by injection E' as <-|done].
Qed.

Lemma spoofed_bpdu_null_dereference_witness :
  run [Receive true (Some 0%nat) group forged; Tick 2000; TcnTimer] started = Fault NullDeref.
Proof.
  destruct (tcn_timer (br started)) as [d|] eqn:Ed; [|discriminate Ed].
  apply (spoofed_bpdu_null_dereference [1; 2] 0 (nth 0 (ports (br started)) (fresh_port 1)) group forged started d 2000).
  - exact started_wf.
  - apply bytes_dec. vm_compute. reflexivity.
  - reflexivity.
  - reflexivity.
  - vm_compute. intuition congruence.
  - vm_compute. reflexivity.
  - vm_compute. reflexivity.
  - vm_compute. reflexivity.
  - intros [|[|q]] qt Hq; [done| |done]. intros [= <-]. vm_compute. reflexivity.
  - exact Ed.
  - injection Ed as <-. vm_compute. discriminate.
Defined.
