(* ===== verification/Fdb.v ===== *)
(** The forwarding database of the bridge: net/bridge/br_fdb.c, with the hash
    of include/linux/jhash.h and the address tests of
    include/linux/etherdevice.h, as the kernel is configured (Broadcom static
    entries and the entry limit on, accelerator hooks through the blog layer,
    no VLAN aggregation and no fast-path driver).

    The table is the array of hash chains of [struct net_bridge]; a pointer to
    an entry is its chain and its position there.  The ports and their states
    are those of the spanning tree model.  Notifications to user space are a
    trace; what they dereference is checked. *)

From S2P Require Import Prelude Str Stp.

(** ** Data *)

Definition BR_HASH_SIZE : Z := Z.shiftl 1 8.
Definition BR_MAX_FDB_ENTRIES : Z := 4096.
Definition BLOG_KEY_NONE : Z := 0.
Definition ETH_ALEN : Z := 6.

(** [struct net_bridge_fdb_entry]. *)
Record fdb_entry : Type := mk_entry {
  f_addr : list Z;
  dst : option nat;
  updated : Z;
  used : Z;
  is_local : bool;
  is_static : bool;
  fdb_key : Z
}.

Inductive rtm : Type :=
  | RTM_NEWNEIGH
  | RTM_DELNEIGH.

(** Calls out of the database: netlink messages with the neighbour state they
    carry, the switch driver told that an address moved, the accelerator told
    to drop its flows for an entry. *)
Inductive note : Type :=
  | Notify (type : rtm) (addr : list Z) (nud : Z)
  | ClearArl (addr : list Z)
  | DestroyFlows (addr : list Z).

(** The members of [struct net_bridge] the database uses. *)
Record fdb : Type := mk_fdb {
  stp_of : stp;
  hash : list (list fdb_entry);
  num_fdb_entries : Z;
  ageing_time : Z;
  notes : list note
}.

Definition set_stp_of (v : stp) (t : fdb) : fdb :=
  mk_fdb v (hash t) (num_fdb_entries t) (ageing_time t) (notes t).
Definition set_hash (v : list (list fdb_entry)) (t : fdb) : fdb :=
  mk_fdb (stp_of t) v (num_fdb_entries t) (ageing_time t) (notes t).
Definition set_num (v : Z) (t : fdb) : fdb :=
  mk_fdb (stp_of t) (hash t) v (ageing_time t) (notes t).
Definition set_notes (v : list note) (t : fdb) : fdb :=
  mk_fdb (stp_of t) (hash t) (num_fdb_entries t) (ageing_time t) v.

Definition set_dst (v : option nat) (f : fdb_entry) : fdb_entry :=
  mk_entry (f_addr f) v (updated f) (used f) (is_local f) (is_static f) (fdb_key f).
Definition set_updated (v : Z) (f : fdb_entry) : fdb_entry :=
  mk_entry (f_addr f) (dst f) v (used f) (is_local f) (is_static f) (fdb_key f).
Definition set_kind (local static : bool) (f : fdb_entry) : fdb_entry :=
  mk_entry (f_addr f) (dst f) (updated f) (used f) local static (fdb_key f).
Definition set_used (v : Z) (f : fdb_entry) : fdb_entry :=
  mk_entry (f_addr f) (dst f) (updated f) v (is_local f) (is_static f) (fdb_key f).
Definition set_fdb_key (v : Z) (f : fdb_entry) : fdb_entry :=
  mk_entry (f_addr f) (dst f) (updated f) (used f) (is_local f) (is_static f) v.

Definition set_p_dev_addr (v : list Z) (p : net_bridge_port) : net_bridge_port :=
  mk_port (port_no p) (priority p) (port_id p) (state p) (path_cost p)
    (topology_change_ack p) (config_pending p) (designated_root p) (designated_cost p)
    (designated_bridge p) (designated_port p) (designated_age p) (forward_delay_timer p)
    (hold_timer p) (message_age_timer p) (is_dedicated_stp_port p) (is_bpdu_blocked p) v
    (p_dev_up p) (p_carrier p).
Definition set_BR_SET_MAC_ADDR (v : bool) (b : net_bridge) : net_bridge :=
  mk_br (bridge_id b) (br_designated_root b) (root_path_cost b) (root_port b) (max_age b)
    (hello_time b) (forward_delay b) (bridge_max_age b) (bridge_hello_time b)
    (bridge_forward_delay b) (stp_enabled b) (topology_change b) (topology_change_detected b)
    (hello_timer b) (tcn_timer b) (topology_change_timer b) (gc_timer b) (group_addr b) v
    (dev_addr b) (dev_up b) (carrier b) (ports b).

(** What the operations take from outside: the random salt, the outcome of
    [kmem_cache_alloc], [nlmsg_new] and [net_ratelimit], the time stamp that
    the hook behind [blog_query] leaves in an entry, the key that the hook
    behind [blog_notify] leaves in it, and whether one of the wireless drivers
    knows the station to be alive. *)
Record fdb_env : Type := mk_fdb_env {
  fdb_salt : Z;
  kmem_cache_alloc : bool;
  nlmsg_new : bool;
  net_ratelimit : bool;
  blog_query : fdb_entry -> Z;
  blog_destroy : fdb_entry -> Z;
  wl_alive : list Z -> bool
}.

(** ** Hashing *)

Definition rol32 (w s : Z) : Z := u32 (Z.lor (Z.shiftl w s) (Z.shiftr w (32 - s))).

Definition JHASH_INITVAL : Z := 0xdeadbeef.

Definition jhash_final (a b c : Z) : Z :=
  let c := u32 (Z.lxor c b - rol32 b 14) in
  let a := u32 (Z.lxor a c - rol32 c 11) in
  let b := u32 (Z.lxor b a - rol32 a 25) in
  let c := u32 (Z.lxor c b - rol32 b 16) in
  let a := u32 (Z.lxor a c - rol32 c 4) in
  let b := u32 (Z.lxor b a - rol32 a 14) in
  u32 (Z.lxor c b - rol32 b 24).

Definition jhash_3words (a b c initval : Z) : Z :=
  jhash_final (u32 (a + JHASH_INITVAL)) (u32 (b + JHASH_INITVAL)) (u32 (c + initval)).

Definition jhash_1word (a initval : Z) : Z := jhash_3words a 0 0 initval.

(** ** Address tests *)

Definition byte_of (a : list Z) (i : nat) : Z := nth i a 0.

Definition is_zero_ether_addr (a : list Z) : bool :=
  Z.lor (Z.lor (Z.lor (Z.lor (Z.lor (byte_of a 0) (byte_of a 1)) (byte_of a 2)) (byte_of a 3))
    (byte_of a 4)) (byte_of a 5) =? 0.

Definition is_multicast_ether_addr (a : list Z) : bool := nonzero (Z.land 0x01 (byte_of a 0)).

Definition is_valid_ether_addr (a : list Z) : bool :=
  negb (is_multicast_ether_addr a) && negb (is_zero_ether_addr a).

Section Ops.
Context (env : fdb_env).

(** The little-endian word at [mac + 2]. *)
Definition br_mac_hash (mac : list Z) : nat :=
  let key := byte_of mac 2 + 256 * (byte_of mac 3 + 256 * (byte_of mac 4 + 256 * byte_of mac 5)) in
  Z.to_nat (Z.land (jhash_1word key (fdb_salt env)) (BR_HASH_SIZE - 1)).

(** ** Ageing *)

Definition now (t : fdb) : Z := jiffies (stp_of t).
Definition time_before_eq (a b : Z) : bool := 0 <=? s32 (b - a).
Definition time_before (a b : Z) : bool := s32 (a - b) <? 0.

Definition hold_time (t : fdb) : Z :=
  if topology_change (br (stp_of t)) then 15 * HZ else ageing_time t.

(** The query of the accelerator, which refreshes the entry. *)
Definition refresh (f : fdb_entry) : fdb_entry :=
  if fdb_key f =? BLOG_KEY_NONE then f else set_updated (blog_query env f) f.

(** [has_expired], of a refreshed entry. *)
Definition has_expired (t : fdb) (f : fdb_entry) : bool :=
  negb (is_static f) && time_before_eq (u32 (updated f + hold_time t)) (now t).

(** ** Notification *)

Definition NUD_REACHABLE : Z := 0x02.
Definition NUD_STALE : Z := 0x04.
Definition NUD_NOARP : Z := 0x40.
Definition NUD_PERMANENT : Z := 0x80.

(** [fdb_to_nud] reads the bridge through the port of the entry. *)
Definition fdb_to_nud (t : fdb) (f : fdb_entry) : res Z :=
  if is_local f then Ok NUD_PERMANENT
  else if is_static f then Ok NUD_NOARP
  else
    match dst f with
    | None => Fault NullDeref
    | Some _ => Ok (if has_expired t (refresh f) then NUD_STALE else NUD_REACHABLE)
    end.

(** The entry after [fdb_to_nud], which queries the accelerator for a dynamic
    entry, and after [fdb_fill_info], which queries it once more. *)
Definition nud_refresh (f : fdb_entry) : fdb_entry :=
  if is_local f || is_static f then f else refresh f.
Definition fill_refresh (f : fdb_entry) : fdb_entry := refresh (nud_refresh f).

Definition add_note (n : note) (t : fdb) : fdb := set_notes (notes t ++ [n]) t.

(** [fdb_notify]: the message, if there is memory for it, is filled in by
    [fdb_fill_info].  Also the entry afterwards. *)
Definition fdb_notify (t : fdb) (f : fdb_entry) (type : rtm) : res (fdb_entry * fdb) :=
  if negb (nlmsg_new env) then Ok (f, t)
  else
    nud ← fdb_to_nud t f;
    Ok (fill_refresh f, add_note (Notify type (f_addr f) nud) t).

(** ** Chains *)

Definition chain (t : fdb) (i : nat) : list fdb_entry := nth i (hash t) [].
Definition set_chain (i : nat) (l : list fdb_entry) (t : fdb) : fdb :=
  set_hash (<[i := l]> (hash t)) t.

(** [fdb_find]: the position of the first entry for [addr]. *)
Fixpoint fdb_find (l : list fdb_entry) (addr : list Z) : option nat :=
  match l with
  | [] => None
  | f :: l =>
      if negb (compare_ether_addr (f_addr f) addr) then Some O else S <$> fdb_find l addr
  end.

(** [blog_notify(DESTROY_BRIDGEFDB, ...)] of an entry that has a key. *)
Definition destroy_flows (f : fdb_entry) (t : fdb) : fdb :=
  if fdb_key f =? BLOG_KEY_NONE then t else add_note (DestroyFlows (f_addr f)) t.

(** The part of [fdb_delete] besides the unlinking from the chain. *)
Definition delete_effects (t : fdb) (f : fdb_entry) : res fdb :=
  '(f, t) ← fdb_notify (set_num (num_fdb_entries t - 1) t) f RTM_DELNEIGH;
  Ok (destroy_flows f t).

Definition fdb_delete (t : fdb) (i j : nat) : res fdb :=
  f ← of_option NullDeref (chain t i !! j);
  delete_effects (set_chain i (delete j (chain t i)) t) f.

(** [fdb_create]: the new entry is the head of chain [i]; [false] if there is
    none. *)
Definition fdb_create (t : fdb) (i : nat) (source : option nat) (addr : list Z)
    (local static : bool) : bool * fdb :=
  if BR_MAX_FDB_ENTRIES <=? num_fdb_entries t then (false, t)
  else if (hold_time t =? 0) && negb static then (false, t)
  else if negb (kmem_cache_alloc env) then (false, t)
  else
    let f := mk_entry addr source (now t) (now t) local static BLOG_KEY_NONE in
    (true, set_chain i (f :: chain t i) (set_num (num_fdb_entries t + 1) t)).

(** [fdb_notify] of the entry that [fdb_create] has put at the head of chain
    [i]. *)
Definition notify_new (t : fdb) (i : nat) : res fdb :=
  f ← of_option NullDeref (chain t i !! 0%nat);
  '(f, t) ← fdb_notify t f RTM_NEWNEIGH;
  Ok (set_chain i (<[0%nat := f]> (chain t i)) t).

(** Walking a chain where the body may change the current entry or delete it
    ([None]). *)
Fixpoint walk (body : fdb -> fdb_entry -> res (option fdb_entry * fdb)) (l : list fdb_entry)
    (t : fdb) : res (list fdb_entry * fdb) :=
  match l with
  | [] => Ok ([], t)
  | f :: l =>
      '(o, t) ← body t f;
      '(l, t) ← walk body l t;
      Ok (match o with Some f => f :: l | None => l end, t)
  end.

(** [for (i = 0; i < BR_HASH_SIZE; i++)] over the chains [is]. *)
Fixpoint walk_all (body : fdb -> fdb_entry -> res (option fdb_entry * fdb)) (idx : list nat)
    (t : fdb) : res fdb :=
  match idx with
  | [] => Ok t
  | i :: idx =>
      '(l, t) ← walk body (chain t i) t;
      walk_all body idx (set_chain i l t)
  end.

Definition chains : list nat := seq 0 (Z.to_nat BR_HASH_SIZE).

Definition delete_entry (t : fdb) (f : fdb_entry) : res (option fdb_entry * fdb) :=
  t ← delete_effects t f; Ok (None, t).

(** ** Insertion of local and static addresses *)

(** The second part of [fdb_insert]. *)
Definition insert_new (t : fdb) (source : option nat) (addr : list Z) : res (Z * fdb) :=
  let i := br_mac_hash addr in
  let '(ok, t) := fdb_create t i source addr true true in
  if negb ok then Ok (- ENOMEM, t) else t ← notify_new t i; Ok (0, t).

(** [fdb_insert]; the warning names the device of [source]. *)
Definition fdb_insert (t : fdb) (source : option nat) (addr : list Z) : res (Z * fdb) :=
  let i := br_mac_hash addr in
  if negb (is_valid_ether_addr addr) then Ok (- EINVAL, t)
  else
    match fdb_find (chain t i) addr with
    | None => insert_new t source addr
    | Some j =>
        f ← of_option NullDeref (chain t i !! j);
        if is_local f then Ok (0, t)
        else
          _ ← of_option NullDeref source;
          t ← fdb_delete t i j; insert_new t source addr
    end.

Definition br_fdb_insert (t : fdb) (source : option nat) (addr : list Z) : res (Z * fdb) :=
  fdb_insert t source addr.

(** The second part of [fdb_adddel_static]. *)
Definition add_static (t : fdb) (source : option nat) (addr : list Z) (addEntry : Z)
    : res (Z * fdb) :=
  if addEntry =? 1 then
    let '(ok, t) := fdb_create t (br_mac_hash addr) source addr false true in
    Ok (if ok : bool then 0 else - ENOMEM, t)
  else Ok (0, t).

Definition fdb_adddel_static (t : fdb) (source : option nat) (addr : list Z) (addEntry : Z)
    : res (Z * fdb) :=
  if negb (is_valid_ether_addr addr) then Ok (- EINVAL, t)
  else
    let i := br_mac_hash addr in
    match fdb_find (chain t i) addr with
    | None => add_static t source addr addEntry
    | Some j =>
        f ← of_option NullDeref (chain t i !! j);
        if (addEntry =? 0) || negb (is_static f) then
          t ← fdb_delete t i j; add_static t source addr addEntry
        else Ok (0, t)
    end.

Definition br_fdb_adddel_static := fdb_adddel_static.

(** ** Lookup *)

(** [__br_fdb_get]: the position of the entry, and the table with the entry
    refreshed. *)
Definition __br_fdb_get (t : fdb) (addr : list Z) : option (nat * nat) * fdb :=
  let i := br_mac_hash addr in
  match fdb_find (chain t i) addr with
  | None => (None, t)
  | Some j =>
      match chain t i !! j with
      | None => (None, t)
      | Some f =>
          let f := refresh f in
          let t := set_chain i (<[j := f]> (chain t i)) t in
          if has_expired t f then (None, t) else (Some (i, j), t)
      end
  end.

(** ** Address changes *)

(** Another port with the device address [addr]. *)
Definition other_port (t : fdb) (p : nat) (addr : list Z) : option nat :=
  List.find (fun op => negb (Nat.eqb op p) &&
    match ports (br (stp_of t)) !! op with
    | Some q => negb (compare_ether_addr (p_dev_addr q) addr)
    | None => false
    end) (port_list (stp_of t)).

(** The first entry, in table order, that [p] satisfies. *)
Fixpoint find_pos (P : fdb_entry -> bool) (l : list fdb_entry) : option nat :=
  match l with
  | [] => None
  | f :: l => if P f then Some O else S <$> find_pos P l
  end.

Fixpoint find_entry (P : fdb_entry -> bool) (t : fdb) (idx : list nat) : option (nat * nat) :=
  match idx with
  | [] => None
  | i :: idx =>
      match find_pos P (chain t i) with
      | Some j => Some (i, j)
      | None => find_entry P t idx
      end
  end.

Definition br_fdb_changeaddr (t : fdb) (p : nat) (newaddr : list Z) : res fdb :=
  t ← match find_entry (fun f => bool_decide (dst f = Some p) && is_local f) t chains with
      | None => Ok t
      | Some (i, j) =>
          f ← of_option NullDeref (chain t i !! j);
          match other_port t p (f_addr f) with
          | Some op => Ok (set_chain i (<[j := set_dst (Some op) f]> (chain t i)) t)
          | None => fdb_delete t i j
          end
      end;
  '(_, t) ← fdb_insert t (Some p) newaddr; Ok t.

Definition br_fdb_change_mac_address (t : fdb) (newaddr : list Z) : res fdb :=
  let '(r, t) := __br_fdb_get t (dev_addr (br (stp_of t))) in
  t ← match r with
      | None => Ok t
      | Some (i, j) =>
          f ← of_option NullDeref (chain t i !! j);
          if is_local f && bool_decide (dst f = None) then fdb_delete t i j else Ok t
      end;
  '(_, t) ← fdb_insert t None newaddr; Ok t.

(** ** Garbage collection and flushing *)

(** The body of the loop of [br_fdb_cleanup], besides [next_timer]. *)
Definition cleanup_entry (t : fdb) (f : fdb_entry) : res (option fdb_entry * fdb) :=
  if is_static f then Ok (Some f, t)
  else
    let f := refresh f in
    if time_before_eq (u32 (updated f + hold_time t)) (now t) then
      if wl_alive env (f_addr f) then Ok (Some (set_updated (now t) f), t)
      else delete_entry t f
    else Ok (Some f, t).

(** [next_timer] over the entries, in table order. *)
Definition next_timer (t : fdb) (l : list fdb_entry) (init : Z) : Z :=
  foldl (fun next f =>
    if is_static f then next
    else
      let this_timer := u32 (updated (refresh f) + hold_time t) in
      if time_before_eq this_timer (now t) then next
      else if time_before this_timer next then this_timer else next) init l.

(** [round_jiffies_up]. *)
Definition round_jiffies_up (s : stp) (j : Z) : Z :=
  let original := j in
  let j := u32 (j + cpu s * 3) in
  let j := u32 (j - j mod HZ + HZ) in
  let j := u32 (j - cpu s * 3) in
  if j <=? jiffies s then original else j.

Definition br_fdb_cleanup (t : fdb) : res fdb :=
  let next := next_timer t (concat (hash t)) (u32 (now t + ageing_time t)) in
  t ← walk_all cleanup_entry chains t;
  Ok (set_stp_of (upd (set_gc_timer (Some (round_jiffies_up (stp_of t) next))) (stp_of t)) t).

Definition flush_entry (t : fdb) (f : fdb_entry) : res (option fdb_entry * fdb) :=
  if is_static f then Ok (Some f, t) else delete_entry t f.

Definition br_fdb_flush (t : fdb) : res fdb := walk_all flush_entry chains t.

Definition port_flush_entry (p : nat) (do_all : Z) (t : fdb) (f : fdb_entry)
    : res (option fdb_entry * fdb) :=
  if negb (bool_decide (dst f = Some p)) then Ok (Some f, t)
  else if is_static f && (do_all =? 0) then Ok (Some f, t)
  else if negb (is_static f) && (do_all =? 2) then Ok (Some f, t)
  else
    match (if is_local f then other_port t p (f_addr f) else None) with
    | Some op => Ok (Some (set_dst (Some op) f), t)
    | None => delete_entry t f
    end.

Definition br_fdb_delete_by_port (t : fdb) (p : nat) (do_all : Z) : res fdb :=
  walk_all (port_flush_entry p do_all) chains t.

(** ** Learning *)

(** [br_fdb_update] of an existing entry at [i], [j] that is not local: the
    fast path, after telling the switch and the accelerator if the station has
    moved to another port. *)
Definition learn_existing (t : fdb) (source : nat) (pt : net_bridge_port) (addr : list Z)
    (i j : nat) (f : fdb_entry) : fdb :=
  let moved :=
    match dst f ≫= fun d => ports (br (stp_of t)) !! d with
    | Some q => negb (port_no q =? port_no pt)
    | None => false
    end in
  let t := if moved then destroy_flows f (add_note (ClearArl addr) t) else t in
  let f :=
    if moved && negb (fdb_key f =? BLOG_KEY_NONE) then set_fdb_key (blog_destroy env f) f else f in
  let f := set_updated (now t) (set_dst (Some source) f) in
  set_chain i (<[j := f]> (chain t i)) t.

(** [br_fdb_update] of the source address [addr] of a frame received on port
    [source]. *)
Definition br_fdb_update (t : fdb) (source : nat) (addr : list Z) : res fdb :=
  let i := br_mac_hash addr in
  if hold_time t =? 0 then Ok t
  else
    pt ← port_at (stp_of t) source;
    if negb (bool_decide (state pt = LEARNING) || bool_decide (state pt = FORWARDING)) then Ok t
    else
      match fdb_find (chain t i) addr with
      | Some j =>
          f ← of_option NullDeref (chain t i !! j);
          if is_local f then
            if net_ratelimit env then Ok t
            else if bool_decide (stp_enabled (br (stp_of t)) = BR_NO_STP) then Ok t
            else s ← br_loopback_detected source (stp_of t); Ok (set_stp_of s t)
          else Ok (learn_existing t source pt addr i j f)
      | None =>
          let '(ok, t) := fdb_create t i (Some source) addr false false in
          if ok : bool then notify_new t i else Ok t
      end.

Definition br_fdb_refresh (t : fdb) (f : fdb_entry) : fdb_entry := set_updated (now t) f.

(** ** Netlink *)

Definition NLM_F_EXCL : Z := 0x200.
Definition NLM_F_CREATE : Z := 0x400.
Definition EEXIST : Z := 17.

(** The second part of [fdb_add_entry]: the entry at [i], [j] gets the state
    the user asks for. *)
Definition add_entry_state (t : fdb) (i j : nat) (nud : Z) : res (Z * fdb) :=
  f ← of_option NullDeref (chain t i !! j);
  cur ← fdb_to_nud t f;
  let f := nud_refresh f in
  if cur =? nud then Ok (0, set_chain i (<[j := f]> (chain t i)) t)
  else
    let f :=
      if nonzero (Z.land nud NUD_PERMANENT) then set_kind true true f
      else if nonzero (Z.land nud NUD_NOARP) then set_kind false true f
      else set_kind false false f in
    let f := set_updated (now t) (set_used (now t) f) in
    '(f, t) ← fdb_notify t f RTM_NEWNEIGH;
    Ok (0, set_chain i (<[j := f]> (chain t i)) t).

Definition fdb_add_entry (t : fdb) (source : nat) (addr : list Z) (nud flags : Z) : res (Z * fdb) :=
  let i := br_mac_hash addr in
  match fdb_find (chain t i) addr with
  | None =>
      if negb (nonzero (Z.land flags NLM_F_CREATE)) then Ok (- ENOENT, t)
      else
        let '(ok, t) := fdb_create t i (Some source) addr false false in
        if negb ok then Ok (- ENOMEM, t)
        else
          t ← notify_new t i; add_entry_state t i 0 nud
  | Some j =>
      if nonzero (Z.land flags NLM_F_EXCL) then Ok (- EEXIST, t)
      else add_entry_state t i j nud
  end.

Definition fdb_delete_by_addr (t : fdb) (addr : list Z) : res (Z * fdb) :=
  let i := br_mac_hash addr in
  match fdb_find (chain t i) addr with
  | None => Ok (- ENOENT, t)
  | Some j => t ← fdb_delete t i j; Ok (0, t)
  end.

(** What [br_fdb_add] and [br_fdb_delete] get from the message ([None]: the
    attributes do not parse), and from the device table: whether there is a
    device with the index, and the port it is. *)
Record ndmsg : Type := mk_ndmsg {
  ndm_ifindex : Z;
  ndm_state : Z;
  ndm_flags : Z;
  nlmsg_flags : Z;
  NDA_LLADDR : option (list Z)
}.

Definition NTF_USE : Z := 0x01.
Definition ENODEV : Z := 19.

Definition br_fdb_add (t : fdb) (parsed : Z + ndmsg)
    (__dev_get_by_index : Z -> option (option nat)) : res (Z * fdb) :=
  match parsed with
  | inl err => Ok (err, t)
  | inr m =>
      if ndm_ifindex m =? 0 then Ok (- EINVAL, t)
      else
        match __dev_get_by_index (ndm_ifindex m) with
        | None => Ok (- ENODEV, t)
        | Some port =>
            match NDA_LLADDR m with
            | None => Ok (- EINVAL, t)
            | Some addr =>
                if negb (Z.of_nat (length addr) =? ETH_ALEN) then Ok (- EINVAL, t)
                else if negb (is_valid_ether_addr addr) then Ok (- EINVAL, t)
                else if negb (nonzero (Z.land (ndm_state m)
                          (Z.lor (Z.lor NUD_PERMANENT NUD_NOARP) NUD_REACHABLE)))
                then Ok (- EINVAL, t)
                else
                  match port with
                  | None => Ok (- EINVAL, t)
                  | Some p =>
                      if nonzero (Z.land (ndm_flags m) NTF_USE) then
                        t ← br_fdb_update t p addr; Ok (0, t)
                      else fdb_add_entry t p addr (ndm_state m) (nlmsg_flags m)
                  end
            end
        end
  end.

Definition br_fdb_delete (t : fdb) (msg : option ndmsg)
    (__dev_get_by_index : Z -> option (option nat)) : res (Z * fdb) :=
  match msg with
  | None => Ok (- EINVAL, t)
  | Some m =>
      if ndm_ifindex m =? 0 then Ok (- EINVAL, t)
      else
        match __dev_get_by_index (ndm_ifindex m) with
        | None => Ok (- ENODEV, t)
        | Some port =>
            match NDA_LLADDR m with
            | None => Ok (- EINVAL, t)
            | Some addr =>
                if negb (Z.of_nat (length addr) =? ETH_ALEN) then Ok (- EINVAL, t)
                else
                  match port with
                  | None => Ok (- EINVAL, t)
                  | Some _ => fdb_delete_by_addr t addr
                  end
            end
        end
  end.

(** ** Device events *)

Definition EADDRNOTAVAIL : Z := 99.

(** [br_set_mac_address] of net/bridge/br_device.c. *)
Definition br_set_mac_address (t : fdb) (sa_data : list Z) : res (Z * fdb) :=
  if negb (is_valid_ether_addr sa_data) then Ok (- EADDRNOTAVAIL, t)
  else
    t ← (if compare_ether_addr (dev_addr (br (stp_of t))) sa_data then
           t ← br_fdb_change_mac_address
                 (set_stp_of (upd (set_dev_addr sa_data) (stp_of t)) t) sa_data;
           s ← br_stp_change_bridge_id sa_data (stp_of t);
           Ok (set_stp_of s t)
         else Ok t);
    Ok (0, set_stp_of (upd (set_BR_SET_MAC_ADDR true) (stp_of t)) t).

(** The [NETDEV_CHANGEADDR] case of [br_device_event]: the device of port [p]
    has the address [newaddr] by now. *)
Definition netdev_changeaddr (t : fdb) (p : nat) (newaddr : list Z) : res (bool * fdb) :=
  let s := upd_port p (set_p_dev_addr newaddr) (stp_of t) in
  t ← br_fdb_changeaddr (set_stp_of s t) p newaddr;
  '(changed, s) ← br_stp_recalculate_bridge_id (stp_of t);
  Ok (changed, set_stp_of s t).

End Ops.
