(* ===== verification/FdbTable.v ===== *)
(** The forwarding database as a finite map from addresses to entries.

    [table_ok] is the shape of the table: every entry is in the chain its
    address hashes to, no address has two entries, the count of the bridge is
    the number of entries.  [abs] is the map a table stands for; the lemmas
    here say what the primitive steps (link, unlink, change one entry, walk
    over all chains) do to it. *)

From S2P Require Import Prelude Str Stp Fdb.
From stdpp Require Import gmap fin_maps.
Open Scope Z_scope.

(** ** Tables and maps *)

Definition entries (t : fdb) : list fdb_entry := concat (hash t).

Abbreviation fdb_map := (gmap (list Z) fdb_entry).

Definition fmap_of (l : list fdb_entry) : fdb_map :=
  list_to_map (map (fun f => (f_addr f, f)) l).

Definition abs (t : fdb) : fdb_map := fmap_of (entries t).

(** An entry of the bridge itself does not age; a learned one names a port. *)
Definition local_static (f : fdb_entry) : Prop := is_local f = true -> is_static f = true.

Record table_ok (env : fdb_env) (t : fdb) : Prop := {
  ok_size : length (hash t) = Z.to_nat BR_HASH_SIZE;
  ok_chain : forall i l f, hash t !! i = Some l -> f ∈ l -> br_mac_hash env (f_addr f) = i;
  ok_uniq : NoDup (map f_addr (entries t));
  ok_num : num_fdb_entries t = zlen (entries t);
  ok_limit : num_fdb_entries t <= BR_MAX_FDB_ENTRIES;
  ok_local : Forall local_static (entries t)
}.

Lemma fmap_of_cons f l : fmap_of (f :: l) = <[f_addr f := f]> (fmap_of l).
Proof. done. Qed.

Lemma fmap_of_perm l l' : NoDup (map f_addr l) -> l ≡ₚ l' -> fmap_of l = fmap_of l'.
Proof.
  intros Hn Hp. unfold fmap_of. apply list_to_map_proper; [|by apply Permutation_map].
  by rewrite <- list_fmap_compose.
Qed.

Lemma fmap_of_None l a : a ∉ map f_addr l -> fmap_of l !! a = None.
Proof.
  intros H. unfold fmap_of. apply not_elem_of_list_to_map_1. by rewrite <- list_fmap_compose.
Qed.

Lemma fmap_of_Some l a f :
  NoDup (map f_addr l) -> fmap_of l !! a = Some f <-> f ∈ l /\ f_addr f = a.
Proof.
  intros Hn. unfold fmap_of. rewrite <- elem_of_list_to_map by (by rewrite <- list_fmap_compose).
  rewrite list_elem_of_fmap. split; [intros (x & [= -> ->] & ?); done | intros [? <-]; eauto].
Qed.

Lemma fmap_of_omap g l :
  (forall f f', g f = Some f' -> f_addr f' = f_addr f) -> NoDup (map f_addr l) ->
  NoDup (map f_addr (omap g l)) /\ fmap_of (omap g l) = omap g (fmap_of l).
Proof.
  intros Hg. induction l as [|f l IH]; intros Hn.
  - split; [constructor|]. change (fmap_of []) with (∅ : gmap (list Z) fdb_entry). by rewrite omap_empty.
  - cbn [map] in Hn. inversion_clear Hn as [|?? H1 H2]. destruct (IH H2) as [IH1 IH2].
    assert (Hin : forall a, a ∈ map f_addr (omap g l) -> a ∈ map f_addr l).
    { intros a (f' & -> & (x & Hx & E)%list_elem_of_omap)%list_elem_of_fmap.
      rewrite (Hg _ _ E). by apply list_elem_of_fmap_2. }
    rewrite fmap_of_cons.
    change (omap g (f :: l)) with (match g f with Some y => y :: omap g l | None => omap g l end).
    destruct (g f) as [f'|] eqn:E.
    + rewrite fmap_of_cons, IH2, (Hg _ _ E). split.
      * cbn [map]. constructor; [|done]. rewrite (Hg _ _ E). by intros H%Hin.
      * symmetry. by apply omap_insert_Some.
    + split; [done|]. rewrite IH2. symmetry. rewrite omap_insert_None by done.
      apply delete_id. rewrite lookup_omap. by rewrite fmap_of_None.
Qed.

(** ** One chain and the rest *)

Lemma br_mac_hash_lt env a : (br_mac_hash env a < Z.to_nat BR_HASH_SIZE)%nat.
Proof.
  unfold br_mac_hash. cbv zeta. generalize (jhash_1word
    (byte_of a 2 + 256 * (byte_of a 3 + 256 * (byte_of a 4 + 256 * byte_of a 5))) (fdb_salt env)).
  intros x. change (BR_HASH_SIZE - 1) with (Z.ones 8). rewrite Z.land_ones by lia.
  pose proof (Z.mod_pos_bound x (2 ^ 8) ltac:(lia)). change BR_HASH_SIZE with (2 ^ 8). lia.
Qed.

Definition rest (i : nat) (t : fdb) : list fdb_entry := concat (delete i (hash t)).

Lemma concat_delete {A} (h : list (list A)) (i : nat) l :
  h !! i = Some l -> concat h ≡ₚ l ++ concat (delete i h).
Proof.
  revert i. induction h as [|x h IH]; intros [|i] E; cbn in *; [done|done|by simplify_eq|].
  rewrite (IH i E). solve_Permutation.
Qed.

Lemma delete_insert_list {A} (h : list A) (i : nat) x : delete i (<[i := x]> h) = delete i h.
Proof. revert i. induction h as [|y h IH]; intros [|i]; cbn; [done..|]. by rewrite IH. Qed.

Section Table.
Context (env : fdb_env).
Implicit Types t : fdb.

Lemma chain_lookup t i : (i < length (hash t))%nat -> hash t !! i = Some (chain t i).
Proof.
  intros H. unfold chain. destruct (lookup_lt_is_Some_2 _ _ H) as [l E].
  by rewrite E, (nth_lookup_Some _ _ [] _ E).
Qed.

Lemma entries_split t i :
  (i < length (hash t))%nat -> entries t ≡ₚ chain t i ++ rest i t.
Proof. intros H. by apply concat_delete, chain_lookup. Qed.

Lemma elem_entries t f :
  f ∈ entries t <-> exists i l, hash t !! i = Some l /\ f ∈ l.
Proof.
  unfold entries. rewrite list_elem_of_In, in_concat. split.
  - intros (l & [i Hi]%list_elem_of_In%list_elem_of_lookup & Hf%list_elem_of_In). eauto.
  - intros (i & l & Hi%list_elem_of_lookup_2%list_elem_of_In & Hf%list_elem_of_In). eauto.
Qed.

(** The entries of the other chains hash elsewhere. *)
Lemma rest_hash t i f : table_ok env t -> f ∈ rest i t -> br_mac_hash env (f_addr f) <> i.
Proof.
  intros Ht Hf. unfold rest in Hf. apply list_elem_of_In, in_concat in Hf.
  destruct Hf as (l & [k Hk]%list_elem_of_In%list_elem_of_lookup & Hf%list_elem_of_In).
  destruct (decide (k < i)%nat).
  - rewrite list_lookup_delete_lt in Hk by done. rewrite (ok_chain _ _ Ht _ _ _ Hk Hf). lia.
  - rewrite list_lookup_delete_ge in Hk by lia. rewrite (ok_chain _ _ Ht _ _ _ Hk Hf). lia.
Qed.

Lemma NoDup_app_disjoint {A B} (g : A -> B) l k :
  NoDup (map g l) -> NoDup (map g k) -> (forall x y, x ∈ l -> y ∈ k -> g x <> g y) ->
  NoDup (map g (l ++ k)).
Proof.
  intros Hl Hk Hd. rewrite map_app. apply NoDup_app. split; [done|]. split; [|done].
  intros b (x & -> & Hx)%list_elem_of_fmap (y & Hy & Hy')%list_elem_of_fmap. by eapply Hd.
Qed.

(** A table where chain [i] has been replaced. *)
Lemma table_ok_edit t t' i l :
  table_ok env t -> hash t' = <[i := l]> (hash t) -> (i < Z.to_nat BR_HASH_SIZE)%nat ->
  num_fdb_entries t' = num_fdb_entries t - zlen (chain t i) + zlen l ->
  num_fdb_entries t' <= BR_MAX_FDB_ENTRIES ->
  (forall f, f ∈ l -> br_mac_hash env (f_addr f) = i) -> NoDup (map f_addr l) ->
  Forall local_static l -> table_ok env t' /\ abs t' = fmap_of (l ++ rest i t).
Proof.
  intros Ht Hh Hi Hn Hm Hl Hd Hs. pose proof (ok_size _ _ Ht) as Hz.
  assert (Hi' : (i < length (hash t))%nat) by lia.
  assert (Hp : entries t' ≡ₚ l ++ rest i t).
  { unfold entries, rest. rewrite Hh, <- (delete_insert_list (hash t) i l).
    apply concat_delete. by apply list_lookup_insert_eq. }
  pose proof (entries_split t i Hi') as Hp0.
  pose proof (ok_uniq _ _ Ht) as Hu. rewrite Hp0, map_app in Hu. apply NoDup_app in Hu.
  destruct Hu as (_ & _ & Hu).
  assert (Hnd : NoDup (map f_addr (entries t'))).
  { rewrite Hp. apply NoDup_app_disjoint; [done..|]. intros x y Hx Hy E.
    apply (rest_hash _ _ _ Ht Hy). rewrite <- E. by apply Hl. }
  split; [|by apply fmap_of_perm].
  constructor; [..|done| |done|].
  - by rewrite Hh, length_insert.
  - intros k l' f. rewrite Hh, list_lookup_insert. case_decide as Hc.
    + intros [= <-] Hf. rewrite (Hl _ Hf). by destruct Hc.
    + apply (ok_chain _ _ Ht).
  - rewrite Hn, (ok_num _ _ Ht). unfold zlen. rewrite Hp0, Hp, !length_app. lia.
  - pose proof (ok_local _ _ Ht) as Hx. rewrite Hp0, Forall_app in Hx. rewrite Hp, Forall_app.
    by destruct Hx.
Qed.

Lemma hash_lt t a : table_ok env t -> (br_mac_hash env a < length (hash t))%nat.
Proof. intros Ht. rewrite (ok_size _ _ Ht). apply br_mac_hash_lt. Qed.

Lemma chain_uniq t i : table_ok env t -> (i < Z.to_nat BR_HASH_SIZE)%nat ->
  NoDup (map f_addr (chain t i)) /\ Forall local_static (chain t i) /\
  forall f, f ∈ chain t i -> br_mac_hash env (f_addr f) = i.
Proof.
  intros Ht Hi. rewrite <- (ok_size _ _ Ht) in Hi. pose proof (entries_split t i Hi) as Hp.
  pose proof (ok_uniq _ _ Ht) as Hu. rewrite Hp, map_app in Hu. apply NoDup_app in Hu.
  pose proof (ok_local _ _ Ht) as Hl. rewrite Hp, Forall_app in Hl.
  split; [apply Hu|]. split; [apply Hl|]. intros f. apply (ok_chain _ _ Ht). by apply chain_lookup.
Qed.

(** ** Lookup *)

Lemma fdb_find_spec l a :
  match fdb_find l a with
  | Some j => exists f, l !! j = Some f /\ f_addr f = a
  | None => a ∉ map f_addr l
  end.
Proof.
  induction l as [|f l IH]; cbn [fdb_find map]; [by apply not_elem_of_nil|].
  unfold compare_ether_addr. rewrite negb_involutive. case_bool_decide as Hc; [by exists f|].
  destruct (fdb_find l a) as [j|]; cbn; [done|]. apply not_elem_of_cons. by split.
Qed.

(** What [fdb_find] in the chain of an address says of the map. *)
Lemma fdb_find_abs t a : table_ok env t ->
  match fdb_find (chain t (br_mac_hash env a)) a with
  | Some j => exists f, chain t (br_mac_hash env a) !! j = Some f /\ f_addr f = a /\
                        abs t !! a = Some f
  | None => abs t !! a = None
  end.
Proof.
  intros Ht. pose proof (hash_lt t a Ht) as Hi. pose proof (entries_split t _ Hi) as Hp.
  pose proof (fdb_find_spec (chain t (br_mac_hash env a)) a) as Hf.
  destruct (fdb_find _ a) as [j|].
  - destruct Hf as (f & Hj & E). exists f. split; [done|]. split; [done|].
    unfold abs. rewrite fmap_of_Some by apply Ht. split; [|done].
    rewrite Hp, elem_of_app. left. by apply list_elem_of_lookup_2 in Hj.
  - unfold abs. apply fmap_of_None. rewrite Hp, map_app. intros [H|H]%elem_of_app; [done|].
    apply list_elem_of_fmap in H as (f & -> & Hr). by apply (rest_hash _ _ _ Ht Hr).
Qed.

(** ** Primitive steps

    [upto t t' M]: the table [t'] is well-formed and stands for [M]; ports
    and times are those of [t]. *)
Definition upto (t t' : fdb) (M : fdb_map) : Prop :=
  table_ok env t' /\ abs t' = M /\ stp_of t' = stp_of t /\ ageing_time t' = ageing_time t.

Lemma upto_same t t' :
  table_ok env t -> hash t' = hash t -> num_fdb_entries t' = num_fdb_entries t ->
  stp_of t' = stp_of t -> ageing_time t' = ageing_time t -> upto t t' (abs t).
Proof.
  intros [H1 H2 H3 H4 H5 H6] Eh En ??. unfold upto, abs, entries in *. rewrite Eh. split; [|done].
  constructor; unfold entries; rewrite ?Eh, ?En; done.
Qed.

Lemma upto_create t t' f : table_ok env t -> abs t !! f_addr f = None ->
  let i := br_mac_hash env (f_addr f) in
  hash t' = <[i := f :: chain t i]> (hash t) -> num_fdb_entries t' = num_fdb_entries t + 1 ->
  num_fdb_entries t < BR_MAX_FDB_ENTRIES -> local_static f ->
  stp_of t' = stp_of t -> ageing_time t' = ageing_time t -> upto t t' (<[f_addr f := f]> (abs t)).
Proof.
  intros Ht Hn i Eh En Hm Hl ??. pose proof (br_mac_hash_lt env (f_addr f)) as Hi.
  destruct (chain_uniq t i Ht Hi) as (Hu & Hs & Hc).
  destruct (table_ok_edit t t' i (f :: chain t i)) as [Ht' Ha]; try done.
  - rewrite En. unfold zlen. cbn. lia.
  - lia.
  - intros g [->|Hg]%elem_of_cons; [done|]. by apply Hc.
  - cbn [map]. constructor; [|done]. intros (g & E & Hg)%list_elem_of_fmap.
    assert (Hsome : abs t !! f_addr f = Some g); [|by rewrite Hn in Hsome].
    unfold abs. rewrite fmap_of_Some by apply Ht. split; [|done].
    rewrite (entries_split t i) by (rewrite (ok_size _ _ Ht); done). rewrite elem_of_app. by left.
  - by constructor.
  - split; [done|]. split; [|done]. rewrite Ha. cbn [app]. rewrite fmap_of_cons. f_equal.
    symmetry. apply fmap_of_perm; [apply Ht|]. apply entries_split. by rewrite (ok_size _ _ Ht).
Qed.

(** Entry [j] of chain [i] apart from the others. *)
Lemma entries_pick t i (j : nat) f : table_ok env t -> (i < Z.to_nat BR_HASH_SIZE)%nat ->
  chain t i !! j = Some f ->
  abs t = <[f_addr f := f]> (fmap_of (delete j (chain t i) ++ rest i t)) /\
  fmap_of (delete j (chain t i) ++ rest i t) !! f_addr f = None.
Proof.
  intros Ht Hi Hj. pose proof (ok_uniq _ _ Ht) as Hu.
  assert (Hp : entries t ≡ₚ f :: (delete j (chain t i) ++ rest i t)).
  { rewrite (entries_split t i) by (rewrite (ok_size _ _ Ht); done).
    by rewrite (delete_Permutation _ _ _ Hj) at 1. }
  split; [by rewrite <- fmap_of_cons; apply fmap_of_perm|].
  apply fmap_of_None. rewrite Hp in Hu. cbn [map] in Hu. by inversion_clear Hu.
Qed.

Lemma upto_delete t t' i (j : nat) f : table_ok env t -> (i < Z.to_nat BR_HASH_SIZE)%nat ->
  chain t i !! j = Some f -> hash t' = <[i := delete j (chain t i)]> (hash t) ->
  num_fdb_entries t' = num_fdb_entries t - 1 -> stp_of t' = stp_of t ->
  ageing_time t' = ageing_time t -> upto t t' (delete (f_addr f) (abs t)).
Proof.
  intros Ht Hi Hj Eh En ??. destruct (chain_uniq t i Ht Hi) as (Hu & Hs & Hc).
  pose proof (delete_Permutation _ _ _ Hj) as Hp.
  destruct (table_ok_edit t t' i (delete j (chain t i))) as [Ht' Ha]; try done.
  - rewrite En. unfold zlen. rewrite Hp at 1. cbn [length]. lia.
  - rewrite En. pose proof (ok_limit _ _ Ht). lia.
  - intros g Hg. apply Hc. rewrite Hp. by right.
  - rewrite Hp in Hu. cbn [map] in Hu. by inversion_clear Hu.
  - rewrite Hp in Hs. by inversion_clear Hs.
  - split; [done|]. split; [|done]. destruct (entries_pick t i j f) as [-> Hn]; try done.
    by rewrite delete_insert_id.
Qed.

Lemma upto_change t t' i (j : nat) f f' : table_ok env t -> (i < Z.to_nat BR_HASH_SIZE)%nat ->
  chain t i !! j = Some f -> f_addr f' = f_addr f -> local_static f' ->
  hash t' = <[i := <[j := f']> (chain t i)]> (hash t) -> num_fdb_entries t' = num_fdb_entries t ->
  stp_of t' = stp_of t -> ageing_time t' = ageing_time t ->
  upto t t' (<[f_addr f := f']> (abs t)).
Proof.
  intros Ht Hi Hj Ea Hl Eh En ??. destruct (chain_uniq t i Ht Hi) as (Hu & Hs & Hc).
  assert (Hm : map f_addr (<[j := f']> (chain t i)) = map f_addr (chain t i)).
  { change (f_addr <$> <[j := f']> (chain t i) = f_addr <$> chain t i). rewrite list_fmap_insert.
    apply list_insert_id. rewrite list_lookup_fmap, Hj. cbn. by rewrite Ea. }
  assert (Hlt : (j < length (chain t i))%nat) by (by eapply lookup_lt_Some).
  assert (Hp : <[j := f']> (chain t i) ≡ₚ f' :: delete j (chain t i)).
  { rewrite <- (delete_insert_list (chain t i) j f'). apply delete_Permutation.
    by apply list_lookup_insert_eq. }
  destruct (table_ok_edit t t' i (<[j := f']> (chain t i))) as [Ht' Ha]; try done.
  - rewrite En. unfold zlen. rewrite length_insert. lia.
  - rewrite En. apply Ht.
  - intros g [k Hk]%list_elem_of_lookup. rewrite list_lookup_insert in Hk. case_decide.
    + simplify_eq. rewrite Ea. apply Hc. by eapply list_elem_of_lookup_2.
    + apply Hc. by eapply list_elem_of_lookup_2.
  - by rewrite Hm.
  - by apply Forall_insert.
  - split; [done|]. split; [|done]. destruct (entries_pick t i j f) as [-> Hn]; try done.
    rewrite insert_insert_eq, Ha, <- Ea, <- fmap_of_cons. apply fmap_of_perm.
    + rewrite map_app, Hm, <- map_app, <- entries_split by (rewrite (ok_size _ _ Ht); done).
      apply Ht.
    + by rewrite Hp.
Qed.

(** ** Walks over the table

    A body that keeps an entry, changes it or deletes it, as the function [g]
    says while ports and times are [s] and [ag]. *)
Section Walk.
Context (body : fdb -> fdb_entry -> res (option fdb_entry * fdb)).
Context (g : fdb_entry -> option fdb_entry) (s : stp) (ag : Z).

(** Nothing but the count and the trace has changed since [t], and [n] more
    entries are gone. *)
Definition lost (n : Z) (t t' : fdb) : Prop :=
  hash t' = hash t /\ stp_of t' = stp_of t /\ ageing_time t' = ageing_time t /\
  num_fdb_entries t' = num_fdb_entries t - n.

Hypothesis body_spec : forall t f o t', stp_of t = s -> ageing_time t = ag ->
  body t f = Ok (o, t') -> o = g f /\ lost (match o with Some _ => 0 | None => 1 end) t t'.
Hypothesis g_addr : forall f f', g f = Some f' -> f_addr f' = f_addr f.
Hypothesis g_local : forall f f', g f = Some f' -> local_static f -> local_static f'.

Lemma walk_spec l t l' t' : stp_of t = s -> ageing_time t = ag ->
  walk body l t = Ok (l', t') -> l' = omap g l /\ lost (zlen l - zlen l') t t'.
Proof.
  revert t l' t'. induction l as [|f l IH]; intros t l' t' Hs Ha E; cbn in E.
  { injection E as <- <-. split; [done|]. unfold lost, zlen. cbn. repeat split. lia. }
  apply bind_Ok_inv in E as ([o t1] & E1 & E). apply bind_Ok_inv in E as ([l1 t2] & E2 & E).
  injection E as <- <-. destruct (body_spec _ _ _ _ Hs Ha E1) as (-> & H1 & H2 & H3 & H4).
  destruct (IH t1 l1 t2) as (-> & H5 & H6 & H7 & H8); [congruence..|].
  change (omap g (f :: l)) with (match g f with Some y => y :: omap g l | None => omap g l end).
  unfold lost, zlen in *. cbn [length]. destruct (g f); split; try done; cbn [length];
    (split; [congruence|]); (split; [congruence|]); (split; [congruence|]); lia.
Qed.

Lemma walk_all_spec n k t t' : stp_of t = s -> ageing_time t = ag ->
  (k + n)%nat = length (hash t) -> walk_all body (seq k n) t = Ok t' ->
  hash t' = take k (hash t) ++ map (omap g) (drop k (hash t)) /\
  stp_of t' = s /\ ageing_time t' = ag /\
  num_fdb_entries t' - zlen (entries t') = num_fdb_entries t - zlen (entries t).
Proof.
  revert k t. induction n as [|n IH]; intros k t Hs Ha Hk E; cbn [seq walk_all] in E.
  { injection E as <-. rewrite take_ge, drop_ge by lia. by rewrite app_nil_r. }
  apply bind_Ok_inv in E as ([l t1] & E1 & E).
  destruct (walk_spec _ _ _ _ Hs Ha E1) as (-> & H1 & H2 & H3 & H4).
  assert (Hlt : (k < length (hash t))%nat) by lia. pose proof (chain_lookup t k Hlt) as Hc.
  set (l := omap g (chain t k)) in *.
  destruct (IH (S k) (set_chain k l t1)) as (H5 & H6 & H7 & H8); [cbn; congruence..| |done|].
  { cbn. rewrite length_insert, H1. lia. }
  cbn in H5. rewrite H1 in H5. split; [|split; [done|split; [done|]]].
  - rewrite H5, (take_S_r _ _ l) by (by apply list_lookup_insert_eq).
    rewrite take_insert_ge, drop_insert_lt by lia. rewrite <- app_assoc. f_equal.
    by rewrite (drop_S _ _ _ Hc).
  - rewrite H8. cbn. unfold entries, zlen in *. cbn. rewrite H1, H4.
    rewrite (concat_delete _ _ _ Hc), (concat_delete (<[k := l]> (hash t)) k l)
      by (by apply list_lookup_insert_eq).
    rewrite delete_insert_list, !length_app. lia.
Qed.

Lemma concat_omap h : concat (map (omap g) h) = omap g (concat h).
Proof.
  induction h as [|l h IH]; [done|]. cbn [map concat]. by rewrite IH, omap_app.
Qed.

(** What a walk over all chains does to the map. *)
Lemma upto_walk t t' : table_ok env t -> stp_of t = s -> ageing_time t = ag ->
  walk_all body chains t = Ok t' -> upto t t' (omap g (abs t)).
Proof.
  intros Ht Hs Ha E. destruct (walk_all_spec (Z.to_nat BR_HASH_SIZE) 0 t t' Hs Ha)
    as (Hh & Hs' & Ha' & Hn); [by rewrite (ok_size _ _ Ht)|done|].
  rewrite take_0, drop_0 in Hh. cbn [app] in Hh.
  assert (He : entries t' = omap g (entries t)) by (unfold entries; by rewrite Hh, concat_omap).
  destruct (fmap_of_omap g (entries t) g_addr (ok_uniq _ _ Ht)) as [Hu Hm].
  assert (Hlen : zlen (omap g (entries t)) <= zlen (entries t)).
  { unfold zlen. clear. induction (entries t) as [|f l IH]; [done|].
    change (omap g (f :: l)) with (match g f with Some y => y :: omap g l | None => omap g l end).
    destruct (g f); cbn [length]; lia. }
  pose proof (ok_num _ _ Ht). pose proof (ok_limit _ _ Ht).
  split; [|unfold abs; rewrite He, Hm; split; [done|]; split; congruence].
  constructor; rewrite ?He; [| |done|rewrite He in Hn; lia|rewrite He in Hn; lia|].
  - rewrite Hh, length_map. apply Ht.
  - intros i l f. rewrite Hh, list_lookup_fmap_Some. intros (l0 & -> & Hl0) Hf.
    apply list_elem_of_omap in Hf as (f0 & Hf0 & Hg). rewrite (g_addr _ _ Hg).
    by eapply (ok_chain _ _ Ht).
  - apply Forall_forall. intros f (f0 & Hf0 & Hg)%list_elem_of_omap.
    eapply g_local; [done|]. pose proof (ok_local _ _ Ht) as Hl. rewrite Forall_forall in Hl.
    by apply Hl.
Qed.

End Walk.
End Table.
