(* ===== verification/FdbRefine.v ===== *)
(** The operations of the forwarding database as operations on a finite map.

    The functions [*_spec] say what each operation does to the map from
    addresses to entries, without chains and positions; the lemmas say that
    the operations of [Fdb] do just that. *)

From S2P Require Import Prelude Str Stp Fdb FdbTable.
From stdpp Require Import gmap fin_maps.
Open Scope Z_scope.

Section Specs.
Context (env : fdb_env).
Implicit Types (t : fdb) (M : fdb_map).

(** ** Specifications

    [t] gives the times and the ports. *)

Definition new_entry t (source : option nat) (addr : list Z) (local static : bool) : fdb_entry :=
  mk_entry addr source (now t) (now t) local static BLOG_KEY_NONE.

(** A new entry, if there is room for it; dynamic entries are not wanted when
    they would age at once. *)
Definition create_spec t M (source : option nat) (addr : list Z) (local static : bool) : option fdb_map :=
  if (BR_MAX_FDB_ENTRIES <=? Z.of_nat (size M)) || ((hold_time t =? 0) && negb static) ||
     negb (kmem_cache_alloc env)
  then None else Some (<[addr := new_entry t source addr local static]> M).

Definition created M (o : option fdb_map) : Z * fdb_map :=
  match o with Some M' => (0, M') | None => (- ENOMEM, M) end.

(** A local address replaces what has been learned for it. *)
Definition insert_spec t M (source : option nat) (addr : list Z) : Z * fdb_map :=
  if negb (is_valid_ether_addr addr) then (- EINVAL, M)
  else
    match M !! addr with
    | Some f =>
        if is_local f then (0, M)
        else created (delete addr M) (create_spec t (delete addr M) source addr true true)
    | None => created M (create_spec t M source addr true true)
    end.

Definition static_spec t M (source : option nat) (addr : list Z) (addEntry : Z) : Z * fdb_map :=
  if negb (is_valid_ether_addr addr) then (- EINVAL, M)
  else
    let add M := if addEntry =? 1 then created M (create_spec t M source addr false true) else (0, M) in
    match M !! addr with
    | Some f => if (addEntry =? 0) || negb (is_static f) then add (delete addr M) else (0, M)
    | None => add M
    end.

(** The entry for [addr], unless it has expired. *)
Definition get_spec t M (addr : list Z) : option fdb_entry * fdb_map :=
  match M !! addr with
  | None => (None, M)
  | Some f =>
      let f := refresh env f in
      (if has_expired t f then None else Some f, <[addr := f]> M)
  end.

(** The entry of a station heard on port [source]. *)
Definition learned t (source : nat) (pt : net_bridge_port) (f : fdb_entry) : fdb_entry :=
  let moved :=
    match dst f ≫= fun d => ports (br (stp_of t)) !! d with
    | Some q => negb (port_no q =? port_no pt)
    | None => false
    end in
  let f :=
    if moved && negb (fdb_key f =? BLOG_KEY_NONE) then set_fdb_key (blog_destroy env f) f else f in
  set_updated (now t) (set_dst (Some source) f).

Definition learns t (pt : net_bridge_port) : bool :=
  negb (hold_time t =? 0) && bool_decide (state pt = LEARNING \/ state pt = FORWARDING).

Definition update_spec t M (source : nat) (addr : list Z) : fdb_map :=
  match ports (br (stp_of t)) !! source with
  | None => M
  | Some pt =>
      if learns t pt then
        match M !! addr with
        | Some f => if is_local f then M else <[addr := learned t source pt f]> M
        | None => default M (create_spec t M (Some source) addr false false)
        end
      else M
  end.

(** The entry after a request of user space for the neighbour state [nud]. *)
Definition requested t (nud : Z) (f : fdb_entry) : fdb_entry :=
  set_updated (now t) (set_used (now t)
    (if nonzero (Z.land nud NUD_PERMANENT) then set_kind true true f
     else set_kind false (nonzero (Z.land nud NUD_NOARP)) f)).

Definition add_state_spec t M (addr : list Z) (f : fdb_entry) (nud : Z) : fdb_map :=
  let cur :=
    if is_local f then NUD_PERMANENT
    else if is_static f then NUD_NOARP
    else if has_expired t (refresh env f) then NUD_STALE else NUD_REACHABLE in
  let f := nud_refresh env f in
  if cur =? nud then <[addr := f]> M
  else
    let f := requested t nud f in
    <[addr := if nlmsg_new env then fill_refresh env f else f]> M.

Definition add_entry_spec t M (source : nat) (addr : list Z) (nud flags : Z) : Z * fdb_map :=
  match M !! addr with
  | None =>
      if negb (nonzero (Z.land flags NLM_F_CREATE)) then (- ENOENT, M)
      else
        match create_spec t M (Some source) addr false false with
        | None => (- ENOMEM, M)
        | Some M' => (0, add_state_spec t M' addr (new_entry t (Some source) addr false false) nud)
        end
  | Some f =>
      if nonzero (Z.land flags NLM_F_EXCL) then (- EEXIST, M)
      else (0, add_state_spec t M addr f nud)
  end.

Definition delete_spec M (addr : list Z) : Z * fdb_map :=
  match M !! addr with None => (- ENOENT, M) | Some _ => (0, delete addr M) end.

(** Ageing: a dynamic entry goes when its time is over and no wireless driver
    knows the station. *)
Definition aged t (f : fdb_entry) : option fdb_entry :=
  if is_static f then Some f
  else
    let f := refresh env f in
    if has_expired t f then
      if wl_alive env (f_addr f) then Some (set_updated (now t) f) else None
    else Some f.

Definition flushed (f : fdb_entry) : option fdb_entry := if is_static f then Some f else None.

(** The port [p] goes away, or loses the entries of one kind. *)
Definition port_flushed t (p : nat) (do_all : Z) (f : fdb_entry) : option fdb_entry :=
  if negb (bool_decide (dst f = Some p)) || (is_static f && (do_all =? 0)) ||
     (negb (is_static f) && (do_all =? 2))
  then Some f
  else if is_local f then (fun op => set_dst (Some op) f) <$> other_port t p (f_addr f)
  else None.

(** Where the local address of a port moves when the address changes. *)
Definition released t (p : nat) M (a : list Z) (f : fdb_entry) : fdb_map :=
  match other_port t p a with
  | Some op => <[a := set_dst (Some op) f]> M
  | None => delete a M
  end.

End Specs.

(** ** Refinement *)

Lemma fmap_of_size l : NoDup (map f_addr l) -> size (fmap_of l) = length l.
Proof.
  intros H. rewrite <- length_map_to_list. unfold fmap_of.
  rewrite map_to_list_to_map by (by rewrite <- list_fmap_compose). apply length_map.
Qed.

(** Two tables with the same times and ports. *)
Lemma same_times t t' :
  stp_of t' = stp_of t -> ageing_time t' = ageing_time t ->
  hold_time t' = hold_time t /\ now t' = now t.
Proof. intros Hs Ha. unfold hold_time, now. by rewrite Hs, Ha. Qed.

Section Refine.
Context (env : fdb_env).
Implicit Types (t : fdb) (M : fdb_map).

Abbreviation upto := (upto env).
Abbreviation table_ok := (table_ok env).
Abbreviation br_mac_hash := (br_mac_hash env).

Lemma num_size t : table_ok t -> num_fdb_entries t = Z.of_nat (size (abs t)).
Proof. intros Ht. unfold abs. rewrite fmap_of_size by apply Ht. apply Ht. Qed.

Lemma upto_trans t t1 t2 M : upto t t1 M -> upto t1 t2 (abs t1) -> upto t t2 M.
Proof.
  intros (_ & <- & ? & ?) (? & ? & ? & ?). split; [done|]. split; [done|]. split; congruence.
Qed.

Lemma upto_then t t1 t2 M M' : upto t t1 M -> upto t1 t2 M' -> upto t t2 M'.
Proof.
  intros (_ & <- & ? & ?) (? & ? & ? & ?). split; [done|]. split; [done|]. split; congruence.
Qed.

Lemma notify_ok t f type f' t' : fdb_notify env t f type = Ok (f', t') ->
  f' = (if nlmsg_new env then fill_refresh env f else f) /\
  hash t' = hash t /\ num_fdb_entries t' = num_fdb_entries t /\ stp_of t' = stp_of t /\
  ageing_time t' = ageing_time t.
Proof.
  unfold fdb_notify. destruct (nlmsg_new env); cbn; intros E; [|by simplify_eq].
  binds E n En. by simplify_eq.
Qed.

Lemma fdb_delete_upto t i (j : nat) f t' :
  table_ok t -> (i < Z.to_nat BR_HASH_SIZE)%nat -> chain t i !! j = Some f ->
  fdb_delete env t i j = Ok t' -> upto t t' (delete (f_addr f) (abs t)).
Proof.
  intros Ht Hi Hj. unfold fdb_delete, delete_effects. rewrite Hj. intros E. cbn [of_option] in E.
  binds E f1 E1. injection E1 as <-. binds E x E1. destruct x as [f2 t2].
  destruct (notify_ok _ _ _ _ _ E1) as (_ & H1 & H2 & H3 & H4). injection E as <-. cbn in *.
  apply (upto_delete env t _ i j f); try done; unfold destroy_flows; destruct (_ =? _); done.
Qed.

Lemma create_upto t source addr local static ok t' :
  table_ok t -> abs t !! addr = None -> (local = true -> static = true) ->
  fdb_create env t (br_mac_hash addr) source addr local static = (ok, t') ->
  match create_spec env t (abs t) source addr local static with
  | Some M => ok = true /\ upto t t' M /\
      chain t' (br_mac_hash addr) !! 0%nat = Some (new_entry t source addr local static)
  | None => ok = false /\ t' = t
  end.
Proof.
  intros Ht Hn Hl. unfold fdb_create, create_spec. rewrite <- num_size by done.
  destruct (BR_MAX_FDB_ENTRIES <=? num_fdb_entries t) eqn:Em; cbn [orb]; [by intros [= <- <-]|].
  destruct ((hold_time t =? 0) && negb static); cbn [orb]; [by intros [= <- <-]|].
  destruct (kmem_cache_alloc env); cbn [negb]; intros [= <- <-]; [|done].
  split; [done|]. apply Z.leb_gt in Em. split.
  - by apply (upto_create env t _ (new_entry t source addr local static)).
  - unfold chain. cbn. rewrite nth_lookup, list_lookup_insert_eq; [done|]. by apply hash_lt.
Qed.

(** The notification of a new entry leaves the table alone. *)
Lemma notify_new_upto t addr f t' :
  table_ok t -> chain t (br_mac_hash addr) !! 0%nat = Some f -> fdb_key f = BLOG_KEY_NONE ->
  notify_new env t (br_mac_hash addr) = Ok t' -> upto t t' (abs t) /\
  chain t' (br_mac_hash addr) !! 0%nat = Some f.
Proof.
  intros Ht Hc Hk. unfold notify_new. rewrite Hc. intros E. cbn [of_option] in E.
  binds E f1 E1. injection E1 as <-. binds E x E1. destruct x as [f2 t2].
  destruct (notify_ok _ _ _ _ _ E1) as (Hf & H1 & H2 & H3 & H4). injection E as <-.
  assert (f2 = f) as ->.
  { rewrite Hf. unfold fill_refresh, nud_refresh, refresh.
    destruct (nlmsg_new env), (is_local f || is_static f); rewrite ?Hk; cbn; by rewrite ?Hk. }
  assert (Hh : hash (set_chain (br_mac_hash addr) (<[0%nat := f]> (chain t2 (br_mac_hash addr))) t2)
               = hash t).
  { cbn. unfold chain. rewrite H1. apply list_insert_id. rewrite list_insert_id by done.
    by apply chain_lookup, hash_lt. }
  split; [by apply upto_same|]. revert Hh. generalize (set_chain (br_mac_hash addr)
    (<[0%nat := f]> (chain t2 (br_mac_hash addr))) t2). intros t3 Hh. unfold chain. by rewrite Hh.
Qed.

(** [create_spec] depends on the table only through the times. *)
Lemma create_spec_times t t' M source addr local static :
  stp_of t' = stp_of t -> ageing_time t' = ageing_time t ->
  create_spec env t' M source addr local static = create_spec env t M source addr local static.
Proof.
  intros Hs Ha. destruct (same_times t t' Hs Ha) as [Eh En].
  unfold create_spec, new_entry. by rewrite Eh, En.
Qed.

Lemma insert_new_refines t source addr r t' :
  table_ok t -> abs t !! addr = None -> insert_new env t source addr = Ok (r, t') ->
  let p := created (abs t) (create_spec env t (abs t) source addr true true) in
  r = p.1 /\ upto t t' p.2.
Proof.
  intros Ht Hn. unfold insert_new. destruct (fdb_create _ _ _ _ _ _ _) as [ok t1] eqn:Ec.
  pose proof (create_upto t _ _ _ _ _ _ Ht Hn (fun _ => eq_refl) Ec) as Hc.
  destruct (create_spec _ _ _ _ _ _ _) as [M|]; cbn [created fst snd].
  - destruct Hc as (-> & Hu & Hc). cbn [negb]. intros E. binds E t2 E2. injection E as <- <-.
    destruct (notify_new_upto _ _ _ _ (proj1 Hu) Hc eq_refl E2) as [Hu' _].
    split; [done|]. by eapply upto_trans.
  - destruct Hc as [-> ->]. intros [= <- <-]. by split; [|apply upto_same].
Qed.

Lemma insert_refines t source addr r t' :
  table_ok t -> fdb_insert env t source addr = Ok (r, t') ->
  let p := insert_spec env t (abs t) source addr in r = p.1 /\ upto t t' p.2.
Proof.
  intros Ht. unfold fdb_insert, insert_spec.
  destruct (is_valid_ether_addr addr); cbn [negb]; [|intros [= <- <-]; by split; [|apply upto_same]].
  pose proof (fdb_find_abs env t addr Ht) as Hf. destruct (fdb_find _ addr) as [j|].
  - destruct Hf as (f & Hj & Ea & Hf). rewrite Hf, Hj. cbn [of_option]. intros E.
    binds E f1 E1. injection E1 as <-. destruct (is_local f).
    { injection E as <- <-. by split; [|apply upto_same]. }
    binds E p E1. binds E t1 E2.
    pose proof (fdb_delete_upto t _ j f t1 Ht (br_mac_hash_lt env addr) Hj E2) as Hd.
    rewrite Ea in Hd. pose proof Hd as (H1 & H2 & H3 & H4).
    destruct (insert_new_refines t1 source addr r t') as [Hr Hu]; [done| |done|].
    { rewrite H2. apply lookup_delete_eq. }
    rewrite H2, (create_spec_times t t1) in Hr, Hu by done. split; [done|]. by eapply upto_then.
  - rewrite Hf. by apply insert_new_refines.
Qed.

Lemma add_static_refines t source addr addEntry r t' :
  table_ok t -> abs t !! addr = None -> add_static env t source addr addEntry = Ok (r, t') ->
  let p := if addEntry =? 1
           then created (abs t) (create_spec env t (abs t) source addr false true)
           else (0, abs t) in
  r = p.1 /\ upto t t' p.2.
Proof.
  intros Ht Hn. unfold add_static.
  destruct (addEntry =? 1); [|intros [= <- <-]; by split; [|apply upto_same]].
  destruct (fdb_create _ _ _ _ _ _ _) as [ok t1] eqn:Ec.
  pose proof (create_upto t source addr false true ok t1 Ht Hn ltac:(done) Ec) as Hc.
  destruct (create_spec _ _ _ _ _ _ _) as [M|]; cbn [created fst snd]; intros [= <- <-].
  - by destruct Hc as (-> & Hu & _).
  - destruct Hc as [-> ->]. by split; [|apply upto_same].
Qed.

Lemma static_refines t source addr addEntry r t' :
  table_ok t -> fdb_adddel_static env t source addr addEntry = Ok (r, t') ->
  let p := static_spec env t (abs t) source addr addEntry in r = p.1 /\ upto t t' p.2.
Proof.
  intros Ht. unfold fdb_adddel_static, static_spec.
  destruct (is_valid_ether_addr addr); cbn [negb]; [|intros [= <- <-]; by split; [|apply upto_same]].
  pose proof (fdb_find_abs env t addr Ht) as Hf. destruct (fdb_find _ addr) as [j|].
  - destruct Hf as (f & Hj & Ea & Hf). rewrite Hf, Hj. cbn [of_option]. intros E.
    binds E f1 E1. injection E1 as <-. destruct (_ || _).
    2: { injection E as <- <-. by split; [|apply upto_same]. }
    binds E t1 E2.
    pose proof (fdb_delete_upto t _ j f t1 Ht (br_mac_hash_lt env addr) Hj E2) as Hd.
    rewrite Ea in Hd. pose proof Hd as (H1 & H2 & H3 & H4).
    destruct (add_static_refines t1 source addr addEntry r t') as [Hr Hu]; [done| |done|].
    { rewrite H2. apply lookup_delete_eq. }
    rewrite H2, (create_spec_times t t1) in Hr, Hu by done. split; [done|]. by eapply upto_then.
  - rewrite Hf. by apply add_static_refines.
Qed.

Lemma delete_refines t addr r t' :
  table_ok t -> fdb_delete_by_addr env t addr = Ok (r, t') ->
  let p := delete_spec (abs t) addr in r = p.1 /\ upto t t' p.2.
Proof.
  intros Ht. unfold fdb_delete_by_addr, delete_spec.
  pose proof (fdb_find_abs env t addr Ht) as Hf. destruct (fdb_find _ addr) as [j|].
  - destruct Hf as (f & Hj & Ea & Hf). rewrite Hf. intros E. binds E t1 E1. injection E as <- <-.
    split; [done|]. rewrite <- Ea. by eapply fdb_delete_upto; [|apply br_mac_hash_lt|..].
  - rewrite Hf. intros [= <- <-]. by split; [|apply upto_same].
Qed.

Lemma refresh_addr f : f_addr (refresh env f) = f_addr f.
Proof. unfold refresh. by destruct (_ =? _). Qed.

Lemma refresh_kind f :
  is_local (refresh env f) = is_local f /\ is_static (refresh env f) = is_static f /\
  dst (refresh env f) = dst f.
Proof. unfold refresh. by destruct (_ =? _). Qed.

Lemma refresh_local f : local_static f -> local_static (refresh env f).
Proof. unfold local_static. by destruct (refresh_kind f) as (-> & -> & _). Qed.

Lemma has_expired_times t t' f :
  stp_of t' = stp_of t -> ageing_time t' = ageing_time t -> has_expired t' f = has_expired t f.
Proof.
  intros Hs Ha. destruct (same_times t t' Hs Ha) as [Eh En]. unfold has_expired. by rewrite Eh, En.
Qed.

(** An entry of the map is one of the table. *)
Lemma abs_local t a f : table_ok t -> abs t !! a = Some f -> f_addr f = a /\ local_static f.
Proof.
  intros Ht H. unfold abs in H. rewrite fmap_of_Some in H by apply Ht. destruct H as [H1 H2].
  split; [done|]. pose proof (ok_local _ _ Ht) as H. rewrite Forall_forall in H. by apply H.
Qed.

Lemma get_refines t addr o t' :
  table_ok t -> __br_fdb_get env t addr = (o, t') ->
  let p := get_spec env t (abs t) addr in
  upto t t' p.2 /\
  match o with
  | Some (i, j) => (i < Z.to_nat BR_HASH_SIZE)%nat /\ chain t' i !! j = p.1 /\ p.1 <> None
  | None => p.1 = None
  end.
Proof.
  intros Ht. unfold __br_fdb_get, get_spec.
  pose proof (fdb_find_abs env t addr Ht) as Hf. destruct (fdb_find _ addr) as [j|].
  2: { rewrite Hf. intros [= <- <-]. by split; [apply upto_same|]. }
  destruct Hf as (f & Hj & Ea & Hf). rewrite Hf, Hj.
  destruct (abs_local t addr f Ht Hf) as [_ Hl]. pose proof (br_mac_hash_lt env addr) as Hi.
  set (t1 := set_chain _ _ t).
  assert (Hu : upto t t1 (<[addr := refresh env f]> (abs t))).
  { rewrite <- Ea. apply (upto_change env t t1 (br_mac_hash addr) j f); try done.
    - apply refresh_addr.
    - by apply refresh_local. }
  rewrite (has_expired_times t t1) by apply Hu.
  destruct (has_expired t (refresh env f)) eqn:Ex; intros [= <- <-]; (split; [done|]);
    cbn [fst]; [done|].
  split; [done|]. split; [|done]. unfold chain, t1. cbn.
  rewrite nth_lookup, list_lookup_insert_eq by (by apply hash_lt). cbn.
  apply list_lookup_insert_eq. by eapply lookup_lt_Some.
Qed.

(** [br_fdb_update] refines [update_spec] on the table; it changes the spanning
    tree only through [br_loopback_detected]. *)
Lemma learn_existing_upto t source pt addr (j : nat) f :
  table_ok t -> chain t (br_mac_hash addr) !! j = Some f -> f_addr f = addr ->
  is_local f = false ->
  upto t (learn_existing env t source pt addr (br_mac_hash addr) j f)
    (<[addr := learned env t source pt f]> (abs t)).
Proof.
  intros Ht Hj Ea Hl. unfold learn_existing, learned.
  set (moved := match dst f ≫= _ with Some q => _ | None => false end). clearbody moved. cbv zeta.
  match goal with |- context [set_chain _ _ ?x] => set (t1 := x) end.
  assert (Ht1 : hash t1 = hash t /\ num_fdb_entries t1 = num_fdb_entries t /\
                stp_of t1 = stp_of t /\ ageing_time t1 = ageing_time t).
  { unfold t1, destroy_flows. by destruct moved, (fdb_key f =? BLOG_KEY_NONE). }
  destruct Ht1 as (H1 & H2 & H3 & H4).
  assert (Hc : chain t1 (br_mac_hash addr) = chain t (br_mac_hash addr)) by (unfold chain; by rewrite H1).
  assert (Hn : now t1 = now t) by (unfold now; by rewrite H3). rewrite Hc, Hn.
  set (f' := set_updated _ _). rewrite <- Ea at 3.
  apply (upto_change env t _ (br_mac_hash addr) j f f'); try done.
  - apply br_mac_hash_lt.
  - unfold f'. by destruct (moved && _).
  - unfold f', local_static. destruct (moved && _); cbn; by rewrite Hl.
  - cbn. by rewrite H1.
Qed.

Lemma update_refines t source addr t' :
  table_ok t -> br_fdb_update env t source addr = Ok t' ->
  table_ok t' /\ abs t' = update_spec env t (abs t) source addr /\
  (stp_of t' = stp_of t \/ br_loopback_detected source (stp_of t) = Ok (stp_of t')).
Proof.
  intros Ht. unfold br_fdb_update, update_spec, learns.
  destruct (hold_time t =? 0) eqn:Eh; cbn [negb andb].
  { intros [= <-]. destruct (ports _ !! _); auto. }
  unfold port_at. destruct (ports (br (stp_of t)) !! source) as [pt|] eqn:Ep; [|done].
  intros E. cbn [of_option] in E. binds E p E1. injection E1 as <-.
  rewrite <- bool_decide_or in E. case_bool_decide as Hst; cbn [negb] in E; [|injection E as <-; auto].
  pose proof (fdb_find_abs env t addr Ht) as Hf. destruct (fdb_find _ addr) as [j|].
  - destruct Hf as (f & Hj & Ea & Hf). rewrite Hf. rewrite Hj in E. cbn [of_option] in E.
    binds E f1 E1. injection E1 as <-. destruct (is_local f) eqn:El.
    + destruct (net_ratelimit env); [by injection E as <-; auto|].
      case_bool_decide; [by injection E as <-; auto|]. binds E s Es. injection E as <-.
      destruct Ht. split; [by constructor|]. auto.
    + injection E as <-.
      destruct (learn_existing_upto t source pt addr j f) as (H1 & H2 & H3 & _); auto.
  - rewrite Hf. destruct (fdb_create _ _ _ _ _ _ _) as [ok t1] eqn:Ec.
    pose proof (create_upto t (Some source) addr false false ok t1 Ht Hf ltac:(done) Ec) as Hc.
    destruct (create_spec _ _ _ _ _ _ _) as [M|]; cbn [default].
    + destruct Hc as (-> & Hu & Hc).
      destruct (notify_new_upto _ _ _ _ (proj1 Hu) Hc eq_refl E) as [Hu' _].
      destruct (upto_trans _ _ _ _ Hu Hu') as (? & ? & ? & ?). auto.
    + destruct Hc as [-> ->]. injection E as <-. auto.
Qed.

Lemma nud_refresh_addr f : f_addr (nud_refresh env f) = f_addr f.
Proof. unfold nud_refresh. destruct (_ || _); [done|]. apply refresh_addr. Qed.

Lemma nud_refresh_local f : local_static f -> local_static (nud_refresh env f).
Proof. unfold nud_refresh. destruct (_ || _); [done|]. apply refresh_local. Qed.

Lemma requested_local t nud f : local_static (requested t nud f).
Proof. unfold local_static, requested. by destruct (nonzero (Z.land nud NUD_PERMANENT)). Qed.

Lemma requested_addr t nud f : f_addr (requested t nud f) = f_addr f.
Proof. unfold requested. by destruct (nonzero (Z.land nud NUD_PERMANENT)). Qed.

Lemma add_state_refines t addr (j : nat) f nud r t' :
  table_ok t -> chain t (br_mac_hash addr) !! j = Some f -> f_addr f = addr -> local_static f ->
  add_entry_state env t (br_mac_hash addr) j nud = Ok (r, t') ->
  r = 0 /\ upto t t' (add_state_spec env t (abs t) addr f nud).
Proof.
  intros Ht Hj <- Hl. unfold add_entry_state, add_state_spec. rewrite Hj. cbn [of_option]. intros E.
  binds E f1 E1. injection E1 as <-. binds E cur Ec.
  match goal with |- context [?c =? nud] => assert (c = cur) as -> end.
  { unfold fdb_to_nud in Ec. destruct (is_local f); [by injection Ec|].
    destruct (is_static f); [by injection Ec|]. destruct (dst f); [by injection Ec|done]. }
  pose proof (br_mac_hash_lt env (f_addr f)) as Hi. destruct (cur =? nud).
  { injection E as <- <-. split; [done|].
    apply (upto_change env t _ (br_mac_hash (f_addr f)) j f); try done.
    - apply nud_refresh_addr.
    - by apply nud_refresh_local. }
  binds E x E1. destruct x as [f2 t2]. injection E as <- <-.
  destruct (notify_ok _ _ _ _ _ E1) as (Hf & H1 & H2 & H3 & H4). split; [done|].
  match type of Hf with _ = (if _ then fill_refresh env ?x else _) =>
    assert (x = requested t nud (nud_refresh env f)) as Hx end.
  { unfold requested. destruct (nonzero (Z.land nud NUD_PERMANENT)); [done|].
    by destruct (nonzero (Z.land nud NUD_NOARP)). }
  rewrite Hx in Hf. rewrite <- Hf.
  apply (upto_change env t _ (br_mac_hash (f_addr f)) j f); try done.
  - rewrite Hf. unfold fill_refresh. destruct (nlmsg_new env);
      by rewrite ?refresh_addr, ?nud_refresh_addr, ?requested_addr, ?nud_refresh_addr.
  - rewrite Hf. unfold fill_refresh. destruct (nlmsg_new env);
      [apply refresh_local, nud_refresh_local|]; apply requested_local.
  - cbn. unfold chain. by rewrite H1.
Qed.

Lemma add_state_spec_times t t' M addr f nud :
  stp_of t' = stp_of t -> ageing_time t' = ageing_time t ->
  add_state_spec env t' M addr f nud = add_state_spec env t M addr f nud.
Proof.
  intros Hs Ha. destruct (same_times t t' Hs Ha) as [Eh En]. unfold add_state_spec, requested.
  by rewrite (has_expired_times t t'), En.
Qed.

Lemma add_entry_refines t source addr nud flags r t' :
  table_ok t -> fdb_add_entry env t source addr nud flags = Ok (r, t') ->
  let p := add_entry_spec env t (abs t) source addr nud flags in r = p.1 /\ upto t t' p.2.
Proof.
  intros Ht. unfold fdb_add_entry, add_entry_spec.
  pose proof (fdb_find_abs env t addr Ht) as Hf. destruct (fdb_find _ addr) as [j|].
  - destruct Hf as (f & Hj & Ea & Hf). rewrite Hf.
    destruct (nonzero (Z.land flags NLM_F_EXCL)); intros E.
    { injection E as <- <-. by split; [|apply upto_same]. }
    eapply add_state_refines; try done. by eapply abs_local.
  - rewrite Hf. destruct (nonzero (Z.land flags NLM_F_CREATE)); cbn [negb].
    2: { intros [= <- <-]. by split; [|apply upto_same]. }
    destruct (fdb_create _ _ _ _ _ _ _) as [ok t1] eqn:Ec.
    pose proof (create_upto t (Some source) addr false false ok t1 Ht Hf ltac:(done) Ec) as Hc.
    destruct (create_spec _ _ _ _ _ _ _) as [M|].
    2: { destruct Hc as [-> ->]. intros [= <- <-]. by split; [|apply upto_same]. }
    destruct Hc as (-> & Hu & Hc). cbn [negb fst snd]. intros E. binds E t2 E2.
    destruct (notify_new_upto _ _ _ _ (proj1 Hu) Hc eq_refl E2) as [Hu' Hc'].
    pose proof (upto_trans _ _ _ _ Hu Hu') as Hu2. pose proof Hu2 as (Ht2 & Ha2 & Hs2 & Hg2).
    destruct (add_state_refines t2 addr 0 _ nud r t' Ht2 Hc') as [Hr Hu3]; try done.
    split; [done|]. rewrite Ha2, (add_state_spec_times t t2) in Hu3 by done. by eapply upto_then.
Qed.

(** ** Walks *)

Lemma delete_effects_lost t f t' : delete_effects env t f = Ok t' -> lost 1 t t'.
Proof.
  unfold delete_effects. intros E. binds E x E1. destruct x as [f2 t2].
  destruct (notify_ok _ _ _ _ _ E1) as (_ & H1 & H2 & H3 & H4). injection E as <-.
  unfold lost, destroy_flows. by destruct (_ =? _).
Qed.

Lemma lost_0 t : lost 0 t t.
Proof. unfold lost. repeat split. lia. Qed.

Lemma delete_entry_lost t f o t' : delete_entry env t f = Ok (o, t') -> o = None /\ lost 1 t t'.
Proof.
  unfold delete_entry. intros E. binds E t1 E1. injection E as <- <-. split; [done|].
  by eapply delete_effects_lost.
Qed.

Lemma cleanup_walk_refines t t' :
  table_ok t -> walk_all (cleanup_entry env) chains t = Ok t' -> upto t t' (omap (aged env t) (abs t)).
Proof.
  intros Ht. apply (upto_walk env _ _ (stp_of t) (ageing_time t)); try done.
  - intros t1 f o t2 Hs Ha. unfold cleanup_entry, aged.
    destruct (same_times t t1 Hs Ha) as [-> ->]. destruct (is_static f) eqn:Es.
    { intros [= <- <-]. split; [done|]. apply lost_0. }
    unfold has_expired. destruct (refresh_kind f) as (_ & -> & _). rewrite Es. cbn [negb andb].
    destruct (time_before_eq _ _); [|intros [= <- <-]; split; [done|]; apply lost_0].
    destruct (wl_alive _ _); [intros [= <- <-]; split; [done|]; apply lost_0|].
    intros [-> H]%delete_entry_lost. done.
  - intros f f'. unfold aged. destruct (is_static f); [by intros [= <-]|].
    destruct (has_expired _ _); [|intros [= <-]; apply refresh_addr].
    destruct (wl_alive _ _); [|done]. intros [= <-]. apply refresh_addr.
  - intros f f'. unfold aged. destruct (is_static f); [by intros [= <-]|].
    destruct (has_expired _ _); [|intros [= <-]; apply refresh_local].
    destruct (wl_alive _ _); [|done]. intros [= <-]. intros Hl. by apply (refresh_local f).
Qed.

Lemma flush_refines t t' :
  table_ok t -> br_fdb_flush env t = Ok t' -> upto t t' (omap flushed (abs t)).
Proof.
  intros Ht. apply (upto_walk env _ _ (stp_of t) (ageing_time t)); try done.
  - intros t1 f o t2 _ _. unfold flush_entry, flushed. destruct (is_static f).
    + intros [= <- <-]. split; [done|]. apply lost_0.
    + by intros [-> H]%delete_entry_lost.
  - intros f f'. unfold flushed. by destruct (is_static f); intros [= <-].
  - intros f f'. unfold flushed. by destruct (is_static f); intros [= <-].
Qed.

Lemma other_port_times t t' p a : stp_of t' = stp_of t -> other_port t' p a = other_port t p a.
Proof. intros Hs. unfold other_port. by rewrite Hs. Qed.

Lemma port_flush_refines t p do_all t' :
  table_ok t -> br_fdb_delete_by_port env t p do_all = Ok t' ->
  upto t t' (omap (port_flushed t p do_all) (abs t)).
Proof.
  intros Ht. apply (upto_walk env _ _ (stp_of t) (ageing_time t)); try done.
  - intros t1 f o t2 Hs _. unfold port_flush_entry, port_flushed.
    case_bool_decide; cbn [negb orb]; [|intros [= <- <-]; split; [done|]; apply lost_0].
    destruct (is_static f && (do_all =? 0)); cbn [orb]; [intros [= <- <-]; split; [done|]; apply lost_0|].
    destruct (negb (is_static f) && (do_all =? 2)); [intros [= <- <-]; split; [done|]; apply lost_0|].
    destruct (is_local f); [|by intros [-> Hl]%delete_entry_lost].
    rewrite (other_port_times t t1) by done.
    destruct (other_port t p (f_addr f)); [|by intros [-> Hl]%delete_entry_lost].
    intros [= <- <-]. split; [done|]. apply lost_0.
  - intros f f'. unfold port_flushed. destruct (_ || _ || _); [by intros [= <-]|].
    destruct (is_local f); [|done]. by destruct (other_port _ _ _); intros [= <-].
  - intros f f'. unfold port_flushed. destruct (_ || _ || _); [by intros [= <-]|].
    destruct (is_local f); [|done]. by destruct (other_port _ _ _); intros [= <-].
Qed.

(** ** Address changes *)

Lemma find_pos_spec P l :
  match find_pos P l with
  | Some j => exists f, l !! j = Some f /\ P f = true
  | None => forall f, f ∈ l -> P f = false
  end.
Proof.
  induction l as [|f l IH]; cbn [find_pos]; [by intros f H%elem_of_nil|].
  destruct (P f) eqn:E; [by exists f|]. destruct (find_pos P l); cbn; [done|].
  intros g [->|Hg]%elem_of_cons; auto.
Qed.

Lemma find_entry_spec P t idx :
  match find_entry P t idx with
  | Some (i, j) => i ∈ idx /\ exists f, chain t i !! j = Some f /\ P f = true
  | None => forall i f, i ∈ idx -> f ∈ chain t i -> P f = false
  end.
Proof.
  induction idx as [|i idx IH]; cbn [find_entry]; [by intros i f H%elem_of_nil|].
  pose proof (find_pos_spec P (chain t i)) as Hp. destruct (find_pos P (chain t i)).
  - split; [by left|done].
  - destruct (find_entry P t idx) as [[k j]|].
    + destruct IH as [Hk Hf]. split; [by right|done].
    + intros k f [->|Hk]%elem_of_cons; eauto.
Qed.

Lemma elem_chains i : i ∈ chains <-> (i < Z.to_nat BR_HASH_SIZE)%nat.
Proof. unfold chains. rewrite elem_of_seq. lia. Qed.

Lemma chain_abs t i (j : nat) f : table_ok t -> (i < Z.to_nat BR_HASH_SIZE)%nat ->
  chain t i !! j = Some f -> abs t !! f_addr f = Some f.
Proof. intros Ht Hi Hj. destruct (entries_pick env t i j f) as [-> _]; [done..|]. apply lookup_insert_eq. Qed.

(** The entry of the map is in some chain. *)
Lemma abs_chain t a f : table_ok t -> abs t !! a = Some f ->
  exists i, (i < Z.to_nat BR_HASH_SIZE)%nat /\ f ∈ chain t i.
Proof.
  intros Ht H. unfold abs in H. rewrite fmap_of_Some in H by apply Ht. destruct H as [H _].
  apply elem_entries in H as (i & l & Hi & Hl). pose proof (lookup_lt_Some _ _ _ Hi) as Hlt.
  exists i. rewrite (ok_size _ _ Ht) in Hlt. split; [done|]. unfold chain.
  by rewrite (nth_lookup_Some _ _ [] _ Hi).
Qed.

(** The local address of the port, if it has one, is given to another port
    with that address or deleted; then the new address is inserted. *)
Lemma changeaddr_refines t p newaddr t' :
  table_ok t -> br_fdb_changeaddr env t p newaddr = Ok t' ->
  exists M, upto t t' (insert_spec env t M (Some p) newaddr).2 /\
    (M = abs t /\ (forall a f, abs t !! a = Some f -> dst f = Some p -> is_local f = false) \/
     exists a f, abs t !! a = Some f /\ dst f = Some p /\ is_local f = true /\
       M = released t p (abs t) a f).
Proof.
  intros Ht. unfold br_fdb_changeaddr. intros E. binds E t1 E1. binds E x E2. destruct x as [r t2].
  injection E as <-.
  assert (Hins : forall M, upto t t1 M -> upto t t2 (insert_spec env t M (Some p) newaddr).2).
  { intros M (H1 & H2 & H3 & H4). destruct (insert_refines t1 _ _ _ _ H1 E2) as [_ Hu].
    assert (insert_spec env t1 (abs t1) (Some p) newaddr = insert_spec env t M (Some p) newaddr) as Hi.
    { unfold insert_spec. by rewrite H2, !(create_spec_times t t1). }
    rewrite Hi in Hu. eapply upto_then; [by apply (conj H1 (conj H2 (conj H3 H4)))|done]. }
  match type of E1 with context [find_entry ?P t chains] => pose proof (find_entry_spec P t chains) as Hf;
    destruct (find_entry P t chains) as [[i j]|] end.
  - destruct Hf as (Hi%elem_chains & f & Hj & HP). rewrite Hj in E1. cbn [of_option] in E1.
    binds E1 f1 E3. injection E3 as <-. apply andb_true_iff in HP as [Hd%bool_decide_eq_true Hl].
    pose proof (chain_abs _ _ _ _ Ht Hi Hj) as Ha. destruct (abs_local _ _ _ Ht Ha) as [_ Hls].
    exists (released t p (abs t) (f_addr f) f). split; [|right; by exists (f_addr f), f].
    apply Hins. unfold released. destruct (other_port t p (f_addr f)).
    + injection E1 as <-. by apply (upto_change env t _ i j f).
    + by eapply fdb_delete_upto.
  - injection E1 as <-. exists (abs t). split; [apply Hins; by apply upto_same|]. left. split; [done|].
    intros a f Ha Hd. destruct (abs_chain _ _ _ Ht Ha) as (i & Hi & Hf').
    specialize (Hf i f (proj2 (elem_chains i) Hi) Hf'). rewrite bool_decide_eq_true_2 in Hf by done. done.
Qed.

(** The entry for the address of the bridge device goes if it is the bridge's
    own; then the new address is inserted without a port. *)
Definition change_mac_spec t M (newaddr : list Z) : fdb_map :=
  let d := dev_addr (br (stp_of t)) in
  let '(o, M) := get_spec env t M d in
  let M :=
    match o with
    | Some f => if is_local f && bool_decide (dst f = None) then delete d M else M
    | None => M
    end in
  (insert_spec env t M None newaddr).2.

Lemma change_mac_refines t newaddr t' :
  table_ok t -> br_fdb_change_mac_address env t newaddr = Ok t' ->
  upto t t' (change_mac_spec t (abs t) newaddr).
Proof.
  intros Ht. unfold br_fdb_change_mac_address, change_mac_spec.
  set (d := dev_addr _). destruct (__br_fdb_get env t d) as [o t1] eqn:Eg.
  destruct (get_refines _ _ _ _ Ht Eg) as [Hu Ho]. intros E. binds E t2 E1.
  binds E x E2. destruct x as [r t3]. injection E as <-.
  destruct (get_spec env t (abs t) d) as [of_ M] eqn:Es. cbn [fst snd] in *.
  match goal with |- context [insert_spec env t ?m None newaddr] => assert (Hu2 : upto t t2 m) end.
  { destruct o as [[i j]|]; [|rewrite Ho; by injection E1 as <-].
    destruct Ho as (Hi & Hc & Hs). destruct of_ as [f|]; [|done]. rewrite Hc in E1.
    binds E1 f1 E3. injection E3 as <-. destruct (_ && _); [|by injection E1 as <-].
    assert (f_addr f = d) as Hfd.
    { unfold get_spec in Es. destruct (abs t !! d) as [f0|] eqn:Ef; [|done].
      destruct (has_expired _ _); [done|]. injection Es as <- _. rewrite refresh_addr.
      by eapply abs_local. }
    destruct Hu as (H1 & <- & H3 & H4). pose proof (fdb_delete_upto _ _ _ _ _ H1 Hi Hc E1) as Hd.
    rewrite Hfd in Hd. destruct Hd as (K1 & K2 & K3 & K4). split; [done|]. split; [done|].
    split; congruence. }
  pose proof Hu2 as (K1 & K2 & K3 & K4). destruct (insert_refines t2 _ _ _ _ K1 E2) as [_ Hu3].
  match goal with |- context [insert_spec env t ?m None newaddr] =>
    assert (insert_spec env t2 (abs t2) None newaddr = insert_spec env t m None newaddr) as Hi end.
  { unfold insert_spec. by rewrite K2, !(create_spec_times t t2). }
  rewrite Hi in Hu3. by eapply upto_then.
Qed.

End Refine.
