(* ===== verification/FdbProps.v ===== *)
(** Theorems about the forwarding database: the operations implement a finite
    map, the table stays well-formed through every history, the operations do
    not fault where the callers keep their side of the contract, and the cases
    where the code itself breaks it. *)

From S2P Require Import Prelude Str Stp StpSelect StpState StpSafety Fdb FdbTable FdbRefine.
From stdpp Require Import gmap fin_maps.
Open Scope Z_scope.

(** ** Operations *)

Inductive fdb_op : Type :=
  | Learn (source : nat) (addr : list Z)
  | InsertLocal (source : option nat) (addr : list Z)
  | AddDelStatic (source : option nat) (addr : list Z) (addEntry : Z)
  | ChangeAddr (p : nat) (newaddr : list Z)
  | ChangeMac (newaddr : list Z)
  | Get (addr : list Z)
  | Cleanup
  | Flush
  | DeleteByPort (p : nat) (do_all : Z)
  | AddEntry (source : nat) (addr : list Z) (nud flags : Z)
  | DeleteByAddr (addr : list Z).

(** What a caller sees: a return value, or the entry that was looked up. *)
Inductive answer : Type :=
  | Ret (r : Z)
  | Entry (o : option fdb_entry).

Definition void (m : res fdb) : res (answer * fdb) := t ← m; Ok (Ret 0, t).
Definition ret (m : res (Z * fdb)) : res (answer * fdb) := '(r, t) ← m; Ok (Ret r, t).

Definition fdb_step (env : fdb_env) (op : fdb_op) (t : fdb) : res (answer * fdb) :=
  match op with
  | Learn source addr => void (br_fdb_update env t source addr)
  | InsertLocal source addr => ret (br_fdb_insert env t source addr)
  | AddDelStatic source addr addEntry => ret (br_fdb_adddel_static env t source addr addEntry)
  | ChangeAddr p newaddr => void (br_fdb_changeaddr env t p newaddr)
  | ChangeMac newaddr => void (br_fdb_change_mac_address env t newaddr)
  | Get addr =>
      let '(o, t) := __br_fdb_get env t addr in
      Ok (Entry (match o with Some (i, j) => chain t i !! j | None => None end), t)
  | Cleanup => void (br_fdb_cleanup env t)
  | Flush => void (br_fdb_flush env t)
  | DeleteByPort p do_all => void (br_fdb_delete_by_port env t p do_all)
  | AddEntry source addr nud flags => ret (fdb_add_entry env t source addr nud flags)
  | DeleteByAddr addr => ret (fdb_delete_by_addr env t addr)
  end.

(** The same operations on a map; [t] gives times and ports. *)
Definition spec_step (env : fdb_env) (t : fdb) (op : fdb_op) (M : fdb_map) (a : answer) (M' : fdb_map)
    : Prop :=
  match op with
  | Learn source addr => a = Ret 0 /\ M' = update_spec env t M source addr
  | InsertLocal source addr =>
      let p := insert_spec env t M source addr in a = Ret p.1 /\ M' = p.2
  | AddDelStatic source addr addEntry =>
      let p := static_spec env t M source addr addEntry in a = Ret p.1 /\ M' = p.2
  | ChangeAddr p newaddr =>
      exists M1, M' = (insert_spec env t M1 (Some p) newaddr).2 /\
        (M1 = M /\ (forall x f, M !! x = Some f -> dst f = Some p -> is_local f = false) \/
         exists x f, M !! x = Some f /\ dst f = Some p /\ is_local f = true /\
           M1 = released t p M x f)
  | ChangeMac newaddr => M' = change_mac_spec env t M newaddr
  | Get addr => let p := get_spec env t M addr in a = Entry p.1 /\ M' = p.2
  | Cleanup => M' = omap (aged env t) M
  | Flush => M' = omap flushed M
  | DeleteByPort p do_all => M' = omap (port_flushed t p do_all) M
  | AddEntry source addr nud flags =>
      let p := add_entry_spec env t M source addr nud flags in a = Ret p.1 /\ M' = p.2
  | DeleteByAddr addr => let p := delete_spec M addr in a = Ret p.1 /\ M' = p.2
  end.

Lemma void_Ok m a t' : void m = Ok (a, t') -> a = Ret 0 /\ m = Ok t'.
Proof. unfold void. intros E. binds E t E1. by injection E as <- <-. Qed.

Lemma ret_Ok m a t' : ret m = Ok (a, t') -> exists r, a = Ret r /\ m = Ok (r, t').
Proof. unfold ret. intros E. binds E x E1. destruct x as [r t]. injection E as <- <-. eauto. Qed.

(** Only the spanning tree part differs. *)
Lemma set_stp_table env s t : table_ok env t -> table_ok env (set_stp_of s t).
Proof. intros []. by constructor. Qed.

Lemma cleanup_refines env t t' : table_ok env t -> br_fdb_cleanup env t = Ok t' ->
  table_ok env t' /\ abs t' = omap (aged env t) (abs t).
Proof.
  intros Ht. unfold br_fdb_cleanup. intros E. binds E t1 E1. injection E as <-.
  destruct (cleanup_walk_refines env t t1 Ht E1) as (H1 & H2 & _).
  split; [by apply set_stp_table|done].
Qed.

Lemma step_refines env op t a t' :
  table_ok env t -> fdb_step env op t = Ok (a, t') ->
  table_ok env t' /\ spec_step env t op (abs t) a (abs t').
Proof.
  intros Ht. destruct op; cbn [fdb_step spec_step].
  - intros [-> E]%void_Ok. destruct (update_refines env _ _ _ _ Ht E) as (? & ? & _). auto.
  - intros (r & -> & E)%ret_Ok. destruct (insert_refines env _ _ _ _ _ Ht E) as (-> & ? & -> & _). auto.
  - intros (r & -> & E)%ret_Ok. destruct (static_refines env _ _ _ _ _ _ Ht E) as (-> & ? & -> & _). auto.
  - intros [-> E]%void_Ok. destruct (changeaddr_refines env _ _ _ _ Ht E) as (M & (H & -> & _) & Hm).
    split; [done|]. by exists M.
  - intros [-> E]%void_Ok. destruct (change_mac_refines env _ _ _ Ht E) as (? & -> & _). auto.
  - destruct (__br_fdb_get env t addr) as [o t1] eqn:Eg. intros [= <- <-].
    destruct (get_refines env _ _ _ _ Ht Eg) as [(H & -> & _) Ho]. split; [done|]. split; [|done].
    destruct o as [[i j]|]; [by destruct Ho as (_ & -> & _)|by rewrite Ho].
  - intros [-> E]%void_Ok. by apply cleanup_refines.
  - intros [-> E]%void_Ok. destruct (flush_refines env _ _ Ht E) as (? & -> & _). auto.
  - intros [-> E]%void_Ok. destruct (port_flush_refines env _ _ _ _ Ht E) as (? & -> & _). auto.
  - intros (r & -> & E)%ret_Ok. destruct (add_entry_refines env _ _ _ _ _ _ _ Ht E) as (-> & ? & -> & _). auto.
  - intros (r & -> & E)%ret_Ok. destruct (delete_refines env _ _ _ _ Ht E) as (-> & ? & -> & _). auto.
Qed.

(** C4: the forwarding database implements a finite map from addresses to
    entries.  On a well-formed table every operation of br_fdb.c that returns
    leaves a well-formed table, returns the value and makes the change of the
    map that the specification of the operation says. *)
Theorem fdb_refines_map env op t a t' :
  table_ok env t -> fdb_step env op t = Ok (a, t') ->
  table_ok env t' /\ spec_step env t op (abs t) a (abs t').
Proof. apply step_refines. Qed.

(** ** Faults *)

(** The neighbour state of an entry can be told: a dynamic entry has a port. *)
Definition linked (f : fdb_entry) : Prop :=
  is_local f = true \/ is_static f = true \/ dst f <> None.

Definition all_linked (t : fdb) : Prop := Forall linked (entries t).

Section Safety.
Context (env : fdb_env).
Implicit Types t : fdb.

Lemma notify_safe t f type : linked f -> safe (fdb_notify env t f type).
Proof.
  intros Hf. unfold fdb_notify. destruct (nlmsg_new env); cbn [negb]; [|done].
  assert (Hn : safe (fdb_to_nud env t f)); [|by destruct Hn as [n ->]; eexists].
  unfold fdb_to_nud. destruct (is_local f) eqn:E1; [done|]. destruct (is_static f) eqn:E2; [done|].
  destruct (dst f) eqn:E3; [done|]. unfold linked in Hf. rewrite E1, E2, E3 in Hf.
  by destruct Hf as [?|[?|?]].
Qed.

Lemma delete_effects_safe t f : linked f -> safe (delete_effects env t f).
Proof.
  intros Hf. unfold delete_effects.
  destruct (notify_safe (set_num (num_fdb_entries t - 1) t) f RTM_DELNEIGH Hf) as [[f' t'] ->].
  by eexists.
Qed.

Lemma fdb_delete_safe t i (j : nat) f :
  chain t i !! j = Some f -> linked f -> safe (fdb_delete env t i j).
Proof. intros Hj Hf. unfold fdb_delete. rewrite Hj. by apply delete_effects_safe. Qed.

Lemma refresh_linked f : linked f -> linked (refresh env f).
Proof. unfold linked. by destruct (refresh_kind env f) as (-> & -> & ->). Qed.

Lemma notify_new_safe t i f : chain t i !! 0%nat = Some f -> linked f -> safe (notify_new env t i).
Proof.
  intros Hj Hf. unfold notify_new. rewrite Hj. cbn [of_option mbind res_bind].
  destruct (notify_safe t f RTM_NEWNEIGH Hf) as [[f' t'] ->]. by eexists.
Qed.

(** A body that keeps entries linked, on a table of linked entries. *)
Lemma walk_safe body l t :
  (forall t f, linked f -> safe_in (fun p => hash p.2 = hash t /\
     match p.1 with Some f' => linked f' | None => True end) (body t f)) ->
  Forall linked l ->
  safe_in (fun p => hash p.2 = hash t /\ Forall linked p.1) (walk body l t).
Proof.
  intros Hb. revert t. induction l as [|f l IH]; intros t Hl; cbn [walk].
  { apply safe_in_Ok. done. }
  inversion_clear Hl as [|?? Hf Hl'].
  eapply safe_in_bind; [by apply Hb|]. intros [o t1] [H1 H2]. cbn in H1, H2.
  eapply safe_in_bind; [by apply IH|]. intros [l1 t2] [H3 H4]. cbn in H3, H4.
  apply safe_in_Ok. cbn. split; [congruence|]. by destruct o; [constructor|].
Qed.

Lemma chain_linked t i : all_linked t -> Forall linked (chain t i).
Proof.
  intros H. unfold chain. destruct (hash t !! i) as [l|] eqn:E.
  - rewrite (nth_lookup_Some _ _ [] _ E). apply Forall_forall. intros f Hf.
    unfold all_linked in H. rewrite Forall_forall in H. apply H, elem_entries. eauto.
  - rewrite nth_lookup, E. constructor.
Qed.

Lemma chain_linked_at t i (j : nat) f : all_linked t -> chain t i !! j = Some f -> linked f.
Proof. intros H Hj. by apply (Forall_lookup_1 _ _ _ _ (chain_linked t i H) Hj). Qed.

Lemma set_chain_linked i l t : all_linked t -> Forall linked l -> all_linked (set_chain i l t).
Proof.
  intros H Hl. unfold all_linked. apply Forall_forall.
  intros f (k & l' & Hk & Hf)%elem_entries. cbn in Hk. rewrite list_lookup_insert in Hk.
  case_decide.
  - injection Hk as <-. rewrite Forall_forall in Hl. by apply Hl.
  - unfold all_linked in H. rewrite Forall_forall in H. apply H, elem_entries. eauto.
Qed.

Lemma walk_all_safe body idx t :
  (forall t f, linked f -> safe_in (fun p => hash p.2 = hash t /\
     match p.1 with Some f' => linked f' | None => True end) (body t f)) ->
  all_linked t -> safe_in all_linked (walk_all body idx t).
Proof.
  intros Hb. revert t. induction idx as [|i idx IH]; intros t Ht; cbn [walk_all].
  { by apply safe_in_Ok. }
  eapply safe_in_bind; [apply walk_safe; [done|by apply chain_linked]|].
  intros [l t1] [H1 H2]. cbn in H1, H2. apply IH. apply set_chain_linked; [|done].
  unfold all_linked, entries. by rewrite H1.
Qed.

Lemma delete_entry_safe t f : linked f -> safe_in (fun p => hash p.2 = hash t /\
  match p.1 with Some f' => linked f' | None => True end) (delete_entry env t f).
Proof.
  intros Hf. unfold delete_entry. destruct (delete_effects_safe t f Hf) as [t' E]. rewrite E.
  apply safe_in_Ok. cbn. by destruct (delete_effects_lost env t f t' E) as [-> _].
Qed.

Lemma cleanup_entry_safe t f : linked f -> safe_in (fun p => hash p.2 = hash t /\
  match p.1 with Some f' => linked f' | None => True end) (cleanup_entry env t f).
Proof.
  intros Hf. pose proof (refresh_linked f Hf) as Hr. unfold cleanup_entry.
  destruct (is_static f); [by apply safe_in_Ok|].
  destruct (time_before_eq _ _); [|by apply safe_in_Ok].
  destruct (wl_alive _ _); [by apply safe_in_Ok|]. by apply delete_entry_safe.
Qed.

Lemma flush_entry_safe t f : linked f -> safe_in (fun p => hash p.2 = hash t /\
  match p.1 with Some f' => linked f' | None => True end) (flush_entry env t f).
Proof.
  intros Hf. unfold flush_entry. destruct (is_static f); [by apply safe_in_Ok|].
  by apply delete_entry_safe.
Qed.

Lemma port_flush_entry_safe p do_all t f : linked f -> safe_in (fun p => hash p.2 = hash t /\
  match p.1 with Some f' => linked f' | None => True end) (port_flush_entry env p do_all t f).
Proof.
  intros Hf. unfold port_flush_entry. destruct (negb _); [by apply safe_in_Ok|].
  destruct (_ && _); [by apply safe_in_Ok|]. destruct (_ && _); [by apply safe_in_Ok|].
  destruct (is_local f) eqn:E; [|by apply delete_entry_safe].
  destruct (other_port _ _ _); [|by apply delete_entry_safe]. apply safe_in_Ok. split; [done|]. by left.
Qed.

End Safety.

(** ** Links on maps *)

Definition map_linked (M : fdb_map) : Prop := map_Forall (fun _ => linked) M.

Lemma linked_abs env t : table_ok env t -> all_linked t <-> map_linked (abs t).
Proof.
  intros Ht. unfold all_linked, map_linked, map_Forall. rewrite Forall_forall. split.
  - intros H a f Hf. apply H. unfold abs in Hf. rewrite fmap_of_Some in Hf by apply Ht. apply Hf.
  - intros H f Hf. apply (H (f_addr f)). unfold abs. by rewrite fmap_of_Some by apply Ht.
Qed.

Lemma linked_insert M a f : map_linked M -> linked f -> map_linked (<[a := f]> M).
Proof. intros. by apply map_Forall_insert_2. Qed.

Lemma linked_delete M a : map_linked M -> map_linked (delete a M).
Proof. apply map_Forall_delete. Qed.

Lemma linked_lookup M a f : map_linked M -> M !! a = Some f -> linked f.
Proof. intros H. apply H. Qed.

Lemma linked_omap M g :
  (forall f f', linked f -> g f = Some f' -> linked f') -> map_linked M -> map_linked (omap g M).
Proof.
  intros Hg HM a f' Hf. apply lookup_omap_Some in Hf as (f & E & Hf). eapply Hg; [|done]. by apply (HM a).
Qed.

Create HintDb fdb.
#[local] Hint Resolve linked_insert linked_delete linked_lookup refresh_linked : fdb.

Section Linked.
Context (env : fdb_env).
Implicit Types (t : fdb) (M : fdb_map).

Lemma create_linked t M source addr local static M' :
  local = true \/ static = true \/ source <> None -> map_linked M ->
  create_spec env t M source addr local static = Some M' -> map_linked M'.
Proof.
  intros Hn HM. unfold create_spec. destruct (_ || _); [done|]. intros [= <-].
  by apply linked_insert.
Qed.

Lemma insert_spec_linked t M source addr :
  map_linked M -> map_linked (insert_spec env t M source addr).2.
Proof.
  intros HM. unfold insert_spec, created. destruct (negb _); [done|].
  assert (Hc : forall M0, map_linked M0 -> map_linked
    (match create_spec env t M0 source addr true true with
     | Some M' => (0, M') | None => (- ENOMEM, M0) end).2).
  { intros M0 H0. destruct (create_spec _ _ _ _ _ _ _) eqn:E; [|done].
    refine (create_linked _ _ _ _ _ _ _ _ H0 E). by left. }
  destruct (M !! addr); [|by apply Hc]. destruct (is_local _); [done|]. by apply Hc, linked_delete.
Qed.

Lemma static_spec_linked t M source addr addEntry :
  map_linked M -> map_linked (static_spec env t M source addr addEntry).2.
Proof.
  intros HM. unfold static_spec, created. destruct (negb _); [done|].
  assert (Hc : forall M0, map_linked M0 -> map_linked
    (if addEntry =? 1 then match create_spec env t M0 source addr false true with
     | Some M' => (0, M') | None => (- ENOMEM, M0) end else (0, M0)).2).
  { intros M0 H0. destruct (addEntry =? 1); [|done].
    destruct (create_spec _ _ _ _ _ _ _) eqn:E; [|done].
    refine (create_linked _ _ _ _ _ _ _ _ H0 E). right; by left. }
  destruct (M !! addr); [|by apply Hc]. destruct (_ || _); [|done]. by apply Hc, linked_delete.
Qed.

Lemma update_spec_linked t M source addr :
  map_linked M -> map_linked (update_spec env t M source addr).
Proof.
  intros HM. unfold update_spec. destruct (ports _ !! _); [|done]. destruct (learns _ _); [|done].
  destruct (M !! addr) as [f|].
  - destruct (is_local f); [done|]. apply linked_insert; [done|]. right; right.
    unfold learned. by destruct (_ && _).
  - destruct (create_spec _ _ _ _ _ _ _) eqn:E; [|done]. cbn.
    refine (create_linked _ _ _ _ _ _ _ _ HM E). right; by right.
Qed.

(** The states that user space may ask for an entry: one without a port cannot
    become dynamic. *)
Definition state_ok (nud : Z) (f : fdb_entry) : Prop :=
  dst f <> None \/ Z.land nud NUD_PERMANENT <> 0 \/ Z.land nud NUD_NOARP <> 0.

Lemma nud_refresh_dst f : dst (nud_refresh env f) = dst f.
Proof. unfold nud_refresh. destruct (_ || _); [done|]. apply (refresh_kind env f). Qed.

Lemma nud_refresh_linked f : linked f -> linked (nud_refresh env f).
Proof. unfold nud_refresh. destruct (_ || _); [done|]. apply refresh_linked. Qed.

Lemma nonzero_true x : x <> 0 -> nonzero x = true.
Proof. intros H. unfold nonzero. by apply negb_true_iff, Z.eqb_neq. Qed.

Lemma requested_linked t nud f : state_ok nud f -> linked (requested t nud f).
Proof.
  unfold requested, linked. intros [H|[H|H]].
  - destruct (nonzero (Z.land nud NUD_PERMANENT)); cbn; auto.
  - rewrite (nonzero_true _ H). cbn; auto.
  - rewrite (nonzero_true (Z.land nud NUD_NOARP)) by done. destruct (nonzero _); cbn; auto.
Qed.

Lemma add_state_linked t M addr f nud :
  map_linked M -> linked f -> state_ok nud f -> map_linked (add_state_spec env t M addr f nud).
Proof.
  intros HM Hf Hs. unfold add_state_spec. cbv zeta. case_match.
  - apply linked_insert; [done|]. by apply nud_refresh_linked.
  - apply linked_insert; [done|].
    assert (Hr : linked (requested t nud (nud_refresh env f))).
    { apply requested_linked. unfold state_ok. by rewrite nud_refresh_dst. }
    destruct (nlmsg_new env); [|done]. unfold fill_refresh.
    by apply refresh_linked, nud_refresh_linked.
Qed.

Lemma add_entry_linked t M source addr nud flags :
  map_linked M -> (forall f, M !! addr = Some f -> state_ok nud f) ->
  map_linked (add_entry_spec env t M source addr nud flags).2.
Proof.
  intros HM Hs. unfold add_entry_spec. destruct (M !! addr) as [f|] eqn:E.
  - destruct (nonzero _); [done|]. apply add_state_linked; eauto with fdb.
  - destruct (negb _); [done|]. destruct (create_spec _ _ _ _ _ _ _) eqn:Ec; [|done].
    apply add_state_linked; [|right; by right|by left].
    refine (create_linked _ _ _ _ _ _ _ _ HM Ec). right; by right.
Qed.

Lemma change_mac_linked t M newaddr :
  map_linked M -> map_linked (change_mac_spec env t M newaddr).
Proof.
  intros HM. unfold change_mac_spec, get_spec. destruct (M !! _) as [f|] eqn:E.
  - apply insert_spec_linked. assert (HM1 : map_linked (<[dev_addr (br (stp_of t)) := refresh env f]> M)).
    { eauto with fdb. }
    destruct (has_expired _ _); [done|]. destruct (_ && _); [by apply linked_delete|done].
  - by apply insert_spec_linked.
Qed.

Lemma released_linked t p M a f :
  map_linked M -> M !! a = Some f -> map_linked (released t p M a f).
Proof.
  intros HM Hf. unfold released. destruct (other_port t p a); [|by apply linked_delete].
  apply linked_insert; [done|]. right; by right.
Qed.

Lemma aged_linked t f f' : linked f -> aged env t f = Some f' -> linked f'.
Proof.
  intros Hf. unfold aged. destruct (is_static f); [by intros [= <-]|].
  pose proof (refresh_linked env f Hf) as Hr.
  destruct (has_expired _ _); [|by intros [= <-]]. destruct (wl_alive _ _); [|done]. by intros [= <-].
Qed.

Lemma port_flushed_linked t p do_all f f' :
  linked f -> port_flushed t p do_all f = Some f' -> linked f'.
Proof.
  intros Hf. unfold port_flushed. destruct (_ || _); [by intros [= <-]|].
  destruct (is_local f); [|done]. destruct (other_port _ _ _); [|done]. intros [= <-]. right; by right.
Qed.

(** The caller's side: what each operation needs of its arguments. *)
Definition op_ok t (op : fdb_op) : Prop :=
  match op with
  | Learn source _ => (source < length (ports (br (stp_of t))))%nat
  | InsertLocal source _ => source <> None
  | ChangeMac newaddr => forall f, abs t !! newaddr = Some f -> is_local f = true
  | AddEntry _ addr nud _ => forall f, abs t !! addr = Some f -> state_ok nud f
  | _ => True
  end.

Lemma spec_step_linked t op a M' :
  op_ok t op -> map_linked (abs t) -> spec_step env t op (abs t) a M' -> map_linked M'.
Proof.
  intros Hok HM. destruct op; cbn [spec_step].
  - intros [_ ->]. by apply update_spec_linked.
  - intros [_ ->]. by apply insert_spec_linked.
  - intros [_ ->]. by apply static_spec_linked.
  - intros (M1 & -> & [[-> _]|(x & f & Hx & _ & _ & ->)]); apply insert_spec_linked; [done|].
    by apply released_linked.
  - intros ->. by apply change_mac_linked.
  - intros [_ ->]. unfold get_spec. destruct (abs t !! addr) eqn:E; cbn; eauto with fdb.
  - intros ->. apply linked_omap; [|done]. apply aged_linked.
  - intros ->. apply linked_omap; [|done]. intros f f' Hf. unfold flushed.
    by destruct (is_static f); intros [= <-].
  - intros ->. apply linked_omap; [|done]. apply port_flushed_linked.
  - intros [_ ->]. by apply add_entry_linked.
  - intros [_ ->]. unfold delete_spec. destruct (abs t !! addr); cbn; eauto with fdb.
Qed.

End Linked.

(** ** The operations do not fault *)

Section OpsSafe.
Context (env : fdb_env).
Implicit Types t : fdb.

Lemma create_head t addr source local static t1 : table_ok env t ->
  fdb_create env t (br_mac_hash env addr) source addr local static = (true, t1) ->
  chain t1 (br_mac_hash env addr) !! 0%nat = Some (new_entry t source addr local static).
Proof.
  intros Ht. unfold fdb_create. destruct (_ <=? _); [done|]. destruct (_ && _); [done|].
  destruct (negb _); [done|]. intros [= <-]. unfold chain. cbn.
  rewrite nth_lookup, list_lookup_insert_eq; [done|]. by apply (hash_lt env).
Qed.

Lemma insert_new_safe t source addr : table_ok env t -> safe (insert_new env t source addr).
Proof.
  intros Ht. unfold insert_new. destruct (fdb_create _ _ _ _ _ _ _) as [[] t1] eqn:Ec; cbn [negb]; [|done].
  pose proof (create_head _ _ _ _ _ _ Ht Ec) as Hc.
  destruct (notify_new_safe env t1 _ _ Hc) as [t2 ->]; [by left|]. by eexists.
Qed.

(** What [fdb_find] found can be deleted, and what is left is well-formed. *)
Lemma found_delete_safe t addr (j : nat) : table_ok env t -> all_linked t ->
  fdb_find (chain t (br_mac_hash env addr)) addr = Some j ->
  exists f t1, chain t (br_mac_hash env addr) !! j = Some f /\ abs t !! addr = Some f /\
    fdb_delete env t (br_mac_hash env addr) j = Ok t1 /\ table_ok env t1.
Proof.
  intros Ht Hl E. pose proof (fdb_find_abs env t addr Ht) as Hf. rewrite E in Hf.
  destruct Hf as (f & Hj & _ & Ha).
  destruct (fdb_delete_safe env t _ j f Hj (chain_linked_at t _ j f Hl Hj)) as [t1 E1].
  exists f, t1. split; [done|]. split; [done|]. split; [done|].
  by destruct (fdb_delete_upto env t _ j f t1 Ht (br_mac_hash_lt env addr) Hj E1).
Qed.

Lemma insert_safe t source addr : table_ok env t -> all_linked t ->
  source <> None \/ (forall f, abs t !! addr = Some f -> is_local f = true) ->
  safe (fdb_insert env t source addr).
Proof.
  intros Ht Hl Hs. unfold fdb_insert. destruct (negb _); [done|].
  destruct (fdb_find _ addr) as [j|] eqn:E; [|by apply insert_new_safe].
  destruct (found_delete_safe t addr j Ht Hl E) as (f & t1 & -> & Ha & Hd & Ht1).
  cbn [of_option mbind res_bind]. destruct (is_local f) eqn:El; [done|].
  destruct source as [p|]; [|destruct Hs as [Hs|Hs]; [done|by rewrite (Hs f Ha) in El]].
  cbn [of_option mbind res_bind]. rewrite Hd. by apply insert_new_safe.
Qed.

Lemma static_safe t source addr addEntry : table_ok env t -> all_linked t ->
  safe (fdb_adddel_static env t source addr addEntry).
Proof.
  intros Ht Hl. assert (Hadd : forall t, safe (add_static env t source addr addEntry)).
  { intros t0. unfold add_static. destruct (_ =? _); [|done].
    destruct (fdb_create _ _ _ _ _ _ _). done. }
  unfold fdb_adddel_static. destruct (negb _); [done|].
  destruct (fdb_find _ addr) as [j|] eqn:E; [|apply Hadd].
  destruct (found_delete_safe t addr j Ht Hl E) as (f & t1 & -> & Ha & Hd & Ht1).
  cbn [of_option mbind res_bind]. destruct (_ || _); [|done]. rewrite Hd. apply Hadd.
Qed.

Lemma delete_by_addr_safe t addr : table_ok env t -> all_linked t ->
  safe (fdb_delete_by_addr env t addr).
Proof.
  intros Ht Hl. unfold fdb_delete_by_addr. destruct (fdb_find _ addr) as [j|] eqn:E; [|done].
  destruct (found_delete_safe t addr j Ht Hl E) as (f & t1 & _ & _ & -> & _). by eexists.
Qed.

Lemma changeaddr_safe t p newaddr : table_ok env t -> all_linked t ->
  safe (br_fdb_changeaddr env t p newaddr).
Proof.
  intros Ht Hl. unfold br_fdb_changeaddr.
  assert (Hi : forall t1, table_ok env t1 -> map_linked (abs t1) ->
    safe ('(_, t) ← fdb_insert env t1 (Some p) newaddr; Ok t)).
  { intros t1 H1 H2. apply (linked_abs env) in H2; [|done].
    destruct (insert_safe t1 (Some p) newaddr H1 H2) as [[r t2] ->]; [by left|]. by eexists. }
  apply (linked_abs env) in Hl as HM; [|done].
  match goal with |- context [find_entry ?P t chains] => pose proof (find_entry_spec P t chains) as Hf;
    destruct (find_entry P t chains) as [[i j]|] end; [|by apply Hi].
  destruct Hf as (Hlt%elem_chains & f & Hj & _). rewrite Hj. cbn [of_option mbind res_bind].
  pose proof (chain_abs env _ _ _ _ Ht Hlt Hj) as Ha. destruct (abs_local env _ _ _ Ht Ha) as [_ Hls].
  destruct (other_port t p (f_addr f)) as [op|].
  - destruct (upto_change env t (set_chain i (<[j := set_dst (Some op) f]> (chain t i)) t) i j f
      (set_dst (Some op) f)) as (H1 & H2 & _); try done.
    apply Hi; [done|]. rewrite H2. apply linked_insert; [done|]. right; by right.
  - destruct (fdb_delete_safe env t i j f Hj (chain_linked_at t i j f Hl Hj)) as [t1 E1]. rewrite E1.
    destruct (fdb_delete_upto env t i j f t1 Ht Hlt Hj E1) as (H1 & H2 & _).
    apply Hi; [done|]. rewrite H2. by apply linked_delete.
Qed.

Lemma change_mac_safe t newaddr : table_ok env t -> all_linked t ->
  (forall f, abs t !! newaddr = Some f -> is_local f = true) ->
  safe (br_fdb_change_mac_address env t newaddr).
Proof.
  intros Ht Hl Hn. unfold br_fdb_change_mac_address. set (d := dev_addr _).
  assert (Hi : forall t1, table_ok env t1 -> map_linked (abs t1) ->
    (forall f, abs t1 !! newaddr = Some f -> is_local f = true) ->
    safe ('(_, t) ← fdb_insert env t1 None newaddr; Ok t)).
  { intros t1 H1 H2 H3. apply (linked_abs env) in H2; [|done].
    destruct (insert_safe t1 None newaddr H1 H2) as [[r t2] ->]; [by right|]. by eexists. }
  apply (linked_abs env) in Hl as HM; [|done].
  destruct (__br_fdb_get env t d) as [o t1] eqn:Eg.
  destruct (get_refines env _ _ _ _ Ht Eg) as [(H1 & H2 & _) Ho].
  assert (Hn1 : map_linked (abs t1) /\ forall f, abs t1 !! newaddr = Some f -> is_local f = true).
  { rewrite H2. unfold get_spec. destruct (abs t !! d) as [g|] eqn:Eg'; cbn; [|done].
    split; [eauto with fdb|]. intros f. rewrite lookup_insert. case_decide as Hd; [|by apply Hn].
    intros [= <-]. rewrite (proj1 (refresh_kind env g)). apply Hn. by rewrite <- Hd. }
  destruct Hn1 as [HM1 Hn1]. destruct o as [[i j]|]; [|by apply Hi].
  destruct Ho as (Hlt & Hj & Hs). destruct (get_spec env t (abs t) d).1 as [f|] eqn:E1; [|done].
  rewrite Hj. cbn [of_option mbind res_bind]. destruct (_ && _); [|by apply Hi].
  assert (Hl1 : all_linked t1) by (by apply (linked_abs env)).
  destruct (fdb_delete_safe env t1 i j f Hj (chain_linked_at t1 i j f Hl1 Hj)) as [t2 E2].
  cbn [mbind res_bind] in *. rewrite E2. destruct (fdb_delete_upto env t1 i j f t2 H1 Hlt Hj E2) as (K1 & K2 & _).
  apply Hi; [done|rewrite K2; by apply linked_delete|]. intros g. rewrite K2.
  rewrite lookup_delete. case_decide; [done|]. apply Hn1.
Qed.

Lemma update_safe nos t source addr : table_ok env t -> wf nos (stp_of t) ->
  (source < length (ports (br (stp_of t))))%nat ->
  safe_in (fun t' => wf nos (stp_of t')) (br_fdb_update env t source addr).
Proof.
  intros Ht Hw Hp. unfold br_fdb_update. destruct (_ =? _); [by apply safe_in_Ok|].
  unfold port_at. destruct (lookup_lt_is_Some_2 _ _ Hp) as [pt ->]. cbn [of_option mbind res_bind].
  destruct (negb _); [by apply safe_in_Ok|].
  pose proof (fdb_find_abs env t addr Ht) as Hf. destruct (fdb_find _ addr) as [j|].
  - destruct Hf as (f & -> & _ & _). cbn [of_option mbind res_bind]. destruct (is_local f).
    + destruct (net_ratelimit env); [by apply safe_in_Ok|]. case_bool_decide; [by apply safe_in_Ok|].
      eapply safe_in_bind; [apply (loopback_safe nos); [done|]|].
      { destruct Hw as [[_ <-] _]. by rewrite length_map. }
      intros s Hs. by apply safe_in_Ok.
    + apply safe_in_Ok. unfold learn_existing, destroy_flows. cbn.
      by destruct (match _ with Some _ => _ | None => _ end), (fdb_key f =? BLOG_KEY_NONE).
  - destruct (fdb_create _ _ _ _ _ _ _) as [ok t1] eqn:Ec.
    pose proof (create_upto env t (Some source) addr false false ok t1 Ht Hf ltac:(done) Ec) as Hc.
    destruct (create_spec _ _ _ _ _ _ _).
    + destruct Hc as (-> & (Ht1 & _ & Hs & _) & Hc).
      destruct (notify_new_safe env t1 _ _ Hc) as [t2 E2]; [right; by right|]. rewrite E2.
      apply safe_in_Ok. destruct (notify_new_upto env t1 addr _ t2 Ht1 Hc eq_refl E2) as [(_ & _ & Hs2 & _) _].
      by rewrite Hs2, Hs.
    + destruct Hc as [-> ->]. by apply safe_in_Ok.
Qed.

Lemma add_state_safe t i (j : nat) f nud :
  chain t i !! j = Some f -> linked f -> state_ok nud f -> safe (add_entry_state env t i j nud).
Proof.
  intros Hj Hf Hs. unfold add_entry_state. rewrite Hj. cbn [of_option mbind res_bind].
  assert (Hn : exists n, fdb_to_nud env t f = Ok n).
  { unfold fdb_to_nud. destruct (is_local f) eqn:E1; [eauto|]. destruct (is_static f) eqn:E2; [eauto|].
    destruct (dst f) eqn:E3; [eauto|]. unfold linked in Hf. rewrite E1, E2, E3 in Hf.
    by destruct Hf as [?|[?|?]]. }
  destruct Hn as [n ->]. cbn [mbind res_bind]. destruct (n =? nud); [by eexists|].
  match goal with |- context [fdb_notify env t ?x _] => assert (Hx : linked x) end.
  { pose proof (requested_linked t nud (nud_refresh env f)) as Hr.
    unfold state_ok in Hr. rewrite nud_refresh_dst in Hr. specialize (Hr Hs).
    unfold requested in Hr. destruct (nonzero (Z.land nud NUD_PERMANENT)); [done|].
    by destruct (nonzero (Z.land nud NUD_NOARP)). }
  destruct (notify_safe env t _ RTM_NEWNEIGH Hx) as [[f2 t2] ->]. by eexists.
Qed.

Lemma add_entry_safe t source addr nud flags : table_ok env t -> all_linked t ->
  (forall f, abs t !! addr = Some f -> state_ok nud f) ->
  safe (fdb_add_entry env t source addr nud flags).
Proof.
  intros Ht Hl Hs. unfold fdb_add_entry.
  pose proof (fdb_find_abs env t addr Ht) as Hf. destruct (fdb_find _ addr) as [j|].
  - destruct Hf as (f & Hj & _ & Ha). destruct (nonzero _); [done|].
    apply (add_state_safe _ _ _ f); [done| |by apply Hs]. by eapply chain_linked_at.
  - destruct (negb _); [done|]. destruct (fdb_create _ _ _ _ _ _ _) as [ok t1] eqn:Ec.
    pose proof (create_upto env t (Some source) addr false false ok t1 Ht Hf ltac:(done) Ec) as Hc.
    destruct (create_spec _ _ _ _ _ _ _); [|destruct Hc as [-> ->]; by apply safe_Ok].
    destruct Hc as (-> & (Ht1 & _) & Hc). cbn [negb].
    destruct (notify_new_safe env t1 _ _ Hc) as [t2 E2]; [right; by right|]. rewrite E2.
    destruct (notify_new_upto env t1 addr _ t2 Ht1 Hc eq_refl E2) as [_ Hc2].
    apply (add_state_safe _ _ _ _ _ Hc2); [right; by right|by left].
Qed.

End OpsSafe.

Lemma void_safe m : safe m -> safe (void m).
Proof. intros [t ->]. by eexists. Qed.

Lemma ret_safe m : safe m -> safe (ret m).
Proof. intros [[r t] ->]. by eexists. Qed.

Lemma safe_in_safe {T} (Q : T -> Prop) m : safe_in Q m -> safe m.
Proof. intros (x & -> & _). by eexists. Qed.

Lemma step_safe env nos op t :
  table_ok env t -> all_linked t -> wf nos (stp_of t) -> op_ok t op -> safe (fdb_step env op t).
Proof.
  intros Ht Hl Hw Hok. destruct op; cbn [fdb_step op_ok] in *.
  - apply void_safe. eapply safe_in_safe, update_safe; done.
  - apply ret_safe. apply insert_safe; auto.
  - by apply ret_safe, static_safe.
  - by apply void_safe, changeaddr_safe.
  - by apply void_safe, change_mac_safe.
  - destruct (__br_fdb_get env t addr). by eexists.
  - apply void_safe. unfold br_fdb_cleanup.
    destruct (walk_all_safe (cleanup_entry env) chains t) as (t' & -> & _); [apply cleanup_entry_safe|done|].
    by eexists.
  - apply void_safe. eapply safe_in_safe, walk_all_safe; [apply flush_entry_safe|done].
  - apply void_safe. eapply safe_in_safe, walk_all_safe; [apply port_flush_entry_safe|done].
  - by apply ret_safe, add_entry_safe.
  - by apply ret_safe, delete_by_addr_safe.
Qed.

(** Operations leave the members that the spanning tree invariant is about,
    but for a loop that is detected. *)
Lemma step_stp env op t a t' : table_ok env t -> fdb_step env op t = Ok (a, t') ->
  crit (br (stp_of t')) = crit (br (stp_of t)) \/
  exists p addr, op = Learn p addr /\ br_loopback_detected p (stp_of t) = Ok (stp_of t').
Proof.
  intros Ht. destruct op; cbn [fdb_step].
  - intros [-> E]%void_Ok. destruct (update_refines env _ _ _ _ Ht E) as (_ & _ & [->|H]); eauto.
  - intros (r & -> & E)%ret_Ok. destruct (insert_refines env _ _ _ _ _ Ht E) as (_ & _ & _ & -> & _). auto.
  - intros (r & -> & E)%ret_Ok. destruct (static_refines env _ _ _ _ _ _ Ht E) as (_ & _ & _ & -> & _). auto.
  - intros [-> E]%void_Ok. destruct (changeaddr_refines env _ _ _ _ Ht E) as (M & (_ & _ & -> & _) & _). auto.
  - intros [-> E]%void_Ok. destruct (change_mac_refines env _ _ _ Ht E) as (_ & _ & -> & _). auto.
  - destruct (__br_fdb_get env t addr) as [o t1] eqn:Eg. intros [= <- <-].
    destruct (get_refines env _ _ _ _ Ht Eg) as [(_ & _ & -> & _) _]. auto.
  - intros [-> E]%void_Ok. unfold br_fdb_cleanup in E. binds E t1 E1. injection E as <-.
    destruct (cleanup_walk_refines env t t1 Ht E1) as (_ & _ & Hs & _). left. cbn. by rewrite Hs.
  - intros [-> E]%void_Ok. destruct (flush_refines env _ _ Ht E) as (_ & _ & -> & _). auto.
  - intros [-> E]%void_Ok. destruct (port_flush_refines env _ _ _ _ Ht E) as (_ & _ & -> & _). auto.
  - intros (r & -> & E)%ret_Ok. destruct (add_entry_refines env _ _ _ _ _ _ _ Ht E) as (_ & _ & _ & -> & _). auto.
  - intros (r & -> & E)%ret_Ok. destruct (delete_refines env _ _ _ _ Ht E) as (_ & _ & _ & -> & _). auto.
Qed.

Lemma fdb_step_total env nos op t :
  table_ok env t -> all_linked t -> wf nos (stp_of t) -> op_ok t op ->
  exists a t', fdb_step env op t = Ok (a, t') /\ table_ok env t' /\ all_linked t' /\
    wf nos (stp_of t').
Proof.
  intros Ht Hl Hw Hok. destruct (step_safe env nos op t Ht Hl Hw Hok) as [[a t'] E].
  exists a, t'. split; [done|]. destruct (step_refines env op t a t' Ht E) as [Ht' Hs].
  split; [done|]. split.
  - apply (linked_abs env); [done|]. apply (linked_abs env) in Hl; [|done].
    by eapply spec_step_linked.
  - destruct (step_stp env op t a t' Ht E) as [Hc|(p & addr & -> & Hp)]; [by eapply wf_crit|].
    destruct (loopback_safe nos p (stp_of t) Hw) as (s & Hs' & Hw').
    { cbn in Hok. destruct Hw as [[_ <-] _]. by rewrite length_map. }
    rewrite Hp in Hs'. by injection Hs' as <-.
Qed.

(** No operation of the forwarding database faults when the table is
    well-formed, every dynamic entry has a port, the spanning tree state is
    well-formed and the caller keeps its side: frames come from a port of the
    bridge, a new address of the bridge has not been learned from the network,
    and user space does not make an entry without a port dynamic.  Afterwards
    all of this holds again. *)
Theorem fdb_step_safe env nos op t :
  table_ok env t -> all_linked t -> wf nos (stp_of t) -> op_ok t op ->
  exists a t', fdb_step env op t = Ok (a, t') /\ table_ok env t' /\ all_linked t' /\
    wf nos (stp_of t').
Proof. apply fdb_step_total. Qed.

(** ** Histories *)

(** Everything that touches the table: the operations, the netlink and device
    handlers that call them, a change of the spanning tree state, of the
    ageing time or of the key of an entry by other code. *)
Inductive fdb_event : Type :=
  | Op (op : fdb_op)
  | NetlinkAdd (parsed : Z + ndmsg) (dev : Z -> option (option nat))
  | NetlinkDelete (msg : option ndmsg) (dev : Z -> option (option nat))
  | SetMacAddress (a : list Z)
  | NetdevChangeaddr (p : nat) (a : list Z)
  | StpChange (s : stp)
  | SetAgeing (v : Z)
  | KeySet (i j : nat) (key : Z).

Definition fdb_event_step (env : fdb_env) (e : fdb_event) (t : fdb) : res fdb :=
  match e with
  | Op op => '(_, t) ← fdb_step env op t; Ok t
  | NetlinkAdd parsed dev => '(_, t) ← br_fdb_add env t parsed dev; Ok t
  | NetlinkDelete msg dev => '(_, t) ← br_fdb_delete env t msg dev; Ok t
  | SetMacAddress a => '(_, t) ← br_set_mac_address env t a; Ok t
  | NetdevChangeaddr p a => '(_, t) ← netdev_changeaddr env t p a; Ok t
  | StpChange s => Ok (set_stp_of s t)
  | SetAgeing v => Ok (mk_fdb (stp_of t) (hash t) (num_fdb_entries t) v (notes t))
  | KeySet i j key =>
      match chain t i !! j with
      | Some f => Ok (set_chain i (<[j := set_fdb_key key f]> (chain t i)) t)
      | None => Ok t
      end
  end.

Fixpoint fdb_run (l : list (fdb_env * fdb_event)) (t : fdb) : res fdb :=
  match l with
  | [] => Ok t
  | (env, e) :: l => t ← fdb_event_step env e t; fdb_run l t
  end.

(** The table of a new bridge. *)
Definition fdb_init (s : stp) (ageing : Z) : fdb :=
  mk_fdb s (replicate (Z.to_nat BR_HASH_SIZE) []) 0 ageing [].

Lemma fdb_init_ok env s ageing : table_ok env (fdb_init s ageing).
Proof.
  assert (He : entries (fdb_init s ageing) = []) by done.
  constructor; rewrite ?He; try done; try apply NoDup_nil_2; try apply Forall_nil_2.
  intros i l f [-> _]%lookup_replicate H. by apply elem_of_nil in H.
Qed.

(** Of the environment, the shape of the table depends on the salt only. *)
Lemma table_ok_salt env env' t : fdb_salt env = fdb_salt env' -> table_ok env t -> table_ok env' t.
Proof.
  intros E []. constructor; try done. intros i l f Hi Hf. rewrite <- (ok_chain i l f Hi Hf).
  unfold br_mac_hash. by rewrite E.
Qed.

Lemma event_step_ok env e t t' :
  table_ok env t -> fdb_event_step env e t = Ok t' -> table_ok env t'.
Proof.
  intros Ht. destruct e; cbn [fdb_event_step]; intros E.
  - binds E x E1. destruct x as [a t1]. injection E as <-. by eapply step_refines.
  - binds E x E1. destruct x as [a t1]. injection E as <-. unfold br_fdb_add in E1.
    destruct parsed as [err|m]; [by injection E1 as _ <-|].
    destruct (_ =? 0); [by injection E1 as _ <-|]. destruct (dev _); [|by injection E1 as _ <-].
    destruct (NDA_LLADDR m); [|by injection E1 as _ <-].
    do 3 (destruct (negb _); [by injection E1 as _ <-|]). destruct o; [|by injection E1 as _ <-].
    destruct (nonzero _).
    + binds E1 t2 E2. injection E1 as _ <-. by eapply update_refines.
    + by destruct (add_entry_refines env _ _ _ _ _ _ _ Ht E1) as [_ [? _]].
  - binds E x E1. destruct x as [a t1]. injection E as <-. unfold br_fdb_delete in E1.
    destruct msg as [m|]; [|by injection E1 as _ <-].
    destruct (_ =? 0); [by injection E1 as _ <-|]. destruct (dev _); [|by injection E1 as _ <-].
    destruct (NDA_LLADDR m); [|by injection E1 as _ <-].
    destruct (negb _); [by injection E1 as _ <-|]. destruct o; [|by injection E1 as _ <-].
    by destruct (delete_refines env _ _ _ _ Ht E1) as [_ [? _]].
  - binds E x E1. destruct x as [r t1]. injection E as <-. unfold br_set_mac_address in E1.
    destruct (negb _); [by injection E1 as _ <-|]. binds E1 t2 E2. injection E1 as _ <-.
    apply set_stp_table. destruct (compare_ether_addr _ _); [|by injection E2 as <-].
    binds E2 t3 E3. binds E2 s Es. injection E2 as <-. apply set_stp_table.
    apply (change_mac_refines env) in E3; [|by apply set_stp_table]. apply E3.
  - binds E x E1. destruct x as [r t1]. injection E as <-. unfold netdev_changeaddr in E1.
    binds E1 t2 E2. binds E1 x Es. destruct x as [c s]. injection E1 as _ <-. apply set_stp_table.
    apply (changeaddr_refines env) in E2 as (M & [H _] & _); [done|by apply set_stp_table].
  - injection E as <-. by apply set_stp_table.
  - injection E as <-. destruct Ht. by constructor.
  - destruct (chain t i !! j) as [f|] eqn:Ej; injection E as <-; [|done].
    assert (Hi : (i < Z.to_nat BR_HASH_SIZE)%nat).
    { rewrite <- (ok_size _ _ Ht). apply Nat.nle_gt. intros Hle. unfold chain in Ej.
      by rewrite nth_overflow in Ej. }
    destruct (abs_local env _ _ _ Ht (chain_abs env _ _ _ _ Ht Hi Ej)) as [_ Hl].
    by destruct (upto_change env t (set_chain i (<[j := set_fdb_key key f]> (chain t i)) t) i j f
      (set_fdb_key key f)).
Qed.

Lemma run_ok salt l t t' env :
  Forall (fun p => fdb_salt p.1 = salt) l -> fdb_salt env = salt -> table_ok env t ->
  fdb_run l t = Ok t' -> table_ok env t'.
Proof.
  intros Hl He. revert t. induction l as [|[env1 e] l IH]; intros t Ht E; cbn [fdb_run] in E.
  - by injection E as <-.
  - inversion_clear Hl as [|?? H1 H2]. binds E t1 E1. apply (IH H2 t1); [|done].
    apply (table_ok_salt env1); [cbn in H1; congruence|]. eapply event_step_ok; [|done].
    apply (table_ok_salt env); [cbn in H1; congruence|done].
Qed.

(** C28: from a new bridge on, through every history of operations, netlink
    requests, address changes of ports and bridge and changes by other code,
    the table stays well-formed: no address has two entries, each entry is in
    the chain its address hashes to, the count of the bridge is the number of
    entries, there are at most 4096 of them, and local entries are static. *)
Theorem fdb_history_well_formed salt l s ageing t' env :
  Forall (fun p => fdb_salt p.1 = salt) l -> fdb_salt env = salt ->
  fdb_run l (fdb_init s ageing) = Ok t' -> table_ok env t'.
Proof.
  intros Hl He. apply (run_ok salt); [done..|]. apply fdb_init_ok.
Qed.

(** ** Learning and lookup *)

(** The table [d] jiffies later. *)
Definition later (d : Z) (t : fdb) : fdb :=
  let s := stp_of t in set_stp_of (mk_stp (br s) (u32 (jiffies s + d)) (cpu s) (events s)) t.

(** The entry of a station that is not the bridge itself. *)
Definition entry_after env t (source : nat) pt addr : fdb_entry :=
  match abs t !! addr with
  | Some f => learned env t source pt f
  | None => new_entry t (Some source) addr false false
  end.

Lemma update_learns env t source addr pt :
  table_ok env t -> ports (br (stp_of t)) !! source = Some pt -> learns t pt = true ->
  num_fdb_entries t < BR_MAX_FDB_ENTRIES -> kmem_cache_alloc env = true ->
  (forall f, abs t !! addr = Some f -> is_local f = false) ->
  exists t', br_fdb_update env t source addr = Ok t' /\
    upto env t t' (<[addr := entry_after env t source pt addr]> (abs t)).
Proof.
  intros Ht Hp Hl Hm Ha Hn. unfold learns in Hl. apply andb_true_iff in Hl as [Hh Hst].
  apply negb_true_iff in Hh. apply bool_decide_eq_true in Hst. unfold br_fdb_update, port_at.
  rewrite Hh, Hp. cbn [of_option mbind res_bind]. rewrite <- bool_decide_or, bool_decide_eq_true_2 by done.
  cbn [negb]. unfold entry_after. pose proof (fdb_find_abs env t addr Ht) as Hf.
  destruct (fdb_find _ addr) as [j|].
  - destruct Hf as (f & Hj & Ea & Hf). rewrite Hf, Hj. cbn [of_option mbind res_bind].
    rewrite (Hn f Hf). eexists. split; [done|]. apply learn_existing_upto; auto.
  - rewrite Hf. destruct (fdb_create _ _ _ _ _ _ _) as [ok t1] eqn:Ec.
    pose proof (create_upto env t (Some source) addr false false ok t1 Ht Hf ltac:(done) Ec) as Hc.
    unfold create_spec in Hc. rewrite <- (num_size env), Ha, Hh in Hc by done.
    rewrite (proj2 (Z.leb_gt _ _) Hm) in Hc. cbn [orb andb negb] in Hc. destruct Hc as (-> & Hu & Hc).
    destruct (notify_new_safe env t1 _ _ Hc) as [t2 E2]; [right; by right|]. exists t2. split; [done|].
    destruct (notify_new_upto env t1 addr _ t2 (proj1 Hu) Hc eq_refl E2) as [Hu' _].
    by eapply upto_trans.
Qed.

Lemma time_not_reached x d h :
  0 <= d < h -> h < 2 ^ 31 -> time_before_eq (u32 (x + h)) (u32 (x + d)) = false.
Proof.
  intros Hd Hh. unfold time_before_eq. apply Z.leb_gt.
  assert (E : s32 (u32 (x + d) - u32 (x + h)) = d - h); [|lia].
  unfold s32, u32. rewrite <- Zplus_mod_idemp_l, <- Zminus_mod, Zplus_mod_idemp_l.
  replace (x + d - (x + h) + 2 ^ 31) with (d - h + 2 ^ 31) by lia. rewrite Z.mod_small by lia. lia.
Qed.

(** C34: a station heard on a port that learns or forwards is found there.
    After [br_fdb_update] the lookup of the address gives that port, at every
    time before the hold time has passed, and the entries of all other
    addresses are as before.  The table is not full, there is memory for an
    entry, and if the address has an entry already, it is not one of the bridge
    and has no flow of the accelerator ([fdb_key]). *)
Theorem learned_station_is_found env t source addr pt d :
  table_ok env t -> ports (br (stp_of t)) !! source = Some pt -> learns t pt = true ->
  num_fdb_entries t < BR_MAX_FDB_ENTRIES -> kmem_cache_alloc env = true ->
  (forall f, abs t !! addr = Some f -> is_local f = false /\ fdb_key f = BLOG_KEY_NONE) ->
  0 <= d < hold_time t -> hold_time t < 2 ^ 31 ->
  exists t1 i j t2 f, br_fdb_update env t source addr = Ok t1 /\
    __br_fdb_get env (later d t1) addr = (Some (i, j), t2) /\ chain t2 i !! j = Some f /\
    f_addr f = addr /\ dst f = Some source /\
    forall b, b <> addr -> abs t2 !! b = abs t !! b.
Proof.
  intros Ht Hp Hl Hm Ha Hn Hd Hh.
  destruct (update_learns env t source addr pt) as (t1 & E1 & Ht1 & Ha1 & Hs1 & Hg1); try done.
  { intros f Hf. by apply Hn. }
  set (f := entry_after env t source pt addr) in *.
  assert (Hf : f_addr f = addr /\ dst f = Some source /\ updated f = now t /\ fdb_key f = BLOG_KEY_NONE).
  { unfold f, entry_after. destruct (abs t !! addr) as [g|] eqn:Eg; [|done].
    destruct (Hn g eq_refl) as [_ Hk]. unfold learned. rewrite Hk, andb_false_r. cbn.
    split; [|done]. by destruct (abs_local env _ _ _ Ht Eg). }
  destruct Hf as (Hf1 & Hf2 & Hf3 & Hf4).
  destruct (__br_fdb_get env (later d t1) addr) as [o t2] eqn:Eg.
  destruct (get_refines env (later d t1) addr o t2) as [(H1 & H2 & _) Ho]; [by apply set_stp_table|done|].
  assert (Hr : refresh env f = f) by (unfold refresh; by rewrite Hf4).
  assert (Hx : has_expired (later d t1) f = false).
  { unfold has_expired. rewrite Hf3. apply andb_false_iff. right.
    assert (hold_time (later d t1) = hold_time t) as ->.
    { unfold hold_time. cbn. by rewrite Hs1, Hg1. }
    unfold now, later. cbn. rewrite Hs1. by apply time_not_reached. }
  assert (Hg : get_spec env (later d t1) (abs (later d t1)) addr = (Some f, <[addr := f]> (abs t1))).
  { unfold get_spec. change (abs (later d t1)) with (abs t1). rewrite Ha1, lookup_insert_eq, Hr, Hx. done. }
  rewrite Hg in H2, Ho. cbn [fst snd] in H2, Ho. destruct o as [[i j]|]; [|done].
  destruct Ho as (_ & Hc & _). exists t1, i, j, t2, f. repeat (split; [done|]).
  intros b Hb. by rewrite H2, lookup_insert_ne, Ha1, lookup_insert_ne.
Qed.

(** Before a port is freed, [br_fdb_delete_by_port] with [do_all] 1 takes
    every reference to it out of the table; a local address that another port
    also has goes to that port, and the entries of other ports stay. *)
Theorem port_removal_unlinks env t p t' :
  table_ok env t -> br_fdb_delete_by_port env t p 1 = Ok t' ->
  (forall a f, abs t' !! a = Some f -> dst f <> Some p) /\
  (forall a f, abs t !! a = Some f -> dst f <> Some p -> abs t' !! a = Some f).
Proof.
  intros Ht E. destruct (port_flush_refines env t p 1 t' Ht E) as (_ & Ha & _). rewrite Ha. split.
  - intros a f Hf. apply lookup_omap_Some in Hf as (g & E1 & Hg). revert E1. unfold port_flushed.
    change (1 =? 0) with false. change (1 =? 2) with false. rewrite !andb_false_r, !orb_false_r. case_bool_decide as Hd; cbn [negb]; [|by intros [= <-]].
    destruct (is_local g); [|done]. destruct (other_port t p (f_addr g)) as [op|] eqn:Eo; [|done].
    intros [= <-] [= ->]. unfold other_port in Eo. apply find_some in Eo as [_ Eo].
    by rewrite Nat.eqb_refl in Eo.
  - intros a f Hf Hd. apply lookup_omap_Some. exists f. split; [|done]. unfold port_flushed.
    by rewrite bool_decide_eq_false_2.
Qed.

(** ** Where the code breaks the contract *)

(** When the address of the bridge device changes, the entry of its old
    address stays in the table as it is, although [br_fdb_change_mac_address]
    means to delete it if it is the bridge's own: [br_set_mac_address] has
    written the new address to the device by the time that function looks the
    device address up. *)
Theorem set_mac_keeps_old_address env t new r t' f :
  let old := dev_addr (br (stp_of t)) in
  table_ok env t -> abs t !! old = Some f -> new <> old ->
  br_set_mac_address env t new = Ok (r, t') -> abs t' !! old = Some f.
Proof.
  intros old Ht Hf Hne. unfold br_set_mac_address. destruct (negb _); [by intros [= <- <-]|].
  unfold compare_ether_addr. rewrite bool_decide_eq_false_2 by (by apply not_eq_sym). cbn [negb].
  intros E. binds E t2 E2. injection E as _ <-. binds E2 t3 E3. binds E2 s Es. injection E2 as <-.
  apply (change_mac_refines env) in E3 as (_ & Ha & _); [|by apply set_stp_table].
  change (abs t3 !! old = Some f). rewrite Ha. unfold change_mac_spec.
  cbn [stp_of set_stp_of br upd dev_addr set_dev_addr set_br]. set (t0 := set_stp_of _ t). change (abs t0) with (abs t).
  assert (Hi : forall M, M !! old = Some f -> (insert_spec env t0 M None new).2 !! old = Some f).
  { intros M HM. unfold insert_spec, created, create_spec. destruct (negb _); [exact HM|].
    destruct (M !! new) as [g|]; [destruct (is_local g); [exact HM|]|]; destruct (_ || _ || _); cbn;
      by rewrite ?lookup_insert_ne, ?lookup_delete_ne. }
  unfold get_spec. destruct (abs t !! new); [|by apply Hi].
  destruct (has_expired _ _); [apply Hi; by rewrite lookup_insert_ne|].
  destruct (_ && _); apply Hi; by rewrite ?lookup_delete_ne, lookup_insert_ne.
Qed.

(** Giving the bridge an address that it has learned from the network
    dereferences a null pointer: [fdb_insert] names the device of its source
    in the warning, and the bridge itself has none. *)
Theorem set_mac_of_learned_station_faults env t new f :
  table_ok env t -> abs t !! new = Some f -> is_local f = false ->
  is_valid_ether_addr new = true -> new <> dev_addr (br (stp_of t)) ->
  br_set_mac_address env t new = Fault NullDeref.
Proof.
  intros Ht Hf Hl Hv Hne. unfold br_set_mac_address. rewrite Hv. cbn [negb].
  unfold compare_ether_addr. rewrite bool_decide_eq_false_2 by (by apply not_eq_sym). cbn [negb].
  set (t0 := set_stp_of _ t). assert (Ht0 : table_ok env t0) by (by apply set_stp_table).
  assert (E : br_fdb_change_mac_address env t0 new = Fault NullDeref); [|by rewrite E].
  unfold br_fdb_change_mac_address. change (dev_addr (br (stp_of t0))) with new.
  destruct (__br_fdb_get env t0 new) as [o t1] eqn:Eg.
  destruct (get_refines env _ _ _ _ Ht0 Eg) as [(H1 & H2 & _) Ho].
  unfold get_spec in H2, Ho. change (abs t0) with (abs t) in H2, Ho. rewrite Hf in H2, Ho.
  destruct (refresh_kind env f) as (Hk & _ & _). rewrite Hl in Hk.
  assert (Hins : fdb_insert env t1 None new = Fault NullDeref).
  { unfold fdb_insert. rewrite Hv. cbn [negb]. pose proof (fdb_find_abs env t1 new H1) as Hn.
    rewrite H2 in Hn. cbn [snd] in Hn. rewrite lookup_insert_eq in Hn.
    destruct (fdb_find _ new) as [j|]; [|done]. destruct Hn as (g & -> & _ & [= <-]).
    cbn [of_option mbind res_bind]. by rewrite Hk. }
  destruct o as [[i j]|]; [|cbn [mbind res_bind]; by rewrite Hins].
  destruct Ho as (_ & Hc & Hs). cbn [fst] in Hc, Hs. destruct (has_expired _ _); [done|].
  rewrite Hc. cbn [of_option mbind res_bind]. rewrite Hk. cbn [andb mbind res_bind]. by rewrite Hins.
Qed.

(** Asking over netlink for the address of the bridge itself to be
    reachable dereferences a null pointer: [fdb_add_entry] makes the entry
    dynamic, and [fdb_to_nud] reads the ageing time through its port, which it
    does not have. *)
Theorem netlink_own_address_faults env t source addr f flags :
  table_ok env t -> abs t !! addr = Some f -> is_local f = true -> dst f = None ->
  Z.land flags NLM_F_EXCL = 0 -> nlmsg_new env = true ->
  fdb_add_entry env t source addr NUD_REACHABLE flags = Fault NullDeref.
Proof.
  intros Ht Hf Hl Hd Hx Hm. unfold fdb_add_entry. pose proof (fdb_find_abs env t addr Ht) as Hn.
  rewrite Hf in Hn. destruct (fdb_find _ addr) as [j|]; [|done]. destruct Hn as (g & Hj & _ & [= <-]).
  unfold nonzero at 1. rewrite Hx. cbn [Z.eqb negb]. unfold add_entry_state. rewrite Hj.
  cbn [of_option mbind res_bind]. unfold fdb_to_nud at 1. rewrite Hl. cbn [mbind res_bind].
  change (NUD_PERMANENT =? NUD_REACHABLE) with false. cbn [Z.land].
  unfold nud_refresh. rewrite Hl. cbn [orb].
  change (nonzero (Z.land NUD_REACHABLE NUD_PERMANENT)) with false.
  change (nonzero (Z.land NUD_REACHABLE NUD_NOARP)) with false.
  unfold fdb_notify. rewrite Hm. cbn [negb]. unfold fdb_to_nud.
  cbn [is_local is_static dst set_updated set_used set_kind]. by rewrite Hd.
Qed.

(** ** Examples *)

Definition fdb_env0 : fdb_env :=
  mk_fdb_env 0x12345678 true true false (fun f => updated f) (fun _ => BLOG_KEY_NONE) (fun _ => false).

Definition station : list Z := [0x00; 0x1b; 0x2c; 0x3d; 0x4e; 0x5f].
Definition other_mac : list Z := [0x00; 0x1b; 0x2c; 0x3d; 0x4e; 0x60].

(** A new bridge whose third port forwards. *)
Definition new_fdb : fdb := fdb_init ex_stp (300 * HZ).

Lemma ex_stp_wf : wf [1; 2; 3] ex_stp.
Proof. split; [split; [exact ex_br_ok|done]|]. by left. Qed.

(** A station has been heard, and the bridge has got its own address. *)
Definition start_events : list (fdb_env * fdb_event) :=
  [(fdb_env0, Op (Learn 2 station)); (fdb_env0, SetMacAddress other_mac)].

Definition started : fdb := Eval vm_compute in
  match fdb_run start_events new_fdb with Ok t => t | Fault _ => new_fdb end.

Lemma start_runs : fdb_run start_events new_fdb = Ok started.
Proof. vm_compute. reflexivity. Qed.

Lemma fdb_history_well_formed_witness : table_ok fdb_env0 started.
Proof.
  apply (fdb_history_well_formed 0x12345678 start_events ex_stp (300 * HZ)
    started fdb_env0); [|reflexivity|exact start_runs].
  repeat (apply Forall_cons_2; [reflexivity|]). apply Forall_nil_2.
Defined.

Lemma start_ok : table_ok fdb_env0 started.
Proof.
  apply (run_ok 0x12345678 start_events new_fdb); [|reflexivity|apply fdb_init_ok|exact start_runs].
  repeat (apply Forall_cons_2; [reflexivity|]). apply Forall_nil_2.
Qed.

Lemma fdb_refines_map_witness : exists a t',
  fdb_step fdb_env0 (Learn 2 station) new_fdb = Ok (a, t') /\ table_ok fdb_env0 t' /\
  spec_step fdb_env0 new_fdb (Learn 2 station) (abs new_fdb) a (abs t').
Proof.
  destruct (fdb_step fdb_env0 (Learn 2 station) new_fdb) as [[a t']|] eqn:E; [|vm_compute in E; discriminate E].
  exists a, t'. split; [reflexivity|].
  exact (fdb_refines_map fdb_env0 (Learn 2 station) new_fdb a t' (fdb_init_ok _ _ _) E).
Defined.

Lemma fdb_step_safe_witness : exists a t',
  fdb_step fdb_env0 (Learn 2 station) new_fdb = Ok (a, t') /\ table_ok fdb_env0 t' /\ all_linked t' /\
  wf [1; 2; 3] (stp_of t').
Proof.
  apply (fdb_step_safe fdb_env0 [1; 2; 3] (Learn 2 station) new_fdb).
  - apply fdb_init_ok.
  - apply Forall_nil_2.
  - exact ex_stp_wf.
  - vm_compute. lia.
Defined.

Lemma learned_station_is_found_witness : exists t1 i j t2 f,
  br_fdb_update fdb_env0 new_fdb 2 station = Ok t1 /\
  __br_fdb_get fdb_env0 (later 299999 t1) station = (Some (i, j), t2) /\ chain t2 i !! j = Some f /\
  f_addr f = station /\ dst f = Some 2%nat /\
  forall b, b <> station -> abs t2 !! b = abs new_fdb !! b.
Proof.
  apply (learned_station_is_found fdb_env0 new_fdb 2 station
    (ex_port 3 FORWARDING (ex_id 5) (ex_id 5) 0 32771) 299999).
  - apply fdb_init_ok.
  - reflexivity.
  - vm_compute. reflexivity.
  - vm_compute. reflexivity.
  - reflexivity.
  - intros f H. vm_compute in H. discriminate H.
  - vm_compute. split; [discriminate|reflexivity].
  - vm_compute. reflexivity.
Defined.

Lemma port_removal_unlinks_witness : exists t',
  br_fdb_delete_by_port fdb_env0 started 2 1 = Ok t' /\
  (forall a f, abs t' !! a = Some f -> dst f <> Some 2%nat) /\
  (forall a f, abs started !! a = Some f -> dst f <> Some 2%nat ->
     abs t' !! a = Some f).
Proof.
  destruct (br_fdb_delete_by_port fdb_env0 started 2 1) as [t'|] eqn:E;
    [|vm_compute in E; discriminate E].
  exists t'. split; [reflexivity|].
  exact (port_removal_unlinks fdb_env0 started 2 t' start_ok E).
Defined.

Lemma set_mac_keeps_old_address_witness : exists r t' f,
  br_set_mac_address fdb_env0 started [0; 2; 4; 6; 8; 10] = Ok (r, t') /\
  is_local f = true /\ dst f = None /\ abs t' !! other_mac = Some f.
Proof.
  destruct (br_set_mac_address fdb_env0 started [0; 2; 4; 6; 8; 10])
    as [[r t']|] eqn:E; [|vm_compute in E; discriminate E].
  exists r, t', (mk_entry other_mac None 1000 1000 true true 0).
  split; [reflexivity|]. split; [reflexivity|]. split; [reflexivity|].
  apply (set_mac_keeps_old_address fdb_env0 started [0; 2; 4; 6; 8; 10] r t'
    (mk_entry other_mac None 1000 1000 true true 0) start_ok); [| |exact E].
  - vm_compute. reflexivity.
  - vm_compute. discriminate.
Defined.

Lemma set_mac_of_learned_station_faults_witness :
  br_set_mac_address fdb_env0 started station = Fault NullDeref.
Proof.
  apply (set_mac_of_learned_station_faults fdb_env0 started station
    (mk_entry station (Some 2%nat) 1000 1000 false false 0) start_ok); vm_compute; try reflexivity.
  discriminate.
Defined.

Lemma netlink_own_address_faults_witness :
  fdb_add_entry fdb_env0 started 2 other_mac NUD_REACHABLE 0 = Fault NullDeref.
Proof.
  apply (netlink_own_address_faults fdb_env0 started 2 other_mac
    (mk_entry other_mac None 1000 1000 true true 0) 0 start_ok); vm_compute; reflexivity.
Defined.
