(* ===== verification/Bridge.v ===== *)
(** The data path of the bridge: network devices, socket buffers on a heap,
    the state of one bridge, and netfilter.

    The forwarding code hands buffers on by pointer, keeps two pointers to the
    same buffer ([skb] and [skb2] of br_handle_frame_finish), clones buffers
    and gives each of them away exactly once.  A pointer to a buffer is
    therefore a number, the buffers live in a heap, giving a buffer away takes
    it off the heap, and the use of a pointer to a buffer that is gone is a
    fault.  The code runs in a state and error monad over the bridge.

    Sources: include/linux/skbuff.h and net/core/skbuff.c (kfree_skb,
    skb_clone, skb_share_check, skb_push), include/linux/netdevice.h,
    include/linux/netfilter.h, net/netfilter/core.c, net/core/blog.c (the flow
    records of the packet accelerator), net/bridge/br_private.h, br_igmp.h and
    br_mld.h for the data. *)

From S2P Require Import Prelude Str Stp Fdb.
From stdpp Require Export gmap.
#[global] Open Scope Z_scope.

(** ** Devices *)

(** The members of [struct net_device] the data path reads.  [if_lan] is
    whether the name contains one of the interface names that if_name.h
    defines, [if_wl] whether it begins with the letters wl. *)
Record net_device : Type := mk_dev {
  priv_flags : Z;
  mtu : Z;
  next_dev : option nat;
  refcount : Z;
  hw_port_type : Z;
  rx_handler_data : option nat;
  if_lan : bool;
  if_wl : bool
}.

Definition IFF_BRIDGE_PORT : Z := 0x4000.
Definition IFF_HW_SWITCH : Z := 0x40000.
Definition IFF_EXT_SWITCH : Z := 0x80000.
Definition IFF_WANDEV : Z := 0x200000.
Definition IFF_BCM_VLAN : Z := 0x400000.
Definition IFF_PROMISC : Z := 0x100.

(** ** Socket buffers *)

Definition PACKET_HOST : Z := 0.
Definition PACKET_BROADCAST : Z := 1.
Definition PACKET_MULTICAST : Z := 2.
Definition PACKET_LOOPBACK : Z := 5.
Definition CHECKSUM_NONE : Z := 0.
Definition CHECKSUM_COMPLETE : Z := 2.
Definition ETH_HLEN : Z := 14.
Definition VLAN_HLEN : Z := 4.
Definition ETH_P_IP : Z := 0x0800.
Definition ETH_P_IPV6 : Z := 0x86DD.
Definition ETH_P_8021Q : Z := 0x8100.
Definition ETH_P_PPP_SES : Z := 0x8864.

(** The members of the flow record of the accelerator the bridge uses.  The
    virtual devices a flow has come through are the used part of
    [virt_dev_p], each with its direction and [delta]; an entry of the
    forwarding database in [fdb] is written as its address. *)
Record blog : Type := mk_blog {
  rx_multicast : bool;
  tx_pktlen : Z;
  virt_dev_p : list (nat * Z * Z);
  fdb_src : option (list Z);
  fdb_dst : option (list Z);
  wfd_queue : Z;
  wl_metadata : Z
}.

(** [struct sk_buff]: [mac] is the linear area from the MAC header on, [data]
    and [network_header] are offsets from the MAC header, [headroom] is the
    space before it, [protocol] is in host order, [brdev] is the control
    block's. *)
Record sk_buff : Type := mk_skb {
  users : Z;
  dev : nat;
  mac : list Z;
  headroom : Z;
  data : Z;
  network_header : Z;
  len : Z;
  protocol : Z;
  pkt_type : Z;
  nonlinear : bool;
  gso_size : Z;
  gso_type : Z;
  ip_summed : Z;
  brdev : option nat;
  blog_p : option blog
}.

Definition set_users (v : Z) (s : sk_buff) : sk_buff :=
  mk_skb v (dev s) (mac s) (headroom s) (data s) (network_header s) (len s) (protocol s)
    (pkt_type s) (nonlinear s) (gso_size s) (gso_type s) (ip_summed s) (brdev s) (blog_p s).
Definition set_dev (v : nat) (s : sk_buff) : sk_buff :=
  mk_skb (users s) v (mac s) (headroom s) (data s) (network_header s) (len s) (protocol s)
    (pkt_type s) (nonlinear s) (gso_size s) (gso_type s) (ip_summed s) (brdev s) (blog_p s).
Definition set_data (v l : Z) (s : sk_buff) : sk_buff :=
  mk_skb (users s) (dev s) (mac s) (headroom s) v (network_header s) l (protocol s)
    (pkt_type s) (nonlinear s) (gso_size s) (gso_type s) (ip_summed s) (brdev s) (blog_p s).
Definition set_pkt_type (v : Z) (s : sk_buff) : sk_buff :=
  mk_skb (users s) (dev s) (mac s) (headroom s) (data s) (network_header s) (len s) (protocol s)
    v (nonlinear s) (gso_size s) (gso_type s) (ip_summed s) (brdev s) (blog_p s).
Definition set_ip_summed (v : Z) (s : sk_buff) : sk_buff :=
  mk_skb (users s) (dev s) (mac s) (headroom s) (data s) (network_header s) (len s) (protocol s)
    (pkt_type s) (nonlinear s) (gso_size s) (gso_type s) v (brdev s) (blog_p s).
Definition set_brdev (v : nat) (s : sk_buff) : sk_buff :=
  mk_skb (users s) (dev s) (mac s) (headroom s) (data s) (network_header s) (len s) (protocol s)
    (pkt_type s) (nonlinear s) (gso_size s) (gso_type s) (ip_summed s) (Some v) (blog_p s).
Definition set_blog (v : option blog) (s : sk_buff) : sk_buff :=
  mk_skb (users s) (dev s) (mac s) (headroom s) (data s) (network_header s) (len s) (protocol s)
    (pkt_type s) (nonlinear s) (gso_size s) (gso_type s) (ip_summed s) (brdev s) v.

(** ** Multicast snooping entries *)

(** [struct net_bridge_mc_rep_entry]: a reporter, with the time its
    membership ends. *)
Record mc_rep_entry (A : Type) : Type := mk_rep {
  rep : A;
  tstamp : Z
}.
Arguments mk_rep {A}.
Arguments rep {A}.
Arguments tstamp {A}.

(** [struct net_bridge_mc_fdb_entry]; an IPv4 address is the word [s_addr],
    in network order. *)
Record mc_fdb_entry : Type := mk_mc {
  mc_dst : nat;
  rxGrp : Z;
  txGrp : Z;
  rep_list : list (mc_rep_entry Z);
  mc_src : Z;
  filt_mode : Z;
  lan_tci : Z;
  mc_type : Z;
  root : bool;
  lanppp : Z;
  excludePort : Z;
  enRtpSeqCheck : Z;
  from_dev : nat
}.

(** [struct net_br_mld_mc_fdb_entry]; an IPv6 address is its sixteen bytes. *)
Record mld_fdb_entry : Type := mk_mld {
  mld_dst : nat;
  mld_grp : list Z;
  mld_rep_list : list (mc_rep_entry (list Z));
  mld_src : list Z;
  mld_filt_mode : Z;
  mld_lan_tci : Z;
  mld_type : Z;
  mld_root : bool;
  mld_lanppp : Z;
  mld_from_dev : nat
}.

(** ** The state *)

(** What happens to a buffer that leaves the bridge, the messages to the
    multicast daemon, with the address of the buffer if the daemon decides on
    its admission, and the word to wireless drivers of groups that are gone and of
    the daemon's requests. *)
Inductive ev : Type :=
  | Xmit (s : sk_buff)
  | Receive (s : sk_buff)
  | Freed (s : sk_buff)
  | Stolen (s : sk_buff)
  | Queued (s : sk_buff)
  | ToMcpd (type port_no : Z) (bytes : list Z) (packetIndex : option nat)
  | PurgeEntry (grp rep : Z)
  | FlushEntry (port_no : Z) (grp : list Z)
  | SnoopEntry (val port_no mode : Z) (grp src rep : list Z).

(** The counters of [dev->stats] and of the per-processor statistics. *)
Inductive counter : Type :=
  | tx_dropped
  | rx_packets
  | rx_bytes
  | rx_broadcast_packets
  | multicast
  | rx_multicast_bytes
  | tx_packets
  | tx_bytes
  | tx_broadcast_packets
  | tx_multicast_packets
  | tx_multicast_bytes
  | br_rx_packets
  | br_rx_bytes
  | br_tx_packets
  | br_tx_bytes.
#[global] Instance counter_eq_dec : EqDecision counter.
Proof. solve_decision. Defined.

Record world : Type := mk_world {
  tbl : fdb;
  heap : gmap nat sk_buff;
  next_skb : nat;
  trace : list ev;
  dirty : list bool;
  stats : counter -> Z;
  mc_hash : list (list mc_fdb_entry);
  mld_mc_hash : list (list mld_fdb_entry);
  igmp_delayed_skb : list (option nat * Z);
  igmp_timer : timer;
  mld_timer : timer;
  igmp_rate_bucket : Z;
  igmp_rate_last_packet : Z;
  igmp_rate_rem_time : Z
}.

Definition set_tbl (v : fdb) (w : world) : world :=
  mk_world v (heap w) (next_skb w) (trace w) (dirty w) (stats w) (mc_hash w) (mld_mc_hash w)
    (igmp_delayed_skb w) (igmp_timer w) (mld_timer w) (igmp_rate_bucket w) (igmp_rate_last_packet w)
    (igmp_rate_rem_time w).
Definition set_heap (v : gmap nat sk_buff) (w : world) : world :=
  mk_world (tbl w) v (next_skb w) (trace w) (dirty w) (stats w) (mc_hash w) (mld_mc_hash w)
    (igmp_delayed_skb w) (igmp_timer w) (mld_timer w) (igmp_rate_bucket w) (igmp_rate_last_packet w)
    (igmp_rate_rem_time w).
Definition set_next_skb (v : nat) (w : world) : world :=
  mk_world (tbl w) (heap w) v (trace w) (dirty w) (stats w) (mc_hash w) (mld_mc_hash w)
    (igmp_delayed_skb w) (igmp_timer w) (mld_timer w) (igmp_rate_bucket w) (igmp_rate_last_packet w)
    (igmp_rate_rem_time w).
Definition set_trace (v : list ev) (w : world) : world :=
  mk_world (tbl w) (heap w) (next_skb w) v (dirty w) (stats w) (mc_hash w) (mld_mc_hash w)
    (igmp_delayed_skb w) (igmp_timer w) (mld_timer w) (igmp_rate_bucket w) (igmp_rate_last_packet w)
    (igmp_rate_rem_time w).
Definition set_dirty (v : list bool) (w : world) : world :=
  mk_world (tbl w) (heap w) (next_skb w) (trace w) v (stats w) (mc_hash w) (mld_mc_hash w)
    (igmp_delayed_skb w) (igmp_timer w) (mld_timer w) (igmp_rate_bucket w) (igmp_rate_last_packet w)
    (igmp_rate_rem_time w).
Definition set_stats (v : counter -> Z) (w : world) : world :=
  mk_world (tbl w) (heap w) (next_skb w) (trace w) (dirty w) v (mc_hash w) (mld_mc_hash w)
    (igmp_delayed_skb w) (igmp_timer w) (mld_timer w) (igmp_rate_bucket w) (igmp_rate_last_packet w)
    (igmp_rate_rem_time w).
Definition set_mc_hash (v : list (list mc_fdb_entry)) (w : world) : world :=
  mk_world (tbl w) (heap w) (next_skb w) (trace w) (dirty w) (stats w) v (mld_mc_hash w)
    (igmp_delayed_skb w) (igmp_timer w) (mld_timer w) (igmp_rate_bucket w) (igmp_rate_last_packet w)
    (igmp_rate_rem_time w).
Definition set_mld_mc_hash (v : list (list mld_fdb_entry)) (w : world) : world :=
  mk_world (tbl w) (heap w) (next_skb w) (trace w) (dirty w) (stats w) (mc_hash w) v
    (igmp_delayed_skb w) (igmp_timer w) (mld_timer w) (igmp_rate_bucket w) (igmp_rate_last_packet w)
    (igmp_rate_rem_time w).
Definition set_delayed (v : list (option nat * Z)) (w : world) : world :=
  mk_world (tbl w) (heap w) (next_skb w) (trace w) (dirty w) (stats w) (mc_hash w) (mld_mc_hash w)
    v (igmp_timer w) (mld_timer w) (igmp_rate_bucket w) (igmp_rate_last_packet w) (igmp_rate_rem_time w).
Definition set_igmp_timer (v : timer) (w : world) : world :=
  mk_world (tbl w) (heap w) (next_skb w) (trace w) (dirty w) (stats w) (mc_hash w) (mld_mc_hash w)
    (igmp_delayed_skb w) v (mld_timer w) (igmp_rate_bucket w) (igmp_rate_last_packet w) (igmp_rate_rem_time w).
Definition set_mld_timer (v : timer) (w : world) : world :=
  mk_world (tbl w) (heap w) (next_skb w) (trace w) (dirty w) (stats w) (mc_hash w) (mld_mc_hash w)
    (igmp_delayed_skb w) (igmp_timer w) v (igmp_rate_bucket w) (igmp_rate_last_packet w) (igmp_rate_rem_time w).
Definition set_rate (bucket last rem : Z) (w : world) : world :=
  mk_world (tbl w) (heap w) (next_skb w) (trace w) (dirty w) (stats w) (mc_hash w) (mld_mc_hash w)
    (igmp_delayed_skb w) (igmp_timer w) (mld_timer w) bucket last rem.

(** A netfilter hook sees the devices and the buffer; it returns a verdict
    and may change the buffer. *)
Definition nf_hookfn : Type := option nat -> option nat -> sk_buff -> Z * sk_buff.

(** What the data path takes from outside: the configuration of the bridge
    and of the devices, the outcome of allocations (the n-th buffer; entries
    and reporters of groups, those that may sleep, [mc_alloc] and [rep_alloc],
    and the atomic ones, of which those of reporters are counted), the clock, the functions other modules have registered, and what the packet
    accelerator makes of a snooping entry: its return value and the number of
    copies of the entry it asks for. *)
Record net : Type := mk_net {
  fenv : fdb_env;
  devs : list net_device;
  port_dev : nat -> nat;
  BR_HAIRPIN_MODE : nat -> bool;
  br_dev : nat;
  br_dev_flags : Z;
  group_fwd_mask : Z;
  skb_alloc : nat -> bool;
  blog_get : bool;
  nf_hooks : Z -> list nf_hookfn;
  nf_queue : sk_buff -> Z -> Z;
  wifi_iso_listen_forward_cb : option (sk_buff -> Z);
  wifi_iso_listen_local_cb : option (sk_buff -> Z);
  dns_hijack_hook : option (sk_buff -> Z);
  br_should_route_hook : option (sk_buff -> Z * sk_buff);
  wl_pktc_req_hook : option (Z -> list Z -> nat -> Z);
  ktime_get : Z;
  igmp_rate_limit : Z;
  igmp_proxy : Z;
  igmp_snooping : Z;
  mld_proxy : Z;
  mld_snooping : Z;
  mcpd_pid : Z;
  snoop_primary_pid : Z;
  mcpdControlsIgmpAdmission : bool;
  mcpdControlsMldAdmission : bool;
  mcpd_alloc : bool;
  mc_alloc : bool;
  rep_alloc : bool;
  mc_atomic : bool;
  rep_atomic : nat -> bool;
  br_mcast_blog_process : mc_fdb_entry -> Z * nat;
  br_mcast_blog_process_mld : mld_fdb_entry -> Z * nat;
  br_igmp_mc_fdb_salt : Z;
  br_mld_mc_fdb_salt : Z
}.

(** ** The monad *)

Definition M (A : Type) : Type := world -> res (A * world).
#[global] Instance M_ret : MRet M := fun A a w => Ok (a, w).
#[global] Instance M_bind : MBind M := fun A B k m w =>
  match m w with Ok (a, w) => k a w | Fault e => Fault e end.

Definition gets {A} (f : world -> A) : M A := fun w => Ok (f w, w).
Definition modify (f : world -> world) : M unit := fun w => Ok (tt, f w).
Definition lift {A} (m : res A) : M A := fun w => a ← m; Ok (a, w).
Definition fail {A} (e : fault) : M A := fun _ => Fault e.

Fixpoint for_each {A} (l : list A) (body : A -> M unit) : M unit :=
  match l with
  | [] => mret tt
  | x :: l => body x;; for_each l body
  end.

(** ** Buffers *)

Definition emit_ev (e : ev) : M unit := modify (fun w => set_trace (trace w ++ [e]) w).

(** [c += n]: [unsigned long] members of [dev->stats], 64-bit ones of the
    per-processor statistics. *)
Definition count (c : counter) (n : Z) : M unit :=
  modify (fun w => set_stats (fun c' =>
    if bool_decide (c' = c) then
      let v := stats w c + n in
      match c with
      | br_rx_packets | br_rx_bytes | br_tx_packets | br_tx_bytes => u64 v
      | _ => u32 v
      end
    else stats w c') w).

(** Reading and writing through a pointer. *)
Definition skb_at (i : nat) : M sk_buff := fun w =>
  match heap w !! i with Some s => Ok (s, w) | None => Fault UseAfterFree end.
Definition skb_set (i : nat) (s : sk_buff) : M unit :=
  modify (fun w => set_heap (<[i := s]> (heap w)) w).
Definition skb_upd (i : nat) (f : sk_buff -> sk_buff) : M unit :=
  s ← skb_at i; skb_set i (f s).

(** A reference given up: the buffer goes away with the last one. *)
Definition skb_put (i : nat) : M unit :=
  s ← skb_at i;
  if users s =? 1 then modify (fun w => set_heap (delete i (heap w)) w)
  else skb_set i (set_users (users s - 1) s).

Definition kfree_skb (i : nat) : M unit :=
  s ← skb_at i; skb_put i;; if users s =? 1 then emit_ev (Freed s) else mret tt.

(** [dev_queue_xmit], [netif_receive_skb]: the caller's reference passes to
    the driver or to the network stack. *)
Definition dev_queue_xmit (i : nat) : M Z := s ← skb_at i; emit_ev (Xmit s);; skb_put i;; mret 0.
Definition netif_receive_skb (i : nat) : M Z :=
  s ← skb_at i; emit_ev (Receive s);; skb_put i;; mret 0.

Section Net.
Context (N : net).

(** The flow record goes to the clone ([__copy_skb_header]). *)
Definition skb_clone (i : nat) : M (option nat) :=
  s ← skb_at i;
  n ← gets next_skb;
  modify (set_next_skb (S n));;
  if skb_alloc N n then
    skb_set i (set_blog None s);; skb_set n (set_users 1 s);; mret (Some n)
  else mret None.

(** [blog_skip], [blog_clone] with the flow record of another buffer. *)
Definition blog_skip (i : nat) : M unit := skb_upd i (set_blog None).
Definition blog_clone (i : nat) (prev : option blog) : M unit :=
  match prev with
  | None => mret tt
  | Some b =>
      skb_upd i (set_blog (if blog_get N
        then Some (mk_blog (rx_multicast b) 0 (virt_dev_p b) None None 0 0) else None))
  end.

(** [blog_link] of a device ([IF_DEVICE]) and of an entry of the forwarding
    database ([BRIDGEFDB]). *)
Definition MAX_VIRT_DEV : nat := 7.
Definition DIR_RX : Z := 0.
Definition DIR_TX : Z := 1.
Definition BLOG_PARAM1_SRCFDB : Z := 0.
Definition BLOG_PARAM1_DSTFDB : Z := 1.

Definition link_device (net_p : nat) (param1 param2 : Z) (b : blog) : blog :=
  if bool_decide (length (virt_dev_p b) < MAX_VIRT_DEV)%nat then
    let d := Z.land (u32 (param2 - tx_pktlen b)) 0xFF in
    let delta := if d <? 128 then d else d - 256 in
    mk_blog (rx_multicast b) (tx_pktlen b) (virt_dev_p b ++ [(net_p, param1, delta)])
      (fdb_src b) (fdb_dst b) (wfd_queue b) (wl_metadata b)
  else b.

Definition link_fdb (net_p : option (list Z)) (param1 : Z) (b : blog) : blog :=
  let '(src, dst) :=
    if param1 =? BLOG_PARAM1_SRCFDB then (net_p, fdb_dst b) else (fdb_src b, net_p) in
  mk_blog (rx_multicast b) (tx_pktlen b) (virt_dev_p b) src dst (wfd_queue b) (wl_metadata b).

Definition blog_link (link : blog -> blog) (i : nat) : M unit :=
  skb_upd i (fun s => set_blog (link <$> blog_p s) s).

Definition skb_share_check (i : nat) : M (option nat) :=
  s ← skb_at i;
  if negb (users s =? 1) then nskb ← skb_clone i; kfree_skb i;; mret nskb else mret (Some i).

(** [skb_push], whose panic is a failed [BUG_ON]. *)
Definition skb_push (i : nat) (n : Z) : M unit :=
  s ← skb_at i;
  if data s - n <? - headroom s then fail BugOn
  else skb_set i (set_data (data s - n) (u32 (len s + n)) s).

(** [skb_pull], [skb_reset_mac_header]. *)
Definition skb_pull (n : Z) (s : sk_buff) : sk_buff :=
  if len s <? n then s else set_data (data s + n) (len s - n) s.
Definition skb_reset_mac_header (s : sk_buff) : sk_buff :=
  mk_skb (users s) (dev s) (drop (Z.to_nat (data s)) (mac s)) (headroom s + data s) 0
    (network_header s - data s) (len s) (protocol s) (pkt_type s) (nonlinear s) (gso_size s)
    (gso_type s) (ip_summed s) (brdev s) (blog_p s).

Definition skb_is_gso (s : sk_buff) : bool := nonzero (gso_size s).

Definition skb_warn_if_lro (s : sk_buff) : bool :=
  nonlinear s && nonzero (gso_size s) && (gso_type s =? 0).

Definition skb_forward_csum (s : sk_buff) : sk_buff :=
  if ip_summed s =? CHECKSUM_COMPLETE then set_ip_summed CHECKSUM_NONE s else s.

(** [eth_hdr(skb)->h_dest], [->h_source]. *)
Definition h_dest (s : sk_buff) : list Z := slice (mac s) 0 6.
Definition h_source (s : sk_buff) : list Z := slice (mac s) 6 6.

Definition be16_at (b : list Z) (o : Z) : res Z := x ← rd b o; y ← rd b (o + 1); Ok (256 * x + y).
(** A 32-bit word as a little-endian load finds it. *)
Definition le32_at (b : list Z) (o : Z) : res Z :=
  a ← rd b o; b1 ← rd b (o + 1); c ← rd b (o + 2); d ← rd b (o + 3);
  Ok (a + 256 * (b1 + 256 * (c + 256 * d))).
Definition le16_at (b : list Z) (o : Z) : res Z := x ← rd b o; y ← rd b (o + 1); Ok (x + 256 * y).
Definition htonl (x : Z) : Z :=
  x / 2 ^ 24 mod 256 + 256 * (x / 2 ^ 16 mod 256 + 256 * (x / 2 ^ 8 mod 256 + 256 * (x mod 256))).

Definition is_broadcast_ether_addr (a : list Z) : bool :=
  Z.land (Z.land (Z.land (Z.land (Z.land (byte_of a 0) (byte_of a 1)) (byte_of a 2)) (byte_of a 3))
    (byte_of a 4)) (byte_of a 5) =? 0xff.

(** ** Devices *)

Definition dev_at (d : nat) : res net_device := of_option NullDeref (devs N !! d).

Definition br_port_get_rcu (d : nat) : res (option nat) :=
  x ← dev_at d;
  Ok (if nonzero (Z.land (priv_flags x) IFF_BRIDGE_PORT) then rx_handler_data x else None).

(** Whether no device is stacked on [d]. *)
Definition netdev_path_is_leaf (d : nat) : res bool := x ← dev_at d; Ok (refcount x =? 0).

(** The physical device under [d]. *)
Fixpoint path_root (fuel : nat) (d : nat) : res nat :=
  match fuel with
  | O => Fault OutOfFuel
  | S fuel =>
      x ← dev_at d;
      match next_dev x with None => Ok d | Some d => path_root fuel d end
  end.
Definition netdev_path_get_root (d : nat) : res nat := path_root (S (length (devs N))) d.

(** ** The ports of the bridge *)

Definition port_of (p : nat) : M net_bridge_port :=
  w ← gets tbl; lift (port_at (stp_of w) p).
Definition port_list_of : M (list nat) := gets (fun w => port_list (stp_of (tbl w))).

(** ** Netfilter *)

Definition NF_DROP : Z := 0.
Definition NF_ACCEPT : Z := 1.
Definition NF_STOLEN : Z := 2.
Definition NF_QUEUE : Z := 3.
Definition NF_REPEAT : Z := 4.
Definition NF_STOP : Z := 5.
Definition NF_VERDICT_MASK : Z := 0xff.
Definition NF_VERDICT_QBITS : Z := 16.
Definition NF_VERDICT_FLAG_QUEUE_BYPASS : Z := 0x8000.
Definition ECANCELED : Z := 125.
Definition ESRCH : Z := 3.

Definition NF_BR_PRE_ROUTING : Z := 0.
Definition NF_BR_LOCAL_IN : Z := 1.
Definition NF_BR_FORWARD : Z := 2.
Definition NF_BR_LOCAL_OUT : Z := 3.
Definition NF_BR_POST_ROUTING : Z := 4.

(** One hook, called again as long as it says [NF_REPEAT].  A hook that says
    [NF_STOLEN] has taken the buffer. *)
Fixpoint call_hook (fuel : nat) (h : nf_hookfn) (i : nat) (indev outdev : option nat) : M Z :=
  match fuel with
  | O => fail OutOfFuel
  | S fuel =>
      s ← skb_at i;
      let '(verdict, s) := h indev outdev s in
      skb_set i s;;
      if verdict =? NF_REPEAT then call_hook fuel h i indev outdev
      else if verdict =? NF_STOLEN then emit_ev (Stolen s);; skb_put i;; mret verdict
      else mret verdict
  end.

Definition REPEAT_BOUND : nat := 16.

(** [nf_iterate] from the hook at the head of the list on: the verdict and
    the hooks after the one that gave it. *)
Fixpoint nf_iterate (hooks : list nf_hookfn) (i : nat) (indev outdev : option nat)
    : M (Z * list nf_hookfn) :=
  match hooks with
  | [] => mret (NF_ACCEPT, [])
  | h :: hooks =>
      verdict ← call_hook REPEAT_BOUND h i indev outdev;
      if negb (verdict =? NF_ACCEPT) then mret (verdict, hooks)
      else nf_iterate hooks i indev outdev
  end.

Definition NF_DROP_GETERR (verdict : Z) : Z := - (verdict / 2 ^ NF_VERDICT_QBITS).

(** [nf_hook_slow], from [next_hook] on. *)
Fixpoint nf_hook_slow (fuel : nat) (hooks : list nf_hookfn) (i : nat) (indev outdev : option nat)
    : M Z :=
  match fuel with
  | O => fail OutOfFuel
  | S fuel =>
      '(verdict, elem) ← nf_iterate hooks i indev outdev;
      if (verdict =? NF_ACCEPT) || (verdict =? NF_STOP) then mret 1
      else if Z.land verdict NF_VERDICT_MASK =? NF_DROP then
        kfree_skb i;;
        let ret := NF_DROP_GETERR verdict in
        mret (if ret =? 0 then - EPERM else ret)
      else if Z.land verdict NF_VERDICT_MASK =? NF_QUEUE then
        s ← skb_at i;
        let err := nf_queue N s (verdict / 2 ^ NF_VERDICT_QBITS) in
        if err <? 0 then
          if err =? - ECANCELED then nf_hook_slow fuel elem i indev outdev
          else if (err =? - ESRCH) && nonzero (Z.land verdict NF_VERDICT_FLAG_QUEUE_BYPASS) then
            nf_hook_slow fuel elem i indev outdev
          else kfree_skb i;; mret 0
        else emit_ev (Queued s);; skb_put i;; mret 0
      else mret 0
  end.

Definition NF_HOOK (hook : Z) (i : nat) (indev outdev : option nat) (okfn : nat -> M Z) : M Z :=
  ret ← nf_hook_slow (S (length (nf_hooks N hook))) (nf_hooks N hook) i indev outdev;
  if ret =? 1 then okfn i else mret ret.

End Net.
