(* ===== verification/BrExample.v ===== *)
(** A bridge with three ports and a frame, on which the theorems about the
    data path are tried out. *)

From S2P Require Import Prelude Str Stp StpSelect StpSafety Fdb FdbTable FdbRefine FdbProps Bridge.

(** Ports 1 and 2 forward, port 3 is blocked. *)
Definition demo_stp (st : port_state) : stp :=
  mk_stp
    (mk_br (ex_id 5) (ex_id 5) 0 0 20000 2000 15000 20000 2000 15000 BR_KERNEL_STP false false
       None None None None [1; 128; 194; 0; 0; 0] true [0; 0; 0; 0; 0; 5] true true
       [ex_port 1 st (ex_id 5) (ex_id 5) 0 32769; ex_port 2 FORWARDING (ex_id 5) (ex_id 5) 0 32770;
        ex_port 3 BLOCKING (ex_id 5) (ex_id 5) 0 32771]) 1000 0 [].

Lemma demo_wf st : wf [1; 2; 3] (demo_stp st).
Proof.
  assert (Hi : bid_ok (ex_id 5)) by (apply ex_id_ok; unfold is_u8; lia).
  split; [|by left]. split; [|done]. constructor; try done.
  - repeat first [apply List.Forall_nil | apply List.Forall_cons;
      [apply ex_port_ok; try done; unfold is_u16, is_u32; lia|]].
  - apply (bool_decide_unpack (NoDup [1; 2; 3])). vm_compute. done.
Qed.

(** The devices of the three ports and of the bridge. *)
Definition demo_devs : list net_device :=
  [mk_dev IFF_BRIDGE_PORT 1500 None 0 1 (Some 0%nat) false false;
   mk_dev IFF_BRIDGE_PORT 1500 None 0 1 (Some 1%nat) false false;
   mk_dev IFF_BRIDGE_PORT 1500 None 0 1 (Some 2%nat) false true;
   mk_dev 0 1500 None 0 0 None false false].

Definition demo_net (hooks : Z -> list nf_hookfn) (admission : bool) : net :=
  mk_net fdb_env0 demo_devs id (fun _ => false) 3 0 0 (fun _ => true) true hooks (fun _ _ => 0)
    None None None None None 0 0 0 1 0 1 100 100 admission false true true true true (fun _ => true) (fun _ => (0, 0%nat))
    (fun _ => (0, 0%nat)) 7 7.

(** A frame of 100 bytes from device 0 to [dest], from [station], with the
    given protocol and payload. *)
Definition demo_frame (dest : list Z) (proto : Z) (payload : list Z) : sk_buff :=
  mk_skb 1 0 (dest ++ station ++ [Z.shiftr proto 8; Z.land proto 255] ++ payload ++
    replicate (86 - length payload) 0) 16 14 14 86 proto PACKET_HOST false 0 0 CHECKSUM_NONE None None.

Definition broadcast : list Z := [255; 255; 255; 255; 255; 255].

(** The bridge before it has heard anything, with the frame as buffer 0 and
    no packet waiting for the multicast daemon. *)
Definition demo_world (t : fdb) (s : sk_buff) (delayed : list (option nat * Z)) : world :=
  mk_world t {[0%nat := s]} 1 [] [false; false; false] (fun _ => 0) (replicate 256 []) (replicate 256 [])
    delayed None None 0 0 0.

Definition demo_fdb (st : port_state) : fdb := fdb_init (demo_stp st) (300 * HZ).
Definition free_slots : list (option nat * Z) := replicate 64 (None, 0).
