(* ===== verification/BrWp.v ===== *)
(** Reasoning about the data path: weakest preconditions for the monad of
    Bridge.v, and the rules for buffers and for netfilter. *)

From S2P Require Import Prelude Str Stp Fdb Bridge.

(** ** Weakest preconditions

    [wp m Q w]: run in [w], [m] does not fault and ends with [Q]. *)
Definition wp {A} (m : M A) (Q : A -> world -> Prop) (w : world) : Prop :=
  match m w with Ok (a, w') => Q a w' | Fault _ => False end.

Section Rules.
Context {A B : Type}.
Implicit Types (w : world).

Lemma wp_Ok (m : M A) Q w a w' : m w = Ok (a, w') -> Q a w' -> wp m Q w.
Proof. intros E H. unfold wp. by rewrite E. Qed.

Lemma wp_elim (m : M A) Q w : wp m Q w -> exists a w', m w = Ok (a, w') /\ Q a w'.
Proof. unfold wp. destruct (m w) as [[a w']|]; [eauto|done]. Qed.

Lemma wp_ret (a : A) Q w : Q a w -> wp (mret a) Q w.
Proof. done. Qed.

Lemma wp_bind (m : M A) (k : A -> M B) Q w : wp m (fun a => wp (k a) Q) w -> wp (m ≫= k) Q w.
Proof. unfold wp, mbind, M_bind. by destruct (m w) as [[a w']|]. Qed.

Lemma wp_mono (m : M A) (Q R : A -> world -> Prop) w :
  wp m Q w -> (forall a w', Q a w' -> R a w') -> wp m R w.
Proof. unfold wp. destruct (m w) as [[a w']|]; [auto|done]. Qed.

Lemma wp_and (k : M A) (P R : A -> world -> Prop) w : wp k P w -> wp k R w -> wp k (fun a w' => P a w' /\ R a w') w.
Proof. unfold wp. by destruct (k w) as [[a w']|]. Qed.

(** Two steps in a row and then a result. *)
Lemma wp_seq_ret (m k : M unit) (a : A) Q w : wp (m;; k) (fun _ w' => Q a w') w -> wp (m;; k;; mret a) Q w.
Proof.
  unfold wp, mbind, M_bind, mret, M_ret. destruct (m w) as [[[] w1]|]; [|done]. by destruct (k w1) as [[[] w2]|].
Qed.

Lemma wp_gets (f : world -> A) Q w : Q (f w) w -> wp (gets f) Q w.
Proof. done. Qed.

Lemma wp_modify (f : world -> world) Q w : Q tt (f w) -> wp (modify f) Q w.
Proof. done. Qed.

Lemma wp_lift (m : res A) a Q w : m = Ok a -> Q a w -> wp (lift m) Q w.
Proof. by intros -> H. Qed.

End Rules.

Lemma wp_for_each {X} (I : world -> Prop) (l : list X) body w :
  (forall x w, x ∈ l -> I w -> wp (body x) (fun _ w' => I w') w) -> I w -> wp (for_each l body) (fun _ w' => I w') w.
Proof.
  revert w. induction l as [|x l IH]; intros w Hb HI; [done|]. cbn. apply wp_bind.
  eapply wp_mono; [apply Hb; [apply elem_of_cons; by left|done]|cbv beta]. intros _ w1 H1. apply IH; [|done].
  intros y w2 Hy. apply Hb, elem_of_cons. by right.
Qed.

(** [steps] runs the straight-line part of a computation. *)
Ltac step :=
  match goal with
  | |- wp (mret _) _ _ => apply wp_ret
  | |- wp (mbind _ _) _ _ => apply wp_bind
  | |- wp (gets _) _ _ => apply wp_gets
  | |- wp (modify _) _ _ => apply wp_modify
  end; cbv beta.
Ltac steps := repeat step.

(** ** Buffers *)

Lemma wp_skb_at i s Q w : heap w !! i = Some s -> Q s w -> wp (skb_at i) Q w.
Proof. intros E H. unfold wp, skb_at. by rewrite E. Qed.

Lemma wp_skb_upd i f s Q w : heap w !! i = Some s ->
  Q tt (set_heap (<[i := f s]> (heap w)) w) -> wp (skb_upd i f) Q w.
Proof. intros E H. unfold skb_upd. apply wp_bind. by eapply wp_skb_at. Qed.

Lemma wp_blog_link link i s Q w : heap w !! i = Some s ->
  (forall b, Q tt (set_heap (<[i := set_blog b s]> (heap w)) w)) -> wp (blog_link link i) Q w.
Proof. intros E H. by eapply wp_skb_upd. Qed.

Lemma wp_skb_put i s Q w : heap w !! i = Some s -> users s = 1 ->
  Q tt (set_heap (delete i (heap w)) w) -> wp (skb_put i) Q w.
Proof.
  intros E Hu H. unfold skb_put. apply wp_bind. eapply wp_skb_at; [done|]. by rewrite Hu.
Qed.

(** The event [e] is recorded and the buffer [i] is gone. *)
Definition given (i : nat) (e : ev) (w : world) : world :=
  set_heap (delete i (heap w)) (set_trace (trace w ++ [e]) w).

Lemma wp_kfree_skb i s Q w : heap w !! i = Some s -> users s = 1 ->
  Q tt (given i (Freed s) w) -> wp (kfree_skb i) Q w.
Proof.
  intros E Hu H. unfold kfree_skb. apply wp_bind. eapply wp_skb_at; [done|]. apply wp_bind.
  eapply wp_skb_put; [done..|]. by rewrite Hu.
Qed.

Lemma wp_dev_queue_xmit i s Q w : heap w !! i = Some s -> users s = 1 ->
  Q 0 (given i (Xmit s) w) -> wp (dev_queue_xmit i) Q w.
Proof.
  intros E Hu H. unfold dev_queue_xmit. apply wp_bind. eapply wp_skb_at; [done|]. apply wp_bind.
  apply wp_modify. apply wp_bind. by eapply wp_skb_put.
Qed.

Lemma wp_netif_receive_skb i s Q w : heap w !! i = Some s -> users s = 1 ->
  Q 0 (given i (Receive s) w) -> wp (netif_receive_skb i) Q w.
Proof.
  intros E Hu H. unfold netif_receive_skb. apply wp_bind. eapply wp_skb_at; [done|]. apply wp_bind.
  apply wp_modify. apply wp_bind. by eapply wp_skb_put.
Qed.

(** ** Netfilter *)

(** There is room for the Ethernet header in front of the data. *)
Definition room (s : sk_buff) : Prop := ETH_HLEN <= headroom s + data s.

(** What a hook may do: it gives a verdict netfilter knows, does not ask to
    be called again, and leaves alone the device, the references, the space
    for the header and the property [I] of the buffer. *)
Definition verdict_ok (v : Z) : Prop :=
  is_u32 v /\
  (v = NF_ACCEPT \/ v = NF_STOP \/ v = NF_STOLEN \/ Z.land v NF_VERDICT_MASK = NF_DROP \/
   Z.land v NF_VERDICT_MASK = NF_QUEUE).

Definition hook_ok (I : sk_buff -> Prop) (h : nf_hookfn) : Prop := forall indev outdev s,
  let '(v, s') := h indev outdev s in
  verdict_ok v /\ dev s' = dev s /\ users s' = users s /\ brdev s' = brdev s /\
  (room s -> room s') /\ (I s -> I s').

(** A hook that only lets pass or drops. *)
Definition verdict_plain (v : Z) : Prop :=
  v = NF_ACCEPT \/ v = NF_STOP \/ Z.land v NF_VERDICT_MASK = NF_DROP.
Definition hook_plain (h : nf_hookfn) : Prop := forall indev outdev s,
  verdict_plain (fst (h indev outdev s)).

(** Buffers that hooks may turn into each other. *)
Definition mangled (I : sk_buff -> Prop) (s s' : sk_buff) : Prop :=
  dev s' = dev s /\ users s' = users s /\ brdev s' = brdev s /\ (room s -> room s') /\ (I s -> I s').

Lemma mangled_refl I s : mangled I s s.
Proof. by repeat split. Qed.
Lemma mangled_trans I s1 s2 s3 : mangled I s1 s2 -> mangled I s2 s3 -> mangled I s1 s3.
Proof.
  intros (?&?&?&?&?) (?&?&?&?&?). split; [congruence|]. split; [congruence|]. split; [congruence|auto].
Qed.

(** The buffers netfilter takes out of the caller's hands. *)
Definition off (e : ev) : Prop :=
  match e with Freed _ | Stolen _ | Queued _ => True | _ => False end.

Lemma given_heap i e w h : heap (given i e (set_heap h w)) = delete i h.
Proof. done. Qed.

Lemma given_over i e w s :
  given i e (set_heap (<[i := s]> (heap w)) w) = given i e w.
Proof. unfold given, set_heap, set_trace. cbn. by rewrite delete_insert_eq. Qed.

Lemma set_heap_same i s w : heap w !! i = Some s -> set_heap (<[i := s]> (heap w)) w = w.
Proof. intros E. rewrite insert_id by done. by destruct w. Qed.

Lemma set_heap_twice i s s' w :
  set_heap (<[i := s']> (<[i := s]> (heap w))) (set_heap (<[i := s]> (heap w)) w) =
  set_heap (<[i := s']> (heap w)) w.
Proof. unfold set_heap. cbn. by rewrite insert_insert_eq. Qed.

Section Nf.
Context (N : net) (I : sk_buff -> Prop) (i : nat) (indev outdev : option nat).

Lemma wp_call_hook h n s Q w : hook_ok I h -> heap w !! i = Some s -> users s = 1 ->
  (forall v s', mangled I s s' -> verdict_ok v -> v <> NF_STOLEN -> (hook_plain h -> verdict_plain v) ->
    Q v (set_heap (<[i := s']> (heap w)) w)) ->
  (forall s', ~ hook_plain h -> Q NF_STOLEN (given i (Stolen s') w)) ->
  wp (call_hook (S n) h i indev outdev) Q w.
Proof.
  intros Hh E Hu HQ HS. cbn [call_hook]. apply wp_bind. eapply wp_skb_at; [done|].
  specialize (Hh indev outdev s). destruct (h indev outdev s) as [v s'] eqn:Eh.
  destruct Hh as (Hv & Hd & Hus & Hb & Hr & HI). apply wp_bind. apply wp_modify.
  assert (Hp : hook_plain h -> verdict_plain v).
  { intros Hp. specialize (Hp indev outdev s). by rewrite Eh in Hp. }
  destruct (Z.eqb_spec v NF_REPEAT) as [->|_].
  { exfalso. destruct Hv as [_ Hv]. unfold NF_ACCEPT, NF_STOP, NF_STOLEN, NF_REPEAT in Hv.
    change (Z.land 4 NF_VERDICT_MASK) with 4 in Hv. unfold NF_DROP, NF_QUEUE in Hv. lia. }
  destruct (Z.eqb_spec v NF_STOLEN) as [->|Hns].
  - apply wp_bind, wp_modify, wp_bind. eapply (wp_skb_put i s').
    + cbn. apply lookup_insert_eq.
    + congruence.
    + cbn. rewrite delete_insert_eq. apply HS. intros [|[|]]%Hp; done.
  - apply wp_ret. by apply HQ.
Qed.

Lemma wp_nf_iterate hooks s Q w : Forall (hook_ok I) hooks -> heap w !! i = Some s -> users s = 1 ->
  (forall v rest s', mangled I s s' -> verdict_ok v -> v <> NF_STOLEN -> Forall (hook_ok I) rest ->
    (length rest <= length hooks)%nat -> (v <> NF_ACCEPT -> (length rest < length hooks)%nat) ->
    (Forall hook_plain hooks -> verdict_plain v /\ Forall hook_plain rest) ->
    Q (v, rest) (set_heap (<[i := s']> (heap w)) w)) ->
  (forall rest s', ~ Forall hook_plain hooks -> Q (NF_STOLEN, rest) (given i (Stolen s') w)) ->
  wp (nf_iterate hooks i indev outdev) Q w.
Proof.
  revert s w. induction hooks as [|h hooks IH]; intros s w Hh E Hu HQ HS; cbn [nf_iterate].
  { apply wp_ret. rewrite <- (set_heap_same i s w E). apply HQ; [apply mangled_refl|by split; [|left]|done..|].
    intros _. split; [by left|done]. }
  apply Forall_cons in Hh as [Hh Hhs]. apply wp_bind. eapply wp_call_hook; [done..| |].
  - intros v s' Hm Hv Hns Hp. destruct (Z.eqb_spec v NF_ACCEPT) as [->|Hna]; cbn [negb].
    + apply (IH s'); [done|by cbn; apply lookup_insert_eq| | |].
      * destruct Hm as (_ & -> & _). done.
      * intros v' rest s'' Hm' Hv' Hns' Hr Hl Hl' Hpl. cbn [heap set_heap]. rewrite set_heap_twice.
        apply HQ; [by eapply mangled_trans|done..| | |]; cbn; [lia| |].
        -- intros Hn. specialize (Hl' Hn). lia.
        -- intros [_ Hp']%Forall_cons. by apply Hpl.
      * intros rest s'' Hpl. rewrite given_over. apply HS. by intros [_ ?]%Forall_cons.
    + apply wp_ret. apply HQ; [done..| | |]; cbn; [lia..|]. intros [? ?]%Forall_cons. split; auto.
  - intros s' Hpl. change (negb (NF_STOLEN =? NF_ACCEPT)) with true. apply wp_ret. apply HS.
    by intros [? _]%Forall_cons.
Qed.

(** Netfilter either lets the buffer pass, perhaps changed, or takes it. *)
Lemma wp_nf_hook_slow fuel hooks s Q w : (length hooks < fuel)%nat ->
  Forall (hook_ok I) hooks -> heap w !! i = Some s -> users s = 1 ->
  (forall s', mangled I s s' -> Q 1 (set_heap (<[i := s']> (heap w)) w)) ->
  (forall r e, r <> 1 -> off e -> (Forall hook_plain hooks -> r <> 0) -> Q r (given i e w)) ->
  wp (nf_hook_slow N fuel hooks i indev outdev) Q w.
Proof.
  revert hooks s w. induction fuel as [|fuel IH]; intros hooks s w Hf Hh E Hu HQ HT; [lia|].
  cbn [nf_hook_slow]. apply wp_bind. eapply wp_nf_iterate; [done..| |].
  2: { intros rest s' Hpl. apply wp_ret. by apply HT. }
  intros v rest s' Hm Hv Hns Hr Hl Hl' Hpl.
  destruct ((v =? NF_ACCEPT) || (v =? NF_STOP)) eqn:Ea; [apply wp_ret; by apply HQ|].
  apply orb_false_iff in Ea as [Ea%Z.eqb_neq Es%Z.eqb_neq]. specialize (Hl' Ea).
  assert (Hu' : users s' = 1) by (destruct Hm as (_ & -> & _); done).
  destruct (Z.eqb_spec (Z.land v NF_VERDICT_MASK) NF_DROP).
  { apply wp_bind. eapply wp_kfree_skb; [by cbn; apply lookup_insert_eq|done|].
    rewrite given_over. apply wp_ret.
    destruct (Z.eqb_spec (NF_DROP_GETERR v) 0); apply HT; try done.
    unfold NF_DROP_GETERR in *. destruct Hv as [Hv _]. unfold is_u32 in Hv.
    pose proof (Z.div_pos v (2 ^ NF_VERDICT_QBITS) ltac:(lia) ltac:(reflexivity)). lia. }
  destruct (Z.eqb_spec (Z.land v NF_VERDICT_MASK) NF_QUEUE); [|destruct Hv as [_ [|[|[|[|]]]]]; done].
  apply wp_bind. eapply wp_skb_at; [by cbn; apply lookup_insert_eq|].
  assert (Hnext : wp (nf_hook_slow N fuel rest i indev outdev) Q (set_heap (<[i:=s']> (heap w)) w)).
  { apply (IH rest s'); [lia|done|by cbn; apply lookup_insert_eq|done| |].
    - intros s'' Hm''. cbn [heap set_heap]. rewrite set_heap_twice. apply HQ. by eapply mangled_trans.
    - intros r x Hr1 Hx Hp. rewrite given_over. apply HT; [done..|]. intros [_ Hp']%Hpl. auto. }
  assert (Hnp : Forall hook_plain hooks -> 0 <> 0).
  { intros [[?|[?|Hd]] _]%Hpl; [done..|]. by rewrite Hd in e. }
  destruct (Z.ltb_spec (nf_queue N s' (v / 2 ^ NF_VERDICT_QBITS)) 0).
  - destruct (_ =? _); [done|]. destruct (_ && _); [done|]. apply wp_bind.
    eapply wp_kfree_skb; [by cbn; apply lookup_insert_eq|done|]. rewrite given_over. apply wp_ret. by apply HT.
  - apply wp_bind, wp_modify, wp_bind. eapply (wp_skb_put i s'); [by cbn; apply lookup_insert_eq|done|].
    apply wp_ret. cbn. rewrite delete_insert_eq. by apply (HT 0 (Queued s')).
Qed.

Lemma wp_NF_HOOK hook okfn s Q w : Forall (hook_ok I) (nf_hooks N hook) ->
  heap w !! i = Some s -> users s = 1 ->
  (forall s', mangled I s s' -> wp (okfn i) Q (set_heap (<[i := s']> (heap w)) w)) ->
  (forall r e, off e -> (Forall hook_plain (nf_hooks N hook) -> r <> 0) -> Q r (given i e w)) ->
  wp (NF_HOOK N hook i indev outdev okfn) Q w.
Proof.
  intros Hh E Hu HQ HT. unfold NF_HOOK. apply wp_bind. eapply wp_nf_hook_slow; [lia|done..| |].
  - intros s' Hm. by apply HQ.
  - intros r e Hr He Hp. rewrite (proj2 (Z.eqb_neq r 1) Hr). apply wp_ret. by apply HT.
Qed.

End Nf.
