(* ===== verification/BrForward.v ===== *)
(** The forwarding decision: net/bridge/br_forward.c, with the search for the
    IGMP header of br_igmp.c that it uses, as the kernel is configured
    (Broadcom WAN and switch devices, device paths, IGMP snooping, wireless
    isolation and DNS hijacking hooks; no bonding, no netpoll, no bridge
    netfilter). *)

From S2P Require Import Prelude Str Stp Fdb Bridge.

(** ** The IGMP header *)

Definition PPP_IP : Z := 0x21.
Definition PPPOE_SES_HLEN : Z := 8.
Definition IPPROTO_IGMP : Z := 2.
Definition IGMP_HOST_MEMBERSHIP_QUERY : Z := 0x11.

(** The offset of the IPv4 header from the MAC header, and whether the outer
    variable [pppoe] is set: the declaration in the VLAN branch hides it, and
    the comparison there lacks the byte swap. *)
Definition ip_header (s : sk_buff) : res (option Z * bool) :=
  let nh := network_header s in
  proto ← be16_at (mac s) 12;
  if proto =? ETH_P_IP then Ok (Some nh, false)
  else if proto =? ETH_P_PPP_SES then
    tag_type ← be16_at (mac s) (nh + 6);
    Ok (if tag_type =? PPP_IP then Some (nh + PPPOE_SES_HLEN) else None, true)
  else if proto =? ETH_P_8021Q then
    encapsulated ← be16_at (mac s) 16;
    if encapsulated =? ETH_P_IP then Ok (Some (nh + VLAN_HLEN), false)
    else if encapsulated =? ETH_P_PPP_SES then
      tag_type ← le16_at (mac s) (nh + VLAN_HLEN + 6);
      Ok (if tag_type =? PPP_IP then Some (nh + VLAN_HLEN + PPPOE_SES_HLEN) else None, false)
    else Ok (None, false)
  else Ok (None, false).

(** The IGMP header behind the IPv4 header at [pip]. *)
Definition igmp_header (s : sk_buff) (pip : Z) : res (option Z) :=
  p ← rd (mac s) (pip + 9);
  if p =? IPPROTO_IGMP then
    v ← rd (mac s) pip; Ok (Some (pip + Z.shiftl (Z.land v 0xf) 2))
  else Ok None.

(** [br_igmp_get_ip_igmp_hdrs]: [*ppipmcast], [*ppigmp] and [*lanppp]. *)
Definition br_igmp_get_ip_igmp_hdrs (s : sk_buff) : res (option Z * option Z * option Z) :=
  '(pip, pppoe) ← ip_header s;
  match pip with
  | None => Ok (None, None, None)
  | Some pip =>
      if pppoe : bool then
        a ← rd (mac s) (pip + 16);
        if Z.land a 0xf0 =? 0xe0 then
          pigmp ← igmp_header s pip; Ok (Some pip, pigmp, Some 1)
        else Ok (None, None, None)
      else if is_multicast_ether_addr (h_dest s) && negb (is_broadcast_ether_addr (h_dest s)) then
        pigmp ← igmp_header s pip; Ok (Some pip, pigmp, Some 0)
      else Ok (None, None, None)
  end.

Section Net.
Context (N : net).

(** ** should_deliver *)

Definition wandev (x : net_device) : bool := nonzero (Z.land (priv_flags x) IFF_WANDEV).

(** The hooks of the vendor that may refuse a frame. *)
Definition hooks_refuse (s : sk_buff) : res bool :=
  if match wifi_iso_listen_forward_cb N with Some cb => nonzero (cb s) | None => false end
  then Ok true
  else
    match dns_hijack_hook N with
    | None => Ok false
    | Some hook =>
        x ← dev_at N (dev s);
        Ok ((protocol s =? ETH_P_IP) && if_lan x && nonzero (hook s))
    end.

(** Frames between two LAN devices. *)
Definition lan_refuses (s : sk_buff) (sdev ddev : nat) : res bool :=
  sdev ← netdev_path_get_root N sdev;
  ddev ← netdev_path_get_root N ddev;
  if Nat.eqb sdev ddev then Ok true
  else
    sd ← dev_at N sdev;
    dd ← dev_at N ddev;
    Ok ((pkt_type s =? PACKET_BROADCAST) &&
        nonzero (Z.land (Z.land (priv_flags sd) IFF_HW_SWITCH) (priv_flags dd)) &&
        (Z.lxor (Z.land (priv_flags sd) IFF_EXT_SWITCH) (Z.land (priv_flags dd) IFF_EXT_SWITCH) =? 0)).

(** The WAN rules for a frame from [sdev] to [ddev]. *)
Definition wan_refuses (s : sk_buff) (sdev ddev : nat) : res bool :=
  sd ← dev_at N sdev;
  dd ← dev_at N ddev;
  if nonzero (Z.land (Z.land (priv_flags sd) (priv_flags dd)) IFF_WANDEV) then Ok true
  else if negb (wandev sd) && negb (wandev dd) then lan_refuses s sdev ddev
  else Ok false.

(** The IGMP rules for a frame to [ddev]. *)
Definition igmp_refuses (s : sk_buff) (ddev : nat) : res bool :=
  '(_, pigmp, _) ← br_igmp_get_ip_igmp_hdrs s;
  match pigmp with
  | None => Ok false
  | Some g =>
      dd ← dev_at N ddev;
      type ← rd (mac s) g;
      if wandev dd then Ok (type =? IGMP_HOST_MEMBERSHIP_QUERY)
      else Ok (nonzero (igmp_snooping N) && negb (type =? IGMP_HOST_MEMBERSHIP_QUERY))
  end.

Definition should_deliver (p : option nat) (i : nat) : M bool :=
  s ← skb_at i;
  r ← lift (hooks_refuse s);
  if r : bool then mret false
  else
    p ← lift (of_option NullDeref p);
    let ddev := port_dev N p in
    r ← lift (wan_refuses s (dev s) ddev);
    if r : bool then mret false
    else
      r ← lift (igmp_refuses s ddev);
      if r : bool then mret false
      else
        pt ← port_of p;
        mret ((BR_HAIRPIN_MODE N p || negb (Nat.eqb (dev s) ddev)) &&
              bool_decide (state pt = FORWARDING)).

(** ** Transmission *)

Definition packet_length (s : sk_buff) : Z :=
  u32 (len s - (if protocol s =? ETH_P_8021Q then VLAN_HLEN else 0)).

Definition br_dev_queue_push_xmit (i : nat) : M Z :=
  s ← skb_at i;
  x ← lift (dev_at N (dev s));
  if (mtu x <? packet_length s) && negb (skb_is_gso s) then kfree_skb i;; mret 0
  else skb_push i ETH_HLEN;; dev_queue_xmit i;; mret 0.

Definition br_forward_finish (i : nat) : M Z :=
  s ← skb_at i;
  NF_HOOK N NF_BR_POST_ROUTING i None (Some (dev s)) br_dev_queue_push_xmit.

Definition __br_deliver (to i : nat) : M unit :=
  let d := port_dev N to in
  skb_upd i (set_dev d);;
  NF_HOOK N NF_BR_LOCAL_OUT i None (Some d) br_forward_finish;;
  mret tt.

Definition __br_forward (to i : nat) : M unit :=
  s ← skb_at i;
  if skb_warn_if_lro s then kfree_skb i
  else
    let indev := dev s in
    let d := port_dev N to in
    skb_upd i (fun s => skb_forward_csum (set_dev d s));;
    NF_HOOK N NF_BR_FORWARD i (Some indev) (Some d) br_forward_finish;;
    mret tt.

Definition br_deliver (to : option nat) (i : nat) : M unit :=
  match to with
  | None => kfree_skb i
  | Some p =>
      r ← should_deliver (Some p) i;
      if r : bool then __br_deliver p i else kfree_skb i
  end.

Definition deliver_clone (prev i : nat) (__packet_hook : nat -> nat -> M unit) : M Z :=
  s ← skb_at i;
  c ← skb_clone N i;
  match c with
  | None =>
      _ ← lift (of_option NullDeref (brdev s));
      count tx_dropped 1;; mret (- ENOMEM)
  | Some c => __packet_hook prev c;; mret 0
  end.

Definition br_forward (to : option nat) (i : nat) (skb0 : option nat) : M unit :=
  r ← should_deliver to i;
  if r : bool then
    p ← lift (of_option NullDeref to);
    match skb0 with
    | Some _ => deliver_clone p i __br_forward;; mret tt
    | None => __br_forward p i
    end
  else
    match skb0 with
    | Some _ => mret tt
    | None => kfree_skb i
    end.

(** [maybe_deliver]: the port to deliver to next, or an error. *)
Definition maybe_deliver (prev : option nat) (p i : nat) (__packet_hook : nat -> nat -> M unit)
    : M (option nat + Z) :=
  r ← should_deliver (Some p) i;
  if negb r then mret (inl prev)
  else
    match prev with
    | None => mret (inl (Some p))
    | Some q =>
        err ← deliver_clone q i __packet_hook;
        if nonzero err then mret (inr err) else mret (inl (Some p))
    end.

Fixpoint flood_loop (l : list nat) (prev : option nat) (i : nat) (__packet_hook : nat -> nat -> M unit)
    : M (option nat + Z) :=
  match l with
  | [] => mret (inl prev)
  | p :: l =>
      r ← maybe_deliver prev p i __packet_hook;
      match r with
      | inr err => mret (inr err)
      | inl prev => flood_loop l prev i __packet_hook
      end
  end.

Definition br_flood (i : nat) (skb0 : option nat) (__packet_hook : nat -> nat -> M unit) : M unit :=
  s ← skb_at i;
  match blog_p s with
  | Some b => if negb (rx_multicast b) then blog_skip i else mret tt
  | None => mret tt
  end;;
  l ← port_list_of;
  r ← flood_loop l None i __packet_hook;
  match r with
  | inl (Some prev) =>
      match skb0 with
      | Some j =>
          s0 ← skb_at j;
          blog_clone N i (blog_p s0);;
          deliver_clone prev i __packet_hook;; mret tt
      | None => __packet_hook prev i
      end
  | _ =>
      match skb0 with
      | Some _ => mret tt
      | None => kfree_skb i
      end
  end.

Definition br_flood_deliver (i : nat) : M unit := br_flood i None __br_deliver.
Definition br_flood_forward (i : nat) (skb2 : option nat) : M unit := br_flood i skb2 __br_forward.

End Net.
