(* ===== verification/BrForwardProps.v ===== *)
(** Theorems about the forwarding decision: every buffer is given away exactly
    once, frames only leave through ports that may have them, and flooding
    reaches every such port once. *)

From S2P Require Import Prelude Str Stp Fdb Bridge BrExample BrWp BrForward.

(** ** The forwarding decision as a function *)

Section Decision.
Context (N : net).

(** [should_deliver] reads the bridge and the buffer. *)
Definition deliverable (t : fdb) (s : sk_buff) (p : nat) : res bool :=
  r ← hooks_refuse N s;
  if r : bool then Ok false
  else
    r ← wan_refuses N s (dev s) (port_dev N p);
    if r : bool then Ok false
    else
      r ← igmp_refuses N s (port_dev N p);
      if r : bool then Ok false
      else
        pt ← port_at (stp_of t) p;
        Ok ((BR_HAIRPIN_MODE N p || negb (Nat.eqb (dev s) (port_dev N p))) &&
            bool_decide (state pt = FORWARDING)).

Lemma should_deliver_eq p i s w : heap w !! i = Some s ->
  should_deliver N (Some p) i w = (b ← deliverable (tbl w) s p; Ok (b, w)).
Proof.
  intros E. unfold should_deliver, deliverable, mbind, M_bind, res_bind, skb_at, lift, of_option. rewrite E.
  destruct (hooks_refuse N s) as [[]|]; cbn; [done| |done].
  destruct (wan_refuses N s (dev s) (port_dev N p)) as [[]|]; cbn; [done| |done].
  destruct (igmp_refuses N s (port_dev N p)) as [[]|]; cbn; [done| |done].
  unfold port_of, gets, lift, mbind, M_bind. by destruct (port_at (stp_of (tbl w)) p).
Qed.

(** What it takes for a frame to be delivered to a port. *)
Lemma deliverable_true t s p : deliverable t s p = Ok true ->
  hooks_refuse N s = Ok false /\ wan_refuses N s (dev s) (port_dev N p) = Ok false /\
  igmp_refuses N s (port_dev N p) = Ok false /\
  exists pt, ports (br (stp_of t)) !! p = Some pt /\ state pt = FORWARDING /\
    (BR_HAIRPIN_MODE N p = true \/ dev s <> port_dev N p).
Proof.
  unfold deliverable. intros ([] & E1 & H)%bind_Ok_inv; [done|].
  apply bind_Ok_inv in H as ([] & E2 & H); [done|]. apply bind_Ok_inv in H as ([] & E3 & H); [done|].
  apply bind_Ok_inv in H as (pt & E4 & H). injection H as H.
  apply andb_true_iff in H as [H1 H2%bool_decide_eq_true]. do 3 (split; [done|]).
  exists pt. unfold port_at in E4. destruct (_ !! p); [|done]. injection E4 as <-. split; [done|].
  split; [done|]. apply orb_true_iff in H1 as [H1|H1%negb_true_iff%Nat.eqb_neq]; auto.
Qed.

End Decision.

(** ** Well-formed surroundings *)

(** The hooks behave, a device is stacked on devices registered before it,
    and the ports and the bridge have devices. *)
Record net_ok (N : net) (nports : nat) : Prop := mk_net_ok {
  nk_hooks : forall k, Forall (hook_ok (fun _ => True)) (nf_hooks N k);
  nk_paths : forall d x n, devs N !! d = Some x -> next_dev x = Some n -> (n < d)%nat;
  nk_ports : forall p, (p < nports)%nat -> (port_dev N p < length (devs N))%nat;
  nk_rx : forall d x p, devs N !! d = Some x -> rx_handler_data x = Some p -> (p < nports)%nat;
  nk_br_dev : (br_dev N < length (devs N))%nat
}.

(** The IGMP header that the IPv4 header announces lies within the frame. *)
Definition igmp_fits (s : sk_buff) : Prop := exists pip pigmp lanppp,
  br_igmp_get_ip_igmp_hdrs s = Ok (pip, pigmp, lanppp) /\
  forall g, pigmp = Some g -> 0 <= g < zlen (mac s).

(** Buffers are numbered in the order of their allocation. *)
Definition heap_ok (w : world) : Prop := forall j, (next_skb w <= j)%nat -> heap w !! j = None.

(** From [w] to [w'] the heap has become [h], the events satisfy [P], and
    nothing but buffer numbers and statistics has changed besides. *)
Definition moved (P : ev -> Prop) (h : gmap nat sk_buff) (w w' : world) : Prop :=
  exists l n st, Forall P l /\ (next_skb w <= n)%nat /\
    w' = set_stats st (set_next_skb n (set_heap h (set_trace (trace w ++ l) w))).

Lemma moved_heap P h w : moved P h w (set_heap h w).
Proof.
  exists [], (next_skb w), (stats w). split; [by constructor|]. split; [done|]. destruct w. cbn.
  by rewrite app_nil_r.
Qed.

Lemma moved_refl P w : moved P (heap w) w w.
Proof. pose proof (moved_heap P (heap w) w) as H. by destruct w. Qed.

Lemma moved_trans (P Q : ev -> Prop) h1 h2 w w1 w2 :
  (forall e, P e -> Q e) -> moved P h1 w w1 -> moved Q h2 w1 w2 -> moved Q h2 w w2.
Proof.
  intros HPQ (l1 & n1 & st1 & Hl1 & Hn1 & ->) (l2 & n2 & st2 & Hl2 & Hn2 & ->). cbn in *.
  exists (l1 ++ l2), n2, st2. split; [|split; [lia|by rewrite app_assoc]].
  apply Forall_app. split; [|done]. by eapply Forall_impl.
Qed.

Lemma moved_mono (P Q : ev -> Prop) h w w' : (forall e, P e -> Q e) -> moved P h w w' -> moved Q h w w'.
Proof.
  intros HPQ (l & n & st & Hl & Hn & ->). exists l, n, st. split; [|done]. by eapply Forall_impl.
Qed.

Lemma moved_given (P : ev -> Prop) i e w : P e -> moved P (delete i (heap w)) w (given i e w).
Proof.
  intros He. exists [e], (next_skb w), (stats w). split; [by repeat constructor|]. split; [done|]. by destruct w.
Qed.

Lemma moved_over P i s h w w' :
  moved P h (set_heap (<[i := s]> (heap w)) w) w' -> moved P h w w'.
Proof. intros (l & n & st & Hl & Hn & ->). by exists l, n, st. Qed.

Lemma moved_tbl P h w w' : moved P h w w' -> tbl w' = tbl w /\ heap w' = h.
Proof. by intros (l & n & st & _ & _ & ->). Qed.

Lemma heap_ok_moved P h w w' : moved P h w w' -> heap_ok w ->
  (forall j, heap w !! j = None -> h !! j = None) -> heap_ok w'.
Proof.
  intros (l & n & st & _ & Hn & ->) Hw Hh j Hj. cbn in *. apply Hh, Hw. lia.
Qed.

Definition xmit_on (d : nat) (e : ev) : Prop :=
  match e with Xmit s => dev s = d | _ => off e end.

Lemma off_xmit d e : off e -> xmit_on d e.
Proof. by destruct e. Qed.

(** ** Transmission gives the buffer away *)

Section Forward.
Context (N : net) (nports : nat) (HN : net_ok N nports).

Lemma dev_at_ok d : (d < length (devs N))%nat -> exists x, dev_at N d = Ok x /\ devs N !! d = Some x.
Proof.
  intros [x Hx]%lookup_lt_is_Some. exists x. unfold dev_at. by rewrite Hx.
Qed.

Lemma push_xmit_spec i s w : heap w !! i = Some s -> users s = 1 -> room s ->
  (dev s < length (devs N))%nat ->
  wp (br_dev_queue_push_xmit N i)
    (fun _ w' => moved (xmit_on (dev s)) (delete i (heap w)) w w') w.
Proof.
  intros E Hu Hr Hd. unfold br_dev_queue_push_xmit. apply wp_bind. eapply wp_skb_at; [done|].
  destruct (dev_at_ok _ Hd) as (x & Ex & _). apply wp_bind. eapply wp_lift; [done|].
  destruct (_ && _).
  - apply wp_bind. eapply wp_kfree_skb; [done..|]. apply wp_ret. by apply moved_given.
  - apply wp_bind. unfold skb_push. apply wp_bind. eapply wp_skb_at; [done|]. unfold room in Hr.
    destruct (Z.ltb_spec (data s - ETH_HLEN) (- headroom s)); [lia|]. apply wp_modify. apply wp_bind.
    eapply wp_dev_queue_xmit; [by cbn; apply lookup_insert_eq|done|]. apply wp_ret. rewrite given_over.
    by apply moved_given.
Qed.

Lemma forward_finish_spec i s w : heap w !! i = Some s -> users s = 1 -> room s ->
  (dev s < length (devs N))%nat ->
  wp (br_forward_finish N i) (fun _ w' => moved (xmit_on (dev s)) (delete i (heap w)) w w') w.
Proof.
  intros E Hu Hr Hd. unfold br_forward_finish. apply wp_bind. eapply wp_skb_at; [done|].
  eapply wp_NF_HOOK; [apply (nk_hooks _ _ HN)|done..| |].
  - intros s' (Hd' & Hu' & _ & Hr' & _). eapply wp_mono.
    + apply (push_xmit_spec i s'); [by cbn; apply lookup_insert_eq|congruence|auto|congruence].
    + intros ? w' H. cbn in H. rewrite delete_insert_eq, Hd' in H. by eapply moved_over.
  - intros r e He _. by apply moved_given, off_xmit.
Qed.

(** What the code expects of a [__packet_hook]. *)
Definition packet_hook_ok (hook : nat -> nat -> M unit) : Prop := forall p i s w,
  (p < nports)%nat -> heap w !! i = Some s -> users s = 1 -> room s ->
  wp (hook p i) (fun _ w' => moved (xmit_on (port_dev N p)) (delete i (heap w)) w w') w.

Lemma finish_as p i s k indev outdev w : (p < nports)%nat -> heap w !! i = Some s -> users s = 1 -> room s ->
  dev s = port_dev N p ->
  wp (NF_HOOK N k i indev outdev (br_forward_finish N))
    (fun _ w' => moved (xmit_on (port_dev N p)) (delete i (heap w)) w w') w.
Proof.
  intros Hp E Hu Hr Hd. eapply wp_NF_HOOK; [apply (nk_hooks _ _ HN)|done..| |].
  - intros s' (Hd' & Hu' & _ & Hr' & _). eapply wp_mono.
    + apply (forward_finish_spec i s'); [by cbn; apply lookup_insert_eq|congruence|auto|].
      rewrite Hd', Hd. by apply (nk_ports _ _ HN).
    + intros ? w' H. cbn in H. rewrite delete_insert_eq, Hd', Hd in H. by eapply moved_over.
  - intros r e He _. by apply moved_given, off_xmit.
Qed.

Lemma br_deliver_hook : packet_hook_ok (__br_deliver N).
Proof.
  intros p i s w Hp E Hu Hr. unfold __br_deliver. apply wp_bind. eapply wp_skb_upd; [done|]. apply wp_bind.
  eapply wp_mono.
  - eapply (finish_as p i); [done|by cbn; apply lookup_insert_eq|done..].
  - intros ? w' H. apply wp_ret. cbn in H. rewrite delete_insert_eq in H. by eapply moved_over.
Qed.

Lemma csum_same s : dev (skb_forward_csum s) = dev s /\ users (skb_forward_csum s) = users s /\
  (room s -> room (skb_forward_csum s)).
Proof. unfold skb_forward_csum. by destruct (_ =? _). Qed.

Lemma br_forward_hook : packet_hook_ok (__br_forward N).
Proof.
  intros p i s w Hp E Hu Hr. unfold __br_forward. apply wp_bind. eapply wp_skb_at; [done|].
  destruct (skb_warn_if_lro s).
  { eapply wp_kfree_skb; [done..|]. by apply moved_given. }
  apply wp_bind. eapply wp_skb_upd; [done|]. apply wp_bind.
  destruct (csum_same (set_dev (port_dev N p) s)) as (Hd & Hus & Hro). eapply wp_mono.
  - eapply (finish_as p i); [done|by cbn; apply lookup_insert_eq|by rewrite Hus|by apply Hro|done].
  - intros ? w' H. apply wp_ret. cbn in H. rewrite delete_insert_eq in H. by eapply moved_over.
Qed.

(** ** Clones *)

Lemma set_blog_twice b b' s : set_blog b' (set_blog b s) = set_blog b' s.
Proof. done. Qed.

Lemma set_blog_id s : set_blog (blog_p s) s = s.
Proof. by destruct s. Qed.

(** The heap with the buffer [i] as it was but for its flow record. *)
Definition keeps (P : ev -> Prop) (i : nat) (s : sk_buff) (w w' : world) : Prop :=
  heap_ok w' /\ exists b, moved P (<[i := set_blog b s]> (heap w)) w w'.

Lemma wp_skb_clone i s Q w : heap w !! i = Some s -> heap_ok w ->
  Q None (set_next_skb (S (next_skb w)) w) ->
  Q (Some (next_skb w))
    (set_heap (<[next_skb w := set_users 1 s]> (<[i := set_blog None s]> (heap w)))
      (set_next_skb (S (next_skb w)) w)) ->
  wp (skb_clone N i) Q w.
Proof.
  intros E Hw HN0 HS. unfold skb_clone. apply wp_bind. eapply wp_skb_at; [done|]. apply wp_bind, wp_gets.
  apply wp_bind, wp_modify. by destruct (skb_alloc N (next_skb w)).
Qed.

Lemma clone_ne i s w : heap w !! i = Some s -> heap_ok w -> i <> next_skb w.
Proof. intros E Hw ->. by rewrite Hw in E. Qed.

Lemma deliver_clone_spec hook p i s w : packet_hook_ok hook -> (p < nports)%nat ->
  heap w !! i = Some s -> heap_ok w -> room s -> brdev s <> None ->
  wp (deliver_clone N p i hook) (fun _ w' => keeps (xmit_on (port_dev N p)) i s w w') w.
Proof.
  intros Hk Hp E Hw Hr Hb. pose proof (clone_ne _ _ _ E Hw) as Hne. unfold deliver_clone.
  apply wp_bind. eapply wp_skb_at; [done|]. apply wp_bind. eapply wp_skb_clone; [done..| |].
  - apply wp_bind. destruct (brdev s) as [d|]; [|done]. eapply wp_lift; [done|]. apply wp_bind, wp_modify, wp_ret.
    split; [intros j Hj; cbn in Hj |- *; apply Hw; lia|]. exists (blog_p s). rewrite set_blog_id.
    rewrite insert_id by done. eexists [], (S (next_skb w)), _. split; [by constructor|]. split; [lia|].
    cbn. rewrite app_nil_r. by destruct w.
  - apply wp_bind. eapply wp_mono.
    + apply (Hk p (next_skb w) (set_users 1 s)); [done|by cbn; apply lookup_insert_eq|done|done].
    + intros ? w' H. apply wp_ret. cbn in H. rewrite delete_insert_id in H.
      2: { rewrite lookup_insert_ne by done. apply Hw. lia. }
      assert (Hm : moved (xmit_on (port_dev N p)) (<[i:=set_blog None s]> (heap w)) w w').
      { destruct H as (l & n & st & Hl & Hn & ->). exists l, n, st. cbn in *. split; [done|]. split; [lia|done]. }
      split; [|by exists None]. eapply heap_ok_moved; [done..|]. intros j Hj.
      rewrite lookup_insert_ne; [done|]. intros ->. congruence.
Qed.

(** ** Forwarding to one port and flooding *)

(** A frame that leaves by a port it may be delivered to. *)
Definition sent_ok (t : fdb) (s : sk_buff) (e : ev) : Prop :=
  match e with
  | Xmit s' => exists p b, (p < nports)%nat /\ deliverable N t (set_blog b s) p = Ok true /\
      dev s' = port_dev N p
  | _ => off e
  end.

Lemma sent_xmit t s p b e : (p < nports)%nat -> deliverable N t (set_blog b s) p = Ok true ->
  xmit_on (port_dev N p) e -> sent_ok t s e.
Proof. intros Hp Hd. destruct e; try done. intros He. by exists p, b. Qed.

Lemma sent_off t s e : off e -> sent_ok t s e.
Proof. by destruct e. Qed.

Lemma sent_blog t s b e : sent_ok t (set_blog b s) e <-> sent_ok t s e.
Proof. by destruct e. Qed.

(** The decision is defined for the frames and ports at hand. *)
Definition decides (t : fdb) (s : sk_buff) : Prop :=
  forall p b, (p < nports)%nat -> exists r, deliverable N t (set_blog b s) p = Ok r.

Lemma wp_should_deliver p i s b Q w : (p < nports)%nat -> decides (tbl w) s ->
  heap w !! i = Some (set_blog b s) ->
  (forall r, deliverable N (tbl w) (set_blog b s) p = Ok r -> Q r w) ->
  wp (should_deliver N (Some p) i) Q w.
Proof.
  intros Hp Hd E HQ. destruct (Hd p b Hp) as (r & Er). unfold wp.
  rewrite (should_deliver_eq N p i _ w E), Er. cbn. auto.
Qed.

Lemma keeps_off (P : ev -> Prop) i s w w' : keeps P i s w w' ->
  exists b, heap w' !! i = Some (set_blog b s) /\ heap w' = <[i := set_blog b s]> (heap w) /\
    tbl w' = tbl w /\ heap_ok w' /\ moved P (<[i := set_blog b s]> (heap w)) w w'.
Proof.
  intros (Hw & b & Hm). destruct (moved_tbl _ _ _ _ Hm) as [Ht Hh]. exists b. rewrite Hh.
  split; [apply lookup_insert_eq|]. done.
Qed.

Lemma keeps_refl P i s w : heap w !! i = Some s -> heap_ok w -> keeps P i s w w.
Proof.
  intros E Hw. split; [done|]. exists (blog_p s). rewrite set_blog_id, insert_id by done. apply moved_refl.
Qed.

Lemma keeps_trans (P Q : ev -> Prop) i s b w w1 w2 : (forall e, P e -> Q e) ->
  heap w1 !! i = Some (set_blog b s) -> moved P (<[i := set_blog b s]> (heap w)) w w1 ->
  keeps Q i (set_blog b s) w1 w2 -> keeps Q i s w w2.
Proof.
  intros HPQ E1 Hm (Hw2 & b' & Hm2). split; [done|]. exists b'.
  destruct (moved_tbl _ _ _ _ Hm) as [_ Hh]. rewrite Hh, set_blog_twice, insert_insert_eq in Hm2.
  by eapply moved_trans.
Qed.

Lemma maybe_deliver_spec hook prev p i s w : packet_hook_ok hook -> (p < nports)%nat ->
  decides (tbl w) s -> heap w !! i = Some s -> heap_ok w -> room s -> brdev s <> None ->
  (forall q, prev = Some q -> (q < nports)%nat /\ exists b, deliverable N (tbl w) (set_blog b s) q = Ok true) ->
  wp (maybe_deliver N prev p i hook) (fun r w' => keeps (sent_ok (tbl w) s) i s w w' /\
    forall q, r = inl (Some q) ->
      (q < nports)%nat /\ exists b, deliverable N (tbl w) (set_blog b s) q = Ok true) w.
Proof.
  intros Hk Hp Hd E Hw Hr Hb Hprev. unfold maybe_deliver. apply wp_bind.
  apply (wp_should_deliver p i s (blog_p s)); [done..|by rewrite set_blog_id|]. intros r Er.
  destruct r; cbn [negb]; [|apply wp_ret; split; [by apply keeps_refl|]; intros q Hq; injection Hq; apply Hprev].
  destruct prev as [q|].
  2: { apply wp_ret. split; [by apply keeps_refl|]. intros q [= <-]. split; [done|]. by exists (blog_p s). }
  destruct (Hprev q eq_refl) as (Hq & b & Hdq). apply wp_bind. eapply wp_mono.
  - by apply (deliver_clone_spec hook q i s).
  - intros r' w' (Hw' & b' & Hm). assert (Hkeep : keeps (sent_ok (tbl w) s) i s w w').
    { split; [done|]. exists b'. eapply moved_mono; [|done]. intros e. by apply (sent_xmit _ _ q b). }
    destruct (nonzero r'); apply wp_ret; (split; [done|]); intros q' Hq'; [discriminate|].
    injection Hq' as <-. split; [done|]. by exists (blog_p s).
Qed.

Lemma flood_loop_spec hook l prev i s w : packet_hook_ok hook -> Forall (fun p => (p < nports)%nat) l ->
  decides (tbl w) s -> heap w !! i = Some s -> heap_ok w -> room s -> brdev s <> None ->
  (forall q, prev = Some q -> (q < nports)%nat /\ exists b, deliverable N (tbl w) (set_blog b s) q = Ok true) ->
  wp (flood_loop N l prev i hook) (fun r w' => keeps (sent_ok (tbl w) s) i s w w' /\
    forall q, r = inl (Some q) ->
      (q < nports)%nat /\ exists b, deliverable N (tbl w) (set_blog b s) q = Ok true) w.
Proof.
  intros Hk. revert prev s w. induction l as [|p l IH]; intros prev s w Hl Hd E Hw Hr Hb Hprev; cbn [flood_loop].
  { apply wp_ret. split; [by apply keeps_refl|]. intros q Hq. injection Hq. apply Hprev. }
  apply Forall_cons in Hl as [Hp Hl]. apply wp_bind. eapply wp_mono; [by apply (maybe_deliver_spec hook prev p i s)|].
  intros [prev'|err] w1 [Hkeep Hq]; [|by apply wp_ret].
  destruct (keeps_off _ _ _ _ _ Hkeep) as (b & E1 & Hh & Ht & Hw1 & Hm).
  eapply wp_mono.
  - apply (IH prev' (set_blog b s)); rewrite ?Ht; try done. intros q ->. by apply Hq.
  - intros r w2 [Hkeep2 Hq2]. rewrite Ht in *. split; [|done].
    by apply (keeps_trans (sent_ok (tbl w) s) _ i s b w w1 w2).
Qed.

Definition nports_of (w : world) : nat := length (ports (br (stp_of (tbl w)))).

Lemma bridge_ports_lt w : nports_of w = nports ->
  Forall (fun p => (p < nports)%nat) (port_list (stp_of (tbl w))).
Proof.
  intros <-. apply Forall_forall. intros p [_ H]%elem_of_seq. unfold nports_of. lia.
Qed.

Lemma skip_blog_spec i s w : heap w !! i = Some s -> heap_ok w ->
  wp (match blog_p s with
      | Some b => if negb (rx_multicast b) then blog_skip i else mret tt
      | None => mret tt
      end) (fun _ w' => keeps (fun _ => False) i s w w') w.
Proof.
  intros E Hw. assert (H0 : keeps (fun _ => False) i s w w) by by apply keeps_refl.
  destruct (blog_p s) as [b|]; [|by apply wp_ret]. destruct (negb _); [|by apply wp_ret].
  eapply wp_skb_upd; [done|]. split.
  - intros j Hj. cbn in *. rewrite lookup_insert_ne; [by apply Hw|]. intros ->. by rewrite Hw in E.
  - exists None. apply moved_heap.
Qed.

Lemma blog_clone_spec i s prev w : heap w !! i = Some s -> heap_ok w ->
  wp (blog_clone N i prev) (fun _ w' => keeps (fun _ => False) i s w w') w.
Proof.
  intros E Hw. destruct prev as [b|]; [|by apply wp_ret, keeps_refl].
  eapply wp_skb_upd; [done|]. split.
  - intros j Hj. cbn in *. rewrite lookup_insert_ne; [by apply Hw|]. intros ->. by rewrite Hw in E.
  - eexists. apply moved_heap.
Qed.

Lemma spends_after (P : ev -> Prop) i s b w w1 w2 : moved P (<[i := set_blog b s]> (heap w)) w w1 ->
  moved P (delete i (heap w1)) w1 w2 -> moved P (delete i (heap w)) w w2.
Proof.
  intros Hm Hm2. destruct (moved_tbl _ _ _ _ Hm) as [_ Hh]. rewrite Hh, delete_insert_eq in Hm2.
  by eapply moved_trans.
Qed.

Lemma heap_ok_delete P i w w' : moved P (delete i (heap w)) w w' -> heap_ok w -> heap_ok w'.
Proof.
  intros Hm Hw. eapply heap_ok_moved; [done..|]. intros j Hj. apply lookup_delete_None. by right.
Qed.

(** A buffer given away: by a frame on a port it may go to, or dropped. *)
Definition spent (i : nat) (s : sk_buff) (w w' : world) : Prop :=
  heap_ok w' /\ moved (sent_ok (tbl w) s) (delete i (heap w)) w w'.

(** [br_flood] gives the buffer away, unless the caller has another use for
    it. *)
Lemma br_flood_spec hook i s skb0 w : packet_hook_ok hook -> nports_of w = nports ->
  decides (tbl w) s -> heap w !! i = Some s -> users s = 1 -> heap_ok w -> room s -> brdev s <> None ->
  skb0 = None \/ skb0 = Some i ->
  wp (br_flood N i skb0 hook) (fun _ w' => match skb0 with
    | None => spent i s w w'
    | Some _ => keeps (sent_ok (tbl w) s) i s w w'
    end) w.
Proof.
  intros Hk Hn Hd E Hu Hw Hr Hb H0. unfold br_flood. apply wp_bind. eapply wp_skb_at; [done|].
  apply wp_bind. eapply wp_mono; [by apply skip_blog_spec|cbv beta]. intros ? w1 Hkeep.
  destruct (keeps_off _ _ _ _ _ Hkeep) as (b & E1 & Hh & Ht & Hw1 & Hm).
  apply wp_bind, wp_gets, wp_bind. eapply wp_mono.
  - apply (flood_loop_spec hook _ None i (set_blog b s)); rewrite ?Ht; try done. by apply bridge_ports_lt.
  - intros r w2 [Hkeep2 Hq]. rewrite Ht in *.
    assert (Hkeep' : keeps (sent_ok (tbl w) s) i s w w2)
      by (eapply keeps_trans; [|done..]; done). clear Hkeep Hkeep2.
    destruct (keeps_off _ _ _ _ _ Hkeep') as (b2 & E2 & Hh2 & Ht2 & Hw2 & Hm2).
    assert (Hdrop : wp (match skb0 with Some _ => mret tt | None => kfree_skb i end)
      (fun _ w' => match skb0 with None => spent i s w w' | Some _ => keeps (sent_ok (tbl w) s) i s w w' end) w2).
    { destruct H0 as [->| ->]; [|by apply wp_ret]. eapply wp_kfree_skb; [done..|].
      assert (moved (sent_ok (tbl w) s) (delete i (heap w)) w (given i (Freed (set_blog b2 s)) w2))
        by (eapply spends_after; [done|by apply moved_given]).
      split; [by eapply heap_ok_delete|done]. }
    destruct r as [[q|]|err]; [|done..]. destruct (Hq q eq_refl) as (Hqn & b' & Hdq).
    destruct H0 as [->| ->].
    + eapply wp_mono; [by apply (Hk q i (set_blog b2 s))|cbv beta]. intros ? w3 Hm3.
      assert (moved (sent_ok (tbl w) s) (delete i (heap w)) w w3).
      { eapply spends_after; [done|]. eapply moved_mono; [|done]. intros e. by apply (sent_xmit _ _ q b'). }
      split; [by eapply heap_ok_delete|done].
    + apply wp_bind. eapply wp_skb_at; [done|]. apply wp_bind. eapply wp_mono; [by apply (blog_clone_spec i (set_blog b2 s))|].
      intros ? w3 Hkeep3. destruct (keeps_off _ _ _ _ _ Hkeep3) as (b3 & E3 & Hh3 & Ht3 & Hw3 & Hm3).
      apply wp_bind. eapply wp_mono; [by apply (deliver_clone_spec hook q i (set_blog b3 (set_blog b2 s)))|].
      intros ? w4 Hkeep4. apply wp_ret. eapply keeps_trans; [|exact E2|done|].
      * done.
      * eapply keeps_trans; [|exact E3|done|]; [done|]. destruct Hkeep4 as (Hw4 & b4 & Hm4). split; [done|].
        exists b4. eapply moved_mono; [|done]. intros e. by apply (sent_xmit _ _ q b').
Qed.

Lemma br_forward_spec p i s skb0 w : (p < nports)%nat ->
  decides (tbl w) s -> heap w !! i = Some s -> users s = 1 -> heap_ok w -> room s -> brdev s <> None ->
  wp (br_forward N (Some p) i skb0) (fun _ w' => match skb0 with
    | None => spent i s w w'
    | Some _ => keeps (sent_ok (tbl w) s) i s w w'
    end) w.
Proof.
  intros Hp Hd E Hu Hw Hr Hb. unfold br_forward. apply wp_bind.
  apply (wp_should_deliver p i s (blog_p s)); [done..|by rewrite set_blog_id|]. intros [] Er.
  - apply wp_bind. eapply wp_lift; [done|]. destruct skb0 as [j|].
    + apply wp_bind. eapply wp_mono; [by apply (deliver_clone_spec _ p i s); [apply br_forward_hook|..]|].
      intros ? w' (Hw' & b & Hm). apply wp_ret. split; [done|]. exists b. eapply moved_mono; [|done].
      intros e. by apply (sent_xmit _ _ p (blog_p s)).
    + eapply wp_mono; [by apply (br_forward_hook p i s)|cbv beta]. intros ? w' Hm.
      split; [by eapply heap_ok_delete|]. eapply moved_mono; [|done]. intros e.
      by apply (sent_xmit _ _ p (blog_p s)).
  - destruct skb0 as [j|]; [by apply wp_ret, keeps_refl|]. eapply wp_kfree_skb; [done..|].
    assert (Hm : moved (sent_ok (tbl w) s) (delete i (heap w)) w (given i (Freed s) w)) by by apply moved_given.
    split; [by eapply heap_ok_delete|done].
Qed.

Lemma br_deliver_spec to i s w : (forall p, to = Some p -> (p < nports)%nat) ->
  decides (tbl w) s -> heap w !! i = Some s -> users s = 1 -> heap_ok w -> room s ->
  wp (br_deliver N to i) (fun _ w' => spent i s w w') w.
Proof.
  intros Hp Hd E Hu Hw Hr.
  assert (Hfree : spent i s w (given i (Freed s) w)).
  { assert (Hm : moved (sent_ok (tbl w) s) (delete i (heap w)) w (given i (Freed s) w)) by by apply moved_given.
    split; [by eapply heap_ok_delete|done]. }
  destruct to as [p|]; cbn [br_deliver]; [|by eapply wp_kfree_skb]. apply wp_bind.
  apply (wp_should_deliver p i s (blog_p s)); [by apply Hp|done|by rewrite set_blog_id|]. intros [] Er.
  - eapply wp_mono; [by apply (br_deliver_hook p i s); [apply Hp|..]|cbv beta]. intros ? w' Hm.
    split; [by eapply heap_ok_delete|]. eapply moved_mono; [|done]. intros e.
    apply (sent_xmit _ _ p (blog_p s)); [by apply Hp|done].
  - by eapply wp_kfree_skb.
Qed.

(** ** The decision is defined *)

Lemma path_root_ok fuel d : (d < length (devs N))%nat -> (d < fuel)%nat ->
  exists r, path_root N fuel d = Ok r /\ (r < length (devs N))%nat.
Proof.
  revert d. induction fuel as [|fuel IH]; intros d Hd Hf; [lia|]. cbn [path_root].
  destruct (dev_at_ok d Hd) as (x & -> & Hx). cbn. destruct (next_dev x) as [n|] eqn:En; [|by exists d].
  pose proof (nk_paths _ _ HN d x n Hx En). apply IH; lia.
Qed.

Lemma wan_refuses_ok s sd dd : (sd < length (devs N))%nat -> (dd < length (devs N))%nat ->
  exists r, wan_refuses N s sd dd = Ok r.
Proof.
  intros Hs Hd. unfold wan_refuses. destruct (dev_at_ok sd Hs) as (x & -> & _).
  destruct (dev_at_ok dd Hd) as (y & -> & _). cbn [mbind res_bind]. destruct (nonzero _); [by eexists|].
  destruct (_ && _); [|by eexists]. unfold lan_refuses, netdev_path_get_root.
  destruct (path_root_ok (S (length (devs N))) sd) as (a & -> & Ha); [lia..|].
  destruct (path_root_ok (S (length (devs N))) dd) as (b & -> & Hb); [lia..|]. cbn.
  destruct (Nat.eqb a b); [by eexists|]. destruct (dev_at_ok a Ha) as (xa & -> & _).
  destruct (dev_at_ok b Hb) as (xb & -> & _). by eexists.
Qed.

Lemma igmp_refuses_ok s dd : igmp_fits s -> (dd < length (devs N))%nat -> exists r, igmp_refuses N s dd = Ok r.
Proof.
  intros (pip & g & l & E & Hg) Hd. unfold igmp_refuses. rewrite E. cbn. destruct g as [g|]; [|by eexists].
  destruct (dev_at_ok dd Hd) as (x & -> & _). destruct (rd_Ok (mac s) g) as (b & -> & _); [by apply Hg|].
  cbn. destruct (wandev x); by eexists.
Qed.

Lemma decides_ok w s : nports_of w = nports -> (dev s < length (devs N))%nat -> igmp_fits s ->
  decides (tbl w) s.
Proof.
  intros Hn Hd Hf p b Hp. unfold deliverable.
  assert (exists r, hooks_refuse N (set_blog b s) = Ok r) as (r & ->).
  { unfold hooks_refuse. destruct (match _ with Some _ => _ | None => _ end); [by eexists|].
    destruct (dns_hijack_hook N); [|by eexists]. destruct (dev_at_ok (dev s) Hd) as (x & E & _).
    cbn [dev set_blog]. rewrite E. by eexists. }
  cbn. destruct r; [by eexists|]. pose proof (nk_ports _ _ HN p Hp) as Hpd.
  destruct (wan_refuses_ok (set_blog b s) (dev s) (port_dev N p)) as (r & ->); [done..|]. cbn.
  destruct r; [by eexists|]. destruct (igmp_refuses_ok (set_blog b s) (port_dev N p)) as (r & ->); [done..|].
  cbn. destruct r; [by eexists|]. unfold port_at. rewrite <- Hn in Hp.
  destruct (lookup_lt_is_Some_2 _ _ Hp) as [pt ->]. by eexists.
Qed.

End Forward.

(** ** Flooding reaches every port *)

(** The buffers handed to drivers, in order. *)
Definition xmitted (l : list ev) : list sk_buff :=
  omap (fun e => match e with Xmit s => Some s | _ => None end) l.

Lemma xmitted_app l k : xmitted (l ++ k) = xmitted l ++ xmitted k.
Proof. apply omap_app. Qed.

Lemma xmitted_map l : xmitted (map Xmit l) = l.
Proof. induction l as [|x l IH]; [done|]. cbn. by f_equal. Qed.

(** Nobody has registered a hook, and there is memory. *)
Record quiet (N : net) : Prop := mk_quiet {
  q_nf : forall k, nf_hooks N k = [];
  q_wifi : wifi_iso_listen_forward_cb N = None;
  q_dns : dns_hijack_hook N = None;
  q_mem : forall n, skb_alloc N n = true
}.

Section Exact.
Context (N : net) (nports : nat) (HN : net_ok N nports) (HQ : quiet N).

Lemma NF_HOOK_quiet k i a b okfn w : NF_HOOK N k i a b okfn w = okfn i w.
Proof. unfold NF_HOOK. by rewrite (q_nf _ HQ). Qed.

(** From [w] to [w'] the frame of [s] has left by the devices [D]. *)
Definition sends (s : sk_buff) (D : list nat) (h : gmap nat sk_buff) (w w' : world) : Prop :=
  exists ss n st, map dev ss = D /\
    Forall (fun s' => mac s' = mac s /\ data s' = data s - ETH_HLEN) ss /\ (next_skb w <= n)%nat /\
    w' = set_stats st (set_next_skb n (set_heap h (set_trace (trace w ++ map Xmit ss) w))).

Lemma sends_trans s D1 D2 h1 h2 w w1 w2 :
  sends s D1 h1 w w1 -> sends s D2 h2 w1 w2 -> sends s (D1 ++ D2) h2 w w2.
Proof.
  intros (l1 & n1 & st1 & Hd1 & Hl1 & Hn1 & ->) (l2 & n2 & st2 & Hd2 & Hl2 & Hn2 & ->). cbn in *.
  exists (l1 ++ l2), n2, st2. rewrite !map_app, Hd1, Hd2. split; [done|]. split; [by apply Forall_app|].
  split; [lia|]. by rewrite app_assoc.
Qed.

(** The frame is not too long for the devices of the ports. *)
Definition fits_mtu (s : sk_buff) : Prop := skb_warn_if_lro s = false /\
  forall p x, (p < nports)%nat -> devs N !! port_dev N p = Some x -> packet_length s <= mtu x.

Lemma csum_len d s : packet_length (skb_forward_csum (set_dev d s)) = packet_length s /\
  mac (skb_forward_csum (set_dev d s)) = mac s /\ data (skb_forward_csum (set_dev d s)) = data s /\
  dev (skb_forward_csum (set_dev d s)) = d /\ headroom (skb_forward_csum (set_dev d s)) = headroom s /\
  users (skb_forward_csum (set_dev d s)) = users s.
Proof. unfold skb_forward_csum. by destruct (_ =? _). Qed.

Lemma push_exact p i s w : (p < nports)%nat -> heap w !! i = Some s -> users s = 1 -> room s ->
  dev s = port_dev N p -> fits_mtu s ->
  wp (br_dev_queue_push_xmit N i) (fun _ w' => sends s [port_dev N p] (delete i (heap w)) w w') w.
Proof.
  intros Hp E Hu Hr Hd [_ Hm]. unfold br_dev_queue_push_xmit. apply wp_bind. eapply wp_skb_at; [done|].
  destruct (dev_at_ok N (dev s)) as (x & Ex & Hx); [rewrite Hd; by apply (nk_ports _ _ HN)|].
  apply wp_bind. eapply wp_lift; [done|]. rewrite Hd in Hx.
  rewrite (proj2 (Z.ltb_ge _ _) (Hm p x Hp Hx)). cbn [andb]. apply wp_bind. unfold skb_push. apply wp_bind.
  eapply wp_skb_at; [done|]. unfold room in Hr.
  destruct (Z.ltb_spec (data s - ETH_HLEN) (- headroom s)); [lia|]. apply wp_modify. apply wp_bind.
  eapply wp_dev_queue_xmit; [by cbn; apply lookup_insert_eq|done|]. apply wp_ret. rewrite given_over.
  exists [set_data (data s - ETH_HLEN) (u32 (len s + ETH_HLEN)) s], (next_skb w), (stats w).
  split; [cbn; by rewrite Hd|]. split; [by apply Forall_singleton|]. split; [done|]. by destruct w.
Qed.

Lemma forward_exact p i s w : (p < nports)%nat -> heap w !! i = Some s -> users s = 1 -> room s ->
  fits_mtu s -> wp (__br_forward N p i) (fun _ w' => sends s [port_dev N p] (delete i (heap w)) w w') w.
Proof.
  intros Hp E Hu Hr Hm. unfold __br_forward. apply wp_bind. eapply wp_skb_at; [done|].
  rewrite (proj1 Hm). apply wp_bind. eapply wp_skb_upd; [done|]. apply wp_bind.
  destruct (csum_len (port_dev N p) s) as (Hl & Hmac & Hdata & Hdev & Hroom & Hus).
  set (s1 := skb_forward_csum (set_dev (port_dev N p) s)) in *.
  unfold wp at 1. rewrite NF_HOOK_quiet. fold (wp (br_forward_finish N i)).
  change (wp (br_forward_finish N i) (fun a => wp (mret tt) (fun _ w' =>
    sends s [port_dev N p] (delete i (heap w)) w w')) (set_heap (<[i:=s1]> (heap w)) w)).
  unfold br_forward_finish. apply wp_bind. eapply wp_skb_at; [by cbn; apply lookup_insert_eq|].
  unfold wp at 1. rewrite NF_HOOK_quiet.
  change (wp (br_dev_queue_push_xmit N i) (fun a => wp (mret tt) (fun _ w' =>
    sends s [port_dev N p] (delete i (heap w)) w w')) (set_heap (<[i:=s1]> (heap w)) w)).
  eapply wp_mono.
  - apply (push_exact p i s1); [done|by cbn; apply lookup_insert_eq|congruence| |done|].
    + unfold room in *. lia.
    + destruct Hm as [Hlro Hm]. split; [|by rewrite Hl].
      unfold s1, skb_forward_csum. by destruct (_ =? _).
  - cbv beta. intros _ w' (ss & n & st & Hd & Hf & Hn & ->). apply wp_ret. exists ss, n, st.
    split; [done|]. cbn [heap set_heap]. rewrite delete_insert_eq. rewrite Hmac, Hdata in Hf. done.
Qed.

Lemma clone_exact p i s w : (p < nports)%nat -> heap w !! i = Some s -> heap_ok w -> room s -> fits_mtu s ->
  wp (deliver_clone N p i (__br_forward N)) (fun r w' => r = 0 /\ heap_ok w' /\
    sends s [port_dev N p] (<[i := set_blog None s]> (heap w)) w w') w.
Proof.
  intros Hp E Hw Hr Hm. pose proof (clone_ne _ _ _ E Hw) as Hne. unfold deliver_clone.
  apply wp_bind. eapply wp_skb_at; [done|]. apply wp_bind. unfold skb_clone.
  apply wp_bind. eapply wp_skb_at; [done|]. apply wp_bind, wp_gets, wp_bind, wp_modify.
  rewrite (q_mem _ HQ). apply wp_bind, wp_modify, wp_bind, wp_modify, wp_ret, wp_bind. eapply wp_mono.
  - apply (forward_exact p (next_skb w) (set_users 1 s)); [done|by cbn; apply lookup_insert_eq|done..].
  - cbv beta. intros _ w' (ss & n & st & Hd & Hf & Hn & ->). apply wp_ret. split; [done|].
    change (S (next_skb w) <= n)%nat in Hn. cbn [heap set_heap set_next_skb].
    rewrite delete_insert_id by (rewrite lookup_insert_ne by done; apply Hw; lia). split.
    + intros j Hj. cbn in *. rewrite lookup_insert_ne; [apply Hw; lia|]. intros ->. rewrite Hw in E; [done|lia].
    + exists ss, n, st. split; [done|]. split; [done|]. split; [lia|done].
Qed.

(** The ports a frame goes to. *)
Definition targets (t : fdb) (s : sk_buff) (l : list nat) : list nat :=
  List.filter (fun p => match deliverable N t s p with Ok b => b | Fault _ => false end) l.

Lemma deliverable_blog t s b p : deliverable N t (set_blog b s) p = deliverable N t s p.
Proof. unfold deliverable, hooks_refuse. by rewrite (q_wifi _ HQ), (q_dns _ HQ). Qed.

Definition olist {A} (o : option A) : list A := match o with Some a => [a] | None => [] end.

Lemma flood_exact l prev i s w : Forall (fun p => (p < nports)%nat) (olist prev ++ l) ->
  decides N nports (tbl w) s -> heap w !! i = Some s -> heap_ok w -> room s -> fits_mtu s ->
  wp (flood_loop N l prev i (__br_forward N)) (fun r w' => exists q b D, r = inl q /\ heap_ok w' /\
    sends s D (<[i := set_blog b s]> (heap w)) w w' /\
    D ++ map (port_dev N) (olist q) = map (port_dev N) (olist prev ++ targets (tbl w) s l) /\
    forall p, q = Some p -> (p < nports)%nat) w.
Proof.
  revert prev s w. induction l as [|p l IH]; intros prev s w Hl Hd E Hw Hr Hm; cbn [flood_loop].
  { apply wp_ret. exists prev, (blog_p s), []. split; [done|]. split; [done|]. rewrite set_blog_id, insert_id by done.
    split; [|rewrite app_nil_r; split; [done|]].
    - exists [], (next_skb w), (stats w). repeat (split; [done|]). cbn. rewrite app_nil_r. by destruct w.
    - intros p ->. by apply Forall_app in Hl as [[? _]%Forall_cons _]. }
  assert (Hp : (p < nports)%nat) by (apply Forall_app in Hl as [_ [? _]%Forall_cons]; done).
  unfold maybe_deliver. apply wp_bind, wp_bind.
  apply (wp_should_deliver N nports p i s (blog_p s)); [done..|by rewrite set_blog_id|]. intros r Er.
  rewrite set_blog_id in Er. cbn [targets List.filter]. rewrite Er. destruct r; cbn [negb].
  2: { apply wp_ret. apply (IH prev s w); [|done..]. apply Forall_app in Hl as [? [_ ?]%Forall_cons].
       by apply Forall_app. }
  destruct prev as [q|].
  2: { apply wp_ret. apply (IH (Some p) s w); done. }
  assert (Hq : (q < nports)%nat) by (by apply Forall_cons in Hl as [? _]).
  apply wp_bind. eapply wp_mono; [by apply (clone_exact q i s)|cbv beta]. intros err w1 (-> & Hw1 & Hs1). cbn [nonzero negb Z.eqb].
  apply wp_ret. assert (tbl w1 = tbl w /\ heap w1 = <[i:=set_blog None s]> (heap w)) as [Ht Hh]
    by (destruct Hs1 as (?&?&?&_&_&_&->); done).
  eapply wp_mono.
  - apply (IH (Some p) (set_blog None s) w1); rewrite ?Ht; try done.
    + apply Forall_cons in Hl as [_ ?]. done.
    + rewrite Hh. apply lookup_insert_eq.
  - cbv beta. intros r w2 (q' & b & D & -> & Hw2 & Hs2 & HD & Hq'). exists q', b, (port_dev N q :: D).
    split; [done|]. split; [done|]. rewrite Hh, set_blog_twice, insert_insert_eq in Hs2.
    split; [by eapply (sends_trans s [port_dev N q] D)|]. split; [|done]. cbn [olist app map]. f_equal.
    rewrite HD, Ht. cbn. f_equal. f_equal. apply List.filter_ext. intros x.
    by rewrite deliverable_blog.
Qed.

Lemma sends_xmitted s D h w w' : sends s D h w w' -> exists ss,
  xmitted (trace w') = xmitted (trace w) ++ ss /\ map dev ss = D /\
  Forall (fun s' => mac s' = mac s /\ data s' = data s - ETH_HLEN) ss.
Proof.
  intros (ss & n & st & Hd & Hf & _ & ->). exists ss. cbn. by rewrite xmitted_app, xmitted_map.
Qed.

(** The last port of a flood. *)
Lemma last_port_exact q skb0 i s b w : skb0 = None \/ skb0 = Some i -> (q < nports)%nat ->
  heap w !! i = Some (set_blog b s) -> users s = 1 -> heap_ok w -> room s -> fits_mtu s ->
  wp (match skb0 with
      | Some j =>
          s0 ← skb_at j;
          blog_clone N i (blog_p s0);; deliver_clone N q i (__br_forward N);; mret tt
      | None => __br_forward N q i
      end) (fun _ w' => exists h, sends s [port_dev N q] h w w') w.
Proof.
  intros [->| ->] Hq E Hu Hw Hr Hm.
  - eapply wp_mono; [by apply (forward_exact q i (set_blog b s))|cbv beta]. intros _ w' Hs. by eexists.
  - apply wp_bind. eapply wp_skb_at; [done|]. apply wp_bind.
    eapply wp_mono; [by apply (blog_clone_spec N i (set_blog b s))|cbv beta]. intros _ w1 Hk.
    destruct (keeps_off _ _ _ _ _ Hk) as (b' & E1 & _ & _ & Hw1 & (l & n & st & Hl & Hn & Hw1')).
    apply wp_bind. eapply wp_mono; [by apply (clone_exact q i (set_blog b' (set_blog b s)))|cbv beta].
    intros r w2 (_ & _ & Hs). apply wp_ret. destruct l as [|e l]; [|by apply Forall_cons in Hl as [? _]].
    destruct Hs as (ss & n2 & st2 & Hd & Hf & Hn2 & ->). subst w1. eexists. exists ss, n2, st2.
    split; [done|]. split; [done|]. cbn in Hn2 |- *. rewrite app_nil_r. split; [lia|done].
Qed.

End Exact.

(** C20: when no module interferes and there is memory, flooding a frame hands
    it to the driver of every port it may be delivered to, once each and in
    the order of the ports, with the bytes it was received with and the data
    pointer back on the Ethernet header; and to no other. *)
Theorem flood_reaches_every_port N nports w i s skb0 :
  net_ok N nports -> quiet N -> nports_of w = nports -> heap w !! i = Some s -> users s = 1 ->
  heap_ok w -> room s -> (dev s < length (devs N))%nat -> igmp_fits s -> fits_mtu N nports s ->
  skb0 = None \/ skb0 = Some i ->
  exists w' ss, br_flood_forward N i skb0 w = Ok (tt, w') /\
    xmitted (trace w') = xmitted (trace w) ++ ss /\
    map dev ss = map (port_dev N) (targets N (tbl w) s (port_list (stp_of (tbl w)))) /\
    Forall (fun s' => mac s' = mac s /\ data s' = data s - ETH_HLEN) ss.
Proof.
  intros HN HQ Hn E Hu Hw Hr Hd Hf Hm H0.
  cut (wp (br_flood_forward N i skb0) (fun _ w' => exists ss, xmitted (trace w') = xmitted (trace w) ++ ss /\
    map dev ss = map (port_dev N) (targets N (tbl w) s (port_list (stp_of (tbl w)))) /\
    Forall (fun s' => mac s' = mac s /\ data s' = data s - ETH_HLEN) ss) w).
  { intros ([] & w' & Ew & ss & H)%wp_elim. by exists w', ss. }
  unfold br_flood_forward, br_flood. apply wp_bind. eapply wp_skb_at; [done|]. apply wp_bind.
  eapply wp_mono; [by apply skip_blog_spec|cbv beta]. intros _ w1 Hk.
  destruct (keeps_off _ _ _ _ _ Hk) as (b & E1 & Hh & Ht & Hw1 & (l & n & st & Hl & Hn1 & Hw1')).
  destruct l as [|e l]; [|by apply Forall_cons in Hl as [? _]].
  assert (Htr : trace w1 = trace w) by (subst w1; cbn; apply app_nil_r).
  apply wp_bind, wp_gets, wp_bind. rewrite Ht. eapply wp_mono.
  - apply (flood_exact N nports HN HQ _ None i (set_blog b s)); rewrite ?Ht; try done.
    + by eapply bridge_ports_lt.
    + intros p b' Hp. rewrite set_blog_twice. by apply (decides_ok N nports HN w s).
  - cbv beta. intros r w2 (q & b2 & D & -> & Hw2 & Hs & HD & Hq). rewrite Ht in HD. cbn [olist app] in HD.
    assert (E2 : heap w2 !! i = Some (set_blog b2 s))
      by (destruct Hs as (?&?&?&_&_&_&->); apply lookup_insert_eq).
    apply sends_xmitted in Hs as (ss & Hx & Hdev & Hall). rewrite Htr in Hx.
    assert (HD' : D ++ map (port_dev N) (olist q) =
      map (port_dev N) (targets N (tbl w) s (port_list (stp_of (tbl w))))).
    { rewrite HD. f_equal. apply List.filter_ext. intros p. by rewrite (deliverable_blog N HQ). }
    destruct q as [q|].
    + eapply wp_mono; [by apply (last_port_exact N nports HN HQ q skb0 i s b2); [|apply Hq|..]|cbv beta].
      intros _ w3 (h & (ss' & Hx' & Hdev' & Hall')%sends_xmitted). exists (ss ++ ss').
      rewrite Hx', Hx, app_assoc, map_app, Hdev, Hdev'. split; [done|]. split; [done|]. by apply Forall_app.
    + rewrite app_nil_r in HD'. assert (wp (match skb0 with Some _ => mret tt | None => kfree_skb i end)
        (fun _ w' => xmitted (trace w') = xmitted (trace w2)) w2) as Hend.
      { destruct H0 as [->| ->]; [|by apply wp_ret]. eapply wp_kfree_skb; [done..|]. cbn.
        by rewrite xmitted_app, app_nil_r. }
      eapply wp_mono; [done|cbv beta]. intros _ w3 Hx3. exists ss. by rewrite Hx3, Hx, Hdev.
Qed.

Lemma demo_net_ok hooks admission : (forall k, Forall (hook_ok (fun _ => True)) (hooks k)) ->
  net_ok (demo_net hooks admission) 3.
Proof.
  intros Hh. split; cbn.
  - exact Hh.
  - intros [|[|[|[|d]]]] x n; cbn; intros [= <-]; discriminate.
  - unfold id. lia.
  - intros [|[|[|[|d]]]] x p; cbn; intros [= <-]; cbn; intros [= <-]; lia.
  - lia.
Qed.

Lemma demo_heap_ok t s dl : heap_ok (demo_world t s dl).
Proof. intros [|j] Hj; [cbn in Hj; lia|]. cbn [heap demo_world]. by rewrite lookup_singleton_ne. Qed.

(** A broadcast from port 1 goes to port 2, as port 3 is blocked. *)
Lemma flood_reaches_every_port_witness : exists w' ss,
  br_flood_forward (demo_net (fun _ => []) false) 0 (Some 0%nat)
    (demo_world (demo_fdb FORWARDING) (demo_frame broadcast 0x0800 []) free_slots) = Ok (tt, w') /\
  xmitted (trace w') = [] ++ ss /\ map dev ss = [1%nat] /\
  Forall (fun s' => mac s' = mac (demo_frame broadcast 0x0800 []) /\ data s' = 14 - ETH_HLEN) ss.
Proof.
  apply (flood_reaches_every_port (demo_net (fun _ => []) false) 3
    (demo_world (demo_fdb FORWARDING) (demo_frame broadcast 0x0800 []) free_slots) 0
    (demo_frame broadcast 0x0800 []) (Some 0%nat)).
  - by apply demo_net_ok.
  - by split.
  - reflexivity.
  - reflexivity.
  - reflexivity.
  - apply demo_heap_ok.
  - unfold room. vm_compute. discriminate.
  - cbn. lia.
  - exists None, None, None. by vm_compute.
  - split; [reflexivity|]. intros [|[|[|p]]] x Hp; cbn in *; [intros [= <-]; cbn; discriminate..|lia].
  - by right.
Defined.
