(* ===== verification/Groups.v ===== *)
(** Tables of multicast groups, for IPv4 and for IPv6 alike: net/bridge/br_igmp.c
    and br_mld.c have the same loops over different structures.

    A table is a hash table of entries, each for one membership (groups,
    source, filter mode and devices), with a list of reporters and the time
    each of them ends.  [GroupTable] is what the loops need of an entry; its
    instances are in BrIgmp and BrMld. *)

From S2P Require Import Prelude Stp Fdb Bridge.

(** ** Constants *)

Definition TIMER_CHECK_TIMEOUT : Z := 2 * HZ.
Definition MCAST_EXCLUDE : Z := 0.
Definition MCAST_INCLUDE : Z := 1.
Definition SNOOP_IN_ADD : Z := 1.
Definition SNOOP_IN_CLEAR : Z := 2.
Definition SNOOP_EX_ADD : Z := 3.
Definition SNOOP_EX_CLEAR : Z := 4.
Definition MCPD_IF_TYPE_BRIDGED : Z := 1.
Definition MCPD_IF_TYPE_ROUTED : Z := 2.

Definition time_after (a b : Z) : bool := s32 (b - a) <? 0.
Definition time_after_eq (a b : Z) : bool := 0 <=? s32 (a - b).

Definition now_of : M Z := gets (fun w => jiffies (stp_of (tbl w))).

(** The end of a membership of [timeout] seconds that begins now. *)
Definition membership_end (timeout : Z) : M Z := j ← now_of; mret (u32 (j + timeout * HZ)).

(** ** What an entry has

    [E] is the type of entries, [A] that of addresses of reporters, [K] what
    the entries of one membership share. *)
Class Address (A : Type) : Type := mc_same : A -> A -> bool.

Class GroupTable (E A K : Type) : Type := {
  mc_table : world -> list (list E);
  set_mc_table : list (list E) -> world -> world;
  mc_reps : E -> list (mc_rep_entry A);
  set_mc_reps : list (mc_rep_entry A) -> E -> E;
  mc_key : E -> K;
  mc_root : E -> bool;
  mc_unroot : E -> E
}.

Section Groups.
Context {E A K : Type} {Same : Address A} {G : GroupTable E A K}.
Implicit Types (e : E) (r : A) (w : world).

Definition mc_chain w (h : nat) : list E := nth h (mc_table w) [].
Definition set_mc_chain (h : nat) (l : list E) w : world := set_mc_table (<[h := l]> (mc_table w)) w.

(** The earliest of [t] and the times the reporters of [l] end. *)
Definition earliest_reporter (l : list E) (t : Z * bool) : Z * bool :=
  foldl (fun '(t, found) x => if time_after t (tstamp x) then (tstamp x, true) else (t, found)) t
    (concat (map mc_reps l)).

(** The reporters that the deletion of [r], or of all, removes, and the
    others. *)
Fixpoint del_reps (l : list (mc_rep_entry A)) (r : option A)
    : list (mc_rep_entry A) * list (mc_rep_entry A) :=
  match l with
  | [] => ([], [])
  | x :: l =>
      match r with
      | None => let '(gone, l) := del_reps l r in (x :: gone, l)
      | Some a =>
          if mc_same (rep x) a then ([x], l) else let '(gone, l) := del_reps l r in (gone, x :: l)
      end
  end.

(** The entry with the reporters [l], which goes with the last of them. *)
Definition with_reps (l : list (mc_rep_entry A)) e : option E :=
  match l with [] => None | _ => Some (set_mc_reps l e) end.

(** [hlist_for_each_entry_safe] where the body keeps, changes or removes the
    entry. *)
Fixpoint mc_walk (body : E -> M (option E)) (l : list E) : M (list E) :=
  match l with
  | [] => mret []
  | e :: l =>
      o ← body e;
      l ← mc_walk body l;
      mret (match o with Some e => e :: l | None => l end)
  end.

Definition mc_walk_chain (body : E -> M (option E)) (h : nat) : M unit :=
  w ← gets id;
  l ← mc_walk body (mc_chain w h);
  modify (set_mc_chain h l).

Definition mc_chains : list nat := seq 0 (Z.to_nat BR_HASH_SIZE).
Definition mc_walk_all (body : E -> M (option E)) : M unit := for_each mc_chains (mc_walk_chain body).

Definition rep_find e r : option (mc_rep_entry A) := List.find (fun x => mc_same (rep x) r) (mc_reps e).

(** The loop of a query timeout over the reporters of an entry; [del] deletes
    one. *)
Fixpoint timeout_reps (del : E -> option A -> M (option E)) (l : list (mc_rep_entry A)) (o : option E)
    : M (option E) :=
  match l with
  | [] => mret o
  | x :: l =>
      j ← now_of;
      match o with
      | Some e =>
          o ← (if time_after_eq j (tstamp x) then del e (Some (rep x)) else mret (Some e));
          timeout_reps del l o
      | None => mret None
      end
  end.

(** The time of the first reporter [r] of [l] renewed. *)
Fixpoint renew r (t : Z) (l : list (mc_rep_entry A)) : list (mc_rep_entry A) :=
  match l with
  | [] => []
  | x :: l => if mc_same (rep x) r then mk_rep (rep x) t :: l else x :: renew r t l
  end.

(** The reporter [r] added to an entry, or its time renewed. *)
Definition refresh_rep (alloc : bool) e r (t : Z) : E :=
  match rep_find e r with
  | None => if alloc then set_mc_reps (mc_reps e ++ [mk_rep r t]) e else e
  | Some _ => set_mc_reps (renew r t (mc_reps e)) e
  end.

Definition reports e r : bool := match rep_find e r with None => false | Some _ => true end.

(** The update of the entries of the chain [h] that [P] holds of: whether
    there was one.  [alloc n] is the outcome of the allocation, [GFP_ATOMIC],
    of a reporter for the entry in the place [n]; when it fails the loop goes
    on.  The timer is set again at every entry that changes; the last time
    counts. *)
Definition mc_update (alloc : nat -> bool) (set_timer : M unit) (P : E -> bool) (h : nat) r (t : Z) : M bool :=
  w ← gets id;
  if existsb P (mc_chain w h) then
    modify (set_mc_chain h (imap (fun n e => if P e then refresh_rep (alloc n) e r t else e) (mc_chain w h)));;
    (if existsb id (imap (fun n e => P e && (reports e r || alloc n)) (mc_chain w h))
     then set_timer else mret tt);;
    mret true
  else mret false.

(** A copy of an entry, with a copy of each of its reporters, if they can all
    be allocated: all of these are [GFP_ATOMIC]. *)
Definition mc_copy (mc_atomic : bool) (rep_atomic : nat -> bool) e : option E :=
  if mc_atomic && forallb rep_atomic (seq 0 (length (mc_reps e))) then Some (mc_unroot e) else None.

Definition copies (mc_atomic : bool) (rep_atomic : nat -> bool) e (n : nat) : list E :=
  match mc_copy mc_atomic rep_atomic e with Some c => replicate n c | None => [] end.

(** The part of a request to join behind its guards: [update] renews an entry
    of the chain [h], or there is none and a new one, [entry] with the time its
    reporter ends, is added. *)
Definition mc_join (mc_atomic : bool) (rep_atomic : nat -> bool) (process : E -> Z * nat) (set_timer : M unit) (timeout : Z)
    (update : M bool) (h : nat) (entry : Z -> E) : M Z :=
  known ← update;
  if known : bool then mret 0
  else
    t ← membership_end timeout;
    let e := entry t in
    let '(ret, n) := process e in
    if ret <? 0 then modify (fun w => set_mc_chain h (copies mc_atomic rep_atomic e n ++ mc_chain w h) w);; mret ret
    else
      modify (fun w => set_mc_chain h (copies mc_atomic rep_atomic e n ++ e :: mc_chain w h) w);;
      set_timer;; mret 1.

(** The second loop of an update by device over one chain: the copies go to
    its head. *)
Fixpoint rebuild (mc_atomic : bool) (rep_atomic : nat -> bool) (process : E -> Z * nat)
    (del : E -> option A -> M (option E)) (P : E -> bool) (l : list E) : M (list E * list E) :=
  match l with
  | [] => mret ([], [])
  | e :: l =>
      if mc_root e && P e then
        let '(ret, n) := process e in
        o ← (if ret <? 0 then del e None else mret (Some e));
        '(added, kept) ← rebuild mc_atomic rep_atomic process del P l;
        mret (added ++ copies mc_atomic rep_atomic e n, match o with Some e => e :: kept | None => kept end)
      else
        '(added, kept) ← rebuild mc_atomic rep_atomic process del P l; mret (added, e :: kept)
  end.

(** The update of the entries that [P] holds of, those of a device. *)
Definition mc_update_bydev (mc_atomic : bool) (rep_atomic : nat -> bool) (process : E -> Z * nat)
    (del : E -> option A -> M (option E)) (set_timer : M unit) (P : E -> bool) (flushAll : Z) : M Z :=
  mc_walk_all (fun e =>
    if P e && (negb (mc_root e) || (flushAll =? 1)) then del e None else mret (Some e));;
  (if flushAll =? 0 then
     for_each mc_chains (fun h =>
       w ← gets id;
       '(added, kept) ← rebuild mc_atomic rep_atomic process del P (mc_chain w h);
       modify (set_mc_chain h (added ++ kept)))
   else mret tt);;
  set_timer;; mret 0.
End Groups.
