(* ===== verification/GroupsProps.v ===== *)
(** Tables of multicast groups: the invariant of a table, what its loops do to
    it, and the set of memberships it stands for, for any [GroupTable] that has
    the laws of [GroupLaws]. *)

From S2P Require Import Prelude Str Stp Fdb Bridge BrWp BrForward BrForwardProps Groups.

(** ** Reporters *)

(** Members are told of to the daemon or to drivers when they go. *)
Definition told (x : ev) : Prop :=
  match x with PurgeEntry _ _ | FlushEntry _ _ => True | _ => False end.

(** What a membership key says. *)
Class GroupKey (K : Type) : Type := {
  key_hash : net -> K -> nat;
  key_snooped : K -> bool;
  key_mode : K -> Z;
  key_from : K -> nat;
  key_dst : K -> nat
}.

(** The timer of a table, and what an operation on the table leaves alone: all
    but the table, the timer and the trace. *)
Class GroupFrame (E : Type) : Type := {
  set_mc_timer : timer -> world -> world;
  mc_frame : world -> world -> Prop
}.
Arguments set_mc_timer E {_}.
Arguments mc_frame E {_}.

Class GroupLaws (E A K : Type) `{Address A} `{GroupTable E A K} `{GroupKey K} `{GroupFrame E} : Prop := {
  law_same (a b : A) : mc_same a b = true <-> a = b;
  law_reps l (e : E) : mc_reps (set_mc_reps l e) = l;
  law_set_same (e : E) : set_mc_reps (mc_reps e) e = e;
  law_set_set l k (e : E) : set_mc_reps l (set_mc_reps k e) = set_mc_reps l e;
  law_key l (e : E) : mc_key (set_mc_reps l e) = mc_key e;
  law_root l (e : E) : mc_root (set_mc_reps l e) = mc_root e;
  law_copy (e : E) : mc_root (mc_unroot e) = false /\ mc_key (mc_unroot e) = mc_key e /\
    mc_reps (mc_unroot e) = mc_reps e;
  law_hash N (k : K) : (key_hash N k < Z.to_nat BR_HASH_SIZE)%nat;
  law_table (g : list (list E)) w : mc_table (set_mc_table g w) = g /\ trace (set_mc_table g w) = trace w /\
    mc_frame E w (set_mc_table g w);
  law_trace t w : mc_table (set_trace t w) = mc_table w :> list (list E) /\ mc_frame E w (set_trace t w);
  law_timer tm w : mc_table (set_mc_timer E tm w) = mc_table w :> list (list E) /\
    trace (set_mc_timer E tm w) = trace w /\ mc_frame E w (set_mc_timer E tm w);
  law_frame_refl w : mc_frame E w w;
  law_frame_trans w w1 w2 : mc_frame E w w1 -> mc_frame E w1 w2 -> mc_frame E w w2;
  law_frame_tbl w w' : mc_frame E w w' -> tbl w' = tbl w
}.

Definition now (w : world) : Z := jiffies (stp_of (tbl w)).

Lemma NoDup_filter_reps {A} (P : mc_rep_entry A -> bool) l :
  NoDup (map rep l) -> NoDup (map rep (List.filter P l)).
Proof.
  induction l as [|x l IH]; intros Hn; [done|]. cbn in *. apply NoDup_cons in Hn as [Hx Hn].
  destruct (P x); [|by apply IH]. cbn. apply NoDup_cons. split; [|by apply IH].
  contradict Hx. apply list_elem_of_In, in_map_iff in Hx as (y & Hy & Hin). apply filter_In in Hin as [Hin _].
  apply list_elem_of_In, in_map_iff. by exists y.
Qed.

Lemma elem_filter {A} (f : A -> bool) (l : list A) (x : A) : x ∈ List.filter f l <-> x ∈ l /\ f x = true.
Proof. rewrite !list_elem_of_In. apply filter_In. Qed.

Lemma filter_all {A} (f : A -> bool) (l : list A) : (forall x, x ∈ l -> f x = true) -> List.filter f l = l.
Proof.
  induction l as [|x l IH]; intros H; [done|]. cbn. rewrite H by (apply elem_of_cons; by left). f_equal.
  apply IH. intros y Hy. apply H, elem_of_cons. by right.
Qed.

Lemma filter_ext_elem {A} (f g : A -> bool) (l : list A) : (forall x, x ∈ l -> f x = g x) -> List.filter f l = List.filter g l.
Proof.
  induction l as [|x l IH]; intros H; [done|]. cbn. rewrite H by (apply elem_of_cons; by left).
  rewrite IH; [done|]. intros y Hy. apply H, elem_of_cons. by right.
Qed.

Lemma existsb_eq {A} (f g : A -> bool) l : (forall x, f x = g x) -> existsb f l = existsb g l.
Proof. intros H. induction l as [|x l IH]; [done|]. cbn. by rewrite H, IH. Qed.

Section Laws.
Context {E A K : Type} {SA : Address A} {GT : GroupTable E A K} {GK : GroupKey K} {GF : GroupFrame E}.
Context {GL : GroupLaws E A K}.
Implicit Types (e : E) (r : A) (k : K) (w : world) (x : mc_rep_entry A) (g : list (list E)).

Lemma same_refl r : mc_same r r = true.
Proof. by apply law_same. Qed.

Lemma same_ne r r' : r <> r' -> mc_same r r' = false.
Proof. intros Hne. destruct (mc_same r r') eqn:E'; [|done]. by apply law_same in E'. Qed.

Lemma same_cases r r' : (mc_same r r' = true /\ r = r') \/ (mc_same r r' = false /\ r <> r').
Proof.
  destruct (mc_same r r') eqn:E'; [left; split; [done|by apply law_same]|right; split; [done|]].
  intros ->. by rewrite same_refl in E'.
Qed.

(** The entry without the reporter [r], or without any. *)
Definition without (r : option A) e : option E :=
  with_reps (match r with None => [] | Some a => snd (del_reps (mc_reps e) (Some a)) end) e.

(** The entry without the reporters whose time has come. *)
Definition expire (j : Z) e : option E :=
  with_reps (List.filter (fun x => negb (time_after_eq j (tstamp x))) (mc_reps e)) e.

Lemma del_reps_none (l : list (mc_rep_entry A)) : del_reps l None = (l, []).
Proof. induction l as [|x l IH]; [done|]. cbn. by rewrite IH. Qed.

(** The first reporter [a] goes. *)
Lemma del_reps_some (l : list (mc_rep_entry A)) a : NoDup (map rep l) ->
  snd (del_reps l (Some a)) = List.filter (fun x => negb (mc_same (rep x) a)) l.
Proof.
  induction l as [|x l IH]; intros Hn; [done|]. cbn in *. apply NoDup_cons in Hn as [Hx Hn].
  destruct (same_cases (rep x) a) as [[-> <-]|[-> Hne]]; cbn.
  - symmetry. apply filter_all. intros y Hy. apply negb_true_iff, same_ne. intros Heq. apply Hx. rewrite <- Heq.
    by apply list_elem_of_In, in_map, list_elem_of_In.
  - specialize (IH Hn). destruct (del_reps l (Some a)) as [g l']. cbn in *. by rewrite IH.
Qed.

Lemma del_reps_middle kept x (l : list (mc_rep_entry A)) : rep x ∉ map rep kept ->
  snd (del_reps (kept ++ x :: l) (Some (rep x))) = kept ++ l.
Proof.
  induction kept as [|y kept IH]; intros Hx; cbn; [by rewrite same_refl|].
  cbn in Hx. apply not_elem_of_cons in Hx as [Hne Hx]. rewrite same_ne by congruence.
  specialize (IH Hx). destruct (del_reps (kept ++ x :: l) _) as [g l']. cbn in *. by rewrite IH.
Qed.

Lemma with_reps_id e : mc_reps e <> [] -> with_reps (mc_reps e) e = Some e.
Proof.
  intros H. unfold with_reps. rewrite law_set_same. by destruct (mc_reps e).
Qed.

Lemma rep_find_None e r : rep_find e r = None -> r ∉ map rep (mc_reps e).
Proof.
  intros H Hin. apply list_elem_of_In, in_map_iff in Hin as (x & <- & Hx).
  eapply find_none in H; [|exact Hx]. cbn in H. by rewrite same_refl in H.
Qed.

Lemma rep_find_Some e r y : rep_find e r = Some y -> y ∈ mc_reps e /\ rep y = r.
Proof. intros [Hy Hr%law_same]%find_some. split; [by apply list_elem_of_In|done]. Qed.

Lemma renew_reps r t (l : list (mc_rep_entry A)) : map rep (renew r t l) = map rep l.
Proof. induction l as [|x l IH]; [done|]. cbn. destruct (mc_same (rep x) r); cbn; [done|]. by rewrite IH. Qed.

Lemma renew_mem r t (l : list (mc_rep_entry A)) x : NoDup (map rep l) -> r ∈ map rep l ->
  x ∈ renew r t l <-> x = mk_rep r t \/ (x ∈ l /\ rep x <> r).
Proof.
  induction l as [|y l IH]; intros Hn Hr; [by apply elem_of_nil in Hr|]. cbn in Hn. apply NoDup_cons in Hn as [Hy Hn].
  cbn [renew]. destruct (same_cases (rep y) r) as [[-> <-]|[-> Hne]]; rewrite !elem_of_cons.
  - split; intros [H'|H']; auto.
    + right. split; [by right|]. intros E'. apply Hy. rewrite <- E'. apply list_elem_of_In, in_map, list_elem_of_In, H'.
    + destruct H' as [[->|H'] Hx]; [done|by right].
  - cbn in Hr. apply elem_of_cons in Hr as [Hr|Hr]; [congruence|]. rewrite (IH Hn Hr). split.
    + intros [->|[->|[H' Hx]]]; auto.
    + intros [->|[[->|H'] Hx]]; auto.
Qed.

(** ** The invariant *)

Section Table.
Context (N : net) (nports : nat).

(** An entry of the chain [h]: it is in the right chain, its group is one that
    is snooped, and it has reporters, each once. *)
Record entry_wf (h : nat) e : Prop := mk_entry_wf {
  ew_hash : key_hash N (mc_key e) = h;
  ew_group : key_snooped (mc_key e) = true;
  ew_mode : key_mode (mc_key e) = MCAST_INCLUDE \/ key_mode (mc_key e) = MCAST_EXCLUDE;
  ew_dst : (key_dst (mc_key e) < nports)%nat;
  ew_some : mc_reps e <> [];
  ew_once : NoDup (map rep (mc_reps e))
}.

(** A membership has one entry that is not a copy. *)
Definition chain_wf (h : nat) (l : list E) : Prop :=
  Forall (entry_wf h) l /\ NoDup (map mc_key (List.filter mc_root l)).

Definition groups_wf g : Prop :=
  length g = Z.to_nat BR_HASH_SIZE /\ forall h l, g !! h = Some l -> chain_wf h l.

(** [f] changes reporters only, or removes the entry. *)
Definition thins (f : E -> option E) : Prop := forall h e e', entry_wf h e ->
  f e = Some e' -> entry_wf h e' /\ mc_key e' = mc_key e /\ mc_root e' = mc_root e.

Lemma entry_reps h e l : entry_wf h e -> l <> [] -> NoDup (map rep l) -> entry_wf h (set_mc_reps l e).
Proof. intros [? ? ? ? ? ?] ? ?. split; rewrite ?law_key, ?law_reps; done. Qed.

Lemma thins_reps (f : E -> list (mc_rep_entry A)) :
  (forall e, NoDup (map rep (mc_reps e)) -> NoDup (map rep (f e))) -> thins (fun e => with_reps (f e) e).
Proof.
  intros Hf h e e' He. unfold with_reps. destruct (f e) as [|x l] eqn:E'; [done|]. intros [= <-].
  rewrite law_key, law_root. split; [|done]. apply entry_reps; [done..|]. rewrite <- E'. apply Hf, He.
Qed.

Lemma thins_without (r : option A) : thins (without r).
Proof.
  apply (thins_reps (fun e => match r with None => [] | Some a => snd (del_reps (mc_reps e) (Some a)) end)).
  intros e He. destruct r as [a|]; [|constructor]. rewrite del_reps_some by done. by apply NoDup_filter_reps.
Qed.

Lemma thins_expire j : thins (expire j).
Proof. apply thins_reps. intros e. apply NoDup_filter_reps. Qed.

Lemma thins_if (P : E -> bool) f : thins f -> thins (fun e => if P e then f e else Some e).
Proof. intros Hf h e e' He. destruct (P e); [by apply Hf|]. by intros [= <-]. Qed.

Definition del_if (b : E -> bool) (r : option A) e : option E := if b e then without r e else Some e.

Lemma thins_del b (r : option A) : thins (del_if b r).
Proof. apply thins_if, thins_without. Qed.

Lemma chain_thin h f l : thins f -> chain_wf h l -> chain_wf h (omap f l).
Proof.
  intros Hf [Hl Hn]. induction l as [|e l IH]; [done|]. inversion_clear Hl as [|? ? He Hl'].
  assert (IH' : chain_wf h (omap f l)).
  { apply IH; [done|]. cbn in Hn. destruct (mc_root e); [|done]. by apply NoDup_cons in Hn as [_ Hn]. }
  clear IH. cbn. destruct (f e) as [e'|] eqn:E'; [|done]. destruct (Hf h e e' He E') as (He' & Hk & Hr).
  destruct IH' as [H1 H2]. split; [by constructor|]. cbn. rewrite Hr. cbn in Hn. destruct (mc_root e); [|done].
  cbn. apply NoDup_cons in Hn as [Hx _]. apply NoDup_cons. split; [|done]. rewrite Hk. contradict Hx.
  clear -Hf Hl' Hx. induction l as [|y l IH]; [done|]. inversion_clear Hl' as [|? ? Hy Hl]. cbn in *.
  destruct (f y) as [y'|] eqn:Ey.
  - destruct (Hf h y y' Hy Ey) as (_ & Hky & Hry). cbn in Hx. rewrite Hry in Hx. destruct (mc_root y); cbn in *.
    + apply elem_of_cons in Hx as [Hx|Hx]; [apply elem_of_cons; left; congruence|apply elem_of_cons; right; by apply IH].
    + by apply IH.
  - destruct (mc_root y); cbn; [apply elem_of_cons; right|]; by apply IH.
Qed.

(** The same, with a change that depends on the place. *)
Lemma chain_imap h (f : nat -> E -> E) l :
  (forall n e, entry_wf h e -> entry_wf h (f n e) /\ mc_key (f n e) = mc_key e /\ mc_root (f n e) = mc_root e) ->
  chain_wf h l -> chain_wf h (imap f l).
Proof.
  intros Hf [Hl Hn]. split.
  - apply Forall_lookup. intros n e. rewrite list_lookup_imap. intros (y & Ey & ->)%fmap_Some. apply Hf. by eapply Forall_lookup_1.
  - enough (Hk : map mc_key (List.filter mc_root (imap f l)) = map mc_key (List.filter mc_root l)) by by rewrite Hk.
    clear Hn. revert f Hf. induction Hl as [|e l He _ IH]; intros f Hf; [done|]. cbn.
    destruct (Hf 0%nat e He) as (_ & Hk & Hr). rewrite Hr. pose proof (IH (f ∘ S) (fun n => Hf (S n))) as IHl.
    destruct (mc_root e); cbn; by rewrite ?Hk, IHl.
Qed.

Lemma groups_thin f g : thins f -> groups_wf g -> groups_wf (map (omap f) g).
Proof.
  intros Hf [Hl Hg]. split; [by rewrite length_map|]. intros h l. rewrite list_lookup_fmap.
  destruct (g !! h) as [l'|] eqn:E'; [|done]. intros [= <-]. by apply chain_thin, Hg.
Qed.

Lemma groups_chain g h l : groups_wf g -> chain_wf h l -> groups_wf (<[h := l]> g).
Proof.
  intros [Hl Hg] Hc. split; [by rewrite length_insert|]. intros k l'. rewrite list_lookup_insert.
  case_decide as Hd; [|apply Hg]. destruct Hd as [-> _]. by intros [= <-].
Qed.

Lemma groups_empty : groups_wf (replicate (Z.to_nat BR_HASH_SIZE) []).
Proof. split; [by rewrite length_replicate|]. intros h x [-> _]%lookup_replicate. split; constructor. Qed.

Lemma chain_cons h e l : entry_wf h e -> Forall (fun y => mc_key y <> mc_key e) l -> chain_wf h l ->
  chain_wf h (e :: l).
Proof.
  intros He Hk [Hl Hn]. split; [by constructor|]. cbn. destruct (mc_root e); [|done]. cbn. apply NoDup_cons.
  split; [|done]. intros Hin. apply list_elem_of_In, in_map_iff in Hin as (x & Hx & Hi).
  apply filter_In in Hi as [Hi _]. by apply (proj1 (List.Forall_forall _ _) Hk x Hi).
Qed.

(** Copies of an entry: not roots. *)
Definition copy_wf (h : nat) e : Prop := entry_wf h e /\ mc_root e = false.

Lemma chain_copies h cs l : Forall (copy_wf h) cs -> chain_wf h l -> chain_wf h (cs ++ l).
Proof.
  intros Hc Hl. induction Hc as [|c cs [Hc Hr] _ [H1 H2]]; [done|]. split; [by constructor|].
  cbn. by rewrite Hr.
Qed.

Lemma copies_wf h e a1 a2 n : entry_wf h e -> Forall (copy_wf h) (copies a1 a2 e n).
Proof.
  intros He. unfold copies, mc_copy. destruct (_ && _); [|constructor].
  apply Forall_forall. intros x [-> _]%elem_of_replicate. destruct (law_copy e) as (Hr & Hk & Hre).
  destruct He. split; [|done]. by split; rewrite ?Hk, ?Hre.
Qed.

Lemma thins_refresh alloc r t : thins (fun e => Some (refresh_rep alloc e r t)).
Proof.
  intros h e e' He [= <-]. unfold refresh_rep. destruct (rep_find e r) eqn:E'.
  - rewrite law_key, law_root. split; [|done]. pose proof (renew_reps r t (mc_reps e)) as Hr. apply entry_reps; [done| |].
    + intros H'. rewrite H' in Hr. symmetry in Hr. apply map_eq_nil in Hr. by apply (ew_some _ _ He).
    + rewrite Hr. apply He.
  - destruct alloc; [|done]. rewrite law_key, law_root. split; [|done].
    apply entry_reps; [done|by destruct (mc_reps e)|].
    rewrite map_app. apply NoDup_app. split; [apply He|]. split; [|apply NoDup_singleton].
    intros x Hx ->%list_elem_of_singleton. by apply rep_find_None in E'.
Qed.

(** ** Changes of the table *)

(** From [w] to [w'] the table has become [g], and the daemon and drivers have
    been told of members that are gone. *)
Record tabled g w w' : Prop := mk_tabled {
  ta_table : mc_table w' = g;
  ta_frame : mc_frame E w w';
  ta_trace : exists l, Forall told l /\ trace w' = trace w ++ l
}.

Lemma tabled_refl w : tabled (mc_table w) w w.
Proof. split; [done|apply law_frame_refl|]. exists []. by rewrite app_nil_r. Qed.

Lemma tabled_trans g1 g2 w w1 w2 : tabled g1 w w1 -> tabled g2 w1 w2 -> tabled g2 w w2.
Proof.
  intros [_ F1 (l1 & H1 & E1)] [T2 F2 (l2 & H2 & E2)]. split; [done|by eapply law_frame_trans|].
  exists (l1 ++ l2). split; [by apply Forall_app|]. by rewrite E2, E1, app_assoc.
Qed.

Lemma tabled_same g w w' : tabled g w w' -> tbl w' = tbl w /\ mc_table w' = g.
Proof. intros [HT HF _]. split; [by apply law_frame_tbl|done]. Qed.

Lemma tabled_put g w : tabled g w (set_mc_table g w).
Proof.
  destruct (law_table g w) as (H1 & H2 & H3). split; [done|done|]. exists []. by rewrite app_nil_r.
Qed.

Lemma tabled_put_after g g' w w' : tabled g w w' -> tabled g' w (set_mc_table g' w').
Proof. intros H'. eapply tabled_trans; [done|apply tabled_put]. Qed.

Lemma tabled_timer g w w' tm : tabled g w w' -> tabled g w (set_mc_timer E tm w').
Proof.
  intros H'. destruct (law_timer tm w') as (H1 & H2 & H3). eapply tabled_trans; [done|].
  split; [rewrite H1; by apply H'|done|]. exists []. by rewrite app_nil_r.
Qed.

Lemma tabled_emit (x : ev) w : told x -> tabled (mc_table w) w (set_trace (trace w ++ [x]) w).
Proof.
  intros Hx. destruct (law_trace (trace w ++ [x]) w) as (H1 & H2). split; [done|done|].
  exists [x]. split; [by apply Forall_singleton|done].
Qed.

(** From [w] to [w'] only the table, which is well-formed, and the timer have
    changed. *)
Definition served w w' : Prop := tabled (mc_table w') w w' /\ groups_wf (mc_table w').

Lemma served_refl w : groups_wf (mc_table w) -> served w w.
Proof. intros Hg. split; [apply tabled_refl|done]. Qed.

Lemma served_tabled g w w' : tabled g w w' -> groups_wf g -> served w w'.
Proof. intros H' Hg. split; rewrite (ta_table _ _ _ H'); done. Qed.

Lemma served_trans w w1 w2 : served w w1 -> served w1 w2 -> served w w2.
Proof. intros [H1 _] [H2 Hg]. split; [by eapply tabled_trans|done]. Qed.

Lemma served_timer w w' tm : served w w' -> served w (set_mc_timer E tm w').
Proof.
  intros [H1 Hg]. destruct (law_timer tm w') as (E1 & _ & _). split; rewrite E1; [by apply tabled_timer|done].
Qed.

(** ** Walks over the table *)

(** [body] does [f] to every entry that [P] holds of. *)
Definition does (P : E -> Prop) (body : E -> M (option E)) (f : E -> option E) w : Prop :=
  forall e w1, P e -> tbl w1 = tbl w -> wp (body e) (fun o w2 => o = f e /\ tabled (mc_table w1) w1 w2) w1.

Lemma does_tbl P body f w w' : tbl w' = tbl w -> does P body f w -> does P body f w'.
Proof. intros E' H' e w1 He E1. apply H'; [done|congruence]. Qed.

Lemma mc_walk_spec P body f l w : does P body f w -> Forall P l ->
  wp (mc_walk body l) (fun l' w' => l' = omap f l /\ tabled (mc_table w) w w') w.
Proof.
  intros Hb Hl. revert w Hb. induction Hl as [|e l He _ IH]; intros w Hb; [by split; [|apply tabled_refl]|].
  cbn [mc_walk]. apply wp_bind. eapply wp_mono; [by apply Hb|cbv beta]. intros o w1 [-> H1].
  pose proof (tabled_same _ _ _ H1) as [Ht1 Hg1]. apply wp_bind.
  eapply wp_mono; [by apply IH, (does_tbl P body f w)|cbv beta]. intros l' w2 [-> H2]. apply wp_ret.
  split; [cbn; by destruct (f e)|]. rewrite Hg1 in H2. by eapply tabled_trans.
Qed.

Lemma mc_chain_lookup w h l : mc_table w !! h = Some l -> mc_chain w h = l.
Proof. intros E'. unfold mc_chain. by rewrite (nth_lookup_Some _ _ _ _ E'). Qed.

Lemma groups_chain_wf w h : groups_wf (mc_table w) -> (h < Z.to_nat BR_HASH_SIZE)%nat ->
  mc_table w !! h = Some (mc_chain w h) /\ chain_wf h (mc_chain w h).
Proof.
  intros [Hl Hg] Hh. rewrite <- Hl in Hh. destruct (lookup_lt_is_Some_2 _ _ Hh) as [l El].
  rewrite (mc_chain_lookup _ _ _ El). split; [done|by apply Hg].
Qed.

Lemma walk_chain_spec P body f h w : does P body f w -> Forall P (mc_chain w h) ->
  wp (mc_walk_chain body h) (fun _ w' => tabled (<[h := omap f (mc_chain w h)]> (mc_table w)) w w') w.
Proof.
  intros Hb Hl. unfold mc_walk_chain. apply wp_bind, wp_gets, wp_bind.
  eapply wp_mono; [by apply (mc_walk_spec P body f)|cbv beta]. intros l' w1 [-> H1]. apply wp_modify.
  unfold set_mc_chain. destruct (tabled_same _ _ _ H1) as [_ ->]. by eapply tabled_put_after.
Qed.

Lemma walk_chains_spec P body f n (k : nat) w : does P body f w -> Forall (Forall P) (drop k (mc_table w)) ->
  length (mc_table w) = (k + n)%nat ->
  wp (for_each (seq k n) (mc_walk_chain body)) (fun _ w' =>
    tabled (take k (mc_table w) ++ map (omap f) (drop k (mc_table w))) w w') w.
Proof.
  revert k w. induction n as [|n IH]; intros k w Hb Hl Hn.
  { apply wp_ret. rewrite drop_ge, app_nil_r, take_ge by lia. apply tabled_refl. }
  destruct (lookup_lt_is_Some_2 (mc_table w) k) as [l El]; [lia|]. cbn [seq for_each]. apply wp_bind.
  rewrite (drop_S _ _ _ El) in Hl |- *. inversion_clear Hl as [|? ? Hpl Hl'].
  eapply wp_mono; [apply (walk_chain_spec P body f); [done|by rewrite (mc_chain_lookup _ _ _ El)]|cbv beta].
  rewrite (mc_chain_lookup _ _ _ El). intros _ w1 H1. pose proof (tabled_same _ _ _ H1) as [Ht1 Hg1].
  assert (Hd : drop (S k) (mc_table w1) = drop (S k) (mc_table w)) by (rewrite Hg1; apply drop_insert_lt; lia).
  assert (Htk : take (S k) (mc_table w1) = take k (mc_table w) ++ [omap f l]).
  { rewrite Hg1, (take_S_r _ _ (omap f l)) by (apply list_lookup_insert_eq; lia).
    by rewrite take_insert_ge by lia. }
  eapply wp_mono; [apply IH; [by apply (does_tbl P body f w)|by rewrite Hd|rewrite Hg1, length_insert; lia]|cbv beta].
  intros _ w2 H2. rewrite Hd, Htk, <- app_assoc in H2. by eapply tabled_trans.
Qed.

Definition in_table e : Prop := exists h, entry_wf h e.

(** A walk over a well-formed table. *)
Lemma thin_all body f w : groups_wf (mc_table w) -> does in_table body f w -> thins f ->
  wp (mc_walk_all body) (fun _ w' => tabled (map (omap f) (mc_table w)) w w' /\ groups_wf (mc_table w')) w.
Proof.
  intros Hg Hb Hf. pose proof Hg as [Hn Hl].
  eapply wp_mono; [eapply (walk_chains_spec in_table body f _ 0); [exact Hb| |done]|cbv beta].
  - apply Forall_lookup_2. intros h l E'. eapply Forall_impl; [by apply Hl|]. intros e He. by exists h.
  - cbn [take app]. rewrite drop_0. intros _ w' H'. split; [done|]. destruct (tabled_same _ _ _ H') as [_ ->].
    by apply groups_thin.
Qed.

(** From [w] to [w'] every entry has become what [f] makes of it. *)
Definition thinned f w w' : Prop := served w w' /\ mc_table w' = map (omap f) (mc_table w).

(** ** Memberships *)

(** The reporter [x] of an entry for the membership [k]. *)
Definition mem_chain (l : list E) k x : Prop := exists e, e ∈ l /\ mc_key e = k /\ x ∈ mc_reps e.
Definition member g k x : Prop := exists h l, g !! h = Some l /\ mem_chain l k x.

Lemma mem_chain_app l1 l2 k x : mem_chain (l1 ++ l2) k x <-> mem_chain l1 k x \/ mem_chain l2 k x.
Proof.
  unfold mem_chain. setoid_rewrite elem_of_app. split.
  - intros (e & [He|He] & H'); [left|right]; by exists e.
  - intros [(e & He & H')|(e & He & H')]; exists e; auto.
Qed.

Lemma member_put g h l l' k x : g !! h = Some l ->
  (member (<[h := l']> g) k x <-> mem_chain l' k x \/ exists h' l2, h' <> h /\ g !! h' = Some l2 /\ mem_chain l2 k x).
Proof.
  intros E'. unfold member. split.
  - intros (h' & l2 & E2 & Hm). destruct (decide (h' = h)) as [->|Hne].
    + rewrite list_lookup_insert_eq in E2 by by eapply lookup_lt_Some. injection E2 as <-. by left.
    + rewrite list_lookup_insert_ne in E2 by done. right. by exists h', l2.
  - intros [Hm|(h' & l2 & Hne & E2 & Hm)].
    + exists h, l'. split; [|done]. apply list_lookup_insert_eq. by eapply lookup_lt_Some.
    + exists h', l2. by rewrite list_lookup_insert_ne.
Qed.

Lemma mem_chain_omap (f : E -> option E) l k x :
  mem_chain (omap f l) k x <-> exists e e', e ∈ l /\ f e = Some e' /\ mc_key e' = k /\ x ∈ mc_reps e'.
Proof.
  unfold mem_chain. setoid_rewrite list_elem_of_omap. split.
  - intros (e' & (e & He & E') & H'). by exists e, e'.
  - intros (e & e' & He & E' & H'). exists e'. split; [by exists e|done].
Qed.

Lemma member_omap (f : E -> option E) g k x :
  member (map (omap f) g) k x <-> exists h l, g !! h = Some l /\ mem_chain (omap f l) k x.
Proof.
  unfold member. setoid_rewrite list_lookup_fmap. split.
  - intros (h & l & E' & Hm). destruct (g !! h) as [l0|] eqn:E0; [|done]. injection E' as <-. by exists h, l0.
  - intros (h & l & E' & Hm). exists h, (omap f l). by rewrite E'.
Qed.

Lemma chain_of_key g k x h l : groups_wf g -> g !! h = Some l -> mem_chain l k x -> h = key_hash N k.
Proof.
  intros [_ Hg] E' (e & He & <- & _). destruct (Hg h l E') as [Hl _].
  symmetry. by apply (proj1 (Forall_forall _ _) Hl e He).
Qed.

(** The entry with the reporters that [Q] holds of. *)
Definition prune (Q : K -> mc_rep_entry A -> bool) e : option E :=
  with_reps (List.filter (Q (mc_key e)) (mc_reps e)) e.

Lemma mem_prune Q l k x : mem_chain (omap (prune Q) l) k x <-> mem_chain l k x /\ Q k x = true.
Proof.
  rewrite mem_chain_omap. split.
  - intros (e & e' & He & E' & Hk & Hx). unfold prune, with_reps in E'.
    destruct (List.filter _ _) as [|y l'] eqn:Ef; [done|]. injection E' as <-. rewrite law_key in Hk. rewrite law_reps in Hx.
    rewrite <- Ef, elem_filter in Hx. destruct Hx as [Hx HQ]. subst k. split; [by exists e|done].
  - intros [(e & He & <- & Hx) HQ]. exists e. assert (Hin : x ∈ List.filter (Q (mc_key e)) (mc_reps e)) by by apply elem_filter.
    unfold prune, with_reps. destruct (List.filter _ _) as [|y l'] eqn:Ef; [by apply elem_of_nil in Hin|].
    exists (set_mc_reps (y :: l') e). by rewrite law_key, law_reps.
Qed.

Lemma del_if_prune h e b (r : option A) (Q : K -> mc_rep_entry A -> bool) : entry_wf h e ->
  (forall x, x ∈ mc_reps e ->
    Q (mc_key e) x = negb (b e && match r with None => true | Some a => mc_same (rep x) a end)) ->
  del_if b r e = prune Q e.
Proof.
  intros He HQ. unfold del_if, prune. rewrite (filter_ext_elem _ _ _ HQ). destruct (b e); cbn [andb negb].
  - unfold without. destruct r as [a|].
    + rewrite del_reps_some by apply He. done.
    + cbn [negb]. assert (Hn : List.filter (fun _ : mc_rep_entry A => false) (mc_reps e) = [])
        by (clear; induction (mc_reps e); done). by rewrite Hn.
  - rewrite filter_all by done. by rewrite with_reps_id by apply He.
Qed.

Definition pruned (Q : K -> mc_rep_entry A -> bool) g g' : Prop :=
  forall k x, member g' k x <-> member g k x /\ Q k x = true.

Lemma member_pruned f Q g : groups_wf g -> (forall h e, entry_wf h e -> f e = prune Q e) ->
  pruned Q g (map (omap f) g).
Proof.
  intros [_ Hg] Hf k x. assert (Hl : forall h l, g !! h = Some l -> omap f l = omap (prune Q) l).
  { intros h l E'. destruct (Hg h l E') as [Hl _]. clear -Hf Hl. induction Hl as [|e l He _ IH]; [done|]. cbn.
    by rewrite (Hf h e He), IH. }
  rewrite member_omap. split.
  - intros (h & l & E' & Hm). rewrite (Hl h l E'), mem_prune in Hm. destruct Hm. split; [by exists h, l|done].
  - intros [(h & l & E' & Hm) HQ]. exists h, l. split; [done|]. by rewrite (Hl h l E'), mem_prune.
Qed.

(** One chain pruned, where [Q] spares the memberships of other chains. *)
Lemma chain_pruned h f Q w : groups_wf (mc_table w) -> (h < Z.to_nat BR_HASH_SIZE)%nat ->
  (forall e, entry_wf h e -> f e = prune Q e) -> (forall k x, key_hash N k <> h -> Q k x = true) ->
  pruned Q (mc_table w) (<[h := omap f (mc_chain w h)]> (mc_table w)).
Proof.
  intros Hg Hh Hf HQ k x. destruct (groups_chain_wf w h Hg Hh) as [El Hc].
  assert (Hfl : omap f (mc_chain w h) = omap (prune Q) (mc_chain w h)).
  { destruct Hc as [Hc _]. clear El. induction Hc as [|e l He _ IH]; [done|]. cbn. by rewrite IH, Hf. }
  rewrite (member_put _ _ _ _ _ _ El), Hfl, mem_prune. split.
  - intros [[Hm HQk]|(h' & l & Hne & E' & Hm)]; [split; [by exists h, (mc_chain w h)|done]|].
    split; [by exists h', l|]. apply HQ. intros Hk. apply Hne. rewrite <- Hk. by eapply chain_of_key.
  - intros [(h' & l & E' & Hm) HQk]. destruct (decide (h' = h)) as [->|Hne].
    + left. split; [|done]. congruence.
    + right. by exists h', l.
Qed.
End Table.
End Laws.

(** The table does not depend on the net but for the hash. *)
Lemma groups_alike {E A K : Type} {GT : GroupTable E A K} {GK : GroupKey K} N0 N nports (g : list (list E)) :
  (forall k : K, key_hash N k = key_hash N0 k) -> groups_wf N0 nports g -> groups_wf N nports g.
Proof.
  intros Hk [Hl Hg]. split; [done|]. intros h l El. destruct (Hg h l El) as [Hf Hr]. split; [|done].
  eapply Forall_impl; [exact Hf|]. intros e [He ? ? ? ? ?]. split; [|assumption..]. by rewrite Hk.
Qed.
