(* ===== verification/GroupsServe.v ===== *)
(** What requests do to a table of multicast groups, for any table: members
    that leave, members that join, devices that change, and the timer.

    The deletion of a reporter and the setting of the timer are those of the
    protocol; what they must do is a hypothesis of the section, which BrGroups
    and BrMldProps discharge. *)

From S2P Require Import Prelude Str Stp Fdb Bridge BrWp BrForward BrForwardProps Groups GroupsProps.

Section Serve.
Context {E A K : Type} {SA : Address A} {GT : GroupTable E A K} {GK : GroupKey K} {GF : GroupFrame E}.
Context {GL : GroupLaws E A K} {KD : EqDecision K}.
(** [R] is what the deletion relies on: the operations leave the ports alone. *)
Context (N : net) (nports : nat) (R : fdb -> Prop).
Context (del : E -> option A -> M (option E)) (set_timer : M unit).
Context (process : E -> Z * nat).
Implicit Types (e : E) (w : world).

Abbreviation in_table := (in_table N nports).
Abbreviation entry_wf := (entry_wf N nports).
Abbreviation groups_wf := (groups_wf N nports).
Abbreviation chain_wf := (chain_wf N nports).
Abbreviation served := (served N nports).
Abbreviation thins := (thins N nports).
Abbreviation thinned := (thinned N nports).

Hypothesis del_spec : forall e r w, in_table e -> R (tbl w) ->
  wp (del e r) (fun o w' => o = without r e /\ tabled (mc_table w) w w') w.
Hypothesis timer_spec : forall (Q : unit -> world -> Prop) w,
  (forall tm, Q tt (set_mc_timer E tm w)) -> wp set_timer Q w.

Lemma R_tbl w w' : tbl w' = tbl w -> R (tbl w) -> R (tbl w').
Proof. by intros ->. Qed.

(** ** Members that leave *)

Lemma does_del (b : E -> bool) r w : R (tbl w) ->
  does in_table (fun e => if b e then del e r else mret (Some e)) (del_if b r) w.
Proof.
  intros Hp e w1 He Ht. unfold del_if. destruct (b e).
  - apply del_spec; [done|]. by apply (R_tbl w).
  - apply wp_ret. split; [done|apply tabled_refl].
Qed.

(** A walk over all entries, and the timer after it. *)
Lemma thin_served body f w : groups_wf (mc_table w) -> does in_table body f w -> thins f ->
  wp (mc_walk_all body;; set_timer) (fun _ w' => thinned f w w') w.
Proof.
  intros Hg Hb Hf. apply wp_bind. eapply wp_mono; [by apply (thin_all N nports body f)|cbv beta]. intros _ w1 [H1 Hg1].
  apply timer_spec. intros tm. split; [apply served_timer; by split; rewrite ?(ta_table _ _ _ H1) in *|].
  destruct (law_timer tm w1) as (-> & _). apply H1.
Qed.

Lemma thin_del (b : E -> bool) r w : groups_wf (mc_table w) -> R (tbl w) ->
  wp (mc_walk_all (fun e => if b e then del e r else mret (Some e));; set_timer)
    (fun _ w' => thinned (del_if b r) w w') w.
Proof. intros Hg Hp. apply thin_served; [done|by apply does_del|apply thins_del]. Qed.

(** The same over one chain. *)
Lemma chain_del (b : E -> bool) r h w : groups_wf (mc_table w) -> R (tbl w) ->
  (h < Z.to_nat BR_HASH_SIZE)%nat ->
  wp (mc_walk_chain (fun e => if b e then del e r else mret (Some e)) h;; set_timer)
    (fun _ w' => served w w' /\ mc_table w' = <[h := omap (del_if b r) (mc_chain w h)]> (mc_table w)) w.
Proof.
  intros Hg Hp Hh. destruct (groups_chain_wf N nports w h Hg Hh) as [El Hc]. apply wp_bind.
  eapply wp_mono; [apply (walk_chain_spec in_table _ (del_if b r)); [by apply does_del|]|cbv beta].
  - eapply Forall_impl; [apply Hc|]. intros e He. by exists h.
  - intros _ w1 H1. apply timer_spec. intros tm. destruct (law_timer tm w1) as (Et & _).
    split; [|rewrite Et; apply H1]. apply served_timer. eapply served_tabled; [exact H1|].
    apply groups_chain; [done|]. by apply (chain_thin N nports h); [apply thins_del|].
Qed.

(** ** The timer *)

Lemma timeout_reps_spec l kept e w : in_table e -> R (tbl w) ->
  mc_reps e = kept ++ l -> kept ++ l <> [] -> NoDup (map rep (kept ++ l)) ->
  wp (timeout_reps del l (Some e)) (fun o w' =>
    o = with_reps (kept ++ List.filter (fun x => negb (time_after_eq (now w) (tstamp x))) l) e /\
    tabled (mc_table w) w w') w.
Proof.
  revert kept e w. induction l as [|x l IH]; intros kept e w Hin Hp He Hne Hn; cbn [timeout_reps List.filter].
  { apply wp_ret. split; [|apply tabled_refl]. rewrite <- He in *. symmetry. by apply with_reps_id. }
  assert (Hx : rep x ∉ map rep kept).
  { rewrite map_app in Hn. apply NoDup_app in Hn as (_ & Hd & _). intros Hx. apply (Hd _ Hx). cbn. apply elem_of_cons. by left. }
  assert (Hn' : NoDup (map rep (kept ++ l))).
  { rewrite map_app in *. apply NoDup_app in Hn as (H1 & H2 & H3). cbn in *. apply NoDup_cons in H3 as [_ H3].
    apply NoDup_app. split; [done|]. split; [|done]. intros y Hy Hin'. apply (H2 y Hy). apply elem_of_cons. by right. }
  apply wp_bind, wp_gets, wp_bind. fold (now w). destruct (time_after_eq (now w) (tstamp x)); cbn [negb].
  - eapply wp_mono; [by apply del_spec|cbv beta]. intros o w1 [-> H1].
    pose proof (tabled_same _ _ _ H1) as [Ht Hg]. unfold without. rewrite He, del_reps_middle by done.
    assert (Hno : now w1 = now w) by (unfold now; by rewrite Ht). destruct (kept ++ l) as [|y l'] eqn:El.
    + apply app_eq_nil in El as [-> ->]. by apply wp_ret.
    + cbn [with_reps]. eapply wp_mono; [apply (IH kept (set_mc_reps (y :: l') e)); rewrite ?El, ?law_reps; try done|cbv beta].
      * destruct Hin as [h Hin]. exists h. by apply entry_reps.
      * by apply (R_tbl w).
      * rewrite Hno, Hg. intros o w2 [-> H2]. split; [|by eapply tabled_trans].
        unfold with_reps. rewrite law_set_set. by destruct (kept ++ _).
  - apply wp_ret. eapply wp_mono; [apply (IH (kept ++ [x]) e); rewrite <- ?app_assoc; done|cbv beta].
    intros o w2 [-> H2]. by rewrite <- app_assoc.
Qed.

Lemma query_timeout_spec w : groups_wf (mc_table w) -> R (tbl w) ->
  wp (mc_walk_all (fun e => timeout_reps del (mc_reps e) (Some e))) (fun _ w' =>
    tabled (map (omap (expire (now w))) (mc_table w)) w w' /\ groups_wf (mc_table w')) w.
Proof.
  intros Hg Hp. apply thin_all; [done| |apply thins_expire]. intros e w1 Hin Ht.
  assert (Hno : now w1 = now w) by (unfold now; by rewrite Ht). rewrite <- Hno. destruct (Hin) as (h & He).
  apply (timeout_reps_spec (mc_reps e) []); [done|by apply (R_tbl w)|done|apply He..].
Qed.

(** ** Members that join *)

Definition same_key e (y : E) : bool := bool_decide (mc_key y = mc_key e).

(** The chain of the group after a request to join that is accepted: the entry
    [e] for it if there was none, or the reporter's time renewed. *)
Definition join_chain e (r : A) (t : Z) (l : list E) : list E :=
  if existsb (same_key e) l
  then imap (fun n y => if same_key e y then refresh_rep (rep_atomic N n) y r t else y) l
  else
    let '(ret, n) := process e in
    copies (mc_atomic N) (rep_atomic N) e n ++ (if ret <? 0 then l else e :: l).

Lemma existsb_key l e : existsb (same_key e) l = false -> Forall (fun y => mc_key y <> mc_key e) l.
Proof.
  intros H. apply List.Forall_forall. intros x Hx E'.
  assert (Hex : existsb (same_key e) l = true) by (apply existsb_exists; exists x; split; [done|by apply bool_decide_eq_true]).
  congruence.
Qed.

Lemma join_chain_wf h e r t l : entry_wf h e -> chain_wf h l -> chain_wf h (join_chain e r t l).
Proof.
  intros He Hl. unfold join_chain. destruct (existsb _ l) eqn:Ex.
  - apply chain_imap; [|done]. intros n x Hx. destruct (same_key e x); [by eapply thins_refresh|done].
  - destruct (process e) as [ret n]. apply chain_copies; [by apply copies_wf|].
    destruct (ret <? 0); [done|]. apply chain_cons; [done| |done]. by apply existsb_key.
Qed.

(** The timer is set, or the chain has not changed and there is no need. *)
Lemma update_spec (P : E -> bool) e r t w : (forall y, P y = same_key e y) ->
  let h := key_hash N (mc_key e) in
  wp (mc_update (rep_atomic N) set_timer P h r t) (fun known w' =>
    known = existsb (same_key e) (mc_chain w h) /\
    if known then
      let w1 := set_mc_chain h (join_chain e r t (mc_chain w h)) w in
      w' = w1 \/ exists tm, w' = set_mc_timer E tm w1
    else w' = w) w.
Proof.
  intros HP h. unfold mc_update, join_chain. apply wp_bind, wp_gets. change (id w) with w.
  rewrite (existsb_eq _ _ (mc_chain w h) HP). destruct (existsb _ (mc_chain w h)) eqn:Ex; [|by apply wp_ret].
  apply wp_bind, wp_modify, wp_bind.
  assert (Hi : imap (fun n y => if P y then refresh_rep (rep_atomic N n) y r t else y) (mc_chain w h) =
    imap (fun n y => if same_key e y then refresh_rep (rep_atomic N n) y r t else y) (mc_chain w h)).
  { apply imap_ext. intros n y _. by rewrite HP. }
  rewrite Hi.
  destruct (existsb id _).
  - apply timer_spec. intros tm. apply wp_ret. split; [done|]. right. by exists tm.
  - apply wp_ret, wp_ret. split; [done|by left].
Qed.

Lemma served_put w h l : groups_wf (mc_table w) -> chain_wf h l -> served w (set_mc_chain h l w).
Proof. intros Hg Hl. eapply served_tabled; [apply tabled_put|by apply groups_chain]. Qed.

Lemma set_chain_table (h : nat) (l : list E) w : mc_table (set_mc_chain h l w) = <[h := l]> (mc_table w).
Proof. apply law_table. Qed.

Lemma timer_table tm w : mc_table (set_mc_timer E tm w) = mc_table w :> list (list E).
Proof. apply law_timer. Qed.

Lemma join_spec (P : E -> bool) timeout (entry : Z -> E) r w t e h :
  groups_wf (mc_table w) -> t = u32 (now w + timeout * HZ) -> e = entry t -> h = key_hash N (mc_key e) ->
  (forall y, P y = same_key e y) -> entry_wf h e ->
  wp (mc_join (mc_atomic N) (rep_atomic N) process set_timer timeout
        (t ← membership_end timeout; mc_update (rep_atomic N) set_timer P h r t) h entry)
    (fun ret w' => served w w' /\ mc_table w' = <[h := join_chain e r t (mc_chain w h)]> (mc_table w)) w.
Proof.
  intros Hg Ht Het Hh HP He. rewrite Hh in He |- *. clear Hh h. set (h := key_hash N (mc_key e)) in *.
  destruct (groups_chain_wf N nports w h Hg (law_hash N _)) as [El Hc].
  assert (Hput : served w (set_mc_chain h (join_chain e r t (mc_chain w h)) w))
    by (apply served_put; [done|by apply join_chain_wf]).
  unfold mc_join, membership_end. apply wp_bind, wp_bind, wp_bind, wp_gets, wp_ret.
  fold (now w). rewrite <- Ht.
  eapply wp_mono; [by apply (update_spec P e)|cbv beta]. fold h.
  intros known w1 [Hk Hw1]. destruct known.
  { apply wp_ret. destruct Hw1 as [->|(tm & ->)]; rewrite ?timer_table, set_chain_table; split; by try apply served_timer. }
  subst w1. apply wp_bind, wp_bind, wp_gets, wp_ret. fold (now w). rewrite <- Ht, <- Het.
  revert Hput. unfold join_chain. rewrite <- Hk. destruct (process e) as [ret n]. intros Hput. destruct (ret <? 0).
  - apply wp_bind, wp_modify, wp_ret. by rewrite set_chain_table.
  - apply wp_bind, wp_modify, wp_bind, timer_spec. intros tm. apply wp_ret. rewrite timer_table, set_chain_table.
    split; [by apply served_timer|done].
Qed.

Lemma copies_mem e a1 a2 n l k x : mem_chain (copies a1 a2 e n) k x -> mem_chain (e :: l) k x.
Proof.
  intros (c & Hc & Hk & Hx). unfold copies, mc_copy in Hc. destruct (_ && _); [|by apply elem_of_nil in Hc].
  apply elem_of_replicate in Hc as [-> _]. destruct (law_copy e) as (_ & Ek & Er). rewrite Ek in Hk. rewrite Er in Hx.
  exists e. split; [apply elem_of_cons; by left|done].
Qed.

Lemma refresh_key alloc e r t : mc_key (refresh_rep alloc e r t) = mc_key e.
Proof. unfold refresh_rep. destruct (rep_find e r); [apply law_key|]. destruct alloc; [apply law_key|done]. Qed.

Lemma reports_mem e (r : A) : reports e r = true <-> r ∈ map rep (mc_reps e).
Proof.
  unfold reports. destruct (rep_find e r) as [y|] eqn:Ef; split; try done.
  - intros _. apply rep_find_Some in Ef as [Hy <-]. by apply list_elem_of_In, in_map, list_elem_of_In.
  - intros H. by apply rep_find_None in Ef.
Qed.

Lemma refresh_mem h (a : bool) e r t x : entry_wf h e ->
  (x ∈ mc_reps (refresh_rep a e r t) <->
    (reports e r || a = true /\ x = mk_rep r t) \/ (x ∈ mc_reps e /\ rep x <> r)).
Proof.
  intros He. unfold refresh_rep, reports. destruct (rep_find e r) as [y|] eqn:Ef.
  - rewrite law_reps. cbn [orb]. apply rep_find_Some in Ef as [Hy Hr]. rewrite renew_mem; [tauto|apply He|]. rewrite <- Hr.
    by apply list_elem_of_In, in_map, list_elem_of_In.
  - apply rep_find_None in Ef. cbn [orb]. assert (Hne : forall y, y ∈ mc_reps e -> rep y <> r).
    { intros y Hy <-. apply Ef. by apply list_elem_of_In, in_map, list_elem_of_In. }
    destruct a; [rewrite law_reps, elem_of_app, list_elem_of_singleton|]; pose proof (Hne x) as Hx.
    + split; [intros [Hm| ->]; [right; auto|by left]|]. intros [[_ ->]|[Hm _]]; auto.
    + split; [right; auto|]. intros [[Ha _]|[Hm _]]; done.
Qed.

(** The reporter gets into an entry of the chain [l] with the key of [e], or
    is in one. *)
Definition admitted e (r : A) (l : list E) : Prop := exists n y, l !! n = Some y /\ mc_key y = mc_key e /\
  reports y r || rep_atomic N n = true.

Lemma refreshed_mem h e r t l k x : Forall (entry_wf h) l ->
  mem_chain (imap (fun n y => if same_key e y then refresh_rep (rep_atomic N n) y r t else y) l) k x <->
    (admitted e r l /\ k = mc_key e /\ x = mk_rep r t) \/ (mem_chain l k x /\ ~ (k = mc_key e /\ rep x = r)).
Proof.
  intros Hl. assert (Hw : forall n y, l !! n = Some y -> entry_wf h y) by by apply Forall_lookup.
  unfold mem_chain. setoid_rewrite list_elem_of_lookup. setoid_rewrite list_lookup_imap_Some. split.
  - intros (e' & (n & y & Hy & ->) & <- & Hx). destruct (same_key e y) eqn:Es.
    + apply bool_decide_eq_true in Es. rewrite refresh_key, Es. apply list_elem_of_lookup, (refresh_mem h) in Hx; [|by eapply Hw].
      destruct Hx as [[Ha ->]|[Hx Hne]]; [left; split; [by exists n, y|done]|].
      right. split; [exists y; split; [by exists n|]; by rewrite <- list_elem_of_lookup|]. by intros [_ ?].
    + apply bool_decide_eq_false in Es. right. split; [exists y; eauto|]. by intros [? _].
  - intros [((n & y & Hy & Hk & Ha) & -> & ->)|[(y & (n & Hy) & <- & Hx) Hn]].
    + exists (refresh_rep (rep_atomic N n) y r t). split; [exists n, y; unfold same_key; by rewrite bool_decide_eq_true_2|].
      split; [by rewrite refresh_key|]. apply list_elem_of_lookup, (refresh_mem h); [by eapply Hw|by left].
    + destruct (same_key e y) eqn:Es; [|exists y; split; [exists n, y; by rewrite Es|done]].
      exists (refresh_rep (rep_atomic N n) y r t). split; [exists n, y; by rewrite Es|]. split; [apply refresh_key|].
      apply list_elem_of_lookup, (refresh_mem h); [by eapply Hw|]. right. split; [by apply list_elem_of_lookup|].
      intros E'. apply Hn. split; [|done]. by apply bool_decide_eq_true in Es.
Qed.

(** A reporter that is not admitted was no member. *)
Lemma admitted_mem e r l x : mem_chain l (mc_key e) x -> rep x = r -> admitted e r l.
Proof.
  intros (y & [n Hn]%list_elem_of_lookup & Hk & Hx) <-. exists n, y. split; [done|]. split; [done|]. apply orb_true_iff. left.
  apply reports_mem. by apply list_elem_of_In, in_map, list_elem_of_In.
Qed.

Lemma admitted_known e r l : admitted e r l -> existsb (same_key e) l = true.
Proof.
  intros (n & y & Hy & Hk & _). apply existsb_exists. exists y. split; [|by apply bool_decide_eq_true].
  by eapply list_elem_of_In, list_elem_of_lookup_2.
Qed.

(** A failing [br_mcast_blog_process] leaves no copy: [br_mcast_vlan_process]
    deletes every copy it does not activate, and fails if it activates none. *)
Definition no_copies : Prop := forall e, fst (process e) < 0 -> snd (process e) = O.

Lemma copies_none e a1 a2 k x : ~ mem_chain (copies a1 a2 e 0) k x.
Proof. unfold copies. destruct (mc_copy a1 a2 e); intros (? & H1 & _); by apply elem_of_nil in H1. Qed.

(** An accepted request to join takes effect: the membership is there and
    admits the reporter, or it is new and the accelerator has a place for it. *)
Definition taken e (r : A) (l : list E) : Prop :=
  if existsb (same_key e) l then admitted e r l else 0 <= fst (process e).

Lemma join_chain_mem h e r t l k x : no_copies -> Forall (entry_wf h) l -> mc_reps e = [mk_rep r t] ->
  let taken := taken e r l in
  mem_chain (join_chain e r t l) k x <->
    (taken /\ k = mc_key e /\ x = mk_rep r t) \/ (mem_chain l k x /\ ~ (taken /\ k = mc_key e /\ rep x = r)).
Proof.
  intros Hnc Hl Hr. unfold join_chain, taken. cbv zeta. destruct (existsb _ l) eqn:Ex.
  - rewrite (refreshed_mem h e r t l k x Hl). split; [tauto|]. intros [H|[Hm Hn]]; [tauto|right]. split; [done|].
    intros [-> Hx]. apply Hn. split; [by eapply admitted_mem|done].
  - assert (Hno : forall y, mem_chain l (mc_key e) y -> False).
    { intros y (e' & He' & Hk & _). apply existsb_key in Ex. by apply (proj1 (Forall_forall _ _) Ex e' He'). }
    pose proof (Hnc e) as Hc. destruct (process e) as [ret n]. cbn [fst snd] in *.
    rewrite mem_chain_app. destruct (Z.ltb_spec ret 0) as [Hret|Hret].
    + rewrite Hc by done. pose proof (copies_none e (mc_atomic N) (rep_atomic N) k x). split; [|intuition lia].
      intros [Hm|Hm]; [done|]. right. split; [done|lia].
    + assert (He : mem_chain (e :: l) k x <-> (k = mc_key e /\ x = mk_rep r t) \/ mem_chain l k x).
      { unfold mem_chain. setoid_rewrite elem_of_cons. split.
        - intros (e' & [->|He'] & <- & Hx); [left|right; by exists e']. rewrite Hr in Hx. by apply list_elem_of_singleton in Hx.
        - intros [[-> ->]|(e' & He' & H)]; [exists e|exists e'; auto]. rewrite Hr, list_elem_of_singleton. auto. }
      assert (Hcp : mem_chain (copies (mc_atomic N) (rep_atomic N) e n) k x -> k = mc_key e /\ x = mk_rep r t).
      { intros H%(copies_mem e _ _ n []). unfold mem_chain in H. setoid_rewrite list_elem_of_singleton in H.
        destruct H as (? & -> & <- & Hx). rewrite Hr in Hx. by apply list_elem_of_singleton in Hx. }
      rewrite He. split; [|tauto]. intros [H|[H|H]]; [tauto..|]. right. split; [done|]. intros (_ & -> & _). by apply (Hno x).
Qed.

(** The reporter [r] of the membership of [e] has the time [t], and all else
    is as it was; or nothing has changed. *)
Definition joined (taken : Prop) e (r : A) (t : Z) (g g' : list (list E)) : Prop :=
  forall k x, member g' k x <->
    (taken /\ k = mc_key e /\ x = mk_rep r t) \/ (member g k x /\ ~ (taken /\ k = mc_key e /\ rep x = r)).

Lemma joined_taken (P Q : Prop) e (r : A) (t : Z) g g' : (P <-> Q) -> joined P e r t g g' -> joined Q e r t g g'.
Proof. intros HPQ H k x. by rewrite (H k x), HPQ. Qed.

Lemma join_refines e r t w h : no_copies -> groups_wf (mc_table w) -> mc_reps e = [mk_rep r t] ->
  h = key_hash N (mc_key e) ->
  joined (taken e r (mc_chain w h)) e r t
    (mc_table w) (<[h := join_chain e r t (mc_chain w h)]> (mc_table w)).
Proof.
  intros Hnc Hg Hr -> k x. set (h := key_hash N (mc_key e)).
  destruct (groups_chain_wf N nports w h Hg (law_hash N _)) as [El [Hc _]].
  rewrite (member_put _ _ _ _ _ _ El), (join_chain_mem h) by done. cbv zeta.
  assert (Hother : forall h' l2, h' <> h -> mc_table w !! h' = Some l2 -> mem_chain l2 k x -> k <> mc_key e).
  { intros h' l2 Hne E' Hm ->. apply Hne. by apply (chain_of_key N nports (mc_table w) (mc_key e) x h' l2). }
  split.
  - intros [[H|[Hm Hn]]|(h' & l2 & Hne & E' & Hm)]; [by left|right; split; [by exists h, (mc_chain w h)|done]|].
    right. split; [by exists h', l2|]. intros (_ & Hk & _). by apply (Hother h' l2).
  - intros [H|[(h' & l & E' & Hm) Hn]]; [left; by left|]. destruct (decide (h' = h)) as [->|Hne].
    + left. right. split; [congruence|done].
    + right. by exists h', l.
Qed.

(** ** Changes of devices *)

(** The memberships that the entries of a chain, of a table, give for which
    [P] holds. *)
Definition chain_with (P : E -> bool) (l : list E) (k : K) (x : mc_rep_entry A) : Prop :=
  exists e, e ∈ l /\ P e = true /\ mc_key e = k /\ x ∈ mc_reps e.
Definition member_with (P : E -> bool) (g : list (list E)) (k : K) (x : mc_rep_entry A) : Prop :=
  exists h l, g !! h = Some l /\ chain_with P l k x.

Lemma chain_with_del (b : E -> bool) l k x :
  mem_chain (omap (del_if b None) l) k x <-> chain_with (fun e => negb (b e)) l k x.
Proof.
  rewrite mem_chain_omap. unfold del_if, chain_with. split.
  - intros (e & e' & He & E' & H). exists e. destruct (b e); [done|]. injection E' as <-. done.
  - intros (e & He & Hb & H). exists e, e. destruct (b e); done.
Qed.

Lemma chain_with_cons (P : E -> bool) e l k x :
  chain_with P (e :: l) k x <-> (P e = true /\ mc_key e = k /\ x ∈ mc_reps e) \/ chain_with P l k x.
Proof.
  unfold chain_with. setoid_rewrite elem_of_cons. split.
  - intros (y & [->|Hy] & H); [by left|right; by exists y].
  - intros [H|(y & Hy & H)]; [by exists e; auto|by exists y; auto].
Qed.

Lemma chain_with_nil (P : E -> bool) k x : ~ chain_with P [] k x.
Proof. intros (e & He%elem_of_nil & _). done. Qed.

Lemma mem_with (l : list E) k x : mem_chain l k x <-> chain_with (fun _ => true) l k x.
Proof. unfold mem_chain, chain_with. split; intros (e & H); exists e; tauto. Qed.

Lemma chain_with_omap (P b : E -> bool) l k x :
  chain_with P (omap (del_if b None) l) k x <-> chain_with (fun e => negb (b e) && P e) l k x.
Proof.
  induction l as [|e l IH]; [split; intros H; by apply chain_with_nil in H|]. cbn. unfold del_if at 1.
  rewrite chain_with_cons. destruct (b e); cbn [negb andb]; [rewrite IH; intuition discriminate|]. by rewrite chain_with_cons, IH.
Qed.

(** An entry that is left after the accelerator has been asked again: itself
    or copies of it. *)
Definition reprocessed e : bool :=
  let '(ret, n) := process e in
  (0 <=? ret) || match copies (mc_atomic N) (rep_atomic N) e n with [] => false | _ => true end.

Lemma copies_key e n k x : mem_chain (copies (mc_atomic N) (rep_atomic N) e n) k x <->
  copies (mc_atomic N) (rep_atomic N) e n <> [] /\ mc_key e = k /\ x ∈ mc_reps e.
Proof.
  unfold copies, mc_copy. destruct (law_copy e) as (_ & Ek & Er). destruct (_ && _).
  - unfold mem_chain. setoid_rewrite elem_of_replicate. split.
    + intros (y & [-> Hn] & <- & Hx). rewrite Ek, Er in *. by destruct n.
    + intros (Hn & <- & Hx). exists (mc_unroot e). rewrite Ek, Er. by destruct n.
  - unfold mem_chain. setoid_rewrite elem_of_nil. split; [by intros (? & ? & _)|by intros [? _]].
Qed.

Lemma rebuild_spec (P : E -> bool) h l w : Forall (entry_wf h) l -> R (tbl w) ->
  let f e := if mc_root e && P e && (fst (process e) <? 0) then without None e else Some e in
  wp (rebuild (mc_atomic N) (rep_atomic N) process del P l) (fun r w' => snd r = omap f l /\
    Forall (copy_wf N nports h) (fst r) /\ tabled (mc_table w) w w' /\
    forall k x, mem_chain (fst r ++ snd r) k x <-> chain_with (fun e => negb (mc_root e && P e) || reprocessed e) l k x) w.
Proof.
  intros Hl Hp f. revert w Hp. induction Hl as [|e l He _ IH]; intros w Hp; cbn [rebuild].
  { apply wp_ret. split; [done|]. split; [constructor|]. split; [apply tabled_refl|]. intros k x. cbn [fst snd app].
    rewrite mem_with. split; intros H; by apply chain_with_nil in H. }
  assert (Hcons : forall (y : E) m k x, mem_chain (y :: m) k x <-> (mc_key y = k /\ x ∈ mc_reps y) \/ mem_chain m k x)
    by (intros; rewrite !mem_with, chain_with_cons; tauto).
  destruct (mc_root e && P e) eqn:Er.
  - destruct (process e) as [ret n] eqn:Eb. apply wp_bind.
    assert (Hfe : f e = if ret <? 0 then without None e else Some e) by (unfold f; by rewrite Er, Eb).
    assert (H1 : wp (if ret <? 0 then del e None else mret (Some e))
      (fun o w' => o = f e /\ tabled (mc_table w) w w') w).
    { rewrite Hfe. destruct (ret <? 0); [apply del_spec; [by exists h|done]|]. apply wp_ret. split; [done|apply tabled_refl]. }
    eapply wp_mono; [exact H1|cbv beta]. clear H1. intros o w1 [-> H1]. apply wp_bind.
    destruct (tabled_same _ _ _ H1) as [Ht Hg].
    eapply wp_mono; [by apply IH, (R_tbl w)|cbv beta]. intros [added kept] w2 (Hk & Ha & H2 & Hm). cbn [fst snd] in *. apply wp_ret.
    rewrite Hg in H2. split; [cbn; rewrite Hk; by destruct (f e)|].
    split; [apply Forall_app; split; [done|by apply copies_wf]|]. split; [by eapply tabled_trans|]. intros k x.
    specialize (Hm k x). rewrite mem_chain_app in Hm. cbn [fst snd]. rewrite !mem_chain_app, chain_with_cons, copies_key, <- Hm.
    rewrite Er, Hfe. unfold reprocessed. rewrite Eb. cbn [negb orb]. destruct (Z.ltb_spec ret 0), (Z.leb_spec 0 ret); try lia;
      cbn [orb without with_reps]; [|rewrite Hcons]; destruct (copies _ _ e n); intuition (try discriminate; congruence).
  - apply wp_bind. eapply wp_mono; [by apply IH|cbv beta]. intros [added kept] w2 (Hk & Ha & H2 & Hm). cbn [fst snd] in *.
    apply wp_ret. assert (f e = Some e) as Hfe by (unfold f; by rewrite Er). cbn [fst snd omap list_omap]. rewrite Hfe, Hk.
    split; [done|]. split; [done|]. split; [done|]. intros k x. specialize (Hm k x). rewrite mem_chain_app in Hm.
    rewrite mem_chain_app, Hcons, chain_with_cons, <- Hm, Er, <- Hk. cbn [negb orb]. tauto.
Qed.

(** An entry that involves the device [d]. *)
Definition on_device (d : nat) e : bool :=
  Nat.eqb (port_dev N (key_dst (mc_key e))) d || Nat.eqb (key_from (mc_key e)) d.

(** The second loop, chain by chain. *)
Lemma rebuild_all (P : E -> bool) (hs : list nat) w : NoDup hs -> Forall (fun h => (h < Z.to_nat BR_HASH_SIZE)%nat) hs ->
  groups_wf (mc_table w) -> R (tbl w) ->
  wp (for_each hs (fun h =>
       w ← gets id;
       '(added, kept) ← rebuild (mc_atomic N) (rep_atomic N) process del P (mc_chain w h);
       modify (set_mc_chain h (added ++ kept))))
    (fun _ w' => served w w' /\ R (tbl w') /\ forall h, (h ∉ hs -> mc_table w' !! h = mc_table w !! h) /\
      (h ∈ hs -> forall k x, mem_chain (mc_chain w' h) k x <->
        chain_with (fun e => negb (mc_root e && P e) || reprocessed e) (mc_chain w h) k x)) w.
Proof.
  intros Hnd Hlt. revert w Hlt. induction Hnd as [|h hs Hh _ IH]; intros w Hlt Hg Hp; cbn [for_each].
  { apply wp_ret. split; [by apply served_refl|]. split; [done|]. intros h. split; [done|]. by intros H%elem_of_nil. }
  apply Forall_cons in Hlt as [Hlth Hlt]. destruct (groups_chain_wf N nports w h Hg Hlth) as [El Hc].
  apply wp_bind, wp_bind, wp_gets, wp_bind. change (id w) with w.
  eapply wp_mono; [by apply rebuild_spec; [apply Hc|]|cbv beta]. intros [added kept] w1 (Hk & Ha & H1 & Hm). cbn [fst snd] in *.
  apply wp_modify. destruct (tabled_same _ _ _ H1) as [Ht1 Hg1].
  set (w2 := set_mc_chain h (added ++ kept) w1).
  assert (Htb : tabled (<[h := added ++ kept]> (mc_table w)) w w2)
    by (unfold w2, set_mc_chain; rewrite Hg1; by eapply tabled_put_after).
  destruct (tabled_same _ _ _ Htb) as [Ht2 Hg2]. assert (Hsv : served w w2).
  { eapply served_tabled; [exact Htb|]. apply groups_chain; [done|]. apply chain_copies; [done|]. rewrite Hk.
    apply chain_thin; [apply thins_del|done]. }
  clearbody w2. eapply wp_mono; [apply IH; [done|apply Hsv|by apply (R_tbl w)]|cbv beta]. intros _ w3 (H3 & Hp3 & Hch).
  assert (Hin : mc_table w2 !! h = Some (added ++ kept)) by (rewrite Hg2; apply list_lookup_insert_eq; by eapply lookup_lt_Some).
  split; [by eapply served_trans|]. split; [done|]. intros h'. destruct (Hch h') as [Hout Hins]. rewrite elem_of_cons. split.
  - intros Hn. rewrite Hout by tauto. rewrite Hg2. apply list_lookup_insert_ne. intros <-. tauto.
  - intros [->|H'] k x.
    + rewrite <- Hm. unfold mc_chain. rewrite (nth_lookup_Some _ _ _ (added ++ kept)); [done|]. by rewrite Hout.
    + rewrite (Hins H'). assert (h' <> h) by (by intros ->). unfold mc_chain. rewrite Hg2, !nth_lookup.
      by rewrite list_lookup_insert_ne.
Qed.

(** What an update of the device [d] keeps: with [flushAll] 1 nothing of the
    device, else the entries that are not copies; with [flushAll] 0 those of
    them that the accelerator takes again. *)
Definition keeps (d : nat) (flush : Z) e : bool :=
  negb (on_device d e) ||
  (mc_root e && negb (flush =? 1) && (negb (flush =? 0) || reprocessed e)).

Lemma member_with_chain (P : E -> bool) w g k x : groups_wf g -> mc_table w = g ->
  member_with P g k x <-> exists h, (h < Z.to_nat BR_HASH_SIZE)%nat /\ chain_with P (mc_chain w h) k x.
Proof.
  intros Hg <-. split.
  - intros (h & l & El & H). exists h. split; [rewrite <- (proj1 Hg); by eapply lookup_lt_Some|].
    unfold mc_chain. by rewrite (nth_lookup_Some _ _ _ l).
  - intros (h & Hh & H). exists h, (mc_chain w h). split; [by apply (groups_chain_wf N nports)|done].
Qed.

Lemma chain_with_ext (P Q : E -> bool) l k x : (forall e, P e = Q e) -> chain_with P l k x <-> chain_with Q l k x.
Proof. intros H. unfold chain_with. by setoid_rewrite H. Qed.

Lemma member_all g k x : member g k x <-> member_with (fun _ => true) g k x.
Proof. unfold member, member_with. by setoid_rewrite mem_with. Qed.

Lemma update_bydev_spec (P : E -> bool) d flush w : groups_wf (mc_table w) -> R (tbl w) ->
  (forall e, P e = on_device d e) ->
  wp (mc_update_bydev (mc_atomic N) (rep_atomic N) process del set_timer P flush) (fun _ w' => served w w' /\
    forall k x, member (mc_table w') k x <-> member_with (keeps d flush) (mc_table w) k x) w.
Proof.
  intros Hg Hp HP. unfold mc_update_bydev. set (b := fun e => P e && (negb (mc_root e) || (flush =? 1))).
  apply wp_bind. eapply wp_mono; [apply (thin_all N nports _ (del_if b None)); [done|by apply does_del|apply thins_del]|cbv beta].
  intros _ w1 [H1 Hg1]. destruct (tabled_same _ _ _ H1) as [Ht1 Hh1].
  assert (Hs1 : served w w1) by (eapply served_tabled; [exact H1|by rewrite <- Hh1]).
  assert (Hc1 : forall h, mc_chain w1 h = omap (del_if b None) (mc_chain w h)).
  { intros h. unfold mc_chain. rewrite Hh1, !nth_lookup, list_lookup_fmap. by destruct (mc_table w !! h). }
  set (c := fun e => negb (flush =? 0) || (negb (mc_root e && P e) || reprocessed e)).
  assert (Hkeep : forall e, keeps d flush e = negb (b e) && c e).
  { intros e. unfold keeps, b, c. rewrite <- HP.
    destruct (P e), (mc_root e), (Z.eqb_spec flush 1), (Z.eqb_spec flush 0); cbn; try lia; by rewrite ?andb_true_r. }
  apply wp_bind. eapply wp_mono with (Q := fun _ w' => served w w' /\ forall h, (h < Z.to_nat BR_HASH_SIZE)%nat ->
    forall k x, mem_chain (mc_chain w' h) k x <-> chain_with c (mc_chain w1 h) k x).
  - unfold c. destruct (flush =? 0); cbn [negb orb].
    + eapply wp_mono; [apply (rebuild_all P); [apply NoDup_seq| |done|by apply (R_tbl w)]|cbv beta].
      * apply Forall_forall. intros h Hh. apply elem_of_seq in Hh. lia.
      * intros _ w2 (H2 & _ & Hch). split; [by eapply served_trans|]. intros h Hh. apply Hch, elem_of_seq. lia.
    + apply wp_ret. split; [done|]. intros h _ k x. apply mem_with.
  - cbv beta. intros _ w2 [H2 Hch]. apply wp_bind, timer_spec. intros tm. apply wp_ret. rewrite timer_table.
    split; [by apply served_timer|]. intros k x.
    rewrite member_all, (member_with_chain _ w2 _ k x (proj2 H2) eq_refl), (member_with_chain _ w _ k x Hg eq_refl).
    apply exist_proper. intros h. split; intros [Hh H]; (split; [done|]).
    + apply mem_with, Hch in H as Hm; [|done]. rewrite Hc1, chain_with_omap in Hm. by eapply chain_with_ext, Hm.
    + apply mem_with, Hch; [done|]. rewrite Hc1, chain_with_omap. by eapply chain_with_ext, H.
Qed.

(** The table after the request: a device on which another is stacked is left
    alone. *)
Definition updated (d : nat) (flush : Z) (g g' : list (list E)) : Prop := forall k x, member g' k x <->
  member_with (fun e => negb match netdev_path_is_leaf N d with Ok leaf => leaf | Fault _ => false end || keeps d flush e) g k x.

Lemma update_dev_guarded (P : E -> bool) d flush w : groups_wf (mc_table w) -> R (tbl w) -> (d < length (devs N))%nat ->
  (forall e, P e = on_device d e) ->
  wp (leaf ← lift (netdev_path_is_leaf N d);
      if negb leaf then mret 0
      else mc_update_bydev (mc_atomic N) (rep_atomic N) process del set_timer P flush)
    (fun _ w' => served w w' /\ updated d flush (mc_table w) (mc_table w')) w.
Proof.
  intros Hg Hp Hd HP. unfold updated. destruct (netdev_path_is_leaf N d) as [leaf|] eqn:El.
  - apply wp_bind. eapply wp_lift; [done|]. destruct leaf; cbn [negb orb]; [by apply update_bydev_spec|].
    apply wp_ret. split; [by apply served_refl|]. apply member_all.
  - unfold netdev_path_is_leaf in El. by destruct (dev_at_ok N d Hd) as (x & Ex & _); rewrite Ex in El.
Qed.

(** With [flushAll] nothing of the device is left. *)
Lemma flush_bydev_spec (P : E -> bool) d w : groups_wf (mc_table w) -> R (tbl w) ->
  (forall e, P e = on_device d e) ->
  wp (mc_update_bydev (mc_atomic N) (rep_atomic N) process del set_timer P 1) (fun _ w' =>
    Forall (Forall (fun e => on_device d e = false)) (mc_table w')) w.
Proof.
  intros Hg Hp HP. unfold mc_update_bydev. set (b := fun e => P e && (negb (mc_root e) || (1 =? 1))).
  apply wp_bind. eapply wp_mono; [apply (thin_all N nports _ (del_if b None)); [done|by apply does_del|apply thins_del]|cbv beta].
  intros _ w1 [H1 _]. destruct (tabled_same _ _ _ H1) as [_ Hh1]. apply wp_bind, wp_ret, wp_bind, timer_spec. intros tm.
  apply wp_ret. rewrite timer_table, Hh1. apply Forall_fmap. apply Forall_forall. intros l _. apply Forall_forall.
  intros e (e0 & _ & He)%list_elem_of_omap. unfold del_if in He. destruct (b e0) eqn:Eb; [done|]. injection He as <-.
  rewrite <- HP. unfold b in Eb. by rewrite orb_true_r, andb_true_r in Eb.
Qed.
End Serve.
