(* ===== verification/GroupsExpiry.v ===== *)
(** Memberships end: the times of reporters, and the earliest of them, for any
    table of multicast groups. *)

From S2P Require Import Prelude Str Stp Fdb Bridge BrWp BrForward BrForwardProps Groups GroupsProps.

(** ** Times

    Times are 32-bit words that wrap around; within a window of less than
    [2^31] they compare as the integers they stand for. *)

Lemma s32_diff a b : - 2 ^ 31 <= a - b < 2 ^ 31 -> s32 (u32 a - u32 b) = a - b.
Proof. intros H. ints. Qed.

Lemma time_after_abs a b : - 2 ^ 31 <= b - a < 2 ^ 31 -> time_after (u32 a) (u32 b) = (b <? a).
Proof. intros H. unfold time_after. rewrite s32_diff by lia. destruct (Z.ltb_spec (b - a) 0), (Z.ltb_spec b a); lia. Qed.

Lemma time_after_eq_abs a b : - 2 ^ 31 <= a - b < 2 ^ 31 -> time_after_eq (u32 a) (u32 b) = (b <=? a).
Proof. intros H. unfold time_after_eq. rewrite s32_diff by lia. destruct (Z.leb_spec 0 (a - b)), (Z.leb_spec b a); lia. Qed.

Lemma time_before_abs a b : - 2 ^ 31 <= a - b < 2 ^ 31 -> time_before (u32 a) (u32 b) = (a <? b).
Proof. intros H. unfold time_before. rewrite s32_diff by lia. destruct (Z.ltb_spec (a - b) 0), (Z.ltb_spec a b); lia. Qed.

(** The word [z] stands for a time from [T] to [E]. *)
Definition due (T E z : Z) : Prop := exists a, z = u32 a /\ T <= a <= E.

(** ** The earliest time *)

Definition earlier (acc : Z * bool) (z : Z) : Z * bool := if time_after (fst acc) z then (z, true) else acc.

Lemma earliest_fold T W l S f : W - T < 2 ^ 31 -> T <= S <= W -> (forall z, z ∈ l -> due T W z) ->
  exists S' f', foldl earlier (u32 S, f) l = (u32 S', f') /\ T <= S' <= S /\
    ((S' = S /\ f' = f /\ forall z E, z ∈ l -> E < S -> ~ due T E z) \/ (f' = true /\ u32 S' ∈ l)).
Proof.
  intros HW. revert S f. induction l as [|z l IH]; intros S f HS Hl.
  { exists S, f. split; [done|]. split; [lia|]. left. split; [done|]. split; [done|]. intros z E Hz. by apply elem_of_nil in Hz. }
  destruct (Hl z) as (a & -> & Ha); [apply elem_of_cons; by left|].
  assert (Hl' : forall z, z ∈ l -> due T W z) by (intros y Hy; apply Hl, elem_of_cons; by right).
  cbn [foldl]. unfold earlier at 2. cbn [fst]. rewrite time_after_abs by lia. destruct (Z.ltb_spec a S).
  - destruct (IH a true) as (S' & f' & -> & HS' & H0); [lia|done|]. exists S', f'. split; [done|]. split; [lia|]. right.
    destruct H0 as [(-> & -> & _)|[-> Hin]]; (split; [done|]); apply elem_of_cons; auto.
  - destruct (IH S f) as (S' & f' & -> & HS' & H0); [lia|done|]. exists S', f'. split; [done|]. split; [lia|].
    destruct H0 as [(-> & -> & Hn)|[-> Hin]]; [left|right; split; [done|apply elem_of_cons; by right]].
    split; [done|]. split; [done|]. intros z E [->|Hz]%elem_of_cons HE; [|by apply Hn].
    intros (a' & Heq & Ha'). assert (s32 (u32 a - u32 a') = a - a') as Hd by (apply s32_diff; lia).
    rewrite Heq, Z.sub_diag in Hd. change (s32 0) with 0 in Hd. lia.
Qed.

Lemma concat_omap_map {A B} (f : A -> option B) (g : list (list A)) : concat (map (omap f) g) = omap f (concat g).
Proof. induction g as [|l g IH]; [done|]. cbn. by rewrite IH, omap_app. Qed.

Lemma u32_u32_add x y : u32 (u32 x + y) = u32 (x + y).
Proof. unfold u32. apply Zplus_mod_idemp_l. Qed.

Lemma due_at T E S : due T E (u32 S) -> T <= S < T + 2 ^ 31 -> E < T + 2 ^ 31 -> S <= E.
Proof.
  intros (a & Ha & Hr) HS HE. assert (Hd : s32 (u32 S - u32 a) = S - a) by (apply s32_diff; lia).
  rewrite Ha, Z.sub_diag in Hd. change (s32 0) with 0 in Hd. lia.
Qed.

Lemma filter_shorter {A} (f : A -> bool) (l : list A) : (length (List.filter f l) <= length l)%nat /\
  ((exists x, x ∈ l /\ f x = false) -> (length (List.filter f l) < length l)%nat).
Proof.
  induction l as [|y l [IH1 IH2]]; cbn; [split; [lia|]; intros (x & Hx & _); by apply elem_of_nil in Hx|].
  destruct (f y) eqn:Ey; cbn; (split; [lia|]); intros (x & [->|Hx]%elem_of_cons & Hf); [congruence| |lia..].
  assert (length (List.filter f l) < length l)%nat by (apply IH2; by exists x). lia.
Qed.

(** The time of a reporter that is one of the earliest. *)
Lemma rep_at {A} T E S (l : list (mc_rep_entry A)) : (forall x, x ∈ l -> due T E (tstamp x)) ->
  T <= S < T + 2 ^ 31 -> E < T + 2 ^ 31 -> u32 S ∈ map tstamp l ->
  T <= S <= E /\ exists x, x ∈ l /\ tstamp x = u32 S.
Proof.
  intros Hr HS HE (x & Hts & Hx)%list_elem_of_fmap. split; [|by exists x]. split; [lia|].
  apply (due_at T E S); [rewrite Hts; by apply Hr|lia..].
Qed.

(** ** Reporters *)

Section Reporters.
Context {E A K : Type} {SA : Address A} {GT : GroupTable E A K} {GK : GroupKey K} {GF : GroupFrame E}.
Context {GL : GroupLaws E A K} (N : net) (nports : nat).
Implicit Types (g : list (list E)).

Abbreviation groups_wf := (groups_wf N nports).

Definition reporters g : list (mc_rep_entry A) := concat (map mc_reps (concat g)).

Lemma reporters_expire j g :
  reporters (map (omap (expire j)) g) = List.filter (fun x => negb (time_after_eq j (tstamp x))) (reporters g).
Proof.
  unfold reporters. rewrite concat_omap_map. induction (concat g) as [|e l IH]; [done|]. cbn [omap list_omap map concat].
  rewrite List.filter_app, <- IH. unfold expire, with_reps. destruct (List.filter _ (mc_reps e)); [done|]. cbn. by rewrite law_reps.
Qed.

Lemma earliest_reporter_fold g (acc : Z * bool) :
  earliest_reporter (concat g) acc = foldl earlier acc (map tstamp (reporters g)).
Proof.
  unfold earliest_reporter, reporters. destruct acc as [t f]. revert t f.
  induction (concat (map mc_reps (concat g))) as [|x l IH]; intros t f; [done|]. cbn. unfold earlier at 2. cbn.
  destruct (time_after t (tstamp x)); apply IH.
Qed.

(** A well-formed table without reporters has no entries. *)
Lemma no_reporters g : groups_wf g -> reporters g = [] -> Forall (fun c => c = []) g.
Proof.
  intros [_ Hg] H0. apply Forall_lookup_2. intros h c Ec. destruct (Hg h c Ec) as [Hc _].
  destruct c as [|e c]; [done|]. inversion_clear Hc as [|? ? He _]. exfalso. apply (ew_some N nports _ _ He).
  destruct (mc_reps e) as [|x l] eqn:Er; [done|]. assert (Hx : x ∈ reporters g); [|rewrite H0 in Hx; by apply elem_of_nil in Hx].
  apply list_elem_of_In, in_concat. exists (mc_reps e). rewrite Er. split; [|by left]. rewrite <- Er. apply in_map, in_concat.
  exists (e :: c). split; [|by left]. by apply list_elem_of_In, (list_elem_of_lookup_2 _ h).
Qed.

End Reporters.
