(* ===== verification/BrIgmp.v ===== *)
(** Multicast snooping: net/bridge/br_igmp.c, the packet path of br_mld.c and
    of br_netlink_mcpd.c.

    The members of a group are entries of a hash table, each with a list of
    reporters and the time their membership ends; the multicast daemon in user
    space adds and removes them.  IGMP packets may wait for the daemon's
    admission in a table of [MCPD_MAX_DELAYED_SKB_COUNT] buffers.  A timer
    drops members and waiting packets that nobody asked for again.  The rules
    of the packet accelerator that go with an entry are not modelled. *)

From S2P Require Import Prelude Str Stp Fdb Bridge BrForward Groups.

(** ** Constants *)

Definition MCPD_MAX_DELAYED_SKB_COUNT : nat := 64.
Definition MCPD_NETLINK_SKB_TIMEOUT_MS : Z := 2000.
Definition BR_IGMP_HASH_SIZE : Z := BR_HASH_SIZE.
Definition BR_IGMP_MEMBERSHIP_TIMEOUT : Z := 260.
Definition SNOOPING_BLOCKING_MODE : Z := 2.
Definition IPPROTO_UDP : Z := 17.
Definition IPPROTO_HOPOPTS : Z := 0.
Definition IPPROTO_ICMPV6 : Z := 58.
Definition PPP_IPV6 : Z := 0x57.
Definition ICMPV6_MGM_REPORT : Z := 131.
Definition ICMPV6_MGM_REDUCTION : Z := 132.
Definition ICMPV6_MLD2_REPORT : Z := 143.
Definition BR_MLD_MULTICAST_MAC_PREFIX : Z := 0x33.
Definition MCPD_MSG_IGMP_PKT : Z := 3.
Definition MCPD_MSG_MLD_PKT : Z := 5.

(** ** The MLD header *)

(** The IPv6 header, as [ip_header]; the VLAN branch looks for [PPP_IP]. *)
Definition ipv6_header (s : sk_buff) : res (option Z * bool) :=
  let nh := network_header s in
  proto ← be16_at (mac s) 12;
  if proto =? ETH_P_IPV6 then Ok (Some nh, false)
  else if proto =? ETH_P_PPP_SES then
    tag_type ← be16_at (mac s) (nh + 6);
    Ok (if tag_type =? PPP_IPV6 then Some (nh + PPPOE_SES_HLEN) else None, true)
  else if proto =? ETH_P_8021Q then
    encapsulated ← be16_at (mac s) 16;
    if encapsulated =? ETH_P_IPV6 then Ok (Some (nh + VLAN_HLEN), false)
    else if encapsulated =? ETH_P_PPP_SES then
      tag_type ← le16_at (mac s) (nh + VLAN_HLEN + 6);
      Ok (if tag_type =? PPP_IP then Some (nh + VLAN_HLEN + PPPOE_SES_HLEN) else None, false)
    else Ok (None, false)
  else Ok (None, false).

(** The ICMPv6 header behind a hop-by-hop header of eight bytes. *)
Definition icmp6_header (s : sk_buff) (pipv6 : Z) : res (option Z) :=
  nexthdr ← rd (mac s) (pipv6 + 6);
  if nexthdr =? IPPROTO_HOPOPTS then
    nextHdr ← rd (mac s) (pipv6 + 40);
    Ok (if nextHdr =? IPPROTO_ICMPV6 then Some (pipv6 + 48) else None)
  else Ok None.

Definition br_mld_get_ip_icmp_hdrs (s : sk_buff) : res (option Z * option Z * option Z) :=
  '(pipv6, pppoe) ← ipv6_header s;
  match pipv6 with
  | None => Ok (None, None, None)
  | Some pipv6 =>
      if pppoe : bool then
        a ← rd (mac s) (pipv6 + 24);
        if a =? 0xff then picmp ← icmp6_header s pipv6; Ok (Some pipv6, picmp, Some 1)
        else Ok (None, None, None)
      else if (byte_of (h_dest s) 0 =? BR_MLD_MULTICAST_MAC_PREFIX) &&
              (byte_of (h_dest s) 1 =? BR_MLD_MULTICAST_MAC_PREFIX) then
        picmp ← icmp6_header s pipv6; Ok (Some pipv6, picmp, Some 0)
      else Ok (None, None, None)
  end.

(** The bytes of the word array that initialises [all_dhcp_srvr_addr], as
    they lie in memory. *)
Definition all_dhcp_srvr_addr : list Z :=
  concat (map (fun x => [x mod 256; x / 2 ^ 8 mod 256; x / 2 ^ 16 mod 256; x / 2 ^ 24 mod 256])
    [0xFF050000; 0x00000000; 0x00000000; 0x00010003]).

Definition br_mld_control_filter (dest : option (list Z)) (ipv6 : list Z) : bool :=
  let scope := Z.land (byte_of ipv6 1) 0xf in
  let mcast := byte_of ipv6 0 =? 0xff in
  negb (match dest with Some d => is_broadcast_ether_addr d | None => false end ||
        negb mcast || (mcast && (scope =? 0)) || (mcast && (scope =? 1)) || (mcast && (scope =? 2)) ||
        (memcmp_bytes ipv6 all_dhcp_srvr_addr =? 0)).

(** ** Group tables *)

Definition br_igmp_control_filter (dest : option (list Z)) (dest_ip : Z) : bool :=
  negb (match dest with Some d => is_broadcast_ether_addr d | None => false end ||
        (Z.land dest_ip (htonl 0xFFFFFF00) =? htonl 0xE0000000) ||
        (dest_ip =? htonl 0xEFFFFFFA) || (dest_ip =? htonl 0xE000FF87)).

Definition set_rep_list (v : list (mc_rep_entry Z)) (e : mc_fdb_entry) : mc_fdb_entry :=
  mk_mc (mc_dst e) (rxGrp e) (txGrp e) v (mc_src e) (filt_mode e) (lan_tci e) (mc_type e) (root e)
    (lanppp e) (excludePort e) (enRtpSeqCheck e) (from_dev e).

#[export] Instance igmp_address : Address Z := Z.eqb.

(** What the entries of one membership share: groups, source and filter, and
    the devices it connects. *)
#[export] Instance igmp_table : GroupTable mc_fdb_entry Z (Z * Z * Z * Z * nat * nat) := {
  mc_table := mc_hash;
  set_mc_table := set_mc_hash;
  mc_reps := rep_list;
  set_mc_reps := set_rep_list;
  mc_key e := (txGrp e, rxGrp e, mc_src e, filt_mode e, from_dev e, mc_dst e);
  mc_root := root;
  mc_unroot e := mk_mc (mc_dst e) (rxGrp e) (txGrp e) (rep_list e) (mc_src e) (filt_mode e) (lan_tci e)
    (mc_type e) false (lanppp e) (excludePort e) (enRtpSeqCheck e) (from_dev e)
}.

Section Net.
Context (N : net).

Definition br_igmp_mc_fdb_hash (grp : Z) : nat :=
  Z.to_nat (Z.land (jhash_1word grp (br_igmp_mc_fdb_salt N)) (BR_IGMP_HASH_SIZE - 1)).

(** The words of an address as the processor loads them. *)
Definition word_of (a : list Z) (i : nat) : Z :=
  byte_of a i + 256 * (byte_of a (i + 1) + 256 * (byte_of a (i + 2) + 256 * byte_of a (i + 3))).
Definition br_mld_mc_fdb_hash (grp : list Z) : nat :=
  Z.to_nat (Z.land (jhash_1word (Z.lor (word_of grp 0) (word_of grp 12)) (br_mld_mc_fdb_salt N))
    (BR_HASH_SIZE - 1)).

(** ** The timer *)

Definition br_igmp_get_next_timer_expiry : M (Z * bool) :=
  w ← gets id;
  let j := jiffies (stp_of (tbl w)) in
  mret (foldl (fun '(earliest, found) '(skb, expiryTime) =>
    match skb with
    | Some _ => if time_after earliest expiryTime then (expiryTime, true) else (earliest, found)
    | None => (earliest, found)
    end) (u32 (j + MCPD_NETLINK_SKB_TIMEOUT_MS * 2), false) (igmp_delayed_skb w)).

Definition br_igmp_set_timer : M unit :=
  j ← now_of;
  '(pendTimeout, found) ← br_igmp_get_next_timer_expiry;
  let t := u32 (j + BR_IGMP_MEMBERSHIP_TIMEOUT * HZ * 2) in
  if (igmp_snooping N =? 0) && negb found then modify (set_igmp_timer None)
  else
    let t := if found && time_after t pendTimeout then pendTimeout else t in
    w ← gets id;
    let '(t, found) :=
      if negb (igmp_snooping N =? 0) then earliest_reporter (concat (mc_hash w)) (t, found)
      else (t, found) in
    if negb found then modify (set_igmp_timer None)
    else modify (set_igmp_timer (Some (u32 (t + TIMER_CHECK_TIMEOUT)))).

(** ** Membership *)

(** The message that a reporter is gone: to a daemon that has registered, and
    if there is a buffer for it. *)
Definition mcpd_nl_send_igmp_purge_entry (e : mc_fdb_entry) (x : mc_rep_entry Z) : M unit :=
  if nonzero (mcpd_pid N) && mcpd_alloc N then
    port_of (mc_dst e);;
    emit_ev (PurgeEntry (txGrp e) (rep x))
  else mret tt.

(** The entry without the reporter, if any reporter is left. *)
Definition br_igmp_mc_fdb_del_entry (e : mc_fdb_entry) (r : option Z) : M (option mc_fdb_entry) :=
  let '(gone, l) := del_reps (rep_list e) r in
  (if nonzero (igmp_snooping N) then for_each gone (mcpd_nl_send_igmp_purge_entry e) else mret tt);;
  mret (with_reps l e).

Definition br_igmp_rep_find (e : mc_fdb_entry) (r : Z) : option (mc_rep_entry Z) :=
  rep_find e r.

Definition br_igmp_query_timeout : M unit :=
  mc_walk_all (fun e => timeout_reps br_igmp_mc_fdb_del_entry (rep_list e) (Some e)).

(** ** Waiting packets *)

(** The waiting packets that [P] holds of are freed. *)
Fixpoint free_pending (P : nat -> Z -> M bool) (l : list (option nat * Z)) : M (list (option nat * Z)) :=
  match l with
  | [] => mret []
  | (skb, expiryTime) :: l =>
      x ← match skb with
          | None => mret (skb, expiryTime)
          | Some i =>
              b ← P i expiryTime;
              if b : bool then kfree_skb i;; mret (None, 0) else mret (skb, expiryTime)
          end;
      l ← free_pending P l;
      mret (x :: l)
  end.

Definition free_delayed (P : nat -> Z -> M bool) : M unit :=
  l ← gets igmp_delayed_skb; l ← free_pending P l; modify (set_delayed l).

Definition br_igmp_process_timer_check : M unit :=
  free_delayed (fun _ expiryTime => j ← now_of; mret (time_before expiryTime j)).

Definition br_igmp_timeout : M unit :=
  br_igmp_query_timeout;; br_igmp_process_timer_check;; br_igmp_set_timer.

(** [br_igmp_wipe_pending_skbs], of this bridge. *)
Definition br_igmp_wipe_pending_skbs : M unit := free_delayed (fun _ _ => mret true).

Definition br_igmp_process_device_removal (d : nat) : M unit :=
  if Nat.eqb d (br_dev N) then free_delayed (fun _ _ => mret true)
  else free_delayed (fun i _ => s ← skb_at i; mret (Nat.eqb (dev s) d)).

(** The first position of [l] that [P] holds of. *)
Fixpoint slot (P : option nat -> bool) (l : list (option nat * Z)) : option nat :=
  match l with
  | [] => None
  | (x, _) :: l => if P x then Some O else S <$> slot P l
  end.

(** The daemon's decision on the packet whose address it was given. *)
Definition br_igmp_process_admission (i : nat) (admitted : bool) : M unit :=
  l ← gets igmp_delayed_skb;
  match slot (fun x => bool_decide (x = Some i)) l with
  | None => mret tt
  | Some k =>
      (if admitted then br_flood_forward N i None else kfree_skb i);;
      modify (fun w => set_delayed (alter (fun x => (None, snd x)) k (igmp_delayed_skb w)) w)
  end.

(** A free slot for the packet; without one it is left where it is. *)
Definition place_pending (i : nat) : M unit :=
  l ← gets igmp_delayed_skb;
  j ← now_of;
  match slot (fun x => bool_decide (x = None)) l with
  | None => mret tt
  | Some k =>
      modify (set_delayed (<[k := (Some i, u32 (j + MCPD_NETLINK_SKB_TIMEOUT_MS))]> l));;
      br_igmp_set_timer
  end.

(** ** The daemon *)

Definition is_multicast_switching_mode_host_control : bool := snoop_primary_pid N =? mcpd_pid N.

(** [mcpd_process_skb]: a copy of the packet from its IP header on; 1 if the
    packet is to wait for the answer. *)
Definition mcpd_process_skb (i : nat) (proto : Z) : M Z :=
  if mcpd_pid N =? 0 then mret 0
  else
    s ← skb_at i;
    '(pData, type, admission) ← lift (
      if proto =? ETH_P_IPV6 then
        '(pip, picmp, _) ← br_mld_get_ip_icmp_hdrs s;
        Ok (match picmp with Some _ => pip | None => None end, MCPD_MSG_MLD_PKT,
            mcpdControlsMldAdmission N)
      else
        '(pip, pigmp, _) ← br_igmp_get_ip_igmp_hdrs s;
        Ok (match pigmp with Some _ => pip | None => None end, MCPD_MSG_IGMP_PKT,
            mcpdControlsIgmpAdmission N));
    match pData with
    | None => mret 0
    | Some pData =>
        port ← lift (br_port_get_rcu N (dev s));
        port ← lift (of_option NullDeref port);
        pt ← port_of port;
        if negb (mcpd_alloc N) then mret 0
        else
          let len := len s - (pData - data s) in
          if (len <? 0) || (zlen (mac s) <? pData + len) then fail OutOfBounds
          else
            emit_ev (ToMcpd type (port_no pt) (slice (mac s) pData len)
              (if admission : bool then Some i else None));;
            mret (if admission : bool then 1 else 0)
    end.

(** ** Forwarding to the members *)

Definition set_port_dirty (p : nat) : M unit := modify (fun w => set_dirty (<[p := true]> (dirty w)) w).
Definition clear_dirty : M unit := modify (fun w => set_dirty (map (fun _ => false) (dirty w)) w).

(** A clone for the port [p], unless it has had one; [false] if there is no
    memory for it. *)
Definition to_member (forward : bool) (i p : nat) : M bool :=
  w ← gets dirty;
  d ← lift (of_option NullDeref (w !! p));
  if negb d then
    c ← skb_clone N i;
    match c with
    | None => mret false
    | Some c =>
        s2 ← skb_at c;
        blog_clone N i (blog_p s2);;
        (if forward then br_forward N (Some p) c None else br_deliver N (Some p) c);;
        set_port_dirty p;; mret true
    end
  else set_port_dirty p;; mret true.

(** Whether a packet for a group from device [d] is for an entry. *)
Definition entry_applies (is_routed : bool) (d : nat) (type : Z) (from : nat) : res bool :=
  if is_routed then Ok (type =? MCPD_IF_TYPE_ROUTED)
  else if negb (type =? MCPD_IF_TYPE_BRIDGED) then Ok false
  else
    x ← dev_at N d;
    Ok (if wandev x then Nat.eqb from d else Nat.eqb from (br_dev N)).

(** The check of [excludePort] for the packet with its IPv4 header at [pip]. *)
Definition excluded (s : sk_buff) (pip : Z) (port : Z) : res bool :=
  if port =? -1 then Ok false
  else
    p ← rd (mac s) (pip + 9);
    if p =? IPPROTO_UDP then dest ← le16_at (mac s) (pip + 20 + 2); Ok (dest =? port) else Ok false.

(** The loop of [br_igmp_mc_forward]: [inl status] at its end, [inr status]
    if the function returns from inside. *)
Fixpoint igmp_loop (forward is_routed : bool) (i : nat) (pip : Z) (l : list mc_fdb_entry) (status : Z)
    : M (Z + Z) :=
  match l with
  | [] => mret (inl status)
  | e :: l =>
      s ← skb_at i;
      daddr ← lift (le32_at (mac s) (pip + 16));
      saddr ← lift (le32_at (mac s) (pip + 12));
      a ← (if txGrp e =? daddr then lift (entry_applies is_routed (dev s) (mc_type e) (from_dev e))
           else mret false);
      if negb a then igmp_loop forward is_routed i pip l status
      else if ((filt_mode e =? MCAST_INCLUDE) && (saddr =? mc_src e)) ||
              ((filt_mode e =? MCAST_EXCLUDE) && ((mc_src e =? 0) || negb (saddr =? mc_src e))) then
        x ← lift (excluded s pip (excludePort e));
        if x : bool then kfree_skb i;; mret (inr 1)
        else
          ok ← to_member forward i (mc_dst e);
          if negb ok then mret (inr 0) else igmp_loop forward is_routed i pip l 1
      else if (filt_mode e =? MCAST_EXCLUDE) && (saddr =? mc_src e) then
        igmp_loop forward is_routed i pip l 1
      else igmp_loop forward is_routed i pip l status
  end.

(** IGMP packets themselves. *)
Definition igmp_packet (i : nat) (pigmp : Z) : M Z :=
  s ← skb_at i;
  x ← lift (dev_at N (dev s));
  if wandev x then
    type ← lift (rd (mac s) pigmp);
    if negb (type =? IGMP_HOST_MEMBERSHIP_QUERY) then kfree_skb i;; mret 1 else mret 0
  else
    port ← lift (br_port_get_rcu N (dev s));
    match port with
    | None => mret 0
    | Some _ =>
        status ← mcpd_process_skb i ETH_P_IP;
        if status =? 1 then place_pending i;; mret status else mret status
    end.

(** Multicast data with its IPv4 header at [pip]. *)
Definition mc_data (i : nat) (forward is_routed : bool) (pip : Z) : M Z :=
  s ← skb_at i;
  daddr ← lift (le32_at (mac s) (pip + 16));
  if negb (br_igmp_control_filter (Some (h_dest s)) daddr) then mret 0
  else
    w ← gets id;
    r ← igmp_loop forward is_routed i pip (mc_chain w (br_igmp_mc_fdb_hash daddr))
      (if igmp_snooping N =? SNOOPING_BLOCKING_MODE then 1 else 0);
    match r with
    | inr status => mret status
    | inl status =>
        if nonzero status then clear_dirty;; kfree_skb i;; mret status else mret status
    end.

Definition br_igmp_mc_forward (i : nat) (forward is_routed : bool) : M Z :=
  s ← skb_at i;
  '(pipmcast, pigmp, _) ← lift (br_igmp_get_ip_igmp_hdrs s);
  match pipmcast with
  | None => mret 0
  | Some pip =>
      match pigmp with
      | Some g =>
          if nonzero (igmp_proxy N) || nonzero (igmp_snooping N) ||
             is_multicast_switching_mode_host_control
          then igmp_packet i g
          else mc_data i forward is_routed pip
      | None => mc_data i forward is_routed pip
      end
  end.

(** ** IPv6 *)

Definition addr6_at (b : list Z) (o : Z) : res (list Z) :=
  if (o <? 0) || (zlen b <? o + 16) then Fault OutOfBounds else Ok (slice b o 16).
Definition BCM_IN6_ARE_ADDR_EQUAL (a b : list Z) : bool := bool_decide (a = b).

(** The loop of [br_mld_mc_forward], as [igmp_loop]. *)
Fixpoint mld_loop (forward is_routed : bool) (i : nat) (pip : Z) (l : list mld_fdb_entry) (status : Z)
    : M (Z + Z) :=
  match l with
  | [] => mret (inl status)
  | e :: l =>
      s ← skb_at i;
      daddr ← lift (addr6_at (mac s) (pip + 24));
      saddr ← lift (addr6_at (mac s) (pip + 8));
      a ← (if BCM_IN6_ARE_ADDR_EQUAL (mld_grp e) daddr
           then lift (entry_applies is_routed (dev s) (mld_type e) (mld_from_dev e))
           else mret false);
      let same := BCM_IN6_ARE_ADDR_EQUAL saddr (mld_src e) in
      if negb a then mld_loop forward is_routed i pip l status
      else if ((mld_filt_mode e =? MCAST_INCLUDE) && same) ||
              ((mld_filt_mode e =? MCAST_EXCLUDE) && ((byte_of (mld_src e) 0 =? 0) || negb same)) then
        ok ← to_member forward i (mld_dst e);
        if negb ok then mret (inr 0) else mld_loop forward is_routed i pip l 1
      else if (mld_filt_mode e =? MCAST_EXCLUDE) && same then mld_loop forward is_routed i pip l 1
      else mld_loop forward is_routed i pip l status
  end.

(** MLD reports: to the daemon, unless they come from a WAN device. *)
Definition mld_report (i : nat) : M Z :=
  s ← skb_at i;
  port ← lift (br_port_get_rcu N (dev s));
  match port with
  | None => mret 0
  | Some _ =>
      if nonzero (mld_snooping N) || nonzero (mld_proxy N) || is_multicast_switching_mode_host_control then
        x ← lift (dev_at N (dev s));
        if wandev x then kfree_skb i;; mret 1
        else mcpd_process_skb i ETH_P_IPV6;; mret 0
      else mret 0
  end.

Definition mld_data (i : nat) (forward is_routed : bool) (pip : Z) : M Z :=
  s ← skb_at i;
  daddr ← lift (addr6_at (mac s) (pip + 24));
  w ← gets id;
  r ← mld_loop forward is_routed i pip (nth (br_mld_mc_fdb_hash daddr) (mld_mc_hash w) [])
    (if (mld_snooping N =? SNOOPING_BLOCKING_MODE) &&
        br_mld_control_filter (Some (h_dest s)) daddr then 1 else 0);
  match r with
  | inr status => mret status
  | inl status =>
      if nonzero status then clear_dirty;; kfree_skb i;; mret status else mret status
  end.

Definition br_mld_mc_forward (i : nat) (forward is_routed : bool) : M Z :=
  s ← skb_at i;
  '(pipv6mcast, picmpv6, _) ← lift (br_mld_get_ip_icmp_hdrs s);
  match pipv6mcast with
  | None => mret 0
  | Some pip =>
      match picmpv6 with
      | Some g =>
          type ← lift (rd (mac s) g);
          if (type =? ICMPV6_MGM_REPORT) || (type =? ICMPV6_MGM_REDUCTION) ||
             (type =? ICMPV6_MLD2_REPORT)
          then mld_report i
          else mld_data i forward is_routed pip
      | None => mld_data i forward is_routed pip
      end
  end.

(** ** The requests of the daemon *)

(** An entry that [br_mc_fdb_update] refreshes. *)
Definition same_entry (e : mc_fdb_entry) (prt : nat) (rxG txG : Z) (filt : Z) (src : Z) (from : nat) : bool :=
  (txGrp e =? txG) && (rxGrp e =? rxG) && (src =? mc_src e) && (filt =? filt_mode e) &&
  Nat.eqb (from_dev e) from && Nat.eqb (mc_dst e) prt.

Definition br_mc_fdb_update (prt : nat) (rxG txG r : Z) (mode src : Z) (from : nat) : M bool :=
  let filt := if mode =? SNOOP_IN_ADD then MCAST_INCLUDE else MCAST_EXCLUDE in
  t ← membership_end BR_IGMP_MEMBERSHIP_TIMEOUT;
  mc_update (rep_atomic N) br_igmp_set_timer (fun e => same_entry e prt rxG txG filt src from)
    (br_igmp_mc_fdb_hash txG) r t.

Definition br_igmp_mc_fdb_copy (e : mc_fdb_entry) : option mc_fdb_entry :=
  mc_copy (mc_atomic N) (rep_atomic N) e.

Definition br_igmp_mc_fdb_add (from : nat) (wan_ops : Z) (prt : nat)
    (rxG txG r mode tci src lanppp excludePort enRtp : Z) : M Z :=
  if negb (br_igmp_control_filter None rxG) || negb (br_igmp_control_filter None txG) then mret 0
  else
  leaf ← lift (netdev_path_is_leaf N from);
  if negb leaf then mret 0
  else if negb (mode =? SNOOP_IN_ADD) && negb (mode =? SNOOP_EX_ADD) then mret 0
  else if negb (mc_alloc N) then mret (- ENOMEM)
  else if negb (rep_alloc N) then mret (- ENOMEM)
  else
    mc_join (mc_atomic N) (rep_atomic N) (br_mcast_blog_process N) br_igmp_set_timer BR_IGMP_MEMBERSHIP_TIMEOUT
      (br_mc_fdb_update prt rxG txG r mode src from) (br_igmp_mc_fdb_hash txG)
      (fun t => mk_mc prt rxG txG [mk_rep r t] src
        (if mode =? SNOOP_IN_ADD then MCAST_INCLUDE else MCAST_EXCLUDE) tci (u8 wan_ops) true lanppp
        excludePort enRtp from).

Definition br_igmp_mc_fdb_remove (from : nat) (prt : nat)
    (rxG txG r mode src : Z) : M Z :=
  if negb (br_igmp_control_filter None txG) then mret 0
  else if negb (br_igmp_control_filter None rxG) then mret 0
  else
  leaf ← lift (netdev_path_is_leaf N from);
  if negb leaf then mret 0
  else if negb (mode =? SNOOP_IN_CLEAR) && negb (mode =? SNOOP_EX_CLEAR) then mret 0
  else
    let filt := if mode =? SNOOP_IN_CLEAR then MCAST_INCLUDE else MCAST_EXCLUDE in
    mc_walk_chain (fun e =>
      if same_entry e prt rxG txG filt src from then br_igmp_mc_fdb_del_entry e (Some r)
      else mret (Some e)) (br_igmp_mc_fdb_hash txG);;
    br_igmp_set_timer;; mret 0.

Definition br_igmp_wipe_reporter_for_port (r oldPort : Z) : M unit :=
  mc_walk_all (fun e =>
    pt ← port_of (mc_dst e);
    if (port_no pt =? oldPort) && match br_igmp_rep_find e r with None => false | Some _ => true end
    then br_igmp_mc_fdb_del_entry e (Some r) else mret (Some e));;
  br_igmp_set_timer.

Definition br_igmp_process_if_change (ndev : option nat) : M unit :=
  mc_walk_all (fun e =>
    if match ndev with
       | None => true
       | Some d => Nat.eqb (port_dev N (mc_dst e)) d || Nat.eqb (from_dev e) d
       end
    then br_igmp_mc_fdb_del_entry e None else mret (Some e));;
  br_igmp_set_timer.

Definition br_igmp_mc_fdb_cleanup : M unit :=
  mc_walk_all (fun e => br_igmp_mc_fdb_del_entry e None);; br_igmp_set_timer.

Definition br_igmp_mc_fdb_update_bydev (d : nat) (flushAll : Z) : M Z :=
  leaf ← lift (netdev_path_is_leaf N d);
  if negb leaf then mret 0
  else
    mc_update_bydev (mc_atomic N) (rep_atomic N) (br_mcast_blog_process N) br_igmp_mc_fdb_del_entry
      br_igmp_set_timer (fun e => Nat.eqb (port_dev N (mc_dst e)) d || Nat.eqb (from_dev e) d) flushAll.
End Net.
