(* ===== verification/BrMld.v ===== *)
(** Multicast snooping for IPv6: the table of groups of net/bridge/br_mld.c and
    the notifications of wireless drivers in br_mcast.c.

    The loops are those of Groups; what is different is an entry, the guards of
    the requests, the timer, which waits for members only, and that a driver is
    told when the last member of a group behind it has left. *)

From S2P Require Import Prelude Str Stp Fdb Bridge BrForward Groups BrIgmp.

Definition BR_MLD_HASH_SIZE : Z := BR_HASH_SIZE.
Definition BR_MLD_MEMBERSHIP_TIMEOUT : Z := 260.

Definition BCM_IN6_IS_ADDR_L2_MCAST (a : list Z) : bool :=
  negb (nonzero (word_of a 0) || nonzero (word_of a 4) || nonzero (word_of a 8)).

Definition set_mld_rep_list (v : list (mc_rep_entry (list Z))) (e : mld_fdb_entry) : mld_fdb_entry :=
  mk_mld (mld_dst e) (mld_grp e) v (mld_src e) (mld_filt_mode e) (mld_lan_tci e) (mld_type e) (mld_root e)
    (mld_lanppp e) (mld_from_dev e).

#[export] Instance mld_address : Address (list Z) := BCM_IN6_ARE_ADDR_EQUAL.

#[export] Instance mld_table : GroupTable mld_fdb_entry (list Z) (list Z * list Z * Z * nat * nat) := {
  mc_table := mld_mc_hash;
  set_mc_table := set_mld_mc_hash;
  mc_reps := mld_rep_list;
  set_mc_reps := set_mld_rep_list;
  mc_key e := (mld_grp e, mld_src e, mld_filt_mode e, mld_from_dev e, mld_dst e);
  mc_root := mld_root;
  mc_unroot e := mk_mld (mld_dst e) (mld_grp e) (mld_rep_list e) (mld_src e) (mld_filt_mode e) (mld_lan_tci e)
    (mld_type e) false (mld_lanppp e) (mld_from_dev e)
}.

(** The port with the number [no]. *)
Definition port_index (s : stp) (no : Z) : option nat :=
  List.find (fun p => match ports (br s) !! p with Some pt => port_no pt =? no | None => false end) (port_list s).

Section Net.
Context (N : net).

(** ** Wireless drivers *)

(** The number of the port is passed as a [char]. *)
Definition br_get_device_by_index (no : Z) : M (option nat) :=
  s ← gets (fun w => stp_of (tbl w));
  mret (port_dev N <$> port_index s (u8 no)).

(** [entry] is what the drivers are told. *)
Definition mcast_snooping_call_chain (no : Z) (entry : ev) : M unit :=
  device ← br_get_device_by_index no;
  device ← lift (of_option NullDeref device);
  x ← lift (dev_at N device);
  if if_wl x then emit_ev entry else mret tt.

Definition br_mld_wl_del_entry (e : mld_fdb_entry) : M unit :=
  x ← lift (dev_at N (port_dev N (mld_dst e)));
  if if_wl x then
    pt ← port_of (mld_dst e);
    mcast_snooping_call_chain (port_no pt) (FlushEntry (port_no pt) (mld_grp e))
  else mret tt.

(** ** The timer *)

Definition br_mld_set_timer : M unit :=
  if mld_snooping N =? 0 then modify (set_mld_timer None)
  else
    j ← now_of;
    w ← gets id;
    let '(t, found) :=
      earliest_reporter (concat (mld_mc_hash w)) (u32 (j + BR_MLD_MEMBERSHIP_TIMEOUT * HZ * 2), false) in
    if negb found then modify (set_mld_timer None)
    else modify (set_mld_timer (Some (u32 (t + TIMER_CHECK_TIMEOUT)))).

(** ** Membership *)

(** The entry without the reporter, if any reporter is left; without, the
    driver of its port is told. *)
Definition br_mld_mc_fdb_del_entry (e : mld_fdb_entry) (r : option (list Z)) : M (option mld_fdb_entry) :=
  let l := snd (del_reps (mld_rep_list e) r) in
  match l with
  | [] => br_mld_wl_del_entry e;; mret None
  | _ => mret (Some (set_mld_rep_list l e))
  end.

Definition br_mld_rep_find (e : mld_fdb_entry) (r : list Z) : option (mc_rep_entry (list Z)) := rep_find e r.

Definition br_mld_query_timeout : M unit :=
  mc_walk_all (fun e => timeout_reps br_mld_mc_fdb_del_entry (mld_rep_list e) (Some e));;
  br_mld_set_timer.

Definition br_mld_wipe_reporter_for_port (r : list Z) (oldPort : Z) : M unit :=
  mc_walk_all (fun e =>
    match br_mld_rep_find e r with
    | None => mret (Some e)
    | Some _ =>
        pt ← port_of (mld_dst e);
        if port_no pt =? oldPort then br_mld_mc_fdb_del_entry e (Some r) else mret (Some e)
    end);;
  br_mld_set_timer.

(** ** The requests of the daemon *)

(** An entry that [br_mld_mc_fdb_update] refreshes. *)
Definition same_mld (e : mld_fdb_entry) (prt : nat) (grp : list Z) (filt : Z) (src : list Z) (from : nat) : bool :=
  BCM_IN6_ARE_ADDR_EQUAL (mld_grp e) grp && BCM_IN6_ARE_ADDR_EQUAL src (mld_src e) &&
  (filt =? mld_filt_mode e) && Nat.eqb (mld_from_dev e) from && Nat.eqb (mld_dst e) prt.

Definition br_mld_mc_fdb_update (prt : nat) (grp r : list Z) (mode : Z) (src : list Z) (from : nat) : M bool :=
  let filt := if mode =? SNOOP_IN_ADD then MCAST_INCLUDE else MCAST_EXCLUDE in
  t ← membership_end BR_MLD_MEMBERSHIP_TIMEOUT;
  mc_update (rep_atomic N) br_mld_set_timer (fun e => same_mld e prt grp filt src from)
    (br_mld_mc_fdb_hash N grp) r t.

Definition br_mld_process_if_change (ndev : option nat) : M unit :=
  mc_walk_all (fun e =>
    if match ndev with
       | None => true
       | Some d => Nat.eqb (port_dev N (mld_dst e)) d || Nat.eqb (mld_from_dev e) d
       end
    then br_mld_mc_fdb_del_entry e None else mret (Some e));;
  br_mld_set_timer.

Definition br_mld_mc_fdb_copy (e : mld_fdb_entry) : option mld_fdb_entry :=
  mc_copy (mc_atomic N) (rep_atomic N) e.

Definition br_mld_mc_fdb_add (from : nat) (wan_ops : Z) (prt : nat) (grp r : list Z) (mode tci : Z)
    (src : list Z) (lanppp : Z) : M Z :=
  if negb (br_mld_control_filter None grp || BCM_IN6_IS_ADDR_L2_MCAST grp) then mret 0
  else
  leaf ← lift (netdev_path_is_leaf N from);
  if negb leaf then mret 0
  else if negb (mode =? SNOOP_IN_ADD) && negb (mode =? SNOOP_EX_ADD) then mret 0
  else if negb (mc_alloc N) then mret (- ENOMEM)
  else if negb (rep_alloc N) then mret (- ENOMEM)
  else
    mc_join (mc_atomic N) (rep_atomic N) (br_mcast_blog_process_mld N) br_mld_set_timer BR_MLD_MEMBERSHIP_TIMEOUT
      (br_mld_mc_fdb_update prt grp r mode src from) (br_mld_mc_fdb_hash N grp)
      (fun t => mk_mld prt grp [mk_rep r t] src
        (if mode =? SNOOP_IN_ADD then MCAST_INCLUDE else MCAST_EXCLUDE) tci (u8 wan_ops) true lanppp from).

Definition br_mld_mc_fdb_cleanup : M unit :=
  mc_walk_all (fun e => br_mld_mc_fdb_del_entry e None);; br_mld_set_timer.

Definition br_mld_mc_fdb_remove_grp (prt : nat) (grp : list Z) : M unit :=
  mc_walk_chain (fun e =>
    if BCM_IN6_ARE_ADDR_EQUAL (mld_grp e) grp && Nat.eqb (mld_dst e) prt
    then br_mld_mc_fdb_del_entry e None else mret (Some e)) (br_mld_mc_fdb_hash N grp);;
  br_mld_set_timer.

Definition br_mld_mc_fdb_remove (from prt : nat) (grp r : list Z) (mode : Z) (src : list Z) : M Z :=
  if negb (br_mld_control_filter None grp || BCM_IN6_IS_ADDR_L2_MCAST grp) then mret 0
  else
  leaf ← lift (netdev_path_is_leaf N from);
  if negb leaf then mret 0
  else if negb (mode =? SNOOP_IN_CLEAR) && negb (mode =? SNOOP_EX_CLEAR) then mret 0
  else
    let filt := if mode =? SNOOP_IN_CLEAR then MCAST_INCLUDE else MCAST_EXCLUDE in
    mc_walk_chain (fun e =>
      if same_mld e prt grp filt src from then br_mld_mc_fdb_del_entry e (Some r)
      else mret (Some e)) (br_mld_mc_fdb_hash N grp);;
    br_mld_set_timer;; mret 0.

Definition br_mld_mc_fdb_update_bydev (d : nat) (flushAll : Z) : M Z :=
  leaf ← lift (netdev_path_is_leaf N d);
  if negb leaf then mret 0
  else
    mc_update_bydev (mc_atomic N) (rep_atomic N) (br_mcast_blog_process_mld N) br_mld_mc_fdb_del_entry
      br_mld_set_timer (fun e => Nat.eqb (port_dev N (mld_dst e)) d || Nat.eqb (mld_from_dev e) d) flushAll.
End Net.
