(* ===== verification/BrMcast.v ===== *)
(** The parts of multicast snooping that serve both protocols:
    net/bridge/br_mcast.c, the reaction to changes of devices. *)

From S2P Require Import Prelude Str Stp Fdb Bridge BrForward Groups BrIgmp BrMld.

Definition NETDEV_DOWN : Z := 2.
Definition NETDEV_CHANGE : Z := 4.
Definition NETDEV_GOING_DOWN : Z := 9.

Inductive t_BR_MCAST_PROTO_TYPE : Type := BR_MCAST_PROTO_IGMP | BR_MCAST_PROTO_MLD.

Section Net.
Context (N : net).

Definition br_mcast_mc_fdb_update_bydev (proto : t_BR_MCAST_PROTO_TYPE) (d : nat) (flushAll : Z) : M unit :=
  match proto with
  | BR_MCAST_PROTO_IGMP =>
      br_igmp_mc_fdb_update_bydev N d flushAll;;
      br_igmp_process_device_removal N d
  | BR_MCAST_PROTO_MLD => br_mld_mc_fdb_update_bydev N d flushAll;; mret tt
  end.

(** The loop over the devices finds one bridge. *)
Definition br_mcast_handle_netdevice_events (d : nat) (event : Z) : M unit :=
  if (event =? NETDEV_DOWN) || (event =? NETDEV_GOING_DOWN) || (event =? NETDEV_CHANGE) then
    br_mcast_mc_fdb_update_bydev BR_MCAST_PROTO_IGMP d 1;;
    br_mcast_mc_fdb_update_bydev BR_MCAST_PROTO_MLD d 1
  else mret tt.
End Net.
