(* ===== verification/BrIgmpProps.v ===== *)
(** Theorems about multicast snooping: what happens to a packet on its way
    through [br_igmp_mc_forward] and [br_mld_mc_forward]. *)

From S2P Require Import Prelude Str Stp Fdb Bridge BrWp BrForward BrForwardProps BrIgmp.

(** ** What snooping changes *)

(** From [w] to [w'] the heap has become [h] and the table of waiting packets
    [d]; the events satisfy [P]; besides, only buffer numbers, statistics,
    dirty marks and the timer have changed. *)
Definition snooped (P : ev -> Prop) (h : gmap nat sk_buff) (d : list (option nat * Z)) (w w' : world)
    : Prop :=
  exists l n st dr tm, Forall P l /\ (next_skb w <= n)%nat /\ length dr = length (dirty w) /\
    w' = set_igmp_timer tm (set_delayed d (set_dirty dr
      (set_stats st (set_next_skb n (set_heap h (set_trace (trace w ++ l) w)))))).

Lemma snooped_moved (P Q : ev -> Prop) h w w' : (forall e, P e -> Q e) -> moved P h w w' ->
  snooped Q h (igmp_delayed_skb w) w w'.
Proof.
  intros HPQ (l & n & st & Hl & Hn & ->). exists l, n, st, (dirty w), (igmp_timer w).
  split; [by eapply Forall_impl|]. split; [done|]. split; [done|]. by destruct w.
Qed.

Lemma snooped_trans P h1 h2 d1 d2 w w1 w2 : snooped P h1 d1 w w1 -> snooped P h2 d2 w1 w2 ->
  snooped P h2 d2 w w2.
Proof.
  intros (l1 & n1 & st1 & dr1 & tm1 & Hl1 & Hn1 & Hd1 & ->) (l2 & n2 & st2 & dr2 & tm2 & Hl2 & Hn2 & Hd2 & ->).
  cbn in *. exists (l1 ++ l2), n2, st2, dr2, tm2. split; [by apply Forall_app|]. split; [lia|].
  split; [lia|]. by rewrite app_assoc.
Qed.

Lemma snooped_refl P w : snooped P (heap w) (igmp_delayed_skb w) w w.
Proof. apply (snooped_moved P); [done|]. apply moved_refl. Qed.

Lemma snooped_same P h d w w' : snooped P h d w w' -> tbl w' = tbl w /\ heap w' = h /\
  igmp_delayed_skb w' = d /\ mc_hash w' = mc_hash w /\ mld_mc_hash w' = mld_mc_hash w /\
  length (dirty w') = length (dirty w) /\ (next_skb w <= next_skb w')%nat.
Proof. by intros (l & n & st & dr & tm & _ & Hn & Hd & ->). Qed.

Lemma heap_ok_snooped P h d w w' : snooped P h d w w' -> heap_ok w ->
  (forall j, heap w !! j = None -> h !! j = None) -> heap_ok w'.
Proof.
  intros Hs Hw Hh j Hj. destruct (snooped_same _ _ _ _ _ Hs) as (_ & -> & _ & _ & _ & _ & Hn).
  apply Hh, Hw. lia.
Qed.

(** ** Frames whose headers can be read *)

(** The IPv4, IGMP, IPv6 and ICMPv6 headers the code looks at lie within the
    frame, and the frame is linear. *)
Record frame_ok (s : sk_buff) : Prop := mk_frame_ok {
  fo_igmp : exists pip pigmp lp, br_igmp_get_ip_igmp_hdrs s = Ok (pip, pigmp, lp) /\
    (forall x, pip = Some x -> 0 <= x /\ x + 24 <= zlen (mac s)) /\
    (forall g, pigmp = Some g -> 0 <= g < zlen (mac s));
  fo_mld : exists pip picmp lp, br_mld_get_ip_icmp_hdrs s = Ok (pip, picmp, lp) /\
    (forall x, pip = Some x -> 0 <= x /\ x + 40 <= zlen (mac s)) /\
    (forall g, picmp = Some g -> 0 <= g < zlen (mac s));
  fo_linear : zlen (mac s) = data s + len s
}.

Lemma frame_igmp_fits s : frame_ok s -> igmp_fits s.
Proof. intros [(pip & g & lp & E & _ & Hg) _ _]. by exists pip, g, lp. Qed.

Lemma rd_in buf o : 0 <= o < zlen buf -> exists x, rd buf o = Ok x.
Proof. intros (x & H & _)%rd_Ok. by exists x. Qed.

(** [reads] discharges a sequence of reads that are in bounds. *)
Ltac reads :=
  repeat match goal with
  | |- context [rd ?b ?o] =>
      let x := fresh "x" in destruct (rd_in b o) as (x & ->); [lia|]; cbn [mbind res_bind]
  end.

Lemma be16_in buf o : 0 <= o -> o + 2 <= zlen buf -> exists x, be16_at buf o = Ok x.
Proof. intros. unfold be16_at. reads. by eexists. Qed.
Lemma le16_in buf o : 0 <= o -> o + 2 <= zlen buf -> exists x, le16_at buf o = Ok x.
Proof. intros. unfold le16_at. reads. by eexists. Qed.
Lemma le32_in buf o : 0 <= o -> o + 4 <= zlen buf -> exists x, le32_at buf o = Ok x.
Proof. intros. unfold le32_at. reads. by eexists. Qed.
Lemma addr6_in buf o : 0 <= o -> o + 16 <= zlen buf -> exists x, addr6_at buf o = Ok x.
Proof.
  intros. unfold addr6_at. destruct (Z.ltb_spec o 0), (Z.ltb_spec (zlen buf) (o + 16)); try lia. by eexists.
Qed.

(** [loads] does the same for 16-bit loads and the comparisons between them. *)
Ltac loads :=
  repeat match goal with
  | |- context [be16_at ?b ?o] =>
      let x := fresh "x" in destruct (be16_in b o) as (x & ->); [unfold VLAN_HLEN; lia..|]; cbn [mbind res_bind]
  | |- context [le16_at ?b ?o] =>
      let x := fresh "x" in destruct (le16_in b o) as (x & ->); [unfold VLAN_HLEN; lia..|]; cbn [mbind res_bind]
  | |- context [if ?p =? ?q then _ else _] => destruct (p =? q)
  end.

Lemma ip_header_in s : network_header s = 14 -> 34 <= zlen (mac s) ->
  exists o b, ip_header s = Ok (o, b) /\ forall x, o = Some x -> 14 <= x <= 26.
Proof.
  intros Hn Hl. unfold ip_header. rewrite Hn. loads; eexists _, _; (split; [done|]); intros y Hy; try done;
    injection Hy as <-; unfold PPPOE_SES_HLEN, VLAN_HLEN; lia.
Qed.

Lemma ipv6_header_in s : network_header s = 14 -> 34 <= zlen (mac s) ->
  exists o b, ipv6_header s = Ok (o, b) /\ forall x, o = Some x -> 14 <= x <= 26.
Proof.
  intros Hn Hl. unfold ipv6_header. rewrite Hn. loads; eexists _, _; (split; [done|]); intros y Hy; try done;
    injection Hy as <-; unfold PPPOE_SES_HLEN, VLAN_HLEN; lia.
Qed.

Lemma ihl_range v : 0 <= Z.shiftl (Z.land v 0xf) 2 <= 60.
Proof.
  rewrite Z.shiftl_mul_pow2 by lia. change 0xf with (Z.ones 4). rewrite Z.land_ones by lia.
  pose proof (Z.mod_pos_bound v (2 ^ 4)). lia.
Qed.

Lemma igmp_header_in s x : 0 <= x -> x + 10 <= zlen (mac s) -> x + 61 <= zlen (mac s) ->
  exists g, igmp_header s x = Ok g /\ forall y, g = Some y -> 0 <= y < zlen (mac s).
Proof.
  intros. unfold igmp_header. reads. destruct (_ =? _); [|by eexists]. reads. eexists. split; [done|].
  intros y [= <-]. match goal with |- context [Z.land ?v 0xf] => pose proof (ihl_range v) end. lia.
Qed.

Lemma icmp6_header_in s x : 0 <= x -> x + 49 <= zlen (mac s) ->
  exists g, icmp6_header s x = Ok g /\ forall y, g = Some y -> 0 <= y < zlen (mac s).
Proof.
  intros. unfold icmp6_header. reads. destruct (_ =? _); [|by eexists]. reads. eexists. split; [done|].
  destruct (_ =? _); [|done]. intros y [= <-]. lia.
Qed.

(** Every linear frame of 87 bytes or more qualifies. *)
Lemma frame_ok_long s : network_header s = 14 -> 87 <= zlen (mac s) -> zlen (mac s) = data s + len s ->
  frame_ok s.
Proof.
  intros Hn Hl Hd. split; [| |done].
  - destruct (ip_header_in s Hn) as (o & b & E & Ho); [lia|]. unfold br_igmp_get_ip_igmp_hdrs. rewrite E.
    cbn [mbind res_bind]. destruct o as [x|]; [|by eexists _, _, _]. specialize (Ho x eq_refl).
    destruct (igmp_header_in s x) as (g & -> & Hg); [lia..|]. cbn [mbind res_bind].
    destruct b; reads; (match goal with |- context [if ?c then _ else _] => destruct c end; [|by eexists _, _, _]); eexists _, _, _;
      (split; [done|]); (split; [|done]); intros y [= <-]; lia.
  - destruct (ipv6_header_in s Hn) as (o & b & E & Ho); [lia|]. unfold br_mld_get_ip_icmp_hdrs. rewrite E.
    cbn [mbind res_bind]. destruct o as [x|]; [|by eexists _, _, _]. specialize (Ho x eq_refl).
    destruct (icmp6_header_in s x) as (g & -> & Hg); [lia..|]. cbn [mbind res_bind].
    destruct b; reads; (match goal with |- context [if ?c then _ else _] => destruct c end; [|by eexists _, _, _]); eexists _, _, _;
      (split; [done|]); (split; [|done]); intros y [= <-]; lia.
Qed.

(** ** Packets on their way through snooping *)

Section Snoop.
Context (N : net) (nports : nat) (HN : net_ok N nports).

(** What snooping lets out of a frame [s]: copies to the members, and
    messages to the daemon. *)
Definition snoop_ev (t : fdb) (s : sk_buff) (e : ev) : Prop :=
  match e with ToMcpd _ _ _ _ => True | _ => sent_ok N nports t s e end.

Lemma snoop_sent t s e : sent_ok N nports t s e -> snoop_ev t s e.
Proof. by destruct e. Qed.

(** Where the buffer [i] is when a function returns [r]: with the caller, gone,
    waiting for the daemon, or, as no slot was free, nowhere. *)
Inductive fate (i : nat) (s : sk_buff) (w w' : world) (r : Z) : Prop :=
  | Kept b : r = 0 ->
      snooped (snoop_ev (tbl w) s) (<[i := set_blog b s]> (heap w)) (igmp_delayed_skb w) w w' ->
      fate i s w w' r
  | Gone : r <> 0 ->
      snooped (snoop_ev (tbl w) s) (delete i (heap w)) (igmp_delayed_skb w) w w' -> fate i s w w' r
  | Waits k t t' : r <> 0 -> igmp_delayed_skb w !! k = Some (None, t) ->
      snooped (snoop_ev (tbl w) s) (heap w) (<[k := (Some i, t')]> (igmp_delayed_skb w)) w w' ->
      fate i s w w' r
  | Lost : r <> 0 -> mcpdControlsIgmpAdmission N = true ->
      Forall (fun x => fst x <> None) (igmp_delayed_skb w) ->
      snooped (snoop_ev (tbl w) s) (heap w) (igmp_delayed_skb w) w w' -> fate i s w w' r.

Lemma set_users_id s : users s = 1 -> set_users 1 s = s.
Proof. intros <-. by destruct s. Qed.

(** A port that has not had the packet gets a copy. *)
Lemma to_member_spec forward i p s w : (p < nports)%nat -> nports_of w = nports ->
  length (dirty w) = nports -> heap w !! i = Some s -> users s = 1 -> heap_ok w -> room s ->
  brdev s <> None -> (dev s < length (devs N))%nat -> igmp_fits s ->
  wp (to_member N forward i p) (fun _ w' => heap_ok w' /\ exists b,
    snooped (snoop_ev (tbl w) s) (<[i := set_blog b s]> (heap w)) (igmp_delayed_skb w) w w') w.
Proof.
  intros Hp Hn Hlen E Hu Hw Hr Hb Hd Hf. pose proof (clone_ne _ _ _ E Hw) as Hne.
  unfold to_member. apply wp_bind, wp_gets, wp_bind. rewrite <- Hlen in Hp.
  destruct (lookup_lt_is_Some_2 _ _ Hp) as [d Ed]. rewrite Hlen in Hp. eapply wp_lift; [by rewrite Ed|].
  assert (Hset : forall w1 b, snooped (snoop_ev (tbl w) s) (<[i := set_blog b s]> (heap w)) (igmp_delayed_skb w) w w1 ->
    wp (set_port_dirty p;; mret true) (fun _ w' => heap_ok w' /\ exists b,
      snooped (snoop_ev (tbl w) s) (<[i := set_blog b s]> (heap w)) (igmp_delayed_skb w) w w') w1).
  { intros w1 b Hs. apply wp_bind, wp_modify, wp_ret.
    assert (Hs' : snooped (snoop_ev (tbl w) s) (<[i := set_blog b s]> (heap w)) (igmp_delayed_skb w) w
      (set_dirty (<[p:=true]> (dirty w1)) w1)).
    { destruct Hs as (l & n & st & dr & tm & Hl & Hn1 & Hd1 & ->).
      exists l, n, st, (<[p:=true]> dr), tm. cbn. rewrite length_insert. done. }
    split; [|by exists b]. eapply heap_ok_snooped; [done..|]. intros j Hj.
    rewrite lookup_insert_ne; [done|]. intros ->. congruence. }
  destruct d; cbn [negb].
  { apply (Hset w (blog_p s)). rewrite set_blog_id, insert_id by done. apply snooped_refl. }
  apply wp_bind. eapply wp_skb_clone; [done..| |].
  { apply wp_ret. split; [intros j Hj; cbn in *; apply Hw; lia|]. exists (blog_p s).
    rewrite set_blog_id, insert_id by done. eexists [], (S (next_skb w)), (stats w), (dirty w), (igmp_timer w).
    split; [by constructor|]. split; [lia|]. split; [done|]. cbn. rewrite app_nil_r. by destruct w. }
  rewrite set_users_id by done. set (c := next_skb w) in *.
  set (w1 := set_heap (<[c:=s]> (<[i:=set_blog None s]> (heap w))) (set_next_skb (S c) w)).
  assert (Hw1 : heap_ok w1).
  { intros j Hj. cbn in *. rewrite !lookup_insert_ne; [apply Hw; unfold c in *; lia| |unfold c in *; lia].
    intros ->. rewrite Hw in E; [done|unfold c in *; lia]. }
  assert (Ec : heap w1 !! c = Some s) by apply lookup_insert_eq.
  assert (Ei : heap w1 !! i = Some (set_blog None s)) by (cbn; rewrite lookup_insert_ne by done; apply lookup_insert_eq).
  apply wp_bind. eapply wp_skb_at; [exact Ec|]. apply wp_bind.
  eapply wp_mono; [by apply (blog_clone_spec N i (set_blog None s))|cbv beta]. intros _ w2 Hk.
  destruct (keeps_off _ _ _ _ _ Hk) as (b & E2 & Hh2 & Ht2 & Hw2 & (l & n & st & Hl & Hn2 & Hw2')).
  destruct l as [|e l]; [|by apply Forall_cons in Hl as [? _]].
  assert (Ec2 : heap w2 !! c = Some s) by (rewrite Hh2, lookup_insert_ne by done; exact Ec).
  assert (Hdec : decides N nports (tbl w2) s) by (rewrite Ht2; by apply (decides_ok N nports HN w s)).
  assert (Hfwd : wp (if forward then br_forward N (Some p) c None else br_deliver N (Some p) c)
    (fun _ w' => spent N nports c s w2 w') w2).
  { destruct forward.
    - by apply (br_forward_spec N nports HN p c s None).
    - apply (br_deliver_spec N nports HN (Some p) c s); try done. by intros q [= <-]. }
  apply wp_bind. eapply wp_mono; [exact Hfwd|cbv beta]. intros _ w3 [Hw3 Hm3]. apply (Hset w3 b).
  assert (Hheap : delete c (heap w2) = <[i:=set_blog b s]> (heap w)).
  { rewrite Hh2. cbn [heap w1 set_heap]. rewrite set_blog_twice, insert_insert_ne, insert_insert_eq by done.
    apply delete_insert_id. rewrite lookup_insert_ne by done. apply Hw. done. }
  rewrite Hheap in Hm3. destruct Hm3 as (l3 & n3 & st3 & Hl3 & Hn3 & ->). rewrite Ht2 in Hl3. subst w2.
  exists l3, n3, st3, (dirty w), (igmp_timer w). cbn in *. split; [eapply Forall_impl; [done|]; apply snoop_sent|].
  split; [lia|]. split; [done|]. rewrite app_nil_r. by destruct w.
Qed.

(** The invariants of a frame and the bridge while a frame is snooped. *)
Record snooping (i : nat) (s : sk_buff) (w : world) : Prop := mk_snooping {
  sn_nports : nports_of w = nports;
  sn_dirty : length (dirty w) = nports;
  sn_at : heap w !! i = Some s;
  sn_users : users s = 1;
  sn_heap : heap_ok w;
  sn_room : room s;
  sn_brdev : brdev s <> None;
  sn_dev : (dev s < length (devs N))%nat;
  sn_frame : frame_ok s
}.

(** The buffer still there, but for its flow record; the buffer gone. *)
Definition kept (i : nat) (s : sk_buff) (w w' : world) : Prop := exists b,
  snooped (snoop_ev (tbl w) s) (<[i := set_blog b s]> (heap w)) (igmp_delayed_skb w) w w'.
Definition gone (i : nat) (s : sk_buff) (w w' : world) : Prop :=
  snooped (snoop_ev (tbl w) s) (delete i (heap w)) (igmp_delayed_skb w) w w'.

Lemma kept_refl i s w : heap w !! i = Some s -> kept i s w w.
Proof. intros E. exists (blog_p s). rewrite set_blog_id, insert_id by done. apply snooped_refl. Qed.

Lemma snooping_kept i s b w w' : snooping i s w ->
  snooped (snoop_ev (tbl w) s) (<[i := set_blog b s]> (heap w)) (igmp_delayed_skb w) w w' ->
  snooping i (set_blog b s) w'.
Proof.
  intros [? ? E ? Hw ? ? ? [F1 F2 F3]] Hs. pose proof (snooped_same _ _ _ _ _ Hs) as (Ht & Hh & _ & _ & _ & Hd & _).
  split; try done; [by unfold nports_of in *; rewrite Ht|congruence|rewrite Hh; apply lookup_insert_eq|].
  eapply heap_ok_snooped; [done..|]. intros j Hj. rewrite lookup_insert_ne; [done|]. intros ->. congruence.
Qed.

Lemma kept_then i s b w w1 w2 :
  snooped (snoop_ev (tbl w) s) (<[i := set_blog b s]> (heap w)) (igmp_delayed_skb w) w w1 ->
  kept i (set_blog b s) w1 w2 -> kept i s w w2.
Proof.
  intros Hs (b' & Hs2). destruct (snooped_same _ _ _ _ _ Hs) as (Ht & Hh & Hd & _).
  rewrite Ht, Hh, Hd, set_blog_twice, insert_insert_eq in Hs2. exists b'. by eapply snooped_trans.
Qed.

Lemma gone_then i s b w w1 w2 :
  snooped (snoop_ev (tbl w) s) (<[i := set_blog b s]> (heap w)) (igmp_delayed_skb w) w w1 ->
  gone i (set_blog b s) w1 w2 -> gone i s w w2.
Proof.
  intros Hs Hs2. destruct (snooped_same _ _ _ _ _ Hs) as (Ht & Hh & Hd & _). unfold gone in Hs2.
  rewrite Ht, Hh, Hd, delete_insert_eq in Hs2. by eapply snooped_trans.
Qed.

Lemma gone_given i s e w : off e -> gone i s w (given i e w).
Proof.
  intros He. eapply snooped_moved; [|by apply (moved_given (sent_ok N nports (tbl w) s)), sent_off].
  apply snoop_sent.
Qed.

(** What a loop over the members leaves behind. *)
Definition loop_post (i : nat) (s : sk_buff) (w : world) (r : Z + Z) (w' : world) : Prop :=
  match r with
  | inl _ | inr 0 => kept i s w w'
  | inr _ => gone i s w w'
  end.

Lemma loop_then i s b w w1 w2 r :
  snooped (snoop_ev (tbl w) s) (<[i := set_blog b s]> (heap w)) (igmp_delayed_skb w) w w1 ->
  loop_post i (set_blog b s) w1 r w2 -> loop_post i s w r w2.
Proof.
  intros Hs. destruct r as [st|[|p|p]]; cbn; (apply (kept_then _ _ b) || apply (gone_then _ _ b)); done.
Qed.

Lemma entry_applies_ok routed d type from : (d < length (devs N))%nat ->
  exists r, entry_applies N routed d type from = Ok r.
Proof.
  intros Hd. unfold entry_applies. destruct routed; [by eexists|]. destruct (negb _); [by eexists|].
  destruct (dev_at_ok N d Hd) as (x & -> & _). by eexists.
Qed.

Lemma excluded_ok s x port : 0 <= x -> x + 24 <= zlen (mac s) -> exists r, excluded s x port = Ok r.
Proof.
  intros. unfold excluded. destruct (_ =? _); [by eexists|]. reads. destruct (_ =? _); [|by eexists]. loads. by eexists.
Qed.

(** A copy to the member, and on with the loop. *)
Lemma member_then forward i p s w (k : M (Z + Z)) : (p < nports)%nat -> snooping i s w ->
  (forall b w1, snooping i (set_blog b s) w1 -> mc_hash w1 = mc_hash w ->
    wp k (loop_post i (set_blog b s) w1) w1) ->
  wp (ok ← to_member N forward i p; if negb ok then mret (inr 0) else k) (loop_post i s w) w.
Proof.
  intros Hp Hsn Hk. destruct Hsn as [? ? ? ? ? ? ? ? Hf] eqn:?. apply wp_bind.
  eapply wp_mono; [by apply to_member_spec; try done; apply frame_igmp_fits|cbv beta].
  intros ok w1 (_ & b & Hs). pose proof (snooping_kept _ _ _ _ _ Hsn Hs) as Hsn1.
  destruct ok; cbn [negb].
  - eapply wp_mono; [apply (Hk b w1 Hsn1); by apply (snooped_same _ _ _ _ _ Hs)|]. intros r w2. by apply loop_then.
  - apply wp_ret. by exists b.
Qed.

Lemma igmp_loop_spec forward routed i x l status s w : snooping i s w ->
  0 <= x -> x + 24 <= zlen (mac s) -> Forall (fun e => (mc_dst e < nports)%nat) l ->
  wp (igmp_loop N forward routed i x l status) (loop_post i s w) w.
Proof.
  revert s w status. induction l as [|e l IH]; intros s w status Hsn Hx Hx' Hl; cbn [igmp_loop].
  { apply wp_ret, kept_refl. by apply Hsn. }
  apply Forall_cons in Hl as [He Hl]. destruct Hsn as [? ? Hat Hus ? ? ? Hdev Hf] eqn:?.
  apply wp_bind. eapply wp_skb_at; [exact Hat|].
  destruct (le32_in (mac s) (x + 16)) as (da & Eda); [lia..|]. destruct (le32_in (mac s) (x + 12)) as (sa & Esa); [lia..|].
  apply wp_bind. eapply wp_lift; [exact Eda|]. apply wp_bind. eapply wp_lift; [exact Esa|]. apply wp_bind.
  assert (Happ : forall Q, (forall a, Q a w) -> wp (if txGrp e =? da
      then lift (entry_applies N routed (dev s) (mc_type e) (from_dev e)) else mret false) Q w).
  { intros Q HQ. destruct (_ =? _); [|by apply wp_ret].
    destruct (entry_applies_ok routed (dev s) (mc_type e) (from_dev e) Hdev) as (a & Ea). by eapply wp_lift. }
  apply Happ. intros a. destruct a; cbn [negb]; [|by apply IH]. destruct (_ || _).
  - apply wp_bind. destruct (excluded_ok s x (excludePort e) Hx Hx') as (ex & Eex). eapply wp_lift; [exact Eex|].
    destruct ex.
    + apply wp_bind. eapply wp_kfree_skb; [done..|]. apply wp_ret. by apply gone_given.
    + apply member_then; [done|exact Hsn|]. intros b w1 Hsn1 _. by apply IH.
  - destruct (_ && _); by apply IH.
Qed.

Lemma mld_loop_spec forward routed i x l status s w : snooping i s w ->
  0 <= x -> x + 40 <= zlen (mac s) -> Forall (fun e => (mld_dst e < nports)%nat) l ->
  wp (mld_loop N forward routed i x l status) (loop_post i s w) w.
Proof.
  revert s w status. induction l as [|e l IH]; intros s w status Hsn Hx Hx' Hl; cbn [mld_loop].
  { apply wp_ret, kept_refl. by apply Hsn. }
  apply Forall_cons in Hl as [He Hl]. destruct Hsn as [? ? Hat Hus ? ? ? Hdev Hf] eqn:?.
  apply wp_bind. eapply wp_skb_at; [exact Hat|].
  destruct (addr6_in (mac s) (x + 24)) as (da & Eda); [lia..|]. destruct (addr6_in (mac s) (x + 8)) as (sa & Esa); [lia..|].
  apply wp_bind. eapply wp_lift; [exact Eda|]. apply wp_bind. eapply wp_lift; [exact Esa|]. apply wp_bind.
  assert (Happ : forall Q, (forall a, Q a w) -> wp (if BCM_IN6_ARE_ADDR_EQUAL (mld_grp e) da
      then lift (entry_applies N routed (dev s) (mld_type e) (mld_from_dev e)) else mret false) Q w).
  { intros Q HQ. destruct (BCM_IN6_ARE_ADDR_EQUAL _ _); [|by apply wp_ret].
    destruct (entry_applies_ok routed (dev s) (mld_type e) (mld_from_dev e) Hdev) as (a & Ea). by eapply wp_lift. }
  apply Happ. intros a. destruct a; cbn [negb]; [|by apply IH]. destruct (_ || _).
  - apply member_then; [done|exact Hsn|]. intros b w1 Hsn1 _. by apply IH.
  - destruct (_ && _); by apply IH.
Qed.

Lemma snooped_dirty P h d dr w w' : snooped P h d w w' -> length dr = length (dirty w) ->
  snooped P h d w (set_dirty dr w').
Proof. intros (l & n & st & dr' & tm & Hl & Hn & Hd & ->) Hdr. by exists l, n, st, dr, tm. Qed.

(** The end of the two forwarding functions. *)
Lemma loop_end i s r w w1 : snooping i s w -> loop_post i s w r w1 ->
  wp (match r with
      | inr status => mret status
      | inl status => if nonzero status then clear_dirty;; kfree_skb i;; mret status else mret status
      end) (fun r w' => fate i s w w' r) w1.
Proof.
  intros Hsn Hp. destruct r as [st|st].
  - destruct Hp as (b & Hs). destruct (nonzero st) eqn:En.
    + pose proof (snooping_kept _ _ _ _ _ Hsn Hs) as [_ Hd1 Hat Hus _ _ _ _ _].
      apply wp_bind, wp_modify, wp_bind. eapply wp_kfree_skb; [exact Hat|exact Hus|]. apply wp_ret.
      apply Gone; [by intros ->|]. eapply (gone_then i s b); [|by apply (gone_given i (set_blog b s))].
      apply snooped_dirty; [done|]. rewrite length_map. by rewrite Hd1, (sn_dirty _ _ _ Hsn).
    + apply wp_ret. apply (Kept _ _ _ _ _ b); [|done]. unfold nonzero in En. by apply negb_false_iff, Z.eqb_eq in En.
  - apply wp_ret. destruct st as [|p|p]; [destruct Hp as (b & Hs); by apply (Kept _ _ _ _ _ b)|by apply Gone..].
Qed.

(** Every entry of the group tables is for a port of the bridge. *)
Definition groups_ok (w : world) : Prop :=
  Forall (Forall (fun e => (mc_dst e < nports)%nat)) (mc_hash w) /\
  Forall (Forall (fun e => (mld_dst e < nports)%nat)) (mld_mc_hash w).

Lemma Forall_nth {A} (P : A -> Prop) (l : list (list A)) n : Forall (Forall P) l -> Forall P (nth n l []).
Proof.
  intros H. destruct (Nat.lt_ge_cases n (length l)) as [Hn|Hn].
  - by apply (proj1 (List.Forall_forall _ _) H), nth_In.
  - rewrite nth_overflow by done. constructor.
Qed.

Lemma mc_data_spec forward routed i x s w : snooping i s w -> groups_ok w ->
  0 <= x -> x + 24 <= zlen (mac s) ->
  wp (mc_data N i forward routed x) (fun r w' => fate i s w w' r) w.
Proof.
  intros Hsn [Hg _] Hx Hx'. unfold mc_data. apply wp_bind. eapply wp_skb_at; [by apply Hsn|].
  destruct (le32_in (mac s) (x + 16)) as (da & Eda); [lia..|]. apply wp_bind. eapply wp_lift; [exact Eda|].
  destruct (negb _).
  { apply wp_ret. destruct (kept_refl i s w) as (b & Hs); [by apply Hsn|]. by apply (Kept _ _ _ _ _ b). }
  apply wp_bind, wp_gets, wp_bind.
  eapply wp_mono; [apply (igmp_loop_spec forward routed i x _ _ s); [done..|]; by apply Forall_nth|].
  intros r w1. by apply loop_end.
Qed.

Lemma mld_data_spec forward routed i x s w : snooping i s w -> groups_ok w ->
  0 <= x -> x + 40 <= zlen (mac s) ->
  wp (mld_data N i forward routed x) (fun r w' => fate i s w w' r) w.
Proof.
  intros Hsn [_ Hg] Hx Hx'. unfold mld_data. apply wp_bind. eapply wp_skb_at; [by apply Hsn|].
  destruct (addr6_in (mac s) (x + 24)) as (da & Eda); [lia..|]. apply wp_bind. eapply wp_lift; [exact Eda|].
  apply wp_bind, wp_gets, wp_bind.
  eapply wp_mono; [apply (mld_loop_spec forward routed i x _ _ s); [done..|]; by apply Forall_nth|].
  intros r w1. by apply loop_end.
Qed.

(** ** The daemon *)

Lemma br_port_ok d : (d < length (devs N))%nat ->
  exists o, br_port_get_rcu N d = Ok o /\ forall p, o = Some p -> (p < nports)%nat.
Proof.
  intros Hd. unfold br_port_get_rcu. destruct (dev_at_ok N d Hd) as (x & -> & Hx). eexists. split; [done|].
  intros p. destruct (nonzero _); [|done]. by apply (nk_rx _ _ HN d x p).
Qed.

Lemma port_of_ok p w : nports_of w = nports -> (p < nports)%nat ->
  exists pt, ports (br (stp_of (tbl w))) !! p = Some pt /\ forall Q, Q pt w -> wp (port_of p) Q w.
Proof.
  intros Hn Hp. rewrite <- Hn in Hp. destruct (lookup_lt_is_Some_2 _ _ Hp) as [pt Ept]. exists pt.
  split; [done|]. intros Q HQ. unfold port_of. apply wp_bind, wp_gets. eapply wp_lift; [|done].
  unfold port_at. by rewrite Ept.
Qed.

Lemma event_snooped (P : ev -> Prop) e w : P e ->
  snooped P (heap w) (igmp_delayed_skb w) w (set_trace (trace w ++ [e]) w).
Proof.
  intros He. exists [e], (next_skb w), (stats w), (dirty w), (igmp_timer w). split; [by repeat constructor|].
  split; [done|]. split; [done|]. by destruct w.
Qed.

(** The daemon gets a copy of the packet; the packet stays where it is. *)
Lemma mcpd_spec i proto s w p : snooping i s w -> br_port_get_rcu N (dev s) = Ok (Some p) ->
  wp (mcpd_process_skb N i proto) (fun r w' => (r = 0 \/ r = 1) /\
    (proto = ETH_P_IP -> r = 1 -> mcpdControlsIgmpAdmission N = true) /\
    snooped (snoop_ev (tbl w) s) (heap w) (igmp_delayed_skb w) w w') w.
Proof.
  intros Hsn Ep. assert (H0 : (0 = 0 \/ 0 = 1) /\ (proto = ETH_P_IP -> 0 = 1 -> mcpdControlsIgmpAdmission N = true) /\
    snooped (snoop_ev (tbl w) s) (heap w) (igmp_delayed_skb w) w w).
  { split; [by left|]. split; [done|]. apply snooped_refl. }
  unfold mcpd_process_skb. destruct (_ =? _); [by apply wp_ret|].
  apply wp_bind. eapply wp_skb_at; [by apply Hsn|].
  destruct (sn_frame _ _ _ Hsn) as [(pip & g & lp & Ei & Hpip & Hg) (pip6 & g6 & lp6 & Em & Hpip6 & Hg6) Hlin].
  assert (exists pd ty ad, (if proto =? ETH_P_IPV6 then
        '(pip, picmp, _) ← br_mld_get_ip_icmp_hdrs s;
        Ok (match picmp with Some _ => pip | None => None end, MCPD_MSG_MLD_PKT, mcpdControlsMldAdmission N)
      else
        '(pip, pigmp, _) ← br_igmp_get_ip_igmp_hdrs s;
        Ok (match pigmp with Some _ => pip | None => None end, MCPD_MSG_IGMP_PKT, mcpdControlsIgmpAdmission N))
      = Ok (pd, ty, ad) /\ (forall x, pd = Some x -> 0 <= x <= zlen (mac s)) /\
      (proto = ETH_P_IP -> ad = mcpdControlsIgmpAdmission N)) as (pd & ty & ad & E & Hpd & Had).
  { destruct (Z.eqb_spec proto ETH_P_IPV6) as [->|_].
    - rewrite Em. eexists _, _, _. split; [done|]. split; [|done]. destruct g6; [|done]. intros x Hx. specialize (Hpip6 x Hx). lia.
    - rewrite Ei. eexists _, _, _. split; [done|]. split; [|done]. destruct g; [|done]. intros x Hx. specialize (Hpip x Hx). lia. }
  apply wp_bind. eapply wp_lift; [exact E|]. cbv beta iota. destruct pd as [x|]; [|by apply wp_ret].
  specialize (Hpd x eq_refl). apply wp_bind. eapply wp_lift; [exact Ep|]. apply wp_bind. eapply wp_lift; [done|].
  destruct (br_port_ok (dev s)) as (o & Eo & Hop); [by apply Hsn|]. rewrite Ep in Eo. injection Eo as <-.
  destruct (port_of_ok p w (sn_nports _ _ _ Hsn) (Hop p eq_refl)) as (pt & _ & Hpt). apply wp_bind, Hpt.
  destruct (negb _); [by apply wp_ret|].
  destruct (Z.ltb_spec (len s - (x - data s)) 0); [lia|].
  destruct (Z.ltb_spec (zlen (mac s)) (x + (len s - (x - data s)))); [lia|]. cbn [orb].
  apply wp_bind, wp_modify, wp_ret. split; [by destruct ad; [right|left]|].
  split; [intros Hp Hr; rewrite <- (Had Hp); by destruct ad|]. by apply event_snooped.
Qed.

Lemma set_timer_spec Q w : (forall tm, Q tt (set_igmp_timer tm w)) -> wp (br_igmp_set_timer N) Q w.
Proof.
  intros HQ. unfold br_igmp_set_timer. apply wp_bind, wp_gets. unfold br_igmp_get_next_timer_expiry.
  apply wp_bind, wp_bind, wp_gets, wp_ret. destruct (foldl _ _ _) as [t f]. cbv beta iota.
  destruct (_ && _); [apply wp_modify, HQ|]. apply wp_bind, wp_gets.
  destruct (if negb _ then _ else _) as [t' f']. destruct (negb _); apply wp_modify, HQ.
Qed.

Lemma slot_Some P l k : slot P l = Some k -> exists x t, l !! k = Some (x, t) /\ P x = true.
Proof.
  revert k. induction l as [|[x t] l IH]; intros k H; [done|]. cbn in H.
  destruct (P x) eqn:E; [injection H as <-; by exists x, t|].
  destruct (slot P l) as [k'|]; [|done]. injection H as <-. by apply IH.
Qed.

Lemma slot_None P l : slot P l = None -> Forall (fun x => P (fst x) = false) l.
Proof.
  induction l as [|[x t] l IH]; intros H; [constructor|]. cbn in H.
  destruct (P x) eqn:E; [done|]. destruct (slot P l); [done|]. constructor; [done|]. by apply IH.
Qed.

Lemma place_pending_spec i s w w1 r : r <> 0 -> mcpdControlsIgmpAdmission N = true ->
  snooped (snoop_ev (tbl w) s) (heap w) (igmp_delayed_skb w) w w1 ->
  wp (place_pending N i) (fun _ w' => fate i s w w' r) w1.
Proof.
  intros Hr Had Hs. unfold place_pending. apply wp_bind, wp_gets, wp_bind, wp_gets.
  pose proof (snooped_same _ _ _ _ _ Hs) as (_ & _ & Hd & _). rewrite Hd.
  destruct (slot _ _) as [k|] eqn:E.
  - apply slot_Some in E as (x & t & Ex & ->%bool_decide_eq_true). apply wp_bind, wp_modify.
    apply set_timer_spec. intros tm. destruct Hs as (l & n & st & dr & tm1 & Hl & Hn & Hdr & ->).
    eapply (Waits _ _ _ _ _ k t); [done|done|]. by exists l, n, st, dr, tm.
  - apply wp_ret. apply Lost; [done..| |done]. eapply Forall_impl; [by apply slot_None|].
    intros x Hx%bool_decide_eq_false. done.
Qed.

Lemma fate_kept i s w w' : heap w !! i = Some s ->
  snooped (snoop_ev (tbl w) s) (heap w) (igmp_delayed_skb w) w w' -> fate i s w w' 0.
Proof.
  intros E Hs. apply (Kept _ _ _ _ _ (blog_p s)); [done|]. by rewrite set_blog_id, insert_id.
Qed.

Lemma fate_refl i s w : heap w !! i = Some s -> fate i s w w 0.
Proof. intros E. apply fate_kept; [done|]. apply snooped_refl. Qed.

Lemma igmp_packet_spec i g s w : snooping i s w -> 0 <= g < zlen (mac s) ->
  wp (igmp_packet N i g) (fun r w' => fate i s w w' r) w.
Proof.
  intros Hsn Hg. unfold igmp_packet. apply wp_bind. eapply wp_skb_at; [by apply Hsn|].
  destruct (dev_at_ok N (dev s)) as (x & Ex & _); [by apply Hsn|]. apply wp_bind. eapply wp_lift; [exact Ex|].
  destruct (wandev x).
  - destruct (rd_in (mac s) g Hg) as (ty & Ety). apply wp_bind. eapply wp_lift; [exact Ety|].
    destruct (negb _); [|apply wp_ret, fate_refl, Hsn]. apply wp_bind.
    eapply wp_kfree_skb; [apply (sn_at _ _ _ Hsn)|apply (sn_users _ _ _ Hsn)|]. apply wp_ret, Gone; [done|]. by apply gone_given.
  - destruct (br_port_ok (dev s)) as (o & Eo & _); [by apply Hsn|]. apply wp_bind. eapply wp_lift; [exact Eo|].
    destruct o as [p|]; [|apply wp_ret, fate_refl, Hsn]. apply wp_bind.
    eapply wp_mono; [by apply (mcpd_spec i ETH_P_IP s w p)|cbv beta]. intros r w1 (Hr & Had & Hs).
    destruct (Z.eqb_spec r 1) as [->|Hne].
    + apply wp_bind. eapply wp_mono; [by apply (place_pending_spec i s w w1 1); [|apply Had|]|cbv beta].
      intros _ w2 Hf. by apply wp_ret.
    + destruct Hr as [->|]; [|done]. apply wp_ret, fate_kept; [by apply Hsn|done].
Qed.

Lemma igmp_forward_spec forward routed i s w : snooping i s w -> groups_ok w ->
  wp (br_igmp_mc_forward N i forward routed) (fun r w' => fate i s w w' r) w.
Proof.
  intros Hsn Hg. unfold br_igmp_mc_forward. apply wp_bind. eapply wp_skb_at; [by apply Hsn|].
  destruct (fo_igmp _ (sn_frame _ _ _ Hsn)) as (pip & g & lp & E & Hpip & Hgi).
  apply wp_bind. eapply wp_lift; [exact E|]. cbv beta iota.
  destruct pip as [x|]; [|apply wp_ret, fate_refl, Hsn]. destruct (Hpip x eq_refl) as [Hx Hx'].
  destruct g as [g|]; [|by apply mc_data_spec].
  destruct (_ || _); [by apply igmp_packet_spec; [|apply Hgi]|by apply mc_data_spec].
Qed.

Lemma mld_forward_spec forward routed i s w : snooping i s w -> groups_ok w ->
  wp (br_mld_mc_forward N i forward routed) (fun r w' => fate i s w w' r) w.
Proof.
  intros Hsn Hg. unfold br_mld_mc_forward. apply wp_bind. eapply wp_skb_at; [by apply Hsn|].
  destruct (fo_mld _ (sn_frame _ _ _ Hsn)) as (pip & g & lp & E & Hpip & Hgi).
  apply wp_bind. eapply wp_lift; [exact E|]. cbv beta iota.
  destruct pip as [x|]; [|apply wp_ret, fate_refl, Hsn]. destruct (Hpip x eq_refl) as [Hx Hx'].
  destruct g as [g|]; [|by apply mld_data_spec]. destruct (rd_in (mac s) g (Hgi g eq_refl)) as (ty & Ety).
  apply wp_bind. eapply wp_lift; [exact Ety|]. destruct (_ || _); [|by apply mld_data_spec].
  unfold mld_report. apply wp_bind. eapply wp_skb_at; [by apply Hsn|].
  destruct (br_port_ok (dev s)) as (o & Eo & _); [by apply Hsn|]. apply wp_bind. eapply wp_lift; [exact Eo|].
  destruct o as [p|]; [|apply wp_ret, fate_refl, Hsn]. destruct (_ || _); [|apply wp_ret, fate_refl, Hsn].
  destruct (dev_at_ok N (dev s)) as (y & Ey & _); [by apply Hsn|]. apply wp_bind. eapply wp_lift; [exact Ey|].
  destruct (wandev y).
  - apply wp_bind. eapply wp_kfree_skb; [apply (sn_at _ _ _ Hsn)|apply (sn_users _ _ _ Hsn)|]. apply wp_ret, Gone; [done|]. by apply gone_given.
  - apply wp_bind. eapply wp_mono; [by apply (mcpd_spec i ETH_P_IPV6 s w p)|cbv beta]. intros r w1 (_ & _ & Hs).
    apply wp_ret, fate_kept; [by apply Hsn|done].
Qed.

End Snoop.
