(* ===== verification/BrDelivery.v ===== *)
(** Multicast data reaches the ports of the group's members: what
    [br_igmp_mc_forward] and [br_mld_mc_forward] hand to the drivers, exactly. *)

From S2P Require Import Prelude Str Stp Fdb Bridge BrExample BrWp BrForward BrForwardProps Groups BrIgmp BrIgmpProps.

(** ** Marks *)

(** The ports of [l] that are not among [seen], each at its first place. *)
Fixpoint firsts (seen l : list nat) : list nat :=
  match l with
  | [] => []
  | p :: l => if decide (p ∈ seen) then firsts seen l else p :: firsts (p :: seen) l
  end.

(** The dirty marks of a bridge when the ports [seen] have had the packet. *)
Definition marks (nports : nat) (seen : list nat) : list bool :=
  (fun p => bool_decide (p ∈ seen)) <$> seq 0 nports.

Lemma marks_lookup n seen p : (p < n)%nat -> marks n seen !! p = Some (bool_decide (p ∈ seen)).
Proof. intros Hp. unfold marks. by rewrite list_lookup_fmap, lookup_seq_lt. Qed.

Lemma length_marks n seen : length (marks n seen) = n.
Proof. unfold marks. by rewrite length_fmap, length_seq. Qed.

Lemma marks_insert n seen p : (p < n)%nat -> <[p := true]> (marks n seen) = marks n (p :: seen).
Proof.
  intros Hp. apply list_eq. intros q. destruct (Nat.lt_ge_cases q n) as [Hq|Hq].
  - rewrite (marks_lookup n (p :: seen) q Hq). destruct (decide (p = q)) as [->|Hne].
    + rewrite list_lookup_insert_eq by (by rewrite length_marks). f_equal. symmetry.
      apply bool_decide_eq_true_2. by left.
    + rewrite list_lookup_insert_ne, marks_lookup by done. f_equal. apply bool_decide_ext. rewrite elem_of_cons. intuition congruence.
  - rewrite !lookup_ge_None_2; [done|by rewrite length_marks|by rewrite length_insert, length_marks].
Qed.

Lemma marks_seen n seen p : p ∈ seen -> marks n (p :: seen) = marks n seen.
Proof. intros Hp. unfold marks. apply list_fmap_ext. intros ? q _. apply bool_decide_ext. rewrite elem_of_cons. intuition congruence. Qed.

Lemma marks_cleared n seen : map (fun _ => false) (marks n seen) = replicate n false.
Proof.
  unfold marks. generalize 0%nat. induction n as [|n IH]; intros k; [done|]. cbn. by f_equal.
Qed.

Lemma marks_none n : replicate n false = marks n [].
Proof.
  unfold marks. generalize 0%nat. induction n as [|n IH]; intros k; [done|]. cbn. by rewrite (IH (S k)).
Qed.

Section Delivery.
Context (N : net) (nports : nat) (HN : net_ok N nports) (HQ : quiet N).

(** From [w] to [w'] the frame of [s] has left by the devices [D], the heap
    has become [h] and the marks [dr]. *)
Definition hands (s : sk_buff) (D : list nat) (h : gmap nat sk_buff) (dr : list bool) (w w' : world) : Prop :=
  exists l n st, map dev (xmitted l) = D /\
    Forall (fun s' => mac s' = mac s /\ data s' = data s - ETH_HLEN) (xmitted l) /\ (next_skb w <= n)%nat /\
    w' = set_dirty dr (set_stats st (set_next_skb n (set_heap h (set_trace (trace w ++ l) w)))).

Lemma hands_refl s w : hands s [] (heap w) (dirty w) w w.
Proof. exists [], (next_skb w), (stats w). repeat (split; [done|]). rewrite app_nil_r. by destruct w. Qed.

Lemma hands_trans s s1 D1 D2 h1 h2 d1 d2 w w1 w2 : mac s1 = mac s -> data s1 = data s ->
  hands s D1 h1 d1 w w1 -> hands s1 D2 h2 d2 w1 w2 -> hands s (D1 ++ D2) h2 d2 w w2.
Proof.
  intros Hm Hd (l1 & n1 & st1 & Hd1 & Hl1 & Hn1 & ->) (l2 & n2 & st2 & Hd2 & Hl2 & Hn2 & ->). cbn in *.
  rewrite Hm, Hd in Hl2. exists (l1 ++ l2), n2, st2. rewrite xmitted_app, map_app, Hd1, Hd2. split; [done|].
  split; [by apply Forall_app|]. split; [lia|]. by rewrite app_assoc.
Qed.

Lemma hands_same s D h dr w w' : hands s D h dr w w' -> tbl w' = tbl w /\ heap w' = h /\ dirty w' = dr /\
  mc_hash w' = mc_hash w /\ mld_mc_hash w' = mld_mc_hash w /\ (next_skb w <= next_skb w')%nat.
Proof. by intros (l & n & st & _ & _ & Hn & ->). Qed.

Lemma hands_dirty s D h dr dr' w w' : hands s D h dr w w' -> hands s D h dr' w (set_dirty dr' w').
Proof. intros (l & n & st & Hd & Hl & Hn & ->). by exists l, n, st. Qed.

Lemma hands_sends s D h w w' : sends s D h w w' -> hands s D h (dirty w) w w'.
Proof.
  intros (ss & n & st & Hd & Hl & Hn & ->). exists (map Xmit ss), n, st. rewrite xmitted_map. by destruct w.
Qed.

Lemma hands_heap_ok i s b D dr w w' : heap w !! i = Some s -> heap_ok w ->
  hands s D (<[i := set_blog b s]> (heap w)) dr w w' -> heap_ok w'.
Proof.
  intros E Hw (l & n & st & _ & _ & Hn & ->) j Hj. cbn in *. rewrite lookup_insert_ne; [apply Hw; lia|].
  intros ->. rewrite Hw in E; [done|lia].
Qed.

(** [__br_deliver], as [forward_exact]. *)
Lemma deliver_exact p i s w : (p < nports)%nat -> heap w !! i = Some s -> users s = 1 -> room s ->
  fits_mtu N nports s -> wp (__br_deliver N p i) (fun _ w' => sends s [port_dev N p] (delete i (heap w)) w w') w.
Proof.
  intros Hp E Hu Hr Hm. unfold __br_deliver. apply wp_bind. eapply wp_skb_upd; [done|]. apply wp_bind.
  set (s1 := set_dev (port_dev N p) s). unfold wp at 1. rewrite (NF_HOOK_quiet N HQ).
  change (wp (br_forward_finish N i) (fun a => wp (mret tt) (fun _ w' =>
    sends s [port_dev N p] (delete i (heap w)) w w')) (set_heap (<[i:=s1]> (heap w)) w)).
  unfold br_forward_finish. apply wp_bind. eapply wp_skb_at; [by cbn; apply lookup_insert_eq|].
  unfold wp at 1. rewrite (NF_HOOK_quiet N HQ).
  change (wp (br_dev_queue_push_xmit N i) (fun a => wp (mret tt) (fun _ w' =>
    sends s [port_dev N p] (delete i (heap w)) w w')) (set_heap (<[i:=s1]> (heap w)) w)).
  eapply wp_mono; [by apply (push_exact N nports HN p i s1); [|cbn; apply lookup_insert_eq|..]|cbv beta].
  intros _ w' (ss & n & st & Hd & Hf & Hn & ->). apply wp_ret. exists ss, n, st. split; [done|].
  cbn [heap set_heap]. rewrite delete_insert_eq. done.
Qed.

(** One copy for one port: to its driver if the port may have it, and freed
    if not. *)
Lemma hand_exact (forward : bool) p i s w : (p < nports)%nat -> decides N nports (tbl w) s ->
  heap w !! i = Some s -> users s = 1 -> room s -> fits_mtu N nports s ->
  wp (if forward then br_forward N (Some p) i None else br_deliver N (Some p) i)
    (fun _ w' => hands s (map (port_dev N) (targets N (tbl w) s [p])) (delete i (heap w)) (dirty w) w w') w.
Proof.
  intros Hp Hd E Hu Hr Hm.
  assert (Hfree : wp (kfree_skb i) (fun _ w' => hands s [] (delete i (heap w)) (dirty w) w w') w).
  { eapply wp_kfree_skb; [done..|]. exists [Freed s], (next_skb w), (stats w). repeat (split; [done|]). by destruct w. }
  assert (Hgo : forall k, wp (k : M unit) (fun _ w' => sends s [port_dev N p] (delete i (heap w)) w w') w ->
    wp k (fun _ w' => hands s [port_dev N p] (delete i (heap w)) (dirty w) w w') w).
  { intros k Hk. eapply wp_mono; [exact Hk|cbv beta]. intros _ w' Hs. by apply hands_sends. }
  unfold br_forward, br_deliver, targets. cbn [List.filter].
  destruct forward; apply wp_bind; (apply (wp_should_deliver N nports p i s (blog_p s)); [done..|by rewrite set_blog_id|]);
    intros r Er; rewrite set_blog_id in Er; rewrite Er; destruct r; cbn [map]; try exact Hfree.
  - apply wp_bind. eapply wp_lift; [done|]. apply Hgo. by apply (forward_exact N nports HN HQ p i s).
  - apply Hgo. by apply deliver_exact.
Qed.

(** What holds of a packet and the bridge while members are served. *)
Record serving (i : nat) (s : sk_buff) (seen : list nat) (w : world) : Prop := mk_serving {
  sv_nports : nports_of w = nports;
  sv_dirty : dirty w = marks nports seen;
  sv_at : heap w !! i = Some s;
  sv_users : users s = 1;
  sv_heap : heap_ok w;
  sv_room : room s;
  sv_dev : (dev s < length (devs N))%nat;
  sv_igmp : igmp_fits s;
  sv_mtu : fits_mtu N nports s
}.

(** From [w] to [w'] the packet has gone to the ports of [l] that had not
    had it and may have it, and has been freed if [out]. *)
Definition served_to (i : nat) (s : sk_buff) (seen l : list nat) (out : bool) (w w' : world) : Prop := exists b dr,
  hands s (map (port_dev N) (targets N (tbl w) s (firsts seen l)))
    (if out then delete i (heap w) else <[i := set_blog b s]> (heap w)) dr w w' /\
  dr = marks nports (rev l ++ seen) /\ (l = [] -> out = false -> w' = w).

Lemma to_member_exact forward i p s seen w : (p < nports)%nat -> serving i s seen w ->
  wp (to_member N forward i p) (fun ok w' => ok = true /\ served_to i s seen [p] false w w') w.
Proof.
  intros Hp [Hn Hdr E Hu Hw Hr Hd Hf Hm]. pose proof (clone_ne _ _ _ E Hw) as Hne.
  unfold to_member. apply wp_bind, wp_gets, wp_bind. rewrite Hdr.
  eapply wp_lift; [by rewrite marks_lookup|]. unfold served_to. cbn [firsts rev app].
  destruct (decide (p ∈ seen)) as [Hs|Hs].
  { rewrite bool_decide_eq_true_2 by done. cbn [negb]. apply wp_bind, wp_modify, wp_ret. split; [done|].
    exists (blog_p s), (marks nports (p :: seen)). split; [|by split]. rewrite set_blog_id, insert_id, Hdr, marks_insert by done.
    eapply hands_dirty, hands_refl. }
  rewrite bool_decide_eq_false_2 by done. cbn [negb]. apply wp_bind. unfold skb_clone.
  apply wp_bind. eapply wp_skb_at; [done|]. apply wp_bind, wp_gets, wp_bind, wp_modify.
  rewrite (q_mem _ HQ). apply wp_bind, wp_modify, wp_bind, wp_modify, wp_ret. rewrite set_users_id by done.
  set (c := next_skb w) in *.
  match goal with |- wp _ _ ?x => set (w1 := x) end.
  assert (Ec : heap w1 !! c = Some s) by apply lookup_insert_eq.
  assert (Ei : heap w1 !! i = Some (set_blog None s)) by (cbn; rewrite lookup_insert_ne by done; apply lookup_insert_eq).
  assert (Hw1 : heap_ok w1).
  { intros j Hj. cbn in *. rewrite !lookup_insert_ne; [apply Hw; unfold c in *; lia| |unfold c in *; lia].
    intros ->. rewrite Hw in E; [done|unfold c in *; lia]. }
  apply wp_bind. eapply wp_skb_at; [exact Ec|]. apply wp_bind.
  eapply wp_mono; [by apply (blog_clone_spec N i (set_blog None s))|cbv beta]. intros _ w2 Hk.
  destruct (keeps_off _ _ _ _ _ Hk) as (b & E2 & Hh2 & Ht2 & Hw2 & (l & n & st & Hl & Hn2 & Hw2')).
  destruct l as [|e l]; [|by apply Forall_cons in Hl as [? _]].
  assert (Ec2 : heap w2 !! c = Some s) by (rewrite Hh2, lookup_insert_ne by done; exact Ec).
  apply wp_bind. eapply wp_mono; [apply (hand_exact forward p c s w2); try done|cbv beta].
  { rewrite Ht2. by apply (decides_ok N nports HN w s). }
  intros _ w3 (l3 & n3 & st3 & Hd3 & Hl3 & Hn3 & ->). apply wp_bind, wp_modify, wp_ret. split; [done|].
  exists b, (marks nports (p :: seen)). split; [|by split].
  assert (Hheap : delete c (heap w2) = <[i:=set_blog b s]> (heap w)).
  { rewrite Hh2. cbn [heap w1 set_heap]. rewrite set_blog_twice, insert_insert_ne, insert_insert_eq by done.
    apply delete_insert_id. rewrite lookup_insert_ne by done. apply Hw. done. }
  rewrite Hheap, Ht2 in *. exists l3, n3, st3. split; [done|]. split; [done|]. subst w2. cbn in Hn3, Hn2 |- *.
  split; [unfold c in *; lia|]. rewrite app_nil_r, Hdr, marks_insert by done. by destruct w.
Qed.

Lemma firsts_seen p seen l : p ∈ seen -> firsts (p :: seen) l = firsts seen l.
Proof.
  revert seen. enough (H : forall l s1 s2, (forall q, q ∈ s1 <-> q ∈ s2) -> firsts s1 l = firsts s2 l).
  { intros seen Hp. apply H. intros q. rewrite elem_of_cons. intuition congruence. }
  clear. induction l as [|q l IH]; intros s1 s2 H; [done|]. cbn.
  destruct (decide (q ∈ s1)) as [H1|H1], (decide (q ∈ s2)) as [H2|H2]; [by apply IH|by apply H in H1|by apply H in H2|].
  f_equal. apply IH. intros x. rewrite !elem_of_cons. by rewrite H.
Qed.

Lemma firsts_cons p seen l : firsts seen (p :: l) = firsts seen [p] ++ firsts (p :: seen) l.
Proof. cbn. destruct (decide (p ∈ seen)); [|done]. cbn. by rewrite firsts_seen. Qed.

Lemma served_none i s seen w : serving i s seen w -> served_to i s seen [] false w w.
Proof.
  intros H. exists (blog_p s), (dirty w). rewrite set_blog_id, insert_id by apply H.
  split; [apply hands_refl|]. split; [apply H|done].
Qed.

Lemma serving_on i s b D seen seen' w w' : serving i s seen w ->
  hands s D (<[i := set_blog b s]> (heap w)) (marks nports seen') w w' -> serving i (set_blog b s) seen' w'.
Proof.
  intros [Hn Hdr E Hu Hw Hr Hd Hf Hm] Hh. destruct (hands_same _ _ _ _ _ _ Hh) as (Ht & Hheap & Hdr' & _).
  split; try done; [by unfold nports_of in *; rewrite Ht|rewrite Hheap; apply lookup_insert_eq|].
  by eapply hands_heap_ok.
Qed.

(** A copy to a member, and on with the loop. *)
Lemma member_then_exact forward i p s seen l out (st : Z + Z) w (k : M (Z + Z)) : (p < nports)%nat -> serving i s seen w ->
  (forall b w1, serving i (set_blog b s) (p :: seen) w1 ->
    wp k (fun r w' => r = st /\ served_to i (set_blog b s) (p :: seen) l out w1 w') w1) ->
  wp (ok ← to_member N forward i p; if negb ok then mret (inr 0) else k)
    (fun r w' => r = st /\ served_to i s seen (p :: l) out w w') w.
Proof.
  intros Hp Hsv Hk. apply wp_bind. eapply wp_mono; [by eapply to_member_exact|cbv beta].
  intros ok w1 (-> & b & dr & Hh & -> & _). cbn [negb].
  pose proof (serving_on _ _ _ _ _ _ _ _ Hsv Hh) as Hsv1. cbn [rev app] in Hsv1.
  eapply wp_mono; [by apply (Hk b w1)|cbv beta]. intros r w2 (-> & b2 & dr2 & Hh2 & -> & _). split; [done|].
  destruct (hands_same _ _ _ _ _ _ Hh) as (Ht & Hheap & _).
  rewrite Ht, Hheap, set_blog_twice, insert_insert_eq, delete_insert_eq in Hh2.
  exists b2, (marks nports (rev (p :: l) ++ seen)). split; [|done].
  rewrite firsts_cons. unfold targets at 1. rewrite List.filter_app, map_app. cbn [rev]. rewrite <- app_assoc.
  eapply (hands_trans s (set_blog b s)); [done..|exact Hh|].
  replace (List.filter _ (firsts (p :: seen) l)) with (targets N (tbl w) (set_blog b s) (firsts (p :: seen) l)); [exact Hh2|].
  apply List.filter_ext. intros q. by rewrite (deliverable_blog N HQ).
Qed.

(** ** The entries a packet is for *)

(** An entry that is for a packet of [s] to the group, from [saddr], and lets
    it through; one that is for it and keeps it back. *)
Definition applies (routed : bool) (s : sk_buff) (type : Z) (from : nat) : bool :=
  match entry_applies N routed (dev s) type from with Ok b => b | Fault _ => false end.
Definition passes (mode : Z) (same any : bool) : bool :=
  ((mode =? MCAST_INCLUDE) && same) || ((mode =? MCAST_EXCLUDE) && (any || negb same)).
Definition shuts (mode : Z) (same : bool) : bool := (mode =? MCAST_EXCLUDE) && same.

Definition igmp_for (routed : bool) (s : sk_buff) (daddr : Z) (e : mc_fdb_entry) : bool :=
  (txGrp e =? daddr) && applies routed s (mc_type e) (from_dev e).
Definition igmp_wants (routed : bool) (s : sk_buff) (daddr saddr : Z) (e : mc_fdb_entry) : bool :=
  igmp_for routed s daddr e && passes (filt_mode e) (saddr =? mc_src e) (mc_src e =? 0).
Definition igmp_claims (routed : bool) (s : sk_buff) (daddr saddr : Z) (e : mc_fdb_entry) : bool :=
  igmp_wants routed s daddr saddr e || (igmp_for routed s daddr e && shuts (filt_mode e) (saddr =? mc_src e)).

Definition mld_for (routed : bool) (s : sk_buff) (daddr : list Z) (e : mld_fdb_entry) : bool :=
  BCM_IN6_ARE_ADDR_EQUAL (mld_grp e) daddr && applies routed s (mld_type e) (mld_from_dev e).
Definition mld_wants (routed : bool) (s : sk_buff) (daddr saddr : list Z) (e : mld_fdb_entry) : bool :=
  mld_for routed s daddr e &&
  passes (mld_filt_mode e) (BCM_IN6_ARE_ADDR_EQUAL saddr (mld_src e)) (byte_of (mld_src e) 0 =? 0).
Definition mld_claims (routed : bool) (s : sk_buff) (daddr saddr : list Z) (e : mld_fdb_entry) : bool :=
  mld_wants routed s daddr saddr e ||
  (mld_for routed s daddr e && shuts (mld_filt_mode e) (BCM_IN6_ARE_ADDR_EQUAL saddr (mld_src e))).

Lemma wp_applies (c : bool) routed s type from Q w : (dev s < length (devs N))%nat ->
  Q (c && applies routed s type from) w ->
  wp (if c then lift (entry_applies N routed (dev s) type from) else mret false) Q w.
Proof.
  intros Hd. unfold applies. destruct c; [|by intros; apply wp_ret].
  destruct (entry_applies_ok N routed (dev s) type from Hd) as (a & ->). by apply wp_lift.
Qed.

(** An entry that excludes the UDP port of the packet. *)
Definition shuts_out (s : sk_buff) (pip : Z) (e : mc_fdb_entry) : bool :=
  match excluded s pip (excludePort e) with Ok b => b | Fault _ => false end.

(** The entries before the first that [P] holds of, and whether there is one. *)
Fixpoint until {A} (P : A -> bool) (l : list A) : list A * bool :=
  match l with
  | [] => ([], false)
  | x :: l => if P x then ([], true) else let '(l, b) := until P l in (x :: l, b)
  end.

(** The entries that are served, and whether one shuts the packet out. *)
Definition igmp_served (routed : bool) (s : sk_buff) (pip da sa : Z) (l : list mc_fdb_entry) : list mc_fdb_entry * bool :=
  until (shuts_out s pip) (List.filter (igmp_wants routed s da sa) l).

Lemma free_exact i s seen w : serving i s seen w ->
  wp (kfree_skb i;; mret (inr 1)) (fun r w' => r = inr 1 :> Z + Z /\ served_to i s seen [] true w w') w.
Proof.
  intros [_ Hdr E Hu _ _ _ _ _]. apply wp_bind. eapply wp_kfree_skb; [done..|]. apply wp_ret. split; [done|].
  exists None, (dirty w). split; [|done]. exists [Freed s], (next_skb w), (stats w). repeat (split; [done|]). by destruct w.
Qed.

Ltac igmp_head Hsv Eda Esa Ef :=
  apply wp_bind; eapply wp_skb_at; [by apply Hsv|];
  apply wp_bind; eapply wp_lift; [exact Eda|]; apply wp_bind; eapply wp_lift; [exact Esa|]; apply wp_bind;
  apply wp_applies; [apply Hsv|];
  match type of Ef with igmp_for ?r ?s ?d ?e = _ => fold (igmp_for r s d e) end; rewrite Ef; cbn [negb].

Lemma igmp_loop_exact forward routed i x l status s da sa seen w : serving i s seen w ->
  le32_at (mac s) (x + 16) = Ok da -> le32_at (mac s) (x + 12) = Ok sa -> 0 <= x -> x + 24 <= zlen (mac s) ->
  Forall (fun e => (mc_dst e < nports)%nat) l ->
  let '(go, out) := igmp_served routed s x da sa l in
  wp (igmp_loop N forward routed i x l status) (fun r w' =>
    r = (if out then inr 1 else inl (if existsb (igmp_claims routed s da sa) l then 1 else status)) /\
    served_to i s seen (map mc_dst go) out w w') w.
Proof.
  intros Hsv Eda Esa Hx0 Hx Hl. revert s seen w status Hsv Eda Esa Hx.
  induction Hl as [|e l He Hl IH]; intros s seen w status Hsv Eda Esa Hx; cbn [igmp_loop].
  { apply wp_ret. split; [done|]. by apply served_none. }
  pose proof (IH s seen w status Hsv Eda Esa Hx) as Hsame. pose proof (IH s seen w 1 Hsv Eda Esa Hx) as Hone.
  pose proof (fun b w1 => IH (set_blog b s) (mc_dst e :: seen) w1 1) as Hnext. clear IH.
  unfold igmp_served in *. cbn [existsb List.filter]. unfold igmp_claims, igmp_wants in *. unfold shuts_out at 1.
  destruct (excluded_ok s x (excludePort e) Hx0 Hx) as (ex & Eex).
  destruct (igmp_for routed s da e) eqn:Ef; cbn [andb orb] in *.
  2: { destruct (until _ _) as [go out]. igmp_head Hsv Eda Esa Ef. exact Hsame. }
  destruct (passes _ _ _) eqn:Ep; cbn [orb until].
  - rewrite Eex. destruct ex.
    + igmp_head Hsv Eda Esa Ef. fold (passes (filt_mode e) (sa =? mc_src e) (mc_src e =? 0)). rewrite Ep. apply wp_bind. eapply wp_lift; [exact Eex|]. by apply free_exact.
    + destruct (until _ _) as [go out] eqn:Eu. igmp_head Hsv Eda Esa Ef. fold (passes (filt_mode e) (sa =? mc_src e) (mc_src e =? 0)). rewrite Ep. apply wp_bind. eapply wp_lift; [exact Eex|].
      cbn [map]. apply member_then_exact; [done..|]. intros b w1 Hsv1. specialize (Hnext b w1 Hsv1 Eda Esa Hx).
      change (until (shuts_out (set_blog b s) x)) with (until (shuts_out s x)) in Hnext.
      change (fun e => igmp_for routed (set_blog b s) da e && passes (filt_mode e) (sa =? mc_src e) (mc_src e =? 0))
        with (fun e => igmp_for routed s da e && passes (filt_mode e) (sa =? mc_src e) (mc_src e =? 0)) in Hnext.
      rewrite Eu in Hnext. eapply wp_mono; [exact Hnext|cbv beta]. intros r w2 (-> & H). split; [|done].
      destruct out; [done|]. by destruct (existsb _ _).
  - destruct (until _ _) as [go out]. igmp_head Hsv Eda Esa Ef. fold (passes (filt_mode e) (sa =? mc_src e) (mc_src e =? 0)). rewrite Ep.
    fold (shuts (filt_mode e) (sa =? mc_src e)). destruct (shuts _ _); cbn [orb]; [|exact Hsame].
    eapply wp_mono; [exact Hone|cbv beta]. intros r w2 (-> & H). split; [|done]. destruct out; [done|]. by destruct (existsb _ _).
Qed.

Lemma mld_loop_exact forward routed i x l status s da sa seen w : serving i s seen w ->
  addr6_at (mac s) (x + 24) = Ok da -> addr6_at (mac s) (x + 8) = Ok sa ->
  Forall (fun e => (mld_dst e < nports)%nat) l ->
  wp (mld_loop N forward routed i x l status) (fun r w' =>
    r = inl (if existsb (mld_claims routed s da sa) l then 1 else status) /\
    served_to i s seen (map mld_dst (List.filter (mld_wants routed s da sa) l)) false w w') w.
Proof.
  revert s seen w status. induction l as [|e l IH]; intros s seen w status Hsv Eda Esa Hl; cbn [mld_loop].
  { apply wp_ret. split; [done|]. by apply served_none. }
  apply Forall_cons in Hl as [He Hl]. apply wp_bind. eapply wp_skb_at; [by apply Hsv|].
  apply wp_bind. eapply wp_lift; [exact Eda|]. apply wp_bind. eapply wp_lift; [exact Esa|]. apply wp_bind.
  apply wp_applies; [apply Hsv|]. fold (mld_for routed s da e). cbn [existsb List.filter].
  unfold mld_claims, mld_wants.
  fold (passes (mld_filt_mode e) (BCM_IN6_ARE_ADDR_EQUAL sa (mld_src e)) (byte_of (mld_src e) 0 =? 0))
    (shuts (mld_filt_mode e) (BCM_IN6_ARE_ADDR_EQUAL sa (mld_src e))).
  pose proof (IH s seen w status Hsv Eda Esa Hl) as Hsame. pose proof (IH s seen w 1 Hsv Eda Esa Hl) as Hone.
  destruct (mld_for routed s da e); cbn [negb andb orb] in *; [|exact Hsame].
  destruct (passes _ _ _); cbn [orb map].
  - apply member_then_exact; [done..|]. intros b w1 Hsv1.
    eapply wp_mono; [by apply (IH (set_blog b s) (mld_dst e :: seen) w1 1)|cbv beta].
    intros r w2 (-> & H). split; [by destruct (existsb _ _)|done].
  - destruct (shuts _ _); cbn [orb]; [|exact Hsame]. eapply wp_mono; [exact Hone|cbv beta].
    intros r w2 (-> & H). split; [by destruct (existsb _ _)|done].
Qed.

(** What a packet for the ports [l] has left behind when the function returns
    [r], where the ports [seen] had been marked before: the copies, in order
    and one for a port that was not marked, and the packet gone, or nothing
    done.  The marks are cleared, but not if an entry has shut the packet
    out. *)
Definition delivered (i : nat) (s : sk_buff) (seen l : list nat) (out : bool) (r : Z) (w w' : world) : Prop :=
  (exists ss, xmitted (trace w') = xmitted (trace w) ++ ss /\
    map dev ss = map (port_dev N) (targets N (tbl w) s (firsts seen l)) /\
    Forall (fun s' => mac s' = mac s /\ data s' = data s - ETH_HLEN) ss) /\
  tbl w' = tbl w /\
  if nonzero r
  then heap w' = delete i (heap w) /\ dirty w' = if out then marks nports (rev l ++ seen) else replicate nports false
  else w' = w.

Lemma deliver_end i s seen l (out : bool) (st : Z) (r : Z + Z) w w1 : serving i s seen w ->
  r = (if out then inr 1 else inl st) /\ served_to i s seen l out w w1 -> (nonzero st = false -> l = []) ->
  wp (match r return M Z with
      | inr status => mret status
      | inl status => if nonzero status then clear_dirty;; kfree_skb i;; mret status else mret status
      end) (fun (r : Z) w' => r = (if out then 1 else st) /\ delivered i s seen l out r w w') w1.
Proof.
  intros Hsv (-> & b & dr & Hh & -> & Hnil) Hl. unfold delivered. destruct out.
  { apply wp_ret. split; [done|]. destruct (hands_same _ _ _ _ _ _ Hh) as (Ht & Hheap & Hd & _).
    destruct Hh as (l' & n & st' & Hd' & Hf & Hn & ->). split; [|done]. exists (xmitted l'). cbn. by rewrite xmitted_app. }
  destruct (nonzero st) eqn:En.
  - pose proof (serving_on _ _ _ _ _ _ _ _ Hsv Hh) as Hsv1.
    apply wp_bind, wp_modify, wp_bind. eapply wp_kfree_skb; [by apply Hsv1..|]. apply wp_ret. split; [done|].
    rewrite En. destruct Hh as (l' & n & st' & Hd & Hf & Hn & ->). split; [exists (xmitted l')|].
    + cbn. by rewrite !xmitted_app, app_nil_r.
    + split; [done|]. cbn. rewrite delete_insert_eq. split; [done|]. by apply marks_cleared.
  - apply wp_ret. split; [done|]. rewrite En. rewrite (Hl eq_refl) in *. rewrite (Hnil eq_refl eq_refl).
    split; [exists []; by rewrite app_nil_r|done].
Qed.

Lemma nobody {A} (f g : A -> bool) (l : list A) (c st : Z) : (forall e, f e = true -> g e = true) ->
  c = (if existsb g l then 1 else st) -> nonzero c = false -> List.filter f l = [].
Proof.
  intros Hfg -> Hc. destruct (existsb g l) eqn:E; [done|]. clear -Hfg E.
  induction l as [|e l IH]; [done|]. cbn in *. apply orb_false_iff in E as [E1 E2].
  destruct (f e) eqn:Ef; [by rewrite Hfg in E1|auto].
Qed.

End Delivery.

(** C6: multicast data for an IPv4 group goes to the ports of the entries of
    the group that let its source through and may have the frame: one copy for
    a port however many entries name it, in the order of the chain, with the
    bytes it came with, up to the first of these entries that excludes the UDP
    port of the packet.  A port that is marked when the packet comes gets none.
    The packet is then used up, unless no entry is for it and the bridge does
    not block unknown groups: then nothing is done.  The marks are cleared,
    but when an entry has excluded the port they stay.  There are no packet
    filter hooks and no callbacks of other modules, there is memory for the
    copies, the devices take frames of this length, and the frame holds four
    bytes after its IPv4 header. *)
Theorem igmp_data_reaches_members N nports w i s seen forward routed pip lanppp daddr saddr :
  net_ok N nports -> quiet N -> serving N nports i s seen w -> groups_ok nports w ->
  br_igmp_get_ip_igmp_hdrs s = Ok (Some pip, None, lanppp) ->
  le32_at (mac s) (pip + 16) = Ok daddr -> le32_at (mac s) (pip + 12) = Ok saddr ->
  0 <= pip -> pip + 24 <= zlen (mac s) ->
  br_igmp_control_filter (Some (h_dest s)) daddr = true ->
  let chain := mc_chain (E := mc_fdb_entry) w (br_igmp_mc_fdb_hash N daddr) in
  let '(go, out) := igmp_served N routed s pip daddr saddr chain in
  let status := if out then 1 else if existsb (igmp_claims N routed s daddr saddr) chain then 1
    else if igmp_snooping N =? SNOOPING_BLOCKING_MODE then 1 else 0 in
  exists w', br_igmp_mc_forward N i forward routed w = Ok (status, w') /\
    delivered N nports i s seen (map mc_dst go) out status w w'.
Proof.
  intros HN HQ Hsv [Hg _] Eh Eda Esa Hx0 Hx Ef chain.
  pose proof (igmp_loop_exact N nports HN HQ forward routed i pip chain
    (if igmp_snooping N =? SNOOPING_BLOCKING_MODE then 1 else 0) s daddr saddr seen w Hsv Eda Esa Hx0 Hx
    (Forall_nth _ _ _ Hg)) as Hloop.
  destruct (igmp_served N routed s pip daddr saddr chain) as [go out] eqn:Eg. intros st.
  cut (wp (br_igmp_mc_forward N i forward routed) (fun r w' => r = st /\
    delivered N nports i s seen (map mc_dst go) out r w w') w).
  { intros (r & w' & E & -> & H)%wp_elim. by exists w'. }
  unfold br_igmp_mc_forward, mc_data. apply wp_bind. eapply wp_skb_at; [by apply Hsv|].
  apply wp_bind. eapply wp_lift; [exact Eh|]. apply wp_bind. eapply wp_skb_at; [by apply Hsv|].
  apply wp_bind. eapply wp_lift; [exact Eda|]. rewrite Ef. cbn [negb]. apply wp_bind, wp_gets, wp_bind.
  eapply wp_mono; [exact Hloop|cbv beta]. intros r w1 Hr. eapply (deliver_end N nports i s); [done|exact Hr|].
  intros Hst. unfold igmp_served in Eg. erewrite (nobody _ (igmp_claims N routed s daddr saddr)) in Eg; [by injection Eg as <- _| |done|done].
  intros e He. unfold igmp_claims. by rewrite He.
Qed.

(** ** An example *)

(** A UDP packet from device 0 for the group 239.1.2.3. *)
Definition demo_data : sk_buff :=
  demo_frame [1; 0; 94; 1; 2; 3] 0x0800
    ([0x45; 0; 0; 72; 0; 0; 0; 0; 64; 17; 0; 0; 10; 0; 0; 9; 239; 1; 2; 3] ++ replicate 52 7).
Definition demo_source : Z := 0x0900000a.
Definition demo_group : Z := 0x030201ef.

(** Two entries for port 1, for all sources but one, one for port 0, for all
    but the source of the packet, and one for port 2, for that source alone. *)
Definition demo_member (p : nat) (src mode : Z) : mc_fdb_entry :=
  mk_mc p demo_group demo_group [mk_rep 1 100000] src mode 0 MCPD_IF_TYPE_BRIDGED true 0 (-1) 0 3.
Definition demo_plain : net := demo_net (fun _ => []) false.
Definition demo_listened : world :=
  set_mc_chain (br_igmp_mc_fdb_hash demo_plain demo_group)
    [demo_member 1 17 MCAST_EXCLUDE; demo_member 0 demo_source MCAST_EXCLUDE; demo_member 1 18 MCAST_EXCLUDE;
     demo_member 2 demo_source MCAST_INCLUDE]
    (demo_world (demo_fdb FORWARDING) demo_data free_slots).

Ltac demo_serving := split; try reflexivity;
  [intros [|j] Hj; [cbn in Hj; lia|]; cbn; by rewrite lookup_singleton_ne
  |unfold room; vm_compute; discriminate
  |cbn; lia
  |eexists _, None, _; by vm_compute
  |split; [reflexivity|]; intros [|[|[|p]]] x Hp; cbn in *; [intros [= <-]; vm_compute; discriminate..|lia]].

(** One copy, for port 1; port 2 is blocked. *)
Lemma igmp_data_reaches_members_witness : exists w',
  br_igmp_mc_forward demo_plain 0 true false demo_listened = Ok (1, w') /\
  delivered demo_plain 3 0 demo_data [] [1; 1; 2]%nat false 1 demo_listened w' /\
  map dev (xmitted (trace w')) = [1%nat].
Proof.
  pose proof (igmp_data_reaches_members demo_plain 3 demo_listened 0 demo_data [] true false 14 (Some 0)
    demo_group demo_source) as H. cbv zeta in H.
  assert (Es : igmp_served demo_plain false demo_data 14 demo_group demo_source
      (mc_chain demo_listened (br_igmp_mc_fdb_hash demo_plain demo_group)) =
    ([demo_member 1 17 MCAST_EXCLUDE; demo_member 1 18 MCAST_EXCLUDE; demo_member 2 demo_source MCAST_INCLUDE], false))
    by (vm_compute; reflexivity).
  rewrite Es in H. clear Es. destruct H as (w' & E & D).
  - by apply demo_net_ok.
  - by split.
  - demo_serving.
  - split; [|by vm_compute; repeat constructor]. vm_compute. repeat constructor.
  - vm_compute. reflexivity.
  - vm_compute. reflexivity.
  - vm_compute. reflexivity.
  - lia.
  - vm_compute. discriminate.
  - vm_compute. reflexivity.
  - exists w'. split; [by rewrite E; vm_compute|]. split; [exact D|].
    destruct D as [(ss & Hx & Hd & _) _]. rewrite Hx. change (trace demo_listened) with (@nil ev). cbn [xmitted omap list_omap app]. rewrite Hd. by vm_compute.
Defined.

(** C27: multicast data for an IPv6 group goes to the ports of the entries of
    the group that let its source through and may have the frame: one copy for
    a port, in the order of the chain, with the bytes it came with; a port that
    is marked when the packet comes gets none.  The packet is then used up and
    the marks are cleared, unless no entry is for it and the bridge does not
    block unknown groups: then nothing is done.  There are no packet filter
    hooks and no callbacks of other modules, there is memory for the copies,
    and the devices take frames of this length. *)
Theorem mld_data_reaches_members N nports w i s seen forward routed pip lanppp daddr saddr :
  net_ok N nports -> quiet N -> serving N nports i s seen w -> groups_ok nports w ->
  br_mld_get_ip_icmp_hdrs s = Ok (Some pip, None, lanppp) ->
  addr6_at (mac s) (pip + 24) = Ok daddr -> addr6_at (mac s) (pip + 8) = Ok saddr ->
  let chain := nth (br_mld_mc_fdb_hash N daddr) (mld_mc_hash w) [] in
  let status := if existsb (mld_claims N routed s daddr saddr) chain then 1
    else if (mld_snooping N =? SNOOPING_BLOCKING_MODE) && br_mld_control_filter (Some (h_dest s)) daddr then 1
    else 0 in
  exists w', br_mld_mc_forward N i forward routed w = Ok (status, w') /\
    delivered N nports i s seen (map mld_dst (List.filter (mld_wants N routed s daddr saddr) chain)) false status w w'.
Proof.
  intros HN HQ Hsv [_ Hg] Eh Eda Esa chain st.
  cut (wp (br_mld_mc_forward N i forward routed) (fun r w' => r = st /\ delivered N nports i s seen
    (map mld_dst (List.filter (mld_wants N routed s daddr saddr) chain)) false r w w') w).
  { intros (r & w' & E & -> & H)%wp_elim. by exists w'. }
  unfold br_mld_mc_forward, mld_data. apply wp_bind. eapply wp_skb_at; [by apply Hsv|].
  apply wp_bind. eapply wp_lift; [exact Eh|]. apply wp_bind. eapply wp_skb_at; [by apply Hsv|].
  apply wp_bind. eapply wp_lift; [exact Eda|]. apply wp_bind, wp_gets, wp_bind.
  eapply wp_mono; [by apply (mld_loop_exact N nports HN HQ forward routed i pip chain _ s daddr saddr seen);
    [..|apply Forall_nth]|cbv beta].
  intros r w1 Hr. apply (deliver_end N nports i s seen _ false st r w w1); [done|exact Hr|].
  intros Hst. erewrite (nobody _ (mld_claims N routed s daddr saddr)); [done| |by unfold st|done].
  intros e He. unfold mld_claims. by rewrite He.
Qed.

Definition demo_group6 : list Z := [0xff; 0x0e; 0; 0; 0; 0; 0; 0; 0; 0; 0; 0; 0; 0; 0; 1].
Definition demo_source6 : list Z := [0xfe; 0x80; 0; 0; 0; 0; 0; 0; 0; 0; 0; 0; 0; 0; 0; 9].
Definition demo_data6 : sk_buff :=
  demo_frame [0x33; 0x33; 0; 0; 0; 1] 0x86dd
    ([0x60; 0; 0; 0; 0; 40; 17; 64] ++ demo_source6 ++ demo_group6 ++ replicate 40 7).
Definition demo_member6 (p : nat) (src : list Z) (mode : Z) : mld_fdb_entry :=
  mk_mld p demo_group6 [mk_rep demo_source6 100000] src mode 0 MCPD_IF_TYPE_BRIDGED true 0 3.
Definition demo_listened6 : world :=
  set_mld_mc_hash (<[br_mld_mc_fdb_hash demo_plain demo_group6 :=
      [demo_member6 1 (replicate 16 0) MCAST_EXCLUDE; demo_member6 0 demo_source6 MCAST_EXCLUDE;
       demo_member6 1 demo_source6 MCAST_INCLUDE]]> (replicate 256 []))
    (demo_world (demo_fdb FORWARDING) demo_data6 free_slots).

Lemma mld_data_reaches_members_witness : exists w',
  br_mld_mc_forward demo_plain 0 true false demo_listened6 = Ok (1, w') /\
  delivered demo_plain 3 0 demo_data6 [] [1; 1]%nat false 1 demo_listened6 w' /\
  map dev (xmitted (trace w')) = [1%nat].
Proof.
  destruct (mld_data_reaches_members demo_plain 3 demo_listened6 0 demo_data6 [] true false 14 (Some 0)
    demo_group6 demo_source6) as (w' & E & D).
  - by apply demo_net_ok.
  - by split.
  - demo_serving.
  - split; vm_compute; repeat constructor.
  - vm_compute. reflexivity.
  - vm_compute. reflexivity.
  - vm_compute. reflexivity.
  - exists w'. split; [by rewrite E; vm_compute|]. split; [exact D|].
    destruct D as [(ss & Hx & Hd & _) _]. rewrite Hx. change (trace demo_listened6) with (@nil ev).
    cbn [xmitted omap list_omap app]. rewrite Hd. by vm_compute.
Defined.
