(* ===== verification/BrGroups.v ===== *)
(** The table of IPv4 groups: what the requests of the daemon, the timer and
    changes of interfaces do to it, and the invariant they keep. *)

From S2P Require Import Prelude Str Stp Fdb Bridge BrExample BrWp BrForward BrForwardProps.
From S2P Require Import Groups GroupsProps GroupsServe BrIgmp BrIgmpProps.

(** ** The table as a [GroupTable] *)

#[export] Instance igmp_key : GroupKey (Z * Z * Z * Z * nat * nat) := {
  key_hash N k := br_igmp_mc_fdb_hash N (fst (fst (fst (fst (fst k)))));
  key_snooped k := br_igmp_control_filter None (fst (fst (fst (fst (fst k)))));
  key_mode k := snd (fst (fst k));
  key_from k := snd (fst k);
  key_dst k := snd k
}.

#[export] Instance igmp_frame : GroupFrame mc_fdb_entry := {
  set_mc_timer := set_igmp_timer;
  mc_frame w w' := w' = set_igmp_timer (igmp_timer w') (set_mc_hash (mc_hash w') (set_trace (trace w') w))
}.

Lemma mc_hash_lt N grp : (br_igmp_mc_fdb_hash N grp < Z.to_nat BR_HASH_SIZE)%nat.
Proof.
  unfold br_igmp_mc_fdb_hash. change (BR_IGMP_HASH_SIZE - 1) with (Z.ones 8). rewrite Z.land_ones by lia.
  change BR_HASH_SIZE with (2 ^ 8). pose proof (Z.mod_pos_bound (jhash_1word grp (br_igmp_mc_fdb_salt N)) (2 ^ 8)). lia.
Qed.

#[export] Instance igmp_laws : GroupLaws mc_fdb_entry Z (Z * Z * Z * Z * nat * nat).
Proof.
  split; try done.
  - apply Z.eqb_eq.
  - by intros [].
  - intros N k. apply mc_hash_lt.
  - intros w. by destruct w.
  - intros w w1 w2 H1 H2. rewrite H2, H1. done.
  - by intros w w' ->.
Qed.

Lemma same_entry_key x e :
  same_entry x (mc_dst e) (rxGrp e) (txGrp e) (filt_mode e) (mc_src e) (from_dev e) = same_key e x.
Proof.
  symmetry. destruct (same_entry _ _ _ _ _ _ _) eqn:E.
  - apply bool_decide_eq_true. cbn. unfold same_entry in E. bsimp. repeat match goal with
    | H : Nat.eqb _ _ = true |- _ => apply Nat.eqb_eq in H end. congruence.
  - apply bool_decide_eq_false. cbn. intros [= H1 H2 H3 H4 H5 H6]. unfold same_entry in E.
    by rewrite H1, H2, H3, H4, H5, H6, !Z.eqb_refl, !Nat.eqb_refl in E.
Qed.

Section Table.
Context (N : net) (nports : nat) (HN : net_ok N nports).
Implicit Types (w : world) (e : mc_fdb_entry).

Abbreviation del := (br_igmp_mc_fdb_del_entry N).
Abbreviation set_timer := (br_igmp_set_timer N).
Abbreviation process := (br_mcast_blog_process N).
Abbreviation groups_wf := (groups_wf N nports).
Abbreviation entry_wf := (entry_wf N nports).
Abbreviation served := (served N nports).
Abbreviation thinned := (thinned N nports).

(** The ports are those of the table. *)
Abbreviation sized := (fun t => length (ports (br (stp_of t))) = nports).

Lemma tabled_id w : tabled (mc_hash w) w w.
Proof. exact (tabled_refl w). Qed.

Lemma send_purge e x w : in_table N nports e -> nports_of w = nports ->
  wp (mcpd_nl_send_igmp_purge_entry N e x) (fun _ w' => tabled (mc_hash w) w w') w.
Proof.
  intros (h & He) Hp. unfold mcpd_nl_send_igmp_purge_entry. destruct (_ && _); [|apply wp_ret, tabled_id].
  destruct (port_of_ok nports (mc_dst e) w Hp) as (pt & _ & Hpt); [by destruct He|]. apply wp_bind, Hpt, wp_modify.
  exact (tabled_emit (PurgeEntry (txGrp e) (rep x)) w I).
Qed.

Lemma for_each_purge e (l : list (mc_rep_entry Z)) w : in_table N nports e -> nports_of w = nports ->
  wp (for_each l (mcpd_nl_send_igmp_purge_entry N e)) (fun _ w' => tabled (mc_hash w) w w') w.
Proof.
  intros He. revert w. induction l as [|x l IH]; intros w Hp; [apply wp_ret, tabled_id|]. cbn [for_each].
  apply wp_bind. eapply wp_mono; [by apply send_purge|cbv beta]. intros _ w1 H1.
  destruct (tabled_same _ _ _ H1) as [Ht Hg]. cbn [mc_table igmp_table] in Hg.
  eapply wp_mono; [apply IH; by unfold nports_of in *; rewrite Ht|cbv beta]. rewrite Hg. intros _ w' H. by eapply tabled_trans.
Qed.

Lemma del_spec e r w : in_table N nports e -> nports_of w = nports ->
  wp (del e r) (fun o w' => o = without r e /\ tabled (mc_hash w) w w') w.
Proof.
  intros Hin Hp. unfold br_igmp_mc_fdb_del_entry, without. change (rep_list e) with (mc_reps e).
  destruct (del_reps (mc_reps e) r) as [gone l] eqn:E.
  assert (l = match r with None => [] | Some a => snd (del_reps (mc_reps e) (Some a)) end) as <-.
  { destruct r as [a|]; [by rewrite E|]. rewrite del_reps_none in E. by injection E. }
  apply wp_bind. destruct (nonzero _).
  - eapply wp_mono; [by apply for_each_purge|cbv beta]. intros _ w' H. by apply wp_ret.
  - apply wp_ret, wp_ret. split; [done|apply tabled_id].
Qed.

Lemma timer_spec (Q : unit -> world -> Prop) w :
  (forall tm, Q tt (set_mc_timer mc_fdb_entry tm w)) -> wp set_timer Q w.
Proof. apply set_timer_spec. Qed.

(** ** Waiting packets *)

(** Every waiting packet is a buffer of its own, with one reference. *)
Definition waiting (l : list (option nat * Z)) : list nat := omap fst l.
Definition delayed_ok w : Prop :=
  NoDup (waiting (igmp_delayed_skb w)) /\
  forall i, i ∈ waiting (igmp_delayed_skb w) -> exists s, heap w !! i = Some s /\ users s = 1.

Definition frees (b : nat -> Z -> bool) (x : option nat * Z) : option nat :=
  match fst x with Some i => if b i (snd x) then Some i else None | None => None end.
Definition cleared (b : nat -> Z -> bool) (x : option nat * Z) : option nat * Z :=
  match frees b x with Some _ => (None, 0) | None => x end.

(** The heap without the buffers [l]. *)
Fixpoint off_heap (l : list nat) (h : gmap nat sk_buff) : gmap nat sk_buff :=
  match l with [] => h | i :: l => off_heap l (delete i h) end.

Lemma off_heap_lookup l h j : off_heap l h !! j = if bool_decide (j ∈ l) then None else h !! j.
Proof.
  revert h. induction l as [|i l IH]; intros h; cbn.
  { case_bool_decide as Hj; [by apply elem_of_nil in Hj|done]. }
  rewrite IH. destruct (decide (j = i)) as [->|Hne].
  - rewrite lookup_delete_eq. rewrite (bool_decide_eq_true_2 (i ∈ i :: l)) by (apply elem_of_cons; by left).
    by case_bool_decide.
  - rewrite lookup_delete_ne by done. erewrite bool_decide_ext; [done|]. rewrite elem_of_cons. split; [by right|by intros [?|?]].
Qed.

Lemma free_pending_spec P b l w : NoDup (waiting l) ->
  (forall i, i ∈ waiting l -> exists s, heap w !! i = Some s /\ users s = 1) ->
  (forall i t w1, tbl w1 = tbl w -> heap w1 !! i = heap w !! i -> i ∈ waiting l -> P i t w1 = Ok (b i t, w1)) ->
  wp (free_pending P l) (fun l' w' => l' = map (cleared b) l /\
    moved off (off_heap (omap (frees b) l) (heap w)) w w') w.
Proof.
  revert w. induction l as [|[[i|] t] l IH]; intros w Hn Hh HP; cbn [free_pending].
  - apply wp_ret. split; [done|]. apply moved_refl.
  - cbn in Hn. apply NoDup_cons in Hn as [Hi Hn].
    assert (Hin : forall j, j ∈ waiting l -> j ∈ waiting ((Some i, t) :: l)) by (intros j Hj; apply elem_of_cons; by right).
    assert (Hi0 : i ∈ waiting ((Some i, t) :: l)) by (apply elem_of_cons; by left).
    destruct (Hh i Hi0) as (s & Es & Hu). apply wp_bind, wp_bind. eapply wp_Ok; [by apply HP|].
    cbn [map omap list_omap]. unfold frees at 1, cleared at 1, frees at 1. cbn [fst snd].
    destruct (b i t) eqn:Eb.
    + apply wp_bind. eapply wp_kfree_skb; [done..|]. apply wp_ret, wp_bind.
      assert (Hne : forall j, j ∈ waiting l -> delete i (heap w) !! j = heap w !! j).
      { intros j Hj. apply lookup_delete_ne. by intros ->. }
      eapply wp_mono; [apply (IH (given i (Freed s) w)); [done| |]|cbv beta].
      * intros j Hj. cbn. rewrite Hne by done. by apply Hh, Hin.
      * intros j t' w1 Ht Hj Hjl. cbn in Hj. rewrite Hne in Hj by done. by apply HP; [..|apply Hin].
      * intros l' w' [-> Hm]. apply wp_ret. split; [done|].
        eapply (moved_trans off off); [done| |exact Hm]. by apply moved_given.
    + apply wp_ret, wp_bind. eapply wp_mono; [apply (IH w); [done| |]|cbv beta].
      * intros j Hj. by apply Hh, Hin.
      * intros j t' w1 Ht Hj Hjl. by apply HP; [..|apply Hin].
      * intros l' w' [-> Hm]. by apply wp_ret.
  - apply wp_bind, wp_ret, wp_bind. eapply wp_mono; [by apply IH|cbv beta]. intros l' w' [-> H]. by apply wp_ret.
Qed.

Lemma waiting_split b l : waiting (map (cleared b) l) ++ omap (frees b) l ≡ₚ waiting l.
Proof.
  induction l as [|[[i|] t] l IH]; [done| |done]. cbn [map omap list_omap waiting].
  unfold cleared at 1, frees at 1 2. cbn [fst snd]. destruct (b i t); cbn.
  - by rewrite <- Permutation_middle, IH.
  - by constructor.
Qed.

(** The packets that [b] holds of are freed, and their slots are free. *)
Definition released (b : nat -> Z -> bool) w w' : Prop :=
  exists w1, moved off (off_heap (omap (frees b) (igmp_delayed_skb w)) (heap w)) w w1 /\
    w' = set_delayed (map (cleared b) (igmp_delayed_skb w)) w1.

Lemma released_ok b w w' : released b w w' -> delayed_ok w -> delayed_ok w'.
Proof.
  intros (w1 & Hm & ->) [Hn Hh]. pose proof (waiting_split b (igmp_delayed_skb w)) as Hp.
  rewrite <- Hp in Hn. apply NoDup_app in Hn as (H1 & H2 & _). split; [done|]. cbn. intros i Hi.
  destruct (Hh i) as (s & Es & Hu). { rewrite <- Hp. apply elem_of_app. by left. }
  exists s. split; [|done]. destruct Hm as (? & ? & ? & _ & _ & ->). cbn. rewrite off_heap_lookup.
  rewrite bool_decide_eq_false_2; [done|]. by apply H2.
Qed.

Lemma free_delayed_spec P b w : delayed_ok w ->
  (forall i t w1, tbl w1 = tbl w -> heap w1 !! i = heap w !! i -> i ∈ waiting (igmp_delayed_skb w) ->
    P i t w1 = Ok (b i t, w1)) ->
  wp (free_delayed P) (fun _ w' => released b w w' /\ delayed_ok w') w.
Proof.
  intros Hw HP. unfold free_delayed. apply wp_bind, wp_gets, wp_bind. pose proof Hw as [Hn Hh].
  eapply wp_mono; [by apply (free_pending_spec P b)|cbv beta]. intros l' w1 [-> Hm]. apply wp_modify.
  assert (Hr : released b w (set_delayed (map (cleared b) (igmp_delayed_skb w)) w1)) by (by exists w1).
  split; [done|]. by eapply released_ok.
Qed.

(** The packets whose time has passed. *)
Definition overdue w : nat -> Z -> bool := fun _ t => time_before t (now w).

(** The time [br_igmp_set_timer] sets. *)
Definition pending_end w : Z * bool :=
  foldl (fun '(earliest, found) '(skb, expiryTime) =>
    match skb with
    | Some _ => if time_after earliest expiryTime then (expiryTime, true) else (earliest, found)
    | None => (earliest, found)
    end) (u32 (now w + MCPD_NETLINK_SKB_TIMEOUT_MS * 2), false) (igmp_delayed_skb w).

Definition timer_of w : timer :=
  let '(pend, found) := pending_end w in
  let t := u32 (now w + BR_IGMP_MEMBERSHIP_TIMEOUT * HZ * 2) in
  if (igmp_snooping N =? 0) && negb found then None
  else
    let t := if found && time_after t pend then pend else t in
    let '(t, found) :=
      if negb (igmp_snooping N =? 0) then earliest_reporter (concat (mc_hash w)) (t, found)
      else (t, found) in
    if found then Some (u32 (t + TIMER_CHECK_TIMEOUT)) else None.

Lemma set_timer_exact Q w : Q tt (set_igmp_timer (timer_of w) w) -> wp (br_igmp_set_timer N) Q w.
Proof.
  unfold br_igmp_set_timer, timer_of, pending_end, now. intros HQ. apply wp_bind, wp_gets.
  unfold br_igmp_get_next_timer_expiry. apply wp_bind, wp_bind, wp_gets, wp_ret.
  unfold id in *. destruct (foldl _ _ _) as [t f]. cbv beta iota.
  destruct (_ && _); [by apply wp_modify|]. apply wp_bind, wp_gets. unfold id.
  destruct (if negb (igmp_snooping N =? 0) then _ else _) as [t' f']. by destruct f'.
Qed.

(** Nothing is sent or handed to the host. *)
Definition silent (x : ev) : Prop := match x with Xmit _ | Receive _ => False | _ => True end.

Lemma silent_off x : off x -> silent x.
Proof. by destruct x. Qed.

Lemma silent_told x : told x -> silent x.
Proof. by destruct x. Qed.

(** [br_igmp_timeout]: what it leaves of the table and of the waiting packets. *)
Record timed_out w w' : Prop := mk_timed_out {
  to_groups : mc_hash w' = map (omap (expire (now w))) (mc_hash w);
  to_slots : igmp_delayed_skb w' = map (cleared (overdue w)) (igmp_delayed_skb w);
  to_heap : heap w' = off_heap (omap (frees (overdue w)) (igmp_delayed_skb w)) (heap w);
  to_timer : igmp_timer w' = timer_of w';
  to_tbl : tbl w' = tbl w;
  to_trace : exists l, trace w' = trace w ++ l /\ Forall silent l;
  to_others : dirty w' = dirty w /\ mld_mc_hash w' = mld_mc_hash w /\ (next_skb w <= next_skb w')%nat
}.

Lemma timeout_spec w : groups_wf (mc_hash w) -> delayed_ok w -> nports_of w = nports ->
  wp (br_igmp_timeout N) (fun _ w' => timed_out w w' /\ groups_wf (mc_hash w') /\ delayed_ok w') w.
Proof.
  intros Hg Hd Hp. unfold br_igmp_timeout. apply wp_bind.
  eapply wp_mono; [by apply (query_timeout_spec N nports sized _ del_spec)|cbv beta].
  intros _ w1 [[Ht1 Hf1 (tr & Htr & Etr)] Hg1]. cbn [mc_table igmp_table] in *. rewrite Hf1 in *. clear Hf1.
  cbn [mc_hash set_igmp_timer set_mc_hash set_trace trace] in Ht1, Etr, Hg1 |- *. rewrite Ht1, Etr in *. apply wp_bind.
  eapply wp_mono; [apply (free_delayed_spec _ (overdue w))|cbv beta].
  - exact Hd.
  - intros i t w2 Ht _ _. unfold now_of, gets, overdue, now, mbind, M_bind, mret, M_ret. by rewrite Ht.
  - intros _ w2 [(w3 & (l & n & st & Hl & Hn & ->) & ->) Hd2]. apply set_timer_exact. split; [|done]. split; try done.
    exists (tr ++ l). split; [cbn; by rewrite app_assoc|]. apply Forall_app.
    split; eapply Forall_impl; [done|apply silent_told|done|apply silent_off].
Qed.

(** [br_igmp_timeout] ends exactly the memberships whose time has come,
    drops the entries without members, frees exactly the waiting packets whose
    time has passed, each once, and sets the timer for what is left. *)
Theorem br_igmp_timeout_exact w : groups_wf (mc_hash w) -> delayed_ok w -> nports_of w = nports ->
  exists w', br_igmp_timeout N w = Ok (tt, w') /\ timed_out w w' /\ groups_wf (mc_hash w') /\ delayed_ok w'.
Proof. intros Hg Hd Hp. destruct (wp_elim _ _ _ (timeout_spec w Hg Hd Hp)) as ([] & w' & E & H). by exists w'. Qed.

(** ** Requests *)

Lemma served_same w w' : served w w' -> groups_wf (mc_hash w') /\ tbl w' = tbl w /\ heap w' = heap w /\
  igmp_delayed_skb w' = igmp_delayed_skb w /\ dirty w' = dirty w /\ mld_mc_hash w' = mld_mc_hash w /\
  next_skb w' = next_skb w.
Proof. intros [[_ Hf _] Hg]. split; [done|]. cbn in Hf. by rewrite Hf. Qed.

(** The guards of a request to leave. *)
Definition leave_accepted (from : nat) (rxG txG mode : Z) : bool :=
  br_igmp_control_filter None txG && br_igmp_control_filter None rxG &&
  match netdev_path_is_leaf N from with Ok leaf => leaf | Fault _ => false end &&
  ((mode =? SNOOP_IN_CLEAR) || (mode =? SNOOP_EX_CLEAR)).

Lemma remove_spec from prt rxG txG r mode src w : groups_wf (mc_hash w) -> nports_of w = nports ->
  (from < length (devs N))%nat ->
  let h := br_igmp_mc_fdb_hash N txG in
  let filt := if mode =? SNOOP_IN_CLEAR then MCAST_INCLUDE else MCAST_EXCLUDE in
  let f := del_if (fun e => same_entry e prt rxG txG filt src from) (Some r) in
  wp (br_igmp_mc_fdb_remove N from prt rxG txG r mode src) (fun _ w' => served w w' /\
    mc_hash w' = if leave_accepted from rxG txG mode then <[h := omap f (mc_chain w h)]> (mc_hash w)
                 else mc_hash w) w.
Proof.
  intros Hg Hp Hf h filt f. unfold br_igmp_mc_fdb_remove, leave_accepted.
  pose proof (served_refl (E := mc_fdb_entry) N nports w Hg) as H0.
  destruct (br_igmp_control_filter None txG); cbn [negb andb]; [|by apply wp_ret].
  destruct (br_igmp_control_filter None rxG); cbn [negb andb]; [|by apply wp_ret]. unfold netdev_path_is_leaf.
  destruct (dev_at_ok N from Hf) as (x & -> & _). apply wp_bind. eapply wp_lift; [done|]. cbn [mbind res_bind].
  destruct (refcount x =? 0); cbn [negb andb]; [|by apply wp_ret]. rewrite <- negb_orb.
  destruct (_ || _); cbn [negb]; [|by apply wp_ret].
  apply wp_seq_ret. by apply (chain_del N nports sized _ _ del_spec timer_spec _ (Some r) h w Hg Hp (mc_hash_lt N txG)).
Qed.

(** The entries an interface change removes. *)
Definition changed (ndev : option nat) e : bool := match ndev with None => true | Some d => on_device N d e end.

Lemma if_change_spec ndev w : groups_wf (mc_hash w) -> nports_of w = nports ->
  wp (br_igmp_process_if_change N ndev) (fun _ w' => thinned (del_if (changed ndev) None) w w') w.
Proof. intros Hg Hp. by apply (thin_del N nports sized _ _ del_spec timer_spec (changed ndev) None w). Qed.

Lemma cleanup_spec w : groups_wf (mc_hash w) -> nports_of w = nports ->
  wp (br_igmp_mc_fdb_cleanup N) (fun _ w' => thinned (del_if (fun _ => true) None) w w') w.
Proof. intros Hg Hp. by apply (thin_del N nports sized _ _ del_spec timer_spec (fun _ => true) None w). Qed.

(** The number of the port of an entry. *)
Definition port_no_of w (p : nat) : Z :=
  match ports (br (stp_of (tbl w))) !! p with Some pt => port_no pt | None => 0 end.

Definition reports_on w (r port : Z) e : bool :=
  (port_no_of w (mc_dst e) =? port) && match rep_find e r with None => false | Some _ => true end.

Lemma wipe_spec r port w : groups_wf (mc_hash w) -> nports_of w = nports ->
  wp (br_igmp_wipe_reporter_for_port N r port) (fun _ w' => thinned (del_if (reports_on w r port) (Some r)) w w') w.
Proof.
  intros Hg Hp. eapply (thin_served N nports _ timer_spec); [done| |apply thins_del].
  intros e w1 Hin Ht. assert (Hp1 : nports_of w1 = nports) by by apply (R_tbl sized w).
  destruct (port_of_ok nports (mc_dst e) w1 Hp1) as (pt & Ept & Hpt); [by destruct Hin as (h & [])|].
  apply wp_bind, Hpt. unfold del_if, reports_on, port_no_of. rewrite <- Ht, Ept.
  change (br_igmp_rep_find e r) with (rep_find e r).
  destruct (_ && _); [by apply del_spec|]. apply wp_ret. split; [done|exact (tabled_refl w1)].
Qed.

Definition end_of w : Z := u32 (now w + BR_IGMP_MEMBERSHIP_TIMEOUT * HZ).

(** The guards of a request to join. *)
Definition join_accepted (from : nat) (rxG txG mode : Z) : bool :=
  br_igmp_control_filter None rxG && br_igmp_control_filter None txG &&
  match netdev_path_is_leaf N from with Ok leaf => leaf | Fault _ => false end &&
  ((mode =? SNOOP_IN_ADD) || (mode =? SNOOP_EX_ADD)) && mc_alloc N && rep_alloc N.

Definition join_entry w (from : nat) (ops : Z) (prt : nat) (rxG txG r mode tci src lanppp excl rtp : Z) : mc_fdb_entry :=
  mk_mc prt rxG txG [mk_rep r (end_of w)] src
    (if mode =? SNOOP_IN_ADD then MCAST_INCLUDE else MCAST_EXCLUDE) tci (u8 ops) true lanppp excl rtp from.

Lemma add_spec from ops prt rxG txG r mode tci src lanppp excl rtp w :
  groups_wf (mc_hash w) -> (from < length (devs N))%nat -> (prt < nports)%nat ->
  let h := br_igmp_mc_fdb_hash N txG in
  let e := join_entry w from ops prt rxG txG r mode tci src lanppp excl rtp in
  wp (br_igmp_mc_fdb_add N from ops prt rxG txG r mode tci src lanppp excl rtp) (fun ret w' => served w w' /\
    mc_hash w' = if join_accepted from rxG txG mode
                 then <[h := join_chain N process e r (end_of w) (mc_chain w h)]> (mc_hash w)
                 else mc_hash w) w.
Proof.
  intros Hg Hf Hp h e. pose proof (served_refl (E := mc_fdb_entry) N nports w Hg) as H0.
  unfold br_igmp_mc_fdb_add, join_accepted.
  destruct (br_igmp_control_filter None rxG); [|by apply wp_ret].
  destruct (br_igmp_control_filter None txG) eqn:Eg; [cbn [negb orb andb]|by apply wp_ret].
  unfold netdev_path_is_leaf. destruct (dev_at_ok N from Hf) as (x & -> & _). cbn [mbind res_bind].
  apply wp_bind. eapply wp_lift; [done|]. destruct (refcount x =? 0); cbn [negb andb]; [|by apply wp_ret].
  rewrite <- negb_orb. destruct ((mode =? SNOOP_IN_ADD) || (mode =? SNOOP_EX_ADD)); cbn [negb andb]; [|by apply wp_ret].
  destruct (mc_alloc N) eqn:Em; cbn [negb andb]; [|by apply wp_ret].
  destruct (rep_alloc N) eqn:Ea; cbn [negb andb]; [|by apply wp_ret].
  assert (He : entry_wf h e).
  { split; try done; [by cbn; destruct (mode =? SNOOP_IN_ADD); [left|right]|apply NoDup_singleton]. }
  assert (HP : forall y, same_entry y prt rxG txG (filt_mode e) src from = same_key e y)
    by (intros y; exact (same_entry_key y e)).
  unfold br_mc_fdb_update. fold h.
  eapply wp_mono.
  - exact (join_spec N nports set_timer process timer_spec (fun y => same_entry y prt rxG txG (filt_mode e) src from)
      BR_IGMP_MEMBERSHIP_TIMEOUT (fun t => mk_mc prt rxG txG [mk_rep r t] src
        (if mode =? SNOOP_IN_ADD then MCAST_INCLUDE else MCAST_EXCLUDE) tci (u8 ops) true lanppp excl rtp from)
      r w (end_of w) e h Hg eq_refl eq_refl eq_refl HP He).
  - done.
Qed.

Lemma update_dev_spec d flush w : groups_wf (mc_hash w) -> nports_of w = nports -> (d < length (devs N))%nat ->
  wp (br_igmp_mc_fdb_update_bydev N d flush) (fun _ w' => served w w' /\
    updated N process d flush (mc_hash w) (mc_hash w')) w.
Proof.
  intros Hg Hp Hd. by apply (update_dev_guarded N nports sized _ _ process del_spec timer_spec).
Qed.

(** For a device on which no other is stacked. *)
Lemma flush_dev_spec d w : groups_wf (mc_hash w) -> nports_of w = nports -> netdev_path_is_leaf N d = Ok true ->
  wp (br_igmp_mc_fdb_update_bydev N d 1) (fun _ w' => Forall (Forall (fun e => on_device N d e = false)) (mc_hash w')) w.
Proof.
  intros Hg Hp Hl. unfold br_igmp_mc_fdb_update_bydev. apply wp_bind. eapply wp_lift; [exact Hl|].
  by apply (flush_bydev_spec N nports sized _ _ process del_spec timer_spec).
Qed.

(** ** Histories *)

Inductive mc_request : Type :=
  | Join (from : nat) (ops : Z) (prt : nat) (rxG txG r mode tci src lanppp excl rtp : Z)
  | Leave (from prt : nat) (rxG txG r mode src : Z)
  | WipeReporter (r port : Z)
  | IfChange (ndev : option nat)
  | UpdateByDev (d : nat) (flushAll : Z)
  | Cleanup
  | Timeout.

Definition serve (q : mc_request) : M Z :=
  match q with
  | Join from ops prt rxG txG r mode tci src lanppp excl rtp =>
      br_igmp_mc_fdb_add N from ops prt rxG txG r mode tci src lanppp excl rtp
  | Leave from prt rxG txG r mode src => br_igmp_mc_fdb_remove N from prt rxG txG r mode src
  | WipeReporter r port => br_igmp_wipe_reporter_for_port N r port;; mret 0
  | IfChange ndev => br_igmp_process_if_change N ndev;; mret 0
  | UpdateByDev d flushAll => br_igmp_mc_fdb_update_bydev N d flushAll
  | Cleanup => br_igmp_mc_fdb_cleanup N;; mret 0
  | Timeout => br_igmp_timeout N;; mret 0
  end.

(** Requests name ports and devices that exist. *)
Definition request_ok (q : mc_request) : Prop :=
  match q with
  | Join from _ prt _ _ _ _ _ _ _ _ _ => (from < length (devs N))%nat /\ (prt < nports)%nat
  | Leave from _ _ _ _ _ _ => (from < length (devs N))%nat
  | UpdateByDev d _ => (d < length (devs N))%nat
  | _ => True
  end.

(** The bridge at the time [t]. *)
Definition at_time (t : Z) w : world :=
  let s := stp_of (tbl w) in set_tbl (set_stp_of (mk_stp (br s) t (cpu s) (events s)) (tbl w)) w.

Fixpoint mc_run (l : list (Z * mc_request)) w : res world :=
  match l with
  | [] => Ok w
  | (t, q) :: l => '(_, w) ← serve q (at_time t w); mc_run l w
  end.

Definition mc_ok w : Prop := groups_wf (mc_hash w) /\ delayed_ok w /\ nports_of w = nports.

Lemma served_ok w w' : mc_ok w -> served w w' -> mc_ok w'.
Proof.
  intros (Hg & [Hd1 Hd2] & Hp) H. destruct (served_same _ _ H) as (Hg' & Ht & Hh & Hd & _).
  split; [done|]. split; [|unfold nports_of; by rewrite Ht]. unfold delayed_ok. by rewrite Hd, Hh.
Qed.

(** The timer also frees packets; all else changes the table only. *)
Lemma serve_change q w : mc_ok w -> request_ok q -> wp (serve q) (fun _ w' =>
  served w w' \/ timed_out w w' /\ groups_wf (mc_hash w') /\ delayed_ok w') w.
Proof.
  intros (Hg & Hd & Hp) Hq.
  assert (Hs : forall (m : M unit) f, wp m (fun _ w' => thinned f w w') w -> wp (m;; mret 0) (fun _ w' =>
    served w w' \/ timed_out w w' /\ groups_wf (mc_hash w') /\ delayed_ok w') w).
  { intros m f Hm. apply wp_bind. eapply wp_mono; [exact Hm|cbv beta]. intros _ w' [H _]. apply wp_ret. by left. }
  destruct q; cbn [serve request_ok] in *.
  - eapply wp_mono; [by apply add_spec; [|apply Hq..]|cbv beta]. intros ? w' [H _]. by left.
  - eapply wp_mono; [by apply remove_spec|cbv beta]. intros ? w' [H _]. by left.
  - by eapply Hs, wipe_spec.
  - by eapply Hs, if_change_spec.
  - eapply wp_mono; [by apply update_dev_spec|cbv beta]. intros ? w' [H _]. by left.
  - by eapply Hs, cleanup_spec.
  - apply wp_bind. eapply wp_mono; [by apply timeout_spec|cbv beta]. intros _ w' H. apply wp_ret. by right.
Qed.

Lemma serve_spec q w : mc_ok w -> request_ok q -> wp (serve q) (fun _ w' => mc_ok w') w.
Proof.
  intros Hw Hq. eapply wp_mono; [by apply serve_change|cbv beta]. intros ? w' [H|(H & Hg & Hd)]; [by eapply served_ok|].
  split; [done|]. split; [done|]. unfold nports_of. rewrite (to_tbl _ _ H). apply Hw.
Qed.

Lemma mc_run_ok l w : mc_ok w -> Forall (fun x => request_ok (snd x)) l ->
  exists w', mc_run l w = Ok w' /\ mc_ok w'.
Proof.
  intros Hw Hl. revert w Hw. induction Hl as [|[t q] l Hq _ IH]; intros w Hw; [by exists w|].
  destruct (wp_elim _ _ _ (serve_spec q (at_time t w) Hw Hq)) as (a & w1 & E & H1).
  cbn [mc_run]. rewrite E. by apply IH.
Qed.

Lemma empty_ok w : mc_hash w = replicate (Z.to_nat BR_HASH_SIZE) [] -> delayed_ok w ->
  nports_of w = nports -> mc_ok w.
Proof.
  intros H0 Hd Hp. split; [|done]. rewrite H0. apply groups_empty.
Qed.

(** Through every history of requests, interface changes and timer runs,
    at any times, starting with an empty table, no operation on the table of
    groups faults, and the table has its shape: every entry is in the chain its
    group hashes to, is for a group that is snooped and for a port of the
    bridge, and has reporters, each listed once; no two entries other than
    copies are for the same membership; and every waiting packet is a buffer
    that is still there. *)
Theorem groups_history_well_formed l w : mc_hash w = replicate (Z.to_nat BR_HASH_SIZE) [] ->
  delayed_ok w -> nports_of w = nports -> Forall (fun x => request_ok (snd x)) l ->
  exists w', mc_run l w = Ok w' /\ groups_wf (mc_hash w') /\ delayed_ok w'.
Proof.
  intros H0 Hd Hp Hl. destruct (mc_run_ok l w) as (w' & E & Hg & Hd' & _); [by apply empty_ok|done|]. by exists w'.
Qed.

End Table.

(** ** Example *)

(** Two hosts on port 2 and one on port 1 join the group 239.1.1.1, one of them
    leaves, and the timer runs when the first membership has ended. *)
Definition demo_grp : Z := 239 + 256 + 2 ^ 16 + 2 ^ 24.
Definition demo_join (prt : nat) (r : Z) : mc_request :=
  Join 3 MCPD_IF_TYPE_BRIDGED prt demo_grp demo_grp r SNOOP_EX_ADD 0 0 0 (-1) 0.
Definition demo_requests : list (Z * mc_request) :=
  [(1000, demo_join 1 100); (2000, demo_join 1 101); (3000, demo_join 0 102);
   (4000, Leave 3 1 demo_grp demo_grp 101 SNOOP_EX_CLEAR 0); (261500, Timeout)].

Definition demo_start : world :=
  demo_world (demo_fdb FORWARDING) (demo_frame broadcast 0x0800 []) [(Some 0%nat, 3000); (None, 0)].
Abbreviation quiet_net := (demo_net (fun _ => []) false).

Definition members (w : world) : list (list Z) :=
  map (fun e => Z.of_nat (mc_dst e) :: map rep (rep_list e)) (concat (mc_hash w)).

Lemma demo_delayed : delayed_ok demo_start.
Proof.
  split; [apply NoDup_singleton|]. intros i ->%list_elem_of_singleton.
  exists (demo_frame broadcast 0x0800 []). by split.
Qed.

Lemma groups_history_well_formed_witness :
  (exists w', mc_run quiet_net demo_requests demo_start = Ok w' /\
    groups_wf quiet_net 3 (mc_hash w') /\ delayed_ok w') /\
  match mc_run quiet_net demo_requests demo_start with
  | Ok w' => members w' = [[0; 102]] /\ igmp_delayed_skb w' = [(None, 0); (None, 0)]
  | Fault _ => False
  end.
Proof.
  split; [|by vm_compute].
  apply (groups_history_well_formed quiet_net 3 demo_requests demo_start);
    [done|exact demo_delayed|done|by repeat constructor; cbn; lia].
Defined.

(** The bridge before the timer runs. *)
Definition demo_joined : world := Eval vm_compute in
  match mc_run quiet_net (take 4 demo_requests) demo_start with
  | Ok w => at_time 261500 w
  | Fault _ => demo_start
  end.

Lemma demo_joined_ok : mc_ok quiet_net 3 demo_joined.
Proof.
  destruct (mc_run_ok quiet_net 3 (take 4 demo_requests) demo_start) as (w' & E & H).
  - apply empty_ok; [done|exact demo_delayed|done].
  - by repeat constructor; cbn; lia.
  - assert (Ev : match mc_run quiet_net (take 4 demo_requests) demo_start with
      | Ok w => at_time 261500 w | Fault _ => demo_start end = demo_joined) by (vm_compute; reflexivity).
    rewrite E in Ev. rewrite <- Ev. exact H.
Qed.

Lemma br_igmp_timeout_exact_witness : exists w', br_igmp_timeout quiet_net demo_joined = Ok (tt, w') /\
  timed_out quiet_net demo_joined w' /\ groups_wf quiet_net 3 (mc_hash w') /\ delayed_ok w'.
Proof. apply (br_igmp_timeout_exact quiet_net 3 demo_joined); apply demo_joined_ok. Defined.
