(* ===== verification/BrMldProps.v ===== *)
(** The table of IPv6 groups: what the requests of the daemon, the timer and
    changes of interfaces do to it, the invariant they keep and the set of
    memberships they implement. *)

From S2P Require Import Prelude Str Stp StpSelect StpSafety Fdb Bridge BrExample BrWp BrForward BrForwardProps.
From S2P Require Import Groups GroupsProps GroupsServe GroupsExpiry BrIgmp BrIgmpProps BrMld BrGroups.

(** ** The table as a [GroupTable] *)

Abbreviation mld_membership := (list Z * list Z * Z * nat * nat)%type.

#[export] Instance mld_key : GroupKey mld_membership := {
  key_hash N k := br_mld_mc_fdb_hash N (fst (fst (fst (fst k))));
  key_snooped k := br_mld_control_filter None (fst (fst (fst (fst k)))) ||
    BCM_IN6_IS_ADDR_L2_MCAST (fst (fst (fst (fst k))));
  key_mode k := snd (fst (fst k));
  key_from k := snd (fst k);
  key_dst k := snd k
}.

#[export] Instance mld_frame : GroupFrame mld_fdb_entry := {
  set_mc_timer := set_mld_timer;
  mc_frame w w' := w' = set_mld_timer (mld_timer w') (set_mld_mc_hash (mld_mc_hash w') (set_trace (trace w') w))
}.

Lemma mld_hash_lt N grp : (br_mld_mc_fdb_hash N grp < Z.to_nat BR_HASH_SIZE)%nat.
Proof.
  unfold br_mld_mc_fdb_hash. change (BR_HASH_SIZE - 1) with (Z.ones 8). rewrite Z.land_ones by lia.
  change BR_HASH_SIZE with (2 ^ 8).
  pose proof (Z.mod_pos_bound (jhash_1word (Z.lor (word_of grp 0) (word_of grp 12)) (br_mld_mc_fdb_salt N)) (2 ^ 8)). lia.
Qed.

(** Conversion unfolds the hash last. *)
#[local] Strategy 100 [br_mld_mc_fdb_hash].

#[export] Instance mld_laws : GroupLaws mld_fdb_entry (list Z) mld_membership.
Proof.
  split; try done.
  - intros a b. apply bool_decide_eq_true.
  - by intros [].
  - intros N k. apply mld_hash_lt.
  - intros w. by destruct w.
  - intros w w1 w2 H1 H2. rewrite H2, H1. done.
  - by intros w w' ->.
Qed.

Lemma same_mld_key x e : same_mld x (mld_dst e) (mld_grp e) (mld_filt_mode e) (mld_src e) (mld_from_dev e) = same_key e x.
Proof.
  symmetry. unfold same_mld, same_key, BCM_IN6_ARE_ADDR_EQUAL. destruct (_ && _) eqn:E.
  - apply bool_decide_eq_true. cbn. bsimp. repeat match goal with
    | H : Nat.eqb _ _ = true |- _ => apply Nat.eqb_eq in H
    | H : bool_decide _ = true |- _ => apply bool_decide_eq_true in H end. congruence.
  - apply bool_decide_eq_false. cbn. intros [= H1 H2 H3 H4 H5].
    by rewrite H1, H2, H3, H4, H5, !bool_decide_eq_true_2, Z.eqb_refl, !Nat.eqb_refl in E.
Qed.

Section Table.
Context (N : net) (nports : nat) (HN : net_ok N nports).
Implicit Types (w : world) (e : mld_fdb_entry).

Abbreviation del := (br_mld_mc_fdb_del_entry N).
Abbreviation set_timer := (br_mld_set_timer N).
Abbreviation process := (br_mcast_blog_process_mld N).
Abbreviation groups_wf := (groups_wf N nports).
Abbreviation entry_wf := (entry_wf N nports).
Abbreviation served := (served (E := mld_fdb_entry) N nports).
Abbreviation thinned := (thinned N nports).

(** The ports are those of the table, and the low byte of its number is enough
    to find the port of a wireless device. *)
Record numbered (t : fdb) : Prop := mk_numbered {
  nb_sized : length (ports (br (stp_of t))) = nports;
  nb_found : forall p pt x, ports (br (stp_of t)) !! p = Some pt -> devs N !! port_dev N p = Some x ->
    if_wl x = true -> port_index (stp_of t) (u8 (port_no pt)) = Some p
}.

Lemma flush_spec e w : in_table N nports e -> numbered (tbl w) ->
  wp (br_mld_wl_del_entry N e) (fun _ w' => tabled (mld_mc_hash w) w w') w.
Proof.
  intros (h & He) [Hs Hf]. unfold br_mld_wl_del_entry.
  destruct (dev_at_ok N (port_dev N (mld_dst e))) as (x & Ex & Hx); [by apply (nk_ports _ _ HN), (ew_dst _ _ _ _ He)|].
  apply wp_bind. eapply wp_lift; [done|]. destruct (if_wl x) eqn:Ew; [|apply wp_ret; exact (tabled_refl w)].
  destruct (port_of_ok nports (mld_dst e) w Hs) as (pt & Ept & Hpt); [by apply (ew_dst _ _ _ _ He)|].
  apply wp_bind, Hpt. unfold mcast_snooping_call_chain, br_get_device_by_index. apply wp_bind, wp_bind, wp_gets, wp_ret.
  rewrite (Hf _ _ _ Ept Hx Ew). apply wp_bind. eapply wp_lift; [done|]. apply wp_bind. eapply wp_lift; [done|].
  rewrite Ew. apply wp_modify. exact (tabled_emit (E := mld_fdb_entry) (FlushEntry (port_no pt) (mld_grp e)) w I).
Qed.

Lemma mld_del_spec e r w : in_table N nports e -> numbered (tbl w) ->
  wp (del e r) (fun o w' => o = without r e /\ tabled (mld_mc_hash w) w w') w.
Proof.
  intros Hin Hw. unfold br_mld_mc_fdb_del_entry, without.
  assert (Hl : snd (del_reps (mld_rep_list e) r) =
    match r with None => [] | Some a => snd (del_reps (mc_reps e) (Some a)) end).
  { destruct r as [a|]; [done|]. by rewrite del_reps_none. }
  rewrite Hl. clear Hl. destruct (match r with None => [] | Some a => _ end) as [|x l].
  - apply wp_bind. eapply wp_mono; [by apply flush_spec|cbv beta]. intros _ w' H. by apply wp_ret.
  - apply wp_ret. split; [done|exact (tabled_refl w)].
Qed.

(** The time [br_mld_set_timer] sets. *)
Definition mld_timer_of w : timer :=
  if mld_snooping N =? 0 then None
  else
    let '(t, found) :=
      earliest_reporter (concat (mld_mc_hash w)) (u32 (now w + BR_MLD_MEMBERSHIP_TIMEOUT * HZ * 2), false) in
    if found then Some (u32 (t + TIMER_CHECK_TIMEOUT)) else None.

Lemma mld_set_timer_exact Q w : Q tt (set_mld_timer (mld_timer_of w) w) -> wp set_timer Q w.
Proof.
  unfold br_mld_set_timer, mld_timer_of, now. intros HQ. destruct (mld_snooping N =? 0); [by apply wp_modify|].
  apply wp_bind, wp_gets, wp_bind, wp_gets. unfold id. by destruct (earliest_reporter _ _) as [t []].
Qed.

Lemma mld_timer_spec (Q : unit -> world -> Prop) w :
  (forall tm, Q tt (set_mc_timer mld_fdb_entry tm w)) -> wp set_timer Q w.
Proof. intros H. apply mld_set_timer_exact. apply H. Qed.

Lemma mld_served_same w w' : served w w' -> groups_wf (mld_mc_hash w') /\
  w' = set_mld_timer (mld_timer w') (set_mld_mc_hash (mld_mc_hash w') (set_trace (trace w') w)).
Proof. by intros [[_ Hf _] Hg]. Qed.

(** ** The timer *)

(** [br_mld_query_timeout]: what it leaves of the table. *)
Lemma mld_timeout_spec w : groups_wf (mld_mc_hash w) -> numbered (tbl w) ->
  wp (br_mld_query_timeout N) (fun _ w' => thinned (expire (now w)) w w' /\ mld_timer w' = mld_timer_of w') w.
Proof.
  intros Hg Hp. unfold br_mld_query_timeout. apply wp_bind.
  eapply wp_mono; [by apply (query_timeout_spec N nports numbered _ mld_del_spec)|cbv beta].
  intros _ w1 [H1 Hg1]. apply mld_set_timer_exact. split; [|done]. split; [|exact (ta_table _ _ _ H1)].
  refine (served_timer (E := mld_fdb_entry) N nports w w1 _ _). split; [|done]. by rewrite (ta_table _ _ _ H1).
Qed.

(** ** Requests *)

(** The guards of requests. *)
Definition mld_accepted (from : nat) (grp : list Z) : bool :=
  (br_mld_control_filter None grp || BCM_IN6_IS_ADDR_L2_MCAST grp) &&
  match netdev_path_is_leaf N from with Ok leaf => leaf | Fault _ => false end.
Definition mld_leaves (from : nat) (grp : list Z) (mode : Z) : bool :=
  mld_accepted from grp && ((mode =? SNOOP_IN_CLEAR) || (mode =? SNOOP_EX_CLEAR)).
Definition mld_joins (from : nat) (grp : list Z) (mode : Z) : bool :=
  mld_accepted from grp && ((mode =? SNOOP_IN_ADD) || (mode =? SNOOP_EX_ADD)) && mc_alloc N && rep_alloc N.

Lemma mld_remove_spec from prt grp r mode src w : groups_wf (mld_mc_hash w) -> numbered (tbl w) ->
  (from < length (devs N))%nat ->
  let h := br_mld_mc_fdb_hash N grp in
  let filt := if mode =? SNOOP_IN_CLEAR then MCAST_INCLUDE else MCAST_EXCLUDE in
  let f := del_if (fun e => same_mld e prt grp filt src from) (Some r) in
  wp (br_mld_mc_fdb_remove N from prt grp r mode src) (fun _ w' => served w w' /\
    mld_mc_hash w' = if mld_leaves from grp mode then <[h := omap f (mc_chain w h)]> (mld_mc_hash w)
                     else mld_mc_hash w) w.
Proof.
  intros Hg Hp Hf h filt f. unfold br_mld_mc_fdb_remove, mld_leaves, mld_accepted.
  pose proof (served_refl (E := mld_fdb_entry) N nports w Hg) as H0.
  destruct (br_mld_control_filter None grp || _); cbn [negb andb]; [|by apply wp_ret]. unfold netdev_path_is_leaf.
  destruct (dev_at_ok N from Hf) as (x & -> & _). apply wp_bind. eapply wp_lift; [done|]. cbn [mbind res_bind].
  destruct (refcount x =? 0); cbn [negb andb]; [|by apply wp_ret]. rewrite <- negb_orb.
  destruct (_ || _); cbn [negb]; [|by apply wp_ret].
  apply wp_seq_ret. by apply (chain_del N nports numbered _ _ mld_del_spec mld_timer_spec _ (Some r) h w Hg Hp (mld_hash_lt N grp)).
Qed.

Lemma mld_remove_grp_spec prt grp w : groups_wf (mld_mc_hash w) -> numbered (tbl w) ->
  let h := br_mld_mc_fdb_hash N grp in
  let f := del_if (fun e => BCM_IN6_ARE_ADDR_EQUAL (mld_grp e) grp && Nat.eqb (mld_dst e) prt) None in
  wp (br_mld_mc_fdb_remove_grp N prt grp) (fun _ w' => served w w' /\
    mld_mc_hash w' = <[h := omap f (mc_chain w h)]> (mld_mc_hash w)) w.
Proof.
  intros Hg Hp h f. by apply (chain_del N nports numbered _ _ mld_del_spec mld_timer_spec _ None h w Hg Hp (mld_hash_lt N grp)).
Qed.

(** The entries an interface change removes. *)
Definition mld_changed (ndev : option nat) e : bool := match ndev with None => true | Some d => on_device N d e end.

Lemma mld_if_change_spec ndev w : groups_wf (mld_mc_hash w) -> numbered (tbl w) ->
  wp (br_mld_process_if_change N ndev) (fun _ w' => thinned (del_if (mld_changed ndev) None) w w') w.
Proof. intros Hg Hp. by apply (thin_del N nports numbered _ _ mld_del_spec mld_timer_spec (mld_changed ndev) None w). Qed.

Lemma mld_cleanup_spec w : groups_wf (mld_mc_hash w) -> numbered (tbl w) ->
  wp (br_mld_mc_fdb_cleanup N) (fun _ w' => thinned (del_if (fun _ => true) None) w w') w.
Proof. intros Hg Hp. by apply (thin_del N nports numbered _ _ mld_del_spec mld_timer_spec (fun _ => true) None w). Qed.

Definition mld_reports_on w (r : list Z) (port : Z) e : bool :=
  match rep_find e r with None => false | Some _ => true end && (port_no_of w (mld_dst e) =? port).

Lemma mld_wipe_spec r port w : groups_wf (mld_mc_hash w) -> numbered (tbl w) ->
  wp (br_mld_wipe_reporter_for_port N r port) (fun _ w' => thinned (del_if (mld_reports_on w r port) (Some r)) w w') w.
Proof.
  intros Hg Hp. eapply (thin_served N nports _ mld_timer_spec); [done| |apply thins_del].
  intros e w1 Hin Ht. assert (Hp1 : numbered (tbl w1)) by by rewrite Ht.
  destruct (port_of_ok nports (mld_dst e) w1 (nb_sized _ Hp1)) as (pt & Ept & Hpt); [by destruct Hin as (h & [])|].
  unfold del_if, mld_reports_on, port_no_of. change (br_mld_rep_find e r) with (rep_find e r).
  destruct (rep_find e r); cbn [andb]; [|apply wp_ret; split; [done|exact (tabled_refl w1)]].
  apply wp_bind, Hpt. rewrite <- Ht, Ept.
  destruct (port_no pt =? port); [by apply mld_del_spec|]. apply wp_ret. split; [done|exact (tabled_refl w1)].
Qed.

Definition mld_end_of w : Z := u32 (now w + BR_MLD_MEMBERSHIP_TIMEOUT * HZ).

Definition mld_join_entry w (from : nat) (ops : Z) (prt : nat) (grp r : list Z) (mode tci : Z) (src : list Z)
    (lanppp : Z) : mld_fdb_entry :=
  mk_mld prt grp [mk_rep r (mld_end_of w)] src
    (if mode =? SNOOP_IN_ADD then MCAST_INCLUDE else MCAST_EXCLUDE) tci (u8 ops) true lanppp from.

Lemma mld_add_spec from ops prt grp r mode tci src lanppp w :
  groups_wf (mld_mc_hash w) -> (from < length (devs N))%nat -> (prt < nports)%nat ->
  let h := br_mld_mc_fdb_hash N grp in
  let e := mld_join_entry w from ops prt grp r mode tci src lanppp in
  wp (br_mld_mc_fdb_add N from ops prt grp r mode tci src lanppp) (fun ret w' => served w w' /\
    mld_mc_hash w' = if mld_joins from grp mode
                     then <[h := join_chain N process e r (mld_end_of w) (mc_chain w h)]> (mld_mc_hash w)
                     else mld_mc_hash w) w.
Proof.
  intros Hg Hf Hp h e. pose proof (served_refl (E := mld_fdb_entry) N nports w Hg) as H0.
  unfold br_mld_mc_fdb_add, mld_joins, mld_accepted.
  destruct (br_mld_control_filter None grp || _) eqn:Eg; [cbn [negb orb andb]|by apply wp_ret].
  unfold netdev_path_is_leaf. destruct (dev_at_ok N from Hf) as (x & -> & _). cbn [mbind res_bind].
  apply wp_bind. eapply wp_lift; [done|]. destruct (refcount x =? 0); cbn [negb andb]; [|by apply wp_ret].
  rewrite <- negb_orb. destruct ((mode =? SNOOP_IN_ADD) || (mode =? SNOOP_EX_ADD)); cbn [negb andb]; [|by apply wp_ret].
  destruct (mc_alloc N) eqn:Em; cbn [negb andb]; [|by apply wp_ret].
  destruct (rep_alloc N) eqn:Ea; cbn [negb andb]; [|by apply wp_ret].
  assert (He : entry_wf h e).
  { split; try done; [by cbn; destruct (mode =? SNOOP_IN_ADD); [left|right]|apply NoDup_singleton]. }
  assert (HP : forall y, same_mld y prt grp (mld_filt_mode e) src from = same_key e y)
    by (intros y; exact (same_mld_key y e)).
  unfold br_mld_mc_fdb_update. fold h.
  eapply wp_mono.
  - exact (join_spec N nports set_timer process mld_timer_spec (fun y => same_mld y prt grp (mld_filt_mode e) src from)
      BR_MLD_MEMBERSHIP_TIMEOUT (fun t => mk_mld prt grp [mk_rep r t] src
        (if mode =? SNOOP_IN_ADD then MCAST_INCLUDE else MCAST_EXCLUDE) tci (u8 ops) true lanppp from)
      r w (mld_end_of w) e h Hg eq_refl eq_refl eq_refl HP He).
  - done.
Qed.

Lemma mld_update_dev_spec d flush w : groups_wf (mld_mc_hash w) -> numbered (tbl w) -> (d < length (devs N))%nat ->
  wp (br_mld_mc_fdb_update_bydev N d flush) (fun _ w' => served w w' /\
    updated N process d flush (mld_mc_hash w) (mld_mc_hash w')) w.
Proof.
  intros Hg Hp Hd. by apply (update_dev_guarded N nports numbered _ _ process mld_del_spec mld_timer_spec).
Qed.

Lemma mld_flush_dev_spec d w : groups_wf (mld_mc_hash w) -> numbered (tbl w) -> netdev_path_is_leaf N d = Ok true ->
  wp (br_mld_mc_fdb_update_bydev N d 1) (fun _ w' => Forall (Forall (fun e => on_device N d e = false)) (mld_mc_hash w')) w.
Proof.
  intros Hg Hp Hl. unfold br_mld_mc_fdb_update_bydev. apply wp_bind. eapply wp_lift; [exact Hl|].
  by apply (flush_bydev_spec N nports numbered _ _ process mld_del_spec mld_timer_spec).
Qed.

(** ** Histories *)

Inductive mld_request : Type :=
  | MldJoin (from : nat) (ops : Z) (prt : nat) (grp r : list Z) (mode tci : Z) (src : list Z) (lanppp : Z)
  | MldLeave (from prt : nat) (grp r : list Z) (mode : Z) (src : list Z)
  | MldRemoveGroup (prt : nat) (grp : list Z)
  | MldWipeReporter (r : list Z) (port : Z)
  | MldIfChange (ndev : option nat)
  | MldUpdateByDev (d : nat) (flushAll : Z)
  | MldCleanup
  | MldTimeout.

Definition mld_serve (q : mld_request) : M Z :=
  match q with
  | MldJoin from ops prt grp r mode tci src lanppp => br_mld_mc_fdb_add N from ops prt grp r mode tci src lanppp
  | MldLeave from prt grp r mode src => br_mld_mc_fdb_remove N from prt grp r mode src
  | MldRemoveGroup prt grp => br_mld_mc_fdb_remove_grp N prt grp;; mret 0
  | MldWipeReporter r port => br_mld_wipe_reporter_for_port N r port;; mret 0
  | MldIfChange ndev => br_mld_process_if_change N ndev;; mret 0
  | MldUpdateByDev d flushAll => br_mld_mc_fdb_update_bydev N d flushAll
  | MldCleanup => br_mld_mc_fdb_cleanup N;; mret 0
  | MldTimeout => br_mld_query_timeout N;; mret 0
  end.

(** Requests name ports and devices that exist. *)
Definition mld_request_ok (q : mld_request) : Prop :=
  match q with
  | MldJoin from _ prt _ _ _ _ _ _ => (from < length (devs N))%nat /\ (prt < nports)%nat
  | MldLeave from _ _ _ _ _ => (from < length (devs N))%nat
  | MldUpdateByDev d _ => (d < length (devs N))%nat
  | _ => True
  end.

Fixpoint mld_run (l : list (Z * mld_request)) w : res world :=
  match l with
  | [] => Ok w
  | (t, q) :: l => '(_, w) ← mld_serve q (at_time t w); mld_run l w
  end.

Definition mld_ok w : Prop := groups_wf (mld_mc_hash w) /\ numbered (tbl w).

Lemma mld_serve_served q w : mld_ok w -> mld_request_ok q -> wp (mld_serve q) (fun _ w' => served w w') w.
Proof.
  intros (Hg & Hp) Hq.
  assert (Hs : forall (m : M unit) f, wp m (fun _ w' => thinned f w w') w -> wp (m;; mret 0) (fun _ w' => served w w') w).
  { intros m f Hm. apply wp_bind. eapply wp_mono; [exact Hm|cbv beta]. intros _ w' [H _]. by apply wp_ret. }
  destruct q; cbn [mld_serve mld_request_ok] in *.
  - eapply wp_mono; [by apply mld_add_spec; [|apply Hq..]|cbv beta]. by intros ? w' [H _].
  - eapply wp_mono; [by apply mld_remove_spec|cbv beta]. by intros ? w' [H _].
  - apply wp_bind. eapply wp_mono; [by apply mld_remove_grp_spec|cbv beta]. intros ? w' [H _]. by apply wp_ret.
  - by eapply Hs, mld_wipe_spec.
  - by eapply Hs, mld_if_change_spec.
  - eapply wp_mono; [by apply mld_update_dev_spec|cbv beta]. by intros ? w' [H _].
  - by eapply Hs, mld_cleanup_spec.
  - eapply Hs. eapply wp_mono; [by apply mld_timeout_spec|cbv beta]. by intros ? w' [H _].
Qed.

Lemma mld_served_ok w w' : mld_ok w -> served w w' -> mld_ok w'.
Proof. intros [_ Hp] H. destruct (mld_served_same _ _ H) as [Hg ->]. by split. Qed.

Lemma mld_ok_time t w : mld_ok w -> mld_ok (at_time t w).
Proof. intros [Hg [H1 H2]]. split; [exact Hg|]. split; [exact H1|exact H2]. Qed.

Lemma mld_run_ok l w : mld_ok w -> Forall (fun x => mld_request_ok (snd x)) l ->
  exists w', mld_run l w = Ok w' /\ mld_ok w'.
Proof.
  intros Hw Hl. revert w Hw. induction Hl as [|[t q] l Hq _ IH]; intros w Hw; [by exists w|].
  destruct (wp_elim _ _ _ (mld_serve_served q (at_time t w) (mld_ok_time t w Hw) Hq)) as (a & w1 & E & Hs).
  cbn [mld_run]. rewrite E. apply IH. eapply mld_served_ok; [by apply mld_ok_time|exact Hs].
Qed.

(** ** Memberships *)

(** The memberships that a request leaves alone. *)
Definition mld_spares (q : mld_request) w (k : mld_membership) (x : mc_rep_entry (list Z)) : bool :=
  match q with
  | MldLeave from prt grp r mode src =>
      let filt := if mode =? SNOOP_IN_CLEAR then MCAST_INCLUDE else MCAST_EXCLUDE in
      negb (mld_leaves from grp mode && bool_decide (k = (grp, src, filt, from, prt)) && bool_decide (rep x = r))
  | MldRemoveGroup prt grp => negb (bool_decide (fst (fst (fst (fst k))) = grp) && Nat.eqb (key_dst k) prt)
  | MldWipeReporter r port => negb (bool_decide (rep x = r) && (port_no_of w (key_dst k) =? port))
  | MldIfChange None => false
  | MldIfChange (Some d) => negb (Nat.eqb (port_dev N (key_dst k)) d || Nat.eqb (key_from k) d)
  | MldCleanup => false
  | MldTimeout => negb (time_after_eq (now w) (tstamp x))
  | _ => true
  end.

Definition mld_refined (q : mld_request) w w' : Prop :=
  match q with
  | MldJoin from ops prt grp r mode tci src lanppp =>
      let e := mld_join_entry w from ops prt grp r mode tci src lanppp in
      let l := mc_chain w (br_mld_mc_fdb_hash N grp) in
      joined (mld_joins from grp mode = true /\ taken N process e r l)
        e r (mld_end_of w) (mld_mc_hash w) (mld_mc_hash w')
  | MldUpdateByDev d flushAll => updated N process d flushAll (mld_mc_hash w) (mld_mc_hash w')
  | _ => pruned (mld_spares q w) (mld_mc_hash w) (mld_mc_hash w')
  end.

(** A chain pruned by a deletion. *)
Lemma mld_chain_refines q (b : mld_fdb_entry -> bool) r grp w : groups_wf (mld_mc_hash w) ->
  (forall e x, mld_spares q w (mc_key e) x = negb (b e && match r with None => true | Some a => bool_decide (rep x = a) end)) ->
  (forall k x, fst (fst (fst (fst k))) <> grp -> mld_spares q w k x = true) ->
  let h := br_mld_mc_fdb_hash N grp in
  pruned (mld_spares q w) (mld_mc_hash w) (<[h := omap (del_if b r) (mc_chain w h)]> (mld_mc_hash w)).
Proof.
  intros Hg Hb Ho h. refine (chain_pruned N nports h (del_if b r) (mld_spares q w) w Hg (mld_hash_lt N grp) _ _).
  - intros e He. apply (del_if_prune N nports h); [done|]. intros x _. rewrite Hb. by destruct r.
  - intros k x Hk. apply Ho. by intros <-.
Qed.

Lemma mld_pruning_refines (m : M unit) f q w : groups_wf (mld_mc_hash w) ->
  wp m (fun _ w' => thinned f w w') w -> (forall h e, entry_wf h e -> f e = prune (mld_spares q w) e) ->
  wp (m;; mret 0) (fun _ w' => served w w' /\ pruned (mld_spares q w) (mld_mc_hash w) (mld_mc_hash w')) w.
Proof.
  intros Hg Hm Hf. apply wp_bind. eapply wp_mono; [exact Hm|cbv beta]. intros _ w' [Hs H]. apply wp_ret. split; [done|].
  change (mld_mc_hash w') with (mc_table w'). rewrite H. by apply (member_pruned N nports).
Qed.

Lemma mld_wipe_prunes r port w h e : entry_wf h e ->
  del_if (mld_reports_on w r port) (Some r) e = prune (mld_spares (MldWipeReporter r port) w) e.
Proof.
  intros He. apply (del_if_prune N nports h); [done|]. intros x Hx. unfold mld_reports_on. cbn [mld_spares]. f_equal.
  cbn [key_dst mld_key mc_key mld_table snd]. change (mc_same (rep x) r) with (bool_decide (rep x = r)).
  destruct (rep_find e r) as [y|] eqn:Ef; cbn [andb]; [apply andb_comm|].
  apply rep_find_None in Ef. rewrite bool_decide_eq_false_2; [done|]. intros <-. apply Ef.
  by apply list_elem_of_In, in_map, list_elem_of_In.
Qed.

(** A failing [br_mcast_blog_process] leaves no copy. *)
Hypothesis none_copied : no_copies process.

Lemma mld_request_refines q w : mld_ok w -> mld_request_ok q ->
  wp (mld_serve q) (fun _ w' => served w w' /\ mld_refined q w w') w.
Proof.
  intros (Hg & Hp) Hq. destruct q; cbn [mld_serve mld_request_ok mld_refined] in *.
  - eapply wp_mono; [by apply mld_add_spec; [|apply Hq..]|cbv beta]. intros ret w' [Hs Hh]. split; [done|].
    set (e := mld_join_entry w from ops prt grp r mode tci src lanppp) in *.
    destruct (mld_joins from grp mode) eqn:Ea; rewrite Hh.
    + assert (Er : mc_reps e = [mk_rep r (mld_end_of w)]) by reflexivity.
      assert (Ek : br_mld_mc_fdb_hash N grp = key_hash N (mc_key e)) by reflexivity. clearbody e.
      pose proof (join_refines N nports _ e r (mld_end_of w) w _ none_copied Hg Er Ek) as HJ. cbn [mc_table mld_table] in HJ.
      eapply joined_taken, HJ. tauto.
    + intros k x. assert (~ (false = true)) by done. tauto.
  - eapply wp_mono; [by apply mld_remove_spec|cbv beta]. intros _ w' [Hs ->]. split; [done|].
    destruct (mld_leaves from grp mode) eqn:Ea.
    + apply mld_chain_refines; [done| |]; cbn [mld_spares]; rewrite Ea; cbn [andb].
      * intros e x. do 2 f_equal. symmetry.
        exact (same_mld_key e (mk_mld prt grp [] src (if mode =? SNOOP_IN_CLEAR then MCAST_INCLUDE else MCAST_EXCLUDE) 0 0 true 0 from)).
      * intros k x Hk. rewrite bool_decide_eq_false_2; [done|]. by intros ->.
    + intros k x. cbn [mld_spares]. rewrite Ea. cbn. tauto.
  - apply wp_bind. eapply wp_mono; [by apply mld_remove_grp_spec|cbv beta]. intros _ w' [Hs Hh]. apply wp_ret. rewrite Hh.
    split; [done|]. apply mld_chain_refines; [done| |]; cbn [mld_spares].
    + intros e x. by rewrite andb_true_r.
    + intros k x Hk. by rewrite bool_decide_eq_false_2.
  - eapply mld_pruning_refines; [done|by apply mld_wipe_spec|]. intros h e. apply mld_wipe_prunes.
  - eapply mld_pruning_refines; [done|by apply mld_if_change_spec|]. intros h e He.
    apply (del_if_prune N nports h); [done|]. intros x _. cbn [mld_spares mld_changed]. by destruct ndev; rewrite andb_true_r.
  - eapply wp_mono; [by apply mld_update_dev_spec|cbv beta]. by intros _ w' [Hs H].
  - eapply mld_pruning_refines; [done|by apply mld_cleanup_spec|]. intros h e He. by apply (del_if_prune N nports h).
  - eapply mld_pruning_refines; [done| |done]. eapply wp_mono; [by apply mld_timeout_spec|cbv beta]. by intros _ w' [H _].
Qed.

(** C25: the table of IPv6 groups implements a set of memberships, and serving
    the daemon does not fault.  An accepted request to join gives the reporter
    its new time and touches nothing else: if the membership is known, provided
    the reporter is in it or one of the atomic allocations for its entries
    succeeds; if it is new, provided the accelerator takes it.  One to leave
    removes the reporter and nothing else; removing a group from a port, wiping
    a reporter, removing an interface, the clean-up and the timer remove exactly
    what they name; an update of a device that has none stacked on it removes,
    when all is to be flushed, exactly the memberships of the device, and when
    not, exactly those that only copied entries give and, with [flushAll] 0,
    those the accelerator does not take again.  The table keeps its shape.  The
    requests name ports and devices that exist, and an accelerator that fails
    has made no copies. *)
Theorem mld_requests_refine_memberships q w : mld_ok w -> mld_request_ok q ->
  exists ret w', mld_serve q w = Ok (ret, w') /\ mld_refined q w w' /\ mld_ok w'.
Proof.
  intros Hw Hq. destruct (wp_elim _ _ _ (mld_request_refines q w Hw Hq)) as (ret & w' & E & Hs & H).
  exists ret, w'. split; [done|]. split; [done|]. by eapply mld_served_ok.
Qed.

End Table.

(** Ports numbered below 256 are found. *)
Lemma wf_numbered N nos (t : fdb) : wf nos (stp_of t) -> Forall (fun no => no < 256) nos -> numbered N (length nos) t.
Proof.
  intros [[Hb Hn] _] Hlt. assert (Hl : length (ports (br (stp_of t))) = length nos) by (by rewrite <- Hn, length_map).
  split; [done|]. intros p pt x Hp _ _. assert (Hin : In pt (ports (br (stp_of t)))).
  { apply list_elem_of_In. by eapply list_elem_of_lookup_2. }
  assert (Hu : u8 (port_no pt) = port_no pt).
  { apply Z.mod_small. pose proof (po_no pt (bo_port _ pt Hb Hin)) as Hr.
    assert (port_no pt < 256); [|lia]. apply (proj1 (Forall_forall _ _) Hlt). rewrite <- Hn. by apply list_elem_of_In, in_map. }
  rewrite Hu. unfold port_index. destruct (List.find _ _) as [q|] eqn:E.
  - apply find_some in E as [_ Hq]. destruct (_ !! q) as [qt|] eqn:Eq; [|done]. apply Z.eqb_eq in Hq. f_equal.
    eapply (NoDup_lookup (map port_no (ports (br (stp_of t)))) q p (port_no pt)); [apply Hb| |].
    + apply list_lookup_fmap_Some. by exists qt.
    + apply list_lookup_fmap_Some. by exists pt.
  - exfalso. pose proof (find_none _ _ E p) as Hno. cbv beta in Hno. rewrite Hp, Z.eqb_refl in Hno.
    discriminate Hno. apply in_seq. apply lookup_lt_Some in Hp. lia.
Qed.
