(* ===== verification/BrMldExpiry.v ===== *)
(** Liveness of multicast snooping for IPv6: memberships that are not renewed
    go away, by the timer alone; and examples for the table of IPv6 groups. *)

From S2P Require Import Prelude Str Stp Fdb Bridge BrExample BrWp BrForward BrForwardProps.
From S2P Require Import Groups GroupsProps GroupsServe GroupsExpiry BrIgmp BrMld BrGroups BrMldProps.

Section Expiry.
Context (N : net) (nports : nat) (HN : net_ok N nports) (snooping_on : mld_snooping N <> 0) (E : Z).
Implicit Types (w : world).

(** At the time [T] the timer is set, and every membership ends between [T]
    and [E]. *)
Record mld_running (T : Z) w : Prop := mk_mld_running {
  mr_ok : mld_ok N nports w;
  mr_now : now w = u32 T;
  mr_timer : mld_timer w = mld_timer_of N w;
  mr_reps : forall x, x ∈ reporters (mld_mc_hash w) -> due T E (tstamp x)
}.

(** The timer is set two seconds after the earliest of these times. *)
Lemma mld_timer_due T w : mld_running T w -> E <= T + BR_MLD_MEMBERSHIP_TIMEOUT * HZ ->
  reporters (mld_mc_hash w) <> [] ->
  exists S x, mld_timer_of N w = Some (u32 (S + TIMER_CHECK_TIMEOUT)) /\ T <= S <= E /\
    x ∈ reporters (mld_mc_hash w) /\ tstamp x = u32 S.
Proof.
  intros [_ Hnow _ Hr] HE Hn. unfold BR_MLD_MEMBERSHIP_TIMEOUT, HZ in *. set (W := T + 520000).
  set (reps := map tstamp (reporters (mld_mc_hash w))).
  assert (HrW : forall z, z ∈ reps -> due T W z /\ due T E z).
  { intros z (x & -> & Hx)%list_elem_of_fmap. destruct (Hr x Hx) as (a & -> & Ha). split; exists a; split; lia || done. }
  unfold mld_timer_of. rewrite (proj2 (Z.eqb_neq _ _) snooping_on), Hnow, u32_u32_add, earliest_reporter_fold. fold reps.
  unfold BR_MLD_MEMBERSHIP_TIMEOUT, HZ. change (T + 260 * 1000 * 2) with W.
  destruct (earliest_fold T W reps W false) as (S & g & -> & HS & H); [unfold W; lia..|intros z Hz; by apply HrW|].
  destruct H as [(-> & -> & Hno)|[-> Hx]].
  - exfalso. apply Hn. destruct (reporters _) as [|x l]; [done|]. exfalso.
    apply (Hno (tstamp x) E); [apply elem_of_cons; by left|unfold W; lia|apply HrW, elem_of_cons; by left].
  - destruct (rep_at T E S _ Hr) as [HSE (x & Hin & Hts)]; [unfold W in *; lia..|done|]. exists S, x.
    rewrite u32_u32_add. done.
Qed.

Lemma mld_timer_idle w : reporters (mld_mc_hash w) = [] -> mld_timer_of N w = None.
Proof.
  intros H0. unfold mld_timer_of. rewrite (proj2 (Z.eqb_neq _ _) snooping_on), earliest_reporter_fold, H0. done.
Qed.

(** The timer runs, [late] jiffies after the time it is set for. *)
Definition mld_fire (late : Z) w : res world :=
  match mld_timer w with
  | None => Ok w
  | Some t => '(_, w) ← br_mld_query_timeout N (at_time (u32 (t + late)) w); Ok w
  end.

Fixpoint mld_fires (l : list Z) w : res world :=
  match l with [] => Ok w | late :: l => w ← mld_fire late w; mld_fires l w end.

Lemma mld_fire_step T L late w : mld_running T w -> E <= T + BR_MLD_MEMBERSHIP_TIMEOUT * HZ ->
  reporters (mld_mc_hash w) <> [] -> 0 <= late <= L -> L < 2 ^ 30 ->
  exists w' T', mld_fire late w = Ok w' /\ mld_running T' w' /\
    (length (reporters (mld_mc_hash w')) < length (reporters (mld_mc_hash w)))%nat /\ T <= T' <= E + TIMER_CHECK_TIMEOUT + L.
Proof.
  intros Hrun HE Hn Hlate HL. destruct (mld_timer_due T w Hrun HE Hn) as (S & x & Ht & HS & Hx & Hts).
  pose proof Hrun as [Hok Hnow Htm Hr]. unfold mld_fire. rewrite Htm, Ht, u32_u32_add.
  unfold BR_MLD_MEMBERSHIP_TIMEOUT, HZ in *. change TIMER_CHECK_TIMEOUT with 2000.
  set (T' := S + 2000 + late). set (w0 := at_time (u32 T') w).
  destruct (mld_ok_time N nports (u32 T') w Hok) as [Hg0 Hp0].
  destruct (wp_elim _ _ _ (mld_timeout_spec N nports HN w0 Hg0 Hp0)) as ([] & w' & -> & [Hs Eg] & Etm).
  exists w', T'. split; [done|]. change (now w0) with (u32 T') in Eg. cbn [mc_table mld_table] in Eg.
  change (mld_mc_hash w0) with (mld_mc_hash w) in Eg.
  assert (Hafter : forall a, T <= a <= E -> time_after_eq (u32 T') (u32 a) = (a <=? T'))
    by (intros a Ha; apply time_after_eq_abs; unfold T'; lia).
  assert (Hok' : mld_ok N nports w') by (eapply mld_served_ok; [by apply mld_ok_time|exact Hs]).
  destruct (mld_served_same N nports _ _ Hs) as [_ Hw']. split; [split; [done| |done|]|].
  - rewrite Hw'. done.
  - rewrite Eg, reporters_expire. intros y [Hy Hf]%elem_filter. destruct (Hr y Hy) as (a & Ha & Hra).
    rewrite Ha, Hafter in Hf by done. exists a. split; [done|]. apply negb_true_iff, Z.leb_gt in Hf. lia.
  - split; [|unfold T'; lia]. rewrite Eg, reporters_expire. apply filter_shorter. exists x. split; [done|].
    rewrite Hts, Hafter by done. apply negb_false_iff, Z.leb_le. unfold T'. lia.
Qed.

Lemma mld_fires_done L l T w : mld_running T w -> E <= T + BR_MLD_MEMBERSHIP_TIMEOUT * HZ -> L < 2 ^ 30 ->
  Forall (fun late => 0 <= late <= L) l -> (length (reporters (mld_mc_hash w)) <= length l)%nat ->
  exists w' T', mld_fires l w = Ok w' /\ mld_running T' w' /\ reporters (mld_mc_hash w') = [] /\
    T <= T' /\ (T' = T \/ T' <= E + TIMER_CHECK_TIMEOUT + L).
Proof.
  intros Hrun HE HL Hl. revert T w Hrun HE. induction Hl as [|late l Hlate _ IH]; intros T w Hrun HE Hn.
  { exists w, T. split; [done|]. split; [done|]. cbn in Hn. split; [apply nil_length_inv; lia|]. split; [lia|by left]. }
  cbn [mld_fires]. destruct (reporters (mld_mc_hash w)) as [|x reps] eqn:Er.
  - assert (Htm : mld_fire late w = Ok w); [|rewrite Htm; apply IH; [done|done|rewrite Er; cbn; lia]].
    unfold mld_fire. by rewrite (mr_timer _ _ Hrun), mld_timer_idle.
  - destruct (mld_fire_step T L late w Hrun HE) as (w1 & T1 & -> & Hrun1 & Hlt & HT1); [by rewrite Er|done|done|].
    destruct (IH T1 w1) as (w' & T' & Hf & Hrun' & H0 & HT' & Hor); [done|lia|rewrite Er in Hlt; cbn in *; lia|].
    exists w', T'. split; [done|]. split; [done|]. split; [done|]. split; [lia|]. right. lia.
Qed.

End Expiry.

(** C26: with snooping on, IPv6 memberships that nobody renews go away by the
    timer alone.  From any state in which the timer is set and memberships end
    within 260 seconds, as many runs of the timer as there are reporters, each
    up to [L] jiffies late, empty the table and stop the timer, at most 262
    seconds and [L] jiffies after the start; jiffies may wrap around on the
    way. *)
Theorem mld_memberships_end N nports T L l w : net_ok N nports -> mld_snooping N <> 0 ->
  mld_running N nports (T + BR_MLD_MEMBERSHIP_TIMEOUT * HZ) T w -> 0 <= L < 2 ^ 30 ->
  Forall (fun late => 0 <= late <= L) l -> (length (reporters (mld_mc_hash w)) <= length l)%nat ->
  exists w' D, mld_fires N l w = Ok w' /\ Forall (fun c => c = []) (mld_mc_hash w') /\ mld_timer w' = None /\
    now w' = u32 (T + D) /\ 0 <= D <= (BR_MLD_MEMBERSHIP_TIMEOUT + 2) * HZ + L.
Proof.
  intros HN Hs Hrun HL Hl Hn.
  destruct (mld_fires_done N nports HN Hs _ L l T w Hrun) as (w' & T' & Hf & Hrun' & H0 & HT & Hor); [lia..|done|done|].
  exists w', (T' - T). split; [done|]. pose proof Hrun' as [[Hg _] Hnow Htm _].
  split; [by eapply no_reporters|]. split; [rewrite Htm; by apply mld_timer_idle|]. split; [rewrite Hnow; f_equal; lia|].
  unfold BR_MLD_MEMBERSHIP_TIMEOUT, HZ in *. change TIMER_CHECK_TIMEOUT with 2000 in Hor. lia.
Qed.

(** ** Examples *)

(** Two hosts on port 1 and one on the wireless port 3 join the group
    ff0e::1:1, just before jiffies wrap around. *)
Definition demo_grp6 : list Z := [255; 14; 0; 0; 0; 0; 0; 0; 0; 0; 0; 0; 0; 1; 0; 1].
Definition demo_host6 (x : Z) : list Z := [254; 128; 0; 0; 0; 0; 0; 0; 0; 0; 0; 0; 0; 0; 0; x].
Definition demo_join6 (prt : nat) (x : Z) : mld_request :=
  MldJoin 3 MCPD_IF_TYPE_BRIDGED prt demo_grp6 (demo_host6 x) SNOOP_EX_ADD 0 (replicate 16 0) 0.
Definition demo_requests6 : list (Z * mld_request) :=
  [(2 ^ 32 - 3000, demo_join6 0 1); (2 ^ 32 - 2000, demo_join6 0 2); (2 ^ 32 - 1000, demo_join6 2 3)].

Definition demo_start6 : world := demo_world (demo_fdb FORWARDING) (demo_frame broadcast 0x0800 []) [].
Definition demo_joined6 : world := Eval vm_compute in
  match mld_run quiet_net demo_requests6 demo_start6 with Ok w => w | Fault _ => demo_start6 end.

Lemma quiet_net_ok : net_ok quiet_net 3.
Proof. apply (demo_net_ok _ _ (fun _ => Forall_nil_2 _)). Qed.

Lemma demo_joined6_ok : mld_ok quiet_net 3 demo_joined6.
Proof.
  destruct (mld_run_ok quiet_net 3 quiet_net_ok demo_requests6 demo_start6) as (w' & E & H).
  - split; [apply groups_empty|]. apply (wf_numbered quiet_net [1; 2; 3]); [apply demo_wf|by repeat constructor].
  - by repeat constructor; cbn; lia.
  - assert (Ev : match mld_run quiet_net demo_requests6 demo_start6 with Ok w => w | Fault _ => demo_start6 end
      = demo_joined6) by (vm_compute; reflexivity).
    rewrite E in Ev. by rewrite <- Ev.
Qed.

(** The host on the wireless port leaves, and its driver is told. *)
Lemma mld_requests_refine_memberships_witness :
  let q := MldLeave 3 2 demo_grp6 (demo_host6 3) SNOOP_EX_CLEAR (replicate 16 0) in
  (exists ret w', mld_serve quiet_net q demo_joined6 = Ok (ret, w') /\
    mld_refined quiet_net q demo_joined6 w' /\ mld_ok quiet_net 3 w') /\
  match mld_serve quiet_net q demo_joined6 with
  | Ok (_, w') => trace w' = [FlushEntry 3 demo_grp6] /\ map mld_dst (concat (mld_mc_hash w')) = [0%nat]
  | Fault _ => False
  end.
Proof.
  intros q. split; [|by vm_compute].
  apply (mld_requests_refine_memberships quiet_net 3); [exact quiet_net_ok|done|exact demo_joined6_ok|cbn; lia].
Defined.

Lemma demo_joined6_running :
  mld_running quiet_net 3 (2 ^ 32 - 1000 + BR_MLD_MEMBERSHIP_TIMEOUT * HZ) (2 ^ 32 - 1000) demo_joined6.
Proof.
  split; [exact demo_joined6_ok|done|by vm_compute|]. intros x Hx.
  assert (Hr : reporters (mld_mc_hash demo_joined6) = [mk_rep (demo_host6 3) 259000; mk_rep (demo_host6 1) 257000;
    mk_rep (demo_host6 2) 258000]) by by vm_compute.
  rewrite Hr, !elem_of_cons in Hx. destruct Hx as [->|[->|[->|Hx%elem_of_nil]]]; [| | |done].
  - exists (2 ^ 32 + 259000). by vm_compute.
  - exists (2 ^ 32 + 257000). by vm_compute.
  - exists (2 ^ 32 + 258000). by vm_compute.
Qed.

Lemma mld_memberships_end_witness : exists w' D, mld_fires quiet_net [0; 5; 10] demo_joined6 = Ok w' /\
  Forall (fun c => c = []) (mld_mc_hash w') /\ mld_timer w' = None /\
  now w' = u32 (2 ^ 32 - 1000 + D) /\ 0 <= D <= (BR_MLD_MEMBERSHIP_TIMEOUT + 2) * HZ + 10.
Proof.
  apply (mld_memberships_end quiet_net 3 (2 ^ 32 - 1000) 10 [0; 5; 10] demo_joined6).
  - exact quiet_net_ok.
  - done.
  - exact demo_joined6_running.
  - lia.
  - repeat constructor; lia.
  - by vm_compute; repeat constructor.
Defined.
