(* ===== verification/BrMembers.v ===== *)
(** The table of IPv4 groups as a set of memberships: the requests of the
    daemon add and remove what they name and nothing else, and a membership
    that is not renewed ends. *)

From S2P Require Import Prelude Str Stp Fdb Bridge BrExample BrWp BrForward BrForwardProps.
From S2P Require Import Groups GroupsProps GroupsServe BrIgmp BrIgmpProps BrGroups.

Abbreviation membership := (Z * Z * Z * Z * nat * nat)%type.

(** Conversion unfolds the hash last. *)
#[local] Strategy 100 [br_igmp_mc_fdb_hash].

Section Members.
Context (N : net) (nports : nat).
Implicit Types (w : world) (e : mc_fdb_entry) (k : membership) (x : mc_rep_entry Z).

(** The memberships that a request leaves alone. *)
Definition spares (q : mc_request) w k x : bool :=
  match q with
  | Leave from prt rxG txG r mode src =>
      let filt := if mode =? SNOOP_IN_CLEAR then MCAST_INCLUDE else MCAST_EXCLUDE in
      negb (leave_accepted N from rxG txG mode &&
            bool_decide (k = (txG, rxG, src, filt, from, prt)) && (rep x =? r))
  | WipeReporter r port => negb ((port_no_of w (key_dst k) =? port) && (rep x =? r))
  | IfChange None => false
  | IfChange (Some d) => negb (Nat.eqb (port_dev N (key_dst k)) d || Nat.eqb (key_from k) d)
  | Cleanup => false
  | Timeout => negb (time_after_eq (now w) (tstamp x))
  | _ => true
  end.

Definition refined (q : mc_request) w w' : Prop :=
  match q with
  | Join from ops prt rxG txG r mode tci src lanppp excl rtp =>
      let e := join_entry w from ops prt rxG txG r mode tci src lanppp excl rtp in
      let l := mc_chain w (br_igmp_mc_fdb_hash N txG) in
      joined (join_accepted N from rxG txG mode = true /\ taken N (br_mcast_blog_process N) e r l)
        e r (end_of w) (mc_hash w) (mc_hash w')
  | UpdateByDev d flushAll => updated N (br_mcast_blog_process N) d flushAll (mc_hash w) (mc_hash w')
  | _ => pruned (spares q w) (mc_hash w) (mc_hash w')
  end.

Lemma leave_refines from prt rxG txG r mode src w : groups_wf N nports (mc_hash w) ->
  let h := br_igmp_mc_fdb_hash N txG in
  let filt := if mode =? SNOOP_IN_CLEAR then MCAST_INCLUDE else MCAST_EXCLUDE in
  let f := del_if (fun e => same_entry e prt rxG txG filt src from) (Some r) in
  leave_accepted N from rxG txG mode = true ->
  pruned (spares (Leave from prt rxG txG r mode src) w) (mc_hash w) (<[h := omap f (mc_chain w h)]> (mc_hash w)).
Proof.
  intros Hg h filt f Ha. refine (chain_pruned N nports h f (spares (Leave from prt rxG txG r mode src) w) w _ _ _ _); [done|apply mc_hash_lt| |].
  - intros e He. apply (del_if_prune N nports h); [done|]. intros x _. cbn [spares]. rewrite Ha. cbn [andb]. do 2 f_equal.
    fold filt. pose (e' := mk_mc prt rxG txG [] src filt 0 0 true 0 0 0 from).
    symmetry. exact (same_entry_key e e').
  - intros k x Hk. cbn [spares]. rewrite Ha. rewrite bool_decide_eq_false_2; [done|]. intros ->. by apply Hk.
Qed.

(** A step that only prunes, followed by the result of the request. *)
Lemma pruning_refines (m : M unit) f q w : groups_wf N nports (mc_hash w) ->
  wp m (fun _ w' => thinned N nports f w w') w ->
  (forall h e, entry_wf N nports h e -> f e = prune (spares q w) e) ->
  wp (m;; mret 0) (fun _ w' => pruned (spares q w) (mc_hash w) (mc_hash w')) w.
Proof.
  intros Hg Hm Hf. apply wp_bind. eapply wp_mono; [exact Hm|cbv beta]. intros _ w' [_ H]. apply wp_ret.
  change (mc_hash w') with (mc_table w'). rewrite H. by apply (member_pruned N nports).
Qed.

Lemma wipe_prunes r port w h e : entry_wf N nports h e ->
  del_if (reports_on w r port) (Some r) e = prune (spares (WipeReporter r port) w) e.
Proof.
  intros He. apply (del_if_prune N nports h); [done|]. intros x Hx. unfold reports_on. cbn [spares]. f_equal.
  rewrite <- andb_assoc. cbn [key_dst igmp_key mc_key igmp_table snd]. f_equal. destruct (rep_find e r) as [y|] eqn:Ef; [done|].
  apply rep_find_None in Ef. apply Z.eqb_neq. intros <-. apply Ef. by apply list_elem_of_In, in_map, list_elem_of_In.
Qed.

(** A failing [br_mcast_blog_process] leaves no copy. *)
Hypothesis none_copied : no_copies (br_mcast_blog_process N).

Lemma request_refines q w : mc_ok N nports w -> request_ok N nports q ->
  wp (serve N q) (fun _ w' => refined q w w') w.
Proof.
  intros (Hg & Hd & Hp) Hq. destruct q; cbn [serve request_ok refined] in *.
  - eapply wp_mono; [by apply (add_spec N nports); [|apply Hq..]|cbv beta]. intros ret w' [_ Hh].
    set (e := join_entry w from ops prt rxG txG r mode tci src lanppp excl rtp) in *.
    destruct (join_accepted N from rxG txG mode) eqn:Ea; rewrite Hh.
    + assert (Er : mc_reps e = [mk_rep r (end_of w)]) by reflexivity.
      assert (Ek : br_igmp_mc_fdb_hash N txG = key_hash N (mc_key e)) by reflexivity. clearbody e.
      pose proof (join_refines N nports _ e r (end_of w) w _ none_copied Hg Er Ek) as HJ. cbn [mc_table igmp_table] in HJ.
      eapply joined_taken, HJ. tauto.
    + intros k x. assert (~ (false = true)) by done. tauto.
  - eapply wp_mono; [by apply (remove_spec N nports)|cbv beta]. intros _ w' [_ ->].
    destruct (leave_accepted N from rxG txG mode) eqn:Ea; [by apply leave_refines|].
    intros k x. cbn [spares]. rewrite Ea. cbn. tauto.
  - eapply pruning_refines; [done|by apply (wipe_spec N nports)|]. intros h e. apply wipe_prunes.
  - eapply pruning_refines; [done|by apply (if_change_spec N nports)|]. intros h e He.
    apply (del_if_prune N nports h); [done|]. intros x _. cbn [spares changed]. by destruct ndev; rewrite andb_true_r.
  - eapply wp_mono; [by apply (update_dev_spec N nports)|cbv beta]. by intros _ w' [_ H].
  - eapply pruning_refines; [done|by apply (cleanup_spec N nports)|]. intros h e He. by apply (del_if_prune N nports h).
  - apply wp_bind. eapply wp_mono; [by apply (timeout_spec N nports)|cbv beta]. intros _ w' (H & _). apply wp_ret.
    rewrite (to_groups _ _ _ H). by apply (member_pruned N nports).
Qed.

(** C7: the table of groups implements a set of memberships, each a membership
    key with a reporter and its time.  An accepted request to join gives the
    reporter its new time and touches nothing else: if the membership is known,
    provided the reporter is in it or one of the atomic allocations for its
    entries succeeds; if it is new, provided the accelerator takes it.  One to
    leave removes the reporter and nothing else; wiping a reporter, removing an
    interface, the clean-up and the timer remove exactly what they name.  An
    update of a device that has none stacked on it removes, when all is to be
    flushed, exactly the memberships of the device; when not, exactly those
    that only copied entries give, and with [flushAll] 0 those the accelerator
    does not take again.  The requests name ports and devices that exist, and
    an accelerator that fails has made no copies. *)
Theorem requests_refine_memberships q w : mc_ok N nports w -> request_ok N nports q ->
  exists ret w', serve N q w = Ok (ret, w') /\ refined q w w' /\ mc_ok N nports w'.
Proof.
  intros Hw Hq. destruct (wp_elim _ _ _ (request_refines q w Hw Hq)) as (ret & w' & E & H).
  destruct (wp_elim _ _ _ (serve_spec N nports q w Hw Hq)) as (ret2 & w2 & E2 & H2).
  rewrite E in E2. injection E2 as <- <-. by exists ret, w'.
Qed.

End Members.

(** ** Example *)

(** The host 100 leaves the group. *)
Lemma requests_refine_memberships_witness :
  let q := Leave 3 1 demo_grp demo_grp 100 SNOOP_EX_CLEAR 0 in
  exists ret w', serve quiet_net q demo_joined = Ok (ret, w') /\
    refined quiet_net q demo_joined w' /\ mc_ok quiet_net 3 w'.
Proof.
  intros q. apply (requests_refine_memberships quiet_net 3); [done|exact demo_joined_ok|cbn; lia].
Defined.
