(* ===== verification/BrExpiry.v ===== *)
(** Liveness of multicast snooping: memberships that are not renewed and
    packets that are not answered for go away, by the timer alone. *)

From S2P Require Import Prelude Str Stp Fdb Bridge BrExample BrWp BrForward BrForwardProps.
From S2P Require Import Groups GroupsProps GroupsServe GroupsExpiry BrIgmp BrIgmpProps BrGroups.

(** ** What is left to do *)

Definition deadlines (l : list (option nat * Z)) : list Z := omap (fun x => match fst x with Some _ => Some (snd x) | None => None end) l.
Definition total (w : world) : nat := length (reporters (mc_hash w)) + length (waiting (igmp_delayed_skb w)).

Lemma pending_end_fold w : pending_end w =
  foldl earlier (u32 (now w + MCPD_NETLINK_SKB_TIMEOUT_MS * 2), false) (deadlines (igmp_delayed_skb w)).
Proof.
  unfold pending_end. generalize (u32 (now w + MCPD_NETLINK_SKB_TIMEOUT_MS * 2)), false.
  induction (igmp_delayed_skb w) as [|[[i|] z] l IH]; intros t f; [done| |apply IH]. cbn. unfold earlier at 2. cbn.
  destruct (time_after t z); apply IH.
Qed.

Lemma deadlines_waiting l : length (deadlines l) = length (waiting l).
Proof. induction l as [|[[i|] z] l IH]; [done| |done]. cbn. f_equal. exact IH. Qed.

Lemma elem_deadlines l z : z ∈ deadlines l -> exists i, (Some i, z) ∈ l.
Proof.
  intros ([[i|] z'] & Hx & E)%list_elem_of_omap; [|done]. injection E as <-. by exists i.
Qed.

Section Expiry.
Context (N : net) (nports : nat) (snooping_on : igmp_snooping N <> 0) (E : Z).
Implicit Types (w : world).

(** At the time [T] the timer is set, every membership ends between [T] and
    [E], and every packet waits for two seconds at most. *)
Record running (T : Z) w : Prop := mk_running {
  rn_ok : mc_ok N nports w;
  rn_now : now w = u32 T;
  rn_timer : igmp_timer w = timer_of N w;
  rn_reps : forall x, x ∈ reporters (mc_hash w) -> due T E (tstamp x);
  rn_waits : forall i z, (Some i, z) ∈ igmp_delayed_skb w ->
    due T (Z.min E (T + MCPD_NETLINK_SKB_TIMEOUT_MS)) z
}.

(** The timer is set two seconds after the earliest of these times. *)
Lemma timer_due T w : running T w -> E <= T + BR_IGMP_MEMBERSHIP_TIMEOUT * HZ -> total w <> O ->
  exists S, timer_of N w = Some (u32 (S + TIMER_CHECK_TIMEOUT)) /\ T <= S <= E /\
    ((exists x, x ∈ reporters (mc_hash w) /\ tstamp x = u32 S) \/
     (exists i, (Some i, u32 S) ∈ igmp_delayed_skb w)).
Proof.
  intros [Hok Hnow _ Hr Hw] HE Hn. unfold BR_IGMP_MEMBERSHIP_TIMEOUT, HZ, MCPD_NETLINK_SKB_TIMEOUT_MS in *.
  set (W := T + 520000). set (reps := map tstamp (reporters (mc_hash w))).
  assert (HrW : forall z, z ∈ reps -> due T W z /\ due T E z).
  { intros z (x & -> & Hx)%list_elem_of_fmap. destruct (Hr x Hx) as (a & -> & Ha). split; exists a; split; lia || done. }
  assert (Hdl : forall z, z ∈ deadlines (igmp_delayed_skb w) -> due T W z /\ due T (Z.min E (T + 2000)) z).
  { intros z (i & Hz)%elem_deadlines. destruct (Hw i z Hz) as (a & -> & Ha). split; exists a; split; lia || done. }
  unfold timer_of. rewrite pending_end_fold, Hnow. rewrite u32_u32_add.
  destruct (earliest_fold T W (deadlines (igmp_delayed_skb w)) (T + MCPD_NETLINK_SKB_TIMEOUT_MS * 2) false) as (P & f & -> & HP & Hpend).
  { unfold W. lia. } { unfold W, MCPD_NETLINK_SKB_TIMEOUT_MS. lia. } { intros z Hz. by apply Hdl. }
  rewrite (proj2 (Z.eqb_neq _ _) snooping_on), u32_u32_add. cbn [andb negb].
  rewrite earliest_reporter_fold. fold reps. unfold BR_IGMP_MEMBERSHIP_TIMEOUT, HZ, MCPD_NETLINK_SKB_TIMEOUT_MS in *.
  change (T + 260 * 1000 * 2) with W.
  assert (Hin : forall S, T <= S <= W -> u32 S ∈ reps -> T <= S <= E /\
    exists x, x ∈ reporters (mc_hash w) /\ tstamp x = u32 S) by (intros S HS; apply (rep_at T E); [done|unfold W in *; lia..]).
  destruct Hpend as [(-> & -> & Hnone)|[-> Hp]]; cbn [andb].
  - destruct (earliest_fold T W reps W false) as (S & g & -> & HS & H); [unfold W; lia..|intros z Hz; by apply HrW|].
    destruct H as [(-> & -> & Hno)|[-> Hx]]; [exfalso|exists S; rewrite u32_u32_add; split; [done|]; by destruct (Hin S HS Hx); auto].
    apply Hn. unfold total. rewrite <- deadlines_waiting, <- (length_map tstamp (reporters _)). fold reps.
    destruct reps as [|z l] eqn:Er; [|destruct (Hno z E); [apply elem_of_cons; by left|unfold W; lia|apply HrW, elem_of_cons; by left]].
    destruct (deadlines _) as [|z l] eqn:Ed; [done|]. destruct (Hnone z (Z.min E (T + 2000))); [apply elem_of_cons; by left|lia|].
    apply Hdl, elem_of_cons. by left.
  - assert (HPE : P <= E).
    { assert (P <= Z.min E (T + 2000)); [|lia]. apply (due_at T _ P); [by apply Hdl|lia..]. }
    rewrite time_after_abs by (unfold W; lia). rewrite (proj2 (Z.ltb_lt P W)) by (unfold W; lia).
    destruct (earliest_fold T W reps P true) as (S & g & -> & HS & H); [unfold W; lia..|intros z Hz; by apply HrW|].
    assert (g = true) as -> by by destruct H as [(_ & -> & _)|[-> _]]. exists S. rewrite u32_u32_add. split; [done|].
    destruct H as [(-> & _ & _)|[_ Hx]].
    + split; [lia|]. right. by apply elem_deadlines.
    + destruct (Hin S); [unfold W; lia|done|]. auto.
Qed.

Lemma timer_idle T w : running T w -> total w = O -> timer_of N w = None.
Proof.
  intros [_ _ _ _ _] H0. unfold total in H0. rewrite <- deadlines_waiting in H0. unfold timer_of.
  rewrite pending_end_fold. destruct (deadlines _); [|cbn in H0; lia]. cbn [foldl andb negb].
  rewrite andb_true_r. rewrite (proj2 (Z.eqb_neq _ _) snooping_on). cbn [negb]. rewrite earliest_reporter_fold.
  by destruct (reporters _).
Qed.

(** The timer runs, [late] jiffies after the time it is set for. *)
Definition fire (late : Z) w : res world :=
  match igmp_timer w with
  | None => Ok w
  | Some t => '(_, w) ← br_igmp_timeout N (at_time (u32 (t + late)) w); Ok w
  end.

Fixpoint fires (l : list Z) w : res world :=
  match l with [] => Ok w | late :: l => w ← fire late w; fires l w end.

Lemma cleared_elem b l i z : (Some i, z) ∈ map (cleared b) l -> (Some i, z) ∈ l /\ b i z = false.
Proof.
  intros ([o z'] & Hx & Hin)%list_elem_of_fmap. unfold cleared, frees in Hx. cbn in Hx.
  destruct o as [j|]; [|done]. destruct (b j z') eqn:Eb; [done|]. by injection Hx as <- <-.
Qed.

Lemma cleared_shorter b l : (length (waiting (map (cleared b) l)) <= length (waiting l))%nat /\
  ((exists i z, (Some i, z) ∈ l /\ b i z = true) -> (length (waiting (map (cleared b) l)) < length (waiting l))%nat).
Proof.
  pose proof (Permutation_length (waiting_split b l)) as H. rewrite length_app in H. split; [lia|].
  intros (i & z & Hx & Hb). assert (Hin : i ∈ omap (frees b) l).
  { apply list_elem_of_omap. exists (Some i, z). split; [done|]. unfold frees. cbn. by rewrite Hb. }
  destruct (omap (frees b) l); [by apply elem_of_nil in Hin|]. cbn in H. lia.
Qed.

Lemma fire_step T L late w : running T w -> E <= T + BR_IGMP_MEMBERSHIP_TIMEOUT * HZ -> total w <> O ->
  0 <= late <= L -> L < 2 ^ 30 ->
  exists w' T', fire late w = Ok w' /\ running T' w' /\ (total w' < total w)%nat /\ T <= T' <= E + TIMER_CHECK_TIMEOUT + L.
Proof.
  intros Hrun HE Hn Hlate HL. destruct (timer_due T w Hrun HE Hn) as (S & Ht & HS & Hwho).
  pose proof Hrun as [Hok Hnow Htm Hr Hw]. unfold fire. rewrite Htm, Ht, u32_u32_add.
  unfold BR_IGMP_MEMBERSHIP_TIMEOUT, HZ, MCPD_NETLINK_SKB_TIMEOUT_MS in *. change TIMER_CHECK_TIMEOUT with 2000.
  set (T' := S + 2000 + late). set (w0 := at_time (u32 T') w). pose proof Hok as (Hg & Hd & Hp).
  destruct (wp_elim _ _ _ (timeout_spec N nports w0 Hg Hd Hp)) as ([] & w' & -> & Hto & Hg' & Hd').
  exists w', T'. split; [done|]. destruct Hto as [Egr Esl _ Etm Etb _]. change (now w0) with (u32 T') in Egr.
  change (mc_hash w0) with (mc_hash w) in Egr. change (igmp_delayed_skb w0) with (igmp_delayed_skb w) in Esl.
  assert (Hafter : forall a, T <= a <= E -> time_after_eq (u32 T') (u32 a) = (a <=? T'))
    by (intros a Ha; apply time_after_eq_abs; unfold T'; lia).
  assert (Hover : forall i b, T <= b <= E -> overdue w0 i (u32 b) = (b <? T'))
    by (intros i b Hb; apply time_before_abs; unfold T'; lia).
  assert (Hrun' : running T' w').
  { split; [| |done| |].
    - split; [done|]. split; [done|]. unfold nports_of. by rewrite Etb.
    - unfold now. by rewrite Etb.
    - rewrite Egr, reporters_expire. intros x [Hx Hf]%list_elem_of_In%filter_In. apply list_elem_of_In in Hx.
      destruct (Hr x Hx) as (a & Ha & Hra). rewrite Ha, Hafter in Hf by done. exists a. split; [done|].
      apply negb_true_iff, Z.leb_gt in Hf. lia.
    - rewrite Esl. intros i z [Hin Hb]%cleared_elem. destruct (Hw i z Hin) as (b & -> & Hrb).
      rewrite Hover in Hb by lia. apply Z.ltb_ge in Hb. exists b. split; [done|]. unfold T', MCPD_NETLINK_SKB_TIMEOUT_MS in *. lia. }
  split; [done|]. split; [|unfold T'; lia]. unfold total. rewrite Egr, reporters_expire, Esl.
  destruct (filter_shorter (fun x => negb (time_after_eq (u32 T') (tstamp x))) (reporters (mc_hash w))) as [H1 H1'].
  destruct (cleared_shorter (overdue w0) (igmp_delayed_skb w)) as [H2 H2']. destruct Hwho as [(x & Hx & Hts)|(i & Hi)].
  - assert (length (List.filter (fun x => negb (time_after_eq (u32 T') (tstamp x))) (reporters (mc_hash w))) <
      length (reporters (mc_hash w)))%nat; [|lia]. apply H1'. exists x. split; [done|].
    rewrite Hts, Hafter by done. apply negb_false_iff, Z.leb_le. unfold T'. lia.
  - assert (length (waiting (map (cleared (overdue w0)) (igmp_delayed_skb w))) < length (waiting (igmp_delayed_skb w)))%nat; [|lia].
    apply H2'. exists i, (u32 S). split; [done|]. rewrite Hover by done. apply Z.ltb_lt. unfold T'. lia.
Qed.

Lemma fires_done L l T w : running T w -> E <= T + BR_IGMP_MEMBERSHIP_TIMEOUT * HZ -> L < 2 ^ 30 ->
  Forall (fun late => 0 <= late <= L) l -> (total w <= length l)%nat ->
  exists w' T', fires l w = Ok w' /\ running T' w' /\ total w' = O /\
    T <= T' /\ (T' = T \/ T' <= E + TIMER_CHECK_TIMEOUT + L).
Proof.
  intros Hrun HE HL Hl. revert T w Hrun HE. induction Hl as [|late l Hlate _ IH]; intros T w Hrun HE Hn.
  { exists w, T. split; [done|]. split; [done|]. cbn in Hn. split; [lia|]. split; [lia|by left]. }
  cbn [fires]. destruct (decide (total w = O)) as [H0|Hne].
  - assert (Htm : fire late w = Ok w); [|rewrite Htm; apply IH; [done|done|lia]].
    unfold fire. rewrite (rn_timer _ _ Hrun), (timer_idle T w Hrun H0). done.
  - destruct (fire_step T L late w Hrun HE Hne Hlate HL) as (w1 & T1 & -> & Hrun1 & Hlt & HT1).
    destruct (IH T1 w1) as (w' & T' & Hf & Hrun' & H0 & HT' & Hor); [done|lia|cbn in Hn; lia|].
    exists w', T'. split; [done|]. split; [done|]. split; [done|]. split; [lia|]. right. lia.
Qed.

End Expiry.

(** C17: with snooping on, memberships that nobody renews and packets that
    nobody answers for go away by the timer alone.  From any state in which
    the timer is set, memberships end within 260 seconds and packets wait
    for two at most, as many runs of the timer as there are reporters and
    waiting packets, each up to [L] jiffies late, empty both tables and stop
    the timer, at most 262 seconds and [L] jiffies after the start; the
    arithmetic of jiffies may wrap around on the way. *)
Theorem memberships_end N nports T L l w : igmp_snooping N <> 0 ->
  running N nports (T + BR_IGMP_MEMBERSHIP_TIMEOUT * HZ) T w -> 0 <= L < 2 ^ 30 ->
  Forall (fun late => 0 <= late <= L) l -> (total w <= length l)%nat ->
  exists w' D, fires N l w = Ok w' /\ Forall (fun c => c = []) (mc_hash w') /\
    waiting (igmp_delayed_skb w') = [] /\ igmp_timer w' = None /\
    now w' = u32 (T + D) /\ 0 <= D <= (BR_IGMP_MEMBERSHIP_TIMEOUT + 2) * HZ + L.
Proof.
  intros Hs Hrun HL Hl Hn.
  destruct (fires_done N nports Hs _ L l T w Hrun) as (w' & T' & Hf & Hrun' & H0 & HT & Hor); [lia..|done|done|].
  exists w', (T' - T). split; [done|]. pose proof Hrun' as [(Hg & _ & _) Hnow Htm _ _].
  assert (Hz : length (reporters (mc_hash w')) = O /\ length (waiting (igmp_delayed_skb w')) = O) by (unfold total in H0; lia).
  destruct Hz as [Hz1%nil_length_inv Hz2%nil_length_inv]. split; [by eapply no_reporters|]. split; [done|].
  split; [rewrite Htm; by eapply timer_idle|]. split; [rewrite Hnow; f_equal; lia|].
  unfold BR_IGMP_MEMBERSHIP_TIMEOUT, HZ in *. change TIMER_CHECK_TIMEOUT with 2000 in Hor. lia.
Qed.

(** ** Example *)

(** Three hosts have joined and a packet waits, just before jiffies wrap
    around. *)
Definition wrap_requests : list (Z * mc_request) :=
  [(2 ^ 32 - 3000, demo_join 1 100); (2 ^ 32 - 2000, demo_join 1 101); (2 ^ 32 - 1000, demo_join 0 102)].
Definition wrap_start : world :=
  demo_world (demo_fdb FORWARDING) (demo_frame broadcast 0x0800 []) [(Some 0%nat, 500); (None, 0)].
Definition demo_wrap : world := Eval vm_compute in
  match mc_run quiet_net wrap_requests wrap_start with Ok w => w | Fault _ => wrap_start end.

Lemma demo_wrap_running :
  running quiet_net 3 (2 ^ 32 - 1000 + BR_IGMP_MEMBERSHIP_TIMEOUT * HZ) (2 ^ 32 - 1000) demo_wrap.
Proof.
  split; [|done|by vm_compute| |].
  - destruct (mc_run_ok quiet_net 3 wrap_requests wrap_start) as (w' & E & H).
    + apply empty_ok; [done|exact demo_delayed|done].
    + by repeat constructor; cbn; lia.
    + assert (Ev : match mc_run quiet_net wrap_requests wrap_start with Ok w => w | Fault _ => wrap_start end = demo_wrap)
        by (vm_compute; reflexivity). rewrite E in Ev. by rewrite <- Ev.
  - intros x Hx. assert (Hr : reporters (mc_hash demo_wrap) =
      [mk_rep 102 259000; mk_rep 100 257000; mk_rep 101 258000]) by by vm_compute. rewrite Hr, !elem_of_cons in Hx.
    destruct Hx as [->|[->|[->|Hx%elem_of_nil]]]; [| | |done].
    + exists (2 ^ 32 + 259000). by vm_compute.
    + exists (2 ^ 32 + 257000). by vm_compute.
    + exists (2 ^ 32 + 258000). by vm_compute.
  - intros i z Hx. change (igmp_delayed_skb demo_wrap) with [(Some 0%nat, 500); (None, 0)] in Hx.
    rewrite !elem_of_cons in Hx. destruct Hx as [[= -> ->]|[[=]|Hx%elem_of_nil]]; [|done]. exists (2 ^ 32 + 500). by vm_compute.
Qed.

Lemma memberships_end_witness : exists w' D, fires quiet_net [0; 5; 0; 10] demo_wrap = Ok w' /\
  Forall (fun c => c = []) (mc_hash w') /\ waiting (igmp_delayed_skb w') = [] /\ igmp_timer w' = None /\
  now w' = u32 (2 ^ 32 - 1000 + D) /\ 0 <= D <= (BR_IGMP_MEMBERSHIP_TIMEOUT + 2) * HZ + 10.
Proof.
  apply (memberships_end quiet_net 3 (2 ^ 32 - 1000) 10 [0; 5; 0; 10] demo_wrap).
  - done.
  - exact demo_wrap_running.
  - lia.
  - repeat constructor; lia.
  - by vm_compute; repeat constructor.
Defined.
