(* ===== verification/BrInput.v ===== *)
(** Frames that come in: net/bridge/br_input.c, and the transmit function of
    the bridge device in br_device.c, as the kernel is configured (IGMP rate
    limit, IGMP and MLD snooping, the flow records of the packet accelerator
    with the wireless chaining table, wireless isolation; no bonding, no
    IEEE 1905, no VLAN aggregation).  [br_multicast_rcv] and [br_mdb_get] are
    the empty functions of a kernel without CONFIG_BRIDGE_IGMP_SNOOPING. *)

From S2P Require Import Prelude Str Stp Fdb Bridge BrForward BrIgmp.

Definition ETHER_TYPE_BRCM : Z := 0x886c.
Definition BLOG_XTMPHY : Z := 0.
Definition BLOG_ENETPHY : Z := 1.
Definition BLOG_GPONPHY : Z := 2.
Definition BLOG_EPONPHY : Z := 3.
Definition BLOG_WLANPHY : Z := 5.
Definition BLOG_GET_PHYTYPE (a : Z) : Z := Z.land a 0xf.
Definition GET_PKTC_TX_MODE : Z := 7.
Definition UPDATE_BRC_HOT : Z := 4.
Definition INVALID_CHAIN_IDX : Z := 0x3FFE.
Definition WFD_IDX_UINT16_BIT_MASK : Z := 0xC000.
Definition WFD_IDX_UINT16_BIT_POS : Z := 14.

Inductive rx_handler_result : Type :=
  | RX_HANDLER_CONSUMED
  | RX_HANDLER_PASS (skb : nat).

Section Net.
Context (N : net).

(** ** To the local host *)

Definition br_pass_frame_up (i : nat) : M Z :=
  s ← skb_at i;
  brdev ← lift (of_option NullDeref (brdev s));
  if match wifi_iso_listen_local_cb N with Some cb => nonzero (cb s) | None => false end
  then kfree_skb i;; mret 0
  else
    blog_link (link_device brdev DIR_RX (len s)) i;;
    count rx_packets 1;; count rx_bytes (len s);;
    count br_rx_packets 1;; count br_rx_bytes (len s);;
    skb_upd i (set_dev brdev);;
    NF_HOOK N NF_BR_LOCAL_IN i (Some (dev s)) None netif_receive_skb.

(** ** The IGMP rate limit *)

(** [ktime_to_us], whose seconds are a 32-bit [long]. *)
Definition ktime_to_us (kt : Z) : Z := s32 (kt / 10 ^ 9) * 10 ^ 6 + kt mod 10 ^ 9 / 1000.

(** The token bucket: the bucket, the time of the last packet and the
    remaining time after a packet at time [cur], and whether it passes. *)
Definition rate_step (limit cur bucket last rem : Z) : res (bool * (Z * Z * Z)) :=
  let usPerPacket := 1000000 / limit in
  let diffUs := u64 (ktime_to_us (cur - last) + rem) in
  let burstLimit := Z.shiftr limit 2 in
  let burstLimit := if burstLimit =? 0 then 1 else burstLimit in
  '(bucket, rem) ← (
    if 1000000 <? diffUs then Ok (burstLimit, 0)
    else if usPerPacket =? 0 then Fault DivideByZero
    else
      let temp32 := u32 diffUs / usPerPacket in
      Ok (u32 (bucket + temp32),
          if nonzero temp32 then u32 (diffUs - u32 (temp32 * usPerPacket)) else rem));
  let '(bucket, rem) := if burstLimit <? bucket then (burstLimit, 0) else (bucket, rem) in
  Ok (if bucket =? 0 then (false, (bucket, last, rem)) else (true, (bucket - 1, cur, rem))).

Definition igmp_rate_pass : M bool :=
  if igmp_rate_limit N =? 0 then mret true
  else
    w ← gets id;
    '(pass, (bucket, last, rem)) ← lift (rate_step (igmp_rate_limit N) (ktime_get N)
      (igmp_rate_bucket w) (igmp_rate_last_packet w) (igmp_rate_rem_time w));
    modify (set_rate bucket last rem);; mret pass.

(** ** The forwarding database *)

Definition fdb_learn (p : nat) (addr : list Z) : M unit :=
  t ← gets tbl; t ← lift (br_fdb_update (fenv N) t p addr); modify (set_tbl t).

Definition fdb_get (addr : list Z) : M (option (nat * nat)) :=
  t ← gets tbl;
  let '(r, t) := __br_fdb_get (fenv N) t addr in
  modify (set_tbl t);; mret r.

(** The entry a pointer refers to, and its [used] time set to now. *)
Definition entry_at (ij : nat * nat) : M fdb_entry :=
  t ← gets tbl; lift (of_option NullDeref (chain t (fst ij) !! snd ij)).
Definition entry_used (ij : nat * nat) : M unit :=
  f ← entry_at ij;
  modify (fun w => set_tbl (set_chain (fst ij)
    (<[snd ij := set_used (now (tbl w)) f]> (chain (tbl w) (fst ij))) (tbl w)) w).

(** ** The wireless chaining table *)

(** The device below the VLAN devices over [d]. *)
Fixpoint vlan_root (fuel : nat) (d : nat) : res nat :=
  match fuel with
  | O => Fault OutOfFuel
  | S fuel =>
      x ← dev_at N d;
      match next_dev x with
      | None => Ok d
      | Some n => if nonzero (Z.land (priv_flags x) IFF_BCM_VLAN) then vlan_root fuel n else Ok d
      end
  end.

(** [wl_metadata] is a bit field of 14 bits. *)
Definition set_chain_idx (idx : Z) (b : blog) : blog :=
  mk_blog (rx_multicast b) (tx_pktlen b) (virt_dev_p b) (fdb_src b) (fdb_dst b)
    (Z.shiftr (Z.land idx WFD_IDX_UINT16_BIT_MASK) WFD_IDX_UINT16_BIT_POS) (idx mod 2 ^ 14).

(** The block under PKTC of [br_handle_frame_finish], for a destination [f]
    that is not local.  The call of [dhd_pktc_req_hook], whose answer is not
    used, is left out. *)
Definition pktc_update (i : nat) (f : fdb_entry) (source : list Z) : M unit :=
  dp ← lift (of_option NullDeref (dst f));
  let ddev := port_dev N dp in
  let pktc_tx_enabled :=
    match wl_pktc_req_hook N with Some hook => hook GET_PKTC_TX_MODE [] O | None => 0 end in
  src ← fdb_get source;
  match src with
  | None => mret tt
  | Some src =>
      sf ← entry_at src;
      sp ← lift (of_option NullDeref (dst sf));
      sd ← lift (dev_at N (port_dev N sp));
      dd ← lift (dev_at N ddev);
      let srcPhyType := BLOG_GET_PHYTYPE (hw_port_type sd) in
      let dstPhyType := BLOG_GET_PHYTYPE (hw_port_type dd) in
      let from_wl_to_switch := (srcPhyType =? BLOG_WLANPHY) && (dstPhyType =? BLOG_ENETPHY) in
      let from_switch_to_wl :=
        negb from_wl_to_switch &&
        ((srcPhyType =? BLOG_ENETPHY) || (srcPhyType =? BLOG_XTMPHY) ||
         (srcPhyType =? BLOG_EPONPHY) || (srcPhyType =? BLOG_GPONPHY)) &&
        (dstPhyType =? BLOG_WLANPHY) && nonzero pktc_tx_enabled in
      r ← lift (if from_wl_to_switch then vlan_root (S (length (devs N))) ddev else Ok ddev);
      rd ← lift (dev_at N r);
      if (from_wl_to_switch || from_switch_to_wl) && negb (wandev dd) &&
         bool_decide (next_dev rd = None) then
        let chainIdx :=
          match wl_pktc_req_hook N with
          | Some hook => hook UPDATE_BRC_HOT (f_addr f) r
          | None => INVALID_CHAIN_IDX
          end in
        if negb (chainIdx =? INVALID_CHAIN_IDX) && from_switch_to_wl then
          skb_upd i (fun s => set_blog (set_chain_idx chainIdx <$> blog_p s) s)
        else mret tt
      else mret tt
  end.

(** ** br_handle_frame_finish *)

(** Snooping of a frame with the IPv4 header [pipmcast]; whether it is dealt
    with. *)
Definition snoop (i : nat) (pipmcast : option Z) (forward is_routed : bool) : M bool :=
  s ← skb_at i;
  '(pipv6mcast, _, _) ← lift (br_mld_get_ip_icmp_hdrs s);
  match pipv6mcast, pipmcast with
  | Some _, _ => r ← br_mld_mc_forward N i forward is_routed; mret (nonzero r)
  | None, Some _ => r ← br_igmp_mc_forward N i forward is_routed; mret (nonzero r)
  | None, None => mret false
  end.

(** A frame to a single station: the buffer still to forward, its entry, and
    the buffer for the local host. *)
Definition unicast (i : nat) (skb2 : option nat) : M (option nat * option (nat * nat) * option nat) :=
  s ← skb_at i;
  d ← fdb_get (h_dest s);
  src ← fdb_get (h_source s);
  blog_link (link_fdb ((fun _ => h_source s) <$> src) BLOG_PARAM1_SRCFDB) i;;
  blog_link (link_fdb ((fun _ => h_dest s) <$> d) BLOG_PARAM1_DSTFDB) i;;
  match d with
  | None => mret (Some i, None, skb2)
  | Some ij =>
      f ← entry_at ij;
      (if negb (is_local f) then pktc_update i f (h_source s) else mret tt);;
      if is_local f then mret (None, Some ij, Some i) else mret (Some i, Some ij, skb2)
  end.

(** The rest of the function, once the destination is known. *)
Definition dispatch (skb : option nat) (d : option (nat * nat)) (skb2 : option nat) : M Z :=
  match skb with
  | None => mret tt
  | Some i =>
      match d with
      | Some ij => entry_used ij;; f ← entry_at ij; br_forward N (dst f) i skb2
      | None => br_flood_forward N i skb2
      end
  end;;
  match skb2 with Some i => br_pass_frame_up i | None => mret 0 end.

Definition finish_dest (i : nat) : M Z :=
  s ← skb_at i;
  let skb2 := if nonzero (Z.land (br_dev_flags N) IFF_PROMISC) then Some i else None in
  if is_broadcast_ether_addr (h_dest s) then
    count rx_broadcast_packets 1;; dispatch (Some i) None (Some i)
  else if is_multicast_ether_addr (h_dest s) then
    count multicast 1;; count rx_multicast_bytes (len s);; dispatch (Some i) None (Some i)
  else
    '(skb, d, skb2) ← unicast i skb2;
    dispatch skb d skb2.

(** A frame from port [p] that has passed the rate limit. *)
Definition finish_learn (i p : nat) (pipmcast : option Z) : M Z :=
  s ← skb_at i;
  fdb_learn p (h_source s);;
  pt ← port_of p;
  if bool_decide (state pt = LEARNING) && negb (protocol s =? ETHER_TYPE_BRCM)
  then kfree_skb i;; mret 0
  else
    skb_upd i (set_brdev (br_dev N));;
    handled ← snoop i pipmcast true false;
    if handled : bool then mret 0 else finish_dest i.

Definition br_handle_frame_finish (i : nat) : M Z :=
  s ← skb_at i;
  port ← lift (br_port_get_rcu N (dev s));
  match port with
  | None => kfree_skb i;; mret 0
  | Some p =>
      pt ← port_of p;
      if bool_decide (state pt = DISABLED) then kfree_skb i;; mret 0
      else
        '(pipmcast, pigmp, _) ← lift (br_igmp_get_ip_igmp_hdrs s);
        pass ← match pigmp with Some _ => igmp_rate_pass | None => mret true end;
        if negb pass then kfree_skb i;; mret 0 else finish_learn i p pipmcast
  end.

(** ** br_handle_frame *)

Definition br_handle_local_finish (i : nat) : M Z :=
  s ← skb_at i;
  p ← lift (br_port_get_rcu N (dev s));
  p ← lift (of_option NullDeref p);
  fdb_learn p (h_source s);; mret 0.

(** The 16-bit words of an address, in network order. *)
Definition word16 (a : list Z) (i : nat) : Z := 256 * byte_of a (2 * i) + byte_of a (2 * i + 1).
Definition br_group_address : list Z := [0x01; 0x80; 0xc2; 0x00; 0x00; 0x00].

Definition is_link_local (d : list Z) : bool :=
  Z.lor (Z.lor (Z.lxor (word16 d 0) (word16 br_group_address 0))
               (Z.lxor (word16 d 1) (word16 br_group_address 1)))
        (Z.land (Z.lxor (word16 d 2) (word16 br_group_address 2)) 0xfff0) =? 0.

(** The call of the hooks before routing, and the case BR_STATE_LEARNING of
    the switch. *)
Definition pre_routing (i : nat) : M rx_handler_result :=
  s ← skb_at i;
  NF_HOOK N NF_BR_PRE_ROUTING i (Some (dev s)) None br_handle_frame_finish;;
  mret RX_HANDLER_CONSUMED.

Definition learning (i : nat) : M rx_handler_result :=
  s ← skb_at i;
  w ← gets tbl;
  (if negb (compare_ether_addr (dev_addr (br (stp_of w))) (h_dest s))
   then skb_upd i (set_pkt_type PACKET_HOST) else mret tt);;
  pre_routing i.

(** The frame from the label [forward] on, received on port [p]. *)
Definition handle_forward (i p : nat) : M rx_handler_result :=
  s ← skb_at i;
  pt ← port_of p;
  if (protocol s =? ETHER_TYPE_BRCM) && negb (bool_decide (state pt = FORWARDING)) then pre_routing i
  else
    match state pt with
    | FORWARDING =>
        match br_should_route_hook N with
        | None => learning i
        | Some rhook =>
            let '(r, s) := rhook s in
            skb_set i s;;
            if nonzero r then mret (RX_HANDLER_PASS i) else learning i
        end
    | LEARNING => learning i
    | _ => kfree_skb i;; mret RX_HANDLER_CONSUMED
    end.

(** The frame once the buffer is not shared. *)
Definition handle_unshared (i : nat) : M rx_handler_result :=
  s ← skb_at i;
  po ← lift (br_port_get_rcu N (dev s));
  let d := byte_of (h_dest s) 5 in
  if is_link_local (h_dest s) && (d =? 1) then kfree_skb i;; mret RX_HANDLER_CONSUMED
  else
    p ← lift (of_option NullDeref po);
    w ← gets tbl;
    if is_link_local (h_dest s) &&
       negb (if d =? 0 then bool_decide (stp_enabled (br (stp_of w)) = BR_NO_STP)
             else nonzero (Z.land (group_fwd_mask N) (Z.shiftl 1 d)))
    then
      r ← NF_HOOK N NF_BR_LOCAL_IN i (Some (dev s)) None br_handle_local_finish;
      mret (if nonzero r then RX_HANDLER_CONSUMED else RX_HANDLER_PASS i)
    else handle_forward i p.

Definition br_handle_frame (skb : nat) : M rx_handler_result :=
  s ← skb_at skb;
  if pkt_type s =? PACKET_LOOPBACK then mret (RX_HANDLER_PASS skb)
  else if negb (is_valid_ether_addr (h_source s)) then kfree_skb skb;; mret RX_HANDLER_CONSUMED
  else
    o ← skb_share_check N skb;
    match o with
    | None => mret RX_HANDLER_CONSUMED
    | Some i => handle_unshared i
    end.

(** ** br_dev_xmit *)

Definition pktc_xmit (i : nat) (f : fdb_entry) : M unit :=
  match wl_pktc_req_hook N with
  | None => mret tt
  | Some hook =>
      p ← lift (of_option NullDeref (dst f));
      x ← lift (dev_at N (port_dev N p));
      if (BLOG_GET_PHYTYPE (hw_port_type x) =? BLOG_WLANPHY) && nonzero (hook GET_PKTC_TX_MODE [] O) then
        let chainIdx := hook UPDATE_BRC_HOT (f_addr f) (port_dev N p) in
        if negb (chainIdx =? INVALID_CHAIN_IDX) then
          skb_upd i (fun s => set_blog (set_chain_idx chainIdx <$> blog_p s) s)
        else mret tt
      else mret tt
  end.

Definition xmit_stats (s : sk_buff) : M unit :=
  count tx_packets 1;; count tx_bytes (len s);;
  (if pkt_type s =? PACKET_BROADCAST then count tx_broadcast_packets 1
   else if pkt_type s =? PACKET_MULTICAST then
     count tx_multicast_packets 1;; count tx_multicast_bytes (len s)
   else mret tt);;
  count br_tx_packets 1;; count br_tx_bytes (len s).

(** A frame to [dest] that snooping leaves to the bridge. *)
Definition xmit_rest (i : nat) (dest : list Z) : M Z :=
  if is_broadcast_ether_addr dest then br_flood_deliver N i;; mret 0
  else if is_multicast_ether_addr dest then br_flood_deliver N i;; mret 0
  else
    d ← fdb_get dest;
    match d with
    | Some ij =>
        blog_link (link_fdb (Some dest) BLOG_PARAM1_DSTFDB) i;;
        f ← entry_at ij; pktc_xmit i f;; br_deliver N (dst f) i;; mret 0
    | None => br_flood_deliver N i;; mret 0
    end.

Definition br_dev_xmit (i : nat) : M Z :=
  s ← skb_at i;
  blog_link (link_device (br_dev N) DIR_TX (len s)) i;;
  xmit_stats s;;
  skb_upd i (fun s => skb_pull ETH_HLEN (skb_reset_mac_header (set_brdev (br_dev N) s)));;
  s ← skb_at i;
  '(pipv6mcast, _, _) ← lift (br_mld_get_ip_icmp_hdrs s);
  '(pipmcast, _, _) ← lift (match pipv6mcast with
    | None => br_igmp_get_ip_igmp_hdrs s
    | Some _ => Ok (None, None, None)
    end);
  handled ← snoop i pipmcast false true;
  if handled : bool then mret 0 else xmit_rest i (h_dest s).

End Net.
