(* ===== verification/BrInputProps.v ===== *)
(** Theorems about frames that come in: no fault, every buffer accounted for,
    and nothing leaves by a port that may not have it. *)

From S2P Require Import Prelude Str Stp StpSelect StpSafety Fdb FdbTable FdbRefine FdbProps.
From S2P Require Import Bridge BrExample BrWp BrForward BrForwardProps BrIgmp BrIgmpProps BrInput.

(** ** The forwarding database under the data path *)

Section Database.
Context (N : net) (nos : list Z).
Implicit Types (t : fdb) (w : world).

(** Every entry names a port of the bridge. *)
Definition has_port (f : fdb_entry) : Prop := exists p, dst f = Some p /\ (p < length nos)%nat.
Definition ported t : Prop := map_Forall (fun _ f => has_port f) (abs t).

Record fdb_ok t : Prop := mk_fdb_ok {
  fk_table : table_ok (fenv N) t;
  fk_stp : wf nos (stp_of t);
  fk_ported : ported t
}.

Lemma fdb_nports t : fdb_ok t -> length (ports (br (stp_of t))) = length nos.
Proof. intros [_ [[_ <-] _] _]. by rewrite length_map. Qed.

Lemma chain_ported t i (j : nat) f : fdb_ok t -> (i < Z.to_nat BR_HASH_SIZE)%nat ->
  chain t i !! j = Some f -> has_port f.
Proof. intros [Ht _ Hp] Hi Hj. apply (Hp (f_addr f)). by apply (chain_abs (fenv N) t i j). Qed.

Lemma learn_ok t source addr t' : fdb_ok t -> (source < length nos)%nat ->
  br_fdb_update (fenv N) t source addr = Ok t' -> fdb_ok t'.
Proof.
  intros Hf Hs E. pose proof (fdb_nports t Hf) as Hn. destruct Hf as [Ht Hw Hp].
  destruct (update_safe (fenv N) nos t source addr Ht Hw) as (t1 & E1 & Hw1); [lia|].
  rewrite E in E1. injection E1 as <-. destruct (update_refines _ _ _ _ _ Ht E) as (Ht' & Ha & _).
  split; [done..|]. unfold ported. rewrite Ha. unfold update_spec, create_spec.
  destruct (ports _ !! source) as [pt|]; [|done]. destruct (learns t pt); [|done].
  destruct (abs t !! addr) as [f|] eqn:Ef.
  - destruct (is_local f); [done|]. apply map_Forall_insert_2; [|done]. by exists source.
  - destruct (_ || _); [done|]. cbn. apply map_Forall_insert_2; [|done]. by exists source.
Qed.

Lemma fdb_learn_spec p addr Q w : fdb_ok (tbl w) -> (p < length nos)%nat ->
  (forall t', fdb_ok t' -> Q tt (set_tbl t' w)) -> wp (fdb_learn N p addr) Q w.
Proof.
  intros Hf Hp HQ. unfold fdb_learn. apply wp_bind, wp_gets, wp_bind.
  destruct (update_safe (fenv N) nos (tbl w) p addr) as (t1 & E1 & _).
  - apply Hf.
  - apply Hf.
  - by rewrite (fdb_nports _ Hf).
  - eapply wp_lift; [exact E1|]. apply wp_modify, HQ. by apply (learn_ok (tbl w) p addr).
Qed.

(** The entry a pointer refers to has its port; it stays what it was through
    later lookups. *)
Definition points t (ij : nat * nat) (f : fdb_entry) : Prop :=
  (fst ij < Z.to_nat BR_HASH_SIZE)%nat /\ chain t (fst ij) !! snd ij = Some f.

Definition like (f f' : fdb_entry) : Prop :=
  dst f' = dst f /\ is_local f' = is_local f /\ f_addr f' = f_addr f.

Lemma set_entry_points t i (j : nat) f' ij f : length (hash t) = Z.to_nat BR_HASH_SIZE ->
  points t ij f -> (forall g, chain t i !! j = Some g -> like g f') ->
  exists f2, points (set_chain i (<[j := f']> (chain t i)) t) ij f2 /\ like f f2.
Proof.
  intros Hs [Hlt Hf] Hg. unfold points, chain in *. cbn.
  destruct (decide (fst ij = i)) as [<-|Hi].
  - rewrite nth_lookup, list_lookup_insert_eq by lia. cbn. destruct (decide (snd ij = j)) as [<-|Hj].
    + rewrite list_lookup_insert_eq by (by eapply lookup_lt_Some). exists f'. split; [done|]. by apply Hg.
    + rewrite list_lookup_insert_ne by done. by exists f.
  - rewrite nth_lookup, list_lookup_insert_ne, <- nth_lookup by done. by exists f.
Qed.

Lemma get_points t addr o t' ij f : length (hash t) = Z.to_nat BR_HASH_SIZE ->
  __br_fdb_get (fenv N) t addr = (o, t') -> points t ij f -> exists f', points t' ij f' /\ like f f'.
Proof.
  intros Hs. unfold __br_fdb_get. destruct (fdb_find _ _) as [j|]; [|intros [= <- <-]; by exists f].
  destruct (chain t _ !! j) as [g|] eqn:Eg; [|intros [= <- <-]; by exists f].
  intros H Hp. assert (Hl : forall g', chain t (br_mac_hash (fenv N) addr) !! j = Some g' -> like g' (refresh (fenv N) g)).
  { intros g' Hg'. rewrite Eg in Hg'. injection Hg' as <-. unfold refresh. by destruct (_ =? _). }
  destruct (has_expired _ _); injection H as <- <-; by apply set_entry_points.
Qed.

Lemma fdb_get_spec addr Q w : fdb_ok (tbl w) ->
  (forall o t', fdb_ok t' -> stp_of t' = stp_of (tbl w) ->
    (forall ij, o = Some ij -> exists f, points t' ij f) ->
    (forall ij f, points (tbl w) ij f -> exists f', points t' ij f' /\ like f f') ->
    Q o (set_tbl t' w)) ->
  wp (fdb_get N addr) Q w.
Proof.
  intros [Ht Hw Hp] HQ. unfold fdb_get. apply wp_bind, wp_gets.
  destruct (__br_fdb_get (fenv N) (tbl w) addr) as [o t'] eqn:E. apply wp_bind, wp_modify, wp_ret.
  destruct (get_refines _ _ _ _ _ Ht E) as [(Ht' & Ha & Hs & _) Ho]. apply HQ.
  - split; [done|by rewrite Hs|]. unfold ported. rewrite Ha. unfold get_spec.
    destruct (abs (tbl w) !! addr) as [f|] eqn:Ef; [|done]. cbn. apply map_Forall_insert_2; [|done].
    destruct (Hp _ _ Ef) as (p & Hd & Hlt). exists p. unfold refresh. by destruct (_ =? _).
  - done.
  - intros [i j] ->. destruct Ho as (Hi & Hc & Hn). destruct (fst _) as [f|]; [|done]. by exists f.
  - intros ij f. apply (get_points _ addr o); [|done]. by apply ok_size with (fenv N).
Qed.

Lemma entry_at_spec ij f Q w : points (tbl w) ij f -> Q f w -> wp (entry_at ij) Q w.
Proof.
  intros [_ Hf] HQ. unfold entry_at. apply wp_bind, wp_gets. eapply wp_lift; [by rewrite Hf|done].
Qed.

Lemma entry_used_spec ij f Q w : fdb_ok (tbl w) -> points (tbl w) ij f ->
  (forall t' f', fdb_ok t' -> stp_of t' = stp_of (tbl w) -> points t' ij f' -> like f f' ->
    Q tt (set_tbl t' w)) ->
  wp (entry_used ij) Q w.
Proof.
  intros Hok Hp HQ. unfold entry_used. apply wp_bind. eapply entry_at_spec; [done|]. apply wp_modify.
  destruct Hp as [Hi Hf]. destruct ij as [i j]. cbn [fst snd] in *. pose proof Hok as [Ht Hw Hpo].
  pose proof (chain_abs (fenv N) (tbl w) i j f Ht Hi Hf) as Ha.
  set (f' := set_used (now (tbl w)) f). set (t' := set_chain i (<[j := f']> (chain (tbl w) i)) (tbl w)).
  destruct (upto_change (fenv N) (tbl w) t' i j f f') as (Ht' & Ha' & Hs & _); try done.
  { apply (abs_local _ _ _ _ Ht Ha). }
  apply (HQ t' f'); [|done| |done].
  - split; [done|by rewrite Hs|]. unfold ported. rewrite Ha'. apply map_Forall_insert_2; [|done].
    by apply (Hpo _ _ Ha).
  - split; [done|]. unfold chain, t'. cbn. rewrite nth_lookup, list_lookup_insert_eq.
    + cbn. apply list_lookup_insert_eq. by eapply lookup_lt_Some.
    + by rewrite (ok_size _ _ Ht).
Qed.

End Database.

(** ** What a frame may cause *)

Section Input.
Context (N : net) (nos : list Z).
Abbreviation nports := (length nos).
Context (HN : net_ok N nports).

(** The invariant of the bridge between two frames. *)
Record data_ok (w : world) : Prop := mk_data_ok {
  da_fdb : fdb_ok N nos (tbl w);
  da_dirty : length (dirty w) = nports;
  da_heap : heap_ok w;
  da_groups : groups_ok nports w
}.

(** What may happen to buffers on account of a frame from the device [d]: one
    leaves by a forwarding port, other than the one it came from unless that
    is in hairpin mode; one goes to the host, as a frame of the bridge
    device; one is dropped; the daemon gets a message. *)
Definition out_ok (st : stp) (d : nat) (e : ev) : Prop :=
  match e with
  | Xmit s => exists p pt, ports (br st) !! p = Some pt /\ state pt = FORWARDING /\
      dev s = port_dev N p /\ (BR_HAIRPIN_MODE N p = true \/ d <> port_dev N p)
  | Receive s => dev s = br_dev N
  | ToMcpd _ _ _ _ => True
  | _ => off e
  end.

Lemma out_sent t s e : sent_ok N nports t s e -> out_ok (stp_of t) (dev s) e.
Proof.
  destruct e as [s'| | | | | | | |]; try done. cbn. intros (p & b & Hp & Hd & ->).
  apply deliverable_true in Hd as (_ & _ & _ & pt & Hpt & Hst & Hh). by exists p, pt.
Qed.

Lemma out_snoop t s e : snoop_ev N nports t s e -> out_ok (stp_of t) (dev s) e.
Proof. destruct e; try done; apply (out_sent t s). Qed.

Lemma out_off st d e : off e -> out_ok st d e.
Proof. by destruct e. Qed.

(** From [w] to [w'] such events have happened, the invariant holds, and the
    group tables are what they were. *)
Definition groups (w : world) := (mc_hash w, mld_mc_hash w).
Definition acts (st : stp) (d : nat) (w w' : world) : Prop :=
  stp_of (tbl w') = st /\ data_ok w' /\ groups w' = groups w /\
  exists l, trace w' = trace w ++ l /\ Forall (out_ok st d) l.

Lemma acts_refl d w : data_ok w -> acts (stp_of (tbl w)) d w w.
Proof. intros Hw. do 3 (split; [done|]). exists []. by rewrite app_nil_r. Qed.

Lemma acts_trans st d w w1 w2 : acts st d w w1 -> acts st d w1 w2 -> acts st d w w2.
Proof.
  intros (_ & _ & G1 & l1 & H1 & F1) (Ht & Hw & G2 & l2 & H2 & F2). do 2 (split; [done|]). split; [congruence|].
  exists (l1 ++ l2). rewrite H2, H1, app_assoc. split; [done|]. by apply Forall_app.
Qed.

(** The trace and the groups are what [acts] knows of the world it starts from. *)
Lemma acts_from st d w w1 w2 : trace w = trace w1 -> groups w = groups w1 -> acts st d w1 w2 -> acts st d w w2.
Proof. intros Ht Hg (H1 & H2 & H3 & l & Hl & Hf). do 2 (split; [done|]). split; [congruence|]. exists l. by rewrite Ht. Qed.

Lemma snooped_acts (P : ev -> Prop) h dl d w w' : snooped P h dl w w' ->
  (forall e, P e -> out_ok (stp_of (tbl w)) d e) -> data_ok w -> heap_ok w' ->
  acts (stp_of (tbl w)) d w w'.
Proof.
  intros (l & n & st & dr & tm & Hl & _ & Hd & ->) HP [? ? _ ?] Hh. split; [done|].
  split; [split; [done|cbn; congruence|done..]|]. split; [done|]. exists l. split; [done|]. by eapply Forall_impl.
Qed.

Lemma moved_acts (P : ev -> Prop) h d w w' : moved P h w w' ->
  (forall e, P e -> out_ok (stp_of (tbl w)) d e) -> data_ok w -> heap_ok w' ->
  acts (stp_of (tbl w)) d w w'.
Proof. intros Hm HP. apply (snooped_acts P h (igmp_delayed_skb w)); [by apply (snooped_moved P)|done]. Qed.

(** The buffer [i] has been disposed of. *)
Definition done_with (i d : nat) (w w' : world) : Prop :=
  acts (stp_of (tbl w)) d w w' /\ heap w' = delete i (heap w) /\ igmp_delayed_skb w' = igmp_delayed_skb w.

Lemma moved_delayed P h w w' : moved P h w w' -> igmp_delayed_skb w' = igmp_delayed_skb w.
Proof. by intros (l & n & st & _ & _ & ->). Qed.

Lemma done_given i d e w : off e -> data_ok w -> done_with i d w (given i e w).
Proof.
  intros He Hw. assert (Hm : moved off (delete i (heap w)) w (given i e w)) by by apply moved_given.
  split; [|done]. eapply moved_acts; [exact Hm|intros e'; apply out_off|done|].
  eapply heap_ok_delete; [exact Hm|apply Hw].
Qed.

Lemma done_spent i s w w' : spent N nports i s w w' -> data_ok w -> done_with i (dev s) w w'.
Proof.
  intros [Hh Hm] Hw. split; [by eapply moved_acts; [done|apply out_sent|..]|].
  split; [by apply moved_tbl in Hm as [_ ->]|by eapply moved_delayed].
Qed.

(** The buffer [i] is still there, as [s]. *)
Definition still (i d : nat) (s : sk_buff) (w w' : world) : Prop :=
  acts (stp_of (tbl w)) d w w' /\ heap w' = <[i := s]> (heap w) /\ igmp_delayed_skb w' = igmp_delayed_skb w.

Lemma still_keeps i s w w' : keeps (sent_ok N nports (tbl w) s) i s w w' -> data_ok w ->
  exists b, still i (dev s) (set_blog b s) w w'.
Proof.
  intros Hk Hw. destruct (keeps_off _ _ _ _ _ Hk) as (b & _ & Hh & Ht & Hw' & Hm). exists b.
  split; [by eapply moved_acts; [done|apply out_sent|..]|]. split; [done|]. by eapply moved_delayed.
Qed.

Lemma still_done i d s w w1 w2 : still i d s w w1 -> done_with i d w1 w2 -> done_with i d w w2.
Proof.
  intros (Ha & Hh & Hd) (Ha2 & Hh2 & Hd2). pose proof Ha as (Ht & _). rewrite Ht in Ha2.
  split; [by eapply acts_trans|]. rewrite Hh2, Hh, delete_insert_eq. split; [done|congruence].
Qed.

(** Changes of the database and of statistics in between are not seen. *)
Lemma done_from i d w w1 w2 : trace w = trace w1 -> groups w = groups w1 -> heap w = heap w1 ->
  igmp_delayed_skb w = igmp_delayed_skb w1 -> stp_of (tbl w) = stp_of (tbl w1) ->
  done_with i d w1 w2 -> done_with i d w w2.
Proof.
  intros Ht Hg Hh Hd Hs (Ha & Hh2 & Hd2). split; [rewrite Hs; by eapply acts_from|]. rewrite Hh, Hd. done.
Qed.

(** A frame on its way through the bridge. *)
Record frame_at (i : nat) (s : sk_buff) (w : world) : Prop := mk_frame_at {
  fa_at : heap w !! i = Some s;
  fa_users : users s = 1;
  fa_room : room s;
  fa_dev : (dev s < length (devs N))%nat;
  fa_frame : frame_ok s
}.

Lemma heap_ok_put i s s' w : heap w !! i = Some s -> heap_ok w -> heap_ok (set_heap (<[i := s']> (heap w)) w).
Proof.
  intros E Hw j Hj. cbn in *. rewrite lookup_insert_ne; [by apply Hw|]. intros ->. by rewrite Hw in E.
Qed.

Lemma data_ok_put i s s' w : heap w !! i = Some s -> data_ok w ->
  data_ok (set_heap (<[i := s']> (heap w)) w).
Proof. intros E [? ? ? ?]. split; try done. by eapply heap_ok_put. Qed.

Lemma data_ok_tbl t w : fdb_ok N nos t -> data_ok w -> data_ok (set_tbl t w).
Proof. by intros ? [? ? ? ?]. Qed.

Lemma data_ok_stats st w : data_ok w -> data_ok (set_stats st w).
Proof. by intros [? ? ? ?]. Qed.

Lemma data_nports w : data_ok w -> nports_of w = nports.
Proof. intros Hw. apply (fdb_nports N), Hw. Qed.

Lemma frame_decides i s w : frame_at i s w -> data_ok w -> decides N nports (tbl w) s.
Proof.
  intros Hf Hw. eapply decides_ok; [done|by apply data_nports|apply Hf|apply frame_igmp_fits, Hf].
Qed.

Lemma pass_up_spec i s w : data_ok w -> heap w !! i = Some s -> users s = 1 ->
  brdev s = Some (br_dev N) ->
  wp (br_pass_frame_up N i) (fun _ w' => forall d, done_with i d w w') w.
Proof.
  intros Hw E Hu Hb. unfold br_pass_frame_up. apply wp_bind. eapply wp_skb_at; [done|]. rewrite Hb.
  apply wp_bind. eapply wp_lift; [done|]. destruct (match _ with Some _ => _ | None => _ end).
  { apply wp_bind. eapply wp_kfree_skb; [done..|]. apply wp_ret. intros d. by apply done_given. }
  apply wp_bind. eapply wp_blog_link; [done|]. intros b. do 4 apply wp_bind, wp_modify.
  apply wp_bind. eapply wp_skb_upd; [cbn; apply lookup_insert_eq|].
  match goal with |- wp _ _ (set_heap (<[i := ?x]> (heap ?w0)) ?w0) => set (s1 := x); set (w1 := w0) end.
  assert (Hd : data_ok (set_heap (<[i := s1]> (heap w1)) w1)).
  { apply (data_ok_put i (set_blog b s)); [cbn; apply lookup_insert_eq|]. repeat apply data_ok_stats.
    by apply (data_ok_put i s). }
  assert (Hfrom : forall d w2, done_with i d (set_heap (<[i := s1]> (heap w1)) w1) w2 -> done_with i d w w2).
  { intros d w2 (Ha & Hh & Hdl). split; [exact Ha|]. split; [|exact Hdl]. rewrite Hh. cbn.
    by rewrite insert_insert_eq, delete_insert_eq. }
  eapply wp_NF_HOOK; [apply (nk_hooks _ _ HN)|cbn; apply lookup_insert_eq|done| |].
  - intros s' (Hd' & Hu' & _). eapply wp_netif_receive_skb; [cbn; apply lookup_insert_eq|by rewrite Hu'|].
    intros d. apply Hfrom. rewrite given_over.
    split; [|done]. split; [done|]. split; [|split; [done|exists [Receive s']; split; [done|by apply Forall_singleton]]].
    destruct Hd as [? ? Hh ?]. split; try done. cbn in *. intros j Hj. apply lookup_delete_None. right. by apply Hh.
  - intros r e He _ d. by apply Hfrom, done_given.
Qed.

Lemma vlan_root_ok fuel d : (d < length (devs N))%nat -> (d < fuel)%nat ->
  exists r, vlan_root N fuel d = Ok r /\ (r < length (devs N))%nat.
Proof.
  revert d. induction fuel as [|fuel IH]; intros d Hd Hf; [lia|]. cbn [vlan_root].
  destruct (dev_at_ok N d Hd) as (x & -> & Hx). cbn. destruct (next_dev x) as [n|] eqn:En; [|by exists d].
  destruct (nonzero _); [|by exists d]. pose proof (nk_paths _ _ HN d x n Hx En). apply IH; lia.
Qed.

(** The chaining table: the flow record of the buffer may change, and the
    database is looked up. *)
Lemma pktc_spec i s f src ij Q w : data_ok w -> heap w !! i = Some s -> has_port nos f ->
  points (tbl w) ij f ->
  (forall t' f' b, fdb_ok N nos t' -> stp_of t' = stp_of (tbl w) -> points t' ij f' ->
    Q tt (set_heap (<[i := set_blog b s]> (heap w)) (set_tbl t' w))) ->
  wp (pktc_update N i f src) Q w.
Proof.
  intros Hw E (p & Hp & Hlt) Hij HQ. unfold pktc_update. apply wp_bind. eapply wp_lift; [by rewrite Hp|].
  apply wp_bind. apply (fdb_get_spec N nos src); [apply Hw|]. intros o t' Ht' Hs Ho Hst.
  destruct (Hst ij f Hij) as (f' & Hf' & _).
  assert (Hsame : Q tt (set_tbl t' w)).
  { specialize (HQ t' f' (blog_p s) Ht' Hs Hf'). rewrite set_blog_id, insert_id in HQ by done. by destruct w. }
  destruct o as [src'|]; [|by apply wp_ret]. destruct (Ho src' eq_refl) as (sf & Hsf).
  apply wp_bind. eapply entry_at_spec; [exact Hsf|].
  destruct (chain_ported N nos t' (fst src') (snd src') sf Ht') as (sp & Hsp & Hspl); [apply Hsf..|].
  apply wp_bind. eapply wp_lift; [by rewrite Hsp|].
  destruct (dev_at_ok N (port_dev N sp)) as (sd & Esd & _); [by apply (nk_ports _ _ HN)|].
  apply wp_bind. eapply wp_lift; [exact Esd|].
  destruct (dev_at_ok N (port_dev N p)) as (dd & Edd & _); [by apply (nk_ports _ _ HN)|].
  apply wp_bind. eapply wp_lift; [exact Edd|]. apply wp_bind.
  assert (Hroot : forall c : bool, exists r, (if c then vlan_root N (S (length (devs N))) (port_dev N p)
    else Ok (port_dev N p)) = Ok r /\ (r < length (devs N))%nat).
  { pose proof (nk_ports _ _ HN p Hlt). intros []; [apply vlan_root_ok; lia|by eexists]. }
  match goal with |- wp (lift (if ?c then _ else _)) _ _ => destruct (Hroot c) as (r & Er & Hr) end.
  eapply wp_lift; [exact Er|]. destruct (dev_at_ok N r Hr) as (rd & Erd & _).
  apply wp_bind. eapply wp_lift; [exact Erd|].
  match goal with |- context [if ?c then _ else _] => destruct c end; [|by apply wp_ret].
  match goal with |- context [if ?c then _ else mret tt] => destruct c end; [|by apply wp_ret].
  eapply wp_skb_upd; [exact E|]. by apply (HQ t' f').
Qed.

(** The buffer is forwarded, or else it is for the host. *)
Lemma forward_part i s o skb2 w : data_ok w -> frame_at i s w -> brdev s <> None ->
  (forall ij, o = Some ij -> exists f, points (tbl w) ij f) -> skb2 = None \/ skb2 = Some i ->
  wp (match o with
      | Some ij => entry_used ij;; f ← entry_at ij; br_forward N (dst f) i skb2
      | None => br_flood_forward N i skb2
      end)
    (fun _ w' => match skb2 with
      | None => done_with i (dev s) w w'
      | Some _ => exists b, still i (dev s) (set_blog b s) w w'
      end) w.
Proof.
  intros Hw Hf Hb Ho H2. pose proof (frame_decides _ _ _ Hf Hw) as Hdec. pose proof Hf as [E Hu Hr Hd Hfr].
  destruct o as [ij|].
  - destruct (Ho ij eq_refl) as (f & Hij). apply wp_bind.
    apply (entry_used_spec N nos ij f); [apply Hw|done|]. intros t' f' Ht' Hs Hij' _.
    apply wp_bind. eapply entry_at_spec; [exact Hij'|].
    destruct (chain_ported N nos t' (fst ij) (snd ij) f' Ht') as (p & -> & Hlt); [apply Hij'..|].
    assert (Hw1 : data_ok (set_tbl t' w)) by by apply data_ok_tbl.
    eapply wp_mono; [apply (br_forward_spec N nports HN p i s skb2); try done|cbv beta].
    + apply (frame_decides i); [by split|done].
    + apply Hw1.
    + intros ? w' H. destruct H2 as [->| ->].
      * apply (done_from i _ w (set_tbl t' w)); [done..|by apply done_spent].
      * apply still_keeps in H as (b & Hst); [|done]. exists b. unfold still in *. by rewrite <- Hs.
  - eapply wp_mono; [apply (br_flood_spec N nports HN (__br_forward N) i s skb2); try done|cbv beta].
    + by apply (br_forward_hook N nports).
    + by apply data_nports.
    + apply Hw.
    + intros ? w' H. destruct H2 as [->| ->]; [by apply done_spent|by apply still_keeps].
Qed.

Lemma dispatch_spec i s skb o skb2 w : data_ok w -> frame_at i s w -> brdev s = Some (br_dev N) ->
  (forall ij, o = Some ij -> exists f, points (tbl w) ij f) ->
  (skb = Some i /\ (skb2 = None \/ skb2 = Some i)) \/ (skb = None /\ skb2 = Some i) ->
  wp (dispatch N skb o skb2) (fun _ w' => done_with i (dev s) w w') w.
Proof.
  intros Hw Hf Hb Ho H. unfold dispatch. apply wp_bind. pose proof Hf as [E Hu _ _ _]. destruct H as [[-> H2]|[-> ->]].
  2: { apply wp_ret. eapply wp_mono; [by apply (pass_up_spec i s)|cbv beta]. intros ? w' H. apply H. }
  eapply wp_mono; [by apply (forward_part i s o skb2); try done; rewrite Hb|cbv beta]. intros ? w' H.
  destruct H2 as [->| ->]; [by apply wp_ret|]. destruct H as (b & Hst).
  eapply wp_mono; [apply (pass_up_spec i (set_blog b s))|cbv beta]; try done.
  - apply Hst.
  - destruct Hst as (_ & -> & _). apply lookup_insert_eq.
  - intros ? w2 H2. by eapply still_done.
Qed.

Lemma frame_blog b s : frame_ok s -> frame_ok (set_blog b s).
Proof. by intros [? ? ?]. Qed.

(** A frame to one station: only the flow record and times have changed. *)
Lemma unicast_spec i s skb2 w : data_ok w -> heap w !! i = Some s -> skb2 = None \/ skb2 = Some i ->
  wp (unicast N i skb2) (fun r w' => let '(skb, o, skb2) := r in exists t' b,
    w' = set_heap (<[i := set_blog b s]> (heap w)) (set_tbl t' w) /\
    fdb_ok N nos t' /\ stp_of t' = stp_of (tbl w) /\
    (forall ij, o = Some ij -> exists f, points t' ij f) /\
    ((skb = Some i /\ (skb2 = None \/ skb2 = Some i)) \/ (skb = None /\ skb2 = Some i))) w.
Proof.
  intros Hw E H2. unfold unicast. apply wp_bind. eapply wp_skb_at; [done|]. apply wp_bind.
  apply (fdb_get_spec N nos); [apply Hw|]. intros o t1 Ht1 Hs1 Ho1 _. apply wp_bind.
  apply (fdb_get_spec N nos); [done|]. intros o' t2 Ht2 Hs2 _ Hst2. cbn [tbl set_tbl] in Hs2, Hst2.
  apply wp_bind. eapply wp_blog_link; [exact E|]. intros b1. apply wp_bind.
  eapply wp_blog_link; [apply lookup_insert_eq|]. intros b2. cbn [heap set_heap set_tbl].
  rewrite insert_insert_eq, set_blog_twice.
  set (w2 := set_heap _ _).
  assert (Hw2 : w2 = set_heap (<[i := set_blog b2 s]> (heap w)) (set_tbl t2 w)) by by destruct w.
  assert (Hs : stp_of t2 = stp_of (tbl w)) by congruence. destruct o as [ij|].
  2: { apply wp_ret. exists t2, b2. repeat (split; [done|]). auto. }
  destruct (Ho1 ij eq_refl) as (f1 & Hf1). destruct (Hst2 ij f1 Hf1) as (f & Hij & _).
  apply wp_bind. eapply entry_at_spec; [exact Hij|]. apply wp_bind. destruct (is_local f); cbn [negb].
  - do 2 apply wp_ret. exists t2, b2. repeat (split; [done|]).
    split; [intros ? [= <-]; by exists f|auto].
  - apply (pktc_spec i (set_blog b2 s) f (h_source s) ij); try done; [|apply lookup_insert_eq|..].
    { rewrite Hw2. apply (data_ok_put i s _ (set_tbl t2 w)); [done|]. by apply data_ok_tbl. }
    { by apply (chain_ported N nos t2 (fst ij) (snd ij) f Ht2); apply Hij. }
    intros t3 f3 b Ht3 Hs3 Hij3. apply wp_ret. exists t3, b.
    split; [by rewrite Hw2; cbn; rewrite insert_insert_eq, set_blog_twice|]. split; [done|].
    split; [cbn in Hs3; congruence|]. split; [intros ? [= <-]; by exists f3|auto].
Qed.

Lemma finish_dest_spec i s w : data_ok w -> frame_at i s w -> brdev s = Some (br_dev N) ->
  wp (finish_dest N i) (fun _ w' => done_with i (dev s) w w') w.
Proof.
  intros Hw Hf Hb. pose proof Hf as [E Hu Hr Hd Hfr]. unfold finish_dest. apply wp_bind. eapply wp_skb_at; [done|].
  destruct (is_broadcast_ether_addr _).
  { apply wp_bind, wp_modify. eapply wp_mono; [apply (dispatch_spec i s)|cbv beta]; try done.
    - by apply data_ok_stats.
    - auto. }
  destruct (is_multicast_ether_addr _).
  { do 2 apply wp_bind, wp_modify. eapply wp_mono; [apply (dispatch_spec i s)|cbv beta]; try done.
    - by do 2 apply data_ok_stats.
    - auto. }
  apply wp_bind. eapply wp_mono.
  { apply (unicast_spec i s); [done..|]. destruct (nonzero _); auto. }
  intros [[skb o] skb2] w1 (t' & b & -> & Ht' & Hs & Ho & Hshape).
  eapply wp_mono; [apply (dispatch_spec i (set_blog b s)); try done|cbv beta].
  - apply (data_ok_put i s _ (set_tbl t' w)); [done|]. by apply data_ok_tbl.
  - split; try done; [cbn; apply lookup_insert_eq|by apply frame_blog].
  - intros ? w' (Ha & Hh & Hdl). cbn in Ha, Hh, Hdl. split.
    + rewrite <- Hs. by eapply acts_from; [..|exact Ha].
    + by rewrite Hh, delete_insert_eq.
Qed.

(** ** The whole way *)

(** What the code relies on: hooks before routing leave frames well formed,
    those for local packets let pass or drop, the routing hook leaves the
    frame well formed, and the rate limit is in the range of the ioctl that
    sets it. *)
Record input_ok : Prop := mk_input_ok {
  io_pre : Forall (hook_ok frame_ok) (nf_hooks N NF_BR_PRE_ROUTING);
  io_local : Forall hook_plain (nf_hooks N NF_BR_LOCAL_IN);
  io_route : forall rhook s, br_should_route_hook N = Some rhook -> mangled frame_ok s (snd (rhook s));
  io_rate : 0 <= igmp_rate_limit N <= 500
}.
Context (HI : input_ok).

Lemma rate_step_ok limit cur bucket last rem : 1 <= limit <= 500 ->
  exists r, rate_step limit cur bucket last rem = Ok r.
Proof.
  intros Hl. unfold rate_step. assert (1000000 / limit <> 0) as ->%Z.eqb_neq.
  { assert (2000 <= 1000000 / limit) by (apply Z.div_le_lower_bound; lia). lia. }
  destruct (1000000 <? _); cbn; repeat case_match; by eexists.
Qed.

Lemma rate_pass_spec Q w : (forall pass b l r, Q pass (set_rate b l r w)) -> wp (igmp_rate_pass N) Q w.
Proof.
  intros HQ. unfold igmp_rate_pass. destruct (Z.eqb_spec (igmp_rate_limit N) 0).
  { apply wp_ret. specialize (HQ true (igmp_rate_bucket w) (igmp_rate_last_packet w) (igmp_rate_rem_time w)).
    by destruct w. }
  apply wp_bind, wp_gets, wp_bind. pose proof (io_rate HI).
  edestruct (rate_step_ok (igmp_rate_limit N)) as ([pass [[b l] r]] & Er); [lia|].
  eapply wp_lift; [exact Er|]. apply wp_bind, wp_modify, wp_ret, HQ.
Qed.

(** A packet that can be forwarded when the daemon has answered. *)
Record kept (s : sk_buff) : Prop := mk_kept {
  ke_users : users s = 1;
  ke_room : room s;
  ke_dev : (dev s < length (devs N))%nat;
  ke_frame : frame_ok s;
  ke_brdev : brdev s = Some (br_dev N)
}.

(** Where the buffer [i] is in the end: given away; or, as [s], among the
    packets that wait for the daemon; or nowhere, as that table is full. *)
Inductive outcome (i : nat) (w w' : world) : Prop :=
  | Taken : heap w' = delete i (heap w) -> igmp_delayed_skb w' = igmp_delayed_skb w -> outcome i w w'
  | Held s k t t' : igmp_delayed_skb w !! k = Some (None, t) ->
      igmp_delayed_skb w' = <[k := (Some i, t')]> (igmp_delayed_skb w) ->
      heap w' = <[i := s]> (heap w) -> kept s -> outcome i w w'
  | Leaked s : mcpdControlsIgmpAdmission N = true ->
      Forall (fun x => fst x <> None) (igmp_delayed_skb w) ->
      igmp_delayed_skb w' = igmp_delayed_skb w -> heap w' = <[i := s]> (heap w) -> outcome i w w'.

(** A frame handled, with the spanning tree as it is at the end. *)
Definition handled (i d : nat) (w w' : world) : Prop :=
  acts (stp_of (tbl w')) d w w' /\ outcome i w w'.

Lemma handled_done i d w w' : done_with i d w w' -> handled i d w w'.
Proof.
  intros (Ha & Hh & Hd). split; [|by apply Taken]. pose proof Ha as (Ht & _). by rewrite Ht.
Qed.

(** Changes to the buffer itself and to what [handled] does not look at. *)
Lemma handled_from i d s w w1 w2 : trace w1 = trace w -> groups w1 = groups w -> heap w1 = <[i := s]> (heap w) ->
  igmp_delayed_skb w1 = igmp_delayed_skb w -> handled i d w1 w2 -> handled i d w w2.
Proof.
  intros Ht Hg Hh Hd (Ha & Ho). split; [by eapply acts_from|]. destruct Ho as [Hh2 Hd2|s2 k t t' Hk Hd2 Hh2 Hs2|s2 Hc Hf Hd2 Hh2].
  - apply Taken; [by rewrite Hh2, Hh, delete_insert_eq|congruence].
  - apply (Held _ _ _ s2 k t t'); [congruence..| |done]. by rewrite Hh2, Hh, insert_insert_eq.
  - apply (Leaked _ _ _ s2); [done|congruence..|]. by rewrite Hh2, Hh, insert_insert_eq.
Qed.

Lemma handled_same i d s w w1 w2 : heap w !! i = Some s -> trace w1 = trace w -> groups w1 = groups w ->
  heap w1 = heap w -> igmp_delayed_skb w1 = igmp_delayed_skb w -> handled i d w1 w2 -> handled i d w w2.
Proof.
  intros E Ht Hg Hh Hd. apply (handled_from i d s); [done..| |done]. by rewrite Hh, insert_id.
Qed.

Lemma free_handled i d s w : data_ok w -> heap w !! i = Some s -> users s = 1 ->
  wp (kfree_skb i;; mret 0) (fun _ w' => handled i d w w') w.
Proof.
  intros Hw E Hu. apply wp_bind. eapply wp_kfree_skb; [done..|]. by apply wp_ret, handled_done, done_given.
Qed.

Lemma frame_snooping i s w : data_ok w -> frame_at i s w -> brdev s <> None -> snooping N nports i s w.
Proof. intros Hw [? ? ? ? ?] Hb. split; try done; [by apply data_nports|apply Hw..]. Qed.

(** Snooping, and then the rest for a frame it leaves to the bridge. *)
Lemma fate_then i s r w w1 (k : M Z) : data_ok w -> frame_at i s w -> brdev s = Some (br_dev N) -> fate N nports i s w w1 r ->
  (forall b, data_ok w1 -> frame_at i (set_blog b s) w1 ->
    wp k (fun _ w' => done_with i (dev s) w1 w') w1) ->
  wp (if nonzero r then mret 0 else k) (fun _ w' => handled i (dev s) w w') w1.
Proof.
  intros Hw Hf Hb Hfate Hk. pose proof Hf as [E Hu Hr Hd Hfr].
  assert (Hacts : forall h dl, snooped (snoop_ev N nports (tbl w) s) h dl w w1 ->
    (forall j, heap w !! j = None -> h !! j = None) ->
    acts (stp_of (tbl w)) (dev s) w w1 /\ tbl w1 = tbl w /\ heap w1 = h /\ igmp_delayed_skb w1 = dl).
  { intros h dl Hs Hh. pose proof (snooped_same _ _ _ _ _ Hs) as (Ht & Hhe & Hdl & _).
    split; [|done]. eapply snooped_acts; [exact Hs|apply out_snoop|done|].
    eapply heap_ok_snooped; [exact Hs|apply Hw|done]. }
  destruct Hfate as [b Hr0 Hs|Hr0 Hs|m t t' Hr0 Hm Hs|Hr0 Hc Hfull Hs].
  - rewrite Hr0. destruct (Hacts _ _ Hs) as (Ha & Ht & Hhe & Hdl).
    { intros j Hj. rewrite lookup_insert_ne; [done|]. intros ->. congruence. }
    eapply wp_mono; [apply (Hk b); [apply Ha|split; try done; [rewrite Hhe; apply lookup_insert_eq|by apply frame_blog]]|cbv beta].
    intros ? w2 H2. apply handled_done. by apply (still_done i (dev s) (set_blog b s) w w1 w2).
  - apply Z.eqb_neq in Hr0. unfold nonzero. rewrite Hr0. apply wp_ret, handled_done.
    destruct (Hacts _ _ Hs) as (Ha & _ & Hh & Hdl); [|done]. intros j Hj. apply lookup_delete_None. by right.
  - apply Z.eqb_neq in Hr0. unfold nonzero. rewrite Hr0. apply wp_ret.
    destruct (Hacts _ _ Hs) as (Ha & Ht & Hh & Hdl); [done|]. split; [by rewrite Ht|].
    apply (Held _ _ _ s m t t'); [done..| |by split]. by rewrite insert_id.
  - apply Z.eqb_neq in Hr0. unfold nonzero. rewrite Hr0. apply wp_ret.
    destruct (Hacts _ _ Hs) as (Ha & Ht & Hh & Hdl); [done|]. split; [by rewrite Ht|].
    apply (Leaked _ _ _ s); [done..|]. by rewrite insert_id.
Qed.

Lemma snoop_then i s pip fw ro (k : M Z) w : data_ok w -> frame_at i s w -> brdev s = Some (br_dev N) ->
  (forall b w1, data_ok w1 -> frame_at i (set_blog b s) w1 ->
    wp k (fun _ w' => done_with i (dev s) w1 w') w1) ->
  wp (snoop N i pip fw ro) (fun r => wp (if r : bool then mret 0 else k)
    (fun _ w' => handled i (dev s) w w')) w.
Proof.
  intros Hw Hf Hb Hk. unfold snoop. apply wp_bind. eapply wp_skb_at; [apply Hf|].
  destruct (fo_mld _ (fa_frame _ _ _ Hf)) as (p6 & g & lp & E & _). apply wp_bind. eapply wp_lift; [exact E|].
  assert (Hsn : snooping N nports i s w) by (apply frame_snooping; [done..|by rewrite Hb]).
  cbv beta iota. destruct p6 as [x|].
  - apply wp_bind. eapply wp_mono; [apply (mld_forward_spec N nports HN fw ro i s); [done|apply Hw]|cbv beta].
    intros r w1 Hfate. apply wp_ret. eapply fate_then; [done..|]. intros b. apply (Hk b).
  - destruct pip as [x|].
    + apply wp_bind. eapply wp_mono; [apply (igmp_forward_spec N nports HN fw ro i s); [done|apply Hw]|cbv beta].
      intros r w1 Hfate. apply wp_ret. eapply fate_then; [done..|]. intros b. apply (Hk b).
    + apply wp_ret. cbv beta iota. eapply wp_mono.
      * apply (Hk (blog_p s)); [done|]. by rewrite set_blog_id.
      * intros ? w1. apply handled_done.
Qed.

Lemma finish_learn_spec i s p pip w : data_ok w -> frame_at i s w -> (p < nports)%nat ->
  wp (finish_learn N i p pip) (fun _ w' => handled i (dev s) w w') w.
Proof.
  intros Hw Hf Hp. pose proof Hf as [E Hu Hr Hd Hfr]. unfold finish_learn.
  apply wp_bind. eapply wp_skb_at; [done|]. apply wp_bind.
  apply (fdb_learn_spec N nos); [apply Hw|done|]. intros t' Ht'.
  set (w2 := set_tbl t' w). assert (Hw2 : data_ok w2) by by apply data_ok_tbl.
  destruct (port_of_ok nports p w2 (data_nports w2 Hw2) Hp) as (pt' & _ & Hpt'). apply wp_bind, Hpt'.
  match goal with |- context [if ?c then _ else _] => destruct c end.
  { eapply wp_mono; [by apply (free_handled i (dev s) s w2)|cbv beta]. intros ? w3.
    by apply (handled_same i (dev s) s w w2). }
  apply wp_bind. eapply wp_skb_upd; [exact E|]. set (s3 := set_brdev (br_dev N) s).
  set (w3 := set_heap _ _). assert (Hw3 : data_ok w3) by by eapply data_ok_put.
  assert (Hf3 : frame_at i s3 w3).
  { split; try done; [cbn; apply lookup_insert_eq|]. by destruct Hfr. }
  apply wp_bind. eapply wp_mono.
  - apply (snoop_then i s3 pip true false (finish_dest N i) w3); [done..|]. intros b' w4 Hw4 Hf4.
    by apply (finish_dest_spec i (set_blog b' s3)).
  - cbv beta. intros r' w4 H4. eapply wp_mono; [exact H4|cbv beta]. intros ? w5.
    by apply (handled_from i (dev s) s3 w w3).
Qed.

Lemma handle_frame_finish_spec i s w : data_ok w -> frame_at i s w ->
  wp (br_handle_frame_finish N i) (fun _ w' => handled i (dev s) w w') w.
Proof.
  intros Hw Hf. pose proof Hf as [E Hu Hr Hd Hfr]. unfold br_handle_frame_finish.
  apply wp_bind. eapply wp_skb_at; [done|]. destruct (br_port_ok N nports HN _ Hd) as (o & Eo & Ho).
  apply wp_bind. eapply wp_lift; [exact Eo|]. destruct o as [p|]; [|by eapply free_handled].
  specialize (Ho p eq_refl). destruct (port_of_ok nports p w (data_nports w Hw) Ho) as (pt & _ & Hpt).
  apply wp_bind, Hpt. destruct (bool_decide (state pt = DISABLED)); [by eapply free_handled|].
  destruct (fo_igmp _ Hfr) as (pip & pigmp & lp & Ei & _). apply wp_bind. eapply wp_lift; [exact Ei|].
  cbv beta iota. apply wp_bind. destruct pigmp as [g|].
  2: { apply wp_ret. by apply finish_learn_spec. }
  apply rate_pass_spec. intros pass b l r. set (w1 := set_rate b l r w).
  assert (Hw1 : data_ok w1) by by destruct Hw. assert (Hf1 : frame_at i s w1) by done. destruct pass; cbn [negb].
  - eapply wp_mono; [by apply (finish_learn_spec i s p pip w1)|cbv beta]. intros ? w2.
    by apply (handled_same i (dev s) s w w1).
  - eapply wp_mono; [by apply (free_handled i (dev s) s w1)|cbv beta]. intros ? w2.
    by apply (handled_same i (dev s) s w w1).
Qed.

(** What [br_handle_frame] says of the buffer: it is the bridge's, and has
    been dealt with; or it goes on, as it is, to the other protocols. *)
Definition answered (i d : nat) (w : world) (r : rx_handler_result) (w' : world) : Prop :=
  match r with
  | RX_HANDLER_CONSUMED => handled i d w w'
  | RX_HANDLER_PASS j => j = i /\ acts (stp_of (tbl w')) d w w' /\
      igmp_delayed_skb w' = igmp_delayed_skb w /\
      exists s, heap w' = <[i := s]> (heap w) /\ dev s = d /\ users s = 1
  end.

Lemma answered_from i d s w w1 r w2 : trace w1 = trace w -> groups w1 = groups w -> heap w1 = <[i := s]> (heap w) ->
  igmp_delayed_skb w1 = igmp_delayed_skb w -> answered i d w1 r w2 -> answered i d w r w2.
Proof.
  intros Ht Hg Hh Hd. destruct r as [|j]; cbn; [by apply (handled_from i d s)|].
  intros (-> & Ha & Hdl & s2 & Hs2 & Hrest). split; [done|]. split; [by eapply acts_from|]. split; [congruence|].
  exists s2. split; [|done]. by rewrite Hs2, Hh, insert_insert_eq.
Qed.

Lemma frame_mangled i s s' w : frame_at i s w -> mangled frame_ok s s' ->
  frame_at i s' (set_heap (<[i := s']> (heap w)) w).
Proof.
  intros [E Hu Hr Hd Hf] (Hd' & Hu' & _ & Hr' & Hf'). split; [cbn; apply lookup_insert_eq|congruence|auto..].
  by rewrite Hd'.
Qed.

Lemma pre_routing_spec i s s1 w : data_ok w -> frame_at i s w -> mangled frame_ok s s1 ->
  wp (pre_routing N i) (answered i (dev s) w) (set_heap (<[i := s1]> (heap w)) w).
Proof.
  intros Hw Hf Hm1. pose proof (frame_mangled i s s1 w Hf Hm1) as Hf1. pose proof Hf as [E Hu _ _ _].
  unfold pre_routing. apply wp_bind. eapply wp_skb_at; [apply Hf1|].
  assert (Hw1 : data_ok (set_heap (<[i := s1]> (heap w)) w)) by by eapply data_ok_put.
  assert (Hfrom : forall w2, handled i (dev s1) (set_heap (<[i := s1]> (heap w)) w) w2 -> handled i (dev s) w w2).
  { destruct Hm1 as (-> & _). intros w2 H. by eapply (handled_from i _ s1); [..|exact H]. }
  apply wp_bind. eapply wp_NF_HOOK; [apply HI|apply Hf1..| |].
  - intros s' Hm. eapply wp_mono.
    + apply (handle_frame_finish_spec i s'); [by eapply data_ok_put; [apply Hf1|]|by apply (frame_mangled i s1)].
    + cbv beta. intros ? w' H. apply wp_ret, Hfrom. destruct Hm as (Hd & _). rewrite Hd in H.
      by eapply (handled_from i _ s'); [..|exact H].
  - intros r e He _. apply wp_ret, Hfrom. by apply handled_done, done_given.
Qed.

Lemma learning_spec i s s1 w : data_ok w -> frame_at i s w -> mangled frame_ok s s1 ->
  wp (learning N i) (answered i (dev s) w) (set_heap (<[i := s1]> (heap w)) w).
Proof.
  intros Hw Hf Hm. unfold learning. apply wp_bind. eapply wp_skb_at; [cbn; apply lookup_insert_eq|].
  apply wp_bind, wp_gets, wp_bind. destruct (negb _); [|by apply wp_ret, pre_routing_spec].
  eapply wp_skb_upd; [cbn; apply lookup_insert_eq|]. cbn [heap set_heap]. rewrite set_heap_twice.
  apply pre_routing_spec; [done..|]. eapply mangled_trans; [exact Hm|].
  repeat (split; [done|]). by intros [? ? ?].
Qed.

Lemma handle_forward_spec i s p w : data_ok w -> frame_at i s w -> (p < nports)%nat ->
  wp (handle_forward N i p) (answered i (dev s) w) w.
Proof.
  intros Hw Hf Hp. pose proof Hf as [E Hu Hr Hd Hfr]. unfold handle_forward.
  apply wp_bind. eapply wp_skb_at; [done|].
  destruct (port_of_ok nports p w (data_nports w Hw) Hp) as (pt & _ & Hpt). apply wp_bind, Hpt.
  pose proof (pre_routing_spec i s s w Hw Hf (mangled_refl _ s)) as Hpre.
  pose proof (learning_spec i s s w Hw Hf (mangled_refl _ s)) as Hl. rewrite set_heap_same in Hpre, Hl by done.
  destruct (_ && _); [done|].
  destruct (state pt); try (apply wp_bind; eapply wp_kfree_skb; [done..|]; by apply wp_ret, handled_done, done_given).
  - done.
  - destruct (br_should_route_hook N) as [rhook|] eqn:Er; [|done].
    pose proof (io_route HI rhook s Er) as Hm. destruct (rhook s) as [r s1]. cbn [snd] in Hm.
    apply wp_bind, wp_modify. destruct (nonzero r); [|by apply learning_spec]. apply wp_ret. split; [done|].
    split; [by apply acts_from with (set_heap (<[i := s1]> (heap w)) w), acts_refl; [..|eapply data_ok_put]|].
    split; [done|]. exists s1. destruct Hm as (Hd1 & Hu1 & _). split; [done|]. split; [done|congruence].
Qed.

Lemma handle_unshared_spec i s p w : data_ok w -> frame_at i s w ->
  br_port_get_rcu N (dev s) = Ok (Some p) -> wp (handle_unshared N i) (answered i (dev s) w) w.
Proof.
  intros Hw Hf Ep. pose proof Hf as [E Hu Hr Hd Hfr].
  destruct (br_port_ok N nports HN (dev s) Hd) as (o & Eo & Ho). rewrite Ep in Eo. injection Eo as <-.
  unfold handle_unshared. apply wp_bind. eapply wp_skb_at; [done|]. apply wp_bind. eapply wp_lift; [exact Ep|].
  destruct (_ && _).
  { apply wp_bind. eapply wp_kfree_skb; [done..|]. by apply wp_ret, handled_done, done_given. }
  apply wp_bind. eapply wp_lift; [done|]. apply wp_bind, wp_gets.
  destruct (_ && _); [|by apply handle_forward_spec, Ho].
  apply wp_bind. eapply wp_NF_HOOK; [apply (nk_hooks _ _ HN)|done..| |].
  - intros s' (Hd' & Hu' & _ & Hr' & _). unfold br_handle_local_finish. apply wp_bind.
    eapply wp_skb_at; [cbn; apply lookup_insert_eq|]. rewrite Hd'. apply wp_bind. eapply wp_lift; [exact Ep|].
    apply wp_bind. eapply wp_lift; [done|]. apply wp_bind.
    apply (fdb_learn_spec N nos); [apply Hw|by apply Ho|]. intros t' Ht'. do 2 apply wp_ret. split; [done|]. split.
    + split; [done|]. split; [|split; [done|exists []; by rewrite app_nil_r]]. apply data_ok_tbl; [done|]. by eapply data_ok_put.
    + split; [done|]. exists s'. split; [done|]. split; [done|congruence].
  - intros r e He Hr0. apply wp_ret. specialize (Hr0 (io_local HI)). apply Z.eqb_neq in Hr0. unfold nonzero. rewrite Hr0.
    by apply handled_done, done_given.
Qed.

(** A buffer others hold as well: they keep it, and the bridge has given up
    its own reference, or hands back the buffer or a copy. *)
Definition shared_left (i : nat) (s : sk_buff) (r : rx_handler_result) (w' : world) : Prop :=
  exists s2, heap w' !! i = Some s2 /\
    match r with
    | RX_HANDLER_CONSUMED => users s2 = users s - 1
    | RX_HANDLER_PASS j => (j = i /\ s2 = s) \/
        (j <> i /\ users s2 = users s - 1 /\ exists s3, heap w' !! j = Some s3 /\ users s3 = 1)
    end.

Lemma wp_kfree_shared i s Q w : heap w !! i = Some s -> users s <> 1 ->
  Q tt (set_heap (<[i := set_users (users s - 1) s]> (heap w)) w) -> wp (kfree_skb i) Q w.
Proof.
  intros E Hu HQ. unfold kfree_skb, skb_put. apply wp_bind. eapply wp_skb_at; [done|]. apply wp_bind, wp_bind.
  eapply wp_skb_at; [done|]. rewrite (proj2 (Z.eqb_neq _ _) Hu). by apply wp_modify, wp_ret.
Qed.

Lemma answered_acts i d w r w' : answered i d w r w' -> acts (stp_of (tbl w')) d w w'.
Proof. destruct r; [by intros []|by intros (_ & ? & _)]. Qed.

Lemma answered_other i j s2 d w r w' : answered j d w r w' -> i <> j -> heap w !! i = Some s2 ->
  heap w' !! i = Some s2.
Proof.
  intros H Hij E. destruct r as [|j'].
  - destruct H as [_ [Hh _|s' k t t' _ _ Hh _|s' _ _ _ Hh]]; rewrite Hh; by simplify_map_eq.
  - destruct H as (_ & _ & _ & s' & Hh & _). rewrite Hh. by simplify_map_eq.
Qed.

Lemma shared_spec i s p w : data_ok w -> heap w !! i = Some s -> users s <> 1 -> room s -> frame_ok s ->
  (dev s < length (devs N))%nat -> br_port_get_rcu N (dev s) = Ok (Some p) ->
  wp (o ← skb_share_check N i;
      match o with None => mret RX_HANDLER_CONSUMED | Some i => handle_unshared N i end)
    (fun r w' => acts (stp_of (tbl w')) (dev s) w w' /\ shared_left i s r w') w.
Proof.
  intros Hw E Hu Hr Hf Hd Ep. pose proof (clone_ne _ _ _ E (da_heap _ Hw)) as Hne.
  apply wp_bind. unfold skb_share_check. apply wp_bind. eapply wp_skb_at; [done|].
  rewrite (proj2 (Z.eqb_neq _ _) Hu). cbn [negb]. apply wp_bind. apply (wp_skb_clone N i s); [done|apply Hw|..].
  - apply wp_bind. eapply wp_kfree_shared; [done..|]. do 2 apply wp_ret. split.
    + split; [done|]. split; [|split; [done|exists []; by rewrite app_nil_r]]. eapply data_ok_put; [done|].
      destruct Hw as [? ? Hh ?]. split; try done. intros j Hj. apply Hh. cbn in *. lia.
    + exists (set_users (users s - 1) s). split; [cbn; apply lookup_insert_eq|done].
  - apply wp_bind. eapply (wp_kfree_shared i (set_blog None s)); [|done|].
    { cbn. rewrite lookup_insert_ne by done. apply lookup_insert_eq. }
    apply wp_ret. set (w1 := set_heap _ _).
    assert (Hw1 : data_ok w1).
    { destruct Hw as [? ? Hh ?]. split; try done. intros j Hj. cbn in *.
      rewrite lookup_insert_ne by (intros ->; rewrite Hh in E; [done|lia]). rewrite lookup_insert_ne by lia.
      rewrite lookup_insert_ne by (intros ->; rewrite Hh in E; [done|lia]). apply Hh. lia. }
    eapply wp_mono.
    + apply (handle_unshared_spec (next_skb w) (set_users 1 s) p w1); [done| |done].
      split; try done; [|by destruct Hf]. cbn. rewrite lookup_insert_ne by done. apply lookup_insert_eq.
    + intros r w2 H. split; [apply acts_from with w1; [done..|exact (answered_acts _ _ _ _ _ H)]|].
      exists (set_users (users s - 1) (set_blog None s)).
      split; [eapply answered_other; [exact H|done|]; cbn; apply lookup_insert_eq|].
      destruct r as [|j]; [done|]. destruct H as (-> & _ & _ & s3 & -> & _ & H3). right.
      split; [done|]. split; [done|]. exists s3. split; [apply lookup_insert_eq|done].
Qed.

Lemma handle_frame_ok i s p w : data_ok w -> heap w !! i = Some s -> 1 <= users s ->
  room s -> frame_ok s -> br_port_get_rcu N (dev s) = Ok (Some p) ->
  exists r w', br_handle_frame N i w = Ok (r, w') /\
    acts (stp_of (tbl w')) (dev s) w w' /\
    (users s = 1 -> answered i (dev s) w r w') /\
    (users s <> 1 -> shared_left i s r w').
Proof.
  intros Hw E Hu Hr Hf Ep. apply wp_elim.
  assert (Hd : (dev s < length (devs N))%nat).
  { unfold br_port_get_rcu, dev_at in Ep. destruct (devs N !! dev s) as [x|] eqn:Ex; [|done]. by eapply lookup_lt_Some. }
  unfold br_handle_frame. apply wp_bind. eapply wp_skb_at; [done|]. destruct (pkt_type s =? PACKET_LOOPBACK).
  { apply wp_ret. split; [by apply acts_refl|]. split; [|intros _; exists s; auto]. intros Hu1. split; [done|].
    split; [by apply acts_refl|]. split; [done|]. exists s. by rewrite insert_id. }
  destruct (Z.eq_dec (users s) 1) as [Hu1|Hu1].
  - assert (Hpost : forall r w', answered i (dev s) w r w' -> acts (stp_of (tbl w')) (dev s) w w' /\
      (users s = 1 -> answered i (dev s) w r w') /\ (users s <> 1 -> shared_left i s r w')).
    { intros r w' H. split; [by eapply answered_acts|]. by split. }
    destruct (negb _).
    { apply wp_bind. eapply wp_kfree_skb; [done..|]. apply wp_ret.
      apply (Hpost RX_HANDLER_CONSUMED). by apply handled_done, done_given. }
    apply wp_bind. unfold skb_share_check. apply wp_bind. eapply wp_skb_at; [done|].
    rewrite (proj2 (Z.eqb_eq _ _) Hu1). apply wp_ret.
    eapply wp_mono; [apply (handle_unshared_spec i s p); [done|by split|done]|apply Hpost].
  - destruct (negb _).
    { apply wp_bind. eapply wp_kfree_shared; [done..|]. apply wp_ret. split; [|split; [done|]].
      - by apply acts_from with (set_heap (<[i := set_users (users s - 1) s]> (heap w)) w), acts_refl; [..|eapply data_ok_put].
      - intros _. exists (set_users (users s - 1) s). split; [apply lookup_insert_eq|done]. }
    eapply wp_mono; [by apply (shared_spec i s p)|cbv beta]. intros r w' [Ha Hs]. by split; [|split].
Qed.

(** C19: [br_handle_frame] never faults on a frame from a bridge port whose
    headers lie within the buffer, as long as every entry of the forwarding
    database has a port and netfilter hooks keep to their contract; every
    buffer is accounted for, and what it causes is allowed: frames leave only
    by forwarding ports, not the one they came from unless it is in hairpin
    mode, and the host gets frames of the bridge device.  A buffer with one
    reference is given away once, waits in the table of delayed packets (or
    is lost when that is full), or is handed back; of a shared buffer only
    the bridge's reference goes.  The invariants of the bridge are kept. *)
Theorem br_handle_frame_safe i s p w : data_ok w -> heap w !! i = Some s -> 1 <= users s ->
  room s -> frame_ok s -> br_port_get_rcu N (dev s) = Ok (Some p) ->
  exists r w', br_handle_frame N i w = Ok (r, w') /\
    acts (stp_of (tbl w')) (dev s) w w' /\
    (users s = 1 -> answered i (dev s) w r w') /\
    (users s <> 1 -> shared_left i s r w').
Proof. apply handle_frame_ok. Qed.

(** ** Frames the host sends *)

Lemma pktc_xmit_spec i s f Q w : heap w !! i = Some s -> has_port nos f ->
  (forall b, Q tt (set_heap (<[i := set_blog b s]> (heap w)) w)) -> wp (pktc_xmit N i f) Q w.
Proof.
  intros E (p & Hp & Hlt) HQ. assert (Hsame : Q tt w).
  { specialize (HQ (blog_p s)). by rewrite set_blog_id, set_heap_same in HQ. }
  unfold pktc_xmit. destruct (wl_pktc_req_hook N) as [hook|]; [|by apply wp_ret].
  apply wp_bind. eapply wp_lift; [by rewrite Hp|].
  destruct (dev_at_ok N (port_dev N p)) as (x & Ex & _); [by apply (nk_ports _ _ HN)|].
  apply wp_bind. eapply wp_lift; [exact Ex|]. destruct (_ && _); [|by apply wp_ret].
  destruct (negb _); [|by apply wp_ret]. by eapply wp_skb_upd.
Qed.

Lemma flood_deliver_spec i s w : data_ok w -> frame_at i s w -> brdev s <> None ->
  wp (br_flood_deliver N i;; mret 0) (fun _ w' => done_with i (dev s) w w') w.
Proof.
  intros Hw Hf Hb. pose proof Hf as [E Hu Hr Hd Hfr]. apply wp_bind. eapply wp_mono.
  - apply (br_flood_spec N nports HN (__br_deliver N) i s None); try done.
    + by apply (br_deliver_hook N nports).
    + by apply data_nports.
    + by apply (frame_decides i).
    + apply Hw.
    + by left.
  - cbv beta. intros ? w' H. by apply wp_ret, done_spent.
Qed.

Lemma xmit_rest_spec i s dest w : data_ok w -> frame_at i s w -> brdev s <> None ->
  wp (xmit_rest N i dest) (fun _ w' => done_with i (dev s) w w') w.
Proof.
  intros Hw Hf Hb. pose proof Hf as [E Hu Hr Hd Hfr]. unfold xmit_rest.
  destruct (is_broadcast_ether_addr _); [by apply flood_deliver_spec|].
  destruct (is_multicast_ether_addr _); [by apply flood_deliver_spec|]. apply wp_bind.
  apply (fdb_get_spec N nos); [apply Hw|]. intros o t' Ht' Hs Ho _.
  assert (Hw1 : data_ok (set_tbl t' w)) by by apply data_ok_tbl.
  assert (Hfrom : forall w2, done_with i (dev s) (set_tbl t' w) w2 -> done_with i (dev s) w w2)
    by (intros w2; by apply done_from).
  destruct o as [ij|].
  2: { eapply wp_mono; [by apply (flood_deliver_spec i s)|cbv beta]. intros ? w2. apply Hfrom. }
  destruct (Ho ij eq_refl) as (f & Hij). apply wp_bind. eapply wp_blog_link; [exact E|]. intros b1.
  apply wp_bind. eapply entry_at_spec; [exact Hij|].
  assert (Hpt : has_port nos f) by (by apply (chain_ported N nos t' (fst ij) (snd ij) f Ht'); apply Hij).
  apply wp_bind. apply (pktc_xmit_spec i (set_blog b1 s)); [apply lookup_insert_eq|done|]. intros b. apply wp_bind.
  cbn [heap set_heap set_tbl]. rewrite insert_insert_eq, set_blog_twice.
  set (w2 := set_heap _ _). assert (Hw2 : data_ok w2) by by apply (data_ok_put i s _ (set_tbl t' w)).
  assert (Hf2 : frame_at i (set_blog b s) w2).
  { split; try done; [cbn; apply lookup_insert_eq|by apply frame_blog]. }
  eapply wp_mono.
  - apply (br_deliver_spec N nports HN (dst f) i (set_blog b s)); [|by apply (frame_decides i)|apply Hf2|done|apply Hw2|done].
    intros p Hp. destruct Hpt as (q & Hq & Hlt). congruence.
  - cbv beta. intros ? w3 H3%done_spent; [|done]. apply wp_ret, Hfrom. destruct H3 as (Ha & Hh & Hdl).
    split; [by eapply acts_from; [..|exact Ha]|]. split; [rewrite Hh; cbn; apply delete_insert_eq|done].
Qed.

(** The buffer as the bridge passes it on. *)
Definition pulled (s : sk_buff) : sk_buff := skb_pull ETH_HLEN (skb_reset_mac_header (set_brdev (br_dev N) s)).

Lemma pulled_same s : dev (pulled s) = dev s /\ users (pulled s) = users s /\ brdev (pulled s) = Some (br_dev N).
Proof. unfold pulled, skb_pull. by destruct (_ <? _). Qed.

Lemma pulled_blog b s : pulled (set_blog b s) = set_blog b (pulled s).
Proof. unfold pulled, skb_pull. cbn. by destruct (_ <? _). Qed.

Lemma xmit_stats_spec s Q w : (forall st, Q tt (set_stats st w)) -> wp (xmit_stats s) Q w.
Proof.
  intros HQ. unfold xmit_stats. do 2 apply wp_bind, wp_modify. apply wp_bind.
  repeat match goal with |- context [if ?c then _ else _] => destruct c end;
    repeat (apply wp_modify || apply wp_bind || apply wp_ret); apply HQ.
Qed.

Lemma dev_xmit_ok i s w : data_ok w -> heap w !! i = Some s -> users s = 1 ->
  (dev s < length (devs N))%nat -> room (pulled s) -> frame_ok (pulled s) ->
  exists r w', br_dev_xmit N i w = Ok (r, w') /\ handled i (dev s) w w'.
Proof.
  intros Hw E Hu Hd Hr Hf. apply wp_elim. unfold br_dev_xmit. apply wp_bind. eapply wp_skb_at; [done|].
  apply wp_bind. eapply wp_blog_link; [exact E|]. intros b0.
  apply wp_bind, xmit_stats_spec. intros st. apply wp_bind. eapply wp_skb_upd; [apply lookup_insert_eq|].
  fold (pulled (set_blog b0 s)). rewrite pulled_blog. cbn [heap set_heap set_stats]. rewrite insert_insert_eq.
  destruct (pulled_same s) as (Hd1 & Hu1 & Hb1). set (w1 := set_heap _ _).
  assert (Hw1 : data_ok w1) by by apply (data_ok_put i s _ (set_stats st w)), data_ok_stats.
  apply (frame_blog b0) in Hf. change (room (set_blog b0 (pulled s))) in Hr.
  set (s1 := set_blog b0 (pulled s)) in *.
  assert (Hf1 : frame_at i s1 w1).
  { split; [cbn; apply lookup_insert_eq|cbn; congruence|done|cbn; by rewrite Hd1|done]. }
  apply wp_bind. eapply wp_skb_at; [apply Hf1|].
  destruct (fo_mld _ Hf) as (p6 & g6 & l6 & E6 & _), (fo_igmp _ Hf) as (p4 & g4 & l4 & E4 & _).
  apply wp_bind. eapply wp_lift; [exact E6|]. cbv beta iota. apply wp_bind.
  assert (exists x, match p6 with None => br_igmp_get_ip_igmp_hdrs s1
    | Some _ => Ok (None, None, None) end = Ok x) as ([[q4 ?] ?] & Ex) by (destruct p6; by eexists).
  eapply wp_lift; [exact Ex|]. cbv beta iota. apply wp_bind. eapply wp_mono.
  - apply (snoop_then i s1 q4 false true (xmit_rest N i (h_dest s1)) w1); [done..|]. intros b w2 Hw2 Hf2.
    apply (xmit_rest_spec i (set_blog b s1)); [done..|]. cbn. by rewrite Hb1.
  - cbv beta. intros r w2 H2. eapply wp_mono; [exact H2|cbv beta]. intros ? w3. change (dev s1) with (dev (pulled s)). rewrite Hd1.
    by apply (handled_from i (dev s) s1 w w1).
Qed.

(** [br_dev_xmit] does not fault on a well-formed frame of the host: the
    buffer is given away, or held back with the delayed packets, and copies of
    it leave only by forwarding ports; the invariants of the bridge are kept. *)
Theorem br_dev_xmit_safe i s w : data_ok w -> heap w !! i = Some s -> users s = 1 ->
  (dev s < length (devs N))%nat -> room (pulled s) -> frame_ok (pulled s) ->
  exists r w', br_dev_xmit N i w = Ok (r, w') /\ handled i (dev s) w w'.
Proof. apply dev_xmit_ok. Qed.

End Input.

(** ** Frames from ports that do not forward *)

Lemma sole_share_check N i s w : heap w !! i = Some s -> users s = 1 -> skb_share_check N i w = Ok (Some i, w).
Proof. intros E Hu. unfold skb_share_check, mbind, M_bind, skb_at. rewrite E, Hu. done. Qed.

(** A frame that comes in on a port that is disabled, blocked or listening
    is dropped, and nothing else happens: it is neither forwarded nor handed
    to the host, and its sender is not learned.  Frames to the reserved group
    addresses, the frames of the wireless driver (type 0x886c) and looped
    back frames are not meant. *)
Theorem blocked_port_drops N i s p pt w : heap w !! i = Some s -> users s = 1 ->
  pkt_type s <> PACKET_LOOPBACK -> is_link_local (h_dest s) = false -> protocol s <> ETHER_TYPE_BRCM ->
  br_port_get_rcu N (dev s) = Ok (Some p) -> ports (br (stp_of (tbl w))) !! p = Some pt ->
  state pt <> LEARNING -> state pt <> FORWARDING ->
  br_handle_frame N i w = Ok (RX_HANDLER_CONSUMED, given i (Freed s) w).
Proof.
  intros E Hu Hl Hll Hb Hp Hpt Hst1 Hst2.
  cut (wp (br_handle_frame N i) (fun r w' => (r, w') = (RX_HANDLER_CONSUMED, given i (Freed s) w)) w).
  { by intros (r & w' & -> & ->)%wp_elim. }
  unfold br_handle_frame. apply wp_bind. eapply wp_skb_at; [done|]. apply Z.eqb_neq in Hl, Hb. rewrite Hl.
  destruct (negb _); [apply wp_bind; eapply wp_kfree_skb; [done..|]; by apply wp_ret|].
  apply wp_bind. eapply wp_Ok; [by eapply sole_share_check|]. unfold handle_unshared. apply wp_bind.
  eapply wp_skb_at; [done|]. apply wp_bind. eapply wp_lift; [done|]. rewrite Hll. cbn [andb].
  apply wp_bind. eapply wp_lift; [done|]. apply wp_bind, wp_gets. unfold handle_forward. apply wp_bind.
  eapply wp_skb_at; [done|]. apply wp_bind. unfold port_of. apply wp_bind, wp_gets.
  eapply wp_lift; [unfold port_at; by rewrite Hpt|]. rewrite Hb. cbn [andb].
  destruct (state pt); try done; apply wp_bind; eapply wp_kfree_skb; [done..|]; by apply wp_ret.
Qed.

Lemma blocked_port_drops_witness :
  let w := demo_world (demo_fdb LISTENING) (demo_frame broadcast 0x0800 []) free_slots in
  br_handle_frame (demo_net (fun _ => []) false) 0 w =
    Ok (RX_HANDLER_CONSUMED, given 0 (Freed (demo_frame broadcast 0x0800 [])) w).
Proof.
  intros w. apply (blocked_port_drops (demo_net (fun _ => []) false) 0 (demo_frame broadcast 0x0800 []) 0
    (ex_port 1 LISTENING (ex_id 5) (ex_id 5) 0 32769) w); try reflexivity; discriminate.
Defined.

(** ** Witnesses *)

Lemma demo_input_ok : input_ok (demo_net (fun _ => []) false).
Proof. split; cbn; [constructor..|done|lia]. Qed.

Lemma demo_data_ok s : data_ok (demo_net (fun _ => []) false) [1; 2; 3] (demo_world (demo_fdb FORWARDING) s free_slots).
Proof.
  split; [|done|apply demo_heap_ok|].
  - split; [apply fdb_init_ok|apply demo_wf|]. unfold ported.
    replace (abs _) with (∅ : fdb_map); [apply map_Forall_empty|]. by vm_compute.
  - split; by apply Forall_replicate.
Qed.

Lemma demo_frame_ok : frame_ok (demo_frame broadcast 0x0800 []).
Proof. apply frame_ok_long; [done| |done]. vm_compute. discriminate. Qed.

Lemma br_handle_frame_safe_witness :
  let N := demo_net (fun _ => []) false in
  let s := demo_frame broadcast 0x0800 [] in
  let w := demo_world (demo_fdb FORWARDING) s free_slots in
  exists r w', br_handle_frame N 0 w = Ok (r, w') /\
    acts N [1; 2; 3] (stp_of (tbl w')) (dev s) w w' /\
    (users s = 1 -> answered N [1; 2; 3] 0 (dev s) w r w') /\
    (users s <> 1 -> shared_left 0 s r w').
Proof.
  intros N s w. apply (br_handle_frame_safe N [1; 2; 3] (demo_net_ok _ _ (fun _ => Forall_nil_2 _))
    demo_input_ok 0 s 0 w).
  - apply demo_data_ok.
  - reflexivity.
  - cbn. lia.
  - unfold room. vm_compute. discriminate.
  - exact demo_frame_ok.
  - reflexivity.
Defined.

(** The same frame, as the host hands it to the bridge device. *)
Definition host_frame : sk_buff :=
  mk_skb 1 3 (mac (demo_frame broadcast 0x0800 [])) 16 0 14 100 0x0800 PACKET_HOST false 0 0 CHECKSUM_NONE None None.

Lemma br_dev_xmit_safe_witness :
  let N := demo_net (fun _ => []) false in
  let w := demo_world (demo_fdb FORWARDING) host_frame free_slots in
  exists r w', br_dev_xmit N 0 w = Ok (r, w') /\ handled N [1; 2; 3] 0 3 w w'.
Proof.
  intros N w. apply (br_dev_xmit_safe N [1; 2; 3] (demo_net_ok _ _ (fun _ => Forall_nil_2 _)) 0 host_frame w).
  - apply demo_data_ok.
  - reflexivity.
  - reflexivity.
  - cbn. lia.
  - unfold room. vm_compute. discriminate.
  - apply frame_ok_long; [done| |done]. vm_compute. discriminate.
Defined.
