(* ===== verification/BrRun.v ===== *)
(** The bridge as one reactive system: frames from the ports and from the
    host, spanning tree packets and timers, changes of the forwarding
    database, requests of the multicast daemon.  They share the ports, the
    forwarding database, the group tables and the waiting packets. *)

From S2P Require Import Prelude Str Stp StpSelect StpSafety Fdb FdbTable FdbRefine FdbProps.
From S2P Require Import Bridge BrExample BrWp BrForward BrForwardProps BrIgmp BrMld BrMcast BrIgmpProps.
From S2P Require Import Groups GroupsProps GroupsServe BrGroups BrMldProps BrMldExpiry BrInput BrInputProps.

(** ** Entries keep their ports *)

Section Ported.
Context (env : fdb_env) (nos : list Z).
Implicit Types (t : fdb) (M : fdb_map).
Abbreviation has_port := (has_port nos).

Definition map_ported M : Prop := map_Forall (fun _ f => has_port f) M.

(** What an operation is asked to enter has a port.  [ChangeMac], by which
    [br_set_mac_address] enters an address of the bridge itself, is ruled out: its
    entry has no port, and the data path follows the port of an entry without a
    look ([own_source_faults] of BrFaults); the operation faults itself when the
    address has been learned ([set_mac_of_learned_station_faults] of FdbProps). *)
Definition op_named (op : fdb_op) : Prop :=
  match op with
  | Learn p _ | ChangeAddr p _ | AddEntry p _ _ _ => (p < length nos)%nat
  | InsertLocal source _ | AddDelStatic source _ _ => exists p, source = Some p /\ (p < length nos)%nat
  | ChangeMac _ => False
  | _ => True
  end.

Lemma has_port_dst f f' : dst f' = dst f -> has_port f -> has_port f'.
Proof. intros E (p & H). exists p. by rewrite E. Qed.

Lemma refresh_port f : has_port f -> has_port (refresh env f).
Proof. apply has_port_dst, (refresh_kind env f). Qed.

Lemma nud_refresh_port f : has_port f -> has_port (nud_refresh env f).
Proof. apply has_port_dst, nud_refresh_dst. Qed.

Lemma ported_insert a f M : has_port f -> map_ported M -> map_ported (<[a := f]> M).
Proof. intros Hf HM. by apply map_Forall_insert_2. Qed.

Lemma ported_delete a M : map_ported M -> map_ported (delete a M).
Proof. apply map_Forall_delete. Qed.

Lemma ported_omap g M : (forall f f', has_port f -> g f = Some f' -> has_port f') ->
  map_ported M -> map_ported (omap g M).
Proof. intros Hg HM a f' (f & E & Hf)%lookup_omap_Some. by eapply Hg; [apply (HM a)|]. Qed.

Create HintDb ported.
#[local] Hint Resolve ported_insert ported_delete refresh_port nud_refresh_port : ported.

Lemma ported_created t M p addr local static : (p < length nos)%nat -> map_ported M ->
  map_ported (created M (create_spec env t M (Some p) addr local static)).2.
Proof.
  intros Hp HM. unfold created, create_spec. destruct (_ || _); [done|]. apply ported_insert; [|done]. by exists p.
Qed.

Lemma insert_spec_ported t M p addr : (p < length nos)%nat -> map_ported M ->
  map_ported (insert_spec env t M (Some p) addr).2.
Proof.
  intros Hp HM. unfold insert_spec. destruct (negb _); [done|]. destruct (M !! addr); [|by apply ported_created].
  destruct (is_local _); [done|]. by apply ported_created, ported_delete.
Qed.

Lemma static_spec_ported t M p addr addEntry : (p < length nos)%nat -> map_ported M ->
  map_ported (static_spec env t M (Some p) addr addEntry).2.
Proof.
  intros Hp HM. unfold static_spec. destruct (negb _); [done|].
  destruct (M !! addr); [destruct (_ || _); [|done]|]; (destruct (addEntry =? 1); [apply ported_created|cbn]); auto with ported.
Qed.

Lemma update_spec_ported t M p addr : (p < length nos)%nat -> map_ported M ->
  map_ported (FdbRefine.update_spec env t M p addr).
Proof.
  intros Hp HM. unfold FdbRefine.update_spec. destruct (ports _ !! _); [|done]. destruct (learns _ _); [|done].
  destruct (M !! addr) as [f|].
  - destruct (is_local f); [done|]. apply ported_insert; [|done]. by exists p.
  - pose proof (ported_created t M p addr false false Hp HM) as H. unfold created in H. by destruct (create_spec _ _ _ _ _ _ _).
Qed.

Lemma add_state_ported t M addr f nud : has_port f -> map_ported M -> map_ported (add_state_spec env t M addr f nud).
Proof.
  intros Hf HM. unfold add_state_spec, fill_refresh. cbv zeta.
  assert (Hr : has_port (requested t nud (nud_refresh env f))).
  { apply (has_port_dst (nud_refresh env f)); [|by apply nud_refresh_port]. unfold requested. by destruct (nonzero _). }
  case_match; [auto with ported|]. destruct (nlmsg_new env); auto with ported.
Qed.

Lemma add_entry_ported t M p addr nud flags : (p < length nos)%nat -> map_ported M ->
  map_ported (add_entry_spec env t M p addr nud flags).2.
Proof.
  intros Hp HM. unfold add_entry_spec. destruct (M !! addr) as [f|] eqn:E.
  - destruct (nonzero _); [done|]. apply add_state_ported; [|done]. by apply (HM addr).
  - destruct (negb _); [done|]. pose proof (ported_created t M p addr false false Hp HM) as H. unfold created in H.
    destruct (create_spec _ _ _ _ _ _ _); [|done]. apply add_state_ported; [by exists p|done].
Qed.

Lemma other_port_lt t p a q : length (ports (br (stp_of t))) = length nos -> other_port t p a = Some q ->
  (q < length nos)%nat.
Proof. intros Hn H. apply find_some in H as [H _]. apply in_seq in H. lia. Qed.

Lemma spec_step_ported t op a M' : length (ports (br (stp_of t))) = length nos -> op_named op ->
  map_ported (abs t) -> spec_step env t op (abs t) a M' -> map_ported M'.
Proof.
  intros Hn Hok HM. destruct op as [p addr|o addr|o addr add|p addr| |addr| | |p all|p addr nud flags|addr]; cbn [spec_step op_named] in *.
  - intros [_ ->]. by apply update_spec_ported.
  - destruct Hok as (p & -> & Hp). intros [_ ->]. by apply insert_spec_ported.
  - destruct Hok as (p & -> & Hp). intros [_ ->]. by apply static_spec_ported.
  - intros (M1 & -> & [[-> _]|(x & f & Hx & _ & _ & ->)]); apply insert_spec_ported; try done.
    unfold FdbRefine.released. destruct (other_port t p x) as [q|] eqn:E; [|by apply ported_delete].
    apply ported_insert; [|done]. exists q. split; [done|]. by eapply other_port_lt.
  - done.
  - intros [_ ->]. unfold get_spec. destruct (abs t !! addr) eqn:E; [|done]. apply ported_insert; [|done].
    by apply refresh_port, (HM addr).
  - intros ->. apply ported_omap; [|done]. intros f f' Hf. unfold aged. destruct (is_static f); [by intros [= <-]|].
    destruct (has_expired _ _); [destruct (wl_alive _ _); [|done]|]; intros [= <-]; by apply refresh_port.
  - intros ->. apply ported_omap; [|done]. intros f f' Hf. unfold flushed. by destruct (is_static f); intros [= <-].
  - intros ->. apply ported_omap; [|done]. intros f f' Hf. unfold port_flushed. destruct (_ || _); [by intros [= <-]|].
    destruct (is_local f); [|done]. destruct (other_port t p (f_addr f)) as [q|] eqn:E; [|done]. intros [= <-].
    exists q. split; [done|]. by eapply other_port_lt.
  - intros [_ ->]. by apply add_entry_ported.
  - intros [_ ->]. unfold delete_spec. destruct (abs t !! addr); [by apply ported_delete|done].
Qed.

End Ported.

(** ** The system *)

(** What happens to the bridge; frames of the ports and of the host come as
    new buffers. *)
Inductive bridge_event : Type :=
  | Frame (s : sk_buff)
  | Transmit (s : sk_buff)
  | Spanning (i : input)
  | Database (op : fdb_op)
  | Request (q : mc_request)
  | Request6 (q : mld_request)
  | Admission (i : nat) (admitted : bool)
  | NetdevEvent (d : nat) (event : Z)
  | DeviceRemoval (d : nat)
  | WipePending.

Section System.
Context (N : net).

Definition alloc_skb (s : sk_buff) : M nat :=
  n ← gets next_skb; modify (set_next_skb (S n));; skb_set n s;; mret n.

(** A buffer the bridge does not want goes to the protocols. *)
Definition hand_on (r : rx_handler_result) : M unit :=
  match r with
  | RX_HANDLER_CONSUMED => mret tt
  | RX_HANDLER_PASS i => modify (fun w => set_heap (delete i (heap w)) w)
  end.

Definition database (op : fdb_op) : M unit :=
  t ← gets tbl; '(_, t) ← lift (fdb_step (fenv N) op t); modify (set_tbl t).

(** What the spanning tree asks of the other parts when a port goes down: the
    port has lost what was learned on it and its group members.  Neither looks
    at what the handler does after that. *)
Definition carry_out (e : event) : M unit :=
  s ← gets (fun w => stp_of (tbl w));
  match e with
  | FdbDeleteByPort no =>
      match port_index s no with Some p => database (DeleteByPort p 0) | None => mret tt end
  | McastNetdevChange no =>
      match port_index s no with
      | Some p => br_mcast_handle_netdevice_events N (port_dev N p) NETDEV_CHANGE
      | None => mret tt
      end
  | _ => mret tt
  end.

Definition spanning (i : input) : M unit :=
  s ← gets (fun w => stp_of (tbl w));
  s' ← lift (handle i s);
  modify (fun w => set_tbl (set_stp_of s' (tbl w)) w);;
  for_each (drop (length (events s)) (events s')) carry_out.

Definition step (e : bridge_event) : M unit :=
  match e with
  | Frame s => i ← alloc_skb s; r ← br_handle_frame N i; hand_on r
  | Transmit s => i ← alloc_skb s; br_dev_xmit N i;; mret tt
  | Spanning i => spanning i
  | Database op => database op
  | Request q => serve N q;; mret tt
  | Request6 q => mld_serve N q;; mret tt
  | Admission i admitted => br_igmp_process_admission N i admitted
  | NetdevEvent d event => br_mcast_handle_netdevice_events N d event
  | DeviceRemoval d => br_igmp_process_device_removal N d
  | WipePending => br_igmp_wipe_pending_skbs
  end.

End System.

(** ** The invariant *)

Section Invariant.
Context (nos : list Z) (small : Forall (fun no => no < 256) nos).
Abbreviation nports := (length nos).
Implicit Types (N : net) (w : world).

(** Every waiting packet is a buffer of its own that can be forwarded. *)
Definition waits_ok N w : Prop :=
  NoDup (waiting (igmp_delayed_skb w)) /\
  forall i, i ∈ waiting (igmp_delayed_skb w) -> exists s, heap w !! i = Some s /\ kept N s.

Record bridge_ok N w : Prop := mk_bridge_ok {
  bk_data : data_ok N nos w;
  bk_groups : groups_wf N nports (mc_hash w);
  bk_groups6 : groups_wf N nports (mld_mc_hash w);
  bk_waits : waits_ok N w
}.

(** What each event brings is well-formed. *)
Definition event_ok N (e : bridge_event) : Prop :=
  match e with
  | Frame s => users s = 1 /\ room s /\ frame_ok s /\ exists p, br_port_get_rcu N (dev s) = Ok (Some p)
  | Transmit s => users s = 1 /\ (dev s < length (devs N))%nat /\ room (pulled N s) /\ frame_ok (pulled N s)
  | Spanning i => valid nos i
  | Database op => op_named nos op
  | Request q => request_ok N nports q
  | Request6 q => mld_request_ok N nports q
  | NetdevEvent d _ => (d < length (devs N))%nat
  | _ => True
  end.

(** The device a frame came from that an event may send out; the daemon decides
    over frames that wait. *)
Definition sender (e : bridge_event) w : option nat :=
  match e with
  | Frame s | Transmit s => Some (dev s)
  | Admission i true => if bool_decide (i ∈ waiting (igmp_delayed_skb w)) then dev <$> heap w !! i else None
  | _ => None
  end.

(** What may leave the bridge on account of an event. *)
Definition may_leave N (e : bridge_event) w w' (x : ev) : Prop :=
  match x with
  | Xmit _ => exists d, sender e w = Some d /\ out_ok N (stp_of (tbl w')) d x
  | Receive s => dev s = br_dev N
  | _ => True
  end.

Definition causes N (e : bridge_event) w w' : Prop :=
  exists l, trace w' = trace w ++ l /\ Forall (may_leave N e w w') l.

(** The timer of topology change notifications has run out at the root. *)
Definition tcn_at_root (e : bridge_event) w : Prop :=
  let s := stp_of (tbl w) in
  e = Spanning TcnTimer /\ root_port (br s) = 0 /\ expired s (tcn_timer (br s)) = true.

(** *** Waiting packets *)

Lemma waiting_fill l k t t' i : l !! k = Some (None, t) -> waiting (<[k := (Some i, t')]> l) ≡ₚ i :: waiting l.
Proof.
  intros E. rewrite <- (take_drop_middle _ _ _ E) at 2. rewrite insert_take_drop by (by eapply lookup_lt_Some).
  unfold waiting. rewrite !omap_app. cbn. by rewrite Permutation_middle.
Qed.

Lemma waiting_clear l k t i : l !! k = Some (Some i, t) ->
  waiting l ≡ₚ i :: waiting (alter (fun x => (None, snd x)) k l).
Proof.
  revert k. induction l as [|[[j|] u] l IH]; intros [|k] E; try done; cbn in *; [by injection E as -> ->| |by apply IH].
  rewrite (IH k E). by apply Permutation_swap.
Qed.

Lemma waits_same N w w' : igmp_delayed_skb w' = igmp_delayed_skb w ->
  (forall i, i ∈ waiting (igmp_delayed_skb w) -> heap w' !! i = heap w !! i) -> waits_ok N w -> waits_ok N w'.
Proof.
  intros Hd Hh [H1 H2]. unfold waits_ok. rewrite Hd. split; [done|]. intros i Hi. rewrite Hh by done. by apply H2.
Qed.

Lemma waits_outcome N i w w' : waits_ok N w -> i ∉ waiting (igmp_delayed_skb w) -> outcome N i w w' -> waits_ok N w'.
Proof.
  intros Hw Hi [Hh Hd|s k t t' Hk Hd Hh Hs|s _ _ Hd Hh].
  - apply (waits_same N w); [done| |done]. intros j Hj. rewrite Hh. apply lookup_delete_ne. by intros ->.
  - destruct Hw as [H1 H2]. pose proof (waiting_fill _ _ _ t' i Hk) as Hp. unfold waits_ok. rewrite Hd.
    split; [rewrite Hp; by apply NoDup_cons|]. intros j Hj. rewrite Hp in Hj. rewrite Hh.
    apply elem_of_cons in Hj as [->|Hj]; [exists s; by rewrite lookup_insert_eq|].
    rewrite lookup_insert_ne by (by intros ->). by apply H2.
  - apply (waits_same N w); [done| |done]. intros j Hj. rewrite Hh. apply lookup_insert_ne. by intros ->.
Qed.

Lemma waits_cleared N b w w' : waits_ok N w -> igmp_delayed_skb w' = map (cleared b) (igmp_delayed_skb w) ->
  heap w' = off_heap (omap (frees b) (igmp_delayed_skb w)) (heap w) -> waits_ok N w'.
Proof.
  intros [Hn Hh] Hd E. pose proof (waiting_split b (igmp_delayed_skb w)) as Hp.
  rewrite <- Hp in Hn. apply NoDup_app in Hn as (H1 & H2 & _). unfold waits_ok. rewrite Hd. split; [done|]. intros i Hi.
  destruct (Hh i) as (s & Es & Hs). { rewrite <- Hp. apply elem_of_app. by left. }
  exists s. split; [|done]. rewrite E, off_heap_lookup, bool_decide_eq_false_2; [done|]. by apply H2.
Qed.

Lemma waits_delayed N w : waits_ok N w -> delayed_ok w.
Proof. intros [H1 H2]. split; [done|]. intros i Hi. destruct (H2 i Hi) as (s & E & Hs). exists s. split; [done|apply Hs]. Qed.

(** *** Steps of the parts *)

Lemma causes_silent N e w w' l : trace w' = trace w ++ l -> Forall silent l -> causes N e w w'.
Proof. intros Ht Hl. exists l. split; [done|]. eapply Forall_impl; [done|]. by intros []. Qed.

Lemma causes_acts N e d w w1 w' : trace w1 = trace w -> sender e w = Some d ->
  acts N nos (stp_of (tbl w')) d w1 w' -> causes N e w w'.
Proof.
  intros Ht Hs (_ & _ & _ & l & Hl & Hf). exists l. rewrite Hl, Ht. split; [done|]. eapply Forall_impl; [done|].
  intros [] Hx; try done. by exists d.
Qed.

Lemma groups_wf_dst {E A K} {GT : GroupTable E A K} {GK : GroupKey K} N (g : list (list E)) : groups_wf N nports g ->
  Forall (Forall (fun e => (key_dst (mc_key e) < nports)%nat)) g.
Proof.
  intros [_ Hg]. apply Forall_lookup_2. intros h l El. eapply Forall_impl; [apply (Hg h l El)|]. intros e He. apply He.
Qed.

Lemma both_groups_ok N w : groups_wf N nports (mc_hash w) -> groups_wf N nports (mld_mc_hash w) -> groups_ok nports w.
Proof. intros H4 H6. split; [exact (groups_wf_dst N _ H4)|exact (groups_wf_dst N _ H6)]. Qed.

(** A step that changes the group tables only. *)
Lemma bridge_tables N w w' : bridge_ok N w -> tbl w' = tbl w -> heap w' = heap w -> next_skb w' = next_skb w ->
  dirty w' = dirty w -> igmp_delayed_skb w' = igmp_delayed_skb w ->
  groups_wf N nports (mc_hash w') -> groups_wf N nports (mld_mc_hash w') -> bridge_ok N w'.
Proof.
  intros [[Hf Hdi Hh _] _ _ Hwt] Ht He Hn Hdy Hd H4 H6. split; [split|done|done|].
  - by rewrite Ht.
  - by rewrite Hdy.
  - intros k. rewrite He, Hn. apply Hh.
  - by apply (both_groups_ok N).
  - apply (waits_same N w); [done| |done]. intros k _. by rewrite He.
Qed.

Lemma bridge_acts N st d w w' : bridge_ok N w -> acts N nos st d w w' -> waits_ok N w' -> bridge_ok N w'.
Proof.
  intros Hw (_ & Hd & Hg & _) Hs. injection Hg as Hg Hg6. split; [done|rewrite Hg; apply Hw|rewrite Hg6; apply Hw|done].
Qed.

Lemma bridge_mc N w : bridge_ok N w -> mc_ok N nports w.
Proof.
  intros Hw. split; [apply Hw|]. split; [by apply (waits_delayed N), bk_waits|]. by apply (data_nports N nos), Hw.
Qed.

Lemma bridge_mld N w : bridge_ok N w -> mld_ok N nports w.
Proof. intros Hw. split; [apply Hw|]. apply (wf_numbered N nos); [|done]. apply (fk_stp _ _ _ (da_fdb _ _ _ (bk_data _ _ Hw))). Qed.

Abbreviation quietly N w := (fun w' => bridge_ok N w' /\ exists l, trace w' = trace w ++ l /\ Forall silent l).

Lemma bridge_served N w w' : bridge_ok N w -> served (E := mc_fdb_entry) N nports w w' -> quietly N w w'.
Proof.
  intros Hw H. pose proof H as [[_ _ (l & Hl & Etr)] _].
  destruct (served_same N nports w w' H) as (Hg' & Ht & He & Hd & Hdy & Hm & Hn). split.
  - apply (bridge_tables N w); try done. rewrite Hm. apply Hw.
  - exists l. split; [done|]. eapply Forall_impl; [done|]. apply silent_told.
Qed.

Lemma bridge_served6 N w w' : bridge_ok N w -> served (E := mld_fdb_entry) N nports w w' -> quietly N w w'.
Proof.
  intros Hw H. pose proof H as [[_ _ (l & Hl & Etr)] _]. destruct (mld_served_same N nports w w' H) as [Hg' Hw'].
  split; [|exists l; split; [done|]; eapply Forall_impl; [done|]; apply silent_told].
  rewrite Hw' in *. apply (bridge_tables N w); try done. apply Hw.
Qed.

Lemma bridge_timed_out N w w' : bridge_ok N w -> timed_out N w w' -> groups_wf N nports (mc_hash w') -> bridge_ok N w'.
Proof.
  intros [[Hf Hdi Hh Hgr] Hg Hg6 Hwt] [Hg1 Hsl He _ Ht _ (Ho1 & Ho2 & Ho3)] Hg'. split; [split|done|by rewrite Ho2|].
  - by rewrite Ht.
  - by rewrite Ho1.
  - intros j Hj. rewrite He, off_heap_lookup. case_bool_decide; [done|]. apply Hh. lia.
  - apply (both_groups_ok N); [done|by rewrite Ho2].
  - by eapply waits_cleared.
Qed.

Lemma bridge_released N b w w' : bridge_ok N w -> released b w w' -> bridge_ok N w' /\
  exists l, trace w' = trace w ++ l /\ Forall silent l.
Proof.
  intros [[Hf Hdi Hh Hgr] Hg Hg6 Hwt] (w1 & (l & n & st & Hl & Hn & ->) & ->). split.
  - split; [split; try done|done|done|by eapply waits_cleared].
    intros j Hj. cbn in *. rewrite off_heap_lookup. case_bool_decide; [done|]. apply Hh. lia.
  - exists l. split; [done|]. eapply Forall_impl; [done|]. apply silent_off.
Qed.

Lemma bridge_tbl N t w : fdb_ok N nos t -> bridge_ok N w -> bridge_ok N (set_tbl t w).
Proof. intros Ht [Hd Hg Hg6 Hw]. split; [by apply data_ok_tbl|done..]. Qed.

(** *** Each event *)

Section Step.
Context (N : net) (HN : net_ok N nports) (HI : input_ok N).

Lemma alloc_spec s Q w : bridge_ok N w ->
  (forall w1, let n := next_skb w in bridge_ok N w1 -> heap w1 !! n = Some s ->
    n ∉ waiting (igmp_delayed_skb w1) -> trace w1 = trace w -> Q n w1) -> wp (alloc_skb s) Q w.
Proof.
  intros [Hd Hg Hg6 Hw] HQ. unfold alloc_skb. apply wp_bind, wp_gets, wp_bind, wp_modify, wp_bind, wp_modify, wp_ret.
  assert (Hfree : next_skb w ∉ waiting (igmp_delayed_skb w)).
  { intros Hi. destruct Hw as [_ Hw]. destruct (Hw _ Hi) as (x & Hx & _). rewrite (da_heap _ _ _ Hd (next_skb w)) in Hx; [done|lia]. }
  apply HQ; [|cbn; apply lookup_insert_eq|done|done]. destruct Hd as [Hf Hdi Hh Hgr]. split; [split; try done|done|done|].
  - intros j Hj. cbn in *. rewrite lookup_insert_ne by lia. apply Hh. lia.
  - apply (waits_same N w); [done| |done]. intros j Hj. cbn. apply lookup_insert_ne. by intros <-.
Qed.

Lemma frame_step s w : bridge_ok N w -> event_ok N (Frame s) ->
  wp (step N (Frame s)) (fun _ w' => bridge_ok N w' /\ causes N (Frame s) w w') w.
Proof.
  intros Hw (Hu & Hr & Hf & p & Hp). cbn [step]. apply wp_bind, alloc_spec; [done|]. intros w1 n Hw1 En Hn Ht.
  destruct (handle_frame_ok N nos HN HI n s p w1) as (r & w2 & E & Ha & Hans & _); try done; [apply Hw1|lia|].
  apply wp_bind. eapply wp_Ok; [exact E|]. specialize (Hans Hu).
  assert (Hc : causes N (Frame s) w w2) by (by eapply causes_acts).
  destruct r as [|j]; cbn [hand_on].
  - apply wp_ret. split; [|done]. eapply bridge_acts; [exact Hw1|exact Ha|]. eapply waits_outcome; [apply Hw1|exact Hn|apply Hans].
  - apply wp_modify. destruct Hans as (-> & _ & Hd & s' & Hh & _). split; [|done].
    assert (Hw2 : waits_ok N w2).
    { apply (waits_same N w1); [done| |apply Hw1]. intros j Hj. rewrite Hh. apply lookup_insert_ne. by intros ->. }
    pose proof (bridge_acts _ _ _ _ _ Hw1 Ha Hw2) as [[? ? Hh2 ?] ? ? _]. split; [split; try done|done|done|].
    + intros j Hj. apply lookup_delete_None. right. by apply Hh2.
    + apply (waits_same N w2); [done| |done]. intros j Hj. rewrite Hd in Hj. cbn. apply lookup_delete_ne. by intros ->.
Qed.

Lemma transmit_step s w : bridge_ok N w -> event_ok N (Transmit s) ->
  wp (step N (Transmit s)) (fun _ w' => bridge_ok N w' /\ causes N (Transmit s) w w') w.
Proof.
  intros Hw (Hu & Hd & Hr & Hf). cbn [step]. apply wp_bind, alloc_spec; [done|]. intros w1 n Hw1 En Hn Ht.
  destruct (dev_xmit_ok N nos HN n s w1) as (r & w2 & E & Ha & Ho); try done; [apply Hw1|].
  apply wp_bind. eapply wp_Ok; [exact E|]. apply wp_ret. split; [|by eapply causes_acts].
  eapply bridge_acts; [exact Hw1|exact Ha|]. by eapply waits_outcome; [apply Hw1|exact Hn|].
Qed.

Lemma database_spec op w : bridge_ok N w -> op_named nos op ->
  wp (database N op) (fun _ w' => bridge_ok N w' /\ trace w' = trace w) w.
Proof.
  intros Hw Ho. pose proof (da_fdb _ _ _ (bk_data _ _ Hw)) as Hf. pose proof (fdb_nports N nos _ Hf) as Hn.
  unfold database. apply wp_bind, wp_gets, wp_bind. destruct Hf as [Ht Hs Hp].
  assert (Hl : all_linked (tbl w)).
  { apply (linked_abs (fenv N)); [done|]. intros a f Ha. right. right. destruct (Hp a f Ha) as (p & -> & _). done. }
  assert (Hok : op_ok (tbl w) op).
  { destruct op; try done; cbn in *; [lia|by destruct Ho as (p & -> & _)|].
    intros f Ha. left. destruct (Hp _ f Ha) as (p & -> & _). done. }
  destruct (fdb_step_total (fenv N) nos op (tbl w) Ht Hl Hs Hok) as (a & t' & E & Ht' & _ & Hs').
  eapply wp_lift; [exact E|]. apply wp_modify. split; [|done]. apply bridge_tbl; [|done]. split; [done..|].
  eapply (spec_step_ported (fenv N) nos (tbl w)); [done..|]. by apply (step_refines (fenv N) op (tbl w) a t').
Qed.

Lemma quietly_refl w : bridge_ok N w -> quietly N w w.
Proof. intros Hw. split; [done|]. exists []. by rewrite app_nil_r. Qed.

Lemma quietly_trans w w1 w2 : quietly N w w1 -> quietly N w1 w2 -> quietly N w w2.
Proof.
  intros [_ (l & Hl & Hf)] [Hw (l' & Hl' & Hf')]. split; [done|]. exists (l ++ l').
  rewrite Hl', Hl, app_assoc. split; [done|by apply Forall_app].
Qed.

Lemma quietly_bind {A B} (m : M A) (k : A -> M B) w : wp m (fun _ => quietly N w) w ->
  (forall a w1, bridge_ok N w1 -> wp (k a) (fun _ => quietly N w1) w1) -> wp (m ≫= k) (fun _ => quietly N w) w.
Proof.
  intros Hm Hk. apply wp_bind. eapply wp_mono; [exact Hm|cbv beta]. intros a w1 H1.
  eapply wp_mono; [apply Hk, H1|cbv beta]. intros _ w2. by apply quietly_trans.
Qed.

Lemma quietly_ret {A} (a : A) w : bridge_ok N w -> wp (mret a) (fun _ => quietly N w) w.
Proof. intros Hw. by apply wp_ret, quietly_refl. Qed.

Lemma removal_step d w : bridge_ok N w ->
  wp (br_igmp_process_device_removal N d) (fun _ => quietly N w) w.
Proof.
  intros Hw. pose proof (waits_delayed N w (bk_waits _ _ Hw)) as Hd. unfold br_igmp_process_device_removal.
  assert (Hfree : forall P b, (forall i t w1, tbl w1 = tbl w -> heap w1 !! i = heap w !! i ->
    i ∈ waiting (igmp_delayed_skb w) -> P i t w1 = Ok (b i t, w1)) ->
    wp (free_delayed P) (fun _ => quietly N w) w).
  { intros P b HP. eapply wp_mono; [by apply (free_delayed_spec P b)|cbv beta]. intros _ w' [H _]. by eapply bridge_released. }
  destruct (Nat.eqb d (br_dev N)); [by apply (Hfree _ (fun _ _ => true))|].
  apply (Hfree _ (fun i _ => match heap w !! i with Some s => Nat.eqb (dev s) d | None => false end)).
  intros i t w1 _ Hh Hi. destruct Hd as [_ Hd]. destruct (Hd i Hi) as (s & E & _).
  unfold skb_at, mbind, M_bind. rewrite Hh, E. done.
Qed.

Lemma netdev_step d event w : bridge_ok N w -> (d < length (devs N))%nat ->
  wp (br_mcast_handle_netdevice_events N d event) (fun _ => quietly N w) w.
Proof.
  intros Hw Hd. unfold br_mcast_handle_netdevice_events. destruct (_ || _); [|by apply quietly_ret].
  apply quietly_bind; [apply quietly_bind|].
  - eapply wp_mono; [apply (update_dev_spec N nports); [apply Hw|by apply (data_nports N nos), Hw|done]|cbv beta].
    intros ? w' [H _]. by apply bridge_served.
  - intros _ w1 Hw1. by apply removal_step.
  - intros _ w1 Hw1. apply quietly_bind; [|intros ? w2 Hw2; by apply quietly_ret].
    destruct (bridge_mld N w1 Hw1) as [Hg Hnb].
    eapply wp_mono; [by apply (mld_update_dev_spec N nports HN)|cbv beta].
    intros ? w' [H _]. by apply bridge_served6.
Qed.

Lemma port_index_lt st no p : wf nos st -> port_index st no = Some p -> (p < nports)%nat.
Proof. intros Hs H. apply find_some in H as [H _]. by apply (port_list_lt nos st p (proj1 Hs)). Qed.

Lemma carry_out_spec e w : bridge_ok N w -> wp (carry_out N e) (fun _ => quietly N w) w.
Proof.
  intros Hw. unfold carry_out. apply wp_bind, wp_gets. pose proof (fk_stp _ _ _ (da_fdb _ _ _ (bk_data _ _ Hw))) as Hs.
  destruct e as [ | | |no|no]; try (by apply quietly_ret); (destruct (port_index _ no) as [p|] eqn:E; [|by apply quietly_ret]);
    apply (port_index_lt _ _ _ Hs) in E.
  - eapply wp_mono; [by apply database_spec|cbv beta]. intros _ w' [H Ht]. split; [done|]. exists []. by rewrite app_nil_r.
  - apply netdev_step; [done|by apply (nk_ports _ _ HN)].
Qed.

Lemma spanning_spec i w : bridge_ok N w -> valid nos i ->
  wp (spanning N i) (fun _ => quietly N w) w \/
  tcn_at_root (Spanning i) w /\ spanning N i w = Fault NullDeref.
Proof.
  intros Hw Hv. pose proof (da_fdb _ _ _ (bk_data _ _ Hw)) as [Ht Hs Hp].
  destruct (handle_safe nos (stp_of (tbl w)) i Hs Hv) as [(s' & E & Hs')|(-> & H1 & H2 & H3)]; [left|right].
  - unfold spanning. apply wp_bind, wp_gets, wp_bind. eapply wp_lift; [exact E|]. apply wp_bind, wp_modify.
    match goal with |- wp _ _ ?w0 => set (w1 := w0) end.
    assert (Hw1 : bridge_ok N w1). { apply bridge_tbl; [|done]. split; [by apply set_stp_table|done..]. }
    apply (wp_for_each (quietly N w)).
    + intros e w2 _ H2. eapply wp_mono; [by apply carry_out_spec, H2|cbv beta]. intros _ w3. by apply quietly_trans.
    + split; [done|]. exists []. by rewrite app_nil_r.
  - split; [done|]. unfold spanning, mbind, M_bind, gets, lift. by rewrite H3.
Qed.

Lemma request_step q w : bridge_ok N w -> request_ok N nports q ->
  wp (serve N q;; mret tt) (fun _ => quietly N w) w.
Proof.
  intros Hw Hq. apply wp_bind. eapply wp_mono; [apply (serve_change N nports); [by apply bridge_mc|done]|cbv beta].
  intros ? w' [H|(H & Hg & _)]; apply wp_ret; [by apply bridge_served|]. split; [by apply (bridge_timed_out N w)|apply H].
Qed.

Lemma request6_step q w : bridge_ok N w -> mld_request_ok N nports q ->
  wp (mld_serve N q;; mret tt) (fun _ => quietly N w) w.
Proof.
  intros Hw Hq. apply quietly_bind; [|intros ? w1; by apply quietly_ret].
  eapply wp_mono; [apply (mld_serve_served N nports HN); [by apply bridge_mld|done]|cbv beta].
  intros ? w'. by apply bridge_served6.
Qed.

Lemma slot_some i l k : slot (fun x => bool_decide (x = Some i)) l = Some k -> exists t, l !! k = Some (Some i, t).
Proof.
  revert k. induction l as [|[x t] l IH]; intros k E; [done|]. cbn in E. case_bool_decide as Hx.
  - injection E as <-. exists t. by rewrite Hx.
  - destruct (slot _ l) as [m|]; [|done]. injection E as <-. by apply IH.
Qed.

Lemma admission_step i adm w : bridge_ok N w ->
  wp (br_igmp_process_admission N i adm) (fun _ w' => bridge_ok N w' /\ causes N (Admission i adm) w w') w.
Proof.
  intros Hw. unfold br_igmp_process_admission. apply wp_bind, wp_gets. destruct (slot _ _) as [k|] eqn:Es.
  2: { apply wp_ret. split; [done|]. exists []. by rewrite app_nil_r. }
  apply slot_some in Es as [t Ek]. pose proof Hw as [Hd _ _ [Hn1 Hn2]]. pose proof (waiting_clear _ _ _ _ Ek) as Hp.
  rewrite Hp in Hn1. apply NoDup_cons in Hn1 as [Hi Hn1].
  assert (Hin : i ∈ waiting (igmp_delayed_skb w)) by (rewrite Hp; apply elem_of_cons; by left).
  destruct (Hn2 i Hin) as (s & E & [Hu Hr Hdv Hf Hb]).
  assert (Hend : forall w', done_with N nos i (dev s) w w' ->
    bridge_ok N (set_delayed (alter (fun x => (None, snd x)) k (igmp_delayed_skb w')) w')).
  { intros w' (Ha & Hh & Hdl). pose proof Ha as (_ & [? ? ? ?] & Hg & _). injection Hg as Hg4 Hg6.
    split; [by split|cbn; rewrite Hg4; apply Hw|cbn; rewrite Hg6; apply Hw|].
    unfold waits_ok. cbn. rewrite Hdl. split; [done|]. intros j Hj. rewrite Hh, lookup_delete_ne by (by intros ->).
    apply Hn2. rewrite Hp. apply elem_of_cons. by right. }
  apply wp_bind. destruct adm.
  - eapply wp_mono.
    + apply (br_flood_spec N nports HN (__br_forward N) i s None); try done; [by apply (br_forward_hook N nports)|by apply (data_nports N nos)
        |by apply (frame_decides N nos HN i)|apply Hd|by rewrite Hb|by left].
    + cbv beta. intros _ w' H%(done_spent N nos). 2: done. apply wp_modify. split; [by apply Hend|].
      destruct H as ((Hst & H) & _). apply (causes_acts N _ (dev s) w w); [done|cbn; by rewrite bool_decide_eq_true_2, E|]. cbn. rewrite Hst.
      destruct H as ([? ? ? ?] & H). by split; [|split].
  - eapply wp_kfree_skb; [done..|]. apply wp_modify. split; [by apply Hend, done_given|].
    by apply (causes_silent N _ _ _ [Freed s]); [|apply Forall_singleton].
Qed.

Lemma step_spec e w : bridge_ok N w -> event_ok N e ->
  wp (step N e) (fun _ w' => bridge_ok N w' /\ causes N e w w') w \/
  tcn_at_root e w /\ step N e w = Fault NullDeref.
Proof.
  intros Hw He.
  assert (Hq : forall (m : M unit), wp m (fun _ => quietly N w) w ->
    wp m (fun _ w' => bridge_ok N w' /\ causes N e w w') w).
  { intros m Hm. eapply wp_mono; [exact Hm|cbv beta]. intros _ w' [H (l & Hl & Hs)]. split; [done|]. by eapply causes_silent. }
  destruct e; cbn [step].
  - left. by apply frame_step.
  - left. by apply transmit_step.
  - destruct (spanning_spec i w Hw He) as [H|H]; [left; by apply Hq|by right].
  - left. apply Hq. eapply wp_mono; [by apply database_spec|cbv beta]. intros _ w' [H ->]. split; [done|]. exists []. by rewrite app_nil_r.
  - left. by apply Hq, request_step.
  - left. by apply Hq, request6_step.
  - left. by apply admission_step.
  - left. by apply Hq, netdev_step.
  - left. by apply Hq, removal_step.
  - left. apply Hq. eapply wp_mono; [apply (free_delayed_spec _ (fun _ _ => true)); [apply (waits_delayed N), Hw|done]|cbv beta].
    intros _ w' [H _]. by eapply bridge_released.
Qed.

End Step.

(** ** Other environments *)

(** The same bridge: its devices and hash functions are what they were.
    Memory, the clock, configuration and what other modules do may differ. *)
Record alike N0 N : Prop := mk_alike {
  al_fdb : fdb_salt (fenv N) = fdb_salt (fenv N0);
  al_groups : br_igmp_mc_fdb_salt N = br_igmp_mc_fdb_salt N0;
  al_groups6 : br_mld_mc_fdb_salt N = br_mld_mc_fdb_salt N0;
  al_devs : devs N = devs N0;
  al_br_dev : br_dev N = br_dev N0
}.

Lemma alike_sym N0 N : alike N0 N -> alike N N0.
Proof. by intros [? ? ? ? ?]. Qed.

(** Of these, the invariant depends on the number of devices only. *)
Record akin N0 N : Prop := mk_akin {
  ak_fdb : fdb_salt (fenv N) = fdb_salt (fenv N0);
  ak_groups : br_igmp_mc_fdb_salt N = br_igmp_mc_fdb_salt N0;
  ak_groups6 : br_mld_mc_fdb_salt N = br_mld_mc_fdb_salt N0;
  ak_devs : length (devs N) = length (devs N0);
  ak_br_dev : br_dev N = br_dev N0
}.

Lemma bridge_akin N0 N w : akin N0 N -> bridge_ok N0 w -> bridge_ok N w.
Proof.
  intros [H1 H2 H6 H3 H4] [[[Ht Hs Hp] Hdi Hh Hgr] Hg Hg6 [Hn Hk]]. split; [split; try done| | |split; [done|]].
  - split; [|done..]. by apply (table_ok_salt (fenv N0)).
  - apply (groups_alike N0); [|done]. intros k. cbn [key_hash igmp_key]. unfold br_igmp_mc_fdb_hash. by rewrite H2.
  - apply (groups_alike N0); [|done]. intros k. cbn [key_hash mld_key]. unfold br_mld_mc_fdb_hash. by rewrite H6.
  - intros i Hi. destruct (Hk i Hi) as (s & E & [? ? ? ? ?]). exists s. split; [done|]. split; [assumption..|by rewrite H3|assumption|by rewrite H4].
Qed.

Lemma bridge_alike N0 N w : alike N0 N -> bridge_ok N0 w -> bridge_ok N w.
Proof. intros [H1 H2 H6 H3 H4]. apply bridge_akin. split; congruence. Qed.

End Invariant.

(** ** Example *)

Definition demo_bridge : world := demo_world (demo_fdb FORWARDING) (demo_frame broadcast 0x0800 []) free_slots.

Lemma demo_bridge_ok : bridge_ok [1; 2; 3] quiet_net demo_bridge.
Proof.
  split; [apply demo_data_ok|apply groups_empty|apply groups_empty|].
  split; [apply NoDup_nil_2|]. intros i Hi. by apply elem_of_nil in Hi.
Qed.

Lemma demo_small : Forall (fun no => no < 256) [1; 2; 3].
Proof. by repeat constructor. Qed.
