(* ===== verification/BrIf.v ===== *)
(** Ports come and go: net/bridge/br_if.c and the reaction of net/bridge/br_notify.c
    to changes of a port's device.

    A port is its position in the list of ports, so that adding or removing one
    renumbers those behind it, in the list, in the entries of the forwarding
    database and of the groups, and in [rx_handler_data] of the devices.  A
    reference to the port that is removed becomes one past the end of the list,
    and its use a fault.

    The state is what the rest of the bridge works on (the devices and hooks in
    [net], the bridge in [world]), what a port holds of its device, and the
    number of ports that are allocated.  Notifications by netlink, netpoll, the
    flow paths of VLAN devices (br_flows.c) and the accelerator's hooks are not
    modelled; there is one bridge, its device is present, and [has_master] is
    whether it is the master of a device. *)

From S2P Require Import Prelude Str Stp StpSafety Fdb FdbProps Bridge BrForward Groups BrIgmp BrMld BrMcast BrRun.

(** ** Constants *)

Definition IFF_DONT_BRIDGE : Z := 0x800.
Definition ARPHRD_ETHER : Z := 1.
Definition ETH_DATA_LEN : Z := 1500.
Definition BR_MAX_PORTS : Z := Z.shiftl 1 BR_PORT_BITS.
Definition EBUSY : Z := 16.
Definition ELOOP : Z := 40.
Definition EXFULL : Z := 54.
Definition EOPNOTSUPP : Z := 95.
Definition NETDEV_UP : Z := 1.
Definition NETDEV_UNREGISTER : Z := 6.
Definition NETDEV_CHANGEMTU : Z := 7.
Definition NETDEV_CHANGEADDR : Z := 8.
Definition NETDEV_CHANGENAME : Z := 0xA.
Definition NETDEV_PRE_TYPE_CHANGE : Z := 0xE.
Definition NOTIFY_DONE : Z := 0.
Definition NOTIFY_OK : Z := 1.
Definition NOTIFY_STOP_MASK : Z := 0x8000.
Definition NOTIFY_BAD : Z := Z.lor NOTIFY_STOP_MASK 2.

(** ** Devices *)

(** The members of a device that are read when it becomes a port, or when it
    changes; [di_name] is the array of its name, [ethtool] the speed its driver
    reports, if it does.  A device runs when it is up. *)
Record dev_info : Type := mk_dev_info {
  di_loopback : bool;
  di_type : Z;
  di_addr_len : Z;
  di_addr : list Z;
  di_is_bridge : bool;
  di_up : bool;
  di_carrier : bool;
  di_name : list Z;
  ethtool : option Z
}.

(** The outcome of allocations and of calls that can fail. *)
Record add_env : Type := mk_add_env {
  kcalloc : bool;
  kzalloc : bool;
  promisc_err : Z;
  kobject_err : Z;
  sysfs_err : Z;
  master_err : Z;
  rx_handler_err : Z
}.

(** What a port holds of its device. *)
Record dev_links : Type := mk_links {
  promiscuity : Z;
  holds : Z;
  has_master : bool;
  sysfs_link : bool;
  kobj : bool
}.

Definition add_promiscuity (n : Z) (l : dev_links) : dev_links :=
  mk_links (promiscuity l + n) (holds l) (has_master l) (sysfs_link l) (kobj l).
Definition add_holds (n : Z) (l : dev_links) : dev_links :=
  mk_links (promiscuity l) (holds l + n) (has_master l) (sysfs_link l) (kobj l).
Definition set_master (b : bool) (l : dev_links) : dev_links :=
  mk_links (promiscuity l) (holds l) b (sysfs_link l) (kobj l).
Definition set_sysfs_link (b : bool) (l : dev_links) : dev_links :=
  mk_links (promiscuity l) (holds l) (has_master l) b (kobj l).
Definition set_kobj (b : bool) (l : dev_links) : dev_links :=
  mk_links (promiscuity l) (holds l) (has_master l) (sysfs_link l) b.

Record ifs : Type := mk_ifs {
  if_net : net;
  if_world : world;
  if_links : nat -> dev_links;
  if_live : Z
}.

Definition set_if_net (N : net) (s : ifs) : ifs := mk_ifs N (if_world s) (if_links s) (if_live s).
Definition set_if_world (w : world) (s : ifs) : ifs := mk_ifs (if_net s) w (if_links s) (if_live s).
Definition upd_links (d : nat) (f : dev_links -> dev_links) (s : ifs) : ifs :=
  mk_ifs (if_net s) (if_world s) (fun e => if Nat.eqb e d then f (if_links s e) else if_links s e) (if_live s).
Definition add_live (n : Z) (s : ifs) : ifs := mk_ifs (if_net s) (if_world s) (if_links s) (if_live s + n).

(** A step of the bridge. *)
Definition on_world (m : net -> M unit) (s : ifs) : res ifs :=
  '(_, w) ← m (if_net s) (if_world s); Ok (set_if_world w s).

Definition stp_now (s : ifs) : stp := stp_of (tbl (if_world s)).

(** ** Renumbering *)

Definition set_mc_dst (p : nat) (e : mc_fdb_entry) : mc_fdb_entry :=
  mk_mc p (rxGrp e) (txGrp e) (rep_list e) (mc_src e) (filt_mode e) (lan_tci e) (mc_type e) (root e)
    (lanppp e) (excludePort e) (enRtpSeqCheck e) (from_dev e).
Definition set_mld_dst (p : nat) (e : mld_fdb_entry) : mld_fdb_entry :=
  mk_mld p (mld_grp e) (mld_rep_list e) (mld_src e) (mld_filt_mode e) (mld_lan_tci e) (mld_type e) (mld_root e)
    (mld_lanppp e) (mld_from_dev e).
Definition set_rx_handler_data (o : option nat) (x : net_device) : net_device :=
  mk_dev (priv_flags x) (mtu x) (next_dev x) (refcount x) (hw_port_type x) o (if_lan x) (if_wl x).
Definition set_priv_flags (v : Z) (x : net_device) : net_device :=
  mk_dev v (mtu x) (next_dev x) (refcount x) (hw_port_type x) (rx_handler_data x) (if_lan x) (if_wl x).
Definition set_mtu (v : Z) (x : net_device) : net_device :=
  mk_dev (priv_flags x) v (next_dev x) (refcount x) (hw_port_type x) (rx_handler_data x) (if_lan x) (if_wl x).

(** The references to ports in the tables, with [f] for the new numbers. *)
Definition renumber_fdb (f : nat -> nat) (t : fdb) : fdb :=
  set_hash (map (map (fun e => set_dst (f <$> dst e) e)) (hash t)) t.
Definition renumber (f : nat -> nat) (w : world) : world :=
  set_mc_hash (map (map (fun e => set_mc_dst (f (mc_dst e)) e)) (mc_hash w))
    (set_mld_mc_hash (map (map (fun e => set_mld_dst (f (mld_dst e)) e)) (mld_mc_hash w))
      (set_tbl (renumber_fdb f (tbl w)) w)).

(** The devices and the port numbers the data path sees. *)
Definition set_topology (ds : list net_device) (pd : nat -> nat) (hairpin : nat -> bool) (N : net) : net :=
  mk_net (fenv N) ds pd hairpin (br_dev N) (br_dev_flags N) (group_fwd_mask N)
    (skb_alloc N) (blog_get N) (nf_hooks N) (nf_queue N) (wifi_iso_listen_forward_cb N)
    (wifi_iso_listen_local_cb N) (dns_hijack_hook N) (br_should_route_hook N) (wl_pktc_req_hook N) (ktime_get N)
    (igmp_rate_limit N) (igmp_proxy N) (igmp_snooping N) (mld_proxy N) (mld_snooping N) (mcpd_pid N)
    (snoop_primary_pid N) (mcpdControlsIgmpAdmission N) (mcpdControlsMldAdmission N)
    (mcpd_alloc N) (mc_alloc N) (rep_alloc N) (mc_atomic N) (rep_atomic N) (br_mcast_blog_process N)
    (br_mcast_blog_process_mld N) (br_igmp_mc_fdb_salt N) (br_mld_mc_fdb_salt N).

(** The port [pt] of the device [d] becomes the first of the list. *)
Definition plug_net (d : nat) (N : net) : net :=
  set_topology
    (alter (fun x => set_rx_handler_data (Some O) (set_priv_flags (Z.lor (priv_flags x) IFF_BRIDGE_PORT) x)) d
      (map (fun x => set_rx_handler_data (S <$> rx_handler_data x) x) (devs N)))
    (fun k => match k with O => d | S k => port_dev N k end)
    (fun k => match k with O => false | S k => BR_HAIRPIN_MODE N k end) N.
Definition plug_world (pt : net_bridge_port) (w : world) : world :=
  let w := renumber S w in
  set_dirty (false :: dirty w)
    (set_tbl (set_stp_of (upd (fun b => set_ports (pt :: ports b) b) (stp_of (tbl w))) (tbl w)) w).

(** The port [p] of [n] ports goes; its own number becomes that of no port. *)
Definition below (p n k : nat) : nat := if Nat.ltb k p then k else if Nat.eqb k p then pred n else pred k.
Definition above (p k : nat) : nat := if Nat.ltb k p then k else S k.

Definition unplug_net (p n : nat) (N : net) : net :=
  set_topology
    (alter (fun x => set_rx_handler_data None (set_priv_flags (Z.land (priv_flags x) (Z.lnot IFF_BRIDGE_PORT)) x))
      (port_dev N p) (map (fun x => set_rx_handler_data (below p n <$> rx_handler_data x) x) (devs N)))
    (fun k => port_dev N (above p k)) (fun k => BR_HAIRPIN_MODE N (above p k)) N.
Definition unplug_world (p n : nat) (w : world) : world :=
  let w := renumber (below p n) w in
  set_dirty (delete p (dirty w))
    (set_tbl (set_stp_of (upd (fun b => set_ports (delete p (ports b)) b) (stp_of (tbl w))) (tbl w)) w).

(** ** A new port *)

(** Whether the name of a device begins with [prefix]. *)
Definition named_like (name prefix : list Z) : res bool :=
  c ← strncmp (name ++ prefix) 0 (zlen name) (zlen prefix); Ok (c =? 0).

Definition LEC : list Z := [108; 101; 99].
Definition PLIP : list Z := [112; 108; 105; 112].

Definition cost_by_name (name : list Z) : res Z :=
  lec ← named_like name LEC;
  if lec : bool then Ok 7
  else
    plip ← named_like name PLIP;
    Ok (if plip : bool then 2500 else 100).

Definition port_cost (di : dev_info) : res Z :=
  match ethtool di with
  | Some speed =>
      if speed =? 10000 then Ok 2
      else if speed =? 1000 then Ok 4
      else if speed =? 100 then Ok 19
      else if speed =? 10 then Ok 100
      else cost_by_name (di_name di)
  | None => cost_by_name (di_name di)
  end.

(** A bitmap is the list of its bits. *)
Definition set_bit (i : Z) (m : list bool) : res (list bool) := of_option OutOfBounds (zupd m i true).

Fixpoint set_bits (l : list Z) (m : list bool) : res (list bool) :=
  match l with
  | [] => Ok m
  | i :: l => m ← set_bit i m; set_bits l m
  end.

(** The first clear bit, or the number of bits. *)
Fixpoint find_first_zero_bit (m : list bool) : Z :=
  match m with
  | [] => 0
  | b :: m => if b then 1 + find_first_zero_bit m else 0
  end.

Definition find_portno (alloc : bool) (b : net_bridge) : res Z :=
  if negb alloc then Ok (- ENOMEM)
  else
    inuse ← set_bit 0 (replicate (Z.to_nat BR_MAX_PORTS) false);
    inuse ← set_bits (map port_no (ports b)) inuse;
    let index := find_first_zero_bit inuse in
    Ok (if BR_MAX_PORTS <=? index then - EXFULL else index).

Definition zero_bid : bid := mk_bid [0; 0] [0; 0; 0; 0; 0; 0].

(** [kzalloc] and the assignments of [new_nbp]. *)
Definition fresh_port (b : net_bridge) (index cost : Z) (di : dev_info) : net_bridge_port :=
  set_state DISABLED
    (br_init_port b
      (mk_port index (Z.shiftr 0x8000 BR_PORT_BITS) 0 DISABLED cost false false zero_bid 0 zero_bid 0 0
        None None None false false (di_addr di) (di_up di) (di_carrier di))).

Definition new_nbp (ae : add_env) (di : dev_info) (d : nat) (s : ifs) : res ((Z + net_bridge_port) * ifs) :=
  index ← find_portno (kcalloc ae) (br (stp_now s));
  if index <? 0 then Ok (inl index, s)
  else if negb (kzalloc ae) then Ok (inl (- ENOMEM), s)
  else
    cost ← port_cost di;
    let pt := fresh_port (br (stp_now s)) index cost di in
    let s := upd_links d (add_holds 1) (add_live 1 s) in
    s ← on_world (fun _ => modify (fun w =>
          set_tbl (set_stp_of (emit (NotifyPort index DISABLED) (stp_of (tbl w))) (tbl w)) w)) s;
    Ok (inr pt, s).

(** ** The bridge device *)

Definition br_min_mtu (N : net) (b : net_bridge) : res Z :=
  match ports b with
  | [] => Ok ETH_DATA_LEN
  | _ =>
      foldl (fun m p => m ← m; x ← dev_at N (port_dev N p);
        Ok (if (m =? 0) || (mtu x <? u32 m) then s32 (mtu x) else m)) (Ok 0) (seq 0 (length (ports b)))
  end.

(** [dev_set_mtu] for the bridge, with [br_change_mtu]. *)
Definition br_change_mtu (new : Z) (s : ifs) : res (Z * ifs) :=
  let N := if_net s in
  least ← br_min_mtu N (br (stp_now s));
  if (new <? 68) || (least <? new) then Ok (- EINVAL, s)
  else Ok (0, set_if_net (set_topology (alter (set_mtu new) (br_dev N) (devs N)) (port_dev N) (BR_HAIRPIN_MODE N) N) s).

Definition dev_set_mtu (new : Z) (s : ifs) : res (Z * ifs) :=
  x ← dev_at (if_net s) (br_dev (if_net s));
  if u32 new =? mtu x then Ok (0, s)
  else if new <? 0 then Ok (- EINVAL, s)
  else br_change_mtu new s.

Definition adjust_mtu (s : ifs) : res ifs :=
  least ← br_min_mtu (if_net s) (br (stp_now s));
  '(_, s) ← dev_set_mtu least s; Ok s.

(** ** br_add_if *)

(** The labels at its end; [p] is whether the port is still to be freed. *)
Definition put_back (p : bool) (d : nat) (s : ifs) : ifs :=
  let s := upd_links d (add_holds (-1)) s in if p then add_live (-1) s else s.
Definition err1 (p : bool) (d : nat) (s : ifs) : ifs := put_back p d (upd_links d (add_promiscuity (-1)) s).
Definition err2 (d : nat) (s : ifs) : ifs := err1 false d (add_live (-1) (upd_links d (set_kobj false) s)).
Definition err3 (d : nat) (s : ifs) : ifs := err2 d (upd_links d (set_sysfs_link false) s).
Definition err4 (d : nat) (s : ifs) : ifs := err3 d (upd_links d (set_master false) s).

(** The part of [br_add_if] after everything that can fail. *)
Definition join (di : dev_info) (d : nat) (pt : net_bridge_port) (s : ifs) : res ifs :=
  let s := set_if_world (plug_world pt (if_world s)) (set_if_net (plug_net d (if_net s)) s) in
  s ← on_world (fun N => spanning N RecalculateBridgeId) s;
  s ← (if di_up di && di_carrier di && dev_up (br (stp_now s))
       then on_world (fun N => spanning N (EnablePort 0)) s else Ok s);
  s ← adjust_mtu s;
  on_world (fun N => database N (InsertLocal (Some O) (di_addr di))) s.

Definition br_add_if (ae : add_env) (di : dev_info) (d : nat) (s : ifs) : res (Z * ifs) :=
  x ← dev_at (if_net s) d;
  if di_loopback di || negb (di_type di =? ARPHRD_ETHER) || negb (di_addr_len di =? ETH_ALEN) ||
     negb (is_valid_ether_addr (di_addr di))
  then Ok (- EINVAL, s)
  else if di_is_bridge di then Ok (- ELOOP, s)
  else if nonzero (Z.land (priv_flags x) IFF_BRIDGE_PORT) then Ok (- EBUSY, s)
  else if nonzero (Z.land (priv_flags x) IFF_DONT_BRIDGE) then Ok (- EOPNOTSUPP, s)
  else
    '(p, s) ← new_nbp ae di d s;
    match p with
    | inl err => Ok (err, s)
    | inr pt =>
        if nonzero (promisc_err ae) then Ok (promisc_err ae, put_back true d s)
        else
        let s := upd_links d (add_promiscuity 1) s in
        if nonzero (kobject_err ae) then Ok (kobject_err ae, err1 true d s)
        else
        let s := upd_links d (set_kobj true) s in
        if nonzero (sysfs_err ae) then Ok (sysfs_err ae, err2 d s)
        else
        let s := upd_links d (set_sysfs_link true) s in
        if nonzero (master_err ae) then Ok (master_err ae, err3 d s)
        else
        let s := upd_links d (set_master true) s in
        if nonzero (rx_handler_err ae) then Ok (rx_handler_err ae, err4 d s)
        else s ← join di d pt s; Ok (0, s)
    end.

(** ** br_del_if *)

(** [del_nbp], and [destroy_nbp] when no processor uses the port any more. *)
Definition del_nbp (p : nat) (s : ifs) : res ifs :=
  let d := port_dev (if_net s) p in
  let s := upd_links d (fun l => add_promiscuity (-1) (set_sysfs_link false l)) s in
  s ← on_world (fun N => spanning N (DisablePort p)) s;
  s ← on_world (fun N => database N (DeleteByPort p 1)) s;
  s ← on_world (fun N => br_mcast_handle_netdevice_events N d NETDEV_CHANGE) s;
  let n := length (ports (br (stp_now s))) in
  let s := set_if_world (unplug_world p n (if_world s)) (set_if_net (unplug_net p n (if_net s)) s) in
  Ok (add_live (-1) (upd_links d (fun l => add_holds (-1) (set_kobj false (set_master false l))) s)).

Definition br_port_get_rtnl (N : net) (d : nat) : res (option nat) := br_port_get_rcu N d.

Definition br_del_if (d : nat) (s : ifs) : res (Z * ifs) :=
  p ← br_port_get_rtnl (if_net s) d;
  match p with
  | None => Ok (- EINVAL, s)
  | Some p =>
      s ← del_nbp p s;
      s ← on_world (fun N => spanning N RecalculateBridgeId) s;
      Ok (0, s)
  end.

(** The ports of [br_dev_delete], from the first on. *)
Fixpoint del_all (n : nat) (s : ifs) : res ifs :=
  match n with
  | O => Ok s
  | S n => s ← del_nbp 0 s; del_all n s
  end.

Definition br_dev_delete (s : ifs) : res ifs :=
  s ← del_all (length (ports (br (stp_now s)))) s;
  s ← on_world (fun N => br_igmp_mc_fdb_cleanup N;; modify (set_igmp_timer None)) s;
  s ← on_world (fun N => br_mld_mc_fdb_cleanup N;; modify (set_mld_timer None)) s;
  on_world (fun _ => modify (fun w =>
    set_tbl (set_stp_of (upd (set_gc_timer None) (stp_of (tbl w))) (tbl w)) w)) s.

(** ** Changes of a device *)

(** The members the port reads of its device, which has changed. *)
Definition set_p_dev (up carrier : bool) (p : net_bridge_port) : net_bridge_port :=
  mk_port (port_no p) (priority p) (port_id p) (state p) (path_cost p)
    (topology_change_ack p) (config_pending p) (designated_root p) (designated_cost p) (designated_bridge p)
    (designated_port p) (designated_age p) (forward_delay_timer p) (hold_timer p)
    (message_age_timer p) (is_dedicated_stp_port p) (is_bpdu_blocked p) (p_dev_addr p) up carrier.

Definition upd_stp (f : stp -> stp) (s : ifs) : ifs :=
  set_if_world (set_tbl (set_stp_of (f (stp_now s)) (tbl (if_world s))) (if_world s)) s.

Definition br_port_carrier_check (di : dev_info) (p : nat) (s : ifs) : res ifs :=
  s ← (if di_up di && di_carrier di
       then cost ← port_cost di; Ok (upd_stp (upd_port p (set_path_cost cost)) s) else Ok s);
  if negb (dev_up (br (stp_now s))) then Ok s
  else
    pt ← port_at (stp_now s) p;
    if di_up di && di_carrier di
    then if is_disabled pt then on_world (fun N => spanning N (EnablePort p)) s else Ok s
    else if negb (is_disabled pt) then on_world (fun N => spanning N (DisablePort p)) s else Ok s.

Definition notifier_from_errno (err : Z) : Z :=
  if nonzero err then Z.lor NOTIFY_STOP_MASK (NOTIFY_OK - err) else NOTIFY_OK.

(** [br_device_event] for a device [d] that is as [di] says; [rename_err] is
    the result of [br_sysfs_renameif].  [netdev_update_features] is left out. *)
Definition br_device_event (event : Z) (rename_err : Z) (di : dev_info) (d : nat) (s : ifs) : res (Z * ifs) :=
  s ← on_world (fun N => br_mcast_handle_netdevice_events N d event) s;
  p ← br_port_get_rtnl (if_net s) d;
  match p with
  | None => Ok (NOTIFY_DONE, s)
  | Some p =>
      let s := upd_stp (upd_port p (set_p_dev (di_up di) (di_carrier di))) s in
      if event =? NETDEV_CHANGEMTU then s ← adjust_mtu s; Ok (NOTIFY_DONE, s)
      else if event =? NETDEV_CHANGEADDR then
        '(_, t) ← netdev_changeaddr (fenv (if_net s)) (tbl (if_world s)) p (di_addr di);
        Ok (NOTIFY_DONE, set_if_world (set_tbl t (if_world s)) s)
      else if event =? NETDEV_CHANGE then s ← br_port_carrier_check di p s; Ok (NOTIFY_DONE, s)
      else if event =? NETDEV_DOWN then
        s ← (if dev_up (br (stp_now s)) then on_world (fun N => spanning N (DisablePort p)) s else Ok s);
        Ok (NOTIFY_DONE, s)
      else if event =? NETDEV_UP then
        s ← (if di_carrier di && dev_up (br (stp_now s))
             then on_world (fun N => spanning N (EnablePort p)) s else Ok s);
        Ok (NOTIFY_DONE, s)
      else if event =? NETDEV_UNREGISTER then '(_, s) ← br_del_if d s; Ok (NOTIFY_DONE, s)
      else if event =? NETDEV_CHANGENAME then
        Ok (if nonzero rename_err then notifier_from_errno rename_err else NOTIFY_DONE, s)
      else if event =? NETDEV_PRE_TYPE_CHANGE then Ok (NOTIFY_BAD, s)
      else Ok (NOTIFY_DONE, s)
  end.

(** ** Features of the bridge device *)

Definition NETIF_F (bit : Z) : Z := Z.shiftl 1 bit.
Definition NETIF_F_GEN_CSUM : Z := NETIF_F 3.
Definition NETIF_F_ALL_CSUM : Z := Z.lor (Z.lor NETIF_F_GEN_CSUM (NETIF_F 1)) (NETIF_F 4).
Definition NETIF_F_VLAN_CHALLENGED : Z := NETIF_F 10.
Definition NETIF_F_EXTSTATS : Z := NETIF_F 34.
(** [NETIF_F_GSO_SOFTWARE] (TSO, UFO, TSO_ECN, TSO6), GSO_ROBUST, SG, HIGHDMA,
    FRAGLIST and VLAN_CHALLENGED. *)
Definition NETIF_F_ONE_FOR_ALL : Z :=
  foldr (fun b m => Z.lor (NETIF_F b) m) 0 [16; 17; 19; 20; 18; 0; 5; 6; 10].
(** NOCACHE_COPY and FSO. *)
Definition NETIF_F_ALL_FOR_ALL : Z := Z.lor (NETIF_F 30) (NETIF_F 21).

Definition netdev_increment_features (all one mask : Z) : Z :=
  let mask := if nonzero (Z.land mask NETIF_F_GEN_CSUM) then Z.lor mask NETIF_F_ALL_CSUM else mask in
  let mask := Z.lor mask NETIF_F_VLAN_CHALLENGED in
  let all := Z.lor all (Z.land (Z.land one (Z.lor NETIF_F_ONE_FOR_ALL NETIF_F_ALL_CSUM)) mask) in
  let all := Z.land all (Z.lor one (Z.lnot NETIF_F_ALL_FOR_ALL)) in
  if nonzero (Z.land all NETIF_F_GEN_CSUM)
  then Z.land all (Z.lnot (Z.land NETIF_F_ALL_CSUM (Z.lnot NETIF_F_GEN_CSUM))) else all.

(** [ports] are the features of the devices of the ports. *)
Definition br_features_recompute (ports : list Z) (features : Z) : Z :=
  match ports with
  | [] => features
  | _ =>
      Z.lor (foldl (fun f one => netdev_increment_features f one features)
               (Z.land features (Z.lnot NETIF_F_ONE_FOR_ALL)) ports) NETIF_F_EXTSTATS
  end.
