(* ===== verification/BrIfProps.v ===== *)
(** Adding and removing ports keeps the bridge well-formed: the number a new
    port gets, the features of the bridge device, the spanning tree with a
    port more or less, the references to ports in the tables, and what the
    bridge holds of its devices. *)

From S2P Require Import Prelude Str Stp StpSelect StpState StpSafety Fdb FdbTable FdbRefine FdbProps.
From S2P Require Import Bridge BrExample BrWp BrForward BrForwardProps Groups GroupsProps GroupsServe BrIgmp BrMld BrMcast.
From S2P Require Import BrIgmpProps BrGroups BrMldProps BrMldExpiry BrInput BrInputProps BrRun BrIf.

(** ** Port numbers *)

Lemma set_bits_spec l m : Forall (fun i => 0 <= i < zlen m) l ->
  exists m', set_bits l m = Ok m' /\ zlen m' = zlen m /\
    forall i, znth m' i = Some true <-> i ∈ l \/ znth m i = Some true.
Proof.
  revert m. induction l as [|i l IH]; intros m Hl.
  - exists m. split; [done|]. split; [done|]. intros i. rewrite elem_of_nil. tauto.
  - apply Forall_cons_iff in Hl as [Hi Hl]. cbn [set_bits]. unfold set_bit.
    rewrite zupd_Some by done. cbn [of_option mbind res_bind].
    assert (Hz : zlen (<[Z.to_nat i:=true]> m) = zlen m) by (unfold zlen; by rewrite length_insert).
    destruct (IH (<[Z.to_nat i:=true]> m)) as (m' & E & Hlen & Hm); [by rewrite Hz|].
    exists m'. split; [done|]. split; [lia|]. intros j. rewrite Hm, elem_of_cons, znth_insert by done.
    destruct (Z.eqb_spec j i); [subst; tauto|]. intuition congruence.
Qed.

Lemma find_first_zero_bit_spec m : let n := find_first_zero_bit m in
  0 <= n <= zlen m /\ (forall i, 0 <= i < n -> znth m i = Some true) /\ (n < zlen m -> znth m n = Some false).
Proof.
  induction m as [|b m (Hr & Ht & Hf)]; cbn [find_first_zero_bit].
  { split; [done|]. split; [intros i Hi; lia|]. intros H. change (0 < 0) in H. lia. }
  rewrite zlen_cons. destruct b.
  - split; [lia|].
    assert (Hc : forall i, 0 < i -> znth (true :: m) i = znth m (i - 1)).
    { intros i Hi. rewrite !znth_lookup by lia. replace (Z.to_nat i) with (S (Z.to_nat (i - 1))) by lia. done. }
    split.
    + intros i Hi. destruct (Z.eq_dec i 0) as [->|]; [done|]. rewrite Hc by lia. apply Ht. lia.
    + intros H. rewrite Hc by lia. replace (1 + _ - 1) with (find_first_zero_bit m) by lia. apply Hf. lia.
  - pose proof (zlen_nonneg m). split; [lia|]. split; [intros i Hi; lia|done].
Qed.

(** The number of a new port is the least that is not in use. *)
Lemma find_portno_spec b : Forall (fun p => 1 <= port_no p < BR_MAX_PORTS) (ports b) ->
  let nos := map port_no (ports b) in
  exists r, find_portno true b = Ok r /\
    ((1 <= r < BR_MAX_PORTS /\ (r ∉ nos) /\ forall k, 1 <= k < r -> k ∈ nos) \/
     (r = - EXFULL /\ forall k, 1 <= k < BR_MAX_PORTS -> k ∈ nos)).
Proof.
  intros Hp nos. unfold find_portno, set_bit. cbn [negb]. set (z := replicate _ false).
  assert (Hz : zlen z = BR_MAX_PORTS) by by vm_compute.
  assert (Hb : 0 < BR_MAX_PORTS) by by vm_compute.
  rewrite zupd_Some by lia. cbn [of_option mbind res_bind]. set (m := <[_ := _]> z).
  assert (Hm : zlen m = BR_MAX_PORTS) by (unfold m, zlen; by rewrite length_insert).
  destruct (set_bits_spec nos m) as (m' & E & Hl & Hbits).
  { apply Forall_forall. intros i Hi. apply list_elem_of_In, in_map_iff in Hi as (q & <- & Hq).
    apply list_elem_of_In in Hq. rewrite Hm. pose proof (proj1 (Forall_forall _ _) Hp q Hq). cbn in *. lia. }
  fold nos. rewrite E. cbn [mbind res_bind].
  destruct (find_first_zero_bit_spec m') as (Hr & Ht & Hf). set (n := find_first_zero_bit m') in *.
  assert (Hin : forall k, 1 <= k < n -> k ∈ nos).
  { intros k Hk. destruct (proj1 (Hbits k) (Ht k ltac:(lia))) as [H|H]; [done|]. exfalso. revert H. unfold m.
    change O with (Z.to_nat 0). rewrite znth_insert by lia. destruct (Z.eqb_spec k 0); [lia|].
    unfold z. rewrite znth_lookup by lia. intros [? _]%lookup_replicate. done. }
  rewrite Hl, Hm in *. eexists. split; [done|]. destruct (Z.leb_spec BR_MAX_PORTS n); [right|left].
  - split; [done|]. intros k Hk. apply Hin. lia.
  - specialize (Hf ltac:(lia)). split; [|split; [|done]].
    + split; [|lia]. destruct (Z.eq_dec n 0) as [E0|]; [|lia]. exfalso. rewrite E0 in Hf.
      assert (znth m' 0 = Some true); [|congruence]. apply Hbits. right. unfold m. change O with (Z.to_nat 0). by rewrite znth_insert by lia.
    + intros Hno. assert (znth m' n = Some true); [|congruence]. apply Hbits. by left.
Qed.

(** With [n] ports it is at most [n + 1]. *)
Lemma least_bound (nos : list Z) r : (forall k, 1 <= k < r -> k ∈ nos) -> r <= zlen nos + 1.
Proof.
  intros H. assert (Hs : seqZ 1 (r - 1) ⊆+ nos).
  { apply NoDup_submseteq; [apply NoDup_seqZ|]. intros k Hk%elem_of_seqZ. apply H. lia. }
  apply submseteq_length in Hs. rewrite length_seqZ in Hs. unfold zlen. lia.
Qed.

(** ** Features *)

Lemma netif_bit n i : 0 <= n -> Z.testbit (NETIF_F n) i = (n =? i).
Proof. intros Hn. unfold NETIF_F. by rewrite Z.shiftl_1_l, Z.pow2_bits_eqb. Qed.

Lemma has_feature x n : 0 <= n -> nonzero (Z.land x (Z.shiftl 1 n)) = Z.testbit x n.
Proof.
  intros Hn. change (Z.shiftl 1 n) with (NETIF_F n). unfold nonzero. destruct (Z.testbit x n) eqn:E.
  - apply negb_true_iff, Z.eqb_neq. intros H. apply (f_equal (fun y => Z.testbit y n)) in H.
    by rewrite Z.land_spec, E, netif_bit, Z.eqb_refl, Z.bits_0 in H.
  - apply negb_false_iff, Z.eqb_eq, Z.bits_inj'. intros i _. rewrite Z.land_spec, netif_bit, Z.bits_0 by done.
    destruct (Z.eqb_spec n i) as [<-|]; [by rewrite E|apply andb_false_r].
Qed.

Abbreviation one_for_all := (Z.testbit NETIF_F_ONE_FOR_ALL).
Abbreviation all_for_all := (Z.testbit NETIF_F_ALL_FOR_ALL).
Abbreviation a_csum := (Z.testbit NETIF_F_ALL_CSUM).

(** The three groups are apart. *)
Lemma feature_groups i : one_for_all i && all_for_all i = false /\ one_for_all i && a_csum i = false /\ all_for_all i && a_csum i = false.
Proof. rewrite <- !Z.land_spec. split; [|split]; apply Z.bits_0. Qed.

Lemma increment_bit all one mask i : 0 <= i ->
  Z.testbit (netdev_increment_features all one mask) i =
  (Z.testbit all i || Z.testbit one i && (one_for_all i || a_csum i) &&
    (Z.testbit mask i || Z.testbit mask 3 && a_csum i || (10 =? i))) && (Z.testbit one i || negb (all_for_all i)) &&
  negb ((Z.testbit all 3 || Z.testbit one 3 && Z.testbit mask 3) && a_csum i && negb (3 =? i)).
Proof.
  intros Hi. unfold netdev_increment_features.
  change NETIF_F_GEN_CSUM with (Z.shiftl 1 3). rewrite !has_feature by done.
  set (mask' := Z.lor (if Z.testbit mask 3 then _ else _) NETIF_F_VLAN_CHALLENGED).
  assert (Hm : forall j, Z.testbit mask' j = Z.testbit mask j || Z.testbit mask 3 && a_csum j || (10 =? j)).
  { intros j. unfold mask', NETIF_F_VLAN_CHALLENGED. rewrite Z.lor_spec, netif_bit by done.
    destruct (Z.testbit mask 3); [rewrite Z.lor_spec; done|]. by rewrite orb_false_r. }
  set (all' := Z.land _ (Z.lor one _)).
  assert (Ha : forall j, 0 <= j -> Z.testbit all' j = (Z.testbit all j || Z.testbit one j && (one_for_all j || a_csum j) &&
    (Z.testbit mask j || Z.testbit mask 3 && a_csum j || (10 =? j))) && (Z.testbit one j || negb (all_for_all j))).
  { intros j Hj. unfold all'. by rewrite Z.land_spec, !Z.lor_spec, !Z.land_spec, Z.lor_spec, Hm, Z.lnot_spec by done. }
  rewrite (Ha 3) by done. change (one_for_all 3) with false. change (a_csum 3) with true. change (all_for_all 3) with false.
  change (10 =? 3) with false. cbn [orb negb]. rewrite !andb_true_r, !orb_true_r, !orb_false_r, andb_true_r.
  rewrite orb_diag.
  destruct (Z.testbit all 3 || Z.testbit one 3 && Z.testbit mask 3); cbn [andb negb].
  - rewrite Z.land_spec, Z.lnot_spec, Z.land_spec, Z.lnot_spec, Ha by done. change (Z.shiftl 1 3) with (NETIF_F 3). by rewrite netif_bit.
  - by rewrite Ha, andb_true_r.
Qed.

(** A feature of the bridge device. *)
Definition feature (ports : list Z) (features i : Z) : bool :=
  if one_for_all i then existsb (fun one => Z.testbit one i) ports && (Z.testbit features i || (10 =? i))
  else if all_for_all i then Z.testbit features i && forallb (fun one => Z.testbit one i) ports
  else if a_csum i then Z.testbit features i && ((3 =? i) || negb (Z.testbit features 3))
  else Z.testbit features i || (34 =? i).

(** What the loop has at bit [i] after the ports [l], from [a] on. *)
Definition fed (l : list Z) (a features i : Z) : bool :=
  if one_for_all i then Z.testbit a i || existsb (fun one => Z.testbit one i) l && (Z.testbit features i || (10 =? i))
  else if all_for_all i then Z.testbit a i && forallb (fun one => Z.testbit one i) l
  else if a_csum i then
    match l with [] => Z.testbit a i | _ => Z.testbit features i && ((3 =? i) || negb (Z.testbit features 3)) end
  else Z.testbit a i.

(** Decides a goal about bits by cases. *)
Ltac bits :=
  cbn [existsb forallb orb andb negb];
  repeat match goal with
  | |- context [existsb ?f ?l] => destruct (existsb f l)
  | |- context [forallb ?f ?l] => destruct (forallb f l)
  | |- context [Z.testbit ?x ?i] => destruct (Z.testbit x i)
  | |- context [?x =? ?y] => destruct (x =? y)
  end; done.

(** As far as checksums go, what the loop has is what was asked for. *)
Definition csum_kept (a features : Z) : Prop :=
  Z.testbit a 3 = Z.testbit features 3 /\
  forall i, 0 <= i -> a_csum i = true -> Z.testbit features 3 = false -> Z.testbit a i = Z.testbit features i.

Lemma csum_kept_step a one features : csum_kept a features -> csum_kept (netdev_increment_features a one features) features.
Proof.
  intros [H3 H]. split.
  - rewrite increment_bit, H3 by done. change (one_for_all 3) with false. change (a_csum 3) with true. change (all_for_all 3) with false.
    change (10 =? 3) with false. change (3 =? 3) with true. by destruct (Z.testbit features 3), (Z.testbit one 3).
  - intros i Hi Hc Hf. destruct (feature_groups i) as (_ & H1 & H2). rewrite Hc, andb_true_r in H1, H2.
    rewrite increment_bit, (H i), H3, Hf, Hc, H1, H2 by done.
    assert ((10 =? i) = false) as ->. { apply Z.eqb_neq. by intros <-. }
    bits.
Qed.

Lemma foldl_features l features i : 0 <= i -> forall a, csum_kept a features ->
  Z.testbit (foldl (fun f one => netdev_increment_features f one features) a l) i = fed l a features i.
Proof.
  intros Hi. destruct (feature_groups i) as (H1 & H2 & H3). induction l as [|one l IH]; intros a Ha; cbn [foldl].
  - unfold fed. cbn. by rewrite orb_false_r, andb_true_r; repeat case_match.
  - rewrite IH by (by apply csum_kept_step). unfold fed. rewrite increment_bit by done. destruct Ha as [Ha Hc].
    destruct (one_for_all i).
    + cbn [andb] in H1, H2. rewrite H1, H2. bits.
    + destruct (all_for_all i).
      * cbn [andb] in H3. rewrite H3. bits.
      * destruct (a_csum i) eqn:Ec.
        -- assert ((10 =? i) = false) as -> by (apply Z.eqb_neq; by intros <-). destruct l; [|done]. rewrite Ha.
           destruct (Z.eqb_spec 3 i) as [<-|]; [rewrite Ha; by destruct (Z.testbit features 3), (Z.testbit one 3)|].
           destruct (Z.testbit features 3) eqn:E3; cbn [orb andb negb]; [by rewrite !andb_false_r|].
           rewrite Hc by done. bits.
        -- bits.
Qed.

(** C24: the features of a bridge device with ports, bit by bit: one that is
    enough for one port to have (scatter/gather, segmentation, high memory) is
    there when some port has it and it was asked for; the flag of a device that
    cannot do VLANs (bit 10) is there when some port has it, whether it was asked
    for or not, although the comment of [netdev_increment_features] says that
    nothing is enabled that is off in the mask; one that every port must have
    (copying without the cache, FCoE segmentation) is there when it was asked for
    and all have it; checksumming is what was asked for, the general kind instead
    of the special ones; extended statistics (bit 34) are always there; the
    others are as asked for. *)
Theorem bridge_features_exact ports features i : ports <> [] -> 0 <= i ->
  Z.testbit (br_features_recompute ports features) i = feature ports features i.
Proof.
  intros Hp Hi. unfold br_features_recompute. destruct ports as [|q l]; [done|].
  rewrite Z.lor_spec, foldl_features; [|done|].
  - unfold NETIF_F_EXTSTATS, fed, feature. rewrite netif_bit, Z.land_spec, Z.lnot_spec by done.
    destruct (one_for_all i) eqn:E1; cbn [negb].
    + assert ((34 =? i) = false) as -> by (apply Z.eqb_neq; by intros <-). by rewrite andb_false_r, orb_false_r.
    + rewrite andb_true_r. destruct (all_for_all i) eqn:E2; [|destruct (a_csum i) eqn:E3; [|done]];
        (assert ((34 =? i) = false) as -> by (apply Z.eqb_neq; by intros <-)); by rewrite orb_false_r.
  - split; [by rewrite Z.land_spec, Z.lnot_spec, andb_true_r|]. intros j Hj Hc _. rewrite Z.land_spec, Z.lnot_spec by done.
    destruct (feature_groups j) as (_ & H & _). rewrite Hc, andb_true_r in H. rewrite H. apply andb_true_r.
Qed.

(** Two ports: both can gather, one copies without the cache. *)
Lemma bridge_features_exact_witness :
  ([0x21; 0x40000001] <> ([] : list Z) /\ 0 <= 30 /\
   Z.testbit (br_features_recompute [0x21; 0x40000001] 0x40000009) 30 = feature [0x21; 0x40000001] 0x40000009 30) /\
  br_features_recompute [0x21; 0x40000001] 0x40000009 = 0x400000009.
Proof.
  split; [|by vm_compute]. split; [done|]. split; [done|].
  apply (bridge_features_exact [0x21; 0x40000001] 0x40000009 30); done.
Defined.

(** ** The spanning tree *)

(** Sending leaves the root port alone. *)
Abbreviation same_root s s' := (root_port (br s') = root_port (br s)).

Lemma transmit_same_root p s s' : br_transmit_config p s = Ok s' -> same_root s s'.
Proof.
  unfold br_transmit_config. intros E. binds E pt E1. case_bool_decide; [by injection E as <-|].
  binds E age E2. destruct (_ <? _); injection E as <-; [|done]. cbn. unfold br_send_config_bpdu. by repeat case_match.
Qed.

Lemma generation_same_root s s' : br_config_bpdu_generation s = Ok s' -> same_root s s'.
Proof.
  unfold br_config_bpdu_generation. generalize (port_list s). intros l. revert s.
  induction l as [|p l IH]; intros s E; cbn [for_ports] in E; [by injection E as <-|]. binds E s1 E1.
  rewrite (IH _ E). binds E1 pt E2. destruct (_ && _); [by eapply transmit_same_root|by injection E1 as <-].
Qed.

Lemma detection_same_root s s' : br_topology_change_detection s = Ok s' -> same_root s s'.
Proof.
  unfold br_topology_change_detection. intros E. destruct (negb _); [by injection E as <-|]. binds E s1 E1. injection E as <-.
  destruct (br_is_root_bridge _); [by injection E1 as <-|]. destruct (negb _); [|by injection E1 as <-].
  binds E1 s2 E2. injection E1 as <-. unfold br_transmit_tcn in E2. binds E2 q E3. injection E2 as <-.
  cbn. unfold br_send_tcn_bpdu. by repeat case_match.
Qed.

Lemma become_root_same_root s s' : br_become_root_bridge s = Ok s' -> same_root s s'.
Proof.
  unfold br_become_root_bridge. intros E. binds E s1 E1. apply detection_same_root in E1. cbn in E1. rewrite <- E1.
  destruct (dev_up _); [|by injection E as <-]. binds E s2 E2. injection E as <-. apply generation_same_root in E2. exact E2.
Qed.

Section Ports.
Context (nos : list Z).

(** The root port is one that is not disabled. *)
Lemma reconfigure_root was s s' : wf0 nos s -> reconfigure was s = Ok s' ->
  root_port (br s') = 0 \/
  exists q, q ∈ ports (br s) /\ is_disabled q = false /\ port_no q = root_port (br s').
Proof.
  intros Hs E. unfold reconfigure in E. binds E s1 E1. binds E s2 E2.
  destruct (configuration_update_safe nos s Hs) as (s1' & E1' & Hs1). rewrite E1' in E1. injection E1 as ->.
  destruct (br_port_state_selection_spec s1 (wf_root_ok nos s1 Hs1)) as (s2' & E2' & Hf & _). rewrite E2' in E2. injection E2 as ->.
  destruct (frame_fields _ _ Hf) as (_ & _ & _ & _ & Hr2 & _).
  assert (Hr : same_root s1 s').
  { rewrite <- Hr2. destruct (_ && _); [by apply become_root_same_root|by injection E as <-]. }
  rewrite Hr. unfold configuration_update in E1'. binds E1' b Eb. injection E1' as <-.
  destruct (br_configuration_update_spec (br s) (proj1 Hs)) as (b1 & b' & _ & Eb' & _ & _ & _ & Hsel & _).
  rewrite Eb' in Eb. injection Eb as ->. cbn [br set_br].
  destruct Hsel as [(H0 & _)|(q & Hq & Hc & Hrp & _)]; [by left|right]. exists q. split; [by apply list_elem_of_In|].
  split; [|done]. unfold candidate in Hc. by destruct (is_disabled q).
Qed.

(** A port that has been disabled is not the root port. *)
Lemma disabled_not_root p no s s' : wf nos s -> nos !! p = Some no -> br_stp_disable_port p s = Ok s' -> root_port (br s') <> no.
Proof.
  intros Hs Hno E. assert (Hp : (p < length nos)%nat) by (by eapply lookup_lt_Some).
  pose proof Hs as [[Hb Hn] _]. destruct (lookup_lt_is_Some_2 (ports (br s)) p) as [pt Hpt].
  { by rewrite <- (length_map port_no), Hn. }
  assert (Hpn : port_no pt = no).
  { rewrite <- Hn in Hno. rewrite list_lookup_fmap, Hpt in Hno. by injection Hno. }
  unfold br_stp_disable_port in E. unfold port_at in E. rewrite Hpt in E. cbn [of_option mbind res_bind] in E. binds E s1 E1.
  unfold notify_port in E1. binds E1 pq Enp. injection E1 as <-.
  match type of E with reconfigure _ ?x = _ => set (s2 := x) in E end.
  set (g := fun q => set_hold_timer None (set_forward_delay_timer None (set_message_age_timer None
    (set_config_pending false (set_topology_change_ack false (set_state DISABLED (br_become_designated_port (br s) q))))))).
  assert (Hports : ports (br s2) = <[p := g pt]> (ports (br s))).
  { unfold s2. cbn. rewrite (StpState.alter_insert _ _ _ _ Hpt).
    rewrite (StpState.alter_insert _ _ _ _ (list_lookup_insert_eq _ _ _ (lookup_lt_Some _ _ _ Hpt))). apply list_insert_insert_eq. }
  assert (H2 : wf0 nos s2).
  { unfold s2. apply (wf0_upd_port nos p). { keeps_port. } cbn.
    pose proof (become_designated_keeps (br s) Hb) as [Hk _].
    apply (wf0_upd_port nos p (fun q => set_config_pending false (set_topology_change_ack false (set_state DISABLED
      (br_become_designated_port (br s) q)))) s); [|apply Hs].
    split; [|done]. intros x Hx. specialize (Hk x Hx). constructor; cbn; apply Hk. }
  destruct (reconfigure_root _ _ _ H2 E) as [H0|(x & Hx & Hen & Hrt)].
  - rewrite H0, <- Hpn. assert (Hk := po_no pt (bo_port _ pt Hb ltac:(apply list_elem_of_In; by eapply list_elem_of_lookup_2))). lia.
  - intros Hbad. rewrite Hports in Hx. apply list_elem_of_lookup in Hx as (j & Hj). destruct (decide (j = p)) as [->|Hne].
    + rewrite list_lookup_insert_eq in Hj by (by eapply lookup_lt_Some). injection Hj as <-. done.
    + rewrite list_lookup_insert_ne in Hj by done. apply Hne. eapply (NoDup_lookup nos); [rewrite <- Hn; apply Hb| |exact Hno].
      rewrite <- Hn, list_lookup_fmap, Hj. cbn. congruence.
Qed.

(** *** A port less *)

Lemma wf_without p no s : wf nos s -> nos !! p = Some no -> root_port (br s) <> no ->
  wf (delete p nos) (upd (fun b => set_ports (delete p (ports b)) b) s).
Proof.
  intros [[[B1 B2 B3 B4 B5] Hn] Hr] Hno Hne.
  assert (Hm : port_no <$> delete p (ports (br s)) = delete p nos) by (rewrite <- Hn; apply list_fmap_delete).
  split; [split; [split; cbn; try done|exact Hm]|].
  - by apply Forall_delete.
  - change (NoDup (port_no <$> delete p (ports (br s)))). rewrite Hm, <- Hn. by eapply sublist_NoDup; [exact B5|apply sublist_delete].
  - destruct Hr as [Hr|[Hin Hv]]; [by left|right]. cbn. split; [|done].
    change (In (root_port (br s)) (port_no <$> delete p (ports (br s)))). rewrite Hm. apply list_elem_of_In.
    rewrite Hn in Hin. apply list_elem_of_In, list_elem_of_lookup in Hin as (j & Hj). apply list_elem_of_lookup.
    destruct (lt_eq_lt_dec j p) as [[Hlt| ->]|Hgt]; [exists j; by rewrite list_lookup_delete_lt|congruence|].
    exists (pred j). rewrite list_lookup_delete_ge by lia. by replace (S (pred j)) with j by lia.
Qed.

(** *** A port more *)

Lemma set_state_ok st q : port_ok q -> port_ok (set_state st q).
Proof. intros Hq. constructor; cbn; apply Hq. Qed.

Lemma fresh_port_ok b index cost di : StpSelect.bridge_ok b -> 1 <= index < 1024 -> is_u32 cost ->
  length (di_addr di) = 6%nat -> bytes (di_addr di) -> port_ok (fresh_port b index cost di).
Proof.
  intros Hb Hi Hc Hl Ha. unfold fresh_port. destruct (init_port_keeps b Hb) as [Hk _].
  assert (Hz : bid_ok zero_bid) by (split; [done|]; split; [done|]; split; by repeat constructor).
  match goal with |- port_ok (set_state _ (br_init_port b ?x)) => assert (Hx : port_ok x) end.
  { assert (Hu : is_u16 0) by by vm_compute. assert (Hw : is_u32 0) by by vm_compute.
    apply Build_port_ok; [exact Hi|exact Hu|exact Hz|exact Hz|exact Hu|exact Hw|exact Hc|exact (conj Hl Ha)]. }
  by apply set_state_ok, Hk.
Qed.

Lemma wf_with pt s : wf nos s -> port_ok pt -> port_no pt ∉ nos ->
  wf (port_no pt :: nos) (upd (fun b => set_ports (pt :: ports b) b) s).
Proof.
  intros [[[B1 B2 B3 B4 B5] Hn] Hr] Hp Hno. split; [split; [split; cbn; try done|cbn; by rewrite Hn]|].
  - by apply Forall_cons_2.
  - rewrite Hn. apply NoDup_cons. split; [done|by rewrite <- Hn].
  - destruct Hr as [Hr|[Hin Hv]]; [by left|right]. cbn. split; [by right|done].
Qed.

Lemma strncmp_loop_in n m cs ct : 0 <= cs -> 0 <= ct -> cs + Z.of_nat n <= zlen m -> ct + Z.of_nat n <= zlen m ->
  exists c, strncmp_loop n m cs ct = Ok c.
Proof.
  revert cs ct. induction n as [|n IH]; intros cs ct H1 H2 H3 H4; cbn [strncmp_loop]; [by eexists|].
  destruct (rd_Ok m cs) as (x & -> & _); [lia|]. destruct (rd_Ok m ct) as (y & -> & _); [lia|]. cbn [mbind res_bind].
  repeat case_match; try (by eexists). apply IH; lia.
Qed.

Lemma named_like_ok name pre : exists b, named_like name pre = Ok b.
Proof.
  unfold named_like, strncmp. pose proof (zlen_nonneg name). pose proof (zlen_nonneg pre).
  destruct (strncmp_loop_in (Z.to_nat (zlen pre)) (name ++ pre) 0 (zlen name)) as (c & ->);
    try (rewrite ?zlen_app; lia). by eexists.
Qed.

Lemma port_cost_ok di : exists c, port_cost di = Ok c /\ is_u32 c.
Proof.
  assert (Hname : exists c, cost_by_name (di_name di) = Ok c /\ is_u32 c).
  { unfold cost_by_name. destruct (named_like_ok (di_name di) LEC) as ([] & ->); cbn [mbind res_bind]; [by eexists|].
    destruct (named_like_ok (di_name di) PLIP) as ([] & ->); by eexists. }
  unfold port_cost. destruct (ethtool di) as [v|]; [|done].
  do 4 (destruct (_ =? _); [by eexists|]). done.
Qed.
End Ports.

(** ** Renumbering *)

Section Renumbered.
Context {E A K : Type} {GT : GroupTable E A K} {GK : GroupKey K}.
Context (N N' : net) (n n' : nat) (f : nat -> nat) (P : nat -> Prop) (g : E -> E) (rk : K -> K).
Context (g_key : forall e, mc_key (g e) = rk (mc_key e)) (g_root : forall e, mc_root (g e) = mc_root e)
  (g_reps : forall e, mc_reps (g e) = mc_reps e).
Context (rk_hash : forall k, key_hash N' (rk k) = key_hash N k) (rk_snooped : forall k, key_snooped (rk k) = key_snooped k)
  (rk_mode : forall k, key_mode (rk k) = key_mode k) (rk_dst : forall k, key_dst (rk k) = f (key_dst k)).
Context (rk_inj : forall k k', P (key_dst k) -> P (key_dst k') -> rk k = rk k' -> k = k').
Context (f_lt : forall d, (d < n)%nat -> P d -> (f d < n')%nat).

Lemma entry_renumbered h e : entry_wf N n h e -> P (key_dst (mc_key e)) -> entry_wf N' n' h (g e).
Proof.
  intros [H1 H2 H3 H4 H5 H6] HP. split; rewrite ?g_key, ?g_reps, ?rk_hash, ?rk_snooped, ?rk_mode, ?rk_dst; try done.
  by apply f_lt.
Qed.

Lemma groups_renumbered (tb : list (list E)) : groups_wf N n tb -> Forall (Forall (fun e => P (key_dst (mc_key e)))) tb ->
  groups_wf N' n' (map (map g) tb).
Proof.
  intros [Hl Hc] HP. split; [by rewrite length_map|]. intros h l' Hh. change (map (map g) tb) with (map g <$> tb) in Hh.
  rewrite list_lookup_fmap in Hh. destruct (tb !! h) as [l|] eqn:El; [|done]. injection Hh as <-.
  destruct (Hc h l El) as [Hw Hn]. pose proof (Forall_lookup_1 _ _ _ _ HP El) as HPl. split.
  - apply Forall_fmap. apply Forall_forall. intros e He. apply entry_renumbered.
    + by apply (proj1 (Forall_forall _ _) Hw).
    + by apply (proj1 (Forall_forall _ _) HPl).
  - assert (Hm : map mc_key (List.filter mc_root (map g l)) = rk <$> map mc_key (List.filter mc_root l)).
    { clear -g_key g_root. induction l as [|e l IH]; [done|]. cbn. rewrite g_root. destruct (mc_root e); [|done].
      cbn. by rewrite g_key, IH. }
    rewrite Hm. apply NoDup_fmap_2_strong; [|done]. intros k k' Hk Hk'. apply rk_inj.
    all: match goal with Hx : ?x ∈ map mc_key _ |- P (key_dst ?x) => apply list_elem_of_In, in_map_iff in Hx as (e & <- & [Hi _]%filter_In) end;
      apply (proj1 (Forall_forall _ _) HPl); by apply list_elem_of_In.
Qed.
End Renumbered.

(** The forwarding database. *)
Lemma entries_renumber f t : entries (renumber_fdb f t) = map (fun e => set_dst (f <$> dst e) e) (entries t).
Proof. unfold entries. cbn. symmetry. apply concat_map. Qed.

Lemma table_renumber env f t : table_ok env t -> table_ok env (renumber_fdb f t).
Proof.
  intros [H1 H2 H3 H4 H5 H6].
  assert (Ha : map f_addr (entries (renumber_fdb f t)) = map f_addr (entries t))
    by (rewrite entries_renumber, map_map; by apply map_ext).
  split; try done.
  - cbn. by rewrite length_map.
  - intros i l x Hi Hx. change (hash (renumber_fdb f t)) with (map (fun e => set_dst (f <$> dst e) e) <$> hash t) in Hi.
    rewrite list_lookup_fmap in Hi. destruct (hash t !! i) as [k|] eqn:Ek; [|done]. injection Hi as <-.
    apply list_elem_of_In, in_map_iff in Hx as (e & <- & He). apply (H2 i k e Ek). by apply list_elem_of_In.
  - by rewrite Ha.
  - change (num_fdb_entries t = zlen (entries (renumber_fdb f t))). rewrite entries_renumber. unfold zlen in *.
    by rewrite length_map.
  - rewrite entries_renumber. apply Forall_fmap. eapply Forall_impl; [exact H6|]. by intros [].
Qed.

Lemma ported_entries env nos t : table_ok env t -> ported nos t <-> Forall (has_port nos) (entries t).
Proof.
  intros Ht. unfold ported, map_Forall. rewrite Forall_forall. split.
  - intros H f Hf. apply (H (f_addr f)). unfold abs. by rewrite fmap_of_Some by apply Ht.
  - intros H a f Hf. apply H. unfold abs in Hf. rewrite fmap_of_Some in Hf by apply Ht. apply Hf.
Qed.

(** The references to ports are among those that [P] holds of. *)
Record refers (P : nat -> Prop) (w : world) : Prop := mk_refers {
  rf_fdb : Forall (fun e => forall p, dst e = Some p -> P p) (entries (tbl w));
  rf_groups : Forall (Forall (fun e => P (mc_dst e))) (mc_hash w);
  rf_groups6 : Forall (Forall (fun e => P (mld_dst e))) (mld_mc_hash w)
}.

Definition relabelled (f : nat -> nat) (ds : list bool) (st : stp) (w : world) : world :=
  let w := renumber f w in set_dirty ds (set_tbl (set_stp_of st (tbl w)) w).

Section Relabel.
Context (nos nos' : list Z) (N N' : net) (f : nat -> nat) (P : nat -> Prop) (Hak : akin N N').
Context (f_lt : forall d, (d < length nos)%nat -> P d -> (f d < length nos')%nat).
Context (f_inj : forall d d', P d -> P d' -> f d = f d' -> d = d').

Lemma bridge_relabelled ds st w : bridge_ok nos N w -> refers P w -> wf nos' st -> length ds = length nos' ->
  bridge_ok nos' N' (relabelled f ds st w).
Proof.
  intros [[[Ht Hs Hp] Hd Hh Hgr] Hg Hg6 [Hn Hk]] [R1 R2 R3] Hst Hds. destruct Hak as [A1 A2 A3 A4 A5].
  assert (G4 : groups_wf N' (length nos') (mc_hash (relabelled f ds st w))).
  { refine (groups_renumbered N N' (length nos) _ f P (fun e => set_mc_dst (f (mc_dst e)) e) (fun k => (fst k, f (snd k)))
      _ _ _ _ _ _ _ _ f_lt (mc_hash w) Hg R2); try done.
    - intros k. cbn [key_hash igmp_key]. unfold br_igmp_mc_fdb_hash. by rewrite A2.
    - intros [k d] [k' d'] H1 H2 [= -> H]. by rewrite (f_inj d d'). }
  assert (G6 : groups_wf N' (length nos') (mld_mc_hash (relabelled f ds st w))).
  { refine (groups_renumbered N N' (length nos) _ f P (fun e => set_mld_dst (f (mld_dst e)) e) (fun k => (fst k, f (snd k)))
      _ _ _ _ _ _ _ _ f_lt (mld_mc_hash w) Hg6 R3); try done.
    - intros k. cbn [key_hash mld_key]. unfold br_mld_mc_fdb_hash. by rewrite A3.
    - intros [k d] [k' d'] H1 H2 [= -> H]. by rewrite (f_inj d d'). }
  split; [split; try done| done | done |].
  - assert (Ht' : table_ok (fenv N') (tbl (relabelled f ds st w))).
    { apply set_stp_table. apply (table_ok_salt (fenv N)); [done|]. by apply table_renumber. }
    split; [done|done|]. apply (ported_entries (fenv N')); [done|]. change (entries (tbl (relabelled f ds st w)))
      with (entries (renumber_fdb f (tbl w))). rewrite entries_renumber. apply Forall_fmap.
    apply (ported_entries (fenv N)) in Hp; [|done]. apply Forall_forall. intros e He.
    destruct (proj1 (Forall_forall _ _) Hp e He) as (p & Ep & Hlt). exists (f p). cbn. rewrite Ep. split; [done|].
    apply f_lt; [done|]. exact (proj1 (Forall_forall _ _) R1 e He p Ep).
  - by apply (both_groups_ok nos' N').
  - split; [done|]. intros i Hi. destruct (Hk i Hi) as (s & Es & [? ? ? ? ?]). exists s. split; [done|].
    split; [assumption..|by rewrite A4|assumption|by rewrite A5].
Qed.
End Relabel.

(** ** Steps of the parts, once more *)

Definition flagged (x : net_device) : bool := nonzero (Z.land (priv_flags x) IFF_BRIDGE_PORT).

(** Ports and devices refer to each other. *)
Record attached (N : net) (n : nat) : Prop := mk_attached {
  at_port : forall p, (p < n)%nat -> exists x, devs N !! port_dev N p = Some x /\ rx_handler_data x = Some p;
  at_rx : forall d x q, devs N !! d = Some x -> rx_handler_data x = Some q -> port_dev N q = d /\ flagged x = true;
  at_br : forall x, devs N !! br_dev N = Some x -> rx_handler_data x = None
}.

Definition is_port (N : net) (d : nat) : bool :=
  match devs N !! d with Some x => bool_decide (is_Some (rx_handler_data x)) | None => false end.

Section Parts.
Context (nos : list Z) (small : Forall (fun no => no < 256) nos).
Context (N : net) (HN : net_ok N (length nos)).
Abbreviation nports := (length nos).
Implicit Types (w : world) (d : nat).

Lemma removal_tbl d w : bridge_ok nos N w ->
  wp (br_igmp_process_device_removal N d) (fun _ w' => tbl w' = tbl w /\ mc_hash w' = mc_hash w) w.
Proof.
  intros Hw. pose proof (waits_delayed N w (bk_waits _ _ _ Hw)) as Hd. unfold br_igmp_process_device_removal.
  assert (Hfree : forall P b, (forall i t w1, tbl w1 = tbl w -> heap w1 !! i = heap w !! i ->
    i ∈ waiting (igmp_delayed_skb w) -> P i t w1 = Ok (b i t, w1)) ->
    wp (free_delayed P) (fun _ w' => tbl w' = tbl w /\ mc_hash w' = mc_hash w) w).
  { intros P b HP. eapply wp_mono; [by apply (free_delayed_spec P b)|cbv beta].
    by intros _ w' [(w1 & (l & n & st & _ & _ & ->) & ->) _]. }
  destruct (Nat.eqb d (br_dev N)); [by apply (Hfree _ (fun _ _ => true))|].
  apply (Hfree _ (fun i _ => match heap w !! i with Some s => Nat.eqb (dev s) d | None => false end)).
  intros i t w1 _ Hh Hi. destruct Hd as [_ Hd]. destruct (Hd i Hi) as (s & E & _).
  unfold skb_at, mbind, M_bind. by rewrite Hh, E.
Qed.

(** No entry of the tables is on the device [d]. *)
Definition clear_of d w : Prop :=
  Forall (Forall (fun e => on_device N d e = false)) (mc_hash w) /\
  Forall (Forall (fun e => on_device N d e = false)) (mld_mc_hash w).

(** A change of a device leaves the ports and the database as they are; on one
    that has no other stacked on it, nothing of it is left in the groups. *)
Lemma netdev_clears d w : bridge_ok nos N w -> (d < length (devs N))%nat ->
  wp (br_mcast_handle_netdevice_events N d NETDEV_CHANGE)
    (fun _ w' => tbl w' = tbl w /\ (netdev_path_is_leaf N d = Ok true -> clear_of d w')) w.
Proof.
  intros Hw Hd. unfold br_mcast_handle_netdevice_events. change ((_ || _) || _) with true. cbv iota.
  assert (H4 : forall w, bridge_ok nos N w -> wp (br_igmp_mc_fdb_update_bydev N d 1) (fun _ w' =>
    (bridge_ok nos N w' /\ tbl w' = tbl w) /\ (netdev_path_is_leaf N d = Ok true ->
      Forall (Forall (fun e => on_device N d e = false)) (mc_hash w'))) w).
  { clear Hw w. intros w Hw. pose proof (data_nports N nos w (bk_data _ _ _ Hw)) as Hn.
    assert (Hs : wp (br_igmp_mc_fdb_update_bydev N d 1) (fun _ w' => bridge_ok nos N w' /\ tbl w' = tbl w) w).
    { eapply wp_mono; [apply (update_dev_spec N nports); [apply Hw|done|done]|cbv beta]. intros _ w' [H _].
      split; [by apply (bridge_served nos N w)|apply (served_same N nports w w' H)]. }
    destruct (netdev_path_is_leaf N d) as [[]|] eqn:El; try (eapply wp_mono; [exact Hs|done]).
    apply wp_and; [exact Hs|]. eapply wp_mono; [by apply (flush_dev_spec N nports); [apply Hw|..]|done]. }
  assert (H6 : forall w, bridge_ok nos N w -> wp (br_mld_mc_fdb_update_bydev N d 1) (fun _ w' =>
    (tbl w' = tbl w /\ mc_hash w' = mc_hash w) /\ (netdev_path_is_leaf N d = Ok true ->
      Forall (Forall (fun e => on_device N d e = false)) (mld_mc_hash w'))) w).
  { clear Hw w. intros w Hw. destruct (bridge_mld nos small N w Hw) as [Hg Hnb].
    assert (Hs : wp (br_mld_mc_fdb_update_bydev N d 1) (fun _ w' => tbl w' = tbl w /\ mc_hash w' = mc_hash w) w).
    { eapply wp_mono; [by apply (mld_update_dev_spec N nports HN)|cbv beta]. intros _ w' [H _].
      destruct (mld_served_same N nports w w' H) as [_ ->]. done. }
    destruct (netdev_path_is_leaf N d) as [[]|] eqn:El; try (eapply wp_mono; [exact Hs|done]).
    apply wp_and; [exact Hs|]. eapply wp_mono; [by apply (mld_flush_dev_spec N nports HN)|done]. }
  cbn [br_mcast_mc_fdb_update_bydev]. apply wp_bind, wp_bind. eapply wp_mono; [by apply H4|cbv beta].
  intros _ w1 [[Hw1 Ht1] Hc1]. eapply wp_mono; [apply wp_and; [by apply (removal_step nos N)|by apply removal_tbl]|cbv beta].
  intros _ w2 [[Hw2 _] [Ht2 Hm2]]. apply wp_bind. eapply wp_mono; [by apply H6|cbv beta]. intros _ w3 [[Ht3 Hm3] Hc3].
  apply wp_ret. split; [congruence|]. intros Hl. split; [|by apply Hc3]. rewrite Hm3, Hm2. by apply Hc1.
Qed.

(** The removal of what a port has in the database. *)
Lemma database_delete p all w : bridge_ok nos N w ->
  wp (database N (DeleteByPort p all)) (fun _ w' => stp_of (tbl w') = stp_of (tbl w) /\
    (all = 1 -> Forall (fun e => dst e <> Some p) (entries (tbl w')))) w.
Proof.
  intros Hw. pose proof (fk_table _ _ _ (da_fdb _ _ _ (bk_data _ _ _ Hw))) as Ht.
  destruct (wp_elim _ _ _ (database_spec nos N (DeleteByPort p all) w Hw I)) as ([] & w' & E & [Hw' _]).
  eapply wp_Ok; [exact E|]. unfold database, mbind, M_bind, gets, lift, modify in E.
  destruct (fdb_step _ _ _) as [[a t]|] eqn:Es; [|done]. injection E as <-. cbn [fdb_step] in Es.
  apply void_Ok in Es as [-> Es]. destruct (port_flush_refines (fenv N) _ _ _ _ Ht Es) as (Ht' & _ & Hs & _). split; [exact Hs|].
  intros ->. apply Forall_forall. intros e He. cbn in He.
  assert (Hl : abs t !! f_addr e = Some e) by (unfold abs; by rewrite fmap_of_Some by apply Ht').
  by apply (port_removal_unlinks (fenv N) (tbl w) p t Ht Es) in Hl.
Qed.

Lemma database_groups op w (Q : list (list mc_fdb_entry) -> Prop) : bridge_ok nos N w -> op_named nos op -> Q (mc_hash w) ->
  wp (database N op) (fun _ w' => Q (mc_hash w')) w.
Proof.
  intros Hw Hop HQ. destruct (wp_elim _ _ _ (database_spec nos N op w Hw Hop)) as ([] & w' & E & _).
  eapply wp_Ok; [exact E|]. unfold database, mbind, M_bind, gets, lift, modify in E.
  destruct (fdb_step _ _ _) as [[a t]|]; [|done]. by injection E as <-.
Qed.

Lemma carry_out_stp e w : bridge_ok nos N w -> wp (carry_out N e) (fun _ w' => stp_of (tbl w') = stp_of (tbl w)) w.
Proof.
  intros Hw. pose proof (fk_stp _ _ _ (da_fdb _ _ _ (bk_data _ _ _ Hw))) as Hs. unfold carry_out. apply wp_bind, wp_gets.
  destruct e as [ | | |no|no]; try (by apply wp_ret); (destruct (port_index _ no) as [p|] eqn:E; [|by apply wp_ret]).
  - eapply wp_mono; [by apply database_delete|cbv beta]. by intros _ w' [H _].
  - apply (port_index_lt nos _ _ _ Hs) in E.
    eapply wp_mono; [apply netdev_clears; [done|by apply (nk_ports _ _ HN)]|cbv beta]. by intros _ w' [-> _].
Qed.

(** A change of the device [d] takes no membership of another device, and none
    at all when a device is stacked on [d]. *)
Lemma netdev_spares d k x w : bridge_ok nos N w -> (d < length (devs N))%nat ->
  (netdev_path_is_leaf N d = Ok false \/ (port_dev N (key_dst k) <> d /\ key_from k <> d)) -> member (mc_hash w) k x ->
  wp (br_mcast_handle_netdevice_events N d NETDEV_CHANGE) (fun _ w' => member (mc_hash w') k x) w.
Proof.
  intros Hw Hd Hk Hm. pose proof (data_nports N nos w (bk_data _ _ _ Hw)) as Hn.
  unfold br_mcast_handle_netdevice_events. change ((_ || _) || _) with true. cbv iota.
  cbn [br_mcast_mc_fdb_update_bydev]. apply wp_bind, wp_bind.
  eapply wp_mono; [apply (update_dev_spec N nports); [apply Hw|done|done]|cbv beta]. intros _ w1 [H1 Hu].
  assert (Hw1 : bridge_ok nos N w1) by (by apply (bridge_served nos N w)). assert (Hm1 : member (mc_hash w1) k x).
  { apply Hu. destruct Hm as (h & l & El & e & He & Ek & Hx). exists h, l. split; [done|]. exists e. split; [done|]. split; [|done].
    destruct Hk as [->|[Hp Hf]]; [done|]. rewrite <- Ek in Hp, Hf. unfold keeps, on_device.
    by rewrite (proj2 (Nat.eqb_neq _ _) Hp), (proj2 (Nat.eqb_neq _ _) Hf), orb_true_r. }
  eapply wp_mono; [apply wp_and; [by apply (removal_step nos N)|by apply removal_tbl]|cbv beta]. intros _ w2 [[Hw2 _] [_ Hm2]].
  destruct (bridge_mld nos small N w2 Hw2) as [Hg Hnb]. apply wp_bind.
  eapply wp_mono; [by apply (mld_update_dev_spec N nports HN)|cbv beta]. intros _ w3 [H3 _].
  destruct (mld_served_same N nports w2 w3 H3) as [_ ->]. apply wp_ret. cbn. rewrite Hm2. exact Hm1.
Qed.

(** A membership of the port [p], on whose device another is stacked, that no
    other port has to do with. *)
Definition stacked (p : nat) (k : Z * Z * Z * Z * nat * nat) : Prop :=
  netdev_path_is_leaf N (port_dev N p) = Ok false /\ key_dst k = p /\
  forall q, (q < nports)%nat -> port_dev N q = key_from k -> q = p.

Lemma carry_out_spares e p k x w : bridge_ok nos N w -> attached N nports -> (p < nports)%nat -> stacked p k -> member (mc_hash w) k x ->
  wp (carry_out N e) (fun _ w' => member (mc_hash w') k x) w.
Proof.
  intros Hw Ha Hp (Hl & Hk & Hf) Hm. pose proof (fk_stp _ _ _ (da_fdb _ _ _ (bk_data _ _ _ Hw))) as Hs.
  unfold carry_out. apply wp_bind, wp_gets.
  destruct e as [ | | |no|no]; try (by apply wp_ret); (destruct (port_index _ no) as [q|] eqn:E; [|by apply wp_ret]).
  - by apply (database_groups _ _ (fun g => member g k x)).
  - apply (port_index_lt nos _ _ _ Hs) in E. apply netdev_spares; [done|by apply (nk_ports _ _ HN)| |done].
    destruct (decide (q = p)) as [->|Hq]; [by left|right]. rewrite Hk. split.
    + intros E'. apply Hq. destruct (at_port _ _ Ha p Hp) as (y & Ey & Hy), (at_port _ _ Ha q E) as (z & Ez & Hz). congruence.
    + intros E'. apply Hq. by apply Hf.
Qed.

Lemma disable_spares p k x w : bridge_ok nos N w -> attached N nports -> (p < nports)%nat -> stacked p k -> member (mc_hash w) k x ->
  wp (spanning N (DisablePort p)) (fun _ w' => bridge_ok nos N w' /\ member (mc_hash w') k x) w.
Proof.
  intros Hw Ha Hlt Hst Hm. pose proof (da_fdb _ _ _ (bk_data _ _ _ Hw)) as [Ht Hs Hp].
  destruct (disable_port_safe nos p (stp_of (tbl w)) Hs Hlt) as (s' & E & Hs').
  unfold spanning. apply wp_bind, wp_gets, wp_bind. eapply wp_lift; [exact E|]. apply wp_bind, wp_modify.
  apply (wp_for_each (fun w' => bridge_ok nos N w' /\ member (mc_hash w') k x)).
  - intros e w2 _ [H2 Hm2]. eapply wp_mono; [apply wp_and; [by apply (carry_out_spec nos small N HN)|by apply (carry_out_spares e p k x)]|cbv beta].
    intros _ w3 [[H3 _] Hm3]. done.
  - split; [|exact Hm]. apply bridge_tbl; [|done]. split; [by apply set_stp_table|done..].
Qed.

(** A port that is taken down is not the root port afterwards. *)
Lemma disable_spec p no w : bridge_ok nos N w -> nos !! p = Some no ->
  wp (spanning N (DisablePort p)) (fun _ w' => bridge_ok nos N w' /\ root_port (br (stp_of (tbl w'))) <> no) w.
Proof.
  intros Hw Hno. pose proof (da_fdb _ _ _ (bk_data _ _ _ Hw)) as [Ht Hs Hp].
  destruct (disable_port_safe nos p (stp_of (tbl w)) Hs (lookup_lt_Some _ _ _ Hno)) as (s' & E & Hs').
  pose proof (disabled_not_root nos p no _ s' Hs Hno E) as Hr.
  unfold spanning. apply wp_bind, wp_gets, wp_bind. eapply wp_lift; [exact E|]. apply wp_bind, wp_modify.
  apply (wp_for_each (fun w' => bridge_ok nos N w' /\ root_port (br (stp_of (tbl w'))) <> no)).
  - intros e w2 _ [H2 Hr2]. eapply wp_mono; [apply wp_and; [by apply (carry_out_spec nos small N HN)|by apply carry_out_stp]|cbv beta].
    intros _ w3 [[H3 _] ->]. done.
  - split; [|exact Hr]. apply bridge_tbl; [|done]. split; [by apply set_stp_table|done..].
Qed.
End Parts.

(** ** Devices *)

Lemma flag_set x : flagged (set_priv_flags (Z.lor (priv_flags x) IFF_BRIDGE_PORT) x) = true.
Proof.
  unfold flagged. change IFF_BRIDGE_PORT with (Z.shiftl 1 14). rewrite has_feature by done. cbn [priv_flags set_priv_flags].
  rewrite Z.lor_spec. apply orb_true_r.
Qed.

(** Distinct ports have distinct devices. *)
Lemma attached_inj N n p q : attached N n -> (p < n)%nat -> (q < n)%nat -> port_dev N p = port_dev N q -> p = q.
Proof.
  intros Ha Hp Hq E. destruct (at_port _ _ Ha p Hp) as (x & Ex & Hx). destruct (at_port _ _ Ha q Hq) as (y & Ey & Hy).
  rewrite E, Ey in Ex. congruence.
Qed.

Section Topology.
Context (N : net) (n : nat) (HN : net_ok N n) (Ha : attached N n).

Lemma topology_akin ds pd hp : length ds = length (devs N) -> akin N (set_topology ds pd hp N).
Proof. intros Hl. by split. Qed.

Lemma topology_ok ds pd hp n' : length ds = length (devs N) ->
  (forall e y, ds !! e = Some y -> exists x, devs N !! e = Some x /\ next_dev y = next_dev x) ->
  (forall e y q, ds !! e = Some y -> rx_handler_data y = Some q -> (q < n')%nat) ->
  (forall p, (p < n')%nat -> (pd p < length (devs N))%nat) -> net_ok (set_topology ds pd hp N) n'.
Proof.
  intros Hl Hnext Hrx Hpd. destruct HN as [H1 H2 H3 H4 H5]. split; [done| |intros p; cbn; rewrite Hl; by apply Hpd|exact Hrx|cbn; by rewrite Hl].
  intros e y k Hy Hk. destruct (Hnext e y Hy) as (x & Hx & E). rewrite E in Hk. by apply (H2 e x k).
Qed.

(** *** A port more *)

Lemma plug_devs d e : devs (plug_net d N) !! e =
  (fun x => if Nat.eqb e d
    then set_rx_handler_data (Some O) (set_priv_flags (Z.lor (priv_flags x) IFF_BRIDGE_PORT) x)
    else set_rx_handler_data (S <$> rx_handler_data x) x) <$> devs N !! e.
Proof.
  unfold plug_net. cbn [devs set_topology]. change (map ?f ?l) with (f <$> l).
  destruct (Nat.eqb_spec e d) as [->|He]; [rewrite list_lookup_alter_eq|rewrite list_lookup_alter_ne by done];
    rewrite list_lookup_fmap; by destruct (devs N !! _).
Qed.

Lemma plug_length d : length (devs (plug_net d N)) = length (devs N).
Proof. cbn. by rewrite length_alter, length_map. Qed.

Lemma plug_ok d : (d < length (devs N))%nat -> net_ok (plug_net d N) (S n).
Proof.
  intros Hd. apply topology_ok; [apply plug_length| | |].
  - intros e y Hy. change (devs (plug_net d N) !! e = Some y) in Hy. rewrite plug_devs in Hy.
    destruct (devs N !! e) as [x|] eqn:Ex; [|done]. injection Hy as <-. exists x. by destruct (Nat.eqb e d).
  - intros e y q Hy Hq. change (devs (plug_net d N) !! e = Some y) in Hy. rewrite plug_devs in Hy.
    destruct (devs N !! e) as [x|] eqn:Ex; [|done]. injection Hy as <-. destruct (Nat.eqb e d); cbn in Hq; [injection Hq; lia|].
    destruct (rx_handler_data x) as [k|] eqn:Ek; [|done]. injection Hq as <-. pose proof (nk_rx _ _ HN e x k Ex Ek). lia.
  - intros [|p] Hp; [done|]. apply (nk_ports _ _ HN). lia.
Qed.

Lemma plug_attached d x : devs N !! d = Some x -> rx_handler_data x = None -> d <> br_dev N -> attached (plug_net d N) (S n).
Proof.
  intros Hx Hrx Hbr. split.
  - intros [|p] Hp; cbn [port_dev plug_net set_topology].
    + rewrite plug_devs, Hx. cbn. rewrite Nat.eqb_refl. by eexists.
    + destruct (at_port _ _ Ha p) as (y & Ey & Hy); [lia|]. rewrite plug_devs, Ey. cbn.
      destruct (Nat.eqb_spec (port_dev N p) d) as [E|]; [congruence|]. eexists. split; [done|]. cbn. by rewrite Hy.
  - intros e y q Hy Hq. rewrite plug_devs in Hy. destruct (devs N !! e) as [z|] eqn:Ez; [|done]. injection Hy as <-.
    destruct (Nat.eqb_spec e d) as [->|]; cbn in Hq.
    + injection Hq as <-. split; [done|]. apply (flag_set z).
    + destruct (rx_handler_data z) as [k|] eqn:Ek; [|done]. injection Hq as <-. apply (at_rx _ _ Ha e z k Ez Ek).
  - intros y Hy. rewrite plug_devs in Hy. change (br_dev (plug_net d N)) with (br_dev N) in Hy.
    destruct (devs N !! br_dev N) as [z|] eqn:Ez; [|done]. injection Hy as <-.
    rewrite (proj2 (Nat.eqb_neq _ _)) by congruence. cbn. by rewrite (at_br _ _ Ha z Ez).
Qed.

Lemma plug_is_port d e : (d < length (devs N))%nat -> is_port (plug_net d N) e = Nat.eqb e d || is_port N e.
Proof.
  intros Hd. unfold is_port. rewrite plug_devs. destruct (devs N !! e) as [x|] eqn:Ex; cbn.
  - destruct (Nat.eqb e d); cbn; [done|]. by destruct (rx_handler_data x).
  - destruct (Nat.eqb_spec e d) as [->|]; [|done]. by apply lookup_ge_None in Ex; lia.
Qed.

(** *** A port less *)

Lemma below_above p k : (k < pred n)%nat -> below p n (above p k) = k.
Proof.
  intros Hk. unfold below, above. destruct (Nat.ltb_spec k p) as [H|H].
  - by rewrite (proj2 (Nat.ltb_lt _ _) H).
  - rewrite (proj2 (Nat.ltb_ge _ _)), (proj2 (Nat.eqb_neq _ _)) by lia. done.
Qed.

Lemma above_below p k : k <> p -> above p (below p n k) = k.
Proof.
  intros Hk. unfold below, above. destruct (Nat.ltb_spec k p) as [H|H].
  - by rewrite (proj2 (Nat.ltb_lt _ _) H).
  - rewrite (proj2 (Nat.eqb_neq _ _)) by done. rewrite (proj2 (Nat.ltb_ge _ _)) by lia. lia.
Qed.

Lemma below_lt p k : (p < n)%nat -> (k < n)%nat -> k <> p -> (below p n k < pred n)%nat.
Proof.
  intros Hp Hk Hne. unfold below. destruct (Nat.ltb_spec k p); [lia|]. rewrite (proj2 (Nat.eqb_neq _ _)) by done. lia.
Qed.

Lemma above_ok p k : (p < n)%nat -> (k < pred n)%nat -> (above p k < n)%nat /\ above p k <> p.
Proof. intros Hp Hk. unfold above. destruct (Nat.ltb_spec k p); lia. Qed.

Lemma unplug_devs p e : devs (unplug_net p n N) !! e =
  (fun x => if Nat.eqb e (port_dev N p)
    then set_rx_handler_data None (set_priv_flags (Z.land (priv_flags x) (Z.lnot IFF_BRIDGE_PORT)) x)
    else set_rx_handler_data (below p n <$> rx_handler_data x) x) <$> devs N !! e.
Proof.
  unfold unplug_net. cbn [devs set_topology]. change (map ?f ?l) with (f <$> l).
  destruct (Nat.eqb_spec e (port_dev N p)) as [->|He]; [rewrite list_lookup_alter_eq|rewrite list_lookup_alter_ne by done];
    rewrite list_lookup_fmap; by destruct (devs N !! _).
Qed.

Lemma unplug_length p : length (devs (unplug_net p n N)) = length (devs N).
Proof. cbn. by rewrite length_alter, length_map. Qed.

(** What the devices of the other ports refer to. *)
Lemma unplug_rx p e y q : devs (unplug_net p n N) !! e = Some y -> rx_handler_data y = Some q ->
  exists x k, devs N !! e = Some x /\ rx_handler_data x = Some k /\ e <> port_dev N p /\ k <> p /\ (k < n)%nat /\ q = below p n k /\
    priv_flags y = priv_flags x.
Proof.
  intros Hy Hq. rewrite unplug_devs in Hy. destruct (devs N !! e) as [x|] eqn:Ex; [|done]. injection Hy as <-.
  destruct (Nat.eqb_spec e (port_dev N p)) as [|He]; [done|]. cbn in Hq. destruct (rx_handler_data x) as [k|] eqn:Ek; [|done].
  injection Hq as <-. destruct (at_rx _ _ Ha e x k Ex Ek) as [Hd _]. exists x, k. repeat split; try done; [congruence|].
  by apply (nk_rx _ _ HN e x).
Qed.

Lemma unplug_ok p : (p < n)%nat -> net_ok (unplug_net p n N) (pred n).
Proof.
  intros Hp. apply topology_ok; [apply unplug_length| | |].
  - intros e y Hy. change (devs (unplug_net p n N) !! e = Some y) in Hy. rewrite unplug_devs in Hy.
    destruct (devs N !! e) as [x|] eqn:Ex; [|done]. injection Hy as <-. exists x. by destruct (Nat.eqb e _).
  - intros e y q Hy Hq. destruct (unplug_rx p e y q Hy Hq) as (x & k & _ & _ & _ & Hne & Hk & -> & _). by apply below_lt.
  - intros k Hk. apply (nk_ports _ _ HN). by apply above_ok.
Qed.

Lemma unplug_attached p : (p < n)%nat -> attached (unplug_net p n N) (pred n).
Proof.
  intros Hp. split.
  - intros k Hk. destruct (above_ok p k Hp Hk) as [Hlt Hne]. cbn [port_dev unplug_net set_topology].
    destruct (at_port _ _ Ha (above p k) Hlt) as (y & Ey & Hy). rewrite unplug_devs, Ey. cbn.
    rewrite (proj2 (Nat.eqb_neq _ _)). 2: { intros E. by apply Hne, (attached_inj N n). }
    eexists. split; [done|]. cbn. rewrite Hy. cbn. by rewrite below_above.
  - intros e y q Hy Hq. destruct (unplug_rx p e y q Hy Hq) as (x & k & Ex & Ek & _ & Hne & _ & -> & Hf).
    destruct (at_rx _ _ Ha e x k Ex Ek) as [Hd Hfl]. cbn [port_dev unplug_net set_topology]. rewrite above_below by done.
    split; [done|]. unfold flagged. by rewrite Hf.
  - intros y Hy. destruct (rx_handler_data y) as [q|] eqn:Erx; [|done]. exfalso.
    destruct (unplug_rx p _ y q Hy Erx) as (x & k & Ex & Ek & _). by rewrite (at_br _ _ Ha x Ex) in Ek.
Qed.

Lemma unplug_is_port p e : (p < n)%nat -> is_port (unplug_net p n N) e = negb (Nat.eqb e (port_dev N p)) && is_port N e.
Proof.
  intros Hp. unfold is_port. rewrite unplug_devs. destruct (devs N !! e) as [x|] eqn:Ex; cbn; [|by rewrite andb_false_r].
  destruct (Nat.eqb e _); [done|]. cbn. by destruct (rx_handler_data x).
Qed.
End Topology.
