(* ===== verification/Mcpd.v ===== *)
(** The netlink interface of the multicast daemon: net/bridge/br_netlink_mcpd.c.

    A message is the data of a socket buffer: the header of netlink, that of
    the daemon's protocol, and a structure in the layout of the processor (32
    bits, little endian, [char] unsigned).  The handlers find devices by their
    names and ports by their numbers, and call the group tables.  A structure
    is taken from the message as a whole: a message that ends before it does
    is a fault here, also where the handler would not get to the fields that
    are missing. *)

From S2P Require Import Prelude Str Stp Fdb Bridge BrForward Groups BrIgmp BrMld BrMcast.

(** ** Constants *)

Definition IFNAMSIZ : Z := 16.
Definition NLMSG_HDRLEN : Z := 16.
Definition MCPD_HDRLEN : Z := 4.
Definition MCPD_MAX_IFS : nat := 10.

Definition MCPD_MSG_REGISTER : Z := 1.
Definition MCPD_MSG_UNREGISTER : Z := 2.
Definition MCPD_MSG_IGMP_SNOOP_ENTRY : Z := 4.
Definition MCPD_MSG_MLD_SNOOP_ENTRY : Z := 6.
Definition MCPD_MSG_IF_CHANGE : Z := 9.
Definition MCPD_MSG_MC_FDB_CLEANUP : Z := 10.
Definition MCPD_MSG_SET_PRI_QUEUE : Z := 11.
Definition MCPD_MSG_UPLINK_INDICATION : Z := 12.
Definition MCPD_MSG_IGMP_PURGE_REPORTER : Z := 13.
Definition MCPD_MSG_MLD_PURGE_REPORTER : Z := 14.
Definition MCPD_MSG_CONTROLS_ADMISSION : Z := 15.
Definition MCPD_MSG_ADMISSION_RESULT : Z := 16.

Definition MCPD_PROTO_IGMP : Z := 0.
Definition MCPD_PROTO_MLD : Z := 1.
Definition MCPD_PACKET_ADMITTED_NO : Z := 0.
Definition MCPD_PACKET_ADMITTED_YES : Z := 1.
Definition SNOOP_REGISTRATION_TYPE_DEFAULT : Z := 0.
Definition SNOOP_REGISTRATION_TYPE_PRIMARY : Z := 1.
Definition SNOOPING_ADD_ENTRY : Z := 0.
Definition SNOOPING_DEL_ENTRY : Z := 1.
Definition BR_MC_LAN2LAN_STATUS_ENABLE : Z := 1.

(** ** State *)

(** The static variables of the module and of br_mcast.c, what it has sent,
    by type and recipient, and the number of buffers it has asked for. *)
Record mcpd : Type := mk_mcpd {
  pid : Z;
  snoop_registered_pid : list Z;
  igmp_admission : Z;
  mld_admission : Z;
  mcastPriQueue : Z;
  thereIsAnUplink : Z;
  nl_sent : list (Z * Z);
  nl_asked : nat
}.

Definition set_pid (v : Z) (m : mcpd) : mcpd :=
  mk_mcpd v (snoop_registered_pid m) (igmp_admission m) (mld_admission m) (mcastPriQueue m)
    (thereIsAnUplink m) (nl_sent m) (nl_asked m).
Definition set_registered (v : list Z) (m : mcpd) : mcpd :=
  mk_mcpd (pid m) v (igmp_admission m) (mld_admission m) (mcastPriQueue m) (thereIsAnUplink m)
    (nl_sent m) (nl_asked m).
Definition set_igmp_admission (v : Z) (m : mcpd) : mcpd :=
  mk_mcpd (pid m) (snoop_registered_pid m) v (mld_admission m) (mcastPriQueue m) (thereIsAnUplink m)
    (nl_sent m) (nl_asked m).
Definition set_mld_admission (v : Z) (m : mcpd) : mcpd :=
  mk_mcpd (pid m) (snoop_registered_pid m) (igmp_admission m) v (mcastPriQueue m) (thereIsAnUplink m)
    (nl_sent m) (nl_asked m).
Definition br_mcast_set_pri_queue (v : Z) (m : mcpd) : mcpd :=
  mk_mcpd (pid m) (snoop_registered_pid m) (igmp_admission m) (mld_admission m) v (thereIsAnUplink m)
    (nl_sent m) (nl_asked m).
Definition br_mcast_set_uplink_exists (v : Z) (m : mcpd) : mcpd :=
  mk_mcpd (pid m) (snoop_registered_pid m) (igmp_admission m) (mld_admission m) (mcastPriQueue m) v
    (nl_sent m) (nl_asked m).
Definition asked (m : mcpd) : mcpd :=
  mk_mcpd (pid m) (snoop_registered_pid m) (igmp_admission m) (mld_admission m) (mcastPriQueue m)
    (thereIsAnUplink m) (nl_sent m) (S (nl_asked m)).
Definition netlink_unicast (type : Z) (m : mcpd) : mcpd :=
  mk_mcpd (pid m) (snoop_registered_pid m) (igmp_admission m) (mld_admission m) (mcastPriQueue m)
    (thereIsAnUplink m) (nl_sent m ++ [(type, pid m)]) (nl_asked m).

(** What the handlers take from outside: names (of [IFNAMSIZ] bytes) and flags
    of devices, settings of the bridge, the addresses that messages carry as
    numbers, and the outcome of allocations. *)
Record mcpd_env : Type := mk_mcpd_env {
  if_name : nat -> list Z;
  if_up : nat -> bool;
  igmp_lan2lan_mc_enable : Z;
  mld_lan2lan_mc_enable : Z;
  br_addr : Z;
  skb_addr : nat -> Z;
  nl_alloc : nat -> bool
}.

(** ** Structures *)

Definition s32_at (msg : list Z) (o : Z) : res Z := x ← le32_at msg o; Ok (s32 x).
Definition bytes_at (msg : list Z) (o n : Z) : res (list Z) :=
  if (o <? 0) || (zlen msg <? o + n) then Fault OutOfBounds else Ok (slice msg o n).

Definition SIZEOF_WAN_INFO : Z := 20.

(** [t_MCPD_WAN_INFO wan_info[n]] at [o]. *)
Fixpoint wan_info_at (n : nat) (msg : list Z) (o : Z) : res (list (list Z * Z)) :=
  match n with
  | O => Ok []
  | S n =>
      name ← bytes_at msg o IFNAMSIZ;
      ops ← s32_at msg (o + IFNAMSIZ);
      l ← wan_info_at n msg (o + SIZEOF_WAN_INFO);
      Ok ((name, ops) :: l)
  end.

(** The members [t_MCPD_IGMP_SNOOP_ENTRY] and [t_MCPD_MLD_SNOOP_ENTRY] share. *)
Record snoop_common : Type := mk_common {
  se_br_name : list Z;
  se_port_no : Z;
  se_mode : Z;
  se_tci : Z;
  se_wan_info : list (list Z * Z);
  se_lanppp : Z
}.

Record t_MCPD_IGMP_SNOOP_ENTRY : Type := mk_igmp_snoop {
  ie_common : snoop_common;
  ie_excludePort : Z;
  ie_enRtpSeqCheck : Z;
  ie_rxGrp : Z;
  ie_txGrp : Z;
  ie_src : Z;
  ie_rep : Z
}.

Record t_MCPD_MLD_SNOOP_ENTRY : Type := mk_mld_snoop {
  me_common : snoop_common;
  me_grp : list Z;
  me_src : list Z;
  me_rep : list Z
}.

Definition SIZEOF_IGMP_SNOOP_ENTRY : Z := 260.
Definition SIZEOF_MLD_SNOOP_ENTRY : Z := 292.

Definition snoop_common_at (msg : list Z) (o : Z) : res snoop_common :=
  br_name ← bytes_at msg o IFNAMSIZ;
  port_no ← le16_at msg (o + 16);
  mode ← le32_at msg (o + 20);
  tci ← le16_at msg (o + 28);
  wan_info ← wan_info_at MCPD_MAX_IFS msg (o + 32);
  lanppp ← s32_at msg (o + 232);
  Ok (mk_common br_name port_no mode tci wan_info lanppp).

Definition igmp_snoop_entry_at (msg : list Z) (o : Z) : res t_MCPD_IGMP_SNOOP_ENTRY :=
  c ← snoop_common_at msg o;
  excludePort ← s32_at msg (o + 236);
  enRtpSeqCheck ← rd msg (o + 240);
  rxGrp ← le32_at msg (o + 244);
  txGrp ← le32_at msg (o + 248);
  src ← le32_at msg (o + 252);
  rep ← le32_at msg (o + 256);
  Ok (mk_igmp_snoop c excludePort enRtpSeqCheck rxGrp txGrp src rep).

Definition mld_snoop_entry_at (msg : list Z) (o : Z) : res t_MCPD_MLD_SNOOP_ENTRY :=
  c ← snoop_common_at msg o;
  grp ← bytes_at msg (o + 236) 16;
  src ← bytes_at msg (o + 252) 16;
  rep ← bytes_at msg (o + 268) 16;
  Ok (mk_mld_snoop c grp src rep).

Definition is_clear (c : snoop_common) : bool := (se_mode c =? SNOOP_IN_CLEAR) || (se_mode c =? SNOOP_EX_CLEAR).

Section Net.
Context (N : net) (env : mcpd_env).

(** ** Devices by name *)

Fixpoint find_name (name : list Z) (l : list nat) : res (option nat) :=
  match l with
  | [] => Ok None
  | d :: l =>
      c ← strncmp (if_name env d ++ name) 0 IFNAMSIZ IFNAMSIZ;
      if c =? 0 then Ok (Some d) else find_name name l
  end.
Definition dev_get_by_name (name : list Z) : res (option nat) := find_name name (seq 0 (length (devs N))).

(** The one bridge device. *)
Definition is_ebridge (d : nat) : bool := Nat.eqb d (br_dev N).

Definition mcpd_is_br_port (from : nat) : M bool :=
  l ← port_list_of;
  mret (existsb (fun p => memcmp_bytes (if_name env (port_dev N p)) (if_name env from) =? 0) l).

Definition br_mcast_get_lan2lan_snooping (proto : t_BR_MCAST_PROTO_TYPE) (m : mcpd) : Z :=
  if thereIsAnUplink m =? 0 then BR_MC_LAN2LAN_STATUS_ENABLE
  else match proto with
       | BR_MCAST_PROTO_MLD => mld_lan2lan_mc_enable env
       | BR_MCAST_PROTO_IGMP => igmp_lan2lan_mc_enable env
       end.

(** ** Snooping entries *)

Definition br_get_port_index (no : Z) : M (option nat) := gets (fun w => port_index (stp_of (tbl w)) no).

(** The loop over the devices of an entry, up to the first without an
    operation; [false] if the handler returns from it.  [leave] and [join] are
    what it does for the device a stream comes from. *)
Fixpoint snoop_ifs (c : snoop_common) (leave : nat -> nat -> M unit) (join : nat -> Z -> nat -> M unit)
    (l : list (list Z * Z)) : M bool :=
  match l with
  | [] => mret true
  | (name, ops) :: l =>
      if ops =? 0 then mret true
      else
        from ← lift (dev_get_by_name name);
        match from with
        | None => snoop_ifs c leave join l
        | Some from =>
            prt ← br_get_port_index (se_port_no c);
            match prt with
            | None => mret false
            | Some prt =>
                if is_clear c then leave from prt;; snoop_ifs c leave join l
                else
                  port ← mcpd_is_br_port from;
                  if (ops =? MCPD_IF_TYPE_BRIDGED) && negb port then snoop_ifs c leave join l
                  else if negb (if_up env (port_dev N prt)) then mret false
                  else if negb (if_up env from) then snoop_ifs c leave join l
                  else join from ops prt;; snoop_ifs c leave join l
            end
        end
  end.

(** The handler of an entry: [lan2lan] is whether one is made for streams from
    the bridge itself, by [join_lan]. *)
Definition snoop_entry (c : snoop_common) (lan2lan : bool) (leave : nat -> nat -> M unit)
    (join : nat -> Z -> nat -> M unit) (join_lan : nat -> nat -> M unit) : M unit :=
  dev ← lift (dev_get_by_name (se_br_name c));
  match dev with
  | None => mret tt
  | Some d =>
      if negb (is_ebridge d) || negb (if_up env d) then mret tt
      else
        go_on ← snoop_ifs c leave join (se_wan_info c);
        if (go_on : bool) && lan2lan then
          prt ← br_get_port_index (se_port_no c);
          match prt with
          | None => mret tt
          | Some prt =>
              if is_clear c then leave d prt
              else if negb (if_up env (port_dev N prt)) then mret tt
              else join_lan d prt
          end
        else mret tt
  end.

Definition mcpd_nl_process_igmp_snoop_entry (m : mcpd) (msg : list Z) : M unit :=
  e ← lift (igmp_snoop_entry_at msg (NLMSG_HDRLEN + MCPD_HDRLEN));
  let c := ie_common e in
  snoop_entry c (nonzero (br_mcast_get_lan2lan_snooping BR_MCAST_PROTO_IGMP m) && (ie_rxGrp e =? ie_txGrp e))
    (fun from prt =>
       br_igmp_mc_fdb_remove N from prt (ie_rxGrp e) (ie_txGrp e) (ie_rep e) (s32 (se_mode c)) (ie_src e);; mret tt)
    (fun from ops prt =>
       br_igmp_mc_fdb_add N from ops prt (ie_rxGrp e) (ie_txGrp e) (ie_rep e) (s32 (se_mode c)) (se_tci c)
         (ie_src e) (se_lanppp c) (ie_excludePort e) (ie_enRtpSeqCheck e);; mret tt)
    (fun from prt =>
       br_igmp_mc_fdb_add N from MCPD_IF_TYPE_BRIDGED prt (ie_txGrp e) (ie_txGrp e) (ie_rep e) (s32 (se_mode c))
         (se_tci c) (ie_src e) (se_lanppp c) (-1) 0;; mret tt).

(** The drivers are told before a member leaves and after one has joined. *)
Definition mcpd_nl_process_mld_snoop_entry (m : mcpd) (msg : list Z) : M unit :=
  e ← lift (mld_snoop_entry_at msg (NLMSG_HDRLEN + MCPD_HDRLEN));
  let c := me_common e in
  let tell val := mcast_snooping_call_chain N (se_port_no c)
    (SnoopEntry val (se_port_no c) (se_mode c) (me_grp e) (me_src e) (me_rep e)) in
  let add from ops prt :=
    br_mld_mc_fdb_add N from ops prt (me_grp e) (me_rep e) (s32 (se_mode c)) (se_tci c) (me_src e) (se_lanppp c);;
    tell SNOOPING_ADD_ENTRY in
  snoop_entry c (nonzero (br_mcast_get_lan2lan_snooping BR_MCAST_PROTO_MLD m))
    (fun from prt =>
       tell SNOOPING_DEL_ENTRY;;
       br_mld_mc_fdb_remove N from prt (me_grp e) (me_rep e) (s32 (se_mode c)) (me_src e);; mret tt)
    add
    (fun from prt => add from MCPD_IF_TYPE_BRIDGED prt).

(** ** Other requests *)

(** What is at the private data of another device is not a bridge. *)
Definition purge_reporter (msg : list Z) (wipe : Z -> M unit) : M unit :=
  let o := NLMSG_HDRLEN + MCPD_HDRLEN in
  name ← lift (bytes_at msg o IFNAMSIZ);
  port_no ← lift (rd msg (o + 16));
  dev ← lift (dev_get_by_name name);
  match dev with
  | None => mret tt
  | Some d => if is_ebridge d then wipe port_no else fail OutOfBounds
  end.

Definition mcpd_nl_process_igmp_purge_reporter (msg : list Z) : M unit :=
  grp ← lift (le32_at msg (NLMSG_HDRLEN + MCPD_HDRLEN + 20));
  purge_reporter msg (br_igmp_wipe_reporter_for_port N grp).

Definition mcpd_nl_process_mld_purge_reporter (msg : list Z) : M unit :=
  grp ← lift (bytes_at msg (NLMSG_HDRLEN + MCPD_HDRLEN + 20) 16);
  purge_reporter msg (br_mld_wipe_reporter_for_port N grp).

Definition mcpd_nl_process_if_change (msg : list Z) : M unit :=
  let o := NLMSG_HDRLEN + MCPD_HDRLEN in
  name ← lift (bytes_at msg o IFNAMSIZ);
  proto ← lift (le32_at msg (o + IFNAMSIZ));
  dev ← lift (dev_get_by_name name);
  match dev with
  | None => mret tt
  | Some d =>
      if is_ebridge d then
        (if negb (proto =? MCPD_PROTO_MLD) then
           br_igmp_process_if_change N None;; br_igmp_process_device_removal N d
         else mret tt);;
        (if negb (proto =? MCPD_PROTO_IGMP) then br_mld_process_if_change N None else mret tt)
      else
        (if negb (proto =? MCPD_PROTO_MLD) then br_igmp_process_if_change N (Some d) else mret tt);;
        (if negb (proto =? MCPD_PROTO_IGMP) then br_mld_process_if_change N (Some d) else mret tt)
  end.

Definition mcpd_nl_process_mc_fdb_cleanup : M unit :=
  (if nonzero (igmp_snooping N) then
     br_igmp_mc_fdb_cleanup N;; br_igmp_process_device_removal N (br_dev N)
   else mret tt);;
  (if nonzero (mld_snooping N) then br_mld_mc_fdb_cleanup N else mret tt).

(** The slot of the packet at an address; the address 0 is that of no packet,
    and a free slot has it. *)
Definition admission_slot (skbPointer : Z) (l : list (option nat * Z)) : option (option nat) :=
  fst <$> List.find (fun x => match fst x with Some i => skb_addr env i =? skbPointer | None => skbPointer =? 0 end) l.

(** [br_igmp_process_admission] with the addresses of the message. *)
Definition process_admission (bridgePointer skbPointer : Z) (admitted : bool) : M unit :=
  if negb (bridgePointer =? br_addr env) then fail (if bridgePointer =? 0 then NullDeref else OutOfBounds)
  else
    l ← gets igmp_delayed_skb;
    match admission_slot skbPointer l with
    | None => mret tt
    | Some (Some i) => br_igmp_process_admission N i admitted
    | Some None => if admitted then fail NullDeref else mret tt
    end.

Definition mcpd_nl_process_admission_result (msg : list Z) : M unit :=
  let o := NLMSG_HDRLEN + MCPD_HDRLEN in
  bridgePointer ← lift (le32_at msg o);
  skbPointer ← lift (le32_at msg (o + 4));
  admitted ← lift (le32_at msg (o + 8));
  if (admitted =? MCPD_PACKET_ADMITTED_NO) || (admitted =? MCPD_PACKET_ADMITTED_YES)
  then process_admission bridgePointer skbPointer (admitted =? MCPD_PACKET_ADMITTED_YES)
  else mret tt.

Definition mcpd_nl_process_set_admission_control (m : mcpd) (msg : list Z) : M mcpd :=
  let o := NLMSG_HDRLEN + MCPD_HDRLEN in
  x ← lift (rd msg o);
  m ← (if ((x =? 0) || (x =? 1)) && negb (igmp_admission m =? x)
       then br_igmp_wipe_pending_skbs;; mret (set_igmp_admission x m) else mret m);
  y ← lift (rd msg (o + 1));
  mret (if ((y =? 0) || (y =? 1)) && negb (mld_admission m =? y) then set_mld_admission y m else m).

(** ** Registration *)

Definition mcpd_nl_process_unregistration (m : mcpd) : mcpd :=
  if nl_alloc env (nl_asked m) then
    let m := netlink_unicast MCPD_MSG_UNREGISTER (asked m) in
    set_pid (nth (Z.to_nat SNOOP_REGISTRATION_TYPE_DEFAULT) (snoop_registered_pid m) 0) m
  else asked m.

Definition mcpd_nl_process_registration (m : mcpd) (msg : list Z) : res mcpd :=
  if negb (nl_alloc env (nl_asked m)) then Ok (asked m)
  else
    let m := asked m in
    registration_type ← s32_at msg (NLMSG_HDRLEN + MCPD_HDRLEN + 4);
    old ← of_option OutOfBounds (znth (snoop_registered_pid m) registration_type);
    nlmsg_pid ← le32_at msg 12;
    let new := if negb (u32 old =? nlmsg_pid) then s32 nlmsg_pid else old in
    let m := set_registered (<[Z.to_nat registration_type := new]> (snoop_registered_pid m)) m in
    let register m := Ok (netlink_unicast MCPD_MSG_REGISTER (set_pid new m)) in
    if nonzero (pid m) && negb (pid m =? new) then
      if nl_alloc env (nl_asked m) then register (mcpd_nl_process_unregistration (asked m)) else Ok (asked m)
    else register m.

(** ** Messages *)

Definition mcpd_nl_rcv_skb (m : mcpd) (msg : list Z) : M mcpd :=
  if zlen msg <? NLMSG_HDRLEN then mret m
  else
    nlmsg_len ← lift (le32_at msg 0);
    if (nlmsg_len <? NLMSG_HDRLEN) || (zlen msg <? nlmsg_len) then mret m
    else
      msg_type ← lift (le16_at msg NLMSG_HDRLEN);
      let o := NLMSG_HDRLEN + MCPD_HDRLEN in
      if msg_type =? MCPD_MSG_REGISTER then lift (mcpd_nl_process_registration m msg)
      else if msg_type =? MCPD_MSG_UNREGISTER then mret (mcpd_nl_process_unregistration m)
      else if msg_type =? MCPD_MSG_IGMP_SNOOP_ENTRY then mcpd_nl_process_igmp_snoop_entry m msg;; mret m
      else if msg_type =? MCPD_MSG_MLD_SNOOP_ENTRY then mcpd_nl_process_mld_snoop_entry m msg;; mret m
      else if msg_type =? MCPD_MSG_IF_CHANGE then mcpd_nl_process_if_change msg;; mret m
      else if msg_type =? MCPD_MSG_MC_FDB_CLEANUP then mcpd_nl_process_mc_fdb_cleanup;; mret m
      else if msg_type =? MCPD_MSG_SET_PRI_QUEUE then
        val ← lift (s32_at msg o); mret (br_mcast_set_pri_queue val m)
      else if msg_type =? MCPD_MSG_UPLINK_INDICATION then
        val ← lift (s32_at msg o); mret (br_mcast_set_uplink_exists val m)
      else if msg_type =? MCPD_MSG_IGMP_PURGE_REPORTER then mcpd_nl_process_igmp_purge_reporter msg;; mret m
      else if msg_type =? MCPD_MSG_MLD_PURGE_REPORTER then mcpd_nl_process_mld_purge_reporter msg;; mret m
      else if msg_type =? MCPD_MSG_CONTROLS_ADMISSION then mcpd_nl_process_set_admission_control m msg
      else if msg_type =? MCPD_MSG_ADMISSION_RESULT then mcpd_nl_process_admission_result msg;; mret m
      else mret m.
End Net.
