(* ===== verification/McpdProps.v ===== *)
(** The netlink interface of the multicast daemon: an entry of a message is a
    sequence of requests to the group tables, and no message of full length
    that names what exists leads to a fault. *)

From S2P Require Import Prelude Str Stp StpSelect StpSafety Fdb Bridge BrExample BrWp BrForward BrForwardProps.
From S2P Require Import Groups GroupsProps GroupsServe BrIgmp BrMld BrMcast BrIgmpProps BrGroups BrMldProps BrMldExpiry.
From S2P Require Import BrInputProps BrRun Mcpd.

(** ** Reading *)

Lemma s32_in msg o : 0 <= o -> o + 4 <= zlen msg -> exists x, s32_at msg o = Ok x.
Proof. intros. unfold s32_at. destruct (le32_in msg o) as (x & ->); [lia..|]. by eexists. Qed.

Lemma bytes_in msg o n : 0 <= o -> 0 <= n -> o + n <= zlen msg ->
  exists l, bytes_at msg o n = Ok l /\ length l = Z.to_nat n.
Proof.
  intros Ho Hn H. unfold bytes_at. destruct (Z.ltb_spec o 0); [lia|]. destruct (Z.ltb_spec (zlen msg) (o + n)); [lia|].
  exists (slice msg o n). split; [done|]. unfold slice. rewrite length_take, length_drop. unfold zlen in *. lia.
Qed.

(** A name is [IFNAMSIZ] bytes. *)
Definition named (name : list Z) : Prop := length name = Z.to_nat IFNAMSIZ.

Lemma wan_info_in n msg o : 0 <= o -> o + Z.of_nat n * SIZEOF_WAN_INFO <= zlen msg ->
  exists l, wan_info_at n msg o = Ok l /\ Forall (fun x => named (fst x)) l.
Proof.
  revert o. induction n as [|n IH]; intros o Ho H; cbn [wan_info_at]; [by exists []|]. unfold SIZEOF_WAN_INFO in *.
  destruct (bytes_in msg o IFNAMSIZ) as (name & -> & Hn); [unfold IFNAMSIZ; lia..|]. cbn [mbind res_bind].
  destruct (s32_in msg (o + IFNAMSIZ)) as (ops & ->); [unfold IFNAMSIZ; lia..|]. cbn [mbind res_bind].
  destruct (IH (o + 20)) as (l & -> & Hl); [lia..|]. exists ((name, ops) :: l). split; [done|]. by apply Forall_cons_2.
Qed.

Definition common_named (c : snoop_common) : Prop := named (se_br_name c) /\ Forall (fun x => named (fst x)) (se_wan_info c).

Lemma common_in msg o : 0 <= o -> o + 236 <= zlen msg -> exists c, snoop_common_at msg o = Ok c /\ common_named c.
Proof.
  intros Ho H. unfold snoop_common_at.
  destruct (bytes_in msg o IFNAMSIZ) as (name & -> & Hn); [unfold IFNAMSIZ; lia..|]. cbn [mbind res_bind].
  destruct (le16_in msg (o + 16)) as (no & ->); [lia..|]. cbn [mbind res_bind].
  destruct (le32_in msg (o + 20)) as (mode & ->); [lia..|]. cbn [mbind res_bind].
  destruct (le16_in msg (o + 28)) as (tci & ->); [lia..|]. cbn [mbind res_bind].
  destruct (wan_info_in MCPD_MAX_IFS msg (o + 32)) as (l & -> & Hl); [lia|unfold MCPD_MAX_IFS, SIZEOF_WAN_INFO; lia|]. cbn [mbind res_bind].
  destruct (s32_in msg (o + 232)) as (ppp & ->); [lia..|]. eexists. split; [done|]. by split.
Qed.

Lemma igmp_entry_in msg o : 0 <= o -> o + SIZEOF_IGMP_SNOOP_ENTRY <= zlen msg ->
  exists e, igmp_snoop_entry_at msg o = Ok e /\ common_named (ie_common e).
Proof.
  intros Ho H. unfold SIZEOF_IGMP_SNOOP_ENTRY in H. unfold igmp_snoop_entry_at.
  destruct (common_in msg o) as (c & -> & Hc); [lia..|]. cbn [mbind res_bind].
  destruct (s32_in msg (o + 236)) as (x1 & ->); [lia..|]. cbn [mbind res_bind].
  destruct (rd_Ok msg (o + 240)) as (x2 & -> & _); [lia|]. cbn [mbind res_bind].
  destruct (le32_in msg (o + 244)) as (x3 & ->); [lia..|]. cbn [mbind res_bind].
  destruct (le32_in msg (o + 248)) as (x4 & ->); [lia..|]. cbn [mbind res_bind].
  destruct (le32_in msg (o + 252)) as (x5 & ->); [lia..|]. cbn [mbind res_bind].
  destruct (le32_in msg (o + 256)) as (x6 & ->); [lia..|]. by eexists.
Qed.

Lemma mld_entry_in msg o : 0 <= o -> o + SIZEOF_MLD_SNOOP_ENTRY <= zlen msg ->
  exists e, mld_snoop_entry_at msg o = Ok e /\ common_named (me_common e).
Proof.
  intros Ho H. unfold SIZEOF_MLD_SNOOP_ENTRY in H. unfold mld_snoop_entry_at.
  destruct (common_in msg o) as (c & -> & Hc); [lia..|]. cbn [mbind res_bind].
  destruct (bytes_in msg (o + 236) 16) as (x1 & -> & _); [lia..|]. cbn [mbind res_bind].
  destruct (bytes_in msg (o + 252) 16) as (x2 & -> & _); [lia..|]. cbn [mbind res_bind].
  destruct (bytes_in msg (o + 268) 16) as (x3 & -> & _); [lia..|]. by eexists.
Qed.

Lemma strncmp_in n m a b : 0 <= a -> 0 <= b -> a + Z.of_nat n <= zlen m -> b + Z.of_nat n <= zlen m ->
  exists c, strncmp_loop n m a b = Ok c.
Proof.
  revert a b. induction n as [|n IH]; intros a b Ha Hb Hla Hlb; cbn [strncmp_loop]; [by eexists|].
  destruct (rd_Ok m a) as (x & -> & _); [lia|]. destruct (rd_Ok m b) as (y & -> & _); [lia|]. cbn [mbind res_bind].
  destruct (negb _); [by eexists|]. destruct (x =? 0); [by eexists|]. apply IH; lia.
Qed.

(** ** Entries as requests *)

Lemma for_each_app {A} (l1 l2 : list A) body w :
  for_each (l1 ++ l2) body w = match for_each l1 body w with Ok (_, w1) => for_each l2 body w1 | Fault f => Fault f end.
Proof.
  revert w. induction l1 as [|x l1 IH]; intros w; [done|]. cbn [app for_each]. unfold mbind, M_bind.
  destruct (body x w) as [[a w1]|]; [apply IH|done].
Qed.

Section Entries.
Context (N : net) (env : mcpd_env) (env_named : forall d, named (if_name env d)).
Implicit Types (w : world) (c : snoop_common).

Lemma find_name_ok name l : named name -> exists r, find_name env name l = Ok r /\ forall d, r = Some d -> d ∈ l.
Proof.
  intros Hn. induction l as [|d l (r & E & Hr)]; [by exists None|]. cbn [find_name]. unfold strncmp.
  assert (Hz : zlen (if_name env d ++ name) = 32) by (unfold zlen; by rewrite length_app, (env_named d), Hn).
  destruct (strncmp_in (Z.to_nat IFNAMSIZ) (if_name env d ++ name) 0 IFNAMSIZ) as (x & ->); [unfold IFNAMSIZ; lia..|].
  cbn [mbind res_bind]. destruct (x =? 0); [exists (Some d)|exists r]; (split; [done|]).
  - intros ? [= <-]. apply elem_of_cons. by left.
  - intros d' Hd'. apply elem_of_cons. right. by apply Hr.
Qed.

Lemma dev_by_name name : named name ->
  exists r, dev_get_by_name N env name = Ok r /\ forall d, r = Some d -> (d < length (devs N))%nat.
Proof.
  intros Hn. destruct (find_name_ok name (seq 0 (length (devs N))) Hn) as (r & E & Hr). exists r. split; [done|].
  intros d Hd. apply Hr, elem_of_seq in Hd. lia.
Qed.

(** The devices of an entry that exist, with what they are asked for, up to
    the first without an operation. *)
Fixpoint sources (l : list (list Z * Z)) : list (nat * Z) :=
  match l with
  | [] => []
  | (name, ops) :: l =>
      if ops =? 0 then []
      else match dev_get_by_name N env name with Ok (Some d) => (d, ops) :: sources l | _ => sources l end
  end.

(** The device is up, and a port if it is to be bridged. *)
Definition usable (t : fdb) (x : nat * Z) : bool :=
  negb ((snd x =? MCPD_IF_TYPE_BRIDGED) && negb (existsb (fun p =>
    memcmp_bytes (if_name env (port_dev N p)) (if_name env (fst x)) =? 0) (port_list (stp_of t)))) && if_up env (fst x).

Section Requests.
Context {Q : Type} (sv : Q -> M unit) (lq : nat -> nat -> Q) (jq : nat -> Z -> nat -> Q) (jl : nat -> nat -> Q).
Context (I : world -> Prop) (t : fdb) (c : snoop_common) (leave : nat -> nat -> M unit) (join : nat -> Z -> nat -> M unit).
Context (join_lan : nat -> nat -> M unit).

(** What an entry asks for: nothing of a bridge that is not there or not up,
    nor for a port that is not there; every device that exists leaves; a
    usable device joins if the port is up; and so do streams from the bridge
    itself. *)
Definition requests (lan2lan : bool) : list Q :=
  match dev_get_by_name N env (se_br_name c), port_index (stp_of t) (se_port_no c) with
  | Ok (Some d), Some p =>
      if negb (is_ebridge N d && if_up env d) then []
      else if is_clear c then
        map (fun x => lq (fst x) p) (sources (se_wan_info c)) ++ (if lan2lan then [lq d p] else [])
      else if if_up env (port_dev N p) then
        map (fun x => jq (fst x) (snd x) p) (List.filter (usable t) (sources (se_wan_info c))) ++
        (if lan2lan then [jl d p] else [])
      else []
  | _, _ => []
  end.

Definition keeps (m : M unit) : Prop := forall w, I w -> tbl w = t -> wp m (fun _ w' => I w' /\ tbl w' = t) w.

Context (Hl : forall d p w, (d < length (devs N))%nat -> leave d p w = sv (lq d p) w).
Context (Hj : forall d ops p w, (d < length (devs N))%nat -> join d ops p w = sv (jq d ops p) w).
Context (Hjl : forall d p w, (d < length (devs N))%nat -> join_lan d p w = sv (jl d p) w).
Context (Kl : forall d p, (d < length (devs N))%nat -> port_index (stp_of t) (se_port_no c) = Some p -> keeps (sv (lq d p))).
Context (Kj : forall d ops p, (d < length (devs N))%nat -> port_index (stp_of t) (se_port_no c) = Some p -> keeps (sv (jq d ops p))).

(** What the loop asks for. *)
Definition loop_requests (l : list (list Z * Z)) : list Q :=
  match port_index (stp_of t) (se_port_no c) with
  | None => []
  | Some p =>
      if is_clear c then map (fun x => lq (fst x) p) (sources l)
      else if if_up env (port_dev N p) then map (fun x => jq (fst x) (snd x) p) (List.filter (usable t) (sources l)) else []
  end.

(** If the handler returns from inside the loop, nothing was to come after it. *)
Lemma loop_requests_nil l : sources l = [] -> loop_requests l = [].
Proof. unfold loop_requests. intros ->. destruct (port_index _ _) as [p|]; [|done]. by destruct (is_clear c), (if_up env (port_dev N p)). Qed.

Lemma keeps_run q w : keeps (sv q) -> I w -> tbl w = t -> exists w', sv q w = Ok (tt, w') /\ I w' /\ tbl w' = t.
Proof. intros Hk Hw Ht. destruct (wp_elim _ _ _ (Hk w Hw Ht)) as ([] & w' & E & H). by exists w'. Qed.

Lemma snoop_ifs_requests l w : Forall (fun x => named (fst x)) l -> I w -> tbl w = t ->
  exists w' b, for_each (loop_requests l) sv w = Ok (tt, w') /\ snoop_ifs N env c leave join l w = Ok (b, w') /\
    I w' /\ tbl w' = t /\
    (b = false -> forall p, port_index (stp_of t) (se_port_no c) = Some p -> is_clear c = false /\ if_up env (port_dev N p) = false).
Proof.
  intros Hn. revert w. induction Hn as [|[name ops] l Hname _ IH]; intros w Hw Ht.
  { exists w, true. by rewrite loop_requests_nil. }
  destruct (dev_by_name name Hname) as (r & Er & Hr). cbn [fst] in *. cbn [snoop_ifs].
  destruct (ops =? 0) eqn:Eo.
  { exists w, true. rewrite loop_requests_nil; [done|]. cbn [sources]. by rewrite Eo. }
  unfold loop_requests in *. cbn [sources]. rewrite Eo, Er. unfold lift, mbind, M_bind. cbn [mbind res_bind].
  destruct r as [d|]; [|by apply IH]. specialize (Hr d eq_refl). unfold br_get_port_index, gets. rewrite Ht.
  destruct (port_index (stp_of t) (se_port_no c)) as [p|] eqn:Ep; [|by exists w, false]. destruct (is_clear c) eqn:Ec.
  - cbn [map fst for_each]. rewrite Hl by done. unfold mbind, M_bind.
    destruct (keeps_run (lq d p) w (Kl d p Hr eq_refl) Hw Ht) as (w1 & -> & H1 & Ht1). by apply IH.
  - unfold mcpd_is_br_port, port_list_of, gets, mbind, M_bind, mret, M_ret. rewrite Ht. cbn [List.filter].
    unfold usable at 1. cbn [fst snd]. destruct (_ && negb _) eqn:Eb; cbn [negb andb].
    + by apply IH.
    + destruct (if_up env (port_dev N p)) eqn:Eu; cbn [negb].
      * destruct (if_up env d); cbn [negb andb]; [|by apply IH]. cbn [map fst snd for_each]. rewrite Hj by done. unfold mbind, M_bind.
        destruct (keeps_run (jq d ops p) w (Kj d ops p Hr eq_refl) Hw Ht) as (w1 & -> & H1 & Ht1). by apply IH.
      * exists w, false. split; [done|]. split; [done|]. split; [done|]. split; [done|]. by intros _ ? [= <-].
Qed.

Lemma requests_run q w : keeps (sv q) -> I w -> tbl w = t ->
  exists w', for_each [q] sv w = Ok (tt, w') /\ sv q w = Ok (tt, w') /\ I w' /\ tbl w' = t.
Proof.
  intros Hk Hw Ht. destruct (keeps_run q w Hk Hw Ht) as (w' & E & H). exists w'. cbn [for_each]. unfold mbind, M_bind.
  by rewrite E.
Qed.

(** An entry is the sequence of its requests. *)
Lemma snoop_entry_requests lan2lan w : common_named c ->
  (forall d p, (d < length (devs N))%nat -> port_index (stp_of t) (se_port_no c) = Some p -> keeps (sv (jl d p))) ->
  I w -> tbl w = t ->
  exists w', for_each (requests lan2lan) sv w = Ok (tt, w') /\ snoop_entry N env c lan2lan leave join join_lan w = Ok (tt, w') /\
    I w' /\ tbl w' = t.
Proof.
  intros [Hb Hi] Kjl Hw Ht. destruct (dev_by_name _ Hb) as (r & Er & Hr).
  destruct (snoop_ifs_requests (se_wan_info c) w Hi Hw Ht) as (w1 & b & E1 & E2 & H1 & Ht1 & Hfalse).
  unfold snoop_entry, requests, loop_requests, lift, mbind, M_bind in *. rewrite Er. cbn [mbind res_bind].
  destruct r as [d|]; [|by exists w]. specialize (Hr d eq_refl). rewrite <- negb_andb.
  destruct (is_ebridge N d && if_up env d); cbn [negb]; [|exists w; by destruct (port_index _ _)].
  rewrite E2. cbn [mbind res_bind]. unfold br_get_port_index, gets.
  destruct (port_index (stp_of t) (se_port_no c)) as [p|] eqn:Ep.
  2: { cbn in E1. injection E1 as E1. subst w1. exists w. split; [done|]. split; [|done]. destruct (b && lan2lan); [|done]. cbv beta. by rewrite Ht, Ep. }
  assert (Hseq : forall l q, for_each l sv w = Ok (tt, w1) -> keeps (sv q) ->
    exists w', for_each (l ++ [q]) sv w = Ok (tt, w') /\ sv q w1 = Ok (tt, w') /\ I w' /\ tbl w' = t).
  { intros l q El Hk. destruct (requests_run q w1 Hk H1 Ht1) as (w' & Ew & Eq & H). exists w'. split; [|done].
    rewrite for_each_app, El. exact Ew. }
  destruct (is_clear c) eqn:Ec.
  - destruct b; [|destruct (Hfalse eq_refl p eq_refl); congruence]. cbn [andb]. destruct lan2lan; [|rewrite app_nil_r; by exists w1].
    destruct (Hseq _ (lq d p) E1) as (w' & Ef & Eq & H); [by apply Kl|]. exists w'. split; [done|]. split; [|done].
    cbv beta. rewrite Ht1, Ep, Hl by done. exact Eq.
  - destruct (if_up env (port_dev N p)) eqn:Eu.
    + destruct b; [|destruct (Hfalse eq_refl p eq_refl); congruence]. cbn [andb]. destruct lan2lan; [|rewrite app_nil_r; by exists w1].
      destruct (Hseq _ (jl d p) E1) as (w' & Ef & Eq & H); [by apply Kjl|]. exists w'. split; [done|]. split; [|done].
      cbv beta. rewrite Ht1, Ep, Eu. cbn [negb]. rewrite Hjl by done. exact Eq.
    + cbn in E1. injection E1 as E1. subst w1. exists w. split; [done|]. split; [|done]. destruct (b && lan2lan); [|done].
      cbv beta. by rewrite Ht, Ep, Eu.
Qed.
End Requests.
End Entries.

(** ** IGMP entries *)

Section Messages.
Context (N : net) (env : mcpd_env) (env_named : forall d, named (if_name env d)).
Implicit Types (w : world) (m : mcpd).

Lemma port_index_in t no p : port_index (stp_of t) no = Some p -> (p < length (ports (br (stp_of t))))%nat.
Proof. intros [H _]%find_some. apply in_seq in H. lia. Qed.

Definition igmp_requests m (t : fdb) (e : t_MCPD_IGMP_SNOOP_ENTRY) : list mc_request :=
  let c := ie_common e in
  let join from ops prt rx := Join from ops prt rx (ie_txGrp e) (ie_rep e) (s32 (se_mode c)) (se_tci c) (ie_src e) (se_lanppp c) in
  requests N env
    (fun from prt => Leave from prt (ie_rxGrp e) (ie_txGrp e) (ie_rep e) (s32 (se_mode c)) (ie_src e))
    (fun from ops prt => join from ops prt (ie_rxGrp e) (ie_excludePort e) (ie_enRtpSeqCheck e))
    (fun from prt => join from MCPD_IF_TYPE_BRIDGED prt (ie_txGrp e) (-1) 0) t c
    (nonzero (br_mcast_get_lan2lan_snooping env BR_MCAST_PROTO_IGMP m) && (ie_rxGrp e =? ie_txGrp e)).

Lemma igmp_entry_requests nports (I : world -> Prop) m msg w : I w -> length (ports (br (stp_of (tbl w)))) = nports ->
  NLMSG_HDRLEN + MCPD_HDRLEN + SIZEOF_IGMP_SNOOP_ENTRY <= zlen msg ->
  (forall q, request_ok N nports q -> keeps I (tbl w) (serve N q;; mret tt)) ->
  exists e w', igmp_snoop_entry_at msg (NLMSG_HDRLEN + MCPD_HDRLEN) = Ok e /\
    for_each (igmp_requests m (tbl w) e) (fun q => serve N q;; mret tt) w = Ok (tt, w') /\
    mcpd_nl_process_igmp_snoop_entry N env m msg w = Ok (tt, w') /\ I w' /\ tbl w' = tbl w.
Proof.
  intros Hw Hn Hlen Hk. destruct (igmp_entry_in msg (NLMSG_HDRLEN + MCPD_HDRLEN)) as (e & Ee & Hc); [done|done|].
  unfold mcpd_nl_process_igmp_snoop_entry, lift, mbind, M_bind. rewrite Ee. cbn [mbind res_bind].
  assert (Hp : forall p, port_index (stp_of (tbl w)) (se_port_no (ie_common e)) = Some p -> (p < nports)%nat)
    by (intros p H%port_index_in; lia).
  edestruct (snoop_entry_requests N env env_named (fun q => serve N q;; mret tt)) as (w' & E1 & E2 & H);
    [..|exact Hc| |exact Hw|reflexivity|exists e, w'; split; [done|]; split; [exact E1|]; split; [exact E2|done]].
  - intros d p w1 _. reflexivity.
  - intros d ops p w1 _. reflexivity.
  - intros d p w1 _. reflexivity.
  - intros d p Hd Hpi. by apply Hk.
  - intros d ops p Hd Hpi. apply Hk. split; [done|by apply Hp].
  - intros d p Hd Hpi. apply Hk. split; [done|by apply Hp].
Qed.

(** ** MLD entries *)

(** What drivers are told of an entry. *)
Definition mld_tell (e : t_MCPD_MLD_SNOOP_ENTRY) (val : Z) : M unit :=
  let c := me_common e in
  mcast_snooping_call_chain N (se_port_no c)
    (SnoopEntry val (se_port_no c) (se_mode c) (me_grp e) (me_src e) (me_rep e)).

Definition mld_serve_tell (e : t_MCPD_MLD_SNOOP_ENTRY) (q : mld_request) : M unit :=
  match q with
  | MldLeave _ _ _ _ _ _ => mld_tell e SNOOPING_DEL_ENTRY;; mld_serve N q;; mret tt
  | _ => mld_serve N q;; mld_tell e SNOOPING_ADD_ENTRY
  end.

Definition mld_requests m (t : fdb) (e : t_MCPD_MLD_SNOOP_ENTRY) : list mld_request :=
  let c := me_common e in
  let join from ops prt := MldJoin from ops prt (me_grp e) (me_rep e) (s32 (se_mode c)) (se_tci c) (me_src e) (se_lanppp c) in
  requests N env
    (fun from prt => MldLeave from prt (me_grp e) (me_rep e) (s32 (se_mode c)) (me_src e))
    join (fun from prt => join from MCPD_IF_TYPE_BRIDGED prt) t c
    (nonzero (br_mcast_get_lan2lan_snooping env BR_MCAST_PROTO_MLD m)).

Lemma mld_entry_requests nports (I : world -> Prop) m msg w : I w -> length (ports (br (stp_of (tbl w)))) = nports ->
  NLMSG_HDRLEN + MCPD_HDRLEN + SIZEOF_MLD_SNOOP_ENTRY <= zlen msg ->
  (forall e q p, mld_request_ok N nports q -> port_index (stp_of (tbl w)) (se_port_no (me_common e)) = Some p ->
    keeps I (tbl w) (mld_serve_tell e q)) ->
  exists e w', mld_snoop_entry_at msg (NLMSG_HDRLEN + MCPD_HDRLEN) = Ok e /\
    for_each (mld_requests m (tbl w) e) (mld_serve_tell e) w = Ok (tt, w') /\
    mcpd_nl_process_mld_snoop_entry N env m msg w = Ok (tt, w') /\ I w' /\ tbl w' = tbl w.
Proof.
  intros Hw Hn Hlen Hk. destruct (mld_entry_in msg (NLMSG_HDRLEN + MCPD_HDRLEN)) as (e & Ee & Hc); [done|done|].
  unfold mcpd_nl_process_mld_snoop_entry, lift, mbind, M_bind. rewrite Ee. cbn [mbind res_bind].
  assert (Hp : forall p, port_index (stp_of (tbl w)) (se_port_no (me_common e)) = Some p -> (p < nports)%nat)
    by (intros p H%port_index_in; lia).
  edestruct (snoop_entry_requests N env env_named (mld_serve_tell e)) as (w' & E1 & E2 & H);
    [..|exact Hc| |exact Hw|reflexivity|exists e, w'; split; [done|]; split; [exact E1|]; split; [exact E2|done]].
  - intros d p w1 _. reflexivity.
  - intros d ops p w1 _. reflexivity.
  - intros d p w1 _. reflexivity.
  - intros d p Hd Hpi. by apply (Hk e _ p).
  - intros d ops p Hd Hpi. apply (Hk e _ p); [|done]. split; [done|by apply Hp].
  - intros d p Hd Hpi. apply (Hk e _ p); [|done]. split; [done|by apply Hp].
Qed.
End Messages.

(** ** Messages *)

(** A message of a type, with a body of [size] bytes at least. *)
Record message (type size : Z) (msg : list Z) : Prop := mk_message {
  mg_len : exists nl, le32_at msg 0 = Ok nl /\ NLMSG_HDRLEN <= nl <= zlen msg;
  mg_type : le16_at msg NLMSG_HDRLEN = Ok type;
  mg_body : 0 <= size /\ NLMSG_HDRLEN + MCPD_HDRLEN + size <= zlen msg
}.

Lemma message_received N env m type size msg w : message type size msg ->
  mcpd_nl_rcv_skb N env m msg w =
  (if type =? MCPD_MSG_REGISTER then lift (mcpd_nl_process_registration env m msg)
   else if type =? MCPD_MSG_UNREGISTER then mret (mcpd_nl_process_unregistration env m)
   else if type =? MCPD_MSG_IGMP_SNOOP_ENTRY then mcpd_nl_process_igmp_snoop_entry N env m msg;; mret m
   else if type =? MCPD_MSG_MLD_SNOOP_ENTRY then mcpd_nl_process_mld_snoop_entry N env m msg;; mret m
   else mcpd_nl_rcv_skb N env m msg) w.
Proof.
  intros [(nl & Enl & Hnl) Et [Hs Hb]]. unfold NLMSG_HDRLEN, MCPD_HDRLEN in *. unfold mcpd_nl_rcv_skb, NLMSG_HDRLEN, MCPD_HDRLEN.
  destruct (Z.ltb_spec (zlen msg) 16); [lia|]. unfold lift, mbind, M_bind. rewrite Enl. cbn [mbind res_bind].
  destruct (Z.ltb_spec nl 16); [lia|]. destruct (Z.ltb_spec (zlen msg) nl); [lia|]. cbn [orb]. rewrite Et. cbn [mbind res_bind].
  by destruct (type =? MCPD_MSG_REGISTER), (type =? MCPD_MSG_UNREGISTER), (type =? MCPD_MSG_IGMP_SNOOP_ENTRY),
    (type =? MCPD_MSG_MLD_SNOOP_ENTRY).
Qed.

Lemma serve_kept N nports t q : request_ok N nports q -> keeps (mc_ok N nports) t (serve N q;; mret tt).
Proof.
  intros Hq w Hw Ht. apply wp_bind. eapply wp_mono; [by apply (serve_change N nports)|cbv beta].
  intros _ w' H. apply wp_ret. rewrite <- Ht. destruct H as [H|(H & Hg & Hd)].
  - split; [by eapply served_ok|]. by apply (served_same N nports) in H as (_ & ? & _).
  - split; [|apply H]. split; [done|]. split; [done|]. unfold nports_of. rewrite (to_tbl _ _ _ H). apply Hw.
Qed.

(** C14: an IGMP entry that the daemon sends is the sequence of its requests,
    although the handler goes through the devices of the entry one by one,
    skipping some and returning early for others: nothing is asked of a bridge
    that is not there or not up, nor for a port that is not there; of the
    devices up to the first without an operation, those that exist leave, and
    those that are up, and ports if they are to be bridged, join if the port is
    up; streams from the bridge itself are last, unless the address of the
    group is translated.  None of it faults, and the table keeps its shape. *)
Theorem igmp_message_is_its_requests N nports env m msg w : (forall d, named (if_name env d)) -> mc_ok N nports w ->
  message MCPD_MSG_IGMP_SNOOP_ENTRY SIZEOF_IGMP_SNOOP_ENTRY msg ->
  exists e w', igmp_snoop_entry_at msg (NLMSG_HDRLEN + MCPD_HDRLEN) = Ok e /\
    mcpd_nl_rcv_skb N env m msg w = Ok (m, w') /\
    for_each (igmp_requests N env m (tbl w) e) (fun q => serve N q;; mret tt) w = Ok (tt, w') /\ mc_ok N nports w'.
Proof.
  intros Hnm Hw Hmsg. rewrite (message_received _ _ _ _ _ _ _ Hmsg). cbn [Z.eqb].
  destruct (igmp_entry_requests N env Hnm nports (mc_ok N nports) m msg w) as (e & w' & Ee & E1 & E2 & H & _);
    [done|apply Hw|apply Hmsg|intros q; apply serve_kept|]. exists e, w'. split; [done|].
  unfold mbind, M_bind. cbn. by rewrite E2.
Qed.

(** A daemon that registers as one of the two kinds takes over: messages
    go to it from then on, its process number is the one registered for its
    kind and the other is as it was, the daemon before it, if any, is told
    first, and the new one then. *)
Theorem registration_takes_over env m msg r old p : (forall n, nl_alloc env n = true) ->
  s32_at msg (NLMSG_HDRLEN + MCPD_HDRLEN + 4) = Ok r -> le32_at msg 12 = Ok p ->
  znth (snoop_registered_pid m) r = Some old -> is_s32 old ->
  exists m', mcpd_nl_process_registration env m msg = Ok m' /\ pid m' = s32 p /\
    snoop_registered_pid m' = <[Z.to_nat r := s32 p]> (snoop_registered_pid m) /\
    nl_sent m' = nl_sent m ++ (if nonzero (pid m) && negb (pid m =? s32 p) then [(MCPD_MSG_UNREGISTER, pid m)] else []) ++
      [(MCPD_MSG_REGISTER, s32 p)] /\
    igmp_admission m' = igmp_admission m /\ mld_admission m' = mld_admission m.
Proof.
  intros Ha Er Ep Hold Hs. unfold mcpd_nl_process_registration. rewrite Ha, Er. cbn [negb mbind res_bind].
  change (snoop_registered_pid (asked m)) with (snoop_registered_pid m). rewrite Hold. cbn [of_option mbind res_bind].
  rewrite Ep. cbn [mbind res_bind].
  assert (Hnew : (if negb (u32 old =? p) then s32 p else old) = s32 p).
  { destruct (Z.eqb_spec (u32 old) p) as [<-|]; [|done]. cbn [negb]. unfold is_s32 in Hs. ints. }
  rewrite Hnew. unfold mcpd_nl_process_unregistration. rewrite !Ha. cbn [pid asked set_registered].
  destruct (_ && _); eexists; (split; [done|]); cbn; rewrite <- ?app_assoc; done.
Qed.

(** The kind of a registration is not checked: a registration as anything
    but one of the two kinds reads, and would write, outside of the array of
    registered processes. *)
Theorem registration_kind_is_not_checked N env m msg r w : message MCPD_MSG_REGISTER 8 msg -> nl_alloc env (nl_asked m) = true ->
  length (snoop_registered_pid m) = 2%nat -> s32_at msg (NLMSG_HDRLEN + MCPD_HDRLEN + 4) = Ok r ->
  r <> SNOOP_REGISTRATION_TYPE_DEFAULT -> r <> SNOOP_REGISTRATION_TYPE_PRIMARY ->
  mcpd_nl_rcv_skb N env m msg w = Fault OutOfBounds.
Proof.
  intros Hmsg Ha Hl Er H0 H1. rewrite (message_received _ _ _ _ _ _ _ Hmsg). cbn. unfold lift, mcpd_nl_process_registration.
  rewrite Ha, Er. cbn [negb mbind res_bind]. change (snoop_registered_pid (asked m)) with (snoop_registered_pid m).
  destruct (znth _ r) as [x|] eqn:E; [|done]. exfalso. apply znth_Some in E. unfold zlen in E. rewrite Hl in E.
  unfold SNOOP_REGISTRATION_TYPE_DEFAULT, SNOOP_REGISTRATION_TYPE_PRIMARY in *. lia.
Qed.

(** ** Examples *)

Definition le16_bytes (x : Z) : list Z := [x mod 256; x / 256 mod 256].
Definition le32_bytes (x : Z) : list Z := le16_bytes (x mod 2 ^ 16) ++ le16_bytes (x / 2 ^ 16).

(** A name of three letters or less, padded. *)
Definition demo_name (l : list Z) : list Z := l ++ replicate (16 - length l) 0.

(** The devices eth, lan, wl0 and the bridge br0; all are up. *)
Definition demo_env : mcpd_env :=
  mk_mcpd_env (fun d => demo_name (nth d [[101; 116; 104]; [108; 97; 110]; [119; 108; 48]; [98; 114; 48]] []))
    (fun _ => true) 0 0 0x1000 (fun i => 0x2000 + Z.of_nat i) (fun _ => true).

Lemma demo_env_named d : named (if_name demo_env d).
Proof. do 4 (destruct d as [|d]; [done|]). destruct d; done. Qed.

Definition demo_mcpd : mcpd := mk_mcpd 100 [100; 0] 0 0 (-1) 1 [] 0.

Definition demo_message (type pid : Z) (body : list Z) : list Z :=
  le32_bytes (20 + zlen body) ++ le16_bytes 0 ++ le16_bytes 0 ++ le32_bytes 0 ++ le32_bytes pid ++
  le16_bytes type ++ le16_bytes (zlen body) ++ body.

(** The host 100 on port 2 joins 239.1.1.1 for streams from eth, which is to be
    bridged, from a device that is not there and from lan. *)
Definition demo_common : list Z :=
  demo_name [98; 114; 48] ++ le16_bytes 2 ++ [0; 0] ++ le32_bytes SNOOP_EX_ADD ++ le32_bytes 0 ++ le16_bytes 0 ++ [0; 0] ++
  demo_name [101; 116; 104] ++ le32_bytes MCPD_IF_TYPE_BRIDGED ++ demo_name [120] ++ le32_bytes MCPD_IF_TYPE_BRIDGED ++
  demo_name [108; 97; 110] ++ le32_bytes MCPD_IF_TYPE_ROUTED ++ replicate 140 0 ++ le32_bytes 0.

Definition demo_entry : list Z := demo_message MCPD_MSG_IGMP_SNOOP_ENTRY 100
  (demo_common ++ le32_bytes (2 ^ 32 - 1) ++ [0; 0; 0; 0] ++ le32_bytes demo_grp ++ le32_bytes demo_grp ++ le32_bytes 0 ++
   le32_bytes 100).

Lemma demo_entry_message : message MCPD_MSG_IGMP_SNOOP_ENTRY SIZEOF_IGMP_SNOOP_ENTRY demo_entry.
Proof. split; [exists 280; by vm_compute|by vm_compute|by vm_compute]. Qed.

Lemma demo_start_ok : mc_ok quiet_net 3 demo_start.
Proof. apply empty_ok; [done|exact demo_delayed|done]. Qed.

Lemma igmp_message_is_its_requests_witness :
  (exists e w', igmp_snoop_entry_at demo_entry (NLMSG_HDRLEN + MCPD_HDRLEN) = Ok e /\
    mcpd_nl_rcv_skb quiet_net demo_env demo_mcpd demo_entry demo_start = Ok (demo_mcpd, w') /\
    for_each (igmp_requests quiet_net demo_env demo_mcpd (tbl demo_start) e) (fun q => serve quiet_net q;; mret tt) demo_start =
      Ok (tt, w') /\ mc_ok quiet_net 3 w') /\
  match mcpd_nl_rcv_skb quiet_net demo_env demo_mcpd demo_entry demo_start with
  | Ok (_, w') => members w' = [[1; 100]; [1; 100]] /\ map from_dev (concat (mc_hash w')) = [1; 0]%nat
  | Fault _ => False
  end.
Proof.
  split; [|by vm_compute].
  apply (igmp_message_is_its_requests quiet_net 3 demo_env demo_mcpd demo_entry demo_start);
    [exact demo_env_named|exact demo_start_ok|exact demo_entry_message].
Defined.

(** Process 200 registers as a daemon of the given kind. *)
Definition demo_register (kind : Z) : list Z := demo_message MCPD_MSG_REGISTER 200 (le32_bytes 0 ++ le32_bytes kind).

Lemma registration_takes_over_witness : exists m',
  mcpd_nl_process_registration demo_env demo_mcpd (demo_register 1) = Ok m' /\ pid m' = s32 200 /\
  snoop_registered_pid m' = <[1%nat := s32 200]> (snoop_registered_pid demo_mcpd) /\
  nl_sent m' = nl_sent demo_mcpd ++ (if nonzero (pid demo_mcpd) && negb (pid demo_mcpd =? s32 200)
    then [(MCPD_MSG_UNREGISTER, pid demo_mcpd)] else []) ++ [(MCPD_MSG_REGISTER, s32 200)] /\
  igmp_admission m' = igmp_admission demo_mcpd /\ mld_admission m' = mld_admission demo_mcpd.
Proof.
  apply (registration_takes_over demo_env demo_mcpd (demo_register 1) 1 0 200).
  - done.
  - by vm_compute.
  - by vm_compute.
  - done.
  - unfold is_s32. lia.
Defined.

Lemma registration_kind_is_not_checked_witness :
  mcpd_nl_rcv_skb quiet_net demo_env demo_mcpd (demo_register 7) demo_start = Fault OutOfBounds.
Proof.
  apply (registration_kind_is_not_checked quiet_net demo_env demo_mcpd (demo_register 7) 7).
  - split; [exists 28; by vm_compute|by vm_compute|by vm_compute].
  - done.
  - done.
  - by vm_compute.
  - done.
  - done.
Defined.
