(* ===== verification/McpdSystem.v ===== *)
(** The bridge together with the netlink interface of the multicast daemon:
    messages of the daemon between the events of BrRun. *)

From S2P Require Import Prelude Str Stp StpSelect StpSafety Fdb FdbTable FdbRefine FdbProps Bridge BrExample BrWp BrForward BrForwardProps.
From S2P Require Import Groups GroupsProps GroupsServe BrIgmp BrMld BrMcast BrIgmpProps BrGroups BrMldProps BrMldExpiry.
From S2P Require Import BrInputProps BrRun Mcpd McpdProps.

Section System.
Context (nos : list Z) (small : Forall (fun no => no < 256) nos).
Abbreviation nports := (length nos).
Implicit Types (w : world) (m : mcpd).

Section Step.
Context (N : net) (HN : net_ok N nports) (HI : input_ok N).
Context (env : mcpd_env) (env_named : forall d, named (if_name env d)).
Abbreviation bridge_ok := (BrRun.bridge_ok nos).
Abbreviation quietly w := (fun w' => bridge_ok N w' /\ exists l, trace w' = trace w ++ l /\ Forall silent l).

Lemma quiet_emit x w : bridge_ok N w -> silent x -> quietly w (set_trace (trace w ++ [x]) w).
Proof.
  intros Hw Hx. split; [|exists [x]; split; [done|by apply Forall_singleton]].
  apply (bridge_tables nos N w); try done; apply Hw.
Qed.

(** *** Requests keep the bridge, its ports, and silence *)

Lemma serve_keeps w0 t q : request_ok N nports q -> keeps (quietly w0) t (serve N q;; mret tt).
Proof.
  intros Hq w H0 Ht. apply wp_and.
  - eapply wp_mono; [apply (request_step nos N); [apply H0|done]|cbv beta]. intros _ w'. by apply (quietly_trans nos N).
  - apply wp_bind. eapply wp_mono; [apply (serve_change N nports); [apply (bridge_mc nos), H0|done]|cbv beta].
    intros _ w' H. apply wp_ret. rewrite <- Ht. destruct H as [H|[H _]]; [|apply H]. by apply (served_same N nports) in H as (_ & ? & _).
Qed.

Lemma tell_spec e val p w : bridge_ok N w -> port_index (stp_of (tbl w)) (se_port_no (me_common e)) = Some p ->
  wp (mld_tell N e val) (fun _ w' => quietly w w' /\ tbl w' = tbl w) w.
Proof.
  intros Hw Hp. pose proof (fk_stp _ _ _ (da_fdb _ _ _ (bk_data _ _ _ Hw))) as [[Hb Hn] _].
  pose proof (port_index_in _ _ _ Hp) as Hlt. set (no := se_port_no (me_common e)) in *.
  assert (Hu : u8 no = no).
  { unfold port_index in Hp. apply find_some in Hp as [_ Hq]. destruct (ports _ !! p) as [pt|] eqn:Ept; [|done].
    apply Z.eqb_eq in Hq. rewrite <- Hq. assert (Hin : In pt (ports (br (stp_of (tbl w)))))
      by (apply list_elem_of_In; by eapply list_elem_of_lookup_2).
    pose proof (po_no pt (bo_port _ pt Hb Hin)). apply Z.mod_small. assert (port_no pt < 256); [|lia].
    apply (proj1 (Forall_forall _ _) small). rewrite <- Hn. by apply list_elem_of_In, in_map. }
  unfold mld_tell, mcast_snooping_call_chain, br_get_device_by_index. fold no. apply wp_bind, wp_bind, wp_gets, wp_ret. rewrite Hu, Hp.
  apply wp_bind. eapply wp_lift; [done|]. rewrite <- (length_map port_no), Hn in Hlt.
  destruct (dev_at_ok N (port_dev N p)) as (x & Ex & _); [by apply (nk_ports _ _ HN)|].
  apply wp_bind. eapply wp_lift; [done|]. destruct (if_wl x).
  - apply wp_modify. split; [by apply quiet_emit|done].
  - apply wp_ret. split; [by apply (quietly_refl nos N)|done].
Qed.

Lemma mld_serve_keeps w q : bridge_ok N w -> mld_request_ok N nports q ->
  wp (mld_serve N q) (fun _ w' => quietly w w' /\ tbl w' = tbl w) w.
Proof.
  intros Hw Hq. eapply wp_mono; [apply (mld_serve_served N nports HN); [by apply (bridge_mld nos small)|done]|cbv beta].
  intros _ w' H. split; [by apply (bridge_served6 nos)|]. by destruct (mld_served_same N nports w w' H) as [_ ->].
Qed.

Lemma serve_tell_keeps w0 t e q p : mld_request_ok N nports q -> port_index (stp_of t) (se_port_no (me_common e)) = Some p ->
  keeps (quietly w0) t (mld_serve_tell N e q).
Proof.
  intros Hq Hp w H0 Ht.
  assert (Htell : forall val w1, quietly w0 w1 -> tbl w1 = t ->
    wp (mld_tell N e val) (fun _ w' => quietly w0 w' /\ tbl w' = t) w1).
  { intros val w1 H1 Ht1. eapply wp_mono; [apply (tell_spec e val p); [apply H1|by rewrite Ht1]|cbv beta].
    intros _ w' [H Htw]. split; [by eapply (quietly_trans nos N)|congruence]. }
  assert (Hserve : forall w1, quietly w0 w1 -> tbl w1 = t -> wp (mld_serve N q) (fun _ w' => quietly w0 w' /\ tbl w' = t) w1).
  { intros w1 H1 Ht1. eapply wp_mono; [apply mld_serve_keeps; [apply H1|done]|cbv beta].
    intros _ w' [H Htw]. split; [by eapply (quietly_trans nos N)|congruence]. }
  assert (Hjoin : wp (mld_serve N q;; mld_tell N e SNOOPING_ADD_ENTRY) (fun _ w' => quietly w0 w' /\ tbl w' = t) w).
  { apply wp_bind. eapply wp_mono; [by apply Hserve|cbv beta]. intros _ w1 [H1 Ht1]. by apply Htell. }
  unfold mld_serve_tell. destruct q; try exact Hjoin. apply wp_bind. eapply wp_mono; [by apply Htell|cbv beta].
  intros _ w1 [H1 Ht1]. apply wp_bind. eapply wp_mono; [by apply Hserve|cbv beta]. intros _ w2 H2. by apply wp_ret.
Qed.

(** *** Messages *)

(** The bytes behind the header that a handler reads. *)
Definition payload (type : Z) : Z :=
  if type =? MCPD_MSG_REGISTER then 8
  else if type =? MCPD_MSG_IGMP_SNOOP_ENTRY then SIZEOF_IGMP_SNOOP_ENTRY
  else if type =? MCPD_MSG_MLD_SNOOP_ENTRY then SIZEOF_MLD_SNOOP_ENTRY
  else if type =? MCPD_MSG_IF_CHANGE then 20
  else if (type =? MCPD_MSG_SET_PRI_QUEUE) || (type =? MCPD_MSG_UPLINK_INDICATION) then 4
  else if type =? MCPD_MSG_IGMP_PURGE_REPORTER then 24
  else if type =? MCPD_MSG_MLD_PURGE_REPORTER then 36
  else if type =? MCPD_MSG_CONTROLS_ADMISSION then 2
  else if type =? MCPD_MSG_ADMISSION_RESULT then 12
  else 0.

Definition BODY : Z := NLMSG_HDRLEN + MCPD_HDRLEN.

(** What a message must be so that its handler does not go astray: long enough;
    a registration is of one of the two kinds; a purge is for the bridge or for
    nothing; a decision is for this bridge and names a packet. *)
Record message_ok (msg : list Z) : Prop := mk_message_ok {
  mo_head : zlen msg < NLMSG_HDRLEN \/ BODY <= zlen msg;
  mo_full : forall type, le16_at msg NLMSG_HDRLEN = Ok type -> BODY + payload type <= zlen msg;
  mo_kind : forall r, le16_at msg NLMSG_HDRLEN = Ok MCPD_MSG_REGISTER -> s32_at msg (BODY + 4) = Ok r ->
    r = SNOOP_REGISTRATION_TYPE_DEFAULT \/ r = SNOOP_REGISTRATION_TYPE_PRIMARY;
  mo_purge : forall type name d, le16_at msg NLMSG_HDRLEN = Ok type ->
    type = MCPD_MSG_IGMP_PURGE_REPORTER \/ type = MCPD_MSG_MLD_PURGE_REPORTER ->
    bytes_at msg BODY IFNAMSIZ = Ok name -> dev_get_by_name N env name = Ok (Some d) -> d = br_dev N;
  mo_admit : forall b p, le16_at msg NLMSG_HDRLEN = Ok MCPD_MSG_ADMISSION_RESULT ->
    le32_at msg BODY = Ok b -> le32_at msg (BODY + 4) = Ok p -> b = br_addr env /\ p <> 0
}.

Definition mcpd_ok m : Prop := length (snoop_registered_pid m) = 2%nat.

Lemma wp_drop {A} (k : M unit) (a : A) (P : world -> Prop) w : wp ((k;; mret a);; mret tt) (fun _ => P) w -> wp k (fun _ => P) w.
Proof. unfold wp, mbind, M_bind, mret, M_ret. by destruct (k w) as [[[] w']|]. Qed.

Lemma igmp_keeps (k : M unit) q w : serve N q = (k;; mret 0) -> bridge_ok N w -> request_ok N nports q -> wp k (fun _ => quietly w) w.
Proof. intros E Hw Hq. apply (wp_drop k 0). rewrite <- E. by apply (request_step nos N). Qed.

Lemma mld_keeps (k : M unit) q w : mld_serve N q = (k;; mret 0) -> bridge_ok N w -> mld_request_ok N nports q -> wp k (fun _ => quietly w) w.
Proof. intros E Hw Hq. apply (wp_drop k 0). rewrite <- E. by apply (request6_step nos small N HN). Qed.

Lemma quiet_if (b : bool) (k : M unit) w : bridge_ok N w -> wp k (fun _ => quietly w) w -> wp (if b then k else mret tt) (fun _ => quietly w) w.
Proof. intros Hw Hk. destruct b; [done|]. by apply (quietly_ret nos N). Qed.

Lemma if_change_message msg w : bridge_ok N w -> BODY + 20 <= zlen msg ->
  wp (mcpd_nl_process_if_change N env msg) (fun _ => quietly w) w.
Proof.
  intros Hw Hl. unfold BODY, NLMSG_HDRLEN, MCPD_HDRLEN in *. unfold mcpd_nl_process_if_change, NLMSG_HDRLEN, MCPD_HDRLEN.
  destruct (bytes_in msg (16 + 4) IFNAMSIZ) as (name & Ebytes & Hname); [unfold IFNAMSIZ; lia..|].
  destruct (le32_in msg (16 + 4 + IFNAMSIZ)) as (proto & Eproto); [unfold IFNAMSIZ; lia..|].
  apply wp_bind. eapply wp_lift; [done|]. apply wp_bind. eapply wp_lift; [done|].
  destruct (dev_by_name N env env_named name Hname) as (r & Er & Hr). apply wp_bind. eapply wp_lift; [done|].
  destruct r as [d|]; [|by apply (quietly_ret nos N)].
  assert (Hi : forall x w, bridge_ok N w -> wp (br_igmp_process_if_change N x) (fun _ => quietly w) w)
    by (intros x w1 Hw1; by apply (igmp_keeps _ (IfChange x))).
  assert (Hm : forall x w, bridge_ok N w -> wp (br_mld_process_if_change N x) (fun _ => quietly w) w)
    by (intros x w1 Hw1; by apply (mld_keeps _ (MldIfChange x))).
  destruct (is_ebridge N d); apply (quietly_bind nos N).
  - apply quiet_if; [done|]. apply (quietly_bind nos N); [by apply Hi|]. intros _ w1 Hw1. by apply (removal_step nos N).
  - intros _ w1 Hw1. apply quiet_if; [done|by apply Hm].
  - apply quiet_if; [done|by apply Hi].
  - intros _ w1 Hw1. apply quiet_if; [done|by apply Hm].
Qed.

Lemma cleanup_message w : bridge_ok N w -> wp (mcpd_nl_process_mc_fdb_cleanup N) (fun _ => quietly w) w.
Proof.
  intros Hw. unfold mcpd_nl_process_mc_fdb_cleanup. apply (quietly_bind nos N).
  - apply quiet_if; [done|]. apply (quietly_bind nos N); [by apply (igmp_keeps _ Cleanup)|].
    intros _ w1 Hw1. by apply (removal_step nos N).
  - intros _ w1 Hw1. apply quiet_if; [done|]. by apply (mld_keeps _ MldCleanup).
Qed.

Lemma purge_message msg wipe w : bridge_ok N w -> BODY + 20 <= zlen msg ->
  (forall name d, bytes_at msg BODY IFNAMSIZ = Ok name -> dev_get_by_name N env name = Ok (Some d) -> d = br_dev N) ->
  (forall no, wp (wipe no) (fun _ => quietly w) w) -> wp (purge_reporter N env msg wipe) (fun _ => quietly w) w.
Proof.
  intros Hw Hl Hd Hwipe. unfold BODY, NLMSG_HDRLEN, MCPD_HDRLEN in *. unfold purge_reporter, NLMSG_HDRLEN, MCPD_HDRLEN.
  destruct (bytes_in msg (16 + 4) IFNAMSIZ) as (name & Ebytes & Hname); [unfold IFNAMSIZ; lia..|].
  destruct (rd_Ok msg (16 + 4 + 16)) as (no & Eno & _); [lia..|].
  apply wp_bind. eapply wp_lift; [done|]. apply wp_bind. eapply wp_lift; [done|].
  destruct (dev_by_name N env env_named name Hname) as (r & Er & Hr). apply wp_bind. eapply wp_lift; [done|].
  destruct r as [d|]; [|by apply (quietly_ret nos N)]. rewrite (Hd name d Ebytes Er). unfold is_ebridge.
  rewrite Nat.eqb_refl. apply Hwipe.
Qed.

Lemma wipe_pending_step w : bridge_ok N w -> wp br_igmp_wipe_pending_skbs (fun _ => quietly w) w.
Proof.
  intros Hw. eapply wp_mono; [apply (free_delayed_spec _ (fun _ _ => true)); [apply (waits_delayed N), Hw|done]|cbv beta].
  intros _ w' [H _]. by eapply (bridge_released nos).
Qed.

Lemma control_message m msg w : bridge_ok N w -> mcpd_ok m -> BODY + 2 <= zlen msg ->
  wp (mcpd_nl_process_set_admission_control m msg) (fun m' w' => mcpd_ok m' /\ quietly w w') w.
Proof.
  intros Hw Hm Hl. unfold BODY, NLMSG_HDRLEN, MCPD_HDRLEN in *. unfold mcpd_nl_process_set_admission_control, NLMSG_HDRLEN, MCPD_HDRLEN.
  destruct (rd_Ok msg (16 + 4)) as (x & Ex & _); [lia..|]. destruct (rd_Ok msg (16 + 4 + 1)) as (y & Ey & _); [lia..|].
  apply wp_bind. eapply wp_lift; [done|]. apply wp_bind.
  eapply (wp_mono _ (fun m' w' => mcpd_ok m' /\ quietly w w')).
  - destruct (_ && _); [|by apply wp_ret; split; [|apply (quietly_refl nos N)]]. apply wp_bind.
    eapply wp_mono; [by apply wipe_pending_step|cbv beta]. intros _ w1 H1. by apply wp_ret.
  - intros m1 w1 [Hm1 H1]. apply wp_bind. eapply wp_lift; [done|]. apply wp_ret. split; [by destruct (_ && _)|done].
Qed.

Lemma registration_message m msg : mcpd_ok m -> BODY + 8 <= zlen msg ->
  (forall r, s32_at msg (BODY + 4) = Ok r -> r = SNOOP_REGISTRATION_TYPE_DEFAULT \/ r = SNOOP_REGISTRATION_TYPE_PRIMARY) ->
  exists m', mcpd_nl_process_registration env m msg = Ok m' /\ mcpd_ok m'.
Proof.
  intros Hm Hl Hr. unfold BODY, NLMSG_HDRLEN, MCPD_HDRLEN in *. unfold mcpd_nl_process_registration, NLMSG_HDRLEN, MCPD_HDRLEN.
  destruct (negb _); [by eexists|]. destruct (s32_in msg (16 + 4 + 4)) as (r & Er); [lia..|]. rewrite Er.
  destruct (le32_in msg 12) as (np & Enp); [lia..|]. cbn [mbind res_bind].
  assert (exists old, znth (snoop_registered_pid (asked m)) r = Some old) as (old & ->).
  { apply znth_is_Some. change (snoop_registered_pid (asked m)) with (snoop_registered_pid m). unfold zlen. rewrite Hm.
    destruct (Hr r Er) as [->| ->]; unfold SNOOP_REGISTRATION_TYPE_DEFAULT, SNOOP_REGISTRATION_TYPE_PRIMARY; lia. }
  cbn [of_option mbind res_bind]. rewrite Enp. cbn [mbind res_bind].
  assert (Hset : forall v, mcpd_ok (set_registered (<[Z.to_nat r := v]> (snoop_registered_pid (asked m))) (asked m))).
  { intros v. unfold mcpd_ok. cbn. by rewrite length_insert. }
  match goal with |- context [set_registered ?l ?x] => set (m1 := set_registered l x) end.
  assert (Hm1 : mcpd_ok m1) by apply Hset. unfold mcpd_nl_process_unregistration.
  repeat match goal with |- context [if ?b then _ else _] => destruct b end; by eexists.
Qed.

Lemma admission_message msg w : bridge_ok N w -> BODY + 12 <= zlen msg ->
  (forall b p, le32_at msg BODY = Ok b -> le32_at msg (BODY + 4) = Ok p -> b = br_addr env /\ p <> 0) ->
  wp (mcpd_nl_process_admission_result N env msg) (fun _ w' => bridge_ok N w' /\ exists i, causes N (Admission i true) w w') w.
Proof.
  intros Hw Hl Ha. unfold BODY, NLMSG_HDRLEN, MCPD_HDRLEN in *. unfold mcpd_nl_process_admission_result, NLMSG_HDRLEN, MCPD_HDRLEN.
  destruct (le32_in msg (16 + 4)) as (b & Eb); [lia..|]. destruct (le32_in msg (16 + 4 + 4)) as (p & Ep); [lia..|].
  destruct (le32_in msg (16 + 4 + 8)) as (a & Ea); [lia..|]. destruct (Ha b p Eb Ep) as [-> Hp0].
  apply wp_bind. eapply wp_lift; [done|]. apply wp_bind. eapply wp_lift; [done|]. apply wp_bind. eapply wp_lift; [done|].
  assert (Hdone : bridge_ok N w /\ exists i, causes N (Admission i true) w w).
  { split; [done|]. exists 0%nat. exists []. by rewrite app_nil_r. }
  destruct (_ || _); [|by apply wp_ret]. unfold process_admission. rewrite Z.eqb_refl. cbn [negb]. apply wp_bind, wp_gets.
  unfold admission_slot. destruct (List.find _ _) as [[[i|] z]|] eqn:Ef; cbn [fmap option_fmap option_map fst].
  - eapply wp_mono; [by apply (admission_step nos N HN)|cbv beta]. intros _ w' [H Hc]. split; [done|]. exists i.
    destruct (a =? _); [done|]. destruct Hc as (l & Htr & Hf). exists l. split; [done|]. eapply Forall_impl; [exact Hf|].
    intros [] Hx; try done. by destruct Hx as (d & Hd & _).
  - apply find_some in Ef as [_ Hz]. cbn in Hz. apply Z.eqb_eq in Hz. done.
  - by apply wp_ret.
Qed.

(** What may have come of a message. *)
Definition received m' w w' : Prop := mcpd_ok m' /\ bridge_ok N w' /\ exists i, causes N (Admission i true) w w'.

Lemma quiet_received m' w w' : mcpd_ok m' -> quietly w w' -> received m' w w'.
Proof.
  intros Hm [Hw (l & Hl & Hs)]. split; [done|]. split; [done|]. exists 0%nat. exists l. split; [done|].
  eapply Forall_impl; [exact Hs|]. by intros [].
Qed.

Lemma quiet_message (k : M unit) m w : mcpd_ok m -> wp k (fun _ => quietly w) w -> wp (k;; mret m) (fun m' => received m' w) w.
Proof.
  intros Hm Hk. apply wp_bind. eapply wp_mono; [exact Hk|cbv beta]. intros _ w' H. apply wp_ret. by apply quiet_received.
Qed.

Lemma same_message m' w : bridge_ok N w -> mcpd_ok m' -> wp (mret m') (fun m' => received m' w) w.
Proof. intros Hw Hm. apply wp_ret, quiet_received; [done|]. by apply (quietly_refl nos N). Qed.

Lemma entry_message m msg w : bridge_ok N w -> BODY + SIZEOF_IGMP_SNOOP_ENTRY <= zlen msg ->
  wp (mcpd_nl_process_igmp_snoop_entry N env m msg) (fun _ => quietly w) w.
Proof.
  intros Hw Hl. destruct (igmp_entry_requests N env env_named nports (quietly w) m msg w) as (e & w' & _ & _ & E & H & _);
    [by apply (quietly_refl nos N)|by apply (data_nports N nos), Hw|done|intros q; apply serve_keeps|]. by eapply wp_Ok.
Qed.

Lemma entry6_message m msg w : bridge_ok N w -> BODY + SIZEOF_MLD_SNOOP_ENTRY <= zlen msg ->
  wp (mcpd_nl_process_mld_snoop_entry N env m msg) (fun _ => quietly w) w.
Proof.
  intros Hw Hl. destruct (mld_entry_requests N env env_named nports (quietly w) m msg w) as (e & w' & _ & _ & E & H & _);
    [by apply (quietly_refl nos N)|by apply (data_nports N nos), Hw|done|intros e q p; apply serve_tell_keeps|]. by eapply wp_Ok.
Qed.

(** The 32-bit setting of a message. *)
Lemma setting_message m msg (f : Z -> mcpd -> mcpd) w : bridge_ok N w -> mcpd_ok m -> BODY + 4 <= zlen msg ->
  (forall v, mcpd_ok (f v m)) ->
  wp (val ← lift (s32_at msg BODY); mret (f val m)) (fun m' => received m' w) w.
Proof.
  intros Hw Hm Hl Hf. unfold BODY, NLMSG_HDRLEN, MCPD_HDRLEN in *. destruct (s32_in msg (16 + 4)) as (v & Ev); [lia..|].
  apply wp_bind. eapply wp_lift; [done|]. by apply same_message.
Qed.

Lemma message_spec m msg w : bridge_ok N w -> mcpd_ok m -> message_ok msg ->
  wp (mcpd_nl_rcv_skb N env m msg) (fun m' => received m' w) w.
Proof.
  intros Hw Hm [Hhead Hfull Hkind Hpurge Hadmit]. unfold mcpd_nl_rcv_skb. fold BODY. change BODY with 20 in Hhead.
  unfold NLMSG_HDRLEN at 1 2. destruct (Z.ltb_spec (zlen msg) 16); [by apply same_message|].
  destruct Hhead as [Hhead|Hhead]; [unfold NLMSG_HDRLEN in Hhead; lia|].
  destruct (le32_in msg 0) as (nl & En); [lia..|]. apply wp_bind. eapply wp_lift; [done|].
  destruct (_ || _); [by apply same_message|].
  destruct (le16_in msg NLMSG_HDRLEN) as (type & Et); [unfold NLMSG_HDRLEN; lia..|]. apply wp_bind. eapply wp_lift; [done|].
  assert (Hq : forall k, wp k (fun _ => quietly w) w -> wp (k;; mret m) (fun m' => received m' w) w) by (intros k; by apply quiet_message).
  pose proof (Hfull type Et) as Hf. cbv zeta.
  repeat match goal with |- context [if type =? ?x then _ else _] => destruct (Z.eqb_spec type x) as [->|_] end;
    [..|by apply same_message].
  - destruct (registration_message m msg Hm Hf (fun r => Hkind r Et)) as (m' & E & Hm').
    eapply wp_lift; [exact E|]. apply quiet_received; [done|]. by apply (quietly_refl nos N).
  - apply same_message; [done..|]. unfold mcpd_nl_process_unregistration. by destruct (nl_alloc _ _).
  - by apply Hq, entry_message.
  - by apply Hq, entry6_message.
  - by apply Hq, if_change_message.
  - by apply Hq, cleanup_message.
  - by apply setting_message.
  - by apply setting_message.
  - change (BODY + payload MCPD_MSG_IGMP_PURGE_REPORTER) with 44 in Hf. unfold mcpd_nl_process_igmp_purge_reporter.
    fold BODY. destruct (le32_in msg (BODY + 20)) as (grp & Eg); [unfold BODY, NLMSG_HDRLEN, MCPD_HDRLEN; lia..|].
    apply Hq, wp_bind. eapply wp_lift; [done|]. apply purge_message; [done|unfold BODY, NLMSG_HDRLEN, MCPD_HDRLEN; lia| |].
    + intros name d. apply (Hpurge _ name d Et). by left.
    + intros no. by apply (igmp_keeps _ (WipeReporter grp no)).
  - change (BODY + payload MCPD_MSG_MLD_PURGE_REPORTER) with 56 in Hf. unfold mcpd_nl_process_mld_purge_reporter.
    fold BODY. destruct (bytes_in msg (BODY + 20) 16) as (grp & Eg & _); [unfold BODY, NLMSG_HDRLEN, MCPD_HDRLEN; lia..|].
    apply Hq, wp_bind. eapply wp_lift; [done|]. apply purge_message; [done|unfold BODY, NLMSG_HDRLEN, MCPD_HDRLEN; lia| |].
    + intros name d. apply (Hpurge _ name d Et). by right.
    + intros no. by apply (mld_keeps _ (MldWipeReporter grp no)).
  - eapply wp_mono; [by apply control_message|cbv beta]. intros m' w' [? ?]. by apply quiet_received.
  - apply wp_bind. eapply wp_mono; [by apply admission_message; [..|intros b p; apply Hadmit]|cbv beta].
    intros _ w' [H1 H2]. by apply wp_ret.
Qed.
End Step.

(** ** The system *)

(** The data path sees the variables of the netlink interface. *)
Definition with_mcpd m (N : net) : net :=
  mk_net (fenv N) (devs N) (port_dev N) (BR_HAIRPIN_MODE N) (br_dev N) (br_dev_flags N) (group_fwd_mask N)
    (skb_alloc N) (blog_get N) (nf_hooks N) (nf_queue N) (wifi_iso_listen_forward_cb N)
    (wifi_iso_listen_local_cb N) (dns_hijack_hook N) (br_should_route_hook N) (wl_pktc_req_hook N) (ktime_get N)
    (igmp_rate_limit N) (igmp_proxy N) (igmp_snooping N) (mld_proxy N) (mld_snooping N) (pid m)
    (nth (Z.to_nat SNOOP_REGISTRATION_TYPE_PRIMARY) (snoop_registered_pid m) 0) (nonzero (igmp_admission m))
    (nonzero (mld_admission m)) (mcpd_alloc N) (mc_alloc N) (rep_alloc N) (mc_atomic N) (rep_atomic N) (br_mcast_blog_process N)
    (br_mcast_blog_process_mld N) (br_igmp_mc_fdb_salt N) (br_mld_mc_fdb_salt N).

Inductive sys_event : Type :=
  | Event (e : bridge_event)
  | Message (msg : list Z).

Definition sys_step (N : net) (env : mcpd_env) (e : sys_event) (s : mcpd * world) : res (mcpd * world) :=
  let '(m, w) := s in
  match e with
  | Event e => '(_, w) ← step (with_mcpd m N) e w; Ok (m, w)
  | Message msg => mcpd_nl_rcv_skb (with_mcpd m N) env m msg w
  end.

(** A history; what the environment does may be different each time. *)
Fixpoint sys_run (l : list (net * mcpd_env * sys_event)) (s : mcpd * world) : res (mcpd * world) :=
  match l with
  | [] => Ok s
  | (N, env, e) :: l => s ← sys_step N env e s; sys_run l s
  end.

Definition sys_ok (N : net) (s : mcpd * world) : Prop := mcpd_ok (fst s) /\ bridge_ok nos N (snd s).

(** What the system relies on at every step of a history. *)
Definition usual (N0 : net) (x : net * mcpd_env * sys_event) : Prop :=
  let '(N, env, e) := x in
  net_ok N nports /\ input_ok N /\ alike N0 N /\ (forall d, named (if_name env d)) /\
  match e with Event e => event_ok nos N e | Message msg => message_ok N env msg end.

(** What a step may send: what its event brings, or the packets of a decision. *)
Definition sys_causes (N : net) (e : sys_event) w w' : Prop :=
  match e with
  | Event e => causes N e w w'
  | Message _ => exists i, causes N (Admission i true) w w'
  end.

(** The timer of topology change notifications has run out at the root. *)
Definition sys_tcn_at_root (e : sys_event) w : Prop := match e with Event e => tcn_at_root e w | Message _ => False end.

Lemma sys_step_spec N0 N env e s : sys_ok N0 s -> usual N0 (N, env, e) ->
  (exists s', sys_step N env e s = Ok s' /\ sys_ok N0 s' /\ sys_causes N e (snd s) (snd s')) \/
  sys_tcn_at_root e (snd s) /\ sys_step N env e s = Fault NullDeref.
Proof.
  destruct s as [m w]. intros [Hm Hw] (HN & HI & Ha & Hnm & He). cbn [fst snd] in *. set (N' := with_mcpd m N).
  assert (Ha' : alike N0 N') by (by destruct Ha; split).
  assert (HN' : net_ok N' nports) by (by destruct HN; split). assert (HI' : input_ok N') by (by destruct HI; split).
  pose proof (bridge_alike nos N0 N' w Ha' Hw) as Hw'.
  assert (Hback : forall w2, bridge_ok nos N' w2 -> bridge_ok nos N0 w2).
  { intros w2. apply bridge_alike. by apply alike_sym. }
  destruct e as [e|msg]; cbn [sys_step].
  - assert (He' : event_ok nos N' e) by (destruct e; exact He).
    destruct (step_spec nos small N' HN' HI' e w Hw' He') as [(a & w1 & E & Hw1 & Hc)%wp_elim|[Ht E]]; [left|right].
    + exists (m, w1). fold N'. rewrite E. split; [done|]. split; [split; [done|by apply Hback]|exact Hc].
    + fold N'. by rewrite E.
  - left. assert (Hmsg : message_ok N' env msg) by (destruct He; by split).
    destruct (wp_elim _ _ _ (message_spec N' HN' env Hnm m msg w Hw' Hm Hmsg)) as (m1 & w1 & E & Hm1 & Hw1 & Hc).
    exists (m1, w1). split; [done|]. split; [split; [done|by apply Hback]|exact Hc].
Qed.

Lemma sys_run_app l1 l2 s : sys_run (l1 ++ l2) s = (s1 ← sys_run l1 s; sys_run l2 s1).
Proof.
  revert s. induction l1 as [|[[N env] e] l1 IH]; intros s; [done|]. cbn [app sys_run].
  destruct (sys_step N env e s) as [s1|]; [apply IH|done].
Qed.

Lemma sys_run_spec N0 l s : sys_ok N0 s -> Forall (usual N0) l ->
  (exists s', sys_run l s = Ok s' /\ sys_ok N0 s') \/
  (exists l1 x l2 s1, l = l1 ++ x :: l2 /\ sys_run l1 s = Ok s1 /\ sys_ok N0 s1 /\ sys_tcn_at_root (snd x) (snd s1) /\
    sys_run l s = Fault NullDeref).
Proof.
  intros Hs Hl. revert s Hs. induction Hl as [|[[N env] e] l Hu _ IH]; intros s Hs; [left; by exists s|]. cbn [sys_run].
  destruct (sys_step_spec N0 N env e s Hs Hu) as [(s1 & E & Hs1 & _)|[Ht E]]; rewrite E; cbn [mbind res_bind].
  - destruct (IH s1 Hs1) as [H|(l1 & x & l2 & s2 & -> & H1 & H2 & H3 & H4)]; [by left|right].
    exists ((N, env, e) :: l1), x, l2, s2. split; [done|]. cbn [sys_run]. by rewrite E.
  - right. exists [], (N, env, e), l, s. done.
Qed.

(** The bridge as a whole: frames from the ports and from the host,
    spanning tree packets, timers and settings, changes of the forwarding
    database, changes of devices, the timers of the group tables and the
    messages of the multicast daemon, in any order and with memory failing at
    any point, keep the invariant of the bridge, and the only fault they can
    run into is that of the notification timer at the root bridge.  [usual] says
    what is asked of them: the headers of a frame lie within it, messages are of
    full length and name what exists, hooks keep their contract, the address of
    the bridge is not set ([op_named]); and the ports are numbered below 256. *)
Theorem system_run_safe N0 l s : sys_ok N0 s -> Forall (usual N0) l ->
  (exists s', sys_run l s = Ok s' /\ sys_ok N0 s') \/
  (exists l1 x l2 s1, l = l1 ++ x :: l2 /\ sys_run l1 s = Ok s1 /\ sys_ok N0 s1 /\ sys_tcn_at_root (snd x) (snd s1) /\
    sys_run l s = Fault NullDeref).
Proof. apply sys_run_spec. Qed.

(** C5: take any sequence of frames, spanning tree inputs, changes of the
    database and of devices, requests, timers and messages of the daemon that
    are as [usual] asks (see [system_run_safe]).  At every point of it, a frame
    leaves the bridge only when one has come in from a port or from the host, or
    when a message of the daemon has decided over one of the waiting packets; it
    leaves by a port that is forwarding then, and not by the one it came from
    unless that is in hairpin mode; the host gets frames of the bridge device
    only. *)
Theorem frames_leave_by_forwarding_ports N0 l N env e s s1 s2 : sys_ok N0 s -> Forall (usual N0) (l ++ [(N, env, e)]) ->
  sys_run l s = Ok s1 -> sys_run (l ++ [(N, env, e)]) s = Ok s2 -> sys_causes N e (snd s1) (snd s2).
Proof.
  intros Hs [Hl He]%Forall_app E1 E2. apply Forall_inv in He. rewrite sys_run_app, E1 in E2. cbn in E2.
  destruct (sys_run_spec N0 l s Hs Hl) as [(s' & E & Hs1)|(? & ? & ? & ? & _ & _ & _ & _ & E)]; [|congruence].
  rewrite E in E1. injection E1 as ->.
  destruct (sys_step_spec N0 N env e s1 Hs1 He) as [(s3 & E3 & _ & Hc)|[_ E3]]; rewrite E3 in E2; [|done].
  by injection E2 as <-.
Qed.

End System.

(** ** Example *)

(** A broadcast frame from port 1, a message by which a host on port 2 joins and
    a request for one on the wireless port 3, both ports go down, the frame
    again, what was learned on port 1 is forgotten, a second later the timers of
    the groups run, and another daemon registers. *)
Definition demo_history : list (net * mcpd_env * sys_event) :=
  let s := demo_frame broadcast 0x0800 [] in
  map (fun e => (quiet_net, demo_env, e))
    [Event (Frame s); Message demo_entry; Event (Request6 (demo_join6 2 1)); Event (Spanning (DisablePort 1));
     Event (NetdevEvent 2 NETDEV_GOING_DOWN); Event (Frame s); Event (Database (DeleteByPort 0 1));
     Event (Spanning (Tick 1000)); Event (Request Timeout); Event (Request6 MldTimeout); Message (demo_register 1)].

Lemma demo_entry_ok : message_ok quiet_net demo_env demo_entry.
Proof.
  assert (Et : le16_at demo_entry NLMSG_HDRLEN = Ok MCPD_MSG_IGMP_SNOOP_ENTRY) by by vm_compute.
  split; [right; by vm_compute| | | |].
  - intros type E. rewrite Et in E. injection E as <-. by vm_compute.
  - intros r E. by rewrite Et in E.
  - intros type name d E Htype. rewrite Et in E. injection E as <-. by destruct Htype.
  - intros b p E. by rewrite Et in E.
Qed.

Lemma demo_register_ok : message_ok quiet_net demo_env (demo_register 1).
Proof.
  assert (Et : le16_at (demo_register 1) NLMSG_HDRLEN = Ok MCPD_MSG_REGISTER) by by vm_compute.
  split; [right; by vm_compute| | | |].
  - intros type E. rewrite Et in E. injection E as <-. by vm_compute.
  - intros r _ E. right. assert (Ok 1 = Ok r) as [= <-] by (rewrite <- E; by vm_compute). done.
  - intros type name d E Htype. rewrite Et in E. injection E as <-. by destruct Htype.
  - intros b p E. by rewrite Et in E.
Qed.

Lemma demo_usual : Forall (usual [1; 2; 3] quiet_net) demo_history.
Proof.
  assert (Hall : forall e, match e with Event e => event_ok [1; 2; 3] quiet_net e | Message msg => message_ok quiet_net demo_env msg end ->
    usual [1; 2; 3] quiet_net (demo_net (fun _ => []) false, demo_env, e)).
  { intros e He. split; [apply (demo_net_ok _ _ (fun _ => Forall_nil_2 _))|]. split; [apply demo_input_ok|]. split; [by split|].
    split; [exact demo_env_named|exact He]. }
  assert (Hf : event_ok [1; 2; 3] quiet_net (Frame (demo_frame broadcast 0x0800 []))).
  { split; [done|]. split; [unfold room; vm_compute; discriminate|]. split; [exact demo_frame_ok|]. by exists 0%nat. }
  repeat first [apply Forall_nil_2 | apply Forall_cons_2; [apply Hall; first [exact demo_entry_ok|exact demo_register_ok|done|cbn; lia]|]].
Qed.

(** How many frames have been sent. *)
Definition sent (w : world) : nat := length (xmitted (trace w)).

Lemma demo_sys_ok : sys_ok [1; 2; 3] quiet_net (demo_mcpd, demo_bridge).
Proof. split; [done|exact demo_bridge_ok]. Qed.

Lemma system_run_safe_witness :
  ((exists s', sys_run demo_history (demo_mcpd, demo_bridge) = Ok s' /\ sys_ok [1; 2; 3] quiet_net s') \/
   (exists l1 x l2 s1, demo_history = l1 ++ x :: l2 /\ sys_run l1 (demo_mcpd, demo_bridge) = Ok s1 /\
     sys_ok [1; 2; 3] quiet_net s1 /\ sys_tcn_at_root (snd x) (snd s1) /\
     sys_run demo_history (demo_mcpd, demo_bridge) = Fault NullDeref)) /\
  match sys_run demo_history (demo_mcpd, demo_bridge) with
  | Ok (m', w') => pid m' = 200 /\ sent w' = 1%nat /\ members w' = [] /\ concat (mld_mc_hash w') = [] /\
      existsb (fun x => match x with FlushEntry 3 _ => true | _ => false end) (trace w') = true /\
      num_fdb_entries (tbl w') = 0
  | Fault _ => False
  end.
Proof.
  split; [|by vm_compute].
  apply (system_run_safe [1; 2; 3] demo_small quiet_net demo_history (demo_mcpd, demo_bridge));
    [exact demo_sys_ok|exact demo_usual].
Defined.

(** The system after [n] events. *)
Definition demo_after (n : nat) : mcpd * world :=
  match sys_run (take n demo_history) (demo_mcpd, demo_bridge) with Ok s => s | Fault _ => (demo_mcpd, demo_bridge) end.

Lemma frames_leave_by_forwarding_ports_witness :
  sys_causes quiet_net (Event (Frame (demo_frame broadcast 0x0800 []))) demo_bridge (snd (demo_after 1)) /\
  sent (snd (demo_after 1)) = 1%nat.
Proof.
  split; [|by vm_compute].
  apply (frames_leave_by_forwarding_ports [1; 2; 3] demo_small quiet_net [] quiet_net demo_env
    (Event (Frame (demo_frame broadcast 0x0800 []))) (demo_mcpd, demo_bridge) (demo_mcpd, demo_bridge)).
  - exact demo_sys_ok.
  - apply Forall_singleton. exact (Forall_inv demo_usual).
  - reflexivity.
  - vm_compute. reflexivity.
Defined.
