(* ===== verification/BrPorts.v ===== *)
(** The bridge while ports come and go: what a port holds of its device is
    taken and given back, errors leave no trace, the bridge device has the
    least MTU of its ports, and the whole system of McpdSystem keeps its
    invariant when ports are added and removed between its events.  At the end,
    what the code leaves behind when these theorems' conditions do not hold. *)

From S2P Require Import Prelude Str Stp StpSelect StpState StpSafety Fdb FdbTable FdbRefine FdbProps.
From S2P Require Import Bridge BrExample BrWp BrForward BrForwardProps Groups GroupsProps GroupsServe BrIgmp BrMld BrMcast.
From S2P Require Import BrIgmpProps BrDelivery BrGroups BrMldProps BrMldExpiry BrInput BrInputProps BrRun BrIf BrIfProps Mcpd McpdProps McpdSystem.

(** ** The MTU *)

Section Mtu.
Context (N : net).

(** The step of the loop of [br_min_mtu]. *)
Abbreviation least := (fun (m : res Z) p => m ← m; x ← dev_at N (port_dev N p);
  Ok (if (m =? 0) || (mtu x <? u32 m) then s32 (mtu x) else m)).

Definition mtu_of (p : nat) : option Z := mtu <$> devs N !! port_dev N p.

Lemma least_total l m : Forall (fun p => (port_dev N p < length (devs N))%nat) l -> exists r, foldl least (Ok m) l = Ok r.
Proof.
  intros Hl. revert m. induction Hl as [|p l Hp _ IH]; intros m; [by eexists|]. cbn [foldl]. destruct (dev_at_ok N _ Hp) as (x & -> & _).
  cbn [mbind res_bind]. apply IH.
Qed.

Lemma min_mtu_total b n : net_ok N n -> length (ports b) = n -> exists m, br_min_mtu N b = Ok m.
Proof.
  intros HN Hn. unfold br_min_mtu. destruct (ports b) as [|pt l] eqn:Ep; [by eexists|]. apply least_total.
  apply Forall_forall. intros p Hp%elem_of_seq. apply (nk_ports _ _ HN). rewrite <- Hn. lia.
Qed.

(** The least of [m] (unless 0) and the MTUs of [l]. *)
Lemma least_spec l m : 0 <= m < 2 ^ 31 -> Forall (fun p => exists v, mtu_of p = Some v /\ 0 < v < 2 ^ 31) l ->
  exists r, foldl least (Ok m) l = Ok r /\ 0 <= r < 2 ^ 31 /\ (m <> 0 -> 0 < r <= m) /\
    (forall p v, p ∈ l -> mtu_of p = Some v -> 0 < r <= v) /\ (r = m \/ exists p, p ∈ l /\ mtu_of p = Some r).
Proof.
  intros Hm Hl. revert m Hm. induction Hl as [|p l (v & Ev & Hv) _ IH]; intros m Hm.
  { exists m. split; [done|]. split; [done|]. split; [lia|]. split; [intros p v Hp; by apply elem_of_nil in Hp|by left]. }
  cbn [foldl]. unfold mtu_of in Ev. destruct (devs N !! port_dev N p) as [x|] eqn:Ex; [|done]. injection Ev as Ev.
  unfold dev_at. rewrite Ex. cbn [of_option mbind res_bind]. rewrite Ev.
  assert (Hs : s32 v = v) by (unfold s32; ints). assert (Hu : u32 m = m) by ints. rewrite Hs, Hu.
  set (m' := if (m =? 0) || (v <? m) then v else m).
  assert (Hm' : 0 <= m' < 2 ^ 31 /\ 0 < m' <= v /\ (m <> 0 -> m' <= m) /\ (m' = m \/ m' = v)).
  { unfold m'. destruct (Z.eqb_spec m 0), (Z.ltb_spec v m); cbn; lia. }
  destruct (IH m') as (r & E & Hr & Hrm & Hrl & Hro); [lia|]. exists r. split; [done|]. split; [done|].
  specialize (Hrm ltac:(lia)). split; [lia|]. assert (Hmv : mtu_of p = Some v) by (unfold mtu_of; by rewrite Ex, <- Ev).
  split.
  - intros q u Hq Hqu. apply elem_of_cons in Hq as [->|Hq]; [|by eapply Hrl]. rewrite Hmv in Hqu. injection Hqu as <-. lia.
  - destruct Hro as [->|(q & Hq & Hqv)].
    + destruct (proj2 (proj2 (proj2 Hm'))) as [->| ->]; [by left|right]. exists p. split; [apply elem_of_cons; by left|done].
    + right. exists q. split; [apply elem_of_cons; by right|done].
Qed.
End Mtu.

(** [adjust_mtu] changes the MTU of the bridge device, if anything. *)
Definition with_mtu (v : Z) (N : net) : net :=
  set_topology (alter (set_mtu v) (br_dev N) (devs N)) (port_dev N) (BR_HAIRPIN_MODE N) N.

Lemma with_mtu_devs v N e :
  devs (with_mtu v N) !! e = (fun x => if Nat.eqb e (br_dev N) then set_mtu v x else x) <$> devs N !! e.
Proof.
  unfold with_mtu. cbn [devs set_topology].
  destruct (Nat.eqb_spec e (br_dev N)) as [->|He]; [rewrite list_lookup_alter_eq|rewrite list_lookup_alter_ne by done];
    by destruct (devs N !! _).
Qed.

Lemma adjust_mtu_spec s n : net_ok (if_net s) n -> length (ports (br (stp_now s))) = n ->
  exists m x s', br_min_mtu (if_net s) (br (stp_now s)) = Ok m /\ devs (if_net s) !! br_dev (if_net s) = Some x /\
    adjust_mtu s = Ok s' /\
    ((s' = s /\ (u32 m = mtu x \/ m < 68)) \/ (s' = set_if_net (with_mtu m (if_net s)) s /\ 68 <= m)).
Proof.
  intros HN Hn. destruct (min_mtu_total (if_net s) _ n HN Hn) as (m & Em).
  destruct (lookup_lt_is_Some_2 _ _ (nk_br_dev _ _ HN)) as [x Ex]. exists m, x.
  unfold adjust_mtu, dev_set_mtu, br_change_mtu, dev_at. rewrite Em, Ex. cbn [of_option mbind res_bind].
  destruct (Z.eqb_spec (u32 m) (mtu x)); [eexists; split; [done|]; split; [done|]; split; [done|]; left; auto|].
  destruct (Z.ltb_spec m 0); [eexists; split; [done|]; split; [done|]; split; [done|]; left; split; [done|right; lia]|].
  rewrite Z.ltb_irrefl, orb_false_r.
  destruct (Z.ltb_spec m 68); eexists; (split; [done|]); (split; [done|]); (split; [done|]); [left; auto|right; auto].
Qed.

(** The MTUs of the ports are ones the bridge may have. *)
Definition mtus_fit (n : nat) (N : net) : Prop := forall p, (p < n)%nat -> exists v, mtu_of N p = Some v /\ 68 <= v < 2 ^ 31.

(** The bridge device has the least MTU of its ports. *)
Definition mtu_least (n : nat) (N : net) : Prop := exists m,
  mtu <$> devs N !! br_dev N = Some m /\
  (forall p v, (p < n)%nat -> mtu_of N p = Some v -> m <= v) /\
  exists p, (p < n)%nat /\ mtu_of N p = Some m.

(** The MTUs of all devices but the bridge are as they were. *)
Definition mtus_same (N N' : net) : Prop := br_dev N' = br_dev N /\
  forall d, d <> br_dev N -> mtu <$> devs N' !! d = mtu <$> devs N !! d.

Lemma min_mtu_least s n m : net_ok (if_net s) n -> length (ports (br (stp_now s))) = n -> (0 < n)%nat -> mtus_fit n (if_net s) ->
  br_min_mtu (if_net s) (br (stp_now s)) = Ok m ->
  68 <= m < 2 ^ 31 /\ (forall p v, (p < n)%nat -> mtu_of (if_net s) p = Some v -> m <= v) /\
  exists p, (p < n)%nat /\ mtu_of (if_net s) p = Some m.
Proof.
  intros HN Hn Hpos Hfit Em. unfold br_min_mtu in Em. destruct (ports (br (stp_now s))) as [|pt l] eqn:Ep; [cbn in Hn; lia|].
  destruct (least_spec (if_net s) (seq 0 (length (pt :: l))) 0) as (r & Er & Hr & _ & Hle & Hat); [lia| |].
  { apply Forall_forall. intros p Hp%elem_of_seq. destruct (Hfit p) as (v & Ev & Hv); [lia|]. exists v. split; [done|lia]. }
  rewrite Em in Er. injection Er as <-.
  assert (Hin : forall p, (p < n)%nat -> p ∈ seq 0 (length (pt :: l))) by (intros p Hp; apply elem_of_seq; lia).
  assert (Hex : exists p, (p < n)%nat /\ mtu_of (if_net s) p = Some m).
  { destruct Hat as [->|(p & Hp%elem_of_seq & Hpm)]; [exfalso|exists p; split; [lia|done]].
    destruct (Hfit O Hpos) as (v & Ev & _). pose proof (Hle O v (Hin O Hpos) Ev). lia. }
  split; [|split; [intros p v Hp Hpv; by apply (Hle p v (Hin p Hp))|done]].
  destruct Hex as (p & Hp & Hpm). destruct (Hfit p Hp) as (v & Ev & Hv). rewrite Hpm in Ev. by injection Ev as <-.
Qed.

(** What [adjust_mtu] is for. *)
Lemma adjust_mtu_least s s' n : net_ok (if_net s) n -> attached (if_net s) n -> length (ports (br (stp_now s))) = n ->
  (0 < n)%nat -> mtus_fit n (if_net s) -> adjust_mtu s = Ok s' -> mtu_least n (if_net s') /\ mtus_same (if_net s) (if_net s').
Proof.
  intros HN Ha Hn Hpos Hfit E'. destruct (adjust_mtu_spec s n HN Hn) as (m & x & s1 & Em & Ex & E & Hs1).
  rewrite E in E'. injection E' as ->. destruct (min_mtu_least s n m HN Hn Hpos Hfit Em) as (Hm & Hle & q & Hq & Hqm).
  destruct Hs1 as [[-> [Hu|?]]|[-> _]]; [|lia|].
  - split; [|by split]. exists m. split; [|split; [done|by exists q]]. rewrite Ex. cbn. f_equal. rewrite <- Hu. ints.
  - assert (Hkept : forall d, d <> br_dev (if_net s) -> mtu <$> devs (with_mtu m (if_net s)) !! d = mtu <$> devs (if_net s) !! d).
    { intros d Hd. rewrite with_mtu_devs, (proj2 (Nat.eqb_neq _ _) Hd). by destruct (devs (if_net s) !! d). }
    assert (Hsame : forall p, (p < n)%nat -> mtu_of (with_mtu m (if_net s)) p = mtu_of (if_net s) p).
    { intros p Hp. apply Hkept. change (port_dev (if_net s) p <> br_dev (if_net s)). intros Ebr. destruct (at_port _ _ Ha p Hp) as (y & Ey & Hy).
      rewrite Ebr in Ey. by rewrite (at_br _ _ Ha y Ey) in Hy. }
    cbn [if_net set_if_net]. split; [|by split]. exists m. change (br_dev (with_mtu m (if_net s))) with (br_dev (if_net s)).
    split; [rewrite with_mtu_devs, Ex; cbn; by rewrite Nat.eqb_refl|].
    split; [intros p v Hp; rewrite Hsame by done; by apply Hle|exists q; by rewrite Hsame].
Qed.

(** ** The invariant *)

Section Invariant.
Context (base : nat -> Z * Z) (live0 : Z).

(** What the bridge holds of the device [d], over what others hold. *)
Definition held (d : nat) (b : bool) : dev_links :=
  mk_links (fst (base d) + Z.b2z b) (snd (base d) + Z.b2z b) b b b.

Record ifs_ok (nos : list Z) (s : ifs) : Prop := mk_ifs_ok {
  io_small : Forall (fun no => no < 256) nos;
  io_bridge : bridge_ok nos (if_net s) (if_world s);
  io_net : net_ok (if_net s) (length nos);
  io_attached : attached (if_net s) (length nos);
  io_input : input_ok (if_net s);
  io_links : forall d, if_links s d = held d (is_port (if_net s) d);
  io_live : if_live s = live0 + zlen nos
}.

Lemma on_world_ok m s (Q : ifs -> Prop) :
  wp (m (if_net s)) (fun _ w => Q (set_if_world w s)) (if_world s) -> safe_in Q (on_world m s).
Proof.
  unfold wp, on_world. destruct (m (if_net s) (if_world s)) as [[[] w]|]; [|done]. intros H. by eexists.
Qed.

Section Ports.
Context (nos : list Z).

Lemma world_keeps s w : ifs_ok nos s -> bridge_ok nos (if_net s) w -> ifs_ok nos (set_if_world w s).
Proof. intros [? ? ? ? ? ? ?] H. by split. Qed.

(** [s'] differs from [s] in the world only. *)
Definition step_ok s s' : Prop := ifs_ok nos s' /\ if_net s' = if_net s.

Lemma spanning_keeps i s : ifs_ok nos s -> valid nos i -> i <> TcnTimer -> safe_in (step_ok s) (on_world (fun N => spanning N i) s).
Proof.
  intros Hs Hv Hi. apply on_world_ok.
  destruct (spanning_spec nos (io_small _ _ Hs) (if_net s) (io_net _ _ Hs) i (if_world s) (io_bridge _ _ Hs) Hv) as [H|[[[= ->] _] _]]; [|done].
  eapply wp_mono; [exact H|cbv beta]. intros _ w [Hw _]. split; [by apply world_keeps|done].
Qed.

Lemma database_keeps op s : ifs_ok nos s -> op_named nos op -> safe_in (step_ok s) (on_world (fun N => database N op) s).
Proof.
  intros Hs Hop. apply on_world_ok. eapply wp_mono; [apply (database_spec nos); [apply Hs|done]|cbv beta].
  intros _ w [Hw _]. split; [by apply world_keeps|done].
Qed.

Lemma netdev_keeps d event s : ifs_ok nos s -> (d < length (devs (if_net s)))%nat ->
  safe_in (step_ok s) (on_world (fun N => br_mcast_handle_netdevice_events N d event) s).
Proof.
  intros Hs Hd. apply on_world_ok.
  eapply wp_mono; [apply (netdev_step nos (io_small _ _ Hs)); [apply Hs|apply Hs|done]|cbv beta]. intros _ w [Hw _]. split; [by apply world_keeps|done].
Qed.

Lemma ifs_nports s : ifs_ok nos s -> length (ports (br (stp_now s))) = length nos.
Proof. intros Hs. apply (fdb_nports (if_net s) nos (tbl (if_world s))), (da_fdb _ _ _ (bk_data _ _ _ (io_bridge _ _ Hs))). Qed.

(** The environment changes; ports and devices do not. *)
Lemma ifs_other s N' : ifs_ok nos s -> akin (if_net s) N' -> net_ok N' (length nos) -> input_ok N' ->
  (forall p, port_dev N' p = port_dev (if_net s) p) ->
  (forall e, (fun x => (rx_handler_data x, flagged x)) <$> devs N' !! e = (fun x => (rx_handler_data x, flagged x)) <$> devs (if_net s) !! e) ->
  ifs_ok nos (set_if_net N' s).
Proof.
  intros [H1 H2 H3 H4 H5 H6 H7] Hak HN HI Hpd Hdev.
  assert (Hback : forall e x, devs N' !! e = Some x -> exists y, devs (if_net s) !! e = Some y /\
    rx_handler_data y = rx_handler_data x /\ flagged y = flagged x).
  { intros e x Ex. specialize (Hdev e). rewrite Ex in Hdev. destruct (devs (if_net s) !! e) as [y|]; [|done]. cbn in Hdev. injection Hdev as H H'. by exists y. }
  split; try done.
  - by apply (bridge_akin nos (if_net s)).
  - split; cbn [if_net set_if_net].
    + intros p Hp. rewrite Hpd. destruct (at_port _ _ H4 p Hp) as (y & Ey & Hy). specialize (Hdev (port_dev (if_net s) p)).
      rewrite Ey in Hdev. destruct (devs N' !! _) as [x|]; [|done]. cbn in Hdev. injection Hdev as Hx _. exists x. split; [done|]. congruence.
    + intros e x q Ex Hq. destruct (Hback e x Ex) as (y & Ey & Hy & Hf). rewrite Hpd, <- Hf. apply (at_rx _ _ H4 e y); congruence.
    + intros x Ex. rewrite (ak_br_dev _ _ Hak) in Ex. destruct (Hback _ x Ex) as (y & Ey & <- & _). by apply (at_br _ _ H4).
  - intros d. cbn [if_links set_if_net if_net]. rewrite (H6 d). f_equal. unfold is_port. specialize (Hdev d).
    destruct (devs N' !! d) as [x|], (devs (if_net s) !! d) as [y|]; try done. cbn in Hdev. injection Hdev as -> _. done.
Qed.

Lemma mtu_adjusts s : ifs_ok nos s -> safe_in (fun s' => ifs_ok nos s' /\ forall p, port_dev (if_net s') p = port_dev (if_net s) p) (adjust_mtu s).
Proof.
  intros Hs. destruct (adjust_mtu_spec s (length nos) (io_net _ _ Hs) (ifs_nports s Hs)) as (m & x & s' & _ & _ & E & [[-> _]|[-> _]]);
    (eexists; split; [exact E|]); [done|]. split; [|done].
  assert (Hl : length (devs (with_mtu m (if_net s))) = length (devs (if_net s))) by (cbn; by rewrite length_alter).
  apply ifs_other; [done|by apply topology_akin| | |done|].
  - apply (topology_ok (if_net s) (length nos) (io_net _ _ Hs)); [done| | |apply (io_net _ _ Hs)].
    + intros e y Hy. change (devs (with_mtu m (if_net s)) !! e = Some y) in Hy. rewrite with_mtu_devs in Hy.
      destruct (devs (if_net s) !! e) as [z|]; [|done]. injection Hy as <-. exists z. by destruct (Nat.eqb e _).
    + intros e y q Hy Hq. change (devs (with_mtu m (if_net s)) !! e = Some y) in Hy. rewrite with_mtu_devs in Hy.
      destruct (devs (if_net s) !! e) as [z|] eqn:Ez; [|done]. injection Hy as <-. apply (nk_rx _ _ (io_net _ _ Hs) e z q Ez). by destruct (Nat.eqb e _).
  - destruct (io_input _ _ Hs) as [? ? ? ?]. by split.
  - intros e. rewrite with_mtu_devs. destruct (devs (if_net s) !! e) as [z|]; [|done]. cbn. by destruct (Nat.eqb e _).
Qed.

(** What [adjust_mtu] does to the MTUs. *)
Definition lowered s s' : Prop := (0 < length nos)%nat -> mtus_fit (length nos) (if_net s) ->
  mtu_least (length nos) (if_net s') /\ mtus_same (if_net s) (if_net s').

Lemma mtu_keeps s : ifs_ok nos s ->
  safe_in (fun s' => ifs_ok nos s' /\ (forall p, port_dev (if_net s') p = port_dev (if_net s) p) /\ lowered s s') (adjust_mtu s).
Proof.
  intros Hs. destruct (mtu_adjusts s Hs) as (s' & E & Hs' & Hp). exists s'. split; [done|]. split; [done|]. split; [done|].
  intros Hpos Hfit. apply (adjust_mtu_least s s' (length nos)); try done; [apply Hs|apply Hs|by apply ifs_nports].
Qed.

(** *** A port goes *)

Lemma held_off d : add_holds (-1) (set_kobj false (set_master false (add_promiscuity (-1) (set_sysfs_link false (held d true))))) = held d false.
Proof. unfold held, add_holds, set_kobj, set_master, add_promiscuity, set_sysfs_link. cbn. f_equal; lia. Qed.

(** What is left to do once nothing refers to the port. *)
Lemma unplugged p no s w d : ifs_ok nos s -> nos !! p = Some no -> d = port_dev (if_net s) p ->
  bridge_ok nos (if_net s) w -> root_port (br (stp_of (tbl w))) <> no -> refers (fun k => k <> p) w ->
  ifs_ok (delete p nos) (mk_ifs (unplug_net p (length nos) (if_net s)) (unplug_world p (length nos) w)
    (fun e => if Nat.eqb e d
      then add_holds (-1) (set_kobj false (set_master false (add_promiscuity (-1) (set_sysfs_link false (if_links s e)))))
      else if_links s e) (if_live s + -1)).
Proof.
  intros Hs Hno -> Hw Hr Href. pose proof (lookup_lt_Some _ _ _ Hno) as Hp.
  assert (Hlen : length (delete p nos) = pred (length nos)) by (rewrite length_delete by (by eexists); lia).
  destruct Hs as [H1 H2 H3 H4 H5 H6 H7]. split; cbn [if_net if_world if_links if_live].
  - by apply Forall_delete.
  - apply (bridge_relabelled nos (delete p nos) (if_net s) (unplug_net p (length nos) (if_net s)) (below p (length nos)) (fun k => k <> p));
      try done.
    + apply topology_akin. apply unplug_length.
    + intros k Hk Hne. rewrite Hlen. by apply below_lt.
    + intros k k' Hk Hk' E. rewrite <- (above_below (length nos) p k), <- (above_below (length nos) p k') by done. by rewrite E.
    + apply (wf_without nos p no); [apply (da_fdb _ _ _ (bk_data _ _ _ Hw))|done|done].
    + assert (Hd : length (dirty w) = length nos) by apply (bk_data _ _ _ Hw).
      change (length (delete p (dirty w)) = length (delete p nos)). rewrite length_delete, Hlen, Hd; [lia|].
      apply lookup_lt_is_Some_2. by rewrite Hd.
  - rewrite Hlen. by apply unplug_ok.
  - rewrite Hlen. by apply unplug_attached.
  - destruct H5 as [? ? ? ?]. by split.
  - intros e. rewrite (unplug_is_port (if_net s) (length nos)) by done.
    destruct (Nat.eqb_spec e (port_dev (if_net s) p)) as [->|]; cbn [negb andb]; [|apply H6].
    rewrite H6. replace (is_port (if_net s) _) with true; [apply held_off|].
    destruct (at_port _ _ H4 p Hp) as (x & Ex & Hx). unfold is_port. by rewrite Ex, Hx.
  - rewrite H7. unfold zlen. rewrite Hlen. lia.
Qed.

Lemma del_nbp_spec p no s : ifs_ok nos s -> nos !! p = Some no ->
  netdev_path_is_leaf (if_net s) (port_dev (if_net s) p) = Ok true ->
  safe_in (fun s' => ifs_ok (delete p nos) s' /\ if_net s' = unplug_net p (length nos) (if_net s)) (del_nbp p s).
Proof.
  intros Hs Hno Hl. pose proof (lookup_lt_Some _ _ _ Hno) as Hp. pose proof Hs as [Hsm Hw HN Ha _ _ _].
  assert (Hd : (port_dev (if_net s) p < length (devs (if_net s)))%nat) by (by apply (nk_ports _ _ HN)).
  destruct (wp_elim _ _ _ (disable_spec nos Hsm (if_net s) HN p no (if_world s) Hw Hno)) as ([] & w1 & E1 & Hw1 & Hr1).
  destruct (wp_elim _ _ _ (wp_and _ _ _ _ (database_spec nos (if_net s) (DeleteByPort p 1) w1 Hw1 I)
    (database_delete nos (if_net s) p 1 w1 Hw1))) as ([] & w2 & E2 & [Hw2 _] & Hs2 & He2).
  destruct (wp_elim _ _ _ (wp_and _ _ _ _ (netdev_step nos Hsm (if_net s) HN _ NETDEV_CHANGE w2 Hw2 Hd)
    (netdev_clears nos Hsm (if_net s) HN _ w2 Hw2 Hd))) as ([] & w3 & E3 & [Hw3 _] & Ht3 & Hc3).
  unfold del_nbp, on_world, upd_links, stp_now. cbn [if_net if_world]. rewrite E1. cbn [mbind res_bind set_if_world if_net if_world].
  rewrite E2. cbn [mbind res_bind set_if_world if_net if_world]. rewrite E3. cbn [mbind res_bind set_if_world if_net if_world].
  assert (Hn : length (ports (br (stp_of (tbl w3)))) = length nos)
    by apply (fdb_nports (if_net s) nos (tbl w3)), (da_fdb _ _ _ (bk_data _ _ _ Hw3)).
  rewrite Hn. eexists. split; [reflexivity|]. split; [|done].
  assert (Href : refers (fun k => k <> p) w3).
  { destruct (Hc3 Hl) as [C4 C6]. split.
    - rewrite Ht3. eapply Forall_impl; [by apply He2|]. cbv beta. intros e He q Hq ->. done.
    - eapply Forall_impl; [exact C4|]. intros l Hl4. eapply Forall_impl; [exact Hl4|]. cbv beta. intros e He Hq.
      unfold on_device in He. cbn in He. by rewrite Hq, Nat.eqb_refl in He.
    - eapply Forall_impl; [exact C6|]. intros l Hl6. eapply Forall_impl; [exact Hl6|]. cbv beta. intros e He Hq.
      unfold on_device in He. cbn in He. by rewrite Hq, Nat.eqb_refl in He. }
  assert (Hr3 : root_port (br (stp_of (tbl w3))) <> no) by (by rewrite Ht3, Hs2).
  destruct (unplugged p no s w3 _ Hs Hno eq_refl Hw3 Hr3 Href) as [K1 K2 K3 K4 K5 K6 K7]. split; try done.
  intros e. etransitivity; [|exact (K6 e)]. cbn [if_links add_live set_if_world set_if_net]. by destruct (Nat.eqb e _).
Qed.

(** The port of a device. *)
Lemma port_of_dev d s : ifs_ok nos s -> (d < length (devs (if_net s)))%nat ->
  (is_port (if_net s) d = false /\ br_port_get_rtnl (if_net s) d = Ok None) \/
  exists p no, br_port_get_rtnl (if_net s) d = Ok (Some p) /\ nos !! p = Some no /\ port_dev (if_net s) p = d /\ is_port (if_net s) d = true.
Proof.
  intros Hs Hd. destruct (lookup_lt_is_Some_2 _ _ Hd) as [x Ex]. unfold br_port_get_rtnl, br_port_get_rcu, is_port, dev_at. rewrite Ex.
  cbn [of_option mbind res_bind]. fold (flagged x). destruct (rx_handler_data x) as [p|] eqn:Ep; [right|left; split; [done|by destruct (flagged x)]].
  destruct (at_rx _ _ (io_attached _ _ Hs) d x p Ex Ep) as [Hpd ->]. destruct (lookup_lt_is_Some_2 nos p) as [no Hno].
  { by apply (nk_rx _ _ (io_net _ _ Hs) d x). }
  by exists p, no.
Qed.
End Ports.

(** [br_del_if] of a device that no other is stacked on. *)
Lemma del_if_spec nos d s : ifs_ok nos s -> (d < length (devs (if_net s)))%nat -> netdev_path_is_leaf (if_net s) d = Ok true ->
  (is_port (if_net s) d = false /\ br_del_if d s = Ok (- EINVAL, s)) \/
  exists p s', port_dev (if_net s) p = d /\ (p < length nos)%nat /\ br_del_if d s = Ok (0, s') /\ ifs_ok (delete p nos) s' /\
    if_net s' = unplug_net p (length nos) (if_net s).
Proof.
  intros Hs Hd Hl. unfold br_del_if. destruct (port_of_dev nos d s Hs Hd) as [[Hp ->]|(p & no & -> & Hno & <- & Hp)]; [by left|right].
  destruct (del_nbp_spec nos p no s Hs Hno Hl) as (s1 & E1 & Hs1 & Hn1).
  destruct (spanning_keeps _ RecalculateBridgeId s1 Hs1 I ltac:(done)) as (s2 & E2 & Hs2 & Hn2).
  exists p, s2. cbn [mbind res_bind]. rewrite E1. cbn [mbind res_bind]. rewrite E2.
  split; [done|]. split; [by eapply lookup_lt_Some|]. split; [done|]. split; [done|congruence].
Qed.

(** *** A port comes *)

(** [s'] is [s], but that the daemon of the spanning tree has heard of a port. *)
Record untouched (s s' : ifs) : Prop := mk_untouched {
  un_net : if_net s' = if_net s;
  un_links : forall d, if_links s' d = if_links s d;
  un_live : if_live s' = if_live s;
  un_world : if_world s' = if_world s \/ exists no, if_world s' =
    set_tbl (set_stp_of (emit (NotifyPort no DISABLED) (stp_now s)) (tbl (if_world s))) (if_world s)
}.

Lemma untouched_ok nos s s' : untouched s s' -> ifs_ok nos s -> ifs_ok nos s'.
Proof.
  intros [Hn Hl Hv Hw] [H1 H2 H3 H4 H5 H6 H7]. split; rewrite ?Hn; try done.
  - destruct Hw as [->|(no & ->)]; [done|]. apply bridge_tbl; [|done]. destruct (da_fdb _ _ _ (bk_data _ _ _ H2)) as [Ht Hs Hp].
    split; [by apply set_stp_table|by apply wf_emit|done].
  - intros d. rewrite Hl. apply H6.
  - by rewrite Hv.
Qed.

(** The description of a device that is to become a port. *)
Record add_ok (di : dev_info) (d : nat) (s : ifs) : Prop := mk_add_ok {
  ao_dev : (d < length (devs (if_net s)))%nat;
  ao_bridge : di_is_bridge di = Nat.eqb d (br_dev (if_net s));
  ao_addr : length (di_addr di) = 6%nat /\ bytes (di_addr di)
}.

(** The state once the port [no] of the device [d] has been allocated. *)
Definition announced (no : Z) (d : nat) (s : ifs) : ifs :=
  mk_ifs (if_net s)
    (set_tbl (set_stp_of (emit (NotifyPort no DISABLED) (stp_now s)) (tbl (if_world s))) (if_world s))
    (fun e => if Nat.eqb e d then add_holds 1 (if_links s e) else if_links s e) (if_live s + 1).

(** The least number that is not in use. *)
Definition next_no (nos : list Z) (no : Z) : Prop := 1 <= no /\ (no ∉ nos) /\ forall k, 1 <= k < no -> k ∈ nos.

Section Add.
Context (nos : list Z) (few : zlen nos < 255).

Lemma ifs_stp s : ifs_ok nos s -> wf nos (stp_now s).
Proof. intros Hs. apply (da_fdb _ _ _ (bk_data _ _ _ (io_bridge _ _ Hs))). Qed.

Lemma new_nbp_spec ae di d s : ifs_ok nos s -> add_ok di d s ->
  (exists err, new_nbp ae di d s = Ok (inl err, s) /\ err < 0) \/
  exists pt, new_nbp ae di d s = Ok (inr pt, announced (port_no pt) d s) /\ port_ok pt /\ next_no nos (port_no pt).
Proof.
  intros Hs [_ _ [Hl Ha]]. unfold new_nbp. destruct (kcalloc ae); [|left; exists (- ENOMEM); done].
  pose proof (ifs_stp s Hs) as [[Hb Hn] _].
  destruct (find_portno_spec (br (stp_now s))) as (r & -> & Hr).
  { eapply Forall_impl; [apply Hb|]. intros q Hq. apply (po_no q Hq). }
  rewrite Hn in Hr. cbn [mbind res_bind]. destruct Hr as [(Hr & Hno & Hlt)|[-> _]]; [|left; exists (- EXFULL); done].
  rewrite (proj2 (Z.ltb_ge r 0)) by lia. destruct (kzalloc ae); cbn [negb]; [right|left; exists (- ENOMEM); done].
  destruct (port_cost_ok di) as (cost & -> & Hc). cbn [mbind res_bind]. exists (fresh_port (br (stp_now s)) r cost di).
  split; [done|]. split; [apply fresh_port_ok; try done; exact Hr|]. split; [apply Hr|done].
Qed.

Lemma next_small no : next_no nos no -> no < 256.
Proof. intros (_ & _ & H). pose proof (least_bound nos no H). lia. Qed.

Lemma plugged pt d x s links : ifs_ok nos s -> port_ok pt -> next_no nos (port_no pt) ->
  devs (if_net s) !! d = Some x -> rx_handler_data x = None -> d <> br_dev (if_net s) ->
  (forall e, links e = if Nat.eqb e d then held d true else if_links s e) ->
  ifs_ok (port_no pt :: nos) (mk_ifs (plug_net d (if_net s)) (plug_world pt (if_world (announced (port_no pt) d s))) links (if_live s + 1)).
Proof.
  intros [H1 H2 H3 H4 H5 H6 H7] Hpt Hnx Hx Hrx Hbr Hlk. pose proof (lookup_lt_Some _ _ _ Hx) as Hd.
  destruct (da_fdb _ _ _ (bk_data _ _ _ H2)) as [Ht Hs Hp].
  split; cbn [if_net if_world if_links if_live length].
  - apply Forall_cons_2; [by apply next_small|done].
  - apply (bridge_relabelled nos (port_no pt :: nos) (if_net s) (plug_net d (if_net s)) S (fun _ => True)).
    + apply topology_akin, plug_length.
    + intros k Hk _. cbn. lia.
    + intros k k' _ _ [= ->]. done.
    + apply bridge_tbl; [|done]. split; [by apply set_stp_table|by apply wf_emit|done].
    + split; repeat (apply Forall_forall; intros ? _); done.
    + apply (wf_with nos); [by apply wf_emit|done|apply Hnx].
    + cbn. f_equal. apply (bk_data _ _ _ H2).
  - by apply plug_ok.
  - by apply (plug_attached _ _ H4 d x).
  - destruct H5 as [? ? ? ?]. by split.
  - intros e. rewrite plug_is_port, Hlk by done. destruct (Nat.eqb_spec e d) as [->|]; [done|]. apply H6.
  - rewrite H7, zlen_cons. lia.
Qed.

(** What [br_add_if] leads to: the new port is the first. *)
Definition joined (d : nat) (s s' : ifs) : Prop :=
  exists no, next_no nos no /\ ifs_ok (no :: nos) s' /\ port_dev (if_net s') 0 = d /\
    forall p, port_dev (if_net s') (S p) = port_dev (if_net s) p.

(** The MTUs once [d] is a port. *)
Definition measured (d : nat) (s s' : ifs) : Prop :=
  d <> br_dev (if_net s) -> mtus_fit (length nos) (if_net s) -> (exists v, mtu <$> devs (if_net s) !! d = Some v /\ 68 <= v < 2 ^ 31) ->
  mtu_least (S (length nos)) (if_net s') /\ mtus_same (if_net s) (if_net s').

Lemma plug_mtu d e N : mtu <$> devs (plug_net d N) !! e = mtu <$> devs N !! e.
Proof. rewrite plug_devs. destruct (devs N !! e); [|done]. cbn. by destruct (Nat.eqb e d). Qed.

Lemma plug_fits d N : mtus_fit (length nos) N -> (exists v, mtu <$> devs N !! d = Some v /\ 68 <= v < 2 ^ 31) ->
  mtus_fit (S (length nos)) (plug_net d N).
Proof.
  intros Hfit Hd [|p] Hp; unfold mtu_of; rewrite plug_mtu; cbn [port_dev plug_net set_topology]; [exact Hd|]. apply Hfit. lia.
Qed.

Lemma port_joins di d pt s s4 : ifs_ok nos s -> add_ok di d s -> next_no nos (port_no pt) ->
  ifs_ok (port_no pt :: nos) (set_if_world (plug_world pt (if_world s4)) (set_if_net (plug_net d (if_net s4)) s4)) ->
  if_net s4 = if_net s -> safe_in (fun s' => joined d s s' /\ measured d s s') (join di d pt s4).
Proof.
  intros Hs [_ _ Haddr] Hnx H1 Hn4. unfold join. match goal with H : ifs_ok _ ?x |- _ => set (s5 := x) in * end.
  assert (Hn5 : if_net s5 = plug_net d (if_net s)) by (unfold s5; cbn; by rewrite Hn4).
  set (nos' := port_no pt :: nos) in *. assert (H0 : (0 < length nos')%nat) by (cbn; lia).
  eapply (safe_in_bind (step_ok nos' s5)); [by apply spanning_keeps|]. intros s6 [H6 Hn6].
  eapply (safe_in_bind (step_ok nos' s5)).
  { destruct (_ && _); [|by exists s6]. destruct (spanning_keeps nos' (EnablePort 0) s6 H6 H0 ltac:(done)) as (s7 & E & H7 & Hn7).
    exists s7. split; [done|]. split; [done|congruence]. }
  intros s7 [H7 Hn7]. eapply safe_in_bind; [by apply mtu_keeps|]. intros s8 (H8 & Hp8 & Hm8).
  destruct (database_keeps nos' (InsertLocal (Some O) (di_addr di)) s8 H8) as (s9 & E & H9 & Hn9); [by exists O|].
  exists s9. split; [exact E|]. split.
  - exists (port_no pt). split; [done|]. split; [done|]. rewrite Hn9.
    split; [by rewrite Hp8, Hn7, Hn5|]. intros p. by rewrite Hp8, Hn7, Hn5.
  - intros Hbr Hfit Hd. rewrite Hn9. destruct (Hm8 H0) as [Hleast [Hb8 Hsame]]; [rewrite Hn7, Hn5; by apply plug_fits|].
    split; [exact Hleast|]. rewrite Hn7, Hn5 in Hb8, Hsame. split; [done|]. intros e He. rewrite Hsame by done. apply plug_mtu.
Qed.

(** What a state holds of the device [d], and of others. *)
Lemma links_eq d f s : if_links (upd_links d f s) d = f (if_links s d).
Proof. cbn. by rewrite Nat.eqb_refl. Qed.
Lemma links_ne d e f s : e <> d -> if_links (upd_links d f s) e = if_links s e.
Proof. intros He. cbn. by rewrite (proj2 (Nat.eqb_neq _ _) He). Qed.
Lemma links_live n s e : if_links (add_live n s) e = if_links s e.
Proof. done. Qed.
Lemma links_announced_eq no d s : if_links (announced no d s) d = add_holds 1 (if_links s d).
Proof. cbn. by rewrite Nat.eqb_refl. Qed.
Lemma links_announced_ne no d e s : e <> d -> if_links (announced no d s) e = if_links s e.
Proof. intros He. cbn. by rewrite (proj2 (Nat.eqb_neq _ _) He). Qed.

(** The other members. *)
Lemma net_upd d f s : if_net (upd_links d f s) = if_net s. Proof. done. Qed.
Lemma world_upd d f s : if_world (upd_links d f s) = if_world s. Proof. done. Qed.
Lemma live_upd d f s : if_live (upd_links d f s) = if_live s. Proof. done. Qed.
Lemma net_live n s : if_net (add_live n s) = if_net s. Proof. done. Qed.
Lemma world_live n s : if_world (add_live n s) = if_world s. Proof. done. Qed.
Lemma live_live n s : if_live (add_live n s) = if_live s + n. Proof. done. Qed.
Lemma net_announced no d s : if_net (announced no d s) = if_net s. Proof. done. Qed.
Lemma live_announced no d s : if_live (announced no d s) = if_live s + 1. Proof. done. Qed.

Ltac members := unfold err4, err3, err2, err1, put_back;
  repeat first [rewrite net_upd|rewrite world_upd|rewrite live_upd|rewrite net_live|rewrite world_live|rewrite live_live
    |rewrite net_announced|rewrite live_announced].

(** Compares what is held of each device before and after. *)
Ltac held_same d H :=
  let e := fresh "e" in let He := fresh "He" in
  intros e; unfold err4, err3, err2, err1, put_back;
  destruct (decide (e = d)) as [->|He];
  [ repeat first [rewrite links_eq | rewrite links_live | rewrite links_announced_eq]; rewrite ?H, ?Nat.eqb_refl;
    cbv beta iota delta [held add_holds add_promiscuity set_kobj set_sysfs_link set_master promiscuity holds has_master
      sysfs_link kobj Z.b2z]; f_equal; lia
  | repeat first [rewrite links_ne by done | rewrite links_live | rewrite links_announced_ne by done];
    rewrite ?(proj2 (Nat.eqb_neq _ _) He); reflexivity ].

Lemma add_if_spec ae di d s : ifs_ok nos s -> add_ok di d s ->
  exists r s', br_add_if ae di d s = Ok (r, s') /\ ((r = 0 /\ joined d s s' /\ measured d s s') \/ (r <> 0 /\ untouched s s')).
Proof.
  intros Hs Hdi. destruct (lookup_lt_is_Some_2 _ _ (ao_dev _ _ _ Hdi)) as [x Ex]. unfold br_add_if, dev_at. rewrite Ex. cbn [of_option mbind res_bind].
  assert (Herr : forall r, r <> 0 -> exists r0 s', Ok (r, s) = Ok (r0, s') /\ ((r0 = 0 /\ joined d s s' /\ measured d s s') \/ (r0 <> 0 /\ untouched s s'))).
  { intros r Hr. exists r, s. split; [done|]. right. split; [done|]. split; [done|done|done|by left]. }
  destruct (_ || _); [by apply Herr|]. rewrite (ao_bridge _ _ _ Hdi). destruct (Nat.eqb_spec d (br_dev (if_net s))) as [|Hbr]; [by apply Herr|].
  fold (flagged x). destruct (flagged x) eqn:Ef; [by apply Herr|]. destruct (nonzero _); [by apply Herr|].
  assert (Hrx : rx_handler_data x = None).
  { destruct (rx_handler_data x) as [q|] eqn:Erx; [|done]. destruct (at_rx _ _ (io_attached _ _ Hs) d x q Ex Erx). congruence. }
  assert (Hl : if_links s d = held d false). { rewrite (io_links _ _ Hs). f_equal. unfold is_port. by rewrite Ex, Hrx. }
  destruct (new_nbp_spec ae di d s Hs Hdi) as [(err & -> & Hr)|(pt & -> & Hpt & Hnx)]; cbn [mbind res_bind]; [apply Herr; lia|].
  assert (Hun : forall r s', r <> 0 -> if_net s' = if_net s -> (forall e, if_links s' e = if_links s e) -> if_live s' = if_live s ->
    if_world s' = if_world (announced (port_no pt) d s) ->
    exists r0 s0, Ok (r, s') = Ok (r0, s0) /\ ((r0 = 0 /\ joined d s s0 /\ measured d s s0) \/ (r0 <> 0 /\ untouched s s0))).
  { intros r s' Hr H1 H2 H3 H4. exists r, s'. split; [done|]. right. split; [done|]. split; try done. right. by exists (port_no pt). }
  assert (Hnz : forall r, nonzero r = true -> r <> 0) by (intros r; unfold nonzero; destruct (Z.eqb_spec r 0); done).
  destruct (nonzero (promisc_err ae)) eqn:E1; [apply Hun; [by apply Hnz|by members|held_same d Hl|members; lia|by members]|].
  destruct (nonzero (kobject_err ae)) eqn:E2; [apply Hun; [by apply Hnz|by members|held_same d Hl|members; lia|by members]|].
  destruct (nonzero (sysfs_err ae)) eqn:E3; [apply Hun; [by apply Hnz|by members|held_same d Hl|members; lia|by members]|].
  destruct (nonzero (master_err ae)) eqn:E4; [apply Hun; [by apply Hnz|by members|held_same d Hl|members; lia|by members]|].
  destruct (nonzero (rx_handler_err ae)) eqn:E5; [apply Hun; [by apply Hnz|by members|held_same d Hl|members; lia|by members]|].
  match goal with |- context [join di d pt ?y] => set (s4 := y) end.
  destruct (port_joins di d pt s s4 Hs Hdi Hnx) as (s' & E & Hj); [|unfold s4; by members|rewrite E; by exists 0, s'; split; [|left]].
  destruct (plugged pt d x s (if_links s4) Hs Hpt Hnx Ex Hrx Hbr) as [K1 K2 K3 K4 K5 K6 K7].
  { unfold s4. held_same d Hl. }
  assert (Hn : if_net s4 = if_net s) by (unfold s4; by members).
  assert (Hw : if_world s4 = if_world (announced (port_no pt) d s)) by (unfold s4; by members).
  assert (Hv : if_live s4 = if_live s + 1) by (unfold s4; members; lia).
  destruct s4 as [N4 w4 l4 v4]. cbn in Hn, Hw, Hv. rewrite Hn, Hw, Hv. by split.
Qed.
End Add.

(** *** A device changes *)

Section Device.
Context (nos : list Z).

Lemma stp_keeps f s : ifs_ok nos s -> wf nos (f (stp_now s)) -> step_ok nos s (upd_stp f s).
Proof.
  intros Hs Hf. split; [|done]. apply world_keeps; [done|]. apply bridge_tbl; [|apply Hs].
  destruct (da_fdb _ _ _ (bk_data _ _ _ (io_bridge _ _ Hs))) as [Ht _ Hp]. by split; [apply set_stp_table|..].
Qed.

Lemma port_keeps_ifs p f s : ifs_ok nos s -> port_keeps f -> step_ok nos s (upd_stp (upd_port p f) s).
Proof. intros Hs Hf. apply stp_keeps; [done|]. apply wf_upd_port; [done|by apply ifs_stp]. Qed.

Lemma changeaddr_keeps p addr s : ifs_ok nos s -> (p < length nos)%nat -> length addr = 6%nat -> bytes addr ->
  exists c t, netdev_changeaddr (fenv (if_net s)) (tbl (if_world s)) p addr = Ok (c, t) /\
    step_ok nos s (set_if_world (set_tbl t (if_world s)) s).
Proof.
  intros Hs Hp Hl Ha. assert (Hk : port_keeps (set_p_dev_addr addr)).
  { split; [|done]. intros q Hq. constructor; cbn; try apply Hq. done. }
  destruct (port_keeps_ifs p _ s Hs Hk) as [H1 _].
  destruct (wp_elim _ _ _ (database_spec nos (if_net s) (ChangeAddr p addr) _ (io_bridge _ _ H1) Hp)) as ([] & w2 & E & Hw2 & _).
  unfold database, mbind, M_bind, gets, lift, modify in E. destruct (fdb_step _ _ _) as [[a t]|] eqn:Es; [|done]. injection E as <-.
  cbn [fdb_step] in Es. apply void_Ok in Es as [_ Es]. cbn in Es.
  destruct (da_fdb _ _ _ (bk_data _ _ _ Hw2)) as [Ht Hst Hpo].
  destruct (recalculate_bridge_id_safe nos (stp_of t) Hst) as ((c & st) & Er & Hst').
  exists c, (set_stp_of st t). unfold netdev_changeaddr. unfold stp_now in Es. rewrite Es. cbn [mbind res_bind]. rewrite Er. split; [done|].
  split; [|done]. apply world_keeps; [done|]. apply bridge_tbl; [|apply Hs]. by split; [apply set_stp_table|..].
Qed.

Lemma carrier_keeps di p s : ifs_ok nos s -> (p < length nos)%nat -> safe_in (step_ok nos s) (br_port_carrier_check di p s).
Proof.
  intros Hs Hp. unfold br_port_carrier_check.
  assert (Hsp : forall i s1, step_ok nos s s1 -> valid nos i -> i <> TcnTimer -> safe_in (step_ok nos s) (on_world (fun N => spanning N i) s1)).
  { intros i s1 [H1 Hn1] Hv Hi. destruct (spanning_keeps nos i s1 H1 Hv Hi) as (s2 & E & H2 & Hn2). exists s2. split; [done|]. split; [done|congruence]. }
  eapply (safe_in_bind (step_ok nos s)).
  { destruct (_ && _); [|by exists s]. destruct (port_cost_ok di) as (c & -> & Hc). cbn [mbind res_bind].
    eexists. split; [done|]. apply port_keeps_ifs; [done|]. split; [|done]. intros q Hq. constructor; cbn; try apply Hq. done. }
  intros s1 H1. destruct (negb _); [by exists s1|].
  destruct (port_at_ok nos p (stp_now s1) (proj1 (ifs_stp nos s1 (proj1 H1))) Hp) as (pt & -> & _). cbn [mbind res_bind].
  destruct (_ && _); destruct (is_disabled pt); cbn [negb]; first [by exists s1|by apply Hsp].
Qed.
End Device.

(** What a change of a device must bring with it. *)
Record change_ok (event : Z) (di : dev_info) (d : nat) (s : ifs) : Prop := mk_change_ok {
  co_dev : (d < length (devs (if_net s)))%nat;
  co_addr : length (di_addr di) = 6%nat /\ bytes (di_addr di);
  co_leaf : event = NETDEV_UNREGISTER -> netdev_path_is_leaf (if_net s) d = Ok true
}.

Lemma device_event_spec nos event err di d s : ifs_ok nos s -> change_ok event di d s ->
  exists r s' nos', br_device_event event err di d s = Ok (r, s') /\ ifs_ok nos' s'.
Proof.
  intros Hs [Hd [Hal Hab] Hl]. unfold br_device_event.
  destruct (netdev_keeps nos d event s Hs Hd) as (s1 & -> & H1 & Hn1). cbn [mbind res_bind]. rewrite <- Hn1 in Hd, Hl.
  destruct (port_of_dev nos d s1 H1 Hd) as [[_ ->]|(p & no & -> & Hno & _ & _)]; cbn [mbind res_bind]; [by eexists _, _, _|].
  pose proof (lookup_lt_Some _ _ _ Hno) as Hp.
  destruct (port_keeps_ifs nos p (set_p_dev (di_up di) (di_carrier di)) s1 H1) as [H2 Hn2]; [by keeps_port|].
  set (s2 := upd_stp _ s1) in *.
  assert (Hstep : forall (m : res ifs) (r : Z), safe_in (ifs_ok nos) m -> exists r0 s' nos', (s ← m; Ok (r, s)) = Ok (r0, s') /\ ifs_ok nos' s').
  { intros m r (s' & -> & H'). by eexists _, _, _. }
  assert (Hspan : forall i, valid nos i -> i <> TcnTimer -> safe_in (ifs_ok nos) (on_world (fun N => spanning N i) s2)).
  { intros i Hv Hi. destruct (spanning_keeps nos i s2 H2 Hv Hi) as (s' & E & H' & _). by exists s'. }
  destruct (_ =? _). { apply Hstep. destruct (mtu_keeps nos s2 H2) as (s' & E & H' & _). by exists s'. }
  destruct (_ =? _).
  { destruct (changeaddr_keeps nos p (di_addr di) s2 H2 Hp Hal Hab) as (c & t & -> & H' & _). by eexists _, _, _. }
  destruct (_ =? _). { apply Hstep. destruct (carrier_keeps nos di p s2 H2 Hp) as (s' & E & H' & _). by exists s'. }
  destruct (_ =? _). { apply Hstep. destruct (dev_up _); [by apply Hspan|by exists s2]. }
  destruct (_ =? _). { apply Hstep. destruct (_ && _); [by apply Hspan|by exists s2]. }
  destruct (Z.eqb_spec event NETDEV_UNREGISTER) as [He|].
  { specialize (Hl He). rewrite <- Hn2 in Hd, Hl.
    destruct (del_if_spec nos d s2 H2 Hd Hl) as [[_ ->]|(q & s' & _ & _ & -> & H' & _)]; by eexists _, _, _. }
  repeat (destruct (_ =? _); [by eexists _, _, _|]). by eexists _, _, _.
Qed.

Lemma changemtu_spec nos err di d s : ifs_ok nos s -> mtus_fit (length nos) (if_net s) -> (d < length (devs (if_net s)))%nat ->
  is_port (if_net s) d = true -> exists s', br_device_event NETDEV_CHANGEMTU err di d s = Ok (NOTIFY_DONE, s') /\
    mtu_least (length nos) (if_net s') /\ mtus_same (if_net s) (if_net s').
Proof.
  intros Hs Hfit Hd Hport. unfold br_device_event.
  destruct (netdev_keeps nos d NETDEV_CHANGEMTU s Hs Hd) as (s1 & -> & H1 & Hn1). cbn [mbind res_bind]. rewrite <- Hn1 in Hd, Hport, Hfit |- *.
  destruct (port_of_dev nos d s1 H1 Hd) as [[Hno _]|(p & no & -> & Hno & _ & _)]; cbn [mbind res_bind]; [congruence|].
  destruct (port_keeps_ifs nos p (set_p_dev (di_up di) (di_carrier di)) s1 H1) as [H2 Hn2]; [by keeps_port|].
  set (s2 := upd_stp _ s1) in *. rewrite Z.eqb_refl. destruct (mtu_keeps nos s2 H2) as (s' & -> & _ & _ & Hl). cbn [mbind res_bind].
  exists s'. split; [done|]. unfold lowered in Hl. rewrite Hn2 in Hl. apply Hl; [|done]. pose proof (lookup_lt_Some _ _ _ Hno). lia.
Qed.

(** The bridge does not become a port of itself. *)
Lemma add_not_bridge ae di d s s' : add_ok di d s -> br_add_if ae di d s = Ok (0, s') -> d <> br_dev (if_net s).
Proof.
  intros Hd E ->. destruct (lookup_lt_is_Some_2 _ _ (ao_dev _ _ _ Hd)) as [x Ex]. revert E. unfold br_add_if, dev_at. rewrite Ex.
  cbn [of_option mbind res_bind]. rewrite (ao_bridge _ _ _ Hd), Nat.eqb_refl. by destruct (_ || _).
Qed.

(** *** The bridge goes *)

Lemma unplug_leaf N p n d : netdev_path_is_leaf (unplug_net p n N) d = netdev_path_is_leaf N d.
Proof.
  unfold netdev_path_is_leaf, dev_at. rewrite unplug_devs. destruct (devs N !! d) as [x|]; [|done]. cbn. by destruct (Nat.eqb d _).
Qed.

(** No device of a port has others stacked on it. *)
Definition all_leaves (n : nat) (N : net) : Prop := forall p, (p < n)%nat -> netdev_path_is_leaf N (port_dev N p) = Ok true.

Lemma del_all_spec nos s : ifs_ok nos s -> all_leaves (length nos) (if_net s) -> safe_in (ifs_ok []) (del_all (length nos) s).
Proof.
  revert s. induction nos as [|no nos IH]; intros s Hs Hl; [by exists s|]. cbn [del_all length].
  destruct (del_nbp_spec (no :: nos) O no s Hs eq_refl (Hl O ltac:(cbn; lia))) as (s1 & -> & Hs1 & Hn1). cbn [mbind res_bind].
  apply IH; [exact Hs1|]. intros p Hp. rewrite Hn1, unplug_leaf. cbn [port_dev unplug_net set_topology].
  apply Hl. unfold above. cbn. lia.
Qed.

(** A step that leaves all but the tables and timers of the groups alone. *)
Lemma tables_keep nos s (m : net -> M unit) (Q : world -> Prop) : ifs_ok nos s ->
  wp (m (if_net s)) (fun _ w => bridge_ok nos (if_net s) w /\ Q w) (if_world s) ->
  safe_in (fun s' => ifs_ok nos s' /\ Q (if_world s')) (on_world m s).
Proof.
  intros Hs Hm. apply on_world_ok. eapply wp_mono; [exact Hm|cbv beta]. intros _ w [Hw HQ]. split; [by apply world_keeps|exact HQ].
Qed.

Lemma set_timer4 nos N tm w : bridge_ok nos N w -> bridge_ok nos N (set_igmp_timer tm w).
Proof. intros Hw. apply (bridge_tables nos N w); try done; apply Hw. Qed.
Lemma set_timer6 nos N tm w : bridge_ok nos N w -> bridge_ok nos N (set_mld_timer tm w).
Proof. intros Hw. apply (bridge_tables nos N w); try done; apply Hw. Qed.

(** Nothing is left of the bridge: no port, no entry of a table, no timer that
    would look at them, and nothing of a device. *)
Record gone (s : ifs) : Prop := mk_gone {
  go_ports : ports (br (stp_now s)) = [];
  go_fdb : entries (tbl (if_world s)) = [];
  go_groups : concat (mc_hash (if_world s)) = [];
  go_groups6 : concat (mld_mc_hash (if_world s)) = [];
  go_timers : igmp_timer (if_world s) = None /\ mld_timer (if_world s) = None /\ gc_timer (br (stp_now s)) = None;
  go_links : forall d, if_links s d = held d false;
  go_live : if_live s = live0
}.

Lemma no_entries {T} (P : T -> Prop) (g : list (list T)) : Forall (Forall P) g -> (forall e, ~ P e) -> concat g = [].
Proof.
  intros Hg HP. apply (Forall_impl _ (fun l => l = [])) in Hg.
  - induction Hg as [|l g -> _ IH]; [done|exact IH].
  - intros l Hl. destruct Hl as [|e l He]; [done|]. by apply HP in He.
Qed.

Lemma without_ports s : ifs_ok [] s -> igmp_timer (if_world s) = None /\ mld_timer (if_world s) = None /\ gc_timer (br (stp_now s)) = None ->
  gone s.
Proof.
  intros Hs Ht. pose proof (io_bridge _ _ Hs) as [[[Htb _ Hp] _ _ Hgr] Hg Hg6 _]. split; [| | | |done| |].
  - apply nil_length_inv. by rewrite (ifs_nports [] s Hs).
  - apply (ported_entries (fenv (if_net s))) in Hp; [|done]. destruct (entries (tbl (if_world s))) as [|e l]; [done|].
    apply Forall_inv in Hp as (p & _ & Hlt). cbn in Hlt. lia.
  - apply (no_entries (fun e => (mc_dst e < 0)%nat)); [apply Hgr|intros e; lia].
  - apply (no_entries (fun e => (mld_dst e < 0)%nat)); [apply Hgr|intros e; lia].
  - intros d. rewrite (io_links _ _ Hs). f_equal. unfold is_port. destruct (devs (if_net s) !! d) as [x|] eqn:Ex; [|done].
    destruct (rx_handler_data x) as [q|] eqn:Erx; [|done]. pose proof (nk_rx _ _ (io_net _ _ Hs) d x q Ex Erx). cbn in *. lia.
  - rewrite (io_live _ _ Hs). change (zlen (@nil Z)) with 0. lia.
Qed.

Lemma dev_delete_spec nos s : ifs_ok nos s -> all_leaves (length nos) (if_net s) ->
  safe_in (fun s' => ifs_ok [] s' /\ gone s') (br_dev_delete s).
Proof.
  intros Hs Hl. unfold br_dev_delete. rewrite (ifs_nports nos s Hs).
  eapply safe_in_bind; [by apply del_all_spec|]. intros s1 H1.
  eapply safe_in_bind; [apply (tables_keep [] s1 _ (fun w => igmp_timer w = None)); [done|]|].
  { apply wp_bind. eapply wp_mono; [apply (igmp_keeps [] (if_net s1) (br_igmp_mc_fdb_cleanup (if_net s1)) Cleanup); try done; apply H1|cbv beta].
    intros _ w [Hw _]. apply wp_modify. split; [by apply set_timer4|done]. }
  intros s2 [H2 Ht2]. eapply safe_in_bind; [apply (tables_keep [] s2 _ (fun w => igmp_timer w = None /\ mld_timer w = None)); [done|]|].
  { pose proof (bridge_mld [] (io_small _ _ H2) (if_net s2) (if_world s2) (io_bridge _ _ H2)) as [Hg Hnb].
    apply wp_bind. eapply wp_mono; [apply wp_and; [apply (mld_keeps [] (io_small _ _ H2) (if_net s2) (io_net _ _ H2) (br_mld_mc_fdb_cleanup (if_net s2)) MldCleanup); try done; apply H2|
      exact (mld_cleanup_spec (if_net s2) 0 (io_net _ _ H2) (if_world s2) Hg Hnb)]|cbv beta].
    intros _ w [[Hw _] Hth]. apply wp_modify. split; [by apply set_timer6|]. split; [|done].
    cbn. by destruct (mld_served_same (if_net s2) 0 (if_world s2) w (proj1 Hth)) as [_ ->]. }
  intros s3 [H3 [Ht4 Ht6]]. set (s4 := upd_stp (upd (set_gc_timer None)) s3). exists s4. split; [done|].
  assert (H4 : ifs_ok [] s4) by (apply stp_keeps; [done|]; apply wf_upd; [done|by apply ifs_stp]). split; [done|]. by apply without_ports.
Qed.

(** C10: deleting the bridge gives everything back: whatever ports it has and
    whatever its tables hold for these ports, [br_dev_delete] takes the ports out
    one by one and ends with no port, with empty tables, without the timers that
    look at them, and with the reference counts, the promiscuity, the links and
    the allocated ports as they were before the bridge had any.  Two conditions:
    every entry of the forwarding database has a port, which [ifs_ok] says and
    which is so as long as the bridge has not been given an address of its own
    ([own_address_outlives_bridge] is what happens else), and the devices of the
    ports have no others stacked on them ([removed_port_stays_in_groups]). *)
Theorem bridge_delete_gives_back nos s : ifs_ok nos s -> all_leaves (length nos) (if_net s) ->
  exists s', br_dev_delete s = Ok s' /\ gone s'.
Proof. intros Hs Hl. destruct (dev_delete_spec nos s Hs Hl) as (s' & E & _ & H). by exists s'. Qed.


(** C23: the bridge device has the least MTU of its ports after a port has been
    added and after a port has changed its MTU: whenever [br_add_if] succeeds,
    and on every [NETDEV_CHANGEMTU] that [br_device_event] sees of a port, which
    it handles without a fault.  The MTUs of all other devices stay.  The MTUs of
    the ports and of the new device are taken to be at least 68, the least a
    bridge may have, and below 2^31, and there are fewer than 255 ports. *)
Theorem bridge_mtu_is_least nos s : ifs_ok nos s -> mtus_fit (length nos) (if_net s) ->
  (forall ae di d s' v, add_ok di d s -> zlen nos < 255 -> mtu <$> devs (if_net s) !! d = Some v -> 68 <= v < 2 ^ 31 ->
    br_add_if ae di d s = Ok (0, s') ->
    mtu_least (S (length nos)) (if_net s') /\ mtus_same (if_net s) (if_net s')) /\
  (forall err di d, change_ok NETDEV_CHANGEMTU di d s -> is_port (if_net s) d = true ->
    exists s', br_device_event NETDEV_CHANGEMTU err di d s = Ok (NOTIFY_DONE, s') /\
      mtu_least (length nos) (if_net s') /\ mtus_same (if_net s) (if_net s')).
Proof.
  intros Hs Hfit. split.
  - intros ae di d s' v Hd Hf Hv Hb E. pose proof (add_not_bridge ae di d s s' Hd E) as Hbr.
    destruct (add_if_spec nos Hf ae di d s Hs Hd) as (r & s1 & E1 & H). rewrite E in E1. injection E1 as <- <-.
    destruct H as [(_ & _ & Hm)|[Hr _]]; [|done]. apply Hm; [done|done|by exists v].
  - intros err di d [Hd _ _] Hport. by apply changemtu_spec.
Qed.

(** C39: a port on whose device another one is stacked stays in the groups when it
    is removed: [br_mcast_handle_netdevice_events], which is to drop what the
    groups have of it, does nothing for such a device.  For every well-formed
    bridge, [del_nbp] of that port ends normally, and every membership of the port
    that came in by a device that is not another port of the bridge is still
    there, with its reporter and for a port that is no longer one of the bridge. *)
Theorem removed_port_stays_in_groups nos s p k x : ifs_ok nos s -> (p < length nos)%nat -> stacked nos (if_net s) p k ->
  member (mc_hash (if_world s)) k x ->
  exists s' e, del_nbp p s = Ok s' /\ e ∈ concat (mc_hash (if_world s')) /\ x ∈ rep_list e /\
    mc_key (set_mc_dst p e) = k /\ ports (br (stp_now s')) !! mc_dst e = None.
Proof.
  intros Hs Hp Hst Hm. pose proof Hs as [Hsm Hw HN Ha _ _ _]. set (N := if_net s) in *.
  assert (Hd : (port_dev N p < length (devs N))%nat) by (by apply (nk_ports _ _ HN)).
  destruct (wp_elim _ _ _ (disable_spares nos Hsm N HN p k x _ Hw Ha Hp Hst Hm)) as ([] & w1 & E1 & Hw1 & Hm1).
  destruct (wp_elim _ _ _ (wp_and _ _ _ _ (database_spec nos N (DeleteByPort p 1) w1 Hw1 I)
    (database_groups nos N (DeleteByPort p 1) w1 (fun g => member g k x) Hw1 I Hm1))) as ([] & w2 & E2 & [Hw2 _] & Hm2).
  destruct (wp_elim _ _ _ (wp_and _ _ _ _ (netdev_step nos Hsm N HN _ NETDEV_CHANGE w2 Hw2 Hd)
    (netdev_spares nos Hsm N HN _ k x w2 Hw2 Hd (or_introl (proj1 Hst)) Hm2))) as ([] & w3 & E3 & [Hw3 _] & Hm3).
  destruct Hm3 as (h & l & El & e & He & Ek & Hx).
  assert (Hn : length (ports (br (stp_of (tbl w3)))) = length nos) by apply (fdb_nports N nos (tbl w3)), (da_fdb _ _ _ (bk_data _ _ _ Hw3)).
  assert (Edst : mc_dst e = p) by (destruct Hst as (_ & <- & _); by rewrite <- Ek).
  eexists _, (set_mc_dst (below p (length nos) p) e). split.
  { unfold del_nbp, on_world, upd_links, stp_now. cbn [if_net if_world]. fold N. rewrite E1. cbn [mbind res_bind set_if_world if_net if_world].
    fold N. rewrite E2. cbn [mbind res_bind set_if_world if_net if_world]. fold N. rewrite E3.
    cbn [mbind res_bind set_if_world if_net if_world]. rewrite Hn. reflexivity. }
  split; [|split; [done|split; [rewrite <- Ek, <- Edst; by destruct e|]]].
  - apply list_elem_of_In, in_concat. exists (map (fun e => set_mc_dst (below p (length nos) (mc_dst e)) e) l). split.
    + apply list_elem_of_In. apply (list_elem_of_lookup_2 _ h). cbn. change (map ?f ?g) with (f <$> g). by rewrite list_lookup_fmap, El.
    + apply in_map_iff. exists e. rewrite Edst. split; [done|]. by apply list_elem_of_In.
  - apply lookup_ge_None_2. cbn. rewrite length_delete by (apply lookup_lt_is_Some_2; lia).
    unfold below. rewrite Nat.ltb_irrefl, Nat.eqb_refl. lia.
Qed.

(** ** The life of a bridge *)

Inductive life_event : Type :=
  | System (env : mcpd_env) (e : sys_event)
  | AddPort (ae : add_env) (di : dev_info) (d : nat)
  | DelPort (d : nat)
  | DeviceEvent (event err : Z) (di : dev_info) (d : nat)
  | Environment (N : net).

(** The variables of the netlink interface are those the bridge sees. *)
Definition life_step (e : life_event) (x : mcpd * ifs) : res (mcpd * ifs) :=
  let '(m, s) := x in
  let s := set_if_net (with_mcpd m (if_net s)) s in
  match e with
  | System env e => '(m, w) ← sys_step (if_net s) env e (m, if_world s); Ok (m, set_if_world w s)
  | AddPort ae di d => '(_, s) ← br_add_if ae di d s; Ok (m, s)
  | DelPort d => '(_, s) ← br_del_if d s; Ok (m, s)
  | DeviceEvent event err di d => '(_, s) ← br_device_event event err di d s; Ok (m, s)
  | Environment N => Ok (m, set_if_net N s)
  end.

Definition nos_of (s : ifs) : list Z := map port_no (ports (br (stp_now s))).

(** The environment may do anything but change ports and devices. *)
Record like_before (N N' : net) (n : nat) : Prop := mk_like_before {
  lb_akin : akin N N';
  lb_net : net_ok N' n;
  lb_input : input_ok N';
  lb_ports : forall p, port_dev N' p = port_dev N p;
  lb_devs : forall e, (fun x => (rx_handler_data x, flagged x)) <$> devs N' !! e =
    (fun x => (rx_handler_data x, flagged x)) <$> devs N !! e
}.

(** What may happen to a bridge in the state [x]. *)
Definition admissible (e : life_event) (x : mcpd * ifs) : Prop :=
  let s := snd x in let N := if_net s in let nos := nos_of s in
  match e with
  | System env (Event e) => (forall d, named (if_name env d)) /\ event_ok nos N e
  | System env (Message msg) => (forall d, named (if_name env d)) /\ message_ok N env msg
  | AddPort _ di d => add_ok di d s /\ zlen nos < 255
  | DelPort d => (d < length (devs N))%nat /\ netdev_path_is_leaf N d = Ok true
  | DeviceEvent event _ di d => change_ok event di d s
  | Environment N' => like_before N N' (length nos)
  end.

Inductive life : mcpd * ifs -> mcpd * ifs -> Prop :=
  | life_here x : life x x
  | life_on x y e z : life x y -> admissible e y -> life_step e y = Ok z -> life x z.

(** The bridge is well-formed, with whatever ports it has. *)
Definition sound (x : mcpd * ifs) : Prop := mcpd_ok (fst x) /\ ifs_ok (nos_of (snd x)) (snd x).

Definition life_tcn (e : life_event) (s : ifs) : Prop :=
  match e with System _ e => sys_tcn_at_root e (if_world s) | _ => False end.

Lemma ifs_sound m s nos : mcpd_ok m -> ifs_ok nos s -> sound (m, s).
Proof.
  intros Hm Hs. split; [done|]. cbn [snd]. pose proof (ifs_stp nos s Hs) as [[_ Hn] _]. unfold nos_of. by rewrite Hn.
Qed.

Lemma with_mcpd_ok nos m s : ifs_ok nos s -> ifs_ok nos (set_if_net (with_mcpd m (if_net s)) s).
Proof.
  intros Hs. apply ifs_other; try done; [destruct (io_net _ _ Hs)|destruct (io_input _ _ Hs)]; by split.
Qed.

Lemma life_step_spec e x : sound x -> admissible e x ->
  (exists y, life_step e x = Ok y /\ sound y) \/ (life_tcn e (snd x) /\ life_step e x = Fault NullDeref).
Proof.
  destruct x as [m s]. intros [Hm Hs0] He. cbn [fst snd] in *. set (nos := nos_of s) in *.
  pose proof (with_mcpd_ok nos m s Hs0) as Hs. cbn [life_step]. set (s0 := set_if_net _ s) in *.
  destruct e as [env e|ae di d|d|event err di d|N'].
  - destruct (sys_step_spec nos (io_small _ _ Hs) (if_net s0) (if_net s0) env e (m, if_world s0)) as [([m1 w1] & E & [Hm1 Hw1] & _)|[Ht E]].
    + split; [done|apply Hs].
    + split; [apply Hs|]. split; [apply Hs|]. split; [by split|]. destruct e as [e|msg]; destruct He as [Hn He]; (split; [exact Hn|]).
      * by destruct e.
      * destruct He. by split.
    + left. rewrite E. eexists. split; [done|]. apply (ifs_sound _ _ nos); [done|]. by apply world_keeps.
    + right. rewrite E. split; [exact Ht|done].
  - left. destruct He as [Hd Hf]. destruct (add_if_spec nos Hf ae di d s0 Hs) as (r & s' & -> & H); [by destruct Hd; split|].
    eexists. split; [done|]. destruct H as [[_ [(no & _ & H & _) _]]|[_ H]]; [by eapply ifs_sound|].
    by eapply ifs_sound, untouched_ok.
  - left. destruct He as [Hd Hl]. destruct (del_if_spec nos d s0 Hs Hd Hl) as [[_ ->]|(p & s' & _ & _ & -> & H & _)];
      (eexists; split; [done|]); by eapply ifs_sound.
  - left. destruct (device_event_spec nos event err di d s0 Hs) as (r & s' & nos' & -> & H); [by destruct He; split|].
    eexists. split; [done|]. by eapply ifs_sound.
  - left. eexists. split; [done|]. apply (ifs_sound _ _ nos); [done|]. destruct He as [H1 H2 H3 H4 H5].
    apply (ifs_other nos s0); [done|by destruct H1; split| |done|exact H4|exact H5].
    unfold nos, nos_of in *. by rewrite length_map in *.
Qed.

Lemma life_sound x y : sound x -> life x y -> sound y.
Proof.
  intros Hx. induction 1 as [|x y e z Hl IH He E]; [done|].
  destruct (life_step_spec e y (IH Hx) He) as [(z' & E' & Hz)|[_ E']]; rewrite E in E'; [by injection E' as <-|done].
Qed.

(** C1: the bridge through its whole life: frames, spanning tree, database,
    groups, timers and messages of the daemon, and between them ports that are
    added and removed, devices that go up and down, change their address or
    their MTU or vanish, allocations and registrations that fail.  In every
    state that can be reached by admissible events the bridge is well-formed:
    port numbers are unique and small, every reference to a port in a table or a
    device is to one that exists, and what is held of the devices is what the
    ports need; and the next admissible event is handled without a fault, save
    the one of the notification timer at the root bridge.  What [admissible]
    asks, because the code is not safe without:
    - no event gives the bridge an address of its own: that can fault at once
      ([set_mac_of_learned_station_faults] of FdbProps) and leaves an entry
      without a port, on which the data path can fault ([own_source_faults] of
      BrFaults); entries are made for ports that exist;
    - a message of the daemon has its full length, is a registration of a known
      kind, a purge of this bridge or a decision for this bridge if it is any of
      these, and requests name devices and ports that exist ([message_ok],
      [event_ok]);
    - the IP, IGMP and MLD headers of a frame lie within it, and there is room
      in front of it for an Ethernet header;
    - netfilter hooks give a verdict that netfilter knows, do not ask to be
      called again and leave device, reference count and headers of the buffer
      alone, those for local input only let pass or drop, devices are not
      stacked in a cycle, and the IGMP rate limit is at most 500
      ([net_ok], [input_ok]);
    - a device that is removed has no others stacked on it
      ([removed_port_stays_in_groups]);
    - at most 255 ports. *)
Theorem life_is_safe x y e : sound x -> life x y -> admissible e y ->
  sound y /\ ((exists z, life_step e y = Ok z /\ sound z) \/ (life_tcn e (snd y) /\ life_step e y = Fault NullDeref)).
Proof. intros Hx Hl He. pose proof (life_sound x y Hx Hl) as Hy. split; [done|by apply life_step_spec]. Qed.

End Invariant.

(** ** Example *)

(** The bridge of BrExample with one more device, for a fourth port; [refs] is
    the number of devices stacked on the device of port 2. *)
Definition shop_devs (refs : Z) : list net_device :=
  [mk_dev IFF_BRIDGE_PORT 1500 None 0 1 (Some 0%nat) false false;
   mk_dev IFF_BRIDGE_PORT 1500 None refs 1 (Some 1%nat) false false;
   mk_dev IFF_BRIDGE_PORT 1500 None 0 1 (Some 2%nat) false true;
   mk_dev 0 1500 None 0 0 None false false;
   mk_dev 0 1400 None 0 1 None false false].
Definition shop_net (refs : Z) : net := set_topology (shop_devs refs) id (fun _ => false) quiet_net.
Definition shop_base (d : nat) : Z * Z := (0, 1).
Definition shop (refs : Z) : ifs :=
  mk_ifs (shop_net refs) demo_bridge (fun d => held shop_base d (is_port (shop_net refs) d)) 3.

Definition shop_info : dev_info :=
  mk_dev_info false ARPHRD_ETHER 6 [0; 0; 0; 0; 0; 9] false true true [101; 116; 104; 52; 0] (Some 100).
Definition no_error : add_env := mk_add_env true true 0 0 0 0 0.

Definition value {A} (d : A) (m : res A) : A := match m with Ok a => a | Fault _ => d end.
Definition is_Ok {A} (m : res A) : bool := match m with Ok _ => true | Fault _ => false end.

Lemma value_Ok {A} (d : A) m : is_Ok m = true -> m = Ok (value d m).
Proof. by destruct m. Qed.

Lemma shop_net_ok refs : net_ok (shop_net refs) 3.
Proof.
  split; cbn.
  - intros k. constructor.
  - intros [|[|[|[|[|d]]]]] x n; cbn; intros [= <-]; discriminate.
  - unfold id. lia.
  - intros [|[|[|[|[|d]]]]] x p; cbn; intros [= <-]; cbn; intros [= <-]; lia.
  - lia.
Qed.

Lemma shop_ok refs : ifs_ok shop_base 0 [1; 2; 3] (shop refs).
Proof.
  split; cbn [if_net if_world if_links if_live shop]; [apply demo_small| |apply shop_net_ok| | |done|done].
  - destruct demo_bridge_ok as [[[Ht Hs Hp] Hd Hh Hgr] _ _ [Hn Hk]].
    split; [split; [split; [exact Ht|exact Hs|exact Hp]|exact Hd|exact Hh|exact Hgr]|apply groups_empty|apply groups_empty|].
    split; [exact Hn|]. intros i Hi. destruct (Hk i Hi) as (b & E & [? ? Hlt ? ?]). exists b. split; [done|].
    split; [done..| |done|done]. cbn in *. lia.
  - split; cbn.
    + intros [|[|[|p]]] Hp; cbn; try (by eexists); lia.
    + intros [|[|[|[|[|d]]]]] x q; cbn; intros [= <-]; cbn; intros [= <-]; done.
    + intros x [= <-]. done.
  - destruct demo_input_ok as [? ? ? ?]. by split.
Qed.

Definition shop_life (refs : Z) : mcpd * ifs := (demo_mcpd, shop refs).

Lemma shop_sound refs : sound shop_base 0 (shop_life refs).
Proof. split; [done|]. apply (shop_ok refs). Qed.

(** The state after the fourth device has become a port. *)
Definition shop_grown : mcpd * ifs := value (shop_life 0) (life_step (AddPort no_error shop_info 4) (shop_life 0)).

Lemma shop_add_ok refs : add_ok shop_info 4 (shop refs).
Proof. split; cbn; [lia|done|]. split; [done|]. by repeat constructor. Qed.

Lemma shop_grows : life (shop_life 0) shop_grown.
Proof.
  eapply life_on; [apply life_here| |apply value_Ok; by vm_compute].
  split; [apply shop_add_ok|by vm_compute].
Qed.

(** The fourth port goes again; before that the bridge has its MTU. *)
Lemma life_is_safe_witness :
  (sound shop_base 0 shop_grown /\
   ((exists z, life_step (DelPort 4) shop_grown = Ok z /\ sound shop_base 0 z) \/
    (life_tcn (DelPort 4) (snd shop_grown) /\ life_step (DelPort 4) shop_grown = Fault NullDeref))) /\
  nos_of (snd shop_grown) = [4; 1; 2; 3] /\ map mtu (devs (if_net (snd shop_grown))) = [1500; 1500; 1500; 1400; 1400] /\
  nos_of (snd (value shop_grown (life_step (DelPort 4) shop_grown))) = [1; 2; 3].
Proof.
  split; [|split; [by vm_compute|split; by vm_compute]].
  apply (life_is_safe shop_base 0 (shop_life 0) shop_grown (DelPort 4) (shop_sound 0) shop_grows).
  split; [|by vm_compute]. assert (H : length (devs (if_net (snd shop_grown))) = 5%nat) by (by vm_compute). rewrite H. lia.
Defined.


Lemma shop_leaves : all_leaves 3 (shop_net 0).
Proof. intros [|[|[|p]]] Hp; try done. lia. Qed.

Lemma bridge_delete_gives_back_witness :
  (exists s', br_dev_delete (shop 0) = Ok s' /\ gone shop_base 0 s') /\
  map (if_links (value (shop 0) (br_dev_delete (shop 0)))) (seq 0 5) = replicate 5 (mk_links 0 1 false false false).
Proof.
  split; [|by vm_compute]. apply (bridge_delete_gives_back shop_base 0 [1; 2; 3] (shop 0) (shop_ok 0)). exact shop_leaves.
Defined.

Lemma shop_fits : mtus_fit 3 (shop_net 0).
Proof. intros [|[|[|p]]] Hp; [exists 1500; split; [done|lia]..|lia]. Qed.

(** The fourth device, as a port, lowers the MTU of the bridge; the MTU of a port
    that has not changed leaves it. *)
Lemma bridge_mtu_is_least_witness :
  (exists s', br_add_if no_error shop_info 4 (shop 0) = Ok (0, s') /\
    (mtu_least 4 (if_net s') /\ mtus_same (shop_net 0) (if_net s')) /\ map mtu (devs (if_net s')) = [1500; 1500; 1500; 1400; 1400]) /\
  (exists s', br_device_event NETDEV_CHANGEMTU 0 shop_info 1 (shop 0) = Ok (NOTIFY_DONE, s') /\
    mtu_least 3 (if_net s') /\ mtus_same (shop_net 0) (if_net s')).
Proof.
  destruct (bridge_mtu_is_least shop_base 0 [1; 2; 3] (shop 0) (shop_ok 0) shop_fits) as [Hadd Hevent]. split.
  - assert (Hr : match br_add_if no_error shop_info 4 (shop 0) with
      | Ok (r, s') => r = 0 /\ map mtu (devs (if_net s')) = [1500; 1500; 1500; 1400; 1400] | Fault _ => False end) by (by vm_compute).
    specialize (Hadd no_error shop_info 4%nat). destruct (br_add_if no_error shop_info 4 (shop 0)) as [[r s']|]; [|done].
    destruct Hr as [-> Hr]. exists s'. split; [done|]. split; [|done].
    apply (Hadd s' 1400 (shop_add_ok 0)); [by vm_compute|done|lia|done].
  - apply Hevent; [|done]. split; [cbn; lia|split; [done|by repeat constructor]|done].
Defined.

(** ** Where the code breaks the contract *)

(** A host on port 2 joins the group of [demo_data]. *)
Definition shop_join : mc_request := Join 3 MCPD_IF_TYPE_BRIDGED 1 demo_group demo_group 100 SNOOP_EX_ADD 0 0 0 (-1) 0.
Definition shop_member : mcpd * ifs :=
  value (shop_life 1) (life_step (System demo_env (Event (Request shop_join))) (shop_life 1)).

(** The memberships of a table are those of its chains taken together. *)
Lemma member_concat (g : list (list mc_fdb_entry)) k x : mem_chain (concat g) k x -> member g k x.
Proof.
  intros (e & He & H). apply list_elem_of_In, in_concat in He as (l & Hl & He). apply list_elem_of_In, list_elem_of_lookup in Hl as [h Hl].
  exists h, l. split; [done|]. exists e. by rewrite list_elem_of_In.
Qed.

Lemma shop_joins : life (shop_life 1) shop_member.
Proof.
  eapply life_on; [apply life_here| |apply value_Ok; by vm_compute]. split; [exact demo_env_named|]. split; cbn; lia.
Qed.

Lemma shop_member_ok : ifs_ok shop_base 0 [1; 2; 3] (snd shop_member).
Proof.
  destruct (life_sound shop_base 0 _ _ (shop_sound 1) shop_joins) as [_ H].
  assert (E : nos_of (snd shop_member) = [1; 2; 3]) by (by vm_compute). by rewrite E in H.
Qed.

(** The membership, which a port of BrExample with a device stacked on it has. *)
Definition shop_membership : Z * Z * Z * Z * nat * nat := (demo_group, demo_group, 0, MCAST_EXCLUDE, 3%nat, 1%nat).

Lemma removed_port_stays_in_groups_witness :
  (exists s' e, del_nbp 1 (snd shop_member) = Ok s' /\ e ∈ concat (mc_hash (if_world s')) /\ mk_rep 100 261000 ∈ rep_list e /\
    mc_key (set_mc_dst 1 e) = shop_membership /\ ports (br (stp_now s')) !! mc_dst e = None) /\
  is_Ok (del_nbp 1 (snd shop_member)) = true.
Proof.
  split; [|by vm_compute].
  apply (removed_port_stays_in_groups shop_base 0 [1; 2; 3] (snd shop_member) 1 shop_membership (mk_rep 100 261000) shop_member_ok).
  - cbn. lia.
  - assert (E : port_dev (if_net (snd shop_member)) = id) by (by vm_compute).
    split; [by vm_compute|]. split; [done|]. rewrite E. cbn. unfold id. lia.
  - assert (E : concat (mc_hash (if_world (snd shop_member))) = [mk_mc 1 demo_group demo_group [mk_rep 100 261000] 0 MCAST_EXCLUDE 0
      MCPD_IF_TYPE_BRIDGED true 0 (-1) 0 3]) by (by vm_compute).
    apply member_concat. rewrite E. eexists. split; [by apply list_elem_of_singleton|]. split; [done|]. by apply list_elem_of_singleton.
Defined.

(** On the bridge of the example [br_del_if] succeeds, and the next packet for
    the group makes the data path follow the entry to the port that is gone. *)
Theorem removed_port_is_used :
  life (shop_life 1) shop_member /\
  exists s' e, br_del_if 1 (snd shop_member) = Ok (0, s') /\
    e ∈ concat (mc_hash (if_world s')) /\ ports (br (stp_now s')) !! mc_dst e = None /\
    step (if_net s') (Frame demo_data) (if_world s') = Fault NullDeref.
Proof.
  split; [exact shop_joins|].
  set (r := value (0, snd shop_member) (br_del_if 1 (snd shop_member))).
  assert (E : br_del_if 1 (snd shop_member) = Ok (0, snd r)).
  { rewrite (value_Ok (0, snd shop_member) (br_del_if 1 (snd shop_member))) by (by vm_compute). fold r.
    assert (H : fst r = 0) by (by vm_compute). rewrite <- H. by destruct r. }
  assert (He : concat (mc_hash (if_world (snd r))) = [mk_mc 2 demo_group demo_group [mk_rep 100 261000] 0 MCAST_EXCLUDE 0 MCPD_IF_TYPE_BRIDGED
    true 0 (-1) 0 3]) by (by vm_compute).
  eexists (snd r), _. split; [exact E|]. rewrite He. split; [apply list_elem_of_singleton; reflexivity|]. split; by vm_compute.
Qed.

(** The bridge of the example after it has been given an address. *)
Definition own_address : list Z := [2; 0; 0; 0; 0; 7].
Definition shop_owned : ifs :=
  match br_set_mac_address (fenv (shop_net 0)) (tbl demo_bridge) own_address with
  | Ok (_, t) => set_if_world (set_tbl t demo_bridge) (shop 0)
  | Fault _ => shop 0
  end.

(** The entry of the bridge's own address has no port, so that the removal of
    the ports does not find it, and [br_dev_delete] does not look for it: it is
    still allocated when the bridge is gone.  This is the entry that [ifs_ok],
    and with it [bridge_delete_gives_back], rules out. *)
Theorem own_address_outlives_bridge : exists s',
  br_dev_delete shop_owned = Ok s' /\ ports (br (stp_now s')) = [] /\
  map (fun e => (f_addr e, dst e)) (entries (tbl (if_world s'))) = [(own_address, None)].
Proof.
  exists (value shop_owned (br_dev_delete shop_owned)). split; [apply value_Ok; by vm_compute|]. split; by vm_compute.
Qed.

(** [del_nbp] takes the flag of a port off its device before the receive
    handler, and [br_add_if] registers the handler before it sets the flag.  In
    between the device is as here. *)
Definition unflagged (d : nat) (N : net) : net :=
  set_topology (alter (fun x => set_priv_flags (Z.land (priv_flags x) (Z.lnot IFF_BRIDGE_PORT)) x) d (devs N))
    (port_dev N) (BR_HAIRPIN_MODE N) N.

(** A frame that another processor receives from the device at that moment
    makes [br_handle_frame] follow the null pointer that [br_port_get_rcu]
    returns for a device without the flag. *)
Theorem frame_during_removal_faults :
  is_Ok (step (shop_net 0) (Frame demo_data) demo_bridge) = true /\
  step (unflagged 0 (shop_net 0)) (Frame demo_data) demo_bridge = Fault NullDeref.
Proof. split; by vm_compute. Qed.
