(* ===== verification/BrRate.v ===== *)
(** The IGMP rate limit of the bridge: how many packets pass in a stretch of
    time. *)

From S2P Require Import Prelude Str Stp Fdb Bridge BrInput.

(** The bucket, the time of the last packet that passed and the time left
    over. *)
Definition rate_state : Type := Z * Z * Z.

(** The packets that arrive at the times [ts]: how many pass, and the state
    after them. *)
Fixpoint rate_run (limit : Z) (ts : list Z) (st : rate_state) : res (Z * rate_state) :=
  match ts with
  | [] => Ok (0, st)
  | cur :: ts =>
      let '(bucket, last, rem) := st in
      '(pass, st) ← rate_step limit cur bucket last rem;
      '(n, st) ← rate_run limit ts st;
      Ok ((if pass : bool then n + 1 else n), st)
  end.

(** What one token is worth, in microseconds, and the size of the bucket. *)
Definition us_per_packet (limit : Z) : Z := 1000000 / limit.
Definition burst (limit : Z) : Z := let b := Z.shiftr limit 2 in if b =? 0 then 1 else b.

(** The bucket does not overflow, and less than a token's time is left over. *)
Definition rate_ok (limit : Z) (st : rate_state) : Prop :=
  let '(bucket, last, rem) := st in
  0 <= bucket <= burst limit /\ 0 <= rem < us_per_packet limit.

(** The credit of a state, in microseconds. *)
Definition credit (limit : Z) (st : rate_state) : Z :=
  let '(bucket, last, rem) := st in bucket * us_per_packet limit + rem.

Section Rate.
Context (limit : Z) (Hlimit : 1 <= limit <= 500).
Abbreviation us := (us_per_packet limit).

Lemma us_range : 2000 <= us <= 1000000.
Proof.
  unfold us_per_packet. split; [apply Z.div_le_lower_bound; lia|]. apply Z.div_le_upper_bound; lia.
Qed.

Lemma burst_range : 1 <= burst limit <= 125 /\ burst limit * us <= 1000000.
Proof.
  unfold burst. rewrite Z.shiftr_div_pow2 by lia. change (2 ^ 2) with 4.
  pose proof us_range. pose proof (Z.div_mod limit 4 ltac:(lia)). pose proof (Z.mod_pos_bound limit 4 ltac:(lia)).
  destruct (Z.eqb_spec (limit / 4) 0); [lia|]. split; [lia|].
  assert (us * limit <= 1000000).
  { unfold us_per_packet. rewrite Z.mul_comm. apply Z.mul_div_le. lia. }
  nia.
Qed.

Lemma ktime_us kt : 0 <= kt < 2 ^ 31 * 10 ^ 9 -> ktime_to_us kt = kt / 1000.
Proof.
  intros H. unfold ktime_to_us. rewrite s32_small.
  2: { unfold is_s32. split; [|apply Z.div_lt_upper_bound; lia].
       assert (0 <= kt / 10 ^ 9) by (apply Z.div_pos; lia). lia. }
  rewrite (Z.div_mod kt (10 ^ 9)) at 3 by lia.
  replace (10 ^ 9 * (kt / 10 ^ 9) + kt mod 10 ^ 9) with (kt mod 10 ^ 9 + kt / 10 ^ 9 * 10 ^ 6 * 1000) by lia.
  rewrite Z.div_add by lia. lia.
Qed.

(** A packet that passes uses up a token; the credit grows by the time since
    the last packet at most.  One that does not changes nothing, and has come
    too early. *)
Lemma rate_step_spec cur bucket last rem : rate_ok limit (bucket, last, rem) ->
  0 <= cur - last < 2 ^ 31 * 10 ^ 9 ->
  exists pass st, rate_step limit cur bucket last rem = Ok (pass, st) /\ rate_ok limit st /\
    if pass : bool then snd (fst st) = cur /\
      us + credit limit st <= credit limit (bucket, last, rem) + (cur - last) / 1000
    else st = (bucket, last, rem) /\ (cur - last) / 1000 + rem < us.
Proof.
  intros [Hb Hr] Ht. pose proof us_range as Hus. pose proof burst_range as [HB HBus].
  unfold rate_step. fold us. fold (burst limit). rewrite ktime_us by done.
  set (e := (cur - last) / 1000). assert (He : 0 <= e < 2 ^ 52).
  { unfold e. split; [apply Z.div_pos; lia|]. apply Z.div_lt_upper_bound; lia. }
  rewrite (u64_small (e + rem)) by (unfold is_u64; lia).
  destruct (Z.ltb_spec 1000000 (e + rem)) as [Hbig|Hsmall].
  - cbn [mbind res_bind]. rewrite Z.ltb_irrefl. rewrite (proj2 (Z.eqb_neq _ 0)) by lia.
    eexists true, _. split; [done|]. unfold rate_ok, credit. cbn [fst snd]. nia.
  - rewrite (proj2 (Z.eqb_neq us 0)) by lia. rewrite (u32_small (e + rem)) by (unfold is_u32; lia).
    pose proof (Z.div_mod (e + rem) us ltac:(lia)) as Hdm.
    pose proof (Z.mod_pos_bound (e + rem) us ltac:(lia)) as Hmod.
    assert (Hq : 0 <= (e + rem) / us <= 500).
    { split; [apply Z.div_pos; lia|]. apply Z.div_le_upper_bound; lia. }
    set (q := (e + rem) / us) in *. cbn [mbind res_bind].
    rewrite (u32_small (bucket + q)) by (unfold is_u32; lia).
    rewrite (u32_small (q * us)) by (unfold is_u32; nia).
    rewrite (u32_small (e + rem - q * us)) by (unfold is_u32; nia).
    unfold nonzero. destruct (Z.eqb_spec q 0) as [Hq0|Hq0]; cbn [negb].
    + rewrite Hq0, Z.add_0_r. destruct (Z.ltb_spec (burst limit) bucket); [lia|].
      destruct (Z.eqb_spec bucket 0) as [->|]; eexists _, _; (split; [done|]).
      { split; [done|]. split; [done|]. fold e. lia. }
      unfold rate_ok, credit. cbn [fst snd]. nia.
    + destruct (Z.ltb_spec (burst limit) (bucket + q)) as [Hov|Hov].
      * rewrite (proj2 (Z.eqb_neq _ 0)) by lia. eexists true, _. split; [done|].
        unfold rate_ok, credit. cbn [fst snd]. nia.
      * rewrite (proj2 (Z.eqb_neq _ 0)) by lia. eexists true, _. split; [done|].
        unfold rate_ok, credit. cbn [fst snd]. nia.
Qed.

(** The times [ts] come in order after [t], each at least [gap] after the one
    before. *)
Fixpoint spaced (gap t : Z) (ts : list Z) : Prop :=
  match ts with [] => True | t' :: ts => t + gap <= t' /\ spaced gap t' ts end.

Lemma spaced_earlier gap t t' ts : t <= t' -> spaced gap t' ts -> spaced gap t ts.
Proof. destruct ts; cbn; [done|]. intros ? [? ?]. split; [lia|done]. Qed.

Lemma spaced_weaken gap t ts : 0 <= gap -> spaced gap t ts -> spaced 0 t ts.
Proof. intros Hg. revert t. induction ts as [|t' ts IH]; intros t; cbn; [done|]. intros [? ?]. split; [lia|auto]. Qed.

Lemma rate_run_spec stop ts bucket last rem : rate_ok limit (bucket, last, rem) ->
  spaced 0 last ts -> Forall (fun t => t <= stop) ts -> last <= stop < last + 2 ^ 31 * 10 ^ 9 ->
  exists n st, rate_run limit ts (bucket, last, rem) = Ok (n, st) /\ rate_ok limit st /\
    n * us + credit limit st <= credit limit (bucket, last, rem) + (stop - last) / 1000 /\
    (spaced (1000 * us) last ts -> n = zlen ts).
Proof.
  pose proof us_range as Hus. revert bucket last rem.
  induction ts as [|cur ts IH]; intros bucket last rem Hok Hsp Hstop Ht; cbn [rate_run].
  { exists 0, (bucket, last, rem). pose proof (Z.div_pos (stop - last) 1000 ltac:(lia) ltac:(lia)).
    split; [done|]. split; [done|]. split; [lia|done]. }
  cbn in Hsp. destruct Hsp as [Hle Hsp]. apply Forall_cons in Hstop as [Hc Hstop].
  destruct (rate_step_spec cur bucket last rem Hok) as (pass & [[b1 l1] r1] & -> & Hok1 & Hstep); [lia|].
  cbn [mbind res_bind]. destruct pass; cbn [snd fst] in Hstep.
  - destruct Hstep as [-> Hcr]. destruct (IH b1 cur r1 Hok1 Hsp Hstop) as (n & st & -> & Hok' & Hn & Hall); [lia|].
    exists (n + 1), st. split; [done|]. split; [done|]. split.
    + assert ((cur - last) / 1000 + (stop - cur) / 1000 <= (stop - last) / 1000); [|lia].
      pose proof (Z.mul_div_le (cur - last) 1000 ltac:(lia)).
      apply Z.div_le_lower_bound; [lia|]. pose proof (Z.mul_div_le (stop - cur) 1000 ltac:(lia)). lia.
    + intros [_ Hs]. rewrite (Hall Hs). unfold zlen. cbn [length]. lia.
  - destruct Hstep as [[= -> -> ->] Hearly].
    destruct (IH bucket last rem Hok (spaced_earlier 0 last cur ts ltac:(lia) Hsp) Hstop) as (n & st & -> & Hok' & Hn & _); [lia|].
    exists n, st. split; [done|]. split; [done|]. split; [done|]. intros [Hgap _]. exfalso.
    assert (us <= (cur - last) / 1000) by (apply Z.div_le_lower_bound; lia). destruct Hok. lia.
Qed.

End Rate.

(** C31: with a limit of [limit] packets a second, the IGMP packets that pass
    up to the time [stop] (in nanoseconds) are bounded by the tokens there
    were and the time that has passed: each takes 1000000 / limit
    microseconds of it.  The bucket never holds more than a quarter of a
    second's packets (one at least).  And the limit costs nothing to senders that keep
    to it: packets spaced by that time all pass.  The code divides by zero for
    no such limit, and none of its 32-bit computations wraps. *)
Theorem igmp_rate_bound limit stop ts bucket last rem : 1 <= limit <= 500 ->
  rate_ok limit (bucket, last, rem) ->
  spaced 0 last ts -> Forall (fun t => t <= stop) ts -> last <= stop < last + 2 ^ 31 * 10 ^ 9 ->
  exists n st, rate_run limit ts (bucket, last, rem) = Ok (n, st) /\ rate_ok limit st /\
    n * us_per_packet limit <= credit limit (bucket, last, rem) + (stop - last) / 1000 /\
    (spaced (1000 * us_per_packet limit) last ts -> n = zlen ts).
Proof.
  intros Hl Hok Hsp Hst Ht. destruct (rate_run_spec limit Hl stop ts bucket last rem Hok Hsp Hst Ht)
    as (n & [[b l] r] & E & [Hb Hr] & Hn & Hall). exists n, (b, l, r). split; [done|]. split; [done|]. split; [|done].
  assert (0 <= credit limit (b, l, r)); [|lia]. unfold credit. pose proof (us_range limit Hl). nia.
Qed.

(** A hundred packets a second: of five packets at once on a bucket of two,
    two pass. *)
Lemma igmp_rate_bound_witness : exists n st,
  rate_run 100 [5; 5; 5; 5; 5] (2, 0, 0) = Ok (n, st) /\ rate_ok 100 st /\
    n * us_per_packet 100 <= credit 100 (2, 0, 0) + (5 - 0) / 1000 /\
    (spaced (1000 * us_per_packet 100) 0 [5; 5; 5; 5; 5] -> n = zlen [5; 5; 5; 5; 5]).
Proof.
  apply (igmp_rate_bound 100 5 [5; 5; 5; 5; 5] 2 0 0).
  - lia.
  - unfold rate_ok. vm_compute. intuition discriminate.
  - cbn. lia.
  - repeat constructor; lia.
  - lia.
Defined.
