(* ===== verification/BrFaults.v ===== *)
(** Behaviour of the data path that its own comments and data structures do
    not intend: buffers used after they are gone, a null pointer, a buffer
    lost, members of a group left out, and a filter that does not filter. *)

From S2P Require Import Prelude Str Stp StpSelect Fdb FdbTable FdbRefine FdbProps.
From S2P Require Import Bridge BrExample BrWp BrForward BrForwardProps Groups BrIgmp BrInput BrInputProps.

(** ** Frames for the host that netfilter keeps *)

(** C40: when a netfilter hook takes a frame to one of the reserved group
    addresses that is for the host only, by the verdict NF_STOLEN, the hook
    machinery returns 0 and [br_handle_frame] takes that for leave to
    continue: it tells its caller to go on with a buffer it no longer has. *)
Theorem stolen_frame_is_passed_on N i s s' h p w : heap w !! i = Some s -> users s = 1 -> users s' = 1 ->
  pkt_type s <> PACKET_LOOPBACK -> is_valid_ether_addr (h_source s) = true ->
  is_link_local (h_dest s) = true -> byte_of (h_dest s) 5 <> 0 -> byte_of (h_dest s) 5 <> 1 ->
  Z.land (group_fwd_mask N) (Z.shiftl 1 (byte_of (h_dest s) 5)) = 0 ->
  br_port_get_rcu N (dev s) = Ok (Some p) ->
  nf_hooks N NF_BR_LOCAL_IN = [h] -> h (Some (dev s)) None s = (NF_STOLEN, s') ->
  exists w', br_handle_frame N i w = Ok (RX_HANDLER_PASS i, w') /\ heap w' !! i = None.
Proof.
  intros E Hu Hu' Hl Hv Hll H0 H1 Hm Hp Hh Hst. eexists. split.
  - unfold br_handle_frame, mbind, M_bind, skb_at at 1. rewrite E. apply Z.eqb_neq in Hl, H0, H1. rewrite Hl, Hv.
    cbn [negb]. rewrite (sole_share_check N i s w E Hu).
    unfold handle_unshared, mbind, M_bind, skb_at at 1. rewrite E. unfold lift at 1. rewrite Hp.
    cbn [mbind res_bind]. rewrite Hll, H1, H0, Hm. cbn [andb].
    unfold NF_HOOK. rewrite Hh. cbn -[set_heap heap lookup insert delete]. unfold mbind, M_bind, skb_at at 1. rewrite E, Hst.
    cbn -[set_heap heap lookup insert delete]. unfold emit_ev, modify, skb_put, skb_at, mbind, M_bind.
    cbn -[lookup insert delete]. rewrite lookup_insert_eq, Hu'. cbn -[lookup insert delete]. reflexivity.
  - cbn. apply lookup_delete_eq.
Qed.

(** A hook that steals every frame, and an LLDP frame. *)
Definition thief : nf_hookfn := fun _ _ s => (NF_STOLEN, s).
Definition lldp : list Z := [0x01; 0x80; 0xc2; 0; 0; 0x0e].

Lemma stolen_frame_is_passed_on_witness : exists w',
  br_handle_frame (demo_net (fun k => if k =? NF_BR_LOCAL_IN then [thief] else []) false) 0
    (demo_world (demo_fdb FORWARDING) (demo_frame lldp 0x88cc []) free_slots) =
    Ok (RX_HANDLER_PASS 0, w') /\ heap w' !! 0%nat = None.
Proof.
  apply (stolen_frame_is_passed_on (demo_net (fun k => if k =? NF_BR_LOCAL_IN then [thief] else []) false) 0
    (demo_frame lldp 0x88cc []) (demo_frame lldp 0x88cc []) thief 0
    (demo_world (demo_fdb FORWARDING) (demo_frame lldp 0x88cc []) free_slots)); try reflexivity; discriminate.
Defined.

(** ** Frames with the bridge's own address *)

(** The bridge has an address of its own, [station], which is not that of a
    port, and has heard [other_mac] on port 2. *)
Definition own_events : list (fdb_env * fdb_event) :=
  [(fdb_env0, SetMacAddress station); (fdb_env0, Op (Learn 1 other_mac))].

Definition own_fdb : fdb := Eval vm_compute in
  match fdb_run own_events (demo_fdb FORWARDING) with Ok t => t | Fault _ => demo_fdb FORWARDING end.

(** A frame to a known station whose source address is the bridge's own,
    set by br_set_mac_address, makes the code of the wireless chaining table
    follow the null pointer in the [dst] of that address's entry. *)
Theorem own_source_faults :
  fdb_run own_events (demo_fdb FORWARDING) = Ok own_fdb /\
  br_handle_frame (demo_net (fun _ => []) false) 0
    (demo_world own_fdb (demo_frame other_mac 0x0800 []) free_slots) = Fault NullDeref.
Proof. split; vm_compute; reflexivity. Qed.

(** ** Packets that wait for the daemon *)

(** An IGMP report, and the table of delayed packets with no slot free. *)
Definition mc_mac : list Z := [0x01; 0; 0x5e; 1; 1; 1].
Definition igmp_report : list Z :=
  [0x45; 0; 0; 28; 0; 0; 0; 0; 1; 2; 0; 0; 192; 168; 1; 2; 239; 1; 1; 1; 0x16; 0; 0; 0; 239; 1; 1; 1].
Definition full_slots : list (option nat * Z) := replicate 64 (Some 7%nat, 5000).

(** When all 64 slots are taken, a report that is to wait for the daemon's
    answer is lost: [br_handle_frame] has consumed it, but it is not freed, and nothing refers to it. *)
Theorem delayed_packet_leaks :
  let w := demo_world (demo_fdb FORWARDING) (demo_frame mc_mac 0x0800 igmp_report) full_slots in
  match br_handle_frame (demo_net (fun _ => []) true) 0 w with
  | Ok (r, w') => r = RX_HANDLER_CONSUMED /\ is_Some (heap w' !! 0%nat) /\
      igmp_delayed_skb w' = full_slots /\ Forall (fun e => exists a b c d, e = ToMcpd a b c d) (trace w')
  | Fault _ => False
  end.
Proof.
  vm_compute. split; [done|]. split; [by eexists|]. split; [done|]. constructor; [|constructor]. by repeat eexists.
Qed.

(** ** Members left out *)

(** A datagram to port 5004 of the group 239.1.1.1, two members on the ports
    2 and 1, of which the second excludes the UDP port 5004. *)
Definition udp_packet : list Z :=
  [0x45; 0; 0; 86; 0; 0; 0; 0; 1; 17; 0; 0; 192; 168; 1; 2; 239; 1; 1; 1; 0x10; 0; 0x13; 0x8c].
Definition grp_239_1_1_1 : Z := 239 + 256 + 2 ^ 16 + 2 ^ 24.
Definition member (p : nat) (exclude : Z) : mc_fdb_entry :=
  mk_mc p grp_239_1_1_1 grp_239_1_1_1 [mk_rep 1 100000] 0 MCAST_EXCLUDE 0 MCPD_IF_TYPE_BRIDGED true 0 exclude 0 3.

Definition starving : world :=
  let N := demo_net (fun _ => []) false in
  let w := demo_world (demo_fdb FORWARDING) (demo_frame mc_mac 0x0800 udp_packet) free_slots in
  set_heap (<[1%nat := demo_frame mc_mac 0x0800 udp_packet]> (heap w)) (set_next_skb 2
    (set_mc_hash (<[br_igmp_mc_fdb_hash N grp_239_1_1_1 :=
      [member 1 (-1); member 0 0x8c13]]> (mc_hash w)) w)).

(** The first packet reaches the member on port 2 and is then dropped as the
    other member excludes its port; the mark that port 2 has had it stays, so
    that of the second packet, the same again, nobody gets a copy. *)
Theorem excluded_port_starves_members :
  let N := demo_net (fun _ => []) false in
  match br_handle_frame N 0 starving with
  | Ok (_, w1) => map dev (xmitted (trace w1)) = [1%nat] /\ dirty w1 = [false; true; false] /\
      match br_handle_frame N 1 w1 with
      | Ok (_, w2) => map dev (xmitted (trace w2)) = [1%nat] /\ dirty w2 = [false; true; false]
      | Fault _ => False
      end
  | Fault _ => False
  end.
Proof. vm_compute. done. Qed.

(** ** DHCP servers *)

(** The group of all DHCP servers, FF05::1:3, passes the filter that is to
    exclude it: the address it is compared with is written as words in host
    order. *)
Theorem dhcp_servers_are_snooped :
  br_mld_control_filter None [0xff; 5; 0; 0; 0; 0; 0; 0; 0; 0; 0; 0; 0; 1; 0; 3] = true /\
  all_dhcp_srvr_addr = [0; 0; 5; 0xff; 0; 0; 0; 0; 0; 0; 0; 0; 3; 0; 1; 0].
Proof. done. Qed.
